(* ===== verification/_CoqProject ===== *)
-Q . S2P
Prelude.v
PyFloat.v
PyStruct.v
X25.v
Sha.v
MavMessage.v
MavCatalog1.v
MavCatalog2.v
MavCatalog3.v
MavCatalog4.v
MavMap.v
MavEnum.v
MavEnums1.v
MavEnums2.v
MavTables.v
MavCodec.v
MavLink.v
MavFrame.v
MavSpec.v
MavMethods.v
MavMethods1.v
MavMethods2.v
MavMethods3.v
MavMethods4.v
MavSend.v
MavStream.v
MavParser.v
MavProtocol.v
Proxy.v
Tuntap.v
PyDict.v
PyNum.v
PyText.v
MavShow.v
AntSel.v
Framing.v
Telemetry.v
TunDevice.v
Process.v
StatsLoop.v
LogQueue.v
BinLog.v
Config.v
Runtime.v
Services.v
Cluster.v
Server.v
Master.v
Boot.v
ClusterRun.v
Stations.v
LatencyTest.v
Launch.v
Cli.v
Screen.v
StatsApi.v
StatsStream.v
Version.v
