(* ===== verification/Prelude.v ===== *)
(** * A verification library for wfb-ng

    wfb-ng carries video, telemetry and IP traffic over a raw radio link.  The
    data plane is in C++ (wfb_tx, wfb_rx); the Python package src/wfb_ng starts
    those processes, reads their statistics, chooses the card to transmit with,
    and moves MAVLink frames and IP packets between local sockets and the radio
    side.  This library models that package and proves what it promises.

    ** The parts and how they interact

    A MAVLink byte stream from the flight controller is cut into frames by the
    generator [mavlink_parser_gen] (mavlink_protocol.py) and handed, frame by
    frame, to an aggregating proxy (proxy.py), which batches frames for the
    radio; the proxy at the other side splits the batches again.  On the way
    frames are shown to the arm/disarm hook, the TCP bridge and the logger
    (mavlink_protocol.py).  The IP tunnel (tuntap.py) frames packets with a
    length and uses the same aggregating proxy.  wfb_rx and wfb_tx report on
    their standard output; the line protocols (protocols.py) parse those
    reports and tell the antenna selector (protocols.py), which aggregates them
    once per interval, switches the transmitting card through callbacks, and
    reports the link state as a MAVLink RADIO_STATUS message that the proxy
    injects, built by the generated MAVLink library (mavlink.py).

    All of this is put together at start-up: server.py reads the configuration
    (config_parser.py), resolves profiles into services (services.py) or, in
    cluster mode, into a port plan and a start script per node (cluster.py), sets
    up the cards and starts every service, which opens its sockets, starts its
    processes and registers with the selector.  Reports and MAVLink frames are
    logged through a queue and a writer thread (__init__.py) and read back by
    log_parser.py; cli.py shows the statistics; latency_test.py measures a link.
    version.py and setup.py give a build its version.

    ** Files

    Foundations.
    - Prelude: exceptions, the result monad [result] and the state-and-exception
      monad [SE] (the state survives a raise, as the attributes of a Python
      object do), byte strings with Python's slicing, tactics, hint databases.
    - PyFloat, PyStruct, Sha: binary32/64 conversion, the [struct] module,
      SHA-1 and SHA-256 of [hashlib].
    - PyDict, PyNum, PyText: dictionaries in insertion order, mixed
      integer/float arithmetic with correct rounding, [str] methods, UTF-8 and
      [int()], with the C printers they read back.

    The MAVLink library (src/wfb_ng/mavlink.py).
    - X25: class [x25crc].  MavMessage, MavCatalog1 to MavCatalog4, MavMap: the
      221 message classes, their attributes and constructors, and [mavlink_map].
    - MavEnum, MavEnums1, MavEnums2, MavTables: the constants, the dictionary
      [enums], the message ids, and their agreement with the classes.
    - MavLink: [MAVLink_header], [MAVLink_message.pack] and [sign_packet],
      [MAVLink.send], [decode], [check_signature], [parse_char],
      [parse_buffer].  MavCodec and MavFrame hold the lemmas on payloads and
      frames.
    - MavSpec and MavStream: the properties of that object.  MavShow: the methods
      of a message that only look at it ([__eq__], [format_attr], [to_dict],
      [__str__]).
    - MavMethods: what a call of a method [x_encode] or [x_send] does, with
      positional, keyword and default arguments; MavMethods1 to MavMethods4: the
      442 methods; MavSend: their properties.

    The program.
    - MavParser: [mavlink_parser_gen], [parse_mavlink_l2_v1/v2],
      [unpack_mavlink].  MavProtocol: modules PackedFrames (frames of the library
      through the splitter), Arm ([MavlinkARMProtocol]), Tcp
      ([MavlinkTCPProtocol] and its factory), Logger.
    - Proxy: [ProxyProtocol], [UDPProxyProtocol], [MavlinkUDPProxyProtocol],
      [MavlinkSerialProxyProtocol], [send_rssi].
    - Tuntap: [TUNTAPProtocol] and the write queue of [TUNTAPTransport];
      TunDevice: that transport from opening to closing the device.
    - AntSel: [AntStatsAndSelector].
    - Telemetry: [RXAntennaProtocol], [TXAntennaProtocol], process ends, and the
      printers of src/src/rx.cpp and src/src/tx.cpp.
    - Framing: Twisted's framing protocols as the abstract cutting of a stream
      into messages and a buffer that does it; lines and 32-bit length strings.
    - Process: [RXProtocol], [TXProtocol], [SSHClientProtocol], [DbgProtocol].
    - StatsLoop: one selector with all its receivers and the periodic call that
      drives it, from [__init__] to [_cleanup], as a step relation.
    - StatsApi: [StatisticsJSONProtocol.send_stats], [RFTempMeter], [SDNotifier],
      [notify_ready].  StatsStream: the sessions of both statistics protocols and
      the connection of the client.
    - LogQueue: [ErrorSafeLogFile] as producers and a writer thread interleaved at
      their atomic steps.  BinLog: [BinLogger] and the reader log_parser.py.
    - Config: [parse_config], [Settings], [Section], [search_attr].
    - Runtime: log levels, colours, [_log_msg], [call_and_check_rc],
      [abort_on_crash] and the exit status.
    - Services: address patterns, [hash_link_domain], [parse_services], the
      command lines, and [init_udp_direct_tx/rx], [init_mavlink], [init_tunnel],
      [init_udp_proxy], each as the actions it asks of the reactor until it waits
      for the ports of wfb_tx, from then on, and at its end.
    - Cluster: [parse_cluster_services] and [gen_cluster_scripts] with the template.
    - Server: [gen_bind_yaml], [init_wlans], [init], the ssh command line.
    - Master: the sections of conf/master.cfg.  Boot: Server and Services put
      together, the call of each service with the attributes of its profile, and
      how main() of src/src/tx.cpp and src/src/rx.cpp read the command lines.
      ClusterRun: how the shell and these programs read the script of a node.
      Stations: all services of a station, and two stations.
    - LatencyTest, Cli: latency_test.py and cli.py.  Screen: curses as a grid of
      cells, [rectangle] and [init_windows] of cli.py on it.
    - Launch: [__find_caller], [ConsoleObserver], the configuration files, and the
      [main] functions of server.py, cli.py and latency_test.py around a reactor
      given by what it reports.
    - Version: version.py on the Gregorian calendar, and setup.py: the generated
      site.cfg and the arguments of [setup].

    Every object is a record of its attributes and every method a function in
    [SE], with the guards, early returns and order of effects of the source.
    What leaves the program (datagrams, callback calls, messages to sessions) is
    appended to a list in the record.

    ** What is proved

    - Codec: every message class of the table is filed under its id and its
      constructor, packing and tables are consistent with its field declarations; pack and decode are inverse for well-typed arguments, signed
      or not, and the received object equals the sent one under the program's own
      comparison unless a field is a NaN; two changed adjacent payload bytes are detected; a keyed receiver
      accepts only valid signatures; signed sessions are accepted throughout;
      [decode] raises only [MAVError]; [parse_buffer] terminates and splits a
      buffer of frames into its messages; what any send method writes, however
      its arguments are passed, is decoded to those arguments; enumerations, ids
      and classes agree and every enumerated value fits the field it annotates.
    - Splitter: the generator refines the abstract splitter [split_frames] on
      its unconsumed bytes, independently of chunking and of its buffer garbage
      collection, with bounded memory.
    - Users: the arm hook runs one command at a time and its announcements
      alternate; broadcasts reach every open TCP session; the log records every
      frame with the values its sender passed.
    - Proxy and tunnel: aggregation loses, duplicates, reorders and cuts
      nothing; queued messages always have a timer; both relays are end-to-end
      correct, the tunnel from device to device and across lost connections; its
      descriptor is closed exactly once; exactly when keepalives go to which antennas.
    - Selection and telemetry: aggregation computes packet-weighted means; the
      card chosen is the strongest of the eligible ones under the hysteresis,
      never a receive-only card, and all callbacks agree; what wfb_rx prints is
      what the aggregator holds, however its pipe cuts the bytes; one interval
      end to end gives one link report, and what the terminal client draws is
      what the receiver printed, however TCP cuts the stream in between; with
      healthy receivers the periodic statistics never stop.
    - Start-up: the last definition of a setting wins; a profile resolves to its
      services with the documented precedence; [getopt] reads back exactly the
      configured options from the command lines; the cluster's ports never meet and
      the script of a node starts exactly the forwarders and injectors the plan
      and the streams ask for; receive-only cards are recognised by the
      numbers the radio programs use; every service is started once; a service's
      traffic goes to the card selected now; its end stops its ports; which
      events end the server with which exit status, and after which of them its
      ports are closed.
    - Stations: the radio programs of every started service read from their
      command lines the channel, key and cards its profile promises; a sender and
      a receiver on two stations share a channel exactly when stream and link id
      agree; a whole station works on exactly the channels of its link ids and
      streams, so that two stations hear each other exactly when these correspond;
      the shipped profiles do so in pairs and not across pairs.
    - Logging: under every interleaving and file error the log queue repeats and
      reorders nothing, and the file lacks at most one handled item for each writer
      step in which the file could not be opened or written; the queue drains; the
      flight log is correct from the packed frame to the printed row.
    - Tools: the rate search ends with two consecutive rates; when the last
      service has statistics the client's windows tile the terminal, although their
      heights are rounded floats, and on the screen no frame or title disturbs
      another window; the terminal is always
      restored; a log line names its module and function; versions grow with the
      commits of a branch.
    - Some theorems state behaviour that is probably not meant: one empty
      message stops an aggregating queue, a signed frame can be replayed, a
      forged timestamp locks a stream, a malformed number in telemetry escapes
      as [ValueError], the TCP bridge's port is never stopped, an error of
      [close()] blocks the shutdown of the log for ever, the latency test never
      exits when an argument is no number, one telemetry line with a missing value
      ends the statistics of a profile for good.

    Interfaces are type classes: [Timers] (Proxy) is the reactor's delayed
    calls, implemented by [list_timers]; [StatSink] (Telemetry) is what the
    line protocols need of the selector, implemented by [sel_sink];
    [Framing] (Framing) is how a protocol cuts a stream into messages, with the
    instances [line_framing] and [string_framing], and [Receiver] is a protocol
    that delivers them, implemented by [buffer].

    ** Bounds and fuel

    Loops that are not structural take fuel and raise when it runs out; the
    fuel given is one more than the bytes to read ([parse_rest], [parse_loop],
    [unpack_batch], [read_log]), and each iteration consumes at least one byte, which the
    totality theorems use: none of them is conditional on enough fuel.  The
    abstract splitter is defined by well-founded recursion (Equations).  The rate
    search has fuel [log2 max_rate + 2], which its theorem shows to be enough.
    Integers are kept at the width the code gives them: sequence numbers modulo
    256, checksums 16 bits, struct fields by their codes, timestamps 48 bits.
    The selection theorems assume packet counts below 2^53, where Python's
    float arithmetic on the threshold is exact enough; the theorem on the running
    statistics asks this of all receivers together.  [atoi] of the radio programs
    is defined inside the range of a C int, where the streams and link ids are;
    the theorem on node scripts asks for ports below 2^16 and for card names and
    server addresses without characters the shell gives a meaning to.  The log file
    is what its file object was given: an operation may fail at any step, and a
    failing write may leave any part of its entry.

    ** Parameters

    What the reactor, transports, peers, hooks, callbacks and sessions raise,
    the clock and the identity of timers are variables of the sections that use
    them; their assumptions are hypotheses of the theorems and have instances.
    So are third-party functions: [configparser], [ast.literal_eval], [str()] and
    [%] of values other than strings and integers, [msgpack], [json.dumps],
    [inet_aton], the outcome of external commands, and what curses accepts.

    ** Not modelled

    argparse (its results and the constraints it enforces are a record), the
    reactor (its reports are a list of events) and signal delivery, terminal
    control beyond the cells of the screen, characters that take more than one
    cell, the inside of msgpack, json, yaml and jinja (the template of cluster.py
    is modelled as the text it produces), spawning processes, Twisted's log
    publisher, what setuptools and stdeb do, the
    wording of the log lines of latency_test.py, and the descriptions, parameter
    texts and units in the tables of mavlink.py, which nothing computes with. *)
From Stdlib Require Import ZArith Lia Bool.
From stdpp Require Import base list numbers gmap strings.

#[export] Set Default Goal Selector "!".
#[export] Set Warnings "-clear-no-such-hyp".
#[global] Open Scope Z_scope.

(** ** Exceptions and results *)

(** The Python exceptions the modelled code raises or lets through. *)
Inductive exn :=
| ValueError
| KeyError
| IndexError
| TypeError
| AttributeError
| StructError
| OverflowError
| ZeroDivisionError
| AssertionError
| UnicodeDecodeError
| UnboundLocalError
| BadTelemetry
| MAVError (msg : string)
| AlreadyCalled
| AlreadyCancelled
| OSError (errno : Z)
| ConfigError
| Exception_ (msg : string).

#[export] Instance exn_eq_dec : EqDecision exn.
Proof. solve_decision. Defined.

(** A fallible pure computation. *)
Inductive result (A : Type) :=
| Ok (a : A)
| Raise (e : exn).
Arguments Ok {A} _.
Arguments Raise {A} _.

#[export] Instance result_ret : MRet result := fun A a => Ok a.
#[export] Instance result_bind : MBind result := fun A B f r =>
  match r with Ok a => f a | Raise e => Raise e end.

#[export] Instance result_fmap : FMap result := fun A B f r =>
  match r with Ok a => Ok (f a) | Raise e => Raise e end.

#[export] Instance result_eq_dec {A} `{EqDecision A} : EqDecision (result A).
Proof. solve_decision. Defined.

Definition is_ok {A} (r : result A) : bool :=
  match r with Ok _ => true | Raise _ => false end.

Definition of_option {A} (e : exn) (o : option A) : result A :=
  match o with Some a => Ok a | None => Raise e end.

(** A method of a stateful object: the state is kept when it raises, as a
    Python object keeps the attributes assigned before the exception. *)
Definition SE (S A : Type) : Type := S -> S * result A.

#[export] Instance SE_ret {S} : MRet (SE S) := fun A a s => (s, Ok a).
#[export] Instance SE_bind {S} : MBind (SE S) := fun A B f m s =>
  match m s with
  | (s', Ok a) => f a s'
  | (s', Raise e) => (s', Raise e)
  end.

Definition se_raise {S A} (e : exn) : SE S A := fun s => (s, Raise e).
Definition se_get {S} : SE S S := fun s => (s, Ok s).
Definition se_put {S} (s' : S) : SE S unit := fun _ => (s', Ok tt).
Definition se_modify {S} (f : S -> S) : SE S unit := fun s => (f s, Ok tt).
Definition se_lift {S A} (r : result A) : SE S A := fun s => (s, r).

(** [for x in l: body x], stopping at the first exception. *)
Fixpoint se_iter {S A} (f : A -> SE S unit) (l : list A) : SE S unit :=
  match l with
  | [] => mret tt
  | x :: l' => f x ≫= fun _ => se_iter f l'
  end.

Fixpoint result_map {A B} (f : A -> result B) (l : list A) : result (list B) :=
  match l with
  | [] => Ok []
  | x :: l' => f x ≫= fun y => result_map f l' ≫= fun ys => Ok (y :: ys)
  end.

(** ** Byte strings *)

Abbreviation bytes := (list Z).

Definition is_byte (b : Z) : bool := (0 <=? b) && (b <? 256).
Definition bytes_ok (l : bytes) : Prop := Forall (fun b => 0 <= b < 256) l.

(** [len(l)] as a Python integer. *)
Definition blen {A} (l : list A) : Z := Z.of_nat (length l).

(** Normalisation of a slice bound: negative bounds count from the end. *)
Definition py_norm (n i : Z) : Z :=
  if i <? 0 then Z.max 0 (i + n) else Z.min i n.

(** [l[i:j]]. *)
Definition py_slice {A} (l : list A) (i j : Z) : list A :=
  let n := blen l in
  let i' := py_norm n i in
  let j' := py_norm n j in
  take (Z.to_nat (j' - i')) (drop (Z.to_nat i') l).

(** [l[i:]]. *)
Definition py_from {A} (l : list A) (i : Z) : list A :=
  drop (Z.to_nat (py_norm (blen l) i)) l.

(** [l[i]]. *)
Definition py_index {A} (l : list A) (i : Z) : result A :=
  let i' := if i <? 0 then i + blen l else i in
  if i' <? 0 then Raise IndexError
  else of_option IndexError (l !! Z.to_nat i').

(** [b.rstrip(b'\0')]. *)
Fixpoint rstrip0 (l : bytes) : bytes :=
  match l with
  | [] => []
  | b :: l' => match rstrip0 l' with
               | [] => if b =? 0 then [] else [b]
               | r => b :: r
               end
  end.

Definition zeros (n : nat) : bytes := replicate n 0.

(** [list.remove]; [None] is its [ValueError]. *)
Fixpoint list_remove (i : nat) (l : list nat) : option (list nat) :=
  match l with
  | [] => None
  | x :: l' => if decide (i = x) then Some l' else cons x <$> list_remove i l'
  end.

(** ** Tactics *)

(** Case analysis on the matches of the goal and of the hypotheses. *)
Ltac cases :=
  repeat match goal with
  | H : context [match ?x with _ => _ end] |- _ => destruct x eqn:?; simplify_eq
  | |- context [match ?x with _ => _ end] => destruct x eqn:?; simplify_eq
  end.

(** Turn the boolean tests of the context into propositions. *)
Ltac to_prop :=
  repeat match goal with
  | H : (_ && _) = true |- _ => apply andb_true_iff in H as [? ?]
  | H : (_ && _) = false |- _ => apply andb_false_iff in H
  | H : (_ || _) = true |- _ => apply orb_true_iff in H
  | H : (_ || _) = false |- _ => apply orb_false_iff in H as [? ?]
  | H : negb _ = true |- _ => apply negb_true_iff in H
  | H : negb _ = false |- _ => apply negb_false_iff in H
  | H : (_ =? _) = true |- _ => apply Z.eqb_eq in H
  | H : (_ =? _) = false |- _ => apply Z.eqb_neq in H
  | H : (_ <? _) = true |- _ => apply Z.ltb_lt in H
  | H : (_ <? _) = false |- _ => apply Z.ltb_ge in H
  | H : (_ <=? _) = true |- _ => apply Z.leb_le in H
  | H : (_ <=? _) = false |- _ => apply Z.leb_gt in H
  end.

(** Step through a bind whose first computation is known to succeed. *)
Ltac inv_ok :=
  repeat match goal with
  | H : Ok _ = Ok _ |- _ => injection H as H
  | H : Raise _ = Ok _ |- _ => discriminate H
  | H : Ok _ = Raise _ |- _ => discriminate H
  | H : mbind _ ?m = Ok _ |- _ =>
      let E := fresh "E" in destruct m eqn:E; cbn in H; [|discriminate H]
  end.

Create HintDb bytes.
Create Rewrite HintDb bytes.
Create HintDb py.

(** ** Lemmas on lengths, slices and stripping *)

Lemma blen_nil {A} : blen (@nil A) = 0.
Proof. done. Qed.

Lemma blen_cons {A} (x : A) l : blen (x :: l) = 1 + blen l.
Proof. unfold blen. cbn [length]. lia. Qed.

Lemma blen_app {A} (l1 l2 : list A) : blen (l1 ++ l2) = blen l1 + blen l2.
Proof. unfold blen. rewrite length_app. lia. Qed.

Lemma blen_nonneg {A} (l : list A) : 0 <= blen l.
Proof. unfold blen. lia. Qed.

Lemma blen_take {A} (l : list A) n :
  0 <= n <= blen l -> blen (take (Z.to_nat n) l) = n.
Proof. unfold blen. rewrite length_take. lia. Qed.

Lemma blen_drop {A} (l : list A) n :
  0 <= n <= blen l -> blen (drop (Z.to_nat n) l) = blen l - n.
Proof. unfold blen. rewrite length_drop. lia. Qed.

Lemma take_blen_app {A} (l r : list A) : take (Z.to_nat (blen l)) (l ++ r) = l.
Proof. unfold blen. rewrite Nat2Z.id. apply take_app_length. Qed.

Lemma drop_blen_app {A} (l r : list A) : drop (Z.to_nat (blen l)) (l ++ r) = r.
Proof. unfold blen. rewrite Nat2Z.id. apply drop_app_length. Qed.

#[export] Hint Rewrite @blen_nil @blen_cons @blen_app : bytes.

(** Any slice whose bounds normalise to the borders of a middle part is it. *)
Lemma py_slice_mid {A} (a m c : list A) i j :
  py_norm (blen a + blen m + blen c) i = blen a ->
  py_norm (blen a + blen m + blen c) j = blen a + blen m ->
  py_slice (a ++ m ++ c) i j = m.
Proof.
  intros Hi Hj. unfold py_slice. autorewrite with bytes.
  rewrite Z.add_assoc, Hi, Hj. unfold blen.
  replace (Z.to_nat (Z.of_nat (length a))) with (length a) by lia.
  rewrite drop_app_length.
  replace (Z.to_nat _) with (length m) by lia.
  apply take_app_length.
Qed.

Lemma py_from_app {A} (a c : list A) i :
  py_norm (blen a + blen c) i = blen a -> py_from (a ++ c) i = c.
Proof.
  intros Hi. unfold py_from. autorewrite with bytes. rewrite Hi. unfold blen.
  replace (Z.to_nat (Z.of_nat (length a))) with (length a) by lia.
  apply drop_app_length.
Qed.

Lemma py_index_app {A} (a : list A) x c i :
  (i = blen a \/ i = - blen c - 1) -> py_index (a ++ x :: c) i = Ok x.
Proof.
  intros Hi. unfold py_index. autorewrite with bytes.
  pose proof (blen_nonneg a). pose proof (blen_nonneg c).
  assert (Hn : (if i <? 0 then i + (blen a + (1 + blen c)) else i) = blen a).
  { destruct Hi as [-> | ->]; destruct (Z.ltb_spec (blen a) 0);
      try destruct (Z.ltb_spec (- blen c - 1) 0); lia. }
  rewrite Hn. destruct (Z.ltb_spec (blen a) 0); [lia |]. unfold blen.
  replace (Z.to_nat (Z.of_nat (length a))) with (length a) by lia.
  rewrite list_lookup_middle; done.
Qed.

(** A slice that starts where a prefix ends. *)
Lemma slice_nth {A} (a r : list A) n :
  0 <= n <= blen r -> py_slice (a ++ r) (blen a) (blen a + n) = take (Z.to_nat n) r.
Proof.
  intros Hn. rewrite <- (take_drop (Z.to_nat n) r) at 1.
  assert (Hl : blen (take (Z.to_nat n) r) = n) by (by apply blen_take).
  assert (Hd : blen (drop (Z.to_nat n) r) = blen r - n) by (by apply blen_drop).
  pose proof (blen_nonneg a).
  apply py_slice_mid; rewrite Hl, Hd; unfold py_norm;
    repeat match goal with |- context [?a <? ?b] => destruct (Z.ltb_spec a b) end; lia.
Qed.

Lemma bytes_ok_app l1 l2 : bytes_ok (l1 ++ l2) <-> bytes_ok l1 /\ bytes_ok l2.
Proof. apply Forall_app. Qed.

Lemma bytes_ok_cons b l : bytes_ok (b :: l) <-> 0 <= b < 256 /\ bytes_ok l.
Proof. unfold bytes_ok. by rewrite Forall_cons. Qed.

Lemma bytes_ok_zeros n : bytes_ok (zeros n).
Proof. apply Forall_replicate. lia. Qed.

Lemma bytes_ok_take n l : bytes_ok l -> bytes_ok (take n l).
Proof. apply Forall_take. Qed.

Lemma bytes_ok_drop n l : bytes_ok l -> bytes_ok (drop n l).
Proof. apply Forall_drop. Qed.

#[export] Hint Resolve bytes_ok_zeros bytes_ok_take bytes_ok_drop : bytes.

Lemma is_byte_spec b : is_byte b = true <-> 0 <= b < 256.
Proof. unfold is_byte. rewrite andb_true_iff, Z.leb_le, Z.ltb_lt. done. Qed.

Lemma bytes_ok_forallb l : forallb is_byte l = true -> bytes_ok l.
Proof.
  rewrite forallb_forall. intros H. apply List.Forall_forall.
  intros x Hx. by apply is_byte_spec, H.
Qed.

(** [rstrip] removes exactly a run of trailing zeros. *)
Lemma rstrip0_zeros l : exists k, l = rstrip0 l ++ zeros k.
Proof.
  induction l as [|b l [k IH]]; [by exists 0%nat |].
  cbn. destruct (rstrip0 l) as [|r rs].
  - destruct (Z.eqb_spec b 0) as [-> | _].
    + exists (S k). cbn. by rewrite IH at 1.
    + exists k. cbn. by rewrite IH at 1.
  - exists k. cbn. by rewrite IH at 1.
Qed.

Lemma rstrip0_replicate k : rstrip0 (zeros k) = [].
Proof. induction k as [|k IH]; [done |]. cbn. unfold zeros in IH. by rewrite IH. Qed.

Lemma rstrip0_app_zeros l k : rstrip0 (l ++ zeros k) = rstrip0 l.
Proof.
  induction l as [|b l IH]; cbn; [apply rstrip0_replicate |]. by rewrite IH.
Qed.

Lemma rstrip0_idemp l : rstrip0 (rstrip0 l) = rstrip0 l.
Proof.
  destruct (rstrip0_zeros l) as [k Hk]. rewrite Hk at 2.
  by rewrite rstrip0_app_zeros.
Qed.

(** ** Lemmas on the result monad *)

Lemma result_map_ok {A B} (f : A -> result B) l ys :
  result_map f l = Ok ys <-> Forall2 (fun x y => f x = Ok y) l ys.
Proof.
  revert ys. induction l as [|x l IH]; intros ys; cbn.
  - split; [intros [= <-]; constructor | by inversion 1].
  - split.
    + intros H. inv_ok. subst ys. constructor; [done |]. by apply IH.
    + inversion 1 as [|? y ? ys' Hy Hys]; subst. rewrite Hy. cbn.
      apply IH in Hys. by rewrite Hys.
Qed.

Lemma bind_ok {A B} (m : result A) (f : A -> result B) b :
  (m ≫= f) = Ok b -> exists a, m = Ok a /\ f a = Ok b.
Proof. destruct m as [a|e]; cbn; [eauto | done]. Qed.

Lemma list_remove_spec i l :
  NoDup l -> i ∈ l -> exists l', list_remove i l = Some l' /\ NoDup l' /\ forall j, j ∈ l' <-> j ∈ l /\ j <> i.
Proof.
  induction 1 as [|x l Hx Hnd IH]; intros Hi; [set_solver |]. cbn.
  destruct (decide (i = x)) as [-> |Hne].
  - exists l. split_and!; try done. intros j. set_solver.
  - destruct IH as (l' & Hr & Hnd' & Hl'); [set_solver |]. exists (x :: l'). rewrite Hr. split; [done |].
    split; [constructor; [rewrite Hl'; tauto | done] |]. intros j. set_solver.
Qed.
