(* ===== verification/PyFloat.v ===== *)
(** Python floats as the [struct] module sees them.  A float is the Z of its
    IEEE-754 binary64 bit pattern; the ['f'] code rounds it to binary32
    (nearest, ties to even) on packing and widens it exactly on unpacking. *)
From Stdlib Require Import ZArith Lia Bool.
From stdpp Require Import base list numbers.
From S2P Require Import Prelude.

Module PyFloat.

(** Round-to-nearest-even of [m / 2^k]. *)
Definition rne (m k : Z) : Z :=
  if k <=? 0 then m * 2 ^ (- k)
  else
    let q := m / 2 ^ k in
    let r := m mod 2 ^ k in
    let h := 2 ^ (k - 1) in
    if (h <? r) || ((r =? h) && Z.odd q) then q + 1 else q.

(** The magnitude bits of [m * 2^e] ([m > 0]) in the binary format with [p]
    significand bits and least exponent [emin]; the value [r * 2^q] with
    [r < 2^p] has magnitude bits [(q - emin) * 2^(p-1) + r] whether it is
    subnormal, normal, or carried into the next binade by the rounding. *)
Definition encode_mag (p emin m e : Z) : Z :=
  let q := Z.max (Z.log2 m + e - (p - 1)) emin in
  (q - emin) * 2 ^ (p - 1) + rne m (q - e).

(** The (significand, exponent) pair of finite magnitude bits. *)
Definition decode_mag (p emin b : Z) : Z * Z :=
  let ef := b / 2 ^ (p - 1) in
  let mf := b mod 2 ^ (p - 1) in
  if ef =? 0 then (mf, emin) else (mf + 2 ^ (p - 1), ef - 1 + emin).

Definition inf32 : Z := 255 * 2 ^ 23.
Definition inf64 : Z := 2047 * 2 ^ 52.

(** [(float) x] as [struct.pack('f', x)] computes it: a finite double that
    rounds to an infinity raises [OverflowError]; a NaN keeps the top bits of
    its payload and becomes quiet. *)
Definition f64_to_f32 (x : Z) : result Z :=
  let s := x / 2 ^ 63 in
  let a := x mod 2 ^ 63 in
  let sgn := s * 2 ^ 31 in
  if a =? 0 then Ok sgn
  else if a =? inf64 then Ok (sgn + inf32)
  else if inf64 <? a then
    Ok (sgn + inf32 + Z.lor (2 ^ 22) ((a - inf64) / 2 ^ 29))
  else
    let '(m, e) := decode_mag 53 (-1074) a in
    let b := encode_mag 24 (-149) m e in
    if b <? inf32 then Ok (sgn + b) else Raise OverflowError.

(** [struct.unpack('f', _)]: widening is exact, a NaN becomes quiet. *)
Definition f32_to_f64 (x : Z) : Z :=
  let s := x / 2 ^ 31 in
  let a := x mod 2 ^ 31 in
  let sgn := s * 2 ^ 63 in
  if a =? 0 then sgn
  else if a =? inf32 then sgn + inf64
  else if inf32 <? a then
    sgn + inf64 + Z.lor (2 ^ 51) ((a - inf32) * 2 ^ 29)
  else
    let '(m, e) := decode_mag 24 (-149) a in
    sgn + encode_mag 53 (-1074) m e.

(** [float(n)] for a Python integer. *)
Definition f64_of_Z (n : Z) : result Z :=
  if n =? 0 then Ok 0
  else
    let b := encode_mag 53 (-1074) (Z.abs n) 0 in
    if b <? inf64 then Ok ((if n <? 0 then 2 ^ 63 else 0) + b)
    else Raise OverflowError.

(** A double that is exactly a single and not a NaN. *)
Definition f32_exact (x : Z) : Prop :=
  exists y, 0 <= y < 2 ^ 32 /\ y mod 2 ^ 31 <= inf32 /\ x = f32_to_f64 y.

(** ** Rounding lemmas *)

Lemma rne_exact m k : 0 <= k -> rne (m * 2 ^ k) k = m.
Proof.
  intros Hk. unfold rne. destruct (Z.leb_spec k 0).
  - replace k with 0 by lia. lia.
  - assert (0 < 2 ^ k) by lia. assert (0 < 2 ^ (k - 1)) by (apply Z.pow_pos_nonneg; lia).
    rewrite Z.div_mul, Z.mod_mul by lia.
    destruct (Z.ltb_spec (2 ^ (k - 1)) 0); [lia |].
    destruct (Z.eqb_spec 0 (2 ^ (k - 1))); [lia | done].
Qed.

Lemma rne_neg m k : k <= 0 -> rne m k = m * 2 ^ (- k).
Proof. intros. unfold rne. destruct (Z.leb_spec k 0); [done | lia]. Qed.

(** The rounded value is a nearest integer. *)
Lemma rne_near m k : 0 < k -> 2 * Z.abs (m - rne m k * 2 ^ k) <= 2 ^ k.
Proof.
  intros Hk. unfold rne. destruct (Z.leb_spec k 0); [lia |].
  assert (Hp : 2 ^ k = 2 * 2 ^ (k - 1)) by (rewrite <- Z.pow_succ_r by lia; f_equal; lia).
  assert (0 < 2 ^ (k - 1)) by (apply Z.pow_pos_nonneg; lia).
  pose proof (Z.div_mod m (2 ^ k) ltac:(lia)) as Hd. pose proof (Z.mod_pos_bound m (2 ^ k) ltac:(lia)) as Hr.
  set (q := m / 2 ^ k) in *. set (r := m mod 2 ^ k) in *.
  destruct (Z.ltb_spec (2 ^ (k - 1)) r), (Z.eqb_spec r (2 ^ (k - 1))); cbn; try destruct (Z.odd q); nia.
Qed.

Lemma rne_nonneg m k : 0 <= m -> 0 <= rne m k.
Proof.
  intros. unfold rne. destruct (Z.leb_spec k 0).
  - assert (0 < 2 ^ (- k)) by (apply Z.pow_pos_nonneg; lia). nia.
  - assert (0 <= m / 2 ^ k) by (apply Z.div_pos; lia).
    case_match; lia.
Qed.

Lemma encode_mag_nonneg p emin m e : 1 <= p -> 0 < m -> 0 <= encode_mag p emin m e.
Proof.
  intros Hp Hm. unfold encode_mag.
  pose proof (rne_nonneg m (Z.max (Z.log2 m + e - (p - 1)) emin - e)).
  assert (0 < 2 ^ (p - 1)) by (apply Z.pow_pos_nonneg; lia). nia.
Qed.

(** A binary32 significand/exponent pair survives widening: what [decode_mag]
    reads from the widened magnitude is the same value, scaled. *)
Lemma decode_encode_64 m e :
  0 < m < 2 ^ 24 -> -149 <= e <= 104 ->
  exists k, 0 <= k /\ decode_mag 53 (-1074) (encode_mag 53 (-1074) m e) = (m * 2 ^ k, e - k)
            /\ 0 < encode_mag 53 (-1074) m e < inf64.
Proof.
  intros Hm He. unfold encode_mag.
  pose proof (Z.log2_spec m ltac:(lia)) as [Hl1 Hl2].
  assert (Hl : 0 <= Z.log2 m <= 23).
  { split; [apply Z.log2_nonneg |]. apply Z.lt_succ_r, Z.log2_lt_pow2; lia. }
  set (l := Z.log2 m) in *. set (k := 52 - l).
  exists k. split; [lia |].
  rewrite Z.max_l by lia.
  replace (l + e - (53 - 1) - e) with (- k) by lia.
  rewrite rne_neg by lia. replace (- - k) with k by lia.
  assert (Hk : 2 ^ 52 <= m * 2 ^ k < 2 ^ 53).
  { replace 52 with (l + k) at 1 by lia. replace 53 with (Z.succ l + k) by lia.
    rewrite !Z.pow_add_r by lia. assert (0 < 2 ^ k) by (apply Z.pow_pos_nonneg; lia). nia. }
  set (M := m * 2 ^ k) in *. unfold decode_mag, inf64.
  replace (53 - 1) with 52 by lia. set (B := (l + e - 52 - -1074) * 2 ^ 52 + M).
  replace (B / 2 ^ 52) with (l + e - 52 - -1074 + 1)
    by (apply Z.div_unique with (M - 2 ^ 52); lia).
  replace (B mod 2 ^ 52) with (M - 2 ^ 52)
    by (apply Z.mod_unique with (l + e - 52 - -1074 + 1); lia).
  destruct (Z.eqb_spec (l + e - 52 - -1074 + 1) 0); [lia |].
  split; [f_equal; lia | lia].
Qed.

Lemma encode_mag_scale m e k :
  0 < m -> 0 <= k -> m < 2 ^ 24 -> -149 <= e -> (2 ^ 23 <= m \/ e = -149) ->
  encode_mag 24 (-149) (m * 2 ^ k) (e - k) = (e + 149) * 2 ^ 23 + m.
Proof.
  intros Hm Hk Hm' He Hn. unfold encode_mag.
  rewrite Z.log2_mul_pow2 by lia.
  assert (Hq : Z.max (k + Z.log2 m + (e - k) - (24 - 1)) (-149) = e).
  { destruct Hn as [Hn | ->].
    - rewrite (Z.log2_unique m 23) by lia. lia.
    - assert (Z.log2 m < 24) by (apply Z.log2_lt_pow2; lia). lia. }
  rewrite Hq. replace (e - (e - k)) with k by lia. rewrite rne_exact by lia. lia.
Qed.

Lemma decode_mag_32 a :
  0 < a < inf32 ->
  let '(m, e) := decode_mag 24 (-149) a in
  0 < m < 2 ^ 24 /\ -149 <= e <= 104 /\ (2 ^ 23 <= m \/ e = -149) /\ (e + 149) * 2 ^ 23 + m = a.
Proof.
  unfold inf32, decode_mag. replace (24 - 1) with 23 by lia. intros Ha.
  pose proof (Z.div_mod a (2 ^ 23) ltac:(lia)).
  pose proof (Z.mod_pos_bound a (2 ^ 23) ltac:(lia)).
  assert (0 <= a / 2 ^ 23 < 255) by (split; [apply Z.div_pos; lia | apply Z.div_lt_upper_bound; lia]).
  destruct (Z.eqb_spec (a / 2 ^ 23) 0) as [E|E]; [rewrite E in * |]; lia.
Qed.

(** Narrowing undoes widening, on every binary32 that is not a NaN. *)
Lemma f64_to_f32_widen y :
  0 <= y < 2 ^ 32 -> y mod 2 ^ 31 <= inf32 -> f64_to_f32 (f32_to_f64 y) = Ok y.
Proof.
  intros Hy Hn. unfold f32_to_f64.
  pose proof (Z.div_mod y (2 ^ 31) ltac:(lia)) as Hd.
  pose proof (Z.mod_pos_bound y (2 ^ 31) ltac:(lia)) as Hb.
  assert (Hs : 0 <= y / 2 ^ 31 < 2) by (split; [apply Z.div_pos; lia | apply Z.div_lt_upper_bound; lia]).
  set (s := y / 2 ^ 31) in *. set (a := y mod 2 ^ 31) in *.
  assert (Hcut : forall b, 0 <= b < 2 ^ 63 ->
    (s * 2 ^ 63 + b) / 2 ^ 63 = s /\ (s * 2 ^ 63 + b) mod 2 ^ 63 = b).
  { intros b Hb'. split; symmetry;
      [apply Z.div_unique with b | apply Z.mod_unique with s]; lia. }
  unfold f64_to_f32, inf64, inf32 in *.
  destruct (Z.eqb_spec a 0) as [Ea|Ea].
  { destruct (Hcut 0) as [H1 H2]; [lia |]. rewrite Z.add_0_r in H1, H2. rewrite H1, H2.
    cbn [Z.eqb]. f_equal. lia. }
  destruct (Z.eqb_spec a (255 * 2 ^ 23)) as [Ei|Ei].
  { destruct (Hcut (2047 * 2 ^ 52)) as [-> ->]; [lia |]. cbn -[Z.mul Z.pow]. f_equal. lia. }
  destruct (Z.ltb_spec (255 * 2 ^ 23) a); [lia |].
  pose proof (decode_mag_32 a ltac:(unfold inf32; lia)) as Hdec.
  destruct (decode_mag 24 (-149) a) as [m e]. destruct Hdec as (Hm & He & Hmn & Hsum).
  destruct (decode_encode_64 m e Hm He) as (k & Hk & Hdec & Hbnd).
  unfold inf64 in Hbnd. set (b := encode_mag 53 (-1074) m e) in *.
  destruct (Hcut b) as [-> ->]; [lia |].
  destruct (Z.eqb_spec b 0); [lia |]. destruct (Z.eqb_spec b (2047 * 2 ^ 52)); [lia |].
  destruct (Z.ltb_spec (2047 * 2 ^ 52) b); [lia |].
  rewrite Hdec, encode_mag_scale by lia. rewrite Hsum.
  destruct (Z.ltb_spec a (255 * 2 ^ 23)); [| lia]. f_equal. lia.
Qed.

Lemma f64_to_f32_range x y : 0 <= x < 2 ^ 64 -> f64_to_f32 x = Ok y -> 0 <= y < 2 ^ 32.
Proof.
  intros Hx. unfold f64_to_f32.
  assert (Hs : 0 <= x / 2 ^ 63 < 2) by (split; [apply Z.div_pos; lia | apply Z.div_lt_upper_bound; lia]).
  pose proof (Z.mod_pos_bound x (2 ^ 63) ltac:(lia)) as Ha.
  set (s := x / 2 ^ 63) in *. set (a := x mod 2 ^ 63) in *. unfold inf32, inf64.
  destruct (Z.eqb_spec a 0); [intros [= <-]; lia |].
  destruct (Z.eqb_spec a (2047 * 2 ^ 52)); [intros [= <-]; lia |].
  destruct (Z.ltb_spec (2047 * 2 ^ 52) a) as [Hn|Hn].
  - intros [= <-].
    assert (0 <= (a - 2047 * 2 ^ 52) / 2 ^ 29 < 2 ^ 23).
    { split; [apply Z.div_pos; lia | apply Z.div_lt_upper_bound; lia]. }
    assert (0 <= Z.lor (2 ^ 22) ((a - 2047 * 2 ^ 52) / 2 ^ 29) < 2 ^ 23); [| lia].
    split; [apply Z.lor_nonneg; lia |].
    apply Z.log2_lt_cancel. rewrite Z.log2_lor by lia. rewrite !Z.log2_pow2 by lia.
    apply Z.max_lub_lt; [lia |].
    destruct (Z.eq_dec ((a - 2047 * 2 ^ 52) / 2 ^ 29) 0) as [-> |]; [done |].
    apply Z.log2_lt_pow2; lia.
  - destruct (decode_mag 53 (-1074) a) as [m e] eqn:E.
    assert (0 < m).
    { unfold decode_mag in E. replace (53 - 1) with 52 in E by lia.
      pose proof (Z.div_mod a (2 ^ 52) ltac:(lia)).
      pose proof (Z.mod_pos_bound a (2 ^ 52) ltac:(lia)).
      destruct (Z.eqb_spec (a / 2 ^ 52) 0) as [E0|E0]; injection E as <- <-;
        [rewrite E0 in * |]; lia. }
    pose proof (encode_mag_nonneg 24 (-149) m e ltac:(lia) ltac:(lia)).
    destruct (Z.ltb_spec (encode_mag 24 (-149) m e) (255 * 2 ^ 23)); [intros [= <-]; lia | done].
Qed.

(** 1.5, 0.1 (rounded), the least subnormal single, and an overflow. *)
Example f32_samples :
  f64_to_f32 0x3FF8000000000000 = Ok 0x3FC00000 /\
  f64_to_f32 0x3FB999999999999A = Ok 0x3DCCCCCD /\
  f32_to_f64 0x3DCCCCCD = 0x3FB99999A0000000 /\
  f32_to_f64 1 = 0x36A0000000000000 /\
  f64_to_f32 0x7FEFFFFFFFFFFFFF = Raise OverflowError /\
  f64_of_Z 3 = Ok 0x4008000000000000.
Proof. vm_compute. done. Qed.

End PyFloat.
