(* ===== verification/PyStruct.v ===== *)
(** The part of Python's [struct] module the program uses: format strings,
    [pack], [unpack], [calcsize], for the codes B b H h I i Q q f d s c in
    little- and big-endian byte order, with their range errors. *)
From Stdlib Require Import ZArith Lia Bool Ascii.
From stdpp Require Import base list numbers strings.
From S2P Require Import Prelude.
From S2P Require Import PyFloat.

Module PyStruct.
Import PyFloat.

(** ** Fixed-width integers as bytes *)

Fixpoint le_encode (n : nat) (z : Z) : bytes :=
  match n with
  | O => []
  | S n' => z mod 256 :: le_encode n' (z / 256)
  end.

Fixpoint le_decode (l : bytes) : Z :=
  match l with
  | [] => 0
  | b :: l' => b + 256 * le_decode l'
  end.

Definition be_encode (n : nat) (z : Z) : bytes := reverse (le_encode n z).
Definition be_decode (l : bytes) : Z := le_decode (reverse l).

Inductive endian := Little | Big.

#[export] Instance endian_eq_dec : EqDecision endian.
Proof. solve_decision. Defined.

Definition encode (e : endian) (n : nat) (z : Z) : bytes :=
  match e with Little => le_encode n z | Big => be_encode n z end.

Definition decode (e : endian) (l : bytes) : Z :=
  match e with Little => le_decode l | Big => be_decode l end.

(** The two's complement reading of an [n]-byte unsigned integer. *)
Definition to_signed (n : nat) (u : Z) : Z :=
  let w := 8 * Z.of_nat n in
  if u <? 2 ^ (w - 1) then u else u - 2 ^ w.

(** ** Values and format codes *)

(** A Python value that [struct] packs: a float is its binary64 pattern. *)
Inductive pyval :=
| PInt (z : Z)
| PFloat (bits : Z)
| PBytes (b : bytes).

#[export] Instance pyval_eq_dec : EqDecision pyval.
Proof. solve_decision. Defined.

Inductive code :=
| CUint (n : nat)
| CSint (n : nat)
| Cf
| Cd
| Cs (n : nat)
| Cc.

#[export] Instance code_eq_dec : EqDecision code.
Proof. solve_decision. Defined.

Definition code_size (c : code) : nat :=
  match c with
  | CUint n | CSint n | Cs n => n
  | Cf => 4%nat
  | Cd => 8%nat
  | Cc => 1%nat
  end.

Definition calcsize (cs : list code) : nat := sum_list (code_size <$> cs).

(** [bytes.ljust(n, b'\0')[:n]], what ['%ds' % n] stores. *)
Definition pad_to (n : nat) (b : bytes) : bytes := take n (b ++ zeros n).

Definition pack_code (e : endian) (c : code) (v : pyval) : result bytes :=
  match c, v with
  | CUint n, PInt z =>
      if (0 <=? z) && (z <? 2 ^ (8 * Z.of_nat n)) then Ok (encode e n z) else Raise StructError
  | CSint n, PInt z =>
      let h := 2 ^ (8 * Z.of_nat n - 1) in
      if (- h <=? z) && (z <? h) then Ok (encode e n z) else Raise StructError
  | Cf, PFloat x => y ← f64_to_f32 x; Ok (encode e 4 y)
  | Cf, PInt z =>
      match f64_of_Z z with
      | Ok x => y ← f64_to_f32 x; Ok (encode e 4 y)
      | Raise _ => Raise StructError
      end
  | Cd, PFloat x => Ok (encode e 8 x)
  | Cd, PInt z =>
      match f64_of_Z z with
      | Ok x => Ok (encode e 8 x)
      | Raise _ => Raise StructError
      end
  | Cs n, PBytes b => Ok (pad_to n b)
  | Cc, PBytes [b] => Ok [b]
  | _, _ => Raise StructError
  end.

Definition unpack_code (e : endian) (c : code) (b : bytes) : pyval :=
  match c with
  | CUint _ => PInt (decode e b)
  | CSint n => PInt (to_signed n (decode e b))
  | Cf => PFloat (f32_to_f64 (decode e b))
  | Cd => PFloat (decode e b)
  | Cs _ | Cc => PBytes b
  end.

(** [Struct.pack] of the arguments [vs]: the number of arguments must match the format. *)
Fixpoint pack (e : endian) (cs : list code) (vs : list pyval) : result bytes :=
  match cs, vs with
  | [], [] => Ok []
  | c :: cs', v :: vs' =>
      b ← pack_code e c v; bs ← pack e cs' vs'; Ok (b ++ bs)
  | _, _ => Raise StructError
  end.

Fixpoint unpack_aux (e : endian) (cs : list code) (l : bytes) : list pyval :=
  match cs with
  | [] => []
  | c :: cs' =>
      unpack_code e c (take (code_size c) l) :: unpack_aux e cs' (drop (code_size c) l)
  end.

(** [Struct.unpack(buf)]: the buffer must have exactly [size] bytes. *)
Definition unpack (e : endian) (cs : list code) (l : bytes) : result (list pyval) :=
  if decide (length l = calcsize cs) then Ok (unpack_aux e cs l) else Raise StructError.

(** ** Format strings *)

Definition code_of_ascii (a : ascii) : option code :=
  match a with
  | "B" => Some (CUint 1) | "b" => Some (CSint 1)
  | "H" => Some (CUint 2) | "h" => Some (CSint 2)
  | "I" => Some (CUint 4) | "i" => Some (CSint 4)
  | "Q" => Some (CUint 8) | "q" => Some (CSint 8)
  | "f" => Some Cf | "d" => Some Cd
  | "c" => Some Cc
  | _ => None
  end%char.

Definition digit_of_ascii (a : ascii) : option nat :=
  let n := nat_of_ascii a in
  if decide (48 <= n <= 57)%nat then Some (n - 48)%nat else None.

(** The items after the byte-order mark: a decimal count repeats a code, and
    is the size of an ['s'] item. *)
Fixpoint parse_items (s : string) (count : option nat) : option (list code) :=
  match s with
  | EmptyString => match count with None => Some [] | Some _ => None end
  | String a s' =>
      match digit_of_ascii a with
      | Some d => parse_items s' (Some (default 0%nat count * 10 + d)%nat)
      | None =>
          rest ← parse_items s' None;
          if decide (a = "s"%char) then Some (Cs (default 1%nat count) :: rest)
          else c ← code_of_ascii a; Some (replicate (default 1%nat count) c ++ rest)
      end
  end.

Definition parse_format (s : string) : option (endian * list code) :=
  match s with
  | String "<" s' => (fun cs => (Little, cs)) <$> parse_items s' None
  | String "!" s' => (fun cs => (Big, cs)) <$> parse_items s' None
  | _ => (fun cs => (Little, cs)) <$> parse_items s None
  end%char.

(** The value a round trip through the wire gives back: strings are cut or
    padded to their width, floats are rounded to single precision. *)
Definition norm_code (c : code) (v : pyval) : pyval :=
  match c, v with
  | Cf, PFloat x => match f64_to_f32 x with Ok y => PFloat (f32_to_f64 y) | _ => v end
  | Cf, PInt z =>
      match f64_of_Z z with
      | Ok x => match f64_to_f32 x with Ok y => PFloat (f32_to_f64 y) | _ => v end
      | _ => v
      end
  | Cd, PInt z => match f64_of_Z z with Ok x => PFloat x | _ => v end
  | Cs n, PBytes b => PBytes (pad_to n b)
  | _, _ => v
  end.

(** Values of the machine types behind Python's floats and byte strings. *)
Definition val_ok (v : pyval) : Prop :=
  match v with
  | PInt _ => True
  | PFloat x => 0 <= x < 2 ^ 64
  | PBytes b => bytes_ok b
  end.

(** A value that the wire represents exactly. *)
Definition fits (c : code) (v : pyval) : Prop :=
  match c, v with
  | CUint n, PInt z => 0 <= z < 2 ^ (8 * Z.of_nat n)
  | CSint n, PInt z => - 2 ^ (8 * Z.of_nat n - 1) <= z < 2 ^ (8 * Z.of_nat n - 1)
  | Cf, PFloat x => f32_exact x
  | Cd, PFloat x => 0 <= x < 2 ^ 64
  | Cs n, PBytes b => length b = n /\ bytes_ok b
  | Cc, PBytes b => length b = 1%nat /\ bytes_ok b
  | _, _ => False
  end.

(** ** Integer encoding lemmas *)

Lemma length_le_encode n z : length (le_encode n z) = n.
Proof. revert z. induction n as [|n IH]; intros z; cbn; [done | by rewrite IH]. Qed.

Lemma length_encode e n z : length (encode e n z) = n.
Proof. destruct e; cbn; unfold be_encode; rewrite ?length_reverse; apply length_le_encode. Qed.

Lemma le_encode_ok n z : bytes_ok (le_encode n z).
Proof.
  revert z. induction n as [|n IH]; intros z; cbn; constructor; [| apply IH].
  apply Z.mod_pos_bound. lia.
Qed.

Lemma encode_ok e n z : bytes_ok (encode e n z).
Proof.
  destruct e; cbn; [apply le_encode_ok |].
  unfold be_encode, bytes_ok. apply Forall_reverse, le_encode_ok.
Qed.

Lemma pow8_S n : 2 ^ (8 * Z.of_nat (S n)) = 256 * 2 ^ (8 * Z.of_nat n).
Proof.
  replace (8 * Z.of_nat (S n)) with (8 + 8 * Z.of_nat n) by lia.
  rewrite Z.pow_add_r by lia. done.
Qed.

Lemma le_decode_encode n z : le_decode (le_encode n z) = z mod 2 ^ (8 * Z.of_nat n).
Proof.
  revert z. induction n as [|n IH]; intros z; cbn [le_encode le_decode].
  - change (2 ^ (8 * Z.of_nat 0)) with 1. by rewrite Z.mod_1_r.
  - rewrite IH, pow8_S.
    rewrite Z.rem_mul_r by lia. done.
Qed.

Lemma decode_encode e n z : decode e (encode e n z) = z mod 2 ^ (8 * Z.of_nat n).
Proof.
  destruct e; unfold decode, encode, be_decode, be_encode; rewrite ?reverse_involutive;
    apply le_decode_encode.
Qed.

Lemma le_decode_range l :
  bytes_ok l -> 0 <= le_decode l < 2 ^ (8 * Z.of_nat (length l)).
Proof.
  induction 1 as [|b l Hb Hl IH]; [cbn; lia |].
  cbn [le_decode length]. rewrite pow8_S. lia.
Qed.

Lemma le_encode_decode l : bytes_ok l -> le_encode (length l) (le_decode l) = l.
Proof.
  induction 1 as [|b l Hb Hl IH]; [done |]. cbn [le_decode length le_encode].
  rewrite (Z.mul_comm 256), Z_mod_plus_full, Z.mod_small by lia.
  rewrite Z.div_add, Z.div_small, Z.add_0_l by lia. by rewrite IH.
Qed.

Lemma to_signed_mod n z :
  (0 < n)%nat ->
  - 2 ^ (8 * Z.of_nat n - 1) <= z < 2 ^ (8 * Z.of_nat n - 1) ->
  to_signed n (z mod 2 ^ (8 * Z.of_nat n)) = z.
Proof.
  intros Hn Hz. unfold to_signed. set (w := 8 * Z.of_nat n) in *.
  assert (Hw : 2 ^ w = 2 * 2 ^ (w - 1)).
  { replace w with (1 + (w - 1)) at 1 by lia. rewrite Z.pow_add_r by lia. done. }
  destruct (Z_lt_le_dec z 0).
  - replace (z mod 2 ^ w) with (z + 2 ^ w) by (apply Z.mod_unique with (-1); lia).
    destruct (Z.ltb_spec (z + 2 ^ w) (2 ^ (w - 1))); lia.
  - rewrite Z.mod_small by lia. destruct (Z.ltb_spec z (2 ^ (w - 1))); lia.
Qed.

Lemma length_pad_to n b : length (pad_to n b) = n.
Proof.
  unfold pad_to. rewrite length_take, length_app. unfold zeros.
  rewrite length_replicate. lia.
Qed.

Lemma pad_to_ok n b : bytes_ok b -> bytes_ok (pad_to n b).
Proof. intros H. apply bytes_ok_take, bytes_ok_app. auto with bytes. Qed.

Lemma pad_to_id n b : length b = n -> pad_to n b = b.
Proof. intros <-. unfold pad_to. apply take_app_length. Qed.

#[export] Hint Resolve encode_ok le_encode_ok pad_to_ok : bytes.

(** ** pack and unpack *)

Ltac split_pack :=
  repeat match goal with
  | H : (if ?b then _ else _) = Ok _ |- _ => destruct b eqn:?; [|discriminate H]
  | H : match ?m with Ok _ => _ | Raise _ => _ end = Ok _ |- _ =>
      destruct m eqn:?; [|discriminate H]
  end; inv_ok; subst; to_prop.

(** What [pack_code] writes has the size of the code. *)
Lemma pack_code_length e c v b : pack_code e c v = Ok b -> length b = code_size c.
Proof.
  destruct c, v; cbn; try done; intros H; split_pack; auto using length_encode, length_pad_to.
  destruct b0 as [|x [|? ?]]; by simplify_eq.
Qed.

Lemma pack_code_ok e c v b : val_ok v -> pack_code e c v = Ok b -> bytes_ok b.
Proof.
  destruct c, v; cbn; try done; intros Hv H; split_pack; auto with bytes.
  destruct b0 as [|x [|? ?]]; by simplify_eq.
Qed.

Lemma f64_of_Z_range z x : f64_of_Z z = Ok x -> 0 <= x < 2 ^ 64.
Proof.
  unfold f64_of_Z, inf64. destruct (Z.eqb_spec z 0); [intros [= <-]; lia |].
  pose proof (encode_mag_nonneg 53 (-1074) (Z.abs z) 0 ltac:(lia) ltac:(lia)).
  intros H'. split_pack. destruct (z <? 0); lia.
Qed.

(** Reading back what was written gives the normalised value. *)
Lemma unpack_pack_code e c v b :
  val_ok v -> (0 < code_size c)%nat -> pack_code e c v = Ok b ->
  unpack_code e c b = norm_code c v.
Proof.
  intros Hv Hs H.
  destruct c, v; cbn in *; try done; split_pack; rewrite ?decode_encode.
  - rewrite Z.mod_small; [done | lia].
  - rewrite to_signed_mod; done || lia.
  - match goal with E : f64_of_Z _ = Ok _, F : f64_to_f32 _ = Ok _ |- _ =>
      try rewrite F; apply f64_of_Z_range in E; apply f64_to_f32_range in F; [| done];
      by rewrite Z.mod_small by (cbn; lia) end.
  - match goal with F : f64_to_f32 _ = Ok _ |- _ =>
      try rewrite F; apply f64_to_f32_range in F; [| done];
      by rewrite Z.mod_small by (cbn; lia) end.
  - match goal with E : f64_of_Z _ = Ok _ |- _ => apply f64_of_Z_range in E end.
    by rewrite Z.mod_small by (cbn; lia).
  - by rewrite Z.mod_small by (cbn; lia).
  - done.
  - destruct b0 as [|x [|? ?]]; by simplify_eq.
Qed.

Lemma pack_length e cs vs b : pack e cs vs = Ok b -> length b = calcsize cs.
Proof.
  revert vs b. induction cs as [|c cs IH]; intros [|v vs] b H; cbn in H; try done; inv_ok;
    subst; try done.
  rewrite length_app. erewrite pack_code_length, IH by eassumption. done.
Qed.

Lemma pack_ok e cs vs b : Forall val_ok vs -> pack e cs vs = Ok b -> bytes_ok b.
Proof.
  revert vs b. induction cs as [|c cs IH]; intros [|v vs] b Hv H; cbn in H; try done; inv_ok;
    subst; [constructor |..].
  inversion Hv; subst. apply bytes_ok_app. eauto using pack_code_ok.
Qed.

Lemma unpack_pack_aux e cs vs b :
  Forall val_ok vs -> Forall (fun c => 0 < code_size c)%nat cs ->
  pack e cs vs = Ok b -> unpack_aux e cs b = zip_with norm_code cs vs.
Proof.
  revert vs b. induction cs as [|c cs IH]; intros [|v vs] b Hv Hc H; cbn in H; try done; inv_ok;
    subst; try done.
  inversion Hv; subst. inversion Hc; subst. cbn.
  match goal with E : pack_code _ _ _ = Ok ?x |- _ =>
    pose proof (pack_code_length _ _ _ _ E) as L;
    pose proof (unpack_pack_code e c v x ltac:(done) ltac:(done) E) as U end.
  rewrite take_app_length', drop_app_length' by done. rewrite U.
  by erewrite IH by eassumption.
Qed.

(** [unpack(pack(vs))] gives back the normalised values. *)
Lemma unpack_pack e cs vs b :
  Forall val_ok vs -> Forall (fun c => 0 < code_size c)%nat cs ->
  pack e cs vs = Ok b -> unpack e cs b = Ok (zip_with norm_code cs vs).
Proof.
  intros Hv Hc H. unfold unpack. rewrite (pack_length _ _ _ _ H).
  rewrite decide_True by done. by erewrite unpack_pack_aux by eassumption.
Qed.

(** ** Values that fit are packed without error and come back unchanged *)

Lemma fits_norm c v : fits c v -> norm_code c v = v.
Proof.
  destruct c, v; cbn; try done.
  - intros (y & Hy & Hn & ->). by rewrite f64_to_f32_widen.
  - intros [H _]. by rewrite pad_to_id.
Qed.

Lemma fits_pack e c v : fits c v -> exists b, pack_code e c v = Ok b.
Proof.
  destruct c, v; cbn; try done; intros H.
  - destruct (Z.leb_spec 0 z), (Z.ltb_spec z (2 ^ (8 * Z.of_nat n))); cbn; eauto; lia.
  - destruct (Z.leb_spec (- 2 ^ (8 * Z.of_nat n - 1)) z),
      (Z.ltb_spec z (2 ^ (8 * Z.of_nat n - 1))); cbn; eauto; lia.
  - destruct H as (y & Hy & Hn & ->). rewrite f64_to_f32_widen by done. cbn. eauto.
  - eauto.
  - eauto.
  - destruct H as [H _]. destruct b as [|x [|? ?]]; cbn in H; try lia. eauto.
Qed.

Lemma encode_mag_53_bound m e :
  0 < m < 2 ^ 24 -> -149 <= e <= 104 -> 0 < encode_mag 53 (-1074) m e < inf64.
Proof. intros Hm He. destruct (decode_encode_64 m e Hm He) as (k & _ & _ & H). done. Qed.

Lemma f32_exact_range x : f32_exact x -> 0 <= x < 2 ^ 64.
Proof.
  intros (y & Hy & Hn & ->). unfold f32_to_f64.
  assert (Hs : 0 <= y / 2 ^ 31 < 2)
    by (split; [apply Z.div_pos; lia | apply Z.div_lt_upper_bound; lia]).
  pose proof (Z.mod_pos_bound y (2 ^ 31) ltac:(lia)) as Ha.
  set (s := y / 2 ^ 31) in *. set (a := y mod 2 ^ 31) in *.
  destruct (Z.eqb_spec a 0); [lia |].
  destruct (Z.eqb_spec a inf32); [unfold inf64; lia |].
  destruct (Z.ltb_spec inf32 a); [lia |].
  pose proof (decode_mag_32 a ltac:(lia)) as Hdec.
  destruct (decode_mag 24 (-149) a) as [m e]. destruct Hdec as (Hm & He & _).
  pose proof (encode_mag_53_bound m e Hm He). unfold inf64 in *. lia.
Qed.

Lemma fits_val_ok c v : fits c v -> val_ok v.
Proof. destruct c, v; cbn; try tauto. apply f32_exact_range. Qed.

Lemma pack_total e cs vs :
  Forall2 (fun c v => exists b, pack_code e c v = Ok b) cs vs -> exists b, pack e cs vs = Ok b.
Proof.
  induction 1 as [|c v cs vs [b' Hb'] _ [b IH]]; [by exists [] |].
  exists (b' ++ b). cbn. by rewrite Hb', IH.
Qed.

Lemma pack_fits e cs vs : Forall2 fits cs vs -> exists b, pack e cs vs = Ok b.
Proof.
  intros H. apply pack_total. eapply Forall2_impl; [exact H |]. intros. by apply fits_pack.
Qed.

Lemma fits_norm_all cs vs : Forall2 fits cs vs -> zip_with norm_code cs vs = vs.
Proof.
  induction 1 as [|c v cs vs Hf _ IH]; [done |]. cbn. by rewrite IH, fits_norm.
Qed.

Lemma fits_val_ok_all cs vs : Forall2 fits cs vs -> Forall val_ok vs.
Proof. induction 1; constructor; eauto using fits_val_ok. Qed.

(** The formats of the source, parsed. *)
Example parse_format_samples :
  parse_format "<IBBBBB" = Some (Little, [CUint 4; CUint 1; CUint 1; CUint 1; CUint 1; CUint 1]) /\
  parse_format "<BB25s" = Some (Little, [CUint 1; CUint 1; Cs 25]) /\
  parse_format "!HIdd" = Some (Big, [CUint 2; CUint 4; Cd; Cd]) /\
  parse_format "<f3h" = Some (Little, [Cf; CSint 2; CSint 2; CSint 2]) /\
  parse_format "<x" = None.
Proof. vm_compute. done. Qed.

Example pack_samples :
  pack Little [CUint 2; CSint 1] [PInt 258; PInt (-1)] = Ok [2; 1; 255] /\
  pack Big [CUint 2] [PInt 258] = Ok [1; 2] /\
  pack Little [CUint 1] [PInt 256] = Raise StructError /\
  unpack Little [CUint 2; CSint 1] [2; 1; 255] = Ok [PInt 258; PInt (-1)] /\
  unpack Little [CUint 2] [1] = Raise StructError.
Proof. vm_compute. done. Qed.

End PyStruct.
