(* ===== verification/X25.v ===== *)
(** The MAVLink checksum, [class x25crc] of wfb_ng/mavlink.py, and its
    reference: the bit-serial CRC-16/MCRF4XX (reflected polynomial 0x8408,
    initial value 0xFFFF). *)
From Stdlib Require Import ZArith Lia Bool Btauto.
From stdpp Require Import base list numbers.
From S2P Require Import Prelude.

Module X25.

(** The body of the [for b in buf] loop of [accumulate]. *)
Definition crc_step (accum b : Z) : Z :=
  let tmp := Z.lxor b (Z.land accum 0xFF) in
  let tmp := Z.land (Z.lxor tmp (Z.shiftl tmp 4)) 0xFF in
  Z.lxor (Z.lxor (Z.lxor (Z.shiftr accum 8) (Z.shiftl tmp 8)) (Z.shiftl tmp 3)) (Z.shiftr tmp 4).

(** [accumulate(buf)] on an object whose [crc] attribute is [crc]. *)
Definition accumulate (crc : Z) (buf : bytes) : Z := fold_left crc_step buf crc.

(** [x25crc(buf).crc]. *)
Definition x25crc (buf : bytes) : Z := accumulate 0xFFFF buf.

(** ** The reference definition *)

(** One shift of the reflected register. *)
Definition bit_step (c : Z) : Z :=
  if Z.odd c then Z.lxor (Z.shiftr c 1) 0x8408 else Z.shiftr c 1.

Fixpoint bit_steps (n : nat) (c : Z) : Z :=
  match n with O => c | S n' => bit_step (bit_steps n' c) end.

Definition crc_mcrf4xx_byte (c b : Z) : Z := bit_steps 8 (Z.lxor c b).

Definition crc_mcrf4xx (buf : bytes) : Z := fold_left crc_mcrf4xx_byte buf 0xFFFF.

(** The register before [bit_step]. *)
Definition bit_unstep (r : Z) : Z :=
  if 32768 <=? r then 2 * Z.lxor r 0x8408 + 1 else 2 * r.

(** ** Linearity of the register *)

Definition reg (c : Z) : Prop := 0 <= c < 65536.

(** A boolean check over an initial segment of Z decides it. *)
Fixpoint check_from (P : Z -> bool) (n : nat) (c : Z) : bool :=
  match n with O => true | S n' => P c && check_from P n' (c + 1) end.

Lemma check_from_spec P n c0 :
  check_from P n c0 = true -> forall c, c0 <= c < c0 + Z.of_nat n -> P c = true.
Proof.
  revert c0. induction n as [|n IH]; intros c0 H c Hc; [lia |].
  cbn in H. to_prop. destruct (Z.eq_dec c c0) as [-> |]; [done |].
  eapply IH; [eassumption | lia].
Qed.

Lemma check_below (P : Z -> bool) (n : Z) :
  check_from P (Z.to_nat n) 0 = true -> forall c, 0 <= c < n -> P c = true.
Proof. intros H c Hc. eapply check_from_spec; [eassumption | lia]. Qed.

Lemma bit_step_alt c :
  bit_step c = Z.lxor (Z.shiftr c 1) (if Z.odd c then 0x8408 else 0).
Proof. unfold bit_step. destruct (Z.odd c); [done |]. by rewrite Z.lxor_0_r. Qed.

Lemma odd_lxor x y : Z.odd (Z.lxor x y) = xorb (Z.odd x) (Z.odd y).
Proof. by rewrite <- !Z.bit0_odd, Z.lxor_spec. Qed.

Lemma bit_step_lxor x y : bit_step (Z.lxor x y) = Z.lxor (bit_step x) (bit_step y).
Proof.
  rewrite !bit_step_alt, Z.shiftr_lxor, odd_lxor.
  apply Z.bits_inj'. intros n Hn. rewrite !Z.lxor_spec.
  destruct (Z.odd x), (Z.odd y); cbn [xorb]; rewrite ?Z.bits_0; btauto.
Qed.

Lemma bit_steps_lxor n x y :
  bit_steps n (Z.lxor x y) = Z.lxor (bit_steps n x) (bit_steps n y).
Proof. induction n as [|n IH]; cbn; [done |]. by rewrite IH, bit_step_lxor. Qed.

Lemma bit_steps_add n m c : bit_steps (n + m) c = bit_steps n (bit_steps m c).
Proof. induction n as [|n IH]; cbn; [done |]. by rewrite IH. Qed.

Lemma bit_step_even h : bit_step (2 * h) = h.
Proof.
  unfold bit_step. rewrite Z.odd_mul. cbn [Z.odd andb].
  rewrite Z.shiftr_div_pow2 by lia. change (2 ^ 1) with 2.
  rewrite Z.mul_comm. by apply Z.div_mul.
Qed.

(** Eight shifts of a register whose low byte is zero move the high byte down. *)
Lemma bit_steps_high h : bit_steps 8 (256 * h) = h.
Proof.
  cbn [bit_steps].
  replace (256 * h) with (2 * (2 * (2 * (2 * (2 * (2 * (2 * (2 * h)))))))) by lia.
  by rewrite !bit_step_even.
Qed.

Lemma bit_unstep_step c : reg c -> bit_unstep (bit_step c) = c.
Proof.
  intros Hc. apply Z.eqb_eq.
  apply (check_below (fun c => bit_unstep (bit_step c) =? c) 65536); [| unfold reg in Hc; lia].
  vm_compute. done.
Qed.

Lemma bit_step_reg c : reg c -> reg (bit_step c).
Proof.
  intros Hc. assert (H : is_true ((0 <=? bit_step c) && (bit_step c <? 65536))).
  { apply (check_below (fun c => (0 <=? bit_step c) && (bit_step c <? 65536)) 65536);
      [vm_compute; done | unfold reg in Hc; lia]. }
  unfold is_true in H. to_prop. split; lia.
Qed.

Lemma bit_steps_reg n c : reg c -> reg (bit_steps n c).
Proof. intros. induction n; cbn; auto using bit_step_reg. Qed.

Lemma bit_steps_inj n x y :
  reg x -> reg y -> bit_steps n x = bit_steps n y -> x = y.
Proof.
  intros Hx Hy. induction n as [|n IH]; cbn; [done |]. intros H. apply IH.
  rewrite <- (bit_unstep_step (bit_steps n x)) by (by apply bit_steps_reg).
  rewrite H. apply bit_unstep_step, bit_steps_reg; done.
Qed.

(** ** The table-free byte step is eight bit steps *)

Lemma lxor_reg x y : reg x -> reg y -> reg (Z.lxor x y).
Proof.
  unfold reg. intros Hx Hy. split; [apply Z.lxor_nonneg; lia |].
  destruct (Z.eq_dec (Z.lxor x y) 0) as [-> |]; [lia |].
  apply (Z.log2_lt_pow2 _ 16); [pose proof (Z.lxor_nonneg x y); lia |].
  eapply Z.le_lt_trans; [apply Z.log2_lxor; lia |].
  assert (Hl : forall z, 0 <= z < 65536 -> Z.log2 z < 16).
  { intros z Hz. destruct (Z.eq_dec z 0) as [-> |]; [done |]. apply Z.log2_lt_pow2; lia. }
  apply Z.max_lub_lt; auto.
Qed.

Lemma low_byte_split c : 0 <= c -> c = Z.lxor (256 * Z.shiftr c 8) (Z.land c 0xFF).
Proof.
  intros Hc. apply Z.bits_inj'. intros n Hn.
  change 0xFF with (Z.ones 8). rewrite Z.lxor_spec, Z.land_spec, Z.testbit_ones by lia.
  replace (256 * Z.shiftr c 8) with (Z.shiftl (Z.shiftr c 8) 8)
    by (rewrite Z.shiftl_mul_pow2 by lia; lia).
  rewrite Z.shiftl_spec by lia.
  destruct (Z.ltb_spec n 8).
  - rewrite (Z.testbit_neg_r _ (n - 8)) by lia.
    destruct (Z.leb_spec 0 n); [| lia]. cbn. by rewrite andb_true_r.
  - rewrite Z.shiftr_spec by lia. replace (n - 8 + 8) with n by lia.
    rewrite andb_false_r, andb_false_r. by rewrite xorb_false_r.
Qed.

Lemma low_byte_table l :
  0 <= l < 256 ->
  let tmp := Z.land (Z.lxor l (Z.shiftl l 4)) 0xFF in
  bit_steps 8 l = Z.lxor (Z.lxor (Z.shiftl tmp 8) (Z.shiftl tmp 3)) (Z.shiftr tmp 4).
Proof.
  intros Hl. apply Z.eqb_eq.
  apply (check_below (fun l => let tmp := Z.land (Z.lxor l (Z.shiftl l 4)) 0xFF in
    bit_steps 8 l =? Z.lxor (Z.lxor (Z.shiftl tmp 8) (Z.shiftl tmp 3)) (Z.shiftr tmp 4)) 256);
    [vm_compute; done | lia].
Qed.

Lemma land_ff_range c : 0 <= Z.land c 0xFF < 256.
Proof.
  change 0xFF with (Z.ones 8). rewrite Z.land_ones by lia. apply Z.mod_pos_bound. lia.
Qed.

Lemma lxor_byte_range x y : 0 <= x < 256 -> 0 <= y < 256 -> 0 <= Z.lxor x y < 256.
Proof.
  intros Hx Hy. assert (H : check_from (fun x => check_from (fun y =>
      (0 <=? Z.lxor x y) && (Z.lxor x y <? 256)) (Z.to_nat 256) 0) (Z.to_nat 256) 0 = true)
    by (vm_compute; done).
  pose proof (check_below _ 256 H x ltac:(lia)) as H1. cbn beta in H1.
  pose proof (check_below _ 256 H1 y ltac:(lia)) as H2. cbn beta in H2. to_prop. lia.
Qed.

Lemma crc_step_bitwise c b :
  reg c -> 0 <= b < 256 -> crc_step c b = crc_mcrf4xx_byte c b.
Proof.
  intros Hc Hb. unfold reg in Hc. unfold crc_mcrf4xx_byte.
  rewrite (low_byte_split c) at 2 by lia.
  rewrite Z.lxor_assoc, bit_steps_lxor, bit_steps_high.
  pose proof (land_ff_range c).
  rewrite low_byte_table by (by apply lxor_byte_range).
  unfold crc_step. rewrite (Z.lxor_comm b). by rewrite !Z.lxor_assoc.
Qed.

Lemma crc_step_reg c b : reg c -> 0 <= b < 256 -> reg (crc_step c b).
Proof.
  intros Hc Hb. rewrite crc_step_bitwise by done.
  apply bit_steps_reg, lxor_reg; [done |]. unfold reg. lia.
Qed.

Lemma accumulate_reg buf c : bytes_ok buf -> reg c -> reg (accumulate c buf).
Proof.
  intros H. revert c. induction H as [|b buf Hb _ IH]; intros c Hc; [done |].
  cbn. apply IH. by apply crc_step_reg.
Qed.

Lemma accumulate_app c b1 b2 : accumulate c (b1 ++ b2) = accumulate (accumulate c b1) b2.
Proof. apply fold_left_app. Qed.

Lemma x25crc_app b1 b2 : x25crc (b1 ++ b2) = accumulate (x25crc b1) b2.
Proof. apply accumulate_app. Qed.

Lemma x25crc_reg buf : bytes_ok buf -> reg (x25crc buf).
Proof. intros. apply accumulate_reg; [done |]. unfold reg. lia. Qed.

#[export] Hint Resolve x25crc_reg accumulate_reg crc_step_reg : bytes.

Lemma crc_step_inj c c' b b' :
  reg c -> reg c' -> 0 <= b < 256 -> 0 <= b' < 256 ->
  crc_step c b = crc_step c' b' -> Z.lxor c b = Z.lxor c' b'.
Proof.
  intros Hc Hc' Hb Hb'. rewrite !crc_step_bitwise by done.
  apply bit_steps_inj; apply lxor_reg; unfold reg in *; lia.
Qed.

Lemma lxor_cancel_r x y z : Z.lxor x z = Z.lxor y z -> x = y.
Proof.
  intros H. apply (f_equal (fun w => Z.lxor w z)) in H.
  by rewrite !Z.lxor_assoc, !Z.lxor_nilpotent, !Z.lxor_0_r in H.
Qed.

(** The checksum of a common suffix is injective in the register. *)
Lemma accumulate_inj buf c c' :
  bytes_ok buf -> reg c -> reg c' -> accumulate c buf = accumulate c' buf -> c = c'.
Proof.
  intros H. revert c c'. induction H as [|b buf Hb _ IH]; intros c c' Hc Hc' E; [done |].
  cbn in E. apply IH in E; [| by apply crc_step_reg..].
  apply crc_step_inj in E; try done. by apply lxor_cancel_r in E.
Qed.

(** Two bytes pushed into a register are sixteen shifts of the register xored
    with the 16-bit word they make, so they are determined by the result. *)
Lemma crc_two_bytes c x1 x2 y1 y2 :
  reg c -> 0 <= x1 < 256 -> 0 <= x2 < 256 -> 0 <= y1 < 256 -> 0 <= y2 < 256 ->
  crc_step (crc_step c x1) x2 = crc_step (crc_step c y1) y2 -> x1 = y1 /\ x2 = y2.
Proof.
  intros Hc Hx1 Hx2 Hy1 Hy2 E.
  assert (Hw : forall a b, 0 <= a < 256 -> 0 <= b < 256 ->
    crc_step (crc_step c a) b = bit_steps 16 (Z.lxor c (Z.lxor a (256 * b)))).
  { intros a b Ha Hb. rewrite crc_step_bitwise by auto using crc_step_reg.
    rewrite (crc_step_bitwise c a) by done. unfold crc_mcrf4xx_byte.
    change 16%nat with (8 + 8)%nat. rewrite bit_steps_add. f_equal.
    rewrite <- (bit_steps_high b) at 1. rewrite <- bit_steps_lxor.
    by rewrite Z.lxor_assoc. }
  assert (Hr : forall a b, 0 <= a < 256 -> 0 <= b < 256 -> reg (Z.lxor a (256 * b))).
  { intros a b Ha Hb. apply lxor_reg; unfold reg; lia. }
  rewrite !Hw in E by done.
  apply bit_steps_inj in E; [| by apply lxor_reg; auto..].
  rewrite !(Z.lxor_comm c) in E. apply lxor_cancel_r in E.
  assert (Hlow : forall a b, 0 <= a < 256 -> Z.land (Z.lxor a (256 * b)) 0xFF = a).
  { intros a b Ha. change 0xFF with (Z.ones 8).
    apply Z.bits_inj'. intros n Hn. rewrite Z.land_spec, Z.lxor_spec, Z.testbit_ones by lia.
    replace (256 * b) with (Z.shiftl b 8) by (rewrite Z.shiftl_mul_pow2 by lia; lia).
    destruct (Z.ltb_spec n 8).
    - rewrite Z.shiftl_spec_low by lia. destruct (Z.leb_spec 0 n); [| lia]. cbn.
      by rewrite xorb_false_r, andb_true_r.
    - rewrite andb_false_r, andb_false_r. symmetry.
      destruct (Z.eq_dec a 0) as [-> |]; [apply Z.bits_0 |].
      apply Z.bits_above_log2; [lia |]. eapply Z.lt_le_trans; [| eassumption].
      apply Z.log2_lt_pow2; lia. }
  assert (x1 = y1) as ->.
  { rewrite <- (Hlow x1 x2), <- (Hlow y1 y2) by done. by rewrite E. }
  split; [done |]. rewrite !(Z.lxor_comm y1) in E. apply lxor_cancel_r in E. lia.
Qed.

(** A change of two adjacent bytes always shows in the checksum. *)
Lemma x25crc_burst a b c x1 x2 y1 y2 :
  bytes_ok a -> bytes_ok b -> bytes_ok [x1; x2] -> bytes_ok [y1; y2] ->
  x25crc (a ++ [x1; x2] ++ b) = c -> x25crc (a ++ [y1; y2] ++ b) = c -> [x1; x2] = [y1; y2].
Proof.
  intros Ha Hb Hx Hy <-. rewrite !x25crc_app, !accumulate_app. intros E. symmetry in E.
  assert (Hr : reg (x25crc a)) by auto with bytes.
  apply accumulate_inj in E; try auto with bytes.
  rewrite !bytes_ok_cons in Hx, Hy. destruct Hx as (? & ? & _), Hy as (? & ? & _).
  apply crc_two_bytes in E; try done. by destruct E as [-> ->].
Qed.

(** The byte-wise checksum of the class [x25crc] is the bit-serial
    CRC-16/MCRF4XX (reflected polynomial 0x8408, initial value 0xFFFF) on every
    byte string. *)
Theorem x25crc_is_mcrf4xx buf : bytes_ok buf -> x25crc buf = crc_mcrf4xx buf.
Proof.
  unfold x25crc, crc_mcrf4xx, accumulate. intros H. assert (Hr : reg 0xFFFF) by (unfold reg; lia).
  revert Hr. generalize 0xFFFF. induction H as [|b buf Hb _ IH]; intros c Hc; [done |].
  cbn [fold_left]. rewrite <- crc_step_bitwise by done. apply IH. by apply crc_step_reg.
Qed.

(** The check value of the algorithm's catalogue entry, on "123456789". *)
Lemma x25crc_is_mcrf4xx_witness :
  x25crc [49; 50; 51; 52; 53; 54; 55; 56; 57] = 0x6F91 /\
  x25crc [49; 50; 51; 52; 53; 54; 55; 56; 57] = crc_mcrf4xx [49; 50; 51; 52; 53; 54; 55; 56; 57].
Proof.
  split; [vm_compute; reflexivity |]. apply x25crc_is_mcrf4xx.
  apply bytes_ok_forallb. vm_compute. reflexivity.
Defined.

End X25.
