(* ===== verification/Sha.v ===== *)
(** SHA-1 and SHA-256 of the Standard Library module [hashlib], as executable
    functions on bytes (FIPS 180-4): [MAVLink_message.sign_packet] and
    [MAVLink.check_signature] use SHA-256, [hash_link_domain] uses SHA-1. *)
From Stdlib Require Import ZArith Lia Bool.
From stdpp Require Import base list numbers.
From S2P Require Import Prelude.
From S2P Require Import PyStruct.

Module Sha.

Definition w32 (z : Z) : Z := z mod 2 ^ 32.
Definition rotr (x n : Z) : Z := Z.lor (Z.shiftr x n) (w32 (Z.shiftl x (32 - n))).
Definition rotl (x n : Z) : Z := rotr x (32 - n).
Definition lnot32 (x : Z) : Z := 2 ^ 32 - 1 - x.

(** The message padded to a multiple of 64 bytes. *)
Definition pad (m : bytes) : bytes :=
  let n := length m in
  let z := ((119 - n mod 64) mod 64)%nat in
  m ++ [128] ++ zeros z ++ PyStruct.be_encode 8 (8 * Z.of_nat n).

Fixpoint chunks (fuel n : nat) (l : bytes) : list bytes :=
  match fuel with
  | O => []
  | S f => match l with [] => [] | _ => take n l :: chunks f n (drop n l) end
  end.

Definition blocks (m : bytes) : list (list Z) :=
  let p := pad m in
  map (fun b => map PyStruct.be_decode (chunks 16 4 b)) (chunks (length p) 64 p).

(** The message schedule, kept in reverse order. *)
Fixpoint extend (f : list Z -> Z) (n : nat) (rev_w : list Z) : list Z :=
  match n with O => rev_w | S n' => extend f n' (f rev_w :: rev_w) end.

Definition at_ (l : list Z) (i : nat) : Z := nth i l 0.

(** ** SHA-256 *)

(** The constants are the standard's: the first 32 bits of the fractional
    parts of the cube and square roots of the first primes. *)
Fixpoint cbrt_bits (n : nat) (x acc : Z) : Z :=
  match n with
  | O => acc
  | S n' =>
      let up := acc + 2 ^ Z.of_nat n' in
      cbrt_bits n' x (if up * up * up <=? x then up else acc)
  end.

Definition prime_b (n : Z) : bool :=
  forallb (fun d => negb (n mod Z.of_nat d =? 0)) (seq 2 (Z.to_nat n - 2)).

Definition primes64 : list Z :=
  Eval vm_compute in List.filter prime_b (map Z.of_nat (seq 2 310)).

Definition k256 : list Z :=
  Eval vm_compute in map (fun p => w32 (cbrt_bits 36 (Z.shiftl p 96) 0)) primes64.

Definition h256 : list Z :=
  Eval vm_compute in map (fun p => w32 (Z.sqrt (Z.shiftl p 64))) (take 8 primes64).

Example k256_ends :
  length k256 = 64%nat /\ at_ k256 0 = 0x428a2f98 /\ at_ k256 63 = 0xc67178f2.
Proof. vm_compute. auto. Qed.

Definition next256 (r : list Z) : Z :=
  let s0 := let x := at_ r 14 in Z.lxor (Z.lxor (rotr x 7) (rotr x 18)) (Z.shiftr x 3) in
  let s1 := let x := at_ r 1 in Z.lxor (Z.lxor (rotr x 17) (rotr x 19)) (Z.shiftr x 10) in
  w32 (at_ r 15 + s0 + at_ r 6 + s1).

Definition round256 (s : list Z) (kw : Z * Z) : list Z :=
  match s with
  | [a; b; c; d; e; f; g; h] =>
      let S1 := Z.lxor (Z.lxor (rotr e 6) (rotr e 11)) (rotr e 25) in
      let ch := Z.lxor (Z.land e f) (Z.land (lnot32 e) g) in
      let t1 := h + S1 + ch + fst kw + snd kw in
      let S0 := Z.lxor (Z.lxor (rotr a 2) (rotr a 13)) (rotr a 22) in
      let maj := Z.lxor (Z.lxor (Z.land a b) (Z.land a c)) (Z.land b c) in
      [w32 (t1 + S0 + maj); a; b; c; w32 (d + t1); e; f; g]
  | _ => s
  end.

Definition block256 (h : list Z) (w : list Z) : list Z :=
  let ws := reverse (extend next256 48 (reverse w)) in
  zip_with (fun x y => w32 (x + y)) h (fold_left round256 (zip k256 ws) h).

Definition sha256 (m : bytes) : bytes :=
  concat (map (PyStruct.be_encode 4) (fold_left block256 (blocks m) h256)).

(** ** SHA-1 *)

Definition h1 : list Z := [0x67452301; 0xefcdab89; 0x98badcfe; 0x10325476; 0xc3d2e1f0].

Definition next1 (r : list Z) : Z :=
  rotl (Z.lxor (Z.lxor (at_ r 2) (at_ r 7)) (Z.lxor (at_ r 13) (at_ r 15))) 1.

Definition f1 (t : nat) (b c d : Z) : Z * Z :=
  if decide (t < 20)%nat then (Z.lor (Z.land b c) (Z.land (lnot32 b) d), 0x5a827999)
  else if decide (t < 40)%nat then (Z.lxor (Z.lxor b c) d, 0x6ed9eba1)
  else if decide (t < 60)%nat then
    (Z.lor (Z.lor (Z.land b c) (Z.land b d)) (Z.land c d), 0x8f1bbcdc)
  else (Z.lxor (Z.lxor b c) d, 0xca62c1d6).

Definition round1 (s : list Z) (tw : nat * Z) : list Z :=
  match s with
  | [a; b; c; d; e] =>
      let '(f, k) := f1 (fst tw) b c d in
      [w32 (rotl a 5 + f + e + k + snd tw); a; rotl b 30; c; d]
  | _ => s
  end.

Definition block1 (h : list Z) (w : list Z) : list Z :=
  let ws := reverse (extend next1 64 (reverse w)) in
  zip_with (fun x y => w32 (x + y)) h (fold_left round1 (zip (seq 0 80) ws) h).

Definition sha1 (m : bytes) : bytes :=
  concat (map (PyStruct.be_encode 4) (fold_left block1 (blocks m) h1)).

(** ** Digests are byte strings of the right length *)

Lemma length_round256 s kw : length s = 8%nat -> length (round256 s kw) = 8%nat.
Proof. intros H. destruct s as [|? [|? [|? [|? [|? [|? [|? [|? [|? ?]]]]]]]]]; done. Qed.

Lemma length_fold_rounds l s : length s = 8%nat -> length (fold_left round256 l s) = 8%nat.
Proof. revert s. induction l as [|x l IH]; intros s Hs; [done |]. apply IH. by apply length_round256. Qed.

Lemma length_block256 h w : length h = 8%nat -> length (block256 h w) = 8%nat.
Proof.
  intros H. unfold block256. rewrite length_zip_with, length_fold_rounds by done. lia.
Qed.

Lemma length_fold_blocks l h : length h = 8%nat -> length (fold_left block256 l h) = 8%nat.
Proof. revert h. induction l as [|x l IH]; intros h Hh; [done |]. apply IH. by apply length_block256. Qed.

Lemma length_words (ws : list Z) : length (concat (map (PyStruct.be_encode 4) ws)) = (4 * length ws)%nat.
Proof.
  induction ws as [|x ws IH]; [done |]. cbn [map concat]. rewrite length_app, IH.
  rewrite (PyStruct.length_encode PyStruct.Big). cbn [length]. lia.
Qed.

Lemma length_sha256 m : length (sha256 m) = 32%nat.
Proof. unfold sha256. rewrite length_words, length_fold_blocks; done. Qed.

Lemma words_ok (ws : list Z) : bytes_ok (concat (map (PyStruct.be_encode 4) ws)).
Proof.
  induction ws as [|x ws IH]; cbn [map concat]; [constructor |]. apply bytes_ok_app. split; [| exact IH].
  apply (PyStruct.encode_ok PyStruct.Big).
Qed.

Lemma sha256_ok m : bytes_ok (sha256 m).
Proof. apply words_ok. Qed.

(** FIPS test vectors: the digests of "abc", and of the empty string. *)
Example sha_abc :
  take 4 (sha256 [97; 98; 99]) = [0xba; 0x78; 0x16; 0xbf] /\
  take 4 (sha256 []) = [0xe3; 0xb0; 0xc4; 0x42] /\
  take 4 (sha1 [97; 98; 99]) = [0xa9; 0x99; 0x3e; 0x36] /\
  take 4 (sha1 []) = [0xda; 0x39; 0xa3; 0xee].
Proof. vm_compute. done. Qed.

(** A two-block message: sixty-four zero bytes. *)
Example sha_two_blocks :
  take 4 (sha256 (zeros 64)) = [0xf5; 0xa5; 0xfd; 0x42] /\
  take 4 (sha1 (zeros 64)) = [0xc8; 0xd7; 0xd0; 0xef].
Proof. vm_compute. done. Qed.

End Sha.
