(* ===== verification/MavMessage.v ===== *)
(** Message classes of wfb_ng/mavlink.py: what a class [MAVLink_*_message]
    declares, its constructor, the arguments its [pack] passes to
    [struct.Struct.pack], and the field decoding loop of [MAVLink.decode]. *)
From Stdlib Require Import ZArith Lia Bool Ascii.
From stdpp Require Import base list numbers strings gmap.
From S2P Require Import Prelude.
From S2P Require Import PyFloat.
From S2P Require Import PyStruct.

Module MavMessage.
Import PyStruct.

(** ** Field values and attributes *)

(** A constructor argument: one value, or a sequence of values. *)
Inductive fval :=
| FScalar (v : pyval)
| FArray (l : list pyval).

#[export] Instance fval_eq_dec : EqDecision fval.
Proof. solve_decision. Defined.

(** An attribute of a message object; a [str] is its list of code points. *)
Inductive attr :=
| AVal (a : fval)
| AStr (s : list Z).

#[export] Instance attr_eq_dec : EqDecision attr.
Proof. solve_decision. Defined.

(** A statement of a constructor: [self.f = f], [self._f_raw = f] or
    [self.f = f.split(b"\x00", 1)[0].decode("ascii", errors="replace")]. *)
Inductive init_stmt :=
| SetArg (f : string)
| SetRaw (f : string)
| SetStr (f : string).

#[export] Instance init_stmt_eq_dec : EqDecision init_stmt.
Proof. solve_decision. Defined.

(** Arguments of [self.unpacker.pack(...)]: [self.f], [self._f_raw], or the
    run [self.f[0], ..., self.f[n-1]]. *)
Inductive pack_arg :=
| PA (f : string)
| PRaw (f : string)
| PRun (f : string) (n : nat).

#[export] Instance pack_arg_eq_dec : EqDecision pack_arg.
Proof. solve_decision. Defined.

(** The class attributes, constructor and [pack] of one message class. *)
Record msgtype := MsgType {
  mt_id : Z;
  msgname : string;
  fieldnames : list string;
  ordered_fieldnames : list string;
  fieldtypes : list string;
  fielddisplays_by_name : list (string * string);
  fieldenums_by_name : list (string * string);
  native_format : string;
  orders : list nat;
  lengths : list nat;
  array_lengths : list nat;
  crc_extra : Z;
  unpacker : string;
  init_defaults : list fval;
  init_body : list init_stmt;
  pack_args : list pack_arg
}.

(** ** The constructor *)

(** [b.split(b"\x00", 1)[0]]. *)
Fixpoint until_nul (b : bytes) : bytes :=
  match b with
  | [] => []
  | x :: b' => if x =? 0 then [] else x :: until_nul b'
  end.

(** [.decode("ascii", errors="replace")]: U+FFFD for a byte above 127. *)
Definition ascii_replace (b : bytes) : list Z :=
  map (fun x => if x <? 128 then x else 0xFFFD) b.

(** The attribute name [_f_raw]. *)
Definition raw (f : string) : string := ("_" ++ f ++ "_raw")%string.

(** The value of the constructor parameter [f]. *)
Fixpoint arg_of (fs : list string) (args : list fval) (f : string) : option fval :=
  match fs, args with
  | g :: fs', a :: args' => if decide (f = g) then Some a else arg_of fs' args' f
  | _, _ => None
  end.

Definition run_init_stmt (env : string -> option fval) (attrs : gmap string attr) (st : init_stmt)
  : result (gmap string attr) :=
  match st with
  | SetArg f => a ← of_option TypeError (env f); Ok (<[f := AVal a]> attrs)
  | SetRaw f => a ← of_option TypeError (env f); Ok (<[raw f := AVal a]> attrs)
  | SetStr f =>
      match env f with
      | Some (FScalar (PBytes b)) => Ok (<[f := AStr (ascii_replace (until_nul b))]> attrs)
      | Some _ => Raise AttributeError
      | None => Raise TypeError
      end
  end.

Fixpoint run_init (env : string -> option fval) (attrs : gmap string attr) (l : list init_stmt)
  : result (gmap string attr) :=
  match l with
  | [] => Ok attrs
  | st :: l' => attrs' ← run_init_stmt env attrs st; run_init env attrs' l'
  end.

(** [MAVLink_x_message(args)] with positional arguments; the trailing
    parameters have the defaults [init_defaults]. *)
Definition init_message (mt : msgtype) (args : list fval) : result (gmap string attr) :=
  let n := length (fieldnames mt) in
  let k := length args in
  let d := length (init_defaults mt) in
  if decide (n - d <= k <= n)%nat then
    let args' := args ++ drop (k - (n - d)) (init_defaults mt) in
    run_init (arg_of (fieldnames mt) args') ∅ (init_body mt)
  else Raise TypeError.

(** ** Packing the payload *)

Definition pack_arg_values (attrs : gmap string attr) (p : pack_arg) : result (list pyval) :=
  match p with
  | PA f =>
      match attrs !! f with
      | Some (AVal (FScalar v)) => Ok [v]
      | Some _ => Raise StructError
      | None => Raise AttributeError
      end
  | PRaw f =>
      match attrs !! raw f with
      | Some (AVal (FScalar v)) => Ok [v]
      | Some _ => Raise StructError
      | None => Raise AttributeError
      end
  | PRun f n =>
      match attrs !! f with
      | Some (AVal (FArray l)) => result_map (fun i => of_option IndexError (l !! i)) (seq 0 n)
      | Some (AVal (FScalar (PBytes b))) =>
          result_map (fun i => x ← of_option IndexError (b !! i); Ok (PInt x)) (seq 0 n)
      | Some _ => Raise TypeError
      | None => Raise AttributeError
      end
  end.

Definition codes_of (mt : msgtype) : list code :=
  match parse_format (unpacker mt) with Some (_, cs) => cs | None => [] end.

(** [self.unpacker.pack(self.f, ...)] of the class's [pack] method. *)
Definition pack_payload (mt : msgtype) (attrs : gmap string attr) : result bytes :=
  vss ← result_map (pack_arg_values attrs) (pack_args mt);
  pack Little (codes_of mt) (concat vss).

(** [msgtype.unpacker.size]. *)
Definition unpacker_size (mt : msgtype) : nat := calcsize (codes_of mt).

(** ** Decoding the payload: the part of [MAVLink.decode] after the unpack *)

(** "handle sorted fields": without arrays, a permutation of [t]; with
    arrays, each field is a value or a slice of [t]. *)
Definition sorted_fields (mt : msgtype) (t : list pyval) : result (list fval) :=
  if decide (sum_list (lengths mt) = length (lengths mt)) then
    result_map (fun i =>
      o ← of_option IndexError (orders mt !! i);
      v ← of_option IndexError (t !! o); Ok (FScalar v)) (seq 0 (length t))
  else
    result_map (fun o =>
      L ← of_option IndexError (lengths mt !! o);
      let tip := sum_list (take o (lengths mt)) in
      field ← of_option IndexError (t !! tip);
      match field with
      | PBytes _ => Ok (FScalar field)
      | _ => if decide (L = 1)%nat then Ok (FScalar field)
             else Ok (FArray (take L (drop tip t)))
      end) (orders mt).

(** "terminate any strings". *)
Definition terminate (a : fval) : fval :=
  match a with
  | FScalar (PBytes b) => FScalar (PBytes (rstrip0 b))
  | _ => a
  end.

(** [mbuf] zero padded or cut to [csize], unpacked, sorted and terminated. *)
Definition unpack_fields (mt : msgtype) (mbuf : bytes) : result (list fval) :=
  let csize := unpacker_size mt in
  let mbuf := pad_to csize mbuf in
  t ← unpack Little (codes_of mt) mbuf;
  tlist ← sorted_fields mt t;
  Ok (map terminate tlist).

(** ** Static consistency of a message class *)

Fixpoint group_codes (cs : list code) (ls : list nat) : list code :=
  match ls with
  | [] => []
  | L :: ls' => default Cc (cs !! 0%nat) :: group_codes (drop L cs) ls'
  end.

Definition wire_codes (mt : msgtype) : list code := group_codes (codes_of mt) (lengths mt).

Definition is_cs (c : code) : bool := match c with Cs _ => true | _ => false end.

(** The wire layout: (name, code, number of elements) in wire order. *)
Definition wire (mt : msgtype) : list (string * code * nat) :=
  zip (zip (ordered_fieldnames mt) (wire_codes mt)) (lengths mt).

Definition expand (w : string * code * nat) : list code :=
  let '(_, c, L) := w in replicate L c.

Definition expected_arg (w : string * code * nat) : pack_arg :=
  let '(f, c, L) := w in
  if decide (L = 1)%nat then (if is_cs c then PRaw f else PA f) else PRun f L.

Definition is_str (mt : msgtype) (f : string) : bool :=
  existsb (fun '(g, c, _) => String.eqb f g && is_cs c) (wire mt).

Definition expected_init (mt : msgtype) : list init_stmt :=
  concat (map (fun f => if is_str mt f then [SetRaw f; SetStr f] else [SetArg f]) (fieldnames mt)).

Definition code_pos (w : string * code * nat) : bool :=
  let '(_, c, L) := w in
  bool_decide (0 < code_size c)%nat && bool_decide (0 < L)%nat &&
  negb (is_cs c && negb (bool_decide (L = 1)%nat)) && negb (bool_decide (c = Cc)).

(** What the code generator guarantees of a class and the proofs rely on. *)
Record consistent (mt : msgtype) : Prop := {
  co_endian : fst <$> parse_format (unpacker mt) = Some Little;
  co_lengths : length (ordered_fieldnames mt) = length (lengths mt);
  co_length_orders : length (orders mt) = length (lengths mt);
  co_codes : codes_of mt = concat (map expand (wire mt));
  co_pack : pack_args mt = map expected_arg (wire mt);
  co_init : init_body mt = expected_init mt;
  co_orders : map Some (fieldnames mt) = map (fun o => ordered_fieldnames mt !! o) (orders mt);
  co_nodup : NoDup (fieldnames mt);
  co_nodup_wire : NoDup (ordered_fieldnames mt);
  co_incl : Forall (fun f => f ∈ fieldnames mt) (ordered_fieldnames mt);
  co_raw : Forall (fun f => raw f ∉ fieldnames mt) (fieldnames mt);
  co_pos : Forall (fun w => code_pos w = true) (wire mt);
  co_size : (0 < unpacker_size mt <= 255)%nat;
  co_crc : is_byte (crc_extra mt) = true
}.

Definition msgtype_ok (mt : msgtype) : bool :=
  bool_decide (fst <$> parse_format (unpacker mt) = Some Little) &&
  bool_decide (length (ordered_fieldnames mt) = length (lengths mt)) &&
  bool_decide (length (orders mt) = length (lengths mt)) &&
  bool_decide (codes_of mt = concat (map expand (wire mt))) &&
  bool_decide (pack_args mt = map expected_arg (wire mt)) &&
  bool_decide (init_body mt = expected_init mt) &&
  bool_decide (map Some (fieldnames mt) = map (fun o => ordered_fieldnames mt !! o) (orders mt)) &&
  bool_decide (NoDup (fieldnames mt)) &&
  bool_decide (NoDup (ordered_fieldnames mt)) &&
  bool_decide (Forall (fun f => f ∈ fieldnames mt) (ordered_fieldnames mt)) &&
  bool_decide (Forall (fun f => raw f ∉ fieldnames mt) (fieldnames mt)) &&
  bool_decide (Forall (fun w => code_pos w = true) (wire mt)) &&
  bool_decide (0 < unpacker_size mt <= 255)%nat &&
  is_byte (crc_extra mt).

Lemma msgtype_ok_consistent mt : msgtype_ok mt = true -> consistent mt.
Proof.
  unfold msgtype_ok. rewrite !andb_true_iff, !bool_decide_eq_true. intros H.
  split; tauto.
Qed.

(** The argument [a] is representable in the wire field [(c, L)]; a char
    array may be shorter than its field. *)
Definition arg_fits (c : code) (L : nat) (a : fval) : Prop :=
  match a with
  | FScalar (PBytes b) => L = 1%nat /\ exists n, c = Cs n /\ (length b <= n)%nat /\ bytes_ok b
  | FScalar v => L = 1%nat /\ fits c v
  | FArray l => (L <> 1)%nat /\ length l = L /\ Forall (fits c) l
  end.

Definition args_fit (mt : msgtype) (args : list fval) : Prop :=
  length args = length (fieldnames mt) /\
  Forall (fun '(f, c, L) => exists a, arg_of (fieldnames mt) args f = Some a /\ arg_fits c L a)
    (wire mt).

End MavMessage.
