(* ===== verification/MavCatalog1.v ===== *)
(** The message classes SYS_STATUS to COMMAND_ACK of
    wfb_ng/mavlink.py (part 1 of the catalogue), one [msgtype] per class, in
    the order of the file.  The docstrings and the unit table of a class, which
    no code of the program reads, are left out. *)
From Stdlib Require Import ZArith.
From stdpp Require Import base list strings.
From S2P Require Import Prelude.
From S2P Require Import PyStruct.
From S2P Require Import MavMessage.

Module MavCatalog1.
Import PyStruct MavMessage.
#[local] Open Scope string_scope.
#[local] Open Scope nat_scope.
#[local] Open Scope list_scope.

Definition MAVLink_sys_status_message : msgtype :=
  {| mt_id := 1;
     msgname := "SYS_STATUS";
     fieldnames := ["onboard_control_sensors_present"; "onboard_control_sensors_enabled";
       "onboard_control_sensors_health"; "load"; "voltage_battery"; "current_battery";
       "battery_remaining"; "drop_rate_comm"; "errors_comm"; "errors_count1"; "errors_count2";
       "errors_count3"; "errors_count4"; "onboard_control_sensors_present_extended";
       "onboard_control_sensors_enabled_extended"; "onboard_control_sensors_health_extended"];
     ordered_fieldnames := ["onboard_control_sensors_present"; "onboard_control_sensors_enabled";
       "onboard_control_sensors_health"; "load"; "voltage_battery"; "current_battery";
       "drop_rate_comm"; "errors_comm"; "errors_count1"; "errors_count2"; "errors_count3";
       "errors_count4"; "battery_remaining"; "onboard_control_sensors_present_extended";
       "onboard_control_sensors_enabled_extended"; "onboard_control_sensors_health_extended"];
     fieldtypes := ["uint32_t"; "uint32_t"; "uint32_t"; "uint16_t"; "uint16_t"; "int16_t"; "int8_t";
       "uint16_t"; "uint16_t"; "uint16_t"; "uint16_t"; "uint16_t"; "uint16_t"; "uint32_t";
       "uint32_t"; "uint32_t"];
     fielddisplays_by_name := [("onboard_control_sensors_present", "bitmask");
       ("onboard_control_sensors_enabled", "bitmask"); ("onboard_control_sensors_health",
       "bitmask"); ("onboard_control_sensors_present_extended", "bitmask");
       ("onboard_control_sensors_enabled_extended", "bitmask");
       ("onboard_control_sensors_health_extended", "bitmask")];
     fieldenums_by_name := [("onboard_control_sensors_present", "MAV_SYS_STATUS_SENSOR");
       ("onboard_control_sensors_enabled", "MAV_SYS_STATUS_SENSOR");
       ("onboard_control_sensors_health", "MAV_SYS_STATUS_SENSOR");
       ("onboard_control_sensors_present_extended", "MAV_SYS_STATUS_SENSOR_EXTENDED");
       ("onboard_control_sensors_enabled_extended", "MAV_SYS_STATUS_SENSOR_EXTENDED");
       ("onboard_control_sensors_health_extended", "MAV_SYS_STATUS_SENSOR_EXTENDED")];
     native_format := "<IIIHHhHHHHHHbIII";
     orders := [0; 1; 2; 3; 4; 5; 12; 6; 7; 8; 9; 10; 11; 13; 14; 15];
     lengths := [1; 1; 1; 1; 1; 1; 1; 1; 1; 1; 1; 1; 1; 1; 1; 1];
     array_lengths := [0; 0; 0; 0; 0; 0; 0; 0; 0; 0; 0; 0; 0; 0; 0; 0];
     crc_extra := 124;
     unpacker := "<IIIHHhHHHHHHbIII";
     init_defaults := [FScalar (PInt 0); FScalar (PInt 0); FScalar (PInt 0)];
     init_body := [SetArg "onboard_control_sensors_present";
       SetArg "onboard_control_sensors_enabled"; SetArg "onboard_control_sensors_health";
       SetArg "load"; SetArg "voltage_battery"; SetArg "current_battery";
       SetArg "battery_remaining"; SetArg "drop_rate_comm"; SetArg "errors_comm";
       SetArg "errors_count1"; SetArg "errors_count2"; SetArg "errors_count3";
       SetArg "errors_count4"; SetArg "onboard_control_sensors_present_extended";
       SetArg "onboard_control_sensors_enabled_extended";
       SetArg "onboard_control_sensors_health_extended"];
     pack_args := [PA "onboard_control_sensors_present"; PA "onboard_control_sensors_enabled";
       PA "onboard_control_sensors_health"; PA "load"; PA "voltage_battery"; PA "current_battery";
       PA "drop_rate_comm"; PA "errors_comm"; PA "errors_count1"; PA "errors_count2";
       PA "errors_count3"; PA "errors_count4"; PA "battery_remaining";
       PA "onboard_control_sensors_present_extended"; PA "onboard_control_sensors_enabled_extended";
       PA "onboard_control_sensors_health_extended"] |}.

Definition MAVLink_system_time_message : msgtype :=
  {| mt_id := 2;
     msgname := "SYSTEM_TIME";
     fieldnames := ["time_unix_usec"; "time_boot_ms"];
     ordered_fieldnames := ["time_unix_usec"; "time_boot_ms"];
     fieldtypes := ["uint64_t"; "uint32_t"];
     fielddisplays_by_name := [];
     fieldenums_by_name := [];
     native_format := "<QI";
     orders := [0; 1];
     lengths := [1; 1];
     array_lengths := [0; 0];
     crc_extra := 137;
     unpacker := "<QI";
     init_defaults := [];
     init_body := [SetArg "time_unix_usec"; SetArg "time_boot_ms"];
     pack_args := [PA "time_unix_usec"; PA "time_boot_ms"] |}.

Definition MAVLink_ping_message : msgtype :=
  {| mt_id := 4;
     msgname := "PING";
     fieldnames := ["time_usec"; "seq"; "target_system"; "target_component"];
     ordered_fieldnames := ["time_usec"; "seq"; "target_system"; "target_component"];
     fieldtypes := ["uint64_t"; "uint32_t"; "uint8_t"; "uint8_t"];
     fielddisplays_by_name := [];
     fieldenums_by_name := [];
     native_format := "<QIBB";
     orders := [0; 1; 2; 3];
     lengths := [1; 1; 1; 1];
     array_lengths := [0; 0; 0; 0];
     crc_extra := 237;
     unpacker := "<QIBB";
     init_defaults := [];
     init_body := [SetArg "time_usec"; SetArg "seq"; SetArg "target_system";
       SetArg "target_component"];
     pack_args := [PA "time_usec"; PA "seq"; PA "target_system"; PA "target_component"] |}.

Definition MAVLink_change_operator_control_message : msgtype :=
  {| mt_id := 5;
     msgname := "CHANGE_OPERATOR_CONTROL";
     fieldnames := ["target_system"; "control_request"; "version"; "passkey"];
     ordered_fieldnames := ["target_system"; "control_request"; "version"; "passkey"];
     fieldtypes := ["uint8_t"; "uint8_t"; "uint8_t"; "char"];
     fielddisplays_by_name := [];
     fieldenums_by_name := [];
     native_format := "<BBBc";
     orders := [0; 1; 2; 3];
     lengths := [1; 1; 1; 1];
     array_lengths := [0; 0; 0; 25];
     crc_extra := 217;
     unpacker := "<BBB25s";
     init_defaults := [];
     init_body := [SetArg "target_system"; SetArg "control_request"; SetArg "version";
       SetRaw "passkey"; SetStr "passkey"];
     pack_args := [PA "target_system"; PA "control_request"; PA "version"; PRaw "passkey"] |}.

Definition MAVLink_change_operator_control_ack_message : msgtype :=
  {| mt_id := 6;
     msgname := "CHANGE_OPERATOR_CONTROL_ACK";
     fieldnames := ["gcs_system_id"; "control_request"; "ack"];
     ordered_fieldnames := ["gcs_system_id"; "control_request"; "ack"];
     fieldtypes := ["uint8_t"; "uint8_t"; "uint8_t"];
     fielddisplays_by_name := [];
     fieldenums_by_name := [];
     native_format := "<BBB";
     orders := [0; 1; 2];
     lengths := [1; 1; 1];
     array_lengths := [0; 0; 0];
     crc_extra := 104;
     unpacker := "<BBB";
     init_defaults := [];
     init_body := [SetArg "gcs_system_id"; SetArg "control_request"; SetArg "ack"];
     pack_args := [PA "gcs_system_id"; PA "control_request"; PA "ack"] |}.

Definition MAVLink_auth_key_message : msgtype :=
  {| mt_id := 7;
     msgname := "AUTH_KEY";
     fieldnames := ["key"];
     ordered_fieldnames := ["key"];
     fieldtypes := ["char"];
     fielddisplays_by_name := [];
     fieldenums_by_name := [];
     native_format := "<c";
     orders := [0];
     lengths := [1];
     array_lengths := [32];
     crc_extra := 119;
     unpacker := "<32s";
     init_defaults := [];
     init_body := [SetRaw "key"; SetStr "key"];
     pack_args := [PRaw "key"] |}.

Definition MAVLink_link_node_status_message : msgtype :=
  {| mt_id := 8;
     msgname := "LINK_NODE_STATUS";
     fieldnames := ["timestamp"; "tx_buf"; "rx_buf"; "tx_rate"; "rx_rate"; "rx_parse_err";
       "tx_overflows"; "rx_overflows"; "messages_sent"; "messages_received"; "messages_lost"];
     ordered_fieldnames := ["timestamp"; "tx_rate"; "rx_rate"; "messages_sent"; "messages_received";
       "messages_lost"; "rx_parse_err"; "tx_overflows"; "rx_overflows"; "tx_buf"; "rx_buf"];
     fieldtypes := ["uint64_t"; "uint8_t"; "uint8_t"; "uint32_t"; "uint32_t"; "uint16_t";
       "uint16_t"; "uint16_t"; "uint32_t"; "uint32_t"; "uint32_t"];
     fielddisplays_by_name := [];
     fieldenums_by_name := [];
     native_format := "<QIIIIIHHHBB";
     orders := [0; 9; 10; 1; 2; 6; 7; 8; 3; 4; 5];
     lengths := [1; 1; 1; 1; 1; 1; 1; 1; 1; 1; 1];
     array_lengths := [0; 0; 0; 0; 0; 0; 0; 0; 0; 0; 0];
     crc_extra := 117;
     unpacker := "<QIIIIIHHHBB";
     init_defaults := [];
     init_body := [SetArg "timestamp"; SetArg "tx_buf"; SetArg "rx_buf"; SetArg "tx_rate";
       SetArg "rx_rate"; SetArg "rx_parse_err"; SetArg "tx_overflows"; SetArg "rx_overflows";
       SetArg "messages_sent"; SetArg "messages_received"; SetArg "messages_lost"];
     pack_args := [PA "timestamp"; PA "tx_rate"; PA "rx_rate"; PA "messages_sent";
       PA "messages_received"; PA "messages_lost"; PA "rx_parse_err"; PA "tx_overflows";
       PA "rx_overflows"; PA "tx_buf"; PA "rx_buf"] |}.

Definition MAVLink_set_mode_message : msgtype :=
  {| mt_id := 11;
     msgname := "SET_MODE";
     fieldnames := ["target_system"; "base_mode"; "custom_mode"];
     ordered_fieldnames := ["custom_mode"; "target_system"; "base_mode"];
     fieldtypes := ["uint8_t"; "uint8_t"; "uint32_t"];
     fielddisplays_by_name := [];
     fieldenums_by_name := [("base_mode", "MAV_MODE")];
     native_format := "<IBB";
     orders := [1; 2; 0];
     lengths := [1; 1; 1];
     array_lengths := [0; 0; 0];
     crc_extra := 89;
     unpacker := "<IBB";
     init_defaults := [];
     init_body := [SetArg "target_system"; SetArg "base_mode"; SetArg "custom_mode"];
     pack_args := [PA "custom_mode"; PA "target_system"; PA "base_mode"] |}.

Definition MAVLink_param_request_read_message : msgtype :=
  {| mt_id := 20;
     msgname := "PARAM_REQUEST_READ";
     fieldnames := ["target_system"; "target_component"; "param_id"; "param_index"];
     ordered_fieldnames := ["param_index"; "target_system"; "target_component"; "param_id"];
     fieldtypes := ["uint8_t"; "uint8_t"; "char"; "int16_t"];
     fielddisplays_by_name := [];
     fieldenums_by_name := [];
     native_format := "<hBBc";
     orders := [1; 2; 3; 0];
     lengths := [1; 1; 1; 1];
     array_lengths := [0; 0; 0; 16];
     crc_extra := 214;
     unpacker := "<hBB16s";
     init_defaults := [];
     init_body := [SetArg "target_system"; SetArg "target_component"; SetRaw "param_id";
       SetStr "param_id"; SetArg "param_index"];
     pack_args := [PA "param_index"; PA "target_system"; PA "target_component"; PRaw "param_id"] |}.

Definition MAVLink_param_request_list_message : msgtype :=
  {| mt_id := 21;
     msgname := "PARAM_REQUEST_LIST";
     fieldnames := ["target_system"; "target_component"];
     ordered_fieldnames := ["target_system"; "target_component"];
     fieldtypes := ["uint8_t"; "uint8_t"];
     fielddisplays_by_name := [];
     fieldenums_by_name := [];
     native_format := "<BB";
     orders := [0; 1];
     lengths := [1; 1];
     array_lengths := [0; 0];
     crc_extra := 159;
     unpacker := "<BB";
     init_defaults := [];
     init_body := [SetArg "target_system"; SetArg "target_component"];
     pack_args := [PA "target_system"; PA "target_component"] |}.

Definition MAVLink_param_value_message : msgtype :=
  {| mt_id := 22;
     msgname := "PARAM_VALUE";
     fieldnames := ["param_id"; "param_value"; "param_type"; "param_count"; "param_index"];
     ordered_fieldnames := ["param_value"; "param_count"; "param_index"; "param_id"; "param_type"];
     fieldtypes := ["char"; "float"; "uint8_t"; "uint16_t"; "uint16_t"];
     fielddisplays_by_name := [];
     fieldenums_by_name := [("param_type", "MAV_PARAM_TYPE")];
     native_format := "<fHHcB";
     orders := [3; 0; 4; 1; 2];
     lengths := [1; 1; 1; 1; 1];
     array_lengths := [0; 0; 0; 16; 0];
     crc_extra := 220;
     unpacker := "<fHH16sB";
     init_defaults := [];
     init_body := [SetRaw "param_id"; SetStr "param_id"; SetArg "param_value"; SetArg "param_type";
       SetArg "param_count"; SetArg "param_index"];
     pack_args := [PA "param_value"; PA "param_count"; PA "param_index"; PRaw "param_id";
       PA "param_type"] |}.

Definition MAVLink_param_set_message : msgtype :=
  {| mt_id := 23;
     msgname := "PARAM_SET";
     fieldnames := ["target_system"; "target_component"; "param_id"; "param_value"; "param_type"];
     ordered_fieldnames := ["param_value"; "target_system"; "target_component"; "param_id";
       "param_type"];
     fieldtypes := ["uint8_t"; "uint8_t"; "char"; "float"; "uint8_t"];
     fielddisplays_by_name := [];
     fieldenums_by_name := [("param_type", "MAV_PARAM_TYPE")];
     native_format := "<fBBcB";
     orders := [1; 2; 3; 0; 4];
     lengths := [1; 1; 1; 1; 1];
     array_lengths := [0; 0; 0; 16; 0];
     crc_extra := 168;
     unpacker := "<fBB16sB";
     init_defaults := [];
     init_body := [SetArg "target_system"; SetArg "target_component"; SetRaw "param_id";
       SetStr "param_id"; SetArg "param_value"; SetArg "param_type"];
     pack_args := [PA "param_value"; PA "target_system"; PA "target_component"; PRaw "param_id";
       PA "param_type"] |}.

Definition MAVLink_gps_raw_int_message : msgtype :=
  {| mt_id := 24;
     msgname := "GPS_RAW_INT";
     fieldnames := ["time_usec"; "fix_type"; "lat"; "lon"; "alt"; "eph"; "epv"; "vel"; "cog";
       "satellites_visible"; "alt_ellipsoid"; "h_acc"; "v_acc"; "vel_acc"; "hdg_acc"; "yaw"];
     ordered_fieldnames := ["time_usec"; "lat"; "lon"; "alt"; "eph"; "epv"; "vel"; "cog";
       "fix_type"; "satellites_visible"; "alt_ellipsoid"; "h_acc"; "v_acc"; "vel_acc"; "hdg_acc";
       "yaw"];
     fieldtypes := ["uint64_t"; "uint8_t"; "int32_t"; "int32_t"; "int32_t"; "uint16_t"; "uint16_t";
       "uint16_t"; "uint16_t"; "uint8_t"; "int32_t"; "uint32_t"; "uint32_t"; "uint32_t"; "uint32_t";
       "uint16_t"];
     fielddisplays_by_name := [];
     fieldenums_by_name := [("fix_type", "GPS_FIX_TYPE")];
     native_format := "<QiiiHHHHBBiIIIIH";
     orders := [0; 8; 1; 2; 3; 4; 5; 6; 7; 9; 10; 11; 12; 13; 14; 15];
     lengths := [1; 1; 1; 1; 1; 1; 1; 1; 1; 1; 1; 1; 1; 1; 1; 1];
     array_lengths := [0; 0; 0; 0; 0; 0; 0; 0; 0; 0; 0; 0; 0; 0; 0; 0];
     crc_extra := 24;
     unpacker := "<QiiiHHHHBBiIIIIH";
     init_defaults := [FScalar (PInt 0); FScalar (PInt 0); FScalar (PInt 0); FScalar (PInt 0);
       FScalar (PInt 0); FScalar (PInt 0)];
     init_body := [SetArg "time_usec"; SetArg "fix_type"; SetArg "lat"; SetArg "lon"; SetArg "alt";
       SetArg "eph"; SetArg "epv"; SetArg "vel"; SetArg "cog"; SetArg "satellites_visible";
       SetArg "alt_ellipsoid"; SetArg "h_acc"; SetArg "v_acc"; SetArg "vel_acc"; SetArg "hdg_acc";
       SetArg "yaw"];
     pack_args := [PA "time_usec"; PA "lat"; PA "lon"; PA "alt"; PA "eph"; PA "epv"; PA "vel";
       PA "cog"; PA "fix_type"; PA "satellites_visible"; PA "alt_ellipsoid"; PA "h_acc"; PA "v_acc";
       PA "vel_acc"; PA "hdg_acc"; PA "yaw"] |}.

Definition MAVLink_gps_status_message : msgtype :=
  {| mt_id := 25;
     msgname := "GPS_STATUS";
     fieldnames := ["satellites_visible"; "satellite_prn"; "satellite_used"; "satellite_elevation";
       "satellite_azimuth"; "satellite_snr"];
     ordered_fieldnames := ["satellites_visible"; "satellite_prn"; "satellite_used";
       "satellite_elevation"; "satellite_azimuth"; "satellite_snr"];
     fieldtypes := ["uint8_t"; "uint8_t"; "uint8_t"; "uint8_t"; "uint8_t"; "uint8_t"];
     fielddisplays_by_name := [];
     fieldenums_by_name := [];
     native_format := "<BBBBBB";
     orders := [0; 1; 2; 3; 4; 5];
     lengths := [1; 20; 20; 20; 20; 20];
     array_lengths := [0; 20; 20; 20; 20; 20];
     crc_extra := 23;
     unpacker := "<B20B20B20B20B20B";
     init_defaults := [];
     init_body := [SetArg "satellites_visible"; SetArg "satellite_prn"; SetArg "satellite_used";
       SetArg "satellite_elevation"; SetArg "satellite_azimuth"; SetArg "satellite_snr"];
     pack_args := [PA "satellites_visible"; PRun "satellite_prn" 20; PRun "satellite_used" 20;
       PRun "satellite_elevation" 20; PRun "satellite_azimuth" 20; PRun "satellite_snr" 20] |}.

Definition MAVLink_scaled_imu_message : msgtype :=
  {| mt_id := 26;
     msgname := "SCALED_IMU";
     fieldnames := ["time_boot_ms"; "xacc"; "yacc"; "zacc"; "xgyro"; "ygyro"; "zgyro"; "xmag";
       "ymag"; "zmag"; "temperature"];
     ordered_fieldnames := ["time_boot_ms"; "xacc"; "yacc"; "zacc"; "xgyro"; "ygyro"; "zgyro";
       "xmag"; "ymag"; "zmag"; "temperature"];
     fieldtypes := ["uint32_t"; "int16_t"; "int16_t"; "int16_t"; "int16_t"; "int16_t"; "int16_t";
       "int16_t"; "int16_t"; "int16_t"; "int16_t"];
     fielddisplays_by_name := [];
     fieldenums_by_name := [];
     native_format := "<Ihhhhhhhhhh";
     orders := [0; 1; 2; 3; 4; 5; 6; 7; 8; 9; 10];
     lengths := [1; 1; 1; 1; 1; 1; 1; 1; 1; 1; 1];
     array_lengths := [0; 0; 0; 0; 0; 0; 0; 0; 0; 0; 0];
     crc_extra := 170;
     unpacker := "<Ihhhhhhhhhh";
     init_defaults := [FScalar (PInt 0)];
     init_body := [SetArg "time_boot_ms"; SetArg "xacc"; SetArg "yacc"; SetArg "zacc";
       SetArg "xgyro"; SetArg "ygyro"; SetArg "zgyro"; SetArg "xmag"; SetArg "ymag"; SetArg "zmag";
       SetArg "temperature"];
     pack_args := [PA "time_boot_ms"; PA "xacc"; PA "yacc"; PA "zacc"; PA "xgyro"; PA "ygyro";
       PA "zgyro"; PA "xmag"; PA "ymag"; PA "zmag"; PA "temperature"] |}.

Definition MAVLink_raw_imu_message : msgtype :=
  {| mt_id := 27;
     msgname := "RAW_IMU";
     fieldnames := ["time_usec"; "xacc"; "yacc"; "zacc"; "xgyro"; "ygyro"; "zgyro"; "xmag"; "ymag";
       "zmag"; "id"; "temperature"];
     ordered_fieldnames := ["time_usec"; "xacc"; "yacc"; "zacc"; "xgyro"; "ygyro"; "zgyro"; "xmag";
       "ymag"; "zmag"; "id"; "temperature"];
     fieldtypes := ["uint64_t"; "int16_t"; "int16_t"; "int16_t"; "int16_t"; "int16_t"; "int16_t";
       "int16_t"; "int16_t"; "int16_t"; "uint8_t"; "int16_t"];
     fielddisplays_by_name := [];
     fieldenums_by_name := [];
     native_format := "<QhhhhhhhhhBh";
     orders := [0; 1; 2; 3; 4; 5; 6; 7; 8; 9; 10; 11];
     lengths := [1; 1; 1; 1; 1; 1; 1; 1; 1; 1; 1; 1];
     array_lengths := [0; 0; 0; 0; 0; 0; 0; 0; 0; 0; 0; 0];
     crc_extra := 144;
     unpacker := "<QhhhhhhhhhBh";
     init_defaults := [FScalar (PInt 0); FScalar (PInt 0)];
     init_body := [SetArg "time_usec"; SetArg "xacc"; SetArg "yacc"; SetArg "zacc"; SetArg "xgyro";
       SetArg "ygyro"; SetArg "zgyro"; SetArg "xmag"; SetArg "ymag"; SetArg "zmag"; SetArg "id";
       SetArg "temperature"];
     pack_args := [PA "time_usec"; PA "xacc"; PA "yacc"; PA "zacc"; PA "xgyro"; PA "ygyro";
       PA "zgyro"; PA "xmag"; PA "ymag"; PA "zmag"; PA "id"; PA "temperature"] |}.

Definition MAVLink_raw_pressure_message : msgtype :=
  {| mt_id := 28;
     msgname := "RAW_PRESSURE";
     fieldnames := ["time_usec"; "press_abs"; "press_diff1"; "press_diff2"; "temperature"];
     ordered_fieldnames := ["time_usec"; "press_abs"; "press_diff1"; "press_diff2"; "temperature"];
     fieldtypes := ["uint64_t"; "int16_t"; "int16_t"; "int16_t"; "int16_t"];
     fielddisplays_by_name := [];
     fieldenums_by_name := [];
     native_format := "<Qhhhh";
     orders := [0; 1; 2; 3; 4];
     lengths := [1; 1; 1; 1; 1];
     array_lengths := [0; 0; 0; 0; 0];
     crc_extra := 67;
     unpacker := "<Qhhhh";
     init_defaults := [];
     init_body := [SetArg "time_usec"; SetArg "press_abs"; SetArg "press_diff1";
       SetArg "press_diff2"; SetArg "temperature"];
     pack_args := [PA "time_usec"; PA "press_abs"; PA "press_diff1"; PA "press_diff2";
       PA "temperature"] |}.

Definition MAVLink_scaled_pressure_message : msgtype :=
  {| mt_id := 29;
     msgname := "SCALED_PRESSURE";
     fieldnames := ["time_boot_ms"; "press_abs"; "press_diff"; "temperature";
       "temperature_press_diff"];
     ordered_fieldnames := ["time_boot_ms"; "press_abs"; "press_diff"; "temperature";
       "temperature_press_diff"];
     fieldtypes := ["uint32_t"; "float"; "float"; "int16_t"; "int16_t"];
     fielddisplays_by_name := [];
     fieldenums_by_name := [];
     native_format := "<Iffhh";
     orders := [0; 1; 2; 3; 4];
     lengths := [1; 1; 1; 1; 1];
     array_lengths := [0; 0; 0; 0; 0];
     crc_extra := 115;
     unpacker := "<Iffhh";
     init_defaults := [FScalar (PInt 0)];
     init_body := [SetArg "time_boot_ms"; SetArg "press_abs"; SetArg "press_diff";
       SetArg "temperature"; SetArg "temperature_press_diff"];
     pack_args := [PA "time_boot_ms"; PA "press_abs"; PA "press_diff"; PA "temperature";
       PA "temperature_press_diff"] |}.

Definition MAVLink_attitude_message : msgtype :=
  {| mt_id := 30;
     msgname := "ATTITUDE";
     fieldnames := ["time_boot_ms"; "roll"; "pitch"; "yaw"; "rollspeed"; "pitchspeed"; "yawspeed"];
     ordered_fieldnames := ["time_boot_ms"; "roll"; "pitch"; "yaw"; "rollspeed"; "pitchspeed";
       "yawspeed"];
     fieldtypes := ["uint32_t"; "float"; "float"; "float"; "float"; "float"; "float"];
     fielddisplays_by_name := [];
     fieldenums_by_name := [];
     native_format := "<Iffffff";
     orders := [0; 1; 2; 3; 4; 5; 6];
     lengths := [1; 1; 1; 1; 1; 1; 1];
     array_lengths := [0; 0; 0; 0; 0; 0; 0];
     crc_extra := 39;
     unpacker := "<Iffffff";
     init_defaults := [];
     init_body := [SetArg "time_boot_ms"; SetArg "roll"; SetArg "pitch"; SetArg "yaw";
       SetArg "rollspeed"; SetArg "pitchspeed"; SetArg "yawspeed"];
     pack_args := [PA "time_boot_ms"; PA "roll"; PA "pitch"; PA "yaw"; PA "rollspeed";
       PA "pitchspeed"; PA "yawspeed"] |}.

Definition MAVLink_attitude_quaternion_message : msgtype :=
  {| mt_id := 31;
     msgname := "ATTITUDE_QUATERNION";
     fieldnames := ["time_boot_ms"; "q1"; "q2"; "q3"; "q4"; "rollspeed"; "pitchspeed"; "yawspeed";
       "repr_offset_q"];
     ordered_fieldnames := ["time_boot_ms"; "q1"; "q2"; "q3"; "q4"; "rollspeed"; "pitchspeed";
       "yawspeed"; "repr_offset_q"];
     fieldtypes := ["uint32_t"; "float"; "float"; "float"; "float"; "float"; "float"; "float";
       "float"];
     fielddisplays_by_name := [];
     fieldenums_by_name := [];
     native_format := "<Iffffffff";
     orders := [0; 1; 2; 3; 4; 5; 6; 7; 8];
     lengths := [1; 1; 1; 1; 1; 1; 1; 1; 4];
     array_lengths := [0; 0; 0; 0; 0; 0; 0; 0; 4];
     crc_extra := 246;
     unpacker := "<Ifffffff4f";
     init_defaults := [FArray (replicate 4 (PInt 0))];
     init_body := [SetArg "time_boot_ms"; SetArg "q1"; SetArg "q2"; SetArg "q3"; SetArg "q4";
       SetArg "rollspeed"; SetArg "pitchspeed"; SetArg "yawspeed"; SetArg "repr_offset_q"];
     pack_args := [PA "time_boot_ms"; PA "q1"; PA "q2"; PA "q3"; PA "q4"; PA "rollspeed";
       PA "pitchspeed"; PA "yawspeed"; PRun "repr_offset_q" 4] |}.

Definition MAVLink_local_position_ned_message : msgtype :=
  {| mt_id := 32;
     msgname := "LOCAL_POSITION_NED";
     fieldnames := ["time_boot_ms"; "x"; "y"; "z"; "vx"; "vy"; "vz"];
     ordered_fieldnames := ["time_boot_ms"; "x"; "y"; "z"; "vx"; "vy"; "vz"];
     fieldtypes := ["uint32_t"; "float"; "float"; "float"; "float"; "float"; "float"];
     fielddisplays_by_name := [];
     fieldenums_by_name := [];
     native_format := "<Iffffff";
     orders := [0; 1; 2; 3; 4; 5; 6];
     lengths := [1; 1; 1; 1; 1; 1; 1];
     array_lengths := [0; 0; 0; 0; 0; 0; 0];
     crc_extra := 185;
     unpacker := "<Iffffff";
     init_defaults := [];
     init_body := [SetArg "time_boot_ms"; SetArg "x"; SetArg "y"; SetArg "z"; SetArg "vx";
       SetArg "vy"; SetArg "vz"];
     pack_args := [PA "time_boot_ms"; PA "x"; PA "y"; PA "z"; PA "vx"; PA "vy"; PA "vz"] |}.

Definition MAVLink_global_position_int_message : msgtype :=
  {| mt_id := 33;
     msgname := "GLOBAL_POSITION_INT";
     fieldnames := ["time_boot_ms"; "lat"; "lon"; "alt"; "relative_alt"; "vx"; "vy"; "vz"; "hdg"];
     ordered_fieldnames := ["time_boot_ms"; "lat"; "lon"; "alt"; "relative_alt"; "vx"; "vy"; "vz";
       "hdg"];
     fieldtypes := ["uint32_t"; "int32_t"; "int32_t"; "int32_t"; "int32_t"; "int16_t"; "int16_t";
       "int16_t"; "uint16_t"];
     fielddisplays_by_name := [];
     fieldenums_by_name := [];
     native_format := "<IiiiihhhH";
     orders := [0; 1; 2; 3; 4; 5; 6; 7; 8];
     lengths := [1; 1; 1; 1; 1; 1; 1; 1; 1];
     array_lengths := [0; 0; 0; 0; 0; 0; 0; 0; 0];
     crc_extra := 104;
     unpacker := "<IiiiihhhH";
     init_defaults := [];
     init_body := [SetArg "time_boot_ms"; SetArg "lat"; SetArg "lon"; SetArg "alt";
       SetArg "relative_alt"; SetArg "vx"; SetArg "vy"; SetArg "vz"; SetArg "hdg"];
     pack_args := [PA "time_boot_ms"; PA "lat"; PA "lon"; PA "alt"; PA "relative_alt"; PA "vx";
       PA "vy"; PA "vz"; PA "hdg"] |}.

Definition MAVLink_rc_channels_scaled_message : msgtype :=
  {| mt_id := 34;
     msgname := "RC_CHANNELS_SCALED";
     fieldnames := ["time_boot_ms"; "port"; "chan1_scaled"; "chan2_scaled"; "chan3_scaled";
       "chan4_scaled"; "chan5_scaled"; "chan6_scaled"; "chan7_scaled"; "chan8_scaled"; "rssi"];
     ordered_fieldnames := ["time_boot_ms"; "chan1_scaled"; "chan2_scaled"; "chan3_scaled";
       "chan4_scaled"; "chan5_scaled"; "chan6_scaled"; "chan7_scaled"; "chan8_scaled"; "port";
       "rssi"];
     fieldtypes := ["uint32_t"; "uint8_t"; "int16_t"; "int16_t"; "int16_t"; "int16_t"; "int16_t";
       "int16_t"; "int16_t"; "int16_t"; "uint8_t"];
     fielddisplays_by_name := [];
     fieldenums_by_name := [];
     native_format := "<IhhhhhhhhBB";
     orders := [0; 9; 1; 2; 3; 4; 5; 6; 7; 8; 10];
     lengths := [1; 1; 1; 1; 1; 1; 1; 1; 1; 1; 1];
     array_lengths := [0; 0; 0; 0; 0; 0; 0; 0; 0; 0; 0];
     crc_extra := 237;
     unpacker := "<IhhhhhhhhBB";
     init_defaults := [];
     init_body := [SetArg "time_boot_ms"; SetArg "port"; SetArg "chan1_scaled";
       SetArg "chan2_scaled"; SetArg "chan3_scaled"; SetArg "chan4_scaled"; SetArg "chan5_scaled";
       SetArg "chan6_scaled"; SetArg "chan7_scaled"; SetArg "chan8_scaled"; SetArg "rssi"];
     pack_args := [PA "time_boot_ms"; PA "chan1_scaled"; PA "chan2_scaled"; PA "chan3_scaled";
       PA "chan4_scaled"; PA "chan5_scaled"; PA "chan6_scaled"; PA "chan7_scaled";
       PA "chan8_scaled"; PA "port"; PA "rssi"] |}.

Definition MAVLink_rc_channels_raw_message : msgtype :=
  {| mt_id := 35;
     msgname := "RC_CHANNELS_RAW";
     fieldnames := ["time_boot_ms"; "port"; "chan1_raw"; "chan2_raw"; "chan3_raw"; "chan4_raw";
       "chan5_raw"; "chan6_raw"; "chan7_raw"; "chan8_raw"; "rssi"];
     ordered_fieldnames := ["time_boot_ms"; "chan1_raw"; "chan2_raw"; "chan3_raw"; "chan4_raw";
       "chan5_raw"; "chan6_raw"; "chan7_raw"; "chan8_raw"; "port"; "rssi"];
     fieldtypes := ["uint32_t"; "uint8_t"; "uint16_t"; "uint16_t"; "uint16_t"; "uint16_t";
       "uint16_t"; "uint16_t"; "uint16_t"; "uint16_t"; "uint8_t"];
     fielddisplays_by_name := [];
     fieldenums_by_name := [];
     native_format := "<IHHHHHHHHBB";
     orders := [0; 9; 1; 2; 3; 4; 5; 6; 7; 8; 10];
     lengths := [1; 1; 1; 1; 1; 1; 1; 1; 1; 1; 1];
     array_lengths := [0; 0; 0; 0; 0; 0; 0; 0; 0; 0; 0];
     crc_extra := 244;
     unpacker := "<IHHHHHHHHBB";
     init_defaults := [];
     init_body := [SetArg "time_boot_ms"; SetArg "port"; SetArg "chan1_raw"; SetArg "chan2_raw";
       SetArg "chan3_raw"; SetArg "chan4_raw"; SetArg "chan5_raw"; SetArg "chan6_raw";
       SetArg "chan7_raw"; SetArg "chan8_raw"; SetArg "rssi"];
     pack_args := [PA "time_boot_ms"; PA "chan1_raw"; PA "chan2_raw"; PA "chan3_raw";
       PA "chan4_raw"; PA "chan5_raw"; PA "chan6_raw"; PA "chan7_raw"; PA "chan8_raw"; PA "port";
       PA "rssi"] |}.

Definition MAVLink_servo_output_raw_message : msgtype :=
  {| mt_id := 36;
     msgname := "SERVO_OUTPUT_RAW";
     fieldnames := ["time_usec"; "port"; "servo1_raw"; "servo2_raw"; "servo3_raw"; "servo4_raw";
       "servo5_raw"; "servo6_raw"; "servo7_raw"; "servo8_raw"; "servo9_raw"; "servo10_raw";
       "servo11_raw"; "servo12_raw"; "servo13_raw"; "servo14_raw"; "servo15_raw"; "servo16_raw"];
     ordered_fieldnames := ["time_usec"; "servo1_raw"; "servo2_raw"; "servo3_raw"; "servo4_raw";
       "servo5_raw"; "servo6_raw"; "servo7_raw"; "servo8_raw"; "port"; "servo9_raw"; "servo10_raw";
       "servo11_raw"; "servo12_raw"; "servo13_raw"; "servo14_raw"; "servo15_raw"; "servo16_raw"];
     fieldtypes := ["uint32_t"; "uint8_t"; "uint16_t"; "uint16_t"; "uint16_t"; "uint16_t";
       "uint16_t"; "uint16_t"; "uint16_t"; "uint16_t"; "uint16_t"; "uint16_t"; "uint16_t";
       "uint16_t"; "uint16_t"; "uint16_t"; "uint16_t"; "uint16_t"];
     fielddisplays_by_name := [];
     fieldenums_by_name := [];
     native_format := "<IHHHHHHHHBHHHHHHHH";
     orders := [0; 9; 1; 2; 3; 4; 5; 6; 7; 8; 10; 11; 12; 13; 14; 15; 16; 17];
     lengths := [1; 1; 1; 1; 1; 1; 1; 1; 1; 1; 1; 1; 1; 1; 1; 1; 1; 1];
     array_lengths := [0; 0; 0; 0; 0; 0; 0; 0; 0; 0; 0; 0; 0; 0; 0; 0; 0; 0];
     crc_extra := 222;
     unpacker := "<IHHHHHHHHBHHHHHHHH";
     init_defaults := [FScalar (PInt 0); FScalar (PInt 0); FScalar (PInt 0); FScalar (PInt 0);
       FScalar (PInt 0); FScalar (PInt 0); FScalar (PInt 0); FScalar (PInt 0)];
     init_body := [SetArg "time_usec"; SetArg "port"; SetArg "servo1_raw"; SetArg "servo2_raw";
       SetArg "servo3_raw"; SetArg "servo4_raw"; SetArg "servo5_raw"; SetArg "servo6_raw";
       SetArg "servo7_raw"; SetArg "servo8_raw"; SetArg "servo9_raw"; SetArg "servo10_raw";
       SetArg "servo11_raw"; SetArg "servo12_raw"; SetArg "servo13_raw"; SetArg "servo14_raw";
       SetArg "servo15_raw"; SetArg "servo16_raw"];
     pack_args := [PA "time_usec"; PA "servo1_raw"; PA "servo2_raw"; PA "servo3_raw";
       PA "servo4_raw"; PA "servo5_raw"; PA "servo6_raw"; PA "servo7_raw"; PA "servo8_raw";
       PA "port"; PA "servo9_raw"; PA "servo10_raw"; PA "servo11_raw"; PA "servo12_raw";
       PA "servo13_raw"; PA "servo14_raw"; PA "servo15_raw"; PA "servo16_raw"] |}.

Definition MAVLink_mission_request_partial_list_message : msgtype :=
  {| mt_id := 37;
     msgname := "MISSION_REQUEST_PARTIAL_LIST";
     fieldnames := ["target_system"; "target_component"; "start_index"; "end_index";
       "mission_type"];
     ordered_fieldnames := ["start_index"; "end_index"; "target_system"; "target_component";
       "mission_type"];
     fieldtypes := ["uint8_t"; "uint8_t"; "int16_t"; "int16_t"; "uint8_t"];
     fielddisplays_by_name := [];
     fieldenums_by_name := [("mission_type", "MAV_MISSION_TYPE")];
     native_format := "<hhBBB";
     orders := [2; 3; 0; 1; 4];
     lengths := [1; 1; 1; 1; 1];
     array_lengths := [0; 0; 0; 0; 0];
     crc_extra := 212;
     unpacker := "<hhBBB";
     init_defaults := [FScalar (PInt 0)];
     init_body := [SetArg "target_system"; SetArg "target_component"; SetArg "start_index";
       SetArg "end_index"; SetArg "mission_type"];
     pack_args := [PA "start_index"; PA "end_index"; PA "target_system"; PA "target_component";
       PA "mission_type"] |}.

Definition MAVLink_mission_write_partial_list_message : msgtype :=
  {| mt_id := 38;
     msgname := "MISSION_WRITE_PARTIAL_LIST";
     fieldnames := ["target_system"; "target_component"; "start_index"; "end_index";
       "mission_type"];
     ordered_fieldnames := ["start_index"; "end_index"; "target_system"; "target_component";
       "mission_type"];
     fieldtypes := ["uint8_t"; "uint8_t"; "int16_t"; "int16_t"; "uint8_t"];
     fielddisplays_by_name := [];
     fieldenums_by_name := [("mission_type", "MAV_MISSION_TYPE")];
     native_format := "<hhBBB";
     orders := [2; 3; 0; 1; 4];
     lengths := [1; 1; 1; 1; 1];
     array_lengths := [0; 0; 0; 0; 0];
     crc_extra := 9;
     unpacker := "<hhBBB";
     init_defaults := [FScalar (PInt 0)];
     init_body := [SetArg "target_system"; SetArg "target_component"; SetArg "start_index";
       SetArg "end_index"; SetArg "mission_type"];
     pack_args := [PA "start_index"; PA "end_index"; PA "target_system"; PA "target_component";
       PA "mission_type"] |}.

Definition MAVLink_mission_item_message : msgtype :=
  {| mt_id := 39;
     msgname := "MISSION_ITEM";
     fieldnames := ["target_system"; "target_component"; "seq"; "frame"; "command"; "current";
       "autocontinue"; "param1"; "param2"; "param3"; "param4"; "x"; "y"; "z"; "mission_type"];
     ordered_fieldnames := ["param1"; "param2"; "param3"; "param4"; "x"; "y"; "z"; "seq"; "command";
       "target_system"; "target_component"; "frame"; "current"; "autocontinue"; "mission_type"];
     fieldtypes := ["uint8_t"; "uint8_t"; "uint16_t"; "uint8_t"; "uint16_t"; "uint8_t"; "uint8_t";
       "float"; "float"; "float"; "float"; "float"; "float"; "float"; "uint8_t"];
     fielddisplays_by_name := [];
     fieldenums_by_name := [("frame", "MAV_FRAME"); ("command", "MAV_CMD"); ("mission_type",
       "MAV_MISSION_TYPE")];
     native_format := "<fffffffHHBBBBBB";
     orders := [9; 10; 7; 11; 8; 12; 13; 0; 1; 2; 3; 4; 5; 6; 14];
     lengths := [1; 1; 1; 1; 1; 1; 1; 1; 1; 1; 1; 1; 1; 1; 1];
     array_lengths := [0; 0; 0; 0; 0; 0; 0; 0; 0; 0; 0; 0; 0; 0; 0];
     crc_extra := 254;
     unpacker := "<fffffffHHBBBBBB";
     init_defaults := [FScalar (PInt 0)];
     init_body := [SetArg "target_system"; SetArg "target_component"; SetArg "seq"; SetArg "frame";
       SetArg "command"; SetArg "current"; SetArg "autocontinue"; SetArg "param1"; SetArg "param2";
       SetArg "param3"; SetArg "param4"; SetArg "x"; SetArg "y"; SetArg "z"; SetArg "mission_type"];
     pack_args := [PA "param1"; PA "param2"; PA "param3"; PA "param4"; PA "x"; PA "y"; PA "z";
       PA "seq"; PA "command"; PA "target_system"; PA "target_component"; PA "frame"; PA "current";
       PA "autocontinue"; PA "mission_type"] |}.

Definition MAVLink_mission_request_message : msgtype :=
  {| mt_id := 40;
     msgname := "MISSION_REQUEST";
     fieldnames := ["target_system"; "target_component"; "seq"; "mission_type"];
     ordered_fieldnames := ["seq"; "target_system"; "target_component"; "mission_type"];
     fieldtypes := ["uint8_t"; "uint8_t"; "uint16_t"; "uint8_t"];
     fielddisplays_by_name := [];
     fieldenums_by_name := [("mission_type", "MAV_MISSION_TYPE")];
     native_format := "<HBBB";
     orders := [1; 2; 0; 3];
     lengths := [1; 1; 1; 1];
     array_lengths := [0; 0; 0; 0];
     crc_extra := 230;
     unpacker := "<HBBB";
     init_defaults := [FScalar (PInt 0)];
     init_body := [SetArg "target_system"; SetArg "target_component"; SetArg "seq";
       SetArg "mission_type"];
     pack_args := [PA "seq"; PA "target_system"; PA "target_component"; PA "mission_type"] |}.

Definition MAVLink_mission_set_current_message : msgtype :=
  {| mt_id := 41;
     msgname := "MISSION_SET_CURRENT";
     fieldnames := ["target_system"; "target_component"; "seq"];
     ordered_fieldnames := ["seq"; "target_system"; "target_component"];
     fieldtypes := ["uint8_t"; "uint8_t"; "uint16_t"];
     fielddisplays_by_name := [];
     fieldenums_by_name := [];
     native_format := "<HBB";
     orders := [1; 2; 0];
     lengths := [1; 1; 1];
     array_lengths := [0; 0; 0];
     crc_extra := 28;
     unpacker := "<HBB";
     init_defaults := [];
     init_body := [SetArg "target_system"; SetArg "target_component"; SetArg "seq"];
     pack_args := [PA "seq"; PA "target_system"; PA "target_component"] |}.

Definition MAVLink_mission_current_message : msgtype :=
  {| mt_id := 42;
     msgname := "MISSION_CURRENT";
     fieldnames := ["seq"; "total"; "mission_state"; "mission_mode"];
     ordered_fieldnames := ["seq"; "total"; "mission_state"; "mission_mode"];
     fieldtypes := ["uint16_t"; "uint16_t"; "uint8_t"; "uint8_t"];
     fielddisplays_by_name := [];
     fieldenums_by_name := [("mission_state", "MISSION_STATE")];
     native_format := "<HHBB";
     orders := [0; 1; 2; 3];
     lengths := [1; 1; 1; 1];
     array_lengths := [0; 0; 0; 0];
     crc_extra := 28;
     unpacker := "<HHBB";
     init_defaults := [FScalar (PInt 0); FScalar (PInt 0); FScalar (PInt 0)];
     init_body := [SetArg "seq"; SetArg "total"; SetArg "mission_state"; SetArg "mission_mode"];
     pack_args := [PA "seq"; PA "total"; PA "mission_state"; PA "mission_mode"] |}.

Definition MAVLink_mission_request_list_message : msgtype :=
  {| mt_id := 43;
     msgname := "MISSION_REQUEST_LIST";
     fieldnames := ["target_system"; "target_component"; "mission_type"];
     ordered_fieldnames := ["target_system"; "target_component"; "mission_type"];
     fieldtypes := ["uint8_t"; "uint8_t"; "uint8_t"];
     fielddisplays_by_name := [];
     fieldenums_by_name := [("mission_type", "MAV_MISSION_TYPE")];
     native_format := "<BBB";
     orders := [0; 1; 2];
     lengths := [1; 1; 1];
     array_lengths := [0; 0; 0];
     crc_extra := 132;
     unpacker := "<BBB";
     init_defaults := [FScalar (PInt 0)];
     init_body := [SetArg "target_system"; SetArg "target_component"; SetArg "mission_type"];
     pack_args := [PA "target_system"; PA "target_component"; PA "mission_type"] |}.

Definition MAVLink_mission_count_message : msgtype :=
  {| mt_id := 44;
     msgname := "MISSION_COUNT";
     fieldnames := ["target_system"; "target_component"; "count"; "mission_type"];
     ordered_fieldnames := ["count"; "target_system"; "target_component"; "mission_type"];
     fieldtypes := ["uint8_t"; "uint8_t"; "uint16_t"; "uint8_t"];
     fielddisplays_by_name := [];
     fieldenums_by_name := [("mission_type", "MAV_MISSION_TYPE")];
     native_format := "<HBBB";
     orders := [1; 2; 0; 3];
     lengths := [1; 1; 1; 1];
     array_lengths := [0; 0; 0; 0];
     crc_extra := 221;
     unpacker := "<HBBB";
     init_defaults := [FScalar (PInt 0)];
     init_body := [SetArg "target_system"; SetArg "target_component"; SetArg "count";
       SetArg "mission_type"];
     pack_args := [PA "count"; PA "target_system"; PA "target_component"; PA "mission_type"] |}.

Definition MAVLink_mission_clear_all_message : msgtype :=
  {| mt_id := 45;
     msgname := "MISSION_CLEAR_ALL";
     fieldnames := ["target_system"; "target_component"; "mission_type"];
     ordered_fieldnames := ["target_system"; "target_component"; "mission_type"];
     fieldtypes := ["uint8_t"; "uint8_t"; "uint8_t"];
     fielddisplays_by_name := [];
     fieldenums_by_name := [("mission_type", "MAV_MISSION_TYPE")];
     native_format := "<BBB";
     orders := [0; 1; 2];
     lengths := [1; 1; 1];
     array_lengths := [0; 0; 0];
     crc_extra := 232;
     unpacker := "<BBB";
     init_defaults := [FScalar (PInt 0)];
     init_body := [SetArg "target_system"; SetArg "target_component"; SetArg "mission_type"];
     pack_args := [PA "target_system"; PA "target_component"; PA "mission_type"] |}.

Definition MAVLink_mission_item_reached_message : msgtype :=
  {| mt_id := 46;
     msgname := "MISSION_ITEM_REACHED";
     fieldnames := ["seq"];
     ordered_fieldnames := ["seq"];
     fieldtypes := ["uint16_t"];
     fielddisplays_by_name := [];
     fieldenums_by_name := [];
     native_format := "<H";
     orders := [0];
     lengths := [1];
     array_lengths := [0];
     crc_extra := 11;
     unpacker := "<H";
     init_defaults := [];
     init_body := [SetArg "seq"];
     pack_args := [PA "seq"] |}.

Definition MAVLink_mission_ack_message : msgtype :=
  {| mt_id := 47;
     msgname := "MISSION_ACK";
     fieldnames := ["target_system"; "target_component"; "type"; "mission_type"];
     ordered_fieldnames := ["target_system"; "target_component"; "type"; "mission_type"];
     fieldtypes := ["uint8_t"; "uint8_t"; "uint8_t"; "uint8_t"];
     fielddisplays_by_name := [];
     fieldenums_by_name := [("type", "MAV_MISSION_RESULT"); ("mission_type", "MAV_MISSION_TYPE")];
     native_format := "<BBBB";
     orders := [0; 1; 2; 3];
     lengths := [1; 1; 1; 1];
     array_lengths := [0; 0; 0; 0];
     crc_extra := 153;
     unpacker := "<BBBB";
     init_defaults := [FScalar (PInt 0)];
     init_body := [SetArg "target_system"; SetArg "target_component"; SetArg "type";
       SetArg "mission_type"];
     pack_args := [PA "target_system"; PA "target_component"; PA "type"; PA "mission_type"] |}.

Definition MAVLink_set_gps_global_origin_message : msgtype :=
  {| mt_id := 48;
     msgname := "SET_GPS_GLOBAL_ORIGIN";
     fieldnames := ["target_system"; "latitude"; "longitude"; "altitude"; "time_usec"];
     ordered_fieldnames := ["latitude"; "longitude"; "altitude"; "target_system"; "time_usec"];
     fieldtypes := ["uint8_t"; "int32_t"; "int32_t"; "int32_t"; "uint64_t"];
     fielddisplays_by_name := [];
     fieldenums_by_name := [];
     native_format := "<iiiBQ";
     orders := [3; 0; 1; 2; 4];
     lengths := [1; 1; 1; 1; 1];
     array_lengths := [0; 0; 0; 0; 0];
     crc_extra := 41;
     unpacker := "<iiiBQ";
     init_defaults := [FScalar (PInt 0)];
     init_body := [SetArg "target_system"; SetArg "latitude"; SetArg "longitude"; SetArg "altitude";
       SetArg "time_usec"];
     pack_args := [PA "latitude"; PA "longitude"; PA "altitude"; PA "target_system"; PA "time_usec"]
       |}.

Definition MAVLink_gps_global_origin_message : msgtype :=
  {| mt_id := 49;
     msgname := "GPS_GLOBAL_ORIGIN";
     fieldnames := ["latitude"; "longitude"; "altitude"; "time_usec"];
     ordered_fieldnames := ["latitude"; "longitude"; "altitude"; "time_usec"];
     fieldtypes := ["int32_t"; "int32_t"; "int32_t"; "uint64_t"];
     fielddisplays_by_name := [];
     fieldenums_by_name := [];
     native_format := "<iiiQ";
     orders := [0; 1; 2; 3];
     lengths := [1; 1; 1; 1];
     array_lengths := [0; 0; 0; 0];
     crc_extra := 39;
     unpacker := "<iiiQ";
     init_defaults := [FScalar (PInt 0)];
     init_body := [SetArg "latitude"; SetArg "longitude"; SetArg "altitude"; SetArg "time_usec"];
     pack_args := [PA "latitude"; PA "longitude"; PA "altitude"; PA "time_usec"] |}.

Definition MAVLink_param_map_rc_message : msgtype :=
  {| mt_id := 50;
     msgname := "PARAM_MAP_RC";
     fieldnames := ["target_system"; "target_component"; "param_id"; "param_index";
       "parameter_rc_channel_index"; "param_value0"; "scale"; "param_value_min"; "param_value_max"];
     ordered_fieldnames := ["param_value0"; "scale"; "param_value_min"; "param_value_max";
       "param_index"; "target_system"; "target_component"; "param_id";
       "parameter_rc_channel_index"];
     fieldtypes := ["uint8_t"; "uint8_t"; "char"; "int16_t"; "uint8_t"; "float"; "float"; "float";
       "float"];
     fielddisplays_by_name := [];
     fieldenums_by_name := [];
     native_format := "<ffffhBBcB";
     orders := [5; 6; 7; 4; 8; 0; 1; 2; 3];
     lengths := [1; 1; 1; 1; 1; 1; 1; 1; 1];
     array_lengths := [0; 0; 0; 0; 0; 0; 0; 16; 0];
     crc_extra := 78;
     unpacker := "<ffffhBB16sB";
     init_defaults := [];
     init_body := [SetArg "target_system"; SetArg "target_component"; SetRaw "param_id";
       SetStr "param_id"; SetArg "param_index"; SetArg "parameter_rc_channel_index";
       SetArg "param_value0"; SetArg "scale"; SetArg "param_value_min"; SetArg "param_value_max"];
     pack_args := [PA "param_value0"; PA "scale"; PA "param_value_min"; PA "param_value_max";
       PA "param_index"; PA "target_system"; PA "target_component"; PRaw "param_id";
       PA "parameter_rc_channel_index"] |}.

Definition MAVLink_mission_request_int_message : msgtype :=
  {| mt_id := 51;
     msgname := "MISSION_REQUEST_INT";
     fieldnames := ["target_system"; "target_component"; "seq"; "mission_type"];
     ordered_fieldnames := ["seq"; "target_system"; "target_component"; "mission_type"];
     fieldtypes := ["uint8_t"; "uint8_t"; "uint16_t"; "uint8_t"];
     fielddisplays_by_name := [];
     fieldenums_by_name := [("mission_type", "MAV_MISSION_TYPE")];
     native_format := "<HBBB";
     orders := [1; 2; 0; 3];
     lengths := [1; 1; 1; 1];
     array_lengths := [0; 0; 0; 0];
     crc_extra := 196;
     unpacker := "<HBBB";
     init_defaults := [FScalar (PInt 0)];
     init_body := [SetArg "target_system"; SetArg "target_component"; SetArg "seq";
       SetArg "mission_type"];
     pack_args := [PA "seq"; PA "target_system"; PA "target_component"; PA "mission_type"] |}.

Definition MAVLink_safety_set_allowed_area_message : msgtype :=
  {| mt_id := 54;
     msgname := "SAFETY_SET_ALLOWED_AREA";
     fieldnames := ["target_system"; "target_component"; "frame"; "p1x"; "p1y"; "p1z"; "p2x"; "p2y";
       "p2z"];
     ordered_fieldnames := ["p1x"; "p1y"; "p1z"; "p2x"; "p2y"; "p2z"; "target_system";
       "target_component"; "frame"];
     fieldtypes := ["uint8_t"; "uint8_t"; "uint8_t"; "float"; "float"; "float"; "float"; "float";
       "float"];
     fielddisplays_by_name := [];
     fieldenums_by_name := [("frame", "MAV_FRAME")];
     native_format := "<ffffffBBB";
     orders := [6; 7; 8; 0; 1; 2; 3; 4; 5];
     lengths := [1; 1; 1; 1; 1; 1; 1; 1; 1];
     array_lengths := [0; 0; 0; 0; 0; 0; 0; 0; 0];
     crc_extra := 15;
     unpacker := "<ffffffBBB";
     init_defaults := [];
     init_body := [SetArg "target_system"; SetArg "target_component"; SetArg "frame"; SetArg "p1x";
       SetArg "p1y"; SetArg "p1z"; SetArg "p2x"; SetArg "p2y"; SetArg "p2z"];
     pack_args := [PA "p1x"; PA "p1y"; PA "p1z"; PA "p2x"; PA "p2y"; PA "p2z"; PA "target_system";
       PA "target_component"; PA "frame"] |}.

Definition MAVLink_safety_allowed_area_message : msgtype :=
  {| mt_id := 55;
     msgname := "SAFETY_ALLOWED_AREA";
     fieldnames := ["frame"; "p1x"; "p1y"; "p1z"; "p2x"; "p2y"; "p2z"];
     ordered_fieldnames := ["p1x"; "p1y"; "p1z"; "p2x"; "p2y"; "p2z"; "frame"];
     fieldtypes := ["uint8_t"; "float"; "float"; "float"; "float"; "float"; "float"];
     fielddisplays_by_name := [];
     fieldenums_by_name := [("frame", "MAV_FRAME")];
     native_format := "<ffffffB";
     orders := [6; 0; 1; 2; 3; 4; 5];
     lengths := [1; 1; 1; 1; 1; 1; 1];
     array_lengths := [0; 0; 0; 0; 0; 0; 0];
     crc_extra := 3;
     unpacker := "<ffffffB";
     init_defaults := [];
     init_body := [SetArg "frame"; SetArg "p1x"; SetArg "p1y"; SetArg "p1z"; SetArg "p2x";
       SetArg "p2y"; SetArg "p2z"];
     pack_args := [PA "p1x"; PA "p1y"; PA "p1z"; PA "p2x"; PA "p2y"; PA "p2z"; PA "frame"] |}.

Definition MAVLink_attitude_quaternion_cov_message : msgtype :=
  {| mt_id := 61;
     msgname := "ATTITUDE_QUATERNION_COV";
     fieldnames := ["time_usec"; "q"; "rollspeed"; "pitchspeed"; "yawspeed"; "covariance"];
     ordered_fieldnames := ["time_usec"; "q"; "rollspeed"; "pitchspeed"; "yawspeed"; "covariance"];
     fieldtypes := ["uint64_t"; "float"; "float"; "float"; "float"; "float"];
     fielddisplays_by_name := [];
     fieldenums_by_name := [];
     native_format := "<Qfffff";
     orders := [0; 1; 2; 3; 4; 5];
     lengths := [1; 4; 1; 1; 1; 9];
     array_lengths := [0; 4; 0; 0; 0; 9];
     crc_extra := 167;
     unpacker := "<Q4ffff9f";
     init_defaults := [];
     init_body := [SetArg "time_usec"; SetArg "q"; SetArg "rollspeed"; SetArg "pitchspeed";
       SetArg "yawspeed"; SetArg "covariance"];
     pack_args := [PA "time_usec"; PRun "q" 4; PA "rollspeed"; PA "pitchspeed"; PA "yawspeed";
       PRun "covariance" 9] |}.

Definition MAVLink_nav_controller_output_message : msgtype :=
  {| mt_id := 62;
     msgname := "NAV_CONTROLLER_OUTPUT";
     fieldnames := ["nav_roll"; "nav_pitch"; "nav_bearing"; "target_bearing"; "wp_dist";
       "alt_error"; "aspd_error"; "xtrack_error"];
     ordered_fieldnames := ["nav_roll"; "nav_pitch"; "alt_error"; "aspd_error"; "xtrack_error";
       "nav_bearing"; "target_bearing"; "wp_dist"];
     fieldtypes := ["float"; "float"; "int16_t"; "int16_t"; "uint16_t"; "float"; "float"; "float"];
     fielddisplays_by_name := [];
     fieldenums_by_name := [];
     native_format := "<fffffhhH";
     orders := [0; 1; 5; 6; 7; 2; 3; 4];
     lengths := [1; 1; 1; 1; 1; 1; 1; 1];
     array_lengths := [0; 0; 0; 0; 0; 0; 0; 0];
     crc_extra := 183;
     unpacker := "<fffffhhH";
     init_defaults := [];
     init_body := [SetArg "nav_roll"; SetArg "nav_pitch"; SetArg "nav_bearing";
       SetArg "target_bearing"; SetArg "wp_dist"; SetArg "alt_error"; SetArg "aspd_error";
       SetArg "xtrack_error"];
     pack_args := [PA "nav_roll"; PA "nav_pitch"; PA "alt_error"; PA "aspd_error";
       PA "xtrack_error"; PA "nav_bearing"; PA "target_bearing"; PA "wp_dist"] |}.

Definition MAVLink_global_position_int_cov_message : msgtype :=
  {| mt_id := 63;
     msgname := "GLOBAL_POSITION_INT_COV";
     fieldnames := ["time_usec"; "estimator_type"; "lat"; "lon"; "alt"; "relative_alt"; "vx"; "vy";
       "vz"; "covariance"];
     ordered_fieldnames := ["time_usec"; "lat"; "lon"; "alt"; "relative_alt"; "vx"; "vy"; "vz";
       "covariance"; "estimator_type"];
     fieldtypes := ["uint64_t"; "uint8_t"; "int32_t"; "int32_t"; "int32_t"; "int32_t"; "float";
       "float"; "float"; "float"];
     fielddisplays_by_name := [];
     fieldenums_by_name := [("estimator_type", "MAV_ESTIMATOR_TYPE")];
     native_format := "<QiiiiffffB";
     orders := [0; 9; 1; 2; 3; 4; 5; 6; 7; 8];
     lengths := [1; 1; 1; 1; 1; 1; 1; 1; 36; 1];
     array_lengths := [0; 0; 0; 0; 0; 0; 0; 0; 36; 0];
     crc_extra := 119;
     unpacker := "<Qiiiifff36fB";
     init_defaults := [];
     init_body := [SetArg "time_usec"; SetArg "estimator_type"; SetArg "lat"; SetArg "lon";
       SetArg "alt"; SetArg "relative_alt"; SetArg "vx"; SetArg "vy"; SetArg "vz";
       SetArg "covariance"];
     pack_args := [PA "time_usec"; PA "lat"; PA "lon"; PA "alt"; PA "relative_alt"; PA "vx";
       PA "vy"; PA "vz"; PRun "covariance" 36; PA "estimator_type"] |}.

Definition MAVLink_local_position_ned_cov_message : msgtype :=
  {| mt_id := 64;
     msgname := "LOCAL_POSITION_NED_COV";
     fieldnames := ["time_usec"; "estimator_type"; "x"; "y"; "z"; "vx"; "vy"; "vz"; "ax"; "ay";
       "az"; "covariance"];
     ordered_fieldnames := ["time_usec"; "x"; "y"; "z"; "vx"; "vy"; "vz"; "ax"; "ay"; "az";
       "covariance"; "estimator_type"];
     fieldtypes := ["uint64_t"; "uint8_t"; "float"; "float"; "float"; "float"; "float"; "float";
       "float"; "float"; "float"; "float"];
     fielddisplays_by_name := [];
     fieldenums_by_name := [("estimator_type", "MAV_ESTIMATOR_TYPE")];
     native_format := "<QffffffffffB";
     orders := [0; 11; 1; 2; 3; 4; 5; 6; 7; 8; 9; 10];
     lengths := [1; 1; 1; 1; 1; 1; 1; 1; 1; 1; 45; 1];
     array_lengths := [0; 0; 0; 0; 0; 0; 0; 0; 0; 0; 45; 0];
     crc_extra := 191;
     unpacker := "<Qfffffffff45fB";
     init_defaults := [];
     init_body := [SetArg "time_usec"; SetArg "estimator_type"; SetArg "x"; SetArg "y"; SetArg "z";
       SetArg "vx"; SetArg "vy"; SetArg "vz"; SetArg "ax"; SetArg "ay"; SetArg "az";
       SetArg "covariance"];
     pack_args := [PA "time_usec"; PA "x"; PA "y"; PA "z"; PA "vx"; PA "vy"; PA "vz"; PA "ax";
       PA "ay"; PA "az"; PRun "covariance" 45; PA "estimator_type"] |}.

Definition MAVLink_rc_channels_message : msgtype :=
  {| mt_id := 65;
     msgname := "RC_CHANNELS";
     fieldnames := ["time_boot_ms"; "chancount"; "chan1_raw"; "chan2_raw"; "chan3_raw"; "chan4_raw";
       "chan5_raw"; "chan6_raw"; "chan7_raw"; "chan8_raw"; "chan9_raw"; "chan10_raw"; "chan11_raw";
       "chan12_raw"; "chan13_raw"; "chan14_raw"; "chan15_raw"; "chan16_raw"; "chan17_raw";
       "chan18_raw"; "rssi"];
     ordered_fieldnames := ["time_boot_ms"; "chan1_raw"; "chan2_raw"; "chan3_raw"; "chan4_raw";
       "chan5_raw"; "chan6_raw"; "chan7_raw"; "chan8_raw"; "chan9_raw"; "chan10_raw"; "chan11_raw";
       "chan12_raw"; "chan13_raw"; "chan14_raw"; "chan15_raw"; "chan16_raw"; "chan17_raw";
       "chan18_raw"; "chancount"; "rssi"];
     fieldtypes := ["uint32_t"; "uint8_t"; "uint16_t"; "uint16_t"; "uint16_t"; "uint16_t";
       "uint16_t"; "uint16_t"; "uint16_t"; "uint16_t"; "uint16_t"; "uint16_t"; "uint16_t";
       "uint16_t"; "uint16_t"; "uint16_t"; "uint16_t"; "uint16_t"; "uint16_t"; "uint16_t";
       "uint8_t"];
     fielddisplays_by_name := [];
     fieldenums_by_name := [];
     native_format := "<IHHHHHHHHHHHHHHHHHHBB";
     orders := [0; 19; 1; 2; 3; 4; 5; 6; 7; 8; 9; 10; 11; 12; 13; 14; 15; 16; 17; 18; 20];
     lengths := [1; 1; 1; 1; 1; 1; 1; 1; 1; 1; 1; 1; 1; 1; 1; 1; 1; 1; 1; 1; 1];
     array_lengths := [0; 0; 0; 0; 0; 0; 0; 0; 0; 0; 0; 0; 0; 0; 0; 0; 0; 0; 0; 0; 0];
     crc_extra := 118;
     unpacker := "<IHHHHHHHHHHHHHHHHHHBB";
     init_defaults := [];
     init_body := [SetArg "time_boot_ms"; SetArg "chancount"; SetArg "chan1_raw";
       SetArg "chan2_raw"; SetArg "chan3_raw"; SetArg "chan4_raw"; SetArg "chan5_raw";
       SetArg "chan6_raw"; SetArg "chan7_raw"; SetArg "chan8_raw"; SetArg "chan9_raw";
       SetArg "chan10_raw"; SetArg "chan11_raw"; SetArg "chan12_raw"; SetArg "chan13_raw";
       SetArg "chan14_raw"; SetArg "chan15_raw"; SetArg "chan16_raw"; SetArg "chan17_raw";
       SetArg "chan18_raw"; SetArg "rssi"];
     pack_args := [PA "time_boot_ms"; PA "chan1_raw"; PA "chan2_raw"; PA "chan3_raw";
       PA "chan4_raw"; PA "chan5_raw"; PA "chan6_raw"; PA "chan7_raw"; PA "chan8_raw";
       PA "chan9_raw"; PA "chan10_raw"; PA "chan11_raw"; PA "chan12_raw"; PA "chan13_raw";
       PA "chan14_raw"; PA "chan15_raw"; PA "chan16_raw"; PA "chan17_raw"; PA "chan18_raw";
       PA "chancount"; PA "rssi"] |}.

Definition MAVLink_request_data_stream_message : msgtype :=
  {| mt_id := 66;
     msgname := "REQUEST_DATA_STREAM";
     fieldnames := ["target_system"; "target_component"; "req_stream_id"; "req_message_rate";
       "start_stop"];
     ordered_fieldnames := ["req_message_rate"; "target_system"; "target_component";
       "req_stream_id"; "start_stop"];
     fieldtypes := ["uint8_t"; "uint8_t"; "uint8_t"; "uint16_t"; "uint8_t"];
     fielddisplays_by_name := [];
     fieldenums_by_name := [];
     native_format := "<HBBBB";
     orders := [1; 2; 3; 0; 4];
     lengths := [1; 1; 1; 1; 1];
     array_lengths := [0; 0; 0; 0; 0];
     crc_extra := 148;
     unpacker := "<HBBBB";
     init_defaults := [];
     init_body := [SetArg "target_system"; SetArg "target_component"; SetArg "req_stream_id";
       SetArg "req_message_rate"; SetArg "start_stop"];
     pack_args := [PA "req_message_rate"; PA "target_system"; PA "target_component";
       PA "req_stream_id"; PA "start_stop"] |}.

Definition MAVLink_data_stream_message : msgtype :=
  {| mt_id := 67;
     msgname := "DATA_STREAM";
     fieldnames := ["stream_id"; "message_rate"; "on_off"];
     ordered_fieldnames := ["message_rate"; "stream_id"; "on_off"];
     fieldtypes := ["uint8_t"; "uint16_t"; "uint8_t"];
     fielddisplays_by_name := [];
     fieldenums_by_name := [];
     native_format := "<HBB";
     orders := [1; 0; 2];
     lengths := [1; 1; 1];
     array_lengths := [0; 0; 0];
     crc_extra := 21;
     unpacker := "<HBB";
     init_defaults := [];
     init_body := [SetArg "stream_id"; SetArg "message_rate"; SetArg "on_off"];
     pack_args := [PA "message_rate"; PA "stream_id"; PA "on_off"] |}.

Definition MAVLink_manual_control_message : msgtype :=
  {| mt_id := 69;
     msgname := "MANUAL_CONTROL";
     fieldnames := ["target"; "x"; "y"; "z"; "r"; "buttons"; "buttons2"; "enabled_extensions"; "s";
       "t"];
     ordered_fieldnames := ["x"; "y"; "z"; "r"; "buttons"; "target"; "buttons2";
       "enabled_extensions"; "s"; "t"];
     fieldtypes := ["uint8_t"; "int16_t"; "int16_t"; "int16_t"; "int16_t"; "uint16_t"; "uint16_t";
       "uint8_t"; "int16_t"; "int16_t"];
     fielddisplays_by_name := [];
     fieldenums_by_name := [];
     native_format := "<hhhhHBHBhh";
     orders := [5; 0; 1; 2; 3; 4; 6; 7; 8; 9];
     lengths := [1; 1; 1; 1; 1; 1; 1; 1; 1; 1];
     array_lengths := [0; 0; 0; 0; 0; 0; 0; 0; 0; 0];
     crc_extra := 243;
     unpacker := "<hhhhHBHBhh";
     init_defaults := [FScalar (PInt 0); FScalar (PInt 0); FScalar (PInt 0); FScalar (PInt 0)];
     init_body := [SetArg "target"; SetArg "x"; SetArg "y"; SetArg "z"; SetArg "r";
       SetArg "buttons"; SetArg "buttons2"; SetArg "enabled_extensions"; SetArg "s"; SetArg "t"];
     pack_args := [PA "x"; PA "y"; PA "z"; PA "r"; PA "buttons"; PA "target"; PA "buttons2";
       PA "enabled_extensions"; PA "s"; PA "t"] |}.

Definition MAVLink_rc_channels_override_message : msgtype :=
  {| mt_id := 70;
     msgname := "RC_CHANNELS_OVERRIDE";
     fieldnames := ["target_system"; "target_component"; "chan1_raw"; "chan2_raw"; "chan3_raw";
       "chan4_raw"; "chan5_raw"; "chan6_raw"; "chan7_raw"; "chan8_raw"; "chan9_raw"; "chan10_raw";
       "chan11_raw"; "chan12_raw"; "chan13_raw"; "chan14_raw"; "chan15_raw"; "chan16_raw";
       "chan17_raw"; "chan18_raw"];
     ordered_fieldnames := ["chan1_raw"; "chan2_raw"; "chan3_raw"; "chan4_raw"; "chan5_raw";
       "chan6_raw"; "chan7_raw"; "chan8_raw"; "target_system"; "target_component"; "chan9_raw";
       "chan10_raw"; "chan11_raw"; "chan12_raw"; "chan13_raw"; "chan14_raw"; "chan15_raw";
       "chan16_raw"; "chan17_raw"; "chan18_raw"];
     fieldtypes := ["uint8_t"; "uint8_t"; "uint16_t"; "uint16_t"; "uint16_t"; "uint16_t";
       "uint16_t"; "uint16_t"; "uint16_t"; "uint16_t"; "uint16_t"; "uint16_t"; "uint16_t";
       "uint16_t"; "uint16_t"; "uint16_t"; "uint16_t"; "uint16_t"; "uint16_t"; "uint16_t"];
     fielddisplays_by_name := [];
     fieldenums_by_name := [];
     native_format := "<HHHHHHHHBBHHHHHHHHHH";
     orders := [8; 9; 0; 1; 2; 3; 4; 5; 6; 7; 10; 11; 12; 13; 14; 15; 16; 17; 18; 19];
     lengths := [1; 1; 1; 1; 1; 1; 1; 1; 1; 1; 1; 1; 1; 1; 1; 1; 1; 1; 1; 1];
     array_lengths := [0; 0; 0; 0; 0; 0; 0; 0; 0; 0; 0; 0; 0; 0; 0; 0; 0; 0; 0; 0];
     crc_extra := 124;
     unpacker := "<HHHHHHHHBBHHHHHHHHHH";
     init_defaults := [FScalar (PInt 0); FScalar (PInt 0); FScalar (PInt 0); FScalar (PInt 0);
       FScalar (PInt 0); FScalar (PInt 0); FScalar (PInt 0); FScalar (PInt 0); FScalar (PInt 0);
       FScalar (PInt 0)];
     init_body := [SetArg "target_system"; SetArg "target_component"; SetArg "chan1_raw";
       SetArg "chan2_raw"; SetArg "chan3_raw"; SetArg "chan4_raw"; SetArg "chan5_raw";
       SetArg "chan6_raw"; SetArg "chan7_raw"; SetArg "chan8_raw"; SetArg "chan9_raw";
       SetArg "chan10_raw"; SetArg "chan11_raw"; SetArg "chan12_raw"; SetArg "chan13_raw";
       SetArg "chan14_raw"; SetArg "chan15_raw"; SetArg "chan16_raw"; SetArg "chan17_raw";
       SetArg "chan18_raw"];
     pack_args := [PA "chan1_raw"; PA "chan2_raw"; PA "chan3_raw"; PA "chan4_raw"; PA "chan5_raw";
       PA "chan6_raw"; PA "chan7_raw"; PA "chan8_raw"; PA "target_system"; PA "target_component";
       PA "chan9_raw"; PA "chan10_raw"; PA "chan11_raw"; PA "chan12_raw"; PA "chan13_raw";
       PA "chan14_raw"; PA "chan15_raw"; PA "chan16_raw"; PA "chan17_raw"; PA "chan18_raw"] |}.

Definition MAVLink_mission_item_int_message : msgtype :=
  {| mt_id := 73;
     msgname := "MISSION_ITEM_INT";
     fieldnames := ["target_system"; "target_component"; "seq"; "frame"; "command"; "current";
       "autocontinue"; "param1"; "param2"; "param3"; "param4"; "x"; "y"; "z"; "mission_type"];
     ordered_fieldnames := ["param1"; "param2"; "param3"; "param4"; "x"; "y"; "z"; "seq"; "command";
       "target_system"; "target_component"; "frame"; "current"; "autocontinue"; "mission_type"];
     fieldtypes := ["uint8_t"; "uint8_t"; "uint16_t"; "uint8_t"; "uint16_t"; "uint8_t"; "uint8_t";
       "float"; "float"; "float"; "float"; "int32_t"; "int32_t"; "float"; "uint8_t"];
     fielddisplays_by_name := [];
     fieldenums_by_name := [("frame", "MAV_FRAME"); ("command", "MAV_CMD"); ("mission_type",
       "MAV_MISSION_TYPE")];
     native_format := "<ffffiifHHBBBBBB";
     orders := [9; 10; 7; 11; 8; 12; 13; 0; 1; 2; 3; 4; 5; 6; 14];
     lengths := [1; 1; 1; 1; 1; 1; 1; 1; 1; 1; 1; 1; 1; 1; 1];
     array_lengths := [0; 0; 0; 0; 0; 0; 0; 0; 0; 0; 0; 0; 0; 0; 0];
     crc_extra := 38;
     unpacker := "<ffffiifHHBBBBBB";
     init_defaults := [FScalar (PInt 0)];
     init_body := [SetArg "target_system"; SetArg "target_component"; SetArg "seq"; SetArg "frame";
       SetArg "command"; SetArg "current"; SetArg "autocontinue"; SetArg "param1"; SetArg "param2";
       SetArg "param3"; SetArg "param4"; SetArg "x"; SetArg "y"; SetArg "z"; SetArg "mission_type"];
     pack_args := [PA "param1"; PA "param2"; PA "param3"; PA "param4"; PA "x"; PA "y"; PA "z";
       PA "seq"; PA "command"; PA "target_system"; PA "target_component"; PA "frame"; PA "current";
       PA "autocontinue"; PA "mission_type"] |}.

Definition MAVLink_vfr_hud_message : msgtype :=
  {| mt_id := 74;
     msgname := "VFR_HUD";
     fieldnames := ["airspeed"; "groundspeed"; "heading"; "throttle"; "alt"; "climb"];
     ordered_fieldnames := ["airspeed"; "groundspeed"; "alt"; "climb"; "heading"; "throttle"];
     fieldtypes := ["float"; "float"; "int16_t"; "uint16_t"; "float"; "float"];
     fielddisplays_by_name := [];
     fieldenums_by_name := [];
     native_format := "<ffffhH";
     orders := [0; 1; 4; 5; 2; 3];
     lengths := [1; 1; 1; 1; 1; 1];
     array_lengths := [0; 0; 0; 0; 0; 0];
     crc_extra := 20;
     unpacker := "<ffffhH";
     init_defaults := [];
     init_body := [SetArg "airspeed"; SetArg "groundspeed"; SetArg "heading"; SetArg "throttle";
       SetArg "alt"; SetArg "climb"];
     pack_args := [PA "airspeed"; PA "groundspeed"; PA "alt"; PA "climb"; PA "heading";
       PA "throttle"] |}.

Definition MAVLink_command_int_message : msgtype :=
  {| mt_id := 75;
     msgname := "COMMAND_INT";
     fieldnames := ["target_system"; "target_component"; "frame"; "command"; "current";
       "autocontinue"; "param1"; "param2"; "param3"; "param4"; "x"; "y"; "z"];
     ordered_fieldnames := ["param1"; "param2"; "param3"; "param4"; "x"; "y"; "z"; "command";
       "target_system"; "target_component"; "frame"; "current"; "autocontinue"];
     fieldtypes := ["uint8_t"; "uint8_t"; "uint8_t"; "uint16_t"; "uint8_t"; "uint8_t"; "float";
       "float"; "float"; "float"; "int32_t"; "int32_t"; "float"];
     fielddisplays_by_name := [];
     fieldenums_by_name := [("frame", "MAV_FRAME"); ("command", "MAV_CMD")];
     native_format := "<ffffiifHBBBBB";
     orders := [8; 9; 10; 7; 11; 12; 0; 1; 2; 3; 4; 5; 6];
     lengths := [1; 1; 1; 1; 1; 1; 1; 1; 1; 1; 1; 1; 1];
     array_lengths := [0; 0; 0; 0; 0; 0; 0; 0; 0; 0; 0; 0; 0];
     crc_extra := 158;
     unpacker := "<ffffiifHBBBBB";
     init_defaults := [];
     init_body := [SetArg "target_system"; SetArg "target_component"; SetArg "frame";
       SetArg "command"; SetArg "current"; SetArg "autocontinue"; SetArg "param1"; SetArg "param2";
       SetArg "param3"; SetArg "param4"; SetArg "x"; SetArg "y"; SetArg "z"];
     pack_args := [PA "param1"; PA "param2"; PA "param3"; PA "param4"; PA "x"; PA "y"; PA "z";
       PA "command"; PA "target_system"; PA "target_component"; PA "frame"; PA "current";
       PA "autocontinue"] |}.

Definition MAVLink_command_long_message : msgtype :=
  {| mt_id := 76;
     msgname := "COMMAND_LONG";
     fieldnames := ["target_system"; "target_component"; "command"; "confirmation"; "param1";
       "param2"; "param3"; "param4"; "param5"; "param6"; "param7"];
     ordered_fieldnames := ["param1"; "param2"; "param3"; "param4"; "param5"; "param6"; "param7";
       "command"; "target_system"; "target_component"; "confirmation"];
     fieldtypes := ["uint8_t"; "uint8_t"; "uint16_t"; "uint8_t"; "float"; "float"; "float"; "float";
       "float"; "float"; "float"];
     fielddisplays_by_name := [];
     fieldenums_by_name := [("command", "MAV_CMD")];
     native_format := "<fffffffHBBB";
     orders := [8; 9; 7; 10; 0; 1; 2; 3; 4; 5; 6];
     lengths := [1; 1; 1; 1; 1; 1; 1; 1; 1; 1; 1];
     array_lengths := [0; 0; 0; 0; 0; 0; 0; 0; 0; 0; 0];
     crc_extra := 152;
     unpacker := "<fffffffHBBB";
     init_defaults := [];
     init_body := [SetArg "target_system"; SetArg "target_component"; SetArg "command";
       SetArg "confirmation"; SetArg "param1"; SetArg "param2"; SetArg "param3"; SetArg "param4";
       SetArg "param5"; SetArg "param6"; SetArg "param7"];
     pack_args := [PA "param1"; PA "param2"; PA "param3"; PA "param4"; PA "param5"; PA "param6";
       PA "param7"; PA "command"; PA "target_system"; PA "target_component"; PA "confirmation"] |}.

Definition MAVLink_command_ack_message : msgtype :=
  {| mt_id := 77;
     msgname := "COMMAND_ACK";
     fieldnames := ["command"; "result"; "progress"; "result_param2"; "target_system";
       "target_component"];
     ordered_fieldnames := ["command"; "result"; "progress"; "result_param2"; "target_system";
       "target_component"];
     fieldtypes := ["uint16_t"; "uint8_t"; "uint8_t"; "int32_t"; "uint8_t"; "uint8_t"];
     fielddisplays_by_name := [];
     fieldenums_by_name := [("command", "MAV_CMD"); ("result", "MAV_RESULT")];
     native_format := "<HBBiBB";
     orders := [0; 1; 2; 3; 4; 5];
     lengths := [1; 1; 1; 1; 1; 1];
     array_lengths := [0; 0; 0; 0; 0; 0];
     crc_extra := 143;
     unpacker := "<HBBiBB";
     init_defaults := [FScalar (PInt 0); FScalar (PInt 0); FScalar (PInt 0); FScalar (PInt 0)];
     init_body := [SetArg "command"; SetArg "result"; SetArg "progress"; SetArg "result_param2";
       SetArg "target_system"; SetArg "target_component"];
     pack_args := [PA "command"; PA "result"; PA "progress"; PA "result_param2"; PA "target_system";
       PA "target_component"] |}.

Definition messages_1 : list msgtype :=
  [MAVLink_sys_status_message; MAVLink_system_time_message; MAVLink_ping_message;
    MAVLink_change_operator_control_message; MAVLink_change_operator_control_ack_message;
    MAVLink_auth_key_message; MAVLink_link_node_status_message; MAVLink_set_mode_message;
    MAVLink_param_request_read_message; MAVLink_param_request_list_message;
    MAVLink_param_value_message; MAVLink_param_set_message; MAVLink_gps_raw_int_message;
    MAVLink_gps_status_message; MAVLink_scaled_imu_message; MAVLink_raw_imu_message;
    MAVLink_raw_pressure_message; MAVLink_scaled_pressure_message; MAVLink_attitude_message;
    MAVLink_attitude_quaternion_message; MAVLink_local_position_ned_message;
    MAVLink_global_position_int_message; MAVLink_rc_channels_scaled_message;
    MAVLink_rc_channels_raw_message; MAVLink_servo_output_raw_message;
    MAVLink_mission_request_partial_list_message; MAVLink_mission_write_partial_list_message;
    MAVLink_mission_item_message; MAVLink_mission_request_message;
    MAVLink_mission_set_current_message; MAVLink_mission_current_message;
    MAVLink_mission_request_list_message; MAVLink_mission_count_message;
    MAVLink_mission_clear_all_message; MAVLink_mission_item_reached_message;
    MAVLink_mission_ack_message; MAVLink_set_gps_global_origin_message;
    MAVLink_gps_global_origin_message; MAVLink_param_map_rc_message;
    MAVLink_mission_request_int_message; MAVLink_safety_set_allowed_area_message;
    MAVLink_safety_allowed_area_message; MAVLink_attitude_quaternion_cov_message;
    MAVLink_nav_controller_output_message; MAVLink_global_position_int_cov_message;
    MAVLink_local_position_ned_cov_message; MAVLink_rc_channels_message;
    MAVLink_request_data_stream_message; MAVLink_data_stream_message;
    MAVLink_manual_control_message; MAVLink_rc_channels_override_message;
    MAVLink_mission_item_int_message; MAVLink_vfr_hud_message; MAVLink_command_int_message;
    MAVLink_command_long_message; MAVLink_command_ack_message].

End MavCatalog1.
