(* ===== verification/MavCatalog2.v ===== *)
(** The message classes COMMAND_CANCEL to RESOURCE_REQUEST of
    wfb_ng/mavlink.py (part 2 of the catalogue), one [msgtype] per class, in
    the order of the file.  The docstrings and the unit table of a class, which
    no code of the program reads, are left out. *)
From Stdlib Require Import ZArith.
From stdpp Require Import base list strings.
From S2P Require Import Prelude.
From S2P Require Import PyStruct.
From S2P Require Import MavMessage.

Module MavCatalog2.
Import PyStruct MavMessage.
#[local] Open Scope string_scope.
#[local] Open Scope nat_scope.
#[local] Open Scope list_scope.

Definition MAVLink_command_cancel_message : msgtype :=
  {| mt_id := 80;
     msgname := "COMMAND_CANCEL";
     fieldnames := ["target_system"; "target_component"; "command"];
     ordered_fieldnames := ["command"; "target_system"; "target_component"];
     fieldtypes := ["uint8_t"; "uint8_t"; "uint16_t"];
     fielddisplays_by_name := [];
     fieldenums_by_name := [("command", "MAV_CMD")];
     native_format := "<HBB";
     orders := [1; 2; 0];
     lengths := [1; 1; 1];
     array_lengths := [0; 0; 0];
     crc_extra := 14;
     unpacker := "<HBB";
     init_defaults := [];
     init_body := [SetArg "target_system"; SetArg "target_component"; SetArg "command"];
     pack_args := [PA "command"; PA "target_system"; PA "target_component"] |}.

Definition MAVLink_manual_setpoint_message : msgtype :=
  {| mt_id := 81;
     msgname := "MANUAL_SETPOINT";
     fieldnames := ["time_boot_ms"; "roll"; "pitch"; "yaw"; "thrust"; "mode_switch";
       "manual_override_switch"];
     ordered_fieldnames := ["time_boot_ms"; "roll"; "pitch"; "yaw"; "thrust"; "mode_switch";
       "manual_override_switch"];
     fieldtypes := ["uint32_t"; "float"; "float"; "float"; "float"; "uint8_t"; "uint8_t"];
     fielddisplays_by_name := [];
     fieldenums_by_name := [];
     native_format := "<IffffBB";
     orders := [0; 1; 2; 3; 4; 5; 6];
     lengths := [1; 1; 1; 1; 1; 1; 1];
     array_lengths := [0; 0; 0; 0; 0; 0; 0];
     crc_extra := 106;
     unpacker := "<IffffBB";
     init_defaults := [];
     init_body := [SetArg "time_boot_ms"; SetArg "roll"; SetArg "pitch"; SetArg "yaw";
       SetArg "thrust"; SetArg "mode_switch"; SetArg "manual_override_switch"];
     pack_args := [PA "time_boot_ms"; PA "roll"; PA "pitch"; PA "yaw"; PA "thrust";
       PA "mode_switch"; PA "manual_override_switch"] |}.

Definition MAVLink_set_attitude_target_message : msgtype :=
  {| mt_id := 82;
     msgname := "SET_ATTITUDE_TARGET";
     fieldnames := ["time_boot_ms"; "target_system"; "target_component"; "type_mask"; "q";
       "body_roll_rate"; "body_pitch_rate"; "body_yaw_rate"; "thrust"; "thrust_body"];
     ordered_fieldnames := ["time_boot_ms"; "q"; "body_roll_rate"; "body_pitch_rate";
       "body_yaw_rate"; "thrust"; "target_system"; "target_component"; "type_mask"; "thrust_body"];
     fieldtypes := ["uint32_t"; "uint8_t"; "uint8_t"; "uint8_t"; "float"; "float"; "float"; "float";
       "float"; "float"];
     fielddisplays_by_name := [("type_mask", "bitmask")];
     fieldenums_by_name := [("type_mask", "ATTITUDE_TARGET_TYPEMASK")];
     native_format := "<IfffffBBBf";
     orders := [0; 6; 7; 8; 1; 2; 3; 4; 5; 9];
     lengths := [1; 4; 1; 1; 1; 1; 1; 1; 1; 3];
     array_lengths := [0; 4; 0; 0; 0; 0; 0; 0; 0; 3];
     crc_extra := 49;
     unpacker := "<I4fffffBBB3f";
     init_defaults := [FArray (replicate 3 (PInt 0))];
     init_body := [SetArg "time_boot_ms"; SetArg "target_system"; SetArg "target_component";
       SetArg "type_mask"; SetArg "q"; SetArg "body_roll_rate"; SetArg "body_pitch_rate";
       SetArg "body_yaw_rate"; SetArg "thrust"; SetArg "thrust_body"];
     pack_args := [PA "time_boot_ms"; PRun "q" 4; PA "body_roll_rate"; PA "body_pitch_rate";
       PA "body_yaw_rate"; PA "thrust"; PA "target_system"; PA "target_component"; PA "type_mask";
       PRun "thrust_body" 3] |}.

Definition MAVLink_attitude_target_message : msgtype :=
  {| mt_id := 83;
     msgname := "ATTITUDE_TARGET";
     fieldnames := ["time_boot_ms"; "type_mask"; "q"; "body_roll_rate"; "body_pitch_rate";
       "body_yaw_rate"; "thrust"];
     ordered_fieldnames := ["time_boot_ms"; "q"; "body_roll_rate"; "body_pitch_rate";
       "body_yaw_rate"; "thrust"; "type_mask"];
     fieldtypes := ["uint32_t"; "uint8_t"; "float"; "float"; "float"; "float"; "float"];
     fielddisplays_by_name := [("type_mask", "bitmask")];
     fieldenums_by_name := [("type_mask", "ATTITUDE_TARGET_TYPEMASK")];
     native_format := "<IfffffB";
     orders := [0; 6; 1; 2; 3; 4; 5];
     lengths := [1; 4; 1; 1; 1; 1; 1];
     array_lengths := [0; 4; 0; 0; 0; 0; 0];
     crc_extra := 22;
     unpacker := "<I4fffffB";
     init_defaults := [];
     init_body := [SetArg "time_boot_ms"; SetArg "type_mask"; SetArg "q"; SetArg "body_roll_rate";
       SetArg "body_pitch_rate"; SetArg "body_yaw_rate"; SetArg "thrust"];
     pack_args := [PA "time_boot_ms"; PRun "q" 4; PA "body_roll_rate"; PA "body_pitch_rate";
       PA "body_yaw_rate"; PA "thrust"; PA "type_mask"] |}.

Definition MAVLink_set_position_target_local_ned_message : msgtype :=
  {| mt_id := 84;
     msgname := "SET_POSITION_TARGET_LOCAL_NED";
     fieldnames := ["time_boot_ms"; "target_system"; "target_component"; "coordinate_frame";
       "type_mask"; "x"; "y"; "z"; "vx"; "vy"; "vz"; "afx"; "afy"; "afz"; "yaw"; "yaw_rate"];
     ordered_fieldnames := ["time_boot_ms"; "x"; "y"; "z"; "vx"; "vy"; "vz"; "afx"; "afy"; "afz";
       "yaw"; "yaw_rate"; "type_mask"; "target_system"; "target_component"; "coordinate_frame"];
     fieldtypes := ["uint32_t"; "uint8_t"; "uint8_t"; "uint8_t"; "uint16_t"; "float"; "float";
       "float"; "float"; "float"; "float"; "float"; "float"; "float"; "float"; "float"];
     fielddisplays_by_name := [("type_mask", "bitmask")];
     fieldenums_by_name := [("coordinate_frame", "MAV_FRAME"); ("type_mask",
       "POSITION_TARGET_TYPEMASK")];
     native_format := "<IfffffffffffHBBB";
     orders := [0; 13; 14; 15; 12; 1; 2; 3; 4; 5; 6; 7; 8; 9; 10; 11];
     lengths := [1; 1; 1; 1; 1; 1; 1; 1; 1; 1; 1; 1; 1; 1; 1; 1];
     array_lengths := [0; 0; 0; 0; 0; 0; 0; 0; 0; 0; 0; 0; 0; 0; 0; 0];
     crc_extra := 143;
     unpacker := "<IfffffffffffHBBB";
     init_defaults := [];
     init_body := [SetArg "time_boot_ms"; SetArg "target_system"; SetArg "target_component";
       SetArg "coordinate_frame"; SetArg "type_mask"; SetArg "x"; SetArg "y"; SetArg "z";
       SetArg "vx"; SetArg "vy"; SetArg "vz"; SetArg "afx"; SetArg "afy"; SetArg "afz";
       SetArg "yaw"; SetArg "yaw_rate"];
     pack_args := [PA "time_boot_ms"; PA "x"; PA "y"; PA "z"; PA "vx"; PA "vy"; PA "vz"; PA "afx";
       PA "afy"; PA "afz"; PA "yaw"; PA "yaw_rate"; PA "type_mask"; PA "target_system";
       PA "target_component"; PA "coordinate_frame"] |}.

Definition MAVLink_position_target_local_ned_message : msgtype :=
  {| mt_id := 85;
     msgname := "POSITION_TARGET_LOCAL_NED";
     fieldnames := ["time_boot_ms"; "coordinate_frame"; "type_mask"; "x"; "y"; "z"; "vx"; "vy";
       "vz"; "afx"; "afy"; "afz"; "yaw"; "yaw_rate"];
     ordered_fieldnames := ["time_boot_ms"; "x"; "y"; "z"; "vx"; "vy"; "vz"; "afx"; "afy"; "afz";
       "yaw"; "yaw_rate"; "type_mask"; "coordinate_frame"];
     fieldtypes := ["uint32_t"; "uint8_t"; "uint16_t"; "float"; "float"; "float"; "float"; "float";
       "float"; "float"; "float"; "float"; "float"; "float"];
     fielddisplays_by_name := [("type_mask", "bitmask")];
     fieldenums_by_name := [("coordinate_frame", "MAV_FRAME"); ("type_mask",
       "POSITION_TARGET_TYPEMASK")];
     native_format := "<IfffffffffffHB";
     orders := [0; 13; 12; 1; 2; 3; 4; 5; 6; 7; 8; 9; 10; 11];
     lengths := [1; 1; 1; 1; 1; 1; 1; 1; 1; 1; 1; 1; 1; 1];
     array_lengths := [0; 0; 0; 0; 0; 0; 0; 0; 0; 0; 0; 0; 0; 0];
     crc_extra := 140;
     unpacker := "<IfffffffffffHB";
     init_defaults := [];
     init_body := [SetArg "time_boot_ms"; SetArg "coordinate_frame"; SetArg "type_mask"; SetArg "x";
       SetArg "y"; SetArg "z"; SetArg "vx"; SetArg "vy"; SetArg "vz"; SetArg "afx"; SetArg "afy";
       SetArg "afz"; SetArg "yaw"; SetArg "yaw_rate"];
     pack_args := [PA "time_boot_ms"; PA "x"; PA "y"; PA "z"; PA "vx"; PA "vy"; PA "vz"; PA "afx";
       PA "afy"; PA "afz"; PA "yaw"; PA "yaw_rate"; PA "type_mask"; PA "coordinate_frame"] |}.

Definition MAVLink_set_position_target_global_int_message : msgtype :=
  {| mt_id := 86;
     msgname := "SET_POSITION_TARGET_GLOBAL_INT";
     fieldnames := ["time_boot_ms"; "target_system"; "target_component"; "coordinate_frame";
       "type_mask"; "lat_int"; "lon_int"; "alt"; "vx"; "vy"; "vz"; "afx"; "afy"; "afz"; "yaw";
       "yaw_rate"];
     ordered_fieldnames := ["time_boot_ms"; "lat_int"; "lon_int"; "alt"; "vx"; "vy"; "vz"; "afx";
       "afy"; "afz"; "yaw"; "yaw_rate"; "type_mask"; "target_system"; "target_component";
       "coordinate_frame"];
     fieldtypes := ["uint32_t"; "uint8_t"; "uint8_t"; "uint8_t"; "uint16_t"; "int32_t"; "int32_t";
       "float"; "float"; "float"; "float"; "float"; "float"; "float"; "float"; "float"];
     fielddisplays_by_name := [("type_mask", "bitmask")];
     fieldenums_by_name := [("coordinate_frame", "MAV_FRAME"); ("type_mask",
       "POSITION_TARGET_TYPEMASK")];
     native_format := "<IiifffffffffHBBB";
     orders := [0; 13; 14; 15; 12; 1; 2; 3; 4; 5; 6; 7; 8; 9; 10; 11];
     lengths := [1; 1; 1; 1; 1; 1; 1; 1; 1; 1; 1; 1; 1; 1; 1; 1];
     array_lengths := [0; 0; 0; 0; 0; 0; 0; 0; 0; 0; 0; 0; 0; 0; 0; 0];
     crc_extra := 5;
     unpacker := "<IiifffffffffHBBB";
     init_defaults := [];
     init_body := [SetArg "time_boot_ms"; SetArg "target_system"; SetArg "target_component";
       SetArg "coordinate_frame"; SetArg "type_mask"; SetArg "lat_int"; SetArg "lon_int";
       SetArg "alt"; SetArg "vx"; SetArg "vy"; SetArg "vz"; SetArg "afx"; SetArg "afy";
       SetArg "afz"; SetArg "yaw"; SetArg "yaw_rate"];
     pack_args := [PA "time_boot_ms"; PA "lat_int"; PA "lon_int"; PA "alt"; PA "vx"; PA "vy";
       PA "vz"; PA "afx"; PA "afy"; PA "afz"; PA "yaw"; PA "yaw_rate"; PA "type_mask";
       PA "target_system"; PA "target_component"; PA "coordinate_frame"] |}.

Definition MAVLink_position_target_global_int_message : msgtype :=
  {| mt_id := 87;
     msgname := "POSITION_TARGET_GLOBAL_INT";
     fieldnames := ["time_boot_ms"; "coordinate_frame"; "type_mask"; "lat_int"; "lon_int"; "alt";
       "vx"; "vy"; "vz"; "afx"; "afy"; "afz"; "yaw"; "yaw_rate"];
     ordered_fieldnames := ["time_boot_ms"; "lat_int"; "lon_int"; "alt"; "vx"; "vy"; "vz"; "afx";
       "afy"; "afz"; "yaw"; "yaw_rate"; "type_mask"; "coordinate_frame"];
     fieldtypes := ["uint32_t"; "uint8_t"; "uint16_t"; "int32_t"; "int32_t"; "float"; "float";
       "float"; "float"; "float"; "float"; "float"; "float"; "float"];
     fielddisplays_by_name := [("type_mask", "bitmask")];
     fieldenums_by_name := [("coordinate_frame", "MAV_FRAME"); ("type_mask",
       "POSITION_TARGET_TYPEMASK")];
     native_format := "<IiifffffffffHB";
     orders := [0; 13; 12; 1; 2; 3; 4; 5; 6; 7; 8; 9; 10; 11];
     lengths := [1; 1; 1; 1; 1; 1; 1; 1; 1; 1; 1; 1; 1; 1];
     array_lengths := [0; 0; 0; 0; 0; 0; 0; 0; 0; 0; 0; 0; 0; 0];
     crc_extra := 150;
     unpacker := "<IiifffffffffHB";
     init_defaults := [];
     init_body := [SetArg "time_boot_ms"; SetArg "coordinate_frame"; SetArg "type_mask";
       SetArg "lat_int"; SetArg "lon_int"; SetArg "alt"; SetArg "vx"; SetArg "vy"; SetArg "vz";
       SetArg "afx"; SetArg "afy"; SetArg "afz"; SetArg "yaw"; SetArg "yaw_rate"];
     pack_args := [PA "time_boot_ms"; PA "lat_int"; PA "lon_int"; PA "alt"; PA "vx"; PA "vy";
       PA "vz"; PA "afx"; PA "afy"; PA "afz"; PA "yaw"; PA "yaw_rate"; PA "type_mask";
       PA "coordinate_frame"] |}.

Definition MAVLink_local_position_ned_system_global_offset_message : msgtype :=
  {| mt_id := 89;
     msgname := "LOCAL_POSITION_NED_SYSTEM_GLOBAL_OFFSET";
     fieldnames := ["time_boot_ms"; "x"; "y"; "z"; "roll"; "pitch"; "yaw"];
     ordered_fieldnames := ["time_boot_ms"; "x"; "y"; "z"; "roll"; "pitch"; "yaw"];
     fieldtypes := ["uint32_t"; "float"; "float"; "float"; "float"; "float"; "float"];
     fielddisplays_by_name := [];
     fieldenums_by_name := [];
     native_format := "<Iffffff";
     orders := [0; 1; 2; 3; 4; 5; 6];
     lengths := [1; 1; 1; 1; 1; 1; 1];
     array_lengths := [0; 0; 0; 0; 0; 0; 0];
     crc_extra := 231;
     unpacker := "<Iffffff";
     init_defaults := [];
     init_body := [SetArg "time_boot_ms"; SetArg "x"; SetArg "y"; SetArg "z"; SetArg "roll";
       SetArg "pitch"; SetArg "yaw"];
     pack_args := [PA "time_boot_ms"; PA "x"; PA "y"; PA "z"; PA "roll"; PA "pitch"; PA "yaw"] |}.

Definition MAVLink_hil_state_message : msgtype :=
  {| mt_id := 90;
     msgname := "HIL_STATE";
     fieldnames := ["time_usec"; "roll"; "pitch"; "yaw"; "rollspeed"; "pitchspeed"; "yawspeed";
       "lat"; "lon"; "alt"; "vx"; "vy"; "vz"; "xacc"; "yacc"; "zacc"];
     ordered_fieldnames := ["time_usec"; "roll"; "pitch"; "yaw"; "rollspeed"; "pitchspeed";
       "yawspeed"; "lat"; "lon"; "alt"; "vx"; "vy"; "vz"; "xacc"; "yacc"; "zacc"];
     fieldtypes := ["uint64_t"; "float"; "float"; "float"; "float"; "float"; "float"; "int32_t";
       "int32_t"; "int32_t"; "int16_t"; "int16_t"; "int16_t"; "int16_t"; "int16_t"; "int16_t"];
     fielddisplays_by_name := [];
     fieldenums_by_name := [];
     native_format := "<Qffffffiiihhhhhh";
     orders := [0; 1; 2; 3; 4; 5; 6; 7; 8; 9; 10; 11; 12; 13; 14; 15];
     lengths := [1; 1; 1; 1; 1; 1; 1; 1; 1; 1; 1; 1; 1; 1; 1; 1];
     array_lengths := [0; 0; 0; 0; 0; 0; 0; 0; 0; 0; 0; 0; 0; 0; 0; 0];
     crc_extra := 183;
     unpacker := "<Qffffffiiihhhhhh";
     init_defaults := [];
     init_body := [SetArg "time_usec"; SetArg "roll"; SetArg "pitch"; SetArg "yaw";
       SetArg "rollspeed"; SetArg "pitchspeed"; SetArg "yawspeed"; SetArg "lat"; SetArg "lon";
       SetArg "alt"; SetArg "vx"; SetArg "vy"; SetArg "vz"; SetArg "xacc"; SetArg "yacc";
       SetArg "zacc"];
     pack_args := [PA "time_usec"; PA "roll"; PA "pitch"; PA "yaw"; PA "rollspeed"; PA "pitchspeed";
       PA "yawspeed"; PA "lat"; PA "lon"; PA "alt"; PA "vx"; PA "vy"; PA "vz"; PA "xacc"; PA "yacc";
       PA "zacc"] |}.

Definition MAVLink_hil_controls_message : msgtype :=
  {| mt_id := 91;
     msgname := "HIL_CONTROLS";
     fieldnames := ["time_usec"; "roll_ailerons"; "pitch_elevator"; "yaw_rudder"; "throttle";
       "aux1"; "aux2"; "aux3"; "aux4"; "mode"; "nav_mode"];
     ordered_fieldnames := ["time_usec"; "roll_ailerons"; "pitch_elevator"; "yaw_rudder";
       "throttle"; "aux1"; "aux2"; "aux3"; "aux4"; "mode"; "nav_mode"];
     fieldtypes := ["uint64_t"; "float"; "float"; "float"; "float"; "float"; "float"; "float";
       "float"; "uint8_t"; "uint8_t"];
     fielddisplays_by_name := [];
     fieldenums_by_name := [("mode", "MAV_MODE")];
     native_format := "<QffffffffBB";
     orders := [0; 1; 2; 3; 4; 5; 6; 7; 8; 9; 10];
     lengths := [1; 1; 1; 1; 1; 1; 1; 1; 1; 1; 1];
     array_lengths := [0; 0; 0; 0; 0; 0; 0; 0; 0; 0; 0];
     crc_extra := 63;
     unpacker := "<QffffffffBB";
     init_defaults := [];
     init_body := [SetArg "time_usec"; SetArg "roll_ailerons"; SetArg "pitch_elevator";
       SetArg "yaw_rudder"; SetArg "throttle"; SetArg "aux1"; SetArg "aux2"; SetArg "aux3";
       SetArg "aux4"; SetArg "mode"; SetArg "nav_mode"];
     pack_args := [PA "time_usec"; PA "roll_ailerons"; PA "pitch_elevator"; PA "yaw_rudder";
       PA "throttle"; PA "aux1"; PA "aux2"; PA "aux3"; PA "aux4"; PA "mode"; PA "nav_mode"] |}.

Definition MAVLink_hil_rc_inputs_raw_message : msgtype :=
  {| mt_id := 92;
     msgname := "HIL_RC_INPUTS_RAW";
     fieldnames := ["time_usec"; "chan1_raw"; "chan2_raw"; "chan3_raw"; "chan4_raw"; "chan5_raw";
       "chan6_raw"; "chan7_raw"; "chan8_raw"; "chan9_raw"; "chan10_raw"; "chan11_raw"; "chan12_raw";
       "rssi"];
     ordered_fieldnames := ["time_usec"; "chan1_raw"; "chan2_raw"; "chan3_raw"; "chan4_raw";
       "chan5_raw"; "chan6_raw"; "chan7_raw"; "chan8_raw"; "chan9_raw"; "chan10_raw"; "chan11_raw";
       "chan12_raw"; "rssi"];
     fieldtypes := ["uint64_t"; "uint16_t"; "uint16_t"; "uint16_t"; "uint16_t"; "uint16_t";
       "uint16_t"; "uint16_t"; "uint16_t"; "uint16_t"; "uint16_t"; "uint16_t"; "uint16_t";
       "uint8_t"];
     fielddisplays_by_name := [];
     fieldenums_by_name := [];
     native_format := "<QHHHHHHHHHHHHB";
     orders := [0; 1; 2; 3; 4; 5; 6; 7; 8; 9; 10; 11; 12; 13];
     lengths := [1; 1; 1; 1; 1; 1; 1; 1; 1; 1; 1; 1; 1; 1];
     array_lengths := [0; 0; 0; 0; 0; 0; 0; 0; 0; 0; 0; 0; 0; 0];
     crc_extra := 54;
     unpacker := "<QHHHHHHHHHHHHB";
     init_defaults := [];
     init_body := [SetArg "time_usec"; SetArg "chan1_raw"; SetArg "chan2_raw"; SetArg "chan3_raw";
       SetArg "chan4_raw"; SetArg "chan5_raw"; SetArg "chan6_raw"; SetArg "chan7_raw";
       SetArg "chan8_raw"; SetArg "chan9_raw"; SetArg "chan10_raw"; SetArg "chan11_raw";
       SetArg "chan12_raw"; SetArg "rssi"];
     pack_args := [PA "time_usec"; PA "chan1_raw"; PA "chan2_raw"; PA "chan3_raw"; PA "chan4_raw";
       PA "chan5_raw"; PA "chan6_raw"; PA "chan7_raw"; PA "chan8_raw"; PA "chan9_raw";
       PA "chan10_raw"; PA "chan11_raw"; PA "chan12_raw"; PA "rssi"] |}.

Definition MAVLink_hil_actuator_controls_message : msgtype :=
  {| mt_id := 93;
     msgname := "HIL_ACTUATOR_CONTROLS";
     fieldnames := ["time_usec"; "controls"; "mode"; "flags"];
     ordered_fieldnames := ["time_usec"; "flags"; "controls"; "mode"];
     fieldtypes := ["uint64_t"; "float"; "uint8_t"; "uint64_t"];
     fielddisplays_by_name := [("mode", "bitmask"); ("flags", "bitmask")];
     fieldenums_by_name := [("mode", "MAV_MODE_FLAG")];
     native_format := "<QQfB";
     orders := [0; 2; 3; 1];
     lengths := [1; 1; 16; 1];
     array_lengths := [0; 0; 16; 0];
     crc_extra := 47;
     unpacker := "<QQ16fB";
     init_defaults := [];
     init_body := [SetArg "time_usec"; SetArg "controls"; SetArg "mode"; SetArg "flags"];
     pack_args := [PA "time_usec"; PA "flags"; PRun "controls" 16; PA "mode"] |}.

Definition MAVLink_optical_flow_message : msgtype :=
  {| mt_id := 100;
     msgname := "OPTICAL_FLOW";
     fieldnames := ["time_usec"; "sensor_id"; "flow_x"; "flow_y"; "flow_comp_m_x"; "flow_comp_m_y";
       "quality"; "ground_distance"; "flow_rate_x"; "flow_rate_y"];
     ordered_fieldnames := ["time_usec"; "flow_comp_m_x"; "flow_comp_m_y"; "ground_distance";
       "flow_x"; "flow_y"; "sensor_id"; "quality"; "flow_rate_x"; "flow_rate_y"];
     fieldtypes := ["uint64_t"; "uint8_t"; "int16_t"; "int16_t"; "float"; "float"; "uint8_t";
       "float"; "float"; "float"];
     fielddisplays_by_name := [];
     fieldenums_by_name := [];
     native_format := "<QfffhhBBff";
     orders := [0; 6; 4; 5; 1; 2; 7; 3; 8; 9];
     lengths := [1; 1; 1; 1; 1; 1; 1; 1; 1; 1];
     array_lengths := [0; 0; 0; 0; 0; 0; 0; 0; 0; 0];
     crc_extra := 175;
     unpacker := "<QfffhhBBff";
     init_defaults := [FScalar (PInt 0); FScalar (PInt 0)];
     init_body := [SetArg "time_usec"; SetArg "sensor_id"; SetArg "flow_x"; SetArg "flow_y";
       SetArg "flow_comp_m_x"; SetArg "flow_comp_m_y"; SetArg "quality"; SetArg "ground_distance";
       SetArg "flow_rate_x"; SetArg "flow_rate_y"];
     pack_args := [PA "time_usec"; PA "flow_comp_m_x"; PA "flow_comp_m_y"; PA "ground_distance";
       PA "flow_x"; PA "flow_y"; PA "sensor_id"; PA "quality"; PA "flow_rate_x"; PA "flow_rate_y"]
       |}.

Definition MAVLink_global_vision_position_estimate_message : msgtype :=
  {| mt_id := 101;
     msgname := "GLOBAL_VISION_POSITION_ESTIMATE";
     fieldnames := ["usec"; "x"; "y"; "z"; "roll"; "pitch"; "yaw"; "covariance"; "reset_counter"];
     ordered_fieldnames := ["usec"; "x"; "y"; "z"; "roll"; "pitch"; "yaw"; "covariance";
       "reset_counter"];
     fieldtypes := ["uint64_t"; "float"; "float"; "float"; "float"; "float"; "float"; "float";
       "uint8_t"];
     fielddisplays_by_name := [];
     fieldenums_by_name := [];
     native_format := "<QfffffffB";
     orders := [0; 1; 2; 3; 4; 5; 6; 7; 8];
     lengths := [1; 1; 1; 1; 1; 1; 1; 21; 1];
     array_lengths := [0; 0; 0; 0; 0; 0; 0; 21; 0];
     crc_extra := 102;
     unpacker := "<Qffffff21fB";
     init_defaults := [FArray (replicate 21 (PInt 0)); FScalar (PInt 0)];
     init_body := [SetArg "usec"; SetArg "x"; SetArg "y"; SetArg "z"; SetArg "roll"; SetArg "pitch";
       SetArg "yaw"; SetArg "covariance"; SetArg "reset_counter"];
     pack_args := [PA "usec"; PA "x"; PA "y"; PA "z"; PA "roll"; PA "pitch"; PA "yaw";
       PRun "covariance" 21; PA "reset_counter"] |}.

Definition MAVLink_vision_position_estimate_message : msgtype :=
  {| mt_id := 102;
     msgname := "VISION_POSITION_ESTIMATE";
     fieldnames := ["usec"; "x"; "y"; "z"; "roll"; "pitch"; "yaw"; "covariance"; "reset_counter"];
     ordered_fieldnames := ["usec"; "x"; "y"; "z"; "roll"; "pitch"; "yaw"; "covariance";
       "reset_counter"];
     fieldtypes := ["uint64_t"; "float"; "float"; "float"; "float"; "float"; "float"; "float";
       "uint8_t"];
     fielddisplays_by_name := [];
     fieldenums_by_name := [];
     native_format := "<QfffffffB";
     orders := [0; 1; 2; 3; 4; 5; 6; 7; 8];
     lengths := [1; 1; 1; 1; 1; 1; 1; 21; 1];
     array_lengths := [0; 0; 0; 0; 0; 0; 0; 21; 0];
     crc_extra := 158;
     unpacker := "<Qffffff21fB";
     init_defaults := [FArray (replicate 21 (PInt 0)); FScalar (PInt 0)];
     init_body := [SetArg "usec"; SetArg "x"; SetArg "y"; SetArg "z"; SetArg "roll"; SetArg "pitch";
       SetArg "yaw"; SetArg "covariance"; SetArg "reset_counter"];
     pack_args := [PA "usec"; PA "x"; PA "y"; PA "z"; PA "roll"; PA "pitch"; PA "yaw";
       PRun "covariance" 21; PA "reset_counter"] |}.

Definition MAVLink_vision_speed_estimate_message : msgtype :=
  {| mt_id := 103;
     msgname := "VISION_SPEED_ESTIMATE";
     fieldnames := ["usec"; "x"; "y"; "z"; "covariance"; "reset_counter"];
     ordered_fieldnames := ["usec"; "x"; "y"; "z"; "covariance"; "reset_counter"];
     fieldtypes := ["uint64_t"; "float"; "float"; "float"; "float"; "uint8_t"];
     fielddisplays_by_name := [];
     fieldenums_by_name := [];
     native_format := "<QffffB";
     orders := [0; 1; 2; 3; 4; 5];
     lengths := [1; 1; 1; 1; 9; 1];
     array_lengths := [0; 0; 0; 0; 9; 0];
     crc_extra := 208;
     unpacker := "<Qfff9fB";
     init_defaults := [FArray (replicate 9 (PInt 0)); FScalar (PInt 0)];
     init_body := [SetArg "usec"; SetArg "x"; SetArg "y"; SetArg "z"; SetArg "covariance";
       SetArg "reset_counter"];
     pack_args := [PA "usec"; PA "x"; PA "y"; PA "z"; PRun "covariance" 9; PA "reset_counter"] |}.

Definition MAVLink_vicon_position_estimate_message : msgtype :=
  {| mt_id := 104;
     msgname := "VICON_POSITION_ESTIMATE";
     fieldnames := ["usec"; "x"; "y"; "z"; "roll"; "pitch"; "yaw"; "covariance"];
     ordered_fieldnames := ["usec"; "x"; "y"; "z"; "roll"; "pitch"; "yaw"; "covariance"];
     fieldtypes := ["uint64_t"; "float"; "float"; "float"; "float"; "float"; "float"; "float"];
     fielddisplays_by_name := [];
     fieldenums_by_name := [];
     native_format := "<Qfffffff";
     orders := [0; 1; 2; 3; 4; 5; 6; 7];
     lengths := [1; 1; 1; 1; 1; 1; 1; 21];
     array_lengths := [0; 0; 0; 0; 0; 0; 0; 21];
     crc_extra := 56;
     unpacker := "<Qffffff21f";
     init_defaults := [FArray (replicate 21 (PInt 0))];
     init_body := [SetArg "usec"; SetArg "x"; SetArg "y"; SetArg "z"; SetArg "roll"; SetArg "pitch";
       SetArg "yaw"; SetArg "covariance"];
     pack_args := [PA "usec"; PA "x"; PA "y"; PA "z"; PA "roll"; PA "pitch"; PA "yaw";
       PRun "covariance" 21] |}.

Definition MAVLink_highres_imu_message : msgtype :=
  {| mt_id := 105;
     msgname := "HIGHRES_IMU";
     fieldnames := ["time_usec"; "xacc"; "yacc"; "zacc"; "xgyro"; "ygyro"; "zgyro"; "xmag"; "ymag";
       "zmag"; "abs_pressure"; "diff_pressure"; "pressure_alt"; "temperature"; "fields_updated";
       "id"];
     ordered_fieldnames := ["time_usec"; "xacc"; "yacc"; "zacc"; "xgyro"; "ygyro"; "zgyro"; "xmag";
       "ymag"; "zmag"; "abs_pressure"; "diff_pressure"; "pressure_alt"; "temperature";
       "fields_updated"; "id"];
     fieldtypes := ["uint64_t"; "float"; "float"; "float"; "float"; "float"; "float"; "float";
       "float"; "float"; "float"; "float"; "float"; "float"; "uint16_t"; "uint8_t"];
     fielddisplays_by_name := [("fields_updated", "bitmask")];
     fieldenums_by_name := [("fields_updated", "HIGHRES_IMU_UPDATED_FLAGS")];
     native_format := "<QfffffffffffffHB";
     orders := [0; 1; 2; 3; 4; 5; 6; 7; 8; 9; 10; 11; 12; 13; 14; 15];
     lengths := [1; 1; 1; 1; 1; 1; 1; 1; 1; 1; 1; 1; 1; 1; 1; 1];
     array_lengths := [0; 0; 0; 0; 0; 0; 0; 0; 0; 0; 0; 0; 0; 0; 0; 0];
     crc_extra := 93;
     unpacker := "<QfffffffffffffHB";
     init_defaults := [FScalar (PInt 0)];
     init_body := [SetArg "time_usec"; SetArg "xacc"; SetArg "yacc"; SetArg "zacc"; SetArg "xgyro";
       SetArg "ygyro"; SetArg "zgyro"; SetArg "xmag"; SetArg "ymag"; SetArg "zmag";
       SetArg "abs_pressure"; SetArg "diff_pressure"; SetArg "pressure_alt"; SetArg "temperature";
       SetArg "fields_updated"; SetArg "id"];
     pack_args := [PA "time_usec"; PA "xacc"; PA "yacc"; PA "zacc"; PA "xgyro"; PA "ygyro";
       PA "zgyro"; PA "xmag"; PA "ymag"; PA "zmag"; PA "abs_pressure"; PA "diff_pressure";
       PA "pressure_alt"; PA "temperature"; PA "fields_updated"; PA "id"] |}.

Definition MAVLink_optical_flow_rad_message : msgtype :=
  {| mt_id := 106;
     msgname := "OPTICAL_FLOW_RAD";
     fieldnames := ["time_usec"; "sensor_id"; "integration_time_us"; "integrated_x"; "integrated_y";
       "integrated_xgyro"; "integrated_ygyro"; "integrated_zgyro"; "temperature"; "quality";
       "time_delta_distance_us"; "distance"];
     ordered_fieldnames := ["time_usec"; "integration_time_us"; "integrated_x"; "integrated_y";
       "integrated_xgyro"; "integrated_ygyro"; "integrated_zgyro"; "time_delta_distance_us";
       "distance"; "temperature"; "sensor_id"; "quality"];
     fieldtypes := ["uint64_t"; "uint8_t"; "uint32_t"; "float"; "float"; "float"; "float"; "float";
       "int16_t"; "uint8_t"; "uint32_t"; "float"];
     fielddisplays_by_name := [];
     fieldenums_by_name := [];
     native_format := "<QIfffffIfhBB";
     orders := [0; 10; 1; 2; 3; 4; 5; 6; 9; 11; 7; 8];
     lengths := [1; 1; 1; 1; 1; 1; 1; 1; 1; 1; 1; 1];
     array_lengths := [0; 0; 0; 0; 0; 0; 0; 0; 0; 0; 0; 0];
     crc_extra := 138;
     unpacker := "<QIfffffIfhBB";
     init_defaults := [];
     init_body := [SetArg "time_usec"; SetArg "sensor_id"; SetArg "integration_time_us";
       SetArg "integrated_x"; SetArg "integrated_y"; SetArg "integrated_xgyro";
       SetArg "integrated_ygyro"; SetArg "integrated_zgyro"; SetArg "temperature"; SetArg "quality";
       SetArg "time_delta_distance_us"; SetArg "distance"];
     pack_args := [PA "time_usec"; PA "integration_time_us"; PA "integrated_x"; PA "integrated_y";
       PA "integrated_xgyro"; PA "integrated_ygyro"; PA "integrated_zgyro";
       PA "time_delta_distance_us"; PA "distance"; PA "temperature"; PA "sensor_id"; PA "quality"]
       |}.

Definition MAVLink_hil_sensor_message : msgtype :=
  {| mt_id := 107;
     msgname := "HIL_SENSOR";
     fieldnames := ["time_usec"; "xacc"; "yacc"; "zacc"; "xgyro"; "ygyro"; "zgyro"; "xmag"; "ymag";
       "zmag"; "abs_pressure"; "diff_pressure"; "pressure_alt"; "temperature"; "fields_updated";
       "id"];
     ordered_fieldnames := ["time_usec"; "xacc"; "yacc"; "zacc"; "xgyro"; "ygyro"; "zgyro"; "xmag";
       "ymag"; "zmag"; "abs_pressure"; "diff_pressure"; "pressure_alt"; "temperature";
       "fields_updated"; "id"];
     fieldtypes := ["uint64_t"; "float"; "float"; "float"; "float"; "float"; "float"; "float";
       "float"; "float"; "float"; "float"; "float"; "float"; "uint32_t"; "uint8_t"];
     fielddisplays_by_name := [("fields_updated", "bitmask")];
     fieldenums_by_name := [("fields_updated", "HIL_SENSOR_UPDATED_FLAGS")];
     native_format := "<QfffffffffffffIB";
     orders := [0; 1; 2; 3; 4; 5; 6; 7; 8; 9; 10; 11; 12; 13; 14; 15];
     lengths := [1; 1; 1; 1; 1; 1; 1; 1; 1; 1; 1; 1; 1; 1; 1; 1];
     array_lengths := [0; 0; 0; 0; 0; 0; 0; 0; 0; 0; 0; 0; 0; 0; 0; 0];
     crc_extra := 108;
     unpacker := "<QfffffffffffffIB";
     init_defaults := [FScalar (PInt 0)];
     init_body := [SetArg "time_usec"; SetArg "xacc"; SetArg "yacc"; SetArg "zacc"; SetArg "xgyro";
       SetArg "ygyro"; SetArg "zgyro"; SetArg "xmag"; SetArg "ymag"; SetArg "zmag";
       SetArg "abs_pressure"; SetArg "diff_pressure"; SetArg "pressure_alt"; SetArg "temperature";
       SetArg "fields_updated"; SetArg "id"];
     pack_args := [PA "time_usec"; PA "xacc"; PA "yacc"; PA "zacc"; PA "xgyro"; PA "ygyro";
       PA "zgyro"; PA "xmag"; PA "ymag"; PA "zmag"; PA "abs_pressure"; PA "diff_pressure";
       PA "pressure_alt"; PA "temperature"; PA "fields_updated"; PA "id"] |}.

Definition MAVLink_sim_state_message : msgtype :=
  {| mt_id := 108;
     msgname := "SIM_STATE";
     fieldnames := ["q1"; "q2"; "q3"; "q4"; "roll"; "pitch"; "yaw"; "xacc"; "yacc"; "zacc"; "xgyro";
       "ygyro"; "zgyro"; "lat"; "lon"; "alt"; "std_dev_horz"; "std_dev_vert"; "vn"; "ve"; "vd";
       "lat_int"; "lon_int"];
     ordered_fieldnames := ["q1"; "q2"; "q3"; "q4"; "roll"; "pitch"; "yaw"; "xacc"; "yacc"; "zacc";
       "xgyro"; "ygyro"; "zgyro"; "lat"; "lon"; "alt"; "std_dev_horz"; "std_dev_vert"; "vn"; "ve";
       "vd"; "lat_int"; "lon_int"];
     fieldtypes := ["float"; "float"; "float"; "float"; "float"; "float"; "float"; "float"; "float";
       "float"; "float"; "float"; "float"; "float"; "float"; "float"; "float"; "float"; "float";
       "float"; "float"; "int32_t"; "int32_t"];
     fielddisplays_by_name := [];
     fieldenums_by_name := [];
     native_format := "<fffffffffffffffffffffii";
     orders := [0; 1; 2; 3; 4; 5; 6; 7; 8; 9; 10; 11; 12; 13; 14; 15; 16; 17; 18; 19; 20; 21; 22];
     lengths := [1; 1; 1; 1; 1; 1; 1; 1; 1; 1; 1; 1; 1; 1; 1; 1; 1; 1; 1; 1; 1; 1; 1];
     array_lengths := [0; 0; 0; 0; 0; 0; 0; 0; 0; 0; 0; 0; 0; 0; 0; 0; 0; 0; 0; 0; 0; 0; 0];
     crc_extra := 32;
     unpacker := "<fffffffffffffffffffffii";
     init_defaults := [FScalar (PInt 0); FScalar (PInt 0)];
     init_body := [SetArg "q1"; SetArg "q2"; SetArg "q3"; SetArg "q4"; SetArg "roll";
       SetArg "pitch"; SetArg "yaw"; SetArg "xacc"; SetArg "yacc"; SetArg "zacc"; SetArg "xgyro";
       SetArg "ygyro"; SetArg "zgyro"; SetArg "lat"; SetArg "lon"; SetArg "alt";
       SetArg "std_dev_horz"; SetArg "std_dev_vert"; SetArg "vn"; SetArg "ve"; SetArg "vd";
       SetArg "lat_int"; SetArg "lon_int"];
     pack_args := [PA "q1"; PA "q2"; PA "q3"; PA "q4"; PA "roll"; PA "pitch"; PA "yaw"; PA "xacc";
       PA "yacc"; PA "zacc"; PA "xgyro"; PA "ygyro"; PA "zgyro"; PA "lat"; PA "lon"; PA "alt";
       PA "std_dev_horz"; PA "std_dev_vert"; PA "vn"; PA "ve"; PA "vd"; PA "lat_int"; PA "lon_int"]
       |}.

Definition MAVLink_radio_status_message : msgtype :=
  {| mt_id := 109;
     msgname := "RADIO_STATUS";
     fieldnames := ["rssi"; "remrssi"; "txbuf"; "noise"; "remnoise"; "rxerrors"; "fixed"];
     ordered_fieldnames := ["rxerrors"; "fixed"; "rssi"; "remrssi"; "txbuf"; "noise"; "remnoise"];
     fieldtypes := ["uint8_t"; "uint8_t"; "uint8_t"; "uint8_t"; "uint8_t"; "uint16_t"; "uint16_t"];
     fielddisplays_by_name := [];
     fieldenums_by_name := [];
     native_format := "<HHBBBBB";
     orders := [2; 3; 4; 5; 6; 0; 1];
     lengths := [1; 1; 1; 1; 1; 1; 1];
     array_lengths := [0; 0; 0; 0; 0; 0; 0];
     crc_extra := 185;
     unpacker := "<HHBBBBB";
     init_defaults := [];
     init_body := [SetArg "rssi"; SetArg "remrssi"; SetArg "txbuf"; SetArg "noise";
       SetArg "remnoise"; SetArg "rxerrors"; SetArg "fixed"];
     pack_args := [PA "rxerrors"; PA "fixed"; PA "rssi"; PA "remrssi"; PA "txbuf"; PA "noise";
       PA "remnoise"] |}.

Definition MAVLink_file_transfer_protocol_message : msgtype :=
  {| mt_id := 110;
     msgname := "FILE_TRANSFER_PROTOCOL";
     fieldnames := ["target_network"; "target_system"; "target_component"; "payload"];
     ordered_fieldnames := ["target_network"; "target_system"; "target_component"; "payload"];
     fieldtypes := ["uint8_t"; "uint8_t"; "uint8_t"; "uint8_t"];
     fielddisplays_by_name := [];
     fieldenums_by_name := [];
     native_format := "<BBBB";
     orders := [0; 1; 2; 3];
     lengths := [1; 1; 1; 251];
     array_lengths := [0; 0; 0; 251];
     crc_extra := 84;
     unpacker := "<BBB251B";
     init_defaults := [];
     init_body := [SetArg "target_network"; SetArg "target_system"; SetArg "target_component";
       SetArg "payload"];
     pack_args := [PA "target_network"; PA "target_system"; PA "target_component";
       PRun "payload" 251] |}.

Definition MAVLink_timesync_message : msgtype :=
  {| mt_id := 111;
     msgname := "TIMESYNC";
     fieldnames := ["tc1"; "ts1"; "target_system"; "target_component"];
     ordered_fieldnames := ["tc1"; "ts1"; "target_system"; "target_component"];
     fieldtypes := ["int64_t"; "int64_t"; "uint8_t"; "uint8_t"];
     fielddisplays_by_name := [];
     fieldenums_by_name := [];
     native_format := "<qqBB";
     orders := [0; 1; 2; 3];
     lengths := [1; 1; 1; 1];
     array_lengths := [0; 0; 0; 0];
     crc_extra := 34;
     unpacker := "<qqBB";
     init_defaults := [FScalar (PInt 0); FScalar (PInt 0)];
     init_body := [SetArg "tc1"; SetArg "ts1"; SetArg "target_system"; SetArg "target_component"];
     pack_args := [PA "tc1"; PA "ts1"; PA "target_system"; PA "target_component"] |}.

Definition MAVLink_camera_trigger_message : msgtype :=
  {| mt_id := 112;
     msgname := "CAMERA_TRIGGER";
     fieldnames := ["time_usec"; "seq"];
     ordered_fieldnames := ["time_usec"; "seq"];
     fieldtypes := ["uint64_t"; "uint32_t"];
     fielddisplays_by_name := [];
     fieldenums_by_name := [];
     native_format := "<QI";
     orders := [0; 1];
     lengths := [1; 1];
     array_lengths := [0; 0];
     crc_extra := 174;
     unpacker := "<QI";
     init_defaults := [];
     init_body := [SetArg "time_usec"; SetArg "seq"];
     pack_args := [PA "time_usec"; PA "seq"] |}.

Definition MAVLink_hil_gps_message : msgtype :=
  {| mt_id := 113;
     msgname := "HIL_GPS";
     fieldnames := ["time_usec"; "fix_type"; "lat"; "lon"; "alt"; "eph"; "epv"; "vel"; "vn"; "ve";
       "vd"; "cog"; "satellites_visible"; "id"; "yaw"];
     ordered_fieldnames := ["time_usec"; "lat"; "lon"; "alt"; "eph"; "epv"; "vel"; "vn"; "ve"; "vd";
       "cog"; "fix_type"; "satellites_visible"; "id"; "yaw"];
     fieldtypes := ["uint64_t"; "uint8_t"; "int32_t"; "int32_t"; "int32_t"; "uint16_t"; "uint16_t";
       "uint16_t"; "int16_t"; "int16_t"; "int16_t"; "uint16_t"; "uint8_t"; "uint8_t"; "uint16_t"];
     fielddisplays_by_name := [];
     fieldenums_by_name := [];
     native_format := "<QiiiHHHhhhHBBBH";
     orders := [0; 11; 1; 2; 3; 4; 5; 6; 7; 8; 9; 10; 12; 13; 14];
     lengths := [1; 1; 1; 1; 1; 1; 1; 1; 1; 1; 1; 1; 1; 1; 1];
     array_lengths := [0; 0; 0; 0; 0; 0; 0; 0; 0; 0; 0; 0; 0; 0; 0];
     crc_extra := 124;
     unpacker := "<QiiiHHHhhhHBBBH";
     init_defaults := [FScalar (PInt 0); FScalar (PInt 0)];
     init_body := [SetArg "time_usec"; SetArg "fix_type"; SetArg "lat"; SetArg "lon"; SetArg "alt";
       SetArg "eph"; SetArg "epv"; SetArg "vel"; SetArg "vn"; SetArg "ve"; SetArg "vd";
       SetArg "cog"; SetArg "satellites_visible"; SetArg "id"; SetArg "yaw"];
     pack_args := [PA "time_usec"; PA "lat"; PA "lon"; PA "alt"; PA "eph"; PA "epv"; PA "vel";
       PA "vn"; PA "ve"; PA "vd"; PA "cog"; PA "fix_type"; PA "satellites_visible"; PA "id";
       PA "yaw"] |}.

Definition MAVLink_hil_optical_flow_message : msgtype :=
  {| mt_id := 114;
     msgname := "HIL_OPTICAL_FLOW";
     fieldnames := ["time_usec"; "sensor_id"; "integration_time_us"; "integrated_x"; "integrated_y";
       "integrated_xgyro"; "integrated_ygyro"; "integrated_zgyro"; "temperature"; "quality";
       "time_delta_distance_us"; "distance"];
     ordered_fieldnames := ["time_usec"; "integration_time_us"; "integrated_x"; "integrated_y";
       "integrated_xgyro"; "integrated_ygyro"; "integrated_zgyro"; "time_delta_distance_us";
       "distance"; "temperature"; "sensor_id"; "quality"];
     fieldtypes := ["uint64_t"; "uint8_t"; "uint32_t"; "float"; "float"; "float"; "float"; "float";
       "int16_t"; "uint8_t"; "uint32_t"; "float"];
     fielddisplays_by_name := [];
     fieldenums_by_name := [];
     native_format := "<QIfffffIfhBB";
     orders := [0; 10; 1; 2; 3; 4; 5; 6; 9; 11; 7; 8];
     lengths := [1; 1; 1; 1; 1; 1; 1; 1; 1; 1; 1; 1];
     array_lengths := [0; 0; 0; 0; 0; 0; 0; 0; 0; 0; 0; 0];
     crc_extra := 237;
     unpacker := "<QIfffffIfhBB";
     init_defaults := [];
     init_body := [SetArg "time_usec"; SetArg "sensor_id"; SetArg "integration_time_us";
       SetArg "integrated_x"; SetArg "integrated_y"; SetArg "integrated_xgyro";
       SetArg "integrated_ygyro"; SetArg "integrated_zgyro"; SetArg "temperature"; SetArg "quality";
       SetArg "time_delta_distance_us"; SetArg "distance"];
     pack_args := [PA "time_usec"; PA "integration_time_us"; PA "integrated_x"; PA "integrated_y";
       PA "integrated_xgyro"; PA "integrated_ygyro"; PA "integrated_zgyro";
       PA "time_delta_distance_us"; PA "distance"; PA "temperature"; PA "sensor_id"; PA "quality"]
       |}.

Definition MAVLink_hil_state_quaternion_message : msgtype :=
  {| mt_id := 115;
     msgname := "HIL_STATE_QUATERNION";
     fieldnames := ["time_usec"; "attitude_quaternion"; "rollspeed"; "pitchspeed"; "yawspeed";
       "lat"; "lon"; "alt"; "vx"; "vy"; "vz"; "ind_airspeed"; "true_airspeed"; "xacc"; "yacc";
       "zacc"];
     ordered_fieldnames := ["time_usec"; "attitude_quaternion"; "rollspeed"; "pitchspeed";
       "yawspeed"; "lat"; "lon"; "alt"; "vx"; "vy"; "vz"; "ind_airspeed"; "true_airspeed"; "xacc";
       "yacc"; "zacc"];
     fieldtypes := ["uint64_t"; "float"; "float"; "float"; "float"; "int32_t"; "int32_t"; "int32_t";
       "int16_t"; "int16_t"; "int16_t"; "uint16_t"; "uint16_t"; "int16_t"; "int16_t"; "int16_t"];
     fielddisplays_by_name := [];
     fieldenums_by_name := [];
     native_format := "<QffffiiihhhHHhhh";
     orders := [0; 1; 2; 3; 4; 5; 6; 7; 8; 9; 10; 11; 12; 13; 14; 15];
     lengths := [1; 4; 1; 1; 1; 1; 1; 1; 1; 1; 1; 1; 1; 1; 1; 1];
     array_lengths := [0; 4; 0; 0; 0; 0; 0; 0; 0; 0; 0; 0; 0; 0; 0; 0];
     crc_extra := 4;
     unpacker := "<Q4ffffiiihhhHHhhh";
     init_defaults := [];
     init_body := [SetArg "time_usec"; SetArg "attitude_quaternion"; SetArg "rollspeed";
       SetArg "pitchspeed"; SetArg "yawspeed"; SetArg "lat"; SetArg "lon"; SetArg "alt";
       SetArg "vx"; SetArg "vy"; SetArg "vz"; SetArg "ind_airspeed"; SetArg "true_airspeed";
       SetArg "xacc"; SetArg "yacc"; SetArg "zacc"];
     pack_args := [PA "time_usec"; PRun "attitude_quaternion" 4; PA "rollspeed"; PA "pitchspeed";
       PA "yawspeed"; PA "lat"; PA "lon"; PA "alt"; PA "vx"; PA "vy"; PA "vz"; PA "ind_airspeed";
       PA "true_airspeed"; PA "xacc"; PA "yacc"; PA "zacc"] |}.

Definition MAVLink_scaled_imu2_message : msgtype :=
  {| mt_id := 116;
     msgname := "SCALED_IMU2";
     fieldnames := ["time_boot_ms"; "xacc"; "yacc"; "zacc"; "xgyro"; "ygyro"; "zgyro"; "xmag";
       "ymag"; "zmag"; "temperature"];
     ordered_fieldnames := ["time_boot_ms"; "xacc"; "yacc"; "zacc"; "xgyro"; "ygyro"; "zgyro";
       "xmag"; "ymag"; "zmag"; "temperature"];
     fieldtypes := ["uint32_t"; "int16_t"; "int16_t"; "int16_t"; "int16_t"; "int16_t"; "int16_t";
       "int16_t"; "int16_t"; "int16_t"; "int16_t"];
     fielddisplays_by_name := [];
     fieldenums_by_name := [];
     native_format := "<Ihhhhhhhhhh";
     orders := [0; 1; 2; 3; 4; 5; 6; 7; 8; 9; 10];
     lengths := [1; 1; 1; 1; 1; 1; 1; 1; 1; 1; 1];
     array_lengths := [0; 0; 0; 0; 0; 0; 0; 0; 0; 0; 0];
     crc_extra := 76;
     unpacker := "<Ihhhhhhhhhh";
     init_defaults := [FScalar (PInt 0)];
     init_body := [SetArg "time_boot_ms"; SetArg "xacc"; SetArg "yacc"; SetArg "zacc";
       SetArg "xgyro"; SetArg "ygyro"; SetArg "zgyro"; SetArg "xmag"; SetArg "ymag"; SetArg "zmag";
       SetArg "temperature"];
     pack_args := [PA "time_boot_ms"; PA "xacc"; PA "yacc"; PA "zacc"; PA "xgyro"; PA "ygyro";
       PA "zgyro"; PA "xmag"; PA "ymag"; PA "zmag"; PA "temperature"] |}.

Definition MAVLink_log_request_list_message : msgtype :=
  {| mt_id := 117;
     msgname := "LOG_REQUEST_LIST";
     fieldnames := ["target_system"; "target_component"; "start"; "end"];
     ordered_fieldnames := ["start"; "end"; "target_system"; "target_component"];
     fieldtypes := ["uint8_t"; "uint8_t"; "uint16_t"; "uint16_t"];
     fielddisplays_by_name := [];
     fieldenums_by_name := [];
     native_format := "<HHBB";
     orders := [2; 3; 0; 1];
     lengths := [1; 1; 1; 1];
     array_lengths := [0; 0; 0; 0];
     crc_extra := 128;
     unpacker := "<HHBB";
     init_defaults := [];
     init_body := [SetArg "target_system"; SetArg "target_component"; SetArg "start"; SetArg "end"];
     pack_args := [PA "start"; PA "end"; PA "target_system"; PA "target_component"] |}.

Definition MAVLink_log_entry_message : msgtype :=
  {| mt_id := 118;
     msgname := "LOG_ENTRY";
     fieldnames := ["id"; "num_logs"; "last_log_num"; "time_utc"; "size"];
     ordered_fieldnames := ["time_utc"; "size"; "id"; "num_logs"; "last_log_num"];
     fieldtypes := ["uint16_t"; "uint16_t"; "uint16_t"; "uint32_t"; "uint32_t"];
     fielddisplays_by_name := [];
     fieldenums_by_name := [];
     native_format := "<IIHHH";
     orders := [2; 3; 4; 0; 1];
     lengths := [1; 1; 1; 1; 1];
     array_lengths := [0; 0; 0; 0; 0];
     crc_extra := 56;
     unpacker := "<IIHHH";
     init_defaults := [];
     init_body := [SetArg "id"; SetArg "num_logs"; SetArg "last_log_num"; SetArg "time_utc";
       SetArg "size"];
     pack_args := [PA "time_utc"; PA "size"; PA "id"; PA "num_logs"; PA "last_log_num"] |}.

Definition MAVLink_log_request_data_message : msgtype :=
  {| mt_id := 119;
     msgname := "LOG_REQUEST_DATA";
     fieldnames := ["target_system"; "target_component"; "id"; "ofs"; "count"];
     ordered_fieldnames := ["ofs"; "count"; "id"; "target_system"; "target_component"];
     fieldtypes := ["uint8_t"; "uint8_t"; "uint16_t"; "uint32_t"; "uint32_t"];
     fielddisplays_by_name := [];
     fieldenums_by_name := [];
     native_format := "<IIHBB";
     orders := [3; 4; 2; 0; 1];
     lengths := [1; 1; 1; 1; 1];
     array_lengths := [0; 0; 0; 0; 0];
     crc_extra := 116;
     unpacker := "<IIHBB";
     init_defaults := [];
     init_body := [SetArg "target_system"; SetArg "target_component"; SetArg "id"; SetArg "ofs";
       SetArg "count"];
     pack_args := [PA "ofs"; PA "count"; PA "id"; PA "target_system"; PA "target_component"] |}.

Definition MAVLink_log_data_message : msgtype :=
  {| mt_id := 120;
     msgname := "LOG_DATA";
     fieldnames := ["id"; "ofs"; "count"; "data"];
     ordered_fieldnames := ["ofs"; "id"; "count"; "data"];
     fieldtypes := ["uint16_t"; "uint32_t"; "uint8_t"; "uint8_t"];
     fielddisplays_by_name := [];
     fieldenums_by_name := [];
     native_format := "<IHBB";
     orders := [1; 0; 2; 3];
     lengths := [1; 1; 1; 90];
     array_lengths := [0; 0; 0; 90];
     crc_extra := 134;
     unpacker := "<IHB90B";
     init_defaults := [];
     init_body := [SetArg "id"; SetArg "ofs"; SetArg "count"; SetArg "data"];
     pack_args := [PA "ofs"; PA "id"; PA "count"; PRun "data" 90] |}.

Definition MAVLink_log_erase_message : msgtype :=
  {| mt_id := 121;
     msgname := "LOG_ERASE";
     fieldnames := ["target_system"; "target_component"];
     ordered_fieldnames := ["target_system"; "target_component"];
     fieldtypes := ["uint8_t"; "uint8_t"];
     fielddisplays_by_name := [];
     fieldenums_by_name := [];
     native_format := "<BB";
     orders := [0; 1];
     lengths := [1; 1];
     array_lengths := [0; 0];
     crc_extra := 237;
     unpacker := "<BB";
     init_defaults := [];
     init_body := [SetArg "target_system"; SetArg "target_component"];
     pack_args := [PA "target_system"; PA "target_component"] |}.

Definition MAVLink_log_request_end_message : msgtype :=
  {| mt_id := 122;
     msgname := "LOG_REQUEST_END";
     fieldnames := ["target_system"; "target_component"];
     ordered_fieldnames := ["target_system"; "target_component"];
     fieldtypes := ["uint8_t"; "uint8_t"];
     fielddisplays_by_name := [];
     fieldenums_by_name := [];
     native_format := "<BB";
     orders := [0; 1];
     lengths := [1; 1];
     array_lengths := [0; 0];
     crc_extra := 203;
     unpacker := "<BB";
     init_defaults := [];
     init_body := [SetArg "target_system"; SetArg "target_component"];
     pack_args := [PA "target_system"; PA "target_component"] |}.

Definition MAVLink_gps_inject_data_message : msgtype :=
  {| mt_id := 123;
     msgname := "GPS_INJECT_DATA";
     fieldnames := ["target_system"; "target_component"; "len"; "data"];
     ordered_fieldnames := ["target_system"; "target_component"; "len"; "data"];
     fieldtypes := ["uint8_t"; "uint8_t"; "uint8_t"; "uint8_t"];
     fielddisplays_by_name := [];
     fieldenums_by_name := [];
     native_format := "<BBBB";
     orders := [0; 1; 2; 3];
     lengths := [1; 1; 1; 110];
     array_lengths := [0; 0; 0; 110];
     crc_extra := 250;
     unpacker := "<BBB110B";
     init_defaults := [];
     init_body := [SetArg "target_system"; SetArg "target_component"; SetArg "len"; SetArg "data"];
     pack_args := [PA "target_system"; PA "target_component"; PA "len"; PRun "data" 110] |}.

Definition MAVLink_gps2_raw_message : msgtype :=
  {| mt_id := 124;
     msgname := "GPS2_RAW";
     fieldnames := ["time_usec"; "fix_type"; "lat"; "lon"; "alt"; "eph"; "epv"; "vel"; "cog";
       "satellites_visible"; "dgps_numch"; "dgps_age"; "yaw"; "alt_ellipsoid"; "h_acc"; "v_acc";
       "vel_acc"; "hdg_acc"];
     ordered_fieldnames := ["time_usec"; "lat"; "lon"; "alt"; "dgps_age"; "eph"; "epv"; "vel";
       "cog"; "fix_type"; "satellites_visible"; "dgps_numch"; "yaw"; "alt_ellipsoid"; "h_acc";
       "v_acc"; "vel_acc"; "hdg_acc"];
     fieldtypes := ["uint64_t"; "uint8_t"; "int32_t"; "int32_t"; "int32_t"; "uint16_t"; "uint16_t";
       "uint16_t"; "uint16_t"; "uint8_t"; "uint8_t"; "uint32_t"; "uint16_t"; "int32_t"; "uint32_t";
       "uint32_t"; "uint32_t"; "uint32_t"];
     fielddisplays_by_name := [];
     fieldenums_by_name := [("fix_type", "GPS_FIX_TYPE")];
     native_format := "<QiiiIHHHHBBBHiIIII";
     orders := [0; 9; 1; 2; 3; 5; 6; 7; 8; 10; 11; 4; 12; 13; 14; 15; 16; 17];
     lengths := [1; 1; 1; 1; 1; 1; 1; 1; 1; 1; 1; 1; 1; 1; 1; 1; 1; 1];
     array_lengths := [0; 0; 0; 0; 0; 0; 0; 0; 0; 0; 0; 0; 0; 0; 0; 0; 0; 0];
     crc_extra := 87;
     unpacker := "<QiiiIHHHHBBBHiIIII";
     init_defaults := [FScalar (PInt 0); FScalar (PInt 0); FScalar (PInt 0); FScalar (PInt 0);
       FScalar (PInt 0); FScalar (PInt 0)];
     init_body := [SetArg "time_usec"; SetArg "fix_type"; SetArg "lat"; SetArg "lon"; SetArg "alt";
       SetArg "eph"; SetArg "epv"; SetArg "vel"; SetArg "cog"; SetArg "satellites_visible";
       SetArg "dgps_numch"; SetArg "dgps_age"; SetArg "yaw"; SetArg "alt_ellipsoid"; SetArg "h_acc";
       SetArg "v_acc"; SetArg "vel_acc"; SetArg "hdg_acc"];
     pack_args := [PA "time_usec"; PA "lat"; PA "lon"; PA "alt"; PA "dgps_age"; PA "eph"; PA "epv";
       PA "vel"; PA "cog"; PA "fix_type"; PA "satellites_visible"; PA "dgps_numch"; PA "yaw";
       PA "alt_ellipsoid"; PA "h_acc"; PA "v_acc"; PA "vel_acc"; PA "hdg_acc"] |}.

Definition MAVLink_power_status_message : msgtype :=
  {| mt_id := 125;
     msgname := "POWER_STATUS";
     fieldnames := ["Vcc"; "Vservo"; "flags"];
     ordered_fieldnames := ["Vcc"; "Vservo"; "flags"];
     fieldtypes := ["uint16_t"; "uint16_t"; "uint16_t"];
     fielddisplays_by_name := [("flags", "bitmask")];
     fieldenums_by_name := [("flags", "MAV_POWER_STATUS")];
     native_format := "<HHH";
     orders := [0; 1; 2];
     lengths := [1; 1; 1];
     array_lengths := [0; 0; 0];
     crc_extra := 203;
     unpacker := "<HHH";
     init_defaults := [];
     init_body := [SetArg "Vcc"; SetArg "Vservo"; SetArg "flags"];
     pack_args := [PA "Vcc"; PA "Vservo"; PA "flags"] |}.

Definition MAVLink_serial_control_message : msgtype :=
  {| mt_id := 126;
     msgname := "SERIAL_CONTROL";
     fieldnames := ["device"; "flags"; "timeout"; "baudrate"; "count"; "data"; "target_system";
       "target_component"];
     ordered_fieldnames := ["baudrate"; "timeout"; "device"; "flags"; "count"; "data";
       "target_system"; "target_component"];
     fieldtypes := ["uint8_t"; "uint8_t"; "uint16_t"; "uint32_t"; "uint8_t"; "uint8_t"; "uint8_t";
       "uint8_t"];
     fielddisplays_by_name := [("flags", "bitmask")];
     fieldenums_by_name := [("device", "SERIAL_CONTROL_DEV"); ("flags", "SERIAL_CONTROL_FLAG")];
     native_format := "<IHBBBBBB";
     orders := [2; 3; 1; 0; 4; 5; 6; 7];
     lengths := [1; 1; 1; 1; 1; 70; 1; 1];
     array_lengths := [0; 0; 0; 0; 0; 70; 0; 0];
     crc_extra := 220;
     unpacker := "<IHBBB70BBB";
     init_defaults := [FScalar (PInt 0); FScalar (PInt 0)];
     init_body := [SetArg "device"; SetArg "flags"; SetArg "timeout"; SetArg "baudrate";
       SetArg "count"; SetArg "data"; SetArg "target_system"; SetArg "target_component"];
     pack_args := [PA "baudrate"; PA "timeout"; PA "device"; PA "flags"; PA "count"; PRun "data" 70;
       PA "target_system"; PA "target_component"] |}.

Definition MAVLink_gps_rtk_message : msgtype :=
  {| mt_id := 127;
     msgname := "GPS_RTK";
     fieldnames := ["time_last_baseline_ms"; "rtk_receiver_id"; "wn"; "tow"; "rtk_health";
       "rtk_rate"; "nsats"; "baseline_coords_type"; "baseline_a_mm"; "baseline_b_mm";
       "baseline_c_mm"; "accuracy"; "iar_num_hypotheses"];
     ordered_fieldnames := ["time_last_baseline_ms"; "tow"; "baseline_a_mm"; "baseline_b_mm";
       "baseline_c_mm"; "accuracy"; "iar_num_hypotheses"; "wn"; "rtk_receiver_id"; "rtk_health";
       "rtk_rate"; "nsats"; "baseline_coords_type"];
     fieldtypes := ["uint32_t"; "uint8_t"; "uint16_t"; "uint32_t"; "uint8_t"; "uint8_t"; "uint8_t";
       "uint8_t"; "int32_t"; "int32_t"; "int32_t"; "uint32_t"; "int32_t"];
     fielddisplays_by_name := [];
     fieldenums_by_name := [("baseline_coords_type", "RTK_BASELINE_COORDINATE_SYSTEM")];
     native_format := "<IIiiiIiHBBBBB";
     orders := [0; 8; 7; 1; 9; 10; 11; 12; 2; 3; 4; 5; 6];
     lengths := [1; 1; 1; 1; 1; 1; 1; 1; 1; 1; 1; 1; 1];
     array_lengths := [0; 0; 0; 0; 0; 0; 0; 0; 0; 0; 0; 0; 0];
     crc_extra := 25;
     unpacker := "<IIiiiIiHBBBBB";
     init_defaults := [];
     init_body := [SetArg "time_last_baseline_ms"; SetArg "rtk_receiver_id"; SetArg "wn";
       SetArg "tow"; SetArg "rtk_health"; SetArg "rtk_rate"; SetArg "nsats";
       SetArg "baseline_coords_type"; SetArg "baseline_a_mm"; SetArg "baseline_b_mm";
       SetArg "baseline_c_mm"; SetArg "accuracy"; SetArg "iar_num_hypotheses"];
     pack_args := [PA "time_last_baseline_ms"; PA "tow"; PA "baseline_a_mm"; PA "baseline_b_mm";
       PA "baseline_c_mm"; PA "accuracy"; PA "iar_num_hypotheses"; PA "wn"; PA "rtk_receiver_id";
       PA "rtk_health"; PA "rtk_rate"; PA "nsats"; PA "baseline_coords_type"] |}.

Definition MAVLink_gps2_rtk_message : msgtype :=
  {| mt_id := 128;
     msgname := "GPS2_RTK";
     fieldnames := ["time_last_baseline_ms"; "rtk_receiver_id"; "wn"; "tow"; "rtk_health";
       "rtk_rate"; "nsats"; "baseline_coords_type"; "baseline_a_mm"; "baseline_b_mm";
       "baseline_c_mm"; "accuracy"; "iar_num_hypotheses"];
     ordered_fieldnames := ["time_last_baseline_ms"; "tow"; "baseline_a_mm"; "baseline_b_mm";
       "baseline_c_mm"; "accuracy"; "iar_num_hypotheses"; "wn"; "rtk_receiver_id"; "rtk_health";
       "rtk_rate"; "nsats"; "baseline_coords_type"];
     fieldtypes := ["uint32_t"; "uint8_t"; "uint16_t"; "uint32_t"; "uint8_t"; "uint8_t"; "uint8_t";
       "uint8_t"; "int32_t"; "int32_t"; "int32_t"; "uint32_t"; "int32_t"];
     fielddisplays_by_name := [];
     fieldenums_by_name := [("baseline_coords_type", "RTK_BASELINE_COORDINATE_SYSTEM")];
     native_format := "<IIiiiIiHBBBBB";
     orders := [0; 8; 7; 1; 9; 10; 11; 12; 2; 3; 4; 5; 6];
     lengths := [1; 1; 1; 1; 1; 1; 1; 1; 1; 1; 1; 1; 1];
     array_lengths := [0; 0; 0; 0; 0; 0; 0; 0; 0; 0; 0; 0; 0];
     crc_extra := 226;
     unpacker := "<IIiiiIiHBBBBB";
     init_defaults := [];
     init_body := [SetArg "time_last_baseline_ms"; SetArg "rtk_receiver_id"; SetArg "wn";
       SetArg "tow"; SetArg "rtk_health"; SetArg "rtk_rate"; SetArg "nsats";
       SetArg "baseline_coords_type"; SetArg "baseline_a_mm"; SetArg "baseline_b_mm";
       SetArg "baseline_c_mm"; SetArg "accuracy"; SetArg "iar_num_hypotheses"];
     pack_args := [PA "time_last_baseline_ms"; PA "tow"; PA "baseline_a_mm"; PA "baseline_b_mm";
       PA "baseline_c_mm"; PA "accuracy"; PA "iar_num_hypotheses"; PA "wn"; PA "rtk_receiver_id";
       PA "rtk_health"; PA "rtk_rate"; PA "nsats"; PA "baseline_coords_type"] |}.

Definition MAVLink_scaled_imu3_message : msgtype :=
  {| mt_id := 129;
     msgname := "SCALED_IMU3";
     fieldnames := ["time_boot_ms"; "xacc"; "yacc"; "zacc"; "xgyro"; "ygyro"; "zgyro"; "xmag";
       "ymag"; "zmag"; "temperature"];
     ordered_fieldnames := ["time_boot_ms"; "xacc"; "yacc"; "zacc"; "xgyro"; "ygyro"; "zgyro";
       "xmag"; "ymag"; "zmag"; "temperature"];
     fieldtypes := ["uint32_t"; "int16_t"; "int16_t"; "int16_t"; "int16_t"; "int16_t"; "int16_t";
       "int16_t"; "int16_t"; "int16_t"; "int16_t"];
     fielddisplays_by_name := [];
     fieldenums_by_name := [];
     native_format := "<Ihhhhhhhhhh";
     orders := [0; 1; 2; 3; 4; 5; 6; 7; 8; 9; 10];
     lengths := [1; 1; 1; 1; 1; 1; 1; 1; 1; 1; 1];
     array_lengths := [0; 0; 0; 0; 0; 0; 0; 0; 0; 0; 0];
     crc_extra := 46;
     unpacker := "<Ihhhhhhhhhh";
     init_defaults := [FScalar (PInt 0)];
     init_body := [SetArg "time_boot_ms"; SetArg "xacc"; SetArg "yacc"; SetArg "zacc";
       SetArg "xgyro"; SetArg "ygyro"; SetArg "zgyro"; SetArg "xmag"; SetArg "ymag"; SetArg "zmag";
       SetArg "temperature"];
     pack_args := [PA "time_boot_ms"; PA "xacc"; PA "yacc"; PA "zacc"; PA "xgyro"; PA "ygyro";
       PA "zgyro"; PA "xmag"; PA "ymag"; PA "zmag"; PA "temperature"] |}.

Definition MAVLink_data_transmission_handshake_message : msgtype :=
  {| mt_id := 130;
     msgname := "DATA_TRANSMISSION_HANDSHAKE";
     fieldnames := ["type"; "size"; "width"; "height"; "packets"; "payload"; "jpg_quality"];
     ordered_fieldnames := ["size"; "width"; "height"; "packets"; "type"; "payload"; "jpg_quality"];
     fieldtypes := ["uint8_t"; "uint32_t"; "uint16_t"; "uint16_t"; "uint16_t"; "uint8_t";
       "uint8_t"];
     fielddisplays_by_name := [];
     fieldenums_by_name := [("type", "MAVLINK_DATA_STREAM_TYPE")];
     native_format := "<IHHHBBB";
     orders := [4; 0; 1; 2; 3; 5; 6];
     lengths := [1; 1; 1; 1; 1; 1; 1];
     array_lengths := [0; 0; 0; 0; 0; 0; 0];
     crc_extra := 29;
     unpacker := "<IHHHBBB";
     init_defaults := [];
     init_body := [SetArg "type"; SetArg "size"; SetArg "width"; SetArg "height"; SetArg "packets";
       SetArg "payload"; SetArg "jpg_quality"];
     pack_args := [PA "size"; PA "width"; PA "height"; PA "packets"; PA "type"; PA "payload";
       PA "jpg_quality"] |}.

Definition MAVLink_encapsulated_data_message : msgtype :=
  {| mt_id := 131;
     msgname := "ENCAPSULATED_DATA";
     fieldnames := ["seqnr"; "data"];
     ordered_fieldnames := ["seqnr"; "data"];
     fieldtypes := ["uint16_t"; "uint8_t"];
     fielddisplays_by_name := [];
     fieldenums_by_name := [];
     native_format := "<HB";
     orders := [0; 1];
     lengths := [1; 253];
     array_lengths := [0; 253];
     crc_extra := 223;
     unpacker := "<H253B";
     init_defaults := [];
     init_body := [SetArg "seqnr"; SetArg "data"];
     pack_args := [PA "seqnr"; PRun "data" 253] |}.

Definition MAVLink_distance_sensor_message : msgtype :=
  {| mt_id := 132;
     msgname := "DISTANCE_SENSOR";
     fieldnames := ["time_boot_ms"; "min_distance"; "max_distance"; "current_distance"; "type";
       "id"; "orientation"; "covariance"; "horizontal_fov"; "vertical_fov"; "quaternion";
       "signal_quality"];
     ordered_fieldnames := ["time_boot_ms"; "min_distance"; "max_distance"; "current_distance";
       "type"; "id"; "orientation"; "covariance"; "horizontal_fov"; "vertical_fov"; "quaternion";
       "signal_quality"];
     fieldtypes := ["uint32_t"; "uint16_t"; "uint16_t"; "uint16_t"; "uint8_t"; "uint8_t"; "uint8_t";
       "uint8_t"; "float"; "float"; "float"; "uint8_t"];
     fielddisplays_by_name := [];
     fieldenums_by_name := [("type", "MAV_DISTANCE_SENSOR"); ("orientation",
       "MAV_SENSOR_ORIENTATION")];
     native_format := "<IHHHBBBBfffB";
     orders := [0; 1; 2; 3; 4; 5; 6; 7; 8; 9; 10; 11];
     lengths := [1; 1; 1; 1; 1; 1; 1; 1; 1; 1; 4; 1];
     array_lengths := [0; 0; 0; 0; 0; 0; 0; 0; 0; 0; 4; 0];
     crc_extra := 85;
     unpacker := "<IHHHBBBBff4fB";
     init_defaults := [FScalar (PInt 0); FScalar (PInt 0); FArray (replicate 4 (PInt 0));
       FScalar (PInt 0)];
     init_body := [SetArg "time_boot_ms"; SetArg "min_distance"; SetArg "max_distance";
       SetArg "current_distance"; SetArg "type"; SetArg "id"; SetArg "orientation";
       SetArg "covariance"; SetArg "horizontal_fov"; SetArg "vertical_fov"; SetArg "quaternion";
       SetArg "signal_quality"];
     pack_args := [PA "time_boot_ms"; PA "min_distance"; PA "max_distance"; PA "current_distance";
       PA "type"; PA "id"; PA "orientation"; PA "covariance"; PA "horizontal_fov";
       PA "vertical_fov"; PRun "quaternion" 4; PA "signal_quality"] |}.

Definition MAVLink_terrain_request_message : msgtype :=
  {| mt_id := 133;
     msgname := "TERRAIN_REQUEST";
     fieldnames := ["lat"; "lon"; "grid_spacing"; "mask"];
     ordered_fieldnames := ["mask"; "lat"; "lon"; "grid_spacing"];
     fieldtypes := ["int32_t"; "int32_t"; "uint16_t"; "uint64_t"];
     fielddisplays_by_name := [("mask", "bitmask")];
     fieldenums_by_name := [];
     native_format := "<QiiH";
     orders := [1; 2; 3; 0];
     lengths := [1; 1; 1; 1];
     array_lengths := [0; 0; 0; 0];
     crc_extra := 6;
     unpacker := "<QiiH";
     init_defaults := [];
     init_body := [SetArg "lat"; SetArg "lon"; SetArg "grid_spacing"; SetArg "mask"];
     pack_args := [PA "mask"; PA "lat"; PA "lon"; PA "grid_spacing"] |}.

Definition MAVLink_terrain_data_message : msgtype :=
  {| mt_id := 134;
     msgname := "TERRAIN_DATA";
     fieldnames := ["lat"; "lon"; "grid_spacing"; "gridbit"; "data"];
     ordered_fieldnames := ["lat"; "lon"; "grid_spacing"; "data"; "gridbit"];
     fieldtypes := ["int32_t"; "int32_t"; "uint16_t"; "uint8_t"; "int16_t"];
     fielddisplays_by_name := [];
     fieldenums_by_name := [];
     native_format := "<iiHhB";
     orders := [0; 1; 2; 4; 3];
     lengths := [1; 1; 1; 16; 1];
     array_lengths := [0; 0; 0; 16; 0];
     crc_extra := 229;
     unpacker := "<iiH16hB";
     init_defaults := [];
     init_body := [SetArg "lat"; SetArg "lon"; SetArg "grid_spacing"; SetArg "gridbit";
       SetArg "data"];
     pack_args := [PA "lat"; PA "lon"; PA "grid_spacing"; PRun "data" 16; PA "gridbit"] |}.

Definition MAVLink_terrain_check_message : msgtype :=
  {| mt_id := 135;
     msgname := "TERRAIN_CHECK";
     fieldnames := ["lat"; "lon"];
     ordered_fieldnames := ["lat"; "lon"];
     fieldtypes := ["int32_t"; "int32_t"];
     fielddisplays_by_name := [];
     fieldenums_by_name := [];
     native_format := "<ii";
     orders := [0; 1];
     lengths := [1; 1];
     array_lengths := [0; 0];
     crc_extra := 203;
     unpacker := "<ii";
     init_defaults := [];
     init_body := [SetArg "lat"; SetArg "lon"];
     pack_args := [PA "lat"; PA "lon"] |}.

Definition MAVLink_terrain_report_message : msgtype :=
  {| mt_id := 136;
     msgname := "TERRAIN_REPORT";
     fieldnames := ["lat"; "lon"; "spacing"; "terrain_height"; "current_height"; "pending";
       "loaded"];
     ordered_fieldnames := ["lat"; "lon"; "terrain_height"; "current_height"; "spacing"; "pending";
       "loaded"];
     fieldtypes := ["int32_t"; "int32_t"; "uint16_t"; "float"; "float"; "uint16_t"; "uint16_t"];
     fielddisplays_by_name := [];
     fieldenums_by_name := [];
     native_format := "<iiffHHH";
     orders := [0; 1; 4; 2; 3; 5; 6];
     lengths := [1; 1; 1; 1; 1; 1; 1];
     array_lengths := [0; 0; 0; 0; 0; 0; 0];
     crc_extra := 1;
     unpacker := "<iiffHHH";
     init_defaults := [];
     init_body := [SetArg "lat"; SetArg "lon"; SetArg "spacing"; SetArg "terrain_height";
       SetArg "current_height"; SetArg "pending"; SetArg "loaded"];
     pack_args := [PA "lat"; PA "lon"; PA "terrain_height"; PA "current_height"; PA "spacing";
       PA "pending"; PA "loaded"] |}.

Definition MAVLink_scaled_pressure2_message : msgtype :=
  {| mt_id := 137;
     msgname := "SCALED_PRESSURE2";
     fieldnames := ["time_boot_ms"; "press_abs"; "press_diff"; "temperature";
       "temperature_press_diff"];
     ordered_fieldnames := ["time_boot_ms"; "press_abs"; "press_diff"; "temperature";
       "temperature_press_diff"];
     fieldtypes := ["uint32_t"; "float"; "float"; "int16_t"; "int16_t"];
     fielddisplays_by_name := [];
     fieldenums_by_name := [];
     native_format := "<Iffhh";
     orders := [0; 1; 2; 3; 4];
     lengths := [1; 1; 1; 1; 1];
     array_lengths := [0; 0; 0; 0; 0];
     crc_extra := 195;
     unpacker := "<Iffhh";
     init_defaults := [FScalar (PInt 0)];
     init_body := [SetArg "time_boot_ms"; SetArg "press_abs"; SetArg "press_diff";
       SetArg "temperature"; SetArg "temperature_press_diff"];
     pack_args := [PA "time_boot_ms"; PA "press_abs"; PA "press_diff"; PA "temperature";
       PA "temperature_press_diff"] |}.

Definition MAVLink_att_pos_mocap_message : msgtype :=
  {| mt_id := 138;
     msgname := "ATT_POS_MOCAP";
     fieldnames := ["time_usec"; "q"; "x"; "y"; "z"; "covariance"];
     ordered_fieldnames := ["time_usec"; "q"; "x"; "y"; "z"; "covariance"];
     fieldtypes := ["uint64_t"; "float"; "float"; "float"; "float"; "float"];
     fielddisplays_by_name := [];
     fieldenums_by_name := [];
     native_format := "<Qfffff";
     orders := [0; 1; 2; 3; 4; 5];
     lengths := [1; 4; 1; 1; 1; 21];
     array_lengths := [0; 4; 0; 0; 0; 21];
     crc_extra := 109;
     unpacker := "<Q4ffff21f";
     init_defaults := [FArray (replicate 21 (PInt 0))];
     init_body := [SetArg "time_usec"; SetArg "q"; SetArg "x"; SetArg "y"; SetArg "z";
       SetArg "covariance"];
     pack_args := [PA "time_usec"; PRun "q" 4; PA "x"; PA "y"; PA "z"; PRun "covariance" 21] |}.

Definition MAVLink_set_actuator_control_target_message : msgtype :=
  {| mt_id := 139;
     msgname := "SET_ACTUATOR_CONTROL_TARGET";
     fieldnames := ["time_usec"; "group_mlx"; "target_system"; "target_component"; "controls"];
     ordered_fieldnames := ["time_usec"; "controls"; "group_mlx"; "target_system";
       "target_component"];
     fieldtypes := ["uint64_t"; "uint8_t"; "uint8_t"; "uint8_t"; "float"];
     fielddisplays_by_name := [];
     fieldenums_by_name := [];
     native_format := "<QfBBB";
     orders := [0; 2; 3; 4; 1];
     lengths := [1; 8; 1; 1; 1];
     array_lengths := [0; 8; 0; 0; 0];
     crc_extra := 168;
     unpacker := "<Q8fBBB";
     init_defaults := [];
     init_body := [SetArg "time_usec"; SetArg "group_mlx"; SetArg "target_system";
       SetArg "target_component"; SetArg "controls"];
     pack_args := [PA "time_usec"; PRun "controls" 8; PA "group_mlx"; PA "target_system";
       PA "target_component"] |}.

Definition MAVLink_actuator_control_target_message : msgtype :=
  {| mt_id := 140;
     msgname := "ACTUATOR_CONTROL_TARGET";
     fieldnames := ["time_usec"; "group_mlx"; "controls"];
     ordered_fieldnames := ["time_usec"; "controls"; "group_mlx"];
     fieldtypes := ["uint64_t"; "uint8_t"; "float"];
     fielddisplays_by_name := [];
     fieldenums_by_name := [];
     native_format := "<QfB";
     orders := [0; 2; 1];
     lengths := [1; 8; 1];
     array_lengths := [0; 8; 0];
     crc_extra := 181;
     unpacker := "<Q8fB";
     init_defaults := [];
     init_body := [SetArg "time_usec"; SetArg "group_mlx"; SetArg "controls"];
     pack_args := [PA "time_usec"; PRun "controls" 8; PA "group_mlx"] |}.

Definition MAVLink_altitude_message : msgtype :=
  {| mt_id := 141;
     msgname := "ALTITUDE";
     fieldnames := ["time_usec"; "altitude_monotonic"; "altitude_amsl"; "altitude_local";
       "altitude_relative"; "altitude_terrain"; "bottom_clearance"];
     ordered_fieldnames := ["time_usec"; "altitude_monotonic"; "altitude_amsl"; "altitude_local";
       "altitude_relative"; "altitude_terrain"; "bottom_clearance"];
     fieldtypes := ["uint64_t"; "float"; "float"; "float"; "float"; "float"; "float"];
     fielddisplays_by_name := [];
     fieldenums_by_name := [];
     native_format := "<Qffffff";
     orders := [0; 1; 2; 3; 4; 5; 6];
     lengths := [1; 1; 1; 1; 1; 1; 1];
     array_lengths := [0; 0; 0; 0; 0; 0; 0];
     crc_extra := 47;
     unpacker := "<Qffffff";
     init_defaults := [];
     init_body := [SetArg "time_usec"; SetArg "altitude_monotonic"; SetArg "altitude_amsl";
       SetArg "altitude_local"; SetArg "altitude_relative"; SetArg "altitude_terrain";
       SetArg "bottom_clearance"];
     pack_args := [PA "time_usec"; PA "altitude_monotonic"; PA "altitude_amsl"; PA "altitude_local";
       PA "altitude_relative"; PA "altitude_terrain"; PA "bottom_clearance"] |}.

Definition MAVLink_resource_request_message : msgtype :=
  {| mt_id := 142;
     msgname := "RESOURCE_REQUEST";
     fieldnames := ["request_id"; "uri_type"; "uri"; "transfer_type"; "storage"];
     ordered_fieldnames := ["request_id"; "uri_type"; "uri"; "transfer_type"; "storage"];
     fieldtypes := ["uint8_t"; "uint8_t"; "uint8_t"; "uint8_t"; "uint8_t"];
     fielddisplays_by_name := [];
     fieldenums_by_name := [];
     native_format := "<BBBBB";
     orders := [0; 1; 2; 3; 4];
     lengths := [1; 1; 120; 1; 120];
     array_lengths := [0; 0; 120; 0; 120];
     crc_extra := 72;
     unpacker := "<BB120BB120B";
     init_defaults := [];
     init_body := [SetArg "request_id"; SetArg "uri_type"; SetArg "uri"; SetArg "transfer_type";
       SetArg "storage"];
     pack_args := [PA "request_id"; PA "uri_type"; PRun "uri" 120; PA "transfer_type";
       PRun "storage" 120] |}.

Definition messages_2 : list msgtype :=
  [MAVLink_command_cancel_message; MAVLink_manual_setpoint_message;
    MAVLink_set_attitude_target_message; MAVLink_attitude_target_message;
    MAVLink_set_position_target_local_ned_message; MAVLink_position_target_local_ned_message;
    MAVLink_set_position_target_global_int_message; MAVLink_position_target_global_int_message;
    MAVLink_local_position_ned_system_global_offset_message; MAVLink_hil_state_message;
    MAVLink_hil_controls_message; MAVLink_hil_rc_inputs_raw_message;
    MAVLink_hil_actuator_controls_message; MAVLink_optical_flow_message;
    MAVLink_global_vision_position_estimate_message; MAVLink_vision_position_estimate_message;
    MAVLink_vision_speed_estimate_message; MAVLink_vicon_position_estimate_message;
    MAVLink_highres_imu_message; MAVLink_optical_flow_rad_message; MAVLink_hil_sensor_message;
    MAVLink_sim_state_message; MAVLink_radio_status_message; MAVLink_file_transfer_protocol_message;
    MAVLink_timesync_message; MAVLink_camera_trigger_message; MAVLink_hil_gps_message;
    MAVLink_hil_optical_flow_message; MAVLink_hil_state_quaternion_message;
    MAVLink_scaled_imu2_message; MAVLink_log_request_list_message; MAVLink_log_entry_message;
    MAVLink_log_request_data_message; MAVLink_log_data_message; MAVLink_log_erase_message;
    MAVLink_log_request_end_message; MAVLink_gps_inject_data_message; MAVLink_gps2_raw_message;
    MAVLink_power_status_message; MAVLink_serial_control_message; MAVLink_gps_rtk_message;
    MAVLink_gps2_rtk_message; MAVLink_scaled_imu3_message;
    MAVLink_data_transmission_handshake_message; MAVLink_encapsulated_data_message;
    MAVLink_distance_sensor_message; MAVLink_terrain_request_message; MAVLink_terrain_data_message;
    MAVLink_terrain_check_message; MAVLink_terrain_report_message; MAVLink_scaled_pressure2_message;
    MAVLink_att_pos_mocap_message; MAVLink_set_actuator_control_target_message;
    MAVLink_actuator_control_target_message; MAVLink_altitude_message;
    MAVLink_resource_request_message].

End MavCatalog2.
