(* ===== verification/MavCatalog3.v ===== *)
(** The message classes SCALED_PRESSURE3 to GIMBAL_MANAGER_SET_MANUAL_CONTROL of
    wfb_ng/mavlink.py (part 3 of the catalogue), one [msgtype] per class, in
    the order of the file.  The docstrings and the unit table of a class, which
    no code of the program reads, are left out. *)
From Stdlib Require Import ZArith.
From stdpp Require Import base list strings.
From S2P Require Import Prelude.
From S2P Require Import PyStruct.
From S2P Require Import MavMessage.

Module MavCatalog3.
Import PyStruct MavMessage.
#[local] Open Scope string_scope.
#[local] Open Scope nat_scope.
#[local] Open Scope list_scope.

Definition MAVLink_scaled_pressure3_message : msgtype :=
  {| mt_id := 143;
     msgname := "SCALED_PRESSURE3";
     fieldnames := ["time_boot_ms"; "press_abs"; "press_diff"; "temperature";
       "temperature_press_diff"];
     ordered_fieldnames := ["time_boot_ms"; "press_abs"; "press_diff"; "temperature";
       "temperature_press_diff"];
     fieldtypes := ["uint32_t"; "float"; "float"; "int16_t"; "int16_t"];
     fielddisplays_by_name := [];
     fieldenums_by_name := [];
     native_format := "<Iffhh";
     orders := [0; 1; 2; 3; 4];
     lengths := [1; 1; 1; 1; 1];
     array_lengths := [0; 0; 0; 0; 0];
     crc_extra := 131;
     unpacker := "<Iffhh";
     init_defaults := [FScalar (PInt 0)];
     init_body := [SetArg "time_boot_ms"; SetArg "press_abs"; SetArg "press_diff";
       SetArg "temperature"; SetArg "temperature_press_diff"];
     pack_args := [PA "time_boot_ms"; PA "press_abs"; PA "press_diff"; PA "temperature";
       PA "temperature_press_diff"] |}.

Definition MAVLink_follow_target_message : msgtype :=
  {| mt_id := 144;
     msgname := "FOLLOW_TARGET";
     fieldnames := ["timestamp"; "est_capabilities"; "lat"; "lon"; "alt"; "vel"; "acc";
       "attitude_q"; "rates"; "position_cov"; "custom_state"];
     ordered_fieldnames := ["timestamp"; "custom_state"; "lat"; "lon"; "alt"; "vel"; "acc";
       "attitude_q"; "rates"; "position_cov"; "est_capabilities"];
     fieldtypes := ["uint64_t"; "uint8_t"; "int32_t"; "int32_t"; "float"; "float"; "float"; "float";
       "float"; "float"; "uint64_t"];
     fielddisplays_by_name := [];
     fieldenums_by_name := [];
     native_format := "<QQiiffffffB";
     orders := [0; 10; 2; 3; 4; 5; 6; 7; 8; 9; 1];
     lengths := [1; 1; 1; 1; 1; 3; 3; 4; 3; 3; 1];
     array_lengths := [0; 0; 0; 0; 0; 3; 3; 4; 3; 3; 0];
     crc_extra := 127;
     unpacker := "<QQiif3f3f4f3f3fB";
     init_defaults := [];
     init_body := [SetArg "timestamp"; SetArg "est_capabilities"; SetArg "lat"; SetArg "lon";
       SetArg "alt"; SetArg "vel"; SetArg "acc"; SetArg "attitude_q"; SetArg "rates";
       SetArg "position_cov"; SetArg "custom_state"];
     pack_args := [PA "timestamp"; PA "custom_state"; PA "lat"; PA "lon"; PA "alt"; PRun "vel" 3;
       PRun "acc" 3; PRun "attitude_q" 4; PRun "rates" 3; PRun "position_cov" 3;
       PA "est_capabilities"] |}.

Definition MAVLink_control_system_state_message : msgtype :=
  {| mt_id := 146;
     msgname := "CONTROL_SYSTEM_STATE";
     fieldnames := ["time_usec"; "x_acc"; "y_acc"; "z_acc"; "x_vel"; "y_vel"; "z_vel"; "x_pos";
       "y_pos"; "z_pos"; "airspeed"; "vel_variance"; "pos_variance"; "q"; "roll_rate"; "pitch_rate";
       "yaw_rate"];
     ordered_fieldnames := ["time_usec"; "x_acc"; "y_acc"; "z_acc"; "x_vel"; "y_vel"; "z_vel";
       "x_pos"; "y_pos"; "z_pos"; "airspeed"; "vel_variance"; "pos_variance"; "q"; "roll_rate";
       "pitch_rate"; "yaw_rate"];
     fieldtypes := ["uint64_t"; "float"; "float"; "float"; "float"; "float"; "float"; "float";
       "float"; "float"; "float"; "float"; "float"; "float"; "float"; "float"; "float"];
     fielddisplays_by_name := [];
     fieldenums_by_name := [];
     native_format := "<Qffffffffffffffff";
     orders := [0; 1; 2; 3; 4; 5; 6; 7; 8; 9; 10; 11; 12; 13; 14; 15; 16];
     lengths := [1; 1; 1; 1; 1; 1; 1; 1; 1; 1; 1; 3; 3; 4; 1; 1; 1];
     array_lengths := [0; 0; 0; 0; 0; 0; 0; 0; 0; 0; 0; 3; 3; 4; 0; 0; 0];
     crc_extra := 103;
     unpacker := "<Qffffffffff3f3f4ffff";
     init_defaults := [];
     init_body := [SetArg "time_usec"; SetArg "x_acc"; SetArg "y_acc"; SetArg "z_acc";
       SetArg "x_vel"; SetArg "y_vel"; SetArg "z_vel"; SetArg "x_pos"; SetArg "y_pos";
       SetArg "z_pos"; SetArg "airspeed"; SetArg "vel_variance"; SetArg "pos_variance"; SetArg "q";
       SetArg "roll_rate"; SetArg "pitch_rate"; SetArg "yaw_rate"];
     pack_args := [PA "time_usec"; PA "x_acc"; PA "y_acc"; PA "z_acc"; PA "x_vel"; PA "y_vel";
       PA "z_vel"; PA "x_pos"; PA "y_pos"; PA "z_pos"; PA "airspeed"; PRun "vel_variance" 3;
       PRun "pos_variance" 3; PRun "q" 4; PA "roll_rate"; PA "pitch_rate"; PA "yaw_rate"] |}.

Definition MAVLink_battery_status_message : msgtype :=
  {| mt_id := 147;
     msgname := "BATTERY_STATUS";
     fieldnames := ["id"; "battery_function"; "type"; "temperature"; "voltages"; "current_battery";
       "current_consumed"; "energy_consumed"; "battery_remaining"; "time_remaining"; "charge_state";
       "voltages_ext"; "mode"; "fault_bitmask"];
     ordered_fieldnames := ["current_consumed"; "energy_consumed"; "temperature"; "voltages";
       "current_battery"; "id"; "battery_function"; "type"; "battery_remaining"; "time_remaining";
       "charge_state"; "voltages_ext"; "mode"; "fault_bitmask"];
     fieldtypes := ["uint8_t"; "uint8_t"; "uint8_t"; "int16_t"; "uint16_t"; "int16_t"; "int32_t";
       "int32_t"; "int8_t"; "int32_t"; "uint8_t"; "uint16_t"; "uint8_t"; "uint32_t"];
     fielddisplays_by_name := [("fault_bitmask", "bitmask")];
     fieldenums_by_name := [("battery_function", "MAV_BATTERY_FUNCTION"); ("type",
       "MAV_BATTERY_TYPE"); ("charge_state", "MAV_BATTERY_CHARGE_STATE"); ("mode",
       "MAV_BATTERY_MODE"); ("fault_bitmask", "MAV_BATTERY_FAULT")];
     native_format := "<iihHhBBBbiBHBI";
     orders := [5; 6; 7; 2; 3; 4; 0; 1; 8; 9; 10; 11; 12; 13];
     lengths := [1; 1; 1; 10; 1; 1; 1; 1; 1; 1; 1; 4; 1; 1];
     array_lengths := [0; 0; 0; 10; 0; 0; 0; 0; 0; 0; 0; 4; 0; 0];
     crc_extra := 154;
     unpacker := "<iih10HhBBBbiB4HBI";
     init_defaults := [FScalar (PInt 0); FScalar (PInt 0); FArray (replicate 4 (PInt 0));
       FScalar (PInt 0); FScalar (PInt 0)];
     init_body := [SetArg "id"; SetArg "battery_function"; SetArg "type"; SetArg "temperature";
       SetArg "voltages"; SetArg "current_battery"; SetArg "current_consumed";
       SetArg "energy_consumed"; SetArg "battery_remaining"; SetArg "time_remaining";
       SetArg "charge_state"; SetArg "voltages_ext"; SetArg "mode"; SetArg "fault_bitmask"];
     pack_args := [PA "current_consumed"; PA "energy_consumed"; PA "temperature";
       PRun "voltages" 10; PA "current_battery"; PA "id"; PA "battery_function"; PA "type";
       PA "battery_remaining"; PA "time_remaining"; PA "charge_state"; PRun "voltages_ext" 4;
       PA "mode"; PA "fault_bitmask"] |}.

Definition MAVLink_autopilot_version_message : msgtype :=
  {| mt_id := 148;
     msgname := "AUTOPILOT_VERSION";
     fieldnames := ["capabilities"; "flight_sw_version"; "middleware_sw_version"; "os_sw_version";
       "board_version"; "flight_custom_version"; "middleware_custom_version"; "os_custom_version";
       "vendor_id"; "product_id"; "uid"; "uid2"];
     ordered_fieldnames := ["capabilities"; "uid"; "flight_sw_version"; "middleware_sw_version";
       "os_sw_version"; "board_version"; "vendor_id"; "product_id"; "flight_custom_version";
       "middleware_custom_version"; "os_custom_version"; "uid2"];
     fieldtypes := ["uint64_t"; "uint32_t"; "uint32_t"; "uint32_t"; "uint32_t"; "uint8_t";
       "uint8_t"; "uint8_t"; "uint16_t"; "uint16_t"; "uint64_t"; "uint8_t"];
     fielddisplays_by_name := [("capabilities", "bitmask")];
     fieldenums_by_name := [("capabilities", "MAV_PROTOCOL_CAPABILITY")];
     native_format := "<QQIIIIHHBBBB";
     orders := [0; 2; 3; 4; 5; 8; 9; 10; 6; 7; 1; 11];
     lengths := [1; 1; 1; 1; 1; 1; 1; 1; 8; 8; 8; 18];
     array_lengths := [0; 0; 0; 0; 0; 0; 0; 0; 8; 8; 8; 18];
     crc_extra := 178;
     unpacker := "<QQIIIIHH8B8B8B18B";
     init_defaults := [FArray (replicate 18 (PInt 0))];
     init_body := [SetArg "capabilities"; SetArg "flight_sw_version";
       SetArg "middleware_sw_version"; SetArg "os_sw_version"; SetArg "board_version";
       SetArg "flight_custom_version"; SetArg "middleware_custom_version";
       SetArg "os_custom_version"; SetArg "vendor_id"; SetArg "product_id"; SetArg "uid";
       SetArg "uid2"];
     pack_args := [PA "capabilities"; PA "uid"; PA "flight_sw_version"; PA "middleware_sw_version";
       PA "os_sw_version"; PA "board_version"; PA "vendor_id"; PA "product_id";
       PRun "flight_custom_version" 8; PRun "middleware_custom_version" 8;
       PRun "os_custom_version" 8; PRun "uid2" 18] |}.

Definition MAVLink_landing_target_message : msgtype :=
  {| mt_id := 149;
     msgname := "LANDING_TARGET";
     fieldnames := ["time_usec"; "target_num"; "frame"; "angle_x"; "angle_y"; "distance"; "size_x";
       "size_y"; "x"; "y"; "z"; "q"; "type"; "position_valid"];
     ordered_fieldnames := ["time_usec"; "angle_x"; "angle_y"; "distance"; "size_x"; "size_y";
       "target_num"; "frame"; "x"; "y"; "z"; "q"; "type"; "position_valid"];
     fieldtypes := ["uint64_t"; "uint8_t"; "uint8_t"; "float"; "float"; "float"; "float"; "float";
       "float"; "float"; "float"; "float"; "uint8_t"; "uint8_t"];
     fielddisplays_by_name := [];
     fieldenums_by_name := [("frame", "MAV_FRAME"); ("type", "LANDING_TARGET_TYPE")];
     native_format := "<QfffffBBffffBB";
     orders := [0; 6; 7; 1; 2; 3; 4; 5; 8; 9; 10; 11; 12; 13];
     lengths := [1; 1; 1; 1; 1; 1; 1; 1; 1; 1; 1; 4; 1; 1];
     array_lengths := [0; 0; 0; 0; 0; 0; 0; 0; 0; 0; 0; 4; 0; 0];
     crc_extra := 200;
     unpacker := "<QfffffBBfff4fBB";
     init_defaults := [FScalar (PInt 0); FScalar (PInt 0); FScalar (PInt 0);
       FArray (replicate 4 (PInt 0)); FScalar (PInt 0); FScalar (PInt 0)];
     init_body := [SetArg "time_usec"; SetArg "target_num"; SetArg "frame"; SetArg "angle_x";
       SetArg "angle_y"; SetArg "distance"; SetArg "size_x"; SetArg "size_y"; SetArg "x";
       SetArg "y"; SetArg "z"; SetArg "q"; SetArg "type"; SetArg "position_valid"];
     pack_args := [PA "time_usec"; PA "angle_x"; PA "angle_y"; PA "distance"; PA "size_x";
       PA "size_y"; PA "target_num"; PA "frame"; PA "x"; PA "y"; PA "z"; PRun "q" 4; PA "type";
       PA "position_valid"] |}.

Definition MAVLink_fence_status_message : msgtype :=
  {| mt_id := 162;
     msgname := "FENCE_STATUS";
     fieldnames := ["breach_status"; "breach_count"; "breach_type"; "breach_time";
       "breach_mitigation"];
     ordered_fieldnames := ["breach_time"; "breach_count"; "breach_status"; "breach_type";
       "breach_mitigation"];
     fieldtypes := ["uint8_t"; "uint16_t"; "uint8_t"; "uint32_t"; "uint8_t"];
     fielddisplays_by_name := [];
     fieldenums_by_name := [("breach_type", "FENCE_BREACH"); ("breach_mitigation",
       "FENCE_MITIGATE")];
     native_format := "<IHBBB";
     orders := [2; 1; 3; 0; 4];
     lengths := [1; 1; 1; 1; 1];
     array_lengths := [0; 0; 0; 0; 0];
     crc_extra := 189;
     unpacker := "<IHBBB";
     init_defaults := [FScalar (PInt 0)];
     init_body := [SetArg "breach_status"; SetArg "breach_count"; SetArg "breach_type";
       SetArg "breach_time"; SetArg "breach_mitigation"];
     pack_args := [PA "breach_time"; PA "breach_count"; PA "breach_status"; PA "breach_type";
       PA "breach_mitigation"] |}.

Definition MAVLink_mag_cal_report_message : msgtype :=
  {| mt_id := 192;
     msgname := "MAG_CAL_REPORT";
     fieldnames := ["compass_id"; "cal_mask"; "cal_status"; "autosaved"; "fitness"; "ofs_x";
       "ofs_y"; "ofs_z"; "diag_x"; "diag_y"; "diag_z"; "offdiag_x"; "offdiag_y"; "offdiag_z";
       "orientation_confidence"; "old_orientation"; "new_orientation"; "scale_factor"];
     ordered_fieldnames := ["fitness"; "ofs_x"; "ofs_y"; "ofs_z"; "diag_x"; "diag_y"; "diag_z";
       "offdiag_x"; "offdiag_y"; "offdiag_z"; "compass_id"; "cal_mask"; "cal_status"; "autosaved";
       "orientation_confidence"; "old_orientation"; "new_orientation"; "scale_factor"];
     fieldtypes := ["uint8_t"; "uint8_t"; "uint8_t"; "uint8_t"; "float"; "float"; "float"; "float";
       "float"; "float"; "float"; "float"; "float"; "float"; "float"; "uint8_t"; "uint8_t";
       "float"];
     fielddisplays_by_name := [("cal_mask", "bitmask")];
     fieldenums_by_name := [("cal_status", "MAG_CAL_STATUS"); ("old_orientation",
       "MAV_SENSOR_ORIENTATION"); ("new_orientation", "MAV_SENSOR_ORIENTATION")];
     native_format := "<ffffffffffBBBBfBBf";
     orders := [10; 11; 12; 13; 0; 1; 2; 3; 4; 5; 6; 7; 8; 9; 14; 15; 16; 17];
     lengths := [1; 1; 1; 1; 1; 1; 1; 1; 1; 1; 1; 1; 1; 1; 1; 1; 1; 1];
     array_lengths := [0; 0; 0; 0; 0; 0; 0; 0; 0; 0; 0; 0; 0; 0; 0; 0; 0; 0];
     crc_extra := 36;
     unpacker := "<ffffffffffBBBBfBBf";
     init_defaults := [FScalar (PInt 0); FScalar (PInt 0); FScalar (PInt 0); FScalar (PInt 0)];
     init_body := [SetArg "compass_id"; SetArg "cal_mask"; SetArg "cal_status"; SetArg "autosaved";
       SetArg "fitness"; SetArg "ofs_x"; SetArg "ofs_y"; SetArg "ofs_z"; SetArg "diag_x";
       SetArg "diag_y"; SetArg "diag_z"; SetArg "offdiag_x"; SetArg "offdiag_y"; SetArg "offdiag_z";
       SetArg "orientation_confidence"; SetArg "old_orientation"; SetArg "new_orientation";
       SetArg "scale_factor"];
     pack_args := [PA "fitness"; PA "ofs_x"; PA "ofs_y"; PA "ofs_z"; PA "diag_x"; PA "diag_y";
       PA "diag_z"; PA "offdiag_x"; PA "offdiag_y"; PA "offdiag_z"; PA "compass_id"; PA "cal_mask";
       PA "cal_status"; PA "autosaved"; PA "orientation_confidence"; PA "old_orientation";
       PA "new_orientation"; PA "scale_factor"] |}.

Definition MAVLink_efi_status_message : msgtype :=
  {| mt_id := 225;
     msgname := "EFI_STATUS";
     fieldnames := ["health"; "ecu_index"; "rpm"; "fuel_consumed"; "fuel_flow"; "engine_load";
       "throttle_position"; "spark_dwell_time"; "barometric_pressure"; "intake_manifold_pressure";
       "intake_manifold_temperature"; "cylinder_head_temperature"; "ignition_timing";
       "injection_time"; "exhaust_gas_temperature"; "throttle_out"; "pt_compensation";
       "ignition_voltage"];
     ordered_fieldnames := ["ecu_index"; "rpm"; "fuel_consumed"; "fuel_flow"; "engine_load";
       "throttle_position"; "spark_dwell_time"; "barometric_pressure"; "intake_manifold_pressure";
       "intake_manifold_temperature"; "cylinder_head_temperature"; "ignition_timing";
       "injection_time"; "exhaust_gas_temperature"; "throttle_out"; "pt_compensation"; "health";
       "ignition_voltage"];
     fieldtypes := ["uint8_t"; "float"; "float"; "float"; "float"; "float"; "float"; "float";
       "float"; "float"; "float"; "float"; "float"; "float"; "float"; "float"; "float"; "float"];
     fielddisplays_by_name := [];
     fieldenums_by_name := [];
     native_format := "<ffffffffffffffffBf";
     orders := [16; 0; 1; 2; 3; 4; 5; 6; 7; 8; 9; 10; 11; 12; 13; 14; 15; 17];
     lengths := [1; 1; 1; 1; 1; 1; 1; 1; 1; 1; 1; 1; 1; 1; 1; 1; 1; 1];
     array_lengths := [0; 0; 0; 0; 0; 0; 0; 0; 0; 0; 0; 0; 0; 0; 0; 0; 0; 0];
     crc_extra := 208;
     unpacker := "<ffffffffffffffffBf";
     init_defaults := [FScalar (PInt 0)];
     init_body := [SetArg "health"; SetArg "ecu_index"; SetArg "rpm"; SetArg "fuel_consumed";
       SetArg "fuel_flow"; SetArg "engine_load"; SetArg "throttle_position";
       SetArg "spark_dwell_time"; SetArg "barometric_pressure"; SetArg "intake_manifold_pressure";
       SetArg "intake_manifold_temperature"; SetArg "cylinder_head_temperature";
       SetArg "ignition_timing"; SetArg "injection_time"; SetArg "exhaust_gas_temperature";
       SetArg "throttle_out"; SetArg "pt_compensation"; SetArg "ignition_voltage"];
     pack_args := [PA "ecu_index"; PA "rpm"; PA "fuel_consumed"; PA "fuel_flow"; PA "engine_load";
       PA "throttle_position"; PA "spark_dwell_time"; PA "barometric_pressure";
       PA "intake_manifold_pressure"; PA "intake_manifold_temperature";
       PA "cylinder_head_temperature"; PA "ignition_timing"; PA "injection_time";
       PA "exhaust_gas_temperature"; PA "throttle_out"; PA "pt_compensation"; PA "health";
       PA "ignition_voltage"] |}.

Definition MAVLink_estimator_status_message : msgtype :=
  {| mt_id := 230;
     msgname := "ESTIMATOR_STATUS";
     fieldnames := ["time_usec"; "flags"; "vel_ratio"; "pos_horiz_ratio"; "pos_vert_ratio";
       "mag_ratio"; "hagl_ratio"; "tas_ratio"; "pos_horiz_accuracy"; "pos_vert_accuracy"];
     ordered_fieldnames := ["time_usec"; "vel_ratio"; "pos_horiz_ratio"; "pos_vert_ratio";
       "mag_ratio"; "hagl_ratio"; "tas_ratio"; "pos_horiz_accuracy"; "pos_vert_accuracy"; "flags"];
     fieldtypes := ["uint64_t"; "uint16_t"; "float"; "float"; "float"; "float"; "float"; "float";
       "float"; "float"];
     fielddisplays_by_name := [("flags", "bitmask")];
     fieldenums_by_name := [("flags", "ESTIMATOR_STATUS_FLAGS")];
     native_format := "<QffffffffH";
     orders := [0; 9; 1; 2; 3; 4; 5; 6; 7; 8];
     lengths := [1; 1; 1; 1; 1; 1; 1; 1; 1; 1];
     array_lengths := [0; 0; 0; 0; 0; 0; 0; 0; 0; 0];
     crc_extra := 163;
     unpacker := "<QffffffffH";
     init_defaults := [];
     init_body := [SetArg "time_usec"; SetArg "flags"; SetArg "vel_ratio"; SetArg "pos_horiz_ratio";
       SetArg "pos_vert_ratio"; SetArg "mag_ratio"; SetArg "hagl_ratio"; SetArg "tas_ratio";
       SetArg "pos_horiz_accuracy"; SetArg "pos_vert_accuracy"];
     pack_args := [PA "time_usec"; PA "vel_ratio"; PA "pos_horiz_ratio"; PA "pos_vert_ratio";
       PA "mag_ratio"; PA "hagl_ratio"; PA "tas_ratio"; PA "pos_horiz_accuracy";
       PA "pos_vert_accuracy"; PA "flags"] |}.

Definition MAVLink_wind_cov_message : msgtype :=
  {| mt_id := 231;
     msgname := "WIND_COV";
     fieldnames := ["time_usec"; "wind_x"; "wind_y"; "wind_z"; "var_horiz"; "var_vert"; "wind_alt";
       "horiz_accuracy"; "vert_accuracy"];
     ordered_fieldnames := ["time_usec"; "wind_x"; "wind_y"; "wind_z"; "var_horiz"; "var_vert";
       "wind_alt"; "horiz_accuracy"; "vert_accuracy"];
     fieldtypes := ["uint64_t"; "float"; "float"; "float"; "float"; "float"; "float"; "float";
       "float"];
     fielddisplays_by_name := [];
     fieldenums_by_name := [];
     native_format := "<Qffffffff";
     orders := [0; 1; 2; 3; 4; 5; 6; 7; 8];
     lengths := [1; 1; 1; 1; 1; 1; 1; 1; 1];
     array_lengths := [0; 0; 0; 0; 0; 0; 0; 0; 0];
     crc_extra := 105;
     unpacker := "<Qffffffff";
     init_defaults := [];
     init_body := [SetArg "time_usec"; SetArg "wind_x"; SetArg "wind_y"; SetArg "wind_z";
       SetArg "var_horiz"; SetArg "var_vert"; SetArg "wind_alt"; SetArg "horiz_accuracy";
       SetArg "vert_accuracy"];
     pack_args := [PA "time_usec"; PA "wind_x"; PA "wind_y"; PA "wind_z"; PA "var_horiz";
       PA "var_vert"; PA "wind_alt"; PA "horiz_accuracy"; PA "vert_accuracy"] |}.

Definition MAVLink_gps_input_message : msgtype :=
  {| mt_id := 232;
     msgname := "GPS_INPUT";
     fieldnames := ["time_usec"; "gps_id"; "ignore_flags"; "time_week_ms"; "time_week"; "fix_type";
       "lat"; "lon"; "alt"; "hdop"; "vdop"; "vn"; "ve"; "vd"; "speed_accuracy"; "horiz_accuracy";
       "vert_accuracy"; "satellites_visible"; "yaw"];
     ordered_fieldnames := ["time_usec"; "time_week_ms"; "lat"; "lon"; "alt"; "hdop"; "vdop"; "vn";
       "ve"; "vd"; "speed_accuracy"; "horiz_accuracy"; "vert_accuracy"; "ignore_flags"; "time_week";
       "gps_id"; "fix_type"; "satellites_visible"; "yaw"];
     fieldtypes := ["uint64_t"; "uint8_t"; "uint16_t"; "uint32_t"; "uint16_t"; "uint8_t"; "int32_t";
       "int32_t"; "float"; "float"; "float"; "float"; "float"; "float"; "float"; "float"; "float";
       "uint8_t"; "uint16_t"];
     fielddisplays_by_name := [("ignore_flags", "bitmask")];
     fieldenums_by_name := [("ignore_flags", "GPS_INPUT_IGNORE_FLAGS")];
     native_format := "<QIiifffffffffHHBBBH";
     orders := [0; 15; 13; 1; 14; 16; 2; 3; 4; 5; 6; 7; 8; 9; 10; 11; 12; 17; 18];
     lengths := [1; 1; 1; 1; 1; 1; 1; 1; 1; 1; 1; 1; 1; 1; 1; 1; 1; 1; 1];
     array_lengths := [0; 0; 0; 0; 0; 0; 0; 0; 0; 0; 0; 0; 0; 0; 0; 0; 0; 0; 0];
     crc_extra := 151;
     unpacker := "<QIiifffffffffHHBBBH";
     init_defaults := [FScalar (PInt 0)];
     init_body := [SetArg "time_usec"; SetArg "gps_id"; SetArg "ignore_flags";
       SetArg "time_week_ms"; SetArg "time_week"; SetArg "fix_type"; SetArg "lat"; SetArg "lon";
       SetArg "alt"; SetArg "hdop"; SetArg "vdop"; SetArg "vn"; SetArg "ve"; SetArg "vd";
       SetArg "speed_accuracy"; SetArg "horiz_accuracy"; SetArg "vert_accuracy";
       SetArg "satellites_visible"; SetArg "yaw"];
     pack_args := [PA "time_usec"; PA "time_week_ms"; PA "lat"; PA "lon"; PA "alt"; PA "hdop";
       PA "vdop"; PA "vn"; PA "ve"; PA "vd"; PA "speed_accuracy"; PA "horiz_accuracy";
       PA "vert_accuracy"; PA "ignore_flags"; PA "time_week"; PA "gps_id"; PA "fix_type";
       PA "satellites_visible"; PA "yaw"] |}.

Definition MAVLink_gps_rtcm_data_message : msgtype :=
  {| mt_id := 233;
     msgname := "GPS_RTCM_DATA";
     fieldnames := ["flags"; "len"; "data"];
     ordered_fieldnames := ["flags"; "len"; "data"];
     fieldtypes := ["uint8_t"; "uint8_t"; "uint8_t"];
     fielddisplays_by_name := [];
     fieldenums_by_name := [];
     native_format := "<BBB";
     orders := [0; 1; 2];
     lengths := [1; 1; 180];
     array_lengths := [0; 0; 180];
     crc_extra := 35;
     unpacker := "<BB180B";
     init_defaults := [];
     init_body := [SetArg "flags"; SetArg "len"; SetArg "data"];
     pack_args := [PA "flags"; PA "len"; PRun "data" 180] |}.

Definition MAVLink_high_latency_message : msgtype :=
  {| mt_id := 234;
     msgname := "HIGH_LATENCY";
     fieldnames := ["base_mode"; "custom_mode"; "landed_state"; "roll"; "pitch"; "heading";
       "throttle"; "heading_sp"; "latitude"; "longitude"; "altitude_amsl"; "altitude_sp";
       "airspeed"; "airspeed_sp"; "groundspeed"; "climb_rate"; "gps_nsat"; "gps_fix_type";
       "battery_remaining"; "temperature"; "temperature_air"; "failsafe"; "wp_num"; "wp_distance"];
     ordered_fieldnames := ["custom_mode"; "latitude"; "longitude"; "roll"; "pitch"; "heading";
       "heading_sp"; "altitude_amsl"; "altitude_sp"; "wp_distance"; "base_mode"; "landed_state";
       "throttle"; "airspeed"; "airspeed_sp"; "groundspeed"; "climb_rate"; "gps_nsat";
       "gps_fix_type"; "battery_remaining"; "temperature"; "temperature_air"; "failsafe"; "wp_num"];
     fieldtypes := ["uint8_t"; "uint32_t"; "uint8_t"; "int16_t"; "int16_t"; "uint16_t"; "int8_t";
       "int16_t"; "int32_t"; "int32_t"; "int16_t"; "int16_t"; "uint8_t"; "uint8_t"; "uint8_t";
       "int8_t"; "uint8_t"; "uint8_t"; "uint8_t"; "int8_t"; "int8_t"; "uint8_t"; "uint8_t";
       "uint16_t"];
     fielddisplays_by_name := [("base_mode", "bitmask"); ("custom_mode", "bitmask")];
     fieldenums_by_name := [("base_mode", "MAV_MODE_FLAG"); ("landed_state", "MAV_LANDED_STATE");
       ("gps_fix_type", "GPS_FIX_TYPE")];
     native_format := "<IiihhHhhhHBBbBBBbBBBbbBB";
     orders := [10; 0; 11; 3; 4; 5; 12; 6; 1; 2; 7; 8; 13; 14; 15; 16; 17; 18; 19; 20; 21; 22; 23;
       9];
     lengths := [1; 1; 1; 1; 1; 1; 1; 1; 1; 1; 1; 1; 1; 1; 1; 1; 1; 1; 1; 1; 1; 1; 1; 1];
     array_lengths := [0; 0; 0; 0; 0; 0; 0; 0; 0; 0; 0; 0; 0; 0; 0; 0; 0; 0; 0; 0; 0; 0; 0; 0];
     crc_extra := 150;
     unpacker := "<IiihhHhhhHBBbBBBbBBBbbBB";
     init_defaults := [];
     init_body := [SetArg "base_mode"; SetArg "custom_mode"; SetArg "landed_state"; SetArg "roll";
       SetArg "pitch"; SetArg "heading"; SetArg "throttle"; SetArg "heading_sp"; SetArg "latitude";
       SetArg "longitude"; SetArg "altitude_amsl"; SetArg "altitude_sp"; SetArg "airspeed";
       SetArg "airspeed_sp"; SetArg "groundspeed"; SetArg "climb_rate"; SetArg "gps_nsat";
       SetArg "gps_fix_type"; SetArg "battery_remaining"; SetArg "temperature";
       SetArg "temperature_air"; SetArg "failsafe"; SetArg "wp_num"; SetArg "wp_distance"];
     pack_args := [PA "custom_mode"; PA "latitude"; PA "longitude"; PA "roll"; PA "pitch";
       PA "heading"; PA "heading_sp"; PA "altitude_amsl"; PA "altitude_sp"; PA "wp_distance";
       PA "base_mode"; PA "landed_state"; PA "throttle"; PA "airspeed"; PA "airspeed_sp";
       PA "groundspeed"; PA "climb_rate"; PA "gps_nsat"; PA "gps_fix_type"; PA "battery_remaining";
       PA "temperature"; PA "temperature_air"; PA "failsafe"; PA "wp_num"] |}.

Definition MAVLink_high_latency2_message : msgtype :=
  {| mt_id := 235;
     msgname := "HIGH_LATENCY2";
     fieldnames := ["timestamp"; "type"; "autopilot"; "custom_mode"; "latitude"; "longitude";
       "altitude"; "target_altitude"; "heading"; "target_heading"; "target_distance"; "throttle";
       "airspeed"; "airspeed_sp"; "groundspeed"; "windspeed"; "wind_heading"; "eph"; "epv";
       "temperature_air"; "climb_rate"; "battery"; "wp_num"; "failure_flags"; "custom0"; "custom1";
       "custom2"];
     ordered_fieldnames := ["timestamp"; "latitude"; "longitude"; "custom_mode"; "altitude";
       "target_altitude"; "target_distance"; "wp_num"; "failure_flags"; "type"; "autopilot";
       "heading"; "target_heading"; "throttle"; "airspeed"; "airspeed_sp"; "groundspeed";
       "windspeed"; "wind_heading"; "eph"; "epv"; "temperature_air"; "climb_rate"; "battery";
       "custom0"; "custom1"; "custom2"];
     fieldtypes := ["uint32_t"; "uint8_t"; "uint8_t"; "uint16_t"; "int32_t"; "int32_t"; "int16_t";
       "int16_t"; "uint8_t"; "uint8_t"; "uint16_t"; "uint8_t"; "uint8_t"; "uint8_t"; "uint8_t";
       "uint8_t"; "uint8_t"; "uint8_t"; "uint8_t"; "int8_t"; "int8_t"; "int8_t"; "uint16_t";
       "uint16_t"; "int8_t"; "int8_t"; "int8_t"];
     fielddisplays_by_name := [("custom_mode", "bitmask"); ("failure_flags", "bitmask")];
     fieldenums_by_name := [("type", "MAV_TYPE"); ("autopilot", "MAV_AUTOPILOT"); ("failure_flags",
       "HL_FAILURE_FLAG")];
     native_format := "<IiiHhhHHHBBBBBBBBBBBBbbbbbb";
     orders := [0; 9; 10; 3; 1; 2; 4; 5; 11; 12; 6; 13; 14; 15; 16; 17; 18; 19; 20; 21; 22; 23; 7;
       8; 24; 25; 26];
     lengths := [1; 1; 1; 1; 1; 1; 1; 1; 1; 1; 1; 1; 1; 1; 1; 1; 1; 1; 1; 1; 1; 1; 1; 1; 1; 1; 1];
     array_lengths := [0; 0; 0; 0; 0; 0; 0; 0; 0; 0; 0; 0; 0; 0; 0; 0; 0; 0; 0; 0; 0; 0; 0; 0; 0; 0;
       0];
     crc_extra := 179;
     unpacker := "<IiiHhhHHHBBBBBBBBBBBBbbbbbb";
     init_defaults := [];
     init_body := [SetArg "timestamp"; SetArg "type"; SetArg "autopilot"; SetArg "custom_mode";
       SetArg "latitude"; SetArg "longitude"; SetArg "altitude"; SetArg "target_altitude";
       SetArg "heading"; SetArg "target_heading"; SetArg "target_distance"; SetArg "throttle";
       SetArg "airspeed"; SetArg "airspeed_sp"; SetArg "groundspeed"; SetArg "windspeed";
       SetArg "wind_heading"; SetArg "eph"; SetArg "epv"; SetArg "temperature_air";
       SetArg "climb_rate"; SetArg "battery"; SetArg "wp_num"; SetArg "failure_flags";
       SetArg "custom0"; SetArg "custom1"; SetArg "custom2"];
     pack_args := [PA "timestamp"; PA "latitude"; PA "longitude"; PA "custom_mode"; PA "altitude";
       PA "target_altitude"; PA "target_distance"; PA "wp_num"; PA "failure_flags"; PA "type";
       PA "autopilot"; PA "heading"; PA "target_heading"; PA "throttle"; PA "airspeed";
       PA "airspeed_sp"; PA "groundspeed"; PA "windspeed"; PA "wind_heading"; PA "eph"; PA "epv";
       PA "temperature_air"; PA "climb_rate"; PA "battery"; PA "custom0"; PA "custom1";
       PA "custom2"] |}.

Definition MAVLink_vibration_message : msgtype :=
  {| mt_id := 241;
     msgname := "VIBRATION";
     fieldnames := ["time_usec"; "vibration_x"; "vibration_y"; "vibration_z"; "clipping_0";
       "clipping_1"; "clipping_2"];
     ordered_fieldnames := ["time_usec"; "vibration_x"; "vibration_y"; "vibration_z"; "clipping_0";
       "clipping_1"; "clipping_2"];
     fieldtypes := ["uint64_t"; "float"; "float"; "float"; "uint32_t"; "uint32_t"; "uint32_t"];
     fielddisplays_by_name := [];
     fieldenums_by_name := [];
     native_format := "<QfffIII";
     orders := [0; 1; 2; 3; 4; 5; 6];
     lengths := [1; 1; 1; 1; 1; 1; 1];
     array_lengths := [0; 0; 0; 0; 0; 0; 0];
     crc_extra := 90;
     unpacker := "<QfffIII";
     init_defaults := [];
     init_body := [SetArg "time_usec"; SetArg "vibration_x"; SetArg "vibration_y";
       SetArg "vibration_z"; SetArg "clipping_0"; SetArg "clipping_1"; SetArg "clipping_2"];
     pack_args := [PA "time_usec"; PA "vibration_x"; PA "vibration_y"; PA "vibration_z";
       PA "clipping_0"; PA "clipping_1"; PA "clipping_2"] |}.

Definition MAVLink_home_position_message : msgtype :=
  {| mt_id := 242;
     msgname := "HOME_POSITION";
     fieldnames := ["latitude"; "longitude"; "altitude"; "x"; "y"; "z"; "q"; "approach_x";
       "approach_y"; "approach_z"; "time_usec"];
     ordered_fieldnames := ["latitude"; "longitude"; "altitude"; "x"; "y"; "z"; "q"; "approach_x";
       "approach_y"; "approach_z"; "time_usec"];
     fieldtypes := ["int32_t"; "int32_t"; "int32_t"; "float"; "float"; "float"; "float"; "float";
       "float"; "float"; "uint64_t"];
     fielddisplays_by_name := [];
     fieldenums_by_name := [];
     native_format := "<iiifffffffQ";
     orders := [0; 1; 2; 3; 4; 5; 6; 7; 8; 9; 10];
     lengths := [1; 1; 1; 1; 1; 1; 4; 1; 1; 1; 1];
     array_lengths := [0; 0; 0; 0; 0; 0; 4; 0; 0; 0; 0];
     crc_extra := 104;
     unpacker := "<iiifff4ffffQ";
     init_defaults := [FScalar (PInt 0)];
     init_body := [SetArg "latitude"; SetArg "longitude"; SetArg "altitude"; SetArg "x"; SetArg "y";
       SetArg "z"; SetArg "q"; SetArg "approach_x"; SetArg "approach_y"; SetArg "approach_z";
       SetArg "time_usec"];
     pack_args := [PA "latitude"; PA "longitude"; PA "altitude"; PA "x"; PA "y"; PA "z"; PRun "q" 4;
       PA "approach_x"; PA "approach_y"; PA "approach_z"; PA "time_usec"] |}.

Definition MAVLink_set_home_position_message : msgtype :=
  {| mt_id := 243;
     msgname := "SET_HOME_POSITION";
     fieldnames := ["target_system"; "latitude"; "longitude"; "altitude"; "x"; "y"; "z"; "q";
       "approach_x"; "approach_y"; "approach_z"; "time_usec"];
     ordered_fieldnames := ["latitude"; "longitude"; "altitude"; "x"; "y"; "z"; "q"; "approach_x";
       "approach_y"; "approach_z"; "target_system"; "time_usec"];
     fieldtypes := ["uint8_t"; "int32_t"; "int32_t"; "int32_t"; "float"; "float"; "float"; "float";
       "float"; "float"; "float"; "uint64_t"];
     fielddisplays_by_name := [];
     fieldenums_by_name := [];
     native_format := "<iiifffffffBQ";
     orders := [10; 0; 1; 2; 3; 4; 5; 6; 7; 8; 9; 11];
     lengths := [1; 1; 1; 1; 1; 1; 4; 1; 1; 1; 1; 1];
     array_lengths := [0; 0; 0; 0; 0; 0; 4; 0; 0; 0; 0; 0];
     crc_extra := 85;
     unpacker := "<iiifff4ffffBQ";
     init_defaults := [FScalar (PInt 0)];
     init_body := [SetArg "target_system"; SetArg "latitude"; SetArg "longitude"; SetArg "altitude";
       SetArg "x"; SetArg "y"; SetArg "z"; SetArg "q"; SetArg "approach_x"; SetArg "approach_y";
       SetArg "approach_z"; SetArg "time_usec"];
     pack_args := [PA "latitude"; PA "longitude"; PA "altitude"; PA "x"; PA "y"; PA "z"; PRun "q" 4;
       PA "approach_x"; PA "approach_y"; PA "approach_z"; PA "target_system"; PA "time_usec"] |}.

Definition MAVLink_message_interval_message : msgtype :=
  {| mt_id := 244;
     msgname := "MESSAGE_INTERVAL";
     fieldnames := ["message_id"; "interval_us"];
     ordered_fieldnames := ["interval_us"; "message_id"];
     fieldtypes := ["uint16_t"; "int32_t"];
     fielddisplays_by_name := [];
     fieldenums_by_name := [];
     native_format := "<iH";
     orders := [1; 0];
     lengths := [1; 1];
     array_lengths := [0; 0];
     crc_extra := 95;
     unpacker := "<iH";
     init_defaults := [];
     init_body := [SetArg "message_id"; SetArg "interval_us"];
     pack_args := [PA "interval_us"; PA "message_id"] |}.

Definition MAVLink_extended_sys_state_message : msgtype :=
  {| mt_id := 245;
     msgname := "EXTENDED_SYS_STATE";
     fieldnames := ["vtol_state"; "landed_state"];
     ordered_fieldnames := ["vtol_state"; "landed_state"];
     fieldtypes := ["uint8_t"; "uint8_t"];
     fielddisplays_by_name := [];
     fieldenums_by_name := [("vtol_state", "MAV_VTOL_STATE"); ("landed_state", "MAV_LANDED_STATE")];
     native_format := "<BB";
     orders := [0; 1];
     lengths := [1; 1];
     array_lengths := [0; 0];
     crc_extra := 130;
     unpacker := "<BB";
     init_defaults := [];
     init_body := [SetArg "vtol_state"; SetArg "landed_state"];
     pack_args := [PA "vtol_state"; PA "landed_state"] |}.

Definition MAVLink_adsb_vehicle_message : msgtype :=
  {| mt_id := 246;
     msgname := "ADSB_VEHICLE";
     fieldnames := ["ICAO_address"; "lat"; "lon"; "altitude_type"; "altitude"; "heading";
       "hor_velocity"; "ver_velocity"; "callsign"; "emitter_type"; "tslc"; "flags"; "squawk"];
     ordered_fieldnames := ["ICAO_address"; "lat"; "lon"; "altitude"; "heading"; "hor_velocity";
       "ver_velocity"; "flags"; "squawk"; "altitude_type"; "callsign"; "emitter_type"; "tslc"];
     fieldtypes := ["uint32_t"; "int32_t"; "int32_t"; "uint8_t"; "int32_t"; "uint16_t"; "uint16_t";
       "int16_t"; "char"; "uint8_t"; "uint8_t"; "uint16_t"; "uint16_t"];
     fielddisplays_by_name := [("flags", "bitmask")];
     fieldenums_by_name := [("altitude_type", "ADSB_ALTITUDE_TYPE"); ("emitter_type",
       "ADSB_EMITTER_TYPE"); ("flags", "ADSB_FLAGS")];
     native_format := "<IiiiHHhHHBcBB";
     orders := [0; 1; 2; 9; 3; 4; 5; 6; 10; 11; 12; 7; 8];
     lengths := [1; 1; 1; 1; 1; 1; 1; 1; 1; 1; 1; 1; 1];
     array_lengths := [0; 0; 0; 0; 0; 0; 0; 0; 0; 0; 9; 0; 0];
     crc_extra := 184;
     unpacker := "<IiiiHHhHHB9sBB";
     init_defaults := [];
     init_body := [SetArg "ICAO_address"; SetArg "lat"; SetArg "lon"; SetArg "altitude_type";
       SetArg "altitude"; SetArg "heading"; SetArg "hor_velocity"; SetArg "ver_velocity";
       SetRaw "callsign"; SetStr "callsign"; SetArg "emitter_type"; SetArg "tslc"; SetArg "flags";
       SetArg "squawk"];
     pack_args := [PA "ICAO_address"; PA "lat"; PA "lon"; PA "altitude"; PA "heading";
       PA "hor_velocity"; PA "ver_velocity"; PA "flags"; PA "squawk"; PA "altitude_type";
       PRaw "callsign"; PA "emitter_type"; PA "tslc"] |}.

Definition MAVLink_collision_message : msgtype :=
  {| mt_id := 247;
     msgname := "COLLISION";
     fieldnames := ["src"; "id"; "action"; "threat_level"; "time_to_minimum_delta";
       "altitude_minimum_delta"; "horizontal_minimum_delta"];
     ordered_fieldnames := ["id"; "time_to_minimum_delta"; "altitude_minimum_delta";
       "horizontal_minimum_delta"; "src"; "action"; "threat_level"];
     fieldtypes := ["uint8_t"; "uint32_t"; "uint8_t"; "uint8_t"; "float"; "float"; "float"];
     fielddisplays_by_name := [];
     fieldenums_by_name := [("src", "MAV_COLLISION_SRC"); ("action", "MAV_COLLISION_ACTION");
       ("threat_level", "MAV_COLLISION_THREAT_LEVEL")];
     native_format := "<IfffBBB";
     orders := [4; 0; 5; 6; 1; 2; 3];
     lengths := [1; 1; 1; 1; 1; 1; 1];
     array_lengths := [0; 0; 0; 0; 0; 0; 0];
     crc_extra := 81;
     unpacker := "<IfffBBB";
     init_defaults := [];
     init_body := [SetArg "src"; SetArg "id"; SetArg "action"; SetArg "threat_level";
       SetArg "time_to_minimum_delta"; SetArg "altitude_minimum_delta";
       SetArg "horizontal_minimum_delta"];
     pack_args := [PA "id"; PA "time_to_minimum_delta"; PA "altitude_minimum_delta";
       PA "horizontal_minimum_delta"; PA "src"; PA "action"; PA "threat_level"] |}.

Definition MAVLink_v2_extension_message : msgtype :=
  {| mt_id := 248;
     msgname := "V2_EXTENSION";
     fieldnames := ["target_network"; "target_system"; "target_component"; "message_type";
       "payload"];
     ordered_fieldnames := ["message_type"; "target_network"; "target_system"; "target_component";
       "payload"];
     fieldtypes := ["uint8_t"; "uint8_t"; "uint8_t"; "uint16_t"; "uint8_t"];
     fielddisplays_by_name := [];
     fieldenums_by_name := [];
     native_format := "<HBBBB";
     orders := [1; 2; 3; 0; 4];
     lengths := [1; 1; 1; 1; 249];
     array_lengths := [0; 0; 0; 0; 249];
     crc_extra := 8;
     unpacker := "<HBBB249B";
     init_defaults := [];
     init_body := [SetArg "target_network"; SetArg "target_system"; SetArg "target_component";
       SetArg "message_type"; SetArg "payload"];
     pack_args := [PA "message_type"; PA "target_network"; PA "target_system";
       PA "target_component"; PRun "payload" 249] |}.

Definition MAVLink_memory_vect_message : msgtype :=
  {| mt_id := 249;
     msgname := "MEMORY_VECT";
     fieldnames := ["address"; "ver"; "type"; "value"];
     ordered_fieldnames := ["address"; "ver"; "type"; "value"];
     fieldtypes := ["uint16_t"; "uint8_t"; "uint8_t"; "int8_t"];
     fielddisplays_by_name := [];
     fieldenums_by_name := [];
     native_format := "<HBBb";
     orders := [0; 1; 2; 3];
     lengths := [1; 1; 1; 32];
     array_lengths := [0; 0; 0; 32];
     crc_extra := 204;
     unpacker := "<HBB32b";
     init_defaults := [];
     init_body := [SetArg "address"; SetArg "ver"; SetArg "type"; SetArg "value"];
     pack_args := [PA "address"; PA "ver"; PA "type"; PRun "value" 32] |}.

Definition MAVLink_debug_vect_message : msgtype :=
  {| mt_id := 250;
     msgname := "DEBUG_VECT";
     fieldnames := ["name"; "time_usec"; "x"; "y"; "z"];
     ordered_fieldnames := ["time_usec"; "x"; "y"; "z"; "name"];
     fieldtypes := ["char"; "uint64_t"; "float"; "float"; "float"];
     fielddisplays_by_name := [];
     fieldenums_by_name := [];
     native_format := "<Qfffc";
     orders := [4; 0; 1; 2; 3];
     lengths := [1; 1; 1; 1; 1];
     array_lengths := [0; 0; 0; 0; 10];
     crc_extra := 49;
     unpacker := "<Qfff10s";
     init_defaults := [];
     init_body := [SetRaw "name"; SetStr "name"; SetArg "time_usec"; SetArg "x"; SetArg "y";
       SetArg "z"];
     pack_args := [PA "time_usec"; PA "x"; PA "y"; PA "z"; PRaw "name"] |}.

Definition MAVLink_named_value_float_message : msgtype :=
  {| mt_id := 251;
     msgname := "NAMED_VALUE_FLOAT";
     fieldnames := ["time_boot_ms"; "name"; "value"];
     ordered_fieldnames := ["time_boot_ms"; "value"; "name"];
     fieldtypes := ["uint32_t"; "char"; "float"];
     fielddisplays_by_name := [];
     fieldenums_by_name := [];
     native_format := "<Ifc";
     orders := [0; 2; 1];
     lengths := [1; 1; 1];
     array_lengths := [0; 0; 10];
     crc_extra := 170;
     unpacker := "<If10s";
     init_defaults := [];
     init_body := [SetArg "time_boot_ms"; SetRaw "name"; SetStr "name"; SetArg "value"];
     pack_args := [PA "time_boot_ms"; PA "value"; PRaw "name"] |}.

Definition MAVLink_named_value_int_message : msgtype :=
  {| mt_id := 252;
     msgname := "NAMED_VALUE_INT";
     fieldnames := ["time_boot_ms"; "name"; "value"];
     ordered_fieldnames := ["time_boot_ms"; "value"; "name"];
     fieldtypes := ["uint32_t"; "char"; "int32_t"];
     fielddisplays_by_name := [];
     fieldenums_by_name := [];
     native_format := "<Iic";
     orders := [0; 2; 1];
     lengths := [1; 1; 1];
     array_lengths := [0; 0; 10];
     crc_extra := 44;
     unpacker := "<Ii10s";
     init_defaults := [];
     init_body := [SetArg "time_boot_ms"; SetRaw "name"; SetStr "name"; SetArg "value"];
     pack_args := [PA "time_boot_ms"; PA "value"; PRaw "name"] |}.

Definition MAVLink_statustext_message : msgtype :=
  {| mt_id := 253;
     msgname := "STATUSTEXT";
     fieldnames := ["severity"; "text"; "id"; "chunk_seq"];
     ordered_fieldnames := ["severity"; "text"; "id"; "chunk_seq"];
     fieldtypes := ["uint8_t"; "char"; "uint16_t"; "uint8_t"];
     fielddisplays_by_name := [];
     fieldenums_by_name := [("severity", "MAV_SEVERITY")];
     native_format := "<BcHB";
     orders := [0; 1; 2; 3];
     lengths := [1; 1; 1; 1];
     array_lengths := [0; 50; 0; 0];
     crc_extra := 83;
     unpacker := "<B50sHB";
     init_defaults := [FScalar (PInt 0); FScalar (PInt 0)];
     init_body := [SetArg "severity"; SetRaw "text"; SetStr "text"; SetArg "id";
       SetArg "chunk_seq"];
     pack_args := [PA "severity"; PRaw "text"; PA "id"; PA "chunk_seq"] |}.

Definition MAVLink_debug_message : msgtype :=
  {| mt_id := 254;
     msgname := "DEBUG";
     fieldnames := ["time_boot_ms"; "ind"; "value"];
     ordered_fieldnames := ["time_boot_ms"; "value"; "ind"];
     fieldtypes := ["uint32_t"; "uint8_t"; "float"];
     fielddisplays_by_name := [];
     fieldenums_by_name := [];
     native_format := "<IfB";
     orders := [0; 2; 1];
     lengths := [1; 1; 1];
     array_lengths := [0; 0; 0];
     crc_extra := 46;
     unpacker := "<IfB";
     init_defaults := [];
     init_body := [SetArg "time_boot_ms"; SetArg "ind"; SetArg "value"];
     pack_args := [PA "time_boot_ms"; PA "value"; PA "ind"] |}.

Definition MAVLink_setup_signing_message : msgtype :=
  {| mt_id := 256;
     msgname := "SETUP_SIGNING";
     fieldnames := ["target_system"; "target_component"; "secret_key"; "initial_timestamp"];
     ordered_fieldnames := ["initial_timestamp"; "target_system"; "target_component"; "secret_key"];
     fieldtypes := ["uint8_t"; "uint8_t"; "uint8_t"; "uint64_t"];
     fielddisplays_by_name := [];
     fieldenums_by_name := [];
     native_format := "<QBBB";
     orders := [1; 2; 3; 0];
     lengths := [1; 1; 1; 32];
     array_lengths := [0; 0; 0; 32];
     crc_extra := 71;
     unpacker := "<QBB32B";
     init_defaults := [];
     init_body := [SetArg "target_system"; SetArg "target_component"; SetArg "secret_key";
       SetArg "initial_timestamp"];
     pack_args := [PA "initial_timestamp"; PA "target_system"; PA "target_component";
       PRun "secret_key" 32] |}.

Definition MAVLink_button_change_message : msgtype :=
  {| mt_id := 257;
     msgname := "BUTTON_CHANGE";
     fieldnames := ["time_boot_ms"; "last_change_ms"; "state"];
     ordered_fieldnames := ["time_boot_ms"; "last_change_ms"; "state"];
     fieldtypes := ["uint32_t"; "uint32_t"; "uint8_t"];
     fielddisplays_by_name := [("state", "bitmask")];
     fieldenums_by_name := [];
     native_format := "<IIB";
     orders := [0; 1; 2];
     lengths := [1; 1; 1];
     array_lengths := [0; 0; 0];
     crc_extra := 131;
     unpacker := "<IIB";
     init_defaults := [];
     init_body := [SetArg "time_boot_ms"; SetArg "last_change_ms"; SetArg "state"];
     pack_args := [PA "time_boot_ms"; PA "last_change_ms"; PA "state"] |}.

Definition MAVLink_play_tune_message : msgtype :=
  {| mt_id := 258;
     msgname := "PLAY_TUNE";
     fieldnames := ["target_system"; "target_component"; "tune"; "tune2"];
     ordered_fieldnames := ["target_system"; "target_component"; "tune"; "tune2"];
     fieldtypes := ["uint8_t"; "uint8_t"; "char"; "char"];
     fielddisplays_by_name := [];
     fieldenums_by_name := [];
     native_format := "<BBcc";
     orders := [0; 1; 2; 3];
     lengths := [1; 1; 1; 1];
     array_lengths := [0; 0; 30; 200];
     crc_extra := 187;
     unpacker := "<BB30s200s";
     init_defaults := [FScalar (PBytes [])];
     init_body := [SetArg "target_system"; SetArg "target_component"; SetRaw "tune"; SetStr "tune";
       SetRaw "tune2"; SetStr "tune2"];
     pack_args := [PA "target_system"; PA "target_component"; PRaw "tune"; PRaw "tune2"] |}.

Definition MAVLink_camera_information_message : msgtype :=
  {| mt_id := 259;
     msgname := "CAMERA_INFORMATION";
     fieldnames := ["time_boot_ms"; "vendor_name"; "model_name"; "firmware_version"; "focal_length";
       "sensor_size_h"; "sensor_size_v"; "resolution_h"; "resolution_v"; "lens_id"; "flags";
       "cam_definition_version"; "cam_definition_uri"];
     ordered_fieldnames := ["time_boot_ms"; "firmware_version"; "focal_length"; "sensor_size_h";
       "sensor_size_v"; "flags"; "resolution_h"; "resolution_v"; "cam_definition_version";
       "vendor_name"; "model_name"; "lens_id"; "cam_definition_uri"];
     fieldtypes := ["uint32_t"; "uint8_t"; "uint8_t"; "uint32_t"; "float"; "float"; "float";
       "uint16_t"; "uint16_t"; "uint8_t"; "uint32_t"; "uint16_t"; "char"];
     fielddisplays_by_name := [("flags", "bitmask")];
     fieldenums_by_name := [("flags", "CAMERA_CAP_FLAGS")];
     native_format := "<IIfffIHHHBBBc";
     orders := [0; 9; 10; 1; 2; 3; 4; 6; 7; 11; 5; 8; 12];
     lengths := [1; 1; 1; 1; 1; 1; 1; 1; 1; 32; 32; 1; 1];
     array_lengths := [0; 0; 0; 0; 0; 0; 0; 0; 0; 32; 32; 0; 140];
     crc_extra := 92;
     unpacker := "<IIfffIHHH32B32BB140s";
     init_defaults := [];
     init_body := [SetArg "time_boot_ms"; SetArg "vendor_name"; SetArg "model_name";
       SetArg "firmware_version"; SetArg "focal_length"; SetArg "sensor_size_h";
       SetArg "sensor_size_v"; SetArg "resolution_h"; SetArg "resolution_v"; SetArg "lens_id";
       SetArg "flags"; SetArg "cam_definition_version"; SetRaw "cam_definition_uri";
       SetStr "cam_definition_uri"];
     pack_args := [PA "time_boot_ms"; PA "firmware_version"; PA "focal_length"; PA "sensor_size_h";
       PA "sensor_size_v"; PA "flags"; PA "resolution_h"; PA "resolution_v";
       PA "cam_definition_version"; PRun "vendor_name" 32; PRun "model_name" 32; PA "lens_id";
       PRaw "cam_definition_uri"] |}.

Definition MAVLink_camera_settings_message : msgtype :=
  {| mt_id := 260;
     msgname := "CAMERA_SETTINGS";
     fieldnames := ["time_boot_ms"; "mode_id"; "zoomLevel"; "focusLevel"];
     ordered_fieldnames := ["time_boot_ms"; "mode_id"; "zoomLevel"; "focusLevel"];
     fieldtypes := ["uint32_t"; "uint8_t"; "float"; "float"];
     fielddisplays_by_name := [];
     fieldenums_by_name := [("mode_id", "CAMERA_MODE")];
     native_format := "<IBff";
     orders := [0; 1; 2; 3];
     lengths := [1; 1; 1; 1];
     array_lengths := [0; 0; 0; 0];
     crc_extra := 146;
     unpacker := "<IBff";
     init_defaults := [FScalar (PInt 0); FScalar (PInt 0)];
     init_body := [SetArg "time_boot_ms"; SetArg "mode_id"; SetArg "zoomLevel";
       SetArg "focusLevel"];
     pack_args := [PA "time_boot_ms"; PA "mode_id"; PA "zoomLevel"; PA "focusLevel"] |}.

Definition MAVLink_storage_information_message : msgtype :=
  {| mt_id := 261;
     msgname := "STORAGE_INFORMATION";
     fieldnames := ["time_boot_ms"; "storage_id"; "storage_count"; "status"; "total_capacity";
       "used_capacity"; "available_capacity"; "read_speed"; "write_speed"; "type"; "name";
       "storage_usage"];
     ordered_fieldnames := ["time_boot_ms"; "total_capacity"; "used_capacity"; "available_capacity";
       "read_speed"; "write_speed"; "storage_id"; "storage_count"; "status"; "type"; "name";
       "storage_usage"];
     fieldtypes := ["uint32_t"; "uint8_t"; "uint8_t"; "uint8_t"; "float"; "float"; "float"; "float";
       "float"; "uint8_t"; "char"; "uint8_t"];
     fielddisplays_by_name := [];
     fieldenums_by_name := [("status", "STORAGE_STATUS"); ("type", "STORAGE_TYPE");
       ("storage_usage", "STORAGE_USAGE_FLAG")];
     native_format := "<IfffffBBBBcB";
     orders := [0; 6; 7; 8; 1; 2; 3; 4; 5; 9; 10; 11];
     lengths := [1; 1; 1; 1; 1; 1; 1; 1; 1; 1; 1; 1];
     array_lengths := [0; 0; 0; 0; 0; 0; 0; 0; 0; 0; 32; 0];
     crc_extra := 179;
     unpacker := "<IfffffBBBB32sB";
     init_defaults := [FScalar (PInt 0); FScalar (PBytes []); FScalar (PInt 0)];
     init_body := [SetArg "time_boot_ms"; SetArg "storage_id"; SetArg "storage_count";
       SetArg "status"; SetArg "total_capacity"; SetArg "used_capacity";
       SetArg "available_capacity"; SetArg "read_speed"; SetArg "write_speed"; SetArg "type";
       SetRaw "name"; SetStr "name"; SetArg "storage_usage"];
     pack_args := [PA "time_boot_ms"; PA "total_capacity"; PA "used_capacity";
       PA "available_capacity"; PA "read_speed"; PA "write_speed"; PA "storage_id";
       PA "storage_count"; PA "status"; PA "type"; PRaw "name"; PA "storage_usage"] |}.

Definition MAVLink_camera_capture_status_message : msgtype :=
  {| mt_id := 262;
     msgname := "CAMERA_CAPTURE_STATUS";
     fieldnames := ["time_boot_ms"; "image_status"; "video_status"; "image_interval";
       "recording_time_ms"; "available_capacity"; "image_count"];
     ordered_fieldnames := ["time_boot_ms"; "image_interval"; "recording_time_ms";
       "available_capacity"; "image_status"; "video_status"; "image_count"];
     fieldtypes := ["uint32_t"; "uint8_t"; "uint8_t"; "float"; "uint32_t"; "float"; "int32_t"];
     fielddisplays_by_name := [];
     fieldenums_by_name := [];
     native_format := "<IfIfBBi";
     orders := [0; 4; 5; 1; 2; 3; 6];
     lengths := [1; 1; 1; 1; 1; 1; 1];
     array_lengths := [0; 0; 0; 0; 0; 0; 0];
     crc_extra := 12;
     unpacker := "<IfIfBBi";
     init_defaults := [FScalar (PInt 0)];
     init_body := [SetArg "time_boot_ms"; SetArg "image_status"; SetArg "video_status";
       SetArg "image_interval"; SetArg "recording_time_ms"; SetArg "available_capacity";
       SetArg "image_count"];
     pack_args := [PA "time_boot_ms"; PA "image_interval"; PA "recording_time_ms";
       PA "available_capacity"; PA "image_status"; PA "video_status"; PA "image_count"] |}.

Definition MAVLink_camera_image_captured_message : msgtype :=
  {| mt_id := 263;
     msgname := "CAMERA_IMAGE_CAPTURED";
     fieldnames := ["time_boot_ms"; "time_utc"; "camera_id"; "lat"; "lon"; "alt"; "relative_alt";
       "q"; "image_index"; "capture_result"; "file_url"];
     ordered_fieldnames := ["time_utc"; "time_boot_ms"; "lat"; "lon"; "alt"; "relative_alt"; "q";
       "image_index"; "camera_id"; "capture_result"; "file_url"];
     fieldtypes := ["uint32_t"; "uint64_t"; "uint8_t"; "int32_t"; "int32_t"; "int32_t"; "int32_t";
       "float"; "int32_t"; "int8_t"; "char"];
     fielddisplays_by_name := [];
     fieldenums_by_name := [];
     native_format := "<QIiiiifiBbc";
     orders := [1; 0; 8; 2; 3; 4; 5; 6; 7; 9; 10];
     lengths := [1; 1; 1; 1; 1; 1; 4; 1; 1; 1; 1];
     array_lengths := [0; 0; 0; 0; 0; 0; 4; 0; 0; 0; 205];
     crc_extra := 133;
     unpacker := "<QIiiii4fiBb205s";
     init_defaults := [];
     init_body := [SetArg "time_boot_ms"; SetArg "time_utc"; SetArg "camera_id"; SetArg "lat";
       SetArg "lon"; SetArg "alt"; SetArg "relative_alt"; SetArg "q"; SetArg "image_index";
       SetArg "capture_result"; SetRaw "file_url"; SetStr "file_url"];
     pack_args := [PA "time_utc"; PA "time_boot_ms"; PA "lat"; PA "lon"; PA "alt";
       PA "relative_alt"; PRun "q" 4; PA "image_index"; PA "camera_id"; PA "capture_result";
       PRaw "file_url"] |}.

Definition MAVLink_flight_information_message : msgtype :=
  {| mt_id := 264;
     msgname := "FLIGHT_INFORMATION";
     fieldnames := ["time_boot_ms"; "arming_time_utc"; "takeoff_time_utc"; "flight_uuid"];
     ordered_fieldnames := ["arming_time_utc"; "takeoff_time_utc"; "flight_uuid"; "time_boot_ms"];
     fieldtypes := ["uint32_t"; "uint64_t"; "uint64_t"; "uint64_t"];
     fielddisplays_by_name := [];
     fieldenums_by_name := [];
     native_format := "<QQQI";
     orders := [3; 0; 1; 2];
     lengths := [1; 1; 1; 1];
     array_lengths := [0; 0; 0; 0];
     crc_extra := 49;
     unpacker := "<QQQI";
     init_defaults := [];
     init_body := [SetArg "time_boot_ms"; SetArg "arming_time_utc"; SetArg "takeoff_time_utc";
       SetArg "flight_uuid"];
     pack_args := [PA "arming_time_utc"; PA "takeoff_time_utc"; PA "flight_uuid"; PA "time_boot_ms"]
       |}.

Definition MAVLink_mount_orientation_message : msgtype :=
  {| mt_id := 265;
     msgname := "MOUNT_ORIENTATION";
     fieldnames := ["time_boot_ms"; "roll"; "pitch"; "yaw"; "yaw_absolute"];
     ordered_fieldnames := ["time_boot_ms"; "roll"; "pitch"; "yaw"; "yaw_absolute"];
     fieldtypes := ["uint32_t"; "float"; "float"; "float"; "float"];
     fielddisplays_by_name := [];
     fieldenums_by_name := [];
     native_format := "<Iffff";
     orders := [0; 1; 2; 3; 4];
     lengths := [1; 1; 1; 1; 1];
     array_lengths := [0; 0; 0; 0; 0];
     crc_extra := 26;
     unpacker := "<Iffff";
     init_defaults := [FScalar (PInt 0)];
     init_body := [SetArg "time_boot_ms"; SetArg "roll"; SetArg "pitch"; SetArg "yaw";
       SetArg "yaw_absolute"];
     pack_args := [PA "time_boot_ms"; PA "roll"; PA "pitch"; PA "yaw"; PA "yaw_absolute"] |}.

Definition MAVLink_logging_data_message : msgtype :=
  {| mt_id := 266;
     msgname := "LOGGING_DATA";
     fieldnames := ["target_system"; "target_component"; "sequence"; "length";
       "first_message_offset"; "data"];
     ordered_fieldnames := ["sequence"; "target_system"; "target_component"; "length";
       "first_message_offset"; "data"];
     fieldtypes := ["uint8_t"; "uint8_t"; "uint16_t"; "uint8_t"; "uint8_t"; "uint8_t"];
     fielddisplays_by_name := [];
     fieldenums_by_name := [];
     native_format := "<HBBBBB";
     orders := [1; 2; 0; 3; 4; 5];
     lengths := [1; 1; 1; 1; 1; 249];
     array_lengths := [0; 0; 0; 0; 0; 249];
     crc_extra := 193;
     unpacker := "<HBBBB249B";
     init_defaults := [];
     init_body := [SetArg "target_system"; SetArg "target_component"; SetArg "sequence";
       SetArg "length"; SetArg "first_message_offset"; SetArg "data"];
     pack_args := [PA "sequence"; PA "target_system"; PA "target_component"; PA "length";
       PA "first_message_offset"; PRun "data" 249] |}.

Definition MAVLink_logging_data_acked_message : msgtype :=
  {| mt_id := 267;
     msgname := "LOGGING_DATA_ACKED";
     fieldnames := ["target_system"; "target_component"; "sequence"; "length";
       "first_message_offset"; "data"];
     ordered_fieldnames := ["sequence"; "target_system"; "target_component"; "length";
       "first_message_offset"; "data"];
     fieldtypes := ["uint8_t"; "uint8_t"; "uint16_t"; "uint8_t"; "uint8_t"; "uint8_t"];
     fielddisplays_by_name := [];
     fieldenums_by_name := [];
     native_format := "<HBBBBB";
     orders := [1; 2; 0; 3; 4; 5];
     lengths := [1; 1; 1; 1; 1; 249];
     array_lengths := [0; 0; 0; 0; 0; 249];
     crc_extra := 35;
     unpacker := "<HBBBB249B";
     init_defaults := [];
     init_body := [SetArg "target_system"; SetArg "target_component"; SetArg "sequence";
       SetArg "length"; SetArg "first_message_offset"; SetArg "data"];
     pack_args := [PA "sequence"; PA "target_system"; PA "target_component"; PA "length";
       PA "first_message_offset"; PRun "data" 249] |}.

Definition MAVLink_logging_ack_message : msgtype :=
  {| mt_id := 268;
     msgname := "LOGGING_ACK";
     fieldnames := ["target_system"; "target_component"; "sequence"];
     ordered_fieldnames := ["sequence"; "target_system"; "target_component"];
     fieldtypes := ["uint8_t"; "uint8_t"; "uint16_t"];
     fielddisplays_by_name := [];
     fieldenums_by_name := [];
     native_format := "<HBB";
     orders := [1; 2; 0];
     lengths := [1; 1; 1];
     array_lengths := [0; 0; 0];
     crc_extra := 14;
     unpacker := "<HBB";
     init_defaults := [];
     init_body := [SetArg "target_system"; SetArg "target_component"; SetArg "sequence"];
     pack_args := [PA "sequence"; PA "target_system"; PA "target_component"] |}.

Definition MAVLink_video_stream_information_message : msgtype :=
  {| mt_id := 269;
     msgname := "VIDEO_STREAM_INFORMATION";
     fieldnames := ["stream_id"; "count"; "type"; "flags"; "framerate"; "resolution_h";
       "resolution_v"; "bitrate"; "rotation"; "hfov"; "name"; "uri"];
     ordered_fieldnames := ["framerate"; "bitrate"; "flags"; "resolution_h"; "resolution_v";
       "rotation"; "hfov"; "stream_id"; "count"; "type"; "name"; "uri"];
     fieldtypes := ["uint8_t"; "uint8_t"; "uint8_t"; "uint16_t"; "float"; "uint16_t"; "uint16_t";
       "uint32_t"; "uint16_t"; "uint16_t"; "char"; "char"];
     fielddisplays_by_name := [];
     fieldenums_by_name := [("type", "VIDEO_STREAM_TYPE"); ("flags", "VIDEO_STREAM_STATUS_FLAGS")];
     native_format := "<fIHHHHHBBBcc";
     orders := [7; 8; 9; 2; 0; 3; 4; 1; 5; 6; 10; 11];
     lengths := [1; 1; 1; 1; 1; 1; 1; 1; 1; 1; 1; 1];
     array_lengths := [0; 0; 0; 0; 0; 0; 0; 0; 0; 0; 32; 160];
     crc_extra := 109;
     unpacker := "<fIHHHHHBBB32s160s";
     init_defaults := [];
     init_body := [SetArg "stream_id"; SetArg "count"; SetArg "type"; SetArg "flags";
       SetArg "framerate"; SetArg "resolution_h"; SetArg "resolution_v"; SetArg "bitrate";
       SetArg "rotation"; SetArg "hfov"; SetRaw "name"; SetStr "name"; SetRaw "uri"; SetStr "uri"];
     pack_args := [PA "framerate"; PA "bitrate"; PA "flags"; PA "resolution_h"; PA "resolution_v";
       PA "rotation"; PA "hfov"; PA "stream_id"; PA "count"; PA "type"; PRaw "name"; PRaw "uri"] |}.

Definition MAVLink_video_stream_status_message : msgtype :=
  {| mt_id := 270;
     msgname := "VIDEO_STREAM_STATUS";
     fieldnames := ["stream_id"; "flags"; "framerate"; "resolution_h"; "resolution_v"; "bitrate";
       "rotation"; "hfov"];
     ordered_fieldnames := ["framerate"; "bitrate"; "flags"; "resolution_h"; "resolution_v";
       "rotation"; "hfov"; "stream_id"];
     fieldtypes := ["uint8_t"; "uint16_t"; "float"; "uint16_t"; "uint16_t"; "uint32_t"; "uint16_t";
       "uint16_t"];
     fielddisplays_by_name := [];
     fieldenums_by_name := [("flags", "VIDEO_STREAM_STATUS_FLAGS")];
     native_format := "<fIHHHHHB";
     orders := [7; 2; 0; 3; 4; 1; 5; 6];
     lengths := [1; 1; 1; 1; 1; 1; 1; 1];
     array_lengths := [0; 0; 0; 0; 0; 0; 0; 0];
     crc_extra := 59;
     unpacker := "<fIHHHHHB";
     init_defaults := [];
     init_body := [SetArg "stream_id"; SetArg "flags"; SetArg "framerate"; SetArg "resolution_h";
       SetArg "resolution_v"; SetArg "bitrate"; SetArg "rotation"; SetArg "hfov"];
     pack_args := [PA "framerate"; PA "bitrate"; PA "flags"; PA "resolution_h"; PA "resolution_v";
       PA "rotation"; PA "hfov"; PA "stream_id"] |}.

Definition MAVLink_camera_fov_status_message : msgtype :=
  {| mt_id := 271;
     msgname := "CAMERA_FOV_STATUS";
     fieldnames := ["time_boot_ms"; "lat_camera"; "lon_camera"; "alt_camera"; "lat_image";
       "lon_image"; "alt_image"; "q"; "hfov"; "vfov"];
     ordered_fieldnames := ["time_boot_ms"; "lat_camera"; "lon_camera"; "alt_camera"; "lat_image";
       "lon_image"; "alt_image"; "q"; "hfov"; "vfov"];
     fieldtypes := ["uint32_t"; "int32_t"; "int32_t"; "int32_t"; "int32_t"; "int32_t"; "int32_t";
       "float"; "float"; "float"];
     fielddisplays_by_name := [];
     fieldenums_by_name := [];
     native_format := "<Iiiiiiifff";
     orders := [0; 1; 2; 3; 4; 5; 6; 7; 8; 9];
     lengths := [1; 1; 1; 1; 1; 1; 1; 4; 1; 1];
     array_lengths := [0; 0; 0; 0; 0; 0; 0; 4; 0; 0];
     crc_extra := 22;
     unpacker := "<Iiiiiii4fff";
     init_defaults := [];
     init_body := [SetArg "time_boot_ms"; SetArg "lat_camera"; SetArg "lon_camera";
       SetArg "alt_camera"; SetArg "lat_image"; SetArg "lon_image"; SetArg "alt_image"; SetArg "q";
       SetArg "hfov"; SetArg "vfov"];
     pack_args := [PA "time_boot_ms"; PA "lat_camera"; PA "lon_camera"; PA "alt_camera";
       PA "lat_image"; PA "lon_image"; PA "alt_image"; PRun "q" 4; PA "hfov"; PA "vfov"] |}.

Definition MAVLink_camera_tracking_image_status_message : msgtype :=
  {| mt_id := 275;
     msgname := "CAMERA_TRACKING_IMAGE_STATUS";
     fieldnames := ["tracking_status"; "tracking_mode"; "target_data"; "point_x"; "point_y";
       "radius"; "rec_top_x"; "rec_top_y"; "rec_bottom_x"; "rec_bottom_y"];
     ordered_fieldnames := ["point_x"; "point_y"; "radius"; "rec_top_x"; "rec_top_y";
       "rec_bottom_x"; "rec_bottom_y"; "tracking_status"; "tracking_mode"; "target_data"];
     fieldtypes := ["uint8_t"; "uint8_t"; "uint8_t"; "float"; "float"; "float"; "float"; "float";
       "float"; "float"];
     fielddisplays_by_name := [];
     fieldenums_by_name := [("tracking_status", "CAMERA_TRACKING_STATUS_FLAGS"); ("tracking_mode",
       "CAMERA_TRACKING_MODE"); ("target_data", "CAMERA_TRACKING_TARGET_DATA")];
     native_format := "<fffffffBBB";
     orders := [7; 8; 9; 0; 1; 2; 3; 4; 5; 6];
     lengths := [1; 1; 1; 1; 1; 1; 1; 1; 1; 1];
     array_lengths := [0; 0; 0; 0; 0; 0; 0; 0; 0; 0];
     crc_extra := 126;
     unpacker := "<fffffffBBB";
     init_defaults := [];
     init_body := [SetArg "tracking_status"; SetArg "tracking_mode"; SetArg "target_data";
       SetArg "point_x"; SetArg "point_y"; SetArg "radius"; SetArg "rec_top_x"; SetArg "rec_top_y";
       SetArg "rec_bottom_x"; SetArg "rec_bottom_y"];
     pack_args := [PA "point_x"; PA "point_y"; PA "radius"; PA "rec_top_x"; PA "rec_top_y";
       PA "rec_bottom_x"; PA "rec_bottom_y"; PA "tracking_status"; PA "tracking_mode";
       PA "target_data"] |}.

Definition MAVLink_camera_tracking_geo_status_message : msgtype :=
  {| mt_id := 276;
     msgname := "CAMERA_TRACKING_GEO_STATUS";
     fieldnames := ["tracking_status"; "lat"; "lon"; "alt"; "h_acc"; "v_acc"; "vel_n"; "vel_e";
       "vel_d"; "vel_acc"; "dist"; "hdg"; "hdg_acc"];
     ordered_fieldnames := ["lat"; "lon"; "alt"; "h_acc"; "v_acc"; "vel_n"; "vel_e"; "vel_d";
       "vel_acc"; "dist"; "hdg"; "hdg_acc"; "tracking_status"];
     fieldtypes := ["uint8_t"; "int32_t"; "int32_t"; "float"; "float"; "float"; "float"; "float";
       "float"; "float"; "float"; "float"; "float"];
     fielddisplays_by_name := [];
     fieldenums_by_name := [("tracking_status", "CAMERA_TRACKING_STATUS_FLAGS")];
     native_format := "<iiffffffffffB";
     orders := [12; 0; 1; 2; 3; 4; 5; 6; 7; 8; 9; 10; 11];
     lengths := [1; 1; 1; 1; 1; 1; 1; 1; 1; 1; 1; 1; 1];
     array_lengths := [0; 0; 0; 0; 0; 0; 0; 0; 0; 0; 0; 0; 0];
     crc_extra := 18;
     unpacker := "<iiffffffffffB";
     init_defaults := [];
     init_body := [SetArg "tracking_status"; SetArg "lat"; SetArg "lon"; SetArg "alt";
       SetArg "h_acc"; SetArg "v_acc"; SetArg "vel_n"; SetArg "vel_e"; SetArg "vel_d";
       SetArg "vel_acc"; SetArg "dist"; SetArg "hdg"; SetArg "hdg_acc"];
     pack_args := [PA "lat"; PA "lon"; PA "alt"; PA "h_acc"; PA "v_acc"; PA "vel_n"; PA "vel_e";
       PA "vel_d"; PA "vel_acc"; PA "dist"; PA "hdg"; PA "hdg_acc"; PA "tracking_status"] |}.

Definition MAVLink_gimbal_manager_information_message : msgtype :=
  {| mt_id := 280;
     msgname := "GIMBAL_MANAGER_INFORMATION";
     fieldnames := ["time_boot_ms"; "cap_flags"; "gimbal_device_id"; "roll_min"; "roll_max";
       "pitch_min"; "pitch_max"; "yaw_min"; "yaw_max"];
     ordered_fieldnames := ["time_boot_ms"; "cap_flags"; "roll_min"; "roll_max"; "pitch_min";
       "pitch_max"; "yaw_min"; "yaw_max"; "gimbal_device_id"];
     fieldtypes := ["uint32_t"; "uint32_t"; "uint8_t"; "float"; "float"; "float"; "float"; "float";
       "float"];
     fielddisplays_by_name := [("cap_flags", "bitmask")];
     fieldenums_by_name := [("cap_flags", "GIMBAL_MANAGER_CAP_FLAGS")];
     native_format := "<IIffffffB";
     orders := [0; 1; 8; 2; 3; 4; 5; 6; 7];
     lengths := [1; 1; 1; 1; 1; 1; 1; 1; 1];
     array_lengths := [0; 0; 0; 0; 0; 0; 0; 0; 0];
     crc_extra := 70;
     unpacker := "<IIffffffB";
     init_defaults := [];
     init_body := [SetArg "time_boot_ms"; SetArg "cap_flags"; SetArg "gimbal_device_id";
       SetArg "roll_min"; SetArg "roll_max"; SetArg "pitch_min"; SetArg "pitch_max";
       SetArg "yaw_min"; SetArg "yaw_max"];
     pack_args := [PA "time_boot_ms"; PA "cap_flags"; PA "roll_min"; PA "roll_max"; PA "pitch_min";
       PA "pitch_max"; PA "yaw_min"; PA "yaw_max"; PA "gimbal_device_id"] |}.

Definition MAVLink_gimbal_manager_status_message : msgtype :=
  {| mt_id := 281;
     msgname := "GIMBAL_MANAGER_STATUS";
     fieldnames := ["time_boot_ms"; "flags"; "gimbal_device_id"; "primary_control_sysid";
       "primary_control_compid"; "secondary_control_sysid"; "secondary_control_compid"];
     ordered_fieldnames := ["time_boot_ms"; "flags"; "gimbal_device_id"; "primary_control_sysid";
       "primary_control_compid"; "secondary_control_sysid"; "secondary_control_compid"];
     fieldtypes := ["uint32_t"; "uint32_t"; "uint8_t"; "uint8_t"; "uint8_t"; "uint8_t"; "uint8_t"];
     fielddisplays_by_name := [];
     fieldenums_by_name := [("flags", "GIMBAL_MANAGER_FLAGS")];
     native_format := "<IIBBBBB";
     orders := [0; 1; 2; 3; 4; 5; 6];
     lengths := [1; 1; 1; 1; 1; 1; 1];
     array_lengths := [0; 0; 0; 0; 0; 0; 0];
     crc_extra := 48;
     unpacker := "<IIBBBBB";
     init_defaults := [];
     init_body := [SetArg "time_boot_ms"; SetArg "flags"; SetArg "gimbal_device_id";
       SetArg "primary_control_sysid"; SetArg "primary_control_compid";
       SetArg "secondary_control_sysid"; SetArg "secondary_control_compid"];
     pack_args := [PA "time_boot_ms"; PA "flags"; PA "gimbal_device_id"; PA "primary_control_sysid";
       PA "primary_control_compid"; PA "secondary_control_sysid"; PA "secondary_control_compid"] |}.

Definition MAVLink_gimbal_manager_set_attitude_message : msgtype :=
  {| mt_id := 282;
     msgname := "GIMBAL_MANAGER_SET_ATTITUDE";
     fieldnames := ["target_system"; "target_component"; "flags"; "gimbal_device_id"; "q";
       "angular_velocity_x"; "angular_velocity_y"; "angular_velocity_z"];
     ordered_fieldnames := ["flags"; "q"; "angular_velocity_x"; "angular_velocity_y";
       "angular_velocity_z"; "target_system"; "target_component"; "gimbal_device_id"];
     fieldtypes := ["uint8_t"; "uint8_t"; "uint32_t"; "uint8_t"; "float"; "float"; "float";
       "float"];
     fielddisplays_by_name := [];
     fieldenums_by_name := [("flags", "GIMBAL_MANAGER_FLAGS")];
     native_format := "<IffffBBB";
     orders := [5; 6; 0; 7; 1; 2; 3; 4];
     lengths := [1; 4; 1; 1; 1; 1; 1; 1];
     array_lengths := [0; 4; 0; 0; 0; 0; 0; 0];
     crc_extra := 123;
     unpacker := "<I4ffffBBB";
     init_defaults := [];
     init_body := [SetArg "target_system"; SetArg "target_component"; SetArg "flags";
       SetArg "gimbal_device_id"; SetArg "q"; SetArg "angular_velocity_x";
       SetArg "angular_velocity_y"; SetArg "angular_velocity_z"];
     pack_args := [PA "flags"; PRun "q" 4; PA "angular_velocity_x"; PA "angular_velocity_y";
       PA "angular_velocity_z"; PA "target_system"; PA "target_component"; PA "gimbal_device_id"]
       |}.

Definition MAVLink_gimbal_device_information_message : msgtype :=
  {| mt_id := 283;
     msgname := "GIMBAL_DEVICE_INFORMATION";
     fieldnames := ["time_boot_ms"; "vendor_name"; "model_name"; "custom_name"; "firmware_version";
       "hardware_version"; "uid"; "cap_flags"; "custom_cap_flags"; "roll_min"; "roll_max";
       "pitch_min"; "pitch_max"; "yaw_min"; "yaw_max"];
     ordered_fieldnames := ["uid"; "time_boot_ms"; "firmware_version"; "hardware_version";
       "roll_min"; "roll_max"; "pitch_min"; "pitch_max"; "yaw_min"; "yaw_max"; "cap_flags";
       "custom_cap_flags"; "vendor_name"; "model_name"; "custom_name"];
     fieldtypes := ["uint32_t"; "char"; "char"; "char"; "uint32_t"; "uint32_t"; "uint64_t";
       "uint16_t"; "uint16_t"; "float"; "float"; "float"; "float"; "float"; "float"];
     fielddisplays_by_name := [("cap_flags", "bitmask"); ("custom_cap_flags", "bitmask")];
     fieldenums_by_name := [("cap_flags", "GIMBAL_DEVICE_CAP_FLAGS")];
     native_format := "<QIIIffffffHHccc";
     orders := [1; 12; 13; 14; 2; 3; 0; 10; 11; 4; 5; 6; 7; 8; 9];
     lengths := [1; 1; 1; 1; 1; 1; 1; 1; 1; 1; 1; 1; 1; 1; 1];
     array_lengths := [0; 0; 0; 0; 0; 0; 0; 0; 0; 0; 0; 0; 32; 32; 32];
     crc_extra := 74;
     unpacker := "<QIIIffffffHH32s32s32s";
     init_defaults := [];
     init_body := [SetArg "time_boot_ms"; SetRaw "vendor_name"; SetStr "vendor_name";
       SetRaw "model_name"; SetStr "model_name"; SetRaw "custom_name"; SetStr "custom_name";
       SetArg "firmware_version"; SetArg "hardware_version"; SetArg "uid"; SetArg "cap_flags";
       SetArg "custom_cap_flags"; SetArg "roll_min"; SetArg "roll_max"; SetArg "pitch_min";
       SetArg "pitch_max"; SetArg "yaw_min"; SetArg "yaw_max"];
     pack_args := [PA "uid"; PA "time_boot_ms"; PA "firmware_version"; PA "hardware_version";
       PA "roll_min"; PA "roll_max"; PA "pitch_min"; PA "pitch_max"; PA "yaw_min"; PA "yaw_max";
       PA "cap_flags"; PA "custom_cap_flags"; PRaw "vendor_name"; PRaw "model_name";
       PRaw "custom_name"] |}.

Definition MAVLink_gimbal_device_set_attitude_message : msgtype :=
  {| mt_id := 284;
     msgname := "GIMBAL_DEVICE_SET_ATTITUDE";
     fieldnames := ["target_system"; "target_component"; "flags"; "q"; "angular_velocity_x";
       "angular_velocity_y"; "angular_velocity_z"];
     ordered_fieldnames := ["q"; "angular_velocity_x"; "angular_velocity_y"; "angular_velocity_z";
       "flags"; "target_system"; "target_component"];
     fieldtypes := ["uint8_t"; "uint8_t"; "uint16_t"; "float"; "float"; "float"; "float"];
     fielddisplays_by_name := [];
     fieldenums_by_name := [("flags", "GIMBAL_DEVICE_FLAGS")];
     native_format := "<ffffHBB";
     orders := [5; 6; 4; 0; 1; 2; 3];
     lengths := [4; 1; 1; 1; 1; 1; 1];
     array_lengths := [4; 0; 0; 0; 0; 0; 0];
     crc_extra := 99;
     unpacker := "<4ffffHBB";
     init_defaults := [];
     init_body := [SetArg "target_system"; SetArg "target_component"; SetArg "flags"; SetArg "q";
       SetArg "angular_velocity_x"; SetArg "angular_velocity_y"; SetArg "angular_velocity_z"];
     pack_args := [PRun "q" 4; PA "angular_velocity_x"; PA "angular_velocity_y";
       PA "angular_velocity_z"; PA "flags"; PA "target_system"; PA "target_component"] |}.

Definition MAVLink_gimbal_device_attitude_status_message : msgtype :=
  {| mt_id := 285;
     msgname := "GIMBAL_DEVICE_ATTITUDE_STATUS";
     fieldnames := ["target_system"; "target_component"; "time_boot_ms"; "flags"; "q";
       "angular_velocity_x"; "angular_velocity_y"; "angular_velocity_z"; "failure_flags";
       "delta_yaw"; "delta_yaw_velocity"];
     ordered_fieldnames := ["time_boot_ms"; "q"; "angular_velocity_x"; "angular_velocity_y";
       "angular_velocity_z"; "failure_flags"; "flags"; "target_system"; "target_component";
       "delta_yaw"; "delta_yaw_velocity"];
     fieldtypes := ["uint8_t"; "uint8_t"; "uint32_t"; "uint16_t"; "float"; "float"; "float";
       "float"; "uint32_t"; "float"; "float"];
     fielddisplays_by_name := [("failure_flags", "bitmask")];
     fieldenums_by_name := [("flags", "GIMBAL_DEVICE_FLAGS"); ("failure_flags",
       "GIMBAL_DEVICE_ERROR_FLAGS")];
     native_format := "<IffffIHBBff";
     orders := [7; 8; 0; 6; 1; 2; 3; 4; 5; 9; 10];
     lengths := [1; 4; 1; 1; 1; 1; 1; 1; 1; 1; 1];
     array_lengths := [0; 4; 0; 0; 0; 0; 0; 0; 0; 0; 0];
     crc_extra := 137;
     unpacker := "<I4ffffIHBBff";
     init_defaults := [FScalar (PInt 0); FScalar (PInt 0)];
     init_body := [SetArg "target_system"; SetArg "target_component"; SetArg "time_boot_ms";
       SetArg "flags"; SetArg "q"; SetArg "angular_velocity_x"; SetArg "angular_velocity_y";
       SetArg "angular_velocity_z"; SetArg "failure_flags"; SetArg "delta_yaw";
       SetArg "delta_yaw_velocity"];
     pack_args := [PA "time_boot_ms"; PRun "q" 4; PA "angular_velocity_x"; PA "angular_velocity_y";
       PA "angular_velocity_z"; PA "failure_flags"; PA "flags"; PA "target_system";
       PA "target_component"; PA "delta_yaw"; PA "delta_yaw_velocity"] |}.

Definition MAVLink_autopilot_state_for_gimbal_device_message : msgtype :=
  {| mt_id := 286;
     msgname := "AUTOPILOT_STATE_FOR_GIMBAL_DEVICE";
     fieldnames := ["target_system"; "target_component"; "time_boot_us"; "q";
       "q_estimated_delay_us"; "vx"; "vy"; "vz"; "v_estimated_delay_us";
       "feed_forward_angular_velocity_z"; "estimator_status"; "landed_state"; "angular_velocity_z"];
     ordered_fieldnames := ["time_boot_us"; "q"; "q_estimated_delay_us"; "vx"; "vy"; "vz";
       "v_estimated_delay_us"; "feed_forward_angular_velocity_z"; "estimator_status";
       "target_system"; "target_component"; "landed_state"; "angular_velocity_z"];
     fieldtypes := ["uint8_t"; "uint8_t"; "uint64_t"; "float"; "uint32_t"; "float"; "float";
       "float"; "uint32_t"; "float"; "uint16_t"; "uint8_t"; "float"];
     fielddisplays_by_name := [("estimator_status", "bitmask")];
     fieldenums_by_name := [("estimator_status", "ESTIMATOR_STATUS_FLAGS"); ("landed_state",
       "MAV_LANDED_STATE")];
     native_format := "<QfIfffIfHBBBf";
     orders := [9; 10; 0; 1; 2; 3; 4; 5; 6; 7; 8; 11; 12];
     lengths := [1; 4; 1; 1; 1; 1; 1; 1; 1; 1; 1; 1; 1];
     array_lengths := [0; 4; 0; 0; 0; 0; 0; 0; 0; 0; 0; 0; 0];
     crc_extra := 210;
     unpacker := "<Q4fIfffIfHBBBf";
     init_defaults := [FScalar (PInt 0)];
     init_body := [SetArg "target_system"; SetArg "target_component"; SetArg "time_boot_us";
       SetArg "q"; SetArg "q_estimated_delay_us"; SetArg "vx"; SetArg "vy"; SetArg "vz";
       SetArg "v_estimated_delay_us"; SetArg "feed_forward_angular_velocity_z";
       SetArg "estimator_status"; SetArg "landed_state"; SetArg "angular_velocity_z"];
     pack_args := [PA "time_boot_us"; PRun "q" 4; PA "q_estimated_delay_us"; PA "vx"; PA "vy";
       PA "vz"; PA "v_estimated_delay_us"; PA "feed_forward_angular_velocity_z";
       PA "estimator_status"; PA "target_system"; PA "target_component"; PA "landed_state";
       PA "angular_velocity_z"] |}.

Definition MAVLink_gimbal_manager_set_pitchyaw_message : msgtype :=
  {| mt_id := 287;
     msgname := "GIMBAL_MANAGER_SET_PITCHYAW";
     fieldnames := ["target_system"; "target_component"; "flags"; "gimbal_device_id"; "pitch";
       "yaw"; "pitch_rate"; "yaw_rate"];
     ordered_fieldnames := ["flags"; "pitch"; "yaw"; "pitch_rate"; "yaw_rate"; "target_system";
       "target_component"; "gimbal_device_id"];
     fieldtypes := ["uint8_t"; "uint8_t"; "uint32_t"; "uint8_t"; "float"; "float"; "float";
       "float"];
     fielddisplays_by_name := [];
     fieldenums_by_name := [("flags", "GIMBAL_MANAGER_FLAGS")];
     native_format := "<IffffBBB";
     orders := [5; 6; 0; 7; 1; 2; 3; 4];
     lengths := [1; 1; 1; 1; 1; 1; 1; 1];
     array_lengths := [0; 0; 0; 0; 0; 0; 0; 0];
     crc_extra := 1;
     unpacker := "<IffffBBB";
     init_defaults := [];
     init_body := [SetArg "target_system"; SetArg "target_component"; SetArg "flags";
       SetArg "gimbal_device_id"; SetArg "pitch"; SetArg "yaw"; SetArg "pitch_rate";
       SetArg "yaw_rate"];
     pack_args := [PA "flags"; PA "pitch"; PA "yaw"; PA "pitch_rate"; PA "yaw_rate";
       PA "target_system"; PA "target_component"; PA "gimbal_device_id"] |}.

Definition MAVLink_gimbal_manager_set_manual_control_message : msgtype :=
  {| mt_id := 288;
     msgname := "GIMBAL_MANAGER_SET_MANUAL_CONTROL";
     fieldnames := ["target_system"; "target_component"; "flags"; "gimbal_device_id"; "pitch";
       "yaw"; "pitch_rate"; "yaw_rate"];
     ordered_fieldnames := ["flags"; "pitch"; "yaw"; "pitch_rate"; "yaw_rate"; "target_system";
       "target_component"; "gimbal_device_id"];
     fieldtypes := ["uint8_t"; "uint8_t"; "uint32_t"; "uint8_t"; "float"; "float"; "float";
       "float"];
     fielddisplays_by_name := [];
     fieldenums_by_name := [("flags", "GIMBAL_MANAGER_FLAGS")];
     native_format := "<IffffBBB";
     orders := [5; 6; 0; 7; 1; 2; 3; 4];
     lengths := [1; 1; 1; 1; 1; 1; 1; 1];
     array_lengths := [0; 0; 0; 0; 0; 0; 0; 0];
     crc_extra := 20;
     unpacker := "<IffffBBB";
     init_defaults := [];
     init_body := [SetArg "target_system"; SetArg "target_component"; SetArg "flags";
       SetArg "gimbal_device_id"; SetArg "pitch"; SetArg "yaw"; SetArg "pitch_rate";
       SetArg "yaw_rate"];
     pack_args := [PA "flags"; PA "pitch"; PA "yaw"; PA "pitch_rate"; PA "yaw_rate";
       PA "target_system"; PA "target_component"; PA "gimbal_device_id"] |}.

Definition messages_3 : list msgtype :=
  [MAVLink_scaled_pressure3_message; MAVLink_follow_target_message;
    MAVLink_control_system_state_message; MAVLink_battery_status_message;
    MAVLink_autopilot_version_message; MAVLink_landing_target_message; MAVLink_fence_status_message;
    MAVLink_mag_cal_report_message; MAVLink_efi_status_message; MAVLink_estimator_status_message;
    MAVLink_wind_cov_message; MAVLink_gps_input_message; MAVLink_gps_rtcm_data_message;
    MAVLink_high_latency_message; MAVLink_high_latency2_message; MAVLink_vibration_message;
    MAVLink_home_position_message; MAVLink_set_home_position_message;
    MAVLink_message_interval_message; MAVLink_extended_sys_state_message;
    MAVLink_adsb_vehicle_message; MAVLink_collision_message; MAVLink_v2_extension_message;
    MAVLink_memory_vect_message; MAVLink_debug_vect_message; MAVLink_named_value_float_message;
    MAVLink_named_value_int_message; MAVLink_statustext_message; MAVLink_debug_message;
    MAVLink_setup_signing_message; MAVLink_button_change_message; MAVLink_play_tune_message;
    MAVLink_camera_information_message; MAVLink_camera_settings_message;
    MAVLink_storage_information_message; MAVLink_camera_capture_status_message;
    MAVLink_camera_image_captured_message; MAVLink_flight_information_message;
    MAVLink_mount_orientation_message; MAVLink_logging_data_message;
    MAVLink_logging_data_acked_message; MAVLink_logging_ack_message;
    MAVLink_video_stream_information_message; MAVLink_video_stream_status_message;
    MAVLink_camera_fov_status_message; MAVLink_camera_tracking_image_status_message;
    MAVLink_camera_tracking_geo_status_message; MAVLink_gimbal_manager_information_message;
    MAVLink_gimbal_manager_status_message; MAVLink_gimbal_manager_set_attitude_message;
    MAVLink_gimbal_device_information_message; MAVLink_gimbal_device_set_attitude_message;
    MAVLink_gimbal_device_attitude_status_message;
    MAVLink_autopilot_state_for_gimbal_device_message; MAVLink_gimbal_manager_set_pitchyaw_message;
    MAVLink_gimbal_manager_set_manual_control_message].

End MavCatalog3.
