(* ===== verification/MavCatalog4.v ===== *)
(** The message classes ESC_INFO to PROTOCOL_VERSION of
    wfb_ng/mavlink.py (part 4 of the catalogue), one [msgtype] per class, in
    the order of the file.  The docstrings and the unit table of a class, which
    no code of the program reads, are left out. *)
From Stdlib Require Import ZArith.
From stdpp Require Import base list strings.
From S2P Require Import Prelude.
From S2P Require Import PyStruct.
From S2P Require Import MavMessage.

Module MavCatalog4.
Import PyStruct MavMessage.
#[local] Open Scope string_scope.
#[local] Open Scope nat_scope.
#[local] Open Scope list_scope.

Definition MAVLink_esc_info_message : msgtype :=
  {| mt_id := 290;
     msgname := "ESC_INFO";
     fieldnames := ["index"; "time_usec"; "counter"; "count"; "connection_type"; "info";
       "failure_flags"; "error_count"; "temperature"];
     ordered_fieldnames := ["time_usec"; "error_count"; "counter"; "failure_flags"; "temperature";
       "index"; "count"; "connection_type"; "info"];
     fieldtypes := ["uint8_t"; "uint64_t"; "uint16_t"; "uint8_t"; "uint8_t"; "uint8_t"; "uint16_t";
       "uint32_t"; "int16_t"];
     fielddisplays_by_name := [("info", "bitmask"); ("failure_flags", "bitmask")];
     fieldenums_by_name := [("connection_type", "ESC_CONNECTION_TYPE"); ("failure_flags",
       "ESC_FAILURE_FLAGS")];
     native_format := "<QIHHhBBBB";
     orders := [5; 0; 2; 6; 7; 8; 3; 1; 4];
     lengths := [1; 4; 1; 4; 4; 1; 1; 1; 1];
     array_lengths := [0; 4; 0; 4; 4; 0; 0; 0; 0];
     crc_extra := 251;
     unpacker := "<Q4IH4H4hBBBB";
     init_defaults := [];
     init_body := [SetArg "index"; SetArg "time_usec"; SetArg "counter"; SetArg "count";
       SetArg "connection_type"; SetArg "info"; SetArg "failure_flags"; SetArg "error_count";
       SetArg "temperature"];
     pack_args := [PA "time_usec"; PRun "error_count" 4; PA "counter"; PRun "failure_flags" 4;
       PRun "temperature" 4; PA "index"; PA "count"; PA "connection_type"; PA "info"] |}.

Definition MAVLink_esc_status_message : msgtype :=
  {| mt_id := 291;
     msgname := "ESC_STATUS";
     fieldnames := ["index"; "time_usec"; "rpm"; "voltage"; "current"];
     ordered_fieldnames := ["time_usec"; "rpm"; "voltage"; "current"; "index"];
     fieldtypes := ["uint8_t"; "uint64_t"; "int32_t"; "float"; "float"];
     fielddisplays_by_name := [];
     fieldenums_by_name := [];
     native_format := "<QiffB";
     orders := [4; 0; 1; 2; 3];
     lengths := [1; 4; 4; 4; 1];
     array_lengths := [0; 4; 4; 4; 0];
     crc_extra := 10;
     unpacker := "<Q4i4f4fB";
     init_defaults := [];
     init_body := [SetArg "index"; SetArg "time_usec"; SetArg "rpm"; SetArg "voltage";
       SetArg "current"];
     pack_args := [PA "time_usec"; PRun "rpm" 4; PRun "voltage" 4; PRun "current" 4; PA "index"] |}.

Definition MAVLink_wifi_config_ap_message : msgtype :=
  {| mt_id := 299;
     msgname := "WIFI_CONFIG_AP";
     fieldnames := ["ssid"; "password"; "mode"; "response"];
     ordered_fieldnames := ["ssid"; "password"; "mode"; "response"];
     fieldtypes := ["char"; "char"; "int8_t"; "int8_t"];
     fielddisplays_by_name := [];
     fieldenums_by_name := [("mode", "WIFI_CONFIG_AP_MODE"); ("response",
       "WIFI_CONFIG_AP_RESPONSE")];
     native_format := "<ccbb";
     orders := [0; 1; 2; 3];
     lengths := [1; 1; 1; 1];
     array_lengths := [32; 64; 0; 0];
     crc_extra := 19;
     unpacker := "<32s64sbb";
     init_defaults := [FScalar (PInt 0); FScalar (PInt 0)];
     init_body := [SetRaw "ssid"; SetStr "ssid"; SetRaw "password"; SetStr "password";
       SetArg "mode"; SetArg "response"];
     pack_args := [PRaw "ssid"; PRaw "password"; PA "mode"; PA "response"] |}.

Definition MAVLink_ais_vessel_message : msgtype :=
  {| mt_id := 301;
     msgname := "AIS_VESSEL";
     fieldnames := ["MMSI"; "lat"; "lon"; "COG"; "heading"; "velocity"; "turn_rate";
       "navigational_status"; "type"; "dimension_bow"; "dimension_stern"; "dimension_port";
       "dimension_starboard"; "callsign"; "name"; "tslc"; "flags"];
     ordered_fieldnames := ["MMSI"; "lat"; "lon"; "COG"; "heading"; "velocity"; "dimension_bow";
       "dimension_stern"; "tslc"; "flags"; "turn_rate"; "navigational_status"; "type";
       "dimension_port"; "dimension_starboard"; "callsign"; "name"];
     fieldtypes := ["uint32_t"; "int32_t"; "int32_t"; "uint16_t"; "uint16_t"; "uint16_t"; "int8_t";
       "uint8_t"; "uint8_t"; "uint16_t"; "uint16_t"; "uint8_t"; "uint8_t"; "char"; "char";
       "uint16_t"; "uint16_t"];
     fielddisplays_by_name := [("flags", "bitmask")];
     fieldenums_by_name := [("navigational_status", "AIS_NAV_STATUS"); ("type", "AIS_TYPE");
       ("flags", "AIS_FLAGS")];
     native_format := "<IiiHHHHHHHbBBBBcc";
     orders := [0; 1; 2; 3; 4; 5; 10; 11; 12; 6; 7; 13; 14; 15; 16; 8; 9];
     lengths := [1; 1; 1; 1; 1; 1; 1; 1; 1; 1; 1; 1; 1; 1; 1; 1; 1];
     array_lengths := [0; 0; 0; 0; 0; 0; 0; 0; 0; 0; 0; 0; 0; 0; 0; 7; 20];
     crc_extra := 243;
     unpacker := "<IiiHHHHHHHbBBBB7s20s";
     init_defaults := [];
     init_body := [SetArg "MMSI"; SetArg "lat"; SetArg "lon"; SetArg "COG"; SetArg "heading";
       SetArg "velocity"; SetArg "turn_rate"; SetArg "navigational_status"; SetArg "type";
       SetArg "dimension_bow"; SetArg "dimension_stern"; SetArg "dimension_port";
       SetArg "dimension_starboard"; SetRaw "callsign"; SetStr "callsign"; SetRaw "name";
       SetStr "name"; SetArg "tslc"; SetArg "flags"];
     pack_args := [PA "MMSI"; PA "lat"; PA "lon"; PA "COG"; PA "heading"; PA "velocity";
       PA "dimension_bow"; PA "dimension_stern"; PA "tslc"; PA "flags"; PA "turn_rate";
       PA "navigational_status"; PA "type"; PA "dimension_port"; PA "dimension_starboard";
       PRaw "callsign"; PRaw "name"] |}.

Definition MAVLink_uavcan_node_status_message : msgtype :=
  {| mt_id := 310;
     msgname := "UAVCAN_NODE_STATUS";
     fieldnames := ["time_usec"; "uptime_sec"; "health"; "mode"; "sub_mode";
       "vendor_specific_status_code"];
     ordered_fieldnames := ["time_usec"; "uptime_sec"; "vendor_specific_status_code"; "health";
       "mode"; "sub_mode"];
     fieldtypes := ["uint64_t"; "uint32_t"; "uint8_t"; "uint8_t"; "uint8_t"; "uint16_t"];
     fielddisplays_by_name := [];
     fieldenums_by_name := [("health", "UAVCAN_NODE_HEALTH"); ("mode", "UAVCAN_NODE_MODE")];
     native_format := "<QIHBBB";
     orders := [0; 1; 3; 4; 5; 2];
     lengths := [1; 1; 1; 1; 1; 1];
     array_lengths := [0; 0; 0; 0; 0; 0];
     crc_extra := 28;
     unpacker := "<QIHBBB";
     init_defaults := [];
     init_body := [SetArg "time_usec"; SetArg "uptime_sec"; SetArg "health"; SetArg "mode";
       SetArg "sub_mode"; SetArg "vendor_specific_status_code"];
     pack_args := [PA "time_usec"; PA "uptime_sec"; PA "vendor_specific_status_code"; PA "health";
       PA "mode"; PA "sub_mode"] |}.

Definition MAVLink_uavcan_node_info_message : msgtype :=
  {| mt_id := 311;
     msgname := "UAVCAN_NODE_INFO";
     fieldnames := ["time_usec"; "uptime_sec"; "name"; "hw_version_major"; "hw_version_minor";
       "hw_unique_id"; "sw_version_major"; "sw_version_minor"; "sw_vcs_commit"];
     ordered_fieldnames := ["time_usec"; "uptime_sec"; "sw_vcs_commit"; "name"; "hw_version_major";
       "hw_version_minor"; "hw_unique_id"; "sw_version_major"; "sw_version_minor"];
     fieldtypes := ["uint64_t"; "uint32_t"; "char"; "uint8_t"; "uint8_t"; "uint8_t"; "uint8_t";
       "uint8_t"; "uint32_t"];
     fielddisplays_by_name := [];
     fieldenums_by_name := [];
     native_format := "<QIIcBBBBB";
     orders := [0; 1; 3; 4; 5; 6; 7; 8; 2];
     lengths := [1; 1; 1; 1; 1; 1; 16; 1; 1];
     array_lengths := [0; 0; 0; 80; 0; 0; 16; 0; 0];
     crc_extra := 95;
     unpacker := "<QII80sBB16BBB";
     init_defaults := [];
     init_body := [SetArg "time_usec"; SetArg "uptime_sec"; SetRaw "name"; SetStr "name";
       SetArg "hw_version_major"; SetArg "hw_version_minor"; SetArg "hw_unique_id";
       SetArg "sw_version_major"; SetArg "sw_version_minor"; SetArg "sw_vcs_commit"];
     pack_args := [PA "time_usec"; PA "uptime_sec"; PA "sw_vcs_commit"; PRaw "name";
       PA "hw_version_major"; PA "hw_version_minor"; PRun "hw_unique_id" 16; PA "sw_version_major";
       PA "sw_version_minor"] |}.

Definition MAVLink_param_ext_request_read_message : msgtype :=
  {| mt_id := 320;
     msgname := "PARAM_EXT_REQUEST_READ";
     fieldnames := ["target_system"; "target_component"; "param_id"; "param_index"];
     ordered_fieldnames := ["param_index"; "target_system"; "target_component"; "param_id"];
     fieldtypes := ["uint8_t"; "uint8_t"; "char"; "int16_t"];
     fielddisplays_by_name := [];
     fieldenums_by_name := [];
     native_format := "<hBBc";
     orders := [1; 2; 3; 0];
     lengths := [1; 1; 1; 1];
     array_lengths := [0; 0; 0; 16];
     crc_extra := 243;
     unpacker := "<hBB16s";
     init_defaults := [];
     init_body := [SetArg "target_system"; SetArg "target_component"; SetRaw "param_id";
       SetStr "param_id"; SetArg "param_index"];
     pack_args := [PA "param_index"; PA "target_system"; PA "target_component"; PRaw "param_id"] |}.

Definition MAVLink_param_ext_request_list_message : msgtype :=
  {| mt_id := 321;
     msgname := "PARAM_EXT_REQUEST_LIST";
     fieldnames := ["target_system"; "target_component"];
     ordered_fieldnames := ["target_system"; "target_component"];
     fieldtypes := ["uint8_t"; "uint8_t"];
     fielddisplays_by_name := [];
     fieldenums_by_name := [];
     native_format := "<BB";
     orders := [0; 1];
     lengths := [1; 1];
     array_lengths := [0; 0];
     crc_extra := 88;
     unpacker := "<BB";
     init_defaults := [];
     init_body := [SetArg "target_system"; SetArg "target_component"];
     pack_args := [PA "target_system"; PA "target_component"] |}.

Definition MAVLink_param_ext_value_message : msgtype :=
  {| mt_id := 322;
     msgname := "PARAM_EXT_VALUE";
     fieldnames := ["param_id"; "param_value"; "param_type"; "param_count"; "param_index"];
     ordered_fieldnames := ["param_count"; "param_index"; "param_id"; "param_value"; "param_type"];
     fieldtypes := ["char"; "char"; "uint8_t"; "uint16_t"; "uint16_t"];
     fielddisplays_by_name := [];
     fieldenums_by_name := [("param_type", "MAV_PARAM_EXT_TYPE")];
     native_format := "<HHccB";
     orders := [2; 3; 4; 0; 1];
     lengths := [1; 1; 1; 1; 1];
     array_lengths := [0; 0; 16; 128; 0];
     crc_extra := 243;
     unpacker := "<HH16s128sB";
     init_defaults := [];
     init_body := [SetRaw "param_id"; SetStr "param_id"; SetRaw "param_value"; SetStr "param_value";
       SetArg "param_type"; SetArg "param_count"; SetArg "param_index"];
     pack_args := [PA "param_count"; PA "param_index"; PRaw "param_id"; PRaw "param_value";
       PA "param_type"] |}.

Definition MAVLink_param_ext_set_message : msgtype :=
  {| mt_id := 323;
     msgname := "PARAM_EXT_SET";
     fieldnames := ["target_system"; "target_component"; "param_id"; "param_value"; "param_type"];
     ordered_fieldnames := ["target_system"; "target_component"; "param_id"; "param_value";
       "param_type"];
     fieldtypes := ["uint8_t"; "uint8_t"; "char"; "char"; "uint8_t"];
     fielddisplays_by_name := [];
     fieldenums_by_name := [("param_type", "MAV_PARAM_EXT_TYPE")];
     native_format := "<BBccB";
     orders := [0; 1; 2; 3; 4];
     lengths := [1; 1; 1; 1; 1];
     array_lengths := [0; 0; 16; 128; 0];
     crc_extra := 78;
     unpacker := "<BB16s128sB";
     init_defaults := [];
     init_body := [SetArg "target_system"; SetArg "target_component"; SetRaw "param_id";
       SetStr "param_id"; SetRaw "param_value"; SetStr "param_value"; SetArg "param_type"];
     pack_args := [PA "target_system"; PA "target_component"; PRaw "param_id"; PRaw "param_value";
       PA "param_type"] |}.

Definition MAVLink_param_ext_ack_message : msgtype :=
  {| mt_id := 324;
     msgname := "PARAM_EXT_ACK";
     fieldnames := ["param_id"; "param_value"; "param_type"; "param_result"];
     ordered_fieldnames := ["param_id"; "param_value"; "param_type"; "param_result"];
     fieldtypes := ["char"; "char"; "uint8_t"; "uint8_t"];
     fielddisplays_by_name := [];
     fieldenums_by_name := [("param_type", "MAV_PARAM_EXT_TYPE"); ("param_result", "PARAM_ACK")];
     native_format := "<ccBB";
     orders := [0; 1; 2; 3];
     lengths := [1; 1; 1; 1];
     array_lengths := [16; 128; 0; 0];
     crc_extra := 132;
     unpacker := "<16s128sBB";
     init_defaults := [];
     init_body := [SetRaw "param_id"; SetStr "param_id"; SetRaw "param_value"; SetStr "param_value";
       SetArg "param_type"; SetArg "param_result"];
     pack_args := [PRaw "param_id"; PRaw "param_value"; PA "param_type"; PA "param_result"] |}.

Definition MAVLink_obstacle_distance_message : msgtype :=
  {| mt_id := 330;
     msgname := "OBSTACLE_DISTANCE";
     fieldnames := ["time_usec"; "sensor_type"; "distances"; "increment"; "min_distance";
       "max_distance"; "increment_f"; "angle_offset"; "frame"];
     ordered_fieldnames := ["time_usec"; "distances"; "min_distance"; "max_distance"; "sensor_type";
       "increment"; "increment_f"; "angle_offset"; "frame"];
     fieldtypes := ["uint64_t"; "uint8_t"; "uint16_t"; "uint8_t"; "uint16_t"; "uint16_t"; "float";
       "float"; "uint8_t"];
     fielddisplays_by_name := [];
     fieldenums_by_name := [("sensor_type", "MAV_DISTANCE_SENSOR"); ("frame", "MAV_FRAME")];
     native_format := "<QHHHBBffB";
     orders := [0; 4; 1; 5; 2; 3; 6; 7; 8];
     lengths := [1; 72; 1; 1; 1; 1; 1; 1; 1];
     array_lengths := [0; 72; 0; 0; 0; 0; 0; 0; 0];
     crc_extra := 23;
     unpacker := "<Q72HHHBBffB";
     init_defaults := [FScalar (PInt 0); FScalar (PInt 0); FScalar (PInt 0)];
     init_body := [SetArg "time_usec"; SetArg "sensor_type"; SetArg "distances"; SetArg "increment";
       SetArg "min_distance"; SetArg "max_distance"; SetArg "increment_f"; SetArg "angle_offset";
       SetArg "frame"];
     pack_args := [PA "time_usec"; PRun "distances" 72; PA "min_distance"; PA "max_distance";
       PA "sensor_type"; PA "increment"; PA "increment_f"; PA "angle_offset"; PA "frame"] |}.

Definition MAVLink_odometry_message : msgtype :=
  {| mt_id := 331;
     msgname := "ODOMETRY";
     fieldnames := ["time_usec"; "frame_id"; "child_frame_id"; "x"; "y"; "z"; "q"; "vx"; "vy"; "vz";
       "rollspeed"; "pitchspeed"; "yawspeed"; "pose_covariance"; "velocity_covariance";
       "reset_counter"; "estimator_type"; "quality"];
     ordered_fieldnames := ["time_usec"; "x"; "y"; "z"; "q"; "vx"; "vy"; "vz"; "rollspeed";
       "pitchspeed"; "yawspeed"; "pose_covariance"; "velocity_covariance"; "frame_id";
       "child_frame_id"; "reset_counter"; "estimator_type"; "quality"];
     fieldtypes := ["uint64_t"; "uint8_t"; "uint8_t"; "float"; "float"; "float"; "float"; "float";
       "float"; "float"; "float"; "float"; "float"; "float"; "float"; "uint8_t"; "uint8_t";
       "int8_t"];
     fielddisplays_by_name := [];
     fieldenums_by_name := [("frame_id", "MAV_FRAME"); ("child_frame_id", "MAV_FRAME");
       ("estimator_type", "MAV_ESTIMATOR_TYPE")];
     native_format := "<QffffffffffffBBBBb";
     orders := [0; 13; 14; 1; 2; 3; 4; 5; 6; 7; 8; 9; 10; 11; 12; 15; 16; 17];
     lengths := [1; 1; 1; 1; 4; 1; 1; 1; 1; 1; 1; 21; 21; 1; 1; 1; 1; 1];
     array_lengths := [0; 0; 0; 0; 4; 0; 0; 0; 0; 0; 0; 21; 21; 0; 0; 0; 0; 0];
     crc_extra := 91;
     unpacker := "<Qfff4fffffff21f21fBBBBb";
     init_defaults := [FScalar (PInt 0); FScalar (PInt 0); FScalar (PInt 0)];
     init_body := [SetArg "time_usec"; SetArg "frame_id"; SetArg "child_frame_id"; SetArg "x";
       SetArg "y"; SetArg "z"; SetArg "q"; SetArg "vx"; SetArg "vy"; SetArg "vz";
       SetArg "rollspeed"; SetArg "pitchspeed"; SetArg "yawspeed"; SetArg "pose_covariance";
       SetArg "velocity_covariance"; SetArg "reset_counter"; SetArg "estimator_type";
       SetArg "quality"];
     pack_args := [PA "time_usec"; PA "x"; PA "y"; PA "z"; PRun "q" 4; PA "vx"; PA "vy"; PA "vz";
       PA "rollspeed"; PA "pitchspeed"; PA "yawspeed"; PRun "pose_covariance" 21;
       PRun "velocity_covariance" 21; PA "frame_id"; PA "child_frame_id"; PA "reset_counter";
       PA "estimator_type"; PA "quality"] |}.

Definition MAVLink_trajectory_representation_waypoints_message : msgtype :=
  {| mt_id := 332;
     msgname := "TRAJECTORY_REPRESENTATION_WAYPOINTS";
     fieldnames := ["time_usec"; "valid_points"; "pos_x"; "pos_y"; "pos_z"; "vel_x"; "vel_y";
       "vel_z"; "acc_x"; "acc_y"; "acc_z"; "pos_yaw"; "vel_yaw"; "command"];
     ordered_fieldnames := ["time_usec"; "pos_x"; "pos_y"; "pos_z"; "vel_x"; "vel_y"; "vel_z";
       "acc_x"; "acc_y"; "acc_z"; "pos_yaw"; "vel_yaw"; "command"; "valid_points"];
     fieldtypes := ["uint64_t"; "uint8_t"; "float"; "float"; "float"; "float"; "float"; "float";
       "float"; "float"; "float"; "float"; "float"; "uint16_t"];
     fielddisplays_by_name := [];
     fieldenums_by_name := [("command", "MAV_CMD")];
     native_format := "<QfffffffffffHB";
     orders := [0; 13; 1; 2; 3; 4; 5; 6; 7; 8; 9; 10; 11; 12];
     lengths := [1; 5; 5; 5; 5; 5; 5; 5; 5; 5; 5; 5; 5; 1];
     array_lengths := [0; 5; 5; 5; 5; 5; 5; 5; 5; 5; 5; 5; 5; 0];
     crc_extra := 236;
     unpacker := "<Q5f5f5f5f5f5f5f5f5f5f5f5HB";
     init_defaults := [];
     init_body := [SetArg "time_usec"; SetArg "valid_points"; SetArg "pos_x"; SetArg "pos_y";
       SetArg "pos_z"; SetArg "vel_x"; SetArg "vel_y"; SetArg "vel_z"; SetArg "acc_x";
       SetArg "acc_y"; SetArg "acc_z"; SetArg "pos_yaw"; SetArg "vel_yaw"; SetArg "command"];
     pack_args := [PA "time_usec"; PRun "pos_x" 5; PRun "pos_y" 5; PRun "pos_z" 5; PRun "vel_x" 5;
       PRun "vel_y" 5; PRun "vel_z" 5; PRun "acc_x" 5; PRun "acc_y" 5; PRun "acc_z" 5;
       PRun "pos_yaw" 5; PRun "vel_yaw" 5; PRun "command" 5; PA "valid_points"] |}.

Definition MAVLink_trajectory_representation_bezier_message : msgtype :=
  {| mt_id := 333;
     msgname := "TRAJECTORY_REPRESENTATION_BEZIER";
     fieldnames := ["time_usec"; "valid_points"; "pos_x"; "pos_y"; "pos_z"; "delta"; "pos_yaw"];
     ordered_fieldnames := ["time_usec"; "pos_x"; "pos_y"; "pos_z"; "delta"; "pos_yaw";
       "valid_points"];
     fieldtypes := ["uint64_t"; "uint8_t"; "float"; "float"; "float"; "float"; "float"];
     fielddisplays_by_name := [];
     fieldenums_by_name := [];
     native_format := "<QfffffB";
     orders := [0; 6; 1; 2; 3; 4; 5];
     lengths := [1; 5; 5; 5; 5; 5; 1];
     array_lengths := [0; 5; 5; 5; 5; 5; 0];
     crc_extra := 231;
     unpacker := "<Q5f5f5f5f5fB";
     init_defaults := [];
     init_body := [SetArg "time_usec"; SetArg "valid_points"; SetArg "pos_x"; SetArg "pos_y";
       SetArg "pos_z"; SetArg "delta"; SetArg "pos_yaw"];
     pack_args := [PA "time_usec"; PRun "pos_x" 5; PRun "pos_y" 5; PRun "pos_z" 5; PRun "delta" 5;
       PRun "pos_yaw" 5; PA "valid_points"] |}.

Definition MAVLink_cellular_status_message : msgtype :=
  {| mt_id := 334;
     msgname := "CELLULAR_STATUS";
     fieldnames := ["status"; "failure_reason"; "type"; "quality"; "mcc"; "mnc"; "lac"];
     ordered_fieldnames := ["mcc"; "mnc"; "lac"; "status"; "failure_reason"; "type"; "quality"];
     fieldtypes := ["uint8_t"; "uint8_t"; "uint8_t"; "uint8_t"; "uint16_t"; "uint16_t"; "uint16_t"];
     fielddisplays_by_name := [];
     fieldenums_by_name := [("status", "CELLULAR_STATUS_FLAG"); ("failure_reason",
       "CELLULAR_NETWORK_FAILED_REASON"); ("type", "CELLULAR_NETWORK_RADIO_TYPE")];
     native_format := "<HHHBBBB";
     orders := [3; 4; 5; 6; 0; 1; 2];
     lengths := [1; 1; 1; 1; 1; 1; 1];
     array_lengths := [0; 0; 0; 0; 0; 0; 0];
     crc_extra := 72;
     unpacker := "<HHHBBBB";
     init_defaults := [];
     init_body := [SetArg "status"; SetArg "failure_reason"; SetArg "type"; SetArg "quality";
       SetArg "mcc"; SetArg "mnc"; SetArg "lac"];
     pack_args := [PA "mcc"; PA "mnc"; PA "lac"; PA "status"; PA "failure_reason"; PA "type";
       PA "quality"] |}.

Definition MAVLink_isbd_link_status_message : msgtype :=
  {| mt_id := 335;
     msgname := "ISBD_LINK_STATUS";
     fieldnames := ["timestamp"; "last_heartbeat"; "failed_sessions"; "successful_sessions";
       "signal_quality"; "ring_pending"; "tx_session_pending"; "rx_session_pending"];
     ordered_fieldnames := ["timestamp"; "last_heartbeat"; "failed_sessions"; "successful_sessions";
       "signal_quality"; "ring_pending"; "tx_session_pending"; "rx_session_pending"];
     fieldtypes := ["uint64_t"; "uint64_t"; "uint16_t"; "uint16_t"; "uint8_t"; "uint8_t"; "uint8_t";
       "uint8_t"];
     fielddisplays_by_name := [];
     fieldenums_by_name := [];
     native_format := "<QQHHBBBB";
     orders := [0; 1; 2; 3; 4; 5; 6; 7];
     lengths := [1; 1; 1; 1; 1; 1; 1; 1];
     array_lengths := [0; 0; 0; 0; 0; 0; 0; 0];
     crc_extra := 225;
     unpacker := "<QQHHBBBB";
     init_defaults := [];
     init_body := [SetArg "timestamp"; SetArg "last_heartbeat"; SetArg "failed_sessions";
       SetArg "successful_sessions"; SetArg "signal_quality"; SetArg "ring_pending";
       SetArg "tx_session_pending"; SetArg "rx_session_pending"];
     pack_args := [PA "timestamp"; PA "last_heartbeat"; PA "failed_sessions";
       PA "successful_sessions"; PA "signal_quality"; PA "ring_pending"; PA "tx_session_pending";
       PA "rx_session_pending"] |}.

Definition MAVLink_cellular_config_message : msgtype :=
  {| mt_id := 336;
     msgname := "CELLULAR_CONFIG";
     fieldnames := ["enable_lte"; "enable_pin"; "pin"; "new_pin"; "apn"; "puk"; "roaming";
       "response"];
     ordered_fieldnames := ["enable_lte"; "enable_pin"; "pin"; "new_pin"; "apn"; "puk"; "roaming";
       "response"];
     fieldtypes := ["uint8_t"; "uint8_t"; "char"; "char"; "char"; "char"; "uint8_t"; "uint8_t"];
     fielddisplays_by_name := [];
     fieldenums_by_name := [("response", "CELLULAR_CONFIG_RESPONSE")];
     native_format := "<BBccccBB";
     orders := [0; 1; 2; 3; 4; 5; 6; 7];
     lengths := [1; 1; 1; 1; 1; 1; 1; 1];
     array_lengths := [0; 0; 16; 16; 32; 16; 0; 0];
     crc_extra := 245;
     unpacker := "<BB16s16s32s16sBB";
     init_defaults := [];
     init_body := [SetArg "enable_lte"; SetArg "enable_pin"; SetRaw "pin"; SetStr "pin";
       SetRaw "new_pin"; SetStr "new_pin"; SetRaw "apn"; SetStr "apn"; SetRaw "puk"; SetStr "puk";
       SetArg "roaming"; SetArg "response"];
     pack_args := [PA "enable_lte"; PA "enable_pin"; PRaw "pin"; PRaw "new_pin"; PRaw "apn";
       PRaw "puk"; PA "roaming"; PA "response"] |}.

Definition MAVLink_raw_rpm_message : msgtype :=
  {| mt_id := 339;
     msgname := "RAW_RPM";
     fieldnames := ["index"; "frequency"];
     ordered_fieldnames := ["frequency"; "index"];
     fieldtypes := ["uint8_t"; "float"];
     fielddisplays_by_name := [];
     fieldenums_by_name := [];
     native_format := "<fB";
     orders := [1; 0];
     lengths := [1; 1];
     array_lengths := [0; 0];
     crc_extra := 199;
     unpacker := "<fB";
     init_defaults := [];
     init_body := [SetArg "index"; SetArg "frequency"];
     pack_args := [PA "frequency"; PA "index"] |}.

Definition MAVLink_utm_global_position_message : msgtype :=
  {| mt_id := 340;
     msgname := "UTM_GLOBAL_POSITION";
     fieldnames := ["time"; "uas_id"; "lat"; "lon"; "alt"; "relative_alt"; "vx"; "vy"; "vz";
       "h_acc"; "v_acc"; "vel_acc"; "next_lat"; "next_lon"; "next_alt"; "update_rate";
       "flight_state"; "flags"];
     ordered_fieldnames := ["time"; "lat"; "lon"; "alt"; "relative_alt"; "next_lat"; "next_lon";
       "next_alt"; "vx"; "vy"; "vz"; "h_acc"; "v_acc"; "vel_acc"; "update_rate"; "uas_id";
       "flight_state"; "flags"];
     fieldtypes := ["uint64_t"; "uint8_t"; "int32_t"; "int32_t"; "int32_t"; "int32_t"; "int16_t";
       "int16_t"; "int16_t"; "uint16_t"; "uint16_t"; "uint16_t"; "int32_t"; "int32_t"; "int32_t";
       "uint16_t"; "uint8_t"; "uint8_t"];
     fielddisplays_by_name := [("flags", "bitmask")];
     fieldenums_by_name := [("flight_state", "UTM_FLIGHT_STATE"); ("flags",
       "UTM_DATA_AVAIL_FLAGS")];
     native_format := "<QiiiiiiihhhHHHHBBB";
     orders := [0; 15; 1; 2; 3; 4; 8; 9; 10; 11; 12; 13; 5; 6; 7; 14; 16; 17];
     lengths := [1; 1; 1; 1; 1; 1; 1; 1; 1; 1; 1; 1; 1; 1; 1; 18; 1; 1];
     array_lengths := [0; 0; 0; 0; 0; 0; 0; 0; 0; 0; 0; 0; 0; 0; 0; 18; 0; 0];
     crc_extra := 99;
     unpacker := "<QiiiiiiihhhHHHH18BBB";
     init_defaults := [];
     init_body := [SetArg "time"; SetArg "uas_id"; SetArg "lat"; SetArg "lon"; SetArg "alt";
       SetArg "relative_alt"; SetArg "vx"; SetArg "vy"; SetArg "vz"; SetArg "h_acc"; SetArg "v_acc";
       SetArg "vel_acc"; SetArg "next_lat"; SetArg "next_lon"; SetArg "next_alt";
       SetArg "update_rate"; SetArg "flight_state"; SetArg "flags"];
     pack_args := [PA "time"; PA "lat"; PA "lon"; PA "alt"; PA "relative_alt"; PA "next_lat";
       PA "next_lon"; PA "next_alt"; PA "vx"; PA "vy"; PA "vz"; PA "h_acc"; PA "v_acc";
       PA "vel_acc"; PA "update_rate"; PRun "uas_id" 18; PA "flight_state"; PA "flags"] |}.

Definition MAVLink_debug_float_array_message : msgtype :=
  {| mt_id := 350;
     msgname := "DEBUG_FLOAT_ARRAY";
     fieldnames := ["time_usec"; "name"; "array_id"; "data"];
     ordered_fieldnames := ["time_usec"; "array_id"; "name"; "data"];
     fieldtypes := ["uint64_t"; "char"; "uint16_t"; "float"];
     fielddisplays_by_name := [];
     fieldenums_by_name := [];
     native_format := "<QHcf";
     orders := [0; 2; 1; 3];
     lengths := [1; 1; 1; 58];
     array_lengths := [0; 0; 10; 58];
     crc_extra := 232;
     unpacker := "<QH10s58f";
     init_defaults := [FArray (replicate 58 (PInt 0))];
     init_body := [SetArg "time_usec"; SetRaw "name"; SetStr "name"; SetArg "array_id";
       SetArg "data"];
     pack_args := [PA "time_usec"; PA "array_id"; PRaw "name"; PRun "data" 58] |}.

Definition MAVLink_orbit_execution_status_message : msgtype :=
  {| mt_id := 360;
     msgname := "ORBIT_EXECUTION_STATUS";
     fieldnames := ["time_usec"; "radius"; "frame"; "x"; "y"; "z"];
     ordered_fieldnames := ["time_usec"; "radius"; "x"; "y"; "z"; "frame"];
     fieldtypes := ["uint64_t"; "float"; "uint8_t"; "int32_t"; "int32_t"; "float"];
     fielddisplays_by_name := [];
     fieldenums_by_name := [("frame", "MAV_FRAME")];
     native_format := "<QfiifB";
     orders := [0; 1; 5; 2; 3; 4];
     lengths := [1; 1; 1; 1; 1; 1];
     array_lengths := [0; 0; 0; 0; 0; 0];
     crc_extra := 11;
     unpacker := "<QfiifB";
     init_defaults := [];
     init_body := [SetArg "time_usec"; SetArg "radius"; SetArg "frame"; SetArg "x"; SetArg "y";
       SetArg "z"];
     pack_args := [PA "time_usec"; PA "radius"; PA "x"; PA "y"; PA "z"; PA "frame"] |}.

Definition MAVLink_smart_battery_info_message : msgtype :=
  {| mt_id := 370;
     msgname := "SMART_BATTERY_INFO";
     fieldnames := ["id"; "battery_function"; "type"; "capacity_full_specification";
       "capacity_full"; "cycle_count"; "serial_number"; "device_name"; "weight";
       "discharge_minimum_voltage"; "charging_minimum_voltage"; "resting_minimum_voltage";
       "charging_maximum_voltage"; "cells_in_series"; "discharge_maximum_current";
       "discharge_maximum_burst_current"; "manufacture_date"];
     ordered_fieldnames := ["capacity_full_specification"; "capacity_full"; "cycle_count"; "weight";
       "discharge_minimum_voltage"; "charging_minimum_voltage"; "resting_minimum_voltage"; "id";
       "battery_function"; "type"; "serial_number"; "device_name"; "charging_maximum_voltage";
       "cells_in_series"; "discharge_maximum_current"; "discharge_maximum_burst_current";
       "manufacture_date"];
     fieldtypes := ["uint8_t"; "uint8_t"; "uint8_t"; "int32_t"; "int32_t"; "uint16_t"; "char";
       "char"; "uint16_t"; "uint16_t"; "uint16_t"; "uint16_t"; "uint16_t"; "uint8_t"; "uint32_t";
       "uint32_t"; "char"];
     fielddisplays_by_name := [];
     fieldenums_by_name := [("battery_function", "MAV_BATTERY_FUNCTION"); ("type",
       "MAV_BATTERY_TYPE")];
     native_format := "<iiHHHHHBBBccHBIIc";
     orders := [7; 8; 9; 0; 1; 2; 10; 11; 3; 4; 5; 6; 12; 13; 14; 15; 16];
     lengths := [1; 1; 1; 1; 1; 1; 1; 1; 1; 1; 1; 1; 1; 1; 1; 1; 1];
     array_lengths := [0; 0; 0; 0; 0; 0; 0; 0; 0; 0; 16; 50; 0; 0; 0; 0; 11];
     crc_extra := 75;
     unpacker := "<iiHHHHHBBB16s50sHBII11s";
     init_defaults := [FScalar (PInt 0); FScalar (PInt 0); FScalar (PInt 0); FScalar (PInt 0);
       FScalar (PBytes [])];
     init_body := [SetArg "id"; SetArg "battery_function"; SetArg "type";
       SetArg "capacity_full_specification"; SetArg "capacity_full"; SetArg "cycle_count";
       SetRaw "serial_number"; SetStr "serial_number"; SetRaw "device_name"; SetStr "device_name";
       SetArg "weight"; SetArg "discharge_minimum_voltage"; SetArg "charging_minimum_voltage";
       SetArg "resting_minimum_voltage"; SetArg "charging_maximum_voltage";
       SetArg "cells_in_series"; SetArg "discharge_maximum_current";
       SetArg "discharge_maximum_burst_current"; SetRaw "manufacture_date";
       SetStr "manufacture_date"];
     pack_args := [PA "capacity_full_specification"; PA "capacity_full"; PA "cycle_count";
       PA "weight"; PA "discharge_minimum_voltage"; PA "charging_minimum_voltage";
       PA "resting_minimum_voltage"; PA "id"; PA "battery_function"; PA "type";
       PRaw "serial_number"; PRaw "device_name"; PA "charging_maximum_voltage";
       PA "cells_in_series"; PA "discharge_maximum_current"; PA "discharge_maximum_burst_current";
       PRaw "manufacture_date"] |}.

Definition MAVLink_generator_status_message : msgtype :=
  {| mt_id := 373;
     msgname := "GENERATOR_STATUS";
     fieldnames := ["status"; "generator_speed"; "battery_current"; "load_current";
       "power_generated"; "bus_voltage"; "rectifier_temperature"; "bat_current_setpoint";
       "generator_temperature"; "runtime"; "time_until_maintenance"];
     ordered_fieldnames := ["status"; "battery_current"; "load_current"; "power_generated";
       "bus_voltage"; "bat_current_setpoint"; "runtime"; "time_until_maintenance";
       "generator_speed"; "rectifier_temperature"; "generator_temperature"];
     fieldtypes := ["uint64_t"; "uint16_t"; "float"; "float"; "float"; "float"; "int16_t"; "float";
       "int16_t"; "uint32_t"; "int32_t"];
     fielddisplays_by_name := [("status", "bitmask")];
     fieldenums_by_name := [("status", "MAV_GENERATOR_STATUS_FLAG")];
     native_format := "<QfffffIiHhh";
     orders := [0; 8; 1; 2; 3; 4; 9; 5; 10; 6; 7];
     lengths := [1; 1; 1; 1; 1; 1; 1; 1; 1; 1; 1];
     array_lengths := [0; 0; 0; 0; 0; 0; 0; 0; 0; 0; 0];
     crc_extra := 117;
     unpacker := "<QfffffIiHhh";
     init_defaults := [];
     init_body := [SetArg "status"; SetArg "generator_speed"; SetArg "battery_current";
       SetArg "load_current"; SetArg "power_generated"; SetArg "bus_voltage";
       SetArg "rectifier_temperature"; SetArg "bat_current_setpoint";
       SetArg "generator_temperature"; SetArg "runtime"; SetArg "time_until_maintenance"];
     pack_args := [PA "status"; PA "battery_current"; PA "load_current"; PA "power_generated";
       PA "bus_voltage"; PA "bat_current_setpoint"; PA "runtime"; PA "time_until_maintenance";
       PA "generator_speed"; PA "rectifier_temperature"; PA "generator_temperature"] |}.

Definition MAVLink_actuator_output_status_message : msgtype :=
  {| mt_id := 375;
     msgname := "ACTUATOR_OUTPUT_STATUS";
     fieldnames := ["time_usec"; "active"; "actuator"];
     ordered_fieldnames := ["time_usec"; "active"; "actuator"];
     fieldtypes := ["uint64_t"; "uint32_t"; "float"];
     fielddisplays_by_name := [("active", "bitmask")];
     fieldenums_by_name := [];
     native_format := "<QIf";
     orders := [0; 1; 2];
     lengths := [1; 1; 32];
     array_lengths := [0; 0; 32];
     crc_extra := 251;
     unpacker := "<QI32f";
     init_defaults := [];
     init_body := [SetArg "time_usec"; SetArg "active"; SetArg "actuator"];
     pack_args := [PA "time_usec"; PA "active"; PRun "actuator" 32] |}.

Definition MAVLink_time_estimate_to_target_message : msgtype :=
  {| mt_id := 380;
     msgname := "TIME_ESTIMATE_TO_TARGET";
     fieldnames := ["safe_return"; "land"; "mission_next_item"; "mission_end"; "commanded_action"];
     ordered_fieldnames := ["safe_return"; "land"; "mission_next_item"; "mission_end";
       "commanded_action"];
     fieldtypes := ["int32_t"; "int32_t"; "int32_t"; "int32_t"; "int32_t"];
     fielddisplays_by_name := [];
     fieldenums_by_name := [];
     native_format := "<iiiii";
     orders := [0; 1; 2; 3; 4];
     lengths := [1; 1; 1; 1; 1];
     array_lengths := [0; 0; 0; 0; 0];
     crc_extra := 232;
     unpacker := "<iiiii";
     init_defaults := [];
     init_body := [SetArg "safe_return"; SetArg "land"; SetArg "mission_next_item";
       SetArg "mission_end"; SetArg "commanded_action"];
     pack_args := [PA "safe_return"; PA "land"; PA "mission_next_item"; PA "mission_end";
       PA "commanded_action"] |}.

Definition MAVLink_tunnel_message : msgtype :=
  {| mt_id := 385;
     msgname := "TUNNEL";
     fieldnames := ["target_system"; "target_component"; "payload_type"; "payload_length";
       "payload"];
     ordered_fieldnames := ["payload_type"; "target_system"; "target_component"; "payload_length";
       "payload"];
     fieldtypes := ["uint8_t"; "uint8_t"; "uint16_t"; "uint8_t"; "uint8_t"];
     fielddisplays_by_name := [];
     fieldenums_by_name := [("payload_type", "MAV_TUNNEL_PAYLOAD_TYPE")];
     native_format := "<HBBBB";
     orders := [1; 2; 0; 3; 4];
     lengths := [1; 1; 1; 1; 128];
     array_lengths := [0; 0; 0; 0; 128];
     crc_extra := 147;
     unpacker := "<HBBB128B";
     init_defaults := [];
     init_body := [SetArg "target_system"; SetArg "target_component"; SetArg "payload_type";
       SetArg "payload_length"; SetArg "payload"];
     pack_args := [PA "payload_type"; PA "target_system"; PA "target_component";
       PA "payload_length"; PRun "payload" 128] |}.

Definition MAVLink_can_frame_message : msgtype :=
  {| mt_id := 386;
     msgname := "CAN_FRAME";
     fieldnames := ["target_system"; "target_component"; "bus"; "len"; "id"; "data"];
     ordered_fieldnames := ["id"; "target_system"; "target_component"; "bus"; "len"; "data"];
     fieldtypes := ["uint8_t"; "uint8_t"; "uint8_t"; "uint8_t"; "uint32_t"; "uint8_t"];
     fielddisplays_by_name := [];
     fieldenums_by_name := [];
     native_format := "<IBBBBB";
     orders := [1; 2; 3; 4; 0; 5];
     lengths := [1; 1; 1; 1; 1; 8];
     array_lengths := [0; 0; 0; 0; 0; 8];
     crc_extra := 132;
     unpacker := "<IBBBB8B";
     init_defaults := [];
     init_body := [SetArg "target_system"; SetArg "target_component"; SetArg "bus"; SetArg "len";
       SetArg "id"; SetArg "data"];
     pack_args := [PA "id"; PA "target_system"; PA "target_component"; PA "bus"; PA "len";
       PRun "data" 8] |}.

Definition MAVLink_onboard_computer_status_message : msgtype :=
  {| mt_id := 390;
     msgname := "ONBOARD_COMPUTER_STATUS";
     fieldnames := ["time_usec"; "uptime"; "type"; "cpu_cores"; "cpu_combined"; "gpu_cores";
       "gpu_combined"; "temperature_board"; "temperature_core"; "fan_speed"; "ram_usage";
       "ram_total"; "storage_type"; "storage_usage"; "storage_total"; "link_type"; "link_tx_rate";
       "link_rx_rate"; "link_tx_max"; "link_rx_max"];
     ordered_fieldnames := ["time_usec"; "uptime"; "ram_usage"; "ram_total"; "storage_type";
       "storage_usage"; "storage_total"; "link_type"; "link_tx_rate"; "link_rx_rate"; "link_tx_max";
       "link_rx_max"; "fan_speed"; "type"; "cpu_cores"; "cpu_combined"; "gpu_cores"; "gpu_combined";
       "temperature_board"; "temperature_core"];
     fieldtypes := ["uint64_t"; "uint32_t"; "uint8_t"; "uint8_t"; "uint8_t"; "uint8_t"; "uint8_t";
       "int8_t"; "int8_t"; "int16_t"; "uint32_t"; "uint32_t"; "uint32_t"; "uint32_t"; "uint32_t";
       "uint32_t"; "uint32_t"; "uint32_t"; "uint32_t"; "uint32_t"];
     fielddisplays_by_name := [];
     fieldenums_by_name := [];
     native_format := "<QIIIIIIIIIIIhBBBBBbb";
     orders := [0; 1; 13; 14; 15; 16; 17; 18; 19; 12; 2; 3; 4; 5; 6; 7; 8; 9; 10; 11];
     lengths := [1; 1; 1; 1; 4; 4; 4; 6; 6; 6; 6; 6; 4; 1; 8; 10; 4; 10; 1; 8];
     array_lengths := [0; 0; 0; 0; 4; 4; 4; 6; 6; 6; 6; 6; 4; 0; 8; 10; 4; 10; 0; 8];
     crc_extra := 156;
     unpacker := "<QIII4I4I4I6I6I6I6I6I4hB8B10B4B10Bb8b";
     init_defaults := [];
     init_body := [SetArg "time_usec"; SetArg "uptime"; SetArg "type"; SetArg "cpu_cores";
       SetArg "cpu_combined"; SetArg "gpu_cores"; SetArg "gpu_combined"; SetArg "temperature_board";
       SetArg "temperature_core"; SetArg "fan_speed"; SetArg "ram_usage"; SetArg "ram_total";
       SetArg "storage_type"; SetArg "storage_usage"; SetArg "storage_total"; SetArg "link_type";
       SetArg "link_tx_rate"; SetArg "link_rx_rate"; SetArg "link_tx_max"; SetArg "link_rx_max"];
     pack_args := [PA "time_usec"; PA "uptime"; PA "ram_usage"; PA "ram_total";
       PRun "storage_type" 4; PRun "storage_usage" 4; PRun "storage_total" 4; PRun "link_type" 6;
       PRun "link_tx_rate" 6; PRun "link_rx_rate" 6; PRun "link_tx_max" 6; PRun "link_rx_max" 6;
       PRun "fan_speed" 4; PA "type"; PRun "cpu_cores" 8; PRun "cpu_combined" 10;
       PRun "gpu_cores" 4; PRun "gpu_combined" 10; PA "temperature_board";
       PRun "temperature_core" 8] |}.

Definition MAVLink_component_information_message : msgtype :=
  {| mt_id := 395;
     msgname := "COMPONENT_INFORMATION";
     fieldnames := ["time_boot_ms"; "general_metadata_file_crc"; "general_metadata_uri";
       "peripherals_metadata_file_crc"; "peripherals_metadata_uri"];
     ordered_fieldnames := ["time_boot_ms"; "general_metadata_file_crc";
       "peripherals_metadata_file_crc"; "general_metadata_uri"; "peripherals_metadata_uri"];
     fieldtypes := ["uint32_t"; "uint32_t"; "char"; "uint32_t"; "char"];
     fielddisplays_by_name := [];
     fieldenums_by_name := [];
     native_format := "<IIIcc";
     orders := [0; 1; 3; 2; 4];
     lengths := [1; 1; 1; 1; 1];
     array_lengths := [0; 0; 0; 100; 100];
     crc_extra := 0;
     unpacker := "<III100s100s";
     init_defaults := [];
     init_body := [SetArg "time_boot_ms"; SetArg "general_metadata_file_crc";
       SetRaw "general_metadata_uri"; SetStr "general_metadata_uri";
       SetArg "peripherals_metadata_file_crc"; SetRaw "peripherals_metadata_uri";
       SetStr "peripherals_metadata_uri"];
     pack_args := [PA "time_boot_ms"; PA "general_metadata_file_crc";
       PA "peripherals_metadata_file_crc"; PRaw "general_metadata_uri";
       PRaw "peripherals_metadata_uri"] |}.

Definition MAVLink_component_metadata_message : msgtype :=
  {| mt_id := 397;
     msgname := "COMPONENT_METADATA";
     fieldnames := ["time_boot_ms"; "file_crc"; "uri"];
     ordered_fieldnames := ["time_boot_ms"; "file_crc"; "uri"];
     fieldtypes := ["uint32_t"; "uint32_t"; "char"];
     fielddisplays_by_name := [];
     fieldenums_by_name := [];
     native_format := "<IIc";
     orders := [0; 1; 2];
     lengths := [1; 1; 1];
     array_lengths := [0; 0; 100];
     crc_extra := 182;
     unpacker := "<II100s";
     init_defaults := [];
     init_body := [SetArg "time_boot_ms"; SetArg "file_crc"; SetRaw "uri"; SetStr "uri"];
     pack_args := [PA "time_boot_ms"; PA "file_crc"; PRaw "uri"] |}.

Definition MAVLink_play_tune_v2_message : msgtype :=
  {| mt_id := 400;
     msgname := "PLAY_TUNE_V2";
     fieldnames := ["target_system"; "target_component"; "format"; "tune"];
     ordered_fieldnames := ["format"; "target_system"; "target_component"; "tune"];
     fieldtypes := ["uint8_t"; "uint8_t"; "uint32_t"; "char"];
     fielddisplays_by_name := [("format", "bitmask")];
     fieldenums_by_name := [("format", "TUNE_FORMAT")];
     native_format := "<IBBc";
     orders := [1; 2; 0; 3];
     lengths := [1; 1; 1; 1];
     array_lengths := [0; 0; 0; 248];
     crc_extra := 110;
     unpacker := "<IBB248s";
     init_defaults := [];
     init_body := [SetArg "target_system"; SetArg "target_component"; SetArg "format";
       SetRaw "tune"; SetStr "tune"];
     pack_args := [PA "format"; PA "target_system"; PA "target_component"; PRaw "tune"] |}.

Definition MAVLink_supported_tunes_message : msgtype :=
  {| mt_id := 401;
     msgname := "SUPPORTED_TUNES";
     fieldnames := ["target_system"; "target_component"; "format"];
     ordered_fieldnames := ["format"; "target_system"; "target_component"];
     fieldtypes := ["uint8_t"; "uint8_t"; "uint32_t"];
     fielddisplays_by_name := [("format", "bitmask")];
     fieldenums_by_name := [("format", "TUNE_FORMAT")];
     native_format := "<IBB";
     orders := [1; 2; 0];
     lengths := [1; 1; 1];
     array_lengths := [0; 0; 0];
     crc_extra := 183;
     unpacker := "<IBB";
     init_defaults := [];
     init_body := [SetArg "target_system"; SetArg "target_component"; SetArg "format"];
     pack_args := [PA "format"; PA "target_system"; PA "target_component"] |}.

Definition MAVLink_event_message : msgtype :=
  {| mt_id := 410;
     msgname := "EVENT";
     fieldnames := ["destination_component"; "destination_system"; "id"; "event_time_boot_ms";
       "sequence"; "log_levels"; "arguments"];
     ordered_fieldnames := ["id"; "event_time_boot_ms"; "sequence"; "destination_component";
       "destination_system"; "log_levels"; "arguments"];
     fieldtypes := ["uint8_t"; "uint8_t"; "uint32_t"; "uint32_t"; "uint16_t"; "uint8_t"; "uint8_t"];
     fielddisplays_by_name := [];
     fieldenums_by_name := [];
     native_format := "<IIHBBBB";
     orders := [3; 4; 0; 1; 2; 5; 6];
     lengths := [1; 1; 1; 1; 1; 1; 40];
     array_lengths := [0; 0; 0; 0; 0; 0; 40];
     crc_extra := 160;
     unpacker := "<IIHBBB40B";
     init_defaults := [];
     init_body := [SetArg "destination_component"; SetArg "destination_system"; SetArg "id";
       SetArg "event_time_boot_ms"; SetArg "sequence"; SetArg "log_levels"; SetArg "arguments"];
     pack_args := [PA "id"; PA "event_time_boot_ms"; PA "sequence"; PA "destination_component";
       PA "destination_system"; PA "log_levels"; PRun "arguments" 40] |}.

Definition MAVLink_current_event_sequence_message : msgtype :=
  {| mt_id := 411;
     msgname := "CURRENT_EVENT_SEQUENCE";
     fieldnames := ["sequence"; "flags"];
     ordered_fieldnames := ["sequence"; "flags"];
     fieldtypes := ["uint16_t"; "uint8_t"];
     fielddisplays_by_name := [("flags", "bitmask")];
     fieldenums_by_name := [("flags", "MAV_EVENT_CURRENT_SEQUENCE_FLAGS")];
     native_format := "<HB";
     orders := [0; 1];
     lengths := [1; 1];
     array_lengths := [0; 0];
     crc_extra := 106;
     unpacker := "<HB";
     init_defaults := [];
     init_body := [SetArg "sequence"; SetArg "flags"];
     pack_args := [PA "sequence"; PA "flags"] |}.

Definition MAVLink_request_event_message : msgtype :=
  {| mt_id := 412;
     msgname := "REQUEST_EVENT";
     fieldnames := ["target_system"; "target_component"; "first_sequence"; "last_sequence"];
     ordered_fieldnames := ["first_sequence"; "last_sequence"; "target_system"; "target_component"];
     fieldtypes := ["uint8_t"; "uint8_t"; "uint16_t"; "uint16_t"];
     fielddisplays_by_name := [];
     fieldenums_by_name := [];
     native_format := "<HHBB";
     orders := [2; 3; 0; 1];
     lengths := [1; 1; 1; 1];
     array_lengths := [0; 0; 0; 0];
     crc_extra := 33;
     unpacker := "<HHBB";
     init_defaults := [];
     init_body := [SetArg "target_system"; SetArg "target_component"; SetArg "first_sequence";
       SetArg "last_sequence"];
     pack_args := [PA "first_sequence"; PA "last_sequence"; PA "target_system";
       PA "target_component"] |}.

Definition MAVLink_response_event_error_message : msgtype :=
  {| mt_id := 413;
     msgname := "RESPONSE_EVENT_ERROR";
     fieldnames := ["target_system"; "target_component"; "sequence"; "sequence_oldest_available";
       "reason"];
     ordered_fieldnames := ["sequence"; "sequence_oldest_available"; "target_system";
       "target_component"; "reason"];
     fieldtypes := ["uint8_t"; "uint8_t"; "uint16_t"; "uint16_t"; "uint8_t"];
     fielddisplays_by_name := [];
     fieldenums_by_name := [("reason", "MAV_EVENT_ERROR_REASON")];
     native_format := "<HHBBB";
     orders := [2; 3; 0; 1; 4];
     lengths := [1; 1; 1; 1; 1];
     array_lengths := [0; 0; 0; 0; 0];
     crc_extra := 77;
     unpacker := "<HHBBB";
     init_defaults := [];
     init_body := [SetArg "target_system"; SetArg "target_component"; SetArg "sequence";
       SetArg "sequence_oldest_available"; SetArg "reason"];
     pack_args := [PA "sequence"; PA "sequence_oldest_available"; PA "target_system";
       PA "target_component"; PA "reason"] |}.

Definition MAVLink_canfd_frame_message : msgtype :=
  {| mt_id := 387;
     msgname := "CANFD_FRAME";
     fieldnames := ["target_system"; "target_component"; "bus"; "len"; "id"; "data"];
     ordered_fieldnames := ["id"; "target_system"; "target_component"; "bus"; "len"; "data"];
     fieldtypes := ["uint8_t"; "uint8_t"; "uint8_t"; "uint8_t"; "uint32_t"; "uint8_t"];
     fielddisplays_by_name := [];
     fieldenums_by_name := [];
     native_format := "<IBBBBB";
     orders := [1; 2; 3; 4; 0; 5];
     lengths := [1; 1; 1; 1; 1; 64];
     array_lengths := [0; 0; 0; 0; 0; 64];
     crc_extra := 4;
     unpacker := "<IBBBB64B";
     init_defaults := [];
     init_body := [SetArg "target_system"; SetArg "target_component"; SetArg "bus"; SetArg "len";
       SetArg "id"; SetArg "data"];
     pack_args := [PA "id"; PA "target_system"; PA "target_component"; PA "bus"; PA "len";
       PRun "data" 64] |}.

Definition MAVLink_can_filter_modify_message : msgtype :=
  {| mt_id := 388;
     msgname := "CAN_FILTER_MODIFY";
     fieldnames := ["target_system"; "target_component"; "bus"; "operation"; "num_ids"; "ids"];
     ordered_fieldnames := ["ids"; "target_system"; "target_component"; "bus"; "operation";
       "num_ids"];
     fieldtypes := ["uint8_t"; "uint8_t"; "uint8_t"; "uint8_t"; "uint8_t"; "uint16_t"];
     fielddisplays_by_name := [];
     fieldenums_by_name := [("operation", "CAN_FILTER_OP")];
     native_format := "<HBBBBB";
     orders := [1; 2; 3; 4; 5; 0];
     lengths := [16; 1; 1; 1; 1; 1];
     array_lengths := [16; 0; 0; 0; 0; 0];
     crc_extra := 8;
     unpacker := "<16HBBBBB";
     init_defaults := [];
     init_body := [SetArg "target_system"; SetArg "target_component"; SetArg "bus";
       SetArg "operation"; SetArg "num_ids"; SetArg "ids"];
     pack_args := [PRun "ids" 16; PA "target_system"; PA "target_component"; PA "bus";
       PA "operation"; PA "num_ids"] |}.

Definition MAVLink_wheel_distance_message : msgtype :=
  {| mt_id := 9000;
     msgname := "WHEEL_DISTANCE";
     fieldnames := ["time_usec"; "count"; "distance"];
     ordered_fieldnames := ["time_usec"; "distance"; "count"];
     fieldtypes := ["uint64_t"; "uint8_t"; "double"];
     fielddisplays_by_name := [];
     fieldenums_by_name := [];
     native_format := "<QdB";
     orders := [0; 2; 1];
     lengths := [1; 16; 1];
     array_lengths := [0; 16; 0];
     crc_extra := 113;
     unpacker := "<Q16dB";
     init_defaults := [];
     init_body := [SetArg "time_usec"; SetArg "count"; SetArg "distance"];
     pack_args := [PA "time_usec"; PRun "distance" 16; PA "count"] |}.

Definition MAVLink_winch_status_message : msgtype :=
  {| mt_id := 9005;
     msgname := "WINCH_STATUS";
     fieldnames := ["time_usec"; "line_length"; "speed"; "tension"; "voltage"; "current";
       "temperature"; "status"];
     ordered_fieldnames := ["time_usec"; "line_length"; "speed"; "tension"; "voltage"; "current";
       "status"; "temperature"];
     fieldtypes := ["uint64_t"; "float"; "float"; "float"; "float"; "float"; "int16_t"; "uint32_t"];
     fielddisplays_by_name := [("status", "bitmask")];
     fieldenums_by_name := [("status", "MAV_WINCH_STATUS_FLAG")];
     native_format := "<QfffffIh";
     orders := [0; 1; 2; 3; 4; 5; 7; 6];
     lengths := [1; 1; 1; 1; 1; 1; 1; 1];
     array_lengths := [0; 0; 0; 0; 0; 0; 0; 0];
     crc_extra := 117;
     unpacker := "<QfffffIh";
     init_defaults := [];
     init_body := [SetArg "time_usec"; SetArg "line_length"; SetArg "speed"; SetArg "tension";
       SetArg "voltage"; SetArg "current"; SetArg "temperature"; SetArg "status"];
     pack_args := [PA "time_usec"; PA "line_length"; PA "speed"; PA "tension"; PA "voltage";
       PA "current"; PA "status"; PA "temperature"] |}.

Definition MAVLink_open_drone_id_basic_id_message : msgtype :=
  {| mt_id := 12900;
     msgname := "OPEN_DRONE_ID_BASIC_ID";
     fieldnames := ["target_system"; "target_component"; "id_or_mac"; "id_type"; "ua_type";
       "uas_id"];
     ordered_fieldnames := ["target_system"; "target_component"; "id_or_mac"; "id_type"; "ua_type";
       "uas_id"];
     fieldtypes := ["uint8_t"; "uint8_t"; "uint8_t"; "uint8_t"; "uint8_t"; "uint8_t"];
     fielddisplays_by_name := [];
     fieldenums_by_name := [("id_type", "MAV_ODID_ID_TYPE"); ("ua_type", "MAV_ODID_UA_TYPE")];
     native_format := "<BBBBBB";
     orders := [0; 1; 2; 3; 4; 5];
     lengths := [1; 1; 20; 1; 1; 20];
     array_lengths := [0; 0; 20; 0; 0; 20];
     crc_extra := 114;
     unpacker := "<BB20BBB20B";
     init_defaults := [];
     init_body := [SetArg "target_system"; SetArg "target_component"; SetArg "id_or_mac";
       SetArg "id_type"; SetArg "ua_type"; SetArg "uas_id"];
     pack_args := [PA "target_system"; PA "target_component"; PRun "id_or_mac" 20; PA "id_type";
       PA "ua_type"; PRun "uas_id" 20] |}.

Definition MAVLink_open_drone_id_location_message : msgtype :=
  {| mt_id := 12901;
     msgname := "OPEN_DRONE_ID_LOCATION";
     fieldnames := ["target_system"; "target_component"; "id_or_mac"; "status"; "direction";
       "speed_horizontal"; "speed_vertical"; "latitude"; "longitude"; "altitude_barometric";
       "altitude_geodetic"; "height_reference"; "height"; "horizontal_accuracy";
       "vertical_accuracy"; "barometer_accuracy"; "speed_accuracy"; "timestamp";
       "timestamp_accuracy"];
     ordered_fieldnames := ["latitude"; "longitude"; "altitude_barometric"; "altitude_geodetic";
       "height"; "timestamp"; "direction"; "speed_horizontal"; "speed_vertical"; "target_system";
       "target_component"; "id_or_mac"; "status"; "height_reference"; "horizontal_accuracy";
       "vertical_accuracy"; "barometer_accuracy"; "speed_accuracy"; "timestamp_accuracy"];
     fieldtypes := ["uint8_t"; "uint8_t"; "uint8_t"; "uint8_t"; "uint16_t"; "uint16_t"; "int16_t";
       "int32_t"; "int32_t"; "float"; "float"; "uint8_t"; "float"; "uint8_t"; "uint8_t"; "uint8_t";
       "uint8_t"; "float"; "uint8_t"];
     fielddisplays_by_name := [];
     fieldenums_by_name := [("status", "MAV_ODID_STATUS"); ("height_reference",
       "MAV_ODID_HEIGHT_REF"); ("horizontal_accuracy", "MAV_ODID_HOR_ACC"); ("vertical_accuracy",
       "MAV_ODID_VER_ACC"); ("barometer_accuracy", "MAV_ODID_VER_ACC"); ("speed_accuracy",
       "MAV_ODID_SPEED_ACC"); ("timestamp_accuracy", "MAV_ODID_TIME_ACC")];
     native_format := "<iiffffHHhBBBBBBBBBB";
     orders := [9; 10; 11; 12; 6; 7; 8; 0; 1; 2; 3; 13; 4; 14; 15; 16; 17; 5; 18];
     lengths := [1; 1; 1; 1; 1; 1; 1; 1; 1; 1; 1; 20; 1; 1; 1; 1; 1; 1; 1];
     array_lengths := [0; 0; 0; 0; 0; 0; 0; 0; 0; 0; 0; 20; 0; 0; 0; 0; 0; 0; 0];
     crc_extra := 254;
     unpacker := "<iiffffHHhBB20BBBBBBBB";
     init_defaults := [];
     init_body := [SetArg "target_system"; SetArg "target_component"; SetArg "id_or_mac";
       SetArg "status"; SetArg "direction"; SetArg "speed_horizontal"; SetArg "speed_vertical";
       SetArg "latitude"; SetArg "longitude"; SetArg "altitude_barometric";
       SetArg "altitude_geodetic"; SetArg "height_reference"; SetArg "height";
       SetArg "horizontal_accuracy"; SetArg "vertical_accuracy"; SetArg "barometer_accuracy";
       SetArg "speed_accuracy"; SetArg "timestamp"; SetArg "timestamp_accuracy"];
     pack_args := [PA "latitude"; PA "longitude"; PA "altitude_barometric"; PA "altitude_geodetic";
       PA "height"; PA "timestamp"; PA "direction"; PA "speed_horizontal"; PA "speed_vertical";
       PA "target_system"; PA "target_component"; PRun "id_or_mac" 20; PA "status";
       PA "height_reference"; PA "horizontal_accuracy"; PA "vertical_accuracy";
       PA "barometer_accuracy"; PA "speed_accuracy"; PA "timestamp_accuracy"] |}.

Definition MAVLink_open_drone_id_authentication_message : msgtype :=
  {| mt_id := 12902;
     msgname := "OPEN_DRONE_ID_AUTHENTICATION";
     fieldnames := ["target_system"; "target_component"; "id_or_mac"; "authentication_type";
       "data_page"; "last_page_index"; "length"; "timestamp"; "authentication_data"];
     ordered_fieldnames := ["timestamp"; "target_system"; "target_component"; "id_or_mac";
       "authentication_type"; "data_page"; "last_page_index"; "length"; "authentication_data"];
     fieldtypes := ["uint8_t"; "uint8_t"; "uint8_t"; "uint8_t"; "uint8_t"; "uint8_t"; "uint8_t";
       "uint32_t"; "uint8_t"];
     fielddisplays_by_name := [];
     fieldenums_by_name := [("authentication_type", "MAV_ODID_AUTH_TYPE")];
     native_format := "<IBBBBBBBB";
     orders := [1; 2; 3; 4; 5; 6; 7; 0; 8];
     lengths := [1; 1; 1; 20; 1; 1; 1; 1; 23];
     array_lengths := [0; 0; 0; 20; 0; 0; 0; 0; 23];
     crc_extra := 140;
     unpacker := "<IBB20BBBBB23B";
     init_defaults := [];
     init_body := [SetArg "target_system"; SetArg "target_component"; SetArg "id_or_mac";
       SetArg "authentication_type"; SetArg "data_page"; SetArg "last_page_index"; SetArg "length";
       SetArg "timestamp"; SetArg "authentication_data"];
     pack_args := [PA "timestamp"; PA "target_system"; PA "target_component"; PRun "id_or_mac" 20;
       PA "authentication_type"; PA "data_page"; PA "last_page_index"; PA "length";
       PRun "authentication_data" 23] |}.

Definition MAVLink_open_drone_id_self_id_message : msgtype :=
  {| mt_id := 12903;
     msgname := "OPEN_DRONE_ID_SELF_ID";
     fieldnames := ["target_system"; "target_component"; "id_or_mac"; "description_type";
       "description"];
     ordered_fieldnames := ["target_system"; "target_component"; "id_or_mac"; "description_type";
       "description"];
     fieldtypes := ["uint8_t"; "uint8_t"; "uint8_t"; "uint8_t"; "char"];
     fielddisplays_by_name := [];
     fieldenums_by_name := [("description_type", "MAV_ODID_DESC_TYPE")];
     native_format := "<BBBBc";
     orders := [0; 1; 2; 3; 4];
     lengths := [1; 1; 20; 1; 1];
     array_lengths := [0; 0; 20; 0; 23];
     crc_extra := 249;
     unpacker := "<BB20BB23s";
     init_defaults := [];
     init_body := [SetArg "target_system"; SetArg "target_component"; SetArg "id_or_mac";
       SetArg "description_type"; SetRaw "description"; SetStr "description"];
     pack_args := [PA "target_system"; PA "target_component"; PRun "id_or_mac" 20;
       PA "description_type"; PRaw "description"] |}.

Definition MAVLink_open_drone_id_system_message : msgtype :=
  {| mt_id := 12904;
     msgname := "OPEN_DRONE_ID_SYSTEM";
     fieldnames := ["target_system"; "target_component"; "id_or_mac"; "operator_location_type";
       "classification_type"; "operator_latitude"; "operator_longitude"; "area_count";
       "area_radius"; "area_ceiling"; "area_floor"; "category_eu"; "class_eu";
       "operator_altitude_geo"; "timestamp"];
     ordered_fieldnames := ["operator_latitude"; "operator_longitude"; "area_ceiling"; "area_floor";
       "operator_altitude_geo"; "timestamp"; "area_count"; "area_radius"; "target_system";
       "target_component"; "id_or_mac"; "operator_location_type"; "classification_type";
       "category_eu"; "class_eu"];
     fieldtypes := ["uint8_t"; "uint8_t"; "uint8_t"; "uint8_t"; "uint8_t"; "int32_t"; "int32_t";
       "uint16_t"; "uint16_t"; "float"; "float"; "uint8_t"; "uint8_t"; "float"; "uint32_t"];
     fielddisplays_by_name := [];
     fieldenums_by_name := [("operator_location_type", "MAV_ODID_OPERATOR_LOCATION_TYPE");
       ("classification_type", "MAV_ODID_CLASSIFICATION_TYPE"); ("category_eu",
       "MAV_ODID_CATEGORY_EU"); ("class_eu", "MAV_ODID_CLASS_EU")];
     native_format := "<iifffIHHBBBBBBB";
     orders := [8; 9; 10; 11; 12; 0; 1; 6; 7; 2; 3; 13; 14; 4; 5];
     lengths := [1; 1; 1; 1; 1; 1; 1; 1; 1; 1; 20; 1; 1; 1; 1];
     array_lengths := [0; 0; 0; 0; 0; 0; 0; 0; 0; 0; 20; 0; 0; 0; 0];
     crc_extra := 77;
     unpacker := "<iifffIHHBB20BBBBB";
     init_defaults := [];
     init_body := [SetArg "target_system"; SetArg "target_component"; SetArg "id_or_mac";
       SetArg "operator_location_type"; SetArg "classification_type"; SetArg "operator_latitude";
       SetArg "operator_longitude"; SetArg "area_count"; SetArg "area_radius";
       SetArg "area_ceiling"; SetArg "area_floor"; SetArg "category_eu"; SetArg "class_eu";
       SetArg "operator_altitude_geo"; SetArg "timestamp"];
     pack_args := [PA "operator_latitude"; PA "operator_longitude"; PA "area_ceiling";
       PA "area_floor"; PA "operator_altitude_geo"; PA "timestamp"; PA "area_count";
       PA "area_radius"; PA "target_system"; PA "target_component"; PRun "id_or_mac" 20;
       PA "operator_location_type"; PA "classification_type"; PA "category_eu"; PA "class_eu"] |}.

Definition MAVLink_open_drone_id_operator_id_message : msgtype :=
  {| mt_id := 12905;
     msgname := "OPEN_DRONE_ID_OPERATOR_ID";
     fieldnames := ["target_system"; "target_component"; "id_or_mac"; "operator_id_type";
       "operator_id"];
     ordered_fieldnames := ["target_system"; "target_component"; "id_or_mac"; "operator_id_type";
       "operator_id"];
     fieldtypes := ["uint8_t"; "uint8_t"; "uint8_t"; "uint8_t"; "char"];
     fielddisplays_by_name := [];
     fieldenums_by_name := [("operator_id_type", "MAV_ODID_OPERATOR_ID_TYPE")];
     native_format := "<BBBBc";
     orders := [0; 1; 2; 3; 4];
     lengths := [1; 1; 20; 1; 1];
     array_lengths := [0; 0; 20; 0; 20];
     crc_extra := 49;
     unpacker := "<BB20BB20s";
     init_defaults := [];
     init_body := [SetArg "target_system"; SetArg "target_component"; SetArg "id_or_mac";
       SetArg "operator_id_type"; SetRaw "operator_id"; SetStr "operator_id"];
     pack_args := [PA "target_system"; PA "target_component"; PRun "id_or_mac" 20;
       PA "operator_id_type"; PRaw "operator_id"] |}.

Definition MAVLink_open_drone_id_message_pack_message : msgtype :=
  {| mt_id := 12915;
     msgname := "OPEN_DRONE_ID_MESSAGE_PACK";
     fieldnames := ["target_system"; "target_component"; "id_or_mac"; "single_message_size";
       "msg_pack_size"; "messages"];
     ordered_fieldnames := ["target_system"; "target_component"; "id_or_mac"; "single_message_size";
       "msg_pack_size"; "messages"];
     fieldtypes := ["uint8_t"; "uint8_t"; "uint8_t"; "uint8_t"; "uint8_t"; "uint8_t"];
     fielddisplays_by_name := [];
     fieldenums_by_name := [];
     native_format := "<BBBBBB";
     orders := [0; 1; 2; 3; 4; 5];
     lengths := [1; 1; 20; 1; 1; 225];
     array_lengths := [0; 0; 20; 0; 0; 225];
     crc_extra := 94;
     unpacker := "<BB20BBB225B";
     init_defaults := [];
     init_body := [SetArg "target_system"; SetArg "target_component"; SetArg "id_or_mac";
       SetArg "single_message_size"; SetArg "msg_pack_size"; SetArg "messages"];
     pack_args := [PA "target_system"; PA "target_component"; PRun "id_or_mac" 20;
       PA "single_message_size"; PA "msg_pack_size"; PRun "messages" 225] |}.

Definition MAVLink_open_drone_id_arm_status_message : msgtype :=
  {| mt_id := 12918;
     msgname := "OPEN_DRONE_ID_ARM_STATUS";
     fieldnames := ["status"; "error"];
     ordered_fieldnames := ["status"; "error"];
     fieldtypes := ["uint8_t"; "char"];
     fielddisplays_by_name := [];
     fieldenums_by_name := [("status", "MAV_ODID_ARM_STATUS")];
     native_format := "<Bc";
     orders := [0; 1];
     lengths := [1; 1];
     array_lengths := [0; 50];
     crc_extra := 139;
     unpacker := "<B50s";
     init_defaults := [];
     init_body := [SetArg "status"; SetRaw "error"; SetStr "error"];
     pack_args := [PA "status"; PRaw "error"] |}.

Definition MAVLink_open_drone_id_system_update_message : msgtype :=
  {| mt_id := 12919;
     msgname := "OPEN_DRONE_ID_SYSTEM_UPDATE";
     fieldnames := ["target_system"; "target_component"; "operator_latitude"; "operator_longitude";
       "operator_altitude_geo"; "timestamp"];
     ordered_fieldnames := ["operator_latitude"; "operator_longitude"; "operator_altitude_geo";
       "timestamp"; "target_system"; "target_component"];
     fieldtypes := ["uint8_t"; "uint8_t"; "int32_t"; "int32_t"; "float"; "uint32_t"];
     fielddisplays_by_name := [];
     fieldenums_by_name := [];
     native_format := "<iifIBB";
     orders := [4; 5; 0; 1; 2; 3];
     lengths := [1; 1; 1; 1; 1; 1];
     array_lengths := [0; 0; 0; 0; 0; 0];
     crc_extra := 7;
     unpacker := "<iifIBB";
     init_defaults := [];
     init_body := [SetArg "target_system"; SetArg "target_component"; SetArg "operator_latitude";
       SetArg "operator_longitude"; SetArg "operator_altitude_geo"; SetArg "timestamp"];
     pack_args := [PA "operator_latitude"; PA "operator_longitude"; PA "operator_altitude_geo";
       PA "timestamp"; PA "target_system"; PA "target_component"] |}.

Definition MAVLink_hygrometer_sensor_message : msgtype :=
  {| mt_id := 12920;
     msgname := "HYGROMETER_SENSOR";
     fieldnames := ["id"; "temperature"; "humidity"];
     ordered_fieldnames := ["temperature"; "humidity"; "id"];
     fieldtypes := ["uint8_t"; "int16_t"; "uint16_t"];
     fielddisplays_by_name := [];
     fieldenums_by_name := [];
     native_format := "<hHB";
     orders := [2; 0; 1];
     lengths := [1; 1; 1];
     array_lengths := [0; 0; 0];
     crc_extra := 20;
     unpacker := "<hHB";
     init_defaults := [];
     init_body := [SetArg "id"; SetArg "temperature"; SetArg "humidity"];
     pack_args := [PA "temperature"; PA "humidity"; PA "id"] |}.

Definition MAVLink_heartbeat_message : msgtype :=
  {| mt_id := 0;
     msgname := "HEARTBEAT";
     fieldnames := ["type"; "autopilot"; "base_mode"; "custom_mode"; "system_status";
       "mavlink_version"];
     ordered_fieldnames := ["custom_mode"; "type"; "autopilot"; "base_mode"; "system_status";
       "mavlink_version"];
     fieldtypes := ["uint8_t"; "uint8_t"; "uint8_t"; "uint32_t"; "uint8_t"; "uint8_t"];
     fielddisplays_by_name := [("base_mode", "bitmask")];
     fieldenums_by_name := [("type", "MAV_TYPE"); ("autopilot", "MAV_AUTOPILOT"); ("base_mode",
       "MAV_MODE_FLAG"); ("system_status", "MAV_STATE")];
     native_format := "<IBBBBB";
     orders := [1; 2; 3; 0; 4; 5];
     lengths := [1; 1; 1; 1; 1; 1];
     array_lengths := [0; 0; 0; 0; 0; 0];
     crc_extra := 50;
     unpacker := "<IBBBBB";
     init_defaults := [];
     init_body := [SetArg "type"; SetArg "autopilot"; SetArg "base_mode"; SetArg "custom_mode";
       SetArg "system_status"; SetArg "mavlink_version"];
     pack_args := [PA "custom_mode"; PA "type"; PA "autopilot"; PA "base_mode"; PA "system_status";
       PA "mavlink_version"] |}.

Definition MAVLink_protocol_version_message : msgtype :=
  {| mt_id := 300;
     msgname := "PROTOCOL_VERSION";
     fieldnames := ["version"; "min_version"; "max_version"; "spec_version_hash";
       "library_version_hash"];
     ordered_fieldnames := ["version"; "min_version"; "max_version"; "spec_version_hash";
       "library_version_hash"];
     fieldtypes := ["uint16_t"; "uint16_t"; "uint16_t"; "uint8_t"; "uint8_t"];
     fielddisplays_by_name := [];
     fieldenums_by_name := [];
     native_format := "<HHHBB";
     orders := [0; 1; 2; 3; 4];
     lengths := [1; 1; 1; 8; 8];
     array_lengths := [0; 0; 0; 8; 8];
     crc_extra := 217;
     unpacker := "<HHH8B8B";
     init_defaults := [];
     init_body := [SetArg "version"; SetArg "min_version"; SetArg "max_version";
       SetArg "spec_version_hash"; SetArg "library_version_hash"];
     pack_args := [PA "version"; PA "min_version"; PA "max_version"; PRun "spec_version_hash" 8;
       PRun "library_version_hash" 8] |}.

Definition messages_4 : list msgtype :=
  [MAVLink_esc_info_message; MAVLink_esc_status_message; MAVLink_wifi_config_ap_message;
    MAVLink_ais_vessel_message; MAVLink_uavcan_node_status_message;
    MAVLink_uavcan_node_info_message; MAVLink_param_ext_request_read_message;
    MAVLink_param_ext_request_list_message; MAVLink_param_ext_value_message;
    MAVLink_param_ext_set_message; MAVLink_param_ext_ack_message; MAVLink_obstacle_distance_message;
    MAVLink_odometry_message; MAVLink_trajectory_representation_waypoints_message;
    MAVLink_trajectory_representation_bezier_message; MAVLink_cellular_status_message;
    MAVLink_isbd_link_status_message; MAVLink_cellular_config_message; MAVLink_raw_rpm_message;
    MAVLink_utm_global_position_message; MAVLink_debug_float_array_message;
    MAVLink_orbit_execution_status_message; MAVLink_smart_battery_info_message;
    MAVLink_generator_status_message; MAVLink_actuator_output_status_message;
    MAVLink_time_estimate_to_target_message; MAVLink_tunnel_message; MAVLink_can_frame_message;
    MAVLink_onboard_computer_status_message; MAVLink_component_information_message;
    MAVLink_component_metadata_message; MAVLink_play_tune_v2_message;
    MAVLink_supported_tunes_message; MAVLink_event_message; MAVLink_current_event_sequence_message;
    MAVLink_request_event_message; MAVLink_response_event_error_message;
    MAVLink_canfd_frame_message; MAVLink_can_filter_modify_message; MAVLink_wheel_distance_message;
    MAVLink_winch_status_message; MAVLink_open_drone_id_basic_id_message;
    MAVLink_open_drone_id_location_message; MAVLink_open_drone_id_authentication_message;
    MAVLink_open_drone_id_self_id_message; MAVLink_open_drone_id_system_message;
    MAVLink_open_drone_id_operator_id_message; MAVLink_open_drone_id_message_pack_message;
    MAVLink_open_drone_id_arm_status_message; MAVLink_open_drone_id_system_update_message;
    MAVLink_hygrometer_sensor_message; MAVLink_heartbeat_message; MAVLink_protocol_version_message].

End MavCatalog4.
