(* ===== verification/MavMap.v ===== *)
(** The dispatch table [mavlink_map] of wfb_ng/mavlink.py, and the checks over
    the whole catalogue: every class is consistent, and its [crc_extra] is the
    checksum of the message definition. *)
From Stdlib Require Import ZArith Lia Bool Ascii.
From stdpp Require Import base list numbers strings gmap.
From S2P Require Import Prelude.
From S2P Require Import PyStruct.
From S2P Require Import X25.
From S2P Require Import MavMessage.
From S2P Require Import MavCatalog1.
From S2P Require Import MavCatalog2.
From S2P Require Import MavCatalog3.
From S2P Require Import MavCatalog4.

Module MavMap.
Import PyStruct MavMessage.
Import MavCatalog1 MavCatalog2 MavCatalog3 MavCatalog4.

(** The dictionary, with its keys (the constants [MAVLINK_MSG_ID_*]) in the
    order of the source. *)
Definition mavlink_map : list (Z * msgtype) :=
  [(1, MAVLink_sys_status_message);
   (2, MAVLink_system_time_message);
   (4, MAVLink_ping_message);
   (5, MAVLink_change_operator_control_message);
   (6, MAVLink_change_operator_control_ack_message);
   (7, MAVLink_auth_key_message);
   (8, MAVLink_link_node_status_message);
   (11, MAVLink_set_mode_message);
   (20, MAVLink_param_request_read_message);
   (21, MAVLink_param_request_list_message);
   (22, MAVLink_param_value_message);
   (23, MAVLink_param_set_message);
   (24, MAVLink_gps_raw_int_message);
   (25, MAVLink_gps_status_message);
   (26, MAVLink_scaled_imu_message);
   (27, MAVLink_raw_imu_message);
   (28, MAVLink_raw_pressure_message);
   (29, MAVLink_scaled_pressure_message);
   (30, MAVLink_attitude_message);
   (31, MAVLink_attitude_quaternion_message);
   (32, MAVLink_local_position_ned_message);
   (33, MAVLink_global_position_int_message);
   (34, MAVLink_rc_channels_scaled_message);
   (35, MAVLink_rc_channels_raw_message);
   (36, MAVLink_servo_output_raw_message);
   (37, MAVLink_mission_request_partial_list_message);
   (38, MAVLink_mission_write_partial_list_message);
   (39, MAVLink_mission_item_message);
   (40, MAVLink_mission_request_message);
   (41, MAVLink_mission_set_current_message);
   (42, MAVLink_mission_current_message);
   (43, MAVLink_mission_request_list_message);
   (44, MAVLink_mission_count_message);
   (45, MAVLink_mission_clear_all_message);
   (46, MAVLink_mission_item_reached_message);
   (47, MAVLink_mission_ack_message);
   (48, MAVLink_set_gps_global_origin_message);
   (49, MAVLink_gps_global_origin_message);
   (50, MAVLink_param_map_rc_message);
   (51, MAVLink_mission_request_int_message);
   (54, MAVLink_safety_set_allowed_area_message);
   (55, MAVLink_safety_allowed_area_message);
   (61, MAVLink_attitude_quaternion_cov_message);
   (62, MAVLink_nav_controller_output_message);
   (63, MAVLink_global_position_int_cov_message);
   (64, MAVLink_local_position_ned_cov_message);
   (65, MAVLink_rc_channels_message);
   (66, MAVLink_request_data_stream_message);
   (67, MAVLink_data_stream_message);
   (69, MAVLink_manual_control_message);
   (70, MAVLink_rc_channels_override_message);
   (73, MAVLink_mission_item_int_message);
   (74, MAVLink_vfr_hud_message);
   (75, MAVLink_command_int_message);
   (76, MAVLink_command_long_message);
   (77, MAVLink_command_ack_message);
   (80, MAVLink_command_cancel_message);
   (81, MAVLink_manual_setpoint_message);
   (82, MAVLink_set_attitude_target_message);
   (83, MAVLink_attitude_target_message);
   (84, MAVLink_set_position_target_local_ned_message);
   (85, MAVLink_position_target_local_ned_message);
   (86, MAVLink_set_position_target_global_int_message);
   (87, MAVLink_position_target_global_int_message);
   (89, MAVLink_local_position_ned_system_global_offset_message);
   (90, MAVLink_hil_state_message);
   (91, MAVLink_hil_controls_message);
   (92, MAVLink_hil_rc_inputs_raw_message);
   (93, MAVLink_hil_actuator_controls_message);
   (100, MAVLink_optical_flow_message);
   (101, MAVLink_global_vision_position_estimate_message);
   (102, MAVLink_vision_position_estimate_message);
   (103, MAVLink_vision_speed_estimate_message);
   (104, MAVLink_vicon_position_estimate_message);
   (105, MAVLink_highres_imu_message);
   (106, MAVLink_optical_flow_rad_message);
   (107, MAVLink_hil_sensor_message);
   (108, MAVLink_sim_state_message);
   (109, MAVLink_radio_status_message);
   (110, MAVLink_file_transfer_protocol_message);
   (111, MAVLink_timesync_message);
   (112, MAVLink_camera_trigger_message);
   (113, MAVLink_hil_gps_message);
   (114, MAVLink_hil_optical_flow_message);
   (115, MAVLink_hil_state_quaternion_message);
   (116, MAVLink_scaled_imu2_message);
   (117, MAVLink_log_request_list_message);
   (118, MAVLink_log_entry_message);
   (119, MAVLink_log_request_data_message);
   (120, MAVLink_log_data_message);
   (121, MAVLink_log_erase_message);
   (122, MAVLink_log_request_end_message);
   (123, MAVLink_gps_inject_data_message);
   (124, MAVLink_gps2_raw_message);
   (125, MAVLink_power_status_message);
   (126, MAVLink_serial_control_message);
   (127, MAVLink_gps_rtk_message);
   (128, MAVLink_gps2_rtk_message);
   (129, MAVLink_scaled_imu3_message);
   (130, MAVLink_data_transmission_handshake_message);
   (131, MAVLink_encapsulated_data_message);
   (132, MAVLink_distance_sensor_message);
   (133, MAVLink_terrain_request_message);
   (134, MAVLink_terrain_data_message);
   (135, MAVLink_terrain_check_message);
   (136, MAVLink_terrain_report_message);
   (137, MAVLink_scaled_pressure2_message);
   (138, MAVLink_att_pos_mocap_message);
   (139, MAVLink_set_actuator_control_target_message);
   (140, MAVLink_actuator_control_target_message);
   (141, MAVLink_altitude_message);
   (142, MAVLink_resource_request_message);
   (143, MAVLink_scaled_pressure3_message);
   (144, MAVLink_follow_target_message);
   (146, MAVLink_control_system_state_message);
   (147, MAVLink_battery_status_message);
   (148, MAVLink_autopilot_version_message);
   (149, MAVLink_landing_target_message);
   (162, MAVLink_fence_status_message);
   (192, MAVLink_mag_cal_report_message);
   (225, MAVLink_efi_status_message);
   (230, MAVLink_estimator_status_message);
   (231, MAVLink_wind_cov_message);
   (232, MAVLink_gps_input_message);
   (233, MAVLink_gps_rtcm_data_message);
   (234, MAVLink_high_latency_message);
   (235, MAVLink_high_latency2_message);
   (241, MAVLink_vibration_message);
   (242, MAVLink_home_position_message);
   (243, MAVLink_set_home_position_message);
   (244, MAVLink_message_interval_message);
   (245, MAVLink_extended_sys_state_message);
   (246, MAVLink_adsb_vehicle_message);
   (247, MAVLink_collision_message);
   (248, MAVLink_v2_extension_message);
   (249, MAVLink_memory_vect_message);
   (250, MAVLink_debug_vect_message);
   (251, MAVLink_named_value_float_message);
   (252, MAVLink_named_value_int_message);
   (253, MAVLink_statustext_message);
   (254, MAVLink_debug_message);
   (256, MAVLink_setup_signing_message);
   (257, MAVLink_button_change_message);
   (258, MAVLink_play_tune_message);
   (259, MAVLink_camera_information_message);
   (260, MAVLink_camera_settings_message);
   (261, MAVLink_storage_information_message);
   (262, MAVLink_camera_capture_status_message);
   (263, MAVLink_camera_image_captured_message);
   (264, MAVLink_flight_information_message);
   (265, MAVLink_mount_orientation_message);
   (266, MAVLink_logging_data_message);
   (267, MAVLink_logging_data_acked_message);
   (268, MAVLink_logging_ack_message);
   (269, MAVLink_video_stream_information_message);
   (270, MAVLink_video_stream_status_message);
   (271, MAVLink_camera_fov_status_message);
   (275, MAVLink_camera_tracking_image_status_message);
   (276, MAVLink_camera_tracking_geo_status_message);
   (280, MAVLink_gimbal_manager_information_message);
   (281, MAVLink_gimbal_manager_status_message);
   (282, MAVLink_gimbal_manager_set_attitude_message);
   (283, MAVLink_gimbal_device_information_message);
   (284, MAVLink_gimbal_device_set_attitude_message);
   (285, MAVLink_gimbal_device_attitude_status_message);
   (286, MAVLink_autopilot_state_for_gimbal_device_message);
   (287, MAVLink_gimbal_manager_set_pitchyaw_message);
   (288, MAVLink_gimbal_manager_set_manual_control_message);
   (290, MAVLink_esc_info_message);
   (291, MAVLink_esc_status_message);
   (299, MAVLink_wifi_config_ap_message);
   (301, MAVLink_ais_vessel_message);
   (310, MAVLink_uavcan_node_status_message);
   (311, MAVLink_uavcan_node_info_message);
   (320, MAVLink_param_ext_request_read_message);
   (321, MAVLink_param_ext_request_list_message);
   (322, MAVLink_param_ext_value_message);
   (323, MAVLink_param_ext_set_message);
   (324, MAVLink_param_ext_ack_message);
   (330, MAVLink_obstacle_distance_message);
   (331, MAVLink_odometry_message);
   (332, MAVLink_trajectory_representation_waypoints_message);
   (333, MAVLink_trajectory_representation_bezier_message);
   (334, MAVLink_cellular_status_message);
   (335, MAVLink_isbd_link_status_message);
   (336, MAVLink_cellular_config_message);
   (339, MAVLink_raw_rpm_message);
   (340, MAVLink_utm_global_position_message);
   (350, MAVLink_debug_float_array_message);
   (360, MAVLink_orbit_execution_status_message);
   (370, MAVLink_smart_battery_info_message);
   (373, MAVLink_generator_status_message);
   (375, MAVLink_actuator_output_status_message);
   (380, MAVLink_time_estimate_to_target_message);
   (385, MAVLink_tunnel_message);
   (386, MAVLink_can_frame_message);
   (390, MAVLink_onboard_computer_status_message);
   (395, MAVLink_component_information_message);
   (397, MAVLink_component_metadata_message);
   (400, MAVLink_play_tune_v2_message);
   (401, MAVLink_supported_tunes_message);
   (410, MAVLink_event_message);
   (411, MAVLink_current_event_sequence_message);
   (412, MAVLink_request_event_message);
   (413, MAVLink_response_event_error_message);
   (387, MAVLink_canfd_frame_message);
   (388, MAVLink_can_filter_modify_message);
   (9000, MAVLink_wheel_distance_message);
   (9005, MAVLink_winch_status_message);
   (12900, MAVLink_open_drone_id_basic_id_message);
   (12901, MAVLink_open_drone_id_location_message);
   (12902, MAVLink_open_drone_id_authentication_message);
   (12903, MAVLink_open_drone_id_self_id_message);
   (12904, MAVLink_open_drone_id_system_message);
   (12905, MAVLink_open_drone_id_operator_id_message);
   (12915, MAVLink_open_drone_id_message_pack_message);
   (12918, MAVLink_open_drone_id_arm_status_message);
   (12919, MAVLink_open_drone_id_system_update_message);
   (12920, MAVLink_hygrometer_sensor_message);
   (0, MAVLink_heartbeat_message);
   (300, MAVLink_protocol_version_message)].

(** [mavlink_map[k]], or [None] when [k not in mavlink_map]. *)
Fixpoint lookup_id (l : list (Z * msgtype)) (k : Z) : option msgtype :=
  match l with
  | [] => None
  | (k', mt) :: l' => if k =? k' then Some mt else lookup_id l' k
  end.

Definition mavlink_get (k : Z) : option msgtype := lookup_id mavlink_map k.

(** ** The reference for [crc_extra] *)

Definition bytes_of_string (s : string) : bytes :=
  (fun a => Z.of_nat (nat_of_ascii a)) <$> String.list_ascii_of_string s.

(** Fields without a default in the constructor; the others are MAVLink 2
    extension fields. *)
Definition base_fields (mt : msgtype) : nat :=
  (length (ordered_fieldnames mt) - length (init_defaults mt))%nat.

Definition type_of (mt : msgtype) (f : string) : string :=
  match list_find (fun p => fst p = f) (zip (fieldnames mt) (fieldtypes mt)) with
  | Some (_, (_, t)) => t
  | None => ""%string
  end.

(** "NAME ", then "type name " and the array length of each base field in
    wire order. *)
Definition definition_bytes (mt : msgtype) : bytes :=
  bytes_of_string (msgname mt ++ " ")%string ++
  concat (map (fun '(f, n) =>
      bytes_of_string (type_of mt f ++ " " ++ f ++ " ")%string ++
      (if decide (n = 0)%nat then [] else [Z.of_nat n]))
    (take (base_fields mt) (zip (ordered_fieldnames mt) (array_lengths mt)))).

(** The two bytes of the checksum of the definition, xored. *)
Definition derived_crc_extra (mt : msgtype) : Z :=
  let c := X25.x25crc (definition_bytes mt) in Z.lxor (Z.land c 0xFF) (Z.shiftr c 8).

(** ** Declared types against the wire format *)

Definition type_code (t : string) : option (ascii * nat) :=
  match t with
  | "char" => Some ("c"%char, 1%nat)
  | "uint8_t" => Some ("B"%char, 1%nat) | "int8_t" => Some ("b"%char, 1%nat)
  | "uint16_t" => Some ("H"%char, 2%nat) | "int16_t" => Some ("h"%char, 2%nat)
  | "uint32_t" => Some ("I"%char, 4%nat) | "int32_t" => Some ("i"%char, 4%nat)
  | "uint64_t" => Some ("Q"%char, 8%nat) | "int64_t" => Some ("q"%char, 8%nat)
  | "float" => Some ("f"%char, 4%nat) | "double" => Some ("d"%char, 8%nat)
  | _ => None
  end%string.

Definition type_size (t : string) : nat := default 0%nat (snd <$> type_code t).

Definition expected_code (t : string) (n : nat) : option code :=
  if decide (t = "char"%string) then Some (Cs n)
  else type_code t ≫= fun p => code_of_ascii (fst p).

Fixpoint non_increasing (l : list nat) : bool :=
  match l with
  | x :: (y :: _) as l' => bool_decide (y <= x)%nat && non_increasing l'
  | _ => true
  end.

(** The wire order sorts the base fields by decreasing size and leaves the
    extension fields where they are declared; [native_format], [unpacker],
    [lengths] and [array_lengths] say what the declared types say. *)
Definition class_consistent (mt : msgtype) : bool :=
  let tys := map (type_of mt) (ordered_fieldnames mt) in
  let k := base_fields mt in
  non_increasing (map type_size (take k tys)) &&
  bool_decide (drop k (ordered_fieldnames mt) = drop k (fieldnames mt)) &&
  bool_decide (length (array_lengths mt) = length (lengths mt)) &&
  bool_decide (map Some (wire_codes mt) = zip_with expected_code tys (array_lengths mt)) &&
  bool_decide (lengths mt = zip_with (fun t n =>
     if decide (t = "char"%string) then 1%nat else Nat.max 1 n) tys (array_lengths mt)) &&
  bool_decide (Some (String.list_ascii_of_string (native_format mt)) =
     (cons "<"%char) <$> mapM (fun t => fst <$> type_code t) tys) &&
  (crc_extra mt =? derived_crc_extra mt).

(** ** Facts used by the protocol proofs *)

Lemma catalogue_checked :
  forallb (fun '(k, mt) => msgtype_ok mt && (mt_id mt =? k) && (0 <=? k) && (k <? 2 ^ 24)) mavlink_map = true.
Proof. vm_compute. done. Qed.

Lemma lookup_id_In l k mt : lookup_id l k = Some mt -> In (k, mt) l.
Proof.
  induction l as [|[k' mt'] l IH]; cbn; [done |].
  destruct (Z.eqb_spec k k') as [-> |]; [intros [= ->]; by left |]. right. auto.
Qed.

Lemma mavlink_get_ok k mt :
  mavlink_get k = Some mt -> msgtype_ok mt = true /\ mt_id mt = k /\ 0 <= k < 2 ^ 24.
Proof.
  intros H. apply lookup_id_In in H.
  pose proof catalogue_checked as C. rewrite forallb_forall in C.
  specialize (C _ H). cbn beta iota in C. to_prop. auto with lia.
Qed.

(** C24: the dispatch table and its classes agree: every class is filed under its own
    id, which fits the three bytes of the wire; its constructor stores exactly the
    arguments of its fields and [pack] packs exactly those attributes in wire order,
    element by element for an array ([consistent]: with the struct format, sizes and
    order lists of the class, which parse the payload back); the wire order sorts the
    base fields by size and keeps extensions last, the format, the lengths and the
    native format agree with the declared types, and [crc_extra] is the checksum of the
    message definition. *)
Theorem mavlink_map_consistent k mt : mavlink_get k = Some mt ->
  mt_id mt = k /\ 0 <= k < 2 ^ 24 /\ consistent mt /\ class_consistent mt = true.
Proof.
  intros H. destruct (mavlink_get_ok k mt H) as (Hok & Hid & Hk). apply lookup_id_In in H.
  assert (C : forallb (fun p => class_consistent (snd p)) mavlink_map = true)
    by (vm_compute; done).
  rewrite forallb_forall in C. split; [done |]. split; [done |]. split; [by apply msgtype_ok_consistent | exact (C _ H)].
Qed.

Lemma mavlink_map_consistent_witness :
  mavlink_get 109 = Some MAVLink_radio_status_message /\ consistent MAVLink_radio_status_message /\
  class_consistent MAVLink_radio_status_message = true.
Proof.
  assert (H : mavlink_get 109 = Some MAVLink_radio_status_message) by (vm_compute; reflexivity).
  split; [exact H |]. destruct (mavlink_map_consistent 109 _ H) as (_ & _ & Hc & Hcc). split; [exact Hc | exact Hcc].
Defined.

End MavMap.
