(* ===== verification/MavEnum.v ===== *)
(** The enumerations of wfb_ng/mavlink.py: what one entry declares and the
    tables the module builds from the declarations when it is loaded.  The
    declarations are in MavEnums1 and MavEnums2. *)
From Stdlib Require Import ZArith Lia Bool.
From stdpp Require Import base list numbers strings gmap.
From S2P Require Import Prelude.

Module MavEnum.

(** [EnumEntry]: the name, the documented parameters and [has_location]. *)
Record enum_entry := EnumEntry { ee_name : string; ee_param : list Z; ee_has_location : bool }.

#[export] Instance enum_entry_eq_dec : EqDecision enum_entry.
Proof. solve_decision. Defined.

(** [CONST = value] and [enums[E][key] = EnumEntry(...)] with its attributes. *)
Record decl := Decl { d_const : string; d_value : Z; d_key : Z; d_entry : enum_entry }.

(** The module's constants and the dictionary [enums]. *)
Record tables := Tables { constants : gmap string Z; enums : gmap string (gmap Z enum_entry) }.

Definition declare (e : string) (t : tables) (d : decl) : tables :=
  Tables (<[d_const d := d_value d]> (constants t))
         (<[e := <[d_key d := d_entry d]> (default ∅ (enums t !! e))]> (enums t)).

Definition declare_enum (t : tables) (x : string * list decl) : tables :=
  fold_left (declare x.1) x.2 (Tables (constants t) (<[x.1 := ∅]> (enums t))).

Definition load (l : list (string * list decl)) : tables := fold_left declare_enum l (Tables ∅ ∅).

End MavEnum.
