(* ===== verification/MavEnums1.v ===== *)
(** The enumerations FIRMWARE_VERSION_TYPE to ESTIMATOR_STATUS_FLAGS of wfb_ng/mavlink.py (part 1), in the
    order of the file: for each entry the constant, its value, and the entry
    stored under a key of the enumeration.  Descriptions are left out. *)
From Stdlib Require Import ZArith.
From stdpp Require Import base list strings.
From S2P Require Import Prelude MavEnum.

Module MavEnums1.
Import MavEnum.
#[local] Open Scope string_scope.
#[local] Open Scope Z_scope.
#[local] Open Scope list_scope.

Definition FIRMWARE_VERSION_TYPE : list decl := [
  Decl "FIRMWARE_VERSION_TYPE_DEV" 0 0 (EnumEntry "FIRMWARE_VERSION_TYPE_DEV" [] false);
  Decl "FIRMWARE_VERSION_TYPE_ALPHA" 64 64 (EnumEntry "FIRMWARE_VERSION_TYPE_ALPHA" [] false);
  Decl "FIRMWARE_VERSION_TYPE_BETA" 128 128 (EnumEntry "FIRMWARE_VERSION_TYPE_BETA" [] false);
  Decl "FIRMWARE_VERSION_TYPE_RC" 192 192 (EnumEntry "FIRMWARE_VERSION_TYPE_RC" [] false);
  Decl "FIRMWARE_VERSION_TYPE_OFFICIAL" 255 255 (EnumEntry "FIRMWARE_VERSION_TYPE_OFFICIAL" [] false);
  Decl "FIRMWARE_VERSION_TYPE_ENUM_END" 256 256 (EnumEntry "FIRMWARE_VERSION_TYPE_ENUM_END" [] false)].

Definition HL_FAILURE_FLAG : list decl := [
  Decl "HL_FAILURE_FLAG_GPS" 1 1 (EnumEntry "HL_FAILURE_FLAG_GPS" [] false);
  Decl "HL_FAILURE_FLAG_DIFFERENTIAL_PRESSURE" 2 2 (EnumEntry "HL_FAILURE_FLAG_DIFFERENTIAL_PRESSURE" [] false);
  Decl "HL_FAILURE_FLAG_ABSOLUTE_PRESSURE" 4 4 (EnumEntry "HL_FAILURE_FLAG_ABSOLUTE_PRESSURE" [] false);
  Decl "HL_FAILURE_FLAG_3D_ACCEL" 8 8 (EnumEntry "HL_FAILURE_FLAG_3D_ACCEL" [] false);
  Decl "HL_FAILURE_FLAG_3D_GYRO" 16 16 (EnumEntry "HL_FAILURE_FLAG_3D_GYRO" [] false);
  Decl "HL_FAILURE_FLAG_3D_MAG" 32 32 (EnumEntry "HL_FAILURE_FLAG_3D_MAG" [] false);
  Decl "HL_FAILURE_FLAG_TERRAIN" 64 64 (EnumEntry "HL_FAILURE_FLAG_TERRAIN" [] false);
  Decl "HL_FAILURE_FLAG_BATTERY" 128 128 (EnumEntry "HL_FAILURE_FLAG_BATTERY" [] false);
  Decl "HL_FAILURE_FLAG_RC_RECEIVER" 256 256 (EnumEntry "HL_FAILURE_FLAG_RC_RECEIVER" [] false);
  Decl "HL_FAILURE_FLAG_OFFBOARD_LINK" 512 512 (EnumEntry "HL_FAILURE_FLAG_OFFBOARD_LINK" [] false);
  Decl "HL_FAILURE_FLAG_ENGINE" 1024 1024 (EnumEntry "HL_FAILURE_FLAG_ENGINE" [] false);
  Decl "HL_FAILURE_FLAG_GEOFENCE" 2048 2048 (EnumEntry "HL_FAILURE_FLAG_GEOFENCE" [] false);
  Decl "HL_FAILURE_FLAG_ESTIMATOR" 4096 4096 (EnumEntry "HL_FAILURE_FLAG_ESTIMATOR" [] false);
  Decl "HL_FAILURE_FLAG_MISSION" 8192 8192 (EnumEntry "HL_FAILURE_FLAG_MISSION" [] false);
  Decl "HL_FAILURE_FLAG_ENUM_END" 8193 8193 (EnumEntry "HL_FAILURE_FLAG_ENUM_END" [] false)].

Definition MAV_GOTO : list decl := [
  Decl "MAV_GOTO_DO_HOLD" 0 0 (EnumEntry "MAV_GOTO_DO_HOLD" [] false);
  Decl "MAV_GOTO_DO_CONTINUE" 1 1 (EnumEntry "MAV_GOTO_DO_CONTINUE" [] false);
  Decl "MAV_GOTO_HOLD_AT_CURRENT_POSITION" 2 2 (EnumEntry "MAV_GOTO_HOLD_AT_CURRENT_POSITION" [] false);
  Decl "MAV_GOTO_HOLD_AT_SPECIFIED_POSITION" 3 3 (EnumEntry "MAV_GOTO_HOLD_AT_SPECIFIED_POSITION" [] false);
  Decl "MAV_GOTO_ENUM_END" 4 4 (EnumEntry "MAV_GOTO_ENUM_END" [] false)].

Definition MAV_MODE : list decl := [
  Decl "MAV_MODE_PREFLIGHT" 0 0 (EnumEntry "MAV_MODE_PREFLIGHT" [] false);
  Decl "MAV_MODE_MANUAL_DISARMED" 64 64 (EnumEntry "MAV_MODE_MANUAL_DISARMED" [] false);
  Decl "MAV_MODE_TEST_DISARMED" 66 66 (EnumEntry "MAV_MODE_TEST_DISARMED" [] false);
  Decl "MAV_MODE_STABILIZE_DISARMED" 80 80 (EnumEntry "MAV_MODE_STABILIZE_DISARMED" [] false);
  Decl "MAV_MODE_GUIDED_DISARMED" 88 88 (EnumEntry "MAV_MODE_GUIDED_DISARMED" [] false);
  Decl "MAV_MODE_AUTO_DISARMED" 92 92 (EnumEntry "MAV_MODE_AUTO_DISARMED" [] false);
  Decl "MAV_MODE_MANUAL_ARMED" 192 192 (EnumEntry "MAV_MODE_MANUAL_ARMED" [] false);
  Decl "MAV_MODE_TEST_ARMED" 194 194 (EnumEntry "MAV_MODE_TEST_ARMED" [] false);
  Decl "MAV_MODE_STABILIZE_ARMED" 208 208 (EnumEntry "MAV_MODE_STABILIZE_ARMED" [] false);
  Decl "MAV_MODE_GUIDED_ARMED" 216 216 (EnumEntry "MAV_MODE_GUIDED_ARMED" [] false);
  Decl "MAV_MODE_AUTO_ARMED" 220 220 (EnumEntry "MAV_MODE_AUTO_ARMED" [] false);
  Decl "MAV_MODE_ENUM_END" 221 221 (EnumEntry "MAV_MODE_ENUM_END" [] false)].

Definition MAV_SYS_STATUS_SENSOR : list decl := [
  Decl "MAV_SYS_STATUS_SENSOR_3D_GYRO" 1 1 (EnumEntry "MAV_SYS_STATUS_SENSOR_3D_GYRO" [] false);
  Decl "MAV_SYS_STATUS_SENSOR_3D_ACCEL" 2 2 (EnumEntry "MAV_SYS_STATUS_SENSOR_3D_ACCEL" [] false);
  Decl "MAV_SYS_STATUS_SENSOR_3D_MAG" 4 4 (EnumEntry "MAV_SYS_STATUS_SENSOR_3D_MAG" [] false);
  Decl "MAV_SYS_STATUS_SENSOR_ABSOLUTE_PRESSURE" 8 8 (EnumEntry "MAV_SYS_STATUS_SENSOR_ABSOLUTE_PRESSURE" [] false);
  Decl "MAV_SYS_STATUS_SENSOR_DIFFERENTIAL_PRESSURE" 16 16 (EnumEntry "MAV_SYS_STATUS_SENSOR_DIFFERENTIAL_PRESSURE" [] false);
  Decl "MAV_SYS_STATUS_SENSOR_GPS" 32 32 (EnumEntry "MAV_SYS_STATUS_SENSOR_GPS" [] false);
  Decl "MAV_SYS_STATUS_SENSOR_OPTICAL_FLOW" 64 64 (EnumEntry "MAV_SYS_STATUS_SENSOR_OPTICAL_FLOW" [] false);
  Decl "MAV_SYS_STATUS_SENSOR_VISION_POSITION" 128 128 (EnumEntry "MAV_SYS_STATUS_SENSOR_VISION_POSITION" [] false);
  Decl "MAV_SYS_STATUS_SENSOR_LASER_POSITION" 256 256 (EnumEntry "MAV_SYS_STATUS_SENSOR_LASER_POSITION" [] false);
  Decl "MAV_SYS_STATUS_SENSOR_EXTERNAL_GROUND_TRUTH" 512 512 (EnumEntry "MAV_SYS_STATUS_SENSOR_EXTERNAL_GROUND_TRUTH" [] false);
  Decl "MAV_SYS_STATUS_SENSOR_ANGULAR_RATE_CONTROL" 1024 1024 (EnumEntry "MAV_SYS_STATUS_SENSOR_ANGULAR_RATE_CONTROL" [] false);
  Decl "MAV_SYS_STATUS_SENSOR_ATTITUDE_STABILIZATION" 2048 2048 (EnumEntry "MAV_SYS_STATUS_SENSOR_ATTITUDE_STABILIZATION" [] false);
  Decl "MAV_SYS_STATUS_SENSOR_YAW_POSITION" 4096 4096 (EnumEntry "MAV_SYS_STATUS_SENSOR_YAW_POSITION" [] false);
  Decl "MAV_SYS_STATUS_SENSOR_Z_ALTITUDE_CONTROL" 8192 8192 (EnumEntry "MAV_SYS_STATUS_SENSOR_Z_ALTITUDE_CONTROL" [] false);
  Decl "MAV_SYS_STATUS_SENSOR_XY_POSITION_CONTROL" 16384 16384 (EnumEntry "MAV_SYS_STATUS_SENSOR_XY_POSITION_CONTROL" [] false);
  Decl "MAV_SYS_STATUS_SENSOR_MOTOR_OUTPUTS" 32768 32768 (EnumEntry "MAV_SYS_STATUS_SENSOR_MOTOR_OUTPUTS" [] false);
  Decl "MAV_SYS_STATUS_SENSOR_RC_RECEIVER" 65536 65536 (EnumEntry "MAV_SYS_STATUS_SENSOR_RC_RECEIVER" [] false);
  Decl "MAV_SYS_STATUS_SENSOR_3D_GYRO2" 131072 131072 (EnumEntry "MAV_SYS_STATUS_SENSOR_3D_GYRO2" [] false);
  Decl "MAV_SYS_STATUS_SENSOR_3D_ACCEL2" 262144 262144 (EnumEntry "MAV_SYS_STATUS_SENSOR_3D_ACCEL2" [] false);
  Decl "MAV_SYS_STATUS_SENSOR_3D_MAG2" 524288 524288 (EnumEntry "MAV_SYS_STATUS_SENSOR_3D_MAG2" [] false);
  Decl "MAV_SYS_STATUS_GEOFENCE" 1048576 1048576 (EnumEntry "MAV_SYS_STATUS_GEOFENCE" [] false);
  Decl "MAV_SYS_STATUS_AHRS" 2097152 2097152 (EnumEntry "MAV_SYS_STATUS_AHRS" [] false);
  Decl "MAV_SYS_STATUS_TERRAIN" 4194304 4194304 (EnumEntry "MAV_SYS_STATUS_TERRAIN" [] false);
  Decl "MAV_SYS_STATUS_REVERSE_MOTOR" 8388608 8388608 (EnumEntry "MAV_SYS_STATUS_REVERSE_MOTOR" [] false);
  Decl "MAV_SYS_STATUS_LOGGING" 16777216 16777216 (EnumEntry "MAV_SYS_STATUS_LOGGING" [] false);
  Decl "MAV_SYS_STATUS_SENSOR_BATTERY" 33554432 33554432 (EnumEntry "MAV_SYS_STATUS_SENSOR_BATTERY" [] false);
  Decl "MAV_SYS_STATUS_SENSOR_PROXIMITY" 67108864 67108864 (EnumEntry "MAV_SYS_STATUS_SENSOR_PROXIMITY" [] false);
  Decl "MAV_SYS_STATUS_SENSOR_SATCOM" 134217728 134217728 (EnumEntry "MAV_SYS_STATUS_SENSOR_SATCOM" [] false);
  Decl "MAV_SYS_STATUS_PREARM_CHECK" 268435456 268435456 (EnumEntry "MAV_SYS_STATUS_PREARM_CHECK" [] false);
  Decl "MAV_SYS_STATUS_OBSTACLE_AVOIDANCE" 536870912 536870912 (EnumEntry "MAV_SYS_STATUS_OBSTACLE_AVOIDANCE" [] false);
  Decl "MAV_SYS_STATUS_SENSOR_PROPULSION" 1073741824 1073741824 (EnumEntry "MAV_SYS_STATUS_SENSOR_PROPULSION" [] false);
  Decl "MAV_SYS_STATUS_EXTENSION_USED" 2147483648 2147483648 (EnumEntry "MAV_SYS_STATUS_EXTENSION_USED" [] false);
  Decl "MAV_SYS_STATUS_SENSOR_ENUM_END" 2147483649 2147483649 (EnumEntry "MAV_SYS_STATUS_SENSOR_ENUM_END" [] false)].

Definition MAV_SYS_STATUS_SENSOR_EXTENDED : list decl := [
  Decl "MAV_SYS_STATUS_RECOVERY_SYSTEM" 1 1 (EnumEntry "MAV_SYS_STATUS_RECOVERY_SYSTEM" [] false);
  Decl "MAV_SYS_STATUS_SENSOR_EXTENDED_ENUM_END" 2 2 (EnumEntry "MAV_SYS_STATUS_SENSOR_EXTENDED_ENUM_END" [] false)].

Definition MAV_FRAME : list decl := [
  Decl "MAV_FRAME_GLOBAL" 0 0 (EnumEntry "MAV_FRAME_GLOBAL" [] false);
  Decl "MAV_FRAME_LOCAL_NED" 1 1 (EnumEntry "MAV_FRAME_LOCAL_NED" [] false);
  Decl "MAV_FRAME_MISSION" 2 2 (EnumEntry "MAV_FRAME_MISSION" [] false);
  Decl "MAV_FRAME_GLOBAL_RELATIVE_ALT" 3 3 (EnumEntry "MAV_FRAME_GLOBAL_RELATIVE_ALT" [] false);
  Decl "MAV_FRAME_LOCAL_ENU" 4 4 (EnumEntry "MAV_FRAME_LOCAL_ENU" [] false);
  Decl "MAV_FRAME_GLOBAL_INT" 5 5 (EnumEntry "MAV_FRAME_GLOBAL_INT" [] false);
  Decl "MAV_FRAME_GLOBAL_RELATIVE_ALT_INT" 6 6 (EnumEntry "MAV_FRAME_GLOBAL_RELATIVE_ALT_INT" [] false);
  Decl "MAV_FRAME_LOCAL_OFFSET_NED" 7 7 (EnumEntry "MAV_FRAME_LOCAL_OFFSET_NED" [] false);
  Decl "MAV_FRAME_BODY_NED" 8 8 (EnumEntry "MAV_FRAME_BODY_NED" [] false);
  Decl "MAV_FRAME_BODY_OFFSET_NED" 9 9 (EnumEntry "MAV_FRAME_BODY_OFFSET_NED" [] false);
  Decl "MAV_FRAME_GLOBAL_TERRAIN_ALT" 10 10 (EnumEntry "MAV_FRAME_GLOBAL_TERRAIN_ALT" [] false);
  Decl "MAV_FRAME_GLOBAL_TERRAIN_ALT_INT" 11 11 (EnumEntry "MAV_FRAME_GLOBAL_TERRAIN_ALT_INT" [] false);
  Decl "MAV_FRAME_BODY_FRD" 12 12 (EnumEntry "MAV_FRAME_BODY_FRD" [] false);
  Decl "MAV_FRAME_RESERVED_13" 13 13 (EnumEntry "MAV_FRAME_RESERVED_13" [] false);
  Decl "MAV_FRAME_RESERVED_14" 14 14 (EnumEntry "MAV_FRAME_RESERVED_14" [] false);
  Decl "MAV_FRAME_RESERVED_15" 15 15 (EnumEntry "MAV_FRAME_RESERVED_15" [] false);
  Decl "MAV_FRAME_RESERVED_16" 16 16 (EnumEntry "MAV_FRAME_RESERVED_16" [] false);
  Decl "MAV_FRAME_RESERVED_17" 17 17 (EnumEntry "MAV_FRAME_RESERVED_17" [] false);
  Decl "MAV_FRAME_RESERVED_18" 18 18 (EnumEntry "MAV_FRAME_RESERVED_18" [] false);
  Decl "MAV_FRAME_RESERVED_19" 19 19 (EnumEntry "MAV_FRAME_RESERVED_19" [] false);
  Decl "MAV_FRAME_LOCAL_FRD" 20 20 (EnumEntry "MAV_FRAME_LOCAL_FRD" [] false);
  Decl "MAV_FRAME_LOCAL_FLU" 21 21 (EnumEntry "MAV_FRAME_LOCAL_FLU" [] false);
  Decl "MAV_FRAME_ENUM_END" 22 22 (EnumEntry "MAV_FRAME_ENUM_END" [] false)].

Definition MAVLINK_DATA_STREAM_TYPE : list decl := [
  Decl "MAVLINK_DATA_STREAM_IMG_JPEG" 0 0 (EnumEntry "MAVLINK_DATA_STREAM_IMG_JPEG" [] false);
  Decl "MAVLINK_DATA_STREAM_IMG_BMP" 1 1 (EnumEntry "MAVLINK_DATA_STREAM_IMG_BMP" [] false);
  Decl "MAVLINK_DATA_STREAM_IMG_RAW8U" 2 2 (EnumEntry "MAVLINK_DATA_STREAM_IMG_RAW8U" [] false);
  Decl "MAVLINK_DATA_STREAM_IMG_RAW32U" 3 3 (EnumEntry "MAVLINK_DATA_STREAM_IMG_RAW32U" [] false);
  Decl "MAVLINK_DATA_STREAM_IMG_PGM" 4 4 (EnumEntry "MAVLINK_DATA_STREAM_IMG_PGM" [] false);
  Decl "MAVLINK_DATA_STREAM_IMG_PNG" 5 5 (EnumEntry "MAVLINK_DATA_STREAM_IMG_PNG" [] false);
  Decl "MAVLINK_DATA_STREAM_TYPE_ENUM_END" 6 6 (EnumEntry "MAVLINK_DATA_STREAM_TYPE_ENUM_END" [] false)].

Definition FENCE_ACTION : list decl := [
  Decl "FENCE_ACTION_NONE" 0 0 (EnumEntry "FENCE_ACTION_NONE" [] false);
  Decl "FENCE_ACTION_GUIDED" 1 1 (EnumEntry "FENCE_ACTION_GUIDED" [] false);
  Decl "FENCE_ACTION_REPORT" 2 2 (EnumEntry "FENCE_ACTION_REPORT" [] false);
  Decl "FENCE_ACTION_GUIDED_THR_PASS" 3 3 (EnumEntry "FENCE_ACTION_GUIDED_THR_PASS" [] false);
  Decl "FENCE_ACTION_RTL" 4 4 (EnumEntry "FENCE_ACTION_RTL" [] false);
  Decl "FENCE_ACTION_HOLD" 5 5 (EnumEntry "FENCE_ACTION_HOLD" [] false);
  Decl "FENCE_ACTION_TERMINATE" 6 6 (EnumEntry "FENCE_ACTION_TERMINATE" [] false);
  Decl "FENCE_ACTION_LAND" 7 7 (EnumEntry "FENCE_ACTION_LAND" [] false);
  Decl "FENCE_ACTION_ENUM_END" 8 8 (EnumEntry "FENCE_ACTION_ENUM_END" [] false)].

Definition FENCE_BREACH : list decl := [
  Decl "FENCE_BREACH_NONE" 0 0 (EnumEntry "FENCE_BREACH_NONE" [] false);
  Decl "FENCE_BREACH_MINALT" 1 1 (EnumEntry "FENCE_BREACH_MINALT" [] false);
  Decl "FENCE_BREACH_MAXALT" 2 2 (EnumEntry "FENCE_BREACH_MAXALT" [] false);
  Decl "FENCE_BREACH_BOUNDARY" 3 3 (EnumEntry "FENCE_BREACH_BOUNDARY" [] false);
  Decl "FENCE_BREACH_ENUM_END" 4 4 (EnumEntry "FENCE_BREACH_ENUM_END" [] false)].

Definition FENCE_MITIGATE : list decl := [
  Decl "FENCE_MITIGATE_UNKNOWN" 0 0 (EnumEntry "FENCE_MITIGATE_UNKNOWN" [] false);
  Decl "FENCE_MITIGATE_NONE" 1 1 (EnumEntry "FENCE_MITIGATE_NONE" [] false);
  Decl "FENCE_MITIGATE_VEL_LIMIT" 2 2 (EnumEntry "FENCE_MITIGATE_VEL_LIMIT" [] false);
  Decl "FENCE_MITIGATE_ENUM_END" 3 3 (EnumEntry "FENCE_MITIGATE_ENUM_END" [] false)].

Definition MAV_MOUNT_MODE : list decl := [
  Decl "MAV_MOUNT_MODE_RETRACT" 0 0 (EnumEntry "MAV_MOUNT_MODE_RETRACT" [] false);
  Decl "MAV_MOUNT_MODE_NEUTRAL" 1 1 (EnumEntry "MAV_MOUNT_MODE_NEUTRAL" [] false);
  Decl "MAV_MOUNT_MODE_MAVLINK_TARGETING" 2 2 (EnumEntry "MAV_MOUNT_MODE_MAVLINK_TARGETING" [] false);
  Decl "MAV_MOUNT_MODE_RC_TARGETING" 3 3 (EnumEntry "MAV_MOUNT_MODE_RC_TARGETING" [] false);
  Decl "MAV_MOUNT_MODE_GPS_POINT" 4 4 (EnumEntry "MAV_MOUNT_MODE_GPS_POINT" [] false);
  Decl "MAV_MOUNT_MODE_SYSID_TARGET" 5 5 (EnumEntry "MAV_MOUNT_MODE_SYSID_TARGET" [] false);
  Decl "MAV_MOUNT_MODE_HOME_LOCATION" 6 6 (EnumEntry "MAV_MOUNT_MODE_HOME_LOCATION" [] false);
  Decl "MAV_MOUNT_MODE_ENUM_END" 7 7 (EnumEntry "MAV_MOUNT_MODE_ENUM_END" [] false)].

Definition GIMBAL_DEVICE_CAP_FLAGS : list decl := [
  Decl "GIMBAL_DEVICE_CAP_FLAGS_HAS_RETRACT" 1 1 (EnumEntry "GIMBAL_DEVICE_CAP_FLAGS_HAS_RETRACT" [] false);
  Decl "GIMBAL_DEVICE_CAP_FLAGS_HAS_NEUTRAL" 2 2 (EnumEntry "GIMBAL_DEVICE_CAP_FLAGS_HAS_NEUTRAL" [] false);
  Decl "GIMBAL_DEVICE_CAP_FLAGS_HAS_ROLL_AXIS" 4 4 (EnumEntry "GIMBAL_DEVICE_CAP_FLAGS_HAS_ROLL_AXIS" [] false);
  Decl "GIMBAL_DEVICE_CAP_FLAGS_HAS_ROLL_FOLLOW" 8 8 (EnumEntry "GIMBAL_DEVICE_CAP_FLAGS_HAS_ROLL_FOLLOW" [] false);
  Decl "GIMBAL_DEVICE_CAP_FLAGS_HAS_ROLL_LOCK" 16 16 (EnumEntry "GIMBAL_DEVICE_CAP_FLAGS_HAS_ROLL_LOCK" [] false);
  Decl "GIMBAL_DEVICE_CAP_FLAGS_HAS_PITCH_AXIS" 32 32 (EnumEntry "GIMBAL_DEVICE_CAP_FLAGS_HAS_PITCH_AXIS" [] false);
  Decl "GIMBAL_DEVICE_CAP_FLAGS_HAS_PITCH_FOLLOW" 64 64 (EnumEntry "GIMBAL_DEVICE_CAP_FLAGS_HAS_PITCH_FOLLOW" [] false);
  Decl "GIMBAL_DEVICE_CAP_FLAGS_HAS_PITCH_LOCK" 128 128 (EnumEntry "GIMBAL_DEVICE_CAP_FLAGS_HAS_PITCH_LOCK" [] false);
  Decl "GIMBAL_DEVICE_CAP_FLAGS_HAS_YAW_AXIS" 256 256 (EnumEntry "GIMBAL_DEVICE_CAP_FLAGS_HAS_YAW_AXIS" [] false);
  Decl "GIMBAL_DEVICE_CAP_FLAGS_HAS_YAW_FOLLOW" 512 512 (EnumEntry "GIMBAL_DEVICE_CAP_FLAGS_HAS_YAW_FOLLOW" [] false);
  Decl "GIMBAL_DEVICE_CAP_FLAGS_HAS_YAW_LOCK" 1024 1024 (EnumEntry "GIMBAL_DEVICE_CAP_FLAGS_HAS_YAW_LOCK" [] false);
  Decl "GIMBAL_DEVICE_CAP_FLAGS_SUPPORTS_INFINITE_YAW" 2048 2048 (EnumEntry "GIMBAL_DEVICE_CAP_FLAGS_SUPPORTS_INFINITE_YAW" [] false);
  Decl "GIMBAL_DEVICE_CAP_FLAGS_SUPPORTS_YAW_IN_EARTH_FRAME" 4096 4096 (EnumEntry "GIMBAL_DEVICE_CAP_FLAGS_SUPPORTS_YAW_IN_EARTH_FRAME" [] false);
  Decl "GIMBAL_DEVICE_CAP_FLAGS_HAS_RC_INPUTS" 8192 8192 (EnumEntry "GIMBAL_DEVICE_CAP_FLAGS_HAS_RC_INPUTS" [] false);
  Decl "GIMBAL_DEVICE_CAP_FLAGS_ENUM_END" 8193 8193 (EnumEntry "GIMBAL_DEVICE_CAP_FLAGS_ENUM_END" [] false)].

Definition GIMBAL_MANAGER_CAP_FLAGS : list decl := [
  Decl "GIMBAL_MANAGER_CAP_FLAGS_HAS_RETRACT" 1 1 (EnumEntry "GIMBAL_MANAGER_CAP_FLAGS_HAS_RETRACT" [] false);
  Decl "GIMBAL_MANAGER_CAP_FLAGS_HAS_NEUTRAL" 2 2 (EnumEntry "GIMBAL_MANAGER_CAP_FLAGS_HAS_NEUTRAL" [] false);
  Decl "GIMBAL_MANAGER_CAP_FLAGS_HAS_ROLL_AXIS" 4 4 (EnumEntry "GIMBAL_MANAGER_CAP_FLAGS_HAS_ROLL_AXIS" [] false);
  Decl "GIMBAL_MANAGER_CAP_FLAGS_HAS_ROLL_FOLLOW" 8 8 (EnumEntry "GIMBAL_MANAGER_CAP_FLAGS_HAS_ROLL_FOLLOW" [] false);
  Decl "GIMBAL_MANAGER_CAP_FLAGS_HAS_ROLL_LOCK" 16 16 (EnumEntry "GIMBAL_MANAGER_CAP_FLAGS_HAS_ROLL_LOCK" [] false);
  Decl "GIMBAL_MANAGER_CAP_FLAGS_HAS_PITCH_AXIS" 32 32 (EnumEntry "GIMBAL_MANAGER_CAP_FLAGS_HAS_PITCH_AXIS" [] false);
  Decl "GIMBAL_MANAGER_CAP_FLAGS_HAS_PITCH_FOLLOW" 64 64 (EnumEntry "GIMBAL_MANAGER_CAP_FLAGS_HAS_PITCH_FOLLOW" [] false);
  Decl "GIMBAL_MANAGER_CAP_FLAGS_HAS_PITCH_LOCK" 128 128 (EnumEntry "GIMBAL_MANAGER_CAP_FLAGS_HAS_PITCH_LOCK" [] false);
  Decl "GIMBAL_MANAGER_CAP_FLAGS_HAS_YAW_AXIS" 256 256 (EnumEntry "GIMBAL_MANAGER_CAP_FLAGS_HAS_YAW_AXIS" [] false);
  Decl "GIMBAL_MANAGER_CAP_FLAGS_HAS_YAW_FOLLOW" 512 512 (EnumEntry "GIMBAL_MANAGER_CAP_FLAGS_HAS_YAW_FOLLOW" [] false);
  Decl "GIMBAL_MANAGER_CAP_FLAGS_HAS_YAW_LOCK" 1024 1024 (EnumEntry "GIMBAL_MANAGER_CAP_FLAGS_HAS_YAW_LOCK" [] false);
  Decl "GIMBAL_MANAGER_CAP_FLAGS_SUPPORTS_INFINITE_YAW" 2048 2048 (EnumEntry "GIMBAL_MANAGER_CAP_FLAGS_SUPPORTS_INFINITE_YAW" [] false);
  Decl "GIMBAL_DEVICE_CAP_FLAGS_SUPPORTS_YAW_IN_EARTH_FRAME" 4096 4096 (EnumEntry "GIMBAL_DEVICE_CAP_FLAGS_SUPPORTS_YAW_IN_EARTH_FRAME" [] false);
  Decl "GIMBAL_DEVICE_CAP_FLAGS_HAS_RC_INPUTS" 8192 8192 (EnumEntry "GIMBAL_DEVICE_CAP_FLAGS_HAS_RC_INPUTS" [] false);
  Decl "GIMBAL_MANAGER_CAP_FLAGS_CAN_POINT_LOCATION_LOCAL" 65536 65536 (EnumEntry "GIMBAL_MANAGER_CAP_FLAGS_CAN_POINT_LOCATION_LOCAL" [] false);
  Decl "GIMBAL_MANAGER_CAP_FLAGS_CAN_POINT_LOCATION_GLOBAL" 131072 131072 (EnumEntry "GIMBAL_MANAGER_CAP_FLAGS_CAN_POINT_LOCATION_GLOBAL" [] false);
  Decl "GIMBAL_MANAGER_CAP_FLAGS_ENUM_END" 131073 131073 (EnumEntry "GIMBAL_MANAGER_CAP_FLAGS_ENUM_END" [] false)].

Definition GIMBAL_DEVICE_FLAGS : list decl := [
  Decl "GIMBAL_DEVICE_FLAGS_RETRACT" 1 1 (EnumEntry "GIMBAL_DEVICE_FLAGS_RETRACT" [] false);
  Decl "GIMBAL_DEVICE_FLAGS_NEUTRAL" 2 2 (EnumEntry "GIMBAL_DEVICE_FLAGS_NEUTRAL" [] false);
  Decl "GIMBAL_DEVICE_FLAGS_ROLL_LOCK" 4 4 (EnumEntry "GIMBAL_DEVICE_FLAGS_ROLL_LOCK" [] false);
  Decl "GIMBAL_DEVICE_FLAGS_PITCH_LOCK" 8 8 (EnumEntry "GIMBAL_DEVICE_FLAGS_PITCH_LOCK" [] false);
  Decl "GIMBAL_DEVICE_FLAGS_YAW_LOCK" 16 16 (EnumEntry "GIMBAL_DEVICE_FLAGS_YAW_LOCK" [] false);
  Decl "GIMBAL_DEVICE_FLAGS_YAW_IN_VEHICLE_FRAME" 32 32 (EnumEntry "GIMBAL_DEVICE_FLAGS_YAW_IN_VEHICLE_FRAME" [] false);
  Decl "GIMBAL_DEVICE_FLAGS_YAW_IN_EARTH_FRAME" 64 64 (EnumEntry "GIMBAL_DEVICE_FLAGS_YAW_IN_EARTH_FRAME" [] false);
  Decl "GIMBAL_DEVICE_FLAGS_ACCEPTS_YAW_IN_EARTH_FRAME" 128 128 (EnumEntry "GIMBAL_DEVICE_FLAGS_ACCEPTS_YAW_IN_EARTH_FRAME" [] false);
  Decl "GIMBAL_DEVICE_FLAGS_RC_EXCLUSIVE" 256 256 (EnumEntry "GIMBAL_DEVICE_FLAGS_RC_EXCLUSIVE" [] false);
  Decl "GIMBAL_DEVICE_FLAGS_RC_MIXED" 512 512 (EnumEntry "GIMBAL_DEVICE_FLAGS_RC_MIXED" [] false);
  Decl "GIMBAL_DEVICE_FLAGS_ENUM_END" 513 513 (EnumEntry "GIMBAL_DEVICE_FLAGS_ENUM_END" [] false)].

Definition GIMBAL_MANAGER_FLAGS : list decl := [
  Decl "GIMBAL_MANAGER_FLAGS_RETRACT" 1 1 (EnumEntry "GIMBAL_MANAGER_FLAGS_RETRACT" [] false);
  Decl "GIMBAL_MANAGER_FLAGS_NEUTRAL" 2 2 (EnumEntry "GIMBAL_MANAGER_FLAGS_NEUTRAL" [] false);
  Decl "GIMBAL_MANAGER_FLAGS_ROLL_LOCK" 4 4 (EnumEntry "GIMBAL_MANAGER_FLAGS_ROLL_LOCK" [] false);
  Decl "GIMBAL_MANAGER_FLAGS_PITCH_LOCK" 8 8 (EnumEntry "GIMBAL_MANAGER_FLAGS_PITCH_LOCK" [] false);
  Decl "GIMBAL_MANAGER_FLAGS_YAW_LOCK" 16 16 (EnumEntry "GIMBAL_MANAGER_FLAGS_YAW_LOCK" [] false);
  Decl "GIMBAL_MANAGER_FLAGS_YAW_IN_VEHICLE_FRAME" 32 32 (EnumEntry "GIMBAL_MANAGER_FLAGS_YAW_IN_VEHICLE_FRAME" [] false);
  Decl "GIMBAL_MANAGER_FLAGS_YAW_IN_EARTH_FRAME" 64 64 (EnumEntry "GIMBAL_MANAGER_FLAGS_YAW_IN_EARTH_FRAME" [] false);
  Decl "GIMBAL_MANAGER_FLAGS_ACCEPTS_YAW_IN_EARTH_FRAME" 128 128 (EnumEntry "GIMBAL_MANAGER_FLAGS_ACCEPTS_YAW_IN_EARTH_FRAME" [] false);
  Decl "GIMBAL_MANAGER_FLAGS_RC_EXCLUSIVE" 256 256 (EnumEntry "GIMBAL_MANAGER_FLAGS_RC_EXCLUSIVE" [] false);
  Decl "GIMBAL_MANAGER_FLAGS_RC_MIXED" 512 512 (EnumEntry "GIMBAL_MANAGER_FLAGS_RC_MIXED" [] false);
  Decl "GIMBAL_MANAGER_FLAGS_ENUM_END" 513 513 (EnumEntry "GIMBAL_MANAGER_FLAGS_ENUM_END" [] false)].

Definition GIMBAL_DEVICE_ERROR_FLAGS : list decl := [
  Decl "GIMBAL_DEVICE_ERROR_FLAGS_AT_ROLL_LIMIT" 1 1 (EnumEntry "GIMBAL_DEVICE_ERROR_FLAGS_AT_ROLL_LIMIT" [] false);
  Decl "GIMBAL_DEVICE_ERROR_FLAGS_AT_PITCH_LIMIT" 2 2 (EnumEntry "GIMBAL_DEVICE_ERROR_FLAGS_AT_PITCH_LIMIT" [] false);
  Decl "GIMBAL_DEVICE_ERROR_FLAGS_AT_YAW_LIMIT" 4 4 (EnumEntry "GIMBAL_DEVICE_ERROR_FLAGS_AT_YAW_LIMIT" [] false);
  Decl "GIMBAL_DEVICE_ERROR_FLAGS_ENCODER_ERROR" 8 8 (EnumEntry "GIMBAL_DEVICE_ERROR_FLAGS_ENCODER_ERROR" [] false);
  Decl "GIMBAL_DEVICE_ERROR_FLAGS_POWER_ERROR" 16 16 (EnumEntry "GIMBAL_DEVICE_ERROR_FLAGS_POWER_ERROR" [] false);
  Decl "GIMBAL_DEVICE_ERROR_FLAGS_MOTOR_ERROR" 32 32 (EnumEntry "GIMBAL_DEVICE_ERROR_FLAGS_MOTOR_ERROR" [] false);
  Decl "GIMBAL_DEVICE_ERROR_FLAGS_SOFTWARE_ERROR" 64 64 (EnumEntry "GIMBAL_DEVICE_ERROR_FLAGS_SOFTWARE_ERROR" [] false);
  Decl "GIMBAL_DEVICE_ERROR_FLAGS_COMMS_ERROR" 128 128 (EnumEntry "GIMBAL_DEVICE_ERROR_FLAGS_COMMS_ERROR" [] false);
  Decl "GIMBAL_DEVICE_ERROR_FLAGS_CALIBRATION_RUNNING" 256 256 (EnumEntry "GIMBAL_DEVICE_ERROR_FLAGS_CALIBRATION_RUNNING" [] false);
  Decl "GIMBAL_DEVICE_ERROR_FLAGS_NO_MANAGER" 512 512 (EnumEntry "GIMBAL_DEVICE_ERROR_FLAGS_NO_MANAGER" [] false);
  Decl "GIMBAL_DEVICE_ERROR_FLAGS_ENUM_END" 513 513 (EnumEntry "GIMBAL_DEVICE_ERROR_FLAGS_ENUM_END" [] false)].

Definition GRIPPER_ACTIONS : list decl := [
  Decl "GRIPPER_ACTION_RELEASE" 0 0 (EnumEntry "GRIPPER_ACTION_RELEASE" [] false);
  Decl "GRIPPER_ACTION_GRAB" 1 1 (EnumEntry "GRIPPER_ACTION_GRAB" [] false);
  Decl "GRIPPER_ACTIONS_ENUM_END" 2 2 (EnumEntry "GRIPPER_ACTIONS_ENUM_END" [] false)].

Definition WINCH_ACTIONS : list decl := [
  Decl "WINCH_RELAXED" 0 0 (EnumEntry "WINCH_RELAXED" [] false);
  Decl "WINCH_RELATIVE_LENGTH_CONTROL" 1 1 (EnumEntry "WINCH_RELATIVE_LENGTH_CONTROL" [] false);
  Decl "WINCH_RATE_CONTROL" 2 2 (EnumEntry "WINCH_RATE_CONTROL" [] false);
  Decl "WINCH_LOCK" 3 3 (EnumEntry "WINCH_LOCK" [] false);
  Decl "WINCH_DELIVER" 4 4 (EnumEntry "WINCH_DELIVER" [] false);
  Decl "WINCH_HOLD" 5 5 (EnumEntry "WINCH_HOLD" [] false);
  Decl "WINCH_RETRACT" 6 6 (EnumEntry "WINCH_RETRACT" [] false);
  Decl "WINCH_LOAD_LINE" 7 7 (EnumEntry "WINCH_LOAD_LINE" [] false);
  Decl "WINCH_ABANDON_LINE" 8 8 (EnumEntry "WINCH_ABANDON_LINE" [] false);
  Decl "WINCH_LOAD_PAYLOAD" 9 9 (EnumEntry "WINCH_LOAD_PAYLOAD" [] false);
  Decl "WINCH_ACTIONS_ENUM_END" 10 10 (EnumEntry "WINCH_ACTIONS_ENUM_END" [] false)].

Definition UAVCAN_NODE_HEALTH : list decl := [
  Decl "UAVCAN_NODE_HEALTH_OK" 0 0 (EnumEntry "UAVCAN_NODE_HEALTH_OK" [] false);
  Decl "UAVCAN_NODE_HEALTH_WARNING" 1 1 (EnumEntry "UAVCAN_NODE_HEALTH_WARNING" [] false);
  Decl "UAVCAN_NODE_HEALTH_ERROR" 2 2 (EnumEntry "UAVCAN_NODE_HEALTH_ERROR" [] false);
  Decl "UAVCAN_NODE_HEALTH_CRITICAL" 3 3 (EnumEntry "UAVCAN_NODE_HEALTH_CRITICAL" [] false);
  Decl "UAVCAN_NODE_HEALTH_ENUM_END" 4 4 (EnumEntry "UAVCAN_NODE_HEALTH_ENUM_END" [] false)].

Definition UAVCAN_NODE_MODE : list decl := [
  Decl "UAVCAN_NODE_MODE_OPERATIONAL" 0 0 (EnumEntry "UAVCAN_NODE_MODE_OPERATIONAL" [] false);
  Decl "UAVCAN_NODE_MODE_INITIALIZATION" 1 1 (EnumEntry "UAVCAN_NODE_MODE_INITIALIZATION" [] false);
  Decl "UAVCAN_NODE_MODE_MAINTENANCE" 2 2 (EnumEntry "UAVCAN_NODE_MODE_MAINTENANCE" [] false);
  Decl "UAVCAN_NODE_MODE_SOFTWARE_UPDATE" 3 3 (EnumEntry "UAVCAN_NODE_MODE_SOFTWARE_UPDATE" [] false);
  Decl "UAVCAN_NODE_MODE_OFFLINE" 7 7 (EnumEntry "UAVCAN_NODE_MODE_OFFLINE" [] false);
  Decl "UAVCAN_NODE_MODE_ENUM_END" 8 8 (EnumEntry "UAVCAN_NODE_MODE_ENUM_END" [] false)].

Definition ESC_CONNECTION_TYPE : list decl := [
  Decl "ESC_CONNECTION_TYPE_PPM" 0 0 (EnumEntry "ESC_CONNECTION_TYPE_PPM" [] false);
  Decl "ESC_CONNECTION_TYPE_SERIAL" 1 1 (EnumEntry "ESC_CONNECTION_TYPE_SERIAL" [] false);
  Decl "ESC_CONNECTION_TYPE_ONESHOT" 2 2 (EnumEntry "ESC_CONNECTION_TYPE_ONESHOT" [] false);
  Decl "ESC_CONNECTION_TYPE_I2C" 3 3 (EnumEntry "ESC_CONNECTION_TYPE_I2C" [] false);
  Decl "ESC_CONNECTION_TYPE_CAN" 4 4 (EnumEntry "ESC_CONNECTION_TYPE_CAN" [] false);
  Decl "ESC_CONNECTION_TYPE_DSHOT" 5 5 (EnumEntry "ESC_CONNECTION_TYPE_DSHOT" [] false);
  Decl "ESC_CONNECTION_TYPE_ENUM_END" 6 6 (EnumEntry "ESC_CONNECTION_TYPE_ENUM_END" [] false)].

Definition ESC_FAILURE_FLAGS : list decl := [
  Decl "ESC_FAILURE_NONE" 0 0 (EnumEntry "ESC_FAILURE_NONE" [] false);
  Decl "ESC_FAILURE_OVER_CURRENT" 1 1 (EnumEntry "ESC_FAILURE_OVER_CURRENT" [] false);
  Decl "ESC_FAILURE_OVER_VOLTAGE" 2 2 (EnumEntry "ESC_FAILURE_OVER_VOLTAGE" [] false);
  Decl "ESC_FAILURE_OVER_TEMPERATURE" 4 4 (EnumEntry "ESC_FAILURE_OVER_TEMPERATURE" [] false);
  Decl "ESC_FAILURE_OVER_RPM" 8 8 (EnumEntry "ESC_FAILURE_OVER_RPM" [] false);
  Decl "ESC_FAILURE_INCONSISTENT_CMD" 16 16 (EnumEntry "ESC_FAILURE_INCONSISTENT_CMD" [] false);
  Decl "ESC_FAILURE_MOTOR_STUCK" 32 32 (EnumEntry "ESC_FAILURE_MOTOR_STUCK" [] false);
  Decl "ESC_FAILURE_GENERIC" 64 64 (EnumEntry "ESC_FAILURE_GENERIC" [] false);
  Decl "ESC_FAILURE_FLAGS_ENUM_END" 65 65 (EnumEntry "ESC_FAILURE_FLAGS_ENUM_END" [] false)].

Definition STORAGE_STATUS : list decl := [
  Decl "STORAGE_STATUS_EMPTY" 0 0 (EnumEntry "STORAGE_STATUS_EMPTY" [] false);
  Decl "STORAGE_STATUS_UNFORMATTED" 1 1 (EnumEntry "STORAGE_STATUS_UNFORMATTED" [] false);
  Decl "STORAGE_STATUS_READY" 2 2 (EnumEntry "STORAGE_STATUS_READY" [] false);
  Decl "STORAGE_STATUS_NOT_SUPPORTED" 3 3 (EnumEntry "STORAGE_STATUS_NOT_SUPPORTED" [] false);
  Decl "STORAGE_STATUS_ENUM_END" 4 4 (EnumEntry "STORAGE_STATUS_ENUM_END" [] false)].

Definition STORAGE_TYPE : list decl := [
  Decl "STORAGE_TYPE_UNKNOWN" 0 0 (EnumEntry "STORAGE_TYPE_UNKNOWN" [] false);
  Decl "STORAGE_TYPE_USB_STICK" 1 1 (EnumEntry "STORAGE_TYPE_USB_STICK" [] false);
  Decl "STORAGE_TYPE_SD" 2 2 (EnumEntry "STORAGE_TYPE_SD" [] false);
  Decl "STORAGE_TYPE_MICROSD" 3 3 (EnumEntry "STORAGE_TYPE_MICROSD" [] false);
  Decl "STORAGE_TYPE_CF" 4 4 (EnumEntry "STORAGE_TYPE_CF" [] false);
  Decl "STORAGE_TYPE_CFE" 5 5 (EnumEntry "STORAGE_TYPE_CFE" [] false);
  Decl "STORAGE_TYPE_XQD" 6 6 (EnumEntry "STORAGE_TYPE_XQD" [] false);
  Decl "STORAGE_TYPE_HD" 7 7 (EnumEntry "STORAGE_TYPE_HD" [] false);
  Decl "STORAGE_TYPE_OTHER" 254 254 (EnumEntry "STORAGE_TYPE_OTHER" [] false);
  Decl "STORAGE_TYPE_ENUM_END" 255 255 (EnumEntry "STORAGE_TYPE_ENUM_END" [] false)].

Definition STORAGE_USAGE_FLAG : list decl := [
  Decl "STORAGE_USAGE_FLAG_SET" 1 1 (EnumEntry "STORAGE_USAGE_FLAG_SET" [] false);
  Decl "STORAGE_USAGE_FLAG_PHOTO" 2 2 (EnumEntry "STORAGE_USAGE_FLAG_PHOTO" [] false);
  Decl "STORAGE_USAGE_FLAG_VIDEO" 4 4 (EnumEntry "STORAGE_USAGE_FLAG_VIDEO" [] false);
  Decl "STORAGE_USAGE_FLAG_LOGS" 8 8 (EnumEntry "STORAGE_USAGE_FLAG_LOGS" [] false);
  Decl "STORAGE_USAGE_FLAG_ENUM_END" 9 9 (EnumEntry "STORAGE_USAGE_FLAG_ENUM_END" [] false)].

Definition ORBIT_YAW_BEHAVIOUR : list decl := [
  Decl "ORBIT_YAW_BEHAVIOUR_HOLD_FRONT_TO_CIRCLE_CENTER" 0 0 (EnumEntry "ORBIT_YAW_BEHAVIOUR_HOLD_FRONT_TO_CIRCLE_CENTER" [] false);
  Decl "ORBIT_YAW_BEHAVIOUR_HOLD_INITIAL_HEADING" 1 1 (EnumEntry "ORBIT_YAW_BEHAVIOUR_HOLD_INITIAL_HEADING" [] false);
  Decl "ORBIT_YAW_BEHAVIOUR_UNCONTROLLED" 2 2 (EnumEntry "ORBIT_YAW_BEHAVIOUR_UNCONTROLLED" [] false);
  Decl "ORBIT_YAW_BEHAVIOUR_HOLD_FRONT_TANGENT_TO_CIRCLE" 3 3 (EnumEntry "ORBIT_YAW_BEHAVIOUR_HOLD_FRONT_TANGENT_TO_CIRCLE" [] false);
  Decl "ORBIT_YAW_BEHAVIOUR_RC_CONTROLLED" 4 4 (EnumEntry "ORBIT_YAW_BEHAVIOUR_RC_CONTROLLED" [] false);
  Decl "ORBIT_YAW_BEHAVIOUR_ENUM_END" 5 5 (EnumEntry "ORBIT_YAW_BEHAVIOUR_ENUM_END" [] false)].

Definition WIFI_CONFIG_AP_RESPONSE : list decl := [
  Decl "WIFI_CONFIG_AP_RESPONSE_UNDEFINED" 0 0 (EnumEntry "WIFI_CONFIG_AP_RESPONSE_UNDEFINED" [] false);
  Decl "WIFI_CONFIG_AP_RESPONSE_ACCEPTED" 1 1 (EnumEntry "WIFI_CONFIG_AP_RESPONSE_ACCEPTED" [] false);
  Decl "WIFI_CONFIG_AP_RESPONSE_REJECTED" 2 2 (EnumEntry "WIFI_CONFIG_AP_RESPONSE_REJECTED" [] false);
  Decl "WIFI_CONFIG_AP_RESPONSE_MODE_ERROR" 3 3 (EnumEntry "WIFI_CONFIG_AP_RESPONSE_MODE_ERROR" [] false);
  Decl "WIFI_CONFIG_AP_RESPONSE_SSID_ERROR" 4 4 (EnumEntry "WIFI_CONFIG_AP_RESPONSE_SSID_ERROR" [] false);
  Decl "WIFI_CONFIG_AP_RESPONSE_PASSWORD_ERROR" 5 5 (EnumEntry "WIFI_CONFIG_AP_RESPONSE_PASSWORD_ERROR" [] false);
  Decl "WIFI_CONFIG_AP_RESPONSE_ENUM_END" 6 6 (EnumEntry "WIFI_CONFIG_AP_RESPONSE_ENUM_END" [] false)].

Definition CELLULAR_CONFIG_RESPONSE : list decl := [
  Decl "CELLULAR_CONFIG_RESPONSE_ACCEPTED" 0 0 (EnumEntry "CELLULAR_CONFIG_RESPONSE_ACCEPTED" [] false);
  Decl "CELLULAR_CONFIG_RESPONSE_APN_ERROR" 1 1 (EnumEntry "CELLULAR_CONFIG_RESPONSE_APN_ERROR" [] false);
  Decl "CELLULAR_CONFIG_RESPONSE_PIN_ERROR" 2 2 (EnumEntry "CELLULAR_CONFIG_RESPONSE_PIN_ERROR" [] false);
  Decl "CELLULAR_CONFIG_RESPONSE_REJECTED" 3 3 (EnumEntry "CELLULAR_CONFIG_RESPONSE_REJECTED" [] false);
  Decl "CELLULAR_CONFIG_BLOCKED_PUK_REQUIRED" 4 4 (EnumEntry "CELLULAR_CONFIG_BLOCKED_PUK_REQUIRED" [] false);
  Decl "CELLULAR_CONFIG_RESPONSE_ENUM_END" 5 5 (EnumEntry "CELLULAR_CONFIG_RESPONSE_ENUM_END" [] false)].

Definition WIFI_CONFIG_AP_MODE : list decl := [
  Decl "WIFI_CONFIG_AP_MODE_UNDEFINED" 0 0 (EnumEntry "WIFI_CONFIG_AP_MODE_UNDEFINED" [] false);
  Decl "WIFI_CONFIG_AP_MODE_AP" 1 1 (EnumEntry "WIFI_CONFIG_AP_MODE_AP" [] false);
  Decl "WIFI_CONFIG_AP_MODE_STATION" 2 2 (EnumEntry "WIFI_CONFIG_AP_MODE_STATION" [] false);
  Decl "WIFI_CONFIG_AP_MODE_DISABLED" 3 3 (EnumEntry "WIFI_CONFIG_AP_MODE_DISABLED" [] false);
  Decl "WIFI_CONFIG_AP_MODE_ENUM_END" 4 4 (EnumEntry "WIFI_CONFIG_AP_MODE_ENUM_END" [] false)].

Definition COMP_METADATA_TYPE : list decl := [
  Decl "COMP_METADATA_TYPE_GENERAL" 0 0 (EnumEntry "COMP_METADATA_TYPE_GENERAL" [] false);
  Decl "COMP_METADATA_TYPE_PARAMETER" 1 1 (EnumEntry "COMP_METADATA_TYPE_PARAMETER" [] false);
  Decl "COMP_METADATA_TYPE_COMMANDS" 2 2 (EnumEntry "COMP_METADATA_TYPE_COMMANDS" [] false);
  Decl "COMP_METADATA_TYPE_PERIPHERALS" 3 3 (EnumEntry "COMP_METADATA_TYPE_PERIPHERALS" [] false);
  Decl "COMP_METADATA_TYPE_EVENTS" 4 4 (EnumEntry "COMP_METADATA_TYPE_EVENTS" [] false);
  Decl "COMP_METADATA_TYPE_ACTUATORS" 5 5 (EnumEntry "COMP_METADATA_TYPE_ACTUATORS" [] false);
  Decl "COMP_METADATA_TYPE_ENUM_END" 6 6 (EnumEntry "COMP_METADATA_TYPE_ENUM_END" [] false)].

Definition ACTUATOR_CONFIGURATION : list decl := [
  Decl "ACTUATOR_CONFIGURATION_NONE" 0 0 (EnumEntry "ACTUATOR_CONFIGURATION_NONE" [] false);
  Decl "ACTUATOR_CONFIGURATION_BEEP" 1 1 (EnumEntry "ACTUATOR_CONFIGURATION_BEEP" [] false);
  Decl "ACTUATOR_CONFIGURATION_3D_MODE_ON" 2 2 (EnumEntry "ACTUATOR_CONFIGURATION_3D_MODE_ON" [] false);
  Decl "ACTUATOR_CONFIGURATION_3D_MODE_OFF" 3 3 (EnumEntry "ACTUATOR_CONFIGURATION_3D_MODE_OFF" [] false);
  Decl "ACTUATOR_CONFIGURATION_SPIN_DIRECTION1" 4 4 (EnumEntry "ACTUATOR_CONFIGURATION_SPIN_DIRECTION1" [] false);
  Decl "ACTUATOR_CONFIGURATION_SPIN_DIRECTION2" 5 5 (EnumEntry "ACTUATOR_CONFIGURATION_SPIN_DIRECTION2" [] false);
  Decl "ACTUATOR_CONFIGURATION_ENUM_END" 6 6 (EnumEntry "ACTUATOR_CONFIGURATION_ENUM_END" [] false)].

Definition ACTUATOR_OUTPUT_FUNCTION : list decl := [
  Decl "ACTUATOR_OUTPUT_FUNCTION_NONE" 0 0 (EnumEntry "ACTUATOR_OUTPUT_FUNCTION_NONE" [] false);
  Decl "ACTUATOR_OUTPUT_FUNCTION_MOTOR1" 1 1 (EnumEntry "ACTUATOR_OUTPUT_FUNCTION_MOTOR1" [] false);
  Decl "ACTUATOR_OUTPUT_FUNCTION_MOTOR2" 2 2 (EnumEntry "ACTUATOR_OUTPUT_FUNCTION_MOTOR2" [] false);
  Decl "ACTUATOR_OUTPUT_FUNCTION_MOTOR3" 3 3 (EnumEntry "ACTUATOR_OUTPUT_FUNCTION_MOTOR3" [] false);
  Decl "ACTUATOR_OUTPUT_FUNCTION_MOTOR4" 4 4 (EnumEntry "ACTUATOR_OUTPUT_FUNCTION_MOTOR4" [] false);
  Decl "ACTUATOR_OUTPUT_FUNCTION_MOTOR5" 5 5 (EnumEntry "ACTUATOR_OUTPUT_FUNCTION_MOTOR5" [] false);
  Decl "ACTUATOR_OUTPUT_FUNCTION_MOTOR6" 6 6 (EnumEntry "ACTUATOR_OUTPUT_FUNCTION_MOTOR6" [] false);
  Decl "ACTUATOR_OUTPUT_FUNCTION_MOTOR7" 7 7 (EnumEntry "ACTUATOR_OUTPUT_FUNCTION_MOTOR7" [] false);
  Decl "ACTUATOR_OUTPUT_FUNCTION_MOTOR8" 8 8 (EnumEntry "ACTUATOR_OUTPUT_FUNCTION_MOTOR8" [] false);
  Decl "ACTUATOR_OUTPUT_FUNCTION_MOTOR9" 9 9 (EnumEntry "ACTUATOR_OUTPUT_FUNCTION_MOTOR9" [] false);
  Decl "ACTUATOR_OUTPUT_FUNCTION_MOTOR10" 10 10 (EnumEntry "ACTUATOR_OUTPUT_FUNCTION_MOTOR10" [] false);
  Decl "ACTUATOR_OUTPUT_FUNCTION_MOTOR11" 11 11 (EnumEntry "ACTUATOR_OUTPUT_FUNCTION_MOTOR11" [] false);
  Decl "ACTUATOR_OUTPUT_FUNCTION_MOTOR12" 12 12 (EnumEntry "ACTUATOR_OUTPUT_FUNCTION_MOTOR12" [] false);
  Decl "ACTUATOR_OUTPUT_FUNCTION_MOTOR13" 13 13 (EnumEntry "ACTUATOR_OUTPUT_FUNCTION_MOTOR13" [] false);
  Decl "ACTUATOR_OUTPUT_FUNCTION_MOTOR14" 14 14 (EnumEntry "ACTUATOR_OUTPUT_FUNCTION_MOTOR14" [] false);
  Decl "ACTUATOR_OUTPUT_FUNCTION_MOTOR15" 15 15 (EnumEntry "ACTUATOR_OUTPUT_FUNCTION_MOTOR15" [] false);
  Decl "ACTUATOR_OUTPUT_FUNCTION_MOTOR16" 16 16 (EnumEntry "ACTUATOR_OUTPUT_FUNCTION_MOTOR16" [] false);
  Decl "ACTUATOR_OUTPUT_FUNCTION_SERVO1" 33 33 (EnumEntry "ACTUATOR_OUTPUT_FUNCTION_SERVO1" [] false);
  Decl "ACTUATOR_OUTPUT_FUNCTION_SERVO2" 34 34 (EnumEntry "ACTUATOR_OUTPUT_FUNCTION_SERVO2" [] false);
  Decl "ACTUATOR_OUTPUT_FUNCTION_SERVO3" 35 35 (EnumEntry "ACTUATOR_OUTPUT_FUNCTION_SERVO3" [] false);
  Decl "ACTUATOR_OUTPUT_FUNCTION_SERVO4" 36 36 (EnumEntry "ACTUATOR_OUTPUT_FUNCTION_SERVO4" [] false);
  Decl "ACTUATOR_OUTPUT_FUNCTION_SERVO5" 37 37 (EnumEntry "ACTUATOR_OUTPUT_FUNCTION_SERVO5" [] false);
  Decl "ACTUATOR_OUTPUT_FUNCTION_SERVO6" 38 38 (EnumEntry "ACTUATOR_OUTPUT_FUNCTION_SERVO6" [] false);
  Decl "ACTUATOR_OUTPUT_FUNCTION_SERVO7" 39 39 (EnumEntry "ACTUATOR_OUTPUT_FUNCTION_SERVO7" [] false);
  Decl "ACTUATOR_OUTPUT_FUNCTION_SERVO8" 40 40 (EnumEntry "ACTUATOR_OUTPUT_FUNCTION_SERVO8" [] false);
  Decl "ACTUATOR_OUTPUT_FUNCTION_SERVO9" 41 41 (EnumEntry "ACTUATOR_OUTPUT_FUNCTION_SERVO9" [] false);
  Decl "ACTUATOR_OUTPUT_FUNCTION_SERVO10" 42 42 (EnumEntry "ACTUATOR_OUTPUT_FUNCTION_SERVO10" [] false);
  Decl "ACTUATOR_OUTPUT_FUNCTION_SERVO11" 43 43 (EnumEntry "ACTUATOR_OUTPUT_FUNCTION_SERVO11" [] false);
  Decl "ACTUATOR_OUTPUT_FUNCTION_SERVO12" 44 44 (EnumEntry "ACTUATOR_OUTPUT_FUNCTION_SERVO12" [] false);
  Decl "ACTUATOR_OUTPUT_FUNCTION_SERVO13" 45 45 (EnumEntry "ACTUATOR_OUTPUT_FUNCTION_SERVO13" [] false);
  Decl "ACTUATOR_OUTPUT_FUNCTION_SERVO14" 46 46 (EnumEntry "ACTUATOR_OUTPUT_FUNCTION_SERVO14" [] false);
  Decl "ACTUATOR_OUTPUT_FUNCTION_SERVO15" 47 47 (EnumEntry "ACTUATOR_OUTPUT_FUNCTION_SERVO15" [] false);
  Decl "ACTUATOR_OUTPUT_FUNCTION_SERVO16" 48 48 (EnumEntry "ACTUATOR_OUTPUT_FUNCTION_SERVO16" [] false);
  Decl "ACTUATOR_OUTPUT_FUNCTION_ENUM_END" 49 49 (EnumEntry "ACTUATOR_OUTPUT_FUNCTION_ENUM_END" [] false)].

Definition AUTOTUNE_AXIS : list decl := [
  Decl "AUTOTUNE_AXIS_DEFAULT" 0 0 (EnumEntry "AUTOTUNE_AXIS_DEFAULT" [] false);
  Decl "AUTOTUNE_AXIS_ROLL" 1 1 (EnumEntry "AUTOTUNE_AXIS_ROLL" [] false);
  Decl "AUTOTUNE_AXIS_PITCH" 2 2 (EnumEntry "AUTOTUNE_AXIS_PITCH" [] false);
  Decl "AUTOTUNE_AXIS_YAW" 4 4 (EnumEntry "AUTOTUNE_AXIS_YAW" [] false);
  Decl "AUTOTUNE_AXIS_ENUM_END" 5 5 (EnumEntry "AUTOTUNE_AXIS_ENUM_END" [] false)].

Definition PREFLIGHT_STORAGE_PARAMETER_ACTION : list decl := [
  Decl "PARAM_READ_PERSISTENT" 0 0 (EnumEntry "PARAM_READ_PERSISTENT" [] false);
  Decl "PARAM_WRITE_PERSISTENT" 1 1 (EnumEntry "PARAM_WRITE_PERSISTENT" [] false);
  Decl "PARAM_RESET_CONFIG_DEFAULT" 2 2 (EnumEntry "PARAM_RESET_CONFIG_DEFAULT" [] false);
  Decl "PARAM_RESET_SENSOR_DEFAULT" 3 3 (EnumEntry "PARAM_RESET_SENSOR_DEFAULT" [] false);
  Decl "PARAM_RESET_ALL_DEFAULT" 4 4 (EnumEntry "PARAM_RESET_ALL_DEFAULT" [] false);
  Decl "PREFLIGHT_STORAGE_PARAMETER_ACTION_ENUM_END" 5 5 (EnumEntry "PREFLIGHT_STORAGE_PARAMETER_ACTION_ENUM_END" [] false)].

Definition PREFLIGHT_STORAGE_MISSION_ACTION : list decl := [
  Decl "MISSION_READ_PERSISTENT" 0 0 (EnumEntry "MISSION_READ_PERSISTENT" [] false);
  Decl "MISSION_WRITE_PERSISTENT" 1 1 (EnumEntry "MISSION_WRITE_PERSISTENT" [] false);
  Decl "MISSION_RESET_DEFAULT" 2 2 (EnumEntry "MISSION_RESET_DEFAULT" [] false);
  Decl "PREFLIGHT_STORAGE_MISSION_ACTION_ENUM_END" 3 3 (EnumEntry "PREFLIGHT_STORAGE_MISSION_ACTION_ENUM_END" [] false)].

Definition MAV_CMD_part1 : list decl := [
  Decl "MAV_CMD_NAV_WAYPOINT" 16 16 (EnumEntry "MAV_CMD_NAV_WAYPOINT" [1; 2; 3; 4; 5; 6; 7] true);
  Decl "MAV_CMD_NAV_LOITER_UNLIM" 17 17 (EnumEntry "MAV_CMD_NAV_LOITER_UNLIM" [1; 2; 3; 4; 5; 6; 7] true);
  Decl "MAV_CMD_NAV_LOITER_TURNS" 18 18 (EnumEntry "MAV_CMD_NAV_LOITER_TURNS" [1; 2; 3; 4; 5; 6; 7] true);
  Decl "MAV_CMD_NAV_LOITER_TIME" 19 19 (EnumEntry "MAV_CMD_NAV_LOITER_TIME" [1; 2; 3; 4; 5; 6; 7] true);
  Decl "MAV_CMD_NAV_RETURN_TO_LAUNCH" 20 20 (EnumEntry "MAV_CMD_NAV_RETURN_TO_LAUNCH" [1; 2; 3; 4; 5; 6; 7] false);
  Decl "MAV_CMD_NAV_LAND" 21 21 (EnumEntry "MAV_CMD_NAV_LAND" [1; 2; 3; 4; 5; 6; 7] true);
  Decl "MAV_CMD_NAV_TAKEOFF" 22 22 (EnumEntry "MAV_CMD_NAV_TAKEOFF" [1; 2; 3; 4; 5; 6; 7] true);
  Decl "MAV_CMD_NAV_LAND_LOCAL" 23 23 (EnumEntry "MAV_CMD_NAV_LAND_LOCAL" [1; 2; 3; 4; 5; 6; 7] true);
  Decl "MAV_CMD_NAV_TAKEOFF_LOCAL" 24 24 (EnumEntry "MAV_CMD_NAV_TAKEOFF_LOCAL" [1; 2; 3; 4; 5; 6; 7] true);
  Decl "MAV_CMD_NAV_FOLLOW" 25 25 (EnumEntry "MAV_CMD_NAV_FOLLOW" [1; 2; 3; 4; 5; 6; 7] true);
  Decl "MAV_CMD_NAV_CONTINUE_AND_CHANGE_ALT" 30 30 (EnumEntry "MAV_CMD_NAV_CONTINUE_AND_CHANGE_ALT" [1; 2; 3; 4; 5; 6; 7] false);
  Decl "MAV_CMD_NAV_LOITER_TO_ALT" 31 31 (EnumEntry "MAV_CMD_NAV_LOITER_TO_ALT" [1; 2; 3; 4; 5; 6; 7] true);
  Decl "MAV_CMD_DO_FOLLOW" 32 32 (EnumEntry "MAV_CMD_DO_FOLLOW" [1; 2; 3; 4; 5; 6; 7] false);
  Decl "MAV_CMD_DO_FOLLOW_REPOSITION" 33 33 (EnumEntry "MAV_CMD_DO_FOLLOW_REPOSITION" [1; 2; 3; 4; 5; 6; 7] false);
  Decl "MAV_CMD_DO_ORBIT" 34 34 (EnumEntry "MAV_CMD_DO_ORBIT" [1; 2; 3; 4; 5; 6; 7] true)].

Definition MAV_CMD_part2 : list decl := [
  Decl "MAV_CMD_NAV_ROI" 80 80 (EnumEntry "MAV_CMD_NAV_ROI" [1; 2; 3; 4; 5; 6; 7] true);
  Decl "MAV_CMD_NAV_PATHPLANNING" 81 81 (EnumEntry "MAV_CMD_NAV_PATHPLANNING" [1; 2; 3; 4; 5; 6; 7] true);
  Decl "MAV_CMD_NAV_SPLINE_WAYPOINT" 82 82 (EnumEntry "MAV_CMD_NAV_SPLINE_WAYPOINT" [1; 2; 3; 4; 5; 6; 7] true);
  Decl "MAV_CMD_NAV_VTOL_TAKEOFF" 84 84 (EnumEntry "MAV_CMD_NAV_VTOL_TAKEOFF" [1; 2; 3; 4; 5; 6; 7] true);
  Decl "MAV_CMD_NAV_VTOL_LAND" 85 85 (EnumEntry "MAV_CMD_NAV_VTOL_LAND" [1; 2; 3; 4; 5; 6; 7] true);
  Decl "MAV_CMD_NAV_GUIDED_ENABLE" 92 92 (EnumEntry "MAV_CMD_NAV_GUIDED_ENABLE" [1; 2; 3; 4; 5; 6; 7] false);
  Decl "MAV_CMD_NAV_DELAY" 93 93 (EnumEntry "MAV_CMD_NAV_DELAY" [1; 2; 3; 4; 5; 6; 7] false);
  Decl "MAV_CMD_NAV_PAYLOAD_PLACE" 94 94 (EnumEntry "MAV_CMD_NAV_PAYLOAD_PLACE" [1; 2; 3; 4; 5; 6; 7] true);
  Decl "MAV_CMD_NAV_LAST" 95 95 (EnumEntry "MAV_CMD_NAV_LAST" [1; 2; 3; 4; 5; 6; 7] false);
  Decl "MAV_CMD_CONDITION_DELAY" 112 112 (EnumEntry "MAV_CMD_CONDITION_DELAY" [1; 2; 3; 4; 5; 6; 7] false);
  Decl "MAV_CMD_CONDITION_CHANGE_ALT" 113 113 (EnumEntry "MAV_CMD_CONDITION_CHANGE_ALT" [1; 2; 3; 4; 5; 6; 7] false);
  Decl "MAV_CMD_CONDITION_DISTANCE" 114 114 (EnumEntry "MAV_CMD_CONDITION_DISTANCE" [1; 2; 3; 4; 5; 6; 7] false);
  Decl "MAV_CMD_CONDITION_YAW" 115 115 (EnumEntry "MAV_CMD_CONDITION_YAW" [1; 2; 3; 4; 5; 6; 7] false);
  Decl "MAV_CMD_CONDITION_LAST" 159 159 (EnumEntry "MAV_CMD_CONDITION_LAST" [1; 2; 3; 4; 5; 6; 7] false);
  Decl "MAV_CMD_DO_SET_MODE" 176 176 (EnumEntry "MAV_CMD_DO_SET_MODE" [1; 2; 3; 4; 5; 6; 7] false);
  Decl "MAV_CMD_DO_JUMP" 177 177 (EnumEntry "MAV_CMD_DO_JUMP" [1; 2; 3; 4; 5; 6; 7] false)].

Definition MAV_CMD_part3 : list decl := [
  Decl "MAV_CMD_DO_CHANGE_SPEED" 178 178 (EnumEntry "MAV_CMD_DO_CHANGE_SPEED" [1; 2; 3; 4; 5; 6; 7] false);
  Decl "MAV_CMD_DO_SET_HOME" 179 179 (EnumEntry "MAV_CMD_DO_SET_HOME" [1; 2; 3; 4; 5; 6; 7] true);
  Decl "MAV_CMD_DO_SET_PARAMETER" 180 180 (EnumEntry "MAV_CMD_DO_SET_PARAMETER" [1; 2; 3; 4; 5; 6; 7] false);
  Decl "MAV_CMD_DO_SET_RELAY" 181 181 (EnumEntry "MAV_CMD_DO_SET_RELAY" [1; 2; 3; 4; 5; 6; 7] false);
  Decl "MAV_CMD_DO_REPEAT_RELAY" 182 182 (EnumEntry "MAV_CMD_DO_REPEAT_RELAY" [1; 2; 3; 4; 5; 6; 7] false);
  Decl "MAV_CMD_DO_SET_SERVO" 183 183 (EnumEntry "MAV_CMD_DO_SET_SERVO" [1; 2; 3; 4; 5; 6; 7] false);
  Decl "MAV_CMD_DO_REPEAT_SERVO" 184 184 (EnumEntry "MAV_CMD_DO_REPEAT_SERVO" [1; 2; 3; 4; 5; 6; 7] false);
  Decl "MAV_CMD_DO_FLIGHTTERMINATION" 185 185 (EnumEntry "MAV_CMD_DO_FLIGHTTERMINATION" [1; 2; 3; 4; 5; 6; 7] false);
  Decl "MAV_CMD_DO_CHANGE_ALTITUDE" 186 186 (EnumEntry "MAV_CMD_DO_CHANGE_ALTITUDE" [1; 2; 3; 4; 5; 6; 7] false);
  Decl "MAV_CMD_DO_SET_ACTUATOR" 187 187 (EnumEntry "MAV_CMD_DO_SET_ACTUATOR" [1; 2; 3; 4; 5; 6; 7] false);
  Decl "MAV_CMD_DO_LAND_START" 189 189 (EnumEntry "MAV_CMD_DO_LAND_START" [1; 2; 3; 4; 5; 6; 7] true);
  Decl "MAV_CMD_DO_RALLY_LAND" 190 190 (EnumEntry "MAV_CMD_DO_RALLY_LAND" [1; 2; 3; 4; 5; 6; 7] false);
  Decl "MAV_CMD_DO_GO_AROUND" 191 191 (EnumEntry "MAV_CMD_DO_GO_AROUND" [1; 2; 3; 4; 5; 6; 7] false)].

Definition MAV_CMD_part4 : list decl := [
  Decl "MAV_CMD_DO_REPOSITION" 192 192 (EnumEntry "MAV_CMD_DO_REPOSITION" [1; 2; 3; 4; 5; 6; 7] true);
  Decl "MAV_CMD_DO_PAUSE_CONTINUE" 193 193 (EnumEntry "MAV_CMD_DO_PAUSE_CONTINUE" [1; 2; 3; 4; 5; 6; 7] false);
  Decl "MAV_CMD_DO_SET_REVERSE" 194 194 (EnumEntry "MAV_CMD_DO_SET_REVERSE" [1; 2; 3; 4; 5; 6; 7] false);
  Decl "MAV_CMD_DO_SET_ROI_LOCATION" 195 195 (EnumEntry "MAV_CMD_DO_SET_ROI_LOCATION" [1; 2; 3; 4; 5; 6; 7] true);
  Decl "MAV_CMD_DO_SET_ROI_WPNEXT_OFFSET" 196 196 (EnumEntry "MAV_CMD_DO_SET_ROI_WPNEXT_OFFSET" [1; 2; 3; 4; 5; 6; 7] false);
  Decl "MAV_CMD_DO_SET_ROI_NONE" 197 197 (EnumEntry "MAV_CMD_DO_SET_ROI_NONE" [1; 2; 3; 4; 5; 6; 7] false);
  Decl "MAV_CMD_DO_SET_ROI_SYSID" 198 198 (EnumEntry "MAV_CMD_DO_SET_ROI_SYSID" [1; 2; 3; 4; 5; 6; 7] false);
  Decl "MAV_CMD_DO_CONTROL_VIDEO" 200 200 (EnumEntry "MAV_CMD_DO_CONTROL_VIDEO" [1; 2; 3; 4; 5; 6; 7] false);
  Decl "MAV_CMD_DO_SET_ROI" 201 201 (EnumEntry "MAV_CMD_DO_SET_ROI" [1; 2; 3; 4; 5; 6; 7] true);
  Decl "MAV_CMD_DO_DIGICAM_CONFIGURE" 202 202 (EnumEntry "MAV_CMD_DO_DIGICAM_CONFIGURE" [1; 2; 3; 4; 5; 6; 7] false);
  Decl "MAV_CMD_DO_DIGICAM_CONTROL" 203 203 (EnumEntry "MAV_CMD_DO_DIGICAM_CONTROL" [1; 2; 3; 4; 5; 6; 7] false);
  Decl "MAV_CMD_DO_MOUNT_CONFIGURE" 204 204 (EnumEntry "MAV_CMD_DO_MOUNT_CONFIGURE" [1; 2; 3; 4; 5; 6; 7] false);
  Decl "MAV_CMD_DO_MOUNT_CONTROL" 205 205 (EnumEntry "MAV_CMD_DO_MOUNT_CONTROL" [1; 2; 3; 4; 5; 6; 7] false);
  Decl "MAV_CMD_DO_SET_CAM_TRIGG_DIST" 206 206 (EnumEntry "MAV_CMD_DO_SET_CAM_TRIGG_DIST" [1; 2; 3; 4; 5; 6; 7] false);
  Decl "MAV_CMD_DO_FENCE_ENABLE" 207 207 (EnumEntry "MAV_CMD_DO_FENCE_ENABLE" [1; 2; 3; 4; 5; 6; 7] false);
  Decl "MAV_CMD_DO_PARACHUTE" 208 208 (EnumEntry "MAV_CMD_DO_PARACHUTE" [1; 2; 3; 4; 5; 6; 7] false)].

Definition MAV_CMD_part5 : list decl := [
  Decl "MAV_CMD_DO_MOTOR_TEST" 209 209 (EnumEntry "MAV_CMD_DO_MOTOR_TEST" [1; 2; 3; 4; 5; 6; 7] false);
  Decl "MAV_CMD_DO_INVERTED_FLIGHT" 210 210 (EnumEntry "MAV_CMD_DO_INVERTED_FLIGHT" [1; 2; 3; 4; 5; 6; 7] false);
  Decl "MAV_CMD_DO_GRIPPER" 211 211 (EnumEntry "MAV_CMD_DO_GRIPPER" [1; 2; 3; 4; 5; 6; 7] false);
  Decl "MAV_CMD_DO_AUTOTUNE_ENABLE" 212 212 (EnumEntry "MAV_CMD_DO_AUTOTUNE_ENABLE" [1; 2; 3; 4; 5; 6; 7] false);
  Decl "MAV_CMD_NAV_SET_YAW_SPEED" 213 213 (EnumEntry "MAV_CMD_NAV_SET_YAW_SPEED" [1; 2; 3; 4; 5; 6; 7] false);
  Decl "MAV_CMD_DO_SET_CAM_TRIGG_INTERVAL" 214 214 (EnumEntry "MAV_CMD_DO_SET_CAM_TRIGG_INTERVAL" [1; 2; 3; 4; 5; 6; 7] false);
  Decl "MAV_CMD_DO_MOUNT_CONTROL_QUAT" 220 220 (EnumEntry "MAV_CMD_DO_MOUNT_CONTROL_QUAT" [1; 2; 3; 4; 5; 6; 7] false);
  Decl "MAV_CMD_DO_GUIDED_MASTER" 221 221 (EnumEntry "MAV_CMD_DO_GUIDED_MASTER" [1; 2; 3; 4; 5; 6; 7] false);
  Decl "MAV_CMD_DO_GUIDED_LIMITS" 222 222 (EnumEntry "MAV_CMD_DO_GUIDED_LIMITS" [1; 2; 3; 4; 5; 6; 7] false);
  Decl "MAV_CMD_DO_ENGINE_CONTROL" 223 223 (EnumEntry "MAV_CMD_DO_ENGINE_CONTROL" [1; 2; 3; 4; 5; 6; 7] false);
  Decl "MAV_CMD_DO_SET_MISSION_CURRENT" 224 224 (EnumEntry "MAV_CMD_DO_SET_MISSION_CURRENT" [1; 2; 3; 4; 5; 6; 7] false);
  Decl "MAV_CMD_DO_LAST" 240 240 (EnumEntry "MAV_CMD_DO_LAST" [1; 2; 3; 4; 5; 6; 7] false);
  Decl "MAV_CMD_PREFLIGHT_CALIBRATION" 241 241 (EnumEntry "MAV_CMD_PREFLIGHT_CALIBRATION" [1; 2; 3; 4; 5; 6; 7] false);
  Decl "MAV_CMD_PREFLIGHT_SET_SENSOR_OFFSETS" 242 242 (EnumEntry "MAV_CMD_PREFLIGHT_SET_SENSOR_OFFSETS" [1; 2; 3; 4; 5; 6; 7] false)].

Definition MAV_CMD_part6 : list decl := [
  Decl "MAV_CMD_PREFLIGHT_UAVCAN" 243 243 (EnumEntry "MAV_CMD_PREFLIGHT_UAVCAN" [1; 2; 3; 4; 5; 6; 7] false);
  Decl "MAV_CMD_PREFLIGHT_STORAGE" 245 245 (EnumEntry "MAV_CMD_PREFLIGHT_STORAGE" [1; 2; 3; 4; 5; 6; 7] false);
  Decl "MAV_CMD_PREFLIGHT_REBOOT_SHUTDOWN" 246 246 (EnumEntry "MAV_CMD_PREFLIGHT_REBOOT_SHUTDOWN" [1; 2; 3; 4; 5; 6; 7] false);
  Decl "MAV_CMD_OVERRIDE_GOTO" 252 252 (EnumEntry "MAV_CMD_OVERRIDE_GOTO" [1; 2; 3; 4; 5; 6; 7] true);
  Decl "MAV_CMD_OBLIQUE_SURVEY" 260 260 (EnumEntry "MAV_CMD_OBLIQUE_SURVEY" [1; 2; 3; 4; 5; 6; 7] false);
  Decl "MAV_CMD_MISSION_START" 300 300 (EnumEntry "MAV_CMD_MISSION_START" [1; 2; 3; 4; 5; 6; 7] false);
  Decl "MAV_CMD_ACTUATOR_TEST" 310 310 (EnumEntry "MAV_CMD_ACTUATOR_TEST" [1; 2; 3; 4; 5; 6; 7] false);
  Decl "MAV_CMD_CONFIGURE_ACTUATOR" 311 311 (EnumEntry "MAV_CMD_CONFIGURE_ACTUATOR" [1; 2; 3; 4; 5; 6; 7] false);
  Decl "MAV_CMD_COMPONENT_ARM_DISARM" 400 400 (EnumEntry "MAV_CMD_COMPONENT_ARM_DISARM" [1; 2; 3; 4; 5; 6; 7] false);
  Decl "MAV_CMD_RUN_PREARM_CHECKS" 401 401 (EnumEntry "MAV_CMD_RUN_PREARM_CHECKS" [1; 2; 3; 4; 5; 6; 7] false);
  Decl "MAV_CMD_ILLUMINATOR_ON_OFF" 405 405 (EnumEntry "MAV_CMD_ILLUMINATOR_ON_OFF" [1; 2; 3; 4; 5; 6; 7] false);
  Decl "MAV_CMD_GET_HOME_POSITION" 410 410 (EnumEntry "MAV_CMD_GET_HOME_POSITION" [1; 2; 3; 4; 5; 6; 7] false);
  Decl "MAV_CMD_INJECT_FAILURE" 420 420 (EnumEntry "MAV_CMD_INJECT_FAILURE" [1; 2; 3; 4; 5; 6; 7] false);
  Decl "MAV_CMD_START_RX_PAIR" 500 500 (EnumEntry "MAV_CMD_START_RX_PAIR" [1; 2; 3; 4; 5; 6; 7] false)].

Definition MAV_CMD_part7 : list decl := [
  Decl "MAV_CMD_GET_MESSAGE_INTERVAL" 510 510 (EnumEntry "MAV_CMD_GET_MESSAGE_INTERVAL" [1; 2; 3; 4; 5; 6; 7] false);
  Decl "MAV_CMD_SET_MESSAGE_INTERVAL" 511 511 (EnumEntry "MAV_CMD_SET_MESSAGE_INTERVAL" [1; 2; 3; 4; 5; 6; 7] false);
  Decl "MAV_CMD_REQUEST_MESSAGE" 512 512 (EnumEntry "MAV_CMD_REQUEST_MESSAGE" [1; 2; 3; 4; 5; 6; 7] false);
  Decl "MAV_CMD_REQUEST_PROTOCOL_VERSION" 519 519 (EnumEntry "MAV_CMD_REQUEST_PROTOCOL_VERSION" [1; 2; 3; 4; 5; 6; 7] false);
  Decl "MAV_CMD_REQUEST_AUTOPILOT_CAPABILITIES" 520 520 (EnumEntry "MAV_CMD_REQUEST_AUTOPILOT_CAPABILITIES" [1; 2; 3; 4; 5; 6; 7] false);
  Decl "MAV_CMD_REQUEST_CAMERA_INFORMATION" 521 521 (EnumEntry "MAV_CMD_REQUEST_CAMERA_INFORMATION" [1; 2; 3; 4; 5; 6; 7] false);
  Decl "MAV_CMD_REQUEST_CAMERA_SETTINGS" 522 522 (EnumEntry "MAV_CMD_REQUEST_CAMERA_SETTINGS" [1; 2; 3; 4; 5; 6; 7] false);
  Decl "MAV_CMD_REQUEST_STORAGE_INFORMATION" 525 525 (EnumEntry "MAV_CMD_REQUEST_STORAGE_INFORMATION" [1; 2; 3; 4; 5; 6; 7] false);
  Decl "MAV_CMD_STORAGE_FORMAT" 526 526 (EnumEntry "MAV_CMD_STORAGE_FORMAT" [1; 2; 3; 4; 5; 6; 7] false);
  Decl "MAV_CMD_REQUEST_CAMERA_CAPTURE_STATUS" 527 527 (EnumEntry "MAV_CMD_REQUEST_CAMERA_CAPTURE_STATUS" [1; 2; 3; 4; 5; 6; 7] false);
  Decl "MAV_CMD_REQUEST_FLIGHT_INFORMATION" 528 528 (EnumEntry "MAV_CMD_REQUEST_FLIGHT_INFORMATION" [1; 2; 3; 4; 5; 6; 7] false);
  Decl "MAV_CMD_RESET_CAMERA_SETTINGS" 529 529 (EnumEntry "MAV_CMD_RESET_CAMERA_SETTINGS" [1; 2; 3; 4; 5; 6; 7] false);
  Decl "MAV_CMD_SET_CAMERA_MODE" 530 530 (EnumEntry "MAV_CMD_SET_CAMERA_MODE" [1; 2; 3; 4; 5; 6; 7] false);
  Decl "MAV_CMD_SET_CAMERA_ZOOM" 531 531 (EnumEntry "MAV_CMD_SET_CAMERA_ZOOM" [1; 2; 3; 4; 5; 6; 7] false);
  Decl "MAV_CMD_SET_CAMERA_FOCUS" 532 532 (EnumEntry "MAV_CMD_SET_CAMERA_FOCUS" [1; 2; 3; 4; 5; 6; 7] false)].

Definition MAV_CMD_part8 : list decl := [
  Decl "MAV_CMD_SET_STORAGE_USAGE" 533 533 (EnumEntry "MAV_CMD_SET_STORAGE_USAGE" [1; 2; 3; 4; 5; 6; 7] false);
  Decl "MAV_CMD_JUMP_TAG" 600 600 (EnumEntry "MAV_CMD_JUMP_TAG" [1; 2; 3; 4; 5; 6; 7] false);
  Decl "MAV_CMD_DO_JUMP_TAG" 601 601 (EnumEntry "MAV_CMD_DO_JUMP_TAG" [1; 2; 3; 4; 5; 6; 7] false);
  Decl "MAV_CMD_DO_GIMBAL_MANAGER_PITCHYAW" 1000 1000 (EnumEntry "MAV_CMD_DO_GIMBAL_MANAGER_PITCHYAW" [1; 2; 3; 4; 5; 6; 7] false);
  Decl "MAV_CMD_DO_GIMBAL_MANAGER_CONFIGURE" 1001 1001 (EnumEntry "MAV_CMD_DO_GIMBAL_MANAGER_CONFIGURE" [1; 2; 3; 4; 5; 6; 7] false);
  Decl "MAV_CMD_IMAGE_START_CAPTURE" 2000 2000 (EnumEntry "MAV_CMD_IMAGE_START_CAPTURE" [1; 2; 3; 4; 5; 6; 7] false);
  Decl "MAV_CMD_IMAGE_STOP_CAPTURE" 2001 2001 (EnumEntry "MAV_CMD_IMAGE_STOP_CAPTURE" [1; 2; 3; 4; 5; 6; 7] false);
  Decl "MAV_CMD_REQUEST_CAMERA_IMAGE_CAPTURE" 2002 2002 (EnumEntry "MAV_CMD_REQUEST_CAMERA_IMAGE_CAPTURE" [1; 2; 3; 4; 5; 6; 7] false);
  Decl "MAV_CMD_DO_TRIGGER_CONTROL" 2003 2003 (EnumEntry "MAV_CMD_DO_TRIGGER_CONTROL" [1; 2; 3; 4; 5; 6; 7] false);
  Decl "MAV_CMD_CAMERA_TRACK_POINT" 2004 2004 (EnumEntry "MAV_CMD_CAMERA_TRACK_POINT" [1; 2; 3; 4; 5; 6; 7] false);
  Decl "MAV_CMD_CAMERA_TRACK_RECTANGLE" 2005 2005 (EnumEntry "MAV_CMD_CAMERA_TRACK_RECTANGLE" [1; 2; 3; 4; 5; 6; 7] false);
  Decl "MAV_CMD_CAMERA_STOP_TRACKING" 2010 2010 (EnumEntry "MAV_CMD_CAMERA_STOP_TRACKING" [1; 2; 3; 4; 5; 6; 7] false);
  Decl "MAV_CMD_VIDEO_START_CAPTURE" 2500 2500 (EnumEntry "MAV_CMD_VIDEO_START_CAPTURE" [1; 2; 3; 4; 5; 6; 7] false);
  Decl "MAV_CMD_VIDEO_STOP_CAPTURE" 2501 2501 (EnumEntry "MAV_CMD_VIDEO_STOP_CAPTURE" [1; 2; 3; 4; 5; 6; 7] false);
  Decl "MAV_CMD_VIDEO_START_STREAMING" 2502 2502 (EnumEntry "MAV_CMD_VIDEO_START_STREAMING" [1; 2; 3; 4; 5; 6; 7] false)].

Definition MAV_CMD_part9 : list decl := [
  Decl "MAV_CMD_VIDEO_STOP_STREAMING" 2503 2503 (EnumEntry "MAV_CMD_VIDEO_STOP_STREAMING" [1; 2; 3; 4; 5; 6; 7] false);
  Decl "MAV_CMD_REQUEST_VIDEO_STREAM_INFORMATION" 2504 2504 (EnumEntry "MAV_CMD_REQUEST_VIDEO_STREAM_INFORMATION" [1; 2; 3; 4; 5; 6; 7] false);
  Decl "MAV_CMD_REQUEST_VIDEO_STREAM_STATUS" 2505 2505 (EnumEntry "MAV_CMD_REQUEST_VIDEO_STREAM_STATUS" [1; 2; 3; 4; 5; 6; 7] false);
  Decl "MAV_CMD_LOGGING_START" 2510 2510 (EnumEntry "MAV_CMD_LOGGING_START" [1; 2; 3; 4; 5; 6; 7] false);
  Decl "MAV_CMD_LOGGING_STOP" 2511 2511 (EnumEntry "MAV_CMD_LOGGING_STOP" [1; 2; 3; 4; 5; 6; 7] false);
  Decl "MAV_CMD_AIRFRAME_CONFIGURATION" 2520 2520 (EnumEntry "MAV_CMD_AIRFRAME_CONFIGURATION" [1; 2; 3; 4; 5; 6; 7] false);
  Decl "MAV_CMD_CONTROL_HIGH_LATENCY" 2600 2600 (EnumEntry "MAV_CMD_CONTROL_HIGH_LATENCY" [1; 2; 3; 4; 5; 6; 7] false);
  Decl "MAV_CMD_PANORAMA_CREATE" 2800 2800 (EnumEntry "MAV_CMD_PANORAMA_CREATE" [1; 2; 3; 4; 5; 6; 7] false);
  Decl "MAV_CMD_DO_VTOL_TRANSITION" 3000 3000 (EnumEntry "MAV_CMD_DO_VTOL_TRANSITION" [1; 2; 3; 4; 5; 6; 7] false);
  Decl "MAV_CMD_ARM_AUTHORIZATION_REQUEST" 3001 3001 (EnumEntry "MAV_CMD_ARM_AUTHORIZATION_REQUEST" [1; 2; 3; 4; 5; 6; 7] false);
  Decl "MAV_CMD_SET_GUIDED_SUBMODE_STANDARD" 4000 4000 (EnumEntry "MAV_CMD_SET_GUIDED_SUBMODE_STANDARD" [1; 2; 3; 4; 5; 6; 7] false);
  Decl "MAV_CMD_SET_GUIDED_SUBMODE_CIRCLE" 4001 4001 (EnumEntry "MAV_CMD_SET_GUIDED_SUBMODE_CIRCLE" [1; 2; 3; 4; 5; 6; 7] true);
  Decl "MAV_CMD_CONDITION_GATE" 4501 4501 (EnumEntry "MAV_CMD_CONDITION_GATE" [1; 2; 3; 4; 5; 6; 7] true);
  Decl "MAV_CMD_NAV_FENCE_RETURN_POINT" 5000 5000 (EnumEntry "MAV_CMD_NAV_FENCE_RETURN_POINT" [1; 2; 3; 4; 5; 6; 7] true)].

Definition MAV_CMD_part10 : list decl := [
  Decl "MAV_CMD_NAV_FENCE_POLYGON_VERTEX_INCLUSION" 5001 5001 (EnumEntry "MAV_CMD_NAV_FENCE_POLYGON_VERTEX_INCLUSION" [1; 2; 3; 4; 5; 6; 7] true);
  Decl "MAV_CMD_NAV_FENCE_POLYGON_VERTEX_EXCLUSION" 5002 5002 (EnumEntry "MAV_CMD_NAV_FENCE_POLYGON_VERTEX_EXCLUSION" [1; 2; 3; 4; 5; 6; 7] true);
  Decl "MAV_CMD_NAV_FENCE_CIRCLE_INCLUSION" 5003 5003 (EnumEntry "MAV_CMD_NAV_FENCE_CIRCLE_INCLUSION" [1; 2; 3; 4; 5; 6; 7] true);
  Decl "MAV_CMD_NAV_FENCE_CIRCLE_EXCLUSION" 5004 5004 (EnumEntry "MAV_CMD_NAV_FENCE_CIRCLE_EXCLUSION" [1; 2; 3; 4; 5; 6; 7] true);
  Decl "MAV_CMD_NAV_RALLY_POINT" 5100 5100 (EnumEntry "MAV_CMD_NAV_RALLY_POINT" [1; 2; 3; 4; 5; 6; 7] true);
  Decl "MAV_CMD_UAVCAN_GET_NODE_INFO" 5200 5200 (EnumEntry "MAV_CMD_UAVCAN_GET_NODE_INFO" [1; 2; 3; 4; 5; 6; 7] false);
  Decl "MAV_CMD_DO_ADSB_OUT_IDENT" 10001 10001 (EnumEntry "MAV_CMD_DO_ADSB_OUT_IDENT" [1; 2; 3; 4; 5; 6; 7] false);
  Decl "MAV_CMD_PAYLOAD_PREPARE_DEPLOY" 30001 30001 (EnumEntry "MAV_CMD_PAYLOAD_PREPARE_DEPLOY" [1; 2; 3; 4; 5; 6; 7] true);
  Decl "MAV_CMD_PAYLOAD_CONTROL_DEPLOY" 30002 30002 (EnumEntry "MAV_CMD_PAYLOAD_CONTROL_DEPLOY" [1; 2; 3; 4; 5; 6; 7] false);
  Decl "MAV_CMD_WAYPOINT_USER_1" 31000 31000 (EnumEntry "MAV_CMD_WAYPOINT_USER_1" [1; 2; 3; 4; 5; 6; 7] true);
  Decl "MAV_CMD_WAYPOINT_USER_2" 31001 31001 (EnumEntry "MAV_CMD_WAYPOINT_USER_2" [1; 2; 3; 4; 5; 6; 7] true);
  Decl "MAV_CMD_WAYPOINT_USER_3" 31002 31002 (EnumEntry "MAV_CMD_WAYPOINT_USER_3" [1; 2; 3; 4; 5; 6; 7] true);
  Decl "MAV_CMD_WAYPOINT_USER_4" 31003 31003 (EnumEntry "MAV_CMD_WAYPOINT_USER_4" [1; 2; 3; 4; 5; 6; 7] true)].

Definition MAV_CMD_part11 : list decl := [
  Decl "MAV_CMD_WAYPOINT_USER_5" 31004 31004 (EnumEntry "MAV_CMD_WAYPOINT_USER_5" [1; 2; 3; 4; 5; 6; 7] true);
  Decl "MAV_CMD_SPATIAL_USER_1" 31005 31005 (EnumEntry "MAV_CMD_SPATIAL_USER_1" [1; 2; 3; 4; 5; 6; 7] true);
  Decl "MAV_CMD_SPATIAL_USER_2" 31006 31006 (EnumEntry "MAV_CMD_SPATIAL_USER_2" [1; 2; 3; 4; 5; 6; 7] true);
  Decl "MAV_CMD_SPATIAL_USER_3" 31007 31007 (EnumEntry "MAV_CMD_SPATIAL_USER_3" [1; 2; 3; 4; 5; 6; 7] true);
  Decl "MAV_CMD_SPATIAL_USER_4" 31008 31008 (EnumEntry "MAV_CMD_SPATIAL_USER_4" [1; 2; 3; 4; 5; 6; 7] true);
  Decl "MAV_CMD_SPATIAL_USER_5" 31009 31009 (EnumEntry "MAV_CMD_SPATIAL_USER_5" [1; 2; 3; 4; 5; 6; 7] true);
  Decl "MAV_CMD_USER_1" 31010 31010 (EnumEntry "MAV_CMD_USER_1" [1; 2; 3; 4; 5; 6; 7] false);
  Decl "MAV_CMD_USER_2" 31011 31011 (EnumEntry "MAV_CMD_USER_2" [1; 2; 3; 4; 5; 6; 7] false);
  Decl "MAV_CMD_USER_3" 31012 31012 (EnumEntry "MAV_CMD_USER_3" [1; 2; 3; 4; 5; 6; 7] false);
  Decl "MAV_CMD_USER_4" 31013 31013 (EnumEntry "MAV_CMD_USER_4" [1; 2; 3; 4; 5; 6; 7] false);
  Decl "MAV_CMD_USER_5" 31014 31014 (EnumEntry "MAV_CMD_USER_5" [1; 2; 3; 4; 5; 6; 7] false);
  Decl "MAV_CMD_CAN_FORWARD" 32000 32000 (EnumEntry "MAV_CMD_CAN_FORWARD" [1; 2; 3; 4; 5; 6; 7] false);
  Decl "MAV_CMD_FIXED_MAG_CAL_YAW" 42006 42006 (EnumEntry "MAV_CMD_FIXED_MAG_CAL_YAW" [1; 2; 3; 4; 5; 6; 7] true);
  Decl "MAV_CMD_DO_WINCH" 42600 42600 (EnumEntry "MAV_CMD_DO_WINCH" [1; 2; 3; 4; 5; 6; 7] false);
  Decl "MAV_CMD_ENUM_END" 42601 42601 (EnumEntry "MAV_CMD_ENUM_END" [] false)].

Definition MAV_CMD : list decl := MAV_CMD_part1 ++ MAV_CMD_part2 ++ MAV_CMD_part3 ++ MAV_CMD_part4 ++ MAV_CMD_part5 ++ MAV_CMD_part6 ++ MAV_CMD_part7 ++ MAV_CMD_part8 ++ MAV_CMD_part9 ++ MAV_CMD_part10 ++ MAV_CMD_part11.

Definition MAV_DATA_STREAM : list decl := [
  Decl "MAV_DATA_STREAM_ALL" 0 0 (EnumEntry "MAV_DATA_STREAM_ALL" [] false);
  Decl "MAV_DATA_STREAM_RAW_SENSORS" 1 1 (EnumEntry "MAV_DATA_STREAM_RAW_SENSORS" [] false);
  Decl "MAV_DATA_STREAM_EXTENDED_STATUS" 2 2 (EnumEntry "MAV_DATA_STREAM_EXTENDED_STATUS" [] false);
  Decl "MAV_DATA_STREAM_RC_CHANNELS" 3 3 (EnumEntry "MAV_DATA_STREAM_RC_CHANNELS" [] false);
  Decl "MAV_DATA_STREAM_RAW_CONTROLLER" 4 4 (EnumEntry "MAV_DATA_STREAM_RAW_CONTROLLER" [] false);
  Decl "MAV_DATA_STREAM_POSITION" 6 6 (EnumEntry "MAV_DATA_STREAM_POSITION" [] false);
  Decl "MAV_DATA_STREAM_EXTRA1" 10 10 (EnumEntry "MAV_DATA_STREAM_EXTRA1" [] false);
  Decl "MAV_DATA_STREAM_EXTRA2" 11 11 (EnumEntry "MAV_DATA_STREAM_EXTRA2" [] false);
  Decl "MAV_DATA_STREAM_EXTRA3" 12 12 (EnumEntry "MAV_DATA_STREAM_EXTRA3" [] false);
  Decl "MAV_DATA_STREAM_ENUM_END" 13 13 (EnumEntry "MAV_DATA_STREAM_ENUM_END" [] false)].

Definition MAV_ROI : list decl := [
  Decl "MAV_ROI_NONE" 0 0 (EnumEntry "MAV_ROI_NONE" [] false);
  Decl "MAV_ROI_WPNEXT" 1 1 (EnumEntry "MAV_ROI_WPNEXT" [] false);
  Decl "MAV_ROI_WPINDEX" 2 2 (EnumEntry "MAV_ROI_WPINDEX" [] false);
  Decl "MAV_ROI_LOCATION" 3 3 (EnumEntry "MAV_ROI_LOCATION" [] false);
  Decl "MAV_ROI_TARGET" 4 4 (EnumEntry "MAV_ROI_TARGET" [] false);
  Decl "MAV_ROI_ENUM_END" 5 5 (EnumEntry "MAV_ROI_ENUM_END" [] false)].

Definition MAV_CMD_ACK : list decl := [
  Decl "MAV_CMD_ACK_OK" 0 0 (EnumEntry "MAV_CMD_ACK_OK" [1; 2; 3; 4; 5; 6; 7] false);
  Decl "MAV_CMD_ACK_ERR_FAIL" 1 1 (EnumEntry "MAV_CMD_ACK_ERR_FAIL" [1; 2; 3; 4; 5; 6; 7] false);
  Decl "MAV_CMD_ACK_ERR_ACCESS_DENIED" 2 2 (EnumEntry "MAV_CMD_ACK_ERR_ACCESS_DENIED" [1; 2; 3; 4; 5; 6; 7] false);
  Decl "MAV_CMD_ACK_ERR_NOT_SUPPORTED" 3 3 (EnumEntry "MAV_CMD_ACK_ERR_NOT_SUPPORTED" [1; 2; 3; 4; 5; 6; 7] false);
  Decl "MAV_CMD_ACK_ERR_COORDINATE_FRAME_NOT_SUPPORTED" 4 4 (EnumEntry "MAV_CMD_ACK_ERR_COORDINATE_FRAME_NOT_SUPPORTED" [1; 2; 3; 4; 5; 6; 7] false);
  Decl "MAV_CMD_ACK_ERR_COORDINATES_OUT_OF_RANGE" 5 5 (EnumEntry "MAV_CMD_ACK_ERR_COORDINATES_OUT_OF_RANGE" [1; 2; 3; 4; 5; 6; 7] false);
  Decl "MAV_CMD_ACK_ERR_X_LAT_OUT_OF_RANGE" 6 6 (EnumEntry "MAV_CMD_ACK_ERR_X_LAT_OUT_OF_RANGE" [1; 2; 3; 4; 5; 6; 7] false);
  Decl "MAV_CMD_ACK_ERR_Y_LON_OUT_OF_RANGE" 7 7 (EnumEntry "MAV_CMD_ACK_ERR_Y_LON_OUT_OF_RANGE" [1; 2; 3; 4; 5; 6; 7] false);
  Decl "MAV_CMD_ACK_ERR_Z_ALT_OUT_OF_RANGE" 8 8 (EnumEntry "MAV_CMD_ACK_ERR_Z_ALT_OUT_OF_RANGE" [1; 2; 3; 4; 5; 6; 7] false);
  Decl "MAV_CMD_ACK_ENUM_END" 9 9 (EnumEntry "MAV_CMD_ACK_ENUM_END" [] false)].

Definition MAV_PARAM_TYPE : list decl := [
  Decl "MAV_PARAM_TYPE_UINT8" 1 1 (EnumEntry "MAV_PARAM_TYPE_UINT8" [] false);
  Decl "MAV_PARAM_TYPE_INT8" 2 2 (EnumEntry "MAV_PARAM_TYPE_INT8" [] false);
  Decl "MAV_PARAM_TYPE_UINT16" 3 3 (EnumEntry "MAV_PARAM_TYPE_UINT16" [] false);
  Decl "MAV_PARAM_TYPE_INT16" 4 4 (EnumEntry "MAV_PARAM_TYPE_INT16" [] false);
  Decl "MAV_PARAM_TYPE_UINT32" 5 5 (EnumEntry "MAV_PARAM_TYPE_UINT32" [] false);
  Decl "MAV_PARAM_TYPE_INT32" 6 6 (EnumEntry "MAV_PARAM_TYPE_INT32" [] false);
  Decl "MAV_PARAM_TYPE_UINT64" 7 7 (EnumEntry "MAV_PARAM_TYPE_UINT64" [] false);
  Decl "MAV_PARAM_TYPE_INT64" 8 8 (EnumEntry "MAV_PARAM_TYPE_INT64" [] false);
  Decl "MAV_PARAM_TYPE_REAL32" 9 9 (EnumEntry "MAV_PARAM_TYPE_REAL32" [] false);
  Decl "MAV_PARAM_TYPE_REAL64" 10 10 (EnumEntry "MAV_PARAM_TYPE_REAL64" [] false);
  Decl "MAV_PARAM_TYPE_ENUM_END" 11 11 (EnumEntry "MAV_PARAM_TYPE_ENUM_END" [] false)].

Definition MAV_PARAM_EXT_TYPE : list decl := [
  Decl "MAV_PARAM_EXT_TYPE_UINT8" 1 1 (EnumEntry "MAV_PARAM_EXT_TYPE_UINT8" [] false);
  Decl "MAV_PARAM_EXT_TYPE_INT8" 2 2 (EnumEntry "MAV_PARAM_EXT_TYPE_INT8" [] false);
  Decl "MAV_PARAM_EXT_TYPE_UINT16" 3 3 (EnumEntry "MAV_PARAM_EXT_TYPE_UINT16" [] false);
  Decl "MAV_PARAM_EXT_TYPE_INT16" 4 4 (EnumEntry "MAV_PARAM_EXT_TYPE_INT16" [] false);
  Decl "MAV_PARAM_EXT_TYPE_UINT32" 5 5 (EnumEntry "MAV_PARAM_EXT_TYPE_UINT32" [] false);
  Decl "MAV_PARAM_EXT_TYPE_INT32" 6 6 (EnumEntry "MAV_PARAM_EXT_TYPE_INT32" [] false);
  Decl "MAV_PARAM_EXT_TYPE_UINT64" 7 7 (EnumEntry "MAV_PARAM_EXT_TYPE_UINT64" [] false);
  Decl "MAV_PARAM_EXT_TYPE_INT64" 8 8 (EnumEntry "MAV_PARAM_EXT_TYPE_INT64" [] false);
  Decl "MAV_PARAM_EXT_TYPE_REAL32" 9 9 (EnumEntry "MAV_PARAM_EXT_TYPE_REAL32" [] false);
  Decl "MAV_PARAM_EXT_TYPE_REAL64" 10 10 (EnumEntry "MAV_PARAM_EXT_TYPE_REAL64" [] false);
  Decl "MAV_PARAM_EXT_TYPE_CUSTOM" 11 11 (EnumEntry "MAV_PARAM_EXT_TYPE_CUSTOM" [] false);
  Decl "MAV_PARAM_EXT_TYPE_ENUM_END" 12 12 (EnumEntry "MAV_PARAM_EXT_TYPE_ENUM_END" [] false)].

Definition MAV_RESULT : list decl := [
  Decl "MAV_RESULT_ACCEPTED" 0 0 (EnumEntry "MAV_RESULT_ACCEPTED" [] false);
  Decl "MAV_RESULT_TEMPORARILY_REJECTED" 1 1 (EnumEntry "MAV_RESULT_TEMPORARILY_REJECTED" [] false);
  Decl "MAV_RESULT_DENIED" 2 2 (EnumEntry "MAV_RESULT_DENIED" [] false);
  Decl "MAV_RESULT_UNSUPPORTED" 3 3 (EnumEntry "MAV_RESULT_UNSUPPORTED" [] false);
  Decl "MAV_RESULT_FAILED" 4 4 (EnumEntry "MAV_RESULT_FAILED" [] false);
  Decl "MAV_RESULT_IN_PROGRESS" 5 5 (EnumEntry "MAV_RESULT_IN_PROGRESS" [] false);
  Decl "MAV_RESULT_CANCELLED" 6 6 (EnumEntry "MAV_RESULT_CANCELLED" [] false);
  Decl "MAV_RESULT_ENUM_END" 7 7 (EnumEntry "MAV_RESULT_ENUM_END" [] false)].

Definition MAV_MISSION_RESULT : list decl := [
  Decl "MAV_MISSION_ACCEPTED" 0 0 (EnumEntry "MAV_MISSION_ACCEPTED" [] false);
  Decl "MAV_MISSION_ERROR" 1 1 (EnumEntry "MAV_MISSION_ERROR" [] false);
  Decl "MAV_MISSION_UNSUPPORTED_FRAME" 2 2 (EnumEntry "MAV_MISSION_UNSUPPORTED_FRAME" [] false);
  Decl "MAV_MISSION_UNSUPPORTED" 3 3 (EnumEntry "MAV_MISSION_UNSUPPORTED" [] false);
  Decl "MAV_MISSION_NO_SPACE" 4 4 (EnumEntry "MAV_MISSION_NO_SPACE" [] false);
  Decl "MAV_MISSION_INVALID" 5 5 (EnumEntry "MAV_MISSION_INVALID" [] false);
  Decl "MAV_MISSION_INVALID_PARAM1" 6 6 (EnumEntry "MAV_MISSION_INVALID_PARAM1" [] false);
  Decl "MAV_MISSION_INVALID_PARAM2" 7 7 (EnumEntry "MAV_MISSION_INVALID_PARAM2" [] false);
  Decl "MAV_MISSION_INVALID_PARAM3" 8 8 (EnumEntry "MAV_MISSION_INVALID_PARAM3" [] false);
  Decl "MAV_MISSION_INVALID_PARAM4" 9 9 (EnumEntry "MAV_MISSION_INVALID_PARAM4" [] false);
  Decl "MAV_MISSION_INVALID_PARAM5_X" 10 10 (EnumEntry "MAV_MISSION_INVALID_PARAM5_X" [] false);
  Decl "MAV_MISSION_INVALID_PARAM6_Y" 11 11 (EnumEntry "MAV_MISSION_INVALID_PARAM6_Y" [] false);
  Decl "MAV_MISSION_INVALID_PARAM7" 12 12 (EnumEntry "MAV_MISSION_INVALID_PARAM7" [] false);
  Decl "MAV_MISSION_INVALID_SEQUENCE" 13 13 (EnumEntry "MAV_MISSION_INVALID_SEQUENCE" [] false);
  Decl "MAV_MISSION_DENIED" 14 14 (EnumEntry "MAV_MISSION_DENIED" [] false);
  Decl "MAV_MISSION_OPERATION_CANCELLED" 15 15 (EnumEntry "MAV_MISSION_OPERATION_CANCELLED" [] false);
  Decl "MAV_MISSION_RESULT_ENUM_END" 16 16 (EnumEntry "MAV_MISSION_RESULT_ENUM_END" [] false)].

Definition MAV_SEVERITY : list decl := [
  Decl "MAV_SEVERITY_EMERGENCY" 0 0 (EnumEntry "MAV_SEVERITY_EMERGENCY" [] false);
  Decl "MAV_SEVERITY_ALERT" 1 1 (EnumEntry "MAV_SEVERITY_ALERT" [] false);
  Decl "MAV_SEVERITY_CRITICAL" 2 2 (EnumEntry "MAV_SEVERITY_CRITICAL" [] false);
  Decl "MAV_SEVERITY_ERROR" 3 3 (EnumEntry "MAV_SEVERITY_ERROR" [] false);
  Decl "MAV_SEVERITY_WARNING" 4 4 (EnumEntry "MAV_SEVERITY_WARNING" [] false);
  Decl "MAV_SEVERITY_NOTICE" 5 5 (EnumEntry "MAV_SEVERITY_NOTICE" [] false);
  Decl "MAV_SEVERITY_INFO" 6 6 (EnumEntry "MAV_SEVERITY_INFO" [] false);
  Decl "MAV_SEVERITY_DEBUG" 7 7 (EnumEntry "MAV_SEVERITY_DEBUG" [] false);
  Decl "MAV_SEVERITY_ENUM_END" 8 8 (EnumEntry "MAV_SEVERITY_ENUM_END" [] false)].

Definition MAV_POWER_STATUS : list decl := [
  Decl "MAV_POWER_STATUS_BRICK_VALID" 1 1 (EnumEntry "MAV_POWER_STATUS_BRICK_VALID" [] false);
  Decl "MAV_POWER_STATUS_SERVO_VALID" 2 2 (EnumEntry "MAV_POWER_STATUS_SERVO_VALID" [] false);
  Decl "MAV_POWER_STATUS_USB_CONNECTED" 4 4 (EnumEntry "MAV_POWER_STATUS_USB_CONNECTED" [] false);
  Decl "MAV_POWER_STATUS_PERIPH_OVERCURRENT" 8 8 (EnumEntry "MAV_POWER_STATUS_PERIPH_OVERCURRENT" [] false);
  Decl "MAV_POWER_STATUS_PERIPH_HIPOWER_OVERCURRENT" 16 16 (EnumEntry "MAV_POWER_STATUS_PERIPH_HIPOWER_OVERCURRENT" [] false);
  Decl "MAV_POWER_STATUS_CHANGED" 32 32 (EnumEntry "MAV_POWER_STATUS_CHANGED" [] false);
  Decl "MAV_POWER_STATUS_ENUM_END" 33 33 (EnumEntry "MAV_POWER_STATUS_ENUM_END" [] false)].

Definition SERIAL_CONTROL_DEV : list decl := [
  Decl "SERIAL_CONTROL_DEV_TELEM1" 0 0 (EnumEntry "SERIAL_CONTROL_DEV_TELEM1" [] false);
  Decl "SERIAL_CONTROL_DEV_TELEM2" 1 1 (EnumEntry "SERIAL_CONTROL_DEV_TELEM2" [] false);
  Decl "SERIAL_CONTROL_DEV_GPS1" 2 2 (EnumEntry "SERIAL_CONTROL_DEV_GPS1" [] false);
  Decl "SERIAL_CONTROL_DEV_GPS2" 3 3 (EnumEntry "SERIAL_CONTROL_DEV_GPS2" [] false);
  Decl "SERIAL_CONTROL_DEV_SHELL" 10 10 (EnumEntry "SERIAL_CONTROL_DEV_SHELL" [] false);
  Decl "SERIAL_CONTROL_SERIAL0" 100 100 (EnumEntry "SERIAL_CONTROL_SERIAL0" [] false);
  Decl "SERIAL_CONTROL_SERIAL1" 101 101 (EnumEntry "SERIAL_CONTROL_SERIAL1" [] false);
  Decl "SERIAL_CONTROL_SERIAL2" 102 102 (EnumEntry "SERIAL_CONTROL_SERIAL2" [] false);
  Decl "SERIAL_CONTROL_SERIAL3" 103 103 (EnumEntry "SERIAL_CONTROL_SERIAL3" [] false);
  Decl "SERIAL_CONTROL_SERIAL4" 104 104 (EnumEntry "SERIAL_CONTROL_SERIAL4" [] false);
  Decl "SERIAL_CONTROL_SERIAL5" 105 105 (EnumEntry "SERIAL_CONTROL_SERIAL5" [] false);
  Decl "SERIAL_CONTROL_SERIAL6" 106 106 (EnumEntry "SERIAL_CONTROL_SERIAL6" [] false);
  Decl "SERIAL_CONTROL_SERIAL7" 107 107 (EnumEntry "SERIAL_CONTROL_SERIAL7" [] false);
  Decl "SERIAL_CONTROL_SERIAL8" 108 108 (EnumEntry "SERIAL_CONTROL_SERIAL8" [] false);
  Decl "SERIAL_CONTROL_SERIAL9" 109 109 (EnumEntry "SERIAL_CONTROL_SERIAL9" [] false);
  Decl "SERIAL_CONTROL_DEV_ENUM_END" 110 110 (EnumEntry "SERIAL_CONTROL_DEV_ENUM_END" [] false)].

Definition SERIAL_CONTROL_FLAG : list decl := [
  Decl "SERIAL_CONTROL_FLAG_REPLY" 1 1 (EnumEntry "SERIAL_CONTROL_FLAG_REPLY" [] false);
  Decl "SERIAL_CONTROL_FLAG_RESPOND" 2 2 (EnumEntry "SERIAL_CONTROL_FLAG_RESPOND" [] false);
  Decl "SERIAL_CONTROL_FLAG_EXCLUSIVE" 4 4 (EnumEntry "SERIAL_CONTROL_FLAG_EXCLUSIVE" [] false);
  Decl "SERIAL_CONTROL_FLAG_BLOCKING" 8 8 (EnumEntry "SERIAL_CONTROL_FLAG_BLOCKING" [] false);
  Decl "SERIAL_CONTROL_FLAG_MULTI" 16 16 (EnumEntry "SERIAL_CONTROL_FLAG_MULTI" [] false);
  Decl "SERIAL_CONTROL_FLAG_ENUM_END" 17 17 (EnumEntry "SERIAL_CONTROL_FLAG_ENUM_END" [] false)].

Definition MAV_DISTANCE_SENSOR : list decl := [
  Decl "MAV_DISTANCE_SENSOR_LASER" 0 0 (EnumEntry "MAV_DISTANCE_SENSOR_LASER" [] false);
  Decl "MAV_DISTANCE_SENSOR_ULTRASOUND" 1 1 (EnumEntry "MAV_DISTANCE_SENSOR_ULTRASOUND" [] false);
  Decl "MAV_DISTANCE_SENSOR_INFRARED" 2 2 (EnumEntry "MAV_DISTANCE_SENSOR_INFRARED" [] false);
  Decl "MAV_DISTANCE_SENSOR_RADAR" 3 3 (EnumEntry "MAV_DISTANCE_SENSOR_RADAR" [] false);
  Decl "MAV_DISTANCE_SENSOR_UNKNOWN" 4 4 (EnumEntry "MAV_DISTANCE_SENSOR_UNKNOWN" [] false);
  Decl "MAV_DISTANCE_SENSOR_ENUM_END" 5 5 (EnumEntry "MAV_DISTANCE_SENSOR_ENUM_END" [] false)].

Definition MAV_SENSOR_ORIENTATION : list decl := [
  Decl "MAV_SENSOR_ROTATION_NONE" 0 0 (EnumEntry "MAV_SENSOR_ROTATION_NONE" [] false);
  Decl "MAV_SENSOR_ROTATION_YAW_45" 1 1 (EnumEntry "MAV_SENSOR_ROTATION_YAW_45" [] false);
  Decl "MAV_SENSOR_ROTATION_YAW_90" 2 2 (EnumEntry "MAV_SENSOR_ROTATION_YAW_90" [] false);
  Decl "MAV_SENSOR_ROTATION_YAW_135" 3 3 (EnumEntry "MAV_SENSOR_ROTATION_YAW_135" [] false);
  Decl "MAV_SENSOR_ROTATION_YAW_180" 4 4 (EnumEntry "MAV_SENSOR_ROTATION_YAW_180" [] false);
  Decl "MAV_SENSOR_ROTATION_YAW_225" 5 5 (EnumEntry "MAV_SENSOR_ROTATION_YAW_225" [] false);
  Decl "MAV_SENSOR_ROTATION_YAW_270" 6 6 (EnumEntry "MAV_SENSOR_ROTATION_YAW_270" [] false);
  Decl "MAV_SENSOR_ROTATION_YAW_315" 7 7 (EnumEntry "MAV_SENSOR_ROTATION_YAW_315" [] false);
  Decl "MAV_SENSOR_ROTATION_ROLL_180" 8 8 (EnumEntry "MAV_SENSOR_ROTATION_ROLL_180" [] false);
  Decl "MAV_SENSOR_ROTATION_ROLL_180_YAW_45" 9 9 (EnumEntry "MAV_SENSOR_ROTATION_ROLL_180_YAW_45" [] false);
  Decl "MAV_SENSOR_ROTATION_ROLL_180_YAW_90" 10 10 (EnumEntry "MAV_SENSOR_ROTATION_ROLL_180_YAW_90" [] false);
  Decl "MAV_SENSOR_ROTATION_ROLL_180_YAW_135" 11 11 (EnumEntry "MAV_SENSOR_ROTATION_ROLL_180_YAW_135" [] false);
  Decl "MAV_SENSOR_ROTATION_PITCH_180" 12 12 (EnumEntry "MAV_SENSOR_ROTATION_PITCH_180" [] false);
  Decl "MAV_SENSOR_ROTATION_ROLL_180_YAW_225" 13 13 (EnumEntry "MAV_SENSOR_ROTATION_ROLL_180_YAW_225" [] false);
  Decl "MAV_SENSOR_ROTATION_ROLL_180_YAW_270" 14 14 (EnumEntry "MAV_SENSOR_ROTATION_ROLL_180_YAW_270" [] false);
  Decl "MAV_SENSOR_ROTATION_ROLL_180_YAW_315" 15 15 (EnumEntry "MAV_SENSOR_ROTATION_ROLL_180_YAW_315" [] false);
  Decl "MAV_SENSOR_ROTATION_ROLL_90" 16 16 (EnumEntry "MAV_SENSOR_ROTATION_ROLL_90" [] false);
  Decl "MAV_SENSOR_ROTATION_ROLL_90_YAW_45" 17 17 (EnumEntry "MAV_SENSOR_ROTATION_ROLL_90_YAW_45" [] false);
  Decl "MAV_SENSOR_ROTATION_ROLL_90_YAW_90" 18 18 (EnumEntry "MAV_SENSOR_ROTATION_ROLL_90_YAW_90" [] false);
  Decl "MAV_SENSOR_ROTATION_ROLL_90_YAW_135" 19 19 (EnumEntry "MAV_SENSOR_ROTATION_ROLL_90_YAW_135" [] false);
  Decl "MAV_SENSOR_ROTATION_ROLL_270" 20 20 (EnumEntry "MAV_SENSOR_ROTATION_ROLL_270" [] false);
  Decl "MAV_SENSOR_ROTATION_ROLL_270_YAW_45" 21 21 (EnumEntry "MAV_SENSOR_ROTATION_ROLL_270_YAW_45" [] false);
  Decl "MAV_SENSOR_ROTATION_ROLL_270_YAW_90" 22 22 (EnumEntry "MAV_SENSOR_ROTATION_ROLL_270_YAW_90" [] false);
  Decl "MAV_SENSOR_ROTATION_ROLL_270_YAW_135" 23 23 (EnumEntry "MAV_SENSOR_ROTATION_ROLL_270_YAW_135" [] false);
  Decl "MAV_SENSOR_ROTATION_PITCH_90" 24 24 (EnumEntry "MAV_SENSOR_ROTATION_PITCH_90" [] false);
  Decl "MAV_SENSOR_ROTATION_PITCH_270" 25 25 (EnumEntry "MAV_SENSOR_ROTATION_PITCH_270" [] false);
  Decl "MAV_SENSOR_ROTATION_PITCH_180_YAW_90" 26 26 (EnumEntry "MAV_SENSOR_ROTATION_PITCH_180_YAW_90" [] false);
  Decl "MAV_SENSOR_ROTATION_PITCH_180_YAW_270" 27 27 (EnumEntry "MAV_SENSOR_ROTATION_PITCH_180_YAW_270" [] false);
  Decl "MAV_SENSOR_ROTATION_ROLL_90_PITCH_90" 28 28 (EnumEntry "MAV_SENSOR_ROTATION_ROLL_90_PITCH_90" [] false);
  Decl "MAV_SENSOR_ROTATION_ROLL_180_PITCH_90" 29 29 (EnumEntry "MAV_SENSOR_ROTATION_ROLL_180_PITCH_90" [] false);
  Decl "MAV_SENSOR_ROTATION_ROLL_270_PITCH_90" 30 30 (EnumEntry "MAV_SENSOR_ROTATION_ROLL_270_PITCH_90" [] false);
  Decl "MAV_SENSOR_ROTATION_ROLL_90_PITCH_180" 31 31 (EnumEntry "MAV_SENSOR_ROTATION_ROLL_90_PITCH_180" [] false);
  Decl "MAV_SENSOR_ROTATION_ROLL_270_PITCH_180" 32 32 (EnumEntry "MAV_SENSOR_ROTATION_ROLL_270_PITCH_180" [] false);
  Decl "MAV_SENSOR_ROTATION_ROLL_90_PITCH_270" 33 33 (EnumEntry "MAV_SENSOR_ROTATION_ROLL_90_PITCH_270" [] false);
  Decl "MAV_SENSOR_ROTATION_ROLL_180_PITCH_270" 34 34 (EnumEntry "MAV_SENSOR_ROTATION_ROLL_180_PITCH_270" [] false);
  Decl "MAV_SENSOR_ROTATION_ROLL_270_PITCH_270" 35 35 (EnumEntry "MAV_SENSOR_ROTATION_ROLL_270_PITCH_270" [] false);
  Decl "MAV_SENSOR_ROTATION_ROLL_90_PITCH_180_YAW_90" 36 36 (EnumEntry "MAV_SENSOR_ROTATION_ROLL_90_PITCH_180_YAW_90" [] false);
  Decl "MAV_SENSOR_ROTATION_ROLL_90_YAW_270" 37 37 (EnumEntry "MAV_SENSOR_ROTATION_ROLL_90_YAW_270" [] false);
  Decl "MAV_SENSOR_ROTATION_ROLL_90_PITCH_68_YAW_293" 38 38 (EnumEntry "MAV_SENSOR_ROTATION_ROLL_90_PITCH_68_YAW_293" [] false);
  Decl "MAV_SENSOR_ROTATION_PITCH_315" 39 39 (EnumEntry "MAV_SENSOR_ROTATION_PITCH_315" [] false);
  Decl "MAV_SENSOR_ROTATION_ROLL_90_PITCH_315" 40 40 (EnumEntry "MAV_SENSOR_ROTATION_ROLL_90_PITCH_315" [] false);
  Decl "MAV_SENSOR_ROTATION_CUSTOM" 100 100 (EnumEntry "MAV_SENSOR_ROTATION_CUSTOM" [] false);
  Decl "MAV_SENSOR_ORIENTATION_ENUM_END" 101 101 (EnumEntry "MAV_SENSOR_ORIENTATION_ENUM_END" [] false)].

Definition MAV_PROTOCOL_CAPABILITY : list decl := [
  Decl "MAV_PROTOCOL_CAPABILITY_MISSION_FLOAT" 1 1 (EnumEntry "MAV_PROTOCOL_CAPABILITY_MISSION_FLOAT" [] false);
  Decl "MAV_PROTOCOL_CAPABILITY_PARAM_FLOAT" 2 2 (EnumEntry "MAV_PROTOCOL_CAPABILITY_PARAM_FLOAT" [] false);
  Decl "MAV_PROTOCOL_CAPABILITY_MISSION_INT" 4 4 (EnumEntry "MAV_PROTOCOL_CAPABILITY_MISSION_INT" [] false);
  Decl "MAV_PROTOCOL_CAPABILITY_COMMAND_INT" 8 8 (EnumEntry "MAV_PROTOCOL_CAPABILITY_COMMAND_INT" [] false);
  Decl "MAV_PROTOCOL_CAPABILITY_PARAM_ENCODE_BYTEWISE" 16 16 (EnumEntry "MAV_PROTOCOL_CAPABILITY_PARAM_ENCODE_BYTEWISE" [] false);
  Decl "MAV_PROTOCOL_CAPABILITY_FTP" 32 32 (EnumEntry "MAV_PROTOCOL_CAPABILITY_FTP" [] false);
  Decl "MAV_PROTOCOL_CAPABILITY_SET_ATTITUDE_TARGET" 64 64 (EnumEntry "MAV_PROTOCOL_CAPABILITY_SET_ATTITUDE_TARGET" [] false);
  Decl "MAV_PROTOCOL_CAPABILITY_SET_POSITION_TARGET_LOCAL_NED" 128 128 (EnumEntry "MAV_PROTOCOL_CAPABILITY_SET_POSITION_TARGET_LOCAL_NED" [] false);
  Decl "MAV_PROTOCOL_CAPABILITY_SET_POSITION_TARGET_GLOBAL_INT" 256 256 (EnumEntry "MAV_PROTOCOL_CAPABILITY_SET_POSITION_TARGET_GLOBAL_INT" [] false);
  Decl "MAV_PROTOCOL_CAPABILITY_TERRAIN" 512 512 (EnumEntry "MAV_PROTOCOL_CAPABILITY_TERRAIN" [] false);
  Decl "MAV_PROTOCOL_CAPABILITY_SET_ACTUATOR_TARGET" 1024 1024 (EnumEntry "MAV_PROTOCOL_CAPABILITY_SET_ACTUATOR_TARGET" [] false);
  Decl "MAV_PROTOCOL_CAPABILITY_FLIGHT_TERMINATION" 2048 2048 (EnumEntry "MAV_PROTOCOL_CAPABILITY_FLIGHT_TERMINATION" [] false);
  Decl "MAV_PROTOCOL_CAPABILITY_COMPASS_CALIBRATION" 4096 4096 (EnumEntry "MAV_PROTOCOL_CAPABILITY_COMPASS_CALIBRATION" [] false);
  Decl "MAV_PROTOCOL_CAPABILITY_MAVLINK2" 8192 8192 (EnumEntry "MAV_PROTOCOL_CAPABILITY_MAVLINK2" [] false);
  Decl "MAV_PROTOCOL_CAPABILITY_MISSION_FENCE" 16384 16384 (EnumEntry "MAV_PROTOCOL_CAPABILITY_MISSION_FENCE" [] false);
  Decl "MAV_PROTOCOL_CAPABILITY_MISSION_RALLY" 32768 32768 (EnumEntry "MAV_PROTOCOL_CAPABILITY_MISSION_RALLY" [] false);
  Decl "MAV_PROTOCOL_CAPABILITY_RESERVED2" 65536 65536 (EnumEntry "MAV_PROTOCOL_CAPABILITY_RESERVED2" [] false);
  Decl "MAV_PROTOCOL_CAPABILITY_PARAM_ENCODE_C_CAST" 131072 131072 (EnumEntry "MAV_PROTOCOL_CAPABILITY_PARAM_ENCODE_C_CAST" [] false);
  Decl "MAV_PROTOCOL_CAPABILITY_ENUM_END" 131073 131073 (EnumEntry "MAV_PROTOCOL_CAPABILITY_ENUM_END" [] false)].

Definition MAV_MISSION_TYPE : list decl := [
  Decl "MAV_MISSION_TYPE_MISSION" 0 0 (EnumEntry "MAV_MISSION_TYPE_MISSION" [] false);
  Decl "MAV_MISSION_TYPE_FENCE" 1 1 (EnumEntry "MAV_MISSION_TYPE_FENCE" [] false);
  Decl "MAV_MISSION_TYPE_RALLY" 2 2 (EnumEntry "MAV_MISSION_TYPE_RALLY" [] false);
  Decl "MAV_MISSION_TYPE_ALL" 255 255 (EnumEntry "MAV_MISSION_TYPE_ALL" [] false);
  Decl "MAV_MISSION_TYPE_ENUM_END" 256 256 (EnumEntry "MAV_MISSION_TYPE_ENUM_END" [] false)].

Definition MAV_ESTIMATOR_TYPE : list decl := [
  Decl "MAV_ESTIMATOR_TYPE_UNKNOWN" 0 0 (EnumEntry "MAV_ESTIMATOR_TYPE_UNKNOWN" [] false);
  Decl "MAV_ESTIMATOR_TYPE_NAIVE" 1 1 (EnumEntry "MAV_ESTIMATOR_TYPE_NAIVE" [] false);
  Decl "MAV_ESTIMATOR_TYPE_VISION" 2 2 (EnumEntry "MAV_ESTIMATOR_TYPE_VISION" [] false);
  Decl "MAV_ESTIMATOR_TYPE_VIO" 3 3 (EnumEntry "MAV_ESTIMATOR_TYPE_VIO" [] false);
  Decl "MAV_ESTIMATOR_TYPE_GPS" 4 4 (EnumEntry "MAV_ESTIMATOR_TYPE_GPS" [] false);
  Decl "MAV_ESTIMATOR_TYPE_GPS_INS" 5 5 (EnumEntry "MAV_ESTIMATOR_TYPE_GPS_INS" [] false);
  Decl "MAV_ESTIMATOR_TYPE_MOCAP" 6 6 (EnumEntry "MAV_ESTIMATOR_TYPE_MOCAP" [] false);
  Decl "MAV_ESTIMATOR_TYPE_LIDAR" 7 7 (EnumEntry "MAV_ESTIMATOR_TYPE_LIDAR" [] false);
  Decl "MAV_ESTIMATOR_TYPE_AUTOPILOT" 8 8 (EnumEntry "MAV_ESTIMATOR_TYPE_AUTOPILOT" [] false);
  Decl "MAV_ESTIMATOR_TYPE_ENUM_END" 9 9 (EnumEntry "MAV_ESTIMATOR_TYPE_ENUM_END" [] false)].

Definition MAV_BATTERY_TYPE : list decl := [
  Decl "MAV_BATTERY_TYPE_UNKNOWN" 0 0 (EnumEntry "MAV_BATTERY_TYPE_UNKNOWN" [] false);
  Decl "MAV_BATTERY_TYPE_LIPO" 1 1 (EnumEntry "MAV_BATTERY_TYPE_LIPO" [] false);
  Decl "MAV_BATTERY_TYPE_LIFE" 2 2 (EnumEntry "MAV_BATTERY_TYPE_LIFE" [] false);
  Decl "MAV_BATTERY_TYPE_LION" 3 3 (EnumEntry "MAV_BATTERY_TYPE_LION" [] false);
  Decl "MAV_BATTERY_TYPE_NIMH" 4 4 (EnumEntry "MAV_BATTERY_TYPE_NIMH" [] false);
  Decl "MAV_BATTERY_TYPE_ENUM_END" 5 5 (EnumEntry "MAV_BATTERY_TYPE_ENUM_END" [] false)].

Definition MAV_BATTERY_FUNCTION : list decl := [
  Decl "MAV_BATTERY_FUNCTION_UNKNOWN" 0 0 (EnumEntry "MAV_BATTERY_FUNCTION_UNKNOWN" [] false);
  Decl "MAV_BATTERY_FUNCTION_ALL" 1 1 (EnumEntry "MAV_BATTERY_FUNCTION_ALL" [] false);
  Decl "MAV_BATTERY_FUNCTION_PROPULSION" 2 2 (EnumEntry "MAV_BATTERY_FUNCTION_PROPULSION" [] false);
  Decl "MAV_BATTERY_FUNCTION_AVIONICS" 3 3 (EnumEntry "MAV_BATTERY_FUNCTION_AVIONICS" [] false);
  Decl "MAV_BATTERY_TYPE_PAYLOAD" 4 4 (EnumEntry "MAV_BATTERY_TYPE_PAYLOAD" [] false);
  Decl "MAV_BATTERY_FUNCTION_ENUM_END" 5 5 (EnumEntry "MAV_BATTERY_FUNCTION_ENUM_END" [] false)].

Definition MAV_BATTERY_CHARGE_STATE : list decl := [
  Decl "MAV_BATTERY_CHARGE_STATE_UNDEFINED" 0 0 (EnumEntry "MAV_BATTERY_CHARGE_STATE_UNDEFINED" [] false);
  Decl "MAV_BATTERY_CHARGE_STATE_OK" 1 1 (EnumEntry "MAV_BATTERY_CHARGE_STATE_OK" [] false);
  Decl "MAV_BATTERY_CHARGE_STATE_LOW" 2 2 (EnumEntry "MAV_BATTERY_CHARGE_STATE_LOW" [] false);
  Decl "MAV_BATTERY_CHARGE_STATE_CRITICAL" 3 3 (EnumEntry "MAV_BATTERY_CHARGE_STATE_CRITICAL" [] false);
  Decl "MAV_BATTERY_CHARGE_STATE_EMERGENCY" 4 4 (EnumEntry "MAV_BATTERY_CHARGE_STATE_EMERGENCY" [] false);
  Decl "MAV_BATTERY_CHARGE_STATE_FAILED" 5 5 (EnumEntry "MAV_BATTERY_CHARGE_STATE_FAILED" [] false);
  Decl "MAV_BATTERY_CHARGE_STATE_UNHEALTHY" 6 6 (EnumEntry "MAV_BATTERY_CHARGE_STATE_UNHEALTHY" [] false);
  Decl "MAV_BATTERY_CHARGE_STATE_CHARGING" 7 7 (EnumEntry "MAV_BATTERY_CHARGE_STATE_CHARGING" [] false);
  Decl "MAV_BATTERY_CHARGE_STATE_ENUM_END" 8 8 (EnumEntry "MAV_BATTERY_CHARGE_STATE_ENUM_END" [] false)].

Definition MAV_BATTERY_MODE : list decl := [
  Decl "MAV_BATTERY_MODE_UNKNOWN" 0 0 (EnumEntry "MAV_BATTERY_MODE_UNKNOWN" [] false);
  Decl "MAV_BATTERY_MODE_AUTO_DISCHARGING" 1 1 (EnumEntry "MAV_BATTERY_MODE_AUTO_DISCHARGING" [] false);
  Decl "MAV_BATTERY_MODE_HOT_SWAP" 2 2 (EnumEntry "MAV_BATTERY_MODE_HOT_SWAP" [] false);
  Decl "MAV_BATTERY_MODE_ENUM_END" 3 3 (EnumEntry "MAV_BATTERY_MODE_ENUM_END" [] false)].

Definition MAV_BATTERY_FAULT : list decl := [
  Decl "MAV_BATTERY_FAULT_DEEP_DISCHARGE" 1 1 (EnumEntry "MAV_BATTERY_FAULT_DEEP_DISCHARGE" [] false);
  Decl "MAV_BATTERY_FAULT_SPIKES" 2 2 (EnumEntry "MAV_BATTERY_FAULT_SPIKES" [] false);
  Decl "MAV_BATTERY_FAULT_CELL_FAIL" 4 4 (EnumEntry "MAV_BATTERY_FAULT_CELL_FAIL" [] false);
  Decl "MAV_BATTERY_FAULT_OVER_CURRENT" 8 8 (EnumEntry "MAV_BATTERY_FAULT_OVER_CURRENT" [] false);
  Decl "MAV_BATTERY_FAULT_OVER_TEMPERATURE" 16 16 (EnumEntry "MAV_BATTERY_FAULT_OVER_TEMPERATURE" [] false);
  Decl "MAV_BATTERY_FAULT_UNDER_TEMPERATURE" 32 32 (EnumEntry "MAV_BATTERY_FAULT_UNDER_TEMPERATURE" [] false);
  Decl "MAV_BATTERY_FAULT_INCOMPATIBLE_VOLTAGE" 64 64 (EnumEntry "MAV_BATTERY_FAULT_INCOMPATIBLE_VOLTAGE" [] false);
  Decl "MAV_BATTERY_FAULT_INCOMPATIBLE_FIRMWARE" 128 128 (EnumEntry "MAV_BATTERY_FAULT_INCOMPATIBLE_FIRMWARE" [] false);
  Decl "BATTERY_FAULT_INCOMPATIBLE_CELLS_CONFIGURATION" 256 256 (EnumEntry "BATTERY_FAULT_INCOMPATIBLE_CELLS_CONFIGURATION" [] false);
  Decl "MAV_BATTERY_FAULT_ENUM_END" 257 257 (EnumEntry "MAV_BATTERY_FAULT_ENUM_END" [] false)].

Definition MAV_GENERATOR_STATUS_FLAG : list decl := [
  Decl "MAV_GENERATOR_STATUS_FLAG_OFF" 1 1 (EnumEntry "MAV_GENERATOR_STATUS_FLAG_OFF" [] false);
  Decl "MAV_GENERATOR_STATUS_FLAG_READY" 2 2 (EnumEntry "MAV_GENERATOR_STATUS_FLAG_READY" [] false);
  Decl "MAV_GENERATOR_STATUS_FLAG_GENERATING" 4 4 (EnumEntry "MAV_GENERATOR_STATUS_FLAG_GENERATING" [] false);
  Decl "MAV_GENERATOR_STATUS_FLAG_CHARGING" 8 8 (EnumEntry "MAV_GENERATOR_STATUS_FLAG_CHARGING" [] false);
  Decl "MAV_GENERATOR_STATUS_FLAG_REDUCED_POWER" 16 16 (EnumEntry "MAV_GENERATOR_STATUS_FLAG_REDUCED_POWER" [] false);
  Decl "MAV_GENERATOR_STATUS_FLAG_MAXPOWER" 32 32 (EnumEntry "MAV_GENERATOR_STATUS_FLAG_MAXPOWER" [] false);
  Decl "MAV_GENERATOR_STATUS_FLAG_OVERTEMP_WARNING" 64 64 (EnumEntry "MAV_GENERATOR_STATUS_FLAG_OVERTEMP_WARNING" [] false);
  Decl "MAV_GENERATOR_STATUS_FLAG_OVERTEMP_FAULT" 128 128 (EnumEntry "MAV_GENERATOR_STATUS_FLAG_OVERTEMP_FAULT" [] false);
  Decl "MAV_GENERATOR_STATUS_FLAG_ELECTRONICS_OVERTEMP_WARNING" 256 256 (EnumEntry "MAV_GENERATOR_STATUS_FLAG_ELECTRONICS_OVERTEMP_WARNING" [] false);
  Decl "MAV_GENERATOR_STATUS_FLAG_ELECTRONICS_OVERTEMP_FAULT" 512 512 (EnumEntry "MAV_GENERATOR_STATUS_FLAG_ELECTRONICS_OVERTEMP_FAULT" [] false);
  Decl "MAV_GENERATOR_STATUS_FLAG_ELECTRONICS_FAULT" 1024 1024 (EnumEntry "MAV_GENERATOR_STATUS_FLAG_ELECTRONICS_FAULT" [] false);
  Decl "MAV_GENERATOR_STATUS_FLAG_POWERSOURCE_FAULT" 2048 2048 (EnumEntry "MAV_GENERATOR_STATUS_FLAG_POWERSOURCE_FAULT" [] false);
  Decl "MAV_GENERATOR_STATUS_FLAG_COMMUNICATION_WARNING" 4096 4096 (EnumEntry "MAV_GENERATOR_STATUS_FLAG_COMMUNICATION_WARNING" [] false);
  Decl "MAV_GENERATOR_STATUS_FLAG_COOLING_WARNING" 8192 8192 (EnumEntry "MAV_GENERATOR_STATUS_FLAG_COOLING_WARNING" [] false);
  Decl "MAV_GENERATOR_STATUS_FLAG_POWER_RAIL_FAULT" 16384 16384 (EnumEntry "MAV_GENERATOR_STATUS_FLAG_POWER_RAIL_FAULT" [] false);
  Decl "MAV_GENERATOR_STATUS_FLAG_OVERCURRENT_FAULT" 32768 32768 (EnumEntry "MAV_GENERATOR_STATUS_FLAG_OVERCURRENT_FAULT" [] false);
  Decl "MAV_GENERATOR_STATUS_FLAG_BATTERY_OVERCHARGE_CURRENT_FAULT" 65536 65536 (EnumEntry "MAV_GENERATOR_STATUS_FLAG_BATTERY_OVERCHARGE_CURRENT_FAULT" [] false);
  Decl "MAV_GENERATOR_STATUS_FLAG_OVERVOLTAGE_FAULT" 131072 131072 (EnumEntry "MAV_GENERATOR_STATUS_FLAG_OVERVOLTAGE_FAULT" [] false);
  Decl "MAV_GENERATOR_STATUS_FLAG_BATTERY_UNDERVOLT_FAULT" 262144 262144 (EnumEntry "MAV_GENERATOR_STATUS_FLAG_BATTERY_UNDERVOLT_FAULT" [] false);
  Decl "MAV_GENERATOR_STATUS_FLAG_START_INHIBITED" 524288 524288 (EnumEntry "MAV_GENERATOR_STATUS_FLAG_START_INHIBITED" [] false);
  Decl "MAV_GENERATOR_STATUS_FLAG_MAINTENANCE_REQUIRED" 1048576 1048576 (EnumEntry "MAV_GENERATOR_STATUS_FLAG_MAINTENANCE_REQUIRED" [] false);
  Decl "MAV_GENERATOR_STATUS_FLAG_WARMING_UP" 2097152 2097152 (EnumEntry "MAV_GENERATOR_STATUS_FLAG_WARMING_UP" [] false);
  Decl "MAV_GENERATOR_STATUS_FLAG_IDLE" 4194304 4194304 (EnumEntry "MAV_GENERATOR_STATUS_FLAG_IDLE" [] false);
  Decl "MAV_GENERATOR_STATUS_FLAG_ENUM_END" 4194305 4194305 (EnumEntry "MAV_GENERATOR_STATUS_FLAG_ENUM_END" [] false)].

Definition MAV_VTOL_STATE : list decl := [
  Decl "MAV_VTOL_STATE_UNDEFINED" 0 0 (EnumEntry "MAV_VTOL_STATE_UNDEFINED" [] false);
  Decl "MAV_VTOL_STATE_TRANSITION_TO_FW" 1 1 (EnumEntry "MAV_VTOL_STATE_TRANSITION_TO_FW" [] false);
  Decl "MAV_VTOL_STATE_TRANSITION_TO_MC" 2 2 (EnumEntry "MAV_VTOL_STATE_TRANSITION_TO_MC" [] false);
  Decl "MAV_VTOL_STATE_MC" 3 3 (EnumEntry "MAV_VTOL_STATE_MC" [] false);
  Decl "MAV_VTOL_STATE_FW" 4 4 (EnumEntry "MAV_VTOL_STATE_FW" [] false);
  Decl "MAV_VTOL_STATE_ENUM_END" 5 5 (EnumEntry "MAV_VTOL_STATE_ENUM_END" [] false)].

Definition MAV_LANDED_STATE : list decl := [
  Decl "MAV_LANDED_STATE_UNDEFINED" 0 0 (EnumEntry "MAV_LANDED_STATE_UNDEFINED" [] false);
  Decl "MAV_LANDED_STATE_ON_GROUND" 1 1 (EnumEntry "MAV_LANDED_STATE_ON_GROUND" [] false);
  Decl "MAV_LANDED_STATE_IN_AIR" 2 2 (EnumEntry "MAV_LANDED_STATE_IN_AIR" [] false);
  Decl "MAV_LANDED_STATE_TAKEOFF" 3 3 (EnumEntry "MAV_LANDED_STATE_TAKEOFF" [] false);
  Decl "MAV_LANDED_STATE_LANDING" 4 4 (EnumEntry "MAV_LANDED_STATE_LANDING" [] false);
  Decl "MAV_LANDED_STATE_ENUM_END" 5 5 (EnumEntry "MAV_LANDED_STATE_ENUM_END" [] false)].

Definition ADSB_ALTITUDE_TYPE : list decl := [
  Decl "ADSB_ALTITUDE_TYPE_PRESSURE_QNH" 0 0 (EnumEntry "ADSB_ALTITUDE_TYPE_PRESSURE_QNH" [] false);
  Decl "ADSB_ALTITUDE_TYPE_GEOMETRIC" 1 1 (EnumEntry "ADSB_ALTITUDE_TYPE_GEOMETRIC" [] false);
  Decl "ADSB_ALTITUDE_TYPE_ENUM_END" 2 2 (EnumEntry "ADSB_ALTITUDE_TYPE_ENUM_END" [] false)].

Definition ADSB_EMITTER_TYPE : list decl := [
  Decl "ADSB_EMITTER_TYPE_NO_INFO" 0 0 (EnumEntry "ADSB_EMITTER_TYPE_NO_INFO" [] false);
  Decl "ADSB_EMITTER_TYPE_LIGHT" 1 1 (EnumEntry "ADSB_EMITTER_TYPE_LIGHT" [] false);
  Decl "ADSB_EMITTER_TYPE_SMALL" 2 2 (EnumEntry "ADSB_EMITTER_TYPE_SMALL" [] false);
  Decl "ADSB_EMITTER_TYPE_LARGE" 3 3 (EnumEntry "ADSB_EMITTER_TYPE_LARGE" [] false);
  Decl "ADSB_EMITTER_TYPE_HIGH_VORTEX_LARGE" 4 4 (EnumEntry "ADSB_EMITTER_TYPE_HIGH_VORTEX_LARGE" [] false);
  Decl "ADSB_EMITTER_TYPE_HEAVY" 5 5 (EnumEntry "ADSB_EMITTER_TYPE_HEAVY" [] false);
  Decl "ADSB_EMITTER_TYPE_HIGHLY_MANUV" 6 6 (EnumEntry "ADSB_EMITTER_TYPE_HIGHLY_MANUV" [] false);
  Decl "ADSB_EMITTER_TYPE_ROTOCRAFT" 7 7 (EnumEntry "ADSB_EMITTER_TYPE_ROTOCRAFT" [] false);
  Decl "ADSB_EMITTER_TYPE_UNASSIGNED" 8 8 (EnumEntry "ADSB_EMITTER_TYPE_UNASSIGNED" [] false);
  Decl "ADSB_EMITTER_TYPE_GLIDER" 9 9 (EnumEntry "ADSB_EMITTER_TYPE_GLIDER" [] false);
  Decl "ADSB_EMITTER_TYPE_LIGHTER_AIR" 10 10 (EnumEntry "ADSB_EMITTER_TYPE_LIGHTER_AIR" [] false);
  Decl "ADSB_EMITTER_TYPE_PARACHUTE" 11 11 (EnumEntry "ADSB_EMITTER_TYPE_PARACHUTE" [] false);
  Decl "ADSB_EMITTER_TYPE_ULTRA_LIGHT" 12 12 (EnumEntry "ADSB_EMITTER_TYPE_ULTRA_LIGHT" [] false);
  Decl "ADSB_EMITTER_TYPE_UNASSIGNED2" 13 13 (EnumEntry "ADSB_EMITTER_TYPE_UNASSIGNED2" [] false);
  Decl "ADSB_EMITTER_TYPE_UAV" 14 14 (EnumEntry "ADSB_EMITTER_TYPE_UAV" [] false);
  Decl "ADSB_EMITTER_TYPE_SPACE" 15 15 (EnumEntry "ADSB_EMITTER_TYPE_SPACE" [] false);
  Decl "ADSB_EMITTER_TYPE_UNASSGINED3" 16 16 (EnumEntry "ADSB_EMITTER_TYPE_UNASSGINED3" [] false);
  Decl "ADSB_EMITTER_TYPE_EMERGENCY_SURFACE" 17 17 (EnumEntry "ADSB_EMITTER_TYPE_EMERGENCY_SURFACE" [] false);
  Decl "ADSB_EMITTER_TYPE_SERVICE_SURFACE" 18 18 (EnumEntry "ADSB_EMITTER_TYPE_SERVICE_SURFACE" [] false);
  Decl "ADSB_EMITTER_TYPE_POINT_OBSTACLE" 19 19 (EnumEntry "ADSB_EMITTER_TYPE_POINT_OBSTACLE" [] false);
  Decl "ADSB_EMITTER_TYPE_ENUM_END" 20 20 (EnumEntry "ADSB_EMITTER_TYPE_ENUM_END" [] false)].

Definition ADSB_FLAGS : list decl := [
  Decl "ADSB_FLAGS_VALID_COORDS" 1 1 (EnumEntry "ADSB_FLAGS_VALID_COORDS" [] false);
  Decl "ADSB_FLAGS_VALID_ALTITUDE" 2 2 (EnumEntry "ADSB_FLAGS_VALID_ALTITUDE" [] false);
  Decl "ADSB_FLAGS_VALID_HEADING" 4 4 (EnumEntry "ADSB_FLAGS_VALID_HEADING" [] false);
  Decl "ADSB_FLAGS_VALID_VELOCITY" 8 8 (EnumEntry "ADSB_FLAGS_VALID_VELOCITY" [] false);
  Decl "ADSB_FLAGS_VALID_CALLSIGN" 16 16 (EnumEntry "ADSB_FLAGS_VALID_CALLSIGN" [] false);
  Decl "ADSB_FLAGS_VALID_SQUAWK" 32 32 (EnumEntry "ADSB_FLAGS_VALID_SQUAWK" [] false);
  Decl "ADSB_FLAGS_SIMULATED" 64 64 (EnumEntry "ADSB_FLAGS_SIMULATED" [] false);
  Decl "ADSB_FLAGS_VERTICAL_VELOCITY_VALID" 128 128 (EnumEntry "ADSB_FLAGS_VERTICAL_VELOCITY_VALID" [] false);
  Decl "ADSB_FLAGS_BARO_VALID" 256 256 (EnumEntry "ADSB_FLAGS_BARO_VALID" [] false);
  Decl "ADSB_FLAGS_SOURCE_UAT" 32768 32768 (EnumEntry "ADSB_FLAGS_SOURCE_UAT" [] false);
  Decl "ADSB_FLAGS_ENUM_END" 32769 32769 (EnumEntry "ADSB_FLAGS_ENUM_END" [] false)].

Definition MAV_DO_REPOSITION_FLAGS : list decl := [
  Decl "MAV_DO_REPOSITION_FLAGS_CHANGE_MODE" 1 1 (EnumEntry "MAV_DO_REPOSITION_FLAGS_CHANGE_MODE" [] false);
  Decl "MAV_DO_REPOSITION_FLAGS_ENUM_END" 2 2 (EnumEntry "MAV_DO_REPOSITION_FLAGS_ENUM_END" [] false)].

Definition ESTIMATOR_STATUS_FLAGS : list decl := [
  Decl "ESTIMATOR_ATTITUDE" 1 1 (EnumEntry "ESTIMATOR_ATTITUDE" [] false);
  Decl "ESTIMATOR_VELOCITY_HORIZ" 2 2 (EnumEntry "ESTIMATOR_VELOCITY_HORIZ" [] false);
  Decl "ESTIMATOR_VELOCITY_VERT" 4 4 (EnumEntry "ESTIMATOR_VELOCITY_VERT" [] false);
  Decl "ESTIMATOR_POS_HORIZ_REL" 8 8 (EnumEntry "ESTIMATOR_POS_HORIZ_REL" [] false);
  Decl "ESTIMATOR_POS_HORIZ_ABS" 16 16 (EnumEntry "ESTIMATOR_POS_HORIZ_ABS" [] false);
  Decl "ESTIMATOR_POS_VERT_ABS" 32 32 (EnumEntry "ESTIMATOR_POS_VERT_ABS" [] false);
  Decl "ESTIMATOR_POS_VERT_AGL" 64 64 (EnumEntry "ESTIMATOR_POS_VERT_AGL" [] false);
  Decl "ESTIMATOR_CONST_POS_MODE" 128 128 (EnumEntry "ESTIMATOR_CONST_POS_MODE" [] false);
  Decl "ESTIMATOR_PRED_POS_HORIZ_REL" 256 256 (EnumEntry "ESTIMATOR_PRED_POS_HORIZ_REL" [] false);
  Decl "ESTIMATOR_PRED_POS_HORIZ_ABS" 512 512 (EnumEntry "ESTIMATOR_PRED_POS_HORIZ_ABS" [] false);
  Decl "ESTIMATOR_GPS_GLITCH" 1024 1024 (EnumEntry "ESTIMATOR_GPS_GLITCH" [] false);
  Decl "ESTIMATOR_ACCEL_ERROR" 2048 2048 (EnumEntry "ESTIMATOR_ACCEL_ERROR" [] false);
  Decl "ESTIMATOR_STATUS_FLAGS_ENUM_END" 2049 2049 (EnumEntry "ESTIMATOR_STATUS_FLAGS_ENUM_END" [] false)].

Definition enums_1 : list (string * list decl) := [
  ("FIRMWARE_VERSION_TYPE", FIRMWARE_VERSION_TYPE);
  ("HL_FAILURE_FLAG", HL_FAILURE_FLAG);
  ("MAV_GOTO", MAV_GOTO);
  ("MAV_MODE", MAV_MODE);
  ("MAV_SYS_STATUS_SENSOR", MAV_SYS_STATUS_SENSOR);
  ("MAV_SYS_STATUS_SENSOR_EXTENDED", MAV_SYS_STATUS_SENSOR_EXTENDED);
  ("MAV_FRAME", MAV_FRAME);
  ("MAVLINK_DATA_STREAM_TYPE", MAVLINK_DATA_STREAM_TYPE);
  ("FENCE_ACTION", FENCE_ACTION);
  ("FENCE_BREACH", FENCE_BREACH);
  ("FENCE_MITIGATE", FENCE_MITIGATE);
  ("MAV_MOUNT_MODE", MAV_MOUNT_MODE);
  ("GIMBAL_DEVICE_CAP_FLAGS", GIMBAL_DEVICE_CAP_FLAGS);
  ("GIMBAL_MANAGER_CAP_FLAGS", GIMBAL_MANAGER_CAP_FLAGS);
  ("GIMBAL_DEVICE_FLAGS", GIMBAL_DEVICE_FLAGS);
  ("GIMBAL_MANAGER_FLAGS", GIMBAL_MANAGER_FLAGS);
  ("GIMBAL_DEVICE_ERROR_FLAGS", GIMBAL_DEVICE_ERROR_FLAGS);
  ("GRIPPER_ACTIONS", GRIPPER_ACTIONS);
  ("WINCH_ACTIONS", WINCH_ACTIONS);
  ("UAVCAN_NODE_HEALTH", UAVCAN_NODE_HEALTH);
  ("UAVCAN_NODE_MODE", UAVCAN_NODE_MODE);
  ("ESC_CONNECTION_TYPE", ESC_CONNECTION_TYPE);
  ("ESC_FAILURE_FLAGS", ESC_FAILURE_FLAGS);
  ("STORAGE_STATUS", STORAGE_STATUS);
  ("STORAGE_TYPE", STORAGE_TYPE);
  ("STORAGE_USAGE_FLAG", STORAGE_USAGE_FLAG);
  ("ORBIT_YAW_BEHAVIOUR", ORBIT_YAW_BEHAVIOUR);
  ("WIFI_CONFIG_AP_RESPONSE", WIFI_CONFIG_AP_RESPONSE);
  ("CELLULAR_CONFIG_RESPONSE", CELLULAR_CONFIG_RESPONSE);
  ("WIFI_CONFIG_AP_MODE", WIFI_CONFIG_AP_MODE);
  ("COMP_METADATA_TYPE", COMP_METADATA_TYPE);
  ("ACTUATOR_CONFIGURATION", ACTUATOR_CONFIGURATION);
  ("ACTUATOR_OUTPUT_FUNCTION", ACTUATOR_OUTPUT_FUNCTION);
  ("AUTOTUNE_AXIS", AUTOTUNE_AXIS);
  ("PREFLIGHT_STORAGE_PARAMETER_ACTION", PREFLIGHT_STORAGE_PARAMETER_ACTION);
  ("PREFLIGHT_STORAGE_MISSION_ACTION", PREFLIGHT_STORAGE_MISSION_ACTION);
  ("MAV_CMD", MAV_CMD);
  ("MAV_DATA_STREAM", MAV_DATA_STREAM);
  ("MAV_ROI", MAV_ROI);
  ("MAV_CMD_ACK", MAV_CMD_ACK);
  ("MAV_PARAM_TYPE", MAV_PARAM_TYPE);
  ("MAV_PARAM_EXT_TYPE", MAV_PARAM_EXT_TYPE);
  ("MAV_RESULT", MAV_RESULT);
  ("MAV_MISSION_RESULT", MAV_MISSION_RESULT);
  ("MAV_SEVERITY", MAV_SEVERITY);
  ("MAV_POWER_STATUS", MAV_POWER_STATUS);
  ("SERIAL_CONTROL_DEV", SERIAL_CONTROL_DEV);
  ("SERIAL_CONTROL_FLAG", SERIAL_CONTROL_FLAG);
  ("MAV_DISTANCE_SENSOR", MAV_DISTANCE_SENSOR);
  ("MAV_SENSOR_ORIENTATION", MAV_SENSOR_ORIENTATION);
  ("MAV_PROTOCOL_CAPABILITY", MAV_PROTOCOL_CAPABILITY);
  ("MAV_MISSION_TYPE", MAV_MISSION_TYPE);
  ("MAV_ESTIMATOR_TYPE", MAV_ESTIMATOR_TYPE);
  ("MAV_BATTERY_TYPE", MAV_BATTERY_TYPE);
  ("MAV_BATTERY_FUNCTION", MAV_BATTERY_FUNCTION);
  ("MAV_BATTERY_CHARGE_STATE", MAV_BATTERY_CHARGE_STATE);
  ("MAV_BATTERY_MODE", MAV_BATTERY_MODE);
  ("MAV_BATTERY_FAULT", MAV_BATTERY_FAULT);
  ("MAV_GENERATOR_STATUS_FLAG", MAV_GENERATOR_STATUS_FLAG);
  ("MAV_VTOL_STATE", MAV_VTOL_STATE);
  ("MAV_LANDED_STATE", MAV_LANDED_STATE);
  ("ADSB_ALTITUDE_TYPE", ADSB_ALTITUDE_TYPE);
  ("ADSB_EMITTER_TYPE", ADSB_EMITTER_TYPE);
  ("ADSB_FLAGS", ADSB_FLAGS);
  ("MAV_DO_REPOSITION_FLAGS", MAV_DO_REPOSITION_FLAGS);
  ("ESTIMATOR_STATUS_FLAGS", ESTIMATOR_STATUS_FLAGS)].

End MavEnums1.
