(* ===== verification/MavEnums2.v ===== *)
(** The enumerations MOTOR_TEST_ORDER to MAV_COMPONENT of wfb_ng/mavlink.py (part 2), in the
    order of the file: for each entry the constant, its value, and the entry
    stored under a key of the enumeration.  Descriptions are left out. *)
From Stdlib Require Import ZArith.
From stdpp Require Import base list strings.
From S2P Require Import Prelude MavEnum.

Module MavEnums2.
Import MavEnum.
#[local] Open Scope string_scope.
#[local] Open Scope Z_scope.
#[local] Open Scope list_scope.

Definition MOTOR_TEST_ORDER : list decl := [
  Decl "MOTOR_TEST_ORDER_DEFAULT" 0 0 (EnumEntry "MOTOR_TEST_ORDER_DEFAULT" [] false);
  Decl "MOTOR_TEST_ORDER_SEQUENCE" 1 1 (EnumEntry "MOTOR_TEST_ORDER_SEQUENCE" [] false);
  Decl "MOTOR_TEST_ORDER_BOARD" 2 2 (EnumEntry "MOTOR_TEST_ORDER_BOARD" [] false);
  Decl "MOTOR_TEST_ORDER_ENUM_END" 3 3 (EnumEntry "MOTOR_TEST_ORDER_ENUM_END" [] false)].

Definition MOTOR_TEST_THROTTLE_TYPE : list decl := [
  Decl "MOTOR_TEST_THROTTLE_PERCENT" 0 0 (EnumEntry "MOTOR_TEST_THROTTLE_PERCENT" [] false);
  Decl "MOTOR_TEST_THROTTLE_PWM" 1 1 (EnumEntry "MOTOR_TEST_THROTTLE_PWM" [] false);
  Decl "MOTOR_TEST_THROTTLE_PILOT" 2 2 (EnumEntry "MOTOR_TEST_THROTTLE_PILOT" [] false);
  Decl "MOTOR_TEST_COMPASS_CAL" 3 3 (EnumEntry "MOTOR_TEST_COMPASS_CAL" [] false);
  Decl "MOTOR_TEST_THROTTLE_TYPE_ENUM_END" 4 4 (EnumEntry "MOTOR_TEST_THROTTLE_TYPE_ENUM_END" [] false)].

Definition GPS_INPUT_IGNORE_FLAGS : list decl := [
  Decl "GPS_INPUT_IGNORE_FLAG_ALT" 1 1 (EnumEntry "GPS_INPUT_IGNORE_FLAG_ALT" [] false);
  Decl "GPS_INPUT_IGNORE_FLAG_HDOP" 2 2 (EnumEntry "GPS_INPUT_IGNORE_FLAG_HDOP" [] false);
  Decl "GPS_INPUT_IGNORE_FLAG_VDOP" 4 4 (EnumEntry "GPS_INPUT_IGNORE_FLAG_VDOP" [] false);
  Decl "GPS_INPUT_IGNORE_FLAG_VEL_HORIZ" 8 8 (EnumEntry "GPS_INPUT_IGNORE_FLAG_VEL_HORIZ" [] false);
  Decl "GPS_INPUT_IGNORE_FLAG_VEL_VERT" 16 16 (EnumEntry "GPS_INPUT_IGNORE_FLAG_VEL_VERT" [] false);
  Decl "GPS_INPUT_IGNORE_FLAG_SPEED_ACCURACY" 32 32 (EnumEntry "GPS_INPUT_IGNORE_FLAG_SPEED_ACCURACY" [] false);
  Decl "GPS_INPUT_IGNORE_FLAG_HORIZONTAL_ACCURACY" 64 64 (EnumEntry "GPS_INPUT_IGNORE_FLAG_HORIZONTAL_ACCURACY" [] false);
  Decl "GPS_INPUT_IGNORE_FLAG_VERTICAL_ACCURACY" 128 128 (EnumEntry "GPS_INPUT_IGNORE_FLAG_VERTICAL_ACCURACY" [] false);
  Decl "GPS_INPUT_IGNORE_FLAGS_ENUM_END" 129 129 (EnumEntry "GPS_INPUT_IGNORE_FLAGS_ENUM_END" [] false)].

Definition MAV_COLLISION_ACTION : list decl := [
  Decl "MAV_COLLISION_ACTION_NONE" 0 0 (EnumEntry "MAV_COLLISION_ACTION_NONE" [] false);
  Decl "MAV_COLLISION_ACTION_REPORT" 1 1 (EnumEntry "MAV_COLLISION_ACTION_REPORT" [] false);
  Decl "MAV_COLLISION_ACTION_ASCEND_OR_DESCEND" 2 2 (EnumEntry "MAV_COLLISION_ACTION_ASCEND_OR_DESCEND" [] false);
  Decl "MAV_COLLISION_ACTION_MOVE_HORIZONTALLY" 3 3 (EnumEntry "MAV_COLLISION_ACTION_MOVE_HORIZONTALLY" [] false);
  Decl "MAV_COLLISION_ACTION_MOVE_PERPENDICULAR" 4 4 (EnumEntry "MAV_COLLISION_ACTION_MOVE_PERPENDICULAR" [] false);
  Decl "MAV_COLLISION_ACTION_RTL" 5 5 (EnumEntry "MAV_COLLISION_ACTION_RTL" [] false);
  Decl "MAV_COLLISION_ACTION_HOVER" 6 6 (EnumEntry "MAV_COLLISION_ACTION_HOVER" [] false);
  Decl "MAV_COLLISION_ACTION_ENUM_END" 7 7 (EnumEntry "MAV_COLLISION_ACTION_ENUM_END" [] false)].

Definition MAV_COLLISION_THREAT_LEVEL : list decl := [
  Decl "MAV_COLLISION_THREAT_LEVEL_NONE" 0 0 (EnumEntry "MAV_COLLISION_THREAT_LEVEL_NONE" [] false);
  Decl "MAV_COLLISION_THREAT_LEVEL_LOW" 1 1 (EnumEntry "MAV_COLLISION_THREAT_LEVEL_LOW" [] false);
  Decl "MAV_COLLISION_THREAT_LEVEL_HIGH" 2 2 (EnumEntry "MAV_COLLISION_THREAT_LEVEL_HIGH" [] false);
  Decl "MAV_COLLISION_THREAT_LEVEL_ENUM_END" 3 3 (EnumEntry "MAV_COLLISION_THREAT_LEVEL_ENUM_END" [] false)].

Definition MAV_COLLISION_SRC : list decl := [
  Decl "MAV_COLLISION_SRC_ADSB" 0 0 (EnumEntry "MAV_COLLISION_SRC_ADSB" [] false);
  Decl "MAV_COLLISION_SRC_MAVLINK_GPS_GLOBAL_INT" 1 1 (EnumEntry "MAV_COLLISION_SRC_MAVLINK_GPS_GLOBAL_INT" [] false);
  Decl "MAV_COLLISION_SRC_ENUM_END" 2 2 (EnumEntry "MAV_COLLISION_SRC_ENUM_END" [] false)].

Definition GPS_FIX_TYPE : list decl := [
  Decl "GPS_FIX_TYPE_NO_GPS" 0 0 (EnumEntry "GPS_FIX_TYPE_NO_GPS" [] false);
  Decl "GPS_FIX_TYPE_NO_FIX" 1 1 (EnumEntry "GPS_FIX_TYPE_NO_FIX" [] false);
  Decl "GPS_FIX_TYPE_2D_FIX" 2 2 (EnumEntry "GPS_FIX_TYPE_2D_FIX" [] false);
  Decl "GPS_FIX_TYPE_3D_FIX" 3 3 (EnumEntry "GPS_FIX_TYPE_3D_FIX" [] false);
  Decl "GPS_FIX_TYPE_DGPS" 4 4 (EnumEntry "GPS_FIX_TYPE_DGPS" [] false);
  Decl "GPS_FIX_TYPE_RTK_FLOAT" 5 5 (EnumEntry "GPS_FIX_TYPE_RTK_FLOAT" [] false);
  Decl "GPS_FIX_TYPE_RTK_FIXED" 6 6 (EnumEntry "GPS_FIX_TYPE_RTK_FIXED" [] false);
  Decl "GPS_FIX_TYPE_STATIC" 7 7 (EnumEntry "GPS_FIX_TYPE_STATIC" [] false);
  Decl "GPS_FIX_TYPE_PPP" 8 8 (EnumEntry "GPS_FIX_TYPE_PPP" [] false);
  Decl "GPS_FIX_TYPE_ENUM_END" 9 9 (EnumEntry "GPS_FIX_TYPE_ENUM_END" [] false)].

Definition RTK_BASELINE_COORDINATE_SYSTEM : list decl := [
  Decl "RTK_BASELINE_COORDINATE_SYSTEM_ECEF" 0 0 (EnumEntry "RTK_BASELINE_COORDINATE_SYSTEM_ECEF" [] false);
  Decl "RTK_BASELINE_COORDINATE_SYSTEM_NED" 1 1 (EnumEntry "RTK_BASELINE_COORDINATE_SYSTEM_NED" [] false);
  Decl "RTK_BASELINE_COORDINATE_SYSTEM_ENUM_END" 2 2 (EnumEntry "RTK_BASELINE_COORDINATE_SYSTEM_ENUM_END" [] false)].

Definition LANDING_TARGET_TYPE : list decl := [
  Decl "LANDING_TARGET_TYPE_LIGHT_BEACON" 0 0 (EnumEntry "LANDING_TARGET_TYPE_LIGHT_BEACON" [] false);
  Decl "LANDING_TARGET_TYPE_RADIO_BEACON" 1 1 (EnumEntry "LANDING_TARGET_TYPE_RADIO_BEACON" [] false);
  Decl "LANDING_TARGET_TYPE_VISION_FIDUCIAL" 2 2 (EnumEntry "LANDING_TARGET_TYPE_VISION_FIDUCIAL" [] false);
  Decl "LANDING_TARGET_TYPE_VISION_OTHER" 3 3 (EnumEntry "LANDING_TARGET_TYPE_VISION_OTHER" [] false);
  Decl "LANDING_TARGET_TYPE_ENUM_END" 4 4 (EnumEntry "LANDING_TARGET_TYPE_ENUM_END" [] false)].

Definition VTOL_TRANSITION_HEADING : list decl := [
  Decl "VTOL_TRANSITION_HEADING_VEHICLE_DEFAULT" 0 0 (EnumEntry "VTOL_TRANSITION_HEADING_VEHICLE_DEFAULT" [] false);
  Decl "VTOL_TRANSITION_HEADING_NEXT_WAYPOINT" 1 1 (EnumEntry "VTOL_TRANSITION_HEADING_NEXT_WAYPOINT" [] false);
  Decl "VTOL_TRANSITION_HEADING_TAKEOFF" 2 2 (EnumEntry "VTOL_TRANSITION_HEADING_TAKEOFF" [] false);
  Decl "VTOL_TRANSITION_HEADING_SPECIFIED" 3 3 (EnumEntry "VTOL_TRANSITION_HEADING_SPECIFIED" [] false);
  Decl "VTOL_TRANSITION_HEADING_ANY" 4 4 (EnumEntry "VTOL_TRANSITION_HEADING_ANY" [] false);
  Decl "VTOL_TRANSITION_HEADING_ENUM_END" 5 5 (EnumEntry "VTOL_TRANSITION_HEADING_ENUM_END" [] false)].

Definition CAMERA_CAP_FLAGS : list decl := [
  Decl "CAMERA_CAP_FLAGS_CAPTURE_VIDEO" 1 1 (EnumEntry "CAMERA_CAP_FLAGS_CAPTURE_VIDEO" [] false);
  Decl "CAMERA_CAP_FLAGS_CAPTURE_IMAGE" 2 2 (EnumEntry "CAMERA_CAP_FLAGS_CAPTURE_IMAGE" [] false);
  Decl "CAMERA_CAP_FLAGS_HAS_MODES" 4 4 (EnumEntry "CAMERA_CAP_FLAGS_HAS_MODES" [] false);
  Decl "CAMERA_CAP_FLAGS_CAN_CAPTURE_IMAGE_IN_VIDEO_MODE" 8 8 (EnumEntry "CAMERA_CAP_FLAGS_CAN_CAPTURE_IMAGE_IN_VIDEO_MODE" [] false);
  Decl "CAMERA_CAP_FLAGS_CAN_CAPTURE_VIDEO_IN_IMAGE_MODE" 16 16 (EnumEntry "CAMERA_CAP_FLAGS_CAN_CAPTURE_VIDEO_IN_IMAGE_MODE" [] false);
  Decl "CAMERA_CAP_FLAGS_HAS_IMAGE_SURVEY_MODE" 32 32 (EnumEntry "CAMERA_CAP_FLAGS_HAS_IMAGE_SURVEY_MODE" [] false);
  Decl "CAMERA_CAP_FLAGS_HAS_BASIC_ZOOM" 64 64 (EnumEntry "CAMERA_CAP_FLAGS_HAS_BASIC_ZOOM" [] false);
  Decl "CAMERA_CAP_FLAGS_HAS_BASIC_FOCUS" 128 128 (EnumEntry "CAMERA_CAP_FLAGS_HAS_BASIC_FOCUS" [] false);
  Decl "CAMERA_CAP_FLAGS_HAS_VIDEO_STREAM" 256 256 (EnumEntry "CAMERA_CAP_FLAGS_HAS_VIDEO_STREAM" [] false);
  Decl "CAMERA_CAP_FLAGS_HAS_TRACKING_POINT" 512 512 (EnumEntry "CAMERA_CAP_FLAGS_HAS_TRACKING_POINT" [] false);
  Decl "CAMERA_CAP_FLAGS_HAS_TRACKING_RECTANGLE" 1024 1024 (EnumEntry "CAMERA_CAP_FLAGS_HAS_TRACKING_RECTANGLE" [] false);
  Decl "CAMERA_CAP_FLAGS_HAS_TRACKING_GEO_STATUS" 2048 2048 (EnumEntry "CAMERA_CAP_FLAGS_HAS_TRACKING_GEO_STATUS" [] false);
  Decl "CAMERA_CAP_FLAGS_ENUM_END" 2049 2049 (EnumEntry "CAMERA_CAP_FLAGS_ENUM_END" [] false)].

Definition VIDEO_STREAM_STATUS_FLAGS : list decl := [
  Decl "VIDEO_STREAM_STATUS_FLAGS_RUNNING" 1 1 (EnumEntry "VIDEO_STREAM_STATUS_FLAGS_RUNNING" [] false);
  Decl "VIDEO_STREAM_STATUS_FLAGS_THERMAL" 2 2 (EnumEntry "VIDEO_STREAM_STATUS_FLAGS_THERMAL" [] false);
  Decl "VIDEO_STREAM_STATUS_FLAGS_ENUM_END" 3 3 (EnumEntry "VIDEO_STREAM_STATUS_FLAGS_ENUM_END" [] false)].

Definition VIDEO_STREAM_TYPE : list decl := [
  Decl "VIDEO_STREAM_TYPE_RTSP" 0 0 (EnumEntry "VIDEO_STREAM_TYPE_RTSP" [] false);
  Decl "VIDEO_STREAM_TYPE_RTPUDP" 1 1 (EnumEntry "VIDEO_STREAM_TYPE_RTPUDP" [] false);
  Decl "VIDEO_STREAM_TYPE_TCP_MPEG" 2 2 (EnumEntry "VIDEO_STREAM_TYPE_TCP_MPEG" [] false);
  Decl "VIDEO_STREAM_TYPE_MPEG_TS_H264" 3 3 (EnumEntry "VIDEO_STREAM_TYPE_MPEG_TS_H264" [] false);
  Decl "VIDEO_STREAM_TYPE_ENUM_END" 4 4 (EnumEntry "VIDEO_STREAM_TYPE_ENUM_END" [] false)].

Definition CAMERA_TRACKING_STATUS_FLAGS : list decl := [
  Decl "CAMERA_TRACKING_STATUS_FLAGS_IDLE" 0 0 (EnumEntry "CAMERA_TRACKING_STATUS_FLAGS_IDLE" [] false);
  Decl "CAMERA_TRACKING_STATUS_FLAGS_ACTIVE" 1 1 (EnumEntry "CAMERA_TRACKING_STATUS_FLAGS_ACTIVE" [] false);
  Decl "CAMERA_TRACKING_STATUS_FLAGS_ERROR" 2 2 (EnumEntry "CAMERA_TRACKING_STATUS_FLAGS_ERROR" [] false);
  Decl "CAMERA_TRACKING_STATUS_FLAGS_ENUM_END" 3 3 (EnumEntry "CAMERA_TRACKING_STATUS_FLAGS_ENUM_END" [] false)].

Definition CAMERA_TRACKING_MODE : list decl := [
  Decl "CAMERA_TRACKING_MODE_NONE" 0 0 (EnumEntry "CAMERA_TRACKING_MODE_NONE" [] false);
  Decl "CAMERA_TRACKING_MODE_POINT" 1 1 (EnumEntry "CAMERA_TRACKING_MODE_POINT" [] false);
  Decl "CAMERA_TRACKING_MODE_RECTANGLE" 2 2 (EnumEntry "CAMERA_TRACKING_MODE_RECTANGLE" [] false);
  Decl "CAMERA_TRACKING_MODE_ENUM_END" 3 3 (EnumEntry "CAMERA_TRACKING_MODE_ENUM_END" [] false)].

Definition CAMERA_TRACKING_TARGET_DATA : list decl := [
  Decl "CAMERA_TRACKING_TARGET_DATA_NONE" 0 0 (EnumEntry "CAMERA_TRACKING_TARGET_DATA_NONE" [] false);
  Decl "CAMERA_TRACKING_TARGET_DATA_EMBEDDED" 1 1 (EnumEntry "CAMERA_TRACKING_TARGET_DATA_EMBEDDED" [] false);
  Decl "CAMERA_TRACKING_TARGET_DATA_RENDERED" 2 2 (EnumEntry "CAMERA_TRACKING_TARGET_DATA_RENDERED" [] false);
  Decl "CAMERA_TRACKING_TARGET_DATA_IN_STATUS" 4 4 (EnumEntry "CAMERA_TRACKING_TARGET_DATA_IN_STATUS" [] false);
  Decl "CAMERA_TRACKING_TARGET_DATA_ENUM_END" 5 5 (EnumEntry "CAMERA_TRACKING_TARGET_DATA_ENUM_END" [] false)].

Definition CAMERA_ZOOM_TYPE : list decl := [
  Decl "ZOOM_TYPE_STEP" 0 0 (EnumEntry "ZOOM_TYPE_STEP" [] false);
  Decl "ZOOM_TYPE_CONTINUOUS" 1 1 (EnumEntry "ZOOM_TYPE_CONTINUOUS" [] false);
  Decl "ZOOM_TYPE_RANGE" 2 2 (EnumEntry "ZOOM_TYPE_RANGE" [] false);
  Decl "ZOOM_TYPE_FOCAL_LENGTH" 3 3 (EnumEntry "ZOOM_TYPE_FOCAL_LENGTH" [] false);
  Decl "CAMERA_ZOOM_TYPE_ENUM_END" 4 4 (EnumEntry "CAMERA_ZOOM_TYPE_ENUM_END" [] false)].

Definition SET_FOCUS_TYPE : list decl := [
  Decl "FOCUS_TYPE_STEP" 0 0 (EnumEntry "FOCUS_TYPE_STEP" [] false);
  Decl "FOCUS_TYPE_CONTINUOUS" 1 1 (EnumEntry "FOCUS_TYPE_CONTINUOUS" [] false);
  Decl "FOCUS_TYPE_RANGE" 2 2 (EnumEntry "FOCUS_TYPE_RANGE" [] false);
  Decl "FOCUS_TYPE_METERS" 3 3 (EnumEntry "FOCUS_TYPE_METERS" [] false);
  Decl "FOCUS_TYPE_AUTO" 4 4 (EnumEntry "FOCUS_TYPE_AUTO" [] false);
  Decl "FOCUS_TYPE_AUTO_SINGLE" 5 5 (EnumEntry "FOCUS_TYPE_AUTO_SINGLE" [] false);
  Decl "FOCUS_TYPE_AUTO_CONTINUOUS" 6 6 (EnumEntry "FOCUS_TYPE_AUTO_CONTINUOUS" [] false);
  Decl "SET_FOCUS_TYPE_ENUM_END" 7 7 (EnumEntry "SET_FOCUS_TYPE_ENUM_END" [] false)].

Definition PARAM_ACK : list decl := [
  Decl "PARAM_ACK_ACCEPTED" 0 0 (EnumEntry "PARAM_ACK_ACCEPTED" [] false);
  Decl "PARAM_ACK_VALUE_UNSUPPORTED" 1 1 (EnumEntry "PARAM_ACK_VALUE_UNSUPPORTED" [] false);
  Decl "PARAM_ACK_FAILED" 2 2 (EnumEntry "PARAM_ACK_FAILED" [] false);
  Decl "PARAM_ACK_IN_PROGRESS" 3 3 (EnumEntry "PARAM_ACK_IN_PROGRESS" [] false);
  Decl "PARAM_ACK_ENUM_END" 4 4 (EnumEntry "PARAM_ACK_ENUM_END" [] false)].

Definition CAMERA_MODE : list decl := [
  Decl "CAMERA_MODE_IMAGE" 0 0 (EnumEntry "CAMERA_MODE_IMAGE" [] false);
  Decl "CAMERA_MODE_VIDEO" 1 1 (EnumEntry "CAMERA_MODE_VIDEO" [] false);
  Decl "CAMERA_MODE_IMAGE_SURVEY" 2 2 (EnumEntry "CAMERA_MODE_IMAGE_SURVEY" [] false);
  Decl "CAMERA_MODE_ENUM_END" 3 3 (EnumEntry "CAMERA_MODE_ENUM_END" [] false)].

Definition MAV_ARM_AUTH_DENIED_REASON : list decl := [
  Decl "MAV_ARM_AUTH_DENIED_REASON_GENERIC" 0 0 (EnumEntry "MAV_ARM_AUTH_DENIED_REASON_GENERIC" [] false);
  Decl "MAV_ARM_AUTH_DENIED_REASON_NONE" 1 1 (EnumEntry "MAV_ARM_AUTH_DENIED_REASON_NONE" [] false);
  Decl "MAV_ARM_AUTH_DENIED_REASON_INVALID_WAYPOINT" 2 2 (EnumEntry "MAV_ARM_AUTH_DENIED_REASON_INVALID_WAYPOINT" [] false);
  Decl "MAV_ARM_AUTH_DENIED_REASON_TIMEOUT" 3 3 (EnumEntry "MAV_ARM_AUTH_DENIED_REASON_TIMEOUT" [] false);
  Decl "MAV_ARM_AUTH_DENIED_REASON_AIRSPACE_IN_USE" 4 4 (EnumEntry "MAV_ARM_AUTH_DENIED_REASON_AIRSPACE_IN_USE" [] false);
  Decl "MAV_ARM_AUTH_DENIED_REASON_BAD_WEATHER" 5 5 (EnumEntry "MAV_ARM_AUTH_DENIED_REASON_BAD_WEATHER" [] false);
  Decl "MAV_ARM_AUTH_DENIED_REASON_ENUM_END" 6 6 (EnumEntry "MAV_ARM_AUTH_DENIED_REASON_ENUM_END" [] false)].

Definition RC_TYPE : list decl := [
  Decl "RC_TYPE_SPEKTRUM_DSM2" 0 0 (EnumEntry "RC_TYPE_SPEKTRUM_DSM2" [] false);
  Decl "RC_TYPE_SPEKTRUM_DSMX" 1 1 (EnumEntry "RC_TYPE_SPEKTRUM_DSMX" [] false);
  Decl "RC_TYPE_ENUM_END" 2 2 (EnumEntry "RC_TYPE_ENUM_END" [] false)].

Definition POSITION_TARGET_TYPEMASK : list decl := [
  Decl "POSITION_TARGET_TYPEMASK_X_IGNORE" 1 1 (EnumEntry "POSITION_TARGET_TYPEMASK_X_IGNORE" [] false);
  Decl "POSITION_TARGET_TYPEMASK_Y_IGNORE" 2 2 (EnumEntry "POSITION_TARGET_TYPEMASK_Y_IGNORE" [] false);
  Decl "POSITION_TARGET_TYPEMASK_Z_IGNORE" 4 4 (EnumEntry "POSITION_TARGET_TYPEMASK_Z_IGNORE" [] false);
  Decl "POSITION_TARGET_TYPEMASK_VX_IGNORE" 8 8 (EnumEntry "POSITION_TARGET_TYPEMASK_VX_IGNORE" [] false);
  Decl "POSITION_TARGET_TYPEMASK_VY_IGNORE" 16 16 (EnumEntry "POSITION_TARGET_TYPEMASK_VY_IGNORE" [] false);
  Decl "POSITION_TARGET_TYPEMASK_VZ_IGNORE" 32 32 (EnumEntry "POSITION_TARGET_TYPEMASK_VZ_IGNORE" [] false);
  Decl "POSITION_TARGET_TYPEMASK_AX_IGNORE" 64 64 (EnumEntry "POSITION_TARGET_TYPEMASK_AX_IGNORE" [] false);
  Decl "POSITION_TARGET_TYPEMASK_AY_IGNORE" 128 128 (EnumEntry "POSITION_TARGET_TYPEMASK_AY_IGNORE" [] false);
  Decl "POSITION_TARGET_TYPEMASK_AZ_IGNORE" 256 256 (EnumEntry "POSITION_TARGET_TYPEMASK_AZ_IGNORE" [] false);
  Decl "POSITION_TARGET_TYPEMASK_FORCE_SET" 512 512 (EnumEntry "POSITION_TARGET_TYPEMASK_FORCE_SET" [] false);
  Decl "POSITION_TARGET_TYPEMASK_YAW_IGNORE" 1024 1024 (EnumEntry "POSITION_TARGET_TYPEMASK_YAW_IGNORE" [] false);
  Decl "POSITION_TARGET_TYPEMASK_YAW_RATE_IGNORE" 2048 2048 (EnumEntry "POSITION_TARGET_TYPEMASK_YAW_RATE_IGNORE" [] false);
  Decl "POSITION_TARGET_TYPEMASK_ENUM_END" 2049 2049 (EnumEntry "POSITION_TARGET_TYPEMASK_ENUM_END" [] false)].

Definition ATTITUDE_TARGET_TYPEMASK : list decl := [
  Decl "ATTITUDE_TARGET_TYPEMASK_BODY_ROLL_RATE_IGNORE" 1 1 (EnumEntry "ATTITUDE_TARGET_TYPEMASK_BODY_ROLL_RATE_IGNORE" [] false);
  Decl "ATTITUDE_TARGET_TYPEMASK_BODY_PITCH_RATE_IGNORE" 2 2 (EnumEntry "ATTITUDE_TARGET_TYPEMASK_BODY_PITCH_RATE_IGNORE" [] false);
  Decl "ATTITUDE_TARGET_TYPEMASK_BODY_YAW_RATE_IGNORE" 4 4 (EnumEntry "ATTITUDE_TARGET_TYPEMASK_BODY_YAW_RATE_IGNORE" [] false);
  Decl "ATTITUDE_TARGET_TYPEMASK_THRUST_BODY_SET" 32 32 (EnumEntry "ATTITUDE_TARGET_TYPEMASK_THRUST_BODY_SET" [] false);
  Decl "ATTITUDE_TARGET_TYPEMASK_THROTTLE_IGNORE" 64 64 (EnumEntry "ATTITUDE_TARGET_TYPEMASK_THROTTLE_IGNORE" [] false);
  Decl "ATTITUDE_TARGET_TYPEMASK_ATTITUDE_IGNORE" 128 128 (EnumEntry "ATTITUDE_TARGET_TYPEMASK_ATTITUDE_IGNORE" [] false);
  Decl "ATTITUDE_TARGET_TYPEMASK_ENUM_END" 129 129 (EnumEntry "ATTITUDE_TARGET_TYPEMASK_ENUM_END" [] false)].

Definition UTM_FLIGHT_STATE : list decl := [
  Decl "UTM_FLIGHT_STATE_UNKNOWN" 1 1 (EnumEntry "UTM_FLIGHT_STATE_UNKNOWN" [] false);
  Decl "UTM_FLIGHT_STATE_GROUND" 2 2 (EnumEntry "UTM_FLIGHT_STATE_GROUND" [] false);
  Decl "UTM_FLIGHT_STATE_AIRBORNE" 3 3 (EnumEntry "UTM_FLIGHT_STATE_AIRBORNE" [] false);
  Decl "UTM_FLIGHT_STATE_EMERGENCY" 16 16 (EnumEntry "UTM_FLIGHT_STATE_EMERGENCY" [] false);
  Decl "UTM_FLIGHT_STATE_NOCTRL" 32 32 (EnumEntry "UTM_FLIGHT_STATE_NOCTRL" [] false);
  Decl "UTM_FLIGHT_STATE_ENUM_END" 33 33 (EnumEntry "UTM_FLIGHT_STATE_ENUM_END" [] false)].

Definition UTM_DATA_AVAIL_FLAGS : list decl := [
  Decl "UTM_DATA_AVAIL_FLAGS_TIME_VALID" 1 1 (EnumEntry "UTM_DATA_AVAIL_FLAGS_TIME_VALID" [] false);
  Decl "UTM_DATA_AVAIL_FLAGS_UAS_ID_AVAILABLE" 2 2 (EnumEntry "UTM_DATA_AVAIL_FLAGS_UAS_ID_AVAILABLE" [] false);
  Decl "UTM_DATA_AVAIL_FLAGS_POSITION_AVAILABLE" 4 4 (EnumEntry "UTM_DATA_AVAIL_FLAGS_POSITION_AVAILABLE" [] false);
  Decl "UTM_DATA_AVAIL_FLAGS_ALTITUDE_AVAILABLE" 8 8 (EnumEntry "UTM_DATA_AVAIL_FLAGS_ALTITUDE_AVAILABLE" [] false);
  Decl "UTM_DATA_AVAIL_FLAGS_RELATIVE_ALTITUDE_AVAILABLE" 16 16 (EnumEntry "UTM_DATA_AVAIL_FLAGS_RELATIVE_ALTITUDE_AVAILABLE" [] false);
  Decl "UTM_DATA_AVAIL_FLAGS_HORIZONTAL_VELO_AVAILABLE" 32 32 (EnumEntry "UTM_DATA_AVAIL_FLAGS_HORIZONTAL_VELO_AVAILABLE" [] false);
  Decl "UTM_DATA_AVAIL_FLAGS_VERTICAL_VELO_AVAILABLE" 64 64 (EnumEntry "UTM_DATA_AVAIL_FLAGS_VERTICAL_VELO_AVAILABLE" [] false);
  Decl "UTM_DATA_AVAIL_FLAGS_NEXT_WAYPOINT_AVAILABLE" 128 128 (EnumEntry "UTM_DATA_AVAIL_FLAGS_NEXT_WAYPOINT_AVAILABLE" [] false);
  Decl "UTM_DATA_AVAIL_FLAGS_ENUM_END" 129 129 (EnumEntry "UTM_DATA_AVAIL_FLAGS_ENUM_END" [] false)].

Definition CELLULAR_STATUS_FLAG : list decl := [
  Decl "CELLULAR_STATUS_FLAG_UNKNOWN" 0 0 (EnumEntry "CELLULAR_STATUS_FLAG_UNKNOWN" [] false);
  Decl "CELLULAR_STATUS_FLAG_FAILED" 1 1 (EnumEntry "CELLULAR_STATUS_FLAG_FAILED" [] false);
  Decl "CELLULAR_STATUS_FLAG_INITIALIZING" 2 2 (EnumEntry "CELLULAR_STATUS_FLAG_INITIALIZING" [] false);
  Decl "CELLULAR_STATUS_FLAG_LOCKED" 3 3 (EnumEntry "CELLULAR_STATUS_FLAG_LOCKED" [] false);
  Decl "CELLULAR_STATUS_FLAG_DISABLED" 4 4 (EnumEntry "CELLULAR_STATUS_FLAG_DISABLED" [] false);
  Decl "CELLULAR_STATUS_FLAG_DISABLING" 5 5 (EnumEntry "CELLULAR_STATUS_FLAG_DISABLING" [] false);
  Decl "CELLULAR_STATUS_FLAG_ENABLING" 6 6 (EnumEntry "CELLULAR_STATUS_FLAG_ENABLING" [] false);
  Decl "CELLULAR_STATUS_FLAG_ENABLED" 7 7 (EnumEntry "CELLULAR_STATUS_FLAG_ENABLED" [] false);
  Decl "CELLULAR_STATUS_FLAG_SEARCHING" 8 8 (EnumEntry "CELLULAR_STATUS_FLAG_SEARCHING" [] false);
  Decl "CELLULAR_STATUS_FLAG_REGISTERED" 9 9 (EnumEntry "CELLULAR_STATUS_FLAG_REGISTERED" [] false);
  Decl "CELLULAR_STATUS_FLAG_DISCONNECTING" 10 10 (EnumEntry "CELLULAR_STATUS_FLAG_DISCONNECTING" [] false);
  Decl "CELLULAR_STATUS_FLAG_CONNECTING" 11 11 (EnumEntry "CELLULAR_STATUS_FLAG_CONNECTING" [] false);
  Decl "CELLULAR_STATUS_FLAG_CONNECTED" 12 12 (EnumEntry "CELLULAR_STATUS_FLAG_CONNECTED" [] false);
  Decl "CELLULAR_STATUS_FLAG_ENUM_END" 13 13 (EnumEntry "CELLULAR_STATUS_FLAG_ENUM_END" [] false)].

Definition CELLULAR_NETWORK_FAILED_REASON : list decl := [
  Decl "CELLULAR_NETWORK_FAILED_REASON_NONE" 0 0 (EnumEntry "CELLULAR_NETWORK_FAILED_REASON_NONE" [] false);
  Decl "CELLULAR_NETWORK_FAILED_REASON_UNKNOWN" 1 1 (EnumEntry "CELLULAR_NETWORK_FAILED_REASON_UNKNOWN" [] false);
  Decl "CELLULAR_NETWORK_FAILED_REASON_SIM_MISSING" 2 2 (EnumEntry "CELLULAR_NETWORK_FAILED_REASON_SIM_MISSING" [] false);
  Decl "CELLULAR_NETWORK_FAILED_REASON_SIM_ERROR" 3 3 (EnumEntry "CELLULAR_NETWORK_FAILED_REASON_SIM_ERROR" [] false);
  Decl "CELLULAR_NETWORK_FAILED_REASON_ENUM_END" 4 4 (EnumEntry "CELLULAR_NETWORK_FAILED_REASON_ENUM_END" [] false)].

Definition CELLULAR_NETWORK_RADIO_TYPE : list decl := [
  Decl "CELLULAR_NETWORK_RADIO_TYPE_NONE" 0 0 (EnumEntry "CELLULAR_NETWORK_RADIO_TYPE_NONE" [] false);
  Decl "CELLULAR_NETWORK_RADIO_TYPE_GSM" 1 1 (EnumEntry "CELLULAR_NETWORK_RADIO_TYPE_GSM" [] false);
  Decl "CELLULAR_NETWORK_RADIO_TYPE_CDMA" 2 2 (EnumEntry "CELLULAR_NETWORK_RADIO_TYPE_CDMA" [] false);
  Decl "CELLULAR_NETWORK_RADIO_TYPE_WCDMA" 3 3 (EnumEntry "CELLULAR_NETWORK_RADIO_TYPE_WCDMA" [] false);
  Decl "CELLULAR_NETWORK_RADIO_TYPE_LTE" 4 4 (EnumEntry "CELLULAR_NETWORK_RADIO_TYPE_LTE" [] false);
  Decl "CELLULAR_NETWORK_RADIO_TYPE_ENUM_END" 5 5 (EnumEntry "CELLULAR_NETWORK_RADIO_TYPE_ENUM_END" [] false)].

Definition PRECISION_LAND_MODE : list decl := [
  Decl "PRECISION_LAND_MODE_DISABLED" 0 0 (EnumEntry "PRECISION_LAND_MODE_DISABLED" [] false);
  Decl "PRECISION_LAND_MODE_OPPORTUNISTIC" 1 1 (EnumEntry "PRECISION_LAND_MODE_OPPORTUNISTIC" [] false);
  Decl "PRECISION_LAND_MODE_REQUIRED" 2 2 (EnumEntry "PRECISION_LAND_MODE_REQUIRED" [] false);
  Decl "PRECISION_LAND_MODE_ENUM_END" 3 3 (EnumEntry "PRECISION_LAND_MODE_ENUM_END" [] false)].

Definition PARACHUTE_ACTION : list decl := [
  Decl "PARACHUTE_DISABLE" 0 0 (EnumEntry "PARACHUTE_DISABLE" [] false);
  Decl "PARACHUTE_ENABLE" 1 1 (EnumEntry "PARACHUTE_ENABLE" [] false);
  Decl "PARACHUTE_RELEASE" 2 2 (EnumEntry "PARACHUTE_RELEASE" [] false);
  Decl "PARACHUTE_ACTION_ENUM_END" 3 3 (EnumEntry "PARACHUTE_ACTION_ENUM_END" [] false)].

Definition MAV_TUNNEL_PAYLOAD_TYPE : list decl := [
  Decl "MAV_TUNNEL_PAYLOAD_TYPE_UNKNOWN" 0 0 (EnumEntry "MAV_TUNNEL_PAYLOAD_TYPE_UNKNOWN" [] false);
  Decl "MAV_TUNNEL_PAYLOAD_TYPE_STORM32_RESERVED0" 200 200 (EnumEntry "MAV_TUNNEL_PAYLOAD_TYPE_STORM32_RESERVED0" [] false);
  Decl "MAV_TUNNEL_PAYLOAD_TYPE_STORM32_RESERVED1" 201 201 (EnumEntry "MAV_TUNNEL_PAYLOAD_TYPE_STORM32_RESERVED1" [] false);
  Decl "MAV_TUNNEL_PAYLOAD_TYPE_STORM32_RESERVED2" 202 202 (EnumEntry "MAV_TUNNEL_PAYLOAD_TYPE_STORM32_RESERVED2" [] false);
  Decl "MAV_TUNNEL_PAYLOAD_TYPE_STORM32_RESERVED3" 203 203 (EnumEntry "MAV_TUNNEL_PAYLOAD_TYPE_STORM32_RESERVED3" [] false);
  Decl "MAV_TUNNEL_PAYLOAD_TYPE_STORM32_RESERVED4" 204 204 (EnumEntry "MAV_TUNNEL_PAYLOAD_TYPE_STORM32_RESERVED4" [] false);
  Decl "MAV_TUNNEL_PAYLOAD_TYPE_STORM32_RESERVED5" 205 205 (EnumEntry "MAV_TUNNEL_PAYLOAD_TYPE_STORM32_RESERVED5" [] false);
  Decl "MAV_TUNNEL_PAYLOAD_TYPE_STORM32_RESERVED6" 206 206 (EnumEntry "MAV_TUNNEL_PAYLOAD_TYPE_STORM32_RESERVED6" [] false);
  Decl "MAV_TUNNEL_PAYLOAD_TYPE_STORM32_RESERVED7" 207 207 (EnumEntry "MAV_TUNNEL_PAYLOAD_TYPE_STORM32_RESERVED7" [] false);
  Decl "MAV_TUNNEL_PAYLOAD_TYPE_STORM32_RESERVED8" 208 208 (EnumEntry "MAV_TUNNEL_PAYLOAD_TYPE_STORM32_RESERVED8" [] false);
  Decl "MAV_TUNNEL_PAYLOAD_TYPE_STORM32_RESERVED9" 209 209 (EnumEntry "MAV_TUNNEL_PAYLOAD_TYPE_STORM32_RESERVED9" [] false);
  Decl "MAV_TUNNEL_PAYLOAD_TYPE_ENUM_END" 210 210 (EnumEntry "MAV_TUNNEL_PAYLOAD_TYPE_ENUM_END" [] false)].

Definition MAV_ODID_ID_TYPE : list decl := [
  Decl "MAV_ODID_ID_TYPE_NONE" 0 0 (EnumEntry "MAV_ODID_ID_TYPE_NONE" [] false);
  Decl "MAV_ODID_ID_TYPE_SERIAL_NUMBER" 1 1 (EnumEntry "MAV_ODID_ID_TYPE_SERIAL_NUMBER" [] false);
  Decl "MAV_ODID_ID_TYPE_CAA_REGISTRATION_ID" 2 2 (EnumEntry "MAV_ODID_ID_TYPE_CAA_REGISTRATION_ID" [] false);
  Decl "MAV_ODID_ID_TYPE_UTM_ASSIGNED_UUID" 3 3 (EnumEntry "MAV_ODID_ID_TYPE_UTM_ASSIGNED_UUID" [] false);
  Decl "MAV_ODID_ID_TYPE_SPECIFIC_SESSION_ID" 4 4 (EnumEntry "MAV_ODID_ID_TYPE_SPECIFIC_SESSION_ID" [] false);
  Decl "MAV_ODID_ID_TYPE_ENUM_END" 5 5 (EnumEntry "MAV_ODID_ID_TYPE_ENUM_END" [] false)].

Definition MAV_ODID_UA_TYPE : list decl := [
  Decl "MAV_ODID_UA_TYPE_NONE" 0 0 (EnumEntry "MAV_ODID_UA_TYPE_NONE" [] false);
  Decl "MAV_ODID_UA_TYPE_AEROPLANE" 1 1 (EnumEntry "MAV_ODID_UA_TYPE_AEROPLANE" [] false);
  Decl "MAV_ODID_UA_TYPE_HELICOPTER_OR_MULTIROTOR" 2 2 (EnumEntry "MAV_ODID_UA_TYPE_HELICOPTER_OR_MULTIROTOR" [] false);
  Decl "MAV_ODID_UA_TYPE_GYROPLANE" 3 3 (EnumEntry "MAV_ODID_UA_TYPE_GYROPLANE" [] false);
  Decl "MAV_ODID_UA_TYPE_HYBRID_LIFT" 4 4 (EnumEntry "MAV_ODID_UA_TYPE_HYBRID_LIFT" [] false);
  Decl "MAV_ODID_UA_TYPE_ORNITHOPTER" 5 5 (EnumEntry "MAV_ODID_UA_TYPE_ORNITHOPTER" [] false);
  Decl "MAV_ODID_UA_TYPE_GLIDER" 6 6 (EnumEntry "MAV_ODID_UA_TYPE_GLIDER" [] false);
  Decl "MAV_ODID_UA_TYPE_KITE" 7 7 (EnumEntry "MAV_ODID_UA_TYPE_KITE" [] false);
  Decl "MAV_ODID_UA_TYPE_FREE_BALLOON" 8 8 (EnumEntry "MAV_ODID_UA_TYPE_FREE_BALLOON" [] false);
  Decl "MAV_ODID_UA_TYPE_CAPTIVE_BALLOON" 9 9 (EnumEntry "MAV_ODID_UA_TYPE_CAPTIVE_BALLOON" [] false);
  Decl "MAV_ODID_UA_TYPE_AIRSHIP" 10 10 (EnumEntry "MAV_ODID_UA_TYPE_AIRSHIP" [] false);
  Decl "MAV_ODID_UA_TYPE_FREE_FALL_PARACHUTE" 11 11 (EnumEntry "MAV_ODID_UA_TYPE_FREE_FALL_PARACHUTE" [] false);
  Decl "MAV_ODID_UA_TYPE_ROCKET" 12 12 (EnumEntry "MAV_ODID_UA_TYPE_ROCKET" [] false);
  Decl "MAV_ODID_UA_TYPE_TETHERED_POWERED_AIRCRAFT" 13 13 (EnumEntry "MAV_ODID_UA_TYPE_TETHERED_POWERED_AIRCRAFT" [] false);
  Decl "MAV_ODID_UA_TYPE_GROUND_OBSTACLE" 14 14 (EnumEntry "MAV_ODID_UA_TYPE_GROUND_OBSTACLE" [] false);
  Decl "MAV_ODID_UA_TYPE_OTHER" 15 15 (EnumEntry "MAV_ODID_UA_TYPE_OTHER" [] false);
  Decl "MAV_ODID_UA_TYPE_ENUM_END" 16 16 (EnumEntry "MAV_ODID_UA_TYPE_ENUM_END" [] false)].

Definition MAV_ODID_STATUS : list decl := [
  Decl "MAV_ODID_STATUS_UNDECLARED" 0 0 (EnumEntry "MAV_ODID_STATUS_UNDECLARED" [] false);
  Decl "MAV_ODID_STATUS_GROUND" 1 1 (EnumEntry "MAV_ODID_STATUS_GROUND" [] false);
  Decl "MAV_ODID_STATUS_AIRBORNE" 2 2 (EnumEntry "MAV_ODID_STATUS_AIRBORNE" [] false);
  Decl "MAV_ODID_STATUS_EMERGENCY" 3 3 (EnumEntry "MAV_ODID_STATUS_EMERGENCY" [] false);
  Decl "MAV_ODID_STATUS_REMOTE_ID_SYSTEM_FAILURE" 4 4 (EnumEntry "MAV_ODID_STATUS_REMOTE_ID_SYSTEM_FAILURE" [] false);
  Decl "MAV_ODID_STATUS_ENUM_END" 5 5 (EnumEntry "MAV_ODID_STATUS_ENUM_END" [] false)].

Definition MAV_ODID_HEIGHT_REF : list decl := [
  Decl "MAV_ODID_HEIGHT_REF_OVER_TAKEOFF" 0 0 (EnumEntry "MAV_ODID_HEIGHT_REF_OVER_TAKEOFF" [] false);
  Decl "MAV_ODID_HEIGHT_REF_OVER_GROUND" 1 1 (EnumEntry "MAV_ODID_HEIGHT_REF_OVER_GROUND" [] false);
  Decl "MAV_ODID_HEIGHT_REF_ENUM_END" 2 2 (EnumEntry "MAV_ODID_HEIGHT_REF_ENUM_END" [] false)].

Definition MAV_ODID_HOR_ACC : list decl := [
  Decl "MAV_ODID_HOR_ACC_UNKNOWN" 0 0 (EnumEntry "MAV_ODID_HOR_ACC_UNKNOWN" [] false);
  Decl "MAV_ODID_HOR_ACC_10NM" 1 1 (EnumEntry "MAV_ODID_HOR_ACC_10NM" [] false);
  Decl "MAV_ODID_HOR_ACC_4NM" 2 2 (EnumEntry "MAV_ODID_HOR_ACC_4NM" [] false);
  Decl "MAV_ODID_HOR_ACC_2NM" 3 3 (EnumEntry "MAV_ODID_HOR_ACC_2NM" [] false);
  Decl "MAV_ODID_HOR_ACC_1NM" 4 4 (EnumEntry "MAV_ODID_HOR_ACC_1NM" [] false);
  Decl "MAV_ODID_HOR_ACC_0_5NM" 5 5 (EnumEntry "MAV_ODID_HOR_ACC_0_5NM" [] false);
  Decl "MAV_ODID_HOR_ACC_0_3NM" 6 6 (EnumEntry "MAV_ODID_HOR_ACC_0_3NM" [] false);
  Decl "MAV_ODID_HOR_ACC_0_1NM" 7 7 (EnumEntry "MAV_ODID_HOR_ACC_0_1NM" [] false);
  Decl "MAV_ODID_HOR_ACC_0_05NM" 8 8 (EnumEntry "MAV_ODID_HOR_ACC_0_05NM" [] false);
  Decl "MAV_ODID_HOR_ACC_30_METER" 9 9 (EnumEntry "MAV_ODID_HOR_ACC_30_METER" [] false);
  Decl "MAV_ODID_HOR_ACC_10_METER" 10 10 (EnumEntry "MAV_ODID_HOR_ACC_10_METER" [] false);
  Decl "MAV_ODID_HOR_ACC_3_METER" 11 11 (EnumEntry "MAV_ODID_HOR_ACC_3_METER" [] false);
  Decl "MAV_ODID_HOR_ACC_1_METER" 12 12 (EnumEntry "MAV_ODID_HOR_ACC_1_METER" [] false);
  Decl "MAV_ODID_HOR_ACC_ENUM_END" 13 13 (EnumEntry "MAV_ODID_HOR_ACC_ENUM_END" [] false)].

Definition MAV_ODID_VER_ACC : list decl := [
  Decl "MAV_ODID_VER_ACC_UNKNOWN" 0 0 (EnumEntry "MAV_ODID_VER_ACC_UNKNOWN" [] false);
  Decl "MAV_ODID_VER_ACC_150_METER" 1 1 (EnumEntry "MAV_ODID_VER_ACC_150_METER" [] false);
  Decl "MAV_ODID_VER_ACC_45_METER" 2 2 (EnumEntry "MAV_ODID_VER_ACC_45_METER" [] false);
  Decl "MAV_ODID_VER_ACC_25_METER" 3 3 (EnumEntry "MAV_ODID_VER_ACC_25_METER" [] false);
  Decl "MAV_ODID_VER_ACC_10_METER" 4 4 (EnumEntry "MAV_ODID_VER_ACC_10_METER" [] false);
  Decl "MAV_ODID_VER_ACC_3_METER" 5 5 (EnumEntry "MAV_ODID_VER_ACC_3_METER" [] false);
  Decl "MAV_ODID_VER_ACC_1_METER" 6 6 (EnumEntry "MAV_ODID_VER_ACC_1_METER" [] false);
  Decl "MAV_ODID_VER_ACC_ENUM_END" 7 7 (EnumEntry "MAV_ODID_VER_ACC_ENUM_END" [] false)].

Definition MAV_ODID_SPEED_ACC : list decl := [
  Decl "MAV_ODID_SPEED_ACC_UNKNOWN" 0 0 (EnumEntry "MAV_ODID_SPEED_ACC_UNKNOWN" [] false);
  Decl "MAV_ODID_SPEED_ACC_10_METERS_PER_SECOND" 1 1 (EnumEntry "MAV_ODID_SPEED_ACC_10_METERS_PER_SECOND" [] false);
  Decl "MAV_ODID_SPEED_ACC_3_METERS_PER_SECOND" 2 2 (EnumEntry "MAV_ODID_SPEED_ACC_3_METERS_PER_SECOND" [] false);
  Decl "MAV_ODID_SPEED_ACC_1_METERS_PER_SECOND" 3 3 (EnumEntry "MAV_ODID_SPEED_ACC_1_METERS_PER_SECOND" [] false);
  Decl "MAV_ODID_SPEED_ACC_0_3_METERS_PER_SECOND" 4 4 (EnumEntry "MAV_ODID_SPEED_ACC_0_3_METERS_PER_SECOND" [] false);
  Decl "MAV_ODID_SPEED_ACC_ENUM_END" 5 5 (EnumEntry "MAV_ODID_SPEED_ACC_ENUM_END" [] false)].

Definition MAV_ODID_TIME_ACC : list decl := [
  Decl "MAV_ODID_TIME_ACC_UNKNOWN" 0 0 (EnumEntry "MAV_ODID_TIME_ACC_UNKNOWN" [] false);
  Decl "MAV_ODID_TIME_ACC_0_1_SECOND" 1 1 (EnumEntry "MAV_ODID_TIME_ACC_0_1_SECOND" [] false);
  Decl "MAV_ODID_TIME_ACC_0_2_SECOND" 2 2 (EnumEntry "MAV_ODID_TIME_ACC_0_2_SECOND" [] false);
  Decl "MAV_ODID_TIME_ACC_0_3_SECOND" 3 3 (EnumEntry "MAV_ODID_TIME_ACC_0_3_SECOND" [] false);
  Decl "MAV_ODID_TIME_ACC_0_4_SECOND" 4 4 (EnumEntry "MAV_ODID_TIME_ACC_0_4_SECOND" [] false);
  Decl "MAV_ODID_TIME_ACC_0_5_SECOND" 5 5 (EnumEntry "MAV_ODID_TIME_ACC_0_5_SECOND" [] false);
  Decl "MAV_ODID_TIME_ACC_0_6_SECOND" 6 6 (EnumEntry "MAV_ODID_TIME_ACC_0_6_SECOND" [] false);
  Decl "MAV_ODID_TIME_ACC_0_7_SECOND" 7 7 (EnumEntry "MAV_ODID_TIME_ACC_0_7_SECOND" [] false);
  Decl "MAV_ODID_TIME_ACC_0_8_SECOND" 8 8 (EnumEntry "MAV_ODID_TIME_ACC_0_8_SECOND" [] false);
  Decl "MAV_ODID_TIME_ACC_0_9_SECOND" 9 9 (EnumEntry "MAV_ODID_TIME_ACC_0_9_SECOND" [] false);
  Decl "MAV_ODID_TIME_ACC_1_0_SECOND" 10 10 (EnumEntry "MAV_ODID_TIME_ACC_1_0_SECOND" [] false);
  Decl "MAV_ODID_TIME_ACC_1_1_SECOND" 11 11 (EnumEntry "MAV_ODID_TIME_ACC_1_1_SECOND" [] false);
  Decl "MAV_ODID_TIME_ACC_1_2_SECOND" 12 12 (EnumEntry "MAV_ODID_TIME_ACC_1_2_SECOND" [] false);
  Decl "MAV_ODID_TIME_ACC_1_3_SECOND" 13 13 (EnumEntry "MAV_ODID_TIME_ACC_1_3_SECOND" [] false);
  Decl "MAV_ODID_TIME_ACC_1_4_SECOND" 14 14 (EnumEntry "MAV_ODID_TIME_ACC_1_4_SECOND" [] false);
  Decl "MAV_ODID_TIME_ACC_1_5_SECOND" 15 15 (EnumEntry "MAV_ODID_TIME_ACC_1_5_SECOND" [] false);
  Decl "MAV_ODID_TIME_ACC_ENUM_END" 16 16 (EnumEntry "MAV_ODID_TIME_ACC_ENUM_END" [] false)].

Definition MAV_ODID_AUTH_TYPE : list decl := [
  Decl "MAV_ODID_AUTH_TYPE_NONE" 0 0 (EnumEntry "MAV_ODID_AUTH_TYPE_NONE" [] false);
  Decl "MAV_ODID_AUTH_TYPE_UAS_ID_SIGNATURE" 1 1 (EnumEntry "MAV_ODID_AUTH_TYPE_UAS_ID_SIGNATURE" [] false);
  Decl "MAV_ODID_AUTH_TYPE_OPERATOR_ID_SIGNATURE" 2 2 (EnumEntry "MAV_ODID_AUTH_TYPE_OPERATOR_ID_SIGNATURE" [] false);
  Decl "MAV_ODID_AUTH_TYPE_MESSAGE_SET_SIGNATURE" 3 3 (EnumEntry "MAV_ODID_AUTH_TYPE_MESSAGE_SET_SIGNATURE" [] false);
  Decl "MAV_ODID_AUTH_TYPE_NETWORK_REMOTE_ID" 4 4 (EnumEntry "MAV_ODID_AUTH_TYPE_NETWORK_REMOTE_ID" [] false);
  Decl "MAV_ODID_AUTH_TYPE_SPECIFIC_AUTHENTICATION" 5 5 (EnumEntry "MAV_ODID_AUTH_TYPE_SPECIFIC_AUTHENTICATION" [] false);
  Decl "MAV_ODID_AUTH_TYPE_ENUM_END" 6 6 (EnumEntry "MAV_ODID_AUTH_TYPE_ENUM_END" [] false)].

Definition MAV_ODID_DESC_TYPE : list decl := [
  Decl "MAV_ODID_DESC_TYPE_TEXT" 0 0 (EnumEntry "MAV_ODID_DESC_TYPE_TEXT" [] false);
  Decl "MAV_ODID_DESC_TYPE_EMERGENCY" 1 1 (EnumEntry "MAV_ODID_DESC_TYPE_EMERGENCY" [] false);
  Decl "MAV_ODID_DESC_TYPE_EXTENDED_STATUS" 2 2 (EnumEntry "MAV_ODID_DESC_TYPE_EXTENDED_STATUS" [] false);
  Decl "MAV_ODID_DESC_TYPE_ENUM_END" 3 3 (EnumEntry "MAV_ODID_DESC_TYPE_ENUM_END" [] false)].

Definition MAV_ODID_OPERATOR_LOCATION_TYPE : list decl := [
  Decl "MAV_ODID_OPERATOR_LOCATION_TYPE_TAKEOFF" 0 0 (EnumEntry "MAV_ODID_OPERATOR_LOCATION_TYPE_TAKEOFF" [] false);
  Decl "MAV_ODID_OPERATOR_LOCATION_TYPE_LIVE_GNSS" 1 1 (EnumEntry "MAV_ODID_OPERATOR_LOCATION_TYPE_LIVE_GNSS" [] false);
  Decl "MAV_ODID_OPERATOR_LOCATION_TYPE_FIXED" 2 2 (EnumEntry "MAV_ODID_OPERATOR_LOCATION_TYPE_FIXED" [] false);
  Decl "MAV_ODID_OPERATOR_LOCATION_TYPE_ENUM_END" 3 3 (EnumEntry "MAV_ODID_OPERATOR_LOCATION_TYPE_ENUM_END" [] false)].

Definition MAV_ODID_CLASSIFICATION_TYPE : list decl := [
  Decl "MAV_ODID_CLASSIFICATION_TYPE_UNDECLARED" 0 0 (EnumEntry "MAV_ODID_CLASSIFICATION_TYPE_UNDECLARED" [] false);
  Decl "MAV_ODID_CLASSIFICATION_TYPE_EU" 1 1 (EnumEntry "MAV_ODID_CLASSIFICATION_TYPE_EU" [] false);
  Decl "MAV_ODID_CLASSIFICATION_TYPE_ENUM_END" 2 2 (EnumEntry "MAV_ODID_CLASSIFICATION_TYPE_ENUM_END" [] false)].

Definition MAV_ODID_CATEGORY_EU : list decl := [
  Decl "MAV_ODID_CATEGORY_EU_UNDECLARED" 0 0 (EnumEntry "MAV_ODID_CATEGORY_EU_UNDECLARED" [] false);
  Decl "MAV_ODID_CATEGORY_EU_OPEN" 1 1 (EnumEntry "MAV_ODID_CATEGORY_EU_OPEN" [] false);
  Decl "MAV_ODID_CATEGORY_EU_SPECIFIC" 2 2 (EnumEntry "MAV_ODID_CATEGORY_EU_SPECIFIC" [] false);
  Decl "MAV_ODID_CATEGORY_EU_CERTIFIED" 3 3 (EnumEntry "MAV_ODID_CATEGORY_EU_CERTIFIED" [] false);
  Decl "MAV_ODID_CATEGORY_EU_ENUM_END" 4 4 (EnumEntry "MAV_ODID_CATEGORY_EU_ENUM_END" [] false)].

Definition MAV_ODID_CLASS_EU : list decl := [
  Decl "MAV_ODID_CLASS_EU_UNDECLARED" 0 0 (EnumEntry "MAV_ODID_CLASS_EU_UNDECLARED" [] false);
  Decl "MAV_ODID_CLASS_EU_CLASS_0" 1 1 (EnumEntry "MAV_ODID_CLASS_EU_CLASS_0" [] false);
  Decl "MAV_ODID_CLASS_EU_CLASS_1" 2 2 (EnumEntry "MAV_ODID_CLASS_EU_CLASS_1" [] false);
  Decl "MAV_ODID_CLASS_EU_CLASS_2" 3 3 (EnumEntry "MAV_ODID_CLASS_EU_CLASS_2" [] false);
  Decl "MAV_ODID_CLASS_EU_CLASS_3" 4 4 (EnumEntry "MAV_ODID_CLASS_EU_CLASS_3" [] false);
  Decl "MAV_ODID_CLASS_EU_CLASS_4" 5 5 (EnumEntry "MAV_ODID_CLASS_EU_CLASS_4" [] false);
  Decl "MAV_ODID_CLASS_EU_CLASS_5" 6 6 (EnumEntry "MAV_ODID_CLASS_EU_CLASS_5" [] false);
  Decl "MAV_ODID_CLASS_EU_CLASS_6" 7 7 (EnumEntry "MAV_ODID_CLASS_EU_CLASS_6" [] false);
  Decl "MAV_ODID_CLASS_EU_ENUM_END" 8 8 (EnumEntry "MAV_ODID_CLASS_EU_ENUM_END" [] false)].

Definition MAV_ODID_OPERATOR_ID_TYPE : list decl := [
  Decl "MAV_ODID_OPERATOR_ID_TYPE_CAA" 0 0 (EnumEntry "MAV_ODID_OPERATOR_ID_TYPE_CAA" [] false);
  Decl "MAV_ODID_OPERATOR_ID_TYPE_ENUM_END" 1 1 (EnumEntry "MAV_ODID_OPERATOR_ID_TYPE_ENUM_END" [] false)].

Definition MAV_ODID_ARM_STATUS : list decl := [
  Decl "MAV_ODID_ARM_STATUS_GOOD_TO_ARM" 0 0 (EnumEntry "MAV_ODID_ARM_STATUS_GOOD_TO_ARM" [] false);
  Decl "MAV_ODID_ARM_STATUS_PRE_ARM_FAIL_GENERIC" 1 1 (EnumEntry "MAV_ODID_ARM_STATUS_PRE_ARM_FAIL_GENERIC" [] false);
  Decl "MAV_ODID_ARM_STATUS_ENUM_END" 2 2 (EnumEntry "MAV_ODID_ARM_STATUS_ENUM_END" [] false)].

Definition TUNE_FORMAT : list decl := [
  Decl "TUNE_FORMAT_QBASIC1_1" 1 1 (EnumEntry "TUNE_FORMAT_QBASIC1_1" [] false);
  Decl "TUNE_FORMAT_MML_MODERN" 2 2 (EnumEntry "TUNE_FORMAT_MML_MODERN" [] false);
  Decl "TUNE_FORMAT_ENUM_END" 3 3 (EnumEntry "TUNE_FORMAT_ENUM_END" [] false)].

Definition AIS_TYPE_part1 : list decl := [
  Decl "AIS_TYPE_UNKNOWN" 0 0 (EnumEntry "AIS_TYPE_UNKNOWN" [] false);
  Decl "AIS_TYPE_RESERVED_1" 1 1 (EnumEntry "AIS_TYPE_RESERVED_1" [] false);
  Decl "AIS_TYPE_RESERVED_2" 2 2 (EnumEntry "AIS_TYPE_RESERVED_2" [] false);
  Decl "AIS_TYPE_RESERVED_3" 3 3 (EnumEntry "AIS_TYPE_RESERVED_3" [] false);
  Decl "AIS_TYPE_RESERVED_4" 4 4 (EnumEntry "AIS_TYPE_RESERVED_4" [] false);
  Decl "AIS_TYPE_RESERVED_5" 5 5 (EnumEntry "AIS_TYPE_RESERVED_5" [] false);
  Decl "AIS_TYPE_RESERVED_6" 6 6 (EnumEntry "AIS_TYPE_RESERVED_6" [] false);
  Decl "AIS_TYPE_RESERVED_7" 7 7 (EnumEntry "AIS_TYPE_RESERVED_7" [] false);
  Decl "AIS_TYPE_RESERVED_8" 8 8 (EnumEntry "AIS_TYPE_RESERVED_8" [] false);
  Decl "AIS_TYPE_RESERVED_9" 9 9 (EnumEntry "AIS_TYPE_RESERVED_9" [] false);
  Decl "AIS_TYPE_RESERVED_10" 10 10 (EnumEntry "AIS_TYPE_RESERVED_10" [] false);
  Decl "AIS_TYPE_RESERVED_11" 11 11 (EnumEntry "AIS_TYPE_RESERVED_11" [] false);
  Decl "AIS_TYPE_RESERVED_12" 12 12 (EnumEntry "AIS_TYPE_RESERVED_12" [] false);
  Decl "AIS_TYPE_RESERVED_13" 13 13 (EnumEntry "AIS_TYPE_RESERVED_13" [] false);
  Decl "AIS_TYPE_RESERVED_14" 14 14 (EnumEntry "AIS_TYPE_RESERVED_14" [] false);
  Decl "AIS_TYPE_RESERVED_15" 15 15 (EnumEntry "AIS_TYPE_RESERVED_15" [] false);
  Decl "AIS_TYPE_RESERVED_16" 16 16 (EnumEntry "AIS_TYPE_RESERVED_16" [] false);
  Decl "AIS_TYPE_RESERVED_17" 17 17 (EnumEntry "AIS_TYPE_RESERVED_17" [] false);
  Decl "AIS_TYPE_RESERVED_18" 18 18 (EnumEntry "AIS_TYPE_RESERVED_18" [] false);
  Decl "AIS_TYPE_RESERVED_19" 19 19 (EnumEntry "AIS_TYPE_RESERVED_19" [] false);
  Decl "AIS_TYPE_WIG" 20 20 (EnumEntry "AIS_TYPE_WIG" [] false);
  Decl "AIS_TYPE_WIG_HAZARDOUS_A" 21 21 (EnumEntry "AIS_TYPE_WIG_HAZARDOUS_A" [] false);
  Decl "AIS_TYPE_WIG_HAZARDOUS_B" 22 22 (EnumEntry "AIS_TYPE_WIG_HAZARDOUS_B" [] false);
  Decl "AIS_TYPE_WIG_HAZARDOUS_C" 23 23 (EnumEntry "AIS_TYPE_WIG_HAZARDOUS_C" [] false);
  Decl "AIS_TYPE_WIG_HAZARDOUS_D" 24 24 (EnumEntry "AIS_TYPE_WIG_HAZARDOUS_D" [] false);
  Decl "AIS_TYPE_WIG_RESERVED_1" 25 25 (EnumEntry "AIS_TYPE_WIG_RESERVED_1" [] false);
  Decl "AIS_TYPE_WIG_RESERVED_2" 26 26 (EnumEntry "AIS_TYPE_WIG_RESERVED_2" [] false);
  Decl "AIS_TYPE_WIG_RESERVED_3" 27 27 (EnumEntry "AIS_TYPE_WIG_RESERVED_3" [] false);
  Decl "AIS_TYPE_WIG_RESERVED_4" 28 28 (EnumEntry "AIS_TYPE_WIG_RESERVED_4" [] false);
  Decl "AIS_TYPE_WIG_RESERVED_5" 29 29 (EnumEntry "AIS_TYPE_WIG_RESERVED_5" [] false);
  Decl "AIS_TYPE_FISHING" 30 30 (EnumEntry "AIS_TYPE_FISHING" [] false);
  Decl "AIS_TYPE_TOWING" 31 31 (EnumEntry "AIS_TYPE_TOWING" [] false);
  Decl "AIS_TYPE_TOWING_LARGE" 32 32 (EnumEntry "AIS_TYPE_TOWING_LARGE" [] false);
  Decl "AIS_TYPE_DREDGING" 33 33 (EnumEntry "AIS_TYPE_DREDGING" [] false);
  Decl "AIS_TYPE_DIVING" 34 34 (EnumEntry "AIS_TYPE_DIVING" [] false);
  Decl "AIS_TYPE_MILITARY" 35 35 (EnumEntry "AIS_TYPE_MILITARY" [] false);
  Decl "AIS_TYPE_SAILING" 36 36 (EnumEntry "AIS_TYPE_SAILING" [] false);
  Decl "AIS_TYPE_PLEASURE" 37 37 (EnumEntry "AIS_TYPE_PLEASURE" [] false);
  Decl "AIS_TYPE_RESERVED_20" 38 38 (EnumEntry "AIS_TYPE_RESERVED_20" [] false);
  Decl "AIS_TYPE_RESERVED_21" 39 39 (EnumEntry "AIS_TYPE_RESERVED_21" [] false);
  Decl "AIS_TYPE_HSC" 40 40 (EnumEntry "AIS_TYPE_HSC" [] false);
  Decl "AIS_TYPE_HSC_HAZARDOUS_A" 41 41 (EnumEntry "AIS_TYPE_HSC_HAZARDOUS_A" [] false);
  Decl "AIS_TYPE_HSC_HAZARDOUS_B" 42 42 (EnumEntry "AIS_TYPE_HSC_HAZARDOUS_B" [] false);
  Decl "AIS_TYPE_HSC_HAZARDOUS_C" 43 43 (EnumEntry "AIS_TYPE_HSC_HAZARDOUS_C" [] false);
  Decl "AIS_TYPE_HSC_HAZARDOUS_D" 44 44 (EnumEntry "AIS_TYPE_HSC_HAZARDOUS_D" [] false);
  Decl "AIS_TYPE_HSC_RESERVED_1" 45 45 (EnumEntry "AIS_TYPE_HSC_RESERVED_1" [] false);
  Decl "AIS_TYPE_HSC_RESERVED_2" 46 46 (EnumEntry "AIS_TYPE_HSC_RESERVED_2" [] false);
  Decl "AIS_TYPE_HSC_RESERVED_3" 47 47 (EnumEntry "AIS_TYPE_HSC_RESERVED_3" [] false);
  Decl "AIS_TYPE_HSC_RESERVED_4" 48 48 (EnumEntry "AIS_TYPE_HSC_RESERVED_4" [] false);
  Decl "AIS_TYPE_HSC_UNKNOWN" 49 49 (EnumEntry "AIS_TYPE_HSC_UNKNOWN" [] false);
  Decl "AIS_TYPE_PILOT" 50 50 (EnumEntry "AIS_TYPE_PILOT" [] false);
  Decl "AIS_TYPE_SAR" 51 51 (EnumEntry "AIS_TYPE_SAR" [] false);
  Decl "AIS_TYPE_TUG" 52 52 (EnumEntry "AIS_TYPE_TUG" [] false);
  Decl "AIS_TYPE_PORT_TENDER" 53 53 (EnumEntry "AIS_TYPE_PORT_TENDER" [] false);
  Decl "AIS_TYPE_ANTI_POLLUTION" 54 54 (EnumEntry "AIS_TYPE_ANTI_POLLUTION" [] false);
  Decl "AIS_TYPE_LAW_ENFORCEMENT" 55 55 (EnumEntry "AIS_TYPE_LAW_ENFORCEMENT" [] false);
  Decl "AIS_TYPE_SPARE_LOCAL_1" 56 56 (EnumEntry "AIS_TYPE_SPARE_LOCAL_1" [] false);
  Decl "AIS_TYPE_SPARE_LOCAL_2" 57 57 (EnumEntry "AIS_TYPE_SPARE_LOCAL_2" [] false);
  Decl "AIS_TYPE_MEDICAL_TRANSPORT" 58 58 (EnumEntry "AIS_TYPE_MEDICAL_TRANSPORT" [] false);
  Decl "AIS_TYPE_NONECOMBATANT" 59 59 (EnumEntry "AIS_TYPE_NONECOMBATANT" [] false);
  Decl "AIS_TYPE_PASSENGER" 60 60 (EnumEntry "AIS_TYPE_PASSENGER" [] false);
  Decl "AIS_TYPE_PASSENGER_HAZARDOUS_A" 61 61 (EnumEntry "AIS_TYPE_PASSENGER_HAZARDOUS_A" [] false);
  Decl "AIS_TYPE_PASSENGER_HAZARDOUS_B" 62 62 (EnumEntry "AIS_TYPE_PASSENGER_HAZARDOUS_B" [] false);
  Decl "AIS_TYPE_AIS_TYPE_PASSENGER_HAZARDOUS_C" 63 63 (EnumEntry "AIS_TYPE_AIS_TYPE_PASSENGER_HAZARDOUS_C" [] false);
  Decl "AIS_TYPE_PASSENGER_HAZARDOUS_D" 64 64 (EnumEntry "AIS_TYPE_PASSENGER_HAZARDOUS_D" [] false);
  Decl "AIS_TYPE_PASSENGER_RESERVED_1" 65 65 (EnumEntry "AIS_TYPE_PASSENGER_RESERVED_1" [] false);
  Decl "AIS_TYPE_PASSENGER_RESERVED_2" 66 66 (EnumEntry "AIS_TYPE_PASSENGER_RESERVED_2" [] false);
  Decl "AIS_TYPE_PASSENGER_RESERVED_3" 67 67 (EnumEntry "AIS_TYPE_PASSENGER_RESERVED_3" [] false);
  Decl "AIS_TYPE_AIS_TYPE_PASSENGER_RESERVED_4" 68 68 (EnumEntry "AIS_TYPE_AIS_TYPE_PASSENGER_RESERVED_4" [] false);
  Decl "AIS_TYPE_PASSENGER_UNKNOWN" 69 69 (EnumEntry "AIS_TYPE_PASSENGER_UNKNOWN" [] false);
  Decl "AIS_TYPE_CARGO" 70 70 (EnumEntry "AIS_TYPE_CARGO" [] false);
  Decl "AIS_TYPE_CARGO_HAZARDOUS_A" 71 71 (EnumEntry "AIS_TYPE_CARGO_HAZARDOUS_A" [] false);
  Decl "AIS_TYPE_CARGO_HAZARDOUS_B" 72 72 (EnumEntry "AIS_TYPE_CARGO_HAZARDOUS_B" [] false);
  Decl "AIS_TYPE_CARGO_HAZARDOUS_C" 73 73 (EnumEntry "AIS_TYPE_CARGO_HAZARDOUS_C" [] false)].

Definition AIS_TYPE_part2 : list decl := [
  Decl "AIS_TYPE_CARGO_HAZARDOUS_D" 74 74 (EnumEntry "AIS_TYPE_CARGO_HAZARDOUS_D" [] false);
  Decl "AIS_TYPE_CARGO_RESERVED_1" 75 75 (EnumEntry "AIS_TYPE_CARGO_RESERVED_1" [] false);
  Decl "AIS_TYPE_CARGO_RESERVED_2" 76 76 (EnumEntry "AIS_TYPE_CARGO_RESERVED_2" [] false);
  Decl "AIS_TYPE_CARGO_RESERVED_3" 77 77 (EnumEntry "AIS_TYPE_CARGO_RESERVED_3" [] false);
  Decl "AIS_TYPE_CARGO_RESERVED_4" 78 78 (EnumEntry "AIS_TYPE_CARGO_RESERVED_4" [] false);
  Decl "AIS_TYPE_CARGO_UNKNOWN" 79 79 (EnumEntry "AIS_TYPE_CARGO_UNKNOWN" [] false);
  Decl "AIS_TYPE_TANKER" 80 80 (EnumEntry "AIS_TYPE_TANKER" [] false);
  Decl "AIS_TYPE_TANKER_HAZARDOUS_A" 81 81 (EnumEntry "AIS_TYPE_TANKER_HAZARDOUS_A" [] false);
  Decl "AIS_TYPE_TANKER_HAZARDOUS_B" 82 82 (EnumEntry "AIS_TYPE_TANKER_HAZARDOUS_B" [] false);
  Decl "AIS_TYPE_TANKER_HAZARDOUS_C" 83 83 (EnumEntry "AIS_TYPE_TANKER_HAZARDOUS_C" [] false);
  Decl "AIS_TYPE_TANKER_HAZARDOUS_D" 84 84 (EnumEntry "AIS_TYPE_TANKER_HAZARDOUS_D" [] false);
  Decl "AIS_TYPE_TANKER_RESERVED_1" 85 85 (EnumEntry "AIS_TYPE_TANKER_RESERVED_1" [] false);
  Decl "AIS_TYPE_TANKER_RESERVED_2" 86 86 (EnumEntry "AIS_TYPE_TANKER_RESERVED_2" [] false);
  Decl "AIS_TYPE_TANKER_RESERVED_3" 87 87 (EnumEntry "AIS_TYPE_TANKER_RESERVED_3" [] false);
  Decl "AIS_TYPE_TANKER_RESERVED_4" 88 88 (EnumEntry "AIS_TYPE_TANKER_RESERVED_4" [] false);
  Decl "AIS_TYPE_TANKER_UNKNOWN" 89 89 (EnumEntry "AIS_TYPE_TANKER_UNKNOWN" [] false);
  Decl "AIS_TYPE_OTHER" 90 90 (EnumEntry "AIS_TYPE_OTHER" [] false);
  Decl "AIS_TYPE_OTHER_HAZARDOUS_A" 91 91 (EnumEntry "AIS_TYPE_OTHER_HAZARDOUS_A" [] false);
  Decl "AIS_TYPE_OTHER_HAZARDOUS_B" 92 92 (EnumEntry "AIS_TYPE_OTHER_HAZARDOUS_B" [] false);
  Decl "AIS_TYPE_OTHER_HAZARDOUS_C" 93 93 (EnumEntry "AIS_TYPE_OTHER_HAZARDOUS_C" [] false);
  Decl "AIS_TYPE_OTHER_HAZARDOUS_D" 94 94 (EnumEntry "AIS_TYPE_OTHER_HAZARDOUS_D" [] false);
  Decl "AIS_TYPE_OTHER_RESERVED_1" 95 95 (EnumEntry "AIS_TYPE_OTHER_RESERVED_1" [] false);
  Decl "AIS_TYPE_OTHER_RESERVED_2" 96 96 (EnumEntry "AIS_TYPE_OTHER_RESERVED_2" [] false);
  Decl "AIS_TYPE_OTHER_RESERVED_3" 97 97 (EnumEntry "AIS_TYPE_OTHER_RESERVED_3" [] false);
  Decl "AIS_TYPE_OTHER_RESERVED_4" 98 98 (EnumEntry "AIS_TYPE_OTHER_RESERVED_4" [] false);
  Decl "AIS_TYPE_OTHER_UNKNOWN" 99 99 (EnumEntry "AIS_TYPE_OTHER_UNKNOWN" [] false);
  Decl "AIS_TYPE_ENUM_END" 100 100 (EnumEntry "AIS_TYPE_ENUM_END" [] false)].

Definition AIS_TYPE : list decl := AIS_TYPE_part1 ++ AIS_TYPE_part2.

Definition AIS_NAV_STATUS : list decl := [
  Decl "UNDER_WAY" 0 0 (EnumEntry "UNDER_WAY" [] false);
  Decl "AIS_NAV_ANCHORED" 1 1 (EnumEntry "AIS_NAV_ANCHORED" [] false);
  Decl "AIS_NAV_UN_COMMANDED" 2 2 (EnumEntry "AIS_NAV_UN_COMMANDED" [] false);
  Decl "AIS_NAV_RESTRICTED_MANOEUVERABILITY" 3 3 (EnumEntry "AIS_NAV_RESTRICTED_MANOEUVERABILITY" [] false);
  Decl "AIS_NAV_DRAUGHT_CONSTRAINED" 4 4 (EnumEntry "AIS_NAV_DRAUGHT_CONSTRAINED" [] false);
  Decl "AIS_NAV_MOORED" 5 5 (EnumEntry "AIS_NAV_MOORED" [] false);
  Decl "AIS_NAV_AGROUND" 6 6 (EnumEntry "AIS_NAV_AGROUND" [] false);
  Decl "AIS_NAV_FISHING" 7 7 (EnumEntry "AIS_NAV_FISHING" [] false);
  Decl "AIS_NAV_SAILING" 8 8 (EnumEntry "AIS_NAV_SAILING" [] false);
  Decl "AIS_NAV_RESERVED_HSC" 9 9 (EnumEntry "AIS_NAV_RESERVED_HSC" [] false);
  Decl "AIS_NAV_RESERVED_WIG" 10 10 (EnumEntry "AIS_NAV_RESERVED_WIG" [] false);
  Decl "AIS_NAV_RESERVED_1" 11 11 (EnumEntry "AIS_NAV_RESERVED_1" [] false);
  Decl "AIS_NAV_RESERVED_2" 12 12 (EnumEntry "AIS_NAV_RESERVED_2" [] false);
  Decl "AIS_NAV_RESERVED_3" 13 13 (EnumEntry "AIS_NAV_RESERVED_3" [] false);
  Decl "AIS_NAV_AIS_SART" 14 14 (EnumEntry "AIS_NAV_AIS_SART" [] false);
  Decl "AIS_NAV_UNKNOWN" 15 15 (EnumEntry "AIS_NAV_UNKNOWN" [] false);
  Decl "AIS_NAV_STATUS_ENUM_END" 16 16 (EnumEntry "AIS_NAV_STATUS_ENUM_END" [] false)].

Definition AIS_FLAGS : list decl := [
  Decl "AIS_FLAGS_POSITION_ACCURACY" 1 1 (EnumEntry "AIS_FLAGS_POSITION_ACCURACY" [] false);
  Decl "AIS_FLAGS_VALID_COG" 2 2 (EnumEntry "AIS_FLAGS_VALID_COG" [] false);
  Decl "AIS_FLAGS_VALID_VELOCITY" 4 4 (EnumEntry "AIS_FLAGS_VALID_VELOCITY" [] false);
  Decl "AIS_FLAGS_HIGH_VELOCITY" 8 8 (EnumEntry "AIS_FLAGS_HIGH_VELOCITY" [] false);
  Decl "AIS_FLAGS_VALID_TURN_RATE" 16 16 (EnumEntry "AIS_FLAGS_VALID_TURN_RATE" [] false);
  Decl "AIS_FLAGS_TURN_RATE_SIGN_ONLY" 32 32 (EnumEntry "AIS_FLAGS_TURN_RATE_SIGN_ONLY" [] false);
  Decl "AIS_FLAGS_VALID_DIMENSIONS" 64 64 (EnumEntry "AIS_FLAGS_VALID_DIMENSIONS" [] false);
  Decl "AIS_FLAGS_LARGE_BOW_DIMENSION" 128 128 (EnumEntry "AIS_FLAGS_LARGE_BOW_DIMENSION" [] false);
  Decl "AIS_FLAGS_LARGE_STERN_DIMENSION" 256 256 (EnumEntry "AIS_FLAGS_LARGE_STERN_DIMENSION" [] false);
  Decl "AIS_FLAGS_LARGE_PORT_DIMENSION" 512 512 (EnumEntry "AIS_FLAGS_LARGE_PORT_DIMENSION" [] false);
  Decl "AIS_FLAGS_LARGE_STARBOARD_DIMENSION" 1024 1024 (EnumEntry "AIS_FLAGS_LARGE_STARBOARD_DIMENSION" [] false);
  Decl "AIS_FLAGS_VALID_CALLSIGN" 2048 2048 (EnumEntry "AIS_FLAGS_VALID_CALLSIGN" [] false);
  Decl "AIS_FLAGS_VALID_NAME" 4096 4096 (EnumEntry "AIS_FLAGS_VALID_NAME" [] false);
  Decl "AIS_FLAGS_ENUM_END" 4097 4097 (EnumEntry "AIS_FLAGS_ENUM_END" [] false)].

Definition FAILURE_UNIT : list decl := [
  Decl "FAILURE_UNIT_SENSOR_GYRO" 0 0 (EnumEntry "FAILURE_UNIT_SENSOR_GYRO" [] false);
  Decl "FAILURE_UNIT_SENSOR_ACCEL" 1 1 (EnumEntry "FAILURE_UNIT_SENSOR_ACCEL" [] false);
  Decl "FAILURE_UNIT_SENSOR_MAG" 2 2 (EnumEntry "FAILURE_UNIT_SENSOR_MAG" [] false);
  Decl "FAILURE_UNIT_SENSOR_BARO" 3 3 (EnumEntry "FAILURE_UNIT_SENSOR_BARO" [] false);
  Decl "FAILURE_UNIT_SENSOR_GPS" 4 4 (EnumEntry "FAILURE_UNIT_SENSOR_GPS" [] false);
  Decl "FAILURE_UNIT_SENSOR_OPTICAL_FLOW" 5 5 (EnumEntry "FAILURE_UNIT_SENSOR_OPTICAL_FLOW" [] false);
  Decl "FAILURE_UNIT_SENSOR_VIO" 6 6 (EnumEntry "FAILURE_UNIT_SENSOR_VIO" [] false);
  Decl "FAILURE_UNIT_SENSOR_DISTANCE_SENSOR" 7 7 (EnumEntry "FAILURE_UNIT_SENSOR_DISTANCE_SENSOR" [] false);
  Decl "FAILURE_UNIT_SENSOR_AIRSPEED" 8 8 (EnumEntry "FAILURE_UNIT_SENSOR_AIRSPEED" [] false);
  Decl "FAILURE_UNIT_SYSTEM_BATTERY" 100 100 (EnumEntry "FAILURE_UNIT_SYSTEM_BATTERY" [] false);
  Decl "FAILURE_UNIT_SYSTEM_MOTOR" 101 101 (EnumEntry "FAILURE_UNIT_SYSTEM_MOTOR" [] false);
  Decl "FAILURE_UNIT_SYSTEM_SERVO" 102 102 (EnumEntry "FAILURE_UNIT_SYSTEM_SERVO" [] false);
  Decl "FAILURE_UNIT_SYSTEM_AVOIDANCE" 103 103 (EnumEntry "FAILURE_UNIT_SYSTEM_AVOIDANCE" [] false);
  Decl "FAILURE_UNIT_SYSTEM_RC_SIGNAL" 104 104 (EnumEntry "FAILURE_UNIT_SYSTEM_RC_SIGNAL" [] false);
  Decl "FAILURE_UNIT_SYSTEM_MAVLINK_SIGNAL" 105 105 (EnumEntry "FAILURE_UNIT_SYSTEM_MAVLINK_SIGNAL" [] false);
  Decl "FAILURE_UNIT_ENUM_END" 106 106 (EnumEntry "FAILURE_UNIT_ENUM_END" [] false)].

Definition FAILURE_TYPE : list decl := [
  Decl "FAILURE_TYPE_OK" 0 0 (EnumEntry "FAILURE_TYPE_OK" [] false);
  Decl "FAILURE_TYPE_OFF" 1 1 (EnumEntry "FAILURE_TYPE_OFF" [] false);
  Decl "FAILURE_TYPE_STUCK" 2 2 (EnumEntry "FAILURE_TYPE_STUCK" [] false);
  Decl "FAILURE_TYPE_GARBAGE" 3 3 (EnumEntry "FAILURE_TYPE_GARBAGE" [] false);
  Decl "FAILURE_TYPE_WRONG" 4 4 (EnumEntry "FAILURE_TYPE_WRONG" [] false);
  Decl "FAILURE_TYPE_SLOW" 5 5 (EnumEntry "FAILURE_TYPE_SLOW" [] false);
  Decl "FAILURE_TYPE_DELAYED" 6 6 (EnumEntry "FAILURE_TYPE_DELAYED" [] false);
  Decl "FAILURE_TYPE_INTERMITTENT" 7 7 (EnumEntry "FAILURE_TYPE_INTERMITTENT" [] false);
  Decl "FAILURE_TYPE_ENUM_END" 8 8 (EnumEntry "FAILURE_TYPE_ENUM_END" [] false)].

Definition NAV_VTOL_LAND_OPTIONS : list decl := [
  Decl "NAV_VTOL_LAND_OPTIONS_DEFAULT" 0 0 (EnumEntry "NAV_VTOL_LAND_OPTIONS_DEFAULT" [] false);
  Decl "NAV_VTOL_LAND_OPTIONS_FW_DESCENT" 1 1 (EnumEntry "NAV_VTOL_LAND_OPTIONS_FW_DESCENT" [] false);
  Decl "NAV_VTOL_LAND_OPTIONS_HOVER_DESCENT" 2 2 (EnumEntry "NAV_VTOL_LAND_OPTIONS_HOVER_DESCENT" [] false);
  Decl "NAV_VTOL_LAND_OPTIONS_ENUM_END" 3 3 (EnumEntry "NAV_VTOL_LAND_OPTIONS_ENUM_END" [] false)].

Definition MAV_WINCH_STATUS_FLAG : list decl := [
  Decl "MAV_WINCH_STATUS_HEALTHY" 1 1 (EnumEntry "MAV_WINCH_STATUS_HEALTHY" [] false);
  Decl "MAV_WINCH_STATUS_FULLY_RETRACTED" 2 2 (EnumEntry "MAV_WINCH_STATUS_FULLY_RETRACTED" [] false);
  Decl "MAV_WINCH_STATUS_MOVING" 4 4 (EnumEntry "MAV_WINCH_STATUS_MOVING" [] false);
  Decl "MAV_WINCH_STATUS_CLUTCH_ENGAGED" 8 8 (EnumEntry "MAV_WINCH_STATUS_CLUTCH_ENGAGED" [] false);
  Decl "MAV_WINCH_STATUS_LOCKED" 16 16 (EnumEntry "MAV_WINCH_STATUS_LOCKED" [] false);
  Decl "MAV_WINCH_STATUS_DROPPING" 32 32 (EnumEntry "MAV_WINCH_STATUS_DROPPING" [] false);
  Decl "MAV_WINCH_STATUS_ARRESTING" 64 64 (EnumEntry "MAV_WINCH_STATUS_ARRESTING" [] false);
  Decl "MAV_WINCH_STATUS_GROUND_SENSE" 128 128 (EnumEntry "MAV_WINCH_STATUS_GROUND_SENSE" [] false);
  Decl "MAV_WINCH_STATUS_RETRACTING" 256 256 (EnumEntry "MAV_WINCH_STATUS_RETRACTING" [] false);
  Decl "MAV_WINCH_STATUS_REDELIVER" 512 512 (EnumEntry "MAV_WINCH_STATUS_REDELIVER" [] false);
  Decl "MAV_WINCH_STATUS_ABANDON_LINE" 1024 1024 (EnumEntry "MAV_WINCH_STATUS_ABANDON_LINE" [] false);
  Decl "MAV_WINCH_STATUS_LOCKING" 2048 2048 (EnumEntry "MAV_WINCH_STATUS_LOCKING" [] false);
  Decl "MAV_WINCH_STATUS_LOAD_LINE" 4096 4096 (EnumEntry "MAV_WINCH_STATUS_LOAD_LINE" [] false);
  Decl "MAV_WINCH_STATUS_LOAD_PAYLOAD" 8192 8192 (EnumEntry "MAV_WINCH_STATUS_LOAD_PAYLOAD" [] false);
  Decl "MAV_WINCH_STATUS_FLAG_ENUM_END" 8193 8193 (EnumEntry "MAV_WINCH_STATUS_FLAG_ENUM_END" [] false)].

Definition MAG_CAL_STATUS : list decl := [
  Decl "MAG_CAL_NOT_STARTED" 0 0 (EnumEntry "MAG_CAL_NOT_STARTED" [] false);
  Decl "MAG_CAL_WAITING_TO_START" 1 1 (EnumEntry "MAG_CAL_WAITING_TO_START" [] false);
  Decl "MAG_CAL_RUNNING_STEP_ONE" 2 2 (EnumEntry "MAG_CAL_RUNNING_STEP_ONE" [] false);
  Decl "MAG_CAL_RUNNING_STEP_TWO" 3 3 (EnumEntry "MAG_CAL_RUNNING_STEP_TWO" [] false);
  Decl "MAG_CAL_SUCCESS" 4 4 (EnumEntry "MAG_CAL_SUCCESS" [] false);
  Decl "MAG_CAL_FAILED" 5 5 (EnumEntry "MAG_CAL_FAILED" [] false);
  Decl "MAG_CAL_BAD_ORIENTATION" 6 6 (EnumEntry "MAG_CAL_BAD_ORIENTATION" [] false);
  Decl "MAG_CAL_BAD_RADIUS" 7 7 (EnumEntry "MAG_CAL_BAD_RADIUS" [] false);
  Decl "MAG_CAL_STATUS_ENUM_END" 8 8 (EnumEntry "MAG_CAL_STATUS_ENUM_END" [] false)].

Definition MAV_EVENT_ERROR_REASON : list decl := [
  Decl "MAV_EVENT_ERROR_REASON_UNAVAILABLE" 0 0 (EnumEntry "MAV_EVENT_ERROR_REASON_UNAVAILABLE" [] false);
  Decl "MAV_EVENT_ERROR_REASON_ENUM_END" 1 1 (EnumEntry "MAV_EVENT_ERROR_REASON_ENUM_END" [] false)].

Definition MAV_EVENT_CURRENT_SEQUENCE_FLAGS : list decl := [
  Decl "MAV_EVENT_CURRENT_SEQUENCE_FLAGS_RESET" 1 1 (EnumEntry "MAV_EVENT_CURRENT_SEQUENCE_FLAGS_RESET" [] false);
  Decl "MAV_EVENT_CURRENT_SEQUENCE_FLAGS_ENUM_END" 2 2 (EnumEntry "MAV_EVENT_CURRENT_SEQUENCE_FLAGS_ENUM_END" [] false)].

Definition HIL_SENSOR_UPDATED_FLAGS : list decl := [
  Decl "HIL_SENSOR_UPDATED_NONE" 0 0 (EnumEntry "HIL_SENSOR_UPDATED_NONE" [] false);
  Decl "HIL_SENSOR_UPDATED_XACC" 1 1 (EnumEntry "HIL_SENSOR_UPDATED_XACC" [] false);
  Decl "HIL_SENSOR_UPDATED_YACC" 2 2 (EnumEntry "HIL_SENSOR_UPDATED_YACC" [] false);
  Decl "HIL_SENSOR_UPDATED_ZACC" 4 4 (EnumEntry "HIL_SENSOR_UPDATED_ZACC" [] false);
  Decl "HIL_SENSOR_UPDATED_XGYRO" 8 8 (EnumEntry "HIL_SENSOR_UPDATED_XGYRO" [] false);
  Decl "HIL_SENSOR_UPDATED_YGYRO" 16 16 (EnumEntry "HIL_SENSOR_UPDATED_YGYRO" [] false);
  Decl "HIL_SENSOR_UPDATED_ZGYRO" 32 32 (EnumEntry "HIL_SENSOR_UPDATED_ZGYRO" [] false);
  Decl "HIL_SENSOR_UPDATED_XMAG" 64 64 (EnumEntry "HIL_SENSOR_UPDATED_XMAG" [] false);
  Decl "HIL_SENSOR_UPDATED_YMAG" 128 128 (EnumEntry "HIL_SENSOR_UPDATED_YMAG" [] false);
  Decl "HIL_SENSOR_UPDATED_ZMAG" 256 256 (EnumEntry "HIL_SENSOR_UPDATED_ZMAG" [] false);
  Decl "HIL_SENSOR_UPDATED_ABS_PRESSURE" 512 512 (EnumEntry "HIL_SENSOR_UPDATED_ABS_PRESSURE" [] false);
  Decl "HIL_SENSOR_UPDATED_DIFF_PRESSURE" 1024 1024 (EnumEntry "HIL_SENSOR_UPDATED_DIFF_PRESSURE" [] false);
  Decl "HIL_SENSOR_UPDATED_PRESSURE_ALT" 2048 2048 (EnumEntry "HIL_SENSOR_UPDATED_PRESSURE_ALT" [] false);
  Decl "HIL_SENSOR_UPDATED_TEMPERATURE" 4096 4096 (EnumEntry "HIL_SENSOR_UPDATED_TEMPERATURE" [] false);
  Decl "HIL_SENSOR_UPDATED_RESET" 2147483648 2147483648 (EnumEntry "HIL_SENSOR_UPDATED_RESET" [] false);
  Decl "HIL_SENSOR_UPDATED_FLAGS_ENUM_END" 2147483649 2147483649 (EnumEntry "HIL_SENSOR_UPDATED_FLAGS_ENUM_END" [] false)].

Definition HIGHRES_IMU_UPDATED_FLAGS : list decl := [
  Decl "HIGHRES_IMU_UPDATED_NONE" 0 0 (EnumEntry "HIGHRES_IMU_UPDATED_NONE" [] false);
  Decl "HIGHRES_IMU_UPDATED_XACC" 1 1 (EnumEntry "HIGHRES_IMU_UPDATED_XACC" [] false);
  Decl "HIGHRES_IMU_UPDATED_YACC" 2 2 (EnumEntry "HIGHRES_IMU_UPDATED_YACC" [] false);
  Decl "HIGHRES_IMU_UPDATED_ZACC" 4 4 (EnumEntry "HIGHRES_IMU_UPDATED_ZACC" [] false);
  Decl "HIGHRES_IMU_UPDATED_XGYRO" 8 8 (EnumEntry "HIGHRES_IMU_UPDATED_XGYRO" [] false);
  Decl "HIGHRES_IMU_UPDATED_YGYRO" 16 16 (EnumEntry "HIGHRES_IMU_UPDATED_YGYRO" [] false);
  Decl "HIGHRES_IMU_UPDATED_ZGYRO" 32 32 (EnumEntry "HIGHRES_IMU_UPDATED_ZGYRO" [] false);
  Decl "HIGHRES_IMU_UPDATED_XMAG" 64 64 (EnumEntry "HIGHRES_IMU_UPDATED_XMAG" [] false);
  Decl "HIGHRES_IMU_UPDATED_YMAG" 128 128 (EnumEntry "HIGHRES_IMU_UPDATED_YMAG" [] false);
  Decl "HIGHRES_IMU_UPDATED_ZMAG" 256 256 (EnumEntry "HIGHRES_IMU_UPDATED_ZMAG" [] false);
  Decl "HIGHRES_IMU_UPDATED_ABS_PRESSURE" 512 512 (EnumEntry "HIGHRES_IMU_UPDATED_ABS_PRESSURE" [] false);
  Decl "HIGHRES_IMU_UPDATED_DIFF_PRESSURE" 1024 1024 (EnumEntry "HIGHRES_IMU_UPDATED_DIFF_PRESSURE" [] false);
  Decl "HIGHRES_IMU_UPDATED_PRESSURE_ALT" 2048 2048 (EnumEntry "HIGHRES_IMU_UPDATED_PRESSURE_ALT" [] false);
  Decl "HIGHRES_IMU_UPDATED_TEMPERATURE" 4096 4096 (EnumEntry "HIGHRES_IMU_UPDATED_TEMPERATURE" [] false);
  Decl "HIGHRES_IMU_UPDATED_ALL" 65535 65535 (EnumEntry "HIGHRES_IMU_UPDATED_ALL" [] false);
  Decl "HIGHRES_IMU_UPDATED_FLAGS_ENUM_END" 65536 65536 (EnumEntry "HIGHRES_IMU_UPDATED_FLAGS_ENUM_END" [] false)].

Definition CAN_FILTER_OP : list decl := [
  Decl "CAN_FILTER_REPLACE" 0 0 (EnumEntry "CAN_FILTER_REPLACE" [] false);
  Decl "CAN_FILTER_ADD" 1 1 (EnumEntry "CAN_FILTER_ADD" [] false);
  Decl "CAN_FILTER_REMOVE" 2 2 (EnumEntry "CAN_FILTER_REMOVE" [] false);
  Decl "CAN_FILTER_OP_ENUM_END" 3 3 (EnumEntry "CAN_FILTER_OP_ENUM_END" [] false)].

Definition MAV_FTP_ERR : list decl := [
  Decl "MAV_FTP_ERR_NONE" 0 0 (EnumEntry "MAV_FTP_ERR_NONE" [] false);
  Decl "MAV_FTP_ERR_FAIL" 1 1 (EnumEntry "MAV_FTP_ERR_FAIL" [] false);
  Decl "MAV_FTP_ERR_FAILERRNO" 2 2 (EnumEntry "MAV_FTP_ERR_FAILERRNO" [] false);
  Decl "MAV_FTP_ERR_INVALIDDATASIZE" 3 3 (EnumEntry "MAV_FTP_ERR_INVALIDDATASIZE" [] false);
  Decl "MAV_FTP_ERR_INVALIDSESSION" 4 4 (EnumEntry "MAV_FTP_ERR_INVALIDSESSION" [] false);
  Decl "MAV_FTP_ERR_NOSESSIONSAVAILABLE" 5 5 (EnumEntry "MAV_FTP_ERR_NOSESSIONSAVAILABLE" [] false);
  Decl "MAV_FTP_ERR_EOF" 6 6 (EnumEntry "MAV_FTP_ERR_EOF" [] false);
  Decl "MAV_FTP_ERR_UNKNOWNCOMMAND" 7 7 (EnumEntry "MAV_FTP_ERR_UNKNOWNCOMMAND" [] false);
  Decl "MAV_FTP_ERR_FILEEXISTS" 8 8 (EnumEntry "MAV_FTP_ERR_FILEEXISTS" [] false);
  Decl "MAV_FTP_ERR_FILEPROTECTED" 9 9 (EnumEntry "MAV_FTP_ERR_FILEPROTECTED" [] false);
  Decl "MAV_FTP_ERR_FILENOTFOUND" 10 10 (EnumEntry "MAV_FTP_ERR_FILENOTFOUND" [] false);
  Decl "MAV_FTP_ERR_ENUM_END" 11 11 (EnumEntry "MAV_FTP_ERR_ENUM_END" [] false)].

Definition MAV_FTP_OPCODE : list decl := [
  Decl "MAV_FTP_OPCODE_NONE" 0 0 (EnumEntry "MAV_FTP_OPCODE_NONE" [] false);
  Decl "MAV_FTP_OPCODE_TERMINATESESSION" 1 1 (EnumEntry "MAV_FTP_OPCODE_TERMINATESESSION" [] false);
  Decl "MAV_FTP_OPCODE_RESETSESSION" 2 2 (EnumEntry "MAV_FTP_OPCODE_RESETSESSION" [] false);
  Decl "MAV_FTP_OPCODE_LISTDIRECTORY" 3 3 (EnumEntry "MAV_FTP_OPCODE_LISTDIRECTORY" [] false);
  Decl "MAV_FTP_OPCODE_OPENFILERO" 4 4 (EnumEntry "MAV_FTP_OPCODE_OPENFILERO" [] false);
  Decl "MAV_FTP_OPCODE_READFILE" 5 5 (EnumEntry "MAV_FTP_OPCODE_READFILE" [] false);
  Decl "MAV_FTP_OPCODE_CREATEFILE" 6 6 (EnumEntry "MAV_FTP_OPCODE_CREATEFILE" [] false);
  Decl "MAV_FTP_OPCODE_WRITEFILE" 7 7 (EnumEntry "MAV_FTP_OPCODE_WRITEFILE" [] false);
  Decl "MAV_FTP_OPCODE_REMOVEFILE" 8 8 (EnumEntry "MAV_FTP_OPCODE_REMOVEFILE" [] false);
  Decl "MAV_FTP_OPCODE_CREATEDIRECTORY" 9 9 (EnumEntry "MAV_FTP_OPCODE_CREATEDIRECTORY" [] false);
  Decl "MAV_FTP_OPCODE_REMOVEDIRECTORY" 10 10 (EnumEntry "MAV_FTP_OPCODE_REMOVEDIRECTORY" [] false);
  Decl "MAV_FTP_OPCODE_OPENFILEWO" 11 11 (EnumEntry "MAV_FTP_OPCODE_OPENFILEWO" [] false);
  Decl "MAV_FTP_OPCODE_TRUNCATEFILE" 12 12 (EnumEntry "MAV_FTP_OPCODE_TRUNCATEFILE" [] false);
  Decl "MAV_FTP_OPCODE_RENAME" 13 13 (EnumEntry "MAV_FTP_OPCODE_RENAME" [] false);
  Decl "MAV_FTP_OPCODE_CALCFILECRC" 14 14 (EnumEntry "MAV_FTP_OPCODE_CALCFILECRC" [] false);
  Decl "MAV_FTP_OPCODE_BURSTREADFILE" 15 15 (EnumEntry "MAV_FTP_OPCODE_BURSTREADFILE" [] false);
  Decl "MAV_FTP_OPCODE_ACK" 128 128 (EnumEntry "MAV_FTP_OPCODE_ACK" [] false);
  Decl "MAV_FTP_OPCODE_NAK" 129 129 (EnumEntry "MAV_FTP_OPCODE_NAK" [] false);
  Decl "MAV_FTP_OPCODE_ENUM_END" 130 130 (EnumEntry "MAV_FTP_OPCODE_ENUM_END" [] false)].

Definition MISSION_STATE : list decl := [
  Decl "MISSION_STATE_UNKNOWN" 0 0 (EnumEntry "MISSION_STATE_UNKNOWN" [] false);
  Decl "MISSION_STATE_NO_MISSION" 1 1 (EnumEntry "MISSION_STATE_NO_MISSION" [] false);
  Decl "MISSION_STATE_NOT_STARTED" 2 2 (EnumEntry "MISSION_STATE_NOT_STARTED" [] false);
  Decl "MISSION_STATE_ACTIVE" 3 3 (EnumEntry "MISSION_STATE_ACTIVE" [] false);
  Decl "MISSION_STATE_PAUSED" 4 4 (EnumEntry "MISSION_STATE_PAUSED" [] false);
  Decl "MISSION_STATE_COMPLETE" 5 5 (EnumEntry "MISSION_STATE_COMPLETE" [] false);
  Decl "MISSION_STATE_ENUM_END" 6 6 (EnumEntry "MISSION_STATE_ENUM_END" [] false)].

Definition MAV_AUTOPILOT : list decl := [
  Decl "MAV_AUTOPILOT_GENERIC" 0 0 (EnumEntry "MAV_AUTOPILOT_GENERIC" [] false);
  Decl "MAV_AUTOPILOT_RESERVED" 1 1 (EnumEntry "MAV_AUTOPILOT_RESERVED" [] false);
  Decl "MAV_AUTOPILOT_SLUGS" 2 2 (EnumEntry "MAV_AUTOPILOT_SLUGS" [] false);
  Decl "MAV_AUTOPILOT_ARDUPILOTMEGA" 3 3 (EnumEntry "MAV_AUTOPILOT_ARDUPILOTMEGA" [] false);
  Decl "MAV_AUTOPILOT_OPENPILOT" 4 4 (EnumEntry "MAV_AUTOPILOT_OPENPILOT" [] false);
  Decl "MAV_AUTOPILOT_GENERIC_WAYPOINTS_ONLY" 5 5 (EnumEntry "MAV_AUTOPILOT_GENERIC_WAYPOINTS_ONLY" [] false);
  Decl "MAV_AUTOPILOT_GENERIC_WAYPOINTS_AND_SIMPLE_NAVIGATION_ONLY" 6 6 (EnumEntry "MAV_AUTOPILOT_GENERIC_WAYPOINTS_AND_SIMPLE_NAVIGATION_ONLY" [] false);
  Decl "MAV_AUTOPILOT_GENERIC_MISSION_FULL" 7 7 (EnumEntry "MAV_AUTOPILOT_GENERIC_MISSION_FULL" [] false);
  Decl "MAV_AUTOPILOT_INVALID" 8 8 (EnumEntry "MAV_AUTOPILOT_INVALID" [] false);
  Decl "MAV_AUTOPILOT_PPZ" 9 9 (EnumEntry "MAV_AUTOPILOT_PPZ" [] false);
  Decl "MAV_AUTOPILOT_UDB" 10 10 (EnumEntry "MAV_AUTOPILOT_UDB" [] false);
  Decl "MAV_AUTOPILOT_FP" 11 11 (EnumEntry "MAV_AUTOPILOT_FP" [] false);
  Decl "MAV_AUTOPILOT_PX4" 12 12 (EnumEntry "MAV_AUTOPILOT_PX4" [] false);
  Decl "MAV_AUTOPILOT_SMACCMPILOT" 13 13 (EnumEntry "MAV_AUTOPILOT_SMACCMPILOT" [] false);
  Decl "MAV_AUTOPILOT_AUTOQUAD" 14 14 (EnumEntry "MAV_AUTOPILOT_AUTOQUAD" [] false);
  Decl "MAV_AUTOPILOT_ARMAZILA" 15 15 (EnumEntry "MAV_AUTOPILOT_ARMAZILA" [] false);
  Decl "MAV_AUTOPILOT_AEROB" 16 16 (EnumEntry "MAV_AUTOPILOT_AEROB" [] false);
  Decl "MAV_AUTOPILOT_ASLUAV" 17 17 (EnumEntry "MAV_AUTOPILOT_ASLUAV" [] false);
  Decl "MAV_AUTOPILOT_SMARTAP" 18 18 (EnumEntry "MAV_AUTOPILOT_SMARTAP" [] false);
  Decl "MAV_AUTOPILOT_AIRRAILS" 19 19 (EnumEntry "MAV_AUTOPILOT_AIRRAILS" [] false);
  Decl "MAV_AUTOPILOT_REFLEX" 20 20 (EnumEntry "MAV_AUTOPILOT_REFLEX" [] false);
  Decl "MAV_AUTOPILOT_ENUM_END" 21 21 (EnumEntry "MAV_AUTOPILOT_ENUM_END" [] false)].

Definition MAV_TYPE : list decl := [
  Decl "MAV_TYPE_GENERIC" 0 0 (EnumEntry "MAV_TYPE_GENERIC" [] false);
  Decl "MAV_TYPE_FIXED_WING" 1 1 (EnumEntry "MAV_TYPE_FIXED_WING" [] false);
  Decl "MAV_TYPE_QUADROTOR" 2 2 (EnumEntry "MAV_TYPE_QUADROTOR" [] false);
  Decl "MAV_TYPE_COAXIAL" 3 3 (EnumEntry "MAV_TYPE_COAXIAL" [] false);
  Decl "MAV_TYPE_HELICOPTER" 4 4 (EnumEntry "MAV_TYPE_HELICOPTER" [] false);
  Decl "MAV_TYPE_ANTENNA_TRACKER" 5 5 (EnumEntry "MAV_TYPE_ANTENNA_TRACKER" [] false);
  Decl "MAV_TYPE_GCS" 6 6 (EnumEntry "MAV_TYPE_GCS" [] false);
  Decl "MAV_TYPE_AIRSHIP" 7 7 (EnumEntry "MAV_TYPE_AIRSHIP" [] false);
  Decl "MAV_TYPE_FREE_BALLOON" 8 8 (EnumEntry "MAV_TYPE_FREE_BALLOON" [] false);
  Decl "MAV_TYPE_ROCKET" 9 9 (EnumEntry "MAV_TYPE_ROCKET" [] false);
  Decl "MAV_TYPE_GROUND_ROVER" 10 10 (EnumEntry "MAV_TYPE_GROUND_ROVER" [] false);
  Decl "MAV_TYPE_SURFACE_BOAT" 11 11 (EnumEntry "MAV_TYPE_SURFACE_BOAT" [] false);
  Decl "MAV_TYPE_SUBMARINE" 12 12 (EnumEntry "MAV_TYPE_SUBMARINE" [] false);
  Decl "MAV_TYPE_HEXAROTOR" 13 13 (EnumEntry "MAV_TYPE_HEXAROTOR" [] false);
  Decl "MAV_TYPE_OCTOROTOR" 14 14 (EnumEntry "MAV_TYPE_OCTOROTOR" [] false);
  Decl "MAV_TYPE_TRICOPTER" 15 15 (EnumEntry "MAV_TYPE_TRICOPTER" [] false);
  Decl "MAV_TYPE_FLAPPING_WING" 16 16 (EnumEntry "MAV_TYPE_FLAPPING_WING" [] false);
  Decl "MAV_TYPE_KITE" 17 17 (EnumEntry "MAV_TYPE_KITE" [] false);
  Decl "MAV_TYPE_ONBOARD_CONTROLLER" 18 18 (EnumEntry "MAV_TYPE_ONBOARD_CONTROLLER" [] false);
  Decl "MAV_TYPE_VTOL_TAILSITTER_DUOROTOR" 19 19 (EnumEntry "MAV_TYPE_VTOL_TAILSITTER_DUOROTOR" [] false);
  Decl "MAV_TYPE_VTOL_TAILSITTER_QUADROTOR" 20 20 (EnumEntry "MAV_TYPE_VTOL_TAILSITTER_QUADROTOR" [] false);
  Decl "MAV_TYPE_VTOL_TILTROTOR" 21 21 (EnumEntry "MAV_TYPE_VTOL_TILTROTOR" [] false);
  Decl "MAV_TYPE_VTOL_FIXEDROTOR" 22 22 (EnumEntry "MAV_TYPE_VTOL_FIXEDROTOR" [] false);
  Decl "MAV_TYPE_VTOL_TAILSITTER" 23 23 (EnumEntry "MAV_TYPE_VTOL_TAILSITTER" [] false);
  Decl "MAV_TYPE_VTOL_RESERVED4" 24 24 (EnumEntry "MAV_TYPE_VTOL_RESERVED4" [] false);
  Decl "MAV_TYPE_VTOL_RESERVED5" 25 25 (EnumEntry "MAV_TYPE_VTOL_RESERVED5" [] false);
  Decl "MAV_TYPE_GIMBAL" 26 26 (EnumEntry "MAV_TYPE_GIMBAL" [] false);
  Decl "MAV_TYPE_ADSB" 27 27 (EnumEntry "MAV_TYPE_ADSB" [] false);
  Decl "MAV_TYPE_PARAFOIL" 28 28 (EnumEntry "MAV_TYPE_PARAFOIL" [] false);
  Decl "MAV_TYPE_DODECAROTOR" 29 29 (EnumEntry "MAV_TYPE_DODECAROTOR" [] false);
  Decl "MAV_TYPE_CAMERA" 30 30 (EnumEntry "MAV_TYPE_CAMERA" [] false);
  Decl "MAV_TYPE_CHARGING_STATION" 31 31 (EnumEntry "MAV_TYPE_CHARGING_STATION" [] false);
  Decl "MAV_TYPE_FLARM" 32 32 (EnumEntry "MAV_TYPE_FLARM" [] false);
  Decl "MAV_TYPE_SERVO" 33 33 (EnumEntry "MAV_TYPE_SERVO" [] false);
  Decl "MAV_TYPE_ODID" 34 34 (EnumEntry "MAV_TYPE_ODID" [] false);
  Decl "MAV_TYPE_DECAROTOR" 35 35 (EnumEntry "MAV_TYPE_DECAROTOR" [] false);
  Decl "MAV_TYPE_BATTERY" 36 36 (EnumEntry "MAV_TYPE_BATTERY" [] false);
  Decl "MAV_TYPE_PARACHUTE" 37 37 (EnumEntry "MAV_TYPE_PARACHUTE" [] false);
  Decl "MAV_TYPE_LOG" 38 38 (EnumEntry "MAV_TYPE_LOG" [] false);
  Decl "MAV_TYPE_OSD" 39 39 (EnumEntry "MAV_TYPE_OSD" [] false);
  Decl "MAV_TYPE_IMU" 40 40 (EnumEntry "MAV_TYPE_IMU" [] false);
  Decl "MAV_TYPE_GPS" 41 41 (EnumEntry "MAV_TYPE_GPS" [] false);
  Decl "MAV_TYPE_WINCH" 42 42 (EnumEntry "MAV_TYPE_WINCH" [] false);
  Decl "MAV_TYPE_ENUM_END" 43 43 (EnumEntry "MAV_TYPE_ENUM_END" [] false)].

Definition MAV_MODE_FLAG : list decl := [
  Decl "MAV_MODE_FLAG_CUSTOM_MODE_ENABLED" 1 1 (EnumEntry "MAV_MODE_FLAG_CUSTOM_MODE_ENABLED" [] false);
  Decl "MAV_MODE_FLAG_TEST_ENABLED" 2 2 (EnumEntry "MAV_MODE_FLAG_TEST_ENABLED" [] false);
  Decl "MAV_MODE_FLAG_AUTO_ENABLED" 4 4 (EnumEntry "MAV_MODE_FLAG_AUTO_ENABLED" [] false);
  Decl "MAV_MODE_FLAG_GUIDED_ENABLED" 8 8 (EnumEntry "MAV_MODE_FLAG_GUIDED_ENABLED" [] false);
  Decl "MAV_MODE_FLAG_STABILIZE_ENABLED" 16 16 (EnumEntry "MAV_MODE_FLAG_STABILIZE_ENABLED" [] false);
  Decl "MAV_MODE_FLAG_HIL_ENABLED" 32 32 (EnumEntry "MAV_MODE_FLAG_HIL_ENABLED" [] false);
  Decl "MAV_MODE_FLAG_MANUAL_INPUT_ENABLED" 64 64 (EnumEntry "MAV_MODE_FLAG_MANUAL_INPUT_ENABLED" [] false);
  Decl "MAV_MODE_FLAG_SAFETY_ARMED" 128 128 (EnumEntry "MAV_MODE_FLAG_SAFETY_ARMED" [] false);
  Decl "MAV_MODE_FLAG_ENUM_END" 129 129 (EnumEntry "MAV_MODE_FLAG_ENUM_END" [] false)].

Definition MAV_MODE_FLAG_DECODE_POSITION : list decl := [
  Decl "MAV_MODE_FLAG_DECODE_POSITION_CUSTOM_MODE" 1 1 (EnumEntry "MAV_MODE_FLAG_DECODE_POSITION_CUSTOM_MODE" [] false);
  Decl "MAV_MODE_FLAG_DECODE_POSITION_TEST" 2 2 (EnumEntry "MAV_MODE_FLAG_DECODE_POSITION_TEST" [] false);
  Decl "MAV_MODE_FLAG_DECODE_POSITION_AUTO" 4 4 (EnumEntry "MAV_MODE_FLAG_DECODE_POSITION_AUTO" [] false);
  Decl "MAV_MODE_FLAG_DECODE_POSITION_GUIDED" 8 8 (EnumEntry "MAV_MODE_FLAG_DECODE_POSITION_GUIDED" [] false);
  Decl "MAV_MODE_FLAG_DECODE_POSITION_STABILIZE" 16 16 (EnumEntry "MAV_MODE_FLAG_DECODE_POSITION_STABILIZE" [] false);
  Decl "MAV_MODE_FLAG_DECODE_POSITION_HIL" 32 32 (EnumEntry "MAV_MODE_FLAG_DECODE_POSITION_HIL" [] false);
  Decl "MAV_MODE_FLAG_DECODE_POSITION_MANUAL" 64 64 (EnumEntry "MAV_MODE_FLAG_DECODE_POSITION_MANUAL" [] false);
  Decl "MAV_MODE_FLAG_DECODE_POSITION_SAFETY" 128 128 (EnumEntry "MAV_MODE_FLAG_DECODE_POSITION_SAFETY" [] false);
  Decl "MAV_MODE_FLAG_DECODE_POSITION_ENUM_END" 129 129 (EnumEntry "MAV_MODE_FLAG_DECODE_POSITION_ENUM_END" [] false)].

Definition MAV_STATE : list decl := [
  Decl "MAV_STATE_UNINIT" 0 0 (EnumEntry "MAV_STATE_UNINIT" [] false);
  Decl "MAV_STATE_BOOT" 1 1 (EnumEntry "MAV_STATE_BOOT" [] false);
  Decl "MAV_STATE_CALIBRATING" 2 2 (EnumEntry "MAV_STATE_CALIBRATING" [] false);
  Decl "MAV_STATE_STANDBY" 3 3 (EnumEntry "MAV_STATE_STANDBY" [] false);
  Decl "MAV_STATE_ACTIVE" 4 4 (EnumEntry "MAV_STATE_ACTIVE" [] false);
  Decl "MAV_STATE_CRITICAL" 5 5 (EnumEntry "MAV_STATE_CRITICAL" [] false);
  Decl "MAV_STATE_EMERGENCY" 6 6 (EnumEntry "MAV_STATE_EMERGENCY" [] false);
  Decl "MAV_STATE_POWEROFF" 7 7 (EnumEntry "MAV_STATE_POWEROFF" [] false);
  Decl "MAV_STATE_FLIGHT_TERMINATION" 8 8 (EnumEntry "MAV_STATE_FLIGHT_TERMINATION" [] false);
  Decl "MAV_STATE_ENUM_END" 9 9 (EnumEntry "MAV_STATE_ENUM_END" [] false)].

Definition MAV_COMPONENT_part1 : list decl := [
  Decl "MAV_COMP_ID_ALL" 0 0 (EnumEntry "MAV_COMP_ID_ALL" [] false);
  Decl "MAV_COMP_ID_AUTOPILOT1" 1 1 (EnumEntry "MAV_COMP_ID_AUTOPILOT1" [] false);
  Decl "MAV_COMP_ID_USER1" 25 25 (EnumEntry "MAV_COMP_ID_USER1" [] false);
  Decl "MAV_COMP_ID_USER2" 26 26 (EnumEntry "MAV_COMP_ID_USER2" [] false);
  Decl "MAV_COMP_ID_USER3" 27 27 (EnumEntry "MAV_COMP_ID_USER3" [] false);
  Decl "MAV_COMP_ID_USER4" 28 28 (EnumEntry "MAV_COMP_ID_USER4" [] false);
  Decl "MAV_COMP_ID_USER5" 29 29 (EnumEntry "MAV_COMP_ID_USER5" [] false);
  Decl "MAV_COMP_ID_USER6" 30 30 (EnumEntry "MAV_COMP_ID_USER6" [] false);
  Decl "MAV_COMP_ID_USER7" 31 31 (EnumEntry "MAV_COMP_ID_USER7" [] false);
  Decl "MAV_COMP_ID_USER8" 32 32 (EnumEntry "MAV_COMP_ID_USER8" [] false);
  Decl "MAV_COMP_ID_USER9" 33 33 (EnumEntry "MAV_COMP_ID_USER9" [] false);
  Decl "MAV_COMP_ID_USER10" 34 34 (EnumEntry "MAV_COMP_ID_USER10" [] false);
  Decl "MAV_COMP_ID_USER11" 35 35 (EnumEntry "MAV_COMP_ID_USER11" [] false);
  Decl "MAV_COMP_ID_USER12" 36 36 (EnumEntry "MAV_COMP_ID_USER12" [] false);
  Decl "MAV_COMP_ID_USER13" 37 37 (EnumEntry "MAV_COMP_ID_USER13" [] false);
  Decl "MAV_COMP_ID_USER14" 38 38 (EnumEntry "MAV_COMP_ID_USER14" [] false);
  Decl "MAV_COMP_ID_USER15" 39 39 (EnumEntry "MAV_COMP_ID_USER15" [] false);
  Decl "MAV_COMP_ID_USER16" 40 40 (EnumEntry "MAV_COMP_ID_USER16" [] false);
  Decl "MAV_COMP_ID_USER17" 41 41 (EnumEntry "MAV_COMP_ID_USER17" [] false);
  Decl "MAV_COMP_ID_USER18" 42 42 (EnumEntry "MAV_COMP_ID_USER18" [] false);
  Decl "MAV_COMP_ID_USER19" 43 43 (EnumEntry "MAV_COMP_ID_USER19" [] false);
  Decl "MAV_COMP_ID_USER20" 44 44 (EnumEntry "MAV_COMP_ID_USER20" [] false);
  Decl "MAV_COMP_ID_USER21" 45 45 (EnumEntry "MAV_COMP_ID_USER21" [] false);
  Decl "MAV_COMP_ID_USER22" 46 46 (EnumEntry "MAV_COMP_ID_USER22" [] false);
  Decl "MAV_COMP_ID_USER23" 47 47 (EnumEntry "MAV_COMP_ID_USER23" [] false);
  Decl "MAV_COMP_ID_USER24" 48 48 (EnumEntry "MAV_COMP_ID_USER24" [] false);
  Decl "MAV_COMP_ID_USER25" 49 49 (EnumEntry "MAV_COMP_ID_USER25" [] false);
  Decl "MAV_COMP_ID_USER26" 50 50 (EnumEntry "MAV_COMP_ID_USER26" [] false);
  Decl "MAV_COMP_ID_USER27" 51 51 (EnumEntry "MAV_COMP_ID_USER27" [] false);
  Decl "MAV_COMP_ID_USER28" 52 52 (EnumEntry "MAV_COMP_ID_USER28" [] false);
  Decl "MAV_COMP_ID_USER29" 53 53 (EnumEntry "MAV_COMP_ID_USER29" [] false);
  Decl "MAV_COMP_ID_USER30" 54 54 (EnumEntry "MAV_COMP_ID_USER30" [] false);
  Decl "MAV_COMP_ID_USER31" 55 55 (EnumEntry "MAV_COMP_ID_USER31" [] false);
  Decl "MAV_COMP_ID_USER32" 56 56 (EnumEntry "MAV_COMP_ID_USER32" [] false);
  Decl "MAV_COMP_ID_USER33" 57 57 (EnumEntry "MAV_COMP_ID_USER33" [] false);
  Decl "MAV_COMP_ID_USER34" 58 58 (EnumEntry "MAV_COMP_ID_USER34" [] false);
  Decl "MAV_COMP_ID_USER35" 59 59 (EnumEntry "MAV_COMP_ID_USER35" [] false);
  Decl "MAV_COMP_ID_USER36" 60 60 (EnumEntry "MAV_COMP_ID_USER36" [] false);
  Decl "MAV_COMP_ID_USER37" 61 61 (EnumEntry "MAV_COMP_ID_USER37" [] false);
  Decl "MAV_COMP_ID_USER38" 62 62 (EnumEntry "MAV_COMP_ID_USER38" [] false);
  Decl "MAV_COMP_ID_USER39" 63 63 (EnumEntry "MAV_COMP_ID_USER39" [] false);
  Decl "MAV_COMP_ID_USER40" 64 64 (EnumEntry "MAV_COMP_ID_USER40" [] false);
  Decl "MAV_COMP_ID_USER41" 65 65 (EnumEntry "MAV_COMP_ID_USER41" [] false);
  Decl "MAV_COMP_ID_USER42" 66 66 (EnumEntry "MAV_COMP_ID_USER42" [] false);
  Decl "MAV_COMP_ID_USER43" 67 67 (EnumEntry "MAV_COMP_ID_USER43" [] false);
  Decl "MAV_COMP_ID_TELEMETRY_RADIO" 68 68 (EnumEntry "MAV_COMP_ID_TELEMETRY_RADIO" [] false);
  Decl "MAV_COMP_ID_USER45" 69 69 (EnumEntry "MAV_COMP_ID_USER45" [] false);
  Decl "MAV_COMP_ID_USER46" 70 70 (EnumEntry "MAV_COMP_ID_USER46" [] false);
  Decl "MAV_COMP_ID_USER47" 71 71 (EnumEntry "MAV_COMP_ID_USER47" [] false);
  Decl "MAV_COMP_ID_USER48" 72 72 (EnumEntry "MAV_COMP_ID_USER48" [] false);
  Decl "MAV_COMP_ID_USER49" 73 73 (EnumEntry "MAV_COMP_ID_USER49" [] false);
  Decl "MAV_COMP_ID_USER50" 74 74 (EnumEntry "MAV_COMP_ID_USER50" [] false);
  Decl "MAV_COMP_ID_USER51" 75 75 (EnumEntry "MAV_COMP_ID_USER51" [] false);
  Decl "MAV_COMP_ID_USER52" 76 76 (EnumEntry "MAV_COMP_ID_USER52" [] false);
  Decl "MAV_COMP_ID_USER53" 77 77 (EnumEntry "MAV_COMP_ID_USER53" [] false);
  Decl "MAV_COMP_ID_USER54" 78 78 (EnumEntry "MAV_COMP_ID_USER54" [] false);
  Decl "MAV_COMP_ID_USER55" 79 79 (EnumEntry "MAV_COMP_ID_USER55" [] false);
  Decl "MAV_COMP_ID_USER56" 80 80 (EnumEntry "MAV_COMP_ID_USER56" [] false);
  Decl "MAV_COMP_ID_USER57" 81 81 (EnumEntry "MAV_COMP_ID_USER57" [] false);
  Decl "MAV_COMP_ID_USER58" 82 82 (EnumEntry "MAV_COMP_ID_USER58" [] false);
  Decl "MAV_COMP_ID_USER59" 83 83 (EnumEntry "MAV_COMP_ID_USER59" [] false);
  Decl "MAV_COMP_ID_USER60" 84 84 (EnumEntry "MAV_COMP_ID_USER60" [] false);
  Decl "MAV_COMP_ID_USER61" 85 85 (EnumEntry "MAV_COMP_ID_USER61" [] false);
  Decl "MAV_COMP_ID_USER62" 86 86 (EnumEntry "MAV_COMP_ID_USER62" [] false);
  Decl "MAV_COMP_ID_USER63" 87 87 (EnumEntry "MAV_COMP_ID_USER63" [] false);
  Decl "MAV_COMP_ID_USER64" 88 88 (EnumEntry "MAV_COMP_ID_USER64" [] false);
  Decl "MAV_COMP_ID_USER65" 89 89 (EnumEntry "MAV_COMP_ID_USER65" [] false);
  Decl "MAV_COMP_ID_USER66" 90 90 (EnumEntry "MAV_COMP_ID_USER66" [] false);
  Decl "MAV_COMP_ID_USER67" 91 91 (EnumEntry "MAV_COMP_ID_USER67" [] false);
  Decl "MAV_COMP_ID_USER68" 92 92 (EnumEntry "MAV_COMP_ID_USER68" [] false);
  Decl "MAV_COMP_ID_USER69" 93 93 (EnumEntry "MAV_COMP_ID_USER69" [] false);
  Decl "MAV_COMP_ID_USER70" 94 94 (EnumEntry "MAV_COMP_ID_USER70" [] false);
  Decl "MAV_COMP_ID_USER71" 95 95 (EnumEntry "MAV_COMP_ID_USER71" [] false);
  Decl "MAV_COMP_ID_USER72" 96 96 (EnumEntry "MAV_COMP_ID_USER72" [] false)].

Definition MAV_COMPONENT_part2 : list decl := [
  Decl "MAV_COMP_ID_USER73" 97 97 (EnumEntry "MAV_COMP_ID_USER73" [] false);
  Decl "MAV_COMP_ID_USER74" 98 98 (EnumEntry "MAV_COMP_ID_USER74" [] false);
  Decl "MAV_COMP_ID_USER75" 99 99 (EnumEntry "MAV_COMP_ID_USER75" [] false);
  Decl "MAV_COMP_ID_CAMERA" 100 100 (EnumEntry "MAV_COMP_ID_CAMERA" [] false);
  Decl "MAV_COMP_ID_CAMERA2" 101 101 (EnumEntry "MAV_COMP_ID_CAMERA2" [] false);
  Decl "MAV_COMP_ID_CAMERA3" 102 102 (EnumEntry "MAV_COMP_ID_CAMERA3" [] false);
  Decl "MAV_COMP_ID_CAMERA4" 103 103 (EnumEntry "MAV_COMP_ID_CAMERA4" [] false);
  Decl "MAV_COMP_ID_CAMERA5" 104 104 (EnumEntry "MAV_COMP_ID_CAMERA5" [] false);
  Decl "MAV_COMP_ID_CAMERA6" 105 105 (EnumEntry "MAV_COMP_ID_CAMERA6" [] false);
  Decl "MAV_COMP_ID_SERVO1" 140 140 (EnumEntry "MAV_COMP_ID_SERVO1" [] false);
  Decl "MAV_COMP_ID_SERVO2" 141 141 (EnumEntry "MAV_COMP_ID_SERVO2" [] false);
  Decl "MAV_COMP_ID_SERVO3" 142 142 (EnumEntry "MAV_COMP_ID_SERVO3" [] false);
  Decl "MAV_COMP_ID_SERVO4" 143 143 (EnumEntry "MAV_COMP_ID_SERVO4" [] false);
  Decl "MAV_COMP_ID_SERVO5" 144 144 (EnumEntry "MAV_COMP_ID_SERVO5" [] false);
  Decl "MAV_COMP_ID_SERVO6" 145 145 (EnumEntry "MAV_COMP_ID_SERVO6" [] false);
  Decl "MAV_COMP_ID_SERVO7" 146 146 (EnumEntry "MAV_COMP_ID_SERVO7" [] false);
  Decl "MAV_COMP_ID_SERVO8" 147 147 (EnumEntry "MAV_COMP_ID_SERVO8" [] false);
  Decl "MAV_COMP_ID_SERVO9" 148 148 (EnumEntry "MAV_COMP_ID_SERVO9" [] false);
  Decl "MAV_COMP_ID_SERVO10" 149 149 (EnumEntry "MAV_COMP_ID_SERVO10" [] false);
  Decl "MAV_COMP_ID_SERVO11" 150 150 (EnumEntry "MAV_COMP_ID_SERVO11" [] false);
  Decl "MAV_COMP_ID_SERVO12" 151 151 (EnumEntry "MAV_COMP_ID_SERVO12" [] false);
  Decl "MAV_COMP_ID_SERVO13" 152 152 (EnumEntry "MAV_COMP_ID_SERVO13" [] false);
  Decl "MAV_COMP_ID_SERVO14" 153 153 (EnumEntry "MAV_COMP_ID_SERVO14" [] false);
  Decl "MAV_COMP_ID_GIMBAL" 154 154 (EnumEntry "MAV_COMP_ID_GIMBAL" [] false);
  Decl "MAV_COMP_ID_LOG" 155 155 (EnumEntry "MAV_COMP_ID_LOG" [] false);
  Decl "MAV_COMP_ID_ADSB" 156 156 (EnumEntry "MAV_COMP_ID_ADSB" [] false);
  Decl "MAV_COMP_ID_OSD" 157 157 (EnumEntry "MAV_COMP_ID_OSD" [] false);
  Decl "MAV_COMP_ID_PERIPHERAL" 158 158 (EnumEntry "MAV_COMP_ID_PERIPHERAL" [] false);
  Decl "MAV_COMP_ID_QX1_GIMBAL" 159 159 (EnumEntry "MAV_COMP_ID_QX1_GIMBAL" [] false);
  Decl "MAV_COMP_ID_FLARM" 160 160 (EnumEntry "MAV_COMP_ID_FLARM" [] false);
  Decl "MAV_COMP_ID_PARACHUTE" 161 161 (EnumEntry "MAV_COMP_ID_PARACHUTE" [] false);
  Decl "MAV_COMP_ID_WINCH" 169 169 (EnumEntry "MAV_COMP_ID_WINCH" [] false);
  Decl "MAV_COMP_ID_GIMBAL2" 171 171 (EnumEntry "MAV_COMP_ID_GIMBAL2" [] false);
  Decl "MAV_COMP_ID_GIMBAL3" 172 172 (EnumEntry "MAV_COMP_ID_GIMBAL3" [] false);
  Decl "MAV_COMP_ID_GIMBAL4" 173 173 (EnumEntry "MAV_COMP_ID_GIMBAL4" [] false);
  Decl "MAV_COMP_ID_GIMBAL5" 174 174 (EnumEntry "MAV_COMP_ID_GIMBAL5" [] false);
  Decl "MAV_COMP_ID_GIMBAL6" 175 175 (EnumEntry "MAV_COMP_ID_GIMBAL6" [] false);
  Decl "MAV_COMP_ID_BATTERY" 180 180 (EnumEntry "MAV_COMP_ID_BATTERY" [] false);
  Decl "MAV_COMP_ID_BATTERY2" 181 181 (EnumEntry "MAV_COMP_ID_BATTERY2" [] false);
  Decl "MAV_COMP_ID_MAVCAN" 189 189 (EnumEntry "MAV_COMP_ID_MAVCAN" [] false);
  Decl "MAV_COMP_ID_MISSIONPLANNER" 190 190 (EnumEntry "MAV_COMP_ID_MISSIONPLANNER" [] false);
  Decl "MAV_COMP_ID_ONBOARD_COMPUTER" 191 191 (EnumEntry "MAV_COMP_ID_ONBOARD_COMPUTER" [] false);
  Decl "MAV_COMP_ID_ONBOARD_COMPUTER2" 192 192 (EnumEntry "MAV_COMP_ID_ONBOARD_COMPUTER2" [] false);
  Decl "MAV_COMP_ID_ONBOARD_COMPUTER3" 193 193 (EnumEntry "MAV_COMP_ID_ONBOARD_COMPUTER3" [] false);
  Decl "MAV_COMP_ID_ONBOARD_COMPUTER4" 194 194 (EnumEntry "MAV_COMP_ID_ONBOARD_COMPUTER4" [] false);
  Decl "MAV_COMP_ID_PATHPLANNER" 195 195 (EnumEntry "MAV_COMP_ID_PATHPLANNER" [] false);
  Decl "MAV_COMP_ID_OBSTACLE_AVOIDANCE" 196 196 (EnumEntry "MAV_COMP_ID_OBSTACLE_AVOIDANCE" [] false);
  Decl "MAV_COMP_ID_VISUAL_INERTIAL_ODOMETRY" 197 197 (EnumEntry "MAV_COMP_ID_VISUAL_INERTIAL_ODOMETRY" [] false);
  Decl "MAV_COMP_ID_PAIRING_MANAGER" 198 198 (EnumEntry "MAV_COMP_ID_PAIRING_MANAGER" [] false);
  Decl "MAV_COMP_ID_IMU" 200 200 (EnumEntry "MAV_COMP_ID_IMU" [] false);
  Decl "MAV_COMP_ID_IMU_2" 201 201 (EnumEntry "MAV_COMP_ID_IMU_2" [] false);
  Decl "MAV_COMP_ID_IMU_3" 202 202 (EnumEntry "MAV_COMP_ID_IMU_3" [] false);
  Decl "MAV_COMP_ID_GPS" 220 220 (EnumEntry "MAV_COMP_ID_GPS" [] false);
  Decl "MAV_COMP_ID_GPS2" 221 221 (EnumEntry "MAV_COMP_ID_GPS2" [] false);
  Decl "MAV_COMP_ID_ODID_TXRX_1" 236 236 (EnumEntry "MAV_COMP_ID_ODID_TXRX_1" [] false);
  Decl "MAV_COMP_ID_ODID_TXRX_2" 237 237 (EnumEntry "MAV_COMP_ID_ODID_TXRX_2" [] false);
  Decl "MAV_COMP_ID_ODID_TXRX_3" 238 238 (EnumEntry "MAV_COMP_ID_ODID_TXRX_3" [] false);
  Decl "MAV_COMP_ID_UDP_BRIDGE" 240 240 (EnumEntry "MAV_COMP_ID_UDP_BRIDGE" [] false);
  Decl "MAV_COMP_ID_UART_BRIDGE" 241 241 (EnumEntry "MAV_COMP_ID_UART_BRIDGE" [] false);
  Decl "MAV_COMP_ID_TUNNEL_NODE" 242 242 (EnumEntry "MAV_COMP_ID_TUNNEL_NODE" [] false);
  Decl "MAV_COMP_ID_SYSTEM_CONTROL" 250 250 (EnumEntry "MAV_COMP_ID_SYSTEM_CONTROL" [] false);
  Decl "MAV_COMPONENT_ENUM_END" 251 251 (EnumEntry "MAV_COMPONENT_ENUM_END" [] false)].

Definition MAV_COMPONENT : list decl := MAV_COMPONENT_part1 ++ MAV_COMPONENT_part2.

Definition enums_2 : list (string * list decl) := [
  ("MOTOR_TEST_ORDER", MOTOR_TEST_ORDER);
  ("MOTOR_TEST_THROTTLE_TYPE", MOTOR_TEST_THROTTLE_TYPE);
  ("GPS_INPUT_IGNORE_FLAGS", GPS_INPUT_IGNORE_FLAGS);
  ("MAV_COLLISION_ACTION", MAV_COLLISION_ACTION);
  ("MAV_COLLISION_THREAT_LEVEL", MAV_COLLISION_THREAT_LEVEL);
  ("MAV_COLLISION_SRC", MAV_COLLISION_SRC);
  ("GPS_FIX_TYPE", GPS_FIX_TYPE);
  ("RTK_BASELINE_COORDINATE_SYSTEM", RTK_BASELINE_COORDINATE_SYSTEM);
  ("LANDING_TARGET_TYPE", LANDING_TARGET_TYPE);
  ("VTOL_TRANSITION_HEADING", VTOL_TRANSITION_HEADING);
  ("CAMERA_CAP_FLAGS", CAMERA_CAP_FLAGS);
  ("VIDEO_STREAM_STATUS_FLAGS", VIDEO_STREAM_STATUS_FLAGS);
  ("VIDEO_STREAM_TYPE", VIDEO_STREAM_TYPE);
  ("CAMERA_TRACKING_STATUS_FLAGS", CAMERA_TRACKING_STATUS_FLAGS);
  ("CAMERA_TRACKING_MODE", CAMERA_TRACKING_MODE);
  ("CAMERA_TRACKING_TARGET_DATA", CAMERA_TRACKING_TARGET_DATA);
  ("CAMERA_ZOOM_TYPE", CAMERA_ZOOM_TYPE);
  ("SET_FOCUS_TYPE", SET_FOCUS_TYPE);
  ("PARAM_ACK", PARAM_ACK);
  ("CAMERA_MODE", CAMERA_MODE);
  ("MAV_ARM_AUTH_DENIED_REASON", MAV_ARM_AUTH_DENIED_REASON);
  ("RC_TYPE", RC_TYPE);
  ("POSITION_TARGET_TYPEMASK", POSITION_TARGET_TYPEMASK);
  ("ATTITUDE_TARGET_TYPEMASK", ATTITUDE_TARGET_TYPEMASK);
  ("UTM_FLIGHT_STATE", UTM_FLIGHT_STATE);
  ("UTM_DATA_AVAIL_FLAGS", UTM_DATA_AVAIL_FLAGS);
  ("CELLULAR_STATUS_FLAG", CELLULAR_STATUS_FLAG);
  ("CELLULAR_NETWORK_FAILED_REASON", CELLULAR_NETWORK_FAILED_REASON);
  ("CELLULAR_NETWORK_RADIO_TYPE", CELLULAR_NETWORK_RADIO_TYPE);
  ("PRECISION_LAND_MODE", PRECISION_LAND_MODE);
  ("PARACHUTE_ACTION", PARACHUTE_ACTION);
  ("MAV_TUNNEL_PAYLOAD_TYPE", MAV_TUNNEL_PAYLOAD_TYPE);
  ("MAV_ODID_ID_TYPE", MAV_ODID_ID_TYPE);
  ("MAV_ODID_UA_TYPE", MAV_ODID_UA_TYPE);
  ("MAV_ODID_STATUS", MAV_ODID_STATUS);
  ("MAV_ODID_HEIGHT_REF", MAV_ODID_HEIGHT_REF);
  ("MAV_ODID_HOR_ACC", MAV_ODID_HOR_ACC);
  ("MAV_ODID_VER_ACC", MAV_ODID_VER_ACC);
  ("MAV_ODID_SPEED_ACC", MAV_ODID_SPEED_ACC);
  ("MAV_ODID_TIME_ACC", MAV_ODID_TIME_ACC);
  ("MAV_ODID_AUTH_TYPE", MAV_ODID_AUTH_TYPE);
  ("MAV_ODID_DESC_TYPE", MAV_ODID_DESC_TYPE);
  ("MAV_ODID_OPERATOR_LOCATION_TYPE", MAV_ODID_OPERATOR_LOCATION_TYPE);
  ("MAV_ODID_CLASSIFICATION_TYPE", MAV_ODID_CLASSIFICATION_TYPE);
  ("MAV_ODID_CATEGORY_EU", MAV_ODID_CATEGORY_EU);
  ("MAV_ODID_CLASS_EU", MAV_ODID_CLASS_EU);
  ("MAV_ODID_OPERATOR_ID_TYPE", MAV_ODID_OPERATOR_ID_TYPE);
  ("MAV_ODID_ARM_STATUS", MAV_ODID_ARM_STATUS);
  ("TUNE_FORMAT", TUNE_FORMAT);
  ("AIS_TYPE", AIS_TYPE);
  ("AIS_NAV_STATUS", AIS_NAV_STATUS);
  ("AIS_FLAGS", AIS_FLAGS);
  ("FAILURE_UNIT", FAILURE_UNIT);
  ("FAILURE_TYPE", FAILURE_TYPE);
  ("NAV_VTOL_LAND_OPTIONS", NAV_VTOL_LAND_OPTIONS);
  ("MAV_WINCH_STATUS_FLAG", MAV_WINCH_STATUS_FLAG);
  ("MAG_CAL_STATUS", MAG_CAL_STATUS);
  ("MAV_EVENT_ERROR_REASON", MAV_EVENT_ERROR_REASON);
  ("MAV_EVENT_CURRENT_SEQUENCE_FLAGS", MAV_EVENT_CURRENT_SEQUENCE_FLAGS);
  ("HIL_SENSOR_UPDATED_FLAGS", HIL_SENSOR_UPDATED_FLAGS);
  ("HIGHRES_IMU_UPDATED_FLAGS", HIGHRES_IMU_UPDATED_FLAGS);
  ("CAN_FILTER_OP", CAN_FILTER_OP);
  ("MAV_FTP_ERR", MAV_FTP_ERR);
  ("MAV_FTP_OPCODE", MAV_FTP_OPCODE);
  ("MISSION_STATE", MISSION_STATE);
  ("MAV_AUTOPILOT", MAV_AUTOPILOT);
  ("MAV_TYPE", MAV_TYPE);
  ("MAV_MODE_FLAG", MAV_MODE_FLAG);
  ("MAV_MODE_FLAG_DECODE_POSITION", MAV_MODE_FLAG_DECODE_POSITION);
  ("MAV_STATE", MAV_STATE);
  ("MAV_COMPONENT", MAV_COMPONENT)].

End MavEnums2.
