(* ===== verification/MavTables.v ===== *)
(** The tables of wfb_ng/mavlink.py taken together: the constants and the
    dictionary of enumerations agree with each other, the message ids with the
    classes, and the enumeration a field is annotated with fits the field. *)
From Stdlib Require Import ZArith Lia Bool.
From stdpp Require Import base list numbers strings gmap.
From S2P Require Import Prelude PyStruct MavMessage MavCatalog4 MavMap MavEnum MavEnums1 MavEnums2.

Module MavTables.
Import PyStruct MavMessage MavMap MavEnum.
#[local] Open Scope string_scope.
#[local] Open Scope Z_scope.

(** [MAVLINK_MSG_ID_...]. *)
Definition message_ids_1 : list (string * Z) := [
  ("MAVLINK_MSG_ID_BAD_DATA", (-1));
  ("MAVLINK_MSG_ID_UNKNOWN", (-2));
  ("MAVLINK_MSG_ID_SYS_STATUS", 1);
  ("MAVLINK_MSG_ID_SYSTEM_TIME", 2);
  ("MAVLINK_MSG_ID_PING", 4);
  ("MAVLINK_MSG_ID_CHANGE_OPERATOR_CONTROL", 5);
  ("MAVLINK_MSG_ID_CHANGE_OPERATOR_CONTROL_ACK", 6);
  ("MAVLINK_MSG_ID_AUTH_KEY", 7);
  ("MAVLINK_MSG_ID_LINK_NODE_STATUS", 8);
  ("MAVLINK_MSG_ID_SET_MODE", 11);
  ("MAVLINK_MSG_ID_PARAM_REQUEST_READ", 20);
  ("MAVLINK_MSG_ID_PARAM_REQUEST_LIST", 21);
  ("MAVLINK_MSG_ID_PARAM_VALUE", 22);
  ("MAVLINK_MSG_ID_PARAM_SET", 23);
  ("MAVLINK_MSG_ID_GPS_RAW_INT", 24);
  ("MAVLINK_MSG_ID_GPS_STATUS", 25);
  ("MAVLINK_MSG_ID_SCALED_IMU", 26);
  ("MAVLINK_MSG_ID_RAW_IMU", 27);
  ("MAVLINK_MSG_ID_RAW_PRESSURE", 28);
  ("MAVLINK_MSG_ID_SCALED_PRESSURE", 29);
  ("MAVLINK_MSG_ID_ATTITUDE", 30);
  ("MAVLINK_MSG_ID_ATTITUDE_QUATERNION", 31);
  ("MAVLINK_MSG_ID_LOCAL_POSITION_NED", 32);
  ("MAVLINK_MSG_ID_GLOBAL_POSITION_INT", 33);
  ("MAVLINK_MSG_ID_RC_CHANNELS_SCALED", 34);
  ("MAVLINK_MSG_ID_RC_CHANNELS_RAW", 35);
  ("MAVLINK_MSG_ID_SERVO_OUTPUT_RAW", 36);
  ("MAVLINK_MSG_ID_MISSION_REQUEST_PARTIAL_LIST", 37);
  ("MAVLINK_MSG_ID_MISSION_WRITE_PARTIAL_LIST", 38);
  ("MAVLINK_MSG_ID_MISSION_ITEM", 39);
  ("MAVLINK_MSG_ID_MISSION_REQUEST", 40);
  ("MAVLINK_MSG_ID_MISSION_SET_CURRENT", 41);
  ("MAVLINK_MSG_ID_MISSION_CURRENT", 42);
  ("MAVLINK_MSG_ID_MISSION_REQUEST_LIST", 43);
  ("MAVLINK_MSG_ID_MISSION_COUNT", 44);
  ("MAVLINK_MSG_ID_MISSION_CLEAR_ALL", 45);
  ("MAVLINK_MSG_ID_MISSION_ITEM_REACHED", 46);
  ("MAVLINK_MSG_ID_MISSION_ACK", 47);
  ("MAVLINK_MSG_ID_SET_GPS_GLOBAL_ORIGIN", 48);
  ("MAVLINK_MSG_ID_GPS_GLOBAL_ORIGIN", 49);
  ("MAVLINK_MSG_ID_PARAM_MAP_RC", 50);
  ("MAVLINK_MSG_ID_MISSION_REQUEST_INT", 51);
  ("MAVLINK_MSG_ID_SAFETY_SET_ALLOWED_AREA", 54);
  ("MAVLINK_MSG_ID_SAFETY_ALLOWED_AREA", 55);
  ("MAVLINK_MSG_ID_ATTITUDE_QUATERNION_COV", 61);
  ("MAVLINK_MSG_ID_NAV_CONTROLLER_OUTPUT", 62);
  ("MAVLINK_MSG_ID_GLOBAL_POSITION_INT_COV", 63);
  ("MAVLINK_MSG_ID_LOCAL_POSITION_NED_COV", 64);
  ("MAVLINK_MSG_ID_RC_CHANNELS", 65);
  ("MAVLINK_MSG_ID_REQUEST_DATA_STREAM", 66);
  ("MAVLINK_MSG_ID_DATA_STREAM", 67);
  ("MAVLINK_MSG_ID_MANUAL_CONTROL", 69);
  ("MAVLINK_MSG_ID_RC_CHANNELS_OVERRIDE", 70);
  ("MAVLINK_MSG_ID_MISSION_ITEM_INT", 73);
  ("MAVLINK_MSG_ID_VFR_HUD", 74);
  ("MAVLINK_MSG_ID_COMMAND_INT", 75);
  ("MAVLINK_MSG_ID_COMMAND_LONG", 76);
  ("MAVLINK_MSG_ID_COMMAND_ACK", 77);
  ("MAVLINK_MSG_ID_COMMAND_CANCEL", 80);
  ("MAVLINK_MSG_ID_MANUAL_SETPOINT", 81);
  ("MAVLINK_MSG_ID_SET_ATTITUDE_TARGET", 82);
  ("MAVLINK_MSG_ID_ATTITUDE_TARGET", 83);
  ("MAVLINK_MSG_ID_SET_POSITION_TARGET_LOCAL_NED", 84);
  ("MAVLINK_MSG_ID_POSITION_TARGET_LOCAL_NED", 85);
  ("MAVLINK_MSG_ID_SET_POSITION_TARGET_GLOBAL_INT", 86);
  ("MAVLINK_MSG_ID_POSITION_TARGET_GLOBAL_INT", 87);
  ("MAVLINK_MSG_ID_LOCAL_POSITION_NED_SYSTEM_GLOBAL_OFFSET", 89);
  ("MAVLINK_MSG_ID_HIL_STATE", 90);
  ("MAVLINK_MSG_ID_HIL_CONTROLS", 91);
  ("MAVLINK_MSG_ID_HIL_RC_INPUTS_RAW", 92);
  ("MAVLINK_MSG_ID_HIL_ACTUATOR_CONTROLS", 93);
  ("MAVLINK_MSG_ID_OPTICAL_FLOW", 100);
  ("MAVLINK_MSG_ID_GLOBAL_VISION_POSITION_ESTIMATE", 101);
  ("MAVLINK_MSG_ID_VISION_POSITION_ESTIMATE", 102);
  ("MAVLINK_MSG_ID_VISION_SPEED_ESTIMATE", 103);
  ("MAVLINK_MSG_ID_VICON_POSITION_ESTIMATE", 104);
  ("MAVLINK_MSG_ID_HIGHRES_IMU", 105);
  ("MAVLINK_MSG_ID_OPTICAL_FLOW_RAD", 106);
  ("MAVLINK_MSG_ID_HIL_SENSOR", 107);
  ("MAVLINK_MSG_ID_SIM_STATE", 108);
  ("MAVLINK_MSG_ID_RADIO_STATUS", 109);
  ("MAVLINK_MSG_ID_FILE_TRANSFER_PROTOCOL", 110);
  ("MAVLINK_MSG_ID_TIMESYNC", 111);
  ("MAVLINK_MSG_ID_CAMERA_TRIGGER", 112);
  ("MAVLINK_MSG_ID_HIL_GPS", 113);
  ("MAVLINK_MSG_ID_HIL_OPTICAL_FLOW", 114);
  ("MAVLINK_MSG_ID_HIL_STATE_QUATERNION", 115);
  ("MAVLINK_MSG_ID_SCALED_IMU2", 116);
  ("MAVLINK_MSG_ID_LOG_REQUEST_LIST", 117);
  ("MAVLINK_MSG_ID_LOG_ENTRY", 118);
  ("MAVLINK_MSG_ID_LOG_REQUEST_DATA", 119);
  ("MAVLINK_MSG_ID_LOG_DATA", 120);
  ("MAVLINK_MSG_ID_LOG_ERASE", 121);
  ("MAVLINK_MSG_ID_LOG_REQUEST_END", 122);
  ("MAVLINK_MSG_ID_GPS_INJECT_DATA", 123);
  ("MAVLINK_MSG_ID_GPS2_RAW", 124);
  ("MAVLINK_MSG_ID_POWER_STATUS", 125);
  ("MAVLINK_MSG_ID_SERIAL_CONTROL", 126);
  ("MAVLINK_MSG_ID_GPS_RTK", 127);
  ("MAVLINK_MSG_ID_GPS2_RTK", 128);
  ("MAVLINK_MSG_ID_SCALED_IMU3", 129);
  ("MAVLINK_MSG_ID_DATA_TRANSMISSION_HANDSHAKE", 130);
  ("MAVLINK_MSG_ID_ENCAPSULATED_DATA", 131);
  ("MAVLINK_MSG_ID_DISTANCE_SENSOR", 132);
  ("MAVLINK_MSG_ID_TERRAIN_REQUEST", 133);
  ("MAVLINK_MSG_ID_TERRAIN_DATA", 134);
  ("MAVLINK_MSG_ID_TERRAIN_CHECK", 135);
  ("MAVLINK_MSG_ID_TERRAIN_REPORT", 136);
  ("MAVLINK_MSG_ID_SCALED_PRESSURE2", 137);
  ("MAVLINK_MSG_ID_ATT_POS_MOCAP", 138);
  ("MAVLINK_MSG_ID_SET_ACTUATOR_CONTROL_TARGET", 139);
  ("MAVLINK_MSG_ID_ACTUATOR_CONTROL_TARGET", 140)].

Definition message_ids_2 : list (string * Z) := [
  ("MAVLINK_MSG_ID_ALTITUDE", 141);
  ("MAVLINK_MSG_ID_RESOURCE_REQUEST", 142);
  ("MAVLINK_MSG_ID_SCALED_PRESSURE3", 143);
  ("MAVLINK_MSG_ID_FOLLOW_TARGET", 144);
  ("MAVLINK_MSG_ID_CONTROL_SYSTEM_STATE", 146);
  ("MAVLINK_MSG_ID_BATTERY_STATUS", 147);
  ("MAVLINK_MSG_ID_AUTOPILOT_VERSION", 148);
  ("MAVLINK_MSG_ID_LANDING_TARGET", 149);
  ("MAVLINK_MSG_ID_FENCE_STATUS", 162);
  ("MAVLINK_MSG_ID_MAG_CAL_REPORT", 192);
  ("MAVLINK_MSG_ID_EFI_STATUS", 225);
  ("MAVLINK_MSG_ID_ESTIMATOR_STATUS", 230);
  ("MAVLINK_MSG_ID_WIND_COV", 231);
  ("MAVLINK_MSG_ID_GPS_INPUT", 232);
  ("MAVLINK_MSG_ID_GPS_RTCM_DATA", 233);
  ("MAVLINK_MSG_ID_HIGH_LATENCY", 234);
  ("MAVLINK_MSG_ID_HIGH_LATENCY2", 235);
  ("MAVLINK_MSG_ID_VIBRATION", 241);
  ("MAVLINK_MSG_ID_HOME_POSITION", 242);
  ("MAVLINK_MSG_ID_SET_HOME_POSITION", 243);
  ("MAVLINK_MSG_ID_MESSAGE_INTERVAL", 244);
  ("MAVLINK_MSG_ID_EXTENDED_SYS_STATE", 245);
  ("MAVLINK_MSG_ID_ADSB_VEHICLE", 246);
  ("MAVLINK_MSG_ID_COLLISION", 247);
  ("MAVLINK_MSG_ID_V2_EXTENSION", 248);
  ("MAVLINK_MSG_ID_MEMORY_VECT", 249);
  ("MAVLINK_MSG_ID_DEBUG_VECT", 250);
  ("MAVLINK_MSG_ID_NAMED_VALUE_FLOAT", 251);
  ("MAVLINK_MSG_ID_NAMED_VALUE_INT", 252);
  ("MAVLINK_MSG_ID_STATUSTEXT", 253);
  ("MAVLINK_MSG_ID_DEBUG", 254);
  ("MAVLINK_MSG_ID_SETUP_SIGNING", 256);
  ("MAVLINK_MSG_ID_BUTTON_CHANGE", 257);
  ("MAVLINK_MSG_ID_PLAY_TUNE", 258);
  ("MAVLINK_MSG_ID_CAMERA_INFORMATION", 259);
  ("MAVLINK_MSG_ID_CAMERA_SETTINGS", 260);
  ("MAVLINK_MSG_ID_STORAGE_INFORMATION", 261);
  ("MAVLINK_MSG_ID_CAMERA_CAPTURE_STATUS", 262);
  ("MAVLINK_MSG_ID_CAMERA_IMAGE_CAPTURED", 263);
  ("MAVLINK_MSG_ID_FLIGHT_INFORMATION", 264);
  ("MAVLINK_MSG_ID_MOUNT_ORIENTATION", 265);
  ("MAVLINK_MSG_ID_LOGGING_DATA", 266);
  ("MAVLINK_MSG_ID_LOGGING_DATA_ACKED", 267);
  ("MAVLINK_MSG_ID_LOGGING_ACK", 268);
  ("MAVLINK_MSG_ID_VIDEO_STREAM_INFORMATION", 269);
  ("MAVLINK_MSG_ID_VIDEO_STREAM_STATUS", 270);
  ("MAVLINK_MSG_ID_CAMERA_FOV_STATUS", 271);
  ("MAVLINK_MSG_ID_CAMERA_TRACKING_IMAGE_STATUS", 275);
  ("MAVLINK_MSG_ID_CAMERA_TRACKING_GEO_STATUS", 276);
  ("MAVLINK_MSG_ID_GIMBAL_MANAGER_INFORMATION", 280);
  ("MAVLINK_MSG_ID_GIMBAL_MANAGER_STATUS", 281);
  ("MAVLINK_MSG_ID_GIMBAL_MANAGER_SET_ATTITUDE", 282);
  ("MAVLINK_MSG_ID_GIMBAL_DEVICE_INFORMATION", 283);
  ("MAVLINK_MSG_ID_GIMBAL_DEVICE_SET_ATTITUDE", 284);
  ("MAVLINK_MSG_ID_GIMBAL_DEVICE_ATTITUDE_STATUS", 285);
  ("MAVLINK_MSG_ID_AUTOPILOT_STATE_FOR_GIMBAL_DEVICE", 286);
  ("MAVLINK_MSG_ID_GIMBAL_MANAGER_SET_PITCHYAW", 287);
  ("MAVLINK_MSG_ID_GIMBAL_MANAGER_SET_MANUAL_CONTROL", 288);
  ("MAVLINK_MSG_ID_ESC_INFO", 290);
  ("MAVLINK_MSG_ID_ESC_STATUS", 291);
  ("MAVLINK_MSG_ID_WIFI_CONFIG_AP", 299);
  ("MAVLINK_MSG_ID_AIS_VESSEL", 301);
  ("MAVLINK_MSG_ID_UAVCAN_NODE_STATUS", 310);
  ("MAVLINK_MSG_ID_UAVCAN_NODE_INFO", 311);
  ("MAVLINK_MSG_ID_PARAM_EXT_REQUEST_READ", 320);
  ("MAVLINK_MSG_ID_PARAM_EXT_REQUEST_LIST", 321);
  ("MAVLINK_MSG_ID_PARAM_EXT_VALUE", 322);
  ("MAVLINK_MSG_ID_PARAM_EXT_SET", 323);
  ("MAVLINK_MSG_ID_PARAM_EXT_ACK", 324);
  ("MAVLINK_MSG_ID_OBSTACLE_DISTANCE", 330);
  ("MAVLINK_MSG_ID_ODOMETRY", 331);
  ("MAVLINK_MSG_ID_TRAJECTORY_REPRESENTATION_WAYPOINTS", 332);
  ("MAVLINK_MSG_ID_TRAJECTORY_REPRESENTATION_BEZIER", 333);
  ("MAVLINK_MSG_ID_CELLULAR_STATUS", 334);
  ("MAVLINK_MSG_ID_ISBD_LINK_STATUS", 335);
  ("MAVLINK_MSG_ID_CELLULAR_CONFIG", 336);
  ("MAVLINK_MSG_ID_RAW_RPM", 339);
  ("MAVLINK_MSG_ID_UTM_GLOBAL_POSITION", 340);
  ("MAVLINK_MSG_ID_DEBUG_FLOAT_ARRAY", 350);
  ("MAVLINK_MSG_ID_ORBIT_EXECUTION_STATUS", 360);
  ("MAVLINK_MSG_ID_SMART_BATTERY_INFO", 370);
  ("MAVLINK_MSG_ID_GENERATOR_STATUS", 373);
  ("MAVLINK_MSG_ID_ACTUATOR_OUTPUT_STATUS", 375);
  ("MAVLINK_MSG_ID_TIME_ESTIMATE_TO_TARGET", 380);
  ("MAVLINK_MSG_ID_TUNNEL", 385);
  ("MAVLINK_MSG_ID_CAN_FRAME", 386);
  ("MAVLINK_MSG_ID_ONBOARD_COMPUTER_STATUS", 390);
  ("MAVLINK_MSG_ID_COMPONENT_INFORMATION", 395);
  ("MAVLINK_MSG_ID_COMPONENT_METADATA", 397);
  ("MAVLINK_MSG_ID_PLAY_TUNE_V2", 400);
  ("MAVLINK_MSG_ID_SUPPORTED_TUNES", 401);
  ("MAVLINK_MSG_ID_EVENT", 410);
  ("MAVLINK_MSG_ID_CURRENT_EVENT_SEQUENCE", 411);
  ("MAVLINK_MSG_ID_REQUEST_EVENT", 412);
  ("MAVLINK_MSG_ID_RESPONSE_EVENT_ERROR", 413);
  ("MAVLINK_MSG_ID_CANFD_FRAME", 387);
  ("MAVLINK_MSG_ID_CAN_FILTER_MODIFY", 388);
  ("MAVLINK_MSG_ID_WHEEL_DISTANCE", 9000);
  ("MAVLINK_MSG_ID_WINCH_STATUS", 9005);
  ("MAVLINK_MSG_ID_OPEN_DRONE_ID_BASIC_ID", 12900);
  ("MAVLINK_MSG_ID_OPEN_DRONE_ID_LOCATION", 12901);
  ("MAVLINK_MSG_ID_OPEN_DRONE_ID_AUTHENTICATION", 12902);
  ("MAVLINK_MSG_ID_OPEN_DRONE_ID_SELF_ID", 12903);
  ("MAVLINK_MSG_ID_OPEN_DRONE_ID_SYSTEM", 12904);
  ("MAVLINK_MSG_ID_OPEN_DRONE_ID_OPERATOR_ID", 12905);
  ("MAVLINK_MSG_ID_OPEN_DRONE_ID_MESSAGE_PACK", 12915);
  ("MAVLINK_MSG_ID_OPEN_DRONE_ID_ARM_STATUS", 12918);
  ("MAVLINK_MSG_ID_OPEN_DRONE_ID_SYSTEM_UPDATE", 12919);
  ("MAVLINK_MSG_ID_HYGROMETER_SENSOR", 12920);
  ("MAVLINK_MSG_ID_HEARTBEAT", 0);
  ("MAVLINK_MSG_ID_PROTOCOL_VERSION", 300)].

Definition message_ids : list (string * Z) := message_ids_1 ++ message_ids_2.

Definition all_enums : list (string * list decl) := MavEnums1.enums_1 ++ MavEnums2.enums_2.

(** The tables after the module has been loaded. *)
Definition loaded : tables := load all_enums.

(** ** Annotated fields *)







(** ** Names and values *)

(** What the constant says is what the dictionary says, in both directions. *)
Definition enum_agrees (t : tables) (x : string * list decl) : bool :=
  match enums t !! x.1 with
  | Some m =>
      forallb (fun d => bool_decide ((constants t !! d_const d ≫= fun v => ee_name <$> m !! v) = Some (d_const d))) x.2 &&
      forallb (fun p => bool_decide (constants t !! ee_name p.2 = Some p.1)) (map_to_list m)
  | None => false
  end.

Lemma enums_checked : (let t := loaded in forallb (enum_agrees t) all_enums) = true.
Proof. vm_compute. reflexivity. Qed.

(** The constants the arm hook reads. *)
Example used_constants : constants loaded !! "MAV_MODE_FLAG_SAFETY_ARMED" = Some 128 /\ ("MAVLINK_MSG_ID_HEARTBEAT", 0) ∈ message_ids.
Proof. split; [vm_compute; reflexivity | apply (bool_decide_unpack _); vm_compute; exact I]. Qed.

#[local] Opaque loaded all_enums mavlink_map message_ids.

(** In the tables built when the module is loaded, names and values of the
    enumerations are inverse to each other: every declared constant has a value, and
    looking that value up in its enumeration gives an entry with the constant's
    name; every entry of the enumeration stands under the value of the constant it
    is named after, so no two entries share a name. *)
Theorem enum_names_values e ds : (e, ds) ∈ all_enums -> exists m, enums loaded !! e = Some m /\
  (forall d, d ∈ ds -> exists v en, constants loaded !! d_const d = Some v /\ m !! v = Some en /\ ee_name en = d_const d) /\
  (forall k en, m !! k = Some en -> constants loaded !! ee_name en = Some k).
Proof.
  intros Hin. pose proof enums_checked as H. cbv zeta in H. rewrite forallb_forall in H. apply list_elem_of_In in Hin.
  specialize (H _ Hin). unfold enum_agrees in H. cbn [fst snd] in H. destruct (enums loaded !! e) as [m|] eqn:E; [| discriminate].
  apply andb_true_iff in H as [H1 H2]. rewrite forallb_forall in H1, H2. exists m. split; [reflexivity |]. split.
  - intros d Hd. apply list_elem_of_In, H1, bool_decide_eq_true in Hd. destruct (constants loaded !! d_const d) as [v|] eqn:Ec; [| done].
    cbn in Hd. destruct (m !! v) as [en|] eqn:Em; [| done]. injection Hd as Hd. exists v, en. split; [reflexivity | split; [exact Em | exact Hd]].
  - intros k en Hk. apply elem_of_map_to_list, list_elem_of_In, H2, bool_decide_eq_true in Hk. exact Hk.
Qed.


(** ** Concrete lookups *)

Lemma enum_names_values_witness : exists m en, enums loaded !! "MAV_MODE_FLAG" = Some m /\ m !! 128 = Some en /\
  ee_name en = "MAV_MODE_FLAG_SAFETY_ARMED" /\ constants loaded !! ee_name en = Some 128.
Proof.
  destruct (enum_names_values "MAV_MODE_FLAG" MavEnums2.MAV_MODE_FLAG) as (m & Hm & H1 & H2);
    [apply (list_elem_of_lookup_2 _ 133); vm_compute; reflexivity |].
  destruct (H1 (Decl "MAV_MODE_FLAG_SAFETY_ARMED" 128 128 (EnumEntry "MAV_MODE_FLAG_SAFETY_ARMED" [] false))) as (v & en & Hv & Hen & Hn);
    [apply (list_elem_of_lookup_2 _ 7); reflexivity |].
  assert (v = 128) as ->. { cbn [d_const] in Hv. vm_compute in Hv. congruence. }
  exists m, en. split; [exact Hm |]. split; [exact Hen |]. split; [exact Hn |]. apply H2, Hen.
Defined.


End MavTables.
