(* ===== verification/MavCodec.v ===== *)
(** The payload codec of a message class: for a consistent class, what the
    constructor stores, [pack] writes and the field loop of [decode] reads back
    are the same field values, up to trailing NULs of character arrays. *)
From Stdlib Require Import ZArith Lia Bool.
From stdpp Require Import base list numbers strings gmap.
From S2P Require Import Prelude.
From S2P Require Import PyFloat.
From S2P Require Import PyStruct.
From S2P Require Import MavMessage.

Module MavCodec.
Import PyStruct MavMessage.

(** ** Lists of lists *)

(** A field of a flattened list of fields. *)
Lemma lookup_concat {A} (ls : list (list A)) o l k :
  ls !! o = Some l -> (k < length l)%nat ->
  concat ls !! (sum_list (length <$> take o ls) + k)%nat = l !! k.
Proof.
  revert o. induction ls as [|l0 ls IH]; intros [|o] Ho Hk; cbn in *; simplify_eq.
  - by rewrite lookup_app_l.
  - rewrite <- Nat.add_assoc, lookup_app_r by lia.
    replace (_ - _)%nat with (sum_list (length <$> take o ls) + k)%nat by lia. by apply IH.
Qed.

Lemma slice_concat {A} (ls : list (list A)) o l :
  ls !! o = Some l ->
  take (length l) (drop (sum_list (length <$> take o ls)) (concat ls)) = l.
Proof.
  revert o. induction ls as [|l0 ls IH]; intros [|o] Ho; cbn in *; simplify_eq.
  - by rewrite drop_0, take_app_length.
  - rewrite <- drop_drop, drop_app_length. by apply IH.
Qed.

Lemma zip_with_concat {A B C} (f : A -> B -> C) (xs : list (list A)) (ys : list (list B)) :
  Forall2 (fun x y => length x = length y) xs ys ->
  zip_with f (concat xs) (concat ys) = concat (zip_with (zip_with f) xs ys).
Proof.
  induction 1 as [|x y xs ys Hl _ IH]; cbn; [done |].
  by rewrite zip_with_app, IH.
Qed.

Lemma result_map_lookup {A B} e (g : A -> result B) (l : list A) :
  result_map (fun i => of_option e (l !! i) ≫= g) (seq 0 (length l)) = result_map g l.
Proof.
  assert (H : forall k, result_map (fun i => of_option e (l !! i) ≫= g) (seq k (length l - k))
                        = result_map g (drop k l)).
  { intros k. remember (length l - k)%nat as n eqn:Hn. revert k Hn.
    induction n as [|n IH]; intros k Hn.
    - rewrite drop_ge by lia. done.
    - destruct (lookup_lt_is_Some_2 l k ltac:(lia)) as [x Hx].
      rewrite (drop_S l x k Hx). cbn. rewrite Hx. cbn. destruct (g x); cbn; [| done].
      rewrite IH by lia. done. }
  specialize (H 0%nat). by rewrite Nat.sub_0_r, drop_0 in H.
Qed.

Lemma result_map_seq {A} e (l : list A) :
  result_map (fun i => of_option e (l !! i)) (seq 0 (length l)) = Ok l.
Proof.
  apply result_map_ok, Forall2_same_length_lookup_2; [by rewrite length_seq |].
  intros i x y [-> _]%lookup_seq Hy. cbn. by rewrite Hy.
Qed.

(** ** The constructor *)

Lemma list_ascii_append (s t : string) :
  String.list_ascii_of_string (String.append s t) =
  String.list_ascii_of_string s ++ String.list_ascii_of_string t.
Proof.
  induction s as [|a s IH]; [done |].
  change (String.append (String a s) t) with (String a (String.append s t)). cbn. by rewrite IH.
Qed.

(** Names of the attributes do not clash. *)
Lemma raw_inj f g : raw f = raw g -> f = g.
Proof.
  unfold raw. intros H. apply (f_equal String.list_ascii_of_string) in H.
  rewrite !list_ascii_append in H. apply (inj (app _)), (inj (.++ _)) in H.
  apply (f_equal String.string_of_list_ascii) in H.
  by rewrite !String.string_of_list_ascii_of_string in H.
Qed.

(** What the constructor leaves for the field [f] with argument [a]. *)
Definition attr_spec (str : string -> bool) (m : gmap string attr) (f : string) (a : fval) : Prop :=
  if str f then
    exists b, a = FScalar (PBytes b) /\ m !! raw f = Some (AVal a) /\
              m !! f = Some (AStr (ascii_replace (until_nul b)))
  else m !! f = Some (AVal a).

Definition init_of (str : string -> bool) (f : string) : list init_stmt :=
  if str f then [SetRaw f; SetStr f] else [SetArg f].

Lemma run_init_app env m l1 l2 :
  run_init env m (l1 ++ l2) = run_init env m l1 ≫= fun m' => run_init env m' l2.
Proof.
  revert m. induction l1 as [|st l1 IH]; intros m; cbn; [done |].
  destruct (run_init_stmt env m st); cbn; [apply IH | done].
Qed.

Lemma run_init_one env str m f a :
  env f = Some a -> (str f = true -> exists b, a = FScalar (PBytes b)) -> raw f <> f ->
  exists m', run_init env m (init_of str f) = Ok m' /\ attr_spec str m' f a /\
    (forall k, k <> f -> k <> raw f -> m' !! k = m !! k).
Proof.
  intros He Hb Hr. unfold init_of, attr_spec. destruct (str f).
  - destruct (Hb eq_refl) as [b ->]. cbn. rewrite He. cbn. eexists. split; [done |].
    split; [exists b; split_and!; by simplify_map_eq |]. intros k H1 H2. by simplify_map_eq.
  - cbn. rewrite He. cbn. eexists. split; [done |]. split; [by simplify_map_eq |].
    intros k H1 H2. by simplify_map_eq.
Qed.

Lemma run_init_spec env str fs m (g : string -> fval) :
  NoDup fs -> (forall f h, f ∈ fs -> h ∈ fs -> raw f <> h) ->
  (forall f, f ∈ fs -> env f = Some (g f) /\ (str f = true -> exists b, g f = FScalar (PBytes b))) ->
  exists m', run_init env m (concat (map (init_of str) fs)) = Ok m' /\
    (forall f, f ∈ fs -> attr_spec str m' f (g f)) /\
    (forall k, k ∉ fs -> (forall f, f ∈ fs -> k <> raw f) -> m' !! k = m !! k).
Proof.
  revert m. induction fs as [|f fs IH]; intros m Hnd Hraw Henv.
  { exists m. cbn. split; [done |]. split; [by intros ? ?%elem_of_nil | done]. }
  apply NoDup_cons in Hnd as [Hf Hnd].
  destruct (Henv f) as [He Hb]; [by left |].
  destruct (run_init_one env str m f (g f) He Hb) as (m1 & E1 & S1 & K1).
  { apply Hraw; by left. }
  destruct (IH m1) as (m2 & E2 & S2 & K2); [done | | |].
  { intros. apply Hraw; by right. }
  { intros. apply Henv. by right. }
  assert (Hkeep : forall k, k = f \/ k = raw f -> m2 !! k = m1 !! k).
  { intros k [-> | ->]; apply K2.
    - done.
    - intros h Hh E. apply (Hraw h f); [by right | by left | done].
    - intros Hin. apply (Hraw f (raw f)); [by left | by right | done].
    - intros h Hh E%raw_inj. congruence. }
  exists m2. cbn. rewrite run_init_app, E1. cbn. split; [done |]. split.
  - intros h [-> | Hh]%elem_of_cons; [| by apply S2].
    unfold attr_spec in *. rewrite !Hkeep by auto. done.
  - intros k [Hk1 Hk2]%not_elem_of_cons Hk3. rewrite K2; [| done |].
    + apply K1; [done |]. apply Hk3. by left.
    + intros. apply Hk3. by right.
Qed.

(** ** Values on the wire *)

Definition vals (a : fval) : list pyval :=
  match a with FScalar v => [v] | FArray l => l end.

(** The field as the wire gives it back. *)
Definition wire_val (c : code) (a : fval) : fval :=
  match a with
  | FScalar v => FScalar (norm_code c v)
  | FArray l => FArray (map (norm_code c) l)
  end.

Lemma arg_fits_length c L a : arg_fits c L a -> length (vals a) = L.
Proof. destruct a as [[]|]; cbn; intuition congruence. Qed.

Lemma arg_fits_vals c L a :
  arg_fits c L a ->
  Forall2 (fun c v => exists b, pack_code Little c v = Ok b) (replicate L c) (vals a) /\
  Forall val_ok (vals a).
Proof.
  destruct a as [v|l]; cbn.
  - assert (H1 : forall v, L = 1%nat /\ fits c v ->
      Forall2 (fun c v => exists b, pack_code Little c v = Ok b) (replicate L c) [v] /\
      Forall val_ok [v]).
    { intros w [-> Hf]. cbn. split; repeat constructor; eauto using fits_pack, fits_val_ok. }
    destruct v as [z|x|b]; [apply H1.. |].
    intros (-> & n & -> & Hlen & Hb). cbn. split; repeat constructor; eauto.
  - intros (_ & <- & Hl). split.
    + apply Forall2_same_length_lookup_2; [by rewrite length_replicate |].
      intros i c' v [-> _]%lookup_replicate Hv. apply fits_pack.
      eapply Forall_lookup in Hl; eauto.
    + eapply Forall_impl; [exact Hl |]. intros. by eapply fits_val_ok.
Qed.

Lemma rstrip0_pad n b : (length b <= n)%nat -> rstrip0 (pad_to n b) = rstrip0 b.
Proof.
  intros H. unfold pad_to, zeros. rewrite take_app_ge by lia.
  rewrite take_replicate. apply rstrip0_app_zeros.
Qed.

(** Terminating a field hides what the wire did to it. *)
Lemma terminate_wire_val c L a : arg_fits c L a -> terminate (wire_val c a) = terminate a.
Proof.
  destruct a as [[z|x|b]|l]; cbn [arg_fits wire_val].
  - intros [_ H]. by rewrite fits_norm.
  - intros [_ H]. by rewrite fits_norm.
  - intros (_ & n & -> & Hlen & _). cbn. by rewrite rstrip0_pad.
  - intros (_ & _ & H). cbn. f_equal. f_equal. induction H as [|v l Hv _ IH]; cbn; [done |].
    by rewrite IH, fits_norm.
Qed.

Lemma vals_wire_val c L a :
  arg_fits c L a -> zip_with norm_code (replicate L c) (vals a) = vals (wire_val c a).
Proof.
  intros Hf. pose proof (arg_fits_length _ _ _ Hf) as Hl.
  assert (H : forall l, length l = L -> zip_with norm_code (replicate L c) l = map (norm_code c) l).
  { clear. intros l <-. induction l as [|v l IH]; cbn; [done |]. by rewrite IH. }
  destruct a as [v|l]; cbn in *; rewrite H; done.
Qed.

(** ** The codec of a consistent class *)

Section Codec.
Context (mt : msgtype) (Hc : consistent mt).

Let fs := fieldnames mt.

Lemma length_group_codes cs ls : length (group_codes cs ls) = length ls.
Proof. revert cs. induction ls as [|L ls IH]; intros cs; cbn; [done |]. by rewrite IH. Qed.

Lemma wire_lengths : map snd (wire mt) = lengths mt.
Proof using Hc.
  unfold wire, wire_codes. apply snd_zip.
  rewrite length_zip_with, length_group_codes, (co_lengths _ Hc). lia.
Qed.

Lemma wire_names : map (fun w => fst (fst w)) (wire mt) = ordered_fieldnames mt.
Proof using Hc.
  rewrite <- (map_map fst fst). unfold wire, wire_codes.
  rewrite fst_zip, fst_zip; [done |..]; rewrite ?length_zip_with, length_group_codes, (co_lengths _ Hc); lia.
Qed.

Lemma wire_lookup o f : ordered_fieldnames mt !! o = Some f ->
  exists c L, wire mt !! o = Some (f, c, L) /\ lengths mt !! o = Some L.
Proof using Hc.
  intros Ho. rewrite <- wire_names in Ho. apply list_lookup_fmap_Some in Ho as ([[g c] L] & -> & Hw).
  exists c, L. split; [done |]. rewrite <- wire_lengths. apply list_lookup_fmap_Some.
  by exists (g, c, L).
Qed.

Lemma wire_unique f c L c' L' : (f, c, L) ∈ wire mt -> (f, c', L') ∈ wire mt -> c = c' /\ L = L'.
Proof using Hc.
  intros [i Hi]%list_elem_of_lookup [j Hj]%list_elem_of_lookup.
  assert (i = j); [| by simplify_eq].
  apply (NoDup_lookup (ordered_fieldnames mt) i j f); [apply (co_nodup_wire _ Hc) | |];
    rewrite <- wire_names; apply list_lookup_fmap_Some;
    [by exists (f, c, L) | by exists (f, c', L')].
Qed.

Lemma is_str_wire f c L : (f, c, L) ∈ wire mt -> is_str mt f = is_cs c.
Proof using Hc.
  intros Hw. destruct (is_cs c) eqn:E.
  - apply existsb_exists. exists (f, c, L). rewrite <- list_elem_of_In. split; [done |].
    by rewrite String.eqb_refl, E.
  - apply not_true_is_false. intros ([[g c'] L'] & Hin & H)%existsb_exists.
    apply list_elem_of_In in Hin. to_prop. apply String.eqb_eq in H. subst g.
    destruct (wire_unique _ _ _ _ _ Hw Hin) as [-> _]. congruence.
Qed.

(** ** Arguments *)

Section Args.
Context (args : list fval) (Hargs : args_fit mt args).

Let A f := arg_of fs args f.

Lemma arg_of_lookup gs as_ i f a :
  NoDup gs -> gs !! i = Some f -> as_ !! i = Some a -> arg_of gs as_ f = Some a.
Proof.
  intros Hnd. revert as_ i. induction Hnd as [|g gs Hg Hnd IH]; intros [|a0 as_] [|i] Hf Ha;
    cbn in *; simplify_eq.
  - by rewrite decide_True.
  - rewrite decide_False; [by eapply IH |]. intros ->. apply Hg. by eapply list_elem_of_lookup_2.
Qed.

Lemma args_wire f c L : (f, c, L) ∈ wire mt -> exists a, A f = Some a /\ arg_fits c L a.
Proof using Hargs.
  intros Hw. destruct Hargs as [_ H]. rewrite Forall_forall in H. exact (H _ Hw).
Qed.

Definition the_arg (f : string) : fval := default (FScalar (PInt 0)) (A f).

Lemma fieldname_wire f : f ∈ fs -> exists c L, (f, c, L) ∈ wire mt.
Proof using Hc.
  intros [i Hi]%list_elem_of_lookup.
  assert (H : map Some fs !! i = Some (Some f)) by (apply list_lookup_fmap_Some; eauto).
  unfold fs in H. rewrite (co_orders _ Hc) in H.
  apply list_lookup_fmap_Some in H as (o & Ho & _). symmetry in Ho.
  destruct (wire_lookup _ _ Ho) as (c & L & Hw & _). exists c, L. by eapply list_elem_of_lookup_2.
Qed.

Lemma init_message_spec :
  exists m, init_message mt args = Ok m /\
    forall f, f ∈ fs -> attr_spec (is_str mt) m f (the_arg f).
Proof using Hc Hargs.
  destruct Hargs as [Hlen _]. unfold init_message.
  rewrite decide_True by (rewrite Hlen; lia). rewrite Hlen.
  replace (_ - (_ - _))%nat with
    (length (fieldnames mt) - (length (fieldnames mt) - length (init_defaults mt)))%nat by lia.
  (* every parameter is given, so no default is used by name *)
  rewrite (co_init _ Hc).
  destruct (run_init_spec (arg_of fs (args ++ drop (length (fieldnames mt) -
      (length (fieldnames mt) - length (init_defaults mt))) (init_defaults mt)))
    (is_str mt) fs ∅ the_arg) as (m & E & S & _).
  - apply (co_nodup _ Hc).
  - intros f h Hf Hh <-. pose proof (co_raw _ Hc) as Hr. rewrite Forall_forall in Hr.
    exact (Hr f Hf Hh).
  - intros f Hf. split.
    + apply list_elem_of_lookup in Hf as [i Hi].
      destruct (lookup_lt_is_Some_2 args i) as [a Ha].
      { rewrite Hlen. by eapply lookup_lt_Some. }
      unfold the_arg, A. rewrite (arg_of_lookup fs args i f a (co_nodup _ Hc) Hi Ha).
      eapply arg_of_lookup; [apply (co_nodup _ Hc) | done |]. by apply lookup_app_l_Some.
    + intros Hs. destruct (fieldname_wire f Hf) as (c & L & Hw).
      rewrite (is_str_wire _ _ _ Hw) in Hs. destruct (args_wire _ _ _ Hw) as (a & Ha & Hfit).
      unfold the_arg. rewrite Ha. cbn.
      pose proof (co_pos _ Hc) as Hp. rewrite Forall_forall in Hp. specialize (Hp _ Hw).
      cbn in Hp. rewrite Hs in Hp. destruct c; try done.
      destruct a as [[]|]; cbn in Hfit; [by destruct Hfit.. | eauto |].
      destruct Hfit as (HL & _). to_prop. destruct H1 as [H1|H1]; [done |].
      to_prop. apply bool_decide_eq_true in H1. done.
  - exists m. split; [exact E | exact S].
Qed.

Lemma pack_arg_spec m f c L :
  (forall g, g ∈ fs -> attr_spec (is_str mt) m g (the_arg g)) ->
  (f, c, L) ∈ wire mt ->
  pack_arg_values m (expected_arg (f, c, L)) = Ok (vals (the_arg f)).
Proof using Hc Hargs.
  intros Hm Hw. destruct (args_wire _ _ _ Hw) as (a & Ha & Hfit).
  assert (Hf : f ∈ fs).
  { pose proof (co_incl _ Hc) as Hi. rewrite Forall_forall in Hi. apply Hi.
    rewrite <- wire_names. apply list_elem_of_fmap. by exists (f, c, L). }
  specialize (Hm f Hf). unfold attr_spec in Hm. rewrite (is_str_wire _ _ _ Hw) in Hm.
  unfold the_arg in *. rewrite Ha in *. cbn [from_option] in *; unfold id in *. unfold expected_arg.
  destruct (is_cs c) eqn:Es.
  - destruct Hm as (b & -> & Hr & _). cbn in Hfit. destruct Hfit as (-> & _).
    rewrite decide_True by done. cbn. by rewrite Hr.
  - destruct a as [v|l].
    + assert (L = 1%nat) as -> by (pose proof (arg_fits_length _ _ _ Hfit); done).
      rewrite decide_True by done. cbn. by rewrite Hm.
    + destruct Hfit as (HL & <- & _). rewrite decide_False by done. cbn. rewrite Hm.
      apply result_map_seq.
Qed.

(** The fields of the unpacked tuple. *)
Definition wire_vals : list (list pyval) :=
  map (fun '(f, c, _) => vals (wire_val c (the_arg f))) (wire mt).

Lemma wire_vals_lengths : length <$> wire_vals = lengths mt.
Proof using Hc Hargs.
  rewrite <- wire_lengths. unfold wire_vals.
  rewrite <- list_fmap_compose. apply list_fmap_ext. intros i [[f c] L] Hi. cbn.
  apply list_elem_of_lookup_2 in Hi. destruct (args_wire _ _ _ Hi) as (a & Ha & Hfit).
  unfold the_arg. rewrite Ha. cbn. apply arg_fits_length in Hfit as <-.
  destruct a; cbn; [done |]. apply length_map.
Qed.

Lemma code_positive : Forall (fun c => (0 < code_size c)%nat) (codes_of mt).
Proof using Hc.
  rewrite (co_codes _ Hc). apply Forall_concat, Forall_fmap.
  eapply Forall_impl; [apply (co_pos _ Hc) |]. intros [[f c] L] Hp. cbn in *. to_prop.
  apply bool_decide_eq_true in H. apply Forall_replicate. done.
Qed.

Lemma pack_payload_spec m :
  (forall g, g ∈ fs -> attr_spec (is_str mt) m g (the_arg g)) ->
  exists payload, pack_payload mt m = Ok payload /\ length payload = unpacker_size mt /\
    bytes_ok payload /\ unpack Little (codes_of mt) payload = Ok (concat wire_vals).
Proof using Hc Hargs.
  intros Hm. unfold pack_payload. rewrite (co_pack _ Hc).
  assert (Hv : result_map (pack_arg_values m) (map expected_arg (wire mt)) =
               Ok (map (fun w => vals (the_arg (fst (fst w)))) (wire mt))).
  { apply result_map_ok, Forall2_fmap_2, Forall_Forall2_diag, Forall_forall.
    intros [[f c] L] Hw. by apply pack_arg_spec. }
  rewrite Hv. cbn [mbind result_bind].
  assert (Hw : Forall (fun '(f, c, L) => arg_fits c L (the_arg f)) (wire mt)).
  { apply Forall_forall. intros [[f c] L] Hw. destruct (args_wire _ _ _ Hw) as (a & Ha & Hfit).
    unfold the_arg. by rewrite Ha. }
  destruct (pack_total Little (codes_of mt)
    (concat (map (fun w => vals (the_arg (fst (fst w)))) (wire mt)))) as [payload Hp].
  { rewrite (co_codes _ Hc). clear - Hw. induction Hw as [|[[f c] L] ws Hfit _ IH]; cbn; [constructor |].
    apply Forall2_app; [by apply arg_fits_vals | exact IH]. }
  assert (Hok : Forall val_ok (concat (map (fun w => vals (the_arg (fst (fst w)))) (wire mt)))).
  { clear - Hw. induction Hw as [|[[f c] L] ws Hfit _ IH]; cbn; [constructor |].
    apply Forall_app. split; [by eapply arg_fits_vals | exact IH]. }
  exists payload. split; [done |]. split; [by eapply pack_length |]. split; [by eapply pack_ok |].
  erewrite unpack_pack by eauto using code_positive. f_equal.
  rewrite (co_codes _ Hc). unfold wire_vals. clear - Hw.
  induction Hw as [|[[f c] L] ws Hfit _ IH]; cbn; [done |].
  rewrite zip_with_app by (rewrite length_replicate; symmetry; by eapply arg_fits_length).
  rewrite IH. f_equal. by apply vals_wire_val.
Qed.

(** The body of the loop over [order_map] when the message has arrays. *)
Definition field_at (t : list pyval) (o : nat) : result fval :=
  L ← of_option IndexError (lengths mt !! o);
  let tip := sum_list (take o (lengths mt)) in
  field ← of_option IndexError (t !! tip);
  match field with
  | PBytes _ => Ok (FScalar field)
  | _ => if decide (L = 1)%nat then Ok (FScalar field) else Ok (FArray (take L (drop tip t)))
  end.

Lemma field_at_spec o f c L :
  wire mt !! o = Some (f, c, L) -> lengths mt !! o = Some L ->
  field_at (concat wire_vals) o = Ok (wire_val c (the_arg f)).
Proof using Hc Hargs.
  intros Hw HL. unfold field_at. rewrite HL. cbn [of_option mbind result_bind].
  assert (HN : wire_vals !! o = Some (vals (wire_val c (the_arg f)))).
  { apply list_lookup_fmap_Some. by exists (f, c, L). }
  assert (Hlen : length (vals (wire_val c (the_arg f))) = L).
  { pose proof HL as H. rewrite <- wire_vals_lengths in H.
    apply list_lookup_fmap_Some in H as (l & -> & H). congruence. }
  rewrite <- wire_vals_lengths, <- fmap_take.
  apply list_elem_of_lookup_2 in Hw as Hin. pose proof (co_pos _ Hc) as Hp.
  rewrite Forall_forall in Hp. specialize (Hp _ Hin). cbn in Hp. to_prop.
  apply bool_decide_eq_true in H2.
  pose proof (lookup_concat _ _ _ 0%nat HN ltac:(lia)) as Hlk. rewrite Nat.add_0_r in Hlk.
  rewrite Hlk. destruct (args_wire _ _ _ Hin) as (a & Ha & Hfit).
  pose proof (slice_concat _ _ _ HN) as Hsl. rewrite Hlen in Hsl.
  unfold the_arg in *. rewrite Ha in *. cbn [from_option] in *; unfold id in *.
  destruct a as [v|l]; cbn [wire_val vals] in *.
  - cbn in Hlen. subst L. cbn [lookup list_lookup of_option mbind result_bind].
    by destruct (norm_code c v).
  - destruct Hfit as (HL1 & Hll & Hfl). rewrite Hsl.
    destruct l as [|v l]; [cbn in Hll; lia |]. cbn [map lookup list_lookup of_option mbind result_bind].
    inversion Hfl as [|? ? Hv Hl]; subst. rewrite (fits_norm c v Hv).
    destruct v as [z|x|b]; [by rewrite decide_False.. |].
    exfalso. destruct c; cbn in Hv; try done.
    destruct H1 as [H1|H1]; [done |]. to_prop. by apply bool_decide_eq_true in H1.
Qed.

(** [list_sum] of the Standard Library is stdpp's [sum_list]. *)
Lemma list_sum_sum_list (l : list nat) : list_sum l = sum_list l.
Proof. induction l as [|n l IH]; cbn; [done |]. by rewrite <- IH. Qed.

Lemma sum_ones l : Forall (fun n => 0 < n)%nat l -> sum_list l = length l -> Forall (fun n => n = 1%nat) l.
Proof.
  induction 1 as [|n l Hn Hl IH]; cbn; intros Hs; constructor.
  - assert (length l <= sum_list l)%nat; [| lia].
    clear - Hl. induction Hl; cbn; lia.
  - apply IH. assert (length l <= sum_list l)%nat; [| lia].
    clear - Hl. induction Hl; cbn; lia.
Qed.

Lemma length_pos : Forall (fun n => 0 < n)%nat (lengths mt).
Proof using Hc.
  rewrite <- wire_lengths. apply Forall_fmap. eapply Forall_impl; [apply (co_pos _ Hc) |].
  intros [[f c] L] Hp. cbn in *. to_prop. by apply bool_decide_eq_true in H2.
Qed.

Lemma sum_take_ones l o : Forall (fun n => n = 1%nat) l -> (o <= length l)%nat -> sum_list (take o l) = o.
Proof.
  intros H. revert o. induction H as [|n l -> _ IH]; intros [|o] Ho; cbn in *; [lia.. |].
  rewrite IH; lia.
Qed.

(** Both branches of the source compute the same fields. *)
Lemma sorted_fields_alt t :
  length t = sum_list (lengths mt) -> sorted_fields mt t = result_map (field_at t) (orders mt).
Proof using Hc.
  intros Ht. unfold sorted_fields. destruct (decide _) as [Hs|Hs]; [| done].
  pose proof (sum_ones _ length_pos Hs) as Hone.
  rewrite Ht, Hs, <- (co_length_orders _ Hc).
  rewrite (result_map_lookup IndexError (fun o => v ← of_option IndexError (t !! o); Ok (FScalar v))).
  assert (Ho : Forall (fun o => (o < length (lengths mt))%nat) (orders mt)).
  { apply Forall_forall. intros o [i Hi]%list_elem_of_lookup.
    assert (Hl : map (fun o => ordered_fieldnames mt !! o) (orders mt) !! i
                 = Some (ordered_fieldnames mt !! o)) by (apply list_lookup_fmap_Some; eauto).
    rewrite <- (co_orders _ Hc) in Hl. apply list_lookup_fmap_Some in Hl as (f & Hl & _).
    rewrite <- (co_lengths _ Hc). by eapply lookup_lt_Some. }
  induction Ho as [|o os Ho _ IH]; [done |]. cbn [result_map]. rewrite IH. f_equal.
  unfold field_at. destruct (lookup_lt_is_Some_2 (lengths mt) o Ho) as [L HL]. rewrite HL. cbn.
  rewrite (sum_take_ones _ _ Hone) by lia.
  rewrite Forall_forall in Hone. rewrite (Hone L) by (by eapply list_elem_of_lookup_2).
  destruct (t !! o) as [v|]; cbn; [| done]. by destruct v.
Qed.

(** The decoded fields are the constructor's arguments, terminated. *)
Lemma decoded_fields :
  exists res, sorted_fields mt (concat wire_vals) = Ok res /\ map terminate res = map terminate args.
Proof using Hc Hargs.
  rewrite sorted_fields_alt
    by (rewrite <- wire_vals_lengths, length_concat; apply list_sum_sum_list).
  assert (H : exists res, Forall2 (fun o r => field_at (concat wire_vals) o = Ok r) (orders mt) res /\
                     Forall2 (fun f r => terminate r = terminate (the_arg f)) fs res).
  { pose proof (co_orders _ Hc) as Ho. fold fs in Ho. revert Ho. generalize fs as gs.
    induction (orders mt) as [|o os IH]; intros [|f gs] Ho; cbn in Ho; try done.
    - exists []. by split.
    - injection Ho as Hf Hgs. destruct (IH gs Hgs) as (res & H1 & H2).
      symmetry in Hf. destruct (wire_lookup _ _ Hf) as (c & L & Hw & HL).
      exists (wire_val c (the_arg f) :: res). split; constructor; try done.
      + by eapply field_at_spec.
      + apply list_elem_of_lookup_2 in Hw. destruct (args_wire _ _ _ Hw) as (a & Ha & Hfit).
        unfold the_arg. rewrite Ha. cbn. by eapply terminate_wire_val. }
  destruct H as (res & H1 & H2). exists res. split; [by apply result_map_ok |].
  clear H1. destruct Hargs as [Hlen _]. fold fs in Hlen.
  assert (Harg : Forall2 (fun f a => the_arg f = a) fs args).
  { apply Forall2_same_length_lookup_2; [done |]. intros i f a Hf Ha.
    unfold the_arg, A. by rewrite (arg_of_lookup fs args i f a (co_nodup _ Hc) Hf Ha). }
  clear Hlen. revert H2 Harg. generalize args as as_. generalize fs as gs. intros gs as_ H2.
  revert as_. induction H2 as [|f r gs res Hr _ IH]; intros as_ Hg; inversion Hg; subst; [done |].
  cbn. rewrite Hr. f_equal. by apply IH.
Qed.

(** Constructor, [pack] and field decoding compose to termination of the
    arguments, also when trailing zeros of the payload were cut. *)
Lemma payload_roundtrip :
  exists m payload, init_message mt args = Ok m /\
    (forall f, f ∈ fs -> attr_spec (is_str mt) m f (the_arg f)) /\
    pack_payload mt m = Ok payload /\ length payload = unpacker_size mt /\ bytes_ok payload /\
    forall mbuf k, payload = mbuf ++ zeros k ->
      unpack_fields mt mbuf = Ok (map terminate args).
Proof using Hc Hargs.
  destruct init_message_spec as (m & Hm & Hs).
  destruct (pack_payload_spec m Hs) as (payload & Hp & Hlen & Hb & Hu).
  exists m, payload. split_and!; try done. intros mbuf k ->.
  assert (Hpad : pad_to (unpacker_size mt) mbuf = mbuf ++ zeros k).
  { rewrite length_app in Hlen. unfold pad_to, zeros in *. rewrite length_replicate in Hlen.
    rewrite take_app_ge by lia. rewrite take_replicate. do 2 f_equal. lia. }
  unfold unpack_fields. rewrite Hpad.
  rewrite Hu. cbn [mbind result_bind]. destruct decoded_fields as (res & Hr & Ht).
  rewrite Hr. cbn. by rewrite Ht.
Qed.

Lemma the_arg_lookup i f a : fs !! i = Some f -> args !! i = Some a -> the_arg f = a.
Proof using Hc.
  intros Hf Ha. unfold the_arg, A. by rewrite (arg_of_lookup fs args i f a (co_nodup _ Hc) Hf Ha).
Qed.

End Args.

Lemma terminate_fits c L a : arg_fits c L a -> arg_fits c L (terminate a).
Proof.
  destruct a as [[z|x|b]|l]; cbn; try done. intros (-> & n & -> & Hl & Hb).
  split; [done |]. exists n. split; [done |].
  destruct (rstrip0_zeros b) as [k Hk]. rewrite Hk in Hl, Hb. rewrite length_app in Hl.
  split; [lia |]. by apply bytes_ok_app in Hb as [? _].
Qed.

Lemma arg_of_map g gs as_ f : arg_of gs (map g as_) f = g <$> arg_of gs as_ f.
Proof.
  revert as_. induction gs as [|h gs IH]; intros [|a as_]; cbn; try done.
  destruct (decide (f = h)); [done | apply IH].
Qed.

Lemma args_fit_terminate args : args_fit mt args -> args_fit mt (map terminate args).
Proof.
  intros [Hl Hw]. split; [by rewrite length_map |].
  eapply Forall_impl; [exact Hw |]. intros [[f c] L] (a & Ha & Hfit).
  exists (terminate a). rewrite arg_of_map, Ha. split; [done |]. by apply terminate_fits.
Qed.

Lemma the_arg_terminate args f :
  args_fit mt args -> f ∈ fs -> the_arg (map terminate args) f = terminate (the_arg args f).
Proof using Hc.
  intros Hargs Hf. destruct (fieldname_wire f Hf) as (c & L & Hw).
  destruct (args_wire args Hargs _ _ _ Hw) as (a & Ha & _).
  unfold the_arg. by rewrite arg_of_map, Ha.
Qed.

(** A terminated field of a class attribute reads as before. *)
Lemma terminate_id_nonstr args f :
  args_fit mt args -> f ∈ fs -> is_str mt f = false -> terminate (the_arg args f) = the_arg args f.
Proof using Hc.
  intros Hargs Hf Hs. destruct (fieldname_wire f Hf) as (c & L & Hw).
  destruct (args_wire args Hargs _ _ _ Hw) as (a & Ha & Hfit).
  rewrite (is_str_wire _ _ _ Hw) in Hs. unfold the_arg. rewrite Ha. cbn.
  destruct a as [[]|]; try done. by destruct Hfit as (_ & n & -> & _).
Qed.

End Codec.

Lemma until_nul_rstrip b : until_nul (rstrip0 b) = until_nul b.
Proof.
  induction b as [|x b IH]; cbn [rstrip0 until_nul]; [done |].
  destruct (rstrip0 b) as [|r rs] eqn:E.
  - destruct (Z.eqb_spec x 0) as [-> |Hx]; [done |].
    cbn. destruct (Z.eqb_spec x 0); [done |]. by rewrite <- IH.
  - cbn [until_nul]. destruct (x =? 0); [done |]. by rewrite <- IH.
Qed.

(** The attributes of a message built from terminated arguments agree, on the
    fields, with those of the message built from the arguments. *)
Lemma attrs_terminate mt args m m' f :
  consistent mt -> args_fit mt args -> f ∈ fieldnames mt ->
  attr_spec (is_str mt) m f (the_arg mt args f) ->
  attr_spec (is_str mt) m' f (the_arg mt (map terminate args) f) ->
  m' !! f = m !! f.
Proof.
  intros Hc Hargs Hf Hm Hm'. rewrite the_arg_terminate in Hm' by done.
  unfold attr_spec in *. destruct (is_str mt f) eqn:Es.
  - destruct Hm as (b & Hb & _ & ->), Hm' as (b' & Hb' & _ & ->). rewrite Hb in Hb'.
    injection Hb' as <-. by rewrite until_nul_rstrip.
  - rewrite Hm, Hm'. by rewrite terminate_id_nonstr.
Qed.

(** ** Decoding is total *)

Lemma length_unpack_aux e cs l : length (unpack_aux e cs l) = length cs.
Proof. revert l. induction cs as [|c cs IH]; intros l; cbn; [done | by rewrite IH]. Qed.

Lemma length_concat_expand (w : list (string * code * nat)) :
  length (concat (map expand w)) = sum_list (map snd w).
Proof.
  induction w as [|[[f c] L] w IH]; cbn; [done |]. by rewrite length_app, length_replicate, IH.
Qed.

Lemma result_map_total {A B} (f : A -> result B) l :
  Forall (fun x => exists y, f x = Ok y) l -> exists ys, result_map f l = Ok ys.
Proof.
  induction 1 as [|x l [y Hy] _ [ys IH]]; cbn; [eauto |]. rewrite Hy. cbn. rewrite IH. eauto.
Qed.

Lemma sum_list_app (l1 l2 : list nat) : sum_list (l1 ++ l2) = (sum_list l1 + sum_list l2)%nat.
Proof. induction l1 as [|n l1 IH]; cbn; [done | rewrite IH; lia]. Qed.

Lemma sum_take_lt (ls : list nat) o L :
  ls !! o = Some L -> (0 < L)%nat -> (sum_list (take o ls) < sum_list ls)%nat.
Proof.
  intros HL Hp. assert (H : sum_list ls = sum_list (take o ls ++ L :: drop (S o) ls))
    by (by rewrite take_drop_middle).
  rewrite H, sum_list_app. cbn. lia.
Qed.

(** A consistent class decodes any payload. *)
Lemma unpack_fields_total mt mbuf : consistent mt -> exists tl, unpack_fields mt mbuf = Ok tl.
Proof.
  intros Hc. unfold unpack_fields, unpack. rewrite decide_True by apply length_pad_to.
  cbn [mbind result_bind].
  assert (Hlen : forall l, length (unpack_aux Little (codes_of mt) l) = sum_list (lengths mt)).
  { intros l. rewrite length_unpack_aux, (co_codes _ Hc), length_concat_expand.
    by rewrite (wire_lengths mt Hc). }
  rewrite sorted_fields_alt by (done || apply Hlen).
  destruct (result_map_total (field_at mt (unpack_aux Little (codes_of mt) (pad_to (unpacker_size mt) mbuf)))
              (orders mt)) as [tl Htl]; [| rewrite Htl; cbn; eauto].
  set (t := unpack_aux _ _ _). assert (Ht : length t = sum_list (lengths mt)) by apply Hlen.
  clearbody t. apply Forall_lookup. intros i o Ho.
  assert (Hf : exists f, ordered_fieldnames mt !! o = Some f).
  { pose proof (co_orders _ Hc) as Hco. apply (f_equal (fun l => l !! i)) in Hco.
    rewrite !list_lookup_fmap, Ho in Hco. cbn in Hco.
    destruct (fieldnames mt !! i) as [f|]; [| done]. cbn in Hco. exists f. congruence. }
  destruct Hf as [f Hf]. destruct (wire_lookup mt Hc o f Hf) as (c & L & Hw & HL).
  unfold field_at. rewrite HL. cbn [of_option mbind result_bind].
  assert (Htip : (sum_list (take o (lengths mt)) < length t)%nat).
  { pose proof (length_pos mt Hc) as Hpos. rewrite Forall_lookup in Hpos. specialize (Hpos _ _ HL).
    rewrite Ht. by eapply sum_take_lt. }
  destruct (lookup_lt_is_Some_2 t _ Htip) as [fld ->]. cbn.
  destruct fld; eauto; destruct (decide (L = 1%nat)); eauto.
Qed.

End MavCodec.
