(* ===== verification/MavLink.v ===== *)
(** [MAVLink_header], [MAVLink_message], [MAVLinkSigning] and [MAVLink] of
    wfb_ng/mavlink.py: serialisation with checksum and signature, decoding,
    the signature check and the incremental parser.  The application
    callbacks of a [MAVLink] object, which this program never installs, are
    left out; [file.write] is the [out] trace. *)
From Stdlib Require Import ZArith Lia Bool.
From stdpp Require Import base list numbers strings gmap pretty.
From S2P Require Import Prelude.
From S2P Require Import PyStruct.
From S2P Require Import X25.
From S2P Require Import Sha.
From S2P Require Import MavMessage.
From S2P Require Import MavMap.

Module MavLink.
Import PyStruct MavMessage MavMap.

Definition PROTOCOL_MARKER_V1 : Z := 0xFE.
Definition PROTOCOL_MARKER_V2 : Z := 0xFD.
Definition HEADER_LEN_V1 : Z := 6.
Definition HEADER_LEN_V2 : Z := 10.
Definition MAVLINK_SIGNATURE_BLOCK_LEN : Z := 13.
Definition MAVLINK_IFLAG_SIGNED : Z := 0x01.
Definition MAVLINK_MSG_ID_BAD_DATA : Z := -1.
Definition MAVLINK_MSG_ID_UNKNOWN : Z := -2.

Definition u8 : code := CUint 1.
Definition u16 : code := CUint 2.
Definition u32 : code := CUint 4.
Definition u64 : code := CUint 8.

(** ** MAVLink_header *)

Record header := Header {
  h_msgId : Z;
  h_incompat_flags : Z;
  h_compat_flags : Z;
  h_mlen : Z;
  h_seq : Z;
  h_srcSystem : Z;
  h_srcComponent : Z
}.

(** [MAVLink_header.pack]; [WIRE_PROTOCOL_VERSION] is "2.0". *)
Definition header_pack (h : header) (force_mavlink1 : bool) : result bytes :=
  if negb force_mavlink1 then
    pack Little [u8; u8; u8; u8; u8; u8; u8; u16; u8]
      [PInt 253; PInt (h_mlen h); PInt (h_incompat_flags h); PInt (h_compat_flags h);
       PInt (h_seq h); PInt (h_srcSystem h); PInt (h_srcComponent h);
       PInt (Z.land (h_msgId h) 0xFFFF); PInt (Z.shiftr (h_msgId h) 16)]
  else
    pack Little [u8; u8; u8; u8; u8; u8]
      [PInt PROTOCOL_MARKER_V1; PInt (h_mlen h); PInt (h_seq h); PInt (h_srcSystem h);
       PInt (h_srcComponent h); PInt (h_msgId h)].

(** ** MAVLinkSigning and MAVLink state *)

Record signing := Signing {
  secret_key : option bytes;
  timestamp : Z;
  link_id : Z;
  sign_outgoing : bool;
  allow_unsigned_callback : option (Z -> bool);
  stream_timestamps : gmap (Z * Z * Z) Z;
  sig_count : Z;
  badsig_count : Z;
  goodsig_count : Z;
  unsigned_count : Z;
  reject_count : Z
}.

Definition init_signing : signing :=
  Signing None 0 0 false None ∅ 0 0 0 0 0.

(** Sending side: sequence number, source ids, what went to [file.write]. *)
Record tx_state := TxState {
  seq_no : Z;
  srcSystem : Z;
  srcComponent : Z;
  out : list bytes;
  total_packets_sent : Z;
  total_bytes_sent : Z
}.

(** Receiving side: the parser's buffer and counters. *)
Record rx_state := RxState {
  buf : bytes;
  buf_index : Z;
  expected_length : Z;
  have_prefix_error : bool;
  robust_parsing : bool;
  total_packets_received : Z;
  total_bytes_received : Z;
  total_receive_errors : Z
}.

Record mavlink := Mavlink { tx : tx_state; rx : rx_state; sgn : signing }.

(** [MAVLink(file, srcSystem, srcComponent)]. *)
Definition init_mavlink (sys comp : Z) : mavlink :=
  Mavlink (TxState 0 sys comp [] 0 0)
          (RxState [] 0 (HEADER_LEN_V1 + 2) false false 0 0 0)
          init_signing.

Definition set_timestamp (t : Z) (s : signing) : signing :=
  Signing (secret_key s) t (link_id s) (sign_outgoing s) (allow_unsigned_callback s)
    (stream_timestamps s) (sig_count s) (badsig_count s) (goodsig_count s)
    (unsigned_count s) (reject_count s).

Definition set_streams (m : gmap (Z * Z * Z) Z) (s : signing) : signing :=
  Signing (secret_key s) (timestamp s) (link_id s) (sign_outgoing s) (allow_unsigned_callback s)
    m (sig_count s) (badsig_count s) (goodsig_count s) (unsigned_count s) (reject_count s).

(** Add to the counters sig, badsig, goodsig, unsigned, reject. *)
Definition count (dsig dbad dgood duns drej : Z) (s : signing) : signing :=
  Signing (secret_key s) (timestamp s) (link_id s) (sign_outgoing s) (allow_unsigned_callback s)
    (stream_timestamps s) (sig_count s + dsig) (badsig_count s + dbad) (goodsig_count s + dgood)
    (unsigned_count s + duns) (reject_count s + drej).

Definition set_sgn (s : signing) (v : mavlink) : mavlink := Mavlink (tx v) (rx v) s.
Definition set_rx (r : rx_state) (v : mavlink) : mavlink := Mavlink (tx v) r (sgn v).
Definition set_tx (t : tx_state) (v : mavlink) : mavlink := Mavlink t (rx v) (sgn v).

(** Run a method of the signing sub-object. *)
Definition with_sgn {A} (f : SE signing A) : SE mavlink A := fun v =>
  let '(s, r) := f (sgn v) in (set_sgn s v, r).

(** ** MAVLink_message *)

Inductive msg_class :=
| Known (mt : msgtype)
| BadData (reason : string)
| Unknown (msgid : Z).

Record message := Message {
  m_class : msg_class;
  m_header : header;
  m_payload : option bytes;
  m_msgbuf : bytes;
  m_crc : option Z;
  m_attrs : gmap string attr;
  m_signed : bool;
  m_link_id : option Z
}.

Definition get_type (m : message) : string :=
  match m_class m with
  | Known mt => msgname mt
  | BadData _ => "BAD_DATA"
  | Unknown id => "UNKNOWN_" ++ pretty id
  end.

Definition get_fieldnames (m : message) : list string :=
  match m_class m with
  | Known mt => fieldnames mt
  | BadData _ => ["data"; "reason"]%string
  | Unknown _ => ["data"]%string
  end.

(** [MAVLink_header(msgId)] with its default arguments. *)
Definition default_header (msgId : Z) : header := Header msgId 0 0 0 0 0 0.

(** [MAVLink_x_message] applied to its positional arguments. *)
Definition new_message (mt : msgtype) (args : list fval) : result message :=
  attrs ← init_message mt args;
  Ok (Message (Known mt) (default_header (mt_id mt)) None [] None attrs false None).

Definition bad_data (data : bytes) (reason : string) : message :=
  Message (BadData reason) (default_header MAVLINK_MSG_ID_BAD_DATA) None data None ∅ false None.

Definition unknown_message (msgid : Z) (data : bytes) : message :=
  Message (Unknown msgid) (default_header MAVLINK_MSG_ID_UNKNOWN) None data None ∅ false None.

(** [while plen > 1 and payload[plen - 1] == 0: plen -= 1]. *)
Fixpoint strip_plen (payload : bytes) (plen : nat) : nat :=
  match plen with
  | S (S n as p) => if decide (payload !! p = Some 0) then strip_plen payload p else plen
  | _ => plen
  end.

(** [MAVLink_message.sign_packet], on the signing state: the signature block
    appended to the frame. *)
Definition sign_packet (msgbuf : bytes) : SE signing bytes :=
  s ← se_get;
  match secret_key s with
  | None => se_raise AssertionError
  | Some key =>
      blk ← se_lift (pack Little [u8; u64] [PInt (link_id s); PInt (timestamp s)]);
      let msgbuf := msgbuf ++ take 7 blk in
      let sig := take 6 (Sha.sha256 (key ++ msgbuf)) in
      _ ← se_put (set_timestamp (timestamp s + 1) s);
      mret (msgbuf ++ sig)
  end.

(** [MAVLink_message._pack]: the message with its new header, payload, checksum
    and buffer, and the bytes. *)
Definition pack_frame (m : message) (crc_extra : Z) (payload : bytes) (force_mavlink1 : bool)
  : SE mavlink (message * bytes) :=
  v ← se_get;
  let plen := length payload in
  let plen := if negb force_mavlink1 then strip_plen payload plen else plen in
  let payload := take plen payload in
  let incompat_flags := if sign_outgoing (sgn v) then Z.lor 0 MAVLINK_IFLAG_SIGNED else 0 in
  let h := Header (h_msgId (m_header m)) incompat_flags 0 (blen payload)
             (seq_no (tx v)) (srcSystem (tx v)) (srcComponent (tx v)) in
  hb ← se_lift (header_pack h force_mavlink1);
  let msgbuf := hb ++ payload in
  let crc := X25.x25crc (py_from msgbuf 1) in
  extra ← se_lift (pack Little [u8] [PInt crc_extra]);
  let crc := X25.accumulate crc extra in
  crcb ← se_lift (pack Little [u16] [PInt crc]);
  let msgbuf := msgbuf ++ crcb in
  msgbuf ← (if sign_outgoing (sgn v) && negb force_mavlink1
            then with_sgn (sign_packet msgbuf) else mret msgbuf);
  mret (Message (m_class m) h (Some payload) msgbuf (Some crc) (m_attrs m) (m_signed m) (m_link_id m),
        msgbuf).

(** [m.pack(mav, force_mavlink1)] of a message class; the base class, and the
    classes of bad and unknown data, raise [NotImplementedError]. *)
Definition message_pack (m : message) (force_mavlink1 : bool) : SE mavlink (message * bytes) :=
  match m_class m with
  | Known mt =>
      payload ← se_lift (pack_payload mt (m_attrs m));
      pack_frame m (crc_extra mt) payload force_mavlink1
  | _ => se_raise (Exception_ "NotImplementedError")
  end.

(** [MAVLink.send]. *)
Definition send (m : message) (force_mavlink1 : bool) : SE mavlink unit :=
  r ← message_pack m force_mavlink1;
  let b := snd r in
  se_modify (fun v =>
    let t := tx v in
    set_tx (TxState ((seq_no t + 1) mod 256) (srcSystem t) (srcComponent t) (out t ++ [b])
             (total_packets_sent t + 1) (total_bytes_sent t + blen b)) v).

(** ** Decoding *)

(** [MAVLink.check_signature]. *)
Definition check_signature (msgbuf : bytes) (sys comp : Z) : SE signing bool :=
  s ← se_get;
  match secret_key s with
  | None => se_raise AssertionError
  | Some key =>
      let timestamp_buf := py_slice msgbuf (-12) (-6) in
      lid ← se_lift (py_index msgbuf (-13));
      t ← se_lift (unpack Little [u32; u16] timestamp_buf);
      match t with
      | [PInt tlow; PInt thigh] =>
          let ts := tlow + Z.shiftl thigh 32 in
          let stream_key := (lid, sys, comp) in
          (* is the timestamp acceptable? *)
          fresh ← match stream_timestamps s !! stream_key with
                  | Some old => mret (negb (ts <=? old))
                  | None =>
                      if ts + 6000 * 1000 <? timestamp s then mret false
                      else _ ← se_modify (set_streams (<[stream_key := ts]> (stream_timestamps s)));
                           mret true
                  end;
          if negb fresh then mret false
          else
            let sig1 := take 6 (Sha.sha256 (key ++ py_slice msgbuf 0 (-6))) in
            let sig2 := py_from msgbuf (-6) in
            if decide (sig1 = sig2) then
              _ ← se_modify (fun s => set_timestamp (Z.max (timestamp s) ts) s);
              mret true
            else mret false
      | _ => se_raise StructError
      end
  end.

(** The header fields [decode] reads: header length, magic, mlen, incompat and
    compat flags, sequence number, source ids, message id. *)
Record wire_header := WireHeader {
  w_headerlen : Z;
  w_magic : bytes;
  w_mlen : Z;
  w_incompat : Z;
  w_compat : Z;
  w_seq : Z;
  w_sys : Z;
  w_comp : Z;
  w_msgId : Z
}.

Definition header_error : exn := MAVError "Unable to unpack MAVLink header".

Definition decode_header (msgbuf : bytes) : result wire_header :=
  first ← py_index msgbuf 0;
  if negb (first =? PROTOCOL_MARKER_V1) then
    match unpack Little [Cc; u8; u8; u8; u8; u8; u8; u16; u8] (py_slice msgbuf 0 10) with
    | Ok [PBytes magic; PInt mlen; PInt inc; PInt comp_fl; PInt seq; PInt sys; PInt comp;
          PInt idlow; PInt idhigh] =>
        Ok (WireHeader 10 magic mlen inc comp_fl seq sys comp (Z.lor idlow (Z.shiftl idhigh 16)))
    | _ => Raise header_error
    end
  else
    match unpack Little [Cc; u8; u8; u8; u8; u8] (py_slice msgbuf 0 6) with
    | Ok [PBytes magic; PInt mlen; PInt seq; PInt sys; PInt comp; PInt id] =>
        Ok (WireHeader 6 magic mlen 0 0 seq sys comp id)
    | _ => Raise header_error
    end.

Definition signature_len (w : wire_header) : Z :=
  if negb (Z.land (w_incompat w) MAVLINK_IFLAG_SIGNED =? 0) then MAVLINK_SIGNATURE_BLOCK_LEN else 0.

(** The acceptance of an unsigned or badly signed message by the callback. *)
Definition ask_callback (msgId : Z) (cb : Z -> bool) : SE signing bool :=
  if cb msgId then _ ← se_modify (count 0 0 0 1 0); mret true
  else _ ← se_modify (count 0 0 0 0 1); mret false.

(** The signature part of [decode]: whether the signature is good, or an
    exception. *)
Definition verify_signature (w : wire_header) (msgbuf : bytes) : SE signing bool :=
  let signed := signature_len w =? MAVLINK_SIGNATURE_BLOCK_LEN in
  _ ← (if signed then se_modify (count 1 0 0 0 0) else mret tt);
  s ← se_get;
  match secret_key s with
  | None => mret false
  | Some _ =>
      r ← (if signed then
             sig_ok ← check_signature msgbuf (w_sys w) (w_comp w);
             _ ← se_modify (if sig_ok : bool then count 0 0 1 0 0 else count 0 1 0 0 0);
             match allow_unsigned_callback s with
             | Some cb => if negb sig_ok then a ← ask_callback (w_msgId w) cb; mret (sig_ok, a)
                          else mret (sig_ok, sig_ok)
             | None => mret (sig_ok, sig_ok)
             end
           else
             match allow_unsigned_callback s with
             | Some cb => a ← ask_callback (w_msgId w) cb; mret (false, a)
             | None => mret (false, false)
             end);
      let '(sig_ok, accept) := r in
      if accept : bool then mret sig_ok else se_raise (MAVError "Invalid signature")
  end.

Section Decode.
(** [MAVLINK_IGNORE_CRC]: the environment asked to keep corrupted messages. *)
Context (ignore_crc : bool).

(** [MAVLink.decode]. *)
Definition decode (msgbuf : bytes) : SE mavlink message :=
  w ← se_lift (decode_header msgbuf);
  let slen := signature_len w in
  if negb (bool_decide (w_magic w = [PROTOCOL_MARKER_V1])) &&
     negb (bool_decide (w_magic w = [PROTOCOL_MARKER_V2]))
  then se_raise (MAVError "invalid MAVLink prefix")
  else if negb (w_mlen w =? blen msgbuf - (w_headerlen w + 2 + slen))
  then se_raise (MAVError "invalid MAVLink message length")
  else
    match mavlink_get (w_msgId w) with
    | None => mret (unknown_message (w_msgId w) msgbuf)
    | Some mt =>
        let crc_bytes := py_slice (py_from msgbuf (- (2 + slen))) 0 2 in
        crc ← (match unpack Little [u16] crc_bytes with
               | Ok [PInt c] => mret c
               | _ => se_raise (MAVError "Unable to unpack MAVLink CRC")
               end);
        let crcbuf := py_slice msgbuf 1 (- (2 + slen)) ++ [crc_extra mt] in
        if negb (crc =? X25.x25crc crcbuf) && negb ignore_crc
        then se_raise (MAVError "invalid MAVLink CRC")
        else
          sig_ok ← with_sgn (verify_signature w msgbuf);
          let mbuf := py_slice msgbuf (w_headerlen w) (- (2 + slen)) in
          match unpack_fields mt mbuf with
          | Raise StructError => se_raise (MAVError "Unable to unpack MAVLink payload")
          | Raise e => se_raise e
          | Ok tlist =>
              match init_message mt tlist with
              | Raise _ => se_raise (MAVError "Unable to instantiate MAVLink message")
              | Ok attrs =>
                  lid ← (if sig_ok : bool then i ← se_lift (py_index msgbuf (-13)); mret (Some i)
                         else mret None);
                  mret (Message (Known mt)
                          (Header (w_msgId w) (w_incompat w) (w_compat w) (w_mlen w) (w_seq w)
                             (w_sys w) (w_comp w))
                          (Some (py_slice msgbuf 6 (- (2 + slen)))) msgbuf (Some crc) attrs
                          sig_ok lid)
              end
          end
    end.

(** ** The incremental parser *)

Definition buf_len (r : rx_state) : Z := blen (buf r) - buf_index r.

(** [bytes_needed()]. *)
Definition bytes_needed (r : rx_state) : Z :=
  let ret := expected_length r - buf_len r in
  if ret <=? 0 then 1 else ret.

Definition set_index (i : Z) (r : rx_state) : rx_state :=
  RxState (buf r) i (expected_length r) (have_prefix_error r) (robust_parsing r)
    (total_packets_received r) (total_bytes_received r) (total_receive_errors r).
Definition set_expected (n : Z) (r : rx_state) : rx_state :=
  RxState (buf r) (buf_index r) n (have_prefix_error r) (robust_parsing r)
    (total_packets_received r) (total_bytes_received r) (total_receive_errors r).
Definition set_prefix_error (b : bool) (r : rx_state) : rx_state :=
  RxState (buf r) (buf_index r) (expected_length r) b (robust_parsing r)
    (total_packets_received r) (total_bytes_received r) (total_receive_errors r).
Definition count_error (r : rx_state) : rx_state :=
  RxState (buf r) (buf_index r) (expected_length r) (have_prefix_error r) (robust_parsing r)
    (total_packets_received r) (total_bytes_received r) (total_receive_errors r + 1).
Definition count_packet (r : rx_state) : rx_state :=
  RxState (buf r) (buf_index r) (expected_length r) (have_prefix_error r) (robust_parsing r)
    (total_packets_received r + 1) (total_bytes_received r) (total_receive_errors r).

Definition modify_rx (f : rx_state -> rx_state) : SE mavlink unit :=
  se_modify (fun v => set_rx (f (rx v)) v).

(** [incompat_flags & ~MAVLINK_IFLAG_SIGNED != 0] in a MAVLink 2 frame. *)
Definition bad_incompat (magic flags : Z) : bool :=
  (magic =? PROTOCOL_MARKER_V2) && negb (Z.land flags (Z.lnot MAVLINK_IFLAG_SIGNED) =? 0).

(** [except MAVError as reason] around [decode] when parsing robustly. *)
Definition catch_mav_error (mbuf : bytes) (f : SE mavlink message) : SE mavlink message := fun v =>
  match f v with
  | (v', Raise (MAVError reason)) => (set_rx (count_error (rx v')) v', Ok (bad_data mbuf reason))
  | r => r
  end.

(** [MAVLink.__parse_char_legacy]. *)
Definition parse_char_legacy : SE mavlink (option message) :=
  v ← se_get;
  let r := rx v in
  let i := buf_index r in
  let first := buf r !! Z.to_nat i in
  let header_len :=
    if (1 <=? buf_len r) && bool_decide (first = Some PROTOCOL_MARKER_V2)
    then HEADER_LEN_V2 else HEADER_LEN_V1 in
  if (1 <=? buf_len r) && negb (bool_decide (first = Some PROTOCOL_MARKER_V1))
     && negb (bool_decide (first = Some PROTOCOL_MARKER_V2))
  then
    _ ← modify_rx (set_index (i + 1));
    if robust_parsing r then
      _ ← modify_rx (fun r => count_error (set_expected (header_len + 2) r));
      mret (Some (bad_data (take 1 (drop (Z.to_nat i) (buf r))) "Bad prefix"))
    else if have_prefix_error r then mret None
    else
      _ ← modify_rx (fun r => count_error (set_prefix_error true r));
      se_raise (MAVError "invalid MAVLink prefix")
  else
    _ ← modify_rx (set_prefix_error false);
    hdr ← (if 3 <=? buf_len r then
             let sbuf := py_slice (buf r) i (3 + i) in
             match sbuf with
             | [magic; mlen; flags] =>
                 let n := if (magic =? PROTOCOL_MARKER_V2) &&
                             negb (Z.land flags MAVLINK_IFLAG_SIGNED =? 0)
                          then mlen + MAVLINK_SIGNATURE_BLOCK_LEN else mlen in
                 _ ← modify_rx (set_expected (n + (header_len + 2)));
                 mret (Some (magic, flags))
             | _ => se_raise StructError
             end
           else mret None);
    v ← se_get;
    let n := expected_length (rx v) in
    if (header_len + 2 <=? n) && (n <=? buf_len r) then
      let mbuf := py_slice (buf r) i (i + n) in
      _ ← modify_rx (fun r => set_expected (header_len + 2) (set_index (i + n) r));
      match hdr with
      | None => se_raise UnboundLocalError
      | Some (magic, flags) =>
          let body := if bad_incompat magic flags
                      then se_raise (MAVError "invalid incompat_flags") else decode mbuf in
          m ← (if robust_parsing r then catch_mav_error mbuf body else body);
          mret (Some m)
      end
    else mret None.

(** [MAVLink.parse_char]. *)
Definition parse_char (c : bytes) : SE mavlink (option message) :=
  _ ← modify_rx (fun r =>
        RxState (buf r ++ c) (buf_index r) (expected_length r) (have_prefix_error r)
          (robust_parsing r) (total_packets_received r) (total_bytes_received r + blen c)
          (total_receive_errors r));
  m ← parse_char_legacy;
  match m with
  | Some _ => _ ← modify_rx count_packet; mret m
  | None =>
      _ ← modify_rx (fun r =>
        if (buf_len r =? 0) && negb (buf_index r =? 0) then
          RxState [] 0 (expected_length r) (have_prefix_error r) (robust_parsing r)
            (total_packets_received r) (total_bytes_received r) (total_receive_errors r)
        else r);
      mret m
  end.

(** The [while True] loop of [parse_buffer], with a bound on its iterations. *)
Fixpoint parse_rest (fuel : nat) (ret : list message) : SE mavlink (list message) :=
  match fuel with
  | O => se_raise (Exception_ "out of fuel")
  | S f =>
      m ← parse_char [];
      match m with
      | None => mret ret
      | Some m => parse_rest f (ret ++ [m])
      end
  end.

(** [MAVLink.parse_buffer]; every iteration that goes on consumes a byte of
    the buffer, so its length bounds the iterations. *)
Definition parse_buffer (s : bytes) : SE mavlink (option (list message)) :=
  m ← parse_char s;
  match m with
  | None => mret None
  | Some m =>
      v ← se_get;
      ret ← parse_rest (S (length (buf (rx v)))) [m];
      mret (Some ret)
  end.

End Decode.

(** ** The RADIO_STATUS sender used by the proxies *)

(** [MAVLink.radio_status_encode]. *)
Definition radio_status_encode (rssi remrssi txbuf noise remnoise rxerrors fixed : Z) : result message :=
  new_message MavCatalog2.MavCatalog2.MAVLink_radio_status_message
    (map (fun z => FScalar (PInt z)) [rssi; remrssi; txbuf; noise; remnoise; rxerrors; fixed]).

(** [MAVLink.radio_status_send] with the default [force_mavlink1=False]. *)
Definition radio_status_send (rssi remrssi txbuf noise remnoise rxerrors fixed : Z) : SE mavlink unit :=
  m ← se_lift (radio_status_encode rssi remrssi txbuf noise remnoise rxerrors fixed);
  send m false.

(** The frame the unit test of the repository expects from
    [send_rssi(1, 2, 3, 4, 5)] with system id 3 and component id 242. *)
Example radio_status_frame :
  out (tx (fst (radio_status_send 1 1 100 2 5 3 4 (init_mavlink 3 242)))) =
  [[0xfd; 9; 0; 0; 0; 3; 0xf2; 0x6d; 0; 0; 3; 0; 4; 0; 1; 1; 0x64; 2; 5; 0xe1; 0xb1]].
Proof. vm_compute. done. Qed.

End MavLink.
