(* ===== verification/MavFrame.v ===== *)
(** Frame-level facts about MavLink: the bytes [_pack] produces, and how
    [decode] takes them apart again. *)
From Stdlib Require Import ZArith Lia Bool.
From stdpp Require Import base list numbers strings gmap.
From S2P Require Import Prelude.
From S2P Require Import PyFloat.
From S2P Require Import PyStruct.
From S2P Require Import X25.
From S2P Require Import Sha.
From S2P Require Import MavMessage.
From S2P Require Import MavMap.
From S2P Require Import MavCodec.
From S2P Require Import MavLink.

Module MavFrame.
Import PyStruct MavMessage MavMap MavCodec MavLink.

(** Unfold one layer of the state monad. *)
Ltac se :=
  unfold mbind, SE_bind, mret, SE_ret, se_lift, se_get, se_put, se_modify, se_raise in *;
  cbn beta iota zeta in *.

(** ** Packing small integers *)

Lemma pack_u8 z : 0 <= z < 256 -> pack_code Little u8 (PInt z) = Ok [z].
Proof.
  intros H. unfold pack_code, u8. change (2 ^ (8 * Z.of_nat 1)) with 256.
  destruct (Z.leb_spec 0 z), (Z.ltb_spec z 256); try lia. cbn [andb encode le_encode].
  by rewrite Z.mod_small.
Qed.

Lemma pack_u16 z : 0 <= z < 65536 -> pack_code Little u16 (PInt z) = Ok [z mod 256; z / 256].
Proof.
  intros H. unfold pack_code, u16. change (2 ^ (8 * Z.of_nat 2)) with 65536.
  destruct (Z.leb_spec 0 z), (Z.ltb_spec z 65536); try lia. cbn [andb encode le_encode].
  rewrite (Z.mod_small (z / 256)); [done |].
  split; [apply Z.div_pos; lia | apply Z.div_lt_upper_bound; lia].
Qed.

Lemma unpack_u8 x : unpack_code Little u8 [x] = PInt x.
Proof. cbn. f_equal. lia. Qed.

Lemma unpack_u16 x y : unpack_code Little u16 [x; y] = PInt (x + 256 * y).
Proof. cbn. f_equal. lia. Qed.

Lemma join_u16 z : z mod 256 + 256 * (z / 256) = z.
Proof. pose proof (Z.div_mod z 256). lia. Qed.

Create Rewrite HintDb wire.
#[local] Hint Rewrite pack_u8 pack_u16 using lia : wire.

(** ** Headers *)

Definition header_ok (h : header) : Prop :=
  0 <= h_mlen h < 256 /\ 0 <= h_incompat_flags h < 256 /\ 0 <= h_compat_flags h < 256 /\
  0 <= h_seq h < 256 /\ 0 <= h_srcSystem h < 256 /\ 0 <= h_srcComponent h < 256.

Definition header_bytes (h : header) (force1 : bool) : bytes :=
  if negb force1 then
    [253; h_mlen h; h_incompat_flags h; h_compat_flags h; h_seq h; h_srcSystem h; h_srcComponent h;
     Z.land (h_msgId h) 0xFFFF mod 256; Z.land (h_msgId h) 0xFFFF / 256; Z.shiftr (h_msgId h) 16]
  else [254; h_mlen h; h_seq h; h_srcSystem h; h_srcComponent h; h_msgId h].

Definition id_ok (h : header) (force1 : bool) : Prop :=
  0 <= h_msgId h < if force1 then 256 else 2 ^ 24.

Lemma land_ffff id : Z.land id 0xFFFF = id mod 65536.
Proof. change 0xFFFF with (Z.ones 16). by rewrite Z.land_ones by lia. Qed.

Lemma shiftr_16 id : Z.shiftr id 16 = id / 65536.
Proof. by rewrite Z.shiftr_div_pow2 by lia. Qed.

Lemma id_split_range id :
  0 <= id < 2 ^ 24 -> 0 <= Z.land id 0xFFFF < 65536 /\ 0 <= Z.shiftr id 16 < 256.
Proof.
  intros H. rewrite land_ffff, shiftr_16. pose proof (Z.mod_pos_bound id 65536).
  assert (0 <= id / 65536 < 256); [| lia].
  split; [apply Z.div_pos; lia | apply Z.div_lt_upper_bound; lia].
Qed.

Lemma header_pack_bytes h force1 :
  header_ok h -> id_ok h force1 -> header_pack h force1 = Ok (header_bytes h force1).
Proof.
  intros (?&?&?&?&?&?) Hid. unfold header_pack, header_bytes, id_ok in *. destruct force1; cbn [negb] in *.
  - cbn [pack]. unfold PROTOCOL_MARKER_V1. autorewrite with wire. done.
  - destruct (id_split_range _ Hid). cbn [pack]. autorewrite with wire. done.
Qed.

Lemma header_bytes_ok h force1 : header_ok h -> id_ok h force1 -> bytes_ok (header_bytes h force1).
Proof.
  intros Hh Hid. pose proof (header_pack_bytes h force1 Hh Hid) as H.
  unfold header_pack in H. destruct force1; cbn [negb] in H; eapply pack_ok in H; try done;
    repeat constructor.
Qed.

Lemma length_header_bytes h force1 :
  blen (header_bytes h force1) = if force1 then 6 else 10.
Proof. unfold header_bytes. by destruct force1. Qed.

(** The wire header [decode] reads back from a packed one. *)
Definition read_back (h : header) (force1 : bool) : wire_header :=
  if negb force1 then
    WireHeader 10 [253] (h_mlen h) (h_incompat_flags h) (h_compat_flags h) (h_seq h)
      (h_srcSystem h) (h_srcComponent h) (h_msgId h)
  else WireHeader 6 [254] (h_mlen h) 0 0 (h_seq h) (h_srcSystem h) (h_srcComponent h) (h_msgId h).

Lemma lor_id id : 0 <= id < 2 ^ 24 -> Z.lor (Z.land id 0xFFFF) (Z.shiftl (Z.shiftr id 16) 16) = id.
Proof.
  intros H. change 0xFFFF with (Z.ones 16). apply Z.bits_inj'. intros n Hn.
  rewrite Z.lor_spec, Z.land_spec, Z.testbit_ones by lia. rewrite Z.shiftl_spec by lia.
  destruct (Z.ltb_spec n 16).
  - rewrite (Z.testbit_neg_r _ (n - 16)) by lia. destruct (Z.leb_spec 0 n); [| lia]. cbn.
    by rewrite andb_true_r, orb_false_r.
  - rewrite Z.shiftr_spec by lia. replace (n - 16 + 16) with n by lia.
    by rewrite andb_false_r, andb_false_r.
Qed.

Lemma slice_prefix {A} (a c : list A) n : blen a = n -> py_slice (a ++ c) 0 n = a.
Proof.
  intros Hn. apply (py_slice_mid [] a c); autorewrite with bytes; unfold py_norm;
    pose proof (blen_nonneg c); pose proof (blen_nonneg a).
  - destruct (Z.ltb_spec 0 0); lia.
  - destruct (Z.ltb_spec n 0); lia.
Qed.

Lemma decode_header_read_back h force1 rest :
  id_ok h force1 -> decode_header (header_bytes h force1 ++ rest) = Ok (read_back h force1).
Proof.
  intros Hid. unfold decode_header, read_back, id_ok in *.
  destruct force1; unfold header_bytes; cbn [negb] in *.
  - change (py_index _ 0) with (@Ok Z 254). cbn [mbind result_bind].
    change (negb (254 =? PROTOCOL_MARKER_V1)) with false. cbn iota.
    rewrite slice_prefix by done. unfold unpack. cbn [length calcsize]. rewrite decide_True by done.
    cbn [unpack_aux code_size take drop u8]. fold u8. rewrite !unpack_u8. done.
  - change (py_index _ 0) with (@Ok Z 253). cbn [mbind result_bind].
    change (negb (253 =? PROTOCOL_MARKER_V1)) with true. cbn iota.
    rewrite slice_prefix by done. unfold unpack. rewrite decide_True by done.
    cbn [unpack_aux code_size take drop u8 u16]. fold u8 u16.
    rewrite !unpack_u8, !unpack_u16, join_u16, lor_id by exact Hid. done.
Qed.

(** ** Payload stripping *)

Lemma strip_plen_SS p n :
  strip_plen p (S (S n)) =
  if decide (p !! S n = Some 0) then strip_plen p (S n) else S (S n).
Proof. done. Qed.

Lemma strip_plen_le p n : (strip_plen p n <= n)%nat.
Proof.
  induction n as [|[|n] IH]; [done.. |]. rewrite strip_plen_SS. case_decide; lia.
Qed.

Lemma strip_plen_zeros p n :
  n = length p -> exists k, p = take (strip_plen p n) p ++ zeros k.
Proof.
  assert (H : forall n, (n <= length p)%nat -> exists k, take n p = take (strip_plen p n) p ++ zeros k).
  { clear n. induction n as [|[|n] IH]; intros Hn; [by exists 0%nat | |].
    - exists 0%nat. by rewrite app_nil_r.
    - rewrite strip_plen_SS. case_decide as E.
      + destruct (IH ltac:(lia)) as [k Hk]. exists (S k).
        rewrite (take_S_r _ _ _ E), Hk, <- app_assoc. f_equal. unfold zeros.
        by rewrite <- replicate_cons_app.
      + exists 0%nat. by rewrite app_nil_r. }
  intros ->. destruct (H (length p) ltac:(lia)) as [k Hk]. rewrite firstn_all in Hk. eauto.
Qed.

(** What [_pack] sends of a payload. *)
Definition sent_payload (payload : bytes) (force1 : bool) : bytes :=
  take (if negb force1 then strip_plen payload (length payload) else length payload) payload.

Lemma sent_payload_zeros payload force1 : exists k, payload = sent_payload payload force1 ++ zeros k.
Proof.
  unfold sent_payload. destruct force1; cbn [negb].
  - exists 0%nat. by rewrite firstn_all, app_nil_r.
  - by apply strip_plen_zeros.
Qed.

Lemma sent_payload_blen payload force1 : blen (sent_payload payload force1) <= blen payload.
Proof.
  unfold sent_payload, blen. rewrite length_take. lia.
Qed.

(** ** The frame *)

(** The checksum of a frame. *)
Definition frame_crc (hb pl : bytes) (extra : Z) : Z := X25.x25crc (drop 1 hb ++ pl ++ [extra]).

Definition crc_bytes (c : Z) : bytes := [c mod 256; c / 256].

Lemma frame_crc_range hb pl extra :
  bytes_ok hb -> bytes_ok pl -> 0 <= extra < 256 -> 0 <= frame_crc hb pl extra < 65536.
Proof.
  intros Hh Hp He. apply X25.x25crc_reg. apply bytes_ok_app. split; [by apply bytes_ok_drop |].
  apply bytes_ok_app. split; [done |]. constructor; [done | constructor].
Qed.

Lemma py_from_1 (x : Z) l : py_from (x :: l) 1 = l.
Proof.
  apply (py_from_app [x] l). unfold py_norm. autorewrite with bytes.
  pose proof (blen_nonneg l). cbn [Z.ltb Z.compare]. lia.
Qed.

(** Sender state that [_pack] can serialise. *)
Definition tx_ok (v : mavlink) : Prop :=
  0 <= seq_no (tx v) < 256 /\ 0 <= srcSystem (tx v) < 256 /\ 0 <= srcComponent (tx v) < 256.

Definition frame_header (v : mavlink) (id mlen : Z) : header :=
  Header id (if sign_outgoing (sgn v) then 1 else 0) 0 mlen (seq_no (tx v)) (srcSystem (tx v))
    (srcComponent (tx v)).

(** The signature block appended to [msgbuf]. *)
Definition sig_block (s : signing) (key msgbuf : bytes) : bytes :=
  let blk := link_id s :: le_encode 6 (timestamp s) in
  blk ++ take 6 (Sha.sha256 (key ++ msgbuf ++ blk)).

(** Signing state that [sign_packet] can serialise. *)
Definition sign_ok (s : signing) (key : bytes) : Prop :=
  secret_key s = Some key /\ 0 <= link_id s < 256 /\ 0 <= timestamp s < 2 ^ 48.

Lemma sign_packet_spec s key msgbuf :
  sign_ok s key ->
  sign_packet msgbuf s = (set_timestamp (timestamp s + 1) s, Ok (msgbuf ++ sig_block s key msgbuf)).
Proof.
  intros (Hk & Hl & Ht). unfold sign_packet. se. rewrite Hk. cbn [pack].
  rewrite pack_u8 by done. unfold u64, pack_code. fold (2 ^ (8 * Z.of_nat 8)).
  change (8 * Z.of_nat 8) with 64.
  destruct (Z.leb_spec 0 (timestamp s)), (Z.ltb_spec (timestamp s) (2 ^ 64)); try lia.
  cbn [andb mbind result_bind encode]. unfold sig_block.
  change (le_encode 8 (timestamp s)) with
    (le_encode 6 (timestamp s) ++
     le_encode 2 (timestamp s / 256 / 256 / 256 / 256 / 256 / 256)).
  rewrite app_nil_r.
  assert (Ht7 : take 7 ([link_id s] ++ le_encode 6 (timestamp s) ++
     le_encode 2 (timestamp s / 256 / 256 / 256 / 256 / 256 / 256)) = link_id s :: le_encode 6 (timestamp s))
    by done.
  rewrite Ht7, <- !app_assoc. done.
Qed.

(** Everything [_pack] computes, when the sender state is serialisable. *)
Lemma pack_frame_spec (v : mavlink) (m : message) extra payload (force1 : bool) key :
  tx_ok v -> 0 <= extra < 256 -> bytes_ok payload -> blen payload <= 255 ->
  0 <= h_msgId (m_header m) < (if force1 then 256 else 2 ^ 24) ->
  (sign_outgoing (sgn v) = true -> sign_ok (sgn v) key) ->
  let pl := sent_payload payload force1 in
  let h := frame_header v (h_msgId (m_header m)) (blen pl) in
  let hb := header_bytes h force1 in
  let crc := frame_crc hb pl extra in
  let body := hb ++ pl ++ crc_bytes crc in
  let signed := sign_outgoing (sgn v) && negb force1 in
  let frame := body ++ (if signed then sig_block (sgn v) key body else []) in
  pack_frame m extra payload force1 v =
    ((if signed then set_sgn (set_timestamp (timestamp (sgn v) + 1) (sgn v)) v else v),
     Ok (Message (m_class m) h (Some pl) frame (Some crc) (m_attrs m) (m_signed m) (m_link_id m), frame)).
Proof.
  intros (Hs & Hsys & Hcomp) He Hp Hpl Hid Hsign pl h hb crc body signed frame.
  assert (Hplb : bytes_ok pl) by (apply bytes_ok_take, Hp).
  assert (Hpll : 0 <= blen pl < 256).
  { pose proof (sent_payload_blen payload force1). pose proof (blen_nonneg pl). unfold pl in *. lia. }
  assert (Hh : header_ok h).
  { unfold header_ok, h, frame_header. cbn. destruct (sign_outgoing (sgn v)); lia. }
  assert (Hi : id_ok h force1) by exact Hid.
  pose proof (header_bytes_ok h force1 Hh Hi) as Hhb. fold hb in Hhb.
  pose proof (frame_crc_range hb pl extra Hhb Hplb He) as Hcrc. fold crc in Hcrc.
  unfold pack_frame. se. fold (sent_payload payload force1). fold pl.
  change (Z.lor 0 MAVLINK_IFLAG_SIGNED) with 1.
  fold (frame_header v (h_msgId (m_header m)) (blen pl)). fold h.
  rewrite (header_pack_bytes h force1 Hh Hi). fold hb. cbn [pack]. rewrite pack_u8 by done.
  cbn [mbind result_bind].
  assert (Hpc : X25.accumulate (X25.x25crc (py_from (hb ++ pl) 1)) ([extra] ++ []) = crc).
  { change ([extra] ++ []) with [extra]. rewrite <- X25.x25crc_app. unfold crc, frame_crc.
    f_equal. rewrite app_assoc. f_equal.
    unfold hb, header_bytes. destruct force1; cbn [negb app drop]; apply py_from_1. }
  rewrite Hpc, pack_u16 by done. cbn [mbind result_bind]. fold (crc_bytes crc).
  rewrite <- !app_assoc, app_nil_r. fold body.
  destruct (sign_outgoing (sgn v)) eqn:Eso; cbn [andb] in *;
    [destruct force1; cbn [negb] in * |]; unfold frame, signed; rewrite ?app_nil_r; try done.
  unfold with_sgn. rewrite (sign_packet_spec _ key _ (Hsign eq_refl)). done.
Qed.

(** ** Taking a frame apart *)

Section Frame.
Context (ign : bool) (h : header) (force1 : bool) (pl sg : bytes) (mt : msgtype).
Let hb := header_bytes h force1.
Let w := read_back h force1.
Context (crc : Z).
Let frame := hb ++ pl ++ crc_bytes crc ++ sg.

Context (Hid : id_ok h force1) (Hlen : h_mlen h = blen pl)
        (Hsg : blen sg = signature_len w) (Hcrc : 0 <= crc < 65536).

Lemma signature_len_cases : signature_len w = 0 \/ signature_len w = 13.
Proof using All. unfold signature_len. destruct (negb _); auto. Qed.

Lemma headerlen_hb : w_headerlen w = blen hb.
Proof using All. unfold w, hb, read_back. rewrite length_header_bytes. by destruct force1. Qed.

Lemma blen_crc_bytes : blen (crc_bytes crc) = 2.
Proof using All. done. Qed.

Lemma blen_hb : 6 <= blen hb.
Proof using All. unfold hb. rewrite length_header_bytes. destruct force1; lia. Qed.

Ltac norm_slice :=
  autorewrite with bytes; rewrite ?blen_crc_bytes, ?Hsg; unfold py_norm;
  pose proof blen_hb; pose proof (blen_nonneg pl); pose proof signature_len_cases;
  repeat match goal with |- context [?a <? ?b] => destruct (Z.ltb_spec a b) end; lia.

Lemma frame_blen : blen frame = blen hb + blen pl + 2 + signature_len w.
Proof using All. unfold frame. autorewrite with bytes. rewrite blen_crc_bytes, Hsg. lia. Qed.

(** [msgbuf[headerlen : -(2 + signature_len)]]. *)
Lemma frame_payload : py_slice frame (w_headerlen w) (- (2 + signature_len w)) = pl.
Proof using All. rewrite headerlen_hb. apply (py_slice_mid hb pl (crc_bytes crc ++ sg)); norm_slice. Qed.

(** [msgbuf[1 : -(2 + signature_len)]]. *)
Lemma frame_crcbuf : py_slice frame 1 (- (2 + signature_len w)) = drop 1 hb ++ pl.
Proof using All.
  pose proof blen_hb as H6. unfold frame.
  assert (Hx : exists x hb', hb = x :: hb') by (unfold hb, header_bytes; destruct force1; eauto).
  destruct Hx as (x & hb' & Hx). rewrite Hx in H6 |- *.
  change (drop 1 (x :: hb')) with hb'.
  change ((x :: hb') ++ pl ++ crc_bytes crc ++ sg) with ([x] ++ hb' ++ pl ++ crc_bytes crc ++ sg).
  rewrite (app_assoc hb').
  rewrite blen_cons in H6. pose proof (blen_nonneg pl). pose proof signature_len_cases.
  apply py_slice_mid; autorewrite with bytes; rewrite ?blen_crc_bytes, ?Hsg; unfold py_norm;
    repeat match goal with |- context [?a <? ?b] => destruct (Z.ltb_spec a b) end; lia.
Qed.

(** [msgbuf[-(2 + signature_len):][:2]]. *)
Lemma frame_crc_field : py_slice (py_from frame (- (2 + signature_len w))) 0 2 = crc_bytes crc.
Proof using All.
  unfold frame. rewrite (app_assoc hb), (py_from_app (hb ++ pl)) by norm_slice.
  by apply slice_prefix.
Qed.

Lemma crc_bytes_unpack : unpack Little [u16] (crc_bytes crc) = Ok [PInt crc].
Proof using All.
  unfold unpack, crc_bytes. rewrite decide_True by done. cbn [unpack_aux take drop code_size u16].
  fold u16. by rewrite unpack_u16, join_u16.
Qed.

Lemma magic_ok : negb (bool_decide (w_magic w = [PROTOCOL_MARKER_V1])) &&
                 negb (bool_decide (w_magic w = [PROTOCOL_MARKER_V2])) = false.
Proof using All. unfold w, read_back. by destruct force1. Qed.

Lemma frame_mlen : negb (w_mlen w =? blen frame - (w_headerlen w + 2 + signature_len w)) = false.
Proof using All.
  rewrite frame_blen, headerlen_hb. apply negb_false_iff, Z.eqb_eq.
  replace (w_mlen w) with (h_mlen h) by (unfold w, read_back; by destruct force1). lia.
Qed.

(** [decode] of a well-formed frame, up to the signature check. *)
Lemma decode_frame (tl : list fval) attrs v :
  mavlink_get (w_msgId w) = Some mt ->
  unpack_fields mt pl = Ok tl -> init_message mt tl = Ok attrs ->
  decode ign frame v =
    if negb (crc =? frame_crc hb pl (crc_extra mt)) && negb ign
    then (v, Raise (MAVError "invalid MAVLink CRC"))
    else match verify_signature w frame (sgn v) with
    | (s', Raise e) => (set_sgn s' v, Raise e)
    | (s', Ok sig_ok) =>
        match (if sig_ok then Some <$> (py_index frame (-13)) else Ok None) with
        | Raise e => (set_sgn s' v, Raise e)
        | Ok lid =>
            (set_sgn s' v,
             Ok (Message (Known mt)
                   (Header (w_msgId w) (w_incompat w) (w_compat w) (w_mlen w) (w_seq w) (w_sys w) (w_comp w))
                   (Some (py_slice frame 6 (- (2 + signature_len w)))) frame (Some crc) attrs sig_ok lid))
        end
    end.
Proof using All.
  intros Hmt Hu Hi. unfold decode. se.
  assert (Hd : decode_header frame = Ok w) by exact (decode_header_read_back _ _ _ Hid).
  rewrite Hd,  magic_ok, frame_mlen, Hmt, frame_crc_field, crc_bytes_unpack.
  rewrite frame_crcbuf, <- app_assoc. fold (frame_crc hb pl (crc_extra mt)).
  destruct (negb _ && negb ign); [done |]. unfold with_sgn.
  destruct (verify_signature w frame (sgn v)) as [s' [sig_ok|e]]; [| done].
  rewrite frame_payload, Hu, Hi. destruct sig_ok; [| done].
  unfold fmap. destruct (py_index frame (-13)); done.
Qed.

(** A wrong checksum is refused before anything else is looked at. *)
Lemma decode_frame_bad_crc v :
  mavlink_get (w_msgId w) = Some mt -> crc <> frame_crc hb pl (crc_extra mt) ->
  decode false frame v = (v, Raise (MAVError "invalid MAVLink CRC")).
Proof using All.
  intros Hmt Hne. unfold decode. se.
  assert (Hd : decode_header frame = Ok w) by exact (decode_header_read_back _ _ _ Hid).
  rewrite Hd,  magic_ok, frame_mlen, Hmt, frame_crc_field, crc_bytes_unpack.
  rewrite frame_crcbuf, <- app_assoc. fold (frame_crc hb pl (crc_extra mt)).
  by apply Z.eqb_neq in Hne as ->.
Qed.

End Frame.

(** ** Signature blocks *)

Definition stream_of (w : wire_header) (lid : Z) : Z * Z * Z := (lid, w_sys w, w_comp w).

(** Whether [check_signature] accepts the timestamp [ts] of a stream. *)
Definition fresh (s : signing) (k : Z * Z * Z) (ts : Z) : bool :=
  match stream_timestamps s !! k with
  | Some old => negb (ts <=? old)
  | None => negb (ts + 6000 * 1000 <? timestamp s)
  end.

(** The stream table after the timestamp check. *)
Definition register (s : signing) (k : Z * Z * Z) (ts : Z) : signing :=
  match stream_timestamps s !! k with
  | Some _ => s
  | None => set_streams (<[k := ts]> (stream_timestamps s)) s
  end.

Section Signature.
Context (body tsb sg : bytes) (lid : Z).
Let buf := body ++ lid :: tsb ++ sg.
Context (Htsb : length tsb = 6%nat) (Hsg : length sg = 6%nat).

Lemma sig_index : py_index buf (-13) = Ok lid.
Proof using All.
  unfold buf. apply py_index_app. right. autorewrite with bytes. unfold blen. rewrite Htsb, Hsg. done.
Qed.

Ltac norm_sig :=
  autorewrite with bytes; unfold py_norm; pose proof (blen_nonneg body); unfold blen in *;
  rewrite ?Htsb, ?Hsg; repeat match goal with |- context [?a <? ?b] => destruct (Z.ltb_spec a b) end; lia.

Lemma sig_tsb : py_slice buf (-12) (-6) = tsb.
Proof using All.
  unfold buf. change (lid :: tsb ++ sg) with ([lid] ++ tsb ++ sg). rewrite app_assoc.
  apply py_slice_mid; norm_sig.
Qed.

Lemma sig_sg : py_from buf (-6) = sg.
Proof using All.
  unfold buf. change (lid :: tsb ++ sg) with ((lid :: tsb) ++ sg). rewrite app_assoc.
  apply py_from_app; norm_sig.
Qed.

Lemma sig_signed : py_slice buf 0 (-6) = body ++ lid :: tsb.
Proof using All.
  unfold buf. change (lid :: tsb ++ sg) with ((lid :: tsb) ++ sg). rewrite app_assoc.
  change ((body ++ lid :: tsb) ++ sg) with ([] ++ (body ++ lid :: tsb) ++ sg).
  apply py_slice_mid; norm_sig.
Qed.

(** The timestamp of the block: 48 bits, little-endian. *)
Lemma sig_unpack :
  unpack Little [u32; u16] tsb = Ok [PInt (le_decode (take 4 tsb)); PInt (le_decode (drop 4 tsb))].
Proof using All.
  unfold unpack. rewrite decide_True by (by rewrite Htsb). cbn [unpack_aux code_size u32 u16].
  unfold unpack_code, u32, u16, decode. do 4 f_equal. rewrite take_ge; [done |].
  rewrite length_drop. lia.
Qed.

Lemma sig_timestamp :
  le_decode (take 4 tsb) + Z.shiftl (le_decode (drop 4 tsb)) 32 = le_decode tsb.
Proof using All.
  destruct tsb as [|b0 [|b1 [|b2 [|b3 l]]]]; cbn in Htsb; try lia.
  rewrite Z.shiftl_mul_pow2 by lia. change (2 ^ 32) with 4294967296.
  cbn [take drop le_decode]. rewrite take_0, drop_0. cbn [le_decode]. lia.
Qed.

(** [check_signature] of a message that ends in a signature block. *)
Lemma check_signature_spec s key sys comp :
  secret_key s = Some key ->
  let k := (lid, sys, comp) in
  let ts := le_decode tsb in
  check_signature buf sys comp s =
    if fresh s k ts then
      if decide (take 6 (Sha.sha256 (key ++ body ++ lid :: tsb)) = sg)
      then (set_timestamp (Z.max (timestamp s) ts) (register s k ts), Ok true)
      else (register s k ts, Ok false)
    else (s, Ok false).
Proof using All.
  intros Hk k ts. unfold check_signature, fresh, register. se.
  rewrite Hk, sig_index, sig_tsb, sig_unpack, sig_timestamp, sig_signed, sig_sg. fold k ts.
  destruct (stream_timestamps s !! k); cbn [negb].
  - destruct (ts <=? z); [done |]. cbn [negb]. by case_decide.
  - destruct (ts + 6000 * 1000 <? timestamp s); [done |]. cbn [negb]. by case_decide.
Qed.

End Signature.

End MavFrame.
