(* ===== verification/MavSpec.v ===== *)
(** Properties of the MAVLink implementation: frames decode to the message
    that was packed, corruption is detected, signatures are enforced. *)
From Stdlib Require Import ZArith Lia Bool.
From stdpp Require Import base list numbers strings gmap.
From S2P Require Import Prelude.
From S2P Require Import PyFloat.
From S2P Require Import PyStruct.
From S2P Require Import X25.
From S2P Require Import Sha.
From S2P Require Import MavMessage.
From S2P Require Import MavCatalog1.
From S2P Require Import MavCatalog2.
From S2P Require Import MavCatalog3.
From S2P Require Import MavCatalog4.
From S2P Require Import MavMap.
From S2P Require Import MavCodec.
From S2P Require Import MavLink.
From S2P Require Import MavFrame.

Module MavSpec.
Import PyStruct MavMessage MavMap MavCodec MavLink MavFrame.

#[local] Opaque Sha.sha256 X25.x25crc X25.accumulate mavlink_get.

(** ** Packing a message of the catalogue *)

(** The parts of the frame of a message. *)
Record packed := Packed {
  p_msg : message;
  p_payload : bytes;
  p_header : header;
  p_crc : Z;
  p_sig : bytes
}.

Definition p_hb (p : packed) (force1 : bool) : bytes := header_bytes (p_header p) force1.

Definition p_frame (p : packed) (force1 : bool) : bytes :=
  p_hb p force1 ++ p_payload p ++ crc_bytes (p_crc p) ++ p_sig p.

Definition can_sign (v : mavlink) (key : bytes) : Prop :=
  sign_outgoing (sgn v) = true -> sign_ok (sgn v) key.

Lemma length_sig_block s key b : blen (sig_block s key b) = 13.
Proof.
  unfold sig_block. rewrite blen_app, blen_cons. unfold blen.
  rewrite length_take, Sha.length_sha256, length_le_encode. done.
Qed.

(** Everything known about the frame of the message [mt args] packed by [v]. *)
Record packs (mt : msgtype) (args : list fval) (force1 : bool) (v : mavlink) (key : bytes)
    (m : message) (v1 : mavlink) (p : packed) : Prop := {
  pk_new : new_message mt args = Ok m;
  pk_pack : message_pack m force1 v = (v1, Ok (p_msg p, p_frame p force1));
  pk_state : v1 = (if sign_outgoing (sgn v) && negb force1
                   then set_sgn (set_timestamp (timestamp (sgn v) + 1) (sgn v)) v else v);
  pk_class : m_class (p_msg p) = Known mt;
  pk_attrs : m_attrs (p_msg p) = m_attrs m;
  pk_fields : forall f, f ∈ fieldnames mt -> attr_spec (is_str mt) (m_attrs m) f (the_arg mt args f);
  pk_header : p_header p = frame_header v (mt_id mt) (blen (p_payload p));
  pk_id : id_ok (p_header p) force1;
  pk_hb : bytes_ok (p_hb p force1);
  pk_payload_attr : m_payload (p_msg p) = Some (p_payload p);
  pk_crc_attr : m_crc (p_msg p) = Some (p_crc p);
  pk_crc : p_crc p = frame_crc (p_hb p force1) (p_payload p) (crc_extra mt);
  pk_crc_range : 0 <= p_crc p < 65536;
  pk_payload : bytes_ok (p_payload p);
  pk_payload_len : (length (p_payload p) <= unpacker_size mt)%nat;
  pk_unpack : unpack_fields mt (p_payload p) = Ok (map terminate args);
  pk_sig_len : blen (p_sig p) = signature_len (read_back (p_header p) force1);
  pk_sig : p_sig p = (if sign_outgoing (sgn v) && negb force1
                      then sig_block (sgn v) key (p_hb p force1 ++ p_payload p ++ crc_bytes (p_crc p))
                      else []);
  pk_msg_header : m_header (p_msg p) = p_header p
}.

(** A well-typed message is packed, to a frame whose parts are known. *)
Lemma message_pack_spec mt args (force1 : bool) v key :
  mavlink_get (mt_id mt) = Some mt -> args_fit mt args -> (force1 = true -> mt_id mt < 256) ->
  tx_ok v -> can_sign v key -> exists m v1 p, packs mt args force1 v key m v1 p.
Proof.
  intros Hmt Hargs Hid Htx Hsign.
  destruct (mavlink_get_ok _ _ Hmt) as (Hok & _ & Hrange).
  apply msgtype_ok_consistent in Hok as Hc.
  destruct (payload_roundtrip mt Hc args Hargs) as (attrs & pl0 & Hi & Hspec & Hp & Hlen & Hb & Hu).
  assert (He : 0 <= crc_extra mt < 256) by (apply is_byte_spec, (co_crc _ Hc)).
  assert (Hpl : blen pl0 <= 255) by (unfold blen; pose proof (co_size _ Hc); lia).
  set (m0 := Message (Known mt) (default_header (mt_id mt)) None [] None attrs false None).
  assert (Hid' : 0 <= h_msgId (m_header m0) < (if force1 then 256 else 2 ^ 24)).
  { cbn. destruct force1; [specialize (Hid eq_refl) |]; lia. }
  pose proof (pack_frame_spec v m0 (crc_extra mt) pl0 force1 key Htx He Hb Hpl Hid' Hsign) as Hpf.
  cbv zeta in Hpf.
  set (pl := sent_payload pl0 force1) in *. set (h := frame_header v _ (blen pl)) in *.
  set (crc := frame_crc _ pl _) in *. set (body := _ ++ pl ++ crc_bytes crc) in Hpf.
  set (sg := if _ : bool then sig_block _ _ _ else []) in Hpf.
  set (v1 := if _ : bool then set_sgn _ v else v) in Hpf.
  assert (Hfr : body ++ sg = header_bytes h force1 ++ pl ++ crc_bytes crc ++ sg)
    by (unfold body; by rewrite <- !app_assoc).
  rewrite Hfr in Hpf.
  exists m0, v1, (Packed (Message (Known mt) h (Some pl) (header_bytes h force1 ++ pl ++ crc_bytes crc ++ sg)
     (Some crc) attrs false None) pl h crc sg).
  assert (Hplb : bytes_ok pl) by (apply bytes_ok_take, Hb).
  assert (Hhok : header_ok h).
  { destruct Htx as (?&?&?). unfold header_ok, h, frame_header. cbn.
    pose proof (sent_payload_blen pl0 force1). pose proof (blen_nonneg pl). fold pl in H2.
    destruct (sign_outgoing (sgn v)); lia. }
  assert (Hhb : bytes_ok (header_bytes h force1)) by (by apply header_bytes_ok).
  split; unfold p_frame, p_hb; cbn [p_msg p_payload p_header p_crc p_sig m_class m_attrs m_payload m_crc];
    try reflexivity; try assumption.
  - unfold new_message. by rewrite Hi.
  - unfold message_pack. cbn [m_class m0]. unfold mbind, SE_bind, se_lift. cbn [m_attrs m0].
    rewrite Hp. exact Hpf.
  - by apply frame_crc_range.
  - rewrite <- Hlen. pose proof (sent_payload_blen pl0 force1). unfold blen in *. fold pl in H. lia.
  - destruct (sent_payload_zeros pl0 force1) as [k Hk]. by eapply Hu.
  - unfold sg, signature_len, read_back, h, frame_header.
    destruct (sign_outgoing (sgn v)), force1; try reflexivity. apply length_sig_block.
Qed.

(** ** Decoding a packed frame *)

(** What a decoded message says of the packed one. *)
Definition same_message (mt : msgtype) (v : mavlink) (m1 m2 : message) : Prop :=
  m_class m2 = m_class m1 /\ get_type m2 = get_type m1 /\ m_crc m2 = m_crc m1 /\
  h_seq (m_header m2) = seq_no (tx v) /\
  h_srcSystem (m_header m2) = srcSystem (tx v) /\
  h_srcComponent (m_header m2) = srcComponent (tx v) /\
  (forall f, f ∈ fieldnames mt -> m_attrs m2 !! f = m_attrs m1 !! f).

Section Packed.
Context (mt : msgtype) (args : list fval) (force1 : bool) (v : mavlink) (key : bytes).
Context (m : message) (v1 : mavlink) (p : packed).
Context (Hmt : mavlink_get (mt_id mt) = Some mt) (Hargs : args_fit mt args).
Context (Hp : packs mt args force1 v key m v1 p).
Let w := read_back (p_header p) force1.

Lemma packed_id : mavlink_get (w_msgId w) = Some mt.
Proof using All. unfold w. rewrite (pk_header _ _ _ _ _ _ _ _ Hp). destruct force1; exact Hmt. Qed.

Lemma packed_mlen : h_mlen (p_header p) = blen (p_payload p).
Proof using All. by rewrite (pk_header _ _ _ _ _ _ _ _ Hp). Qed.

(** A packed frame decodes whenever its signature is accepted. *)
Lemma decode_packed ign v2 s2 sig_ok lid :
  verify_signature w (p_frame p force1) (sgn v2) = (s2, Ok sig_ok) ->
  (if sig_ok then Some <$> py_index (p_frame p force1) (-13) else Ok None) = Ok lid ->
  exists m2, decode ign (p_frame p force1) v2 = (set_sgn s2 v2, Ok m2) /\
    same_message mt v (p_msg p) m2 /\ m_signed m2 = sig_ok /\ m_link_id m2 = lid.
Proof using All.
  intros Hv Hl. destruct (mavlink_get_ok _ _ Hmt) as (Hok & _ & _).
  apply msgtype_ok_consistent in Hok as Hc.
  destruct (init_message_spec mt Hc (map terminate args) (args_fit_terminate mt args Hargs))
    as (attrs2 & Hi2 & Hspec2).
  destruct Hp as [Hm Hpk Hst Hcl Hat Hspec Hh Hidk Hhb Hpa Hcr Hcrc Hcr16 Hplb _ Hu Hsl Hsg].
  pose proof (decode_frame ign (p_header p) force1 (p_payload p) (p_sig p) mt (p_crc p) Hidk
                packed_mlen Hsl Hcr16 _ _ v2 packed_id Hu Hi2) as Hd.
  fold (p_hb p force1) in Hd. fold (p_frame p force1) w in Hd.
  rewrite <- Hcrc, Z.eqb_refl, Hv, Hl in Hd. cbn [negb andb] in Hd.
  eexists. split; [exact Hd |].
  unfold same_message, get_type. cbn [m_class m_crc m_header m_attrs m_signed m_link_id
    h_seq h_srcSystem h_srcComponent].
  rewrite Hcl, Hcr, Hat. unfold w. rewrite Hh. split_and!; try (by destruct force1).
  intros f Hf. eapply (attrs_terminate mt args); eauto.
Qed.

(** The signature of a signed MAVLink 2 frame is accepted by a receiver with
    the same key to which the timestamp is fresh. *)
Lemma verify_packed s :
  sign_outgoing (sgn v) = true -> force1 = false -> sign_ok (sgn v) key -> secret_key s = Some key ->
  let k := (link_id (sgn v), srcSystem (tx v), srcComponent (tx v)) in
  let ts := timestamp (sgn v) in
  fresh s k ts = true ->
  verify_signature w (p_frame p force1) s =
    (count 0 0 1 0 0 (set_timestamp (Z.max (timestamp s) ts) (register (count 1 0 0 0 0 s) k ts)), Ok true) /\
  py_index (p_frame p force1) (-13) = Ok (link_id (sgn v)).
Proof using All.
  intros Hso -> (Hk1 & Hlid & Hts) Hk k ts Hfr.
  destruct Hp as [Hm Hpk Hst Hcl Hat Hspec Hh Hidk Hhb Hpa Hcr Hcrc Hcr16 Hplb _ Hu Hsl Hsg].
  rewrite Hso in Hsg. cbn [negb andb] in Hsg. unfold sig_block in Hsg.
  set (body := p_hb p false ++ p_payload p ++ crc_bytes (p_crc p)) in Hsg.
  set (tsb := le_encode 6 (timestamp (sgn v))) in Hsg.
  set (sg := take 6 _) in Hsg.
  assert (Hf : p_frame p false = body ++ link_id (sgn v) :: tsb ++ sg)
    by (unfold p_frame, body; rewrite Hsg, <- !app_assoc; reflexivity).
  assert (Htsb : length tsb = 6%nat) by apply length_le_encode.
  assert (Hsgl : length sg = 6%nat) by (unfold sg; rewrite length_take, Sha.length_sha256; done).
  assert (Hdts : le_decode tsb = ts)
    by (unfold tsb; rewrite le_decode_encode; apply Z.mod_small; exact Hts).
  rewrite Hf. split; [| by apply sig_index].
  assert (Hsys : w_sys w = srcSystem (tx v) /\ w_comp w = srcComponent (tx v) /\ signature_len w = 13).
  { unfold w, signature_len. rewrite Hh. unfold frame_header, read_back. rewrite Hso. done. }
  destruct Hsys as (Hsys & Hcomp & H13). unfold verify_signature. se. rewrite H13.
  change (13 =? MAVLINK_SIGNATURE_BLOCK_LEN) with true. cbn beta iota zeta.
  change (secret_key (count 1 0 0 0 0 s)) with (secret_key s). rewrite Hk.
  rewrite (check_signature_spec body tsb sg (link_id (sgn v)) Htsb Hsgl _ key) by exact Hk.
  rewrite Hsys, Hcomp, Hdts. fold k.
  change (fresh (count 1 0 0 0 0 s) k ts) with (fresh s k ts). rewrite Hfr.
  rewrite decide_True by done. cbn iota beta zeta.
  destruct (allow_unsigned_callback _); done.
Qed.

End Packed.

(** Without a secret key nothing is verified. *)
Lemma verify_no_key w f s :
  secret_key s = None ->
  verify_signature w f s =
    ((if signature_len w =? MAVLINK_SIGNATURE_BLOCK_LEN then count 1 0 0 0 0 s else s), Ok false).
Proof.
  intros Hk. unfold verify_signature. se. destruct (signature_len w =? _); cbn; by rewrite Hk.
Qed.

(** C1: for every message class of the dispatch table and every well-typed
    argument list, the frame [pack] produces, MAVLink 1 or 2, signed or not,
    decodes (at a receiver that verifies no signatures) to a message of the
    same class, type, checksum, sequence number, source and field attributes. *)
Theorem decode_pack_roundtrip ign mt args (force1 : bool) v v2 key :
  mavlink_get (mt_id mt) = Some mt -> args_fit mt args -> (force1 = true -> mt_id mt < 256) ->
  tx_ok v -> can_sign v key -> secret_key (sgn v2) = None ->
  exists m v1 m1 frame v3 m2,
    new_message mt args = Ok m /\
    message_pack m force1 v = (v1, Ok (m1, frame)) /\
    decode ign frame v2 = (v3, Ok m2) /\ same_message mt v m1 m2 /\ m_signed m2 = false.
Proof.
  intros Hmt Hargs Hid Htx Hsign Hk.
  destruct (message_pack_spec mt args force1 v key Hmt Hargs Hid Htx Hsign) as (m & v1 & p & Hp).
  edestruct (decode_packed mt args force1 v key m v1 p Hmt Hargs Hp ign v2) as (m2 & Hd & Hs & Hsg & _);
    [by apply verify_no_key | reflexivity |].
  do 6 eexists. split; [apply Hp |]. split; [apply Hp |]. eauto.
Qed.

(** A MAVLink 2 frame signed with the receiver's key, whose timestamp is
    fresh for its stream, decodes to the message packed, marked as signed with
    the sender's link id, and moves the receiver's clock to the later of the two. *)
Theorem decode_signed_roundtrip ign mt args v v2 key :
  mavlink_get (mt_id mt) = Some mt -> args_fit mt args -> tx_ok v ->
  sign_outgoing (sgn v) = true -> sign_ok (sgn v) key -> secret_key (sgn v2) = Some key ->
  fresh (sgn v2) (link_id (sgn v), srcSystem (tx v), srcComponent (tx v)) (timestamp (sgn v)) = true ->
  exists m v1 m1 frame v3 m2,
    new_message mt args = Ok m /\
    message_pack m false v = (v1, Ok (m1, frame)) /\ timestamp (sgn v1) = timestamp (sgn v) + 1 /\
    decode ign frame v2 = (v3, Ok m2) /\ same_message mt v m1 m2 /\
    m_signed m2 = true /\ m_link_id m2 = Some (link_id (sgn v)) /\
    timestamp (sgn v3) = Z.max (timestamp (sgn v2)) (timestamp (sgn v)).
Proof.
  intros Hmt Hargs Htx Hso Hsign Hk Hfr.
  destruct (message_pack_spec mt args false v key Hmt Hargs ltac:(done) Htx (fun _ => Hsign))
    as (m & v1 & p & Hp).
  destruct (verify_packed mt args false v key m v1 p Hmt Hargs Hp (sgn v2)) as [Hv Hl]; try done.
  edestruct (decode_packed mt args false v key m v1 p Hmt Hargs Hp ign v2) as (m2 & Hd & Hs & Hsg & Hli);
    [exact Hv | by rewrite Hl |].
  do 6 eexists. split; [apply Hp |]. split; [apply Hp |]. split.
  { rewrite (pk_state _ _ _ _ _ _ _ _ Hp), Hso. done. }
  split; [exact Hd |]. split_and!; try done.
Qed.

(** ** Corruption *)

(** C25: replacing two adjacent bytes anywhere in the payload of a packed frame by
    two different bytes, whatever they are, makes [decode] raise the checksum
    error and leave the receiver unchanged. *)
Theorem corrupted_frame_rejected mt args (force1 : bool) v v2 key m v1 p a b x1 x2 y1 y2 :
  mavlink_get (mt_id mt) = Some mt -> packs mt args force1 v key m v1 p ->
  p_payload p = a ++ [x1; x2] ++ b -> bytes_ok [y1; y2] -> [x1; x2] <> [y1; y2] ->
  decode false (p_hb p force1 ++ (a ++ [y1; y2] ++ b) ++ crc_bytes (p_crc p) ++ p_sig p) v2 =
    (v2, Raise (MAVError "invalid MAVLink CRC")).
Proof.
  intros Hmt Hp Hpl Hy Hne.
  assert (Hw : mavlink_get (w_msgId (read_back (p_header p) force1)) = Some mt)
    by (rewrite (pk_header _ _ _ _ _ _ _ _ Hp); destruct force1; exact Hmt).
  destruct (mavlink_get_ok _ _ Hmt) as (Hok & _ & _). apply msgtype_ok_consistent in Hok as Hc.
  assert (He : bytes_ok [crc_extra mt])
    by (repeat constructor; apply (is_byte_spec (crc_extra mt)), (co_crc _ Hc)).
  destruct Hp as [_ _ _ _ _ _ Hh Hidk Hhb _ _ Hcrc Hcr16 Hplb _ _ Hsl _].
  apply (decode_frame_bad_crc false (p_header p) force1 (a ++ [y1; y2] ++ b) (p_sig p) mt (p_crc p));
    try done.
  - rewrite Hh, Hpl. cbn [h_mlen frame_header]. unfold blen. rewrite !length_app. done.
  - fold (p_hb p force1). intros E. apply Hne. rewrite Hpl in Hcrc, Hplb.
    apply bytes_ok_app in Hplb as (Ha & Hxb). apply bytes_ok_app in Hxb as (Hx & Hb).
    eapply (X25.x25crc_burst (drop 1 (p_hb p force1) ++ a) (b ++ [crc_extra mt]) (p_crc p)); try done.
    + apply bytes_ok_app. auto with bytes.
    + apply bytes_ok_app. auto.
    + rewrite Hcrc. unfold frame_crc. f_equal. by rewrite <- !app_assoc.
    + rewrite E. unfold frame_crc. f_equal. by rewrite <- !app_assoc.
Qed.

(** ** What a decoded message says of the bytes *)

(** The state a decode depends on is the signing state: an accepted message of
    a known class is accepted again by any object whose signature check agrees. *)
Lemma decode_inv ign f v v' m mt :
  decode ign f v = (v', Ok m) -> m_class m = Known mt ->
  exists w, decode_header f = Ok w /\
    verify_signature w f (sgn v) = (sgn v', Ok (m_signed m)) /\
    mavlink_get (w_msgId w) = Some mt /\
    forall v2 s2, verify_signature w f (sgn v2) = (s2, Ok (m_signed m)) ->
      decode ign f v2 = (set_sgn s2 v2, Ok m).
Proof.
  intros Hd Hcl. unfold decode in *. se.
  destruct (decode_header f) as [w|]; [| done]. exists w.
  destruct (negb _ && negb _); [done |]. destruct (negb (w_mlen w =? _)); [done |].
  destruct (mavlink_get (w_msgId w)) as [mt'|] eqn:Emt; [| by simplify_eq].
  destruct (unpack Little [u16] _) as [[|[crc|?|?] [|]]|]; try done.
  destruct (negb (crc =? _) && negb ign); [done |]. unfold with_sgn in *.
  destruct (verify_signature w f (sgn v)) as [s1 [sig_ok|]] eqn:Ev; [| done].
  destruct (unpack_fields mt' _) as [tl|[]]; try done.
  destruct (init_message mt' tl) as [attrs|]; [| done].
  destruct sig_ok; [destruct (py_index f (-13)) |]; simplify_eq/=;
    (split_and!; [done | done | congruence |]); intros v2 s2 ->; done.
Qed.

(** The checks a keyed receiver without callback makes before accepting. *)
Lemma verify_ok_keyed w f s s' key b :
  secret_key s = Some key -> allow_unsigned_callback s = None ->
  verify_signature w f s = (s', Ok b) ->
  b = true /\ signature_len w = MAVLINK_SIGNATURE_BLOCK_LEN /\
  exists s1, check_signature f (w_sys w) (w_comp w) (count 1 0 0 0 0 s) = (s1, Ok true) /\
             s' = count 0 0 1 0 0 s1.
Proof.
  intros Hk Hcb Hv. unfold verify_signature in Hv. se.
  destruct (signature_len w =? MAVLINK_SIGNATURE_BLOCK_LEN) eqn:El; to_prop; cbn beta iota zeta in Hv.
  - change (secret_key (count 1 0 0 0 0 s)) with (secret_key s) in Hv. rewrite Hk in Hv.
    change (allow_unsigned_callback (count 1 0 0 0 0 s)) with (allow_unsigned_callback s) in Hv.
    rewrite Hcb in Hv.
    destruct (check_signature f (w_sys w) (w_comp w) (count 1 0 0 0 0 s)) as [s1 [[]|]];
      simplify_eq/=. eauto.
  - rewrite Hk, Hcb in Hv. done.
Qed.

Lemma check_signature_true f sys comp s s1 key :
  secret_key s = Some key -> check_signature f sys comp s = (s1, Ok true) ->
  take 6 (Sha.sha256 (key ++ py_slice f 0 (-6))) = py_from f (-6) /\
  exists lid ts, py_index f (-13) = Ok lid /\ fresh s (lid, sys, comp) ts = true /\
    s1 = set_timestamp (Z.max (timestamp s) ts) (register s (lid, sys, comp) ts) /\
    (forall s2, secret_key s2 = Some key -> fresh s2 (lid, sys, comp) ts = true ->
       check_signature f sys comp s2 =
         (set_timestamp (Z.max (timestamp s2) ts) (register s2 (lid, sys, comp) ts), Ok true)).
Proof.
  intros Hk Hc. unfold check_signature in *. se. rewrite Hk in Hc.
  destruct (py_index f (-13)) as [lid|]; [| done].
  destruct (unpack Little [u32; u16] (py_slice f (-12) (-6))) as [[|[tl|?|?] [|[th|?|?] [|]]]|]; try done.
  set (k := (lid, sys, comp)) in *. set (ts := tl + Z.shiftl th 32) in *.
  destruct (decide (take 6 (Sha.sha256 (key ++ py_slice f 0 (-6))) = py_from f (-6))) as [Hsig|];
    [| by cases].
  split; [done |]. exists lid, ts. fold k. unfold fresh, register in *.
  split; [done |].
  split_and!.
  - destruct (stream_timestamps s !! k); [destruct (ts <=? z) | destruct (ts + 6000 * 1000 <? timestamp s)]; done.
  - destruct (stream_timestamps s !! k); [destruct (ts <=? z) | destruct (ts + 6000 * 1000 <? timestamp s)];
      by simplify_eq/=.
  - intros s2 Hk2 Hf2. rewrite Hk2.
    destruct (stream_timestamps s2 !! k);
      [destruct (ts <=? z) | destruct (ts + 6000 * 1000 <? timestamp s2)]; try done;
      cbn [negb]; by rewrite decide_True.
Qed.

(** C8: a receiver with a secret key and no callback for unsigned messages
    accepts a message of a known class only when the frame carries a signature
    block that authenticates it under the key; the message is marked as signed. *)
Theorem keyed_decode_authentic ign f v v' m mt key :
  secret_key (sgn v) = Some key -> allow_unsigned_callback (sgn v) = None ->
  decode ign f v = (v', Ok m) -> m_class m = Known mt ->
  m_signed m = true /\ goodsig_count (sgn v') = goodsig_count (sgn v) + 1 /\
  take 6 (Sha.sha256 (key ++ py_slice f 0 (-6))) = py_from f (-6).
Proof.
  intros Hk Hcb Hd Hcl. destruct (decode_inv _ _ _ _ _ _ Hd Hcl) as (w & _ & Hv & _).
  destruct (verify_ok_keyed _ _ _ _ _ _ Hk Hcb Hv) as (Hs & _ & s1 & Hc & Hs').
  destruct (check_signature_true f _ _ (count 1 0 0 0 0 (sgn v)) _ key Hk Hc)
    as (Hsig & lid & ts & _ & _ & Hs1 & _).
  split_and!; try done. rewrite Hs', Hs1. unfold register.
  destruct (stream_timestamps _ !! _); cbn; lia.
Qed.

(** A frame accepted on a stream the receiver already knows is accepted
    again, unchanged, by the state that results: the entry of
    [stream_timestamps] is written when the stream first appears and never
    moved forward, so it does not stop replays. *)
Theorem replay_accepted ign f v v' m mt key w lid :
  secret_key (sgn v) = Some key -> allow_unsigned_callback (sgn v) = None ->
  decode_header f = Ok w -> py_index f (-13) = Ok lid ->
  is_Some (stream_timestamps (sgn v) !! (lid, w_sys w, w_comp w)) ->
  decode ign f v = (v', Ok m) -> m_class m = Known mt ->
  exists v'', decode ign f v' = (v'', Ok m).
Proof.
  intros Hk Hcb Hw Hlid [old Hold] Hd Hcl.
  destruct (decode_inv _ _ _ _ _ _ Hd Hcl) as (w' & Hw' & Hv & _ & Hagain).
  rewrite Hw in Hw'. injection Hw' as <-.
  destruct (verify_ok_keyed _ _ _ _ _ _ Hk Hcb Hv) as (Hs & Hlen & s1 & Hc & Hs').
  destruct (check_signature_true f _ _ (count 1 0 0 0 0 (sgn v)) _ key Hk Hc)
    as (_ & lid' & ts & Hl' & Hfr & Hs1 & Hc2).
  rewrite Hlid in Hl'. injection Hl' as <-.
  unfold register in Hs1. cbn [count stream_timestamps] in Hs1. rewrite Hold in Hs1.
  eexists. apply Hagain. rewrite Hs. unfold verify_signature. se. rewrite Hlen.
  change (MAVLINK_SIGNATURE_BLOCK_LEN =? MAVLINK_SIGNATURE_BLOCK_LEN) with true. cbn beta iota zeta.
  rewrite Hs', Hs1.
  set (s2 := count 1 0 0 0 0 _).
  assert (Hk2 : secret_key s2 = Some key) by exact Hk.
  assert (Hcb2 : allow_unsigned_callback s2 = None) by exact Hcb.
  rewrite Hk2, Hcb2, Hc2; [reflexivity | exact Hk2 |].
  unfold s2, fresh in *. cbn [count set_timestamp stream_timestamps] in *. rewrite Hold in Hfr |- *. done.
Qed.

(** A forged frame can silence a stream.  The first frame of an unknown
    stream has its timestamp recorded before its signature is looked at: after a
    frame with a wrong signature and a late timestamp was refused, every frame of
    that stream with a timestamp not later than the forged one is refused as
    old, also when it is signed with the right key. *)
Theorem forged_timestamp_locks_stream s key sys comp lid body tsb sg body2 tsb2 sg2 :
  secret_key s = Some key -> length tsb = 6%nat -> length sg = 6%nat ->
  length tsb2 = 6%nat -> length sg2 = 6%nat ->
  stream_timestamps s !! (lid, sys, comp) = None -> timestamp s <= le_decode tsb + 6000000 ->
  take 6 (Sha.sha256 (key ++ body ++ lid :: tsb)) <> sg ->
  le_decode tsb2 <= le_decode tsb ->
  exists s1, check_signature (body ++ lid :: tsb ++ sg) sys comp s = (s1, Ok false) /\
    check_signature (body2 ++ lid :: tsb2 ++ sg2) sys comp s1 = (s1, Ok false).
Proof.
  intros Hk Ht Hg Ht2 Hg2 Hnew Hts Hforged Hle.
  rewrite (check_signature_spec body tsb sg lid Ht Hg s key sys comp Hk).
  unfold fresh at 1, register. rewrite Hnew.
  destruct (Z.ltb_spec (le_decode tsb + 6000 * 1000) (timestamp s)); [lia |]. cbn [negb].
  rewrite decide_False by done. eexists. split; [reflexivity |].
  rewrite (check_signature_spec body2 tsb2 sg2 lid Ht2 Hg2 _ key sys comp) by exact Hk.
  unfold fresh. cbn [set_streams stream_timestamps]. rewrite lookup_insert_eq.
  destruct (Z.leb_spec (le_decode tsb2) (le_decode tsb)); [done | lia].
Qed.

(** ** A signed session *)

Definition the_stream (v : mavlink) : Z * Z * Z := (link_id (sgn v), srcSystem (tx v), srcComponent (tx v)).

(** The sender [v] signs with [key], and its next timestamp is fresh for the
    keyed receiver [v2]. *)
Definition in_session (key : bytes) (v v2 : mavlink) : Prop :=
  tx_ok v /\ sign_outgoing (sgn v) = true /\ sign_ok (sgn v) key /\
  secret_key (sgn v2) = Some key /\ fresh (sgn v2) (the_stream v) (timestamp (sgn v)) = true.

(** Messages sent by [v], each decoded by [v2] when it is written. *)
Fixpoint session (ign : bool) (msgs : list (msgtype * list fval)) (v v2 : mavlink)
  : result (list message) :=
  match msgs with
  | [] => Ok []
  | (mt, args) :: msgs' =>
      m ← new_message mt args;
      match send m false v with
      | (_, Raise e) => Raise e
      | (v', Ok _) =>
          f ← of_option IndexError (last (out (tx v')));
          match decode ign f v2 with
          | (_, Raise e) => Raise e
          | (v2', Ok m') => ms ← session ign msgs' v' v2'; Ok (m' :: ms)
          end
      end
  end.

Lemma fresh_next s k ts t d1 d2 d3 d4 d5 :
  fresh s k ts = true ->
  fresh (count d1 d2 d3 d4 d5 (set_timestamp t (register (count 1 0 0 0 0 s) k ts))) k (ts + 1) = true.
Proof.
  unfold fresh, register. cbn [count stream_timestamps set_timestamp set_streams].
  destruct (stream_timestamps s !! k) eqn:E; cbn [count stream_timestamps set_timestamp set_streams].
  - rewrite E. rewrite !negb_true_iff, !Z.leb_gt. lia.
  - intros _. rewrite lookup_insert_eq. rewrite negb_true_iff, Z.leb_gt. lia.
Qed.

Lemma secret_key_register s k ts : secret_key (register s k ts) = secret_key s.
Proof. unfold register. destruct (stream_timestamps s !! k); done. Qed.

(** C26: once sender and receiver share a key and the sender's clock is fresh, every
    message of an arbitrarily long session is sent, decoded and accepted as
    signed, with its class: nothing is refused for its timestamp or sequence
    number, whatever wraps around. *)
Theorem signed_session_accepted ign key msgs v v2 :
  in_session key v v2 -> timestamp (sgn v) + blen msgs < 2 ^ 48 ->
  Forall (fun '(mt, args) => mavlink_get (mt_id mt) = Some mt /\ args_fit mt args) msgs ->
  exists ms, session ign msgs v v2 = Ok ms /\
    Forall2 (fun '(mt, _) m => get_type m = msgname mt /\ m_signed m = true) msgs ms.
Proof.
  intros Hin Hts Hall. revert v v2 Hin Hts.
  induction Hall as [|[mt args] msgs [Hmt Hargs] _ IH]; intros v v2 Hin Hts; [eauto |].
  destruct Hin as (Htx & Hso & Hsign & Hk & Hfr). rewrite blen_cons in Hts.
  destruct (message_pack_spec mt args false v key Hmt Hargs ltac:(done) Htx (fun _ => Hsign))
    as (m & v1 & p & Hp).
  destruct (verify_packed mt args false v key m v1 p Hmt Hargs Hp (sgn v2)) as [Hv Hl]; try done.
  edestruct (decode_packed mt args false v key m v1 p Hmt Hargs Hp ign v2)
    as (m2 & Hd & (_ & Hty & _) & Hsg & _); [exact Hv | by rewrite Hl |].
  cbn [session]. rewrite (pk_new _ _ _ _ _ _ _ _ Hp). cbn [mbind result_bind].
  unfold send. se. rewrite (pk_pack _ _ _ _ _ _ _ _ Hp). cbn [snd tx set_tx out].
  rewrite last_snoc. cbn [of_option mbind result_bind]. rewrite Hd.
  assert (Hst := pk_state _ _ _ _ _ _ _ _ Hp). rewrite Hso in Hst. cbn [andb negb] in Hst.
  subst v1. cbn [tx set_tx set_sgn].
  destruct Htx as (Hs1 & Hs2 & Hs3), Hsign as (Hk1 & Hlid & Htsr).
  pose proof (blen_nonneg msgs).
  edestruct IH as (ms & Hms & Hf2); [| | rewrite Hms; cbn; eexists; split; [done |]].
  - unfold in_session, tx_ok, the_stream.
    cbn [tx sgn set_sgn set_tx seq_no srcSystem srcComponent link_id timestamp set_timestamp sign_outgoing].
    split; [split_and!; try lia; apply Z.mod_pos_bound; lia |].
    split; [exact Hso |]. split; [split_and!; [exact Hk1 | cbn; lia ..] |].
    split; [| by apply fresh_next].
    cbn [secret_key count set_timestamp]. rewrite secret_key_register. exact Hk.
  - cbn [tx sgn set_sgn set_tx timestamp set_timestamp]. lia.
  - constructor; [| done]. split; [| done]. rewrite Hty. unfold get_type.
    by rewrite (pk_class _ _ _ _ _ _ _ _ Hp).
Qed.

(** ** Concrete runs *)

Definition demo_mt : msgtype := MavCatalog2.MAVLink_radio_status_message.
Definition demo_args : list fval := map (fun z => FScalar (PInt z)) [1; 1; 100; 2; 5; 300; 4].
Definition demo_key : bytes := [115; 101; 99; 114; 101; 116].

(** Sender with a key and a clock, receiver with the key only. *)
Definition demo_signing (t : Z) (out_ : bool) : signing :=
  Signing (Some demo_key) t 7 out_ None ∅ 0 0 0 0 0.
Definition demo_tx (t : Z) : mavlink := set_sgn (demo_signing t true) (init_mavlink 3 242).
Definition demo_rx : mavlink := set_sgn (demo_signing 0 false) (init_mavlink 1 1).

Definition run {S A} (d : A) (f : SE S A) (s : S) : S * A :=
  match f s with (s', Ok a) => (s', a) | (s', Raise _) => (s', d) end.

Definition demo_msg : message :=
  match new_message demo_mt demo_args with Ok m => m | Raise _ => bad_data [] "" end.
Definition demo_frame (t : Z) : bytes :=
  snd (snd (run (demo_msg, []) (message_pack demo_msg false) (demo_tx t))).

(** The receiver after a first signed frame, and after a second one. *)
Definition demo_rx1 : mavlink := fst (run demo_msg (decode false (demo_frame 5)) demo_rx).
Definition demo_run2 : mavlink * message := run demo_msg (decode false (demo_frame 6)) demo_rx1.

Lemma demo_known : mavlink_get (mt_id demo_mt) = Some demo_mt.
Proof. vm_compute. reflexivity. Qed.

Lemma demo_fit : args_fit demo_mt demo_args.
Proof.
  split; [reflexivity |]. cbv [demo_mt demo_args].
  repeat first [constructor | eexists; split; [vm_compute; reflexivity | vm_compute; split; [reflexivity |
    split; [discriminate | reflexivity]]]].
Qed.

Lemma demo_can_sign t : 0 <= t < 2 ^ 48 -> sign_ok (sgn (demo_tx t)) demo_key.
Proof. intros Ht. split_and!; cbn; try done; lia. Qed.

Lemma demo_tx_ok t : tx_ok (demo_tx t).
Proof. split_and!; cbn; lia. Qed.

Lemma demo_run2_ok : decode false (demo_frame 6) demo_rx1 = (fst demo_run2, Ok (snd demo_run2)).
Proof. vm_compute. reflexivity. Qed.

Lemma decode_pack_roundtrip_witness :
  exists m v1 m1 frame v3 m2,
    new_message demo_mt demo_args = Ok m /\
    message_pack m true (demo_tx 5) = (v1, Ok (m1, frame)) /\
    decode false frame (init_mavlink 1 1) = (v3, Ok m2) /\ same_message demo_mt (demo_tx 5) m1 m2 /\
    m_signed m2 = false.
Proof.
  apply (decode_pack_roundtrip false demo_mt demo_args true (demo_tx 5) (init_mavlink 1 1) demo_key).
  - exact demo_known.
  - exact demo_fit.
  - intros _. vm_compute. reflexivity.
  - apply demo_tx_ok.
  - intros _. apply demo_can_sign. lia.
  - reflexivity.
Defined.

Lemma decode_signed_roundtrip_witness :
  exists m v1 m1 frame v3 m2,
    new_message demo_mt demo_args = Ok m /\
    message_pack m false (demo_tx 5) = (v1, Ok (m1, frame)) /\ timestamp (sgn v1) = 5 + 1 /\
    decode false frame demo_rx = (v3, Ok m2) /\ same_message demo_mt (demo_tx 5) m1 m2 /\
    m_signed m2 = true /\ m_link_id m2 = Some 7 /\ timestamp (sgn v3) = Z.max 0 5.
Proof.
  apply (decode_signed_roundtrip false demo_mt demo_args (demo_tx 5) demo_rx demo_key).
  - exact demo_known.
  - exact demo_fit.
  - apply demo_tx_ok.
  - reflexivity.
  - apply demo_can_sign. lia.
  - reflexivity.
  - vm_compute. reflexivity.
Defined.

(** The payload of the concrete frame. *)
Lemma demo_payload m v1 p :
  packs demo_mt demo_args false (demo_tx 5) demo_key m v1 p ->
  p_payload p = [44] ++ [1; 4] ++ [0; 1; 1; 100; 2; 5].
Proof.
  intros Hp. pose proof (pk_new _ _ _ _ _ _ _ _ Hp) as Hm.
  pose proof (pk_pack _ _ _ _ _ _ _ _ Hp) as Hk. pose proof (pk_payload_attr _ _ _ _ _ _ _ _ Hp) as Ha.
  assert (E : m = demo_msg) by (unfold demo_msg; by rewrite Hm). subst m.
  assert (Hd : (fun r => match r with Ok (m, _) => m_payload m | _ => None end)
                 (snd (message_pack demo_msg false (demo_tx 5))) =
               Some ([44] ++ [1; 4] ++ [0; 1; 1; 100; 2; 5])) by (vm_compute; reflexivity).
  rewrite Hk in Hd. cbn [snd] in Hd. rewrite Ha in Hd. by injection Hd.
Qed.

Lemma corrupted_frame_rejected_witness :
  exists p, p_payload p = [44] ++ [1; 4] ++ [0; 1; 1; 100; 2; 5] /\
    decode false (p_hb p false ++ ([44] ++ [7; 7] ++ [0; 1; 1; 100; 2; 5]) ++ crc_bytes (p_crc p)
                            ++ p_sig p) demo_rx = (demo_rx, Raise (MAVError "invalid MAVLink CRC")).
Proof.
  destruct (message_pack_spec demo_mt demo_args false (demo_tx 5) demo_key demo_known demo_fit
    ltac:(discriminate) (demo_tx_ok 5) (fun _ => demo_can_sign 5 ltac:(lia))) as (m & v1 & p & Hp).
  exists p. split; [by apply (demo_payload m v1) |].
  apply (corrupted_frame_rejected demo_mt demo_args false (demo_tx 5) demo_rx demo_key m v1 p [44]
           [0; 1; 1; 100; 2; 5] 1 4 7 7 demo_known Hp).
  - by apply (demo_payload m v1).
  - apply bytes_ok_forallb. vm_compute. reflexivity.
  - discriminate.
Defined.

Lemma keyed_decode_authentic_witness :
  m_signed (snd demo_run2) = true /\ goodsig_count (sgn (fst demo_run2)) = 2 /\
  take 6 (Sha.sha256 (demo_key ++ py_slice (demo_frame 6) 0 (-6))) = py_from (demo_frame 6) (-6).
Proof.
  apply (keyed_decode_authentic false (demo_frame 6) demo_rx1 (fst demo_run2) (snd demo_run2) demo_mt demo_key).
  - vm_compute. reflexivity.
  - vm_compute. reflexivity.
  - exact demo_run2_ok.
  - vm_compute. reflexivity.
Defined.

Lemma replay_accepted_witness : exists v'', decode false (demo_frame 6) (fst demo_run2) = (v'', Ok (snd demo_run2)).
Proof.
  eapply (replay_accepted false (demo_frame 6) demo_rx1 (fst demo_run2) (snd demo_run2) demo_mt demo_key).
  - vm_compute. reflexivity.
  - vm_compute. reflexivity.
  - vm_compute. reflexivity.
  - vm_compute. reflexivity.
  - vm_compute. eexists. reflexivity.
  - exact demo_run2_ok.
  - vm_compute. reflexivity.
Defined.

Lemma forged_timestamp_locks_stream_witness :
  exists s1, check_signature ([1; 2; 3] ++ 7 :: [255; 255; 255; 255; 255; 255] ++ [0; 0; 0; 0; 0; 0]) 3 242
      (demo_signing 0 false) = (s1, Ok false) /\
    check_signature (take 21 (demo_frame 5) ++ 7 :: [5; 0; 0; 0; 0; 0] ++ py_from (demo_frame 5) (-6)) 3 242 s1
      = (s1, Ok false).
Proof.
  apply (forged_timestamp_locks_stream (demo_signing 0 false) demo_key 3 242 7 [1; 2; 3]
    [255; 255; 255; 255; 255; 255] [0; 0; 0; 0; 0; 0] (take 21 (demo_frame 5)) [5; 0; 0; 0; 0; 0]
    (py_from (demo_frame 5) (-6))).
  - reflexivity.
  - reflexivity.
  - reflexivity.
  - reflexivity.
  - vm_compute. reflexivity.
  - reflexivity.
  - vm_compute. discriminate.
  - vm_compute. discriminate.
  - vm_compute. discriminate.
Defined.

(** The frame of the witness is the signed one. *)
Example demo_frame_parts :
  demo_frame 5 = take 21 (demo_frame 5) ++ 7 :: [5; 0; 0; 0; 0; 0] ++ py_from (demo_frame 5) (-6).
Proof. vm_compute. reflexivity. Qed.

Lemma signed_session_accepted_witness :
  exists ms, session false [(demo_mt, demo_args); (demo_mt, demo_args)] (demo_tx 5) demo_rx = Ok ms /\
    Forall2 (fun '(mt, _) m => get_type m = msgname mt /\ m_signed m = true)
      [(demo_mt, demo_args); (demo_mt, demo_args)] ms.
Proof.
  apply (signed_session_accepted false demo_key).
  - split; [apply demo_tx_ok |]. split; [reflexivity |]. split; [apply demo_can_sign; lia |].
    split; [reflexivity |]. vm_compute. reflexivity.
  - vm_compute. reflexivity.
  - repeat (apply Forall_cons; split; [split; [exact demo_known | exact demo_fit] |]). apply Forall_nil_2.
Defined.

End MavSpec.
