(* ===== verification/MavMethods.v ===== *)
(** The per-message methods of the class [MAVLink] of wfb_ng/mavlink.py: what
    a method [x_encode] or [x_send] declares, and what a call of it does, with
    positional and keyword arguments and defaults.  The methods themselves are
    the tables of MavMethods1 to MavMethods4. *)
From Stdlib Require Import ZArith Lia Bool.
From stdpp Require Import base list numbers strings gmap.
From S2P Require Import Prelude PyStruct MavMessage MavLink.

Module MavMethods.
Import MavMessage MavLink.

(** ** Binding arguments to parameters *)

Fixpoint kw_get {V} (kw : list (string * V)) (f : string) : option V :=
  match kw with
  | [] => None
  | (g, v) :: kw' => if decide (f = g) then Some v else kw_get kw' f
  end.

(** The values of the parameters [fs] that no positional argument reaches: the
    keyword argument, or the default; the defaults belong to the last parameters. *)
Fixpoint bind_rest {V} (fs : list string) (defaults : list V) (kw : list (string * V)) : result (list V) :=
  match fs with
  | [] => Ok []
  | f :: fs' =>
      v ← match kw_get kw f with
          | Some v => Ok v
          | None => of_option TypeError (if decide (length defaults <= length fs')%nat then None
                                         else defaults !! (length defaults - length fs' - 1)%nat)
          end;
      vs ← bind_rest fs' defaults kw;
      Ok (v :: vs)
  end.

(** The values of the parameters of a call: positional arguments come first;
    a keyword must be one of the remaining parameters, and given once. *)
Definition bind {V} (params : list string) (defaults : list V) (args : list V) (kw : list (string * V)) : result (list V) :=
  if decide (length args <= length params)%nat then
    if decide (NoDup kw.*1 /\ Forall (fun f => f ∈ drop (length args) params) kw.*1) then
      vs ← bind_rest (drop (length args) params) defaults kw;
      Ok (args ++ vs)
    else Raise TypeError
  else Raise TypeError.

(** ** Methods *)

(** [def x_encode(self, params = defaults): return cls(args)]. *)
Record encode_method := EncodeMethod {
  e_params : list string;
  e_defaults : list fval;
  e_class : msgtype;
  e_args : list string
}.

(** [def x_send(self, params = defaults, force_mavlink1=False):
     self.send(self.x_encode(args), force_mavlink1=force_mavlink1)]. *)
Record send_method := SendMethod {
  s_params : list string;
  s_defaults : list fval;
  s_encode : encode_method;
  s_args : list string
}.

(** The values of the parameters named [names]. *)
Definition pass (params : list string) (vals : list fval) (names : list string) : result (list fval) :=
  result_map (fun f => of_option UnboundLocalError (arg_of params vals f)) names.

Definition call_encode (e : encode_method) (args : list fval) (kw : list (string * fval)) : result message :=
  vals ← bind (e_params e) (e_defaults e) args kw;
  l ← pass (e_params e) vals (e_args e);
  new_message (e_class e) l.

(** [force_mavlink1], the last parameter, is its default when not given; given by
    position after all others it means the same as by keyword. *)
Definition call_send (s : send_method) (args : list fval) (kw : list (string * fval)) (force_mavlink1 : option bool) : SE mavlink unit :=
  vals ← se_lift (bind (s_params s) (s_defaults s) args kw);
  l ← se_lift (pass (s_params s) vals (s_args s));
  m ← se_lift (call_encode (s_encode s) l []);
  send m (default false force_mavlink1).

(** ** Methods that pass on their arguments *)

(** The method has the parameters of the constructor of its class, and passes
    them in order. *)
Definition encode_faithful (e : encode_method) : bool :=
  bool_decide (e_params e = fieldnames (e_class e)) && bool_decide (e_args e = e_params e) && bool_decide (NoDup (e_params e)) &&
  bool_decide (length (e_defaults e) <= length (e_params e))%nat.

Definition send_faithful (s : send_method) : bool :=
  encode_faithful (s_encode s) && bool_decide (s_params s = e_params (s_encode s)) &&
  bool_decide (s_defaults s = e_defaults (s_encode s)) && bool_decide (s_args s = s_params s).

(** *** Binding *)

Section Bind.
Context {V : Type}.
Implicit Types (args defaults vals : list V) (kw : list (string * V)).

Lemma bind_rest_length fs defaults kw vs : bind_rest fs defaults kw = Ok vs -> length vs = length fs.
Proof using Type.
  revert vs. induction fs as [|f fs IH]; intros vs; cbn [bind_rest]; [by intros [= <-] |].
  intros (v & _ & (vs' & H & [= <-])%bind_ok)%bind_ok. cbn. by rewrite (IH _ H).
Qed.

Lemma bind_length params defaults args kw vals : bind params defaults args kw = Ok vals -> length vals = length params.
Proof using Type.
  unfold bind. destruct (decide _) as [Hl|]; [| done]. destruct (decide _) as [Hk|]; [| done].
  intros (vs & H & [= <-])%bind_ok. apply bind_rest_length in H. rewrite length_app, H, length_drop. lia.
Qed.

(** Without keywords the last parameters get their defaults. *)
Lemma bind_rest_defaults fs defaults : (length fs <= length defaults)%nat ->
  bind_rest fs defaults [] = Ok (drop (length defaults - length fs) defaults).
Proof using Type.
  induction fs as [|f fs IH]; cbn [bind_rest length kw_get]; intros Hl.
  - by rewrite Nat.sub_0_r, drop_all.
  - rewrite decide_False by lia. destruct (lookup_lt_is_Some_2 defaults (length defaults - length fs - 1)%nat) as [v Hv]; [lia |].
    rewrite Hv. cbn. rewrite IH by lia. cbn. f_equal.
    replace (length defaults - S (length fs))%nat with (length defaults - length fs - 1)%nat by lia.
    rewrite (drop_S _ _ _ Hv). do 2 f_equal. lia.
Qed.

Lemma bind_rest_missing fs defaults : (length defaults < length fs)%nat -> bind_rest fs defaults [] = Raise TypeError.
Proof using Type. destruct fs as [|f fs]; cbn [bind_rest length kw_get]; intros Hl; [lia |]. by rewrite decide_True by lia. Qed.

Lemma bind_positional params defaults args : (length defaults <= length params)%nat ->
  bind params defaults args [] =
  if decide (length params - length defaults <= length args <= length params)%nat
  then Ok (args ++ drop (length args - (length params - length defaults)) defaults) else Raise TypeError.
Proof using Type.
  intros Hd. unfold bind. destruct (decide (length args <= length params)%nat) as [Hl|Hl].
  - rewrite decide_True by (split; constructor). destruct (decide (_ <= _ <= _)%nat) as [Hk|Hk].
    + rewrite bind_rest_defaults by (rewrite length_drop; lia). cbn. rewrite length_drop. do 3 f_equal. lia.
    + rewrite bind_rest_missing by (rewrite length_drop; lia). done.
  - rewrite decide_False by lia. done.
Qed.

(** Every parameter given: positional first, the rest by keyword in any order. *)
Lemma kw_get_elem kw f v : NoDup kw.*1 -> (f, v) ∈ kw -> kw_get kw f = Some v.
Proof using Type.
  induction kw as [|[g w] kw IH]; cbn; intros Hnd Hin; [by apply elem_of_nil in Hin |].
  apply NoDup_cons in Hnd as [Hg Hnd]. apply elem_of_cons in Hin as [[= -> ->] | Hin]; [by rewrite decide_True |].
  rewrite decide_False; [by apply IH |]. intros ->. apply Hg. apply list_elem_of_fmap. by exists (g, v).
Qed.

Lemma bind_rest_all fs defaults kw vs : length vs = length fs -> (forall f v, (f, v) ∈ zip fs vs -> kw_get kw f = Some v) ->
  bind_rest fs defaults kw = Ok vs.
Proof using Type.
  revert vs. induction fs as [|f fs IH]; intros [|v vs] Hl Hk; cbn in Hl; try done; [lia .. |].
  cbn [bind_rest]. rewrite (Hk f v) by (cbn; left). cbn. rewrite (IH vs); [done | lia |].
  intros g w Hin. apply Hk. cbn. by right.
Qed.

Lemma bind_mixed params defaults vals k kw : NoDup params -> length vals = length params ->
  kw ≡ₚ zip (drop k params) (drop k vals) -> bind params defaults (take k vals) kw = Ok vals.
Proof using Type.
  intros Hnd Hl Hp. unfold bind. rewrite length_take, Hl, decide_True by lia.
  assert (Hdrop : drop (k `min` length params) params = drop k params).
  { destruct (decide (k <= length params)%nat); [by rewrite Nat.min_l by lia |].
    rewrite Nat.min_r by lia. by rewrite !drop_ge by lia. }
  rewrite Hdrop. assert (Hf : kw.*1 ≡ₚ drop k params).
  { rewrite Hp, fst_zip; [done |]. rewrite !length_drop. lia. }
  assert (Hnk : NoDup kw.*1). { rewrite Hf. rewrite <- (take_drop k params) in Hnd. by apply NoDup_app in Hnd as (_ & _ & Hnd). }
  rewrite decide_True.
  - rewrite (bind_rest_all _ _ _ (drop k vals)).
    + cbn. by rewrite take_drop.
    + rewrite !length_drop. lia.
    + intros f v Hin. apply kw_get_elem; [done |]. by rewrite Hp.
  - split; [done |]. apply Forall_forall. intros f Hin. by rewrite <- Hf.
Qed.

End Bind.

Lemma arg_of_cons_ne f fs v vs g : g <> f -> arg_of (f :: fs) (v :: vs) g = arg_of fs vs g.
Proof. intros H. cbn. by rewrite decide_False. Qed.

Lemma pass_all params vals : NoDup params -> length vals = length params -> pass params vals params = Ok vals.
Proof.
  unfold pass. intros Hnd Hl. apply result_map_ok. revert vals Hl.
  induction Hnd as [|f fs Hf Hnd IH]; intros [|v vs] Hl; cbn in Hl; try lia; constructor.
  - cbn. by rewrite decide_True.
  - apply Forall2_same_length_lookup_2; [lia |]. intros i g w Hg Hw.
    specialize (IH vs ltac:(lia)). rewrite arg_of_cons_ne; [by apply (Forall2_lookup_lr _ _ _ _ _ _ IH Hg Hw) |].
    intros ->. apply Hf. by apply list_elem_of_lookup_2 in Hg.
Qed.

Lemma bind_full {V} params (defaults vals : list V) : (length defaults <= length params)%nat -> length vals = length params ->
  bind params defaults vals [] = Ok vals.
Proof.
  intros Hd Hl. rewrite bind_positional by done. rewrite decide_True by lia. rewrite drop_ge by lia. by rewrite app_nil_r.
Qed.

(** A call of a faithful method is a call of the constructor with the values
    bound to the parameters. *)
Lemma call_encode_spec e args kw : encode_faithful e = true ->
  call_encode e args kw = (vals ← bind (fieldnames (e_class e)) (e_defaults e) args kw; new_message (e_class e) vals).
Proof.
  unfold encode_faithful. rewrite !andb_true_iff, !bool_decide_eq_true. intros (((Hp & Ha) & Hnd) & _).
  unfold call_encode. rewrite Ha, <- Hp. destruct (bind _ _ _ _) as [vals|] eqn:E; [| done]. cbn.
  by rewrite (pass_all _ _ Hnd (bind_length _ _ _ _ _ E)).
Qed.

Lemma call_send_spec s args kw force v : send_faithful s = true -> let mt := e_class (s_encode s) in
  call_send s args kw force v =
  (vals ← se_lift (bind (fieldnames mt) (s_defaults s) args kw); m ← se_lift (new_message mt vals); send m (default false force)) v.
Proof.
  intros Hs mt. unfold send_faithful in Hs. rewrite !andb_true_iff, !bool_decide_eq_true in Hs.
  destruct Hs as (((He & Hp) & Hd) & Ha). unfold call_send. rewrite Ha, Hp. pose proof He as He'. unfold encode_faithful in He'.
  rewrite !andb_true_iff, !bool_decide_eq_true in He'. destruct He' as (((Hp' & _) & Hnd) & Hle). rewrite Hp' in *. fold mt in Hnd, Hle |- *.
  unfold mbind, SE_bind, se_lift. destruct (bind (fieldnames mt) _ args kw) as [vals|] eqn:E; [| done].
  pose proof (bind_length _ _ _ _ _ E) as Hl. rewrite (pass_all _ _ Hnd Hl), call_encode_spec by done. fold mt.
  by rewrite bind_full.
Qed.

End MavMethods.
