(* ===== verification/MavMethods1.v ===== *)
(** The methods sys_status_encode to command_ack_send of the class [MAVLink] of
    wfb_ng/mavlink.py (part 1), in the order of the file. *)
From Stdlib Require Import ZArith.
From stdpp Require Import base list strings.
From S2P Require Import Prelude PyStruct MavMessage MavCatalog1 MavMethods.

Module MavMethods1.
Import PyStruct MavMessage MavCatalog1 MavMethods.
#[local] Open Scope string_scope.
#[local] Open Scope nat_scope.
#[local] Open Scope list_scope.

Definition sys_status_encode : encode_method :=
  {| e_params := ["onboard_control_sensors_present"; "onboard_control_sensors_enabled";
    "onboard_control_sensors_health"; "load"; "voltage_battery"; "current_battery"; "battery_remaining";
    "drop_rate_comm"; "errors_comm"; "errors_count1"; "errors_count2"; "errors_count3"; "errors_count4";
    "onboard_control_sensors_present_extended"; "onboard_control_sensors_enabled_extended";
    "onboard_control_sensors_health_extended"];
     e_defaults := [FScalar (PInt 0); FScalar (PInt 0); FScalar (PInt 0)];
     e_class := MAVLink_sys_status_message;
     e_args := ["onboard_control_sensors_present"; "onboard_control_sensors_enabled";
       "onboard_control_sensors_health"; "load"; "voltage_battery"; "current_battery"; "battery_remaining";
       "drop_rate_comm"; "errors_comm"; "errors_count1"; "errors_count2"; "errors_count3"; "errors_count4";
       "onboard_control_sensors_present_extended"; "onboard_control_sensors_enabled_extended";
       "onboard_control_sensors_health_extended"] |}.

Definition sys_status_send : send_method :=
  {| s_params := ["onboard_control_sensors_present"; "onboard_control_sensors_enabled";
    "onboard_control_sensors_health"; "load"; "voltage_battery"; "current_battery"; "battery_remaining";
    "drop_rate_comm"; "errors_comm"; "errors_count1"; "errors_count2"; "errors_count3"; "errors_count4";
    "onboard_control_sensors_present_extended"; "onboard_control_sensors_enabled_extended";
    "onboard_control_sensors_health_extended"];
     s_defaults := [FScalar (PInt 0); FScalar (PInt 0); FScalar (PInt 0)];
     s_encode := sys_status_encode;
     s_args := ["onboard_control_sensors_present"; "onboard_control_sensors_enabled";
       "onboard_control_sensors_health"; "load"; "voltage_battery"; "current_battery"; "battery_remaining";
       "drop_rate_comm"; "errors_comm"; "errors_count1"; "errors_count2"; "errors_count3"; "errors_count4";
       "onboard_control_sensors_present_extended"; "onboard_control_sensors_enabled_extended";
       "onboard_control_sensors_health_extended"] |}.

Definition system_time_encode : encode_method :=
  {| e_params := ["time_unix_usec"; "time_boot_ms"];
     e_defaults := [];
     e_class := MAVLink_system_time_message;
     e_args := ["time_unix_usec"; "time_boot_ms"] |}.

Definition system_time_send : send_method :=
  {| s_params := ["time_unix_usec"; "time_boot_ms"];
     s_defaults := [];
     s_encode := system_time_encode;
     s_args := ["time_unix_usec"; "time_boot_ms"] |}.

Definition ping_encode : encode_method :=
  {| e_params := ["time_usec"; "seq"; "target_system"; "target_component"];
     e_defaults := [];
     e_class := MAVLink_ping_message;
     e_args := ["time_usec"; "seq"; "target_system"; "target_component"] |}.

Definition ping_send : send_method :=
  {| s_params := ["time_usec"; "seq"; "target_system"; "target_component"];
     s_defaults := [];
     s_encode := ping_encode;
     s_args := ["time_usec"; "seq"; "target_system"; "target_component"] |}.

Definition change_operator_control_encode : encode_method :=
  {| e_params := ["target_system"; "control_request"; "version"; "passkey"];
     e_defaults := [];
     e_class := MAVLink_change_operator_control_message;
     e_args := ["target_system"; "control_request"; "version"; "passkey"] |}.

Definition change_operator_control_send : send_method :=
  {| s_params := ["target_system"; "control_request"; "version"; "passkey"];
     s_defaults := [];
     s_encode := change_operator_control_encode;
     s_args := ["target_system"; "control_request"; "version"; "passkey"] |}.

Definition change_operator_control_ack_encode : encode_method :=
  {| e_params := ["gcs_system_id"; "control_request"; "ack"];
     e_defaults := [];
     e_class := MAVLink_change_operator_control_ack_message;
     e_args := ["gcs_system_id"; "control_request"; "ack"] |}.

Definition change_operator_control_ack_send : send_method :=
  {| s_params := ["gcs_system_id"; "control_request"; "ack"];
     s_defaults := [];
     s_encode := change_operator_control_ack_encode;
     s_args := ["gcs_system_id"; "control_request"; "ack"] |}.

Definition auth_key_encode : encode_method :=
  {| e_params := ["key"];
     e_defaults := [];
     e_class := MAVLink_auth_key_message;
     e_args := ["key"] |}.

Definition auth_key_send : send_method :=
  {| s_params := ["key"];
     s_defaults := [];
     s_encode := auth_key_encode;
     s_args := ["key"] |}.

Definition link_node_status_encode : encode_method :=
  {| e_params := ["timestamp"; "tx_buf"; "rx_buf"; "tx_rate"; "rx_rate"; "rx_parse_err"; "tx_overflows";
    "rx_overflows"; "messages_sent"; "messages_received"; "messages_lost"];
     e_defaults := [];
     e_class := MAVLink_link_node_status_message;
     e_args := ["timestamp"; "tx_buf"; "rx_buf"; "tx_rate"; "rx_rate"; "rx_parse_err"; "tx_overflows";
       "rx_overflows"; "messages_sent"; "messages_received"; "messages_lost"] |}.

Definition link_node_status_send : send_method :=
  {| s_params := ["timestamp"; "tx_buf"; "rx_buf"; "tx_rate"; "rx_rate"; "rx_parse_err"; "tx_overflows";
    "rx_overflows"; "messages_sent"; "messages_received"; "messages_lost"];
     s_defaults := [];
     s_encode := link_node_status_encode;
     s_args := ["timestamp"; "tx_buf"; "rx_buf"; "tx_rate"; "rx_rate"; "rx_parse_err"; "tx_overflows";
       "rx_overflows"; "messages_sent"; "messages_received"; "messages_lost"] |}.

Definition set_mode_encode : encode_method :=
  {| e_params := ["target_system"; "base_mode"; "custom_mode"];
     e_defaults := [];
     e_class := MAVLink_set_mode_message;
     e_args := ["target_system"; "base_mode"; "custom_mode"] |}.

Definition set_mode_send : send_method :=
  {| s_params := ["target_system"; "base_mode"; "custom_mode"];
     s_defaults := [];
     s_encode := set_mode_encode;
     s_args := ["target_system"; "base_mode"; "custom_mode"] |}.

Definition param_request_read_encode : encode_method :=
  {| e_params := ["target_system"; "target_component"; "param_id"; "param_index"];
     e_defaults := [];
     e_class := MAVLink_param_request_read_message;
     e_args := ["target_system"; "target_component"; "param_id"; "param_index"] |}.

Definition param_request_read_send : send_method :=
  {| s_params := ["target_system"; "target_component"; "param_id"; "param_index"];
     s_defaults := [];
     s_encode := param_request_read_encode;
     s_args := ["target_system"; "target_component"; "param_id"; "param_index"] |}.

Definition param_request_list_encode : encode_method :=
  {| e_params := ["target_system"; "target_component"];
     e_defaults := [];
     e_class := MAVLink_param_request_list_message;
     e_args := ["target_system"; "target_component"] |}.

Definition param_request_list_send : send_method :=
  {| s_params := ["target_system"; "target_component"];
     s_defaults := [];
     s_encode := param_request_list_encode;
     s_args := ["target_system"; "target_component"] |}.

Definition param_value_encode : encode_method :=
  {| e_params := ["param_id"; "param_value"; "param_type"; "param_count"; "param_index"];
     e_defaults := [];
     e_class := MAVLink_param_value_message;
     e_args := ["param_id"; "param_value"; "param_type"; "param_count"; "param_index"] |}.

Definition param_value_send : send_method :=
  {| s_params := ["param_id"; "param_value"; "param_type"; "param_count"; "param_index"];
     s_defaults := [];
     s_encode := param_value_encode;
     s_args := ["param_id"; "param_value"; "param_type"; "param_count"; "param_index"] |}.

Definition param_set_encode : encode_method :=
  {| e_params := ["target_system"; "target_component"; "param_id"; "param_value"; "param_type"];
     e_defaults := [];
     e_class := MAVLink_param_set_message;
     e_args := ["target_system"; "target_component"; "param_id"; "param_value"; "param_type"] |}.

Definition param_set_send : send_method :=
  {| s_params := ["target_system"; "target_component"; "param_id"; "param_value"; "param_type"];
     s_defaults := [];
     s_encode := param_set_encode;
     s_args := ["target_system"; "target_component"; "param_id"; "param_value"; "param_type"] |}.

Definition gps_raw_int_encode : encode_method :=
  {| e_params := ["time_usec"; "fix_type"; "lat"; "lon"; "alt"; "eph"; "epv"; "vel"; "cog";
    "satellites_visible"; "alt_ellipsoid"; "h_acc"; "v_acc"; "vel_acc"; "hdg_acc"; "yaw"];
     e_defaults := [FScalar (PInt 0); FScalar (PInt 0); FScalar (PInt 0); FScalar (PInt 0); FScalar (PInt 0);
       FScalar (PInt 0)];
     e_class := MAVLink_gps_raw_int_message;
     e_args := ["time_usec"; "fix_type"; "lat"; "lon"; "alt"; "eph"; "epv"; "vel"; "cog";
       "satellites_visible"; "alt_ellipsoid"; "h_acc"; "v_acc"; "vel_acc"; "hdg_acc"; "yaw"] |}.

Definition gps_raw_int_send : send_method :=
  {| s_params := ["time_usec"; "fix_type"; "lat"; "lon"; "alt"; "eph"; "epv"; "vel"; "cog";
    "satellites_visible"; "alt_ellipsoid"; "h_acc"; "v_acc"; "vel_acc"; "hdg_acc"; "yaw"];
     s_defaults := [FScalar (PInt 0); FScalar (PInt 0); FScalar (PInt 0); FScalar (PInt 0); FScalar (PInt 0);
       FScalar (PInt 0)];
     s_encode := gps_raw_int_encode;
     s_args := ["time_usec"; "fix_type"; "lat"; "lon"; "alt"; "eph"; "epv"; "vel"; "cog";
       "satellites_visible"; "alt_ellipsoid"; "h_acc"; "v_acc"; "vel_acc"; "hdg_acc"; "yaw"] |}.

Definition gps_status_encode : encode_method :=
  {| e_params := ["satellites_visible"; "satellite_prn"; "satellite_used"; "satellite_elevation";
    "satellite_azimuth"; "satellite_snr"];
     e_defaults := [];
     e_class := MAVLink_gps_status_message;
     e_args := ["satellites_visible"; "satellite_prn"; "satellite_used"; "satellite_elevation";
       "satellite_azimuth"; "satellite_snr"] |}.

Definition gps_status_send : send_method :=
  {| s_params := ["satellites_visible"; "satellite_prn"; "satellite_used"; "satellite_elevation";
    "satellite_azimuth"; "satellite_snr"];
     s_defaults := [];
     s_encode := gps_status_encode;
     s_args := ["satellites_visible"; "satellite_prn"; "satellite_used"; "satellite_elevation";
       "satellite_azimuth"; "satellite_snr"] |}.

Definition scaled_imu_encode : encode_method :=
  {| e_params := ["time_boot_ms"; "xacc"; "yacc"; "zacc"; "xgyro"; "ygyro"; "zgyro"; "xmag"; "ymag"; "zmag";
    "temperature"];
     e_defaults := [FScalar (PInt 0)];
     e_class := MAVLink_scaled_imu_message;
     e_args := ["time_boot_ms"; "xacc"; "yacc"; "zacc"; "xgyro"; "ygyro"; "zgyro"; "xmag"; "ymag"; "zmag";
       "temperature"] |}.

Definition scaled_imu_send : send_method :=
  {| s_params := ["time_boot_ms"; "xacc"; "yacc"; "zacc"; "xgyro"; "ygyro"; "zgyro"; "xmag"; "ymag"; "zmag";
    "temperature"];
     s_defaults := [FScalar (PInt 0)];
     s_encode := scaled_imu_encode;
     s_args := ["time_boot_ms"; "xacc"; "yacc"; "zacc"; "xgyro"; "ygyro"; "zgyro"; "xmag"; "ymag"; "zmag";
       "temperature"] |}.

Definition raw_imu_encode : encode_method :=
  {| e_params := ["time_usec"; "xacc"; "yacc"; "zacc"; "xgyro"; "ygyro"; "zgyro"; "xmag"; "ymag"; "zmag";
    "id"; "temperature"];
     e_defaults := [FScalar (PInt 0); FScalar (PInt 0)];
     e_class := MAVLink_raw_imu_message;
     e_args := ["time_usec"; "xacc"; "yacc"; "zacc"; "xgyro"; "ygyro"; "zgyro"; "xmag"; "ymag"; "zmag"; "id";
       "temperature"] |}.

Definition raw_imu_send : send_method :=
  {| s_params := ["time_usec"; "xacc"; "yacc"; "zacc"; "xgyro"; "ygyro"; "zgyro"; "xmag"; "ymag"; "zmag";
    "id"; "temperature"];
     s_defaults := [FScalar (PInt 0); FScalar (PInt 0)];
     s_encode := raw_imu_encode;
     s_args := ["time_usec"; "xacc"; "yacc"; "zacc"; "xgyro"; "ygyro"; "zgyro"; "xmag"; "ymag"; "zmag"; "id";
       "temperature"] |}.

Definition raw_pressure_encode : encode_method :=
  {| e_params := ["time_usec"; "press_abs"; "press_diff1"; "press_diff2"; "temperature"];
     e_defaults := [];
     e_class := MAVLink_raw_pressure_message;
     e_args := ["time_usec"; "press_abs"; "press_diff1"; "press_diff2"; "temperature"] |}.

Definition raw_pressure_send : send_method :=
  {| s_params := ["time_usec"; "press_abs"; "press_diff1"; "press_diff2"; "temperature"];
     s_defaults := [];
     s_encode := raw_pressure_encode;
     s_args := ["time_usec"; "press_abs"; "press_diff1"; "press_diff2"; "temperature"] |}.

Definition scaled_pressure_encode : encode_method :=
  {| e_params := ["time_boot_ms"; "press_abs"; "press_diff"; "temperature"; "temperature_press_diff"];
     e_defaults := [FScalar (PInt 0)];
     e_class := MAVLink_scaled_pressure_message;
     e_args := ["time_boot_ms"; "press_abs"; "press_diff"; "temperature"; "temperature_press_diff"] |}.

Definition scaled_pressure_send : send_method :=
  {| s_params := ["time_boot_ms"; "press_abs"; "press_diff"; "temperature"; "temperature_press_diff"];
     s_defaults := [FScalar (PInt 0)];
     s_encode := scaled_pressure_encode;
     s_args := ["time_boot_ms"; "press_abs"; "press_diff"; "temperature"; "temperature_press_diff"] |}.

Definition attitude_encode : encode_method :=
  {| e_params := ["time_boot_ms"; "roll"; "pitch"; "yaw"; "rollspeed"; "pitchspeed"; "yawspeed"];
     e_defaults := [];
     e_class := MAVLink_attitude_message;
     e_args := ["time_boot_ms"; "roll"; "pitch"; "yaw"; "rollspeed"; "pitchspeed"; "yawspeed"] |}.

Definition attitude_send : send_method :=
  {| s_params := ["time_boot_ms"; "roll"; "pitch"; "yaw"; "rollspeed"; "pitchspeed"; "yawspeed"];
     s_defaults := [];
     s_encode := attitude_encode;
     s_args := ["time_boot_ms"; "roll"; "pitch"; "yaw"; "rollspeed"; "pitchspeed"; "yawspeed"] |}.

Definition attitude_quaternion_encode : encode_method :=
  {| e_params := ["time_boot_ms"; "q1"; "q2"; "q3"; "q4"; "rollspeed"; "pitchspeed"; "yawspeed";
    "repr_offset_q"];
     e_defaults := [FArray (replicate 4 (PInt 0))];
     e_class := MAVLink_attitude_quaternion_message;
     e_args := ["time_boot_ms"; "q1"; "q2"; "q3"; "q4"; "rollspeed"; "pitchspeed"; "yawspeed";
       "repr_offset_q"] |}.

Definition attitude_quaternion_send : send_method :=
  {| s_params := ["time_boot_ms"; "q1"; "q2"; "q3"; "q4"; "rollspeed"; "pitchspeed"; "yawspeed";
    "repr_offset_q"];
     s_defaults := [FArray (replicate 4 (PInt 0))];
     s_encode := attitude_quaternion_encode;
     s_args := ["time_boot_ms"; "q1"; "q2"; "q3"; "q4"; "rollspeed"; "pitchspeed"; "yawspeed";
       "repr_offset_q"] |}.

Definition local_position_ned_encode : encode_method :=
  {| e_params := ["time_boot_ms"; "x"; "y"; "z"; "vx"; "vy"; "vz"];
     e_defaults := [];
     e_class := MAVLink_local_position_ned_message;
     e_args := ["time_boot_ms"; "x"; "y"; "z"; "vx"; "vy"; "vz"] |}.

Definition local_position_ned_send : send_method :=
  {| s_params := ["time_boot_ms"; "x"; "y"; "z"; "vx"; "vy"; "vz"];
     s_defaults := [];
     s_encode := local_position_ned_encode;
     s_args := ["time_boot_ms"; "x"; "y"; "z"; "vx"; "vy"; "vz"] |}.

Definition global_position_int_encode : encode_method :=
  {| e_params := ["time_boot_ms"; "lat"; "lon"; "alt"; "relative_alt"; "vx"; "vy"; "vz"; "hdg"];
     e_defaults := [];
     e_class := MAVLink_global_position_int_message;
     e_args := ["time_boot_ms"; "lat"; "lon"; "alt"; "relative_alt"; "vx"; "vy"; "vz"; "hdg"] |}.

Definition global_position_int_send : send_method :=
  {| s_params := ["time_boot_ms"; "lat"; "lon"; "alt"; "relative_alt"; "vx"; "vy"; "vz"; "hdg"];
     s_defaults := [];
     s_encode := global_position_int_encode;
     s_args := ["time_boot_ms"; "lat"; "lon"; "alt"; "relative_alt"; "vx"; "vy"; "vz"; "hdg"] |}.

Definition rc_channels_scaled_encode : encode_method :=
  {| e_params := ["time_boot_ms"; "port"; "chan1_scaled"; "chan2_scaled"; "chan3_scaled"; "chan4_scaled";
    "chan5_scaled"; "chan6_scaled"; "chan7_scaled"; "chan8_scaled"; "rssi"];
     e_defaults := [];
     e_class := MAVLink_rc_channels_scaled_message;
     e_args := ["time_boot_ms"; "port"; "chan1_scaled"; "chan2_scaled"; "chan3_scaled"; "chan4_scaled";
       "chan5_scaled"; "chan6_scaled"; "chan7_scaled"; "chan8_scaled"; "rssi"] |}.

Definition rc_channels_scaled_send : send_method :=
  {| s_params := ["time_boot_ms"; "port"; "chan1_scaled"; "chan2_scaled"; "chan3_scaled"; "chan4_scaled";
    "chan5_scaled"; "chan6_scaled"; "chan7_scaled"; "chan8_scaled"; "rssi"];
     s_defaults := [];
     s_encode := rc_channels_scaled_encode;
     s_args := ["time_boot_ms"; "port"; "chan1_scaled"; "chan2_scaled"; "chan3_scaled"; "chan4_scaled";
       "chan5_scaled"; "chan6_scaled"; "chan7_scaled"; "chan8_scaled"; "rssi"] |}.

Definition rc_channels_raw_encode : encode_method :=
  {| e_params := ["time_boot_ms"; "port"; "chan1_raw"; "chan2_raw"; "chan3_raw"; "chan4_raw"; "chan5_raw";
    "chan6_raw"; "chan7_raw"; "chan8_raw"; "rssi"];
     e_defaults := [];
     e_class := MAVLink_rc_channels_raw_message;
     e_args := ["time_boot_ms"; "port"; "chan1_raw"; "chan2_raw"; "chan3_raw"; "chan4_raw"; "chan5_raw";
       "chan6_raw"; "chan7_raw"; "chan8_raw"; "rssi"] |}.

Definition rc_channels_raw_send : send_method :=
  {| s_params := ["time_boot_ms"; "port"; "chan1_raw"; "chan2_raw"; "chan3_raw"; "chan4_raw"; "chan5_raw";
    "chan6_raw"; "chan7_raw"; "chan8_raw"; "rssi"];
     s_defaults := [];
     s_encode := rc_channels_raw_encode;
     s_args := ["time_boot_ms"; "port"; "chan1_raw"; "chan2_raw"; "chan3_raw"; "chan4_raw"; "chan5_raw";
       "chan6_raw"; "chan7_raw"; "chan8_raw"; "rssi"] |}.

Definition servo_output_raw_encode : encode_method :=
  {| e_params := ["time_usec"; "port"; "servo1_raw"; "servo2_raw"; "servo3_raw"; "servo4_raw"; "servo5_raw";
    "servo6_raw"; "servo7_raw"; "servo8_raw"; "servo9_raw"; "servo10_raw"; "servo11_raw"; "servo12_raw";
    "servo13_raw"; "servo14_raw"; "servo15_raw"; "servo16_raw"];
     e_defaults := [FScalar (PInt 0); FScalar (PInt 0); FScalar (PInt 0); FScalar (PInt 0); FScalar (PInt 0);
       FScalar (PInt 0); FScalar (PInt 0); FScalar (PInt 0)];
     e_class := MAVLink_servo_output_raw_message;
     e_args := ["time_usec"; "port"; "servo1_raw"; "servo2_raw"; "servo3_raw"; "servo4_raw"; "servo5_raw";
       "servo6_raw"; "servo7_raw"; "servo8_raw"; "servo9_raw"; "servo10_raw"; "servo11_raw"; "servo12_raw";
       "servo13_raw"; "servo14_raw"; "servo15_raw"; "servo16_raw"] |}.

Definition servo_output_raw_send : send_method :=
  {| s_params := ["time_usec"; "port"; "servo1_raw"; "servo2_raw"; "servo3_raw"; "servo4_raw"; "servo5_raw";
    "servo6_raw"; "servo7_raw"; "servo8_raw"; "servo9_raw"; "servo10_raw"; "servo11_raw"; "servo12_raw";
    "servo13_raw"; "servo14_raw"; "servo15_raw"; "servo16_raw"];
     s_defaults := [FScalar (PInt 0); FScalar (PInt 0); FScalar (PInt 0); FScalar (PInt 0); FScalar (PInt 0);
       FScalar (PInt 0); FScalar (PInt 0); FScalar (PInt 0)];
     s_encode := servo_output_raw_encode;
     s_args := ["time_usec"; "port"; "servo1_raw"; "servo2_raw"; "servo3_raw"; "servo4_raw"; "servo5_raw";
       "servo6_raw"; "servo7_raw"; "servo8_raw"; "servo9_raw"; "servo10_raw"; "servo11_raw"; "servo12_raw";
       "servo13_raw"; "servo14_raw"; "servo15_raw"; "servo16_raw"] |}.

Definition mission_request_partial_list_encode : encode_method :=
  {| e_params := ["target_system"; "target_component"; "start_index"; "end_index"; "mission_type"];
     e_defaults := [FScalar (PInt 0)];
     e_class := MAVLink_mission_request_partial_list_message;
     e_args := ["target_system"; "target_component"; "start_index"; "end_index"; "mission_type"] |}.

Definition mission_request_partial_list_send : send_method :=
  {| s_params := ["target_system"; "target_component"; "start_index"; "end_index"; "mission_type"];
     s_defaults := [FScalar (PInt 0)];
     s_encode := mission_request_partial_list_encode;
     s_args := ["target_system"; "target_component"; "start_index"; "end_index"; "mission_type"] |}.

Definition mission_write_partial_list_encode : encode_method :=
  {| e_params := ["target_system"; "target_component"; "start_index"; "end_index"; "mission_type"];
     e_defaults := [FScalar (PInt 0)];
     e_class := MAVLink_mission_write_partial_list_message;
     e_args := ["target_system"; "target_component"; "start_index"; "end_index"; "mission_type"] |}.

Definition mission_write_partial_list_send : send_method :=
  {| s_params := ["target_system"; "target_component"; "start_index"; "end_index"; "mission_type"];
     s_defaults := [FScalar (PInt 0)];
     s_encode := mission_write_partial_list_encode;
     s_args := ["target_system"; "target_component"; "start_index"; "end_index"; "mission_type"] |}.

Definition mission_item_encode : encode_method :=
  {| e_params := ["target_system"; "target_component"; "seq"; "frame"; "command"; "current"; "autocontinue";
    "param1"; "param2"; "param3"; "param4"; "x"; "y"; "z"; "mission_type"];
     e_defaults := [FScalar (PInt 0)];
     e_class := MAVLink_mission_item_message;
     e_args := ["target_system"; "target_component"; "seq"; "frame"; "command"; "current"; "autocontinue";
       "param1"; "param2"; "param3"; "param4"; "x"; "y"; "z"; "mission_type"] |}.

Definition mission_item_send : send_method :=
  {| s_params := ["target_system"; "target_component"; "seq"; "frame"; "command"; "current"; "autocontinue";
    "param1"; "param2"; "param3"; "param4"; "x"; "y"; "z"; "mission_type"];
     s_defaults := [FScalar (PInt 0)];
     s_encode := mission_item_encode;
     s_args := ["target_system"; "target_component"; "seq"; "frame"; "command"; "current"; "autocontinue";
       "param1"; "param2"; "param3"; "param4"; "x"; "y"; "z"; "mission_type"] |}.

Definition mission_request_encode : encode_method :=
  {| e_params := ["target_system"; "target_component"; "seq"; "mission_type"];
     e_defaults := [FScalar (PInt 0)];
     e_class := MAVLink_mission_request_message;
     e_args := ["target_system"; "target_component"; "seq"; "mission_type"] |}.

Definition mission_request_send : send_method :=
  {| s_params := ["target_system"; "target_component"; "seq"; "mission_type"];
     s_defaults := [FScalar (PInt 0)];
     s_encode := mission_request_encode;
     s_args := ["target_system"; "target_component"; "seq"; "mission_type"] |}.

Definition mission_set_current_encode : encode_method :=
  {| e_params := ["target_system"; "target_component"; "seq"];
     e_defaults := [];
     e_class := MAVLink_mission_set_current_message;
     e_args := ["target_system"; "target_component"; "seq"] |}.

Definition mission_set_current_send : send_method :=
  {| s_params := ["target_system"; "target_component"; "seq"];
     s_defaults := [];
     s_encode := mission_set_current_encode;
     s_args := ["target_system"; "target_component"; "seq"] |}.

Definition mission_current_encode : encode_method :=
  {| e_params := ["seq"; "total"; "mission_state"; "mission_mode"];
     e_defaults := [FScalar (PInt 0); FScalar (PInt 0); FScalar (PInt 0)];
     e_class := MAVLink_mission_current_message;
     e_args := ["seq"; "total"; "mission_state"; "mission_mode"] |}.

Definition mission_current_send : send_method :=
  {| s_params := ["seq"; "total"; "mission_state"; "mission_mode"];
     s_defaults := [FScalar (PInt 0); FScalar (PInt 0); FScalar (PInt 0)];
     s_encode := mission_current_encode;
     s_args := ["seq"; "total"; "mission_state"; "mission_mode"] |}.

Definition mission_request_list_encode : encode_method :=
  {| e_params := ["target_system"; "target_component"; "mission_type"];
     e_defaults := [FScalar (PInt 0)];
     e_class := MAVLink_mission_request_list_message;
     e_args := ["target_system"; "target_component"; "mission_type"] |}.

Definition mission_request_list_send : send_method :=
  {| s_params := ["target_system"; "target_component"; "mission_type"];
     s_defaults := [FScalar (PInt 0)];
     s_encode := mission_request_list_encode;
     s_args := ["target_system"; "target_component"; "mission_type"] |}.

Definition mission_count_encode : encode_method :=
  {| e_params := ["target_system"; "target_component"; "count"; "mission_type"];
     e_defaults := [FScalar (PInt 0)];
     e_class := MAVLink_mission_count_message;
     e_args := ["target_system"; "target_component"; "count"; "mission_type"] |}.

Definition mission_count_send : send_method :=
  {| s_params := ["target_system"; "target_component"; "count"; "mission_type"];
     s_defaults := [FScalar (PInt 0)];
     s_encode := mission_count_encode;
     s_args := ["target_system"; "target_component"; "count"; "mission_type"] |}.

Definition mission_clear_all_encode : encode_method :=
  {| e_params := ["target_system"; "target_component"; "mission_type"];
     e_defaults := [FScalar (PInt 0)];
     e_class := MAVLink_mission_clear_all_message;
     e_args := ["target_system"; "target_component"; "mission_type"] |}.

Definition mission_clear_all_send : send_method :=
  {| s_params := ["target_system"; "target_component"; "mission_type"];
     s_defaults := [FScalar (PInt 0)];
     s_encode := mission_clear_all_encode;
     s_args := ["target_system"; "target_component"; "mission_type"] |}.

Definition mission_item_reached_encode : encode_method :=
  {| e_params := ["seq"];
     e_defaults := [];
     e_class := MAVLink_mission_item_reached_message;
     e_args := ["seq"] |}.

Definition mission_item_reached_send : send_method :=
  {| s_params := ["seq"];
     s_defaults := [];
     s_encode := mission_item_reached_encode;
     s_args := ["seq"] |}.

Definition mission_ack_encode : encode_method :=
  {| e_params := ["target_system"; "target_component"; "type"; "mission_type"];
     e_defaults := [FScalar (PInt 0)];
     e_class := MAVLink_mission_ack_message;
     e_args := ["target_system"; "target_component"; "type"; "mission_type"] |}.

Definition mission_ack_send : send_method :=
  {| s_params := ["target_system"; "target_component"; "type"; "mission_type"];
     s_defaults := [FScalar (PInt 0)];
     s_encode := mission_ack_encode;
     s_args := ["target_system"; "target_component"; "type"; "mission_type"] |}.

Definition set_gps_global_origin_encode : encode_method :=
  {| e_params := ["target_system"; "latitude"; "longitude"; "altitude"; "time_usec"];
     e_defaults := [FScalar (PInt 0)];
     e_class := MAVLink_set_gps_global_origin_message;
     e_args := ["target_system"; "latitude"; "longitude"; "altitude"; "time_usec"] |}.

Definition set_gps_global_origin_send : send_method :=
  {| s_params := ["target_system"; "latitude"; "longitude"; "altitude"; "time_usec"];
     s_defaults := [FScalar (PInt 0)];
     s_encode := set_gps_global_origin_encode;
     s_args := ["target_system"; "latitude"; "longitude"; "altitude"; "time_usec"] |}.

Definition gps_global_origin_encode : encode_method :=
  {| e_params := ["latitude"; "longitude"; "altitude"; "time_usec"];
     e_defaults := [FScalar (PInt 0)];
     e_class := MAVLink_gps_global_origin_message;
     e_args := ["latitude"; "longitude"; "altitude"; "time_usec"] |}.

Definition gps_global_origin_send : send_method :=
  {| s_params := ["latitude"; "longitude"; "altitude"; "time_usec"];
     s_defaults := [FScalar (PInt 0)];
     s_encode := gps_global_origin_encode;
     s_args := ["latitude"; "longitude"; "altitude"; "time_usec"] |}.

Definition param_map_rc_encode : encode_method :=
  {| e_params := ["target_system"; "target_component"; "param_id"; "param_index";
    "parameter_rc_channel_index"; "param_value0"; "scale"; "param_value_min"; "param_value_max"];
     e_defaults := [];
     e_class := MAVLink_param_map_rc_message;
     e_args := ["target_system"; "target_component"; "param_id"; "param_index"; "parameter_rc_channel_index";
       "param_value0"; "scale"; "param_value_min"; "param_value_max"] |}.

Definition param_map_rc_send : send_method :=
  {| s_params := ["target_system"; "target_component"; "param_id"; "param_index";
    "parameter_rc_channel_index"; "param_value0"; "scale"; "param_value_min"; "param_value_max"];
     s_defaults := [];
     s_encode := param_map_rc_encode;
     s_args := ["target_system"; "target_component"; "param_id"; "param_index"; "parameter_rc_channel_index";
       "param_value0"; "scale"; "param_value_min"; "param_value_max"] |}.

Definition mission_request_int_encode : encode_method :=
  {| e_params := ["target_system"; "target_component"; "seq"; "mission_type"];
     e_defaults := [FScalar (PInt 0)];
     e_class := MAVLink_mission_request_int_message;
     e_args := ["target_system"; "target_component"; "seq"; "mission_type"] |}.

Definition mission_request_int_send : send_method :=
  {| s_params := ["target_system"; "target_component"; "seq"; "mission_type"];
     s_defaults := [FScalar (PInt 0)];
     s_encode := mission_request_int_encode;
     s_args := ["target_system"; "target_component"; "seq"; "mission_type"] |}.

Definition safety_set_allowed_area_encode : encode_method :=
  {| e_params := ["target_system"; "target_component"; "frame"; "p1x"; "p1y"; "p1z"; "p2x"; "p2y"; "p2z"];
     e_defaults := [];
     e_class := MAVLink_safety_set_allowed_area_message;
     e_args := ["target_system"; "target_component"; "frame"; "p1x"; "p1y"; "p1z"; "p2x"; "p2y"; "p2z"] |}.

Definition safety_set_allowed_area_send : send_method :=
  {| s_params := ["target_system"; "target_component"; "frame"; "p1x"; "p1y"; "p1z"; "p2x"; "p2y"; "p2z"];
     s_defaults := [];
     s_encode := safety_set_allowed_area_encode;
     s_args := ["target_system"; "target_component"; "frame"; "p1x"; "p1y"; "p1z"; "p2x"; "p2y"; "p2z"] |}.

Definition safety_allowed_area_encode : encode_method :=
  {| e_params := ["frame"; "p1x"; "p1y"; "p1z"; "p2x"; "p2y"; "p2z"];
     e_defaults := [];
     e_class := MAVLink_safety_allowed_area_message;
     e_args := ["frame"; "p1x"; "p1y"; "p1z"; "p2x"; "p2y"; "p2z"] |}.

Definition safety_allowed_area_send : send_method :=
  {| s_params := ["frame"; "p1x"; "p1y"; "p1z"; "p2x"; "p2y"; "p2z"];
     s_defaults := [];
     s_encode := safety_allowed_area_encode;
     s_args := ["frame"; "p1x"; "p1y"; "p1z"; "p2x"; "p2y"; "p2z"] |}.

Definition attitude_quaternion_cov_encode : encode_method :=
  {| e_params := ["time_usec"; "q"; "rollspeed"; "pitchspeed"; "yawspeed"; "covariance"];
     e_defaults := [];
     e_class := MAVLink_attitude_quaternion_cov_message;
     e_args := ["time_usec"; "q"; "rollspeed"; "pitchspeed"; "yawspeed"; "covariance"] |}.

Definition attitude_quaternion_cov_send : send_method :=
  {| s_params := ["time_usec"; "q"; "rollspeed"; "pitchspeed"; "yawspeed"; "covariance"];
     s_defaults := [];
     s_encode := attitude_quaternion_cov_encode;
     s_args := ["time_usec"; "q"; "rollspeed"; "pitchspeed"; "yawspeed"; "covariance"] |}.

Definition nav_controller_output_encode : encode_method :=
  {| e_params := ["nav_roll"; "nav_pitch"; "nav_bearing"; "target_bearing"; "wp_dist"; "alt_error";
    "aspd_error"; "xtrack_error"];
     e_defaults := [];
     e_class := MAVLink_nav_controller_output_message;
     e_args := ["nav_roll"; "nav_pitch"; "nav_bearing"; "target_bearing"; "wp_dist"; "alt_error";
       "aspd_error"; "xtrack_error"] |}.

Definition nav_controller_output_send : send_method :=
  {| s_params := ["nav_roll"; "nav_pitch"; "nav_bearing"; "target_bearing"; "wp_dist"; "alt_error";
    "aspd_error"; "xtrack_error"];
     s_defaults := [];
     s_encode := nav_controller_output_encode;
     s_args := ["nav_roll"; "nav_pitch"; "nav_bearing"; "target_bearing"; "wp_dist"; "alt_error";
       "aspd_error"; "xtrack_error"] |}.

Definition global_position_int_cov_encode : encode_method :=
  {| e_params := ["time_usec"; "estimator_type"; "lat"; "lon"; "alt"; "relative_alt"; "vx"; "vy"; "vz";
    "covariance"];
     e_defaults := [];
     e_class := MAVLink_global_position_int_cov_message;
     e_args := ["time_usec"; "estimator_type"; "lat"; "lon"; "alt"; "relative_alt"; "vx"; "vy"; "vz";
       "covariance"] |}.

Definition global_position_int_cov_send : send_method :=
  {| s_params := ["time_usec"; "estimator_type"; "lat"; "lon"; "alt"; "relative_alt"; "vx"; "vy"; "vz";
    "covariance"];
     s_defaults := [];
     s_encode := global_position_int_cov_encode;
     s_args := ["time_usec"; "estimator_type"; "lat"; "lon"; "alt"; "relative_alt"; "vx"; "vy"; "vz";
       "covariance"] |}.

Definition local_position_ned_cov_encode : encode_method :=
  {| e_params := ["time_usec"; "estimator_type"; "x"; "y"; "z"; "vx"; "vy"; "vz"; "ax"; "ay"; "az";
    "covariance"];
     e_defaults := [];
     e_class := MAVLink_local_position_ned_cov_message;
     e_args := ["time_usec"; "estimator_type"; "x"; "y"; "z"; "vx"; "vy"; "vz"; "ax"; "ay"; "az";
       "covariance"] |}.

Definition local_position_ned_cov_send : send_method :=
  {| s_params := ["time_usec"; "estimator_type"; "x"; "y"; "z"; "vx"; "vy"; "vz"; "ax"; "ay"; "az";
    "covariance"];
     s_defaults := [];
     s_encode := local_position_ned_cov_encode;
     s_args := ["time_usec"; "estimator_type"; "x"; "y"; "z"; "vx"; "vy"; "vz"; "ax"; "ay"; "az";
       "covariance"] |}.

Definition rc_channels_encode : encode_method :=
  {| e_params := ["time_boot_ms"; "chancount"; "chan1_raw"; "chan2_raw"; "chan3_raw"; "chan4_raw";
    "chan5_raw"; "chan6_raw"; "chan7_raw"; "chan8_raw"; "chan9_raw"; "chan10_raw"; "chan11_raw";
    "chan12_raw"; "chan13_raw"; "chan14_raw"; "chan15_raw"; "chan16_raw"; "chan17_raw"; "chan18_raw"; "rssi"];
     e_defaults := [];
     e_class := MAVLink_rc_channels_message;
     e_args := ["time_boot_ms"; "chancount"; "chan1_raw"; "chan2_raw"; "chan3_raw"; "chan4_raw"; "chan5_raw";
       "chan6_raw"; "chan7_raw"; "chan8_raw"; "chan9_raw"; "chan10_raw"; "chan11_raw"; "chan12_raw";
       "chan13_raw"; "chan14_raw"; "chan15_raw"; "chan16_raw"; "chan17_raw"; "chan18_raw"; "rssi"] |}.

Definition rc_channels_send : send_method :=
  {| s_params := ["time_boot_ms"; "chancount"; "chan1_raw"; "chan2_raw"; "chan3_raw"; "chan4_raw";
    "chan5_raw"; "chan6_raw"; "chan7_raw"; "chan8_raw"; "chan9_raw"; "chan10_raw"; "chan11_raw";
    "chan12_raw"; "chan13_raw"; "chan14_raw"; "chan15_raw"; "chan16_raw"; "chan17_raw"; "chan18_raw"; "rssi"];
     s_defaults := [];
     s_encode := rc_channels_encode;
     s_args := ["time_boot_ms"; "chancount"; "chan1_raw"; "chan2_raw"; "chan3_raw"; "chan4_raw"; "chan5_raw";
       "chan6_raw"; "chan7_raw"; "chan8_raw"; "chan9_raw"; "chan10_raw"; "chan11_raw"; "chan12_raw";
       "chan13_raw"; "chan14_raw"; "chan15_raw"; "chan16_raw"; "chan17_raw"; "chan18_raw"; "rssi"] |}.

Definition request_data_stream_encode : encode_method :=
  {| e_params := ["target_system"; "target_component"; "req_stream_id"; "req_message_rate"; "start_stop"];
     e_defaults := [];
     e_class := MAVLink_request_data_stream_message;
     e_args := ["target_system"; "target_component"; "req_stream_id"; "req_message_rate"; "start_stop"] |}.

Definition request_data_stream_send : send_method :=
  {| s_params := ["target_system"; "target_component"; "req_stream_id"; "req_message_rate"; "start_stop"];
     s_defaults := [];
     s_encode := request_data_stream_encode;
     s_args := ["target_system"; "target_component"; "req_stream_id"; "req_message_rate"; "start_stop"] |}.

Definition data_stream_encode : encode_method :=
  {| e_params := ["stream_id"; "message_rate"; "on_off"];
     e_defaults := [];
     e_class := MAVLink_data_stream_message;
     e_args := ["stream_id"; "message_rate"; "on_off"] |}.

Definition data_stream_send : send_method :=
  {| s_params := ["stream_id"; "message_rate"; "on_off"];
     s_defaults := [];
     s_encode := data_stream_encode;
     s_args := ["stream_id"; "message_rate"; "on_off"] |}.

Definition manual_control_encode : encode_method :=
  {| e_params := ["target"; "x"; "y"; "z"; "r"; "buttons"; "buttons2"; "enabled_extensions"; "s"; "t"];
     e_defaults := [FScalar (PInt 0); FScalar (PInt 0); FScalar (PInt 0); FScalar (PInt 0)];
     e_class := MAVLink_manual_control_message;
     e_args := ["target"; "x"; "y"; "z"; "r"; "buttons"; "buttons2"; "enabled_extensions"; "s"; "t"] |}.

Definition manual_control_send : send_method :=
  {| s_params := ["target"; "x"; "y"; "z"; "r"; "buttons"; "buttons2"; "enabled_extensions"; "s"; "t"];
     s_defaults := [FScalar (PInt 0); FScalar (PInt 0); FScalar (PInt 0); FScalar (PInt 0)];
     s_encode := manual_control_encode;
     s_args := ["target"; "x"; "y"; "z"; "r"; "buttons"; "buttons2"; "enabled_extensions"; "s"; "t"] |}.

Definition rc_channels_override_encode : encode_method :=
  {| e_params := ["target_system"; "target_component"; "chan1_raw"; "chan2_raw"; "chan3_raw"; "chan4_raw";
    "chan5_raw"; "chan6_raw"; "chan7_raw"; "chan8_raw"; "chan9_raw"; "chan10_raw"; "chan11_raw";
    "chan12_raw"; "chan13_raw"; "chan14_raw"; "chan15_raw"; "chan16_raw"; "chan17_raw"; "chan18_raw"];
     e_defaults := [FScalar (PInt 0); FScalar (PInt 0); FScalar (PInt 0); FScalar (PInt 0); FScalar (PInt 0);
       FScalar (PInt 0); FScalar (PInt 0); FScalar (PInt 0); FScalar (PInt 0); FScalar (PInt 0)];
     e_class := MAVLink_rc_channels_override_message;
     e_args := ["target_system"; "target_component"; "chan1_raw"; "chan2_raw"; "chan3_raw"; "chan4_raw";
       "chan5_raw"; "chan6_raw"; "chan7_raw"; "chan8_raw"; "chan9_raw"; "chan10_raw"; "chan11_raw";
       "chan12_raw"; "chan13_raw"; "chan14_raw"; "chan15_raw"; "chan16_raw"; "chan17_raw"; "chan18_raw"] |}.

Definition rc_channels_override_send : send_method :=
  {| s_params := ["target_system"; "target_component"; "chan1_raw"; "chan2_raw"; "chan3_raw"; "chan4_raw";
    "chan5_raw"; "chan6_raw"; "chan7_raw"; "chan8_raw"; "chan9_raw"; "chan10_raw"; "chan11_raw";
    "chan12_raw"; "chan13_raw"; "chan14_raw"; "chan15_raw"; "chan16_raw"; "chan17_raw"; "chan18_raw"];
     s_defaults := [FScalar (PInt 0); FScalar (PInt 0); FScalar (PInt 0); FScalar (PInt 0); FScalar (PInt 0);
       FScalar (PInt 0); FScalar (PInt 0); FScalar (PInt 0); FScalar (PInt 0); FScalar (PInt 0)];
     s_encode := rc_channels_override_encode;
     s_args := ["target_system"; "target_component"; "chan1_raw"; "chan2_raw"; "chan3_raw"; "chan4_raw";
       "chan5_raw"; "chan6_raw"; "chan7_raw"; "chan8_raw"; "chan9_raw"; "chan10_raw"; "chan11_raw";
       "chan12_raw"; "chan13_raw"; "chan14_raw"; "chan15_raw"; "chan16_raw"; "chan17_raw"; "chan18_raw"] |}.

Definition mission_item_int_encode : encode_method :=
  {| e_params := ["target_system"; "target_component"; "seq"; "frame"; "command"; "current"; "autocontinue";
    "param1"; "param2"; "param3"; "param4"; "x"; "y"; "z"; "mission_type"];
     e_defaults := [FScalar (PInt 0)];
     e_class := MAVLink_mission_item_int_message;
     e_args := ["target_system"; "target_component"; "seq"; "frame"; "command"; "current"; "autocontinue";
       "param1"; "param2"; "param3"; "param4"; "x"; "y"; "z"; "mission_type"] |}.

Definition mission_item_int_send : send_method :=
  {| s_params := ["target_system"; "target_component"; "seq"; "frame"; "command"; "current"; "autocontinue";
    "param1"; "param2"; "param3"; "param4"; "x"; "y"; "z"; "mission_type"];
     s_defaults := [FScalar (PInt 0)];
     s_encode := mission_item_int_encode;
     s_args := ["target_system"; "target_component"; "seq"; "frame"; "command"; "current"; "autocontinue";
       "param1"; "param2"; "param3"; "param4"; "x"; "y"; "z"; "mission_type"] |}.

Definition vfr_hud_encode : encode_method :=
  {| e_params := ["airspeed"; "groundspeed"; "heading"; "throttle"; "alt"; "climb"];
     e_defaults := [];
     e_class := MAVLink_vfr_hud_message;
     e_args := ["airspeed"; "groundspeed"; "heading"; "throttle"; "alt"; "climb"] |}.

Definition vfr_hud_send : send_method :=
  {| s_params := ["airspeed"; "groundspeed"; "heading"; "throttle"; "alt"; "climb"];
     s_defaults := [];
     s_encode := vfr_hud_encode;
     s_args := ["airspeed"; "groundspeed"; "heading"; "throttle"; "alt"; "climb"] |}.

Definition command_int_encode : encode_method :=
  {| e_params := ["target_system"; "target_component"; "frame"; "command"; "current"; "autocontinue";
    "param1"; "param2"; "param3"; "param4"; "x"; "y"; "z"];
     e_defaults := [];
     e_class := MAVLink_command_int_message;
     e_args := ["target_system"; "target_component"; "frame"; "command"; "current"; "autocontinue"; "param1";
       "param2"; "param3"; "param4"; "x"; "y"; "z"] |}.

Definition command_int_send : send_method :=
  {| s_params := ["target_system"; "target_component"; "frame"; "command"; "current"; "autocontinue";
    "param1"; "param2"; "param3"; "param4"; "x"; "y"; "z"];
     s_defaults := [];
     s_encode := command_int_encode;
     s_args := ["target_system"; "target_component"; "frame"; "command"; "current"; "autocontinue"; "param1";
       "param2"; "param3"; "param4"; "x"; "y"; "z"] |}.

Definition command_long_encode : encode_method :=
  {| e_params := ["target_system"; "target_component"; "command"; "confirmation"; "param1"; "param2";
    "param3"; "param4"; "param5"; "param6"; "param7"];
     e_defaults := [];
     e_class := MAVLink_command_long_message;
     e_args := ["target_system"; "target_component"; "command"; "confirmation"; "param1"; "param2"; "param3";
       "param4"; "param5"; "param6"; "param7"] |}.

Definition command_long_send : send_method :=
  {| s_params := ["target_system"; "target_component"; "command"; "confirmation"; "param1"; "param2";
    "param3"; "param4"; "param5"; "param6"; "param7"];
     s_defaults := [];
     s_encode := command_long_encode;
     s_args := ["target_system"; "target_component"; "command"; "confirmation"; "param1"; "param2"; "param3";
       "param4"; "param5"; "param6"; "param7"] |}.

Definition command_ack_encode : encode_method :=
  {| e_params := ["command"; "result"; "progress"; "result_param2"; "target_system"; "target_component"];
     e_defaults := [FScalar (PInt 0); FScalar (PInt 0); FScalar (PInt 0); FScalar (PInt 0)];
     e_class := MAVLink_command_ack_message;
     e_args := ["command"; "result"; "progress"; "result_param2"; "target_system"; "target_component"] |}.

Definition command_ack_send : send_method :=
  {| s_params := ["command"; "result"; "progress"; "result_param2"; "target_system"; "target_component"];
     s_defaults := [FScalar (PInt 0); FScalar (PInt 0); FScalar (PInt 0); FScalar (PInt 0)];
     s_encode := command_ack_encode;
     s_args := ["command"; "result"; "progress"; "result_param2"; "target_system"; "target_component"] |}.

Definition senders_1 : list send_method := [sys_status_send; system_time_send; ping_send;
  change_operator_control_send; change_operator_control_ack_send; auth_key_send; link_node_status_send;
  set_mode_send; param_request_read_send; param_request_list_send; param_value_send; param_set_send;
  gps_raw_int_send; gps_status_send; scaled_imu_send; raw_imu_send; raw_pressure_send; scaled_pressure_send;
  attitude_send; attitude_quaternion_send; local_position_ned_send; global_position_int_send;
  rc_channels_scaled_send; rc_channels_raw_send; servo_output_raw_send; mission_request_partial_list_send;
  mission_write_partial_list_send; mission_item_send; mission_request_send; mission_set_current_send;
  mission_current_send; mission_request_list_send; mission_count_send; mission_clear_all_send;
  mission_item_reached_send; mission_ack_send; set_gps_global_origin_send; gps_global_origin_send;
  param_map_rc_send; mission_request_int_send; safety_set_allowed_area_send; safety_allowed_area_send;
  attitude_quaternion_cov_send; nav_controller_output_send; global_position_int_cov_send;
  local_position_ned_cov_send; rc_channels_send; request_data_stream_send; data_stream_send;
  manual_control_send; rc_channels_override_send; mission_item_int_send; vfr_hud_send; command_int_send;
  command_long_send; command_ack_send].

End MavMethods1.
