(* ===== verification/MavMethods2.v ===== *)
(** The methods command_cancel_encode to resource_request_send of the class [MAVLink] of
    wfb_ng/mavlink.py (part 2), in the order of the file. *)
From Stdlib Require Import ZArith.
From stdpp Require Import base list strings.
From S2P Require Import Prelude PyStruct MavMessage MavCatalog2 MavMethods.

Module MavMethods2.
Import PyStruct MavMessage MavCatalog2 MavMethods.
#[local] Open Scope string_scope.
#[local] Open Scope nat_scope.
#[local] Open Scope list_scope.

Definition command_cancel_encode : encode_method :=
  {| e_params := ["target_system"; "target_component"; "command"];
     e_defaults := [];
     e_class := MAVLink_command_cancel_message;
     e_args := ["target_system"; "target_component"; "command"] |}.

Definition command_cancel_send : send_method :=
  {| s_params := ["target_system"; "target_component"; "command"];
     s_defaults := [];
     s_encode := command_cancel_encode;
     s_args := ["target_system"; "target_component"; "command"] |}.

Definition manual_setpoint_encode : encode_method :=
  {| e_params := ["time_boot_ms"; "roll"; "pitch"; "yaw"; "thrust"; "mode_switch"; "manual_override_switch"];
     e_defaults := [];
     e_class := MAVLink_manual_setpoint_message;
     e_args := ["time_boot_ms"; "roll"; "pitch"; "yaw"; "thrust"; "mode_switch"; "manual_override_switch"] |}.

Definition manual_setpoint_send : send_method :=
  {| s_params := ["time_boot_ms"; "roll"; "pitch"; "yaw"; "thrust"; "mode_switch"; "manual_override_switch"];
     s_defaults := [];
     s_encode := manual_setpoint_encode;
     s_args := ["time_boot_ms"; "roll"; "pitch"; "yaw"; "thrust"; "mode_switch"; "manual_override_switch"] |}.

Definition set_attitude_target_encode : encode_method :=
  {| e_params := ["time_boot_ms"; "target_system"; "target_component"; "type_mask"; "q"; "body_roll_rate";
    "body_pitch_rate"; "body_yaw_rate"; "thrust"; "thrust_body"];
     e_defaults := [FArray (replicate 3 (PInt 0))];
     e_class := MAVLink_set_attitude_target_message;
     e_args := ["time_boot_ms"; "target_system"; "target_component"; "type_mask"; "q"; "body_roll_rate";
       "body_pitch_rate"; "body_yaw_rate"; "thrust"; "thrust_body"] |}.

Definition set_attitude_target_send : send_method :=
  {| s_params := ["time_boot_ms"; "target_system"; "target_component"; "type_mask"; "q"; "body_roll_rate";
    "body_pitch_rate"; "body_yaw_rate"; "thrust"; "thrust_body"];
     s_defaults := [FArray (replicate 3 (PInt 0))];
     s_encode := set_attitude_target_encode;
     s_args := ["time_boot_ms"; "target_system"; "target_component"; "type_mask"; "q"; "body_roll_rate";
       "body_pitch_rate"; "body_yaw_rate"; "thrust"; "thrust_body"] |}.

Definition attitude_target_encode : encode_method :=
  {| e_params := ["time_boot_ms"; "type_mask"; "q"; "body_roll_rate"; "body_pitch_rate"; "body_yaw_rate";
    "thrust"];
     e_defaults := [];
     e_class := MAVLink_attitude_target_message;
     e_args := ["time_boot_ms"; "type_mask"; "q"; "body_roll_rate"; "body_pitch_rate"; "body_yaw_rate";
       "thrust"] |}.

Definition attitude_target_send : send_method :=
  {| s_params := ["time_boot_ms"; "type_mask"; "q"; "body_roll_rate"; "body_pitch_rate"; "body_yaw_rate";
    "thrust"];
     s_defaults := [];
     s_encode := attitude_target_encode;
     s_args := ["time_boot_ms"; "type_mask"; "q"; "body_roll_rate"; "body_pitch_rate"; "body_yaw_rate";
       "thrust"] |}.

Definition set_position_target_local_ned_encode : encode_method :=
  {| e_params := ["time_boot_ms"; "target_system"; "target_component"; "coordinate_frame"; "type_mask"; "x";
    "y"; "z"; "vx"; "vy"; "vz"; "afx"; "afy"; "afz"; "yaw"; "yaw_rate"];
     e_defaults := [];
     e_class := MAVLink_set_position_target_local_ned_message;
     e_args := ["time_boot_ms"; "target_system"; "target_component"; "coordinate_frame"; "type_mask"; "x";
       "y"; "z"; "vx"; "vy"; "vz"; "afx"; "afy"; "afz"; "yaw"; "yaw_rate"] |}.

Definition set_position_target_local_ned_send : send_method :=
  {| s_params := ["time_boot_ms"; "target_system"; "target_component"; "coordinate_frame"; "type_mask"; "x";
    "y"; "z"; "vx"; "vy"; "vz"; "afx"; "afy"; "afz"; "yaw"; "yaw_rate"];
     s_defaults := [];
     s_encode := set_position_target_local_ned_encode;
     s_args := ["time_boot_ms"; "target_system"; "target_component"; "coordinate_frame"; "type_mask"; "x";
       "y"; "z"; "vx"; "vy"; "vz"; "afx"; "afy"; "afz"; "yaw"; "yaw_rate"] |}.

Definition position_target_local_ned_encode : encode_method :=
  {| e_params := ["time_boot_ms"; "coordinate_frame"; "type_mask"; "x"; "y"; "z"; "vx"; "vy"; "vz"; "afx";
    "afy"; "afz"; "yaw"; "yaw_rate"];
     e_defaults := [];
     e_class := MAVLink_position_target_local_ned_message;
     e_args := ["time_boot_ms"; "coordinate_frame"; "type_mask"; "x"; "y"; "z"; "vx"; "vy"; "vz"; "afx";
       "afy"; "afz"; "yaw"; "yaw_rate"] |}.

Definition position_target_local_ned_send : send_method :=
  {| s_params := ["time_boot_ms"; "coordinate_frame"; "type_mask"; "x"; "y"; "z"; "vx"; "vy"; "vz"; "afx";
    "afy"; "afz"; "yaw"; "yaw_rate"];
     s_defaults := [];
     s_encode := position_target_local_ned_encode;
     s_args := ["time_boot_ms"; "coordinate_frame"; "type_mask"; "x"; "y"; "z"; "vx"; "vy"; "vz"; "afx";
       "afy"; "afz"; "yaw"; "yaw_rate"] |}.

Definition set_position_target_global_int_encode : encode_method :=
  {| e_params := ["time_boot_ms"; "target_system"; "target_component"; "coordinate_frame"; "type_mask";
    "lat_int"; "lon_int"; "alt"; "vx"; "vy"; "vz"; "afx"; "afy"; "afz"; "yaw"; "yaw_rate"];
     e_defaults := [];
     e_class := MAVLink_set_position_target_global_int_message;
     e_args := ["time_boot_ms"; "target_system"; "target_component"; "coordinate_frame"; "type_mask";
       "lat_int"; "lon_int"; "alt"; "vx"; "vy"; "vz"; "afx"; "afy"; "afz"; "yaw"; "yaw_rate"] |}.

Definition set_position_target_global_int_send : send_method :=
  {| s_params := ["time_boot_ms"; "target_system"; "target_component"; "coordinate_frame"; "type_mask";
    "lat_int"; "lon_int"; "alt"; "vx"; "vy"; "vz"; "afx"; "afy"; "afz"; "yaw"; "yaw_rate"];
     s_defaults := [];
     s_encode := set_position_target_global_int_encode;
     s_args := ["time_boot_ms"; "target_system"; "target_component"; "coordinate_frame"; "type_mask";
       "lat_int"; "lon_int"; "alt"; "vx"; "vy"; "vz"; "afx"; "afy"; "afz"; "yaw"; "yaw_rate"] |}.

Definition position_target_global_int_encode : encode_method :=
  {| e_params := ["time_boot_ms"; "coordinate_frame"; "type_mask"; "lat_int"; "lon_int"; "alt"; "vx"; "vy";
    "vz"; "afx"; "afy"; "afz"; "yaw"; "yaw_rate"];
     e_defaults := [];
     e_class := MAVLink_position_target_global_int_message;
     e_args := ["time_boot_ms"; "coordinate_frame"; "type_mask"; "lat_int"; "lon_int"; "alt"; "vx"; "vy";
       "vz"; "afx"; "afy"; "afz"; "yaw"; "yaw_rate"] |}.

Definition position_target_global_int_send : send_method :=
  {| s_params := ["time_boot_ms"; "coordinate_frame"; "type_mask"; "lat_int"; "lon_int"; "alt"; "vx"; "vy";
    "vz"; "afx"; "afy"; "afz"; "yaw"; "yaw_rate"];
     s_defaults := [];
     s_encode := position_target_global_int_encode;
     s_args := ["time_boot_ms"; "coordinate_frame"; "type_mask"; "lat_int"; "lon_int"; "alt"; "vx"; "vy";
       "vz"; "afx"; "afy"; "afz"; "yaw"; "yaw_rate"] |}.

Definition local_position_ned_system_global_offset_encode : encode_method :=
  {| e_params := ["time_boot_ms"; "x"; "y"; "z"; "roll"; "pitch"; "yaw"];
     e_defaults := [];
     e_class := MAVLink_local_position_ned_system_global_offset_message;
     e_args := ["time_boot_ms"; "x"; "y"; "z"; "roll"; "pitch"; "yaw"] |}.

Definition local_position_ned_system_global_offset_send : send_method :=
  {| s_params := ["time_boot_ms"; "x"; "y"; "z"; "roll"; "pitch"; "yaw"];
     s_defaults := [];
     s_encode := local_position_ned_system_global_offset_encode;
     s_args := ["time_boot_ms"; "x"; "y"; "z"; "roll"; "pitch"; "yaw"] |}.

Definition hil_state_encode : encode_method :=
  {| e_params := ["time_usec"; "roll"; "pitch"; "yaw"; "rollspeed"; "pitchspeed"; "yawspeed"; "lat"; "lon";
    "alt"; "vx"; "vy"; "vz"; "xacc"; "yacc"; "zacc"];
     e_defaults := [];
     e_class := MAVLink_hil_state_message;
     e_args := ["time_usec"; "roll"; "pitch"; "yaw"; "rollspeed"; "pitchspeed"; "yawspeed"; "lat"; "lon";
       "alt"; "vx"; "vy"; "vz"; "xacc"; "yacc"; "zacc"] |}.

Definition hil_state_send : send_method :=
  {| s_params := ["time_usec"; "roll"; "pitch"; "yaw"; "rollspeed"; "pitchspeed"; "yawspeed"; "lat"; "lon";
    "alt"; "vx"; "vy"; "vz"; "xacc"; "yacc"; "zacc"];
     s_defaults := [];
     s_encode := hil_state_encode;
     s_args := ["time_usec"; "roll"; "pitch"; "yaw"; "rollspeed"; "pitchspeed"; "yawspeed"; "lat"; "lon";
       "alt"; "vx"; "vy"; "vz"; "xacc"; "yacc"; "zacc"] |}.

Definition hil_controls_encode : encode_method :=
  {| e_params := ["time_usec"; "roll_ailerons"; "pitch_elevator"; "yaw_rudder"; "throttle"; "aux1"; "aux2";
    "aux3"; "aux4"; "mode"; "nav_mode"];
     e_defaults := [];
     e_class := MAVLink_hil_controls_message;
     e_args := ["time_usec"; "roll_ailerons"; "pitch_elevator"; "yaw_rudder"; "throttle"; "aux1"; "aux2";
       "aux3"; "aux4"; "mode"; "nav_mode"] |}.

Definition hil_controls_send : send_method :=
  {| s_params := ["time_usec"; "roll_ailerons"; "pitch_elevator"; "yaw_rudder"; "throttle"; "aux1"; "aux2";
    "aux3"; "aux4"; "mode"; "nav_mode"];
     s_defaults := [];
     s_encode := hil_controls_encode;
     s_args := ["time_usec"; "roll_ailerons"; "pitch_elevator"; "yaw_rudder"; "throttle"; "aux1"; "aux2";
       "aux3"; "aux4"; "mode"; "nav_mode"] |}.

Definition hil_rc_inputs_raw_encode : encode_method :=
  {| e_params := ["time_usec"; "chan1_raw"; "chan2_raw"; "chan3_raw"; "chan4_raw"; "chan5_raw"; "chan6_raw";
    "chan7_raw"; "chan8_raw"; "chan9_raw"; "chan10_raw"; "chan11_raw"; "chan12_raw"; "rssi"];
     e_defaults := [];
     e_class := MAVLink_hil_rc_inputs_raw_message;
     e_args := ["time_usec"; "chan1_raw"; "chan2_raw"; "chan3_raw"; "chan4_raw"; "chan5_raw"; "chan6_raw";
       "chan7_raw"; "chan8_raw"; "chan9_raw"; "chan10_raw"; "chan11_raw"; "chan12_raw"; "rssi"] |}.

Definition hil_rc_inputs_raw_send : send_method :=
  {| s_params := ["time_usec"; "chan1_raw"; "chan2_raw"; "chan3_raw"; "chan4_raw"; "chan5_raw"; "chan6_raw";
    "chan7_raw"; "chan8_raw"; "chan9_raw"; "chan10_raw"; "chan11_raw"; "chan12_raw"; "rssi"];
     s_defaults := [];
     s_encode := hil_rc_inputs_raw_encode;
     s_args := ["time_usec"; "chan1_raw"; "chan2_raw"; "chan3_raw"; "chan4_raw"; "chan5_raw"; "chan6_raw";
       "chan7_raw"; "chan8_raw"; "chan9_raw"; "chan10_raw"; "chan11_raw"; "chan12_raw"; "rssi"] |}.

Definition hil_actuator_controls_encode : encode_method :=
  {| e_params := ["time_usec"; "controls"; "mode"; "flags"];
     e_defaults := [];
     e_class := MAVLink_hil_actuator_controls_message;
     e_args := ["time_usec"; "controls"; "mode"; "flags"] |}.

Definition hil_actuator_controls_send : send_method :=
  {| s_params := ["time_usec"; "controls"; "mode"; "flags"];
     s_defaults := [];
     s_encode := hil_actuator_controls_encode;
     s_args := ["time_usec"; "controls"; "mode"; "flags"] |}.

Definition optical_flow_encode : encode_method :=
  {| e_params := ["time_usec"; "sensor_id"; "flow_x"; "flow_y"; "flow_comp_m_x"; "flow_comp_m_y"; "quality";
    "ground_distance"; "flow_rate_x"; "flow_rate_y"];
     e_defaults := [FScalar (PInt 0); FScalar (PInt 0)];
     e_class := MAVLink_optical_flow_message;
     e_args := ["time_usec"; "sensor_id"; "flow_x"; "flow_y"; "flow_comp_m_x"; "flow_comp_m_y"; "quality";
       "ground_distance"; "flow_rate_x"; "flow_rate_y"] |}.

Definition optical_flow_send : send_method :=
  {| s_params := ["time_usec"; "sensor_id"; "flow_x"; "flow_y"; "flow_comp_m_x"; "flow_comp_m_y"; "quality";
    "ground_distance"; "flow_rate_x"; "flow_rate_y"];
     s_defaults := [FScalar (PInt 0); FScalar (PInt 0)];
     s_encode := optical_flow_encode;
     s_args := ["time_usec"; "sensor_id"; "flow_x"; "flow_y"; "flow_comp_m_x"; "flow_comp_m_y"; "quality";
       "ground_distance"; "flow_rate_x"; "flow_rate_y"] |}.

Definition global_vision_position_estimate_encode : encode_method :=
  {| e_params := ["usec"; "x"; "y"; "z"; "roll"; "pitch"; "yaw"; "covariance"; "reset_counter"];
     e_defaults := [FArray (replicate 21 (PInt 0)); FScalar (PInt 0)];
     e_class := MAVLink_global_vision_position_estimate_message;
     e_args := ["usec"; "x"; "y"; "z"; "roll"; "pitch"; "yaw"; "covariance"; "reset_counter"] |}.

Definition global_vision_position_estimate_send : send_method :=
  {| s_params := ["usec"; "x"; "y"; "z"; "roll"; "pitch"; "yaw"; "covariance"; "reset_counter"];
     s_defaults := [FArray (replicate 21 (PInt 0)); FScalar (PInt 0)];
     s_encode := global_vision_position_estimate_encode;
     s_args := ["usec"; "x"; "y"; "z"; "roll"; "pitch"; "yaw"; "covariance"; "reset_counter"] |}.

Definition vision_position_estimate_encode : encode_method :=
  {| e_params := ["usec"; "x"; "y"; "z"; "roll"; "pitch"; "yaw"; "covariance"; "reset_counter"];
     e_defaults := [FArray (replicate 21 (PInt 0)); FScalar (PInt 0)];
     e_class := MAVLink_vision_position_estimate_message;
     e_args := ["usec"; "x"; "y"; "z"; "roll"; "pitch"; "yaw"; "covariance"; "reset_counter"] |}.

Definition vision_position_estimate_send : send_method :=
  {| s_params := ["usec"; "x"; "y"; "z"; "roll"; "pitch"; "yaw"; "covariance"; "reset_counter"];
     s_defaults := [FArray (replicate 21 (PInt 0)); FScalar (PInt 0)];
     s_encode := vision_position_estimate_encode;
     s_args := ["usec"; "x"; "y"; "z"; "roll"; "pitch"; "yaw"; "covariance"; "reset_counter"] |}.

Definition vision_speed_estimate_encode : encode_method :=
  {| e_params := ["usec"; "x"; "y"; "z"; "covariance"; "reset_counter"];
     e_defaults := [FArray (replicate 9 (PInt 0)); FScalar (PInt 0)];
     e_class := MAVLink_vision_speed_estimate_message;
     e_args := ["usec"; "x"; "y"; "z"; "covariance"; "reset_counter"] |}.

Definition vision_speed_estimate_send : send_method :=
  {| s_params := ["usec"; "x"; "y"; "z"; "covariance"; "reset_counter"];
     s_defaults := [FArray (replicate 9 (PInt 0)); FScalar (PInt 0)];
     s_encode := vision_speed_estimate_encode;
     s_args := ["usec"; "x"; "y"; "z"; "covariance"; "reset_counter"] |}.

Definition vicon_position_estimate_encode : encode_method :=
  {| e_params := ["usec"; "x"; "y"; "z"; "roll"; "pitch"; "yaw"; "covariance"];
     e_defaults := [FArray (replicate 21 (PInt 0))];
     e_class := MAVLink_vicon_position_estimate_message;
     e_args := ["usec"; "x"; "y"; "z"; "roll"; "pitch"; "yaw"; "covariance"] |}.

Definition vicon_position_estimate_send : send_method :=
  {| s_params := ["usec"; "x"; "y"; "z"; "roll"; "pitch"; "yaw"; "covariance"];
     s_defaults := [FArray (replicate 21 (PInt 0))];
     s_encode := vicon_position_estimate_encode;
     s_args := ["usec"; "x"; "y"; "z"; "roll"; "pitch"; "yaw"; "covariance"] |}.

Definition highres_imu_encode : encode_method :=
  {| e_params := ["time_usec"; "xacc"; "yacc"; "zacc"; "xgyro"; "ygyro"; "zgyro"; "xmag"; "ymag"; "zmag";
    "abs_pressure"; "diff_pressure"; "pressure_alt"; "temperature"; "fields_updated"; "id"];
     e_defaults := [FScalar (PInt 0)];
     e_class := MAVLink_highres_imu_message;
     e_args := ["time_usec"; "xacc"; "yacc"; "zacc"; "xgyro"; "ygyro"; "zgyro"; "xmag"; "ymag"; "zmag";
       "abs_pressure"; "diff_pressure"; "pressure_alt"; "temperature"; "fields_updated"; "id"] |}.

Definition highres_imu_send : send_method :=
  {| s_params := ["time_usec"; "xacc"; "yacc"; "zacc"; "xgyro"; "ygyro"; "zgyro"; "xmag"; "ymag"; "zmag";
    "abs_pressure"; "diff_pressure"; "pressure_alt"; "temperature"; "fields_updated"; "id"];
     s_defaults := [FScalar (PInt 0)];
     s_encode := highres_imu_encode;
     s_args := ["time_usec"; "xacc"; "yacc"; "zacc"; "xgyro"; "ygyro"; "zgyro"; "xmag"; "ymag"; "zmag";
       "abs_pressure"; "diff_pressure"; "pressure_alt"; "temperature"; "fields_updated"; "id"] |}.

Definition optical_flow_rad_encode : encode_method :=
  {| e_params := ["time_usec"; "sensor_id"; "integration_time_us"; "integrated_x"; "integrated_y";
    "integrated_xgyro"; "integrated_ygyro"; "integrated_zgyro"; "temperature"; "quality";
    "time_delta_distance_us"; "distance"];
     e_defaults := [];
     e_class := MAVLink_optical_flow_rad_message;
     e_args := ["time_usec"; "sensor_id"; "integration_time_us"; "integrated_x"; "integrated_y";
       "integrated_xgyro"; "integrated_ygyro"; "integrated_zgyro"; "temperature"; "quality";
       "time_delta_distance_us"; "distance"] |}.

Definition optical_flow_rad_send : send_method :=
  {| s_params := ["time_usec"; "sensor_id"; "integration_time_us"; "integrated_x"; "integrated_y";
    "integrated_xgyro"; "integrated_ygyro"; "integrated_zgyro"; "temperature"; "quality";
    "time_delta_distance_us"; "distance"];
     s_defaults := [];
     s_encode := optical_flow_rad_encode;
     s_args := ["time_usec"; "sensor_id"; "integration_time_us"; "integrated_x"; "integrated_y";
       "integrated_xgyro"; "integrated_ygyro"; "integrated_zgyro"; "temperature"; "quality";
       "time_delta_distance_us"; "distance"] |}.

Definition hil_sensor_encode : encode_method :=
  {| e_params := ["time_usec"; "xacc"; "yacc"; "zacc"; "xgyro"; "ygyro"; "zgyro"; "xmag"; "ymag"; "zmag";
    "abs_pressure"; "diff_pressure"; "pressure_alt"; "temperature"; "fields_updated"; "id"];
     e_defaults := [FScalar (PInt 0)];
     e_class := MAVLink_hil_sensor_message;
     e_args := ["time_usec"; "xacc"; "yacc"; "zacc"; "xgyro"; "ygyro"; "zgyro"; "xmag"; "ymag"; "zmag";
       "abs_pressure"; "diff_pressure"; "pressure_alt"; "temperature"; "fields_updated"; "id"] |}.

Definition hil_sensor_send : send_method :=
  {| s_params := ["time_usec"; "xacc"; "yacc"; "zacc"; "xgyro"; "ygyro"; "zgyro"; "xmag"; "ymag"; "zmag";
    "abs_pressure"; "diff_pressure"; "pressure_alt"; "temperature"; "fields_updated"; "id"];
     s_defaults := [FScalar (PInt 0)];
     s_encode := hil_sensor_encode;
     s_args := ["time_usec"; "xacc"; "yacc"; "zacc"; "xgyro"; "ygyro"; "zgyro"; "xmag"; "ymag"; "zmag";
       "abs_pressure"; "diff_pressure"; "pressure_alt"; "temperature"; "fields_updated"; "id"] |}.

Definition sim_state_encode : encode_method :=
  {| e_params := ["q1"; "q2"; "q3"; "q4"; "roll"; "pitch"; "yaw"; "xacc"; "yacc"; "zacc"; "xgyro"; "ygyro";
    "zgyro"; "lat"; "lon"; "alt"; "std_dev_horz"; "std_dev_vert"; "vn"; "ve"; "vd"; "lat_int"; "lon_int"];
     e_defaults := [FScalar (PInt 0); FScalar (PInt 0)];
     e_class := MAVLink_sim_state_message;
     e_args := ["q1"; "q2"; "q3"; "q4"; "roll"; "pitch"; "yaw"; "xacc"; "yacc"; "zacc"; "xgyro"; "ygyro";
       "zgyro"; "lat"; "lon"; "alt"; "std_dev_horz"; "std_dev_vert"; "vn"; "ve"; "vd"; "lat_int"; "lon_int"] |}.

Definition sim_state_send : send_method :=
  {| s_params := ["q1"; "q2"; "q3"; "q4"; "roll"; "pitch"; "yaw"; "xacc"; "yacc"; "zacc"; "xgyro"; "ygyro";
    "zgyro"; "lat"; "lon"; "alt"; "std_dev_horz"; "std_dev_vert"; "vn"; "ve"; "vd"; "lat_int"; "lon_int"];
     s_defaults := [FScalar (PInt 0); FScalar (PInt 0)];
     s_encode := sim_state_encode;
     s_args := ["q1"; "q2"; "q3"; "q4"; "roll"; "pitch"; "yaw"; "xacc"; "yacc"; "zacc"; "xgyro"; "ygyro";
       "zgyro"; "lat"; "lon"; "alt"; "std_dev_horz"; "std_dev_vert"; "vn"; "ve"; "vd"; "lat_int"; "lon_int"] |}.

Definition radio_status_encode : encode_method :=
  {| e_params := ["rssi"; "remrssi"; "txbuf"; "noise"; "remnoise"; "rxerrors"; "fixed"];
     e_defaults := [];
     e_class := MAVLink_radio_status_message;
     e_args := ["rssi"; "remrssi"; "txbuf"; "noise"; "remnoise"; "rxerrors"; "fixed"] |}.

Definition radio_status_send : send_method :=
  {| s_params := ["rssi"; "remrssi"; "txbuf"; "noise"; "remnoise"; "rxerrors"; "fixed"];
     s_defaults := [];
     s_encode := radio_status_encode;
     s_args := ["rssi"; "remrssi"; "txbuf"; "noise"; "remnoise"; "rxerrors"; "fixed"] |}.

Definition file_transfer_protocol_encode : encode_method :=
  {| e_params := ["target_network"; "target_system"; "target_component"; "payload"];
     e_defaults := [];
     e_class := MAVLink_file_transfer_protocol_message;
     e_args := ["target_network"; "target_system"; "target_component"; "payload"] |}.

Definition file_transfer_protocol_send : send_method :=
  {| s_params := ["target_network"; "target_system"; "target_component"; "payload"];
     s_defaults := [];
     s_encode := file_transfer_protocol_encode;
     s_args := ["target_network"; "target_system"; "target_component"; "payload"] |}.

Definition timesync_encode : encode_method :=
  {| e_params := ["tc1"; "ts1"; "target_system"; "target_component"];
     e_defaults := [FScalar (PInt 0); FScalar (PInt 0)];
     e_class := MAVLink_timesync_message;
     e_args := ["tc1"; "ts1"; "target_system"; "target_component"] |}.

Definition timesync_send : send_method :=
  {| s_params := ["tc1"; "ts1"; "target_system"; "target_component"];
     s_defaults := [FScalar (PInt 0); FScalar (PInt 0)];
     s_encode := timesync_encode;
     s_args := ["tc1"; "ts1"; "target_system"; "target_component"] |}.

Definition camera_trigger_encode : encode_method :=
  {| e_params := ["time_usec"; "seq"];
     e_defaults := [];
     e_class := MAVLink_camera_trigger_message;
     e_args := ["time_usec"; "seq"] |}.

Definition camera_trigger_send : send_method :=
  {| s_params := ["time_usec"; "seq"];
     s_defaults := [];
     s_encode := camera_trigger_encode;
     s_args := ["time_usec"; "seq"] |}.

Definition hil_gps_encode : encode_method :=
  {| e_params := ["time_usec"; "fix_type"; "lat"; "lon"; "alt"; "eph"; "epv"; "vel"; "vn"; "ve"; "vd"; "cog";
    "satellites_visible"; "id"; "yaw"];
     e_defaults := [FScalar (PInt 0); FScalar (PInt 0)];
     e_class := MAVLink_hil_gps_message;
     e_args := ["time_usec"; "fix_type"; "lat"; "lon"; "alt"; "eph"; "epv"; "vel"; "vn"; "ve"; "vd"; "cog";
       "satellites_visible"; "id"; "yaw"] |}.

Definition hil_gps_send : send_method :=
  {| s_params := ["time_usec"; "fix_type"; "lat"; "lon"; "alt"; "eph"; "epv"; "vel"; "vn"; "ve"; "vd"; "cog";
    "satellites_visible"; "id"; "yaw"];
     s_defaults := [FScalar (PInt 0); FScalar (PInt 0)];
     s_encode := hil_gps_encode;
     s_args := ["time_usec"; "fix_type"; "lat"; "lon"; "alt"; "eph"; "epv"; "vel"; "vn"; "ve"; "vd"; "cog";
       "satellites_visible"; "id"; "yaw"] |}.

Definition hil_optical_flow_encode : encode_method :=
  {| e_params := ["time_usec"; "sensor_id"; "integration_time_us"; "integrated_x"; "integrated_y";
    "integrated_xgyro"; "integrated_ygyro"; "integrated_zgyro"; "temperature"; "quality";
    "time_delta_distance_us"; "distance"];
     e_defaults := [];
     e_class := MAVLink_hil_optical_flow_message;
     e_args := ["time_usec"; "sensor_id"; "integration_time_us"; "integrated_x"; "integrated_y";
       "integrated_xgyro"; "integrated_ygyro"; "integrated_zgyro"; "temperature"; "quality";
       "time_delta_distance_us"; "distance"] |}.

Definition hil_optical_flow_send : send_method :=
  {| s_params := ["time_usec"; "sensor_id"; "integration_time_us"; "integrated_x"; "integrated_y";
    "integrated_xgyro"; "integrated_ygyro"; "integrated_zgyro"; "temperature"; "quality";
    "time_delta_distance_us"; "distance"];
     s_defaults := [];
     s_encode := hil_optical_flow_encode;
     s_args := ["time_usec"; "sensor_id"; "integration_time_us"; "integrated_x"; "integrated_y";
       "integrated_xgyro"; "integrated_ygyro"; "integrated_zgyro"; "temperature"; "quality";
       "time_delta_distance_us"; "distance"] |}.

Definition hil_state_quaternion_encode : encode_method :=
  {| e_params := ["time_usec"; "attitude_quaternion"; "rollspeed"; "pitchspeed"; "yawspeed"; "lat"; "lon";
    "alt"; "vx"; "vy"; "vz"; "ind_airspeed"; "true_airspeed"; "xacc"; "yacc"; "zacc"];
     e_defaults := [];
     e_class := MAVLink_hil_state_quaternion_message;
     e_args := ["time_usec"; "attitude_quaternion"; "rollspeed"; "pitchspeed"; "yawspeed"; "lat"; "lon";
       "alt"; "vx"; "vy"; "vz"; "ind_airspeed"; "true_airspeed"; "xacc"; "yacc"; "zacc"] |}.

Definition hil_state_quaternion_send : send_method :=
  {| s_params := ["time_usec"; "attitude_quaternion"; "rollspeed"; "pitchspeed"; "yawspeed"; "lat"; "lon";
    "alt"; "vx"; "vy"; "vz"; "ind_airspeed"; "true_airspeed"; "xacc"; "yacc"; "zacc"];
     s_defaults := [];
     s_encode := hil_state_quaternion_encode;
     s_args := ["time_usec"; "attitude_quaternion"; "rollspeed"; "pitchspeed"; "yawspeed"; "lat"; "lon";
       "alt"; "vx"; "vy"; "vz"; "ind_airspeed"; "true_airspeed"; "xacc"; "yacc"; "zacc"] |}.

Definition scaled_imu2_encode : encode_method :=
  {| e_params := ["time_boot_ms"; "xacc"; "yacc"; "zacc"; "xgyro"; "ygyro"; "zgyro"; "xmag"; "ymag"; "zmag";
    "temperature"];
     e_defaults := [FScalar (PInt 0)];
     e_class := MAVLink_scaled_imu2_message;
     e_args := ["time_boot_ms"; "xacc"; "yacc"; "zacc"; "xgyro"; "ygyro"; "zgyro"; "xmag"; "ymag"; "zmag";
       "temperature"] |}.

Definition scaled_imu2_send : send_method :=
  {| s_params := ["time_boot_ms"; "xacc"; "yacc"; "zacc"; "xgyro"; "ygyro"; "zgyro"; "xmag"; "ymag"; "zmag";
    "temperature"];
     s_defaults := [FScalar (PInt 0)];
     s_encode := scaled_imu2_encode;
     s_args := ["time_boot_ms"; "xacc"; "yacc"; "zacc"; "xgyro"; "ygyro"; "zgyro"; "xmag"; "ymag"; "zmag";
       "temperature"] |}.

Definition log_request_list_encode : encode_method :=
  {| e_params := ["target_system"; "target_component"; "start"; "end"];
     e_defaults := [];
     e_class := MAVLink_log_request_list_message;
     e_args := ["target_system"; "target_component"; "start"; "end"] |}.

Definition log_request_list_send : send_method :=
  {| s_params := ["target_system"; "target_component"; "start"; "end"];
     s_defaults := [];
     s_encode := log_request_list_encode;
     s_args := ["target_system"; "target_component"; "start"; "end"] |}.

Definition log_entry_encode : encode_method :=
  {| e_params := ["id"; "num_logs"; "last_log_num"; "time_utc"; "size"];
     e_defaults := [];
     e_class := MAVLink_log_entry_message;
     e_args := ["id"; "num_logs"; "last_log_num"; "time_utc"; "size"] |}.

Definition log_entry_send : send_method :=
  {| s_params := ["id"; "num_logs"; "last_log_num"; "time_utc"; "size"];
     s_defaults := [];
     s_encode := log_entry_encode;
     s_args := ["id"; "num_logs"; "last_log_num"; "time_utc"; "size"] |}.

Definition log_request_data_encode : encode_method :=
  {| e_params := ["target_system"; "target_component"; "id"; "ofs"; "count"];
     e_defaults := [];
     e_class := MAVLink_log_request_data_message;
     e_args := ["target_system"; "target_component"; "id"; "ofs"; "count"] |}.

Definition log_request_data_send : send_method :=
  {| s_params := ["target_system"; "target_component"; "id"; "ofs"; "count"];
     s_defaults := [];
     s_encode := log_request_data_encode;
     s_args := ["target_system"; "target_component"; "id"; "ofs"; "count"] |}.

Definition log_data_encode : encode_method :=
  {| e_params := ["id"; "ofs"; "count"; "data"];
     e_defaults := [];
     e_class := MAVLink_log_data_message;
     e_args := ["id"; "ofs"; "count"; "data"] |}.

Definition log_data_send : send_method :=
  {| s_params := ["id"; "ofs"; "count"; "data"];
     s_defaults := [];
     s_encode := log_data_encode;
     s_args := ["id"; "ofs"; "count"; "data"] |}.

Definition log_erase_encode : encode_method :=
  {| e_params := ["target_system"; "target_component"];
     e_defaults := [];
     e_class := MAVLink_log_erase_message;
     e_args := ["target_system"; "target_component"] |}.

Definition log_erase_send : send_method :=
  {| s_params := ["target_system"; "target_component"];
     s_defaults := [];
     s_encode := log_erase_encode;
     s_args := ["target_system"; "target_component"] |}.

Definition log_request_end_encode : encode_method :=
  {| e_params := ["target_system"; "target_component"];
     e_defaults := [];
     e_class := MAVLink_log_request_end_message;
     e_args := ["target_system"; "target_component"] |}.

Definition log_request_end_send : send_method :=
  {| s_params := ["target_system"; "target_component"];
     s_defaults := [];
     s_encode := log_request_end_encode;
     s_args := ["target_system"; "target_component"] |}.

Definition gps_inject_data_encode : encode_method :=
  {| e_params := ["target_system"; "target_component"; "len"; "data"];
     e_defaults := [];
     e_class := MAVLink_gps_inject_data_message;
     e_args := ["target_system"; "target_component"; "len"; "data"] |}.

Definition gps_inject_data_send : send_method :=
  {| s_params := ["target_system"; "target_component"; "len"; "data"];
     s_defaults := [];
     s_encode := gps_inject_data_encode;
     s_args := ["target_system"; "target_component"; "len"; "data"] |}.

Definition gps2_raw_encode : encode_method :=
  {| e_params := ["time_usec"; "fix_type"; "lat"; "lon"; "alt"; "eph"; "epv"; "vel"; "cog";
    "satellites_visible"; "dgps_numch"; "dgps_age"; "yaw"; "alt_ellipsoid"; "h_acc"; "v_acc"; "vel_acc";
    "hdg_acc"];
     e_defaults := [FScalar (PInt 0); FScalar (PInt 0); FScalar (PInt 0); FScalar (PInt 0); FScalar (PInt 0);
       FScalar (PInt 0)];
     e_class := MAVLink_gps2_raw_message;
     e_args := ["time_usec"; "fix_type"; "lat"; "lon"; "alt"; "eph"; "epv"; "vel"; "cog";
       "satellites_visible"; "dgps_numch"; "dgps_age"; "yaw"; "alt_ellipsoid"; "h_acc"; "v_acc"; "vel_acc";
       "hdg_acc"] |}.

Definition gps2_raw_send : send_method :=
  {| s_params := ["time_usec"; "fix_type"; "lat"; "lon"; "alt"; "eph"; "epv"; "vel"; "cog";
    "satellites_visible"; "dgps_numch"; "dgps_age"; "yaw"; "alt_ellipsoid"; "h_acc"; "v_acc"; "vel_acc";
    "hdg_acc"];
     s_defaults := [FScalar (PInt 0); FScalar (PInt 0); FScalar (PInt 0); FScalar (PInt 0); FScalar (PInt 0);
       FScalar (PInt 0)];
     s_encode := gps2_raw_encode;
     s_args := ["time_usec"; "fix_type"; "lat"; "lon"; "alt"; "eph"; "epv"; "vel"; "cog";
       "satellites_visible"; "dgps_numch"; "dgps_age"; "yaw"; "alt_ellipsoid"; "h_acc"; "v_acc"; "vel_acc";
       "hdg_acc"] |}.

Definition power_status_encode : encode_method :=
  {| e_params := ["Vcc"; "Vservo"; "flags"];
     e_defaults := [];
     e_class := MAVLink_power_status_message;
     e_args := ["Vcc"; "Vservo"; "flags"] |}.

Definition power_status_send : send_method :=
  {| s_params := ["Vcc"; "Vservo"; "flags"];
     s_defaults := [];
     s_encode := power_status_encode;
     s_args := ["Vcc"; "Vservo"; "flags"] |}.

Definition serial_control_encode : encode_method :=
  {| e_params := ["device"; "flags"; "timeout"; "baudrate"; "count"; "data"; "target_system";
    "target_component"];
     e_defaults := [FScalar (PInt 0); FScalar (PInt 0)];
     e_class := MAVLink_serial_control_message;
     e_args := ["device"; "flags"; "timeout"; "baudrate"; "count"; "data"; "target_system";
       "target_component"] |}.

Definition serial_control_send : send_method :=
  {| s_params := ["device"; "flags"; "timeout"; "baudrate"; "count"; "data"; "target_system";
    "target_component"];
     s_defaults := [FScalar (PInt 0); FScalar (PInt 0)];
     s_encode := serial_control_encode;
     s_args := ["device"; "flags"; "timeout"; "baudrate"; "count"; "data"; "target_system";
       "target_component"] |}.

Definition gps_rtk_encode : encode_method :=
  {| e_params := ["time_last_baseline_ms"; "rtk_receiver_id"; "wn"; "tow"; "rtk_health"; "rtk_rate"; "nsats";
    "baseline_coords_type"; "baseline_a_mm"; "baseline_b_mm"; "baseline_c_mm"; "accuracy";
    "iar_num_hypotheses"];
     e_defaults := [];
     e_class := MAVLink_gps_rtk_message;
     e_args := ["time_last_baseline_ms"; "rtk_receiver_id"; "wn"; "tow"; "rtk_health"; "rtk_rate"; "nsats";
       "baseline_coords_type"; "baseline_a_mm"; "baseline_b_mm"; "baseline_c_mm"; "accuracy";
       "iar_num_hypotheses"] |}.

Definition gps_rtk_send : send_method :=
  {| s_params := ["time_last_baseline_ms"; "rtk_receiver_id"; "wn"; "tow"; "rtk_health"; "rtk_rate"; "nsats";
    "baseline_coords_type"; "baseline_a_mm"; "baseline_b_mm"; "baseline_c_mm"; "accuracy";
    "iar_num_hypotheses"];
     s_defaults := [];
     s_encode := gps_rtk_encode;
     s_args := ["time_last_baseline_ms"; "rtk_receiver_id"; "wn"; "tow"; "rtk_health"; "rtk_rate"; "nsats";
       "baseline_coords_type"; "baseline_a_mm"; "baseline_b_mm"; "baseline_c_mm"; "accuracy";
       "iar_num_hypotheses"] |}.

Definition gps2_rtk_encode : encode_method :=
  {| e_params := ["time_last_baseline_ms"; "rtk_receiver_id"; "wn"; "tow"; "rtk_health"; "rtk_rate"; "nsats";
    "baseline_coords_type"; "baseline_a_mm"; "baseline_b_mm"; "baseline_c_mm"; "accuracy";
    "iar_num_hypotheses"];
     e_defaults := [];
     e_class := MAVLink_gps2_rtk_message;
     e_args := ["time_last_baseline_ms"; "rtk_receiver_id"; "wn"; "tow"; "rtk_health"; "rtk_rate"; "nsats";
       "baseline_coords_type"; "baseline_a_mm"; "baseline_b_mm"; "baseline_c_mm"; "accuracy";
       "iar_num_hypotheses"] |}.

Definition gps2_rtk_send : send_method :=
  {| s_params := ["time_last_baseline_ms"; "rtk_receiver_id"; "wn"; "tow"; "rtk_health"; "rtk_rate"; "nsats";
    "baseline_coords_type"; "baseline_a_mm"; "baseline_b_mm"; "baseline_c_mm"; "accuracy";
    "iar_num_hypotheses"];
     s_defaults := [];
     s_encode := gps2_rtk_encode;
     s_args := ["time_last_baseline_ms"; "rtk_receiver_id"; "wn"; "tow"; "rtk_health"; "rtk_rate"; "nsats";
       "baseline_coords_type"; "baseline_a_mm"; "baseline_b_mm"; "baseline_c_mm"; "accuracy";
       "iar_num_hypotheses"] |}.

Definition scaled_imu3_encode : encode_method :=
  {| e_params := ["time_boot_ms"; "xacc"; "yacc"; "zacc"; "xgyro"; "ygyro"; "zgyro"; "xmag"; "ymag"; "zmag";
    "temperature"];
     e_defaults := [FScalar (PInt 0)];
     e_class := MAVLink_scaled_imu3_message;
     e_args := ["time_boot_ms"; "xacc"; "yacc"; "zacc"; "xgyro"; "ygyro"; "zgyro"; "xmag"; "ymag"; "zmag";
       "temperature"] |}.

Definition scaled_imu3_send : send_method :=
  {| s_params := ["time_boot_ms"; "xacc"; "yacc"; "zacc"; "xgyro"; "ygyro"; "zgyro"; "xmag"; "ymag"; "zmag";
    "temperature"];
     s_defaults := [FScalar (PInt 0)];
     s_encode := scaled_imu3_encode;
     s_args := ["time_boot_ms"; "xacc"; "yacc"; "zacc"; "xgyro"; "ygyro"; "zgyro"; "xmag"; "ymag"; "zmag";
       "temperature"] |}.

Definition data_transmission_handshake_encode : encode_method :=
  {| e_params := ["type"; "size"; "width"; "height"; "packets"; "payload"; "jpg_quality"];
     e_defaults := [];
     e_class := MAVLink_data_transmission_handshake_message;
     e_args := ["type"; "size"; "width"; "height"; "packets"; "payload"; "jpg_quality"] |}.

Definition data_transmission_handshake_send : send_method :=
  {| s_params := ["type"; "size"; "width"; "height"; "packets"; "payload"; "jpg_quality"];
     s_defaults := [];
     s_encode := data_transmission_handshake_encode;
     s_args := ["type"; "size"; "width"; "height"; "packets"; "payload"; "jpg_quality"] |}.

Definition encapsulated_data_encode : encode_method :=
  {| e_params := ["seqnr"; "data"];
     e_defaults := [];
     e_class := MAVLink_encapsulated_data_message;
     e_args := ["seqnr"; "data"] |}.

Definition encapsulated_data_send : send_method :=
  {| s_params := ["seqnr"; "data"];
     s_defaults := [];
     s_encode := encapsulated_data_encode;
     s_args := ["seqnr"; "data"] |}.

Definition distance_sensor_encode : encode_method :=
  {| e_params := ["time_boot_ms"; "min_distance"; "max_distance"; "current_distance"; "type"; "id";
    "orientation"; "covariance"; "horizontal_fov"; "vertical_fov"; "quaternion"; "signal_quality"];
     e_defaults := [FScalar (PInt 0); FScalar (PInt 0); FArray (replicate 4 (PInt 0)); FScalar (PInt 0)];
     e_class := MAVLink_distance_sensor_message;
     e_args := ["time_boot_ms"; "min_distance"; "max_distance"; "current_distance"; "type"; "id";
       "orientation"; "covariance"; "horizontal_fov"; "vertical_fov"; "quaternion"; "signal_quality"] |}.

Definition distance_sensor_send : send_method :=
  {| s_params := ["time_boot_ms"; "min_distance"; "max_distance"; "current_distance"; "type"; "id";
    "orientation"; "covariance"; "horizontal_fov"; "vertical_fov"; "quaternion"; "signal_quality"];
     s_defaults := [FScalar (PInt 0); FScalar (PInt 0); FArray (replicate 4 (PInt 0)); FScalar (PInt 0)];
     s_encode := distance_sensor_encode;
     s_args := ["time_boot_ms"; "min_distance"; "max_distance"; "current_distance"; "type"; "id";
       "orientation"; "covariance"; "horizontal_fov"; "vertical_fov"; "quaternion"; "signal_quality"] |}.

Definition terrain_request_encode : encode_method :=
  {| e_params := ["lat"; "lon"; "grid_spacing"; "mask"];
     e_defaults := [];
     e_class := MAVLink_terrain_request_message;
     e_args := ["lat"; "lon"; "grid_spacing"; "mask"] |}.

Definition terrain_request_send : send_method :=
  {| s_params := ["lat"; "lon"; "grid_spacing"; "mask"];
     s_defaults := [];
     s_encode := terrain_request_encode;
     s_args := ["lat"; "lon"; "grid_spacing"; "mask"] |}.

Definition terrain_data_encode : encode_method :=
  {| e_params := ["lat"; "lon"; "grid_spacing"; "gridbit"; "data"];
     e_defaults := [];
     e_class := MAVLink_terrain_data_message;
     e_args := ["lat"; "lon"; "grid_spacing"; "gridbit"; "data"] |}.

Definition terrain_data_send : send_method :=
  {| s_params := ["lat"; "lon"; "grid_spacing"; "gridbit"; "data"];
     s_defaults := [];
     s_encode := terrain_data_encode;
     s_args := ["lat"; "lon"; "grid_spacing"; "gridbit"; "data"] |}.

Definition terrain_check_encode : encode_method :=
  {| e_params := ["lat"; "lon"];
     e_defaults := [];
     e_class := MAVLink_terrain_check_message;
     e_args := ["lat"; "lon"] |}.

Definition terrain_check_send : send_method :=
  {| s_params := ["lat"; "lon"];
     s_defaults := [];
     s_encode := terrain_check_encode;
     s_args := ["lat"; "lon"] |}.

Definition terrain_report_encode : encode_method :=
  {| e_params := ["lat"; "lon"; "spacing"; "terrain_height"; "current_height"; "pending"; "loaded"];
     e_defaults := [];
     e_class := MAVLink_terrain_report_message;
     e_args := ["lat"; "lon"; "spacing"; "terrain_height"; "current_height"; "pending"; "loaded"] |}.

Definition terrain_report_send : send_method :=
  {| s_params := ["lat"; "lon"; "spacing"; "terrain_height"; "current_height"; "pending"; "loaded"];
     s_defaults := [];
     s_encode := terrain_report_encode;
     s_args := ["lat"; "lon"; "spacing"; "terrain_height"; "current_height"; "pending"; "loaded"] |}.

Definition scaled_pressure2_encode : encode_method :=
  {| e_params := ["time_boot_ms"; "press_abs"; "press_diff"; "temperature"; "temperature_press_diff"];
     e_defaults := [FScalar (PInt 0)];
     e_class := MAVLink_scaled_pressure2_message;
     e_args := ["time_boot_ms"; "press_abs"; "press_diff"; "temperature"; "temperature_press_diff"] |}.

Definition scaled_pressure2_send : send_method :=
  {| s_params := ["time_boot_ms"; "press_abs"; "press_diff"; "temperature"; "temperature_press_diff"];
     s_defaults := [FScalar (PInt 0)];
     s_encode := scaled_pressure2_encode;
     s_args := ["time_boot_ms"; "press_abs"; "press_diff"; "temperature"; "temperature_press_diff"] |}.

Definition att_pos_mocap_encode : encode_method :=
  {| e_params := ["time_usec"; "q"; "x"; "y"; "z"; "covariance"];
     e_defaults := [FArray (replicate 21 (PInt 0))];
     e_class := MAVLink_att_pos_mocap_message;
     e_args := ["time_usec"; "q"; "x"; "y"; "z"; "covariance"] |}.

Definition att_pos_mocap_send : send_method :=
  {| s_params := ["time_usec"; "q"; "x"; "y"; "z"; "covariance"];
     s_defaults := [FArray (replicate 21 (PInt 0))];
     s_encode := att_pos_mocap_encode;
     s_args := ["time_usec"; "q"; "x"; "y"; "z"; "covariance"] |}.

Definition set_actuator_control_target_encode : encode_method :=
  {| e_params := ["time_usec"; "group_mlx"; "target_system"; "target_component"; "controls"];
     e_defaults := [];
     e_class := MAVLink_set_actuator_control_target_message;
     e_args := ["time_usec"; "group_mlx"; "target_system"; "target_component"; "controls"] |}.

Definition set_actuator_control_target_send : send_method :=
  {| s_params := ["time_usec"; "group_mlx"; "target_system"; "target_component"; "controls"];
     s_defaults := [];
     s_encode := set_actuator_control_target_encode;
     s_args := ["time_usec"; "group_mlx"; "target_system"; "target_component"; "controls"] |}.

Definition actuator_control_target_encode : encode_method :=
  {| e_params := ["time_usec"; "group_mlx"; "controls"];
     e_defaults := [];
     e_class := MAVLink_actuator_control_target_message;
     e_args := ["time_usec"; "group_mlx"; "controls"] |}.

Definition actuator_control_target_send : send_method :=
  {| s_params := ["time_usec"; "group_mlx"; "controls"];
     s_defaults := [];
     s_encode := actuator_control_target_encode;
     s_args := ["time_usec"; "group_mlx"; "controls"] |}.

Definition altitude_encode : encode_method :=
  {| e_params := ["time_usec"; "altitude_monotonic"; "altitude_amsl"; "altitude_local"; "altitude_relative";
    "altitude_terrain"; "bottom_clearance"];
     e_defaults := [];
     e_class := MAVLink_altitude_message;
     e_args := ["time_usec"; "altitude_monotonic"; "altitude_amsl"; "altitude_local"; "altitude_relative";
       "altitude_terrain"; "bottom_clearance"] |}.

Definition altitude_send : send_method :=
  {| s_params := ["time_usec"; "altitude_monotonic"; "altitude_amsl"; "altitude_local"; "altitude_relative";
    "altitude_terrain"; "bottom_clearance"];
     s_defaults := [];
     s_encode := altitude_encode;
     s_args := ["time_usec"; "altitude_monotonic"; "altitude_amsl"; "altitude_local"; "altitude_relative";
       "altitude_terrain"; "bottom_clearance"] |}.

Definition resource_request_encode : encode_method :=
  {| e_params := ["request_id"; "uri_type"; "uri"; "transfer_type"; "storage"];
     e_defaults := [];
     e_class := MAVLink_resource_request_message;
     e_args := ["request_id"; "uri_type"; "uri"; "transfer_type"; "storage"] |}.

Definition resource_request_send : send_method :=
  {| s_params := ["request_id"; "uri_type"; "uri"; "transfer_type"; "storage"];
     s_defaults := [];
     s_encode := resource_request_encode;
     s_args := ["request_id"; "uri_type"; "uri"; "transfer_type"; "storage"] |}.

Definition senders_2 : list send_method := [command_cancel_send; manual_setpoint_send;
  set_attitude_target_send; attitude_target_send; set_position_target_local_ned_send;
  position_target_local_ned_send; set_position_target_global_int_send; position_target_global_int_send;
  local_position_ned_system_global_offset_send; hil_state_send; hil_controls_send; hil_rc_inputs_raw_send;
  hil_actuator_controls_send; optical_flow_send; global_vision_position_estimate_send;
  vision_position_estimate_send; vision_speed_estimate_send; vicon_position_estimate_send; highres_imu_send;
  optical_flow_rad_send; hil_sensor_send; sim_state_send; radio_status_send; file_transfer_protocol_send;
  timesync_send; camera_trigger_send; hil_gps_send; hil_optical_flow_send; hil_state_quaternion_send;
  scaled_imu2_send; log_request_list_send; log_entry_send; log_request_data_send; log_data_send;
  log_erase_send; log_request_end_send; gps_inject_data_send; gps2_raw_send; power_status_send;
  serial_control_send; gps_rtk_send; gps2_rtk_send; scaled_imu3_send; data_transmission_handshake_send;
  encapsulated_data_send; distance_sensor_send; terrain_request_send; terrain_data_send; terrain_check_send;
  terrain_report_send; scaled_pressure2_send; att_pos_mocap_send; set_actuator_control_target_send;
  actuator_control_target_send; altitude_send; resource_request_send].

End MavMethods2.
