(* ===== verification/MavMethods3.v ===== *)
(** The methods scaled_pressure3_encode to gimbal_manager_set_manual_control_send of the class [MAVLink] of
    wfb_ng/mavlink.py (part 3), in the order of the file. *)
From Stdlib Require Import ZArith.
From stdpp Require Import base list strings.
From S2P Require Import Prelude PyStruct MavMessage MavCatalog3 MavMethods.

Module MavMethods3.
Import PyStruct MavMessage MavCatalog3 MavMethods.
#[local] Open Scope string_scope.
#[local] Open Scope nat_scope.
#[local] Open Scope list_scope.

Definition scaled_pressure3_encode : encode_method :=
  {| e_params := ["time_boot_ms"; "press_abs"; "press_diff"; "temperature"; "temperature_press_diff"];
     e_defaults := [FScalar (PInt 0)];
     e_class := MAVLink_scaled_pressure3_message;
     e_args := ["time_boot_ms"; "press_abs"; "press_diff"; "temperature"; "temperature_press_diff"] |}.

Definition scaled_pressure3_send : send_method :=
  {| s_params := ["time_boot_ms"; "press_abs"; "press_diff"; "temperature"; "temperature_press_diff"];
     s_defaults := [FScalar (PInt 0)];
     s_encode := scaled_pressure3_encode;
     s_args := ["time_boot_ms"; "press_abs"; "press_diff"; "temperature"; "temperature_press_diff"] |}.

Definition follow_target_encode : encode_method :=
  {| e_params := ["timestamp"; "est_capabilities"; "lat"; "lon"; "alt"; "vel"; "acc"; "attitude_q"; "rates";
    "position_cov"; "custom_state"];
     e_defaults := [];
     e_class := MAVLink_follow_target_message;
     e_args := ["timestamp"; "est_capabilities"; "lat"; "lon"; "alt"; "vel"; "acc"; "attitude_q"; "rates";
       "position_cov"; "custom_state"] |}.

Definition follow_target_send : send_method :=
  {| s_params := ["timestamp"; "est_capabilities"; "lat"; "lon"; "alt"; "vel"; "acc"; "attitude_q"; "rates";
    "position_cov"; "custom_state"];
     s_defaults := [];
     s_encode := follow_target_encode;
     s_args := ["timestamp"; "est_capabilities"; "lat"; "lon"; "alt"; "vel"; "acc"; "attitude_q"; "rates";
       "position_cov"; "custom_state"] |}.

Definition control_system_state_encode : encode_method :=
  {| e_params := ["time_usec"; "x_acc"; "y_acc"; "z_acc"; "x_vel"; "y_vel"; "z_vel"; "x_pos"; "y_pos";
    "z_pos"; "airspeed"; "vel_variance"; "pos_variance"; "q"; "roll_rate"; "pitch_rate"; "yaw_rate"];
     e_defaults := [];
     e_class := MAVLink_control_system_state_message;
     e_args := ["time_usec"; "x_acc"; "y_acc"; "z_acc"; "x_vel"; "y_vel"; "z_vel"; "x_pos"; "y_pos"; "z_pos";
       "airspeed"; "vel_variance"; "pos_variance"; "q"; "roll_rate"; "pitch_rate"; "yaw_rate"] |}.

Definition control_system_state_send : send_method :=
  {| s_params := ["time_usec"; "x_acc"; "y_acc"; "z_acc"; "x_vel"; "y_vel"; "z_vel"; "x_pos"; "y_pos";
    "z_pos"; "airspeed"; "vel_variance"; "pos_variance"; "q"; "roll_rate"; "pitch_rate"; "yaw_rate"];
     s_defaults := [];
     s_encode := control_system_state_encode;
     s_args := ["time_usec"; "x_acc"; "y_acc"; "z_acc"; "x_vel"; "y_vel"; "z_vel"; "x_pos"; "y_pos"; "z_pos";
       "airspeed"; "vel_variance"; "pos_variance"; "q"; "roll_rate"; "pitch_rate"; "yaw_rate"] |}.

Definition battery_status_encode : encode_method :=
  {| e_params := ["id"; "battery_function"; "type"; "temperature"; "voltages"; "current_battery";
    "current_consumed"; "energy_consumed"; "battery_remaining"; "time_remaining"; "charge_state";
    "voltages_ext"; "mode"; "fault_bitmask"];
     e_defaults := [FScalar (PInt 0); FScalar (PInt 0); FArray (replicate 4 (PInt 0)); FScalar (PInt 0);
       FScalar (PInt 0)];
     e_class := MAVLink_battery_status_message;
     e_args := ["id"; "battery_function"; "type"; "temperature"; "voltages"; "current_battery";
       "current_consumed"; "energy_consumed"; "battery_remaining"; "time_remaining"; "charge_state";
       "voltages_ext"; "mode"; "fault_bitmask"] |}.

Definition battery_status_send : send_method :=
  {| s_params := ["id"; "battery_function"; "type"; "temperature"; "voltages"; "current_battery";
    "current_consumed"; "energy_consumed"; "battery_remaining"; "time_remaining"; "charge_state";
    "voltages_ext"; "mode"; "fault_bitmask"];
     s_defaults := [FScalar (PInt 0); FScalar (PInt 0); FArray (replicate 4 (PInt 0)); FScalar (PInt 0);
       FScalar (PInt 0)];
     s_encode := battery_status_encode;
     s_args := ["id"; "battery_function"; "type"; "temperature"; "voltages"; "current_battery";
       "current_consumed"; "energy_consumed"; "battery_remaining"; "time_remaining"; "charge_state";
       "voltages_ext"; "mode"; "fault_bitmask"] |}.

Definition autopilot_version_encode : encode_method :=
  {| e_params := ["capabilities"; "flight_sw_version"; "middleware_sw_version"; "os_sw_version";
    "board_version"; "flight_custom_version"; "middleware_custom_version"; "os_custom_version"; "vendor_id";
    "product_id"; "uid"; "uid2"];
     e_defaults := [FArray (replicate 18 (PInt 0))];
     e_class := MAVLink_autopilot_version_message;
     e_args := ["capabilities"; "flight_sw_version"; "middleware_sw_version"; "os_sw_version";
       "board_version"; "flight_custom_version"; "middleware_custom_version"; "os_custom_version";
       "vendor_id"; "product_id"; "uid"; "uid2"] |}.

Definition autopilot_version_send : send_method :=
  {| s_params := ["capabilities"; "flight_sw_version"; "middleware_sw_version"; "os_sw_version";
    "board_version"; "flight_custom_version"; "middleware_custom_version"; "os_custom_version"; "vendor_id";
    "product_id"; "uid"; "uid2"];
     s_defaults := [FArray (replicate 18 (PInt 0))];
     s_encode := autopilot_version_encode;
     s_args := ["capabilities"; "flight_sw_version"; "middleware_sw_version"; "os_sw_version";
       "board_version"; "flight_custom_version"; "middleware_custom_version"; "os_custom_version";
       "vendor_id"; "product_id"; "uid"; "uid2"] |}.

Definition landing_target_encode : encode_method :=
  {| e_params := ["time_usec"; "target_num"; "frame"; "angle_x"; "angle_y"; "distance"; "size_x"; "size_y";
    "x"; "y"; "z"; "q"; "type"; "position_valid"];
     e_defaults := [FScalar (PInt 0); FScalar (PInt 0); FScalar (PInt 0); FArray (replicate 4 (PInt 0));
       FScalar (PInt 0); FScalar (PInt 0)];
     e_class := MAVLink_landing_target_message;
     e_args := ["time_usec"; "target_num"; "frame"; "angle_x"; "angle_y"; "distance"; "size_x"; "size_y";
       "x"; "y"; "z"; "q"; "type"; "position_valid"] |}.

Definition landing_target_send : send_method :=
  {| s_params := ["time_usec"; "target_num"; "frame"; "angle_x"; "angle_y"; "distance"; "size_x"; "size_y";
    "x"; "y"; "z"; "q"; "type"; "position_valid"];
     s_defaults := [FScalar (PInt 0); FScalar (PInt 0); FScalar (PInt 0); FArray (replicate 4 (PInt 0));
       FScalar (PInt 0); FScalar (PInt 0)];
     s_encode := landing_target_encode;
     s_args := ["time_usec"; "target_num"; "frame"; "angle_x"; "angle_y"; "distance"; "size_x"; "size_y";
       "x"; "y"; "z"; "q"; "type"; "position_valid"] |}.

Definition fence_status_encode : encode_method :=
  {| e_params := ["breach_status"; "breach_count"; "breach_type"; "breach_time"; "breach_mitigation"];
     e_defaults := [FScalar (PInt 0)];
     e_class := MAVLink_fence_status_message;
     e_args := ["breach_status"; "breach_count"; "breach_type"; "breach_time"; "breach_mitigation"] |}.

Definition fence_status_send : send_method :=
  {| s_params := ["breach_status"; "breach_count"; "breach_type"; "breach_time"; "breach_mitigation"];
     s_defaults := [FScalar (PInt 0)];
     s_encode := fence_status_encode;
     s_args := ["breach_status"; "breach_count"; "breach_type"; "breach_time"; "breach_mitigation"] |}.

Definition mag_cal_report_encode : encode_method :=
  {| e_params := ["compass_id"; "cal_mask"; "cal_status"; "autosaved"; "fitness"; "ofs_x"; "ofs_y"; "ofs_z";
    "diag_x"; "diag_y"; "diag_z"; "offdiag_x"; "offdiag_y"; "offdiag_z"; "orientation_confidence";
    "old_orientation"; "new_orientation"; "scale_factor"];
     e_defaults := [FScalar (PInt 0); FScalar (PInt 0); FScalar (PInt 0); FScalar (PInt 0)];
     e_class := MAVLink_mag_cal_report_message;
     e_args := ["compass_id"; "cal_mask"; "cal_status"; "autosaved"; "fitness"; "ofs_x"; "ofs_y"; "ofs_z";
       "diag_x"; "diag_y"; "diag_z"; "offdiag_x"; "offdiag_y"; "offdiag_z"; "orientation_confidence";
       "old_orientation"; "new_orientation"; "scale_factor"] |}.

Definition mag_cal_report_send : send_method :=
  {| s_params := ["compass_id"; "cal_mask"; "cal_status"; "autosaved"; "fitness"; "ofs_x"; "ofs_y"; "ofs_z";
    "diag_x"; "diag_y"; "diag_z"; "offdiag_x"; "offdiag_y"; "offdiag_z"; "orientation_confidence";
    "old_orientation"; "new_orientation"; "scale_factor"];
     s_defaults := [FScalar (PInt 0); FScalar (PInt 0); FScalar (PInt 0); FScalar (PInt 0)];
     s_encode := mag_cal_report_encode;
     s_args := ["compass_id"; "cal_mask"; "cal_status"; "autosaved"; "fitness"; "ofs_x"; "ofs_y"; "ofs_z";
       "diag_x"; "diag_y"; "diag_z"; "offdiag_x"; "offdiag_y"; "offdiag_z"; "orientation_confidence";
       "old_orientation"; "new_orientation"; "scale_factor"] |}.

Definition efi_status_encode : encode_method :=
  {| e_params := ["health"; "ecu_index"; "rpm"; "fuel_consumed"; "fuel_flow"; "engine_load";
    "throttle_position"; "spark_dwell_time"; "barometric_pressure"; "intake_manifold_pressure";
    "intake_manifold_temperature"; "cylinder_head_temperature"; "ignition_timing"; "injection_time";
    "exhaust_gas_temperature"; "throttle_out"; "pt_compensation"; "ignition_voltage"];
     e_defaults := [FScalar (PInt 0)];
     e_class := MAVLink_efi_status_message;
     e_args := ["health"; "ecu_index"; "rpm"; "fuel_consumed"; "fuel_flow"; "engine_load";
       "throttle_position"; "spark_dwell_time"; "barometric_pressure"; "intake_manifold_pressure";
       "intake_manifold_temperature"; "cylinder_head_temperature"; "ignition_timing"; "injection_time";
       "exhaust_gas_temperature"; "throttle_out"; "pt_compensation"; "ignition_voltage"] |}.

Definition efi_status_send : send_method :=
  {| s_params := ["health"; "ecu_index"; "rpm"; "fuel_consumed"; "fuel_flow"; "engine_load";
    "throttle_position"; "spark_dwell_time"; "barometric_pressure"; "intake_manifold_pressure";
    "intake_manifold_temperature"; "cylinder_head_temperature"; "ignition_timing"; "injection_time";
    "exhaust_gas_temperature"; "throttle_out"; "pt_compensation"; "ignition_voltage"];
     s_defaults := [FScalar (PInt 0)];
     s_encode := efi_status_encode;
     s_args := ["health"; "ecu_index"; "rpm"; "fuel_consumed"; "fuel_flow"; "engine_load";
       "throttle_position"; "spark_dwell_time"; "barometric_pressure"; "intake_manifold_pressure";
       "intake_manifold_temperature"; "cylinder_head_temperature"; "ignition_timing"; "injection_time";
       "exhaust_gas_temperature"; "throttle_out"; "pt_compensation"; "ignition_voltage"] |}.

Definition estimator_status_encode : encode_method :=
  {| e_params := ["time_usec"; "flags"; "vel_ratio"; "pos_horiz_ratio"; "pos_vert_ratio"; "mag_ratio";
    "hagl_ratio"; "tas_ratio"; "pos_horiz_accuracy"; "pos_vert_accuracy"];
     e_defaults := [];
     e_class := MAVLink_estimator_status_message;
     e_args := ["time_usec"; "flags"; "vel_ratio"; "pos_horiz_ratio"; "pos_vert_ratio"; "mag_ratio";
       "hagl_ratio"; "tas_ratio"; "pos_horiz_accuracy"; "pos_vert_accuracy"] |}.

Definition estimator_status_send : send_method :=
  {| s_params := ["time_usec"; "flags"; "vel_ratio"; "pos_horiz_ratio"; "pos_vert_ratio"; "mag_ratio";
    "hagl_ratio"; "tas_ratio"; "pos_horiz_accuracy"; "pos_vert_accuracy"];
     s_defaults := [];
     s_encode := estimator_status_encode;
     s_args := ["time_usec"; "flags"; "vel_ratio"; "pos_horiz_ratio"; "pos_vert_ratio"; "mag_ratio";
       "hagl_ratio"; "tas_ratio"; "pos_horiz_accuracy"; "pos_vert_accuracy"] |}.

Definition wind_cov_encode : encode_method :=
  {| e_params := ["time_usec"; "wind_x"; "wind_y"; "wind_z"; "var_horiz"; "var_vert"; "wind_alt";
    "horiz_accuracy"; "vert_accuracy"];
     e_defaults := [];
     e_class := MAVLink_wind_cov_message;
     e_args := ["time_usec"; "wind_x"; "wind_y"; "wind_z"; "var_horiz"; "var_vert"; "wind_alt";
       "horiz_accuracy"; "vert_accuracy"] |}.

Definition wind_cov_send : send_method :=
  {| s_params := ["time_usec"; "wind_x"; "wind_y"; "wind_z"; "var_horiz"; "var_vert"; "wind_alt";
    "horiz_accuracy"; "vert_accuracy"];
     s_defaults := [];
     s_encode := wind_cov_encode;
     s_args := ["time_usec"; "wind_x"; "wind_y"; "wind_z"; "var_horiz"; "var_vert"; "wind_alt";
       "horiz_accuracy"; "vert_accuracy"] |}.

Definition gps_input_encode : encode_method :=
  {| e_params := ["time_usec"; "gps_id"; "ignore_flags"; "time_week_ms"; "time_week"; "fix_type"; "lat";
    "lon"; "alt"; "hdop"; "vdop"; "vn"; "ve"; "vd"; "speed_accuracy"; "horiz_accuracy"; "vert_accuracy";
    "satellites_visible"; "yaw"];
     e_defaults := [FScalar (PInt 0)];
     e_class := MAVLink_gps_input_message;
     e_args := ["time_usec"; "gps_id"; "ignore_flags"; "time_week_ms"; "time_week"; "fix_type"; "lat"; "lon";
       "alt"; "hdop"; "vdop"; "vn"; "ve"; "vd"; "speed_accuracy"; "horiz_accuracy"; "vert_accuracy";
       "satellites_visible"; "yaw"] |}.

Definition gps_input_send : send_method :=
  {| s_params := ["time_usec"; "gps_id"; "ignore_flags"; "time_week_ms"; "time_week"; "fix_type"; "lat";
    "lon"; "alt"; "hdop"; "vdop"; "vn"; "ve"; "vd"; "speed_accuracy"; "horiz_accuracy"; "vert_accuracy";
    "satellites_visible"; "yaw"];
     s_defaults := [FScalar (PInt 0)];
     s_encode := gps_input_encode;
     s_args := ["time_usec"; "gps_id"; "ignore_flags"; "time_week_ms"; "time_week"; "fix_type"; "lat"; "lon";
       "alt"; "hdop"; "vdop"; "vn"; "ve"; "vd"; "speed_accuracy"; "horiz_accuracy"; "vert_accuracy";
       "satellites_visible"; "yaw"] |}.

Definition gps_rtcm_data_encode : encode_method :=
  {| e_params := ["flags"; "len"; "data"];
     e_defaults := [];
     e_class := MAVLink_gps_rtcm_data_message;
     e_args := ["flags"; "len"; "data"] |}.

Definition gps_rtcm_data_send : send_method :=
  {| s_params := ["flags"; "len"; "data"];
     s_defaults := [];
     s_encode := gps_rtcm_data_encode;
     s_args := ["flags"; "len"; "data"] |}.

Definition high_latency_encode : encode_method :=
  {| e_params := ["base_mode"; "custom_mode"; "landed_state"; "roll"; "pitch"; "heading"; "throttle";
    "heading_sp"; "latitude"; "longitude"; "altitude_amsl"; "altitude_sp"; "airspeed"; "airspeed_sp";
    "groundspeed"; "climb_rate"; "gps_nsat"; "gps_fix_type"; "battery_remaining"; "temperature";
    "temperature_air"; "failsafe"; "wp_num"; "wp_distance"];
     e_defaults := [];
     e_class := MAVLink_high_latency_message;
     e_args := ["base_mode"; "custom_mode"; "landed_state"; "roll"; "pitch"; "heading"; "throttle";
       "heading_sp"; "latitude"; "longitude"; "altitude_amsl"; "altitude_sp"; "airspeed"; "airspeed_sp";
       "groundspeed"; "climb_rate"; "gps_nsat"; "gps_fix_type"; "battery_remaining"; "temperature";
       "temperature_air"; "failsafe"; "wp_num"; "wp_distance"] |}.

Definition high_latency_send : send_method :=
  {| s_params := ["base_mode"; "custom_mode"; "landed_state"; "roll"; "pitch"; "heading"; "throttle";
    "heading_sp"; "latitude"; "longitude"; "altitude_amsl"; "altitude_sp"; "airspeed"; "airspeed_sp";
    "groundspeed"; "climb_rate"; "gps_nsat"; "gps_fix_type"; "battery_remaining"; "temperature";
    "temperature_air"; "failsafe"; "wp_num"; "wp_distance"];
     s_defaults := [];
     s_encode := high_latency_encode;
     s_args := ["base_mode"; "custom_mode"; "landed_state"; "roll"; "pitch"; "heading"; "throttle";
       "heading_sp"; "latitude"; "longitude"; "altitude_amsl"; "altitude_sp"; "airspeed"; "airspeed_sp";
       "groundspeed"; "climb_rate"; "gps_nsat"; "gps_fix_type"; "battery_remaining"; "temperature";
       "temperature_air"; "failsafe"; "wp_num"; "wp_distance"] |}.

Definition high_latency2_encode : encode_method :=
  {| e_params := ["timestamp"; "type"; "autopilot"; "custom_mode"; "latitude"; "longitude"; "altitude";
    "target_altitude"; "heading"; "target_heading"; "target_distance"; "throttle"; "airspeed"; "airspeed_sp";
    "groundspeed"; "windspeed"; "wind_heading"; "eph"; "epv"; "temperature_air"; "climb_rate"; "battery";
    "wp_num"; "failure_flags"; "custom0"; "custom1"; "custom2"];
     e_defaults := [];
     e_class := MAVLink_high_latency2_message;
     e_args := ["timestamp"; "type"; "autopilot"; "custom_mode"; "latitude"; "longitude"; "altitude";
       "target_altitude"; "heading"; "target_heading"; "target_distance"; "throttle"; "airspeed";
       "airspeed_sp"; "groundspeed"; "windspeed"; "wind_heading"; "eph"; "epv"; "temperature_air";
       "climb_rate"; "battery"; "wp_num"; "failure_flags"; "custom0"; "custom1"; "custom2"] |}.

Definition high_latency2_send : send_method :=
  {| s_params := ["timestamp"; "type"; "autopilot"; "custom_mode"; "latitude"; "longitude"; "altitude";
    "target_altitude"; "heading"; "target_heading"; "target_distance"; "throttle"; "airspeed"; "airspeed_sp";
    "groundspeed"; "windspeed"; "wind_heading"; "eph"; "epv"; "temperature_air"; "climb_rate"; "battery";
    "wp_num"; "failure_flags"; "custom0"; "custom1"; "custom2"];
     s_defaults := [];
     s_encode := high_latency2_encode;
     s_args := ["timestamp"; "type"; "autopilot"; "custom_mode"; "latitude"; "longitude"; "altitude";
       "target_altitude"; "heading"; "target_heading"; "target_distance"; "throttle"; "airspeed";
       "airspeed_sp"; "groundspeed"; "windspeed"; "wind_heading"; "eph"; "epv"; "temperature_air";
       "climb_rate"; "battery"; "wp_num"; "failure_flags"; "custom0"; "custom1"; "custom2"] |}.

Definition vibration_encode : encode_method :=
  {| e_params := ["time_usec"; "vibration_x"; "vibration_y"; "vibration_z"; "clipping_0"; "clipping_1";
    "clipping_2"];
     e_defaults := [];
     e_class := MAVLink_vibration_message;
     e_args := ["time_usec"; "vibration_x"; "vibration_y"; "vibration_z"; "clipping_0"; "clipping_1";
       "clipping_2"] |}.

Definition vibration_send : send_method :=
  {| s_params := ["time_usec"; "vibration_x"; "vibration_y"; "vibration_z"; "clipping_0"; "clipping_1";
    "clipping_2"];
     s_defaults := [];
     s_encode := vibration_encode;
     s_args := ["time_usec"; "vibration_x"; "vibration_y"; "vibration_z"; "clipping_0"; "clipping_1";
       "clipping_2"] |}.

Definition home_position_encode : encode_method :=
  {| e_params := ["latitude"; "longitude"; "altitude"; "x"; "y"; "z"; "q"; "approach_x"; "approach_y";
    "approach_z"; "time_usec"];
     e_defaults := [FScalar (PInt 0)];
     e_class := MAVLink_home_position_message;
     e_args := ["latitude"; "longitude"; "altitude"; "x"; "y"; "z"; "q"; "approach_x"; "approach_y";
       "approach_z"; "time_usec"] |}.

Definition home_position_send : send_method :=
  {| s_params := ["latitude"; "longitude"; "altitude"; "x"; "y"; "z"; "q"; "approach_x"; "approach_y";
    "approach_z"; "time_usec"];
     s_defaults := [FScalar (PInt 0)];
     s_encode := home_position_encode;
     s_args := ["latitude"; "longitude"; "altitude"; "x"; "y"; "z"; "q"; "approach_x"; "approach_y";
       "approach_z"; "time_usec"] |}.

Definition set_home_position_encode : encode_method :=
  {| e_params := ["target_system"; "latitude"; "longitude"; "altitude"; "x"; "y"; "z"; "q"; "approach_x";
    "approach_y"; "approach_z"; "time_usec"];
     e_defaults := [FScalar (PInt 0)];
     e_class := MAVLink_set_home_position_message;
     e_args := ["target_system"; "latitude"; "longitude"; "altitude"; "x"; "y"; "z"; "q"; "approach_x";
       "approach_y"; "approach_z"; "time_usec"] |}.

Definition set_home_position_send : send_method :=
  {| s_params := ["target_system"; "latitude"; "longitude"; "altitude"; "x"; "y"; "z"; "q"; "approach_x";
    "approach_y"; "approach_z"; "time_usec"];
     s_defaults := [FScalar (PInt 0)];
     s_encode := set_home_position_encode;
     s_args := ["target_system"; "latitude"; "longitude"; "altitude"; "x"; "y"; "z"; "q"; "approach_x";
       "approach_y"; "approach_z"; "time_usec"] |}.

Definition message_interval_encode : encode_method :=
  {| e_params := ["message_id"; "interval_us"];
     e_defaults := [];
     e_class := MAVLink_message_interval_message;
     e_args := ["message_id"; "interval_us"] |}.

Definition message_interval_send : send_method :=
  {| s_params := ["message_id"; "interval_us"];
     s_defaults := [];
     s_encode := message_interval_encode;
     s_args := ["message_id"; "interval_us"] |}.

Definition extended_sys_state_encode : encode_method :=
  {| e_params := ["vtol_state"; "landed_state"];
     e_defaults := [];
     e_class := MAVLink_extended_sys_state_message;
     e_args := ["vtol_state"; "landed_state"] |}.

Definition extended_sys_state_send : send_method :=
  {| s_params := ["vtol_state"; "landed_state"];
     s_defaults := [];
     s_encode := extended_sys_state_encode;
     s_args := ["vtol_state"; "landed_state"] |}.

Definition adsb_vehicle_encode : encode_method :=
  {| e_params := ["ICAO_address"; "lat"; "lon"; "altitude_type"; "altitude"; "heading"; "hor_velocity";
    "ver_velocity"; "callsign"; "emitter_type"; "tslc"; "flags"; "squawk"];
     e_defaults := [];
     e_class := MAVLink_adsb_vehicle_message;
     e_args := ["ICAO_address"; "lat"; "lon"; "altitude_type"; "altitude"; "heading"; "hor_velocity";
       "ver_velocity"; "callsign"; "emitter_type"; "tslc"; "flags"; "squawk"] |}.

Definition adsb_vehicle_send : send_method :=
  {| s_params := ["ICAO_address"; "lat"; "lon"; "altitude_type"; "altitude"; "heading"; "hor_velocity";
    "ver_velocity"; "callsign"; "emitter_type"; "tslc"; "flags"; "squawk"];
     s_defaults := [];
     s_encode := adsb_vehicle_encode;
     s_args := ["ICAO_address"; "lat"; "lon"; "altitude_type"; "altitude"; "heading"; "hor_velocity";
       "ver_velocity"; "callsign"; "emitter_type"; "tslc"; "flags"; "squawk"] |}.

Definition collision_encode : encode_method :=
  {| e_params := ["src"; "id"; "action"; "threat_level"; "time_to_minimum_delta"; "altitude_minimum_delta";
    "horizontal_minimum_delta"];
     e_defaults := [];
     e_class := MAVLink_collision_message;
     e_args := ["src"; "id"; "action"; "threat_level"; "time_to_minimum_delta"; "altitude_minimum_delta";
       "horizontal_minimum_delta"] |}.

Definition collision_send : send_method :=
  {| s_params := ["src"; "id"; "action"; "threat_level"; "time_to_minimum_delta"; "altitude_minimum_delta";
    "horizontal_minimum_delta"];
     s_defaults := [];
     s_encode := collision_encode;
     s_args := ["src"; "id"; "action"; "threat_level"; "time_to_minimum_delta"; "altitude_minimum_delta";
       "horizontal_minimum_delta"] |}.

Definition v2_extension_encode : encode_method :=
  {| e_params := ["target_network"; "target_system"; "target_component"; "message_type"; "payload"];
     e_defaults := [];
     e_class := MAVLink_v2_extension_message;
     e_args := ["target_network"; "target_system"; "target_component"; "message_type"; "payload"] |}.

Definition v2_extension_send : send_method :=
  {| s_params := ["target_network"; "target_system"; "target_component"; "message_type"; "payload"];
     s_defaults := [];
     s_encode := v2_extension_encode;
     s_args := ["target_network"; "target_system"; "target_component"; "message_type"; "payload"] |}.

Definition memory_vect_encode : encode_method :=
  {| e_params := ["address"; "ver"; "type"; "value"];
     e_defaults := [];
     e_class := MAVLink_memory_vect_message;
     e_args := ["address"; "ver"; "type"; "value"] |}.

Definition memory_vect_send : send_method :=
  {| s_params := ["address"; "ver"; "type"; "value"];
     s_defaults := [];
     s_encode := memory_vect_encode;
     s_args := ["address"; "ver"; "type"; "value"] |}.

Definition debug_vect_encode : encode_method :=
  {| e_params := ["name"; "time_usec"; "x"; "y"; "z"];
     e_defaults := [];
     e_class := MAVLink_debug_vect_message;
     e_args := ["name"; "time_usec"; "x"; "y"; "z"] |}.

Definition debug_vect_send : send_method :=
  {| s_params := ["name"; "time_usec"; "x"; "y"; "z"];
     s_defaults := [];
     s_encode := debug_vect_encode;
     s_args := ["name"; "time_usec"; "x"; "y"; "z"] |}.

Definition named_value_float_encode : encode_method :=
  {| e_params := ["time_boot_ms"; "name"; "value"];
     e_defaults := [];
     e_class := MAVLink_named_value_float_message;
     e_args := ["time_boot_ms"; "name"; "value"] |}.

Definition named_value_float_send : send_method :=
  {| s_params := ["time_boot_ms"; "name"; "value"];
     s_defaults := [];
     s_encode := named_value_float_encode;
     s_args := ["time_boot_ms"; "name"; "value"] |}.

Definition named_value_int_encode : encode_method :=
  {| e_params := ["time_boot_ms"; "name"; "value"];
     e_defaults := [];
     e_class := MAVLink_named_value_int_message;
     e_args := ["time_boot_ms"; "name"; "value"] |}.

Definition named_value_int_send : send_method :=
  {| s_params := ["time_boot_ms"; "name"; "value"];
     s_defaults := [];
     s_encode := named_value_int_encode;
     s_args := ["time_boot_ms"; "name"; "value"] |}.

Definition statustext_encode : encode_method :=
  {| e_params := ["severity"; "text"; "id"; "chunk_seq"];
     e_defaults := [FScalar (PInt 0); FScalar (PInt 0)];
     e_class := MAVLink_statustext_message;
     e_args := ["severity"; "text"; "id"; "chunk_seq"] |}.

Definition statustext_send : send_method :=
  {| s_params := ["severity"; "text"; "id"; "chunk_seq"];
     s_defaults := [FScalar (PInt 0); FScalar (PInt 0)];
     s_encode := statustext_encode;
     s_args := ["severity"; "text"; "id"; "chunk_seq"] |}.

Definition debug_encode : encode_method :=
  {| e_params := ["time_boot_ms"; "ind"; "value"];
     e_defaults := [];
     e_class := MAVLink_debug_message;
     e_args := ["time_boot_ms"; "ind"; "value"] |}.

Definition debug_send : send_method :=
  {| s_params := ["time_boot_ms"; "ind"; "value"];
     s_defaults := [];
     s_encode := debug_encode;
     s_args := ["time_boot_ms"; "ind"; "value"] |}.

Definition setup_signing_encode : encode_method :=
  {| e_params := ["target_system"; "target_component"; "secret_key"; "initial_timestamp"];
     e_defaults := [];
     e_class := MAVLink_setup_signing_message;
     e_args := ["target_system"; "target_component"; "secret_key"; "initial_timestamp"] |}.

Definition setup_signing_send : send_method :=
  {| s_params := ["target_system"; "target_component"; "secret_key"; "initial_timestamp"];
     s_defaults := [];
     s_encode := setup_signing_encode;
     s_args := ["target_system"; "target_component"; "secret_key"; "initial_timestamp"] |}.

Definition button_change_encode : encode_method :=
  {| e_params := ["time_boot_ms"; "last_change_ms"; "state"];
     e_defaults := [];
     e_class := MAVLink_button_change_message;
     e_args := ["time_boot_ms"; "last_change_ms"; "state"] |}.

Definition button_change_send : send_method :=
  {| s_params := ["time_boot_ms"; "last_change_ms"; "state"];
     s_defaults := [];
     s_encode := button_change_encode;
     s_args := ["time_boot_ms"; "last_change_ms"; "state"] |}.

Definition play_tune_encode : encode_method :=
  {| e_params := ["target_system"; "target_component"; "tune"; "tune2"];
     e_defaults := [FScalar (PBytes [])];
     e_class := MAVLink_play_tune_message;
     e_args := ["target_system"; "target_component"; "tune"; "tune2"] |}.

Definition play_tune_send : send_method :=
  {| s_params := ["target_system"; "target_component"; "tune"; "tune2"];
     s_defaults := [FScalar (PBytes [])];
     s_encode := play_tune_encode;
     s_args := ["target_system"; "target_component"; "tune"; "tune2"] |}.

Definition camera_information_encode : encode_method :=
  {| e_params := ["time_boot_ms"; "vendor_name"; "model_name"; "firmware_version"; "focal_length";
    "sensor_size_h"; "sensor_size_v"; "resolution_h"; "resolution_v"; "lens_id"; "flags";
    "cam_definition_version"; "cam_definition_uri"];
     e_defaults := [];
     e_class := MAVLink_camera_information_message;
     e_args := ["time_boot_ms"; "vendor_name"; "model_name"; "firmware_version"; "focal_length";
       "sensor_size_h"; "sensor_size_v"; "resolution_h"; "resolution_v"; "lens_id"; "flags";
       "cam_definition_version"; "cam_definition_uri"] |}.

Definition camera_information_send : send_method :=
  {| s_params := ["time_boot_ms"; "vendor_name"; "model_name"; "firmware_version"; "focal_length";
    "sensor_size_h"; "sensor_size_v"; "resolution_h"; "resolution_v"; "lens_id"; "flags";
    "cam_definition_version"; "cam_definition_uri"];
     s_defaults := [];
     s_encode := camera_information_encode;
     s_args := ["time_boot_ms"; "vendor_name"; "model_name"; "firmware_version"; "focal_length";
       "sensor_size_h"; "sensor_size_v"; "resolution_h"; "resolution_v"; "lens_id"; "flags";
       "cam_definition_version"; "cam_definition_uri"] |}.

Definition camera_settings_encode : encode_method :=
  {| e_params := ["time_boot_ms"; "mode_id"; "zoomLevel"; "focusLevel"];
     e_defaults := [FScalar (PInt 0); FScalar (PInt 0)];
     e_class := MAVLink_camera_settings_message;
     e_args := ["time_boot_ms"; "mode_id"; "zoomLevel"; "focusLevel"] |}.

Definition camera_settings_send : send_method :=
  {| s_params := ["time_boot_ms"; "mode_id"; "zoomLevel"; "focusLevel"];
     s_defaults := [FScalar (PInt 0); FScalar (PInt 0)];
     s_encode := camera_settings_encode;
     s_args := ["time_boot_ms"; "mode_id"; "zoomLevel"; "focusLevel"] |}.

Definition storage_information_encode : encode_method :=
  {| e_params := ["time_boot_ms"; "storage_id"; "storage_count"; "status"; "total_capacity"; "used_capacity";
    "available_capacity"; "read_speed"; "write_speed"; "type"; "name"; "storage_usage"];
     e_defaults := [FScalar (PInt 0); FScalar (PBytes []); FScalar (PInt 0)];
     e_class := MAVLink_storage_information_message;
     e_args := ["time_boot_ms"; "storage_id"; "storage_count"; "status"; "total_capacity"; "used_capacity";
       "available_capacity"; "read_speed"; "write_speed"; "type"; "name"; "storage_usage"] |}.

Definition storage_information_send : send_method :=
  {| s_params := ["time_boot_ms"; "storage_id"; "storage_count"; "status"; "total_capacity"; "used_capacity";
    "available_capacity"; "read_speed"; "write_speed"; "type"; "name"; "storage_usage"];
     s_defaults := [FScalar (PInt 0); FScalar (PBytes []); FScalar (PInt 0)];
     s_encode := storage_information_encode;
     s_args := ["time_boot_ms"; "storage_id"; "storage_count"; "status"; "total_capacity"; "used_capacity";
       "available_capacity"; "read_speed"; "write_speed"; "type"; "name"; "storage_usage"] |}.

Definition camera_capture_status_encode : encode_method :=
  {| e_params := ["time_boot_ms"; "image_status"; "video_status"; "image_interval"; "recording_time_ms";
    "available_capacity"; "image_count"];
     e_defaults := [FScalar (PInt 0)];
     e_class := MAVLink_camera_capture_status_message;
     e_args := ["time_boot_ms"; "image_status"; "video_status"; "image_interval"; "recording_time_ms";
       "available_capacity"; "image_count"] |}.

Definition camera_capture_status_send : send_method :=
  {| s_params := ["time_boot_ms"; "image_status"; "video_status"; "image_interval"; "recording_time_ms";
    "available_capacity"; "image_count"];
     s_defaults := [FScalar (PInt 0)];
     s_encode := camera_capture_status_encode;
     s_args := ["time_boot_ms"; "image_status"; "video_status"; "image_interval"; "recording_time_ms";
       "available_capacity"; "image_count"] |}.

Definition camera_image_captured_encode : encode_method :=
  {| e_params := ["time_boot_ms"; "time_utc"; "camera_id"; "lat"; "lon"; "alt"; "relative_alt"; "q";
    "image_index"; "capture_result"; "file_url"];
     e_defaults := [];
     e_class := MAVLink_camera_image_captured_message;
     e_args := ["time_boot_ms"; "time_utc"; "camera_id"; "lat"; "lon"; "alt"; "relative_alt"; "q";
       "image_index"; "capture_result"; "file_url"] |}.

Definition camera_image_captured_send : send_method :=
  {| s_params := ["time_boot_ms"; "time_utc"; "camera_id"; "lat"; "lon"; "alt"; "relative_alt"; "q";
    "image_index"; "capture_result"; "file_url"];
     s_defaults := [];
     s_encode := camera_image_captured_encode;
     s_args := ["time_boot_ms"; "time_utc"; "camera_id"; "lat"; "lon"; "alt"; "relative_alt"; "q";
       "image_index"; "capture_result"; "file_url"] |}.

Definition flight_information_encode : encode_method :=
  {| e_params := ["time_boot_ms"; "arming_time_utc"; "takeoff_time_utc"; "flight_uuid"];
     e_defaults := [];
     e_class := MAVLink_flight_information_message;
     e_args := ["time_boot_ms"; "arming_time_utc"; "takeoff_time_utc"; "flight_uuid"] |}.

Definition flight_information_send : send_method :=
  {| s_params := ["time_boot_ms"; "arming_time_utc"; "takeoff_time_utc"; "flight_uuid"];
     s_defaults := [];
     s_encode := flight_information_encode;
     s_args := ["time_boot_ms"; "arming_time_utc"; "takeoff_time_utc"; "flight_uuid"] |}.

Definition mount_orientation_encode : encode_method :=
  {| e_params := ["time_boot_ms"; "roll"; "pitch"; "yaw"; "yaw_absolute"];
     e_defaults := [FScalar (PInt 0)];
     e_class := MAVLink_mount_orientation_message;
     e_args := ["time_boot_ms"; "roll"; "pitch"; "yaw"; "yaw_absolute"] |}.

Definition mount_orientation_send : send_method :=
  {| s_params := ["time_boot_ms"; "roll"; "pitch"; "yaw"; "yaw_absolute"];
     s_defaults := [FScalar (PInt 0)];
     s_encode := mount_orientation_encode;
     s_args := ["time_boot_ms"; "roll"; "pitch"; "yaw"; "yaw_absolute"] |}.

Definition logging_data_encode : encode_method :=
  {| e_params := ["target_system"; "target_component"; "sequence"; "length"; "first_message_offset"; "data"];
     e_defaults := [];
     e_class := MAVLink_logging_data_message;
     e_args := ["target_system"; "target_component"; "sequence"; "length"; "first_message_offset"; "data"] |}.

Definition logging_data_send : send_method :=
  {| s_params := ["target_system"; "target_component"; "sequence"; "length"; "first_message_offset"; "data"];
     s_defaults := [];
     s_encode := logging_data_encode;
     s_args := ["target_system"; "target_component"; "sequence"; "length"; "first_message_offset"; "data"] |}.

Definition logging_data_acked_encode : encode_method :=
  {| e_params := ["target_system"; "target_component"; "sequence"; "length"; "first_message_offset"; "data"];
     e_defaults := [];
     e_class := MAVLink_logging_data_acked_message;
     e_args := ["target_system"; "target_component"; "sequence"; "length"; "first_message_offset"; "data"] |}.

Definition logging_data_acked_send : send_method :=
  {| s_params := ["target_system"; "target_component"; "sequence"; "length"; "first_message_offset"; "data"];
     s_defaults := [];
     s_encode := logging_data_acked_encode;
     s_args := ["target_system"; "target_component"; "sequence"; "length"; "first_message_offset"; "data"] |}.

Definition logging_ack_encode : encode_method :=
  {| e_params := ["target_system"; "target_component"; "sequence"];
     e_defaults := [];
     e_class := MAVLink_logging_ack_message;
     e_args := ["target_system"; "target_component"; "sequence"] |}.

Definition logging_ack_send : send_method :=
  {| s_params := ["target_system"; "target_component"; "sequence"];
     s_defaults := [];
     s_encode := logging_ack_encode;
     s_args := ["target_system"; "target_component"; "sequence"] |}.

Definition video_stream_information_encode : encode_method :=
  {| e_params := ["stream_id"; "count"; "type"; "flags"; "framerate"; "resolution_h"; "resolution_v";
    "bitrate"; "rotation"; "hfov"; "name"; "uri"];
     e_defaults := [];
     e_class := MAVLink_video_stream_information_message;
     e_args := ["stream_id"; "count"; "type"; "flags"; "framerate"; "resolution_h"; "resolution_v";
       "bitrate"; "rotation"; "hfov"; "name"; "uri"] |}.

Definition video_stream_information_send : send_method :=
  {| s_params := ["stream_id"; "count"; "type"; "flags"; "framerate"; "resolution_h"; "resolution_v";
    "bitrate"; "rotation"; "hfov"; "name"; "uri"];
     s_defaults := [];
     s_encode := video_stream_information_encode;
     s_args := ["stream_id"; "count"; "type"; "flags"; "framerate"; "resolution_h"; "resolution_v";
       "bitrate"; "rotation"; "hfov"; "name"; "uri"] |}.

Definition video_stream_status_encode : encode_method :=
  {| e_params := ["stream_id"; "flags"; "framerate"; "resolution_h"; "resolution_v"; "bitrate"; "rotation";
    "hfov"];
     e_defaults := [];
     e_class := MAVLink_video_stream_status_message;
     e_args := ["stream_id"; "flags"; "framerate"; "resolution_h"; "resolution_v"; "bitrate"; "rotation";
       "hfov"] |}.

Definition video_stream_status_send : send_method :=
  {| s_params := ["stream_id"; "flags"; "framerate"; "resolution_h"; "resolution_v"; "bitrate"; "rotation";
    "hfov"];
     s_defaults := [];
     s_encode := video_stream_status_encode;
     s_args := ["stream_id"; "flags"; "framerate"; "resolution_h"; "resolution_v"; "bitrate"; "rotation";
       "hfov"] |}.

Definition camera_fov_status_encode : encode_method :=
  {| e_params := ["time_boot_ms"; "lat_camera"; "lon_camera"; "alt_camera"; "lat_image"; "lon_image";
    "alt_image"; "q"; "hfov"; "vfov"];
     e_defaults := [];
     e_class := MAVLink_camera_fov_status_message;
     e_args := ["time_boot_ms"; "lat_camera"; "lon_camera"; "alt_camera"; "lat_image"; "lon_image";
       "alt_image"; "q"; "hfov"; "vfov"] |}.

Definition camera_fov_status_send : send_method :=
  {| s_params := ["time_boot_ms"; "lat_camera"; "lon_camera"; "alt_camera"; "lat_image"; "lon_image";
    "alt_image"; "q"; "hfov"; "vfov"];
     s_defaults := [];
     s_encode := camera_fov_status_encode;
     s_args := ["time_boot_ms"; "lat_camera"; "lon_camera"; "alt_camera"; "lat_image"; "lon_image";
       "alt_image"; "q"; "hfov"; "vfov"] |}.

Definition camera_tracking_image_status_encode : encode_method :=
  {| e_params := ["tracking_status"; "tracking_mode"; "target_data"; "point_x"; "point_y"; "radius";
    "rec_top_x"; "rec_top_y"; "rec_bottom_x"; "rec_bottom_y"];
     e_defaults := [];
     e_class := MAVLink_camera_tracking_image_status_message;
     e_args := ["tracking_status"; "tracking_mode"; "target_data"; "point_x"; "point_y"; "radius";
       "rec_top_x"; "rec_top_y"; "rec_bottom_x"; "rec_bottom_y"] |}.

Definition camera_tracking_image_status_send : send_method :=
  {| s_params := ["tracking_status"; "tracking_mode"; "target_data"; "point_x"; "point_y"; "radius";
    "rec_top_x"; "rec_top_y"; "rec_bottom_x"; "rec_bottom_y"];
     s_defaults := [];
     s_encode := camera_tracking_image_status_encode;
     s_args := ["tracking_status"; "tracking_mode"; "target_data"; "point_x"; "point_y"; "radius";
       "rec_top_x"; "rec_top_y"; "rec_bottom_x"; "rec_bottom_y"] |}.

Definition camera_tracking_geo_status_encode : encode_method :=
  {| e_params := ["tracking_status"; "lat"; "lon"; "alt"; "h_acc"; "v_acc"; "vel_n"; "vel_e"; "vel_d";
    "vel_acc"; "dist"; "hdg"; "hdg_acc"];
     e_defaults := [];
     e_class := MAVLink_camera_tracking_geo_status_message;
     e_args := ["tracking_status"; "lat"; "lon"; "alt"; "h_acc"; "v_acc"; "vel_n"; "vel_e"; "vel_d";
       "vel_acc"; "dist"; "hdg"; "hdg_acc"] |}.

Definition camera_tracking_geo_status_send : send_method :=
  {| s_params := ["tracking_status"; "lat"; "lon"; "alt"; "h_acc"; "v_acc"; "vel_n"; "vel_e"; "vel_d";
    "vel_acc"; "dist"; "hdg"; "hdg_acc"];
     s_defaults := [];
     s_encode := camera_tracking_geo_status_encode;
     s_args := ["tracking_status"; "lat"; "lon"; "alt"; "h_acc"; "v_acc"; "vel_n"; "vel_e"; "vel_d";
       "vel_acc"; "dist"; "hdg"; "hdg_acc"] |}.

Definition gimbal_manager_information_encode : encode_method :=
  {| e_params := ["time_boot_ms"; "cap_flags"; "gimbal_device_id"; "roll_min"; "roll_max"; "pitch_min";
    "pitch_max"; "yaw_min"; "yaw_max"];
     e_defaults := [];
     e_class := MAVLink_gimbal_manager_information_message;
     e_args := ["time_boot_ms"; "cap_flags"; "gimbal_device_id"; "roll_min"; "roll_max"; "pitch_min";
       "pitch_max"; "yaw_min"; "yaw_max"] |}.

Definition gimbal_manager_information_send : send_method :=
  {| s_params := ["time_boot_ms"; "cap_flags"; "gimbal_device_id"; "roll_min"; "roll_max"; "pitch_min";
    "pitch_max"; "yaw_min"; "yaw_max"];
     s_defaults := [];
     s_encode := gimbal_manager_information_encode;
     s_args := ["time_boot_ms"; "cap_flags"; "gimbal_device_id"; "roll_min"; "roll_max"; "pitch_min";
       "pitch_max"; "yaw_min"; "yaw_max"] |}.

Definition gimbal_manager_status_encode : encode_method :=
  {| e_params := ["time_boot_ms"; "flags"; "gimbal_device_id"; "primary_control_sysid";
    "primary_control_compid"; "secondary_control_sysid"; "secondary_control_compid"];
     e_defaults := [];
     e_class := MAVLink_gimbal_manager_status_message;
     e_args := ["time_boot_ms"; "flags"; "gimbal_device_id"; "primary_control_sysid";
       "primary_control_compid"; "secondary_control_sysid"; "secondary_control_compid"] |}.

Definition gimbal_manager_status_send : send_method :=
  {| s_params := ["time_boot_ms"; "flags"; "gimbal_device_id"; "primary_control_sysid";
    "primary_control_compid"; "secondary_control_sysid"; "secondary_control_compid"];
     s_defaults := [];
     s_encode := gimbal_manager_status_encode;
     s_args := ["time_boot_ms"; "flags"; "gimbal_device_id"; "primary_control_sysid";
       "primary_control_compid"; "secondary_control_sysid"; "secondary_control_compid"] |}.

Definition gimbal_manager_set_attitude_encode : encode_method :=
  {| e_params := ["target_system"; "target_component"; "flags"; "gimbal_device_id"; "q";
    "angular_velocity_x"; "angular_velocity_y"; "angular_velocity_z"];
     e_defaults := [];
     e_class := MAVLink_gimbal_manager_set_attitude_message;
     e_args := ["target_system"; "target_component"; "flags"; "gimbal_device_id"; "q"; "angular_velocity_x";
       "angular_velocity_y"; "angular_velocity_z"] |}.

Definition gimbal_manager_set_attitude_send : send_method :=
  {| s_params := ["target_system"; "target_component"; "flags"; "gimbal_device_id"; "q";
    "angular_velocity_x"; "angular_velocity_y"; "angular_velocity_z"];
     s_defaults := [];
     s_encode := gimbal_manager_set_attitude_encode;
     s_args := ["target_system"; "target_component"; "flags"; "gimbal_device_id"; "q"; "angular_velocity_x";
       "angular_velocity_y"; "angular_velocity_z"] |}.

Definition gimbal_device_information_encode : encode_method :=
  {| e_params := ["time_boot_ms"; "vendor_name"; "model_name"; "custom_name"; "firmware_version";
    "hardware_version"; "uid"; "cap_flags"; "custom_cap_flags"; "roll_min"; "roll_max"; "pitch_min";
    "pitch_max"; "yaw_min"; "yaw_max"];
     e_defaults := [];
     e_class := MAVLink_gimbal_device_information_message;
     e_args := ["time_boot_ms"; "vendor_name"; "model_name"; "custom_name"; "firmware_version";
       "hardware_version"; "uid"; "cap_flags"; "custom_cap_flags"; "roll_min"; "roll_max"; "pitch_min";
       "pitch_max"; "yaw_min"; "yaw_max"] |}.

Definition gimbal_device_information_send : send_method :=
  {| s_params := ["time_boot_ms"; "vendor_name"; "model_name"; "custom_name"; "firmware_version";
    "hardware_version"; "uid"; "cap_flags"; "custom_cap_flags"; "roll_min"; "roll_max"; "pitch_min";
    "pitch_max"; "yaw_min"; "yaw_max"];
     s_defaults := [];
     s_encode := gimbal_device_information_encode;
     s_args := ["time_boot_ms"; "vendor_name"; "model_name"; "custom_name"; "firmware_version";
       "hardware_version"; "uid"; "cap_flags"; "custom_cap_flags"; "roll_min"; "roll_max"; "pitch_min";
       "pitch_max"; "yaw_min"; "yaw_max"] |}.

Definition gimbal_device_set_attitude_encode : encode_method :=
  {| e_params := ["target_system"; "target_component"; "flags"; "q"; "angular_velocity_x";
    "angular_velocity_y"; "angular_velocity_z"];
     e_defaults := [];
     e_class := MAVLink_gimbal_device_set_attitude_message;
     e_args := ["target_system"; "target_component"; "flags"; "q"; "angular_velocity_x";
       "angular_velocity_y"; "angular_velocity_z"] |}.

Definition gimbal_device_set_attitude_send : send_method :=
  {| s_params := ["target_system"; "target_component"; "flags"; "q"; "angular_velocity_x";
    "angular_velocity_y"; "angular_velocity_z"];
     s_defaults := [];
     s_encode := gimbal_device_set_attitude_encode;
     s_args := ["target_system"; "target_component"; "flags"; "q"; "angular_velocity_x";
       "angular_velocity_y"; "angular_velocity_z"] |}.

Definition gimbal_device_attitude_status_encode : encode_method :=
  {| e_params := ["target_system"; "target_component"; "time_boot_ms"; "flags"; "q"; "angular_velocity_x";
    "angular_velocity_y"; "angular_velocity_z"; "failure_flags"; "delta_yaw"; "delta_yaw_velocity"];
     e_defaults := [FScalar (PInt 0); FScalar (PInt 0)];
     e_class := MAVLink_gimbal_device_attitude_status_message;
     e_args := ["target_system"; "target_component"; "time_boot_ms"; "flags"; "q"; "angular_velocity_x";
       "angular_velocity_y"; "angular_velocity_z"; "failure_flags"; "delta_yaw"; "delta_yaw_velocity"] |}.

Definition gimbal_device_attitude_status_send : send_method :=
  {| s_params := ["target_system"; "target_component"; "time_boot_ms"; "flags"; "q"; "angular_velocity_x";
    "angular_velocity_y"; "angular_velocity_z"; "failure_flags"; "delta_yaw"; "delta_yaw_velocity"];
     s_defaults := [FScalar (PInt 0); FScalar (PInt 0)];
     s_encode := gimbal_device_attitude_status_encode;
     s_args := ["target_system"; "target_component"; "time_boot_ms"; "flags"; "q"; "angular_velocity_x";
       "angular_velocity_y"; "angular_velocity_z"; "failure_flags"; "delta_yaw"; "delta_yaw_velocity"] |}.

Definition autopilot_state_for_gimbal_device_encode : encode_method :=
  {| e_params := ["target_system"; "target_component"; "time_boot_us"; "q"; "q_estimated_delay_us"; "vx";
    "vy"; "vz"; "v_estimated_delay_us"; "feed_forward_angular_velocity_z"; "estimator_status";
    "landed_state"; "angular_velocity_z"];
     e_defaults := [FScalar (PInt 0)];
     e_class := MAVLink_autopilot_state_for_gimbal_device_message;
     e_args := ["target_system"; "target_component"; "time_boot_us"; "q"; "q_estimated_delay_us"; "vx"; "vy";
       "vz"; "v_estimated_delay_us"; "feed_forward_angular_velocity_z"; "estimator_status"; "landed_state";
       "angular_velocity_z"] |}.

Definition autopilot_state_for_gimbal_device_send : send_method :=
  {| s_params := ["target_system"; "target_component"; "time_boot_us"; "q"; "q_estimated_delay_us"; "vx";
    "vy"; "vz"; "v_estimated_delay_us"; "feed_forward_angular_velocity_z"; "estimator_status";
    "landed_state"; "angular_velocity_z"];
     s_defaults := [FScalar (PInt 0)];
     s_encode := autopilot_state_for_gimbal_device_encode;
     s_args := ["target_system"; "target_component"; "time_boot_us"; "q"; "q_estimated_delay_us"; "vx"; "vy";
       "vz"; "v_estimated_delay_us"; "feed_forward_angular_velocity_z"; "estimator_status"; "landed_state";
       "angular_velocity_z"] |}.

Definition gimbal_manager_set_pitchyaw_encode : encode_method :=
  {| e_params := ["target_system"; "target_component"; "flags"; "gimbal_device_id"; "pitch"; "yaw";
    "pitch_rate"; "yaw_rate"];
     e_defaults := [];
     e_class := MAVLink_gimbal_manager_set_pitchyaw_message;
     e_args := ["target_system"; "target_component"; "flags"; "gimbal_device_id"; "pitch"; "yaw";
       "pitch_rate"; "yaw_rate"] |}.

Definition gimbal_manager_set_pitchyaw_send : send_method :=
  {| s_params := ["target_system"; "target_component"; "flags"; "gimbal_device_id"; "pitch"; "yaw";
    "pitch_rate"; "yaw_rate"];
     s_defaults := [];
     s_encode := gimbal_manager_set_pitchyaw_encode;
     s_args := ["target_system"; "target_component"; "flags"; "gimbal_device_id"; "pitch"; "yaw";
       "pitch_rate"; "yaw_rate"] |}.

Definition gimbal_manager_set_manual_control_encode : encode_method :=
  {| e_params := ["target_system"; "target_component"; "flags"; "gimbal_device_id"; "pitch"; "yaw";
    "pitch_rate"; "yaw_rate"];
     e_defaults := [];
     e_class := MAVLink_gimbal_manager_set_manual_control_message;
     e_args := ["target_system"; "target_component"; "flags"; "gimbal_device_id"; "pitch"; "yaw";
       "pitch_rate"; "yaw_rate"] |}.

Definition gimbal_manager_set_manual_control_send : send_method :=
  {| s_params := ["target_system"; "target_component"; "flags"; "gimbal_device_id"; "pitch"; "yaw";
    "pitch_rate"; "yaw_rate"];
     s_defaults := [];
     s_encode := gimbal_manager_set_manual_control_encode;
     s_args := ["target_system"; "target_component"; "flags"; "gimbal_device_id"; "pitch"; "yaw";
       "pitch_rate"; "yaw_rate"] |}.

Definition senders_3 : list send_method := [scaled_pressure3_send; follow_target_send;
  control_system_state_send; battery_status_send; autopilot_version_send; landing_target_send;
  fence_status_send; mag_cal_report_send; efi_status_send; estimator_status_send; wind_cov_send;
  gps_input_send; gps_rtcm_data_send; high_latency_send; high_latency2_send; vibration_send;
  home_position_send; set_home_position_send; message_interval_send; extended_sys_state_send;
  adsb_vehicle_send; collision_send; v2_extension_send; memory_vect_send; debug_vect_send;
  named_value_float_send; named_value_int_send; statustext_send; debug_send; setup_signing_send;
  button_change_send; play_tune_send; camera_information_send; camera_settings_send;
  storage_information_send; camera_capture_status_send; camera_image_captured_send; flight_information_send;
  mount_orientation_send; logging_data_send; logging_data_acked_send; logging_ack_send;
  video_stream_information_send; video_stream_status_send; camera_fov_status_send;
  camera_tracking_image_status_send; camera_tracking_geo_status_send; gimbal_manager_information_send;
  gimbal_manager_status_send; gimbal_manager_set_attitude_send; gimbal_device_information_send;
  gimbal_device_set_attitude_send; gimbal_device_attitude_status_send;
  autopilot_state_for_gimbal_device_send; gimbal_manager_set_pitchyaw_send;
  gimbal_manager_set_manual_control_send].

End MavMethods3.
