(* ===== verification/MavMethods4.v ===== *)
(** The methods esc_info_encode to protocol_version_send of the class [MAVLink] of
    wfb_ng/mavlink.py (part 4), in the order of the file. *)
From Stdlib Require Import ZArith.
From stdpp Require Import base list strings.
From S2P Require Import Prelude PyStruct MavMessage MavCatalog4 MavMethods.

Module MavMethods4.
Import PyStruct MavMessage MavCatalog4 MavMethods.
#[local] Open Scope string_scope.
#[local] Open Scope nat_scope.
#[local] Open Scope list_scope.

Definition esc_info_encode : encode_method :=
  {| e_params := ["index"; "time_usec"; "counter"; "count"; "connection_type"; "info"; "failure_flags";
    "error_count"; "temperature"];
     e_defaults := [];
     e_class := MAVLink_esc_info_message;
     e_args := ["index"; "time_usec"; "counter"; "count"; "connection_type"; "info"; "failure_flags";
       "error_count"; "temperature"] |}.

Definition esc_info_send : send_method :=
  {| s_params := ["index"; "time_usec"; "counter"; "count"; "connection_type"; "info"; "failure_flags";
    "error_count"; "temperature"];
     s_defaults := [];
     s_encode := esc_info_encode;
     s_args := ["index"; "time_usec"; "counter"; "count"; "connection_type"; "info"; "failure_flags";
       "error_count"; "temperature"] |}.

Definition esc_status_encode : encode_method :=
  {| e_params := ["index"; "time_usec"; "rpm"; "voltage"; "current"];
     e_defaults := [];
     e_class := MAVLink_esc_status_message;
     e_args := ["index"; "time_usec"; "rpm"; "voltage"; "current"] |}.

Definition esc_status_send : send_method :=
  {| s_params := ["index"; "time_usec"; "rpm"; "voltage"; "current"];
     s_defaults := [];
     s_encode := esc_status_encode;
     s_args := ["index"; "time_usec"; "rpm"; "voltage"; "current"] |}.

Definition wifi_config_ap_encode : encode_method :=
  {| e_params := ["ssid"; "password"; "mode"; "response"];
     e_defaults := [FScalar (PInt 0); FScalar (PInt 0)];
     e_class := MAVLink_wifi_config_ap_message;
     e_args := ["ssid"; "password"; "mode"; "response"] |}.

Definition wifi_config_ap_send : send_method :=
  {| s_params := ["ssid"; "password"; "mode"; "response"];
     s_defaults := [FScalar (PInt 0); FScalar (PInt 0)];
     s_encode := wifi_config_ap_encode;
     s_args := ["ssid"; "password"; "mode"; "response"] |}.

Definition ais_vessel_encode : encode_method :=
  {| e_params := ["MMSI"; "lat"; "lon"; "COG"; "heading"; "velocity"; "turn_rate"; "navigational_status";
    "type"; "dimension_bow"; "dimension_stern"; "dimension_port"; "dimension_starboard"; "callsign"; "name";
    "tslc"; "flags"];
     e_defaults := [];
     e_class := MAVLink_ais_vessel_message;
     e_args := ["MMSI"; "lat"; "lon"; "COG"; "heading"; "velocity"; "turn_rate"; "navigational_status";
       "type"; "dimension_bow"; "dimension_stern"; "dimension_port"; "dimension_starboard"; "callsign";
       "name"; "tslc"; "flags"] |}.

Definition ais_vessel_send : send_method :=
  {| s_params := ["MMSI"; "lat"; "lon"; "COG"; "heading"; "velocity"; "turn_rate"; "navigational_status";
    "type"; "dimension_bow"; "dimension_stern"; "dimension_port"; "dimension_starboard"; "callsign"; "name";
    "tslc"; "flags"];
     s_defaults := [];
     s_encode := ais_vessel_encode;
     s_args := ["MMSI"; "lat"; "lon"; "COG"; "heading"; "velocity"; "turn_rate"; "navigational_status";
       "type"; "dimension_bow"; "dimension_stern"; "dimension_port"; "dimension_starboard"; "callsign";
       "name"; "tslc"; "flags"] |}.

Definition uavcan_node_status_encode : encode_method :=
  {| e_params := ["time_usec"; "uptime_sec"; "health"; "mode"; "sub_mode"; "vendor_specific_status_code"];
     e_defaults := [];
     e_class := MAVLink_uavcan_node_status_message;
     e_args := ["time_usec"; "uptime_sec"; "health"; "mode"; "sub_mode"; "vendor_specific_status_code"] |}.

Definition uavcan_node_status_send : send_method :=
  {| s_params := ["time_usec"; "uptime_sec"; "health"; "mode"; "sub_mode"; "vendor_specific_status_code"];
     s_defaults := [];
     s_encode := uavcan_node_status_encode;
     s_args := ["time_usec"; "uptime_sec"; "health"; "mode"; "sub_mode"; "vendor_specific_status_code"] |}.

Definition uavcan_node_info_encode : encode_method :=
  {| e_params := ["time_usec"; "uptime_sec"; "name"; "hw_version_major"; "hw_version_minor"; "hw_unique_id";
    "sw_version_major"; "sw_version_minor"; "sw_vcs_commit"];
     e_defaults := [];
     e_class := MAVLink_uavcan_node_info_message;
     e_args := ["time_usec"; "uptime_sec"; "name"; "hw_version_major"; "hw_version_minor"; "hw_unique_id";
       "sw_version_major"; "sw_version_minor"; "sw_vcs_commit"] |}.

Definition uavcan_node_info_send : send_method :=
  {| s_params := ["time_usec"; "uptime_sec"; "name"; "hw_version_major"; "hw_version_minor"; "hw_unique_id";
    "sw_version_major"; "sw_version_minor"; "sw_vcs_commit"];
     s_defaults := [];
     s_encode := uavcan_node_info_encode;
     s_args := ["time_usec"; "uptime_sec"; "name"; "hw_version_major"; "hw_version_minor"; "hw_unique_id";
       "sw_version_major"; "sw_version_minor"; "sw_vcs_commit"] |}.

Definition param_ext_request_read_encode : encode_method :=
  {| e_params := ["target_system"; "target_component"; "param_id"; "param_index"];
     e_defaults := [];
     e_class := MAVLink_param_ext_request_read_message;
     e_args := ["target_system"; "target_component"; "param_id"; "param_index"] |}.

Definition param_ext_request_read_send : send_method :=
  {| s_params := ["target_system"; "target_component"; "param_id"; "param_index"];
     s_defaults := [];
     s_encode := param_ext_request_read_encode;
     s_args := ["target_system"; "target_component"; "param_id"; "param_index"] |}.

Definition param_ext_request_list_encode : encode_method :=
  {| e_params := ["target_system"; "target_component"];
     e_defaults := [];
     e_class := MAVLink_param_ext_request_list_message;
     e_args := ["target_system"; "target_component"] |}.

Definition param_ext_request_list_send : send_method :=
  {| s_params := ["target_system"; "target_component"];
     s_defaults := [];
     s_encode := param_ext_request_list_encode;
     s_args := ["target_system"; "target_component"] |}.

Definition param_ext_value_encode : encode_method :=
  {| e_params := ["param_id"; "param_value"; "param_type"; "param_count"; "param_index"];
     e_defaults := [];
     e_class := MAVLink_param_ext_value_message;
     e_args := ["param_id"; "param_value"; "param_type"; "param_count"; "param_index"] |}.

Definition param_ext_value_send : send_method :=
  {| s_params := ["param_id"; "param_value"; "param_type"; "param_count"; "param_index"];
     s_defaults := [];
     s_encode := param_ext_value_encode;
     s_args := ["param_id"; "param_value"; "param_type"; "param_count"; "param_index"] |}.

Definition param_ext_set_encode : encode_method :=
  {| e_params := ["target_system"; "target_component"; "param_id"; "param_value"; "param_type"];
     e_defaults := [];
     e_class := MAVLink_param_ext_set_message;
     e_args := ["target_system"; "target_component"; "param_id"; "param_value"; "param_type"] |}.

Definition param_ext_set_send : send_method :=
  {| s_params := ["target_system"; "target_component"; "param_id"; "param_value"; "param_type"];
     s_defaults := [];
     s_encode := param_ext_set_encode;
     s_args := ["target_system"; "target_component"; "param_id"; "param_value"; "param_type"] |}.

Definition param_ext_ack_encode : encode_method :=
  {| e_params := ["param_id"; "param_value"; "param_type"; "param_result"];
     e_defaults := [];
     e_class := MAVLink_param_ext_ack_message;
     e_args := ["param_id"; "param_value"; "param_type"; "param_result"] |}.

Definition param_ext_ack_send : send_method :=
  {| s_params := ["param_id"; "param_value"; "param_type"; "param_result"];
     s_defaults := [];
     s_encode := param_ext_ack_encode;
     s_args := ["param_id"; "param_value"; "param_type"; "param_result"] |}.

Definition obstacle_distance_encode : encode_method :=
  {| e_params := ["time_usec"; "sensor_type"; "distances"; "increment"; "min_distance"; "max_distance";
    "increment_f"; "angle_offset"; "frame"];
     e_defaults := [FScalar (PInt 0); FScalar (PInt 0); FScalar (PInt 0)];
     e_class := MAVLink_obstacle_distance_message;
     e_args := ["time_usec"; "sensor_type"; "distances"; "increment"; "min_distance"; "max_distance";
       "increment_f"; "angle_offset"; "frame"] |}.

Definition obstacle_distance_send : send_method :=
  {| s_params := ["time_usec"; "sensor_type"; "distances"; "increment"; "min_distance"; "max_distance";
    "increment_f"; "angle_offset"; "frame"];
     s_defaults := [FScalar (PInt 0); FScalar (PInt 0); FScalar (PInt 0)];
     s_encode := obstacle_distance_encode;
     s_args := ["time_usec"; "sensor_type"; "distances"; "increment"; "min_distance"; "max_distance";
       "increment_f"; "angle_offset"; "frame"] |}.

Definition odometry_encode : encode_method :=
  {| e_params := ["time_usec"; "frame_id"; "child_frame_id"; "x"; "y"; "z"; "q"; "vx"; "vy"; "vz";
    "rollspeed"; "pitchspeed"; "yawspeed"; "pose_covariance"; "velocity_covariance"; "reset_counter";
    "estimator_type"; "quality"];
     e_defaults := [FScalar (PInt 0); FScalar (PInt 0); FScalar (PInt 0)];
     e_class := MAVLink_odometry_message;
     e_args := ["time_usec"; "frame_id"; "child_frame_id"; "x"; "y"; "z"; "q"; "vx"; "vy"; "vz"; "rollspeed";
       "pitchspeed"; "yawspeed"; "pose_covariance"; "velocity_covariance"; "reset_counter"; "estimator_type";
       "quality"] |}.

Definition odometry_send : send_method :=
  {| s_params := ["time_usec"; "frame_id"; "child_frame_id"; "x"; "y"; "z"; "q"; "vx"; "vy"; "vz";
    "rollspeed"; "pitchspeed"; "yawspeed"; "pose_covariance"; "velocity_covariance"; "reset_counter";
    "estimator_type"; "quality"];
     s_defaults := [FScalar (PInt 0); FScalar (PInt 0); FScalar (PInt 0)];
     s_encode := odometry_encode;
     s_args := ["time_usec"; "frame_id"; "child_frame_id"; "x"; "y"; "z"; "q"; "vx"; "vy"; "vz"; "rollspeed";
       "pitchspeed"; "yawspeed"; "pose_covariance"; "velocity_covariance"; "reset_counter"; "estimator_type";
       "quality"] |}.

Definition trajectory_representation_waypoints_encode : encode_method :=
  {| e_params := ["time_usec"; "valid_points"; "pos_x"; "pos_y"; "pos_z"; "vel_x"; "vel_y"; "vel_z"; "acc_x";
    "acc_y"; "acc_z"; "pos_yaw"; "vel_yaw"; "command"];
     e_defaults := [];
     e_class := MAVLink_trajectory_representation_waypoints_message;
     e_args := ["time_usec"; "valid_points"; "pos_x"; "pos_y"; "pos_z"; "vel_x"; "vel_y"; "vel_z"; "acc_x";
       "acc_y"; "acc_z"; "pos_yaw"; "vel_yaw"; "command"] |}.

Definition trajectory_representation_waypoints_send : send_method :=
  {| s_params := ["time_usec"; "valid_points"; "pos_x"; "pos_y"; "pos_z"; "vel_x"; "vel_y"; "vel_z"; "acc_x";
    "acc_y"; "acc_z"; "pos_yaw"; "vel_yaw"; "command"];
     s_defaults := [];
     s_encode := trajectory_representation_waypoints_encode;
     s_args := ["time_usec"; "valid_points"; "pos_x"; "pos_y"; "pos_z"; "vel_x"; "vel_y"; "vel_z"; "acc_x";
       "acc_y"; "acc_z"; "pos_yaw"; "vel_yaw"; "command"] |}.

Definition trajectory_representation_bezier_encode : encode_method :=
  {| e_params := ["time_usec"; "valid_points"; "pos_x"; "pos_y"; "pos_z"; "delta"; "pos_yaw"];
     e_defaults := [];
     e_class := MAVLink_trajectory_representation_bezier_message;
     e_args := ["time_usec"; "valid_points"; "pos_x"; "pos_y"; "pos_z"; "delta"; "pos_yaw"] |}.

Definition trajectory_representation_bezier_send : send_method :=
  {| s_params := ["time_usec"; "valid_points"; "pos_x"; "pos_y"; "pos_z"; "delta"; "pos_yaw"];
     s_defaults := [];
     s_encode := trajectory_representation_bezier_encode;
     s_args := ["time_usec"; "valid_points"; "pos_x"; "pos_y"; "pos_z"; "delta"; "pos_yaw"] |}.

Definition cellular_status_encode : encode_method :=
  {| e_params := ["status"; "failure_reason"; "type"; "quality"; "mcc"; "mnc"; "lac"];
     e_defaults := [];
     e_class := MAVLink_cellular_status_message;
     e_args := ["status"; "failure_reason"; "type"; "quality"; "mcc"; "mnc"; "lac"] |}.

Definition cellular_status_send : send_method :=
  {| s_params := ["status"; "failure_reason"; "type"; "quality"; "mcc"; "mnc"; "lac"];
     s_defaults := [];
     s_encode := cellular_status_encode;
     s_args := ["status"; "failure_reason"; "type"; "quality"; "mcc"; "mnc"; "lac"] |}.

Definition isbd_link_status_encode : encode_method :=
  {| e_params := ["timestamp"; "last_heartbeat"; "failed_sessions"; "successful_sessions"; "signal_quality";
    "ring_pending"; "tx_session_pending"; "rx_session_pending"];
     e_defaults := [];
     e_class := MAVLink_isbd_link_status_message;
     e_args := ["timestamp"; "last_heartbeat"; "failed_sessions"; "successful_sessions"; "signal_quality";
       "ring_pending"; "tx_session_pending"; "rx_session_pending"] |}.

Definition isbd_link_status_send : send_method :=
  {| s_params := ["timestamp"; "last_heartbeat"; "failed_sessions"; "successful_sessions"; "signal_quality";
    "ring_pending"; "tx_session_pending"; "rx_session_pending"];
     s_defaults := [];
     s_encode := isbd_link_status_encode;
     s_args := ["timestamp"; "last_heartbeat"; "failed_sessions"; "successful_sessions"; "signal_quality";
       "ring_pending"; "tx_session_pending"; "rx_session_pending"] |}.

Definition cellular_config_encode : encode_method :=
  {| e_params := ["enable_lte"; "enable_pin"; "pin"; "new_pin"; "apn"; "puk"; "roaming"; "response"];
     e_defaults := [];
     e_class := MAVLink_cellular_config_message;
     e_args := ["enable_lte"; "enable_pin"; "pin"; "new_pin"; "apn"; "puk"; "roaming"; "response"] |}.

Definition cellular_config_send : send_method :=
  {| s_params := ["enable_lte"; "enable_pin"; "pin"; "new_pin"; "apn"; "puk"; "roaming"; "response"];
     s_defaults := [];
     s_encode := cellular_config_encode;
     s_args := ["enable_lte"; "enable_pin"; "pin"; "new_pin"; "apn"; "puk"; "roaming"; "response"] |}.

Definition raw_rpm_encode : encode_method :=
  {| e_params := ["index"; "frequency"];
     e_defaults := [];
     e_class := MAVLink_raw_rpm_message;
     e_args := ["index"; "frequency"] |}.

Definition raw_rpm_send : send_method :=
  {| s_params := ["index"; "frequency"];
     s_defaults := [];
     s_encode := raw_rpm_encode;
     s_args := ["index"; "frequency"] |}.

Definition utm_global_position_encode : encode_method :=
  {| e_params := ["time"; "uas_id"; "lat"; "lon"; "alt"; "relative_alt"; "vx"; "vy"; "vz"; "h_acc"; "v_acc";
    "vel_acc"; "next_lat"; "next_lon"; "next_alt"; "update_rate"; "flight_state"; "flags"];
     e_defaults := [];
     e_class := MAVLink_utm_global_position_message;
     e_args := ["time"; "uas_id"; "lat"; "lon"; "alt"; "relative_alt"; "vx"; "vy"; "vz"; "h_acc"; "v_acc";
       "vel_acc"; "next_lat"; "next_lon"; "next_alt"; "update_rate"; "flight_state"; "flags"] |}.

Definition utm_global_position_send : send_method :=
  {| s_params := ["time"; "uas_id"; "lat"; "lon"; "alt"; "relative_alt"; "vx"; "vy"; "vz"; "h_acc"; "v_acc";
    "vel_acc"; "next_lat"; "next_lon"; "next_alt"; "update_rate"; "flight_state"; "flags"];
     s_defaults := [];
     s_encode := utm_global_position_encode;
     s_args := ["time"; "uas_id"; "lat"; "lon"; "alt"; "relative_alt"; "vx"; "vy"; "vz"; "h_acc"; "v_acc";
       "vel_acc"; "next_lat"; "next_lon"; "next_alt"; "update_rate"; "flight_state"; "flags"] |}.

Definition debug_float_array_encode : encode_method :=
  {| e_params := ["time_usec"; "name"; "array_id"; "data"];
     e_defaults := [FArray (replicate 58 (PInt 0))];
     e_class := MAVLink_debug_float_array_message;
     e_args := ["time_usec"; "name"; "array_id"; "data"] |}.

Definition debug_float_array_send : send_method :=
  {| s_params := ["time_usec"; "name"; "array_id"; "data"];
     s_defaults := [FArray (replicate 58 (PInt 0))];
     s_encode := debug_float_array_encode;
     s_args := ["time_usec"; "name"; "array_id"; "data"] |}.

Definition orbit_execution_status_encode : encode_method :=
  {| e_params := ["time_usec"; "radius"; "frame"; "x"; "y"; "z"];
     e_defaults := [];
     e_class := MAVLink_orbit_execution_status_message;
     e_args := ["time_usec"; "radius"; "frame"; "x"; "y"; "z"] |}.

Definition orbit_execution_status_send : send_method :=
  {| s_params := ["time_usec"; "radius"; "frame"; "x"; "y"; "z"];
     s_defaults := [];
     s_encode := orbit_execution_status_encode;
     s_args := ["time_usec"; "radius"; "frame"; "x"; "y"; "z"] |}.

Definition smart_battery_info_encode : encode_method :=
  {| e_params := ["id"; "battery_function"; "type"; "capacity_full_specification"; "capacity_full";
    "cycle_count"; "serial_number"; "device_name"; "weight"; "discharge_minimum_voltage";
    "charging_minimum_voltage"; "resting_minimum_voltage"; "charging_maximum_voltage"; "cells_in_series";
    "discharge_maximum_current"; "discharge_maximum_burst_current"; "manufacture_date"];
     e_defaults := [FScalar (PInt 0); FScalar (PInt 0); FScalar (PInt 0); FScalar (PInt 0);
       FScalar (PBytes [])];
     e_class := MAVLink_smart_battery_info_message;
     e_args := ["id"; "battery_function"; "type"; "capacity_full_specification"; "capacity_full";
       "cycle_count"; "serial_number"; "device_name"; "weight"; "discharge_minimum_voltage";
       "charging_minimum_voltage"; "resting_minimum_voltage"; "charging_maximum_voltage"; "cells_in_series";
       "discharge_maximum_current"; "discharge_maximum_burst_current"; "manufacture_date"] |}.

Definition smart_battery_info_send : send_method :=
  {| s_params := ["id"; "battery_function"; "type"; "capacity_full_specification"; "capacity_full";
    "cycle_count"; "serial_number"; "device_name"; "weight"; "discharge_minimum_voltage";
    "charging_minimum_voltage"; "resting_minimum_voltage"; "charging_maximum_voltage"; "cells_in_series";
    "discharge_maximum_current"; "discharge_maximum_burst_current"; "manufacture_date"];
     s_defaults := [FScalar (PInt 0); FScalar (PInt 0); FScalar (PInt 0); FScalar (PInt 0);
       FScalar (PBytes [])];
     s_encode := smart_battery_info_encode;
     s_args := ["id"; "battery_function"; "type"; "capacity_full_specification"; "capacity_full";
       "cycle_count"; "serial_number"; "device_name"; "weight"; "discharge_minimum_voltage";
       "charging_minimum_voltage"; "resting_minimum_voltage"; "charging_maximum_voltage"; "cells_in_series";
       "discharge_maximum_current"; "discharge_maximum_burst_current"; "manufacture_date"] |}.

Definition generator_status_encode : encode_method :=
  {| e_params := ["status"; "generator_speed"; "battery_current"; "load_current"; "power_generated";
    "bus_voltage"; "rectifier_temperature"; "bat_current_setpoint"; "generator_temperature"; "runtime";
    "time_until_maintenance"];
     e_defaults := [];
     e_class := MAVLink_generator_status_message;
     e_args := ["status"; "generator_speed"; "battery_current"; "load_current"; "power_generated";
       "bus_voltage"; "rectifier_temperature"; "bat_current_setpoint"; "generator_temperature"; "runtime";
       "time_until_maintenance"] |}.

Definition generator_status_send : send_method :=
  {| s_params := ["status"; "generator_speed"; "battery_current"; "load_current"; "power_generated";
    "bus_voltage"; "rectifier_temperature"; "bat_current_setpoint"; "generator_temperature"; "runtime";
    "time_until_maintenance"];
     s_defaults := [];
     s_encode := generator_status_encode;
     s_args := ["status"; "generator_speed"; "battery_current"; "load_current"; "power_generated";
       "bus_voltage"; "rectifier_temperature"; "bat_current_setpoint"; "generator_temperature"; "runtime";
       "time_until_maintenance"] |}.

Definition actuator_output_status_encode : encode_method :=
  {| e_params := ["time_usec"; "active"; "actuator"];
     e_defaults := [];
     e_class := MAVLink_actuator_output_status_message;
     e_args := ["time_usec"; "active"; "actuator"] |}.

Definition actuator_output_status_send : send_method :=
  {| s_params := ["time_usec"; "active"; "actuator"];
     s_defaults := [];
     s_encode := actuator_output_status_encode;
     s_args := ["time_usec"; "active"; "actuator"] |}.

Definition time_estimate_to_target_encode : encode_method :=
  {| e_params := ["safe_return"; "land"; "mission_next_item"; "mission_end"; "commanded_action"];
     e_defaults := [];
     e_class := MAVLink_time_estimate_to_target_message;
     e_args := ["safe_return"; "land"; "mission_next_item"; "mission_end"; "commanded_action"] |}.

Definition time_estimate_to_target_send : send_method :=
  {| s_params := ["safe_return"; "land"; "mission_next_item"; "mission_end"; "commanded_action"];
     s_defaults := [];
     s_encode := time_estimate_to_target_encode;
     s_args := ["safe_return"; "land"; "mission_next_item"; "mission_end"; "commanded_action"] |}.

Definition tunnel_encode : encode_method :=
  {| e_params := ["target_system"; "target_component"; "payload_type"; "payload_length"; "payload"];
     e_defaults := [];
     e_class := MAVLink_tunnel_message;
     e_args := ["target_system"; "target_component"; "payload_type"; "payload_length"; "payload"] |}.

Definition tunnel_send : send_method :=
  {| s_params := ["target_system"; "target_component"; "payload_type"; "payload_length"; "payload"];
     s_defaults := [];
     s_encode := tunnel_encode;
     s_args := ["target_system"; "target_component"; "payload_type"; "payload_length"; "payload"] |}.

Definition can_frame_encode : encode_method :=
  {| e_params := ["target_system"; "target_component"; "bus"; "len"; "id"; "data"];
     e_defaults := [];
     e_class := MAVLink_can_frame_message;
     e_args := ["target_system"; "target_component"; "bus"; "len"; "id"; "data"] |}.

Definition can_frame_send : send_method :=
  {| s_params := ["target_system"; "target_component"; "bus"; "len"; "id"; "data"];
     s_defaults := [];
     s_encode := can_frame_encode;
     s_args := ["target_system"; "target_component"; "bus"; "len"; "id"; "data"] |}.

Definition onboard_computer_status_encode : encode_method :=
  {| e_params := ["time_usec"; "uptime"; "type"; "cpu_cores"; "cpu_combined"; "gpu_cores"; "gpu_combined";
    "temperature_board"; "temperature_core"; "fan_speed"; "ram_usage"; "ram_total"; "storage_type";
    "storage_usage"; "storage_total"; "link_type"; "link_tx_rate"; "link_rx_rate"; "link_tx_max";
    "link_rx_max"];
     e_defaults := [];
     e_class := MAVLink_onboard_computer_status_message;
     e_args := ["time_usec"; "uptime"; "type"; "cpu_cores"; "cpu_combined"; "gpu_cores"; "gpu_combined";
       "temperature_board"; "temperature_core"; "fan_speed"; "ram_usage"; "ram_total"; "storage_type";
       "storage_usage"; "storage_total"; "link_type"; "link_tx_rate"; "link_rx_rate"; "link_tx_max";
       "link_rx_max"] |}.

Definition onboard_computer_status_send : send_method :=
  {| s_params := ["time_usec"; "uptime"; "type"; "cpu_cores"; "cpu_combined"; "gpu_cores"; "gpu_combined";
    "temperature_board"; "temperature_core"; "fan_speed"; "ram_usage"; "ram_total"; "storage_type";
    "storage_usage"; "storage_total"; "link_type"; "link_tx_rate"; "link_rx_rate"; "link_tx_max";
    "link_rx_max"];
     s_defaults := [];
     s_encode := onboard_computer_status_encode;
     s_args := ["time_usec"; "uptime"; "type"; "cpu_cores"; "cpu_combined"; "gpu_cores"; "gpu_combined";
       "temperature_board"; "temperature_core"; "fan_speed"; "ram_usage"; "ram_total"; "storage_type";
       "storage_usage"; "storage_total"; "link_type"; "link_tx_rate"; "link_rx_rate"; "link_tx_max";
       "link_rx_max"] |}.

Definition component_information_encode : encode_method :=
  {| e_params := ["time_boot_ms"; "general_metadata_file_crc"; "general_metadata_uri";
    "peripherals_metadata_file_crc"; "peripherals_metadata_uri"];
     e_defaults := [];
     e_class := MAVLink_component_information_message;
     e_args := ["time_boot_ms"; "general_metadata_file_crc"; "general_metadata_uri";
       "peripherals_metadata_file_crc"; "peripherals_metadata_uri"] |}.

Definition component_information_send : send_method :=
  {| s_params := ["time_boot_ms"; "general_metadata_file_crc"; "general_metadata_uri";
    "peripherals_metadata_file_crc"; "peripherals_metadata_uri"];
     s_defaults := [];
     s_encode := component_information_encode;
     s_args := ["time_boot_ms"; "general_metadata_file_crc"; "general_metadata_uri";
       "peripherals_metadata_file_crc"; "peripherals_metadata_uri"] |}.

Definition component_metadata_encode : encode_method :=
  {| e_params := ["time_boot_ms"; "file_crc"; "uri"];
     e_defaults := [];
     e_class := MAVLink_component_metadata_message;
     e_args := ["time_boot_ms"; "file_crc"; "uri"] |}.

Definition component_metadata_send : send_method :=
  {| s_params := ["time_boot_ms"; "file_crc"; "uri"];
     s_defaults := [];
     s_encode := component_metadata_encode;
     s_args := ["time_boot_ms"; "file_crc"; "uri"] |}.

Definition play_tune_v2_encode : encode_method :=
  {| e_params := ["target_system"; "target_component"; "format"; "tune"];
     e_defaults := [];
     e_class := MAVLink_play_tune_v2_message;
     e_args := ["target_system"; "target_component"; "format"; "tune"] |}.

Definition play_tune_v2_send : send_method :=
  {| s_params := ["target_system"; "target_component"; "format"; "tune"];
     s_defaults := [];
     s_encode := play_tune_v2_encode;
     s_args := ["target_system"; "target_component"; "format"; "tune"] |}.

Definition supported_tunes_encode : encode_method :=
  {| e_params := ["target_system"; "target_component"; "format"];
     e_defaults := [];
     e_class := MAVLink_supported_tunes_message;
     e_args := ["target_system"; "target_component"; "format"] |}.

Definition supported_tunes_send : send_method :=
  {| s_params := ["target_system"; "target_component"; "format"];
     s_defaults := [];
     s_encode := supported_tunes_encode;
     s_args := ["target_system"; "target_component"; "format"] |}.

Definition event_encode : encode_method :=
  {| e_params := ["destination_component"; "destination_system"; "id"; "event_time_boot_ms"; "sequence";
    "log_levels"; "arguments"];
     e_defaults := [];
     e_class := MAVLink_event_message;
     e_args := ["destination_component"; "destination_system"; "id"; "event_time_boot_ms"; "sequence";
       "log_levels"; "arguments"] |}.

Definition event_send : send_method :=
  {| s_params := ["destination_component"; "destination_system"; "id"; "event_time_boot_ms"; "sequence";
    "log_levels"; "arguments"];
     s_defaults := [];
     s_encode := event_encode;
     s_args := ["destination_component"; "destination_system"; "id"; "event_time_boot_ms"; "sequence";
       "log_levels"; "arguments"] |}.

Definition current_event_sequence_encode : encode_method :=
  {| e_params := ["sequence"; "flags"];
     e_defaults := [];
     e_class := MAVLink_current_event_sequence_message;
     e_args := ["sequence"; "flags"] |}.

Definition current_event_sequence_send : send_method :=
  {| s_params := ["sequence"; "flags"];
     s_defaults := [];
     s_encode := current_event_sequence_encode;
     s_args := ["sequence"; "flags"] |}.

Definition request_event_encode : encode_method :=
  {| e_params := ["target_system"; "target_component"; "first_sequence"; "last_sequence"];
     e_defaults := [];
     e_class := MAVLink_request_event_message;
     e_args := ["target_system"; "target_component"; "first_sequence"; "last_sequence"] |}.

Definition request_event_send : send_method :=
  {| s_params := ["target_system"; "target_component"; "first_sequence"; "last_sequence"];
     s_defaults := [];
     s_encode := request_event_encode;
     s_args := ["target_system"; "target_component"; "first_sequence"; "last_sequence"] |}.

Definition response_event_error_encode : encode_method :=
  {| e_params := ["target_system"; "target_component"; "sequence"; "sequence_oldest_available"; "reason"];
     e_defaults := [];
     e_class := MAVLink_response_event_error_message;
     e_args := ["target_system"; "target_component"; "sequence"; "sequence_oldest_available"; "reason"] |}.

Definition response_event_error_send : send_method :=
  {| s_params := ["target_system"; "target_component"; "sequence"; "sequence_oldest_available"; "reason"];
     s_defaults := [];
     s_encode := response_event_error_encode;
     s_args := ["target_system"; "target_component"; "sequence"; "sequence_oldest_available"; "reason"] |}.

Definition canfd_frame_encode : encode_method :=
  {| e_params := ["target_system"; "target_component"; "bus"; "len"; "id"; "data"];
     e_defaults := [];
     e_class := MAVLink_canfd_frame_message;
     e_args := ["target_system"; "target_component"; "bus"; "len"; "id"; "data"] |}.

Definition canfd_frame_send : send_method :=
  {| s_params := ["target_system"; "target_component"; "bus"; "len"; "id"; "data"];
     s_defaults := [];
     s_encode := canfd_frame_encode;
     s_args := ["target_system"; "target_component"; "bus"; "len"; "id"; "data"] |}.

Definition can_filter_modify_encode : encode_method :=
  {| e_params := ["target_system"; "target_component"; "bus"; "operation"; "num_ids"; "ids"];
     e_defaults := [];
     e_class := MAVLink_can_filter_modify_message;
     e_args := ["target_system"; "target_component"; "bus"; "operation"; "num_ids"; "ids"] |}.

Definition can_filter_modify_send : send_method :=
  {| s_params := ["target_system"; "target_component"; "bus"; "operation"; "num_ids"; "ids"];
     s_defaults := [];
     s_encode := can_filter_modify_encode;
     s_args := ["target_system"; "target_component"; "bus"; "operation"; "num_ids"; "ids"] |}.

Definition wheel_distance_encode : encode_method :=
  {| e_params := ["time_usec"; "count"; "distance"];
     e_defaults := [];
     e_class := MAVLink_wheel_distance_message;
     e_args := ["time_usec"; "count"; "distance"] |}.

Definition wheel_distance_send : send_method :=
  {| s_params := ["time_usec"; "count"; "distance"];
     s_defaults := [];
     s_encode := wheel_distance_encode;
     s_args := ["time_usec"; "count"; "distance"] |}.

Definition winch_status_encode : encode_method :=
  {| e_params := ["time_usec"; "line_length"; "speed"; "tension"; "voltage"; "current"; "temperature";
    "status"];
     e_defaults := [];
     e_class := MAVLink_winch_status_message;
     e_args := ["time_usec"; "line_length"; "speed"; "tension"; "voltage"; "current"; "temperature"; "status"] |}.

Definition winch_status_send : send_method :=
  {| s_params := ["time_usec"; "line_length"; "speed"; "tension"; "voltage"; "current"; "temperature";
    "status"];
     s_defaults := [];
     s_encode := winch_status_encode;
     s_args := ["time_usec"; "line_length"; "speed"; "tension"; "voltage"; "current"; "temperature"; "status"] |}.

Definition open_drone_id_basic_id_encode : encode_method :=
  {| e_params := ["target_system"; "target_component"; "id_or_mac"; "id_type"; "ua_type"; "uas_id"];
     e_defaults := [];
     e_class := MAVLink_open_drone_id_basic_id_message;
     e_args := ["target_system"; "target_component"; "id_or_mac"; "id_type"; "ua_type"; "uas_id"] |}.

Definition open_drone_id_basic_id_send : send_method :=
  {| s_params := ["target_system"; "target_component"; "id_or_mac"; "id_type"; "ua_type"; "uas_id"];
     s_defaults := [];
     s_encode := open_drone_id_basic_id_encode;
     s_args := ["target_system"; "target_component"; "id_or_mac"; "id_type"; "ua_type"; "uas_id"] |}.

Definition open_drone_id_location_encode : encode_method :=
  {| e_params := ["target_system"; "target_component"; "id_or_mac"; "status"; "direction";
    "speed_horizontal"; "speed_vertical"; "latitude"; "longitude"; "altitude_barometric";
    "altitude_geodetic"; "height_reference"; "height"; "horizontal_accuracy"; "vertical_accuracy";
    "barometer_accuracy"; "speed_accuracy"; "timestamp"; "timestamp_accuracy"];
     e_defaults := [];
     e_class := MAVLink_open_drone_id_location_message;
     e_args := ["target_system"; "target_component"; "id_or_mac"; "status"; "direction"; "speed_horizontal";
       "speed_vertical"; "latitude"; "longitude"; "altitude_barometric"; "altitude_geodetic";
       "height_reference"; "height"; "horizontal_accuracy"; "vertical_accuracy"; "barometer_accuracy";
       "speed_accuracy"; "timestamp"; "timestamp_accuracy"] |}.

Definition open_drone_id_location_send : send_method :=
  {| s_params := ["target_system"; "target_component"; "id_or_mac"; "status"; "direction";
    "speed_horizontal"; "speed_vertical"; "latitude"; "longitude"; "altitude_barometric";
    "altitude_geodetic"; "height_reference"; "height"; "horizontal_accuracy"; "vertical_accuracy";
    "barometer_accuracy"; "speed_accuracy"; "timestamp"; "timestamp_accuracy"];
     s_defaults := [];
     s_encode := open_drone_id_location_encode;
     s_args := ["target_system"; "target_component"; "id_or_mac"; "status"; "direction"; "speed_horizontal";
       "speed_vertical"; "latitude"; "longitude"; "altitude_barometric"; "altitude_geodetic";
       "height_reference"; "height"; "horizontal_accuracy"; "vertical_accuracy"; "barometer_accuracy";
       "speed_accuracy"; "timestamp"; "timestamp_accuracy"] |}.

Definition open_drone_id_authentication_encode : encode_method :=
  {| e_params := ["target_system"; "target_component"; "id_or_mac"; "authentication_type"; "data_page";
    "last_page_index"; "length"; "timestamp"; "authentication_data"];
     e_defaults := [];
     e_class := MAVLink_open_drone_id_authentication_message;
     e_args := ["target_system"; "target_component"; "id_or_mac"; "authentication_type"; "data_page";
       "last_page_index"; "length"; "timestamp"; "authentication_data"] |}.

Definition open_drone_id_authentication_send : send_method :=
  {| s_params := ["target_system"; "target_component"; "id_or_mac"; "authentication_type"; "data_page";
    "last_page_index"; "length"; "timestamp"; "authentication_data"];
     s_defaults := [];
     s_encode := open_drone_id_authentication_encode;
     s_args := ["target_system"; "target_component"; "id_or_mac"; "authentication_type"; "data_page";
       "last_page_index"; "length"; "timestamp"; "authentication_data"] |}.

Definition open_drone_id_self_id_encode : encode_method :=
  {| e_params := ["target_system"; "target_component"; "id_or_mac"; "description_type"; "description"];
     e_defaults := [];
     e_class := MAVLink_open_drone_id_self_id_message;
     e_args := ["target_system"; "target_component"; "id_or_mac"; "description_type"; "description"] |}.

Definition open_drone_id_self_id_send : send_method :=
  {| s_params := ["target_system"; "target_component"; "id_or_mac"; "description_type"; "description"];
     s_defaults := [];
     s_encode := open_drone_id_self_id_encode;
     s_args := ["target_system"; "target_component"; "id_or_mac"; "description_type"; "description"] |}.

Definition open_drone_id_system_encode : encode_method :=
  {| e_params := ["target_system"; "target_component"; "id_or_mac"; "operator_location_type";
    "classification_type"; "operator_latitude"; "operator_longitude"; "area_count"; "area_radius";
    "area_ceiling"; "area_floor"; "category_eu"; "class_eu"; "operator_altitude_geo"; "timestamp"];
     e_defaults := [];
     e_class := MAVLink_open_drone_id_system_message;
     e_args := ["target_system"; "target_component"; "id_or_mac"; "operator_location_type";
       "classification_type"; "operator_latitude"; "operator_longitude"; "area_count"; "area_radius";
       "area_ceiling"; "area_floor"; "category_eu"; "class_eu"; "operator_altitude_geo"; "timestamp"] |}.

Definition open_drone_id_system_send : send_method :=
  {| s_params := ["target_system"; "target_component"; "id_or_mac"; "operator_location_type";
    "classification_type"; "operator_latitude"; "operator_longitude"; "area_count"; "area_radius";
    "area_ceiling"; "area_floor"; "category_eu"; "class_eu"; "operator_altitude_geo"; "timestamp"];
     s_defaults := [];
     s_encode := open_drone_id_system_encode;
     s_args := ["target_system"; "target_component"; "id_or_mac"; "operator_location_type";
       "classification_type"; "operator_latitude"; "operator_longitude"; "area_count"; "area_radius";
       "area_ceiling"; "area_floor"; "category_eu"; "class_eu"; "operator_altitude_geo"; "timestamp"] |}.

Definition open_drone_id_operator_id_encode : encode_method :=
  {| e_params := ["target_system"; "target_component"; "id_or_mac"; "operator_id_type"; "operator_id"];
     e_defaults := [];
     e_class := MAVLink_open_drone_id_operator_id_message;
     e_args := ["target_system"; "target_component"; "id_or_mac"; "operator_id_type"; "operator_id"] |}.

Definition open_drone_id_operator_id_send : send_method :=
  {| s_params := ["target_system"; "target_component"; "id_or_mac"; "operator_id_type"; "operator_id"];
     s_defaults := [];
     s_encode := open_drone_id_operator_id_encode;
     s_args := ["target_system"; "target_component"; "id_or_mac"; "operator_id_type"; "operator_id"] |}.

Definition open_drone_id_message_pack_encode : encode_method :=
  {| e_params := ["target_system"; "target_component"; "id_or_mac"; "single_message_size"; "msg_pack_size";
    "messages"];
     e_defaults := [];
     e_class := MAVLink_open_drone_id_message_pack_message;
     e_args := ["target_system"; "target_component"; "id_or_mac"; "single_message_size"; "msg_pack_size";
       "messages"] |}.

Definition open_drone_id_message_pack_send : send_method :=
  {| s_params := ["target_system"; "target_component"; "id_or_mac"; "single_message_size"; "msg_pack_size";
    "messages"];
     s_defaults := [];
     s_encode := open_drone_id_message_pack_encode;
     s_args := ["target_system"; "target_component"; "id_or_mac"; "single_message_size"; "msg_pack_size";
       "messages"] |}.

Definition open_drone_id_arm_status_encode : encode_method :=
  {| e_params := ["status"; "error"];
     e_defaults := [];
     e_class := MAVLink_open_drone_id_arm_status_message;
     e_args := ["status"; "error"] |}.

Definition open_drone_id_arm_status_send : send_method :=
  {| s_params := ["status"; "error"];
     s_defaults := [];
     s_encode := open_drone_id_arm_status_encode;
     s_args := ["status"; "error"] |}.

Definition open_drone_id_system_update_encode : encode_method :=
  {| e_params := ["target_system"; "target_component"; "operator_latitude"; "operator_longitude";
    "operator_altitude_geo"; "timestamp"];
     e_defaults := [];
     e_class := MAVLink_open_drone_id_system_update_message;
     e_args := ["target_system"; "target_component"; "operator_latitude"; "operator_longitude";
       "operator_altitude_geo"; "timestamp"] |}.

Definition open_drone_id_system_update_send : send_method :=
  {| s_params := ["target_system"; "target_component"; "operator_latitude"; "operator_longitude";
    "operator_altitude_geo"; "timestamp"];
     s_defaults := [];
     s_encode := open_drone_id_system_update_encode;
     s_args := ["target_system"; "target_component"; "operator_latitude"; "operator_longitude";
       "operator_altitude_geo"; "timestamp"] |}.

Definition hygrometer_sensor_encode : encode_method :=
  {| e_params := ["id"; "temperature"; "humidity"];
     e_defaults := [];
     e_class := MAVLink_hygrometer_sensor_message;
     e_args := ["id"; "temperature"; "humidity"] |}.

Definition hygrometer_sensor_send : send_method :=
  {| s_params := ["id"; "temperature"; "humidity"];
     s_defaults := [];
     s_encode := hygrometer_sensor_encode;
     s_args := ["id"; "temperature"; "humidity"] |}.

Definition heartbeat_encode : encode_method :=
  {| e_params := ["type"; "autopilot"; "base_mode"; "custom_mode"; "system_status"; "mavlink_version"];
     e_defaults := [FScalar (PInt 3)];
     e_class := MAVLink_heartbeat_message;
     e_args := ["type"; "autopilot"; "base_mode"; "custom_mode"; "system_status"; "mavlink_version"] |}.

Definition heartbeat_send : send_method :=
  {| s_params := ["type"; "autopilot"; "base_mode"; "custom_mode"; "system_status"; "mavlink_version"];
     s_defaults := [FScalar (PInt 3)];
     s_encode := heartbeat_encode;
     s_args := ["type"; "autopilot"; "base_mode"; "custom_mode"; "system_status"; "mavlink_version"] |}.

Definition protocol_version_encode : encode_method :=
  {| e_params := ["version"; "min_version"; "max_version"; "spec_version_hash"; "library_version_hash"];
     e_defaults := [];
     e_class := MAVLink_protocol_version_message;
     e_args := ["version"; "min_version"; "max_version"; "spec_version_hash"; "library_version_hash"] |}.

Definition protocol_version_send : send_method :=
  {| s_params := ["version"; "min_version"; "max_version"; "spec_version_hash"; "library_version_hash"];
     s_defaults := [];
     s_encode := protocol_version_encode;
     s_args := ["version"; "min_version"; "max_version"; "spec_version_hash"; "library_version_hash"] |}.

Definition senders_4 : list send_method := [esc_info_send; esc_status_send; wifi_config_ap_send;
  ais_vessel_send; uavcan_node_status_send; uavcan_node_info_send; param_ext_request_read_send;
  param_ext_request_list_send; param_ext_value_send; param_ext_set_send; param_ext_ack_send;
  obstacle_distance_send; odometry_send; trajectory_representation_waypoints_send;
  trajectory_representation_bezier_send; cellular_status_send; isbd_link_status_send; cellular_config_send;
  raw_rpm_send; utm_global_position_send; debug_float_array_send; orbit_execution_status_send;
  smart_battery_info_send; generator_status_send; actuator_output_status_send; time_estimate_to_target_send;
  tunnel_send; can_frame_send; onboard_computer_status_send; component_information_send;
  component_metadata_send; play_tune_v2_send; supported_tunes_send; event_send; current_event_sequence_send;
  request_event_send; response_event_error_send; canfd_frame_send; can_filter_modify_send;
  wheel_distance_send; winch_status_send; open_drone_id_basic_id_send; open_drone_id_location_send;
  open_drone_id_authentication_send; open_drone_id_self_id_send; open_drone_id_system_send;
  open_drone_id_operator_id_send; open_drone_id_message_pack_send; open_drone_id_arm_status_send;
  open_drone_id_system_update_send; hygrometer_sensor_send; heartbeat_send; protocol_version_send].

End MavMethods4.
