(* ===== verification/MavSend.v ===== *)
(** The [x_send] methods of wfb_ng/mavlink.py taken together: there is one for
    every message class of the dispatch table, it hands its arguments to the
    constructor of that class, and what it writes is decoded to those arguments. *)
From Stdlib Require Import ZArith Lia Bool.
From stdpp Require Import base list numbers strings gmap.
From S2P Require Import Prelude PyStruct X25 Sha MavMessage MavMap MavCodec MavLink MavFrame MavSpec.
From S2P Require Import MavMethods MavMethods1 MavMethods2 MavMethods3 MavMethods4.

Module MavSend.
Import PyStruct MavMessage MavMap MavCodec MavLink MavFrame MavSpec MavMethods.

#[export] Instance msgtype_eq_dec : EqDecision msgtype.
Proof. solve_decision. Defined.

#[export] Instance encode_method_eq_dec : EqDecision encode_method.
Proof. solve_decision. Defined.

#[export] Instance send_method_eq_dec : EqDecision send_method.
Proof. solve_decision. Defined.

Definition senders : list send_method :=
  MavMethods1.senders_1 ++ MavMethods2.senders_2 ++ MavMethods3.senders_3 ++ MavMethods4.senders_4.

Definition class_of (s : send_method) : msgtype := e_class (s_encode s).

(** Each method is faithful to a class the dispatch table knows. *)
Lemma senders_checked :
  forallb (fun s => send_faithful s && bool_decide (mavlink_get (mt_id (class_of s)) = Some (class_of s))) senders = true.
Proof. vm_compute. reflexivity. Qed.

Lemma senders_cover : bool_decide (Forall (fun p => p.1 ∈ map (fun s => mt_id (class_of s)) senders) mavlink_map) = true.
Proof. vm_compute. reflexivity. Qed.

Lemma sender_ok s : s ∈ senders -> send_faithful s = true /\ mavlink_get (mt_id (class_of s)) = Some (class_of s).
Proof.
  intros Hin. pose proof senders_checked as H. rewrite forallb_forall in H. apply list_elem_of_In in Hin. specialize (H _ Hin).
  apply andb_true_iff in H as [H1 H2]. split; [done |]. by apply bool_decide_eq_true in H2.
Qed.

(** The defaults are those of the constructor, except for HEARTBEAT: its
    constructor has none and its methods default [mavlink_version] to 3. *)
Lemma senders_defaults :
  forallb (fun s => bool_decide (s_defaults s = init_defaults (class_of s)) || bool_decide (mt_id (class_of s) = 0)) senders = true.
Proof. vm_compute. reflexivity. Qed.

(** C30: every message class of the dispatch table has a send method, and every
    send method belongs to such a class; called with any positional and keyword
    arguments in any state, it binds them to the fields of its class (a missing,
    repeated or unknown one is a [TypeError] and nothing is sent), builds the
    message from the values in the order of the constructor and sends it; the
    defaults are those of the constructor except that HEARTBEAT's version is 3. *)
Theorem send_methods_dispatch :
  (forall id mt, (id, mt) ∈ mavlink_map -> exists s, s ∈ senders /\ mt_id (class_of s) = id) /\
  (forall s, s ∈ senders -> mavlink_get (mt_id (class_of s)) = Some (class_of s) /\
    (s_defaults s = init_defaults (class_of s) \/ mt_id (class_of s) = 0 /\ s = MavMethods4.heartbeat_send) /\
    forall args kw force v, call_send s args kw force v =
      match bind (fieldnames (class_of s)) (s_defaults s) args kw with
      | Raise e => (v, Raise e)
      | Ok vals => match new_message (class_of s) vals with Raise e => (v, Raise e) | Ok m => send m (default false force) v end
      end).
Proof.
  split.
  - intros id mt Hin. pose proof senders_cover as H. apply bool_decide_eq_true in H. rewrite Forall_forall in H. specialize (H _ Hin).
    apply list_elem_of_fmap in H as (s & Heq & Hs). by exists s.
  - intros s Hs. destruct (sender_ok s Hs) as [Hf Hm]. split; [done |]. split; [| intros args kw force v; by rewrite call_send_spec].
    pose proof senders_defaults as H. rewrite forallb_forall in H. pose proof (H s) as Hd. rewrite orb_true_iff in Hd.
    destruct Hd as [Hd | Hd]; [by apply list_elem_of_In | left; by apply bool_decide_eq_true in Hd |].
    right. apply bool_decide_eq_true in Hd. split; [done |]. revert Hs Hd.
    assert (Hu : bool_decide (Forall (fun s => mt_id (class_of s) = 0 -> s = MavMethods4.heartbeat_send) senders) = true)
      by (vm_compute; reflexivity).
    apply bool_decide_eq_true in Hu. rewrite Forall_forall in Hu. auto.
Qed.

(** The attribute a field has after the round trip: the argument, or for a char
    array its text up to the first zero. *)
Definition sent_attr (mt : msgtype) (args : list fval) (f : string) : attr :=
  match is_str mt f, the_arg mt args f with
  | true, FScalar (PBytes b) => AStr (ascii_replace (until_nul b))
  | _, a => AVal a
  end.

(** C14: what a send method writes is read back: however the arguments are given
    (the first [k] by position, the others by keyword in any order), a method
    called with arguments that fit its fields writes one frame, with the next
    sequence number, and counts it; a receiver without a key decodes that frame
    to a message of the method's class whose every field is the argument. *)
Theorem send_method_roundtrip ign s args k kw force v v2 key : s ∈ senders -> args_fit (class_of s) args ->
  kw ≡ₚ zip (drop k (fieldnames (class_of s))) (drop k args) ->
  (force = Some true -> mt_id (class_of s) < 256) -> tx_ok v -> can_sign v key -> secret_key (sgn v2) = None ->
  exists v' frame v3 m2, call_send s (take k args) kw force v = (v', Ok tt) /\ out (tx v') = out (tx v) ++ [frame] /\
    seq_no (tx v') = (seq_no (tx v) + 1) mod 256 /\ total_packets_sent (tx v') = total_packets_sent (tx v) + 1 /\
    total_bytes_sent (tx v') = total_bytes_sent (tx v) + blen frame /\
    decode ign frame v2 = (v3, Ok m2) /\ get_type m2 = msgname (class_of s) /\ h_seq (m_header m2) = seq_no (tx v) /\
    forall f, f ∈ fieldnames (class_of s) -> m_attrs m2 !! f = Some (sent_attr (class_of s) args f).
Proof.
  intros Hs Hargs Hkw Hid Htx Hsign Hk. destruct (sender_ok s Hs) as [Hf Hmt]. set (mt := class_of s) in *.
  set (f1 := default false force). assert (Hid' : f1 = true -> mt_id mt < 256).
  { intros E. apply Hid. unfold f1 in E. destruct force; [cbn in E; by subst | done]. }
  destruct (message_pack_spec mt args f1 v key Hmt Hargs Hid' Htx Hsign) as (m & v1 & p & Hp).
  edestruct (decode_packed mt args f1 v key m v1 p Hmt Hargs Hp ign v2) as (m2 & Hd & Hsame & _ & _);
    [by apply verify_no_key | reflexivity |].
  destruct (mavlink_get_ok _ _ Hmt) as (Hok & _). apply msgtype_ok_consistent in Hok as Hc.
  eexists _, (p_frame p f1), _, m2. split.
  { rewrite call_send_spec by done. change (e_class (s_encode s)) with mt. unfold mbind at 1, SE_bind at 1, se_lift at 1.
    rewrite bind_mixed; [| apply Hc | apply Hargs | done]. unfold mbind at 1, SE_bind at 1, se_lift at 1.
    fold f1. rewrite (pk_new _ _ _ _ _ _ _ _ Hp). unfold send, mbind, SE_bind. rewrite (pk_pack _ _ _ _ _ _ _ _ Hp). reflexivity. }
  assert (Hv1 : tx v1 = tx v). { rewrite (pk_state _ _ _ _ _ _ _ _ Hp). by destruct (_ && _). }
  cbn [snd tx set_tx out seq_no total_packets_sent total_bytes_sent]. rewrite Hv1.
  destruct Hsame as (_ & Hty & _ & Hseq & _ & _ & Hat). split_and!; try done.
  - rewrite Hty. unfold get_type. by rewrite (pk_class _ _ _ _ _ _ _ _ Hp).
  - intros f Hin. rewrite (Hat f Hin), (pk_attrs _ _ _ _ _ _ _ _ Hp). pose proof (pk_fields _ _ _ _ _ _ _ _ Hp f Hin) as Ha.
    unfold attr_spec in Ha. unfold sent_attr. destruct (is_str mt f); [| done]. by destruct Ha as (b & -> & _ & ->).
Qed.

(** The proxies' RSSI sender is one of these methods. *)
Lemma radio_status_is_method rssi remrssi txbuf noise remnoise rxerrors fixed v :
  radio_status_send rssi remrssi txbuf noise remnoise rxerrors fixed v =
  call_send MavMethods2.radio_status_send (map (fun z => FScalar (PInt z)) [rssi; remrssi; txbuf; noise; remnoise; rxerrors; fixed]) [] None v.
Proof. reflexivity. Qed.

(** ** A concrete call *)

Definition demo_heartbeat : list fval := map (fun z => FScalar (PInt z)) [2; 12; 192; 7; 4; 3].

Definition demo_kw : list (string * fval) :=
  [("system_status"%string, FScalar (PInt 4)); ("mavlink_version"%string, FScalar (PInt 3));
   ("custom_mode"%string, FScalar (PInt 7)); ("base_mode"%string, FScalar (PInt 192))].

Lemma send_method_roundtrip_witness : exists v' frame v3 m2,
  call_send MavMethods4.heartbeat_send (take 2 demo_heartbeat) demo_kw None (init_mavlink 1 1) = (v', Ok tt) /\
  out (tx v') = [frame] /\ decode false frame (init_mavlink 9 9) = (v3, Ok m2) /\ get_type m2 = "HEARTBEAT"%string /\
  m_attrs m2 !! "base_mode"%string = Some (AVal (FScalar (PInt 192))).
Proof.
  destruct (send_method_roundtrip false MavMethods4.heartbeat_send demo_heartbeat 2 demo_kw None (init_mavlink 1 1) (init_mavlink 9 9) [])
    as (v' & frame & v3 & m2 & H1 & H2 & _ & _ & _ & H6 & H7 & _ & H9).
  - apply (bool_decide_unpack (MavMethods4.heartbeat_send ∈ senders)). vm_compute. exact I.
  - split; [reflexivity |]. apply Forall_forall. intros [[f c] L] Hin. apply list_elem_of_In in Hin. vm_compute in Hin.
    repeat (destruct Hin as [[= <- <- <-] | Hin]; [eexists; split; [reflexivity | vm_compute; intuition discriminate] |]). destruct Hin.
  - apply (bool_decide_unpack (demo_kw ≡ₚ zip (drop 2 (fieldnames (class_of MavMethods4.heartbeat_send))) (drop 2 demo_heartbeat))).
    vm_compute. exact I.
  - done.
  - vm_compute. intuition discriminate.
  - intros H. discriminate H.
  - reflexivity.
  - exists v', frame, v3, m2. split; [exact H1 |]. split; [exact H2 |]. split; [exact H6 |]. split; [exact H7 |]. rewrite (H9 "base_mode"%string); [reflexivity |].
    apply (bool_decide_unpack ("base_mode"%string ∈ fieldnames (class_of MavMethods4.heartbeat_send))). vm_compute. exact I.
Defined.

End MavSend.
