(* ===== verification/MavStream.v ===== *)
(** The incremental parser of the MAVLink object: [decode] fails only with
    [MAVError], [parse_buffer] always terminates, robust parsing never raises,
    and a buffer of frames is split into exactly its messages. *)
From Stdlib Require Import ZArith Lia Bool.
From stdpp Require Import base list numbers strings gmap.
From S2P Require Import Prelude.
From S2P Require Import PyStruct.
From S2P Require Import X25.
From S2P Require Import Sha.
From S2P Require Import MavMessage.
From S2P Require Import MavMap.
From S2P Require Import MavCodec.
From S2P Require Import MavLink.
From S2P Require Import MavFrame.
From S2P Require Import MavSpec.

Module MavStream.
Import PyStruct MavMessage MavMap MavCodec MavLink MavFrame MavSpec.

#[local] Opaque Sha.sha256 X25.x25crc X25.accumulate mavlink_get.

(** ** Decoding is total up to [MAVError] *)

Lemma split_signature (f : bytes) :
  13 <= blen f ->
  exists body lid tsb sg, f = body ++ lid :: tsb ++ sg /\ length tsb = 6%nat /\ length sg = 6%nat.
Proof.
  unfold blen. intros Hf. set (n := (length f - 13)%nat).
  destruct (lookup_lt_is_Some_2 f n) as [lid Hl]; [lia |].
  exists (take n f), lid, (take 6 (drop (S n) f)), (drop 6 (drop (S n) f)).
  rewrite take_drop, take_drop_middle by done.
  rewrite length_take, !length_drop. split_and!; [done | lia..].
Qed.

(** A raised [MAVError], or a value. *)
Definition mav_result {A} (r : result A) : Prop :=
  match r with Ok _ => True | Raise (MAVError _) => True | Raise _ => False end.

Lemma check_signature_total f sys comp s key :
  13 <= blen f -> secret_key s = Some key -> exists s' b, check_signature f sys comp s = (s', Ok b).
Proof.
  intros Hf Hk. destruct (split_signature f Hf) as (body & lid & tsb & sg & -> & Ht & Hs).
  rewrite (check_signature_spec body tsb sg lid Ht Hs s key sys comp Hk).
  destruct (fresh _ _ _); [case_decide |]; eauto.
Qed.

Lemma verify_total w f s :
  (signature_len w = 13 -> 13 <= blen f) -> mav_result (snd (verify_signature w f s)).
Proof.
  intros Hf. unfold verify_signature. se.
  destruct (signature_len w =? MAVLINK_SIGNATURE_BLOCK_LEN) eqn:El; to_prop; cbn beta iota zeta.
  - specialize (Hf El). destruct (secret_key (count 1 0 0 0 0 s)) as [key|] eqn:Ek; [| done].
    destruct (check_signature_total f (w_sys w) (w_comp w) _ key Hf Ek) as (s' & b & ->).
    destruct (allow_unsigned_callback _) as [cb|], b; try done. cbn [negb]. unfold ask_callback. se.
    by destruct (cb (w_msgId w)).
  - destruct (secret_key s); [| done]. destruct (allow_unsigned_callback s) as [cb|]; [| done].
    unfold ask_callback. se. by destruct (cb (w_msgId w)).
Qed.

Lemma verify_true w f s s' :
  verify_signature w f s = (s', Ok true) -> signature_len w = 13.
Proof.
  unfold verify_signature. se.
  destruct (signature_len w =? MAVLINK_SIGNATURE_BLOCK_LEN) eqn:El; to_prop; [done |].
  cbn beta iota zeta. destruct (secret_key s); [| done].
  destruct (allow_unsigned_callback s) as [cb|]; [| done]. unfold ask_callback. se.
  by destruct (cb (w_msgId w)).
Qed.

Lemma decode_header_total f : f <> [] -> mav_result (decode_header f).
Proof.
  intros Hf. unfold decode_header. destruct f as [|b f]; [done |].
  change (py_index (b :: f) 0) with (@Ok Z b). cbn [mbind result_bind].
  destruct (negb (b =? PROTOCOL_MARKER_V1)); cases; done.
Qed.

Lemma bytes_ok_slice l i j : bytes_ok l -> bytes_ok (py_slice l i j).
Proof. intros. by apply bytes_ok_take, bytes_ok_drop. Qed.

Lemma le_decode_nonneg l : bytes_ok l -> 0 <= le_decode l.
Proof. intros H. apply le_decode_range in H. lia. Qed.

(** The lengths a header announces are not negative. *)
Lemma decode_header_nonneg f w : bytes_ok f -> decode_header f = Ok w -> 0 <= w_headerlen w /\ 0 <= w_mlen w.
Proof.
  unfold decode_header. intros Hb H. inv_ok.
  destruct (negb _); unfold unpack in H; case_decide; try done; injection H as <-; (split; [done |]);
    cbn [w_mlen]; apply le_decode_nonneg, bytes_ok_take, bytes_ok_drop, bytes_ok_slice, Hb.
Qed.

(** [decode] leaves the parser and the sender alone. *)
Definition same_io (v v' : mavlink) : Prop := rx v' = rx v /\ tx v' = tx v.

(** [decode] of a non-empty buffer returns a message or raises [MAVError]. *)
Lemma decode_mav_result ign f v :
  f <> [] -> bytes_ok f -> mav_result (snd (decode ign f v)) /\ same_io v (fst (decode ign f v)).
Proof.
  intros Hf Hb. pose proof (decode_header_total f Hf) as Hh. unfold decode, same_io. se.
  destruct (decode_header f) as [w|e] eqn:Ew; [| done].
  apply decode_header_nonneg in Ew as [Hpos Hml]; [| done].
  destruct (negb _ && negb _); [done |]. destruct (negb (w_mlen w =? _)) eqn:El; [done |]. to_prop.
  assert (H13 : signature_len w = 13 -> 13 <= blen f) by (intros E; rewrite E in El; lia).
  destruct (mavlink_get (w_msgId w)) as [mt|] eqn:Emt; [| done].
  destruct (mavlink_get_ok _ _ Emt) as (Hok & _ & _). apply msgtype_ok_consistent in Hok as Hc.
  destruct (unpack Little [u16] _) as [[|[crc|?|?] [|]]|]; try done.
  destruct (negb (crc =? _) && negb ign); [done |]. unfold with_sgn.
  pose proof (verify_total w f (sgn v) H13) as Hv. pose proof (verify_true w f (sgn v)) as Ht.
  destruct (verify_signature w f (sgn v)) as [s1 [sig_ok|]]; [| done].
  destruct (unpack_fields_total mt (py_slice f (w_headerlen w) (- (2 + signature_len w))) Hc) as [tl ->].
  destruct (init_message mt tl) as [attrs|]; [| done].
  destruct sig_ok; [| done].
  destruct (split_signature f (H13 (Ht s1 eq_refl))) as (body & lid & tsb & sg & -> & Hts & Hsg).
  by rewrite (sig_index body tsb sg lid Hts Hsg).
Qed.

(** Whatever non-empty byte string it is given and whatever the signing
    configuration, [decode] returns a message or raises [MAVError], the only
    exception its callers catch, and touches neither the parser's buffer nor
    the sender's counters. *)
Theorem decode_only_mav_error ign f v :
  f <> [] -> bytes_ok f ->
  match decode ign f v with
  | (v', Ok _) => same_io v v'
  | (v', Raise e) => same_io v v' /\ exists msg, e = MAVError msg
  end.
Proof.
  intros Hf Hb. destruct (decode_mav_result ign f v Hf Hb) as [Hr Hio].
  destruct (decode ign f v) as [v' [m|[]]]; cbn in *; try done. eauto.
Qed.

Lemma decode_only_mav_error_witness :
  match decode false [253; 3; 0; 0; 1; 2; 3; 0; 0; 0; 9; 9; 9; 1; 1] demo_rx with
  | (v', Ok _) => same_io demo_rx v'
  | (v', Raise e) => same_io demo_rx v' /\ exists msg, e = MAVError msg
  end.
Proof.
  apply (decode_only_mav_error false); [discriminate |].
  apply bytes_ok_forallb. vm_compute. reflexivity.
Defined.

(** ** The parser *)

Definition rx_ok (r : rx_state) : Prop := 0 <= buf_index r <= blen (buf r) /\ bytes_ok (buf r).

(** Outcome of a parser call: what is consumed, and that only a
    non-robust parser raises. *)
Definition parse_outcome (v v' : mavlink) (r : result (option message)) : Prop :=
  rx_ok (rx v') /\ robust_parsing (rx v') = robust_parsing (rx v) /\ buf_len (rx v') <= buf_len (rx v) /\
  match r with
  | Ok (Some _) => buf_len (rx v') < buf_len (rx v)
  | Ok None => True
  | Raise (MAVError _) => robust_parsing (rx v) = false
  | Raise _ => False
  end.

(** Three bytes at a position of the buffer. *)
Definition at3 (b : bytes) (i x y z : Z) : Prop := exists rest, drop (Z.to_nat i) b = x :: y :: z :: rest.

Lemma py_slice_drop {A} (b : list A) i n :
  0 <= i -> 0 <= n -> i + n <= blen b -> py_slice b i (i + n) = take (Z.to_nat n) (drop (Z.to_nat i) b).
Proof.
  intros Hi Hn Hl. unfold py_slice, py_norm.
  destruct (Z.ltb_spec i 0), (Z.ltb_spec (i + n) 0); try lia.
  rewrite !Z.min_l by lia. do 2 f_equal; lia.
Qed.

Lemma at3_exists (b : bytes) i : 0 <= i -> i + 3 <= blen b -> exists x y z, at3 b i x y z.
Proof.
  intros Hi Hl. unfold at3. assert (3 <= length (drop (Z.to_nat i) b))%nat
    by (rewrite length_drop; unfold blen in *; lia).
  destruct (drop (Z.to_nat i) b) as [|x [|y [|z rest]]]; cbn in *; try lia. eauto.
Qed.

Lemma at3_slice b i x y z : 0 <= i -> i + 3 <= blen b -> at3 b i x y z -> py_slice b i (3 + i) = [x; y; z].
Proof.
  intros Hi Hl [rest Hr]. rewrite Z.add_comm, py_slice_drop by lia. by rewrite Hr.
Qed.

Lemma at3_first b i x y z : at3 b i x y z -> b !! Z.to_nat i = Some x.
Proof. intros [rest Hr]. by rewrite <- (Nat.add_0_r (Z.to_nat i)), <- lookup_drop, Hr. Qed.

Lemma slice_pos (b : bytes) i n : 0 <= i -> 0 < n -> i + n <= blen b -> py_slice b i (i + n) <> [].
Proof.
  intros Hi Hn Hl E. apply (f_equal length) in E. revert E.
  unfold py_slice, py_norm, blen in *.
  repeat match goal with |- context [?a <? ?b] => destruct (Z.ltb_spec a b) end;
  rewrite ?length_take, ?length_drop; cbn [length]; lia.
Qed.

(** The decoding of a complete frame, robust or not. *)
Lemma parse_body_outcome ign v0 v mbuf (bad : bool) n :
  mbuf <> [] -> bytes_ok mbuf -> 0 < n ->
  rx_ok (rx v) -> robust_parsing (rx v) = robust_parsing (rx v0) ->
  buf_len (rx v) + n <= buf_len (rx v0) ->
  let body := if bad then se_raise (MAVError "invalid incompat_flags") else decode ign mbuf in
  let r := (m ← (if robust_parsing (rx v0) then catch_mav_error mbuf body else body);
            mret (Some m)) v in
  parse_outcome v0 (fst r) (snd r).
Proof.
  intros Hm Hb Hn [Hi Hbb] Hrob Hlen. cbv zeta. unfold parse_outcome, catch_mav_error. se.
  destruct (decode_mav_result ign mbuf v Hm Hb) as [Hr [Hrx _]].
  destruct bad.
  - destruct (robust_parsing (rx v0)) eqn:Er; cbn; rewrite ?Er, ?Hrob; unfold rx_ok, buf_len in *; cbn;
      split_and!; try done; try lia; congruence.
  - destruct (robust_parsing (rx v0)) eqn:Er; destruct (decode ign mbuf v) as [v' [m|[]]];
      cbn in *; try done; rewrite ?Hrx, ?Er, ?Hrob; unfold rx_ok, buf_len in *; cbn; rewrite ?Hrx;
      split_and!; try done; try lia; congruence.
Qed.

(** The state when the header of a frame of [n] bytes has been read, and when
    the frame has been taken from the buffer. *)
Definition header_seen (n : Z) (v : mavlink) : mavlink :=
  set_rx (set_expected n (set_prefix_error false (rx v))) v.

Definition frame_taken (hl n : Z) (v : mavlink) : mavlink :=
  set_rx (set_expected (hl + 2) (set_index (buf_index (rx v) + n)
    (set_expected n (set_prefix_error false (rx v))))) v.

Definition header_len_of (magic : Z) : Z :=
  if magic =? PROTOCOL_MARKER_V2 then HEADER_LEN_V2 else HEADER_LEN_V1.

(** The length of the frame a header announces. *)
Definition announced (magic mlen flags : Z) : Z :=
  (if (magic =? PROTOCOL_MARKER_V2) && negb (Z.land flags MAVLINK_IFLAG_SIGNED =? 0)
   then mlen + MAVLINK_SIGNATURE_BLOCK_LEN else mlen) + (header_len_of magic + 2).

Definition is_marker (magic : Z) : Prop := magic = PROTOCOL_MARKER_V1 \/ magic = PROTOCOL_MARKER_V2.

(** The parser at a frame marker with at least three bytes. *)
Lemma parse_char_legacy_header ign v magic mlen flags :
  rx_ok (rx v) -> 3 <= buf_len (rx v) -> at3 (buf (rx v)) (buf_index (rx v)) magic mlen flags ->
  is_marker magic ->
  let hl := header_len_of magic in
  let n := announced magic mlen flags in
  let mbuf := py_slice (buf (rx v)) (buf_index (rx v)) (buf_index (rx v) + n) in
  let body := if bad_incompat magic flags then se_raise (MAVError "invalid incompat_flags")
              else decode ign mbuf in
  parse_char_legacy ign v =
    if (hl + 2 <=? n) && (n <=? buf_len (rx v)) then
      (m ← (if robust_parsing (rx v) then catch_mav_error mbuf body else body); mret (Some m))
        (frame_taken hl n v)
    else (header_seen n v, Ok None).
Proof.
  intros [Hi Hb] H3 Hat Hm. cbv zeta. unfold parse_char_legacy, modify_rx. se.
  rewrite (at3_first _ _ _ _ _ Hat).
  assert (Hhl : (if (1 <=? buf_len (rx v)) && bool_decide (Some magic = Some PROTOCOL_MARKER_V2)
                 then HEADER_LEN_V2 else HEADER_LEN_V1) = header_len_of magic).
  { unfold header_len_of. destruct (Z.leb_spec 1 (buf_len (rx v))); [| lia].
    by destruct Hm as [-> | ->]. }
  assert (Hpre : (1 <=? buf_len (rx v)) && negb (bool_decide (Some magic = Some PROTOCOL_MARKER_V1))
     && negb (bool_decide (Some magic = Some PROTOCOL_MARKER_V2)) = false)
    by (destruct Hm as [-> | ->]; by rewrite ?andb_false_r).
  rewrite Hhl, Hpre. destruct (Z.leb_spec 3 (buf_len (rx v))); [| lia].
  cbn [set_prefix_error buf buf_index rx set_rx].
  assert (Hl : buf_index (rx v) + 3 <= blen (buf (rx v))) by (unfold buf_len in H3; lia).
  rewrite (at3_slice _ _ _ _ _ (proj1 Hi) Hl Hat).
  fold (announced magic mlen flags). set (n := announced magic mlen flags).
  cbn [expected_length set_expected rx set_rx].
  destruct (_ && (n <=? buf_len (rx v))); done.
Qed.

Lemma is_marker_dec magic : {is_marker magic} + {~ is_marker magic}.
Proof.
  unfold is_marker. destruct (Z.eq_dec magic PROTOCOL_MARKER_V1), (Z.eq_dec magic PROTOCOL_MARKER_V2); 
    auto; right; tauto.
Defined.

(** The parser at a byte that starts no frame. *)
Lemma parse_char_legacy_prefix ign v magic :
  rx_ok (rx v) -> 1 <= buf_len (rx v) -> buf (rx v) !! Z.to_nat (buf_index (rx v)) = Some magic ->
  ~ is_marker magic ->
  parse_outcome v (fst (parse_char_legacy ign v)) (snd (parse_char_legacy ign v)).
Proof.
  intros [Hi Hb] H1 Hf Hm. unfold parse_char_legacy, modify_rx. se. rewrite Hf.
  rewrite !(bool_decide_eq_false_2 (Some magic = _)) by (intros [= ->]; apply Hm; unfold is_marker; auto).
  destruct (Z.leb_spec 1 (buf_len (rx v))); [| lia]. cbn [andb negb].
  unfold parse_outcome, rx_ok, buf_len in *.
  destruct (robust_parsing (rx v)) eqn:Er; [| destruct (have_prefix_error (rx v))]; cbn; rewrite ?Er;
    split_and!; try done; lia.
Qed.

(** The parser with fewer than three bytes of a frame. *)
Lemma parse_char_legacy_short ign v :
  buf_len (rx v) < 3 ->
  (forall magic, buf (rx v) !! Z.to_nat (buf_index (rx v)) = Some magic -> is_marker magic) ->
  1 <= buf_len (rx v) \/ buf_len (rx v) = 0 -> rx_ok (rx v) ->
  parse_char_legacy ign v = (set_rx (set_prefix_error false (rx v)) v, Ok None).
Proof.
  intros H3 Hm H01 [Hi Hb]. unfold parse_char_legacy, modify_rx. se.
  set (first := buf (rx v) !! Z.to_nat (buf_index (rx v))) in *.
  assert (Hpre : (1 <=? buf_len (rx v)) && negb (bool_decide (first = Some PROTOCOL_MARKER_V1))
     && negb (bool_decide (first = Some PROTOCOL_MARKER_V2)) = false).
  { destruct (Z.leb_spec 1 (buf_len (rx v))); [| done].
    destruct first as [magic|] eqn:Ef.
    - destruct (Hm magic eq_refl) as [-> | ->]; done.
    - apply lookup_ge_None in Ef. unfold buf_len, blen in *. lia. }
  rewrite Hpre. destruct (Z.leb_spec 3 (buf_len (rx v))); [lia |].
  set (hl := if _ : bool then HEADER_LEN_V2 else HEADER_LEN_V1).
  assert (Hh : 6 <= hl) by (unfold hl, HEADER_LEN_V1, HEADER_LEN_V2; case_match; lia).
  cbn [set_rx rx set_prefix_error expected_length].
  destruct (Z.leb_spec (hl + 2) (expected_length (rx v))); [| done].
  destruct (Z.leb_spec (expected_length (rx v)) (buf_len (rx v))); [lia | done].
Qed.

Lemma parse_outcome_none v v' :
  rx_ok (rx v) -> buf (rx v') = buf (rx v) -> buf_index (rx v') = buf_index (rx v) ->
  robust_parsing (rx v') = robust_parsing (rx v) -> parse_outcome v v' (Ok None).
Proof.
  intros [Hi Hb] Eb Ei Er. unfold parse_outcome, rx_ok, buf_len. rewrite Eb, Ei, Er. split_and!; done || lia.
Qed.

(** One call of the parser proper. *)
Lemma parse_char_legacy_outcome ign v :
  rx_ok (rx v) ->
  parse_outcome v (fst (parse_char_legacy ign v)) (snd (parse_char_legacy ign v)).
Proof.
  intros Hok. pose proof Hok as [Hi Hb].
  assert (H01 : 1 <= buf_len (rx v) \/ buf_len (rx v) = 0) by (unfold buf_len; lia).
  destruct (Z.ltb_spec (buf_len (rx v)) 3) as [H3|H3].
  - destruct (buf (rx v) !! Z.to_nat (buf_index (rx v))) as [magic|] eqn:Ef;
      [destruct (is_marker_dec magic) as [Hm|Hm] |].
    + rewrite parse_char_legacy_short; [| done | rewrite Ef; congruence | done | done]. by apply parse_outcome_none.
    + eapply parse_char_legacy_prefix; eauto. apply lookup_lt_Some in Ef. unfold buf_len, blen in *. lia.
    + rewrite parse_char_legacy_short; [| done | rewrite Ef; congruence | done | done]. by apply parse_outcome_none.
  - destruct (at3_exists (buf (rx v)) (buf_index (rx v))) as (magic & y & z & Hat);
      [lia | unfold buf_len in H3; lia |].
    destruct (is_marker_dec magic) as [Hm|Hm].
    2: { eapply parse_char_legacy_prefix; eauto using at3_first. lia. }
    rewrite (parse_char_legacy_header ign v magic y z Hok H3 Hat Hm).
    set (n := announced magic y z). destruct (_ && _) eqn:En; [| by apply parse_outcome_none]. to_prop.
    assert (Hhl : 6 <= header_len_of magic) by (unfold header_len_of, HEADER_LEN_V1, HEADER_LEN_V2; case_match; lia).
    unfold buf_len in *.
    apply (parse_body_outcome ign v (frame_taken (header_len_of magic) n v) _ _ n); try done; try lia.
    + apply slice_pos; lia.
    + by apply bytes_ok_slice.
    + split; [cbn; lia | done].
    + unfold buf_len. cbn. lia.
Qed.

(** The state after [self.buf.extend(c)]. *)
Definition extended (c : bytes) (v : mavlink) : mavlink :=
  set_rx (RxState (buf (rx v) ++ c) (buf_index (rx v)) (expected_length (rx v)) (have_prefix_error (rx v))
            (robust_parsing (rx v)) (total_packets_received (rx v)) (total_bytes_received (rx v) + blen c)
            (total_receive_errors (rx v))) v.

Lemma rx_ok_extended c v : rx_ok (rx v) -> bytes_ok c -> rx_ok (rx (extended c v)).
Proof.
  intros [Hi Hb] Hc. split; cbn.
  - rewrite blen_app. pose proof (blen_nonneg c). lia.
  - by apply bytes_ok_app.
Qed.

Lemma buf_len_extended c v : buf_len (rx (extended c v)) = buf_len (rx v) + blen c.
Proof. unfold buf_len. cbn. rewrite blen_app. lia. Qed.

Lemma parse_char_outcome ign c v :
  rx_ok (rx v) -> bytes_ok c ->
  parse_outcome (extended c v) (fst (parse_char ign c v)) (snd (parse_char ign c v)).
Proof.
  intros Hok Hc. pose proof (parse_char_legacy_outcome ign (extended c v) (rx_ok_extended c v Hok Hc)) as H.
  unfold parse_char, modify_rx. se. fold (extended c v).
  destruct (parse_char_legacy ign (extended c v)) as [v1 [[m|]|e]]; cbn [fst snd] in *; [..| exact H].
  - unfold parse_outcome, rx_ok, buf_len in *. cbn. cbn in H. naive_solver.
  - unfold parse_outcome, rx_ok in *. cbn [rx set_rx].
    destruct (buf_len (rx v1) =? 0) eqn:E0, (buf_index (rx v1) =? 0); cbn [andb negb]; try done. to_prop.
    destruct H as (Hr & Hrob & Hl & _). unfold buf_len in *. cbn in *.
    split; [split; [by split | apply Forall_nil_2] |]. split; [done |]. split; [| done].
    change (blen [] - 0) with 0. lia.
Qed.

Lemma extended_nil v : buf_len (rx (extended [] v)) = buf_len (rx v) /\
  robust_parsing (rx (extended [] v)) = robust_parsing (rx v).
Proof. rewrite buf_len_extended, blen_nil. split; [lia | done]. Qed.

(** Outcome of the loop: a list, or [MAVError] of a parser that is not robust. *)
Definition loop_outcome {A} (v v' : mavlink) (r : result A) : Prop :=
  rx_ok (rx v') /\ robust_parsing (rx v') = robust_parsing (rx v) /\
  match r with
  | Ok _ => True
  | Raise (MAVError _) => robust_parsing (rx v) = false
  | Raise _ => False
  end.

Lemma parse_rest_outcome ign fuel ret v :
  rx_ok (rx v) -> buf_len (rx v) < Z.of_nat fuel ->
  loop_outcome v (fst (parse_rest ign fuel ret v)) (snd (parse_rest ign fuel ret v)).
Proof.
  revert ret v. induction fuel as [|fuel IH]; intros ret v Hok Hf.
  { destruct Hok as [Hi _]. unfold buf_len in Hf. lia. }
  cbn [parse_rest]. se. pose proof (parse_char_outcome ign [] v Hok (Forall_nil_2 _)) as H.
  unfold parse_outcome in H. destruct (extended_nil v) as [El Er]. rewrite El, Er in H.
  destruct (parse_char ign [] v) as [v1 [[m|]|e]]; cbn [fst snd] in *;
    destruct H as (Hok1 & Hr1 & Hl1 & H).
  - destruct (IH (ret ++ [m]) v1 Hok1 ltac:(lia)) as (Hok2 & Hr2 & H2).
    unfold loop_outcome. rewrite Hr1 in *. auto.
  - done.
  - unfold loop_outcome. auto.
Qed.

(** C34: [parse_buffer] terminates on every byte string from every parser state
    (its loop consumes the buffer, so the bound on its iterations is never
    reached), keeps the buffer index inside the buffer, and raises nothing but
    [MAVError], and that only when [robust_parsing] is off. *)
Theorem parse_buffer_total ign s v :
  rx_ok (rx v) -> bytes_ok s ->
  match parse_buffer ign s v with
  | (v', Ok _) => rx_ok (rx v')
  | (v', Raise e) => rx_ok (rx v') /\ robust_parsing (rx v) = false /\ exists msg, e = MAVError msg
  end.
Proof.
  intros Hok Hs. unfold parse_buffer. se. pose proof (parse_char_outcome ign s v Hok Hs) as H.
  unfold parse_outcome in H. change (robust_parsing (rx (extended s v))) with (robust_parsing (rx v)) in H.
  destruct (parse_char ign s v) as [v1 [[m|]|e]]; cbn [fst snd] in H; destruct H as (Hok1 & Hr1 & Hl1 & H).
  - pose proof (parse_rest_outcome ign (S (length (buf (rx v1)))) [m] v1 Hok1) as H2.
    destruct (parse_rest ign _ [m] v1) as [v2 [ms|e]]; cbn [fst snd] in *;
      destruct H2 as (Hok2 & Hr2 & H2); try done;
      try (destruct Hok1 as [? _]; unfold buf_len, blen in *; lia).
    destruct e; try done. rewrite Hr1 in H2. eauto.
  - done.
  - destruct e; try done. eauto.
Qed.

Lemma parse_buffer_total_witness :
  match parse_buffer false [1; 253; 0; 0; 0; 0; 0; 0; 0; 0; 0; 9; 9; 7] (init_mavlink 1 1) with
  | (v', Ok _) => rx_ok (rx v')
  | (v', Raise e) => rx_ok (rx v') /\ false = false /\ exists msg, e = MAVError msg
  end.
Proof.
  apply (parse_buffer_total false).
  - split; [by split | apply Forall_nil_2].
  - apply bytes_ok_forallb. vm_compute. reflexivity.
Defined.

(** ** A buffer of frames *)

(** The bytes of the buffer not yet consumed. *)
Definition pending (r : rx_state) : bytes := drop (Z.to_nat (buf_index r)) (buf r).

Lemma length_pending r : rx_ok r -> blen (pending r) = buf_len r.
Proof. intros [Hi _]. unfold pending, buf_len. apply blen_drop. lia. Qed.

Lemma pending_extended c v : rx_ok (rx v) -> pending (rx (extended c v)) = pending (rx v) ++ c.
Proof.
  intros [Hi _]. unfold pending. cbn. rewrite drop_app_le; [done |]. unfold blen in Hi. lia.
Qed.

(** [f] is the frame, packed by [v0], of a message [m1] of class [mt]. *)
Definition frame_of (f : bytes) (mt : msgtype) (v0 : mavlink) (m1 : message) : Prop :=
  exists args force1 key m v1 p,
    mavlink_get (mt_id mt) = Some mt /\ args_fit mt args /\ packs mt args force1 v0 key m v1 p /\
    f = p_frame p force1 /\ m1 = p_msg p.

(** The marker, length and flags of a packed frame announce its length. *)
Lemma packed_announced mt args force1 v0 key m v1 p :
  packs mt args force1 v0 key m v1 p ->
  exists magic mlen flags tl, p_frame p force1 = magic :: mlen :: flags :: tl /\ is_marker magic /\
    announced magic mlen flags = blen (p_frame p force1) /\ header_len_of magic + 2 <= blen (p_frame p force1) /\
    bad_incompat magic flags = false.
Proof.
  intros Hp. pose proof (pk_sig_len _ _ _ _ _ _ _ _ Hp) as Hsl. pose proof (pk_header _ _ _ _ _ _ _ _ Hp) as Hh.
  pose proof (blen_nonneg (p_payload p)). pose proof (blen_nonneg (p_sig p)).
  assert (Hl : blen (p_frame p force1) =
    (if force1 then 6 else 10) + blen (p_payload p) + 2 + blen (p_sig p)).
  { unfold p_frame, p_hb. autorewrite with bytes. rewrite length_header_bytes. change (blen (crc_bytes _)) with 2. lia. }
  rewrite Hl, Hsl. unfold p_frame, p_hb, header_bytes. rewrite Hh in *.
  destruct force1; cbn [negb app]; do 4 eexists; (split; [reflexivity |]); unfold is_marker.
  - split; [by left |]. change (signature_len _) with 0 in *.
    change (announced _ _ _) with (blen (p_payload p) + 8). change (header_len_of _) with 6.
    split_and!; [lia.. | done].
  - split; [by right |]. change (header_len_of _) with 10.
    unfold frame_header in *. destruct (sign_outgoing (sgn v0)); cbn [h_incompat_flags h_mlen] in *.
    + change (signature_len _) with 13 in *. change (announced _ _ _) with (blen (p_payload p) + 13 + 12).
      split_and!; [lia.. | done].
    + change (signature_len _) with 0 in *. change (announced _ _ _) with (blen (p_payload p) + 12).
      split_and!; [lia.. | done].
Qed.

Lemma pending_frame_taken hl n v :
  rx_ok (rx v) -> 0 <= n -> pending (rx (frame_taken hl n v)) = drop (Z.to_nat n) (pending (rx v)).
Proof.
  intros [Hi _] Hn. unfold pending. cbn. rewrite drop_drop. f_equal. lia.
Qed.

Lemma decoded_body ign mbuf (rob : bool) v v' m :
  decode ign mbuf v = (v', Ok m) ->
  (m ← (if rob then catch_mav_error mbuf (decode ign mbuf) else decode ign mbuf); mret (Some m)) v =
  (v', Ok (Some m)).
Proof. intros Hd. unfold catch_mav_error. se. destruct rob; by rewrite Hd. Qed.

(** One packed frame is taken from the buffer and decoded. *)
Lemma parse_frame_step ign f mt v0 m1 v rest :
  frame_of f mt v0 m1 -> rx_ok (rx v) -> secret_key (sgn v) = None -> pending (rx v) = f ++ rest ->
  exists v' m2, parse_char_legacy ign v = (v', Ok (Some m2)) /\ same_message mt v0 m1 m2 /\
    rx_ok (rx v') /\ secret_key (sgn v') = None /\ pending (rx v') = rest.
Proof.
  intros (args & force1 & key & m & v1 & p & Hmt & Hargs & Hp & -> & ->) Hok Hk Hpend.
  destruct (packed_announced _ _ _ _ _ _ _ _ Hp) as (magic & mlen & flags & tl & Hf & Hm & Hn & Hhl & Hbad).
  pose proof (length_pending (rx v) Hok) as Hlen. rewrite Hpend, blen_app in Hlen.
  pose proof (blen_nonneg rest).
  assert (Hhl6 : 6 <= header_len_of magic)
    by (unfold header_len_of, HEADER_LEN_V1, HEADER_LEN_V2; case_match; lia).
  assert (Hat : at3 (buf (rx v)) (buf_index (rx v)) magic mlen flags)
    by (exists (tl ++ rest); fold (pending (rx v)); by rewrite Hpend, Hf).
  assert (Hout := parse_char_legacy_outcome ign v Hok).
  rewrite (parse_char_legacy_header ign v magic mlen flags Hok ltac:(lia) Hat Hm) in Hout |- *.
  cbv zeta in Hout |- *. rewrite Hn in *.
  destruct (Z.leb_spec (header_len_of magic + 2) (blen (p_frame p force1))); [| lia].
  destruct (Z.leb_spec (blen (p_frame p force1)) (buf_len (rx v))); [| lia]. cbn [andb] in *.
  assert (Hmb : py_slice (buf (rx v)) (buf_index (rx v)) (buf_index (rx v) + blen (p_frame p force1))
                = p_frame p force1).
  { pose proof Hok as [Hi _]. unfold buf_len in *. rewrite py_slice_drop by lia.
    fold (pending (rx v)). rewrite Hpend. unfold blen. rewrite Nat2Z.id. apply take_app_length. }
  rewrite Hmb, Hbad in *.
  set (vt := frame_taken (header_len_of magic) (blen (p_frame p force1)) v) in *.
  edestruct (decode_packed mt args force1 v0 key m v1 p Hmt Hargs Hp ign vt) as (m2 & Hd & Hs & _);
    [by apply verify_no_key | reflexivity |].
  rewrite (decoded_body _ _ _ _ _ _ Hd) in Hout |- *. destruct Hout as (Hok' & _).
  eexists _, m2. split; [done |]. split; [done |].
  split; [exact Hok' |]. split; [by destruct (_ =? _) |].
  cbn [rx set_sgn]. unfold vt. rewrite pending_frame_taken by (done || lia). rewrite Hpend.
  unfold blen. rewrite Nat2Z.id. apply drop_app_length.
Qed.

(** A parser with nothing pending. *)
Definition idle (v : mavlink) : Prop := rx_ok (rx v) /\ pending (rx v) = [] /\ secret_key (sgn v) = None.

Lemma parse_char_step ign c f mt v0 m1 v rest :
  frame_of f mt v0 m1 -> rx_ok (rx v) -> bytes_ok c -> secret_key (sgn v) = None ->
  pending (rx v) ++ c = f ++ rest ->
  exists v' m2, parse_char ign c v = (v', Ok (Some m2)) /\ same_message mt v0 m1 m2 /\
    rx_ok (rx v') /\ secret_key (sgn v') = None /\ pending (rx v') = rest.
Proof.
  intros Hf Hok Hc Hk Hp.
  destruct (parse_frame_step ign f mt v0 m1 (extended c v) rest Hf (rx_ok_extended c v Hok Hc) Hk)
    as (v' & m2 & Hl & Hs & Hok' & Hk' & Hp').
  { by rewrite pending_extended. }
  unfold parse_char, modify_rx. se. fold (extended c v). rewrite Hl.
  do 2 eexists. split; [done |]. split; [done |]. split; [exact Hok' |]. split; [exact Hk' | exact Hp'].
Qed.

Lemma parse_char_idle ign v : idle v -> exists v', parse_char ign [] v = (v', Ok None) /\ idle v'.
Proof.
  intros (Hok & Hp & Hk).
  assert (Hp' : pending (rx (extended [] v)) = []) by (by rewrite pending_extended, Hp).
  pose proof (rx_ok_extended [] v Hok (Forall_nil_2 _)) as Hok'.
  pose proof (length_pending _ Hok') as Hlen. rewrite Hp' in Hlen. change (blen []) with 0 in Hlen.
  pose proof (parse_char_outcome ign [] v Hok (Forall_nil_2 _)) as Hout.
  unfold parse_char, modify_rx in *. se. fold (extended [] v) in *.
  rewrite parse_char_legacy_short in Hout |- *; [| lia | | lia | done | lia | | lia | done].
  - eexists. split; [done |]. destruct Hout as (Hrx & _). split; [exact Hrx |].
    split; [| cbn; done].
    cbn [rx set_rx]. destruct (_ && _); [done |]. exact Hp'.
  - intros magic Hm. unfold pending in Hp'. apply (f_equal (fun l => l !! 0%nat)) in Hp'.
    rewrite lookup_drop, Nat.add_0_r, Hm in Hp'. done.
  - intros magic Hm. unfold pending in Hp'. apply (f_equal (fun l => l !! 0%nat)) in Hp'.
    rewrite lookup_drop, Nat.add_0_r, Hm in Hp'. done.
Qed.

(** Class, sender and message of each frame of a buffer. *)
Definition frames_of (fs : list bytes) (ms : list (msgtype * mavlink * message)) : Prop :=
  Forall2 (fun f '(mt, v0, m1) => frame_of f mt v0 m1) fs ms.

Definition decoded_as (x : msgtype * mavlink * message) (m2 : message) : Prop :=
  let '(mt, v0, m1) := x in same_message mt v0 m1 m2.

Lemma parse_rest_frames ign fs ms fuel ret v :
  frames_of fs ms -> rx_ok (rx v) -> secret_key (sgn v) = None -> pending (rx v) = concat fs ->
  (length fs < fuel)%nat ->
  exists v' out, parse_rest ign fuel ret v = (v', Ok (ret ++ out)) /\ Forall2 decoded_as ms out /\ idle v'.
Proof.
  intros H. revert fuel ret v. induction H as [|f [[mt v0] m1] fs ms Hf _ IH]; intros [|fuel] ret v Hok Hk Hp Hl;
    cbn in Hl; try lia; cbn [parse_rest]; se.
  - destruct (parse_char_idle ign v) as (v' & -> & Hi); [done |].
    exists v', []. rewrite app_nil_r. auto using Forall2_nil_2.
  - destruct (parse_char_step ign [] f mt v0 m1 v (concat fs) Hf Hok (Forall_nil_2 _) Hk)
      as (v' & m2 & -> & Hs & Hok' & Hk' & Hp'); [by rewrite Hp, app_nil_r |].
    destruct (IH fuel (ret ++ [m2]) v' Hok' Hk' Hp' ltac:(lia)) as (v2 & out & -> & Hout & Hi).
    exists v2, (m2 :: out). rewrite <- app_assoc. split; [done |]. split; [by constructor | done].
Qed.

Lemma length_concat_ge (fs : list bytes) ms : frames_of fs ms -> (length fs <= length (concat fs))%nat.
Proof.
  induction 1 as [|f [[mt v0] m1] fs ms Hf _ IH]; cbn; [done |]. rewrite length_app.
  destruct Hf as (args & force1 & key & m & v1 & p & _ & _ & Hp & -> & _).
  destruct (packed_announced _ _ _ _ _ _ _ _ Hp) as (magic & mlen & flags & tl & -> & _). cbn. lia.
Qed.

(** A buffer that holds any number of frames packed by any senders is
    split by an idle parser into exactly their messages, in order, and the
    parser is idle again. *)
Theorem parse_buffer_frames ign f fs ms v :
  frames_of (f :: fs) ms -> bytes_ok (concat (f :: fs)) -> idle v ->
  exists v' out, parse_buffer ign (concat (f :: fs)) v = (v', Ok (Some out)) /\
    Forall2 decoded_as ms out /\ idle v'.
Proof.
  intros Hall Hb (Hok & Hp & Hk). unfold parse_buffer. se.
  inversion Hall as [|? [[mt v0] m1] ? ms' Hf Hfs]; subst.
  destruct (parse_char_step ign (concat (f :: fs)) f mt v0 m1 v (concat fs) Hf Hok Hb Hk)
    as (v1 & m2 & -> & Hs & Hok' & Hk' & Hp'); [by rewrite Hp |].
  pose proof (length_concat_ge fs ms' Hfs).
  destruct (parse_rest_frames ign fs ms' (S (length (buf (rx v1)))) [m2] v1 Hfs Hok' Hk' Hp')
    as (v2 & out & -> & Hout & Hi).
  { rewrite <- Hp' in H. unfold pending in H. rewrite length_drop in H. lia. }
  exists v2, (m2 :: out). split; [done |]. split; [by constructor | done].
Qed.

Lemma parse_buffer_frames_witness :
  exists f v' out, parse_buffer false (concat [f; f]) (init_mavlink 1 1) = (v', Ok (Some out)) /\
    length out = 2%nat.
Proof.
  destruct (message_pack_spec demo_mt demo_args false (init_mavlink 3 242) demo_key demo_known demo_fit)
    as (m & v1 & p & Hp).
  - discriminate.
  - split_and!; cbn; lia.
  - discriminate.
  - set (f := p_frame p false). exists f.
    assert (Hf : frame_of f demo_mt (init_mavlink 3 242) (p_msg p))
      by (exists demo_args, false, demo_key, m, v1, p; auto using demo_known, demo_fit).
    destruct (parse_buffer_frames false f [f]
                [(demo_mt, init_mavlink 3 242, p_msg p); (demo_mt, init_mavlink 3 242, p_msg p)]
                (init_mavlink 1 1)) as (v' & out & Hr & Hd & _).
    + repeat constructor; exact Hf.
    + assert (Hb : bytes_ok f).
      { unfold f, p_frame. rewrite (pk_sig _ _ _ _ _ _ _ _ Hp).
        destruct (pk_crc_range _ _ _ _ _ _ _ _ Hp).
        repeat (apply bytes_ok_app; split); try apply Hp; try apply Forall_nil_2.
        repeat constructor; try apply Z.mod_pos_bound; try lia;
          [apply Z.div_pos; lia | apply Z.div_lt_upper_bound; lia]. }
      cbn [concat]. rewrite !bytes_ok_app. split_and!; [exact Hb | exact Hb | apply Forall_nil_2].
    + split; [| done]. split; [by split | apply Forall_nil_2].
    + exists v', out. split; [exact Hr |]. by apply Forall2_length in Hd as <-.
Defined.

End MavStream.
