(* ===== verification/MavParser.v ===== *)
(** The MAVLink stream splitter of wfb_ng/mavlink_protocol.py: the generator
    [mavlink_parser_gen] as an object with its local variables, the layer-2
    header parsers, and [unpack_mavlink].  The abstract splitter
    [split_frames] works on the unconsumed bytes only; the generator refines
    it, whatever the chunking of its input and whatever its garbage
    collection of the buffer does. *)
From Stdlib Require Import ZArith Lia Bool.
From Equations Require Import Equations.
From stdpp Require Import base list numbers strings gmap.
From S2P Require Import Prelude.
From S2P Require Import PyStruct.
From S2P Require Import MavMessage.
From S2P Require Import MavMap.
From S2P Require Import MavCodec.

Module MavParser.
Import PyStruct MavMessage MavMap MavCodec.

#[local] Abbreviation u8 := (CUint 1).
#[local] Abbreviation u16 := (CUint 2).

(** ** Layer-2 headers *)

(** [(seq, sys_id, comp_id, msg_id)]. *)
Definition l2_headers : Type := Z * Z * Z * Z.

Definition parse_mavlink_l2_v1 (msg : bytes) : result (l2_headers * bytes) :=
  match unpack Little [u8; u8; u8; u8; u8] (py_slice msg 1 6) with
  | Ok [PInt plen; PInt seq; PInt sys_id; PInt comp_id; PInt msg_id] =>
      Ok ((seq, sys_id, comp_id, msg_id), py_slice msg 6 (6 + plen))
  | Ok _ => Raise StructError
  | Raise e => Raise e
  end.

Definition parse_mavlink_l2_v2 (msg : bytes) : result (l2_headers * bytes) :=
  match unpack Little [u8; u8; u8; u8; u8; u8; u16; u8] (py_slice msg 1 10) with
  | Ok [PInt plen; PInt iflags; PInt cflags; PInt seq; PInt sys_id; PInt comp_id;
        PInt msg_id_low; PInt msg_id_high] =>
      Ok ((seq, sys_id, comp_id, msg_id_low + Z.shiftl msg_id_high 16), py_slice msg 10 (10 + plen))
  | Ok _ => Raise StructError
  | Raise e => Raise e
  end.

(** ** The generator *)

(** An element of [mlist]: the bytes of a frame, or its parsed form. *)
Inductive fsm_item :=
| Raw (frame : bytes)
| L2 (hdr : l2_headers) (payload : bytes).

(** The local variables of a suspended generator. *)
Record fsm_state := FsmState { buffer : bytes; skip : Z; bad : Z }.

(** A generator: suspended at its [yield], or finished by an exception. *)
Inductive fsm := Suspended (st : fsm_state) | Finished.

Definition StopIteration : exn := Exception_ "StopIteration".

(** The state after the first [send(None)]. *)
Definition mavlink_parser_gen : fsm := Suspended (FsmState [] 0 0).

Section Gen.
Context (parse_l2 : bool).

(** [mlist.append(...)] of the frame [buffer[skip : skip + mlen]]. *)
Definition frame_item (version : Z) (frame : bytes) : result fsm_item :=
  if parse_l2 then
    r ← (if version =? 0xfe then parse_mavlink_l2_v1 frame else parse_mavlink_l2_v2 frame);
    Ok (L2 (fst r) (snd r))
  else Ok (Raw frame).

(** The length of the frame at [skip]: [None] when no frame starts there. *)
Definition frame_length (buffer : bytes) (skip version : Z) : result (option Z) :=
  if version =? 0xfe then
    l ← py_index buffer (skip + 1); Ok (Some (8 + l))
  else if version =? 0xfd then
    match unpack Little [u8; u8] (py_slice buffer (skip + 1) (skip + 3)) with
    | Ok [PInt mlen; PInt flags] =>
        Ok (Some (mlen + (if negb (Z.land flags 0x01 =? 0) then 25 else 12)))
    | Ok _ => Raise StructError
    | Raise e => Raise e
    end
  else Ok None.

(** [while len(buffer) - skip >= 8: ...], with a bound on the iterations. *)
Fixpoint parse_loop (fuel : nat) (st : fsm_state) (mlist : list fsm_item)
  : result (fsm_state * list fsm_item) :=
  match fuel with
  | O => Raise (Exception_ "out of fuel")
  | S f =>
      if blen (buffer st) - skip st >=? 8 then
        version ← py_index (buffer st) (skip st);
        n ← frame_length (buffer st) (skip st) version;
        match n with
        | None => parse_loop f (FsmState (buffer st) (skip st + 1) (bad st + 1)) mlist
        | Some mlen =>
            if blen (buffer st) - skip st <? mlen
            then Ok (FsmState (buffer st) (skip st) 0, mlist)
            else
              it ← frame_item version (py_slice (buffer st) (skip st) (skip st + mlen));
              parse_loop f (FsmState (buffer st) (skip st + mlen) 0) (mlist ++ [it])
        end
      else Ok (st, mlist)
  end.

(** The garbage collection before the [yield]. *)
Definition gc (st : fsm_state) : fsm_state :=
  if skip st >? 4096 then FsmState (py_from (buffer st) (skip st)) 0 (bad st) else st.

(** [fsm.send(data)]: resume at the [yield], run to the next one.  Every
    iteration of the loop but the last consumes a byte of the buffer. *)
Definition send (data : bytes) : SE fsm (list fsm_item) := fun g =>
  match g with
  | Finished => (Finished, Raise StopIteration)
  | Suspended st =>
      match data with
      | [] => (Suspended (gc st), Ok [])
      | _ =>
          let buffer' := buffer st ++ data in
          match parse_loop (S (length buffer')) (FsmState buffer' (skip st) (bad st)) [] with
          | Raise e => (Finished, Raise e)
          | Ok (st', mlist) => (Suspended (gc st'), Ok mlist)
          end
      end
  end.

(** Successive [send]s, with everything they return. *)
Fixpoint send_all (chunks : list bytes) : SE fsm (list fsm_item) :=
  match chunks with
  | [] => mret []
  | d :: chunks' => r ← send d; rs ← send_all chunks'; mret (r ++ rs)
  end.

End Gen.

(** ** The abstract splitter *)

(** Size of the frame at the head of at least three bytes. *)
Definition frame_size (l : bytes) : option nat :=
  match l with
  | v :: mlen :: flags :: _ =>
      if v =? 0xfe then Some (8 + Z.to_nat mlen)%nat
      else if v =? 0xfd then
        Some (Z.to_nat mlen + (if negb (Z.land flags 0x01 =? 0)%Z then 25 else 12))%nat
      else None
  | _ => None
  end.

Lemma frame_size_pos l n : frame_size l = Some n -> (8 <= n)%nat.
Proof.
  destruct l as [|v [|m [|f l]]]; cbn [frame_size]; try done.
  destruct (v =? 254); [intros [= <-]; lia |]. destruct (v =? 253); [| done].
  destruct (negb _); intros [= <-]; lia.
Qed.

Definition inspect {A} (a : A) : {b | a = b} := exist _ a eq_refl.

(** Frames of a byte string, the bytes left over, and how many bytes were
    skipped since the last frame start. *)
Equations split_frames (l : bytes) (bad : Z) : list bytes * bytes * Z by wf (length l) lt :=
  split_frames l bad with inspect (bool_decide (8 <= length l)%nat) => {
  | exist _ false _ => ([], l, bad)
  | exist _ true H8 with inspect (frame_size l) => {
    | exist _ None _ => split_frames (drop 1 l) (bad + 1)
    | exist _ (Some n) Hn =>
        if bool_decide (length l < n)%nat then ([], l, 0)
        else let '(fs, r, b) := split_frames (drop n l) 0 in (take n l :: fs, r, b)
    }
  }.
Next Obligation.
  intros l n Hn H8 _ _. rewrite length_drop. apply bool_decide_eq_true in H8.
  apply frame_size_pos in Hn. lia.
Qed.

Next Obligation.
  intros l _ H8 _ _. rewrite length_drop. apply bool_decide_eq_true in H8. lia.
Qed.

(** The equation of the splitter. *)
Lemma split_frames_eq l b :
  split_frames l b =
    if bool_decide (8 <= length l)%nat then
      match frame_size l with
      | None => split_frames (drop 1 l) (b + 1)
      | Some n =>
          if bool_decide (length l < n)%nat then ([], l, 0)
          else let '(fs, r, b') := split_frames (drop n l) 0 in (take n l :: fs, r, b')
      end
    else ([], l, b).
Proof.
  funelim (split_frames l b).
  - by rewrite e.
  - by rewrite H8, Hn.
  - by rewrite H8, e.
Qed.

(** The item the generator makes of a complete frame. *)
Definition l2_item (f : bytes) : fsm_item :=
  match f with
  | v :: plen :: x0 :: x1 :: x2 :: x3 :: r =>
      if v =? 0xfe then L2 (x0, x1, x2, x3) (take (Z.to_nat plen) r)
      else match r with
           | x4 :: x5 :: x6 :: x7 :: r' =>
               L2 (x2, x3, x4, x5 + 256 * x6 + 65536 * x7) (take (Z.to_nat plen) r')
           | _ => Raw f
           end
  | _ => Raw f
  end.

Definition spec_item (parse_l2 : bool) (f : bytes) : fsm_item :=
  if parse_l2 then l2_item f else Raw f.

(** ** Refinement *)

(** The unconsumed bytes of a generator. *)
Definition pend (st : fsm_state) : bytes := drop (Z.to_nat (skip st)) (buffer st).

Definition st_ok (st : fsm_state) : Prop := 0 <= skip st <= blen (buffer st) /\ bytes_ok (buffer st).

Lemma pend_blen st : st_ok st -> blen (pend st) = blen (buffer st) - skip st.
Proof. intros [Hs _]. apply blen_drop. lia. Qed.

Lemma pend_ok st : st_ok st -> bytes_ok (pend st).
Proof. intros [_ Hb]. by apply bytes_ok_drop. Qed.

(** Reading relative to [skip]. *)
Lemma pend_index st i x :
  st_ok st -> 0 <= i -> pend st !! Z.to_nat i = Some x -> py_index (buffer st) (skip st + i) = Ok x.
Proof.
  intros [Hs _] Hi Hx. unfold py_index. destruct (Z.ltb_spec (skip st + i) 0); [lia |].
  destruct (Z.ltb_spec (skip st + i) 0); [lia |]. unfold pend in Hx. rewrite lookup_drop in Hx.
  rewrite Z2Nat.inj_add by lia. by rewrite Hx.
Qed.

Lemma pend_slice st i j :
  st_ok st -> 0 <= i <= j -> skip st + j <= blen (buffer st) ->
  py_slice (buffer st) (skip st + i) (skip st + j) = take (Z.to_nat (j - i)) (drop (Z.to_nat i) (pend st)).
Proof.
  intros [Hs _] Hi Hj. unfold py_slice, py_norm, pend.
  destruct (Z.ltb_spec (skip st + i) 0), (Z.ltb_spec (skip st + j) 0); try lia.
  rewrite !Z.min_l by lia. rewrite drop_drop. f_equal; [lia | f_equal; lia].
Qed.

Definition pend_next (st : fsm_state) (n b : Z) : fsm_state := FsmState (buffer st) (skip st + n) b.

Lemma pend_next_ok st n b : st_ok st -> 0 <= n <= blen (buffer st) - skip st -> st_ok (pend_next st n b).
Proof. intros [Hs Hb] Hn. split; [cbn; lia | done]. Qed.

Lemma pend_next_pend st n b : st_ok st -> 0 <= n -> pend (pend_next st n b) = drop (Z.to_nat n) (pend st).
Proof. intros [Hs _] Hn. unfold pend, pend_next. cbn. rewrite drop_drop. f_equal. lia. Qed.

(** With eight bytes available the generator computes [frame_size]. *)
Lemma frame_length_size st :
  st_ok st -> 8 <= blen (pend st) ->
  exists v l, pend st = v :: l /\ py_index (buffer st) (skip st) = Ok v /\
    frame_length (buffer st) (skip st) v = Ok (Z.of_nat <$> frame_size (pend st)).
Proof.
  intros Hok H8. pose proof (pend_ok st Hok) as Hb. pose proof (pend_blen st Hok) as Hl.
  destruct (pend st) as [|v [|mlen [|flags l]]] eqn:Ep; try (unfold blen in H8; cbn [length] in H8; lia).
  exists v, (mlen :: flags :: l). split; [done |]. split.
  { rewrite <- (Z.add_0_r (skip st)). apply pend_index; [done | lia |]. by rewrite Ep. }
  rewrite !bytes_ok_cons in Hb. destruct Hb as (? & ? & ? & _).
  unfold frame_length, frame_size. destruct (v =? 254); [| destruct (v =? 253); [| done]].
  - rewrite (pend_index st 1 mlen) by (done || lia || by rewrite Ep). cbn. do 2 f_equal. lia.
  - rewrite pend_slice, Ep by (done || lia). change (take _ _) with [mlen; flags].
    unfold unpack. rewrite decide_True by done. cbn [unpack_aux take drop code_size unpack_code decode le_decode].
    rewrite !Z.mul_0_r, !Z.add_0_r. destruct (negb _); cbn; do 2 f_equal; lia.
Qed.

Lemma unpack_u8s l : unpack Little (replicate (length l) u8) l = Ok (map PInt l).
Proof.
  unfold unpack. rewrite decide_True.
  - f_equal. induction l as [|x l IH]; [done |].
    cbn [length replicate unpack_aux code_size take drop map unpack_code decode le_decode].
    rewrite take_0, drop_0, IH. cbn [le_decode]. do 2 f_equal. lia.
  - induction l as [|x l IH]; [done |]. cbn [length replicate]. rewrite IH at 1. done.
Qed.

Lemma frame_item_spec (pl : bool) v l n :
  bytes_ok (v :: l) -> frame_size (v :: l) = Some n -> length (v :: l) = n ->
  frame_item pl v (v :: l) = Ok (spec_item pl (v :: l)).
Proof.
  intros Hb Hn Hl. destruct pl; [| done]. unfold frame_item, spec_item.
  destruct l as [|plen [|x0 l]]; [done.. |]. cbn [frame_size] in Hn.
  apply bytes_ok_cons in Hb as [_ Hb]. apply bytes_ok_cons in Hb as [Hp _].
  destruct (Z.eqb_spec v 254) as [-> |Hv].
  - injection Hn as <-. destruct l as [|x1 [|x2 [|x3 r]]]; cbn in Hl; try lia.
    unfold parse_mavlink_l2_v1.
    assert (Hs : py_slice (254 :: plen :: x0 :: x1 :: x2 :: x3 :: r) 1 6 = [plen; x0; x1; x2; x3])
      by (apply (slice_nth [254] (plen :: x0 :: x1 :: x2 :: x3 :: r) 5); unfold blen; cbn [length]; lia).
    pose proof (unpack_u8s [plen; x0; x1; x2; x3]) as Hu. cbn [length replicate] in Hu. rewrite Hs, Hu.
    cbn [map mbind result_bind fst snd].
    assert (Hs2 : py_slice (254 :: plen :: x0 :: x1 :: x2 :: x3 :: r) 6 (6 + plen) = take (Z.to_nat plen) r)
      by (apply (slice_nth [254; plen; x0; x1; x2; x3] r plen); unfold blen; lia).
    by rewrite Hs2.
  - destruct (Z.eqb_spec v 253) as [-> |]; [| done]. injection Hn as <-.
    destruct l as [|x1 [|x2 [|x3 [|x4 [|x5 [|x6 [|x7 r]]]]]]]; cbn in Hl; try (destruct (negb _); lia).
    unfold parse_mavlink_l2_v2.
    assert (Hs : py_slice (253 :: plen :: x0 :: x1 :: x2 :: x3 :: x4 :: x5 :: x6 :: x7 :: r) 1 10
                 = [plen; x0; x1; x2; x3; x4; x5; x6; x7])
      by (apply (slice_nth [253] (plen :: x0 :: x1 :: x2 :: x3 :: x4 :: x5 :: x6 :: x7 :: r) 9);
          unfold blen; cbn [length]; lia).
    rewrite Hs. unfold unpack. rewrite decide_True by done.
    cbn [unpack_aux take drop code_size unpack_code decode le_decode mbind result_bind fst snd].
    rewrite !Z.mul_0_r, !Z.add_0_r, Z.shiftl_mul_pow2 by lia.
    assert (Hs2 : py_slice (253 :: plen :: x0 :: x1 :: x2 :: x3 :: x4 :: x5 :: x6 :: x7 :: r) 10 (10 + plen)
                  = take (Z.to_nat plen) r)
      by (apply (slice_nth [253; plen; x0; x1; x2; x3; x4; x5; x6; x7] r plen);
          unfold blen; destruct (negb _); lia).
    rewrite Hs2. cbn [l2_item]. change (253 =? 254) with false. cbn iota. do 3 f_equal. lia.
Qed.

(** The inner loop computes the abstract splitter, and terminates. *)
Lemma parse_loop_refines pl fuel st ml :
  st_ok st -> (length (pend st) < fuel)%nat ->
  exists st', let '(fs, r, b) := split_frames (pend st) (bad st) in
    parse_loop pl fuel st ml = Ok (st', ml ++ map (spec_item pl) fs) /\
    pend st' = r /\ bad st' = b /\ st_ok st'.
Proof.
  revert st ml. induction fuel as [|fuel IH]; intros st ml Hok Hf; [lia |].
  pose proof (pend_blen st Hok) as Hl. cbn [parse_loop]. rewrite split_frames_eq.
  destruct (bool_decide_reflect (8 <= length (pend st))%nat) as [H8|H8].
  2: { destruct (Z.geb_spec (blen (buffer st) - skip st) 8); [unfold blen in *; lia |].
       exists st. cbn. by rewrite app_nil_r. }
  destruct (Z.geb_spec (blen (buffer st) - skip st) 8); [| unfold blen in *; lia].
  destruct (frame_length_size st Hok ltac:(unfold blen; lia)) as (v & l & Ep & Hv & Hfl).
  rewrite Hv. cbn [mbind result_bind]. rewrite Hfl. cbn [mbind result_bind].
  destruct (frame_size (pend st)) as [n|] eqn:En; cbn [fmap option_fmap option_map].
  - destruct (bool_decide_reflect (length (pend st) < n)%nat) as [Hn|Hn].
    + destruct (Z.ltb_spec (blen (buffer st) - skip st) (Z.of_nat n)); [| unfold blen in *; lia].
      exists (FsmState (buffer st) (skip st) 0). cbn. rewrite app_nil_r. done.
    + destruct (Z.ltb_spec (blen (buffer st) - skip st) (Z.of_nat n)); [unfold blen in *; lia |].
      assert (Hsl : py_slice (buffer st) (skip st) (skip st + Z.of_nat n) = take n (pend st)).
      { rewrite <- (Z.add_0_r (skip st)) at 1. rewrite pend_slice by (done || lia).
        rewrite drop_0. f_equal. lia. }
      rewrite Hsl. pose proof (frame_size_pos _ _ En).
      assert (Ht : take n (pend st) = v :: take (pred n) l)
        by (rewrite Ep; destruct n; [lia | done]).
      rewrite Ht, (frame_item_spec pl v (take (pred n) l) n); rewrite <- ?Ht.
      * cbn [mbind result_bind]. fold (pend_next st (Z.of_nat n) 0).
        destruct (IH (pend_next st (Z.of_nat n) 0) (ml ++ [spec_item pl (take n (pend st))])) as [st' Hst].
        -- apply pend_next_ok; [done | lia].
        -- rewrite pend_next_pend by (done || lia). rewrite length_drop. lia.
        -- exists st'. rewrite pend_next_pend in Hst by (done || lia). rewrite Nat2Z.id in Hst.
           cbn [bad pend_next] in Hst. destruct (split_frames (drop n (pend st)) 0) as [[fs r] b].
           destruct Hst as (-> & ? & ? & ?). cbn [map]. by rewrite <- app_assoc.
      * by apply bytes_ok_take, pend_ok.
      * rewrite Ep in En |- *. destruct l as [|y [|z l]]; try done.
        destruct n as [|[|[|n]]]; [lia.. |]. exact En.
      * rewrite length_take. lia.
  - fold (pend_next st 1 (bad st + 1)).
    destruct (IH (pend_next st 1 (bad st + 1)) ml) as [st' Hst].
    + apply pend_next_ok; [done | lia].
    + rewrite pend_next_pend by (done || lia). rewrite length_drop. lia.
    + exists st'. rewrite pend_next_pend in Hst by (done || lia). exact Hst.
Qed.

(** ** Laws of the abstract splitter *)

Lemma frame_size_app l1 l2 : (8 <= length l1)%nat -> frame_size (l1 ++ l2) = frame_size l1.
Proof. destruct l1 as [|v [|m [|f l1]]]; cbn [length]; try lia. done. Qed.

(** What is left over stays left over until more bytes come. *)
Definition stable (l : bytes) (b : Z) : Prop := split_frames l b = ([], l, b).

Lemma split_stable l b : let '(_, r, b') := split_frames l b in stable r b'.
Proof.
  remember (length l) as n eqn:Hn. revert l b Hn.
  induction n as [n IH] using (well_founded_induction lt_wf). intros l b ->.
  rewrite split_frames_eq. destruct (bool_decide_reflect (8 <= length l)%nat) as [H8|H8].
  2: { unfold stable. rewrite split_frames_eq, bool_decide_false by done. done. }
  destruct (frame_size l) as [k|] eqn:Ek.
  - pose proof (frame_size_pos _ _ Ek).
    destruct (bool_decide_reflect (length l < k)%nat) as [Hk|Hk].
    + unfold stable. rewrite split_frames_eq, bool_decide_true, Ek, bool_decide_true by done. done.
    + specialize (IH (length (drop k l)) ltac:(rewrite length_drop; lia) (drop k l) 0 eq_refl).
      by destruct (split_frames (drop k l) 0) as [[fs r] b'].
  - apply (IH (length (drop 1 l)) ltac:(rewrite length_drop; lia) (drop 1 l) (b + 1) eq_refl).
Qed.

(** Splitting is incremental. *)
Lemma split_app l1 l2 b :
  split_frames (l1 ++ l2) b =
    (let '(fs1, r1, b1) := split_frames l1 b in
     let '(fs2, r2, b2) := split_frames (r1 ++ l2) b1 in (fs1 ++ fs2, r2, b2)).
Proof.
  remember (length l1) as n eqn:Hn. revert l1 b Hn.
  induction n as [n IH] using (well_founded_induction lt_wf). intros l1 b ->.
  rewrite (split_frames_eq l1). destruct (bool_decide_reflect (8 <= length l1)%nat) as [H8|H8].
  2: { by destruct (split_frames (l1 ++ l2) b) as [[fs r] b']. }
  rewrite split_frames_eq, bool_decide_true by (rewrite length_app; lia).
  rewrite frame_size_app by done.
  destruct (frame_size l1) as [k|] eqn:Ek.
  - pose proof (frame_size_pos _ _ Ek).
    destruct (bool_decide_reflect (length l1 < k)%nat) as [Hk|Hk].
    + rewrite (split_frames_eq (l1 ++ l2)), (bool_decide_true (8 <= _)%nat) by (rewrite length_app; lia).
      rewrite frame_size_app, Ek by done.
      destruct (bool_decide (length (l1 ++ l2) < k)%nat); [done |].
      by destruct (split_frames (drop k (l1 ++ l2)) 0) as [[fs r] b'].
    + rewrite bool_decide_false by (rewrite length_app; lia).
      rewrite drop_app_le, take_app_le by lia.
      rewrite (IH (length (drop k l1)) ltac:(rewrite length_drop; lia) (drop k l1) 0 eq_refl).
      destruct (split_frames (drop k l1) 0) as [[fs1 r1] b1].
      by destruct (split_frames (r1 ++ l2) b1) as [[fs2 r2] b2].
  - rewrite drop_app_le by lia.
    apply (IH (length (drop 1 l1)) ltac:(rewrite length_drop; lia) (drop 1 l1) (b + 1) eq_refl).
Qed.

Lemma frame_size_le l n : bytes_ok l -> frame_size l = Some n -> (n <= 280)%nat.
Proof.
  destruct l as [|v [|m [|f l]]]; cbn [frame_size]; try done. rewrite !bytes_ok_cons. intros (_ & Hm & _).
  destruct (v =? 254); [intros [= <-]; lia |]. destruct (v =? 253); [| done].
  destruct (negb _); intros [= <-]; lia.
Qed.

Lemma split_rest_suffix l b : let '(_, r, _) := split_frames l b in exists k, r = drop k l.
Proof.
  remember (length l) as n eqn:Hn. revert l b Hn.
  induction n as [n IH] using (well_founded_induction lt_wf). intros l b ->.
  rewrite split_frames_eq. destruct (bool_decide_reflect (8 <= length l)%nat) as [H8|H8];
    [| by exists 0%nat].
  destruct (frame_size l) as [k|] eqn:Ek.
  - pose proof (frame_size_pos _ _ Ek). destruct (bool_decide (length l < k)%nat); [by exists 0%nat |].
    specialize (IH (length (drop k l)) ltac:(rewrite length_drop; lia) (drop k l) 0 eq_refl).
    destruct (split_frames (drop k l) 0) as [[fs r] b']. destruct IH as [j ->].
    exists (k + j)%nat. by rewrite drop_drop.
  - specialize (IH (length (drop 1 l)) ltac:(rewrite length_drop; lia) (drop 1 l) (b + 1) eq_refl).
    destruct (split_frames (drop 1 l) (b + 1)) as [[fs r] b']. destruct IH as [j ->].
    exists (1 + j)%nat. by rewrite drop_drop.
Qed.

(** At most one incomplete frame is ever left over. *)
Lemma stable_length l b : bytes_ok l -> stable l b -> (length l < 280)%nat.
Proof.
  intros Hb. unfold stable. rewrite split_frames_eq. case_bool_decide as H8; [| lia].
  destruct (frame_size l) as [n|] eqn:En.
  - pose proof (frame_size_le _ _ Hb En). case_bool_decide; [lia |].
    by destruct (split_frames (drop n l) 0) as [[fs r] b'].
  - intros Hs. pose proof (split_rest_suffix (drop 1 l) (b + 1)) as H. rewrite Hs in H.
    destruct H as [k Hk]. apply (f_equal length) in Hk. rewrite !length_drop in Hk. lia.
Qed.

(** ** The generator *)

(** What every suspended generator satisfies at its [yield]. *)
Definition gen_ok (st : fsm_state) : Prop :=
  st_ok st /\ stable (pend st) (bad st) /\ skip st <= 4096.

Lemma gc_pend st : st_ok st -> pend (gc st) = pend st /\ bad (gc st) = bad st /\ st_ok (gc st) /\ skip (gc st) <= 4096.
Proof.
  intros [Hs Hb]. unfold gc. destruct (Z.gtb_spec (skip st) 4096); [| done].
  unfold pend, st_ok. cbn. unfold py_from, py_norm. destruct (Z.ltb_spec (skip st) 0); [lia |].
  rewrite Z.min_l by lia. rewrite drop_0. split_and!; try done; try lia; try apply blen_nonneg.
  by apply bytes_ok_drop.
Qed.

Lemma send_spec pl data st :
  gen_ok st -> bytes_ok data ->
  exists st' fs, split_frames (pend st ++ data) (bad st) = (fs, pend st', bad st') /\
    send pl data (Suspended st) = (Suspended st', Ok (map (spec_item pl) fs)) /\ gen_ok st'.
Proof.
  intros (Hok & Hst & _) Hd. unfold send. destruct data as [|x data].
  - destruct (gc_pend st Hok) as (Hp & Hb & Hok' & Hs). exists (gc st), [].
    unfold gen_ok. rewrite Hp, Hb, app_nil_r. done.
  - cbn beta iota zeta. set (data' := x :: data) in *. set (st1 := FsmState (buffer st ++ data') (skip st) (bad st)).
    destruct Hok as [Hs Hb].
    assert (Hok1 : st_ok st1).
    { split; cbn; [rewrite blen_app; pose proof (blen_nonneg data'); lia | by apply bytes_ok_app]. }
    assert (Hp1 : pend st1 = pend st ++ data').
    { unfold pend, st1. cbn [skip buffer]. apply drop_app_le. unfold blen in Hs. lia. }
    destruct (parse_loop_refines pl (S (length (buffer st ++ data'))) st1 [] Hok1) as [st2 H2].
    { unfold pend, st1. cbn [skip buffer]. rewrite length_drop. lia. }
    pose proof (split_stable (pend st1) (bad st1)) as Hstab.
    rewrite Hp1 in *. change (bad st1) with (bad st) in *.
    destruct (split_frames (pend st ++ data') (bad st)) as [[fs r] b].
    destruct H2 as (Hl & Hr & Hbb & Hok2).
    rewrite Hl. destruct (gc_pend st2 Hok2) as (Hp' & Hb' & Hok' & Hs').
    exists (gc st2), fs. unfold gen_ok. rewrite Hp', Hb', Hr, Hbb. done.
Qed.

Lemma gen_ok_init : gen_ok (FsmState [] 0 0).
Proof.
  split; [split; [by split | apply Forall_nil_2] | split; [| done]].
  unfold stable. by rewrite split_frames_eq.
Qed.

(** Generators with the same unconsumed bytes are interchangeable, whatever
    their buffers still hold. *)
#[export] Instance fsm_equiv : Equiv fsm := fun g1 g2 =>
  match g1, g2 with
  | Suspended s1, Suspended s2 => pend s1 = pend s2 /\ bad s1 = bad s2
  | Finished, Finished => True
  | _, _ => False
  end.

#[export] Instance fsm_equivalence : Equivalence (≡@{fsm}).
Proof.
  split.
  - by intros [st|].
  - intros [s1|] [s2|]; cbn; try done. by intros [-> ->].
  - intros [s1|] [s2|] [s3|]; cbn; try done. by intros [-> ->].
Qed.

(** Invariant of a generator object. *)
Definition fsm_ok (g : fsm) : Prop := match g with Suspended st => gen_ok st | Finished => True end.

(** [send] respects the equivalence, for the results and the states. *)
Lemma send_equiv pl data g1 g2 :
  fsm_ok g1 -> fsm_ok g2 -> bytes_ok data -> g1 ≡ g2 ->
  snd (send pl data g1) = snd (send pl data g2) /\ fst (send pl data g1) ≡ fst (send pl data g2).
Proof.
  destruct g1 as [s1|], g2 as [s2|]; cbn [fsm_ok]; try done. intros H1 H2 Hd [Hp Hb].
  destruct (send_spec pl data s1 H1 Hd) as (s1' & fs1 & E1 & -> & _).
  destruct (send_spec pl data s2 H2 Hd) as (s2' & fs2 & E2 & -> & _).
  rewrite Hp, Hb, E2 in E1. cbn. injection E1 as <- -> ->. done.
Qed.

(** C5: resuming the stream splitter with a chunk of bytes returns exactly the
    frames the abstract splitter finds in the unconsumed bytes followed by the
    chunk, in order, raw or with their parsed headers; the generator never
    raises or loops, and its garbage collection of the buffer is not
    observable. *)
Theorem send_refines_split pl data st fs r b :
  gen_ok st -> bytes_ok data -> split_frames (pend st ++ data) (bad st) = (fs, r, b) ->
  exists st', send pl data (Suspended st) = (Suspended st', Ok (map (spec_item pl) fs)) /\
    gen_ok st' /\ pend st' = r /\ bad st' = b.
Proof.
  intros Hok Hd Hs. destruct (send_spec pl data st Hok Hd) as (st' & fs' & Hs' & Hsend & Hok').
  rewrite Hs' in Hs. simplify_eq. eauto.
Qed.

Lemma send_all_spec pl chunks st :
  gen_ok st -> Forall bytes_ok chunks ->
  exists st' fs, split_frames (pend st ++ concat chunks) (bad st) = (fs, pend st', bad st') /\
    send_all pl chunks (Suspended st) = (Suspended st', Ok (map (spec_item pl) fs)) /\ gen_ok st'.
Proof.
  intros Hok H. revert st Hok. induction H as [|d chunks Hd _ IH]; intros st Hok.
  - exists st, []. cbn. rewrite app_nil_r. split; [apply Hok | done].
  - destruct (send_spec pl d st Hok Hd) as (st1 & fs1 & E1 & Hs1 & Hok1).
    destruct (IH st1 Hok1) as (st2 & fs2 & E2 & Hs2 & Hok2).
    exists st2, (fs1 ++ fs2). cbn [send_all concat]. split.
    + rewrite app_assoc, split_app, E1, E2. done.
    + unfold mbind, SE_bind. rewrite Hs1, Hs2. unfold mret, SE_ret. by rewrite map_app.
Qed.

(** C27: how a byte stream is cut into chunks does not matter: sending the
    chunks one by one returns, in total, what sending their concatenation
    returns, and leaves an equivalent generator. *)
Theorem send_chunking pl chunks st :
  gen_ok st -> Forall bytes_ok chunks ->
  snd (send_all pl chunks (Suspended st)) = snd (send pl (concat chunks) (Suspended st)) /\
  fst (send_all pl chunks (Suspended st)) ≡ fst (send pl (concat chunks) (Suspended st)).
Proof.
  intros Hok H.
  destruct (send_all_spec pl chunks st Hok H) as (s1 & fs1 & E1 & -> & _).
  destruct (send_spec pl (concat chunks) st Hok) as (s2 & fs2 & E2 & -> & _); [by apply Forall_concat |].
  rewrite E2 in E1. cbn. injection E1 as <- -> ->. done.
Qed.

(** Whatever is sent, for as long as the stream runs, the buffer of a
    splitter never holds more than 4096 consumed bytes and fewer than 280
    unconsumed ones (one incomplete frame) when it waits for more data. *)
Theorem send_buffer_bounded pl chunks :
  Forall bytes_ok chunks ->
  exists st, fst (send_all pl chunks mavlink_parser_gen) = Suspended st /\
    0 <= skip st <= 4096 /\ blen (buffer st) - skip st < 280 /\ blen (buffer st) < 4376.
Proof.
  intros H. destruct (send_all_spec pl chunks _ gen_ok_init H) as (st & fs & _ & Hs & (Hok & Hst & Hsk)).
  exists st. unfold mavlink_parser_gen. rewrite Hs. split; [done |].
  pose proof (stable_length _ _ (pend_ok _ Hok) Hst) as Hl.
  pose proof (pend_blen st Hok). destruct Hok as [Hi _]. unfold blen in *. lia.
Qed.

(** ** Frames and garbage *)

(** A complete frame of either protocol version. *)
Definition whole_frame (f : bytes) : Prop := frame_size f = Some (length f).

(** A byte that starts no frame. *)
Definition garbage (x : Z) : Prop := x <> 0xfe /\ x <> 0xfd.

Lemma split_whole_frames fs b :
  Forall whole_frame fs -> fs <> [] -> split_frames (concat fs) b = (fs, [], 0).
Proof.
  intros H. revert b. induction H as [|f fs Hf Hfs IH]; intros b Hne; [done |]. cbn [concat].
  pose proof (frame_size_pos _ _ Hf) as H8.
  rewrite split_frames_eq, bool_decide_true by (rewrite length_app; lia).
  rewrite frame_size_app, Hf by done. rewrite bool_decide_false by (rewrite length_app; lia).
  rewrite drop_app_length, take_app_length.
  destruct fs as [|f' fs]; [cbn [concat]; by rewrite split_frames_eq |]. by rewrite IH.
Qed.

Lemma split_garbage g l b :
  Forall garbage g -> (8 <= length l)%nat -> split_frames (g ++ l) b = split_frames l (b + blen g).
Proof.
  intros H. revert b. induction H as [|x g [Hx1 Hx2] _ IH]; intros b Hl.
  - cbn. by rewrite Z.add_0_r.
  - cbn [app]. rewrite split_frames_eq, bool_decide_true by (cbn; rewrite length_app; lia).
    assert (Hn : frame_size (x :: g ++ l) = None).
    { apply Z.eqb_neq in Hx1, Hx2. unfold frame_size. rewrite Hx1, Hx2. by destruct (g ++ l) as [|? []]. }
    rewrite Hn. cbn [drop]. rewrite drop_0, IH by done. f_equal. rewrite blen_cons. lia.
Qed.

(** After any garbage that contains no start marker, a splitter with
    nothing pending finds again exactly the frames that follow, all of them,
    and is left with nothing pending. *)
Theorem send_resync pl g fs st :
  gen_ok st -> pend st = [] -> Forall garbage g -> Forall whole_frame fs -> fs <> [] ->
  bytes_ok (g ++ concat fs) ->
  exists st', send pl (g ++ concat fs) (Suspended st) = (Suspended st', Ok (map (spec_item pl) fs)) /\
    gen_ok st' /\ pend st' = [].
Proof.
  intros Hok Hp Hg Hfs Hne Hb. destruct (send_spec pl _ st Hok Hb) as (st' & fs' & Hs & Hsend & Hok').
  rewrite Hp in Hs. cbn [app] in Hs. rewrite split_garbage, split_whole_frames in Hs; try done.
  - injection Hs as <- Hr _. by exists st'.
  - destruct Hfs as [|f fs Hf _]; [done |]. cbn. rewrite length_app.
    pose proof (frame_size_pos _ _ Hf). lia.
Qed.

(** ** Concrete streams *)

(** A MAVLink 1 frame without payload, and a MAVLink 2 frame with one byte. *)
Definition demo_v1 : bytes := [0xfe; 0; 1; 2; 3; 4; 9; 9].
Definition demo_v2 : bytes := [0xfd; 1; 0; 0; 5; 1; 1; 0; 0; 0; 77; 8; 8].

Lemma demo_frames : Forall whole_frame [demo_v1; demo_v2].
Proof. repeat constructor. Qed.

Lemma send_refines_split_witness :
  exists st', send true (demo_v1 ++ demo_v2) mavlink_parser_gen =
    (Suspended st', Ok [L2 (1, 2, 3, 4) []; L2 (5, 1, 1, 0) [77]]) /\
    gen_ok st' /\ pend st' = [] /\ bad st' = 0.
Proof.
  apply (send_refines_split true (demo_v1 ++ demo_v2) (FsmState [] 0 0) [demo_v1; demo_v2] [] 0 gen_ok_init).
  - apply bytes_ok_forallb. vm_compute. reflexivity.
  - exact (split_whole_frames [demo_v1; demo_v2] 0 demo_frames ltac:(discriminate)).
Defined.

Lemma send_chunking_witness :
  let chunks := [take 5 demo_v1; []; drop 5 demo_v1 ++ demo_v2] in
  snd (send_all false chunks (Suspended (FsmState [] 0 0))) =
  snd (send false (concat chunks) (Suspended (FsmState [] 0 0))).
Proof.
  intros chunks. refine (proj1 (send_chunking false chunks (FsmState [] 0 0) gen_ok_init _)).
  repeat (constructor; [apply bytes_ok_forallb; vm_compute; reflexivity |]). constructor.
Defined.

Lemma send_buffer_bounded_witness :
  exists st, fst (send_all true [demo_v1; demo_v2] mavlink_parser_gen) = Suspended st /\
    0 <= skip st <= 4096 /\ blen (buffer st) - skip st < 280 /\ blen (buffer st) < 4376.
Proof.
  apply send_buffer_bounded.
  repeat (constructor; [apply bytes_ok_forallb; vm_compute; reflexivity |]). constructor.
Defined.

Lemma send_resync_witness :
  exists st', send false ([1; 2; 3] ++ concat [demo_v1; demo_v2]) mavlink_parser_gen =
    (Suspended st', Ok [Raw demo_v1; Raw demo_v2]) /\ gen_ok st' /\ pend st' = [].
Proof.
  apply (send_resync false [1; 2; 3] [demo_v1; demo_v2] (FsmState [] 0 0) gen_ok_init).
  - reflexivity.
  - repeat constructor; discriminate.
  - exact demo_frames.
  - discriminate.
  - apply bytes_ok_forallb. vm_compute. reflexivity.
Defined.

(** ** [unpack_mavlink] *)

(** [field.rstrip(b'\0') if isinstance(field, bytes) else field]. *)
Definition rstrip_field (field : pyval) : fval := terminate (FScalar field).

(** The loop over [len_map] when the message has arrays. *)
Fixpoint group_fields (fields : list pyval) (len_map : list nat) (offset : nat) : result (list fval) :=
  match len_map with
  | [] => Ok []
  | f_len :: len_map' =>
      fv ← (if decide (f_len = 1)%nat then
              field ← of_option IndexError (fields !! offset); Ok (rstrip_field field)
            else Ok (FArray (take f_len (drop offset fields))));
      rest ← group_fields fields len_map' (offset + f_len);
      Ok (fv :: rest)
  end.

(** [unpack_mavlink(msg_id, mbuf)]: the message name and the fields, in the
    order of [fieldnames]. *)
Definition unpack_mavlink (msg_id : Z) (mbuf : bytes) : result (string * list (string * fval)) :=
  mt ← of_option KeyError (mavlink_get msg_id);
  let csize := unpacker_size mt in
  let mbuf := if decide (length mbuf < csize)%nat then mbuf ++ zeros (csize - length mbuf) else mbuf in
  fields ← unpack Little (codes_of mt) mbuf;
  flist ← (if decide (sum_list (lengths mt) = length (lengths mt))
           then Ok (map rstrip_field fields)
           else group_fields fields (lengths mt) 0);
  vals ← result_map (fun i => o ← of_option IndexError (orders mt !! i); of_option IndexError (flist !! o))
           (seq 0 (length flist));
  Ok (msgname mt, zip (fieldnames mt) vals).

(** The element a field of [len_map] starts with is no byte string when the
    field is an array. *)
Lemma array_field_not_bytes mt l o L v :
  consistent mt -> lengths mt !! o = Some L -> L <> 1%nat ->
  unpack_aux Little (codes_of mt) l !! sum_list (take o (lengths mt)) = Some v ->
  match v with PBytes _ => False | _ => True end.
Proof.
  intros Hc HL Hne Hv.
  assert (Hw : exists f c, wire mt !! o = Some (f, c, L)).
  { rewrite <- (wire_lengths mt Hc) in HL. apply list_lookup_fmap_Some in HL as ([[f c] L'] & -> & Hw). eauto. }
  destruct Hw as (f & c & Hw). pose proof (co_pos _ Hc) as Hp. rewrite Forall_lookup in Hp.
  specialize (Hp _ _ Hw). cbn in Hp. to_prop. apply bool_decide_eq_true in H2.
  assert (Hcode : codes_of mt !! sum_list (take o (lengths mt)) = Some c).
  { rewrite (co_codes _ Hc), <- (wire_lengths mt Hc).
    assert (Hx : map expand (wire mt) !! o = Some (replicate L c))
      by (apply list_lookup_fmap_Some; by exists (f, c, L)).
    pose proof (lookup_concat _ _ _ 0%nat Hx ltac:(rewrite length_replicate; lia)) as Hk.
    rewrite Nat.add_0_r, lookup_replicate_2 in Hk by lia. rewrite <- Hk. f_equal.
    rewrite <- !fmap_take, <- !list_fmap_compose. f_equal. apply list_fmap_ext.
    intros i [[f' c'] L'] _. cbn. by rewrite length_replicate. }
  assert (Hc' : exists b, v = unpack_code Little c b).
  { clear - Hcode Hv. revert l Hv Hcode. generalize (sum_list (take o (lengths mt))).
    induction (codes_of mt) as [|c0 cs IH]; intros [|n] l Hv Hcode; cbn in *; simplify_eq; eauto. }
  destruct Hc' as [b ->]. destruct c; cbn in *; try done.
  destruct H1 as [H1|H1]; [done |]. to_prop. by apply bool_decide_eq_true in H1.
Qed.

Lemma group_fields_spec mt l :
  consistent mt ->
  let t := unpack_aux Little (codes_of mt) l in
  exists flist, group_fields t (lengths mt) 0 = Ok flist /\ length flist = length (lengths mt) /\
    forall o v, field_at mt t o = Ok v -> flist !! o = Some (terminate v).
Proof.
  intros Hc t.
  assert (Ht : length t = sum_list (lengths mt)).
  { unfold t. rewrite length_unpack_aux, (co_codes _ Hc), length_concat_expand.
    by rewrite (wire_lengths mt Hc). }
  assert (H : forall k, (k <= length (lengths mt))%nat ->
    exists flist, group_fields t (drop k (lengths mt)) (sum_list (take k (lengths mt))) = Ok flist /\
      length flist = (length (lengths mt) - k)%nat /\
      forall o v, field_at mt t (k + o) = Ok v -> flist !! o = Some (terminate v)).
  2: { destruct (H 0%nat ltac:(lia)) as (fl & Hg & Hl & Hf). exists fl. rewrite drop_0, take_0 in Hg.
       rewrite Nat.sub_0_r in Hl. auto. }
  intros k Hk. remember (length (lengths mt) - k)%nat as n eqn:Hn. revert k Hk Hn.
  induction n as [|n IH]; intros k Hk Hn.
  - rewrite drop_ge by lia. exists []. split_and!; [done.. |]. intros o v Hv. exfalso.
    unfold field_at in Hv. rewrite (lookup_ge_None_2 (lengths mt) (k + o)) in Hv by lia. done.
  - destruct (lookup_lt_is_Some_2 (lengths mt) k ltac:(lia)) as [L HL].
    rewrite (drop_S _ _ _ HL). cbn [group_fields].
    destruct (IH (S k) ltac:(lia) ltac:(lia)) as (fl & Hg & Hlen & Hf).
    assert (Hsum : sum_list (take (S k) (lengths mt)) = (sum_list (take k (lengths mt)) + L)%nat).
    { rewrite (take_S_r _ _ _ HL), sum_list_app. cbn. lia. }
    rewrite Hsum in Hg. rewrite Hg.
    assert (Htip : (sum_list (take k (lengths mt)) < length t)%nat).
    { pose proof (length_pos mt Hc) as Hpos. rewrite Forall_lookup in Hpos. specialize (Hpos _ _ HL).
      rewrite Ht. by eapply sum_take_lt. }
    destruct (lookup_lt_is_Some_2 t _ Htip) as [fld Hfld]. rewrite Hfld.
    destruct (decide (L = 1)%nat) as [-> |H1]; cbn [of_option mbind result_bind].
    + exists (rstrip_field fld :: fl). split_and!; [done | cbn; lia |].
      intros [|o] v Hv; [| cbn; apply Hf; by rewrite Nat.add_succ_comm].
      rewrite Nat.add_0_r in Hv. unfold field_at in Hv. rewrite HL in Hv. cbn in Hv. rewrite Hfld in Hv.
      cbn in Hv. unfold rstrip_field. by destruct fld; injection Hv as <-.
    + exists (FArray (take L (drop (sum_list (take k (lengths mt))) t)) :: fl).
      split_and!; [done | cbn; lia |].
      intros [|o] v Hv; [| cbn; apply Hf; by rewrite Nat.add_succ_comm].
      pose proof (array_field_not_bytes mt l k L fld Hc HL H1 Hfld) as Hnb.
      rewrite Nat.add_0_r in Hv. unfold field_at in Hv. rewrite HL in Hv. cbn in Hv. rewrite Hfld in Hv.
      cbn in Hv. rewrite decide_False in Hv by done. by destruct fld; [injection Hv as <- .. |].
Qed.

Lemma pad_short csize b :
  (length b <= csize)%nat ->
  (if decide (length b < csize)%nat then b ++ zeros (csize - length b) else b) = pad_to csize b.
Proof.
  intros Hl. unfold pad_to, zeros. rewrite take_app_ge by lia. rewrite take_replicate.
  case_decide; [by rewrite Nat.min_l by lia |].
  replace (length b) with csize by lia. by rewrite Nat.sub_diag, app_nil_r.
Qed.

(** Without arrays the grouping loop is the plain map. *)
Lemma group_fields_flat t ls k :
  Forall (fun n => n = 1%nat) ls -> length t = (k + length ls)%nat ->
  group_fields t ls k = Ok (map rstrip_field (drop k t)).
Proof.
  intros H. revert k. induction H as [|n ls -> _ IH]; intros k Hl; cbn [group_fields].
  - by rewrite drop_ge by (cbn in Hl; lia).
  - cbn in Hl. rewrite decide_True by done.
    destruct (lookup_lt_is_Some_2 t k ltac:(lia)) as [x Hx]. rewrite Hx, (drop_S _ _ _ Hx).
    cbn [of_option mbind result_bind]. rewrite IH by lia. by rewrite Nat.add_1_r.
Qed.

Lemma unpack_mavlink_spec msg_id mt mbuf :
  mavlink_get msg_id = Some mt -> (length mbuf <= unpacker_size mt)%nat ->
  exists tl, unpack_fields mt mbuf = Ok tl /\ length tl = length (fieldnames mt) /\
    unpack_mavlink msg_id mbuf = Ok (msgname mt, zip (fieldnames mt) tl).
Proof.
  intros Hmt Hl. destruct (mavlink_get_ok _ _ Hmt) as (Hok & _ & _).
  apply msgtype_ok_consistent in Hok as Hc.
  destruct (unpack_fields_total mt mbuf Hc) as [tl Htl]. exists tl. split; [done |].
  unfold unpack_mavlink. rewrite Hmt. cbn [of_option mbind result_bind]. rewrite pad_short by done.
  unfold unpack_fields, unpack in *. rewrite decide_True in Htl |- * by apply length_pad_to.
  set (l := pad_to (unpacker_size mt) mbuf) in *. cbn [mbind result_bind] in *.
  destruct (group_fields_spec mt l Hc) as (flist & Hg & Hlen & Hf).
  set (t := unpack_aux Little (codes_of mt) l) in *.
  assert (Ht : length t = sum_list (lengths mt)).
  { unfold t. rewrite length_unpack_aux, (co_codes _ Hc), length_concat_expand.
    by rewrite (wire_lengths mt Hc). }
  rewrite (sorted_fields_alt mt Hc) in Htl by done.
  destruct (result_map (field_at mt t) (orders mt)) as [vs|] eqn:Evs; [| done].
  cbn in Htl. injection Htl as <-.
  assert (Hfl : (if decide (sum_list (lengths mt) = length (lengths mt)) then Ok (map rstrip_field t)
                 else group_fields t (lengths mt) 0) = Ok flist).
  { destruct (decide _) as [Hs|]; [| done]. rewrite <- Hg.
    rewrite group_fields_flat; [by rewrite drop_0 | apply sum_ones; [by apply length_pos | done] |].
    cbn. by rewrite Ht, Hs. }
  rewrite Hfl. cbn [mbind result_bind]. rewrite Hlen, <- (co_length_orders _ Hc).
  rewrite (result_map_lookup IndexError (fun o => of_option IndexError (flist !! o)) (orders mt)).
  assert (Hr : result_map (fun o => of_option IndexError (flist !! o)) (orders mt) = Ok (map terminate vs)).
  { apply result_map_ok. apply result_map_ok in Evs. apply Forall2_fmap_r.
    eapply Forall2_impl; [exact Evs |]. intros o v Hv. cbn. by rewrite (Hf o v Hv). }
  rewrite Hr. split; [| done]. rewrite length_map. apply result_map_ok, Forall2_length in Evs.
  pose proof (f_equal length (co_orders _ Hc)) as H. rewrite !length_map in H. congruence.
Qed.

(** For every message of the dispatch table and every payload no longer
    than the message, [unpack_mavlink] of the logger returns the message name
    with exactly the fields, names and order the decoder of the MAVLink object
    reads from that payload; it never raises there. *)
Theorem unpack_mavlink_decodes msg_id mt mbuf :
  mavlink_get msg_id = Some mt -> (length mbuf <= unpacker_size mt)%nat ->
  exists tl, unpack_fields mt mbuf = Ok tl /\ length tl = length (fieldnames mt) /\
    unpack_mavlink msg_id mbuf = Ok (msgname mt, zip (fieldnames mt) tl).
Proof. apply unpack_mavlink_spec. Qed.

Lemma unpack_mavlink_decodes_witness :
  exists mt tl, mavlink_get 0 = Some mt /\
    unpack_mavlink 0 [1; 0; 0; 0; 2; 12; 209] = Ok ("HEARTBEAT"%string, zip (fieldnames mt) tl).
Proof.
  destruct (mavlink_get 0) as [mt|] eqn:E; [| vm_compute in E; discriminate E].
  destruct (unpack_mavlink_decodes 0 mt [1; 0; 0; 0; 2; 12; 209] E) as (tl & _ & _ & H).
  - vm_compute in E. injection E as <-. vm_compute. lia.
  - exists mt, tl. split; [reflexivity |]. rewrite H.
    assert (Hn : msgname mt = "HEARTBEAT"%string)
      by (vm_compute in E; injection E as <-; reflexivity).
    rewrite Hn. reflexivity.
Defined.

End MavParser.
