(* ===== verification/MavProtocol.v ===== *)
(** The users of the stream splitter in wfb_ng/mavlink_protocol.py: the
    arm/disarm hook [MavlinkARMProtocol], the TCP bridge
    [MavlinkTCPProtocol]/[MavlinkTCPFactory] and [MavlinkLoggerProtocol]; and
    the agreement of the splitter with the frames the MAVLink object packs. *)
From Stdlib Require Import ZArith Lia Bool.
From stdpp Require Import base list numbers strings gmap.
From S2P Require Import Prelude.
From S2P Require Import PyStruct.
From S2P Require Import MavMessage.
From S2P Require Import MavMap.
From S2P Require Import MavLink.
From S2P Require Import MavFrame.
From S2P Require Import MavSpec.
From S2P Require Import MavStream.
From S2P Require Import MavParser.

(** ** Packed frames and the splitter *)

Module PackedFrames.
Import PyStruct MavMessage MavLink MavFrame MavSpec MavStream MavParser.

(** The layer-2 view of the frame of a packed message. *)
Definition l2_of (x : msgtype * mavlink * message) : fsm_item :=
  let '(mt, v0, m1) := x in
  L2 (seq_no (tx v0), srcSystem (tx v0), srcComponent (tx v0), mt_id mt)
     (default [] (m_payload m1)).

Lemma announced_frame_size magic mlen flags tl :
  is_marker magic -> 0 <= mlen ->
  frame_size (magic :: mlen :: flags :: tl) = Some (Z.to_nat (announced magic mlen flags)).
Proof.
  intros Hm Hl. unfold frame_size, announced, header_len_of.
  destruct Hm as [-> | ->].
  - change (PROTOCOL_MARKER_V1 =? 254) with true. change (PROTOCOL_MARKER_V1 =? PROTOCOL_MARKER_V2) with false.
    cbn [andb]. unfold HEADER_LEN_V1. f_equal. lia.
  - change (PROTOCOL_MARKER_V2 =? 254) with false. change (PROTOCOL_MARKER_V2 =? 253) with true.
    change (PROTOCOL_MARKER_V2 =? PROTOCOL_MARKER_V2) with true.
    unfold MAVLINK_IFLAG_SIGNED, HEADER_LEN_V2, MAVLINK_SIGNATURE_BLOCK_LEN. cbn [andb].
    destruct (negb _); f_equal; lia.
Qed.

Lemma packed_whole_frame f mt v0 m1 : bytes_ok f -> frame_of f mt v0 m1 -> whole_frame f.
Proof.
  intros Hb (args & force1 & key & m & v1 & p & Hmt & Hargs & Hp & -> & ->). unfold whole_frame.
  destruct (packed_announced _ _ _ _ _ _ _ _ Hp) as (magic & mlen & flags & tl & Hf & Hm & Hn & _).
  rewrite Hf in Hb, Hn |- *. rewrite !bytes_ok_cons in Hb.
  rewrite announced_frame_size by (done || lia). rewrite Hn. unfold blen. by rewrite Nat2Z.id.
Qed.

Lemma packed_l2_item f mt v0 m1 : frame_of f mt v0 m1 -> spec_item true f = l2_of (mt, v0, m1).
Proof.
  intros (args & force1 & key & m & v1 & p & Hmt & Hargs & Hp & -> & ->).
  unfold spec_item, l2_of, p_frame, p_hb. rewrite (pk_payload_attr _ _ _ _ _ _ _ _ Hp).
  pose proof (pk_id _ _ _ _ _ _ _ _ Hp) as Hid. rewrite (pk_header _ _ _ _ _ _ _ _ Hp) in *.
  unfold header_bytes, id_ok, frame_header in *. destruct force1; cbn [negb app l2_item] in *;
    cbn [h_mlen h_seq h_srcSystem h_srcComponent h_msgId] in *.
  - change (254 =? 254) with true. cbn iota. by rewrite take_blen_app.
  - change (253 =? 254) with false. cbn iota. rewrite take_blen_app. do 2 f_equal.
    rewrite land_ffff, shiftr_16. pose proof (Z.div_mod (mt_id mt) 65536). pose proof (Z.div_mod (mt_id mt mod 65536) 256).
    lia.
Qed.

Lemma splitter_packed fs ms st :
  frames_of fs ms -> fs <> [] -> bytes_ok (concat fs) -> gen_ok st -> pend st = [] ->
  exists st', MavParser.send true (concat fs) (Suspended st) = (Suspended st', Ok (map l2_of ms)) /\
    gen_ok st' /\ pend st' = [].
Proof.
  intros Hfs Hne Hb Hok Hp. destruct (send_spec true (concat fs) st Hok Hb) as (st' & fs' & Hs & Hsend & Hok').
  rewrite Hp in Hs. cbn [app] in Hs.
  assert (Hw : Forall whole_frame fs).
  { clear - Hfs Hb. induction Hfs as [|f [[mt v0] m1] fs ms Hf _ IH]; [constructor |]. cbn in Hb.
    apply bytes_ok_app in Hb as [Hb1 Hb2]. constructor; [by eapply packed_whole_frame | auto]. }
  rewrite split_whole_frames in Hs by done. injection Hs as <- Hr _.
  assert (Hm : map (spec_item true) fs = map l2_of ms).
  { clear - Hfs. induction Hfs as [|f [[mt v0] m1] fs ms Hf _ IH]; [done |]. cbn [map].
    by rewrite IH, (packed_l2_item f mt v0 m1 Hf). }
  rewrite <- Hm. by exists st'.
Qed.

(** The stream splitter and the packer agree on the wire format: the
    frames packed by any senders, MAVLink 1 or 2, signed or not, are returned
    one by one with the sequence number, system, component and message id they
    were packed with, and with the payload that was sent. *)
Theorem splitter_returns_packed fs ms st :
  frames_of fs ms -> fs <> [] -> bytes_ok (concat fs) -> gen_ok st -> pend st = [] ->
  exists st', MavParser.send true (concat fs) (Suspended st) = (Suspended st', Ok (map l2_of ms)) /\
    gen_ok st' /\ pend st' = [].
Proof. intros. by apply splitter_packed. Qed.

(** An unsigned frame is made of bytes. *)
Lemma packed_bytes_ok mt args force1 v0 key m v1 p :
  packs mt args force1 v0 key m v1 p -> sign_outgoing (sgn v0) = false -> bytes_ok (p_frame p force1).
Proof.
  intros Hp Hso. unfold p_frame. rewrite (pk_sig _ _ _ _ _ _ _ _ Hp), Hso. cbn [andb].
  destruct (pk_crc_range _ _ _ _ _ _ _ _ Hp).
  repeat (apply bytes_ok_app; split); try apply Hp; try apply Forall_nil_2.
  repeat constructor; try apply Z.mod_pos_bound; try lia;
    [apply Z.div_pos; lia | apply Z.div_lt_upper_bound; lia].
Qed.

(** A packed unsigned frame of the concrete message. *)
Lemma demo_frame_of : exists f m1, frame_of f demo_mt (init_mavlink 3 242) m1 /\ bytes_ok f.
Proof.
  destruct (message_pack_spec demo_mt demo_args false (init_mavlink 3 242) demo_key demo_known demo_fit)
    as (m & v1 & p & Hp); [discriminate | split_and!; cbn; lia | discriminate |].
  exists (p_frame p false), (p_msg p). split.
  - exists demo_args, false, demo_key, m, v1, p. auto using demo_known, demo_fit.
  - by eapply packed_bytes_ok.
Qed.

Lemma splitter_returns_packed_witness :
  exists f m1 st', MavParser.send true (concat [f]) (Suspended (FsmState [] 0 0)) =
    (Suspended st', Ok [l2_of (demo_mt, init_mavlink 3 242, m1)]).
Proof.
  destruct demo_frame_of as (f & m1 & Hf & Hb).
  destruct (splitter_returns_packed [f] [(demo_mt, init_mavlink 3 242, m1)] (FsmState [] 0 0))
    as (st' & H & _).
  - constructor; [exact Hf | constructor].
  - discriminate.
  - cbn [concat]. rewrite app_nil_r. exact Hb.
  - exact gen_ok_init.
  - reflexivity.
  - exists f, m1, st'. exact H.
Defined.

End PackedFrames.

(** ** MavlinkARMProtocol *)

Module Arm.
Import MavFrame MavParser.

Definition MAV_MODE_FLAG_SAFETY_ARMED : Z := 128.
Definition MAVLINK_MSG_ID_HEARTBEAT : Z := 0.

(** The object, with the processes [call_and_check_rc] has started and that
    have not ended yet, and the state changes written to the log. *)
Record arm_state := ArmState {
  call_on_arm : option string;
  call_on_disarm : option string;
  armed : option bool;
  locked : bool;
  mavlink_fsm : fsm;
  running : list string;
  change_log : list (bool * option string)
}.

Definition init_arm (on_arm on_disarm : option string) : arm_state :=
  ArmState on_arm on_disarm None false mavlink_parser_gen [] [].

Definition set_locked (b : bool) (s : arm_state) : arm_state :=
  ArmState (call_on_arm s) (call_on_disarm s) (armed s) b (mavlink_fsm s) (running s) (change_log s).
Definition set_fsm (g : fsm) (s : arm_state) : arm_state :=
  ArmState (call_on_arm s) (call_on_disarm s) (armed s) (locked s) g (running s) (change_log s).

(** [change_state(armed)]; [true] when it returns a Deferred that has not
    fired, the one of a process just started. *)
Definition change_state (a : bool) (s : arm_state) : arm_state * bool :=
  if bool_decide (armed s = Some a) then (s, false)
  else
    let cmd := if a then call_on_arm s else call_on_disarm s in
    let log' := change_log s ++ [(a, cmd)] in
    match cmd with
    | None => (ArmState (call_on_arm s) (call_on_disarm s) (Some a) (locked s) (mavlink_fsm s)
                 (running s) log', false)
    | Some c => (ArmState (call_on_arm s) (call_on_disarm s) (Some a) (locked s) (mavlink_fsm s)
                   (running s ++ [c]) log', true)
    end.

(** [messageReceived]: [maybeDeferred(self.change_state, armed).addBoth(_unlock)]
    unlocks at once unless a process was started. *)
Definition arm_messageReceived (it : fsm_item) : SE arm_state unit :=
  match it with
  | L2 (seq, sys_id, comp_id, msg_id) message =>
      if negb (bool_decide ((sys_id, comp_id, msg_id) = (1, 1, MAVLINK_MSG_ID_HEARTBEAT))) then mret tt
      else
        b ← se_lift (py_index message 6);
        let a := negb (Z.land b MAV_MODE_FLAG_SAFETY_ARMED =? 0) in
        s ← se_get;
        if locked s then mret tt
        else
          let '(s', waiting) := change_state a (set_locked true s) in
          se_put (if waiting then s' else set_locked false s')
  | Raw _ => se_raise ValueError
  end.

(** [dataReceived]. *)
Definition arm_dataReceived (data : bytes) : SE arm_state unit := fun s =>
  match send true data (mavlink_fsm s) with
  | (g, Raise e) => (set_fsm g s, Raise e)
  | (g, Ok items) => se_iter arm_messageReceived items (set_fsm g s)
  end.

(** A process ends, with whatever result: its Deferred fires and [_unlock]
    runs; [on_err] only logs. *)
Definition process_ended (s : arm_state) : arm_state :=
  ArmState (call_on_arm s) (call_on_disarm s) (armed s) false (mavlink_fsm s)
    (tail (running s)) (change_log s).

(** The events of the object's life. *)
Inductive arm_step : arm_state -> arm_state -> Prop :=
| step_data data s : bytes_ok data -> arm_step s (fst (arm_dataReceived data s))
| step_exit s : running s <> [] -> arm_step s (process_ended s).

Inductive arm_reach (on_arm on_disarm : option string) : arm_state -> Prop :=
| reach_init : arm_reach on_arm on_disarm (init_arm on_arm on_disarm)
| reach_step s s' : arm_reach on_arm on_disarm s -> arm_step s s' -> arm_reach on_arm on_disarm s'.

(** No two successive entries of the log announce the same state. *)
Fixpoint alternating (l : list bool) : Prop :=
  match l with
  | a :: ((b :: _) as l') => a <> b /\ alternating l'
  | _ => True
  end.

Definition arm_inv (on_arm on_disarm : option string) (s : arm_state) : Prop :=
  call_on_arm s = on_arm /\ call_on_disarm s = on_disarm /\ fsm_ok (mavlink_fsm s) /\
  (exists g, mavlink_fsm s = Suspended g) /\
  (locked s = true -> length (running s) = 1%nat) /\ (locked s = false -> running s = []) /\
  last (map fst (change_log s)) = armed s /\
  alternating (map fst (change_log s)) /\
  Forall (fun '(a, c) => c = if a : bool then on_arm else on_disarm) (change_log s).

Lemma alternating_snoc l a : alternating l -> last l <> Some a -> alternating (l ++ [a]).
Proof.
  induction l as [|x l IH]; [done |]. destruct l as [|y l]; cbn.
  - intros _ H. split; [congruence | done].
  - intros [Hxy Hl] Hla. split; [done |]. by apply IH.
Qed.

Lemma last_map_snoc {A B} (f : A -> B) l x : last (map f (l ++ [x])) = Some (f x).
Proof. rewrite map_app. cbn [map]. by rewrite last_snoc. Qed.

Lemma arm_message_inv on_arm on_disarm it s :
  arm_inv on_arm on_disarm s -> arm_inv on_arm on_disarm (fst (arm_messageReceived it s)).
Proof.
  intros Hinv. unfold arm_messageReceived. destruct it as [f|[[[seq sys] comp] id] message]; [done |].
  case_bool_decide; cbn [negb]; [| done]. se.
  destruct (py_index message 6) as [b|]; [| done].
  destruct (locked s) eqn:El; [done |].
  destruct Hinv as (Ha & Hd & Hf & Hg & Hl1 & Hl0 & Hlast & Halt & Hall).
  unfold change_state. cbn [set_locked armed call_on_arm call_on_disarm running change_log locked mavlink_fsm].
  set (a := negb _). case_bool_decide as Heq.
  - cbn. unfold arm_inv. cbn. rewrite (Hl0 El). split_and!; done.
  - rewrite (Hl0 El).
    assert (Hlog : forall c, c = (if a then on_arm else on_disarm) ->
      alternating (map fst (change_log s ++ [(a, c)])) /\
      Forall (fun '(a, c) => c = if a : bool then on_arm else on_disarm) (change_log s ++ [(a, c)])).
    { intros c Hc. split.
      - rewrite map_app. apply alternating_snoc; [done |]. by rewrite Hlast.
      - apply Forall_app. split; [done |]. by constructor. }
    destruct (if a then call_on_arm s else call_on_disarm s) as [c|] eqn:Ec;
      cbn [fst]; unfold arm_inv;
      cbn [set_locked armed call_on_arm call_on_disarm running change_log locked mavlink_fsm];
      rewrite last_map_snoc; split_and!; try done; try apply Hlog; by rewrite <- Ec; destruct a.
Qed.

Lemma arm_messages_inv on_arm on_disarm items s :
  arm_inv on_arm on_disarm s -> arm_inv on_arm on_disarm (fst (se_iter arm_messageReceived items s)).
Proof.
  revert s. induction items as [|it items IH]; intros s Hinv; [done |]. cbn [se_iter].
  unfold mbind, SE_bind. pose proof (arm_message_inv on_arm on_disarm it s Hinv) as H.
  destruct (arm_messageReceived it s) as [s' [[]|e]]; cbn in H |- *; [by apply IH | done].
Qed.

Lemma arm_data_inv on_arm on_disarm data s :
  bytes_ok data -> arm_inv on_arm on_disarm s -> arm_inv on_arm on_disarm (fst (arm_dataReceived data s)).
Proof.
  intros Hb (Ha & Hd & Hf & [g Hg] & Hrest). unfold arm_dataReceived. rewrite Hg in *.
  destruct (send_spec true data g Hf Hb) as (g' & fs & _ & -> & Hok).
  apply arm_messages_inv. unfold arm_inv. cbn. split_and!; try done; try apply Hrest. eauto.
Qed.

(** C32: whatever is received and whenever the hook commands end, the arm hook
    never runs two commands at a time (its lock is held exactly while one
    runs), its parser stays alive, the state changes it announces strictly
    alternate, end in the state it believes in, and each runs the command
    configured for it. *)
Theorem arm_invariant on_arm on_disarm s :
  arm_reach on_arm on_disarm s -> arm_inv on_arm on_disarm s.
Proof.
  induction 1 as [|s s' _ IH Hstep].
  - unfold arm_inv, init_arm. cbn. split_and!; try done; [apply gen_ok_init | eauto].
  - destruct Hstep as [data s Hb|s Hr]; [by apply arm_data_inv |].
    destruct IH as (Ha & Hd & Hf & Hg & Hl1 & Hl0 & Hrest).
    unfold arm_inv, process_ended. cbn. split_and!; try apply Hrest; try done.
    intros _. destruct (locked s) eqn:El; [| by rewrite Hl0].
    specialize (Hl1 eq_refl). by destruct (running s) as [|c [|]].
Qed.

(** The heartbeat of the autopilot, and the arm bit of its [base_mode]. *)
Definition is_heartbeat (it : fsm_item) (message : bytes) : Prop :=
  exists seq, it = L2 (seq, 1, 1, MAVLINK_MSG_ID_HEARTBEAT) message.

(** An unlocked hook takes over the arm bit of a heartbeat of the
    autopilot: afterwards its state is that bit, a command was started exactly
    when the state changed and one is configured for it, and only then the hook
    is locked. *)
Theorem arm_follows_heartbeat it message b s :
  is_heartbeat it message -> message !! 6%nat = Some b -> locked s = false ->
  let a := Z.testbit b 7 in
  let cmd := if a then call_on_arm s else call_on_disarm s in
  let changed := bool_decide (armed s <> Some a) in
  exists s', arm_messageReceived it s = (s', Ok tt) /\ armed s' = Some a /\
    running s' = running s ++ (if changed then option_list cmd else []) /\
    locked s' = (changed && bool_decide (is_Some cmd)) /\
    change_log s' = change_log s ++ (if changed then [(a, cmd)] else []).
Proof.
  intros [seq ->] Hb Hl a cmd changed.
  assert (Hbit : forall z, negb (Z.land z MAV_MODE_FLAG_SAFETY_ARMED =? 0) = Z.testbit z 7).
  { intros z. change MAV_MODE_FLAG_SAFETY_ARMED with (2 ^ 7). destruct (Z.testbit z 7) eqn:Ez.
    - apply negb_true_iff, Z.eqb_neq. intros E. apply (f_equal (fun y => Z.testbit y 7)) in E.
      rewrite Z.land_spec, Ez in E. done.
    - apply negb_false_iff, Z.eqb_eq, Z.bits_inj'. intros n Hn.
      rewrite Z.land_spec, Z.bits_0, Z.pow2_bits_eqb by lia.
      destruct (Z.eqb_spec 7 n) as [<- |]; [by rewrite Ez | apply andb_false_r]. }
  unfold arm_messageReceived. rewrite bool_decide_eq_true_2 by done. cbn [negb]. se.
  assert (Hi : py_index message 6 = of_option IndexError (message !! 6%nat)) by done.
  rewrite Hi, Hb, Hl. cbn [of_option]. rewrite Hbit. fold a. unfold change_state. cbn [set_locked armed call_on_arm call_on_disarm
    running change_log locked mavlink_fsm]. fold cmd. unfold changed.
  destruct (decide (armed s = Some a)) as [E|E].
  - rewrite bool_decide_eq_true_2, (bool_decide_eq_false_2 (_ <> _)) by (done || tauto).
    eexists. split; [done |]. cbn. rewrite !app_nil_r. done.
  - rewrite bool_decide_eq_false_2, (bool_decide_eq_true_2 (_ <> _)) by done.
    destruct cmd as [c|]; eexists; (split; [done |]); cbn; rewrite ?app_nil_r; done.
Qed.

(** The only thing that makes the hook raise is a heartbeat of the
    autopilot whose payload has fewer than seven bytes (MAVLink 2 cuts trailing
    zeros): the [base_mode] byte is indexed without looking at the length, and
    the [IndexError] leaves the hook as it was. *)
Theorem arm_short_heartbeat_raises hdr message s :
  snd (arm_messageReceived (L2 hdr message) s) <> Ok tt <->
  (exists seq, hdr = (seq, 1, 1, MAVLINK_MSG_ID_HEARTBEAT)) /\ blen message < 7.
Proof.
  destruct hdr as [[[seq sys] comp] id]. unfold arm_messageReceived. se.
  assert (Hi : py_index message 6 = of_option IndexError (message !! 6%nat)) by done. rewrite Hi.
  case_bool_decide as Hh; cbn [negb].
  - injection Hh as -> -> ->. destruct (message !! 6%nat) as [b|] eqn:Eb; cbn [of_option].
    + apply lookup_lt_Some in Eb. split; [| intros [_ H]; unfold blen in H; lia].
      intros H. exfalso. apply H. destruct (locked s); [done |]. by destruct (change_state _ _) as [s' []].
    + apply lookup_ge_None in Eb. split; [| done]. intros _. split; [eauto | unfold blen; lia].
  - split; [done |]. intros [[seq' E] _]. by simplify_eq.
Qed.

(** A run: an arming heartbeat starts the command, a disarming one that
    arrives meanwhile is ignored, the command ends. *)
Definition heartbeat (mode : Z) : bytes := [0xfe; 9; 0; 1; 1; 0; 0; 0; 0; 0; 2; 12; mode; 4; 3; 0; 0].

Definition arm_run : arm_state :=
  process_ended (fst (arm_dataReceived (heartbeat 81) (fst (arm_dataReceived (heartbeat 209)
    (init_arm (Some "arm.sh"%string) None))))).

Lemma arm_run_reach : arm_reach (Some "arm.sh"%string) None arm_run.
Proof.
  unfold arm_run.
  assert (Hb : forall m, 0 <= m < 256 -> bytes_ok (heartbeat m)) by (intros; repeat constructor; lia).
  eapply reach_step; [| apply step_exit; vm_compute; discriminate].
  eapply reach_step; [| apply step_data, Hb; lia].
  eapply reach_step; [| apply step_data, Hb; lia]. apply reach_init.
Qed.

Lemma arm_invariant_witness : arm_inv (Some "arm.sh"%string) None arm_run /\ armed arm_run = Some true.
Proof. split; [apply (arm_invariant _ _ _ arm_run_reach) | vm_compute; reflexivity]. Defined.

Lemma arm_follows_heartbeat_witness :
  exists s', arm_messageReceived (L2 (0, 1, 1, 0) [0; 0; 0; 0; 2; 12; 209; 4; 3])
    (init_arm (Some "arm.sh"%string) None) = (s', Ok tt) /\ armed s' = Some true.
Proof.
  destruct (arm_follows_heartbeat (L2 (0, 1, 1, 0) [0; 0; 0; 0; 2; 12; 209; 4; 3])
    [0; 0; 0; 0; 2; 12; 209; 4; 3] 209 (init_arm (Some "arm.sh"%string) None)) as (s' & H1 & H2 & _).
  - exists 0. reflexivity.
  - reflexivity.
  - reflexivity.
  - exists s'. split; [exact H1 | exact H2].
Defined.

End Arm.

(** ** MavlinkTCPProtocol and MavlinkTCPFactory *)

Module Tcp.
Import MavParser.

(** One connection: [mavlink_fsm] is [None] once it is closed; [written] is
    what went to [self.transport]. *)
Record session := Session { mavlink_fsm : option fsm; paused : bool; written : list bytes }.

(** The factory, the protocol objects by identity, and what went to
    [self.peer]. *)
Record factory := Factory {
  sessions : list nat;
  protos : gmap nat session;
  peer_out : list bytes
}.

Definition init_factory : factory := Factory [] ∅ [].

Definition set_proto (i : nat) (s : session) (f : factory) : factory :=
  Factory (sessions f) (<[i := s]> (protos f)) (peer_out f).

Definition get_proto (i : nat) : SE factory session := fun f =>
  (f, of_option AttributeError (protos f !! i)).

(** [self.sessions.append(self)] of a fresh protocol object. *)
Definition connectionMade (i : nat) (f : factory) : factory :=
  Factory (sessions f ++ [i]) (<[i := Session (Some mavlink_parser_gen) false []]> (protos f)) (peer_out f).

(** [MavlinkTCPFactory.messageReceived]: [self.peer.write(m)]. *)
Definition tcp_messageReceived (it : fsm_item) : SE factory unit :=
  match it with
  | Raw m => se_modify (fun f => Factory (sessions f) (protos f) (peer_out f ++ [m]))
  | L2 _ _ => se_raise TypeError
  end.

Definition tcp_dataReceived (i : nat) (data : bytes) : SE factory unit :=
  s ← get_proto i;
  match mavlink_fsm s with
  | None => se_raise AttributeError
  | Some g =>
      match send false data g with
      | (g', Raise e) => _ ← se_modify (set_proto i (Session (Some g') (paused s) (written s))); se_raise e
      | (g', Ok items) =>
          _ ← se_modify (set_proto i (Session (Some g') (paused s) (written s)));
          se_iter tcp_messageReceived items
      end
  end.

Definition connectionLost (i : nat) : SE factory unit :=
  s ← get_proto i;
  f ← se_get;
  match list_remove i (sessions f) with
  | None => se_raise ValueError
  | Some l =>
      match mavlink_fsm s with
      | None => _ ← se_put (Factory l (protos f) (peer_out f)); se_raise AttributeError
      | Some _ => se_put (Factory l (<[i := Session None (paused s) (written s)]> (protos f)) (peer_out f))
      end
  end.

Definition set_paused (b : bool) (i : nat) : SE factory unit :=
  s ← get_proto i; se_modify (set_proto i (Session (mavlink_fsm s) b (written s))).

Definition pauseProducing : nat -> SE factory unit := set_paused true.
Definition resumeProducing : nat -> SE factory unit := set_paused false.
Definition stopProducing : nat -> SE factory unit := set_paused true.

Section Write.
(** What [transport.write(data)] of a connection raises, if anything. *)
Context (twrite : nat -> bytes -> option exn).

(** [MavlinkTCPProtocol.send]; the transport of a connected protocol is set. *)
Definition send_to (i : nat) (data : bytes) : SE factory unit :=
  s ← get_proto i;
  if paused s then mret tt
  else match twrite i data with
       | Some e => se_raise e
       | None => se_modify (set_proto i (Session (mavlink_fsm s) (paused s) (written s ++ [data])))
       end.

(** [try: s.send(data) except Exception as v: log.err(v)]. *)
Definition send_logged (data : bytes) (i : nat) : SE factory unit := fun f =>
  (fst (send_to i data f), Ok tt).

(** [MavlinkTCPFactory.write]. *)
Definition write (data : bytes) : SE factory unit := fun f =>
  se_iter (send_logged data) (sessions f) f.

End Write.

(** The events of the bridge; object identities are not reused. *)
Inductive tcp_step : factory -> factory -> Prop :=
| tcp_made i f : protos f !! i = None -> tcp_step f (connectionMade i f)
| tcp_data i data f : bytes_ok data -> i ∈ sessions f -> tcp_step f (fst (tcp_dataReceived i data f))
| tcp_pause b i f : i ∈ sessions f -> tcp_step f (fst (set_paused b i f))
| tcp_lost i f : i ∈ sessions f -> tcp_step f (fst (connectionLost i f))
| tcp_write twrite data f : tcp_step f (fst (write twrite data f)).

Inductive tcp_reach : factory -> Prop :=
| tcp_init : tcp_reach init_factory
| tcp_next f f' : tcp_reach f -> tcp_step f f' -> tcp_reach f'.

(** The listed sessions are exactly the open ones, once each. *)
Definition tcp_inv (f : factory) : Prop :=
  NoDup (sessions f) /\
  (forall i, i ∈ sessions f <-> exists s g, protos f !! i = Some s /\ mavlink_fsm s = Some g) /\
  (forall i s g, protos f !! i = Some s -> mavlink_fsm s = Some g -> exists st, g = Suspended st /\ gen_ok st).

(** What a broadcast does to one protocol object. *)
Definition delivered (twrite : nat -> bytes -> option exn) (data : bytes) (i : nat) (s : session) : session :=
  if paused s then s
  else match twrite i data with
       | Some _ => s
       | None => Session (mavlink_fsm s) (paused s) (written s ++ [data])
       end.

Lemma send_logged_spec tw data i f s :
  protos f !! i = Some s ->
  send_logged tw data i f = (set_proto i (delivered tw data i s) f, Ok tt).
Proof.
  intros Hs. unfold send_logged, send_to, get_proto, delivered, mbind, SE_bind. rewrite Hs. cbn.
  assert (Hid : set_proto i s f = f).
  { unfold set_proto. rewrite insert_id by done. by destruct f. }
  destruct (paused s) eqn:Ep; cbn; [by rewrite Hid |].
  destruct (tw i data); cbn; [by rewrite Hid |]. done.
Qed.

Lemma write_iter_spec tw data l f :
  NoDup l -> (forall i, i ∈ l -> is_Some (protos f !! i)) ->
  exists f', se_iter (send_logged tw data) l f = (f', Ok tt) /\ sessions f' = sessions f /\
    peer_out f' = peer_out f /\
    forall i, protos f' !! i = (if decide (i ∈ l) then delivered tw data i <$> protos f !! i else protos f !! i).
Proof.
  intros Hnd. revert f. induction Hnd as [|i l Hi _ IH]; intros f Hall.
  - exists f. split_and!; done.
  - destruct (Hall i ltac:(set_solver)) as [s Hs]. cbn [se_iter]. unfold mbind, SE_bind.
    rewrite (send_logged_spec tw data i f s Hs).
    destruct (IH (set_proto i (delivered tw data i s) f)) as (f' & Hf & Hss & Hpo & Hpr).
    { intros j Hj. cbn. rewrite lookup_insert_ne by set_solver. apply Hall. set_solver. }
    exists f'. split_and!; try done. intros j. rewrite Hpr. cbn [protos set_proto].
    destruct (decide (j = i)) as [-> |Hj].
    + rewrite decide_False by done. rewrite decide_True by set_solver. by rewrite lookup_insert_eq, Hs.
    + rewrite lookup_insert_ne by done.
      destruct (decide (j ∈ l)); [rewrite decide_True by set_solver | rewrite decide_False by set_solver]; done.
Qed.

(** A packet written to the TCP bridge reaches every open session that is
    not paused, exactly once, even when writing to other sessions fails; paused
    and closed sessions, the session list and the peer are untouched, and the
    broadcast itself never raises. *)
Theorem tcp_broadcast tw data f :
  tcp_inv f ->
  exists f', write tw data f = (f', Ok tt) /\ sessions f' = sessions f /\ peer_out f' = peer_out f /\
    forall i, protos f' !! i =
      if decide (i ∈ sessions f) then delivered tw data i <$> protos f !! i else protos f !! i.
Proof.
  intros (Hnd & Hopen & _). apply write_iter_spec; [done |].
  intros i Hi. apply Hopen in Hi as (s & g & Hs & _). eauto.
Qed.

Lemma forward_items ms f :
  se_iter tcp_messageReceived (map Raw ms) f = (Factory (sessions f) (protos f) (peer_out f ++ ms), Ok tt).
Proof.
  revert f. induction ms as [|m ms IH]; intros f; cbn [map se_iter].
  - rewrite app_nil_r. by destruct f.
  - unfold mbind, SE_bind, tcp_messageReceived, se_modify in *. rewrite IH. cbn. by rewrite <- app_assoc.
Qed.

(** What [dataReceived] does to an open session, exactly. *)
Lemma tcp_data_spec i data f :
  tcp_inv f -> i ∈ sessions f -> bytes_ok data ->
  exists s st st' fs, protos f !! i = Some s /\ mavlink_fsm s = Some (Suspended st) /\ gen_ok st' /\
    split_frames (pend st ++ data) (bad st) = (fs, pend st', bad st') /\
    tcp_dataReceived i data f =
      (Factory (sessions f) (<[i := Session (Some (Suspended st')) (paused s) (written s)]> (protos f))
         (peer_out f ++ fs), Ok tt).
Proof.
  intros (_ & Hopen & Hok) Hi Hb. apply Hopen in Hi as (s & g & Hs & Hg).
  destruct (Hok i s g Hs Hg) as (st & -> & Hst).
  destruct (send_spec false data st Hst Hb) as (st' & fs & Hsp & Hsend & Hst').
  exists s, st, st', fs. split_and!; try done.
  unfold tcp_dataReceived, get_proto, mbind, SE_bind. rewrite Hs. cbn [of_option]. rewrite Hg, Hsend.
  unfold se_modify. unfold spec_item. rewrite forward_items. done.
Qed.

Lemma tcp_inv_set f i s s' g' st' po :
  tcp_inv f -> protos f !! i = Some s -> is_Some (mavlink_fsm s) -> mavlink_fsm s' = Some g' ->
  g' = Suspended st' -> gen_ok st' ->
  tcp_inv (Factory (sessions f) (<[i := s']> (protos f)) po).
Proof.
  intros (Hnd & Hopen & Hok) Hs [g Hg] Hs' -> Hst'. split; [done |]. split; cbn.
  - intros j. rewrite Hopen. destruct (decide (j = i)) as [-> |Hj].
    + rewrite lookup_insert_eq. split; intros _; eauto.
    + by rewrite lookup_insert_ne.
  - intros j sj gj Hj Hgj. destruct (decide (j = i)) as [-> |Hne].
    + rewrite lookup_insert_eq in Hj. injection Hj as <-. rewrite Hs' in Hgj. injection Hgj as <-. eauto.
    + rewrite lookup_insert_ne in Hj by done. eauto.
Qed.

Lemma tcp_inv_step f f' : tcp_inv f -> tcp_step f f' -> tcp_inv f'.
Proof.
  intros Hinv Hstep. pose proof Hinv as (Hnd & Hopen & Hok).
  destruct Hstep as [i f Hi|i data f Hb Hi|b i f Hi|i f Hi|tw data f].
  - assert (Hni : i ∉ sessions f) by (rewrite Hopen; intros (s & g & Hs & _); congruence).
    split_and!; cbn.
    + apply NoDup_app. split_and!; [done | set_solver | apply NoDup_singleton].
    + intros j. destruct (decide (j = i)) as [-> |Hj].
      * rewrite lookup_insert_eq. split; [eauto | set_solver].
      * rewrite lookup_insert_ne by done. rewrite <- Hopen. set_solver.
    + intros j s g Hs Hg. destruct (decide (j = i)) as [-> |Hj].
      * rewrite lookup_insert_eq in Hs. simplify_eq/=. exists (FsmState [] 0 0). split; [done | apply gen_ok_init].
      * rewrite lookup_insert_ne in Hs by done. eauto.
  - destruct (tcp_data_spec i data f Hinv Hi Hb) as (s & st & st' & fs & Hs & Hg & Hst' & _ & ->).
    cbn [fst]. eapply tcp_inv_set; eauto.
  - apply Hopen in Hi as (s & g & Hs & Hg). destruct (Hok i s g Hs Hg) as (st & -> & Hst).
    unfold set_paused, get_proto, mbind, SE_bind. rewrite Hs. cbn [of_option].
    eapply tcp_inv_set; eauto.
  - destruct (list_remove_spec i (sessions f) Hnd Hi) as (l' & Hr & Hnd' & Hl').
    apply Hopen in Hi as (s & g & Hs & Hg).
    unfold connectionLost, get_proto, mbind, SE_bind, se_get. rewrite Hs. cbn [of_option]. rewrite Hr, Hg.
    cbn. split_and!; cbn; [done | |].
    + intros j. rewrite Hl', Hopen. destruct (decide (j = i)) as [-> |Hj].
      * rewrite lookup_insert_eq. split; [tauto | intros (s' & g' & ? & ?); by simplify_eq/=].
      * rewrite lookup_insert_ne by done. tauto.
    + intros j s' g' Hs' Hg'. destruct (decide (j = i)) as [-> |Hj].
      * rewrite lookup_insert_eq in Hs'. by simplify_eq/=.
      * rewrite lookup_insert_ne in Hs' by done. eauto.
  - destruct (write_iter_spec tw data (sessions f) f Hnd) as (f' & Hw & Hss & Hpo & Hpr).
    { intros i Hi. apply Hopen in Hi as (s & g & Hs & _). eauto. }
    unfold write. rewrite Hw. cbn [fst].
    assert (Hfsm : forall i s, mavlink_fsm (delivered tw data i s) = mavlink_fsm s)
      by (intros i s; unfold delivered; destruct (paused s), (tw i data); done).
    split_and!; rewrite ?Hss; [done | |].
    + intros i. rewrite Hopen, Hpr. destruct (decide (i ∈ sessions f)); [| done].
      destruct (protos f !! i) as [s0|]; cbn; [| naive_solver].
      split; intros (s & g & [= <-] & Hg); [exists (delivered tw data i s0), g | exists s0, g];
        rewrite ?Hfsm in *; done.
    + intros i s g Hs Hg. rewrite Hpr in Hs. destruct (decide (i ∈ sessions f)); [| eauto].
      destruct (protos f !! i) as [s0|] eqn:E0; cbn in Hs; simplify_eq.
      rewrite Hfsm in Hg. eauto.
Qed.

Lemma tcp_reach_inv f : tcp_reach f -> tcp_inv f.
Proof.
  induction 1 as [|f f' _ IH Hstep]; [| by eapply tcp_inv_step].
  split_and!; cbn; [constructor | | done]. intros i. split; [set_solver | naive_solver].
Qed.

(** In every reachable state of the TCP bridge the session list holds the
    open connections, once each, so that losing an open connection never
    raises, removes just that session, and no later broadcast reaches it. *)
Theorem tcp_sessions_open f i :
  tcp_reach f -> i ∈ sessions f ->
  NoDup (sessions f) /\
  exists f', connectionLost i f = (f', Ok tt) /\ tcp_inv f' /\
    (forall j, j ∈ sessions f' <-> j ∈ sessions f /\ j <> i) /\
    forall tw data, protos (fst (write tw data f')) !! i = protos f' !! i.
Proof.
  intros Hr Hi. pose proof (tcp_reach_inv f Hr) as Hinv. pose proof Hinv as (Hnd & Hopen & Hok).
  split; [done |]. pose proof (tcp_inv_step f _ Hinv (tcp_lost i f Hi)) as Hinv'.
  destruct (list_remove_spec i (sessions f) Hnd Hi) as (l' & Hrm & Hnd' & Hl').
  apply Hopen in Hi as (s & g & Hs & Hg).
  assert (Hcl : connectionLost i f =
    (Factory l' (<[i := Session None (paused s) (written s)]> (protos f)) (peer_out f), Ok tt)).
  { unfold connectionLost, get_proto, mbind, SE_bind, se_get. rewrite Hs. cbn [of_option].
    by rewrite Hrm, Hg. }
  rewrite Hcl in *. cbn [fst] in Hinv'. set (f1 := Factory l' _ _) in *.
  exists f1. split; [done |]. split; [done |]. split; [done |].
  intros tw data. destruct Hinv' as (Hnd2 & Hopen2 & _).
  destruct (write_iter_spec tw data l' f1 Hnd2) as (f' & Hw & _ & _ & Hpr).
  { intros j Hj. apply Hopen2 in Hj as (sj & gj & Hsj & _). eauto. }
  unfold write. change (sessions f1) with l'. rewrite Hw. cbn [fst]. rewrite Hpr, decide_False; [done |].
  rewrite Hl'. tauto.
Qed.

(** Data received on an open TCP session is forwarded to the peer as
    whole MAVLink frames, exactly those completed by it, in order; nothing else
    of the bridge changes but the session's parser. *)
Theorem tcp_forwards_frames i data f :
  tcp_reach f -> i ∈ sessions f -> bytes_ok data ->
  exists s st st' fs f', protos f !! i = Some s /\ mavlink_fsm s = Some (Suspended st) /\
    split_frames (pend st ++ data) (bad st) = (fs, pend st', bad st') /\
    tcp_dataReceived i data f = (f', Ok tt) /\ peer_out f' = peer_out f ++ fs /\ sessions f' = sessions f /\
    protos f' = <[i := Session (Some (Suspended st')) (paused s) (written s)]> (protos f).
Proof.
  intros Hr Hi Hb. destruct (tcp_data_spec i data f (tcp_reach_inv f Hr) Hi Hb)
    as (s & st & st' & fs & Hs & Hg & _ & Hsp & Hd).
  exists s, st, st', fs. eexists. split_and!; [exact Hs | exact Hg | exact Hsp | exact Hd | done..].
Qed.

(** Two clients, the second paused. *)
Definition demo_factory : factory := fst (set_paused true 1%nat (connectionMade 1 (connectionMade 0 init_factory))).

Lemma demo_factory_reach : tcp_reach demo_factory.
Proof.
  eapply tcp_next; [| apply tcp_pause; vm_compute; right; left].
  eapply tcp_next; [| apply tcp_made; reflexivity].
  eapply tcp_next; [apply tcp_init | apply tcp_made; reflexivity].
Qed.

Lemma tcp_broadcast_witness :
  exists f', write (fun _ _ => None) [1; 2; 3] demo_factory = (f', Ok tt) /\
    (written <$> protos f' !! 0%nat) = Some [[1; 2; 3]] /\ (written <$> protos f' !! 1%nat) = Some [].
Proof.
  destruct (tcp_broadcast (fun _ _ => None) [1; 2; 3] demo_factory (tcp_reach_inv _ demo_factory_reach))
    as (f' & Hw & _ & _ & Hp).
  exists f'. split; [exact Hw |]. rewrite !Hp. split; vm_compute; reflexivity.
Defined.

Lemma tcp_sessions_open_witness :
  NoDup (sessions demo_factory) /\
  exists f', connectionLost 0%nat demo_factory = (f', Ok tt) /\ tcp_inv f'.
Proof.
  destruct (tcp_sessions_open demo_factory 0%nat demo_factory_reach) as (H1 & f' & H2 & H3 & _).
  - vm_compute. left.
  - split; [exact H1 |]. exists f'. split; [exact H2 | exact H3].
Defined.

Lemma tcp_forwards_frames_witness :
  exists f', tcp_dataReceived 0%nat demo_v1 demo_factory = (f', Ok tt) /\ sessions f' = sessions demo_factory.
Proof.
  destruct (tcp_forwards_frames 0%nat demo_v1 demo_factory demo_factory_reach)
    as (s & st & st' & fs & f' & _ & _ & _ & H & _ & Hs & _).
  - vm_compute. left.
  - apply bytes_ok_forallb. vm_compute. reflexivity.
  - exists f'. split; [exact H | exact Hs].
Defined.

End Tcp.

(** ** MavlinkLoggerProtocol *)

Module Logger.
Import MavParser.

(** A record handed to [logger.send_stats]; the timestamp is what
    [time.time()] returned for it. *)
Record mavlink_record := MavlinkRecord { timestamp : Z; hdr : l2_headers; msg : bytes }.

Record logger_state := LoggerState { mavlink_fsm : fsm; sent : list mavlink_record }.

Definition init_logger : logger_state := LoggerState mavlink_parser_gen [].

Section Clock.
(** [time.time()] at the k-th record. *)
Context (now : nat -> Z).

Definition log_messageReceived (it : fsm_item) : SE logger_state unit :=
  match it with
  | L2 h m => se_modify (fun s =>
      LoggerState (mavlink_fsm s) (sent s ++ [MavlinkRecord (now (length (sent s))) h m]))
  | Raw _ => se_raise ValueError
  end.

Definition log_dataReceived (data : bytes) : SE logger_state unit := fun s =>
  match send true data (mavlink_fsm s) with
  | (g, Raise e) => (LoggerState g (sent s), Raise e)
  | (g, Ok items) => se_iter log_messageReceived items (LoggerState g (sent s))
  end.

End Clock.

Import MavMessage MavLink MavSpec MavStream PackedFrames.

Lemma log_items now xs s :
  exists rs, se_iter (log_messageReceived now) (map l2_of xs) s =
    (LoggerState (mavlink_fsm s) (sent s ++ rs), Ok tt) /\
    Forall2 (fun x r => l2_of x = L2 (hdr r) (msg r)) xs rs.
Proof.
  revert s. induction xs as [|x xs IH]; intros s; cbn [map se_iter].
  - exists []. rewrite app_nil_r. by destruct s.
  - destruct x as [[mt v0] m1]. set (r := MavlinkRecord (now (length (sent s)))
      (seq_no (tx v0), srcSystem (tx v0), srcComponent (tx v0), mt_id mt) (default [] (m_payload m1))).
    assert (Hm : log_messageReceived now (l2_of (mt, v0, m1)) s = (LoggerState (mavlink_fsm s) (sent s ++ [r]), Ok tt))
      by done.
    unfold mbind, SE_bind. rewrite Hm.
    destruct (IH (LoggerState (mavlink_fsm s) (sent s ++ [r]))) as (rs & -> & Hrs).
    exists (r :: rs). cbn [mavlink_fsm sent]. rewrite <- app_assoc. split; [reflexivity |].
    by constructor.
Qed.

(** The record of a packed message: its header, and a payload from which
    [unpack_mavlink] recovers the name and the field values sent. *)
Definition record_of (x : msgtype * mavlink * message) (r : mavlink_record) : Prop :=
  let '(mt, v0, m1) := x in
  hdr r = (seq_no (tx v0), srcSystem (tx v0), srcComponent (tx v0), mt_id mt) /\
  exists args, args_fit mt args /\ (exists m, new_message mt args = Ok m /\ m_attrs m1 = m_attrs m) /\
    unpack_mavlink (mt_id mt) (msg r) = Ok (msgname mt, zip (fieldnames mt) (map terminate args)).

(** The MAVLink log is faithful end to end: frames packed by any senders,
    fed to the logger in one piece, are recorded one by one and in order with
    the header they were sent with, and the offline decoder recovers from each
    record the message name and exactly the field values the sender passed to
    the constructor (character arrays without their NUL padding). *)
Theorem logger_end_to_end now fs ms st rs0 :
  frames_of fs ms -> fs <> [] -> bytes_ok (concat fs) -> gen_ok st -> pend st = [] ->
  exists s' rs, log_dataReceived now (concat fs) (LoggerState (Suspended st) rs0) = (s', Ok tt) /\
    sent s' = rs0 ++ rs /\ Forall2 record_of ms rs.
Proof.
  intros Hfs Hne Hb Hok Hp. unfold log_dataReceived. cbn [mavlink_fsm sent].
  destruct (splitter_packed fs ms st Hfs Hne Hb Hok Hp) as (st' & -> & _).
  destruct (log_items now ms (LoggerState (Suspended st') rs0)) as (rs & -> & Hrs).
  eexists _, rs. split; [reflexivity |]. split; [reflexivity |].
  clear - Hfs Hrs. revert rs Hrs. induction Hfs as [|f [[mt v0] m1] fs ms Hf _ IH]; intros rs Hrs;
    inversion Hrs as [|? r ? rs' Hr Hrs']; subst; constructor; [| by apply IH].
  destruct Hf as (args & force1 & key & m & v1 & p & Hmt & Hargs & Hp & -> & ->).
  cbn [l2_of] in Hr. injection Hr as Hh Hm. split; [done |]. exists args. split; [done |].
  split; [exists m; split; [apply Hp | apply Hp] |].
  rewrite <- Hm, (pk_payload_attr _ _ _ _ _ _ _ _ Hp). cbn [default].
  destruct (unpack_mavlink_spec (mt_id mt) mt (p_payload p) Hmt (pk_payload_len _ _ _ _ _ _ _ _ Hp))
    as (tl & Htl & _ & Hu).
  rewrite (pk_unpack _ _ _ _ _ _ _ _ Hp) in Htl. by injection Htl as <-.
Qed.

Lemma logger_end_to_end_witness :
  exists f s' rs, log_dataReceived (fun _ => 0) (concat [f]) init_logger = (s', Ok tt) /\ length rs = 1%nat /\
    sent s' = rs.
Proof.
  destruct demo_frame_of as (f & m1 & Hf & Hb).
  destruct (logger_end_to_end (fun _ => 0) [f] [(demo_mt, init_mavlink 3 242, m1)] (FsmState [] 0 0) [])
    as (s' & rs & H & Hs & Hr).
  - constructor; [exact Hf | constructor].
  - discriminate.
  - cbn [concat]. rewrite app_nil_r. exact Hb.
  - exact gen_ok_init.
  - reflexivity.
  - exists f, s', rs. split; [exact H |]. split; [symmetry; exact (Forall2_length _ _ _ Hr) | exact Hs].
Defined.

End Logger.
