(* ===== verification/Proxy.v ===== *)
(** The proxies of wfb_ng/proxy.py.  [ProxyProtocol] and its aggregation queue
    are proved against an interface of the reactor's delayed calls (class
    [Timers]); the UDP, MAVLink-over-UDP and serial proxies follow, with the
    radio status injection.  What a peer's [write] or a transport raises is a
    parameter. *)
From Stdlib Require Import ZArith Lia Bool.
From stdpp Require Import base list numbers strings gmap.
From S2P Require Import Prelude.
From S2P Require Import PyStruct.
From S2P Require Import MavMessage.
From S2P Require Import MavMap.
From S2P Require Import MavCodec.
From S2P Require Import MavLink.
From S2P Require Import MavFrame.
From S2P Require Import MavSpec.
From S2P Require Import MavStream.
From S2P Require Import MavParser.
From S2P Require Import MavProtocol.

(** ** Delayed calls *)

(** A [DelayedCall] waits, has been called, or has been cancelled. *)
Inductive call_status := Waiting | Called | Cancelled.

#[export] Instance call_status_eq_dec : EqDecision call_status.
Proof. solve_decision. Defined.

(** What the proxies use of [reactor.callLater] and of the object it returns:
    [cancel] of a call that was made or cancelled raises, the reactor makes
    ([fire]) a waiting call once. *)
Class Timers (R T : Type) := {
  status : R -> T -> call_status;
  call_later : R -> R * T;
  cancel : T -> SE R unit;
  fire : R -> T -> R;
  call_later_waiting r : status (fst (call_later r)) (snd (call_later r)) = Waiting;
  cancel_waiting r t : status r t = Waiting ->
    exists r', cancel t r = (r', Ok tt) /\ status r' t = Cancelled;
  cancel_called r t : status r t = Called -> cancel t r = (r, Raise AlreadyCalled);
  cancel_cancelled r t : status r t = Cancelled -> cancel t r = (r, Raise AlreadyCancelled);
  fire_called r t : status r t = Waiting -> status (fire r t) t = Called
}.

(** The reactor as the list of the delayed calls it has handed out. *)
Definition list_status (r : list call_status) (t : nat) : call_status := default Cancelled (r !! t).

Definition list_cancel (t : nat) : SE (list call_status) unit := fun r =>
  match list_status r t with
  | Waiting => (<[t := Cancelled]> r, Ok tt)
  | Called => (r, Raise AlreadyCalled)
  | Cancelled => (r, Raise AlreadyCancelled)
  end.

#[export] Instance list_timers : Timers (list call_status) nat.
Proof.
  refine {| status := list_status;
            call_later := fun r => (r ++ [Waiting], length r);
            cancel := list_cancel;
            fire := fun r t => <[t := Called]> r |}; unfold list_status, list_cancel.
  - intros r. cbn. by rewrite list_lookup_middle.
  - intros r t Ht. unfold list_status. rewrite Ht. eexists. split; [done |].
    destruct (r !! t) as [x|] eqn:E; cbn in Ht; simplify_eq.
    rewrite list_lookup_insert_eq; [done |]. by eapply lookup_lt_Some.
  - intros r t Ht. unfold list_status. by rewrite Ht.
  - intros r t Ht. unfold list_status. by rewrite Ht.
  - intros r t Ht. destruct (r !! t) as [x|] eqn:E; cbn in Ht; simplify_eq.
    rewrite list_lookup_insert_eq; [done |]. by eapply lookup_lt_Some.
Defined.

Module Proxy.
Import MavFrame.

Section Agg.
Context {R T : Type} `{Timers R T}.

(** ** ProxyProtocol *)

(** The object, the reactor it schedules on, and what it handed to
    [self.peer.write]; [agg_timeout] is in a fixed unit of time, and zero
    counts as not set. *)
Record proxy := ProxyState {
  peer : bool;
  agg_max_size : option Z;
  agg_timeout : option Z;
  agg_queue : list bytes;
  agg_queue_size : Z;
  agg_queue_timer : option T;
  reactor : R;
  peer_out : list bytes
}.

Definition init_proxy (peer : bool) (max_size timeout : option Z) (r : R) : proxy :=
  ProxyState peer max_size timeout [] 0 None r [].

Definition set_queue (q : list bytes) (n : Z) (p : proxy) : proxy :=
  ProxyState (peer p) (agg_max_size p) (agg_timeout p) q n (agg_queue_timer p) (reactor p) (peer_out p).
Definition set_timer (t : option T) (p : proxy) : proxy :=
  ProxyState (peer p) (agg_max_size p) (agg_timeout p) (agg_queue p) (agg_queue_size p) t (reactor p)
    (peer_out p).
Definition set_reactor (r : R) (p : proxy) : proxy :=
  ProxyState (peer p) (agg_max_size p) (agg_timeout p) (agg_queue p) (agg_queue_size p) (agg_queue_timer p) r
    (peer_out p).
Definition add_out (data : bytes) (p : proxy) : proxy :=
  ProxyState (peer p) (agg_max_size p) (agg_timeout p) (agg_queue p) (agg_queue_size p) (agg_queue_timer p)
    (reactor p) (peer_out p ++ [data]).

(** [self.agg_queue_timer.cancel()]. *)
Definition cancel_timer (t : T) : SE proxy unit := fun p =>
  let '(r, res) := cancel t (reactor p) in (set_reactor r p, res).

(** [_cleanup]. *)
Definition cleanup : SE proxy unit :=
  p ← se_get;
  match agg_queue_timer p with Some t => cancel_timer t | None => mret tt end.

(** What [self.peer.write(data)] raises, given what it was passed before. *)
Context (peer_write : list bytes -> bytes -> option exn).

(** [_send_to_peer]. *)
Definition send_to_peer (data : bytes) : SE proxy unit :=
  p ← se_get;
  if peer p then
    _ ← se_put (add_out data p);
    match peer_write (peer_out p) data with Some e => se_raise e | None => mret tt end
  else mret tt.

(** [flush_queue]. *)
Definition flush_queue : SE proxy unit :=
  p ← se_get;
  if agg_queue_size p >? 0 then
    _ ← (match agg_queue_timer p with
         | Some t => if bool_decide (status (reactor p) t = Called) then mret tt else cancel_timer t
         | None => mret tt
         end);
    _ ← se_modify (set_timer None);
    _ ← send_to_peer (concat (agg_queue p));
    se_modify (set_queue [] 0)
  else mret tt.

(** [not self.agg_timeout]. *)
Definition no_timeout (p : proxy) : bool :=
  match agg_timeout p with None => true | Some t => t =? 0 end.

(** [messageReceived]. *)
Definition messageReceived (data : bytes) : SE proxy unit :=
  p ← se_get;
  match agg_max_size p with
  | None => send_to_peer data
  | Some max_size =>
      if no_timeout p then send_to_peer data
      else if blen data >? max_size then mret tt
      else
        _ ← (if agg_queue_size p + blen data >? max_size then
               _ ← (match agg_queue_timer p with
                    | Some t => _ ← cancel_timer t; se_modify (set_timer None)
                    | None => mret tt
                    end);
               _ ← send_to_peer (concat (agg_queue p));
               se_modify (set_queue [] 0)
             else mret tt);
        _ ← se_modify (fun p => set_queue (agg_queue p ++ [data]) (agg_queue_size p + blen data) p);
        p ← se_get;
        match agg_queue_timer p with
        | None => let '(r, t) := call_later (reactor p) in se_put (set_timer (Some t) (set_reactor r p))
        | Some _ => mret tt
        end
  end.

(** The reactor makes the scheduled call of [flush_queue]. *)
Definition timer_fires (t : T) : SE proxy unit := fun p =>
  flush_queue (set_reactor (fire (reactor p) t) p).

(** ** The aggregation queue *)

Section Invariant.
Context (max : Z).
Context (Hpw : forall h d, peer_write h d = None).

(** Aggregation is on and the queue, its size and its timer agree. *)
Record agg_ok (p : proxy) : Prop := {
  ao_peer : peer p = true;
  ao_max : agg_max_size p = Some max;
  ao_timeout : no_timeout p = false;
  ao_size : agg_queue_size p = blen (concat (agg_queue p));
  ao_bound : agg_queue_size p <= max;
  ao_nonempty : Forall (fun d => d <> []) (agg_queue p);
  ao_timer : match agg_queue_timer p with
             | Some t => status (reactor p) t = Waiting /\ agg_queue p <> []
             | None => agg_queue p = []
             end
}.

Lemma concat_pos (q : list bytes) : Forall (fun d => d <> []) q -> q <> [] -> 0 < blen (concat q).
Proof using Type.
  intros Hq Hne. destruct Hq as [|d q Hd _]; [done |]. cbn. rewrite blen_app.
  pose proof (blen_nonneg (concat q)). destruct d; [done |]. rewrite blen_cons. pose proof (blen_nonneg d). lia.
Qed.

Lemma send_to_peer_ok data p :
  peer p = true -> send_to_peer data p = (add_out data p, Ok tt).
Proof using Hpw. intros Hp. unfold send_to_peer. se. rewrite Hp, Hpw. done. Qed.

Lemma cancel_timer_ok t p :
  status (reactor p) t = Waiting -> exists r, cancel_timer t p = (set_reactor r p, Ok tt).
Proof using Type.
  intros Hs. destruct (cancel_waiting (reactor p) t Hs) as (r & Hr & _). exists r.
  unfold cancel_timer. by rewrite Hr.
Qed.

(** A message that fits is appended; the timer is started when none runs. *)
Lemma append_spec data p :
  agg_ok p -> data <> [] -> agg_queue_size p + blen data <= max ->
  exists p', (_ ← se_modify (fun p => set_queue (agg_queue p ++ [data]) (agg_queue_size p + blen data) p);
              p ← se_get;
              match agg_queue_timer p with
              | None => let '(r, t) := call_later (reactor p) in se_put (set_timer (Some t) (set_reactor r p))
              | Some _ => mret tt
              end) p = (p', Ok tt) /\
    agg_ok p' /\ agg_queue p' = agg_queue p ++ [data] /\ peer_out p' = peer_out p.
Proof using Type.
  intros [Hpe Hm Ht Hs Hb Hn Htm] Hd Hfit. se. cbn [agg_queue_timer set_queue reactor].
  assert (Hq : blen (concat (agg_queue p ++ [data])) = agg_queue_size p + blen data)
    by (rewrite concat_app, blen_app; cbn; rewrite app_nil_r; lia).
  assert (Hn' : Forall (fun d => d <> []) (agg_queue p ++ [data]))
    by (apply Forall_app; split; [done | by constructor]).
  assert (Hne : agg_queue p ++ [data] <> []) by (by destruct (agg_queue p)).
  destruct (agg_queue_timer p) as [t|] eqn:Et.
  - destruct Htm as [Hw _]. eexists. split; [done |]. split; [| done].
    split; cbn; try done; try lia. by rewrite Et.
  - destruct (call_later (reactor p)) as [r t] eqn:Ec.
    pose proof (call_later_waiting (reactor p)) as Hw. rewrite Ec in Hw.
    eexists. split; [done |]. split; [| done]. split; cbn; try done; lia.
Qed.

Definition emptied (r : R) (p : proxy) : proxy :=
  set_queue [] 0 (add_out (concat (agg_queue p)) (set_timer None (set_reactor r p))).

Lemma emptied_ok r p : agg_ok p -> 0 <= max -> agg_ok (emptied r p).
Proof using Type.
  intros [Hpe Hm Ht Hs Hb Hn Htm] H0. split; cbn; done.
Qed.

(** What [messageReceived] does to a queue in order. *)
Lemma messageReceived_spec data p :
  agg_ok p -> data <> [] ->
  exists p', messageReceived data p = (p', Ok tt) /\ agg_ok p' /\
    if blen data >? max then p' = p
    else if agg_queue_size p + blen data >? max
    then peer_out p' = peer_out p ++ [concat (agg_queue p)] /\ agg_queue p' = [data] /\ agg_queue p <> []
    else peer_out p' = peer_out p /\ agg_queue p' = agg_queue p ++ [data].
Proof using Hpw.
  intros Hok Hd. pose proof Hok as [Hpe Hm Ht Hs Hb Hn Htm].
  unfold messageReceived. unfold mbind at 1, SE_bind at 1, se_get at 1. rewrite Hm, Ht.
  pose proof (blen_nonneg data).
  destruct (Z.gtb_spec (blen data) max) as [Hbig|Hbig]; [by exists p |].
  destruct (Z.gtb_spec (agg_queue_size p + blen data) max) as [Hov|Hov].
  - assert (Hne : agg_queue p <> []).
    { intros E. rewrite E in Hs. change (agg_queue_size p = 0) in Hs. lia. }
    destruct (agg_queue_timer p) as [t|] eqn:Et; [| done]. destruct Htm as [Hw _].
    destruct (cancel_timer_ok t p Hw) as [r Hr].
    assert (Hflush : (_ ← (_ ← cancel_timer t; se_modify (set_timer None));
                      _ ← send_to_peer (concat (agg_queue p)); se_modify (set_queue [] 0)) p
                     = (emptied r p, Ok tt)).
    { se. rewrite Hr. pose proof (send_to_peer_ok (concat (agg_queue p)) (set_timer None (set_reactor r p)) Hpe) as Hsp.
      unfold send_to_peer in *. se. rewrite Hsp. done. }
    destruct (append_spec data (emptied r p)) as (p' & Ha & Hok' & Hq & Hpo);
      [apply emptied_ok; [done | lia] | done | cbn; lia |].
    exists p'. split; [| split; [done |]; by rewrite Hpo, Hq].
    unfold mbind at 1, SE_bind at 1. rewrite Hflush. exact Ha.
  - destruct (append_spec data p Hok Hd ltac:(lia)) as (p' & Ha & Hok' & Hq & Hpo).
    exists p'. split; [exact Ha | done].
Qed.

(** The scheduled flush empties the queue. *)
Lemma timer_fires_spec t p :
  agg_ok p -> agg_queue_timer p = Some t ->
  timer_fires t p = (emptied (fire (reactor p) t) p, Ok tt).
Proof using Hpw.
  intros [Hpe Hm Ht Hs Hb Hn Htm] Et. rewrite Et in Htm. destruct Htm as [Hw Hne].
  pose proof (concat_pos _ Hn Hne). unfold timer_fires, flush_queue. se.
  change (agg_queue (set_reactor (fire (reactor p) t) p)) with (agg_queue p).
  change (agg_queue_size (set_reactor (fire (reactor p) t) p)) with (agg_queue_size p).
  change (agg_queue_timer (set_reactor (fire (reactor p) t) p)) with (agg_queue_timer p).
  destruct (Z.gtb_spec (agg_queue_size p) 0); [| lia]. rewrite Et.
  rewrite bool_decide_eq_true_2 by (by apply fire_called). cbn beta iota zeta.
  pose proof (send_to_peer_ok (concat (agg_queue p)) (set_timer None (set_reactor (fire (reactor p) t) p)) Hpe) as Hsp.
  unfold send_to_peer in *. se. rewrite Hsp. done.
Qed.

(** Runs of the queue: non-empty messages and firings of the running timer;
    [acc] are the messages that were not too big. *)
Inductive agg_run (p0 : proxy) : list bytes -> proxy -> Prop :=
| run_start : agg_run p0 [] p0
| run_message acc p data :
    agg_run p0 acc p -> data <> [] ->
    agg_run p0 (if blen data >? max then acc else acc ++ [data]) (fst (messageReceived data p))
| run_timer acc p t :
    agg_run p0 acc p -> agg_queue_timer p = Some t -> status (reactor p) t = Waiting ->
    agg_run p0 acc (fst (timer_fires t p)).

(** The batches handed to the peer, as groups of messages. *)
Definition batches (acc : list bytes) (p : proxy) : Prop :=
  exists groups, peer_out p = map (@concat Z) groups /\ concat groups ++ agg_queue p = acc /\
    Forall (fun b => 0 < blen b <= max) (peer_out p).

Lemma agg_run_ok peer_ timeout r acc p :
  let p0 := init_proxy peer_ (Some max) (Some timeout) r in
  peer_ = true -> timeout <> 0 -> 0 <= max -> agg_run p0 acc p -> agg_ok p /\ batches acc p.
Proof using Hpw.
  intros p0 -> Hto H0. induction 1 as [|acc p data _ [Hok (gs & Hpo & Hacc & Hb)] Hd|acc p t _ [Hok (gs & Hpo & Hacc & Hb)] Et Hw].
  - split.
    + split; cbn; try done. by apply Z.eqb_neq.
    + exists []. split_and!; done.
  - destruct (messageReceived_spec data p Hok Hd) as (p' & Hm & Hok' & Hcase). rewrite Hm. cbn [fst].
    split; [done |]. destruct (Z.gtb_spec (blen data) max); [subst p'; by exists gs |].
    destruct (Z.gtb_spec (agg_queue_size p + blen data) max).
    + destruct Hcase as (Hpo' & Hq' & Hne). exists (gs ++ [agg_queue p]). rewrite Hpo', Hq', map_app, Hpo.
      split; [done |]. split; [rewrite concat_app; cbn; by rewrite app_nil_r, Hacc |].
      rewrite <- Hpo. apply Forall_app. split; [done |]. constructor; [| constructor].
      destruct Hok as [_ _ _ Hs Hbd Hn _]. rewrite <- Hs at 2. split; [by apply concat_pos | lia].
    + destruct Hcase as (Hpo' & Hq'). exists gs. rewrite Hpo', Hq', app_assoc, Hacc. done.
  - rewrite (timer_fires_spec t p Hok Et). cbn [fst].
    split; [apply emptied_ok; [exact Hok | lia] |]. exists (gs ++ [agg_queue p]). cbn [peer_out emptied set_queue add_out set_timer
      set_reactor agg_queue]. rewrite map_app, Hpo. split; [done |].
    split; [rewrite concat_app; cbn; by rewrite !app_nil_r, Hacc |].
    rewrite <- Hpo. apply Forall_app. split; [done |]. constructor; [| constructor].
    destruct Hok as [_ _ _ Hs Hbd Hn Htm]. rewrite Et in Htm. destruct Htm as [_ Hne].
    rewrite <- Hs at 2.
    split; [by apply concat_pos | lia].
Qed.

End Invariant.

(** C22: with aggregation on, every run of non-empty messages and timer firings
    hands the accepted messages (those no longer than the limit) to the peer in
    order, none lost, none twice, none cut: the batches written so far followed
    by the queue are exactly the accepted messages, and no batch is empty or
    exceeds [agg_max_size].  (The peer's [write] is taken not to raise.) *)
Theorem agg_batches max timeout r acc p :
  (forall h d, peer_write h d = None) -> timeout <> 0 -> 0 <= max ->
  agg_run max (init_proxy true (Some max) (Some timeout) r) acc p -> batches max acc p.
Proof using Type. intros Hpw Hto H0 Hrun. by eapply (agg_run_ok max Hpw true timeout r). Qed.

(** A queued message never waits for another one: whenever the queue is
    not empty its timer is running, and when the timer fires the whole queue
    goes to the peer as one batch and the timer is forgotten. *)
Theorem agg_timer_flushes max timeout r acc p :
  (forall h d, peer_write h d = None) -> timeout <> 0 -> 0 <= max ->
  agg_run max (init_proxy true (Some max) (Some timeout) r) acc p -> agg_queue p <> [] ->
  exists t p', agg_queue_timer p = Some t /\ status (reactor p) t = Waiting /\
    timer_fires t p = (p', Ok tt) /\ agg_queue p' = [] /\ agg_queue_timer p' = None /\
    peer_out p' = peer_out p ++ [concat (agg_queue p)].
Proof using Type.
  intros Hpw Hto H0 Hrun Hne. destruct (agg_run_ok max Hpw true timeout r acc p eq_refl Hto H0 Hrun) as [Hok _].
  pose proof (ao_timer _ _ Hok) as Htm. destruct (agg_queue_timer p) as [t|] eqn:Et; [| done].
  destruct Htm as [Hw _]. exists t. rewrite (timer_fires_spec max Hpw t p Hok Et). eauto 10.
Qed.

(** ** The empty message *)

(** A queue whose timer has been called and is never looked at again. *)
Definition stuck (max : Z) (p : proxy) : Prop :=
  agg_max_size p = Some max /\ no_timeout p = false /\
  exists t, agg_queue_timer p = Some t /\ status (reactor p) t = Called.

Lemma stuck_message max data p :
  stuck max p -> stuck max (fst (messageReceived data p)) /\
    peer_out (fst (messageReceived data p)) = peer_out p /\
    (agg_queue_size p + blen data > max -> blen data <= max ->
     snd (messageReceived data p) = Raise AlreadyCalled).
Proof using Type.
  intros (Hm & Ht & t & Et & Hc). unfold messageReceived. se. rewrite Hm, Ht.
  destruct (Z.gtb_spec (blen data) max).
  { split; [by repeat (split || exists t) | split; [done | lia]]. }
  destruct (Z.gtb_spec (agg_queue_size p + blen data) max).
  - rewrite Et. unfold cancel_timer. rewrite (cancel_called _ _ Hc). cbn [fst snd].
    split; [| done]. split; [done |]. split; [done |]. by exists t.
  - cbn [agg_queue_timer set_queue]. rewrite Et. cbn [fst snd]. split; [| split; [done | lia]].
    split; [done |]. split; [done |]. by exists t.
Qed.

(** Messages received one after the other, exceptions left to the reactor. *)
Definition receive_all (msgs : list bytes) (p : proxy) : proxy :=
  fold_left (fun p d => fst (messageReceived d p)) msgs p.

(** One empty message stops an aggregating proxy for good.  Its timer
    fires with a queue of size zero, [flush_queue] returns without forgetting
    the timer, no timer is ever started again, and the overflow path raises
    [AlreadyCalled] when it cancels it: whatever is received afterwards, nothing
    reaches the peer. *)
Theorem empty_message_stops_queue max timeout r :
  timeout <> 0 -> 0 <= max ->
  exists p1 t p2,
    messageReceived [] (init_proxy true (Some max) (Some timeout) r) = (p1, Ok tt) /\
    agg_queue_timer p1 = Some t /\ status (reactor p1) t = Waiting /\
    timer_fires t p1 = (p2, Ok tt) /\
    forall msgs, let p := receive_all msgs p2 in
      peer_out p = [] /\
      forall data, agg_queue_size p + blen data > max -> blen data <= max ->
        snd (messageReceived data p) = Raise AlreadyCalled.
Proof using Type.
  intros Hto H0. set (p0 := init_proxy true (Some max) (Some timeout) r).
  destruct (call_later r) as [r1 t] eqn:Ec. pose proof (call_later_waiting r) as Hw. rewrite Ec in Hw.
  set (p1 := set_timer (Some t) (set_reactor r1 (set_queue [[]] 0 p0))).
  assert (Hp1 : messageReceived [] p0 = (p1, Ok tt)).
  { unfold messageReceived. se. unfold p0, init_proxy, no_timeout. cbn [agg_max_size agg_timeout].
    apply Z.eqb_neq in Hto. rewrite Hto. change (blen []) with 0.
    destruct (Z.gtb_spec 0 max); [lia |]. cbn [agg_queue_size]. change (0 + 0) with 0.
    destruct (Z.gtb_spec 0 max); [lia |]. cbn [agg_queue_timer set_queue reactor]. rewrite Ec. done. }
  exists p1, t, (set_reactor (fire r1 t) p1). split; [done |]. split; [done |]. split; [done |].
  split; [done |]. intros msgs.
  assert (Hst : stuck max (set_reactor (fire r1 t) p1)).
  { split; [done |]. split; [by apply Z.eqb_neq |]. exists t. split; [done |]. by apply fire_called. }
  assert (Hall : stuck max (receive_all msgs (set_reactor (fire r1 t) p1)) /\
                 peer_out (receive_all msgs (set_reactor (fire r1 t) p1)) = []).
  { assert (Hpo : peer_out (set_reactor (fire r1 t) p1) = []) by done.
    revert Hst Hpo. generalize (set_reactor (fire r1 t) p1). induction msgs as [|d msgs IH]; intros p Hst Hpo; [done |].
    cbn. destruct (stuck_message max d p Hst) as (Hst' & Hpo' & _). apply IH; [done | congruence]. }
  destruct Hall as [Hs Hpo]. split; [exact Hpo |]. intros data. by apply stuck_message.
Qed.

End Agg.

Arguments proxy R T : clear implicits.

(** ** Datagram transports *)

Definition ENETUNREACH : Z := 101.
Definition EHOSTUNREACH : Z := 113.

(** [v.errno in (ENETUNREACH, EHOSTUNREACH)] of an [OSError]. *)
Definition unreachable (e : exn) : bool :=
  match e with OSError n => (n =? ENETUNREACH) || (n =? EHOSTUNREACH) | _ => false end.

Section Udp.
Context {R T : Type} `{Timers R T} {A : Type}.

(** What [transport.write(data, addr)] raises, given the datagrams sent. *)
Context (tw : list (bytes * A) -> bytes -> A -> option exn).
Context (peer_write : list bytes -> bytes -> option exn).

(** ** UDPProxyProtocol *)

Record udp_proxy := UdpProxy {
  u_base : proxy R T;
  u_reply_addr : option A;
  u_fixed_addr : bool;
  u_transport : bool;
  u_sent : list (bytes * A)
}.

(** [UDPProxyProtocol(addr)], not yet connected. *)
Definition init_udp (addr : option A) (peer_ : bool) (r : R) : udp_proxy :=
  UdpProxy (init_proxy peer_ None None r) addr (bool_decide (is_Some addr)) false [].

Definition udp_datagramReceived (data : bytes) (addr : A) : SE udp_proxy unit := fun u =>
  let '(b, r) := messageReceived peer_write data (u_base u) in
  (UdpProxy b (if u_fixed_addr u then u_reply_addr u else Some addr) (u_fixed_addr u) (u_transport u)
     (u_sent u), r).

Definition udp_write (msg : bytes) : SE udp_proxy unit := fun u =>
  match u_transport u, u_reply_addr u with
  | true, Some addr =>
      match tw (u_sent u) msg addr with
      | None => (UdpProxy (u_base u) (u_reply_addr u) (u_fixed_addr u) (u_transport u)
                   (u_sent u ++ [(msg, addr)]), Ok tt)
      | Some e => (u, if unreachable e then Ok tt else Raise e)
      end
  | _, _ => (u, Ok tt)
  end.

(** ** MavlinkUDPProxyProtocol *)

(** What a hook raises on a message. *)
Context (hook_raises : nat -> bytes -> option exn).

Record mav_udp := MavUdp {
  m_base : proxy R T;
  radio_mav : option MavLink.mavlink;
  reply_addr : option A;
  fixed_addr : bool;
  mirror : option A;
  rx_hooks : list nat;
  tx_hooks : list nat;
  transport : bool;
  sent : list (bytes * A);
  hook_log : list (nat * bytes)
}.

Definition set_base (b : proxy R T) (u : mav_udp) : mav_udp :=
  MavUdp b (radio_mav u) (reply_addr u) (fixed_addr u) (mirror u) (rx_hooks u) (tx_hooks u) (transport u)
    (sent u) (hook_log u).
Definition set_radio (v : MavLink.mavlink) (u : mav_udp) : mav_udp :=
  MavUdp (m_base u) (Some v) (reply_addr u) (fixed_addr u) (mirror u) (rx_hooks u) (tx_hooks u) (transport u)
    (sent u) (hook_log u).
Definition set_reply (a : A) (u : mav_udp) : mav_udp :=
  MavUdp (m_base u) (radio_mav u) (Some a) (fixed_addr u) (mirror u) (rx_hooks u) (tx_hooks u) (transport u)
    (sent u) (hook_log u).
Definition add_sent (data : bytes) (a : A) (u : mav_udp) : mav_udp :=
  MavUdp (m_base u) (radio_mav u) (reply_addr u) (fixed_addr u) (mirror u) (rx_hooks u) (tx_hooks u)
    (transport u) (sent u ++ [(data, a)]) (hook_log u).
Definition add_hook (h : nat) (data : bytes) (u : mav_udp) : mav_udp :=
  MavUdp (m_base u) (radio_mav u) (reply_addr u) (fixed_addr u) (mirror u) (rx_hooks u) (tx_hooks u)
    (transport u) (sent u) (hook_log u ++ [(h, data)]).

(** [MavlinkUDPProxyProtocol(addr, ...)] as connected. *)
Definition init_mav_udp (addr : option A) (max_size timeout : option Z) (inject_rssi : bool)
    (mirror_ : option A) (sys_id comp_id : Z) (rx tx_ : list nat) (peer_ : bool) (r : R) : mav_udp :=
  MavUdp (init_proxy peer_ max_size timeout r)
    (if inject_rssi then Some (MavLink.init_mavlink sys_id comp_id) else None)
    addr (bool_decide (is_Some addr)) mirror_ rx tx_ true [] [].

(** [hook(msg)]. *)
Definition call_hook (msg : bytes) (h : nat) : SE mav_udp unit :=
  _ ← se_modify (add_hook h msg);
  match hook_raises h msg with Some e => se_raise e | None => mret tt end.

(** [self.transport.write(data, addr)]. *)
Definition transport_write (data : bytes) (a : A) : SE mav_udp unit := fun u =>
  match tw (sent u) data a with
  | None => (add_sent data a u, Ok tt)
  | Some e => (u, Raise e)
  end.

(** [ProxyProtocol.messageReceived] of the object. *)
Definition base_messageReceived (data : bytes) : SE mav_udp unit := fun u =>
  let '(b, r) := messageReceived peer_write data (m_base u) in (set_base b u, r).

Definition datagramReceived (data : bytes) (addr : A) : SE mav_udp unit :=
  _ ← se_modify (fun u => if fixed_addr u then u else set_reply addr u);
  u ← se_get;
  _ ← se_iter (call_hook data) (rx_hooks u);
  base_messageReceived data.

(** [try: ... except OSError as v: if v.errno not in (...): raise]. *)
Definition suppress_unreachable (f : SE mav_udp unit) : SE mav_udp unit := fun u =>
  match f u with
  | (u', Raise e) => (u', if unreachable e then Ok tt else Raise e)
  | r => r
  end.

(** The loop over the frames of a batch: an unreachable host ends it. *)
Fixpoint send_frames (frames : list MavParser.fsm_item) (a : A) : SE mav_udp unit :=
  match frames with
  | [] => mret tt
  | MavParser.Raw m :: frames' => fun u =>
      match transport_write m a u with
      | (u', Ok _) => send_frames frames' a u'
      | (u', Raise e) => (u', if unreachable e then Ok tt else Raise e)
      end
  | MavParser.L2 _ _ :: _ => se_raise TypeError
  end.

(** [write]. *)
Definition write (msg : bytes) : SE mav_udp unit :=
  u ← se_get;
  _ ← se_iter (call_hook msg) (tx_hooks u);
  match transport u, reply_addr u with
  | true, Some a =>
      _ ← (match mirror u with
           | None => mret tt
           | Some ma => suppress_unreachable (transport_write msg ma)
           end);
      if negb (bool_decide (is_Some (agg_max_size (m_base u)))) || no_timeout (m_base u)
      then transport_write msg a
      else
        frames ← se_lift (snd (MavParser.send false msg MavParser.mavlink_parser_gen));
        send_frames frames a
  | _, _ => mret tt
  end.

(** [MavlinkProxyProtocol.send_rssi]: [radio_status_send] of the MAVLink
    object, whose [file.write] is [self.write]. *)
Definition send_rssi (rssi noise rx_errors rx_fec flags : Z) : SE mav_udp unit :=
  u ← se_get;
  match radio_mav u with
  | None => mret tt
  | Some v =>
      m ← se_lift (MavLink.radio_status_encode (rssi mod 256) (rssi mod 256) 100 (noise mod 256)
                     flags rx_errors rx_fec);
      let '(v1, res) := MavLink.message_pack m false v in
      _ ← se_modify (set_radio v1);
      r ← se_lift res;
      _ ← write (snd r);
      let t := MavLink.tx v1 in
      se_modify (set_radio (MavLink.set_tx
        (MavLink.TxState ((MavLink.seq_no t + 1) mod 256) (MavLink.srcSystem t) (MavLink.srcComponent t)
           (MavLink.out t ++ [snd r]) (MavLink.total_packets_sent t + 1)
           (MavLink.total_bytes_sent t + blen (snd r))) v1))
  end.

(** ** MavlinkSerialProxyProtocol *)

Record mav_serial := MavSerial {
  s_base : proxy R T;
  s_fsm : MavParser.fsm;
  s_rx_hooks : list nat;
  s_tx_hooks : list nat;
  s_transport : bool;
  s_sent : list bytes;
  s_hook_log : list (nat * bytes)
}.

Definition init_serial (max_size timeout : option Z) (rx tx_ : list nat) (peer_ : bool) (r : R) : mav_serial :=
  MavSerial (init_proxy peer_ max_size timeout r) MavParser.mavlink_parser_gen rx tx_ true [] [].

Definition set_serial (b : proxy R T) (g : MavParser.fsm) (l : list (nat * bytes)) (u : mav_serial) : mav_serial :=
  MavSerial b g (s_rx_hooks u) (s_tx_hooks u) (s_transport u) (s_sent u) l.

Definition serial_hook (msg : bytes) (h : nat) : SE mav_serial unit :=
  _ ← se_modify (fun u => set_serial (s_base u) (s_fsm u) (s_hook_log u ++ [(h, msg)]) u);
  match hook_raises h msg with Some e => se_raise e | None => mret tt end.

Definition serial_write (msg : bytes) : SE mav_serial unit :=
  u ← se_get;
  _ ← se_iter (serial_hook msg) (s_tx_hooks u);
  se_modify (fun u =>
    if s_transport u then MavSerial (s_base u) (s_fsm u) (s_rx_hooks u) (s_tx_hooks u) true
                            (s_sent u ++ [msg]) (s_hook_log u)
    else u).

Definition serial_messageReceived (data : bytes) : SE mav_serial unit := fun u =>
  let '(b, r) := messageReceived peer_write data (s_base u) in
  (set_serial b (s_fsm u) (s_hook_log u) u, r).

Definition serial_item (it : MavParser.fsm_item) : SE mav_serial unit :=
  match it with
  | MavParser.Raw m =>
      u ← se_get;
      _ ← se_iter (serial_hook m) (s_rx_hooks u);
      serial_messageReceived m
  | MavParser.L2 _ _ => se_raise TypeError
  end.

Definition serial_dataReceived (data : bytes) : SE mav_serial unit := fun u =>
  match MavParser.send false data (s_fsm u) with
  | (g, Raise e) => (set_serial (s_base u) g (s_hook_log u) u, Raise e)
  | (g, Ok items) => se_iter serial_item items (set_serial (s_base u) g (s_hook_log u) u)
  end.

(** ** Properties of the write side *)

(** What went to the mirror address. *)
Definition mirrored (u : mav_udp) (msg : bytes) : list (bytes * A) :=
  match mirror u with Some a => [(msg, a)] | None => [] end.

Lemma hooks_ok msg hs u :
  (forall h d, hook_raises h d = None) ->
  exists u', se_iter (call_hook msg) hs u = (u', Ok tt) /\ sent u' = sent u /\ m_base u' = m_base u /\
    mirror u' = mirror u /\ transport u' = transport u /\ reply_addr u' = reply_addr u /\
    tx_hooks u' = tx_hooks u /\ radio_mav u' = radio_mav u /\
    hook_log u' = hook_log u ++ map (fun h => (h, msg)) hs.
Proof using Type.
  intros Hh. revert u. induction hs as [|h hs IH]; intros u; cbn [se_iter].
  - exists u. rewrite app_nil_r. done.
  - unfold call_hook. se. rewrite Hh. destruct (IH (add_hook h msg u)) as (u' & Hit & Hrest).
    unfold call_hook in Hit. se. rewrite Hit. exists u'. cbn in Hrest. rewrite <- app_assoc in Hrest. done.
Qed.

(** A transport that fails only because the host cannot be reached. *)
Definition only_unreachable : Prop :=
  forall s d a e, tw s d a = Some e -> unreachable e = true.

Lemma send_frames_prefix fs a u :
  only_unreachable ->
  exists k u', send_frames (map MavParser.Raw fs) a u = (u', Ok tt) /\
    sent u' = sent u ++ map (fun f => (f, a)) (take k fs) /\ tx_hooks u' = tx_hooks u /\
    m_base u' = m_base u /\ mirror u' = mirror u /\ transport u' = transport u /\ reply_addr u' = reply_addr u /\
    ((forall s d a, tw s d a = None) -> k = length fs).
Proof using Type.
  intros Ho. revert u. induction fs as [|f fs IH]; intros u.
  - exists 0%nat, u. cbn. rewrite app_nil_r. done.
  - cbn [map send_frames]. unfold transport_write. destruct (tw (sent u) f a) as [e|] eqn:Et.
    + exists 0%nat, u. rewrite (Ho _ _ _ _ Et). cbn. rewrite app_nil_r. split_and!; try done.
      intros Hn. by rewrite Hn in Et.
    + destruct (IH (add_sent f a u)) as (k & u' & Hs & Hsent & Hrest). exists (S k), u'.
      rewrite Hs. split; [done |]. cbn in Hsent, Hrest. rewrite Hsent, <- app_assoc.
      split; [done |]. destruct Hrest as (? & ? & ? & ? & ? & Hk). split_and!; try done.
      intros Hn. cbn. by rewrite Hk.
Qed.

Definition aggregating (p : proxy R T) : Prop := is_Some (agg_max_size p) /\ no_timeout p = false.

(** The write side of an aggregating proxy on a batch of whole frames. *)
Lemma write_batch_spec fs u a :
  (forall h d, hook_raises h d = None) -> only_unreachable ->
  aggregating (m_base u) -> transport u = true -> reply_addr u = Some a ->
  Forall MavParser.whole_frame fs -> fs <> [] -> bytes_ok (concat fs) ->
  exists k u', write (concat fs) u = (u', Ok tt) /\
    (exists ms, sent u' = sent u ++ ms ++ map (fun f => (f, a)) (take k fs) /\
       (ms = mirrored u (concat fs) \/ ms = []) /\
       ((forall s d a, tw s d a = None) -> ms = mirrored u (concat fs) /\ k = length fs)) /\
    m_base u' = m_base u /\ mirror u' = mirror u /\ transport u' = true /\ reply_addr u' = Some a.
Proof using Type.
  intros Hh Ho [Hmax Hto] Htr Hra Hfs Hne Hb.
  destruct (MavParser.send_spec false (concat fs) (MavParser.FsmState [] 0 0) MavParser.gen_ok_init Hb)
    as (st' & fs' & Hsp & Hsend & _).
  change (MavParser.split_frames (concat fs) 0 = (fs', MavParser.pend st', MavParser.bad st')) in Hsp.
  rewrite (MavParser.split_whole_frames fs 0 Hfs Hne) in Hsp. injection Hsp as <- _ _.
  unfold write. unfold mbind at 1, SE_bind at 1, se_get at 1.
  destruct (hooks_ok (concat fs) (tx_hooks u) u Hh) as (u1 & Hit & Hs1 & Hb1 & Hm1 & Ht1 & Hr1 & _).
  unfold mbind at 1, SE_bind at 1. rewrite Hit, Htr, Hra.
  assert (Hmir : exists ms u2,
    (match mirror u with None => mret tt | Some ma => suppress_unreachable (transport_write (concat fs) ma) end) u1
      = (u2, Ok tt) /\ sent u2 = sent u ++ ms /\ (ms = mirrored u (concat fs) \/ ms = []) /\
    ((forall s d a, tw s d a = None) -> ms = mirrored u (concat fs)) /\
    m_base u2 = m_base u /\ mirror u2 = mirror u /\ transport u2 = true /\ reply_addr u2 = Some a).
  { unfold mirrored. destruct (mirror u) as [ma|] eqn:Em.
    - unfold suppress_unreachable, transport_write. destruct (tw (sent u1) (concat fs) ma) as [e|] eqn:Et.
      + exists [], u1. rewrite (Ho _ _ _ _ Et), app_nil_r. split_and!; try done; try congruence; auto;
        intros Hn; by rewrite Hn in Et.
      + eexists [_], _. split; [done |]. cbn. rewrite Hs1. split_and!; try done; try congruence; auto.
    - exists [], u1. rewrite app_nil_r. split_and!; try done; try congruence; auto. }
  destruct Hmir as (ms & u2 & Hmw & Hs2 & Hms & Hmsn & Hb2 & Hm2 & Ht2 & Hr2).
  unfold mbind at 1, SE_bind at 1. rewrite Hmw, Hto.
  rewrite (bool_decide_eq_true_2 _ Hmax). cbn [negb orb].
  unfold mbind at 1, SE_bind at 1, se_lift, MavParser.mavlink_parser_gen. rewrite Hsend. cbn [snd].
  destruct (send_frames_prefix fs a u2 Ho) as (k & u3 & Hsf & Hs3 & _ & Hb3 & Hm3 & Ht3 & Hr3 & Hk).
  unfold MavParser.spec_item. exists k, u3. split; [exact Hsf |]. split.
  - exists ms. rewrite Hs3, Hs2, <- app_assoc. split; [done |]. split; [done |]. auto.
  - split_and!; congruence.
Qed.

(** Writing a batch of whole MAVLink frames to an aggregating UDP proxy
    sends every frame as a datagram of its own, in order, after one unsplit
    copy for the mirror; when the host is or becomes unreachable the frames
    before that are sent, the rest is dropped, and nothing is raised. *)
Theorem write_splits_batch fs u a :
  (forall h d, hook_raises h d = None) -> only_unreachable ->
  aggregating (m_base u) -> transport u = true -> reply_addr u = Some a ->
  Forall MavParser.whole_frame fs -> fs <> [] -> bytes_ok (concat fs) ->
  exists k u' ms, write (concat fs) u = (u', Ok tt) /\
    sent u' = sent u ++ ms ++ map (fun f => (f, a)) (take k fs) /\
    (ms = mirrored u (concat fs) \/ ms = []) /\
    ((forall s d a, tw s d a = None) -> ms = mirrored u (concat fs) /\ take k fs = fs).
Proof using Type.
  intros Hh Ho Ha Ht Hr Hfs Hne Hb.
  destruct (write_batch_spec fs u a Hh Ho Ha Ht Hr Hfs Hne Hb) as (k & u' & Hw & (ms & Hs & Hms & Hn) & _).
  exists k, u', ms. split_and!; try done. intros H0. destruct (Hn H0) as [? ->]. split; [done |]. apply firstn_all.
Qed.

(** Without aggregation the UDP proxy sends the packet as it is, but an
    unreachable host is not tolerated there, as it is for the mirror and for
    split batches: the [OSError] is raised to the caller. *)
Theorem direct_write_raises msg u a e :
  (forall h d, hook_raises h d = None) -> mirror u = None ->
  agg_max_size (m_base u) = None \/ no_timeout (m_base u) = true ->
  transport u = true -> reply_addr u = Some a -> tw (sent u) msg a = Some e ->
  snd (write msg u) = Raise e.
Proof using Type.
  intros Hh Hm Hagg Ht Hr He. unfold write. unfold mbind at 1, SE_bind at 1, se_get at 1.
  destruct (hooks_ok msg (tx_hooks u) u Hh) as (u1 & Hit & Hs1 & _).
  unfold mbind at 1, SE_bind at 1. rewrite Hit, Ht, Hr, Hm. se.
  assert (Hd : negb (bool_decide (is_Some (agg_max_size (m_base u)))) || no_timeout (m_base u) = true).
  { destruct Hagg as [-> | ->]; [done | apply orb_true_r]. }
  rewrite Hd. unfold transport_write. by rewrite Hs1, He.
Qed.

(** ** The relay as a whole *)

Lemma write_batches groups u a :
  (forall h d, hook_raises h d = None) -> (forall s d a, tw s d a = None) ->
  aggregating (m_base u) -> transport u = true -> reply_addr u = Some a -> mirror u = None ->
  Forall (fun g => Forall MavParser.whole_frame g /\ g <> [] /\ bytes_ok (concat g)) groups ->
  exists u', se_iter write (map (@concat Z) groups) u = (u', Ok tt) /\
    sent u' = sent u ++ map (fun f => (f, a)) (concat groups).
Proof using Type.
  intros Hh Htw Ha Ht Hr Hm H0. revert u Ha Ht Hr Hm.
  induction H0 as [|g groups (Hg & Hne & Hb) _ IH]; intros u Ha Ht Hr Hm.
  - exists u. cbn. by rewrite app_nil_r.
  - destruct (write_batch_spec g u a Hh ltac:(intros ? ? ? ?; by rewrite Htw) Ha Ht Hr Hg Hne Hb)
      as (k & u1 & Hw & (ms & Hs & _ & Hn) & Hb1 & Hm1 & Ht1 & Hr1).
    destruct (Hn Htw) as [-> ->]. unfold mirrored in Hs. rewrite Hm, firstn_all in Hs.
    destruct (IH u1) as (u' & Hit & Hs'); [by rewrite Hb1 | done | done | congruence |].
    exists u'. cbn [map se_iter]. unfold mbind, SE_bind. rewrite Hw. split; [exact Hit |].
    rewrite Hs', Hs. cbn [concat app]. by rewrite map_app, <- app_assoc.
Qed.

(** C2: the MAVLink path is transparent: frames that come in on one side,
    queued, batched by size or by timer in whatever way, and written to the UDP
    proxy on the other side, go out as the same frames, one datagram each, in
    order, none lost but those still in the queue. *)
Theorem relay_end_to_end max timeout r acc p u a :
  (forall h d, peer_write h d = None) -> (forall h d, hook_raises h d = None) ->
  (forall s d a, tw s d a = None) -> timeout <> 0 -> 0 <= max ->
  agg_run peer_write max (init_proxy true (Some max) (Some timeout) r) acc p ->
  Forall MavParser.whole_frame acc -> Forall bytes_ok acc ->
  aggregating (m_base u) -> transport u = true -> reply_addr u = Some a -> mirror u = None ->
  exists u', se_iter write (peer_out p) u = (u', Ok tt) /\
    sent u' ++ map (fun f => (f, a)) (agg_queue p) = sent u ++ map (fun f => (f, a)) acc.
Proof using Type.
  intros Hpw Hh Htw Hto H0 Hrun Hwf Hbs Ha Ht Hr Hm.
  destruct (agg_run_ok peer_write max Hpw true timeout r acc p eq_refl Hto H0 Hrun) as [_ (gs & Hpo & Hacc & Hb)].
  rewrite <- Hacc in Hwf, Hbs. apply Forall_app in Hwf as [Hwf _]. apply Forall_app in Hbs as [Hbs _].
  destruct (write_batches gs u a Hh Htw Ha Ht Hr Hm) as (u' & Hit & Hs).
  { rewrite Hpo in Hb. clear - Hwf Hbs Hb. induction gs as [|g gs IH]; constructor.
    - cbn in *. apply Forall_app in Hwf as [Hw _]. apply Forall_app in Hbs as [Hbg _].
      inversion Hb as [|? ? Hg _]; subst. split; [done |]. split; [| by apply Forall_concat].
      intros ->. change (0 < 0 <= max) in Hg. lia.
    - cbn in *. apply Forall_app in Hwf as [_ Hw]. apply Forall_app in Hbs as [_ Hbg].
      inversion Hb; subst. by apply IH. }
  exists u'. rewrite Hpo. split; [exact Hit |]. rewrite Hs, <- Hacc, map_app, app_assoc. done.
Qed.

(** ** Radio status injection *)

Definition radio_mt : MavMessage.msgtype := MavCatalog2.MavCatalog2.MAVLink_radio_status_message.

Definition radio_args (rssi noise rx_errors rx_fec flags : Z) : list MavMessage.fval :=
  map (fun z => MavMessage.FScalar (PyStruct.PInt z))
    [rssi mod 256; rssi mod 256; 100; noise mod 256; flags; rx_errors; rx_fec].

Lemma radio_fit rssi noise rx_errors rx_fec flags :
  0 <= rx_errors < 65536 -> 0 <= rx_fec < 65536 -> 0 <= flags < 256 ->
  MavMessage.args_fit radio_mt (radio_args rssi noise rx_errors rx_fec flags).
Proof using Type.
  intros He Hf Hfl. pose proof (Z.mod_pos_bound rssi 256). pose proof (Z.mod_pos_bound noise 256).
  split; [done |].
  assert (Hw : MavMessage.wire radio_mt =
    [("rxerrors", PyStruct.CUint 2, 1%nat); ("fixed", PyStruct.CUint 2, 1%nat); ("rssi", PyStruct.CUint 1, 1%nat);
     ("remrssi", PyStruct.CUint 1, 1%nat); ("txbuf", PyStruct.CUint 1, 1%nat); ("noise", PyStruct.CUint 1, 1%nat);
     ("remnoise", PyStruct.CUint 1, 1%nat)]%string) by (vm_compute; reflexivity).
  rewrite Hw.
  repeat (apply Forall_cons; split; [eexists; split; [reflexivity | cbn; split; [reflexivity | lia]] |]).
  apply Forall_nil_2.
Qed.

(** The field [f] of a decoded message is the number [z]. *)
Definition field_is (m : MavLink.message) (f : string) (z : Z) : Prop :=
  MavLink.m_attrs m !! f = Some (MavMessage.AVal (MavMessage.FScalar (PyStruct.PInt z))).

Lemma radio_packed rssi noise rx_errors rx_fec flags v :
  MavFrame.tx_ok v -> MavLink.sign_outgoing (MavLink.sgn v) = false ->
  0 <= rx_errors < 65536 -> 0 <= rx_fec < 65536 -> 0 <= flags < 256 ->
  exists m p,
    MavLink.radio_status_encode (rssi mod 256) (rssi mod 256) 100 (noise mod 256) flags rx_errors rx_fec = Ok m /\
    MavSpec.packs radio_mt (radio_args rssi noise rx_errors rx_fec flags) false v [] m v p.
Proof using Type.
  intros Htx Hso He Hf Hfl.
  destruct (MavSpec.message_pack_spec radio_mt (radio_args rssi noise rx_errors rx_fec flags) false v [])
    as (m & v1 & p & Hp).
  - vm_compute. reflexivity.
  - by apply radio_fit.
  - done.
  - done.
  - intros Hs. congruence.
  - pose proof (MavSpec.pk_state _ _ _ _ _ _ _ _ Hp) as Hst. rewrite Hso in Hst. cbn in Hst. subst v1.
    exists m, p. split; [apply (MavSpec.pk_new _ _ _ _ _ _ _ _ Hp) | done].
Qed.

(** Membership and type of a field of the concrete class. *)
Ltac radio_field := first [vm_compute; reflexivity | apply (bool_decide_unpack _); vm_compute; exact I].

(** A single frame goes out as it is, aggregation or not. *)
Lemma write_frame frame u a :
  (forall s d a, tw s d a = None) -> MavParser.whole_frame frame -> bytes_ok frame ->
  transport u = true -> reply_addr u = Some a -> mirror u = None -> tx_hooks u = [] ->
  write frame u = (add_sent frame a u, Ok tt).
Proof using Type.
  intros Htw Hwf Hb Ht Hr Hm Hhk. unfold write. se. rewrite Hhk, Ht, Hr, Hm. cbn [se_iter]. se.
  destruct (negb _ || _); [unfold transport_write; by rewrite Htw |].
  destruct (MavParser.send_spec false frame (MavParser.FsmState [] 0 0) MavParser.gen_ok_init Hb)
    as (st' & fs' & Hsp & Hsend & _).
  change (MavParser.split_frames frame 0 = (fs', MavParser.pend st', MavParser.bad st')) in Hsp.
  pose proof (MavParser.split_whole_frames [frame] 0 ltac:(by constructor) ltac:(done)) as Hw.
  cbn [concat] in Hw. rewrite app_nil_r in Hw. rewrite Hw in Hsp. injection Hsp as <- _ _.
  unfold MavParser.mavlink_parser_gen. rewrite Hsend. cbn [snd map send_frames MavParser.spec_item].
  unfold transport_write. by rewrite Htw.
Qed.

(** An RSSI report with any signed RSSI and noise values and in-range
    counters is injected as one MAVLink 2 RADIO_STATUS frame of the proxy's
    system and component, with the next sequence number, that every receiver
    decodes back to the values modulo 256, the flags in [remnoise], a fixed
    [txbuf] of 100 and the counters; it never raises. *)
Theorem send_rssi_injects rssi noise rx_errors rx_fec flags u v a v2 :
  (forall h d, hook_raises h d = None) -> (forall s d a, tw s d a = None) ->
  radio_mav u = Some v -> MavFrame.tx_ok v -> MavLink.sign_outgoing (MavLink.sgn v) = false ->
  transport u = true -> reply_addr u = Some a -> mirror u = None -> tx_hooks u = [] ->
  0 <= rx_errors < 65536 -> 0 <= rx_fec < 65536 -> 0 <= flags < 256 ->
  MavLink.secret_key (MavLink.sgn v2) = None ->
  exists u' frame m2 v3 v', send_rssi rssi noise rx_errors rx_fec flags u = (u', Ok tt) /\
    sent u' = sent u ++ [(frame, a)] /\ radio_mav u' = Some v' /\
    MavLink.seq_no (MavLink.tx v') = (MavLink.seq_no (MavLink.tx v) + 1) mod 256 /\
    MavLink.decode false frame v2 = (v3, Ok m2) /\ MavLink.get_type m2 = "RADIO_STATUS"%string /\
    MavLink.h_srcSystem (MavLink.m_header m2) = MavLink.srcSystem (MavLink.tx v) /\
    field_is m2 "rssi" (rssi mod 256) /\ field_is m2 "remrssi" (rssi mod 256) /\ field_is m2 "txbuf" 100 /\
    field_is m2 "noise" (noise mod 256) /\ field_is m2 "remnoise" flags /\
    field_is m2 "rxerrors" rx_errors /\ field_is m2 "fixed" rx_fec.
Proof using Type.
  intros Hh Htw Hv Htx Hso Ht Hr Hm Hhk He Hf Hfl Hk.
  destruct (radio_packed rssi noise rx_errors rx_fec flags v Htx Hso He Hf Hfl) as (m & p & Hm1 & Hp).
  set (frame := MavSpec.p_frame p false).
  edestruct (MavSpec.decode_packed radio_mt (radio_args rssi noise rx_errors rx_fec flags) false v [] m v p)
    with (ign := false) (v2 := v2) as (m2 & Hd & (_ & Hty & _ & _ & Hsys & _ & Hat) & _);
    [vm_compute; reflexivity | by apply radio_fit | exact Hp | by apply MavSpec.verify_no_key | reflexivity |].
  assert (Hfield : forall f z, f ∈ MavMessage.fieldnames radio_mt -> MavMessage.is_str radio_mt f = false ->
    MavCodec.the_arg radio_mt (radio_args rssi noise rx_errors rx_fec flags) f
      = MavMessage.FScalar (PyStruct.PInt z) -> field_is m2 f z).
  { intros f z Hin Hstr Harg. unfold field_is. rewrite (Hat f Hin), (MavSpec.pk_attrs _ _ _ _ _ _ _ _ Hp).
    pose proof (MavSpec.pk_fields _ _ _ _ _ _ _ _ Hp f Hin) as Hspec. unfold MavCodec.attr_spec in Hspec.
    rewrite Hstr, Harg in Hspec. exact Hspec. }
  assert (Hb : bytes_ok frame) by (by eapply PackedFrames.packed_bytes_ok).
  assert (Hwf : MavParser.whole_frame frame).
  { eapply (PackedFrames.packed_whole_frame frame radio_mt v (MavSpec.p_msg p)); [done |].
    exists (radio_args rssi noise rx_errors rx_fec flags), false, [], m, v, p.
    split_and!; try done. by apply radio_fit. }
  pose proof (write_frame frame (set_radio v u) a Htw Hwf Hb Ht Hr Hm Hhk) as Hw.
  eexists _, frame, m2, _, _. split_and!.
  - unfold send_rssi. unfold mbind at 1, SE_bind at 1, se_get at 1. rewrite Hv.
    unfold mbind at 1, SE_bind at 1, se_lift at 1. rewrite Hm1, (MavSpec.pk_pack _ _ _ _ _ _ _ _ Hp).
    unfold mbind at 1, SE_bind at 1, se_modify at 1. unfold mbind at 1, SE_bind at 1, se_lift at 1.
    unfold mbind at 1, SE_bind at 1. cbn [snd]. fold frame. rewrite Hw. reflexivity.
  - done.
  - done.
  - done.
  - exact Hd.
  - rewrite Hty. unfold MavLink.get_type. rewrite (MavSpec.pk_class _ _ _ _ _ _ _ _ Hp). done.
  - exact Hsys.
  - apply Hfield; [radio_field | radio_field | reflexivity].
  - apply Hfield; [radio_field | radio_field | reflexivity].
  - apply Hfield; [radio_field | radio_field | reflexivity].
  - apply Hfield; [radio_field | radio_field | reflexivity].
  - apply Hfield; [radio_field | radio_field | reflexivity].
  - apply Hfield; [radio_field | radio_field | reflexivity].
  - apply Hfield; [radio_field | radio_field | reflexivity].
Qed.

End Udp.

(** ** Concrete runs *)

Definition quiet : list bytes -> bytes -> option exn := fun _ _ => None.
Definition calm (h : nat) (d : bytes) : option exn := None.
Definition open_net (s : list (bytes * nat)) (d : bytes) (a : nat) : option exn := None.

Definition demo_p0 : proxy (list call_status) nat := init_proxy true (Some 20) (Some 5) [].
Definition demo_p1 : proxy (list call_status) nat :=
  fst (messageReceived quiet MavParser.demo_v1 (fst (messageReceived quiet MavParser.demo_v2 demo_p0))).

(** Two frames that do not fit one batch. *)
Lemma demo_agg_run : agg_run quiet 20 demo_p0 [MavParser.demo_v2; MavParser.demo_v1] demo_p1.
Proof.
  change [MavParser.demo_v2; MavParser.demo_v1] with
    (if blen MavParser.demo_v1 >? 20 then [MavParser.demo_v2] else [MavParser.demo_v2] ++ [MavParser.demo_v1]).
  apply run_message; [| discriminate].
  change [MavParser.demo_v2] with (if blen MavParser.demo_v2 >? 20 then [] else [] ++ [MavParser.demo_v2]).
  apply run_message; [| discriminate]. apply run_start.
Qed.

Definition demo_udp (timeout : Z) : mav_udp (R := list call_status) (T := nat) (A := nat) :=
  init_mav_udp (Some 9%nat) (Some 20) (Some timeout) true None 3 242 [] [] true [].

Lemma agg_batches_witness : batches 20 [MavParser.demo_v2; MavParser.demo_v1] demo_p1.
Proof.
  apply (agg_batches quiet 20 5 [] _ demo_p1); [reflexivity | discriminate | lia | exact demo_agg_run].
Defined.

Lemma agg_timer_flushes_witness :
  exists t p', agg_queue_timer demo_p1 = Some t /\ timer_fires quiet t demo_p1 = (p', Ok tt) /\
    agg_queue p' = [] /\ peer_out p' = peer_out demo_p1 ++ [concat (agg_queue demo_p1)].
Proof.
  destruct (agg_timer_flushes quiet 20 5 [] [MavParser.demo_v2; MavParser.demo_v1] demo_p1) as (t & p' & H1 & _ & H2 & H3 & _ & H4).
  - reflexivity.
  - discriminate.
  - lia.
  - exact demo_agg_run.
  - vm_compute. discriminate.
  - exists t, p'. split; [exact H1 |]. split; [exact H2 |]. split; [exact H3 | exact H4].
Defined.

Lemma empty_message_stops_queue_witness :
  exists p2 : proxy (list call_status) nat, forall msgs, peer_out (receive_all quiet msgs p2) = [].
Proof.
  destruct (empty_message_stops_queue (R := list call_status) (T := nat) quiet 20 5 [])
    as (p1 & t & p2 & _ & _ & _ & _ & Hall).
  - discriminate.
  - lia.
  - exists p2. intros msgs. apply (Hall msgs).
Defined.

Lemma demo_frames_ok : bytes_ok (concat [MavParser.demo_v1; MavParser.demo_v2]).
Proof. apply bytes_ok_forallb. vm_compute. reflexivity. Qed.

Lemma write_splits_batch_witness :
  exists k u' ms, write open_net calm (concat [MavParser.demo_v1; MavParser.demo_v2]) (demo_udp 5) = (u', Ok tt) /\
    sent u' = [] ++ ms ++ map (fun f => (f, 9%nat)) (take k [MavParser.demo_v1; MavParser.demo_v2]).
Proof.
  destruct (write_splits_batch open_net calm [MavParser.demo_v1; MavParser.demo_v2] (demo_udp 5) 9%nat)
    as (k & u' & ms & H1 & H2 & _).
  - reflexivity.
  - discriminate.
  - split; [eexists; reflexivity | reflexivity].
  - reflexivity.
  - reflexivity.
  - exact MavParser.demo_frames.
  - discriminate.
  - exact demo_frames_ok.
  - exists k, u', ms. split; [exact H1 | exact H2].
Defined.

Lemma direct_write_raises_witness :
  snd (write (fun _ _ _ => Some (OSError ENETUNREACH)) calm MavParser.demo_v1 (demo_udp 0)) = Raise (OSError 101).
Proof.
  apply (direct_write_raises (fun _ _ _ => Some (OSError ENETUNREACH)) calm MavParser.demo_v1 (demo_udp 0) 9%nat).
  - reflexivity.
  - reflexivity.
  - right. reflexivity.
  - reflexivity.
  - reflexivity.
  - reflexivity.
Defined.

Lemma relay_end_to_end_witness :
  exists u', se_iter (write open_net calm) (peer_out demo_p1) (demo_udp 5) = (u', Ok tt) /\
    sent u' ++ map (fun f => (f, 9%nat)) (agg_queue demo_p1) =
    [(MavParser.demo_v2, 9%nat); (MavParser.demo_v1, 9%nat)].
Proof.
  apply (relay_end_to_end open_net quiet calm 20 5 [] [MavParser.demo_v2; MavParser.demo_v1] demo_p1
           (demo_udp 5) 9%nat).
  - reflexivity.
  - reflexivity.
  - reflexivity.
  - discriminate.
  - lia.
  - exact demo_agg_run.
  - repeat constructor.
  - repeat (constructor; [apply bytes_ok_forallb; vm_compute; reflexivity |]). constructor.
  - split; [eexists; reflexivity | reflexivity].
  - reflexivity.
  - reflexivity.
  - reflexivity.
Defined.

Lemma send_rssi_injects_witness :
  exists u' frame, send_rssi open_net calm (-60) (-95) 7 2 3 (demo_udp 5) = (u', Ok tt) /\
    sent u' = [] ++ [(frame, 9%nat)].
Proof.
  destruct (send_rssi_injects open_net calm (-60) (-95) 7 2 3 (demo_udp 5) (MavLink.init_mavlink 3 242) 9%nat
              (MavLink.init_mavlink 1 1)) as (u' & frame & m2 & v3 & v' & H1 & H2 & _).
  - reflexivity.
  - reflexivity.
  - reflexivity.
  - repeat split; cbn; lia.
  - reflexivity.
  - reflexivity.
  - reflexivity.
  - reflexivity.
  - reflexivity.
  - lia.
  - lia.
  - lia.
  - reflexivity.
  - exists u', frame. split; [exact H1 | exact H2].
Defined.

End Proxy.
