(* ===== verification/Tuntap.v ===== *)
(** The IP tunnel of wfb_ng/tuntap.py: packet framing and unframing of
    [TUNTAPProtocol] on top of the aggregating proxy, its keepalive
    semaphores, and the write queue of [TUNTAPTransport].  The device itself is in
    TunDevice. *)
From Stdlib Require Import ZArith Lia Bool.
From stdpp Require Import base list numbers strings gmap.
From S2P Require Import Prelude.
From S2P Require Import PyStruct.
From S2P Require Import MavFrame.
From S2P Require Import Proxy.

Module Tuntap.
Import PyStruct MavFrame Proxy.

(** ** TUNTAPTransport *)

Record transport := Transport {
  queue : list bytes;
  mtu : Z;
  connected : bool;
  write_disconnected : bool;
  writing : bool
}.

(** [TUNTAPTransport(..., mtu)]: two bytes are reserved for the packet header. *)
Definition init_transport (mtu : Z) : transport := Transport [] (mtu - 2) true false false.

Definition isSendBufferFull (t : transport) : bool := blen (queue t) >? 1000.

(** [TUNTAPTransport.write] of a byte string. *)
Definition transport_write (data : bytes) (t : transport) : transport :=
  if negb (connected t) || write_disconnected t then t
  else match data with
       | [] => t
       | _ => Transport (queue t ++ [data]) (mtu t) (connected t) (write_disconnected t) true
       end.

(** ** TUNTAPProtocol *)

Section Protocol.
Context {R T : Type} `{Timers R T}.
(** What [self.peer.write] and the [write] of a peer in [all_peers] raise. *)
Context (peer_write : list bytes -> bytes -> option exn).
Context (all_write : nat -> bytes -> option exn).

Record tun := Tun {
  base : proxy R T;
  all_peers : list nat;
  tr : option transport;
  pkt_in_sem : Z;
  pkt_out_sem : Z;
  all_out : list (nat * bytes)
}.

(** [TUNTAPProtocol(mtu, agg_timeout)] with its peers and transport set. *)
Definition init_tun (mtu_ : Z) (timeout : option Z) (peers : list nat) (r : R) : tun :=
  Tun (init_proxy true (Some mtu_) timeout r) peers (Some (init_transport mtu_)) 0 0 [].

Definition set_base (b : proxy R T) (s : tun) : tun :=
  Tun b (all_peers s) (tr s) (pkt_in_sem s) (pkt_out_sem s) (all_out s).
Definition set_tr (t : option transport) (s : tun) : tun :=
  Tun (base s) (all_peers s) t (pkt_in_sem s) (pkt_out_sem s) (all_out s).
Definition set_sems (i o : Z) (s : tun) : tun :=
  Tun (base s) (all_peers s) (tr s) i o (all_out s).

(** A method of the proxy part of the object. *)
Definition with_base {A} (f : SE (proxy R T) A) : SE tun A := fun s =>
  let '(b, r) := f (base s) in (set_base b s, r).

(** [_send_to_all_peers]. *)
Definition send_to_all_peers (data : bytes) : SE tun unit := fun s =>
  se_iter (fun i =>
    _ ← se_modify (fun s => Tun (base s) (all_peers s) (tr s) (pkt_in_sem s) (pkt_out_sem s)
                              (all_out s ++ [(i, data)]));
    match all_write i data with Some e => se_raise e | None => mret tt end) (all_peers s) s.

(** The [while] loop of [write], from offset [i]: the packets handed to the
    transport; the loop stops at a corrupted header or a truncated body. *)
Fixpoint unpack_batch (fuel : nat) (msg : bytes) (i : Z) : result (list bytes) :=
  match fuel with
  | O => Raise (Exception_ "out of fuel")
  | S f =>
      if i <? blen msg then
        if blen msg - i <? 2 then Ok []
        else
          match unpack Big [CUint 2] (py_slice msg i (i + 2)) with
          | Ok [PInt pkt_size] =>
              let i := i + 2 in
              if blen msg - i <? pkt_size then Ok []
              else pkts ← unpack_batch f msg (i + pkt_size);
                   Ok (py_slice msg i (i + pkt_size) :: pkts)
          | Ok _ => Raise StructError
          | Raise e => Raise e
          end
      else Ok []
  end.

(** [write]; an iteration consumes at least the two bytes of a header. *)
Definition write (msg : bytes) : SE tun unit :=
  _ ← se_modify (fun s => set_sems 2 (pkt_out_sem s) s);
  s ← se_get;
  match tr s, msg with
  | Some t, _ :: _ =>
      pkts ← se_lift (unpack_batch (S (length msg)) msg 0);
      se_modify (set_tr (Some (fold_left (fun t d => transport_write d t) pkts t)))
  | _, _ => mret tt
  end.

(** [send_keepalive]. *)
Definition send_keepalive : SE tun unit :=
  s ← se_get;
  _ ← (if pkt_in_sem s =? 0 then send_to_all_peers []
       else if pkt_out_sem s =? 0 then with_base (send_to_peer peer_write [])
       else mret tt);
  se_modify (fun s => set_sems (if pkt_in_sem s >? 0 then pkt_in_sem s - 1 else pkt_in_sem s)
                               (if pkt_out_sem s >? 0 then pkt_out_sem s - 1 else pkt_out_sem s) s).

(** [struct.pack('!H', len(data)) + data]. *)
Definition frame (data : bytes) : result bytes :=
  h ← pack Big [CUint 2] [PInt (blen data)]; Ok (h ++ data).

(** [dataReceived]. *)
Definition dataReceived (data : bytes) : SE tun unit :=
  _ ← se_modify (fun s => set_sems (pkt_in_sem s) 1 s);
  m ← se_lift (frame data);
  with_base (messageReceived peer_write m).

(** [_cleanup] while the keepalive loop runs or not: the loop is stopped first, and
    stopping a loop that does not run fails an assertion. *)
Definition tun_cleanup (keepalive : bool) : SE tun unit :=
  if keepalive then with_base cleanup else se_raise AssertionError.

(** ** Framing *)

(** A packet with its big-endian length. *)
Definition framed (d : bytes) : bytes := [blen d / 256; blen d mod 256] ++ d.

Definition packet_ok (d : bytes) : Prop := blen d < 65536.

Lemma frame_framed d : packet_ok d -> frame d = Ok (framed d).
Proof using Type.
  unfold packet_ok. intros Hd. pose proof (blen_nonneg d). unfold frame. cbn [pack].
  assert (Hp : pack_code Big (CUint 2) (PInt (blen d)) = Ok [blen d / 256; blen d mod 256]).
  { unfold pack_code. change (2 ^ (8 * Z.of_nat 2)) with 65536.
    destruct (Z.leb_spec 0 (blen d)), (Z.ltb_spec (blen d) 65536); try lia. cbn [andb].
    unfold encode, be_encode. cbn [le_encode]. rewrite (Z.mod_small (blen d / 256)); [done |].
    split; [apply Z.div_pos; lia | apply Z.div_lt_upper_bound; lia]. }
  rewrite Hp. done.
Qed.

Lemma blen_framed d : blen (framed d) = 2 + blen d.
Proof using Type. unfold framed. rewrite blen_app. done. Qed.

Lemma unpack_len x y : unpack Big [CUint 2] [x; y] = Ok [PInt (256 * x + y)].
Proof using Type.
  unfold unpack. rewrite decide_True by done.
  cbn [unpack_aux take drop code_size unpack_code]. unfold decode, be_decode. cbn. do 3 f_equal. lia.
Qed.

(** Unpacking a batch of framed packets returns the packets. *)
Lemma unpack_batch_framed pkts pre fuel :
  Forall packet_ok pkts -> (length pkts < fuel)%nat ->
  unpack_batch fuel (pre ++ concat (map framed pkts)) (blen pre) = Ok pkts.
Proof using Type.
  intros Hp. revert pre fuel. induction Hp as [|d pkts Hd _ IH]; intros pre [|fuel] Hf; try (cbn in Hf; lia).
  - cbn [map concat unpack_batch]. rewrite app_nil_r, Z.ltb_irrefl. done.
  - cbn [map concat unpack_batch]. set (rest := concat (map framed pkts)).
    pose proof (blen_nonneg d). pose proof (blen_nonneg rest).
    assert (Hl : blen (pre ++ framed d ++ rest) = blen pre + 2 + blen d + blen rest)
      by (rewrite !blen_app, blen_framed; lia).
    rewrite Hl. destruct (Z.ltb_spec (blen pre) (blen pre + 2 + blen d + blen rest)); [| lia].
    destruct (Z.ltb_spec (blen pre + 2 + blen d + blen rest - blen pre) 2); [lia |].
    assert (Hs : py_slice (pre ++ framed d ++ rest) (blen pre) (blen pre + 2) = [blen d / 256; blen d mod 256]).
    { unfold framed. rewrite <- app_assoc. rewrite (slice_nth pre _ 2); [done |].
      rewrite !blen_app. change (blen [blen d / 256; blen d mod 256]) with 2. lia. }
    rewrite Hs, unpack_len. rewrite <- (Z.div_mod (blen d) 256) by lia.
    destruct (Z.ltb_spec (blen pre + 2 + blen d + blen rest - (blen pre + 2)) (blen d)); [lia |].
    set (pre' := pre ++ framed d).
    assert (Hpre : pre ++ framed d ++ rest = pre' ++ rest) by (unfold pre'; by rewrite app_assoc).
    assert (Hi : blen pre + 2 + blen d = blen pre') by (unfold pre'; rewrite blen_app, blen_framed; lia).
    assert (Hb : py_slice (pre ++ framed d ++ rest) (blen pre + 2) (blen pre + 2 + blen d) = d).
    { unfold framed. replace (pre ++ ([blen d / 256; blen d mod 256] ++ d) ++ rest)
        with ((pre ++ [blen d / 256; blen d mod 256]) ++ d ++ rest) by (by rewrite <- !app_assoc).
      replace (blen pre + 2) with (blen (pre ++ [blen d / 256; blen d mod 256])) by (by rewrite blen_app).
      rewrite slice_nth by (rewrite blen_app; lia). apply take_blen_app. }
    rewrite Hb, Hi, Hpre. unfold rest. rewrite IH by (cbn in Hf; lia). done.
Qed.

(** ** Receiving *)

Lemma unpack_batch_total fuel msg i :
  bytes_ok msg -> 0 <= i <= blen msg -> blen msg - i < Z.of_nat fuel -> exists pkts, unpack_batch fuel msg i = Ok pkts.
Proof using Type.
  intros Hb. revert i. induction fuel as [|fuel IH]; intros i Hi Hf; cbn [unpack_batch].
  - lia.
  - destruct (Z.ltb_spec i (blen msg)); [| eauto].
    destruct (Z.ltb_spec (blen msg - i) 2); [eauto |].
    assert (Hs : exists x y, py_slice msg i (i + 2) = [x; y] /\ 0 <= x /\ 0 <= y).
    { rewrite <- (take_drop (Z.to_nat i) msg). set (pre := take (Z.to_nat i) msg). set (l := drop (Z.to_nat i) msg).
      assert (Hp : blen pre = i) by (apply blen_take; lia).
      assert (Hl : blen l = blen msg - i) by (apply blen_drop; lia).
      assert (Hbl : bytes_ok l) by (by apply bytes_ok_drop).
      rewrite <- Hp. rewrite slice_nth by lia.
      destruct l as [|x [|y l]]; [rewrite blen_nil in Hl; lia | rewrite blen_cons, blen_nil in Hl; lia |].
      rewrite !bytes_ok_cons in Hbl. exists x, y. split; [done | lia]. }
    destruct Hs as (x & y & -> & Hx & Hy). rewrite unpack_len.
    destruct (Z.ltb_spec (blen msg - (i + 2)) (256 * x + y)); [eauto |].
    destruct (IH (i + 2 + (256 * x + y))) as [pkts ->]; [lia | lia |]. cbn. eauto.
Qed.

(** Whatever arrives from the radio, [write] never raises and never loops;
    a corrupted or truncated batch only ends the unpacking.  Every arrival, also
    an empty keepalive, restarts the receive semaphore. *)
Theorem tun_write_total msg s :
  bytes_ok msg -> exists s', write msg s = (s', Ok tt) /\ pkt_in_sem s' = 2 /\ base s' = base s.
Proof using Type.
  intros Hb. unfold write. se. destruct (tr s) as [t|] eqn:Et; cbn [tr set_sems]; rewrite Et;
    [| by eexists]. destruct msg as [|x msg]; [by eexists |].
  destruct (unpack_batch_total (S (length (x :: msg))) (x :: msg) 0 Hb) as [pkts ->];
    [pose proof (blen_nonneg (x :: msg)); lia | unfold blen; lia |]. by eexists.
Qed.

Lemma transport_write_all pkts t :
  connected t = true -> write_disconnected t = false -> Forall (fun d => d <> []) pkts ->
  let t' := fold_left (fun t d => transport_write d t) pkts t in
  queue t' = queue t ++ pkts /\ connected t' = true /\ write_disconnected t' = false /\ mtu t' = mtu t.
Proof using Type.
  intros Hc Hw Hp. revert t Hc Hw. induction Hp as [|d pkts Hd _ IH]; intros t Hc Hw; cbn [fold_left].
  - by rewrite app_nil_r.
  - unfold transport_write at 2 4 6 8. rewrite Hc, Hw. cbn [negb orb]. destruct d as [|x d]; [done |].
    destruct (IH (Transport (queue t ++ [x :: d]) (mtu t) true false true)) as (-> & Hr); [done.. |].
    cbn [queue]. rewrite <- app_assoc. done.
Qed.

(** One batch of framed packets is delivered to the transport. *)
Lemma write_framed pkts s t :
  Forall packet_ok pkts -> Forall (fun d => d <> []) pkts ->
  tr s = Some t -> connected t = true -> write_disconnected t = false ->
  exists s' t', write (concat (map framed pkts)) s = (s', Ok tt) /\ tr s' = Some t' /\
    queue t' = queue t ++ pkts /\ connected t' = true /\ write_disconnected t' = false.
Proof using Type.
  intros Hp Hne Ht Hc Hw. unfold write. se. cbn [tr set_sems]. rewrite Ht.
  destruct (concat (map framed pkts)) as [|x msg] eqn:Em.
  - exists (set_sems 2 (pkt_out_sem s) s), t. split_and!; try done.
    destruct pkts; [by rewrite app_nil_r | done].
  - rewrite <- Em.
    pose proof (unpack_batch_framed pkts [] (S (length (concat (map framed pkts)))) Hp) as Hu.
    cbn [app] in Hu. change (blen []) with 0 in Hu. rewrite Hu.
    + destruct (transport_write_all pkts t Hc Hw Hne) as (Hq & Hc' & Hw' & _).
      eexists _, _. split; [reflexivity |]. split; [reflexivity |]. done.
    + clear. induction pkts as [|d pkts IH]; cbn; [lia |]. rewrite length_app. cbn in *. lia.
Qed.

(** ** Sending *)

(** A batch: the framed packets of one datagram; a keepalive is the empty batch. *)
Definition batch (g : list bytes) : bytes := concat (map framed g).

Section Send.
Context (mtu_ : Z).
Context (Hpw : forall h d, peer_write h d = None) (Haw : forall i d, all_write i d = None).
Context (Hmtu : 2 <= mtu_ <= 65537).

(** A tunnel end whose datagrams to the peer were the batches [gs] and whose
    queue holds the packets [q]. *)
Definition tun_ok (s : tun) (gs : list (list bytes)) (q : list bytes) : Prop :=
  agg_ok mtu_ (base s) /\ peer_out (base s) = map batch gs /\ agg_queue (base s) = map framed q.

Lemma framed_nonempty d : framed d <> [].
Proof using Type. done. Qed.

Lemma send_all_ok data s :
  exists s', send_to_all_peers data s = (s', Ok tt) /\ base s' = base s /\ tr s' = tr s /\
    pkt_in_sem s' = pkt_in_sem s /\ pkt_out_sem s' = pkt_out_sem s /\ all_peers s' = all_peers s /\
    all_out s' = all_out s ++ map (fun i => (i, data)) (all_peers s).
Proof using Haw.
  unfold send_to_all_peers. generalize (all_peers s) at 1 3. intros l. revert s.
  induction l as [|i l IH]; intros s; cbn [se_iter].
  - exists s. cbn. by rewrite app_nil_r.
  - se. rewrite Haw.
    destruct (IH (Tun (base s) (all_peers s) (tr s) (pkt_in_sem s) (pkt_out_sem s) (all_out s ++ [(i, data)])))
      as (s' & Hs & Hrest).
    unfold mbind, SE_bind in Hs. se. rewrite Hs. exists s'. cbn in Hrest. rewrite <- app_assoc in Hrest. done.
Qed.

Lemma init_tun_ok timeout peers r : timeout <> 0 -> tun_ok (init_tun mtu_ (Some timeout) peers r) [] [].
Proof using Hmtu. intros Ht. split; [| done]. split; cbn; try done; [by apply Z.eqb_neq | lia]. Qed.

(** A packet of the device: it waits, or the packets before it are sent. *)
Lemma data_step d s gs q : tun_ok s gs q -> blen d <= mtu_ - 2 ->
  exists s' gs' q', dataReceived d s = (s', Ok tt) /\ tun_ok s' (gs ++ gs') q' /\ concat gs' ++ q' = q ++ [d] /\ tr s' = tr s.
Proof using Hpw Hmtu.
  intros (Hok & Hpo & Hq) Hd. unfold dataReceived. se. rewrite frame_framed by (unfold packet_ok; lia).
  unfold with_base. cbn [base set_sems].
  destruct (messageReceived_spec peer_write mtu_ Hpw (framed d) (base s) Hok (framed_nonempty d)) as (b' & -> & Hok' & Hcase).
  rewrite blen_framed in Hcase. destruct (Z.gtb_spec (2 + blen d) mtu_); [lia |].
  destruct (agg_queue_size (base s) + (2 + blen d) >? mtu_).
  - destruct Hcase as (Hpo' & Hq' & _). eexists _, [q], [d]. split; [done |]. split; [| cbn; by rewrite app_nil_r].
    split; [done |]. cbn [base set_base]. by rewrite Hpo', Hq', Hpo, Hq, map_app.
  - destruct Hcase as (Hpo' & Hq'). eexists _, [], (q ++ [d]). split; [done |]. split; [| done].
    split; [done |]. cbn [base set_base]. by rewrite Hpo', Hq', Hpo, Hq, !map_app, app_nil_r.
Qed.

(** The aggregation timer: the queue is sent. *)
Lemma timer_step t s gs q : tun_ok s gs q -> agg_queue_timer (base s) = Some t ->
  exists s', with_base (timer_fires peer_write t) s = (s', Ok tt) /\ tun_ok s' (gs ++ [q]) [] /\ tr s' = tr s.
Proof using Hpw Hmtu.
  intros (Hok & Hpo & Hq) Et. unfold with_base. rewrite (timer_fires_spec peer_write mtu_ Hpw t (base s) Hok Et).
  eexists. split; [done |]. split; [| done]. split; [apply emptied_ok; [done | lia] |].
  cbn [base set_base peer_out emptied set_queue add_out set_timer set_reactor agg_queue]. by rewrite Hpo, Hq, map_app.
Qed.

Lemma agg_ok_add_out d p : agg_ok mtu_ p -> agg_ok mtu_ (add_out d p).
Proof using Type. intros [? ? ? ? ? ? ?]. split; done. Qed.

(** A keepalive tick: nothing, or an empty batch. *)
Lemma tick_step s gs q : tun_ok s gs q ->
  exists s' gs', send_keepalive s = (s', Ok tt) /\ tun_ok s' (gs ++ gs') q /\ concat gs' = [] /\ tr s' = tr s.
Proof using Hpw Haw.
  intros (Hok & Hpo & Hq). unfold send_keepalive. se. destruct (pkt_in_sem s =? 0).
  - destruct (send_all_ok [] s) as (s' & -> & Hb & Ht & _). eexists _, []. split; [done |]. unfold tun_ok.
    cbn [base set_sems tr]. rewrite Hb, app_nil_r. done.
  - destruct (pkt_out_sem s =? 0).
    + unfold with_base. rewrite (send_to_peer_ok peer_write Hpw [] (base s)) by apply Hok.
      eexists _, [[]]. split; [done |]. split; [| done]. split; [by apply agg_ok_add_out |].
      cbn [base set_sems set_base peer_out add_out agg_queue]. by rewrite Hpo, Hq, map_app.
    + eexists _, []. split; [done |]. unfold tun_ok. rewrite app_nil_r. done.
Qed.

End Send.

(** ** Keepalives *)

Fixpoint ticks (n : nat) (s : tun) : tun :=
  match n with O => s | S n' => ticks n' (fst (send_keepalive s)) end.

(** One tick. *)
Lemma tick_spec s :
  (forall h d, peer_write h d = None) -> (forall i d, all_write i d = None) ->
  peer (base s) = true -> 0 <= pkt_in_sem s -> 0 <= pkt_out_sem s ->
  let s' := fst (send_keepalive s) in
  snd (send_keepalive s) = Ok tt /\ peer (base s') = true /\ all_peers s' = all_peers s /\
  pkt_in_sem s' = Z.max 0 (pkt_in_sem s - 1) /\ pkt_out_sem s' = Z.max 0 (pkt_out_sem s - 1) /\
  all_out s' = all_out s ++ (if pkt_in_sem s =? 0 then map (fun i => (i, [])) (all_peers s) else []) /\
  peer_out (base s') = peer_out (base s) ++
    (if negb (pkt_in_sem s =? 0) && (pkt_out_sem s =? 0) then [[]] else []).
Proof using Type.
  intros Hpw Haw Hpe Hi Ho. unfold send_keepalive. se.
  assert (Hdec : forall z, 0 <= z -> (if z >? 0 then z - 1 else z) = Z.max 0 (z - 1))
    by (intros z Hz; destruct (Z.gtb_spec z 0); lia).
  destruct (pkt_in_sem s =? 0).
  - destruct (send_all_ok Haw [] s) as (s1 & -> & Hb & _ & Hs1 & Hs2 & Hap & Hao).
    cbn. rewrite Hb, Hs1, Hs2, Hap, Hao, !Hdec, !app_nil_r by done. done.
  - destruct (pkt_out_sem s =? 0).
    + unfold with_base. rewrite (send_to_peer_ok peer_write Hpw [] (base s) Hpe). cbn.
      rewrite !Hdec, app_nil_r by done. done.
    + cbn. rewrite !Hdec, !app_nil_r by done. done.
Qed.

(** The keepalive schedule.  Counting ticks since the last arrival from the
    peer (which sets the receive semaphore to 2) and the last packet sent (which
    sets the send semaphore to 1): all antennas are used exactly on the ticks
    that find two full intervals without reception, and before that an empty
    packet goes to the current peer exactly on the ticks that find no packet
    sent in the last interval. *)
Theorem keepalive_schedule n s (k o : nat) :
  (forall h d, peer_write h d = None) -> (forall i d, all_write i d = None) ->
  peer (base s) = true -> pkt_in_sem s = Z.of_nat k -> pkt_out_sem s = Z.of_nat o ->
  all_out (ticks n s) =
    all_out s ++ concat (replicate (n - k) (map (fun i => (i, [])) (all_peers s))) /\
  peer_out (base (ticks n s)) = peer_out (base s) ++ replicate (n `min` k - o) [].
Proof using Type.
  intros Hpw Haw. revert s k o. induction n as [|n IH]; intros s k o Hpe Hk Ho.
  - cbn. by rewrite !app_nil_r.
  - destruct (tick_spec s Hpw Haw Hpe ltac:(lia) ltac:(lia)) as (_ & Hpe' & Hap & Hi' & Ho' & Hao & Hpo).
    cbn [ticks]. destruct (IH (fst (send_keepalive s)) (pred k) (pred o)) as [Ha Hb];
      [done | rewrite Hi'; lia | rewrite Ho'; lia |].
    rewrite Ha, Hb, Hao, Hpo, Hap, Hk, Ho, <- !app_assoc. clear. split.
    + destruct k as [|k].
      * change (Z.of_nat 0 =? 0) with true. cbn iota. cbn [pred]. rewrite Nat.sub_0_r. done.
      * destruct (Z.eqb_spec (Z.of_nat (S k)) 0); [lia |]. done.
    + f_equal. destruct k as [|k].
      * change (Z.of_nat 0 =? 0) with true. cbn. rewrite Nat.min_0_r. done.
      * destruct (Z.eqb_spec (Z.of_nat (S k)) 0); [lia |]. cbn [negb andb pred].
        destruct o as [|o].
        -- change (Z.of_nat 0 =? 0) with true. cbn [pred]. rewrite !Nat.sub_0_r. done.
        -- destruct (Z.eqb_spec (Z.of_nat (S o)) 0); [lia |]. done.
Qed.

End Protocol.

(** ** Concrete runs *)

Definition demo_tun : tun (R := list call_status) (T := nat) := init_tun 30 (Some 5) [0%nat; 1%nat] [].
Lemma tun_write_total_witness :
  exists s', write [0; 9; 1; 2] demo_tun = (s', Ok tt) /\ pkt_in_sem s' = 2 /\ base s' = base demo_tun.
Proof. apply tun_write_total. apply bytes_ok_forallb. vm_compute. reflexivity. Defined.

Lemma keepalive_schedule_witness :
  all_out (ticks quiet calm 3 (fst (write [] demo_tun))) = [] ++ concat (replicate 1 [(0%nat, []); (1%nat, [])]) /\
  peer_out (base (ticks quiet calm 3 (fst (write [] demo_tun)))) = [] ++ replicate 2 [].
Proof.
  apply (keepalive_schedule quiet calm 3 (fst (write [] demo_tun)) 2 0); reflexivity.
Defined.

End Tuntap.
