(* ===== verification/PyDict.v ===== *)
(** Python dictionaries: association lists without duplicate keys, in
    insertion order.  Assigning to a present key keeps its place. *)
From Stdlib Require Import ZArith Lia Bool.
From stdpp Require Import base list numbers gmap strings.
From S2P Require Import Prelude.

Module PyDict.
Section Dict.
Context {K V : Type} `{EqDecision K}.

Definition dict : Type := list (K * V).

Definition keys (d : dict) : list K := d.*1.
Definition values (d : dict) : list V := d.*2.

(** [d.get(k)]. *)
Fixpoint get (d : dict) (k : K) : option V :=
  match d with
  | [] => None
  | (k', v) :: d' => if decide (k = k') then Some v else get d' k
  end.

(** [d[k]]. *)
Definition item (d : dict) (k : K) : result V := of_option KeyError (get d k).

(** [d[k] = v]. *)
Fixpoint set (d : dict) (k : K) (v : V) : dict :=
  match d with
  | [] => [(k, v)]
  | (k', v') :: d' => if decide (k = k') then (k', v) :: d' else (k', v') :: set d' k v
  end.

(** [d.pop(k)]: the value and what is left. *)
Fixpoint del (d : dict) (k : K) : dict :=
  match d with
  | [] => []
  | (k', v') :: d' => if decide (k = k') then d' else (k', v') :: del d' k
  end.

Definition pop (d : dict) (k : K) : result (V * dict) := v ← item d k; Ok (v, del d k).

(** [dict(pairs)]. *)
Definition of_pairs (l : list (K * V)) : dict := fold_left (fun d p => set d p.1 p.2) l [].

(** The dictionary is one: its keys are distinct. *)
Definition ok (d : dict) : Prop := NoDup (keys d).

Lemma get_set d k v k' : get (set d k v) k' = if decide (k' = k) then Some v else get d k'.
Proof.
  induction d as [|[k1 v1] d IH]; cbn; [done |].
  repeat (case_decide; simplify_eq; cbn); try done.
Qed.

Lemma get_set_eq d k v : get (set d k v) k = Some v.
Proof. rewrite get_set. by case_decide. Qed.

Lemma get_set_ne d k v k' : k' <> k -> get (set d k v) k' = get d k'.
Proof. intros. rewrite get_set. by case_decide. Qed.

Lemma get_None d k : get d k = None <-> k ∉ keys d.
Proof.
  unfold keys. induction d as [|[k1 v1] d IH]; cbn; [split; [set_solver | done] |].
  case_decide; [set_solver | rewrite IH; set_solver].
Qed.

Lemma get_In d k v : get d k = Some v -> (k, v) ∈ d.
Proof.
  induction d as [|[k1 v1] d IH]; cbn; [done |]. case_decide; [| set_solver].
  intros [= <-]. subst. constructor.
Qed.

Lemma In_get d k v : ok d -> (k, v) ∈ d -> get d k = Some v.
Proof.
  unfold ok, keys. induction d as [|[k1 v1] d IH]; cbn; [set_solver |].
  intros [Hn Hd]%NoDup_cons Hin. case_decide as Hk.
  - subst. apply elem_of_cons in Hin as [[= ->] | Hin]; [done |].
    exfalso. apply Hn. apply list_elem_of_fmap. by exists (k1, v).
  - apply elem_of_cons in Hin as [[= -> ->] | Hin]; [done | auto].
Qed.

Lemma set_keys d k v : keys (set d k v) = if decide (k ∈ keys d) then keys d else keys d ++ [k].
Proof.
  unfold keys. induction d as [|[k1 v1] d IH]; cbn; [by rewrite decide_False by set_solver |].
  destruct (decide (k = k1)) as [Hk | Hk]; cbn.
  - by rewrite decide_True by (subst; constructor).
  - rewrite IH. destruct (decide (k ∈ d.*1)).
    + by rewrite decide_True by set_solver.
    + by rewrite decide_False by set_solver.
Qed.

Lemma ok_nil : ok [].
Proof. constructor. Qed.

Lemma ok_set d k v : ok d -> ok (set d k v).
Proof.
  unfold ok. rewrite set_keys. case_decide; [done |]. intros.
  apply NoDup_app. split; [done |]. split; [set_solver | apply NoDup_singleton].
Qed.

Lemma get_fold_set l d k :
  get (fold_left (fun d p => set d p.1 p.2) l d) k
  = match get (rev l) k with Some v => Some v | None => get d k end.
Proof.
  revert d. induction l as [|[k1 v1] l IH]; intros d; cbn; [done |].
  rewrite IH, get_set. clear IH. cbn.
  assert (Hsnoc : forall r : dict, get (r ++ [(k1, v1)]) k
    = match get r k with Some v => Some v | None => if decide (k = k1) then Some v1 else None end).
  { induction r as [|[k2 v2] r IH]; cbn; [done |]. by destruct (decide (k = k2)). }
  rewrite Hsnoc. destruct (get (rev l) k); [done |]. by case_decide.
Qed.

Lemma get_rev d k : ok d -> get (rev d) k = get d k.
Proof.
  intros Hd. assert (Hr : ok (rev d)).
  { unfold ok, keys in *. eapply NoDup_Permutation_proper; [| exact Hd]. by rewrite <- Permutation_rev. }
  destruct (get d k) as [v|] eqn:E.
  - apply In_get; [done |]. apply get_In in E. by rewrite <- (Permutation_rev d).
  - apply get_None. apply get_None in E. unfold keys in *. by rewrite <- (Permutation_rev d).
Qed.

(** [d.update(add)]. *)
Lemma get_update d add k : ok add ->
  get (fold_left (fun d p => set d p.1 p.2) add d) k = match get add k with Some v => Some v | None => get d k end.
Proof. intros Ha. by rewrite get_fold_set, get_rev. Qed.

Lemma del_keys d k k' : k' ∈ keys (del d k) -> k' ∈ keys d.
Proof. unfold keys. induction d as [|[k1 v1] d IH]; cbn; [done |]. case_decide; set_solver. Qed.

Lemma ok_del d k : ok d -> ok (del d k).
Proof.
  unfold ok. induction d as [|[k1 v1] d IH]; cbn; [done |]. rewrite NoDup_cons. intros [Hk Hd].
  case_decide; [done |]. unfold keys. cbn. apply NoDup_cons. split; [| by apply IH].
  intros Hin. apply Hk. by apply del_keys in Hin.
Qed.

Lemma get_del d k k' : ok d -> get (del d k) k' = if decide (k' = k) then None else get d k'.
Proof.
  unfold ok. induction d as [|[k1 v1] d IH]; cbn; [by case_decide |]. rewrite NoDup_cons. intros [Hk Hd].
  destruct (decide (k = k1)) as [-> | Hne].
  - case_decide; [subst; by apply get_None |]. done.
  - cbn. rewrite IH by done. destruct (decide (k' = k1)) as [-> |]; [| done].
    by rewrite decide_False.
Qed.

Lemma pop_ok d k v d' : pop d k = Ok (v, d') -> get d k = Some v /\ d' = del d k.
Proof. unfold pop, item. destruct (get d k); cbn; [| done]. by intros [= <- <-]. Qed.

Lemma ok_update d add : ok d -> ok (fold_left (fun d p => set d p.1 p.2) add d).
Proof. revert d. induction add as [|[k v] add IH]; intros d Hd; cbn; [done |]. apply IH. by apply ok_set. Qed.

Lemma ok_of_pairs l : ok (of_pairs l).
Proof.
  unfold of_pairs. generalize ok_nil. generalize (@nil (K * V)).
  induction l as [|p l IH]; intros d Hd; cbn; [done |]. by apply IH, ok_set.
Qed.

(** Distinct keys: the dictionary is the list of its pairs. *)
Lemma of_pairs_id l : NoDup l.*1 -> of_pairs l = l.
Proof.
  unfold of_pairs. intros Hl.
  assert (H : forall d, (forall k, k ∈ l.*1 -> k ∉ keys d) ->
    fold_left (fun d p => set d p.1 p.2) l d = d ++ l).
  { induction l as [|[k v] l IH]; intros d Hd; cbn; [by rewrite app_nil_r |].
    cbn in Hl. apply NoDup_cons in Hl as [Hk Hl].
    assert (Hs : set d k v = d ++ [(k, v)]).
    { clear IH. specialize (Hd k ltac:(set_solver)). unfold keys in Hd.
      induction d as [|[k1 v1] d IH]; cbn in *; [done |].
      rewrite decide_False by set_solver. rewrite IH by set_solver. done. }
    rewrite Hs, IH; [by rewrite <- app_assoc | done |].
    intros k' Hk' Hin. unfold keys in Hin. rewrite fmap_app in Hin. cbn in Hin.
    specialize (Hd k' ltac:(set_solver)). unfold keys in Hd. set_solver. }
  apply H. set_solver.
Qed.
End Dict.
Arguments dict : clear implicits.
End PyDict.

#[export] Hint Resolve PyDict.ok_nil PyDict.ok_set PyDict.ok_of_pairs : py.
