(* ===== verification/PyNum.v ===== *)
(** Python numbers as the antenna selector mixes them: integers and binary64
    floats.  A finite float is a pair [m * 2^e]; every operation rounds its
    exact result to the nearest double, ties to even.  Comparison of an integer
    with a float is exact, as in Python.  The sign of a zero is not kept: no
    operation used here lets it be observed. *)
From Stdlib Require Import ZArith Lia Bool.
From stdpp Require Import base list numbers.
From S2P Require Import Prelude.
From S2P Require Import PyFloat.

Module PyNum.

Inductive num :=
| NInt (z : Z)
| NFin (m e : Z)
| NInf (neg : bool)
| NNaN.

(** The double nearest to [m * 2^e]. *)
Definition round64 (m e : Z) : num :=
  if m =? 0 then NFin 0 0
  else
    let q := Z.max (Z.log2 (Z.abs m) + e - 52) (-1074) in
    let r := PyFloat.rne (Z.abs m) (q - e) in
    if 2 ^ 53 <=? r * 2 ^ (q - 971) then NInf (m <? 0)
    else NFin (Z.sgn m * r) q.

(** The float operand an integer becomes in mixed arithmetic. *)
Definition to_float (a : num) : result num :=
  match a with
  | NInt z => match round64 z 0 with NInf _ => Raise OverflowError | f => Ok f end
  | f => Ok f
  end.

Definition neg (a : num) : num :=
  match a with
  | NInt z => NInt (- z)
  | NFin m e => NFin (- m) e
  | NInf n => NInf (negb n)
  | NNaN => NNaN
  end.

Definition sign_neg (a : num) : bool :=
  match a with NInt z => z <? 0 | NFin m _ => m <? 0 | NInf n => n | NNaN => false end.

Definition is_zero (a : num) : bool :=
  match a with NInt z => z =? 0 | NFin m _ => m =? 0 | _ => false end.

Definition fmul (a b : num) : num :=
  match a, b with
  | NNaN, _ | _, NNaN => NNaN
  | NInf _, _ | _, NInf _ =>
      if is_zero a || is_zero b then NNaN else NInf (xorb (sign_neg a) (sign_neg b))
  | NFin m1 e1, NFin m2 e2 => round64 (m1 * m2) (e1 + e2)
  | _, _ => NNaN
  end.

Definition fadd (a b : num) : num :=
  match a, b with
  | NNaN, _ | _, NNaN => NNaN
  | NInf n, NInf k => if eqb n k then NInf n else NNaN
  | NInf n, _ | _, NInf n => NInf n
  | NFin m1 e1, NFin m2 e2 =>
      let e := Z.min e1 e2 in round64 (m1 * 2 ^ (e1 - e) + m2 * 2 ^ (e2 - e)) e
  | _, _ => NNaN
  end.

(** [a * b] and [a - b]. *)
Definition mul (a b : num) : result num :=
  match a, b with
  | NInt x, NInt y => Ok (NInt (x * y))
  | _, _ => x ← to_float a; y ← to_float b; Ok (fmul x y)
  end.

Definition sub (a b : num) : result num :=
  match a, b with
  | NInt x, NInt y => Ok (NInt (x - y))
  | _, _ => x ← to_float a; y ← to_float b; Ok (fadd x (neg y))
  end.

(** The exact value of a finite number as [m * 2^e]. *)
Definition dyadic (a : num) : Z * Z :=
  match a with NInt z => (z, 0) | NFin m e => (m, e) | _ => (0, 0) end.

(** [a < b] and [a <= b]: false when one side is a NaN. *)
Definition compare (c : Z -> Z -> bool) (a b : num) : bool :=
  match a, b with
  | NNaN, _ | _, NNaN => false
  | NInf n, NInf k => c (if n then -1 else 1) (if k then -1 else 1)
  | NInf n, _ => c (if n then -1 else 1) 0
  | _, NInf k => c 0 (if k then -1 else 1)
  | _, _ =>
      let '(m1, e1) := dyadic a in
      let '(m2, e2) := dyadic b in
      let e := Z.min e1 e2 in c (m1 * 2 ^ (e1 - e)) (m2 * 2 ^ (e2 - e))
  end.

Definition lt := compare Z.ltb.
Definition le := compare Z.leb.

(** [max(a, b)]: the first argument unless the second is greater. *)
Definition max (a b : num) : num := if lt a b then b else a.

(** [a + b], [a == b], [min(a, b)]: the first argument unless the second is less. *)
Definition add (a b : num) : result num :=
  match a, b with
  | NInt x, NInt y => Ok (NInt (x + y))
  | _, _ => x ← to_float a; y ← to_float b; Ok (fadd x y)
  end.

Definition eqb := compare Z.eqb.
Definition min (a b : num) : num := if lt b a then b else a.

(** The double nearest to the quotient of [m1 * 2^e1] by [m2 * 2^e2]: enough
    quotient bits, and one more for the remainder, to round correctly. *)
Definition quotient (m1 e1 m2 e2 : Z) : num :=
  let k := Z.max 0 (Z.log2 (Z.abs m2) - Z.log2 (Z.abs m1) + 64) in
  let q := Z.abs m1 * 2 ^ k / Z.abs m2 in
  let s := if Z.abs m1 * 2 ^ k mod Z.abs m2 =? 0 then 0 else 1 in
  round64 (Z.sgn m1 * Z.sgn m2 * (2 * q + s)) (e1 - e2 - k - 1).

Definition fdiv (a b : num) : num :=
  match a, b with
  | NNaN, _ | _, NNaN => NNaN
  | NInf n, NInf _ => NNaN
  | NInf n, _ => NInf (xorb n (sign_neg b))
  | _, NInf _ => NFin 0 0
  | NFin m1 e1, NFin m2 e2 => quotient m1 e1 m2 e2
  | _, _ => NNaN
  end.

(** [a / b]; two integers are divided before rounding. *)
Definition div (a b : num) : result num :=
  match a, b with
  | NInt x, NInt y =>
      if y =? 0 then Raise ZeroDivisionError
      else match quotient x 0 y 0 with NInf _ => Raise OverflowError | f => Ok f end
  | _, _ => x ← to_float a; y ← to_float b; if is_zero y then Raise ZeroDivisionError else Ok (fdiv x y)
  end.

(** [int(a)]. *)
Definition trunc (a : num) : result Z :=
  match a with
  | NInt z => Ok z
  | NFin m e => Ok (if 0 <=? e then m * 2 ^ e else Z.quot m (2 ^ (- e)))
  | NInf _ => Raise OverflowError
  | NNaN => Raise ValueError
  end.

(** The number with the given binary64 bits. *)
Definition of_bits (b : Z) : num :=
  let neg := 2 ^ 63 <=? b in
  let a := b mod 2 ^ 63 in
  if a =? PyFloat.inf64 then NInf neg
  else if PyFloat.inf64 <? a then NNaN
  else let '(m, e) := PyFloat.decode_mag 53 (-1074) a in NFin (if neg then - m else m) e.

(** ** Rounding never passes a representable integer *)

Lemma rne_le m s k : 0 < s -> m <= k * 2 ^ s -> PyFloat.rne m s <= k.
Proof.
  intros Hs Hm. unfold PyFloat.rne. destruct (Z.leb_spec s 0); [lia |].
  assert (Hp : 0 < 2 ^ s) by (apply Z.pow_pos_nonneg; lia).
  assert (Hh : 0 < 2 ^ (s - 1)) by (apply Z.pow_pos_nonneg; lia).
  pose proof (Z.div_mod m (2 ^ s) ltac:(lia)) as Hd.
  pose proof (Z.mod_pos_bound m (2 ^ s) Hp) as Hr.
  set (q := m / 2 ^ s) in *. set (r := m mod 2 ^ s) in *.
  assert (q <= k) by (apply Z.div_le_upper_bound; lia).
  destruct (Z.eq_dec q k) as [-> | Hne].
  - assert (r = 0) by nia.
    destruct (Z.ltb_spec (2 ^ (s - 1)) r); [lia |].
    destruct (Z.eqb_spec r (2 ^ (s - 1))); [lia |]. cbn. lia.
  - case_match; lia.
Qed.

Lemma compare_fin c m1 e1 m2 e2 :
  compare c (NFin m1 e1) (NFin m2 e2)
  = c (m1 * 2 ^ (e1 - Z.min e1 e2)) (m2 * 2 ^ (e2 - Z.min e1 e2)).
Proof. done. Qed.

Lemma pow_split a b : 0 <= a -> 0 <= b -> 2 ^ (a + b) = 2 ^ a * 2 ^ b.
Proof. intros. apply Z.pow_add_r; lia. Qed.

(** A dyadic not above the integer [n < 2^53] rounds to a double not above it. *)
Lemma round64_le m e n :
  e <= 0 -> 0 <= n < 2 ^ 53 -> m <= n * 2 ^ (- e) -> le (round64 m e) (NInt n) = true.
Proof.
  intros He Hn Hm. unfold round64. destruct (Z.eqb_spec m 0) as [-> | Hz].
  { unfold le, compare, dyadic. rewrite Z.min_l by lia. apply Z.leb_le.
    replace (0 - 0) with 0 by lia. lia. }
  set (q := Z.max _ _). assert (Hrn : 0 <= PyFloat.rne (Z.abs m) (q - e)) by (apply PyFloat.rne_nonneg; lia).
  set (r := PyFloat.rne _ _) in *.
  destruct (Z_lt_le_dec m 0) as [Hneg | Hpos].
  - destruct (2 ^ 53 <=? _); cbn; [destruct (Z.ltb_spec m 0); [done | lia] |].
    apply Z.leb_le. replace (Z.sgn m) with (-1) by lia.
    assert (0 <= 2 ^ (q - Z.min q 0)) by (apply Z.pow_nonneg; lia).
    assert (0 <= 2 ^ (0 - Z.min q 0)) by (apply Z.pow_nonneg; lia). nia.
  - assert (Hq : q <= 0).
    { unfold q. apply Z.max_lub; [| lia].
      assert (Z.log2 (Z.abs m) < 53 - e); [| lia].
      apply Z.log2_lt_pow2; [lia |]. rewrite Z.abs_eq by lia.
      replace (53 - e) with (53 + - e) by lia. rewrite pow_split by lia.
      assert (0 < 2 ^ (- e)) by (apply Z.pow_pos_nonneg; lia). nia. }
    assert (Hr : r <= n * 2 ^ (- q)).
    { unfold r. rewrite Z.abs_eq by lia. destruct (Z_lt_le_dec 0 (q - e)) as [Hs | Hs].
      - apply rne_le; [done |]. rewrite <- Z.mul_assoc, <- pow_split by lia.
        replace (- q + (q - e)) with (- e) by lia. done.
      - rewrite PyFloat.rne_neg by lia.
        replace (- q) with (- e + (- (q - e))) by lia. rewrite (pow_split (- e)) by lia.
        assert (0 < 2 ^ (- (q - e))) by (apply Z.pow_pos_nonneg; lia). nia. }
    rewrite (Z.pow_neg_r 2 (q - 971)), Z.mul_0_r by lia. cbn [Z.leb].
    change (2 ^ 53 <=? 0) with false. cbv iota.
    unfold le, compare, dyadic. rewrite Z.min_l by lia. apply Z.leb_le.
    replace (Z.sgn m) with 1 by lia. replace (q - q) with 0 by lia.
    replace (0 - q) with (- q) by lia. lia.
Qed.

Lemma to_float_small n : 0 <= n < 2 ^ 53 -> exists m e, e <= 0 /\ to_float (NInt n) = Ok (NFin m e) /\
  m = n * 2 ^ (- e).
Proof.
  intros Hn. unfold to_float, round64. destruct (Z.eqb_spec n 0) as [-> | Hz].
  { exists 0, 0. split; [lia |]. done. }
  set (q := Z.max _ _).
  assert (Hl : Z.log2 (Z.abs n) < 53) by (apply Z.log2_lt_pow2; lia).
  assert (Hq : -1074 <= q <= 0) by (unfold q; lia).
  rewrite (Z.pow_neg_r 2 (q - 971)), Z.mul_0_r by lia. change (2 ^ 53 <=? 0) with false. cbv iota.
  exists (Z.sgn n * PyFloat.rne (Z.abs n) (q - 0)), q. split; [lia |]. split; [done |].
  rewrite PyFloat.rne_neg, Z.abs_eq by lia.
  replace (Z.sgn n) with 1 by lia. replace (- (q - 0)) with (- q) by lia. lia.
Qed.

(** [n - y] for [y >= 0] is not above [n]. *)
Lemma sub_le n y :
  0 <= n < 2 ^ 53 -> le (NInt 0) y = true -> exists t, sub (NInt n) y = Ok t /\ le t (NInt n) = true.
Proof.
  intros Hn Hy. destruct y as [z | m2 e2 | k |]; [| | | done].
  - exists (NInt (n - z)). split; [done |]. unfold le, compare, dyadic in *.
    change (0 - Z.min 0 0) with 0 in *. apply Z.leb_le in Hy. apply Z.leb_le. lia.
  - destruct (to_float_small n Hn) as (m1 & e1 & He1 & Hf & Hm1).
    cbn [sub]. rewrite Hf. cbn [mbind result_bind to_float neg fadd].
    eexists. split; [reflexivity |]. unfold le, compare, dyadic in Hy. apply Z.leb_le in Hy.
    assert (0 <= m2).
    { assert (0 < 2 ^ (e2 - Z.min 0 e2)) by (apply Z.pow_pos_nonneg; lia). nia. }
    apply round64_le; [lia | done |].
    assert (0 <= 2 ^ (e2 - Z.min e1 e2)) by (apply Z.pow_nonneg; lia).
    rewrite Hm1, <- Z.mul_assoc, <- pow_split by lia.
    replace (- e1 + (e1 - Z.min e1 e2)) with (- Z.min e1 e2) by lia. nia.
  - destruct (to_float_small n Hn) as (m1 & e1 & He1 & Hf & Hm1).
    cbn [sub]. rewrite Hf. cbn [mbind result_bind to_float neg fadd].
    eexists. split; [reflexivity |]. destruct k; [done |]. done.
Qed.

Lemma mul_total n y : 0 <= n < 2 ^ 53 -> exists t, mul (NInt n) y = Ok t.
Proof.
  intros Hn. destruct (to_float_small n Hn) as (m1 & e1 & _ & Hf & _).
  destruct y; cbn [mul]; rewrite ?Hf; cbn; eauto.
Qed.

Lemma le_refl_int n : le (NInt n) (NInt n) = true.
Proof. unfold le, compare, dyadic. apply Z.leb_le. lia. Qed.

(** [max(a, _)] is not below [a]. *)
Lemma le_max n y : le (NInt n) (max (NInt n) y) = true.
Proof.
  unfold max. destruct (lt (NInt n) y) eqn:Hl; [| apply le_refl_int].
  unfold lt, le, compare in *. destruct y as [z | m e | k |]; try done.
  - destruct (dyadic _) as [? ?], (dyadic _) as [? ?]. apply Z.ltb_lt in Hl. apply Z.leb_le. lia.
  - destruct (dyadic _) as [? ?], (dyadic _) as [? ?]. apply Z.ltb_lt in Hl. apply Z.leb_le. lia.
  - apply Z.ltb_lt in Hl. apply Z.leb_le. lia.
Qed.

Lemma le_nonneg n y : 0 <= n -> le (NInt n) y = true -> le (NInt 0) y = true.
Proof.
  intros Hn. unfold le, compare. destruct y as [z | m e | k |]; cbn [dyadic]; try done.
  - rewrite !Z.leb_le. change (0 - Z.min 0 0) with 0. lia.
  - rewrite !Z.leb_le. assert (0 <= 2 ^ (0 - Z.min 0 e)) by (apply Z.pow_nonneg; lia). nia.
Qed.

Lemma abs_sgn d : Z.abs d * Z.sgn d = d.
Proof. lia. Qed.

(** Halving an integer of at most 53 bits loses nothing before truncation. *)
Lemma trunc_half d : Z.abs d < 2 ^ 53 -> (h ← div (NInt d) (NInt 2); trunc h) = Ok (Z.quot d 2).
Proof.
  intros Hd. unfold div. change (2 =? 0) with false. cbn iota. unfold quotient. change (Z.abs 2) with 2. change (Z.sgn 2) with 1.
  change (Z.log2 2) with 1. destruct (decide (d = 0)) as [-> | Hne]; [reflexivity |].
  assert (Hl : 0 <= Z.log2 (Z.abs d) < 53) by (split; [apply Z.log2_nonneg | apply Z.log2_lt_pow2; lia]).
  set (l := Z.log2 (Z.abs d)) in *. rewrite Z.max_r by lia. set (k := 1 - l + 64).
  assert (Ek : 2 ^ k = 2 ^ (k - 1) * 2). { replace k with (k - 1 + 1) at 1 by lia. apply Z.pow_add_r; unfold k; lia. }
  assert (Hpos : 0 < 2 ^ (k - 1)) by (apply Z.pow_pos_nonneg; unfold k; lia).
  assert (Eq : Z.abs d * 2 ^ k = Z.abs d * 2 ^ (k - 1) * 2) by (rewrite Ek; ring).
  rewrite Eq, Z.mod_mul, Z.div_mul by lia. change (0 =? 0) with true. cbn iota. rewrite Z.mul_1_r, Z.add_0_r.
  assert (Em : Z.sgn d * (2 * (Z.abs d * 2 ^ (k - 1))) = d * 2 ^ k) 
    by (rewrite Ek; transitivity (Z.abs d * Z.sgn d * (2 ^ (k - 1) * 2)); [ring | by rewrite abs_sgn]).
  rewrite Em. unfold round64.
  assert (Hk : 0 < 2 ^ k) by (apply Z.pow_pos_nonneg; unfold k; lia).
  rewrite (proj2 (Z.eqb_neq _ _)) by nia. rewrite Z.abs_mul, (Z.abs_eq (2 ^ k)) by lia.
  rewrite Z.log2_mul_pow2 by (unfold k; lia). fold l.
  rewrite Z.max_l by (unfold k; lia). replace (k + l + (0 - 0 - k - 1) - 52) with (l - 53) by lia.
  replace (l - 53 - (0 - 0 - k - 1)) with 13 by (unfold k; lia).
  assert (E13 : Z.abs d * 2 ^ k = Z.abs d * 2 ^ (k - 13) * 2 ^ 13).
  { rewrite <- Z.mul_assoc, <- Z.pow_add_r by (unfold k; lia). do 2 f_equal. unfold k. lia. }
  rewrite E13, PyFloat.rne_exact by lia. rewrite (Z.pow_neg_r 2 (l - 53 - 971)) by lia. rewrite Z.mul_0_r.
  change (2 ^ 53 <=? 0) with false. cbn iota. cbn [mbind result_bind trunc].
  rewrite (proj2 (Z.leb_gt _ _)) by lia. f_equal.
  assert (Es : Z.sgn (d * 2 ^ k) = Z.sgn d) by (rewrite Z.sgn_mul, (Z.sgn_pos (2 ^ k)) by lia; lia).
  rewrite Es. replace (Z.sgn d * (Z.abs d * 2 ^ (k - 13))) with (d * 2 ^ (k - 13)) 
    by (transitivity (Z.abs d * Z.sgn d * 2 ^ (k - 13)); [by rewrite abs_sgn | ring]).
  replace (2 ^ (- (l - 53))) with (2 * 2 ^ (k - 13)).
  - apply Z.quot_mul_cancel_r; [lia |]. apply Z.pow_nonzero; unfold k; lia.
  - rewrite <- (Z.pow_succ_r 2) by (unfold k; lia). f_equal. unfold k. lia.
Qed.

(** ** Absolute error of sums and quotients *)

(** The value of a finite number in units of [2^-1200]. *)
Definition unit_exp : Z := 1200.
Definition scaled (a : num) : Z :=
  match a with NInt z => z * 2 ^ unit_exp | NFin m e => m * 2 ^ (e + unit_exp) | _ => 0 end.

(** A finite float with no bits below [2^-1200]. *)
Definition fine (a : num) : Prop := match a with NFin _ e => -1200 <= e | _ => False end.

(** Rounding a value below [2^16] moves it by at most [2^-38]. *)
Lemma round64_near m e : -1200 <= e -> Z.abs m * 2 ^ (e + unit_exp) < 2 ^ (16 + unit_exp) ->
  fine (round64 m e) /\ Z.abs (scaled (round64 m e) - m * 2 ^ (e + unit_exp)) <= 2 ^ (unit_exp - 38).
Proof.
  intros He Hm. unfold round64. destruct (Z.eqb_spec m 0) as [-> | Hne]; [split; [done | cbn; lia] |].
  unfold unit_exp in *. pose proof (Z.log2_spec (Z.abs m) ltac:(lia)) as [Hl _]. set (l := Z.log2 (Z.abs m)) in *.
  assert (Hl0 : 0 <= l) by apply Z.log2_nonneg.
  assert (Hle : l + e < 16).
  { assert (2 ^ (l + (e + 1200)) < 2 ^ (16 + 1200)); [| apply Z.pow_lt_mono_r_iff in H; lia].
    rewrite Z.pow_add_r by lia. assert (0 < 2 ^ (e + 1200)) by (apply Z.pow_pos_nonneg; lia). nia. }
  set (q := Z.max (l + e - 52) (-1074)). set (r := PyFloat.rne (Z.abs m) (q - e)).
  rewrite (Z.pow_neg_r 2 (q - 971)) by lia. rewrite Z.mul_0_r. change (2 ^ 53 <=? 0) with false. cbn iota.
  split; [cbn; lia |]. cbn [scaled]. unfold unit_exp.
  assert (Hs : Z.sgn m * r * 2 ^ (q + 1200) - m * 2 ^ (e + 1200) = Z.sgn m * (r * 2 ^ (q + 1200) - Z.abs m * 2 ^ (e + 1200)))
    by (rewrite <- (abs_sgn m) at 2; ring).
  rewrite Hs, Z.abs_mul. replace (Z.abs (Z.sgn m)) with 1 by lia. rewrite Z.mul_1_l.
  destruct (decide (q - e <= 0)) as [Hq | Hq].
  - unfold r. rewrite PyFloat.rne_neg by done. rewrite <- Z.mul_assoc, <- Z.pow_add_r by lia.
    replace (- (q - e) + (q + 1200)) with (e + 1200) by lia. rewrite Z.sub_diag. cbn. apply Z.pow_nonneg. lia.
  - pose proof (PyFloat.rne_near (Z.abs m) (q - e) ltac:(lia)) as Hn. fold r in Hn.
    replace (q + 1200) with ((q - e) + (e + 1200)) by lia. rewrite Z.pow_add_r by lia.
    assert (Hp : 0 < 2 ^ (e + 1200)) by (apply Z.pow_pos_nonneg; lia).
    assert (Hb : 2 ^ (q - e) * 2 ^ (e + 1200) <= 2 ^ (1200 - 37)) by (rewrite <- Z.pow_add_r by lia; apply Z.pow_le_mono_r; lia).
    change (2 ^ (1200 - 37)) with (2 * 2 ^ (1200 - 38)) in Hb.
    replace (r * (2 ^ (q - e) * 2 ^ (e + 1200)) - Z.abs m * 2 ^ (e + 1200)) with ((r * 2 ^ (q - e) - Z.abs m) * 2 ^ (e + 1200)) by ring.
    rewrite Z.abs_mul, (Z.abs_eq (2 ^ (e + 1200))) by lia. nia.
Qed.

(** The exact sum [fadd] rounds. *)
Lemma fadd_near a b : fine a -> fine b -> Z.abs (scaled a + scaled b) < 2 ^ (16 + unit_exp) ->
  fine (fadd a b) /\ Z.abs (scaled (fadd a b) - (scaled a + scaled b)) <= 2 ^ (unit_exp - 38).
Proof.
  destruct a as [|m1 e1| |], b as [|m2 e2| |]; try done. cbn [fine fadd]. intros H1 H2 Hs. set (e := Z.min e1 e2).
  assert (E : (m1 * 2 ^ (e1 - e) + m2 * 2 ^ (e2 - e)) * 2 ^ (e + unit_exp) = scaled (NFin m1 e1) + scaled (NFin m2 e2)).
  { cbn [scaled]. unfold unit_exp. rewrite Z.mul_add_distr_r, <- !Z.mul_assoc, <- !Z.pow_add_r by lia.
    replace (e1 - e + (e + 1200)) with (e1 + 1200) by lia. replace (e2 - e + (e + 1200)) with (e2 + 1200) by lia. done. }
  rewrite <- E in Hs |- *. apply round64_near; [lia |].
  rewrite Z.abs_mul, (Z.abs_eq (2 ^ (e + unit_exp))) in Hs by (apply Z.pow_nonneg; lia). exact Hs.
Qed.

(** The two errors of a quotient add up. *)
Lemma error_sum n h v x A B C : 0 < n -> Z.abs (h - v) <= A -> Z.abs (n * v - x) <= n * B -> A + B <= C -> Z.abs (n * h - x) <= n * C.
Proof. intros Hn H1 H2 H3. replace (n * h - x) with (n * (h - v) + (n * v - x)) by ring. nia. Qed.

(** Integer quotient and sticky bit, in units [U] with [2 * P * U = T]. *)
Lemma quotient_units x n P U T q s : 0 < n -> 0 < P -> 0 < U -> 0 < T -> 2 * P * U = T -> U <= T -> 0 <= q -> n * q <= Z.abs x * P -> 0 <= s <= 1 ->
  Z.abs (n * (2 * q + s) - 2 * Z.abs x * P) <= n -> let m := Z.sgn x * (2 * q + s) in
  Z.abs (n * (m * U) - x * T) <= n * U /\ Z.abs m * U <= (Z.abs x + 1) * T.
Proof.
  intros Hn HP HU HT HPU HUT Hq Hnq Hs Herr m. assert (Hsg : Z.abs (Z.sgn x) <= 1) by lia. split.
  - rewrite <- HPU.
    assert (Hrw : n * (m * U) - x * (2 * P * U) = Z.sgn x * (n * (2 * q + s) - 2 * Z.abs x * P) * U)
      by (unfold m; rewrite <- (abs_sgn x) at 2; ring).
    rewrite Hrw, !Z.abs_mul, (Z.abs_eq U) by lia. set (d := Z.abs (n * (2 * q + s) - _)) in *. nia.
  - assert (HA : Z.abs m <= 2 * q + s) by (unfold m; rewrite Z.abs_mul, (Z.abs_eq (2 * q + s)) by lia; nia).
    assert (HB : q <= Z.abs x * P) by nia. assert (HC : 2 * q * U <= Z.abs x * T) by (rewrite <- HPU; nia).
    assert (HD : s * U <= T) by nia. nia.
Qed.

(** A quotient of integers below [2^15] by at most [2^15]. *)
Lemma quotient_near x n : Z.abs x < 2 ^ 15 -> 0 < n < 2 ^ 15 ->
  fine (quotient x 0 n 0) /\ Z.abs (n * scaled (quotient x 0 n 0) - x * 2 ^ unit_exp) <= n * 2 ^ (unit_exp - 37).
Proof.
  intros Hx Hn. unfold quotient. rewrite (Z.abs_eq n), (Z.sgn_pos n) by lia. rewrite Z.mul_1_r.
  set (k := Z.max 0 (Z.log2 n - Z.log2 (Z.abs x) + 64)).
  assert (Hlx : 0 <= Z.log2 (Z.abs x) <= 15).
  { split; [apply Z.log2_nonneg |]. destruct (decide (x = 0)) as [-> | ?]; [done |]. apply Z.lt_le_incl, Z.log2_lt_pow2; [lia | done]. }
  assert (Hln : 0 <= Z.log2 n < 15) by (split; [apply Z.log2_nonneg | apply Z.log2_lt_pow2; [lia | apply Hn]]).
  assert (Hk : 49 <= k <= 79) by (unfold k; lia). clearbody k.
  set (P := 2 ^ k). assert (HP : 0 < P) by (apply Z.pow_pos_nonneg; lia).
  pose proof (Z.div_mod (Z.abs x * P) n ltac:(lia)) as Hd. pose proof (Z.mod_pos_bound (Z.abs x * P) n ltac:(lia)) as Hr.
  set (q := Z.abs x * P / n) in *. set (rem := Z.abs x * P mod n) in *.
  set (s := if rem =? 0 then 0 else 1). assert (Hs : 0 <= s <= 1) by (unfold s; destruct (rem =? 0); lia).
  assert (Herr : Z.abs (n * (2 * q + s) - 2 * Z.abs x * P) <= n) by (unfold s; destruct (Z.eqb_spec rem 0); lia).
  assert (Hq0 : 0 <= q) by (apply Z.div_pos; [apply Z.mul_nonneg_nonneg |]; lia).
  set (U := 2 ^ (0 - 0 - k - 1 + unit_exp)). unfold unit_exp in U.
  assert (HU : 0 < U) by (apply Z.pow_pos_nonneg; lia).
  assert (HPU : 2 * P * U = 2 ^ 1200). { unfold P, U. rewrite <- Z.pow_succ_r, <- Z.pow_add_r by lia. f_equal. lia. }
  assert (HUle : U <= 2 ^ (1200 - 38)) by (apply Z.pow_le_mono_r; lia).
  destruct (quotient_units x n P U (2 ^ 1200) q s (proj1 Hn) HP HU ltac:(apply Z.pow_pos_nonneg; lia) HPU) as [Hm Hsz];
    [| exact Hq0 | lia | exact Hs | exact Herr |].
  { transitivity (2 ^ (1200 - 38)); [exact HUle | apply Z.pow_le_mono_r; lia]. }
  set (m := Z.sgn x * (2 * q + s)) in *. destruct (round64_near m (0 - 0 - k - 1)) as [Hf He]; [lia | |].
  { fold U. eapply Z.le_lt_trans; [exact Hsz |]. unfold unit_exp. rewrite Z.pow_add_r by lia.
    apply Z.mul_lt_mono_pos_r; [apply Z.pow_pos_nonneg; lia |]. change (2 ^ 16) with (2 ^ 15 * 2). lia. }
  split; [exact Hf |]. apply (error_sum n _ (m * U) (x * 2 ^ 1200) (2 ^ (unit_exp - 38)) U); [lia | exact He | exact Hm |].
  unfold unit_exp. replace (1200 - 37) with (1200 - 38 + 1) by lia. rewrite (Z.pow_add_r 2 (1200 - 38)) by lia.
  apply (Z.le_trans _ (2 ^ (1200 - 38) + 2 ^ (1200 - 38))); [by apply Z.add_le_mono_l |]. by rewrite Z.pow_1_r, Z.mul_comm, Z.add_diag.
Qed.

(** [round(a)], half to even. *)
Definition round_int (a : num) : result Z :=
  match a with
  | NInt z => Ok z
  | NFin m e => Ok (Z.sgn m * PyFloat.rne (Z.abs m) (- e))
  | NInf _ => Raise OverflowError
  | NNaN => Raise ValueError
  end.

Lemma round_int_near a z : fine a -> 2 * Z.abs (scaled a - z * 2 ^ unit_exp) < 2 ^ unit_exp -> 0 <= scaled a -> round_int a = Ok z.
Proof.
  destruct a as [|m e| |]; try done. cbn [fine scaled round_int]. unfold unit_exp. intros He Hn H0. f_equal.
  assert (HP : 0 < 2 ^ (e + 1200)) by (apply Z.pow_pos_nonneg; lia).
  assert (Hm : 0 <= m) by nia. rewrite (Z.abs_eq m) by done.
  replace (Z.sgn m * PyFloat.rne m (- e)) with (PyFloat.rne m (- e)).
  2: { destruct (decide (m = 0)) as [-> |]; [| rewrite Z.sgn_pos by lia; by rewrite Z.mul_1_l].
       destruct (decide (- e <= 0)); [by rewrite PyFloat.rne_neg | exact (PyFloat.rne_exact 0 (- e) ltac:(lia))]. }
  destruct (decide (- e <= 0)) as [Hle | Hgt].
  - rewrite PyFloat.rne_neg by done. replace (- - e) with e by lia. rewrite Z.pow_add_r in Hn by lia.
    assert (0 < 2 ^ 1200) by (apply Z.pow_pos_nonneg; lia). nia.
  - pose proof (PyFloat.rne_near m (- e) ltac:(lia)) as Hr. set (r := PyFloat.rne m (- e)) in *.
    assert (E : 2 ^ 1200 = 2 ^ (- e) * 2 ^ (e + 1200)) by (rewrite <- Z.pow_add_r by lia; f_equal; lia).
    rewrite E in Hn. assert (0 < 2 ^ (- e)) by (apply Z.pow_pos_nonneg; lia).
    assert (Hz : 2 * Z.abs (m - z * 2 ^ (- e)) < 2 ^ (- e)).
    { replace (m * 2 ^ (e + 1200) - z * (2 ^ (- e) * 2 ^ (e + 1200))) with ((m - z * 2 ^ (- e)) * 2 ^ (e + 1200)) in Hn by ring.
      rewrite Z.abs_mul, (Z.abs_eq (2 ^ (e + 1200))) in Hn by lia. nia. }
    nia.
Qed.

(** Rounding to an integer moves a number by at most one half. *)
Lemma round_int_half a : fine a -> 0 <= scaled a ->
  exists z, round_int a = Ok z /\ 2 * Z.abs (scaled a - z * 2 ^ unit_exp) <= 2 ^ unit_exp.
Proof.
  destruct a as [|m e| |]; try done. cbn [fine scaled round_int]. unfold unit_exp. intros He H0. eexists. split; [done |].
  assert (HP : 0 < 2 ^ (e + 1200)) by (apply Z.pow_pos_nonneg; lia).
  assert (Hm : 0 <= m) by nia. rewrite (Z.abs_eq m) by done.
  assert (HT : 0 < 2 ^ 1200) by (apply Z.pow_pos_nonneg; lia).
  destruct (decide (m = 0)) as [-> |]; [cbn [Z.sgn]; rewrite !Z.mul_0_l, Z.sub_diag; change (2 * Z.abs 0) with 0; lia |].
  rewrite Z.sgn_pos, Z.mul_1_l by lia. destruct (decide (- e <= 0)) as [Hle | Hgt].
  - rewrite PyFloat.rne_neg by done. replace (- - e) with e by lia. rewrite Z.pow_add_r, Z.mul_assoc, Z.sub_diag by lia.
    change (2 * Z.abs 0) with 0. lia.
  - pose proof (PyFloat.rne_near m (- e) ltac:(lia)) as Hr. set (r := PyFloat.rne m (- e)) in *.
    assert (E : 2 ^ 1200 = 2 ^ (- e) * 2 ^ (e + 1200)) by (rewrite <- Z.pow_add_r by lia; f_equal; lia). rewrite E.
    replace (m * 2 ^ (e + 1200) - r * (2 ^ (- e) * 2 ^ (e + 1200))) with ((m - r * 2 ^ (- e)) * 2 ^ (e + 1200)) by ring.
    rewrite Z.abs_mul, (Z.abs_eq (2 ^ (e + 1200))), Z.mul_assoc by lia. apply Z.mul_le_mono_nonneg_r; lia.
Qed.

(** The smallest error unit used here, and a small integer or fine float. *)
Definition eps : Z := 2 ^ (unit_exp - 38).

Lemma eps_spec : 0 < eps /\ 2 ^ unit_exp = 2 ^ 38 * eps /\ 2 ^ (unit_exp - 37) = 2 * eps /\ 2 ^ (16 + unit_exp) = 2 ^ 54 * eps.
Proof.
  unfold eps, unit_exp. split; [apply Z.pow_pos_nonneg; lia |].
  rewrite <- !Z.pow_add_r by lia. split; [done |]. split; [| done]. change 2 with (2 ^ 1) at 2. by rewrite <- Z.pow_add_r by lia.
Qed.

Definition small (a : num) : Prop := match a with NInt z => Z.abs z < 2 ^ 15 | NFin _ e => -1200 <= e | _ => False end.

Lemma fine_small a : fine a -> small a.
Proof. by destruct a. Qed.

Lemma to_float_near z : Z.abs z < 2 ^ 15 -> exists a, to_float (NInt z) = Ok a /\ fine a /\ Z.abs (scaled a - scaled (NInt z)) <= eps.
Proof.
  intros Hz. destruct eps_spec as (He & HT & _ & H16). destruct (round64_near z 0) as [Hf Hs]; [lia | |].
  { rewrite Z.add_0_l, H16, HT. change (2 ^ 54 * eps) with (2 ^ 15 * 2 * 2 ^ 38 * eps). set (e := eps) in *. clearbody e. nia. }
  rewrite Z.add_0_l in Hs. unfold to_float. destruct (round64 z 0) as [|m e| |]; try (exfalso; exact Hf). exists (NFin m e). done.
Qed.

(** Adding small numbers is off by at most two units; the sum is an integer
    only when both are. *)
Lemma add_near a b : small a -> small b -> Z.abs (scaled a + scaled b) < 2 ^ 54 * eps - 2 * eps ->
  exists c, add a b = Ok c /\ (fine c \/ exists x y, a = NInt x /\ b = NInt y /\ c = NInt (x + y)) /\
    Z.abs (scaled c - (scaled a + scaled b)) <= 2 * eps.
Proof.
  intros Ha Hb Hs. destruct eps_spec as (He & HT & _ & H16).
  assert (Hf : forall a1 b1, fine a1 -> fine b1 -> Z.abs (scaled a1 + scaled b1 - (scaled a + scaled b)) <= eps ->
    fine (fadd a1 b1) /\ Z.abs (scaled (fadd a1 b1) - (scaled a + scaled b)) <= 2 * eps).
  { intros a1 b1 H1 H2 Hd. destruct (fadd_near a1 b1 H1 H2) as [Hc Hn]; [rewrite H16; lia |]. split; [done |].
    fold eps in Hn. lia. }
  destruct a as [x|m1 e1| |], b as [y|m2 e2| |]; try (exfalso; exact Ha); try (exfalso; exact Hb).
  - exists (NInt (x + y)). split; [done |]. split; [right; by exists x, y |]. cbn [scaled]. rewrite Z.mul_add_distr_r. lia.
  - destruct (to_float_near x Ha) as (a1 & Ea & Hfa & Hna). destruct (Hf a1 (NFin m2 e2)) as [H1 H2]; [done | done | lia |].
    exists (fadd a1 (NFin m2 e2)). unfold add. rewrite Ea. split; [done |]. split; [by left | exact H2].
  - destruct (to_float_near y Hb) as (b1 & Eb & Hfb & Hnb). destruct (Hf (NFin m1 e1) b1) as [H1 H2]; [done | done | lia |].
    exists (fadd (NFin m1 e1) b1). unfold add. rewrite Eb. split; [done |]. split; [by left | exact H2].
  - destruct (Hf (NFin m1 e1) (NFin m2 e2)) as [H1 H2]; [done | done | lia |].
    exists (fadd (NFin m1 e1) (NFin m2 e2)). split; [done |]. split; [by left | exact H2].
Qed.

(** The literals of the default configuration behave as in Python:
    [100 * 0.1] is exactly ten, [3 * 0.1] is not [0.3]. *)
Example num_samples :
  mul (NInt 100) (NFin 3602879701896397 (-55)) = Ok (NFin 5629499534213120 (-49)) /\
  mul (NInt 3) (NFin 3602879701896397 (-55)) = Ok (NFin 5404319552844596 (-54)) /\
  lt (NInt 10) (NFin 5629499534213120 (-49)) = false.
Proof. vm_compute. auto. Qed.

(** ** Magnitudes: operations on numbers far from the largest stay finite *)

(** A finite double below [2^(54 + E)]. *)
Definition mag (E : Z) (a : num) : Prop := match a with NFin m e => Z.abs m <= 2 ^ 53 /\ e <= E | _ => False end.

Lemma round64_mag m e E : 0 <= E < 971 -> (m <> 0 -> Z.log2 (Z.abs m) + e - 52 <= E) -> mag E (round64 m e).
Proof.
  intros HE Hm. unfold round64. destruct (Z.eqb_spec m 0) as [-> | Hz]; [cbn; lia |]. specialize (Hm Hz).
  set (q := Z.max _ _). assert (Hq : q <= E) by lia.
  rewrite (Z.pow_neg_r 2 (q - 971)), Z.mul_0_r by lia. change (2 ^ 53 <=? 0) with false. cbv iota. split; [| done].
  pose proof (PyFloat.rne_nonneg (Z.abs m) (q - e) ltac:(lia)) as Hn.
  assert (Hr : PyFloat.rne (Z.abs m) (q - e) <= 2 ^ 53).
  { pose proof (Z.log2_spec (Z.abs m) ltac:(lia)) as [_ Hl]. pose proof (Z.log2_nonneg (Z.abs m)).
    destruct (Z_lt_le_dec 0 (q - e)) as [Hs | Hs].
    - apply rne_le; [done |]. rewrite <- pow_split by lia. apply Z.lt_le_incl. eapply Z.lt_le_trans; [exact Hl |].
      apply Z.pow_le_mono_r; lia.
    - rewrite PyFloat.rne_neg by lia.
      apply Z.lt_le_incl. eapply Z.lt_le_trans; [apply Z.mul_lt_mono_pos_r; [apply Z.pow_pos_nonneg; lia | exact Hl] |].
      rewrite <- pow_split by lia. apply Z.pow_le_mono_r; lia. }
  rewrite Z.abs_mul. replace (Z.abs (Z.sgn m)) with 1 by lia. rewrite Z.abs_eq by done. lia.
Qed.

Lemma mag_log2 m : m <> 0 -> Z.abs m <= 2 ^ 53 -> Z.log2 (Z.abs m) <= 53.
Proof. intros Hm Hb. etrans; [apply Z.log2_le_mono; exact Hb |]. by rewrite Z.log2_pow2 by lia. Qed.

Lemma quotient_mag m1 e1 m2 e2 E : m2 <> 0 -> 0 <= E < 971 ->
  (m1 <> 0 -> Z.log2 (Z.abs m1) - Z.log2 (Z.abs m2) + e1 - e2 - 51 <= E) -> mag E (quotient m1 e1 m2 e2).
Proof.
  intros H2 HE Hl. unfold quotient. set (k := Z.max 0 _). set (q := _ / _). set (s := if (_ mod _ =? 0) then 0 else 1).
  apply round64_mag; [done |]. intros Hne.
  destruct (Z.eq_dec m1 0) as [-> | H1]; [cbn in Hne; lia |]. specialize (Hl H1).
  pose proof (Z.log2_spec (Z.abs m1) ltac:(lia)) as [_ Hm1]. pose proof (Z.log2_spec (Z.abs m2) ltac:(lia)) as [Hm2 _].
  pose proof (Z.log2_nonneg (Z.abs m1)). pose proof (Z.log2_nonneg (Z.abs m2)).
  set (l1 := Z.log2 (Z.abs m1)) in *. set (l2 := Z.log2 (Z.abs m2)) in *.
  assert (Hk : 0 <= l1 + 1 + k - l2) by lia.
  assert (Hq : q < 2 ^ (l1 + 1 + k - l2)).
  { apply Z.div_lt_upper_bound; [lia |]. assert (0 < 2 ^ (l1 + 1 + k - l2)) by (apply Z.pow_pos_nonneg; lia).
    assert (Hx : Z.abs m1 * 2 ^ k < 2 ^ l2 * 2 ^ (l1 + 1 + k - l2)).
    { rewrite <- pow_split by lia. replace (l2 + (l1 + 1 + k - l2)) with (Z.succ l1 + k) by lia. rewrite pow_split by lia.
      apply Z.mul_lt_mono_pos_r; [apply Z.pow_pos_nonneg; lia | done]. }
    nia. }
  assert (Hq0 : 0 <= q) by (apply Z.div_pos; [pose proof (Z.pow_nonneg 2 k); nia | lia]).
  assert (Hs : 0 <= s <= 1) by (unfold s; destruct (_ =? 0); lia).
  assert (Habs : Z.abs (Z.sgn m1 * Z.sgn m2 * (2 * q + s)) = 2 * q + s).
  { rewrite !Z.abs_mul, (Z.abs_eq (2 * q + s)) by lia.
    replace (Z.abs (Z.sgn m1)) with 1 by lia. replace (Z.abs (Z.sgn m2)) with 1 by lia. lia. }
  rewrite Habs. assert (Hlog : Z.log2 (2 * q + s) <= l1 + 1 + k - l2).
  { assert (0 < 2 * q + s) by lia.
    apply Z.lt_succ_r. apply Z.log2_lt_pow2; [done |]. rewrite Z.pow_succ_r by lia. lia. }
  lia.
Qed.

(** Two integers, the second at least one in absolute value. *)
Lemma div_int_mag x y : y <> 0 -> Z.abs x < 2 ^ 800 -> exists a, div (NInt x) (NInt y) = Ok a /\ mag 800 a.
Proof.
  intros Hy Hx. cbn [div]. destruct (Z.eqb_spec y 0); [lia |].
  assert (Hm : mag 800 (quotient x 0 y 0)).
  { apply quotient_mag; [done | lia |]. intros Hx0. pose proof (Z.log2_nonneg (Z.abs y)).
    assert (Z.log2 (Z.abs x) < 800) by (apply Z.log2_lt_pow2; lia). lia. }
  destruct (quotient x 0 y 0); try done. by eexists.
Qed.

(** Multiplication of a float by 8 and its division by 1024. *)
Lemma mul8_mag a E : mag E a -> 0 <= E < 900 -> exists b, mul a (NInt 8) = Ok b /\ mag (E + 57) b.
Proof.
  intros Ha HE. destruct a as [|m e| |]; try done. destruct Ha as [Hm He].
  cbn [mul]. change (to_float (NInt 8)) with (Ok (NFin 4503599627370496 (-49))). cbn [mbind result_bind to_float fmul].
  eexists. split; [reflexivity |]. apply round64_mag; [lia |]. intros Hne. assert (m <> 0) by lia.
  rewrite Z.abs_mul. change (Z.abs 4503599627370496) with (2 ^ 52). rewrite Z.log2_mul_pow2 by lia.
  pose proof (mag_log2 m ltac:(done) Hm). lia.
Qed.

Lemma div1024_mag a E : mag E a -> 0 <= E < 960 -> exists b, div a (NInt 1024) = Ok b /\ mag E b.
Proof.
  intros Ha HE. destruct a as [|m e| |]; try done. destruct Ha as [Hm He].
  cbn [div]. change (to_float (NInt 1024)) with (Ok (NFin 4503599627370496 (-42))). cbn [mbind result_bind to_float is_zero].
  change (4503599627370496 =? 0) with false. cbv iota. eexists. split; [reflexivity |].
  apply quotient_mag; [done | lia |]. intros Hne. pose proof (mag_log2 m ltac:(done) Hm).
  change (Z.log2 (Z.abs 4503599627370496)) with 52. lia.
Qed.

End PyNum.
