(* ===== verification/PyText.v ===== *)
(** Python text as the line protocols use it: a [str] is a list of code
    points.  [bytes.decode('utf-8')], [str.strip], [str.split] and [int(s, base)]
    as CPython defines them (the limit on the number of decimal digits of recent
    interpreters is left out), and the printers of the other end of the pipe,
    with their round trips. *)
From Stdlib Require Import ZArith Lia Bool.
From stdpp Require Import base list numbers strings sets.
From S2P Require Import Prelude.

Module PyText.

Abbreviation text := (list Z).

(** The code points of an ASCII literal. *)
Fixpoint lit (s : string) : text :=
  match s with
  | EmptyString => []
  | String a s' => Z.of_nat (Ascii.nat_of_ascii a) :: lit s'
  end.

(** ** [bytes.decode('utf-8')] *)

Definition cont (b : Z) : bool := (128 <=? b) && (b <? 192).
Definition within (lo hi b : Z) : bool := (lo <=? b) && (b <=? hi).

Fixpoint utf8_decode (l : bytes) : result text :=
  match l with
  | [] => Ok []
  | b0 :: r0 =>
      if b0 <? 128 then t ← utf8_decode r0; Ok (b0 :: t)
      else match r0 with
      | [] => Raise UnicodeDecodeError
      | b1 :: r1 =>
          if within 0xC2 0xDF b0 && cont b1 then
            t ← utf8_decode r1; Ok ((b0 - 0xC0) * 64 + (b1 - 128) :: t)
          else match r1 with
          | [] => Raise UnicodeDecodeError
          | b2 :: r2 =>
              if within 0xE0 0xEF b0 && within (if b0 =? 0xE0 then 0xA0 else 0x80)
                                               (if b0 =? 0xED then 0x9F else 0xBF) b1 && cont b2 then
                t ← utf8_decode r2;
                Ok ((b0 - 0xE0) * 4096 + (b1 - 128) * 64 + (b2 - 128) :: t)
              else match r2 with
              | [] => Raise UnicodeDecodeError
              | b3 :: r3 =>
                  if within 0xF0 0xF4 b0 && within (if b0 =? 0xF0 then 0x90 else 0x80)
                                                   (if b0 =? 0xF4 then 0x8F else 0xBF) b1
                     && cont b2 && cont b3 then
                    t ← utf8_decode r3;
                    Ok ((b0 - 0xF0) * 262144 + (b1 - 128) * 4096 + (b2 - 128) * 64 + (b3 - 128) :: t)
                  else Raise UnicodeDecodeError
              end
          end
      end
  end.

(** ** [str.strip()] and [str.split] *)

(** [str.isspace] of one code point. *)
Definition is_space (c : Z) : bool :=
  within 9 13 c || within 28 32 c || (c =? 133) || (c =? 160) || (c =? 5760)
  || within 8192 8202 c || (c =? 8232) || (c =? 8233) || (c =? 8239) || (c =? 8287) || (c =? 12288).

Fixpoint lstrip (l : text) : text :=
  match l with
  | [] => []
  | c :: l' => if is_space c then lstrip l' else l
  end.

Definition strip (l : text) : text := reverse (lstrip (reverse (lstrip l))).

(** [l.split(sep)] for a one-character separator. *)
Fixpoint split (sep : Z) (l : text) : list text :=
  match l with
  | [] => [[]]
  | c :: l' =>
      if c =? sep then [] :: split sep l'
      else match split sep l' with
           | [] => [[c]]
           | p :: ps => (c :: p) :: ps
           end
  end.

(** [a, b = l.split(sep, 1)]. *)
Fixpoint split1 (sep : Z) (l : text) : result (text * text) :=
  match l with
  | [] => Raise ValueError
  | c :: l' => if c =? sep then Ok ([], l') else '(a, b) ← split1 sep l'; Ok (c :: a, b)
  end.

(** ** [int(s, base)] *)

(** The zeros of the decimal digit ranges of Unicode. *)
Definition decimal_zeros : list Z :=
  [48; 1632; 1776; 1984; 2406; 2534; 2662; 2790; 2918; 3046; 3174; 3302; 3430; 3558; 3664; 3792;
   3872; 4160; 4240; 6112; 6160; 6470; 6608; 6784; 6800; 6992; 7088; 7232; 7248; 42528; 43216;
   43264; 43472; 43504; 43600; 44016; 65296; 66720; 68912; 69734; 69872; 69942; 70096; 70384;
   70736; 70864; 71248; 71360; 71472; 71904; 72016; 72784; 73040; 73120; 92768; 92864; 93008;
   120782; 120792; 120802; 120812; 120822; 123200; 123632; 125264; 130032].

(** Spaces and decimal digits beyond ASCII become ASCII ones; any other
    character beyond becomes a question mark, which no number contains. *)
Definition to_ascii (c : Z) : Z :=
  if c <? 127 then c
  else if is_space c then 32
  else match List.find (fun z => within z (z + 9) c) decimal_zeros with
       | Some z => 48 + (c - z)
       | None => 63
       end.

Definition ascii_space (c : Z) : bool := within 9 13 c || (c =? 32).

Fixpoint skip_spaces (l : text) : text :=
  match l with
  | [] => []
  | c :: l' => if ascii_space c then skip_spaces l' else l
  end.

Definition digit_value (c : Z) : Z :=
  if within 48 57 c then c - 48
  else if within 97 122 c then c - 87
  else if within 65 90 c then c - 55
  else 37.

(** The run of digits with single underscores between them: its value, how
    many digits it has, and what follows. *)
Fixpoint int_digits (base : Z) (under : bool) (acc : Z) (n : nat) (l : text) : option (Z * nat * text) :=
  match l with
  | [] => if under then None else Some (acc, n, [])
  | c :: l' =>
      if c =? 95 then (if under then None else int_digits base true acc n l')
      else if digit_value c <? base then int_digits base false (acc * base + digit_value c) (S n) l'
      else if under then None else Some (acc, n, l)
  end.

Definition starts (c : Z) (l : text) : bool :=
  match l with [] => false | x :: _ => x =? c end.

Definition skip_prefix (base : Z) (l : text) : text :=
  if (base =? 16) && starts 48 l && (starts 120 (tail l) || starts 88 (tail l)) then
    let l' := drop 2 l in if starts 95 l' then tail l' else l'
  else l.

Definition unsigned (base : Z) (l : text) : option Z :=
  let l' := skip_prefix base l in
  if starts 95 l' then None
  else match int_digits base false 0 0 l' with
       | Some (v, S _, rest) => match skip_spaces rest with [] => Some v | _ => None end
       | _ => None
       end.

Definition int_of (base : Z) (s : text) : result Z :=
  let l := skip_spaces (map to_ascii s) in
  of_option ValueError
    (if starts 43 l then unsigned base (tail l)
     else if starts 45 l then Z.opp <$> unsigned base (tail l)
     else unsigned base l).

(** ** The printers: [%u], [%d] and [%x] of C *)

Definition digit_char (d : Z) : Z := if d <? 10 then 48 + d else 87 + d.

Fixpoint print_digits (fuel : nat) (base n : Z) (acc : text) : text :=
  match fuel with
  | O => acc
  | S f =>
      let acc' := digit_char (n mod base) :: acc in
      if n / base =? 0 then acc' else print_digits f base (n / base) acc'
  end.

Definition print_nat (base n : Z) : text := print_digits (S (Z.to_nat (Z.log2 n))) base n [].

Definition print_u (n : Z) : text := print_nat 10 n.
Definition print_x (n : Z) : text := print_nat 16 n.
Definition print_d (z : Z) : text := if z <? 0 then 45 :: print_u (- z) else print_u z.

Fixpoint join (sep : Z) (ps : list text) : text :=
  match ps with
  | [] => []
  | [p] => p
  | p :: ps' => p ++ sep :: join sep ps'
  end.

(** ** Round trips *)

(** Printable ASCII without spaces: what numbers and joined numbers are made of. *)
Definition plain (c : Z) : Prop := 33 <= c < 127.

Lemma utf8_ascii l : Forall (fun c => 0 <= c < 128) l -> utf8_decode l = Ok l.
Proof.
  induction 1 as [|c l Hc _ IH]; [done |]. cbn [utf8_decode].
  destruct (Z.ltb_spec c 128); [| lia]. rewrite IH. done.
Qed.

Lemma split_nosep sep l : sep ∉ l -> split sep l = [l].
Proof.
  induction l as [|c l IH]; [done |]. intros Hn. cbn [split].
  destruct (Z.eqb_spec c sep); [set_solver |]. rewrite IH by set_solver. done.
Qed.

Lemma split_sep_app sep p l : sep ∉ p -> split sep (p ++ sep :: l) = p :: split sep l.
Proof.
  induction p as [|c p IH]; intros Hn; cbn.
  - by rewrite Z.eqb_refl.
  - destruct (Z.eqb_spec c sep); [set_solver |]. rewrite IH by set_solver. done.
Qed.

Lemma split_join sep ps :
  ps <> [] -> Forall (fun p => sep ∉ p) ps -> split sep (join sep ps) = ps.
Proof.
  intros Hne Hps. induction Hps as [|p ps Hp Hps IH]; [done |].
  destruct ps as [|p2 ps]; [by apply split_nosep |].
  change (join sep (p :: p2 :: ps)) with (p ++ sep :: join sep (p2 :: ps)).
  rewrite split_sep_app by done. by rewrite IH.
Qed.

Lemma split1_app sep p l : sep ∉ p -> split1 sep (p ++ sep :: l) = Ok (p, l).
Proof.
  induction p as [|c p IH]; intros Hn; cbn.
  - by rewrite Z.eqb_refl.
  - destruct (Z.eqb_spec c sep); [set_solver |]. rewrite IH by set_solver. done.
Qed.

Lemma plain_not_space c : plain c -> is_space c = false.
Proof.
  intros [H1 H2]. unfold is_space, within.
  repeat match goal with
  | |- context [?a <=? ?b] => destruct (Z.leb_spec a b); try lia
  | |- context [?a =? ?b] => destruct (Z.eqb_spec a b); try lia
  end; done.
Qed.

Lemma lstrip_plain c l : plain c -> lstrip (c :: l) = c :: l.
Proof. intros H. cbn. by rewrite plain_not_space. Qed.

(** *** Numbers *)

Lemma digit_char_spec base d : 2 <= base <= 36 -> 0 <= d < base ->
  digit_value (digit_char d) = d /\ plain (digit_char d) /\ digit_char d <> 95 /\
  (within 48 57 (digit_char d) || within 97 122 (digit_char d)) = true.
Proof.
  intros Hb Hd. unfold digit_value, digit_char, plain, within.
  destruct (Z.ltb_spec d 10);
    repeat match goal with
    | |- context [?a <=? ?b] => destruct (Z.leb_spec a b); try lia
    end; cbn; split_and!; try lia; done.
Qed.

(** What [int_digits] reads from a run of digit characters: the Horner value. *)
Definition horner (base : Z) (ds : list Z) (acc : Z) : Z := fold_left (fun a d => a * base + d) ds acc.

Lemma int_digits_chars base ds acc n rest :
  2 <= base <= 36 -> Forall (fun d => 0 <= d < base) ds ->
  (forall c l, rest = c :: l -> c <> 95 /\ base <= digit_value c) ->
  int_digits base false acc n (map digit_char ds ++ rest)
  = Some (horner base ds acc, (length ds + n)%nat, rest).
Proof.
  intros Hb Hds Hr. revert acc n. induction Hds as [|d ds Hd Hds IH]; intros acc n; cbn [map app].
  - destruct rest as [|c l]; [done |]. destruct (Hr c l eq_refl) as [H1 H2]. cbn [int_digits].
    destruct (Z.eqb_spec c 95); [done |]. destruct (Z.ltb_spec (digit_value c) base); [lia | done].
  - cbn [int_digits]. destruct (digit_char_spec base d Hb Hd) as (Hv & _ & H95 & _).
    destruct (Z.eqb_spec (digit_char d) 95); [done |]. rewrite Hv.
    destruct (Z.ltb_spec d base); [| lia]. rewrite IH. cbn [length horner fold_left].
    f_equal. f_equal. f_equal. lia.
Qed.

(** The digits [print_digits] writes. *)
Fixpoint digit_list (fuel : nat) (base n : Z) (acc : list Z) : list Z :=
  match fuel with
  | O => acc
  | S f =>
      let acc' := n mod base :: acc in
      if n / base =? 0 then acc' else digit_list f base (n / base) acc'
  end.

Lemma print_digits_list fuel base n acc :
  print_digits fuel base n (map digit_char acc) = map digit_char (digit_list fuel base n acc).
Proof.
  revert n acc. induction fuel as [|f IH]; intros n acc; cbn [print_digits digit_list]; [done |].
  destruct (n / base =? 0); [done |]. apply (IH _ (n mod base :: acc)).
Qed.

Lemma digit_list_spec fuel base n acc :
  2 <= base -> 0 <= n < 2 ^ Z.of_nat fuel -> Forall (fun d => 0 <= d < base) acc ->
  Forall (fun d => 0 <= d < base) (digit_list fuel base n acc) /\
  (fuel <> 0%nat -> digit_list fuel base n acc <> []) /\
  exists hi, forall a, 0 <= a -> horner base (digit_list fuel base n acc) a = horner base acc (a * base ^ hi + n)
    /\ 0 <= hi.
Proof.
  intros Hb. revert n acc. induction fuel as [|f IH]; intros n acc Hn Hacc.
  { cbn [digit_list]. split; [done |]. split; [done |]. exists 0. intros a Ha.
    change (2 ^ Z.of_nat 0) with 1 in Hn. split; [f_equal; lia | lia]. }
  cbn [digit_list].
  assert (Hm : 0 <= n mod base < base) by (apply Z.mod_pos_bound; lia).
  assert (Hacc' : Forall (fun d => 0 <= d < base) (n mod base :: acc)) by (by constructor).
  pose proof (Z.div_mod n base ltac:(lia)) as Hdm.
  destruct (Z.eqb_spec (n / base) 0) as [Hz | Hz].
  - split; [done |]. split; [done |]. exists 1. intros a Ha. cbn [horner fold_left].
    split; [| lia]. unfold horner. f_equal. lia.
  - assert (Hd : 0 <= n / base < 2 ^ Z.of_nat f).
    { split; [apply Z.div_pos; lia |]. apply Z.div_lt_upper_bound; [lia |].
      rewrite Nat2Z.inj_succ, Z.pow_succ_r in Hn by lia.
      assert (0 < 2 ^ Z.of_nat f) by (apply Z.pow_pos_nonneg; lia). nia. }
    destruct (IH (n / base) (n mod base :: acc) Hd Hacc') as (H1 & H2 & hi & H3).
    split; [done |]. split.
    { intros _. destruct f as [|f']; [cbn; done |]. by apply H2. }
    exists (hi + 1). intros a Ha. destruct (H3 a Ha) as [H4 H5]. rewrite H4. split; [| lia].
    cbn [horner fold_left]. unfold horner. f_equal.
    rewrite Z.pow_add_r, Z.pow_1_r by lia. lia.
Qed.

(** A printed number: a non-empty run of digit characters with its value. *)
Lemma print_nat_spec base n : 2 <= base <= 36 -> 0 <= n ->
  exists ds, print_nat base n = map digit_char ds /\ ds <> [] /\
    Forall (fun d => 0 <= d < base) ds /\ horner base ds 0 = n.
Proof.
  intros Hb Hn. unfold print_nat. change (@nil Z) with (map digit_char []).
  rewrite print_digits_list. eexists. split; [reflexivity |].
  assert (Hlog : 0 <= n < 2 ^ Z.of_nat (S (Z.to_nat (Z.log2 n)))).
  { split; [done |]. rewrite Nat2Z.inj_succ, Z2Nat.id by apply Z.log2_nonneg.
    destruct (Z.eq_dec n 0) as [-> | H0]; [done |]. apply Z.log2_spec. lia. }
  destruct (digit_list_spec _ base n [] ltac:(lia) Hlog ltac:(constructor)) as (H1 & H2 & hi & H3).
  split; [by apply H2 |]. split; [done |].
  destruct (H3 0 ltac:(lia)) as [-> _]. cbn [horner fold_left]. lia.
Qed.

(** Digit characters are plain ASCII, unchanged by [to_ascii], and neither a
    sign nor a space. *)
Lemma digit_chars_plain base ds : 2 <= base <= 36 -> Forall (fun d => 0 <= d < base) ds ->
  Forall (fun c => plain c /\ (within 48 57 c || within 97 122 c) = true) (map digit_char ds).
Proof.
  intros Hb. induction 1 as [|d ds Hd _ IH]; constructor; [| done].
  destruct (digit_char_spec base d Hb Hd) as (_ & Hp & _ & Hw). done.
Qed.

Lemma to_ascii_plain l : Forall plain l -> map to_ascii l = l.
Proof.
  induction 1 as [|c l [H1 H2] _ IH]; cbn; [done |]. rewrite IH. f_equal. unfold to_ascii.
  destruct (Z.ltb_spec c 127); [done | lia].
Qed.

Lemma skip_spaces_plain c l : plain c -> skip_spaces (c :: l) = c :: l.
Proof.
  intros [H1 H2]. cbn. unfold ascii_space, within.
  destruct (Z.leb_spec 9 c), (Z.leb_spec c 13), (Z.eqb_spec c 32); try lia; done.
Qed.

Lemma skip_prefix_digits base ds : 2 <= base <= 16 -> Forall (fun d => 0 <= d < base) ds ->
  skip_prefix base (map digit_char ds) = map digit_char ds.
Proof.
  intros Hb Hds. unfold skip_prefix. destruct ds as [|d1 [|d2 ds]]; cbn [map tail starts].
  - by rewrite andb_false_r.
  - by rewrite andb_false_r.
  - apply Forall_cons in Hds as [H1 Hds]. apply Forall_cons in Hds as [H2 Hds].
    assert (digit_char d2 <> 120 /\ digit_char d2 <> 88) as [Hx HX].
    { unfold digit_char. destruct (Z.ltb_spec d2 10); lia. }
    destruct (Z.eqb_spec (digit_char d2) 120); [done |].
    destruct (Z.eqb_spec (digit_char d2) 88); [done |]. by rewrite andb_false_r.
Qed.

Lemma unsigned_print base n : 2 <= base <= 16 -> 0 <= n -> unsigned base (print_nat base n) = Some n.
Proof.
  intros Hb Hn. destruct (print_nat_spec base n ltac:(lia) Hn) as (ds & -> & Hne & Hds & Hv).
  unfold unsigned. rewrite skip_prefix_digits by done.
  destruct ds as [|d ds]; [done |].
  pose proof (digit_char_spec base d ltac:(lia) (Forall_inv Hds)) as (_ & _ & H95 & _).
  pose proof (int_digits_chars base (d :: ds) 0 0 [] ltac:(lia) Hds ltac:(done)) as Hi.
  rewrite app_nil_r in Hi. rewrite Hi, Hv. cbn [map starts].
  destruct (Z.eqb_spec (digit_char d) 95); done.
Qed.

Lemma print_nat_plain base n : 2 <= base <= 36 -> 0 <= n -> Forall plain (print_nat base n).
Proof.
  intros Hb Hn. destruct (print_nat_spec base n Hb Hn) as (ds & -> & _ & Hds & _).
  eapply Forall_impl; [by apply (digit_chars_plain base) |]. by intros c [H _].
Qed.

(** Numbers contain none of the separators. *)
Lemma print_nat_no base n c : 2 <= base <= 36 -> 0 <= n -> (c = 58 \/ c = 9) -> c ∉ print_nat base n.
Proof.
  intros Hb Hn Hc. destruct (print_nat_spec base n Hb Hn) as (ds & -> & _ & Hds & _).
  pose proof (digit_chars_plain base ds Hb Hds) as Hp. rewrite Forall_forall in Hp.
  intros Hin. destruct (Hp c Hin) as [[? ?] Hw]. destruct Hc as [-> | ->]; [done | lia].
Qed.

Lemma print_nat_cons base n : 2 <= base <= 36 -> 0 <= n ->
  exists c l, print_nat base n = c :: l /\ plain c /\ c <> 43 /\ c <> 45.
Proof.
  intros Hb Hn. destruct (print_nat_spec base n Hb Hn) as (ds & -> & Hne & Hds & _).
  destruct ds as [|d ds]; [done |]. cbn [map]. do 2 eexists. split; [reflexivity |].
  destruct (digit_char_spec base d Hb (Forall_inv Hds)) as (_ & Hp & _ & Hw). split; [done |].
  split; intros Heq; rewrite Heq in Hw; done.
Qed.

(** [int] reads back what the C printers write. *)
Lemma int_of_print base n : 2 <= base <= 16 -> 0 <= n -> int_of base (print_nat base n) = Ok n.
Proof.
  intros Hb Hn. unfold int_of. rewrite to_ascii_plain by (apply print_nat_plain; lia).
  pose proof (unsigned_print base n Hb Hn) as Hu.
  destruct (print_nat_cons base n ltac:(lia) Hn) as (c & l & Hc & Hp & H43 & H45).
  rewrite Hc in *. rewrite skip_spaces_plain by done.
  cbn [starts]. destruct (Z.eqb_spec c 43); [done |]. destruct (Z.eqb_spec c 45); [done |].
  by rewrite Hu.
Qed.

Lemma int_of_print_d z : int_of 10 (print_d z) = Ok z.
Proof.
  unfold print_d. destruct (Z.ltb_spec z 0); [| apply int_of_print; lia].
  unfold int_of. rewrite to_ascii_plain.
  - rewrite skip_spaces_plain by (unfold plain; lia). unfold print_u. cbn [starts tail].
    rewrite unsigned_print by lia. cbn. f_equal. lia.
  - constructor; [unfold plain; lia | apply print_nat_plain; lia].
Qed.

Lemma print_d_no z c : (c = 58 \/ c = 9) -> c ∉ print_d z.
Proof.
  intros Hc. unfold print_d. destruct (Z.ltb_spec z 0); [| apply print_nat_no; lia].
  intros [-> | Hin]%elem_of_cons; [lia |].
  apply (print_nat_no 10 (- z) c); try done; lia.
Qed.

Lemma print_d_plain z : Forall plain (print_d z).
Proof.
  unfold print_d. destruct (Z.ltb_spec z 0); [| apply print_nat_plain; lia].
  constructor; [unfold plain; lia | apply print_nat_plain; lia].
Qed.

Lemma print_nat_ne base n : 2 <= base <= 36 -> 0 <= n -> print_nat base n <> [].
Proof. intros Hb Hn. destruct (print_nat_cons base n Hb Hn) as (? & ? & -> & _). done. Qed.

Lemma print_d_ne z : print_d z <> [].
Proof. unfold print_d. destruct (Z.ltb_spec z 0); [done |]. apply print_nat_ne; lia. Qed.

(** A colon-separated row of numbers. *)
Definition row (zs : list Z) : text := join 58 (map print_d zs).

Lemma row_split zs : zs <> [] -> split 58 (row zs) = map print_d zs.
Proof.
  intros Hne. apply split_join; [by destruct zs |].
  apply Forall_map, Forall_true. intros z. cbn. apply print_d_no. lia.
Qed.

Lemma ints_printed zs : result_map (int_of 10) (map print_d zs) = Ok zs.
Proof. induction zs as [|z zs IH]; cbn; [done |]. rewrite int_of_print_d. cbn. by rewrite IH. Qed.

Lemma join_Forall (P : Z -> Prop) sep ps : P sep -> Forall (Forall P) ps -> Forall P (join sep ps).
Proof.
  intros Hs. induction 1 as [|p ps Hp Hps IH]; [constructor |].
  destruct ps as [|p2 ps]; [done |].
  change (join sep (p :: p2 :: ps)) with (p ++ sep :: join sep (p2 :: ps)).
  apply Forall_app. split; [done |]. by constructor.
Qed.

Lemma row_plain zs : Forall plain (row zs).
Proof.
  apply join_Forall; [unfold plain; lia |]. apply Forall_map, Forall_true. intros. apply print_d_plain.
Qed.

Lemma row_no_tab zs : 9 ∉ row zs.
Proof. intros H. pose proof (row_plain zs) as Hp. rewrite Forall_forall in Hp. destruct (Hp 9 H). lia. Qed.

Lemma row_ne zs : zs <> [] -> row zs <> [].
Proof.
  destruct zs as [|z [|z2 zs]]; [done | intros _; apply print_d_ne |]. intros _.
  unfold row. cbn. destruct (print_d z) eqn:E; [by destruct (print_d_ne z) | done].
Qed.

(** *** Tab-separated lines *)

Lemma strip_ends l c d : head l = Some c -> last l = Some d -> plain c -> plain d -> strip l = l.
Proof.
  intros Hh Hl Hc Hd. destruct l as [|x l]; [done |]. injection Hh as ->.
  destruct (exists_last (l := c :: l)) as (l' & y & Hy); [done |].
  unfold strip. rewrite lstrip_plain, Hy, reverse_snoc by done.
  rewrite Hy, last_snoc in Hl. injection Hl as ->.
  by rewrite lstrip_plain, reverse_cons, reverse_involutive by done.
Qed.

Lemma head_join sep p ps : p <> [] -> head (join sep (p :: ps)) = head p.
Proof. destruct p, ps; done. Qed.

Lemma last_join sep ps q : q <> [] -> last (join sep (ps ++ [q])) = last q.
Proof.
  intros Hq. induction ps as [|p ps IH]; [done |].
  assert (Hc : join sep ((p :: ps) ++ [q]) = p ++ sep :: join sep (ps ++ [q])) by (by destruct ps).
  rewrite Hc, last_app_cons, <- IH.
  destruct (join sep (ps ++ [q])) eqn:E; [| done].
  destruct (last q) as [x |] eqn:Elq; [done |]. by apply last_None in Elq.
Qed.

(** What a line protocol sees of a line printed from plain columns. *)
Lemma printed_line p ps q :
  p <> [] -> q <> [] -> Forall (Forall plain) (p :: ps ++ [q]) ->
  let line := join 9 (p :: ps ++ [q]) in
  utf8_decode line = Ok line /\ strip line = line /\ split 9 line = p :: ps ++ [q].
Proof.
  intros Hp Hq Hf line. split_and!.
  - apply utf8_ascii, join_Forall; [lia |]. eapply Forall_impl; [exact Hf |]. intros c Hc.
    eapply Forall_impl; [exact Hc |]. unfold plain. lia.
  - assert (Hfp : Forall plain p) by (by inversion Hf).
    assert (Hfq : Forall plain q).
    { rewrite app_comm_cons in Hf. apply Forall_app in Hf as [_ Hf]. by inversion Hf. }
    destruct p as [|c p']; [done |]. destruct (last q) as [d |] eqn:Elq; [| by apply last_None in Elq].
    apply (strip_ends _ c d).
    + unfold line. by rewrite head_join.
    + unfold line. rewrite app_comm_cons, last_join; done.
    + by inversion Hfp.
    + rewrite Forall_forall in Hfq. apply Hfq, last_Some_elem_of, Elq.
  - apply split_join; [done |]. eapply Forall_impl; [exact Hf |]. intros x Hx Hin.
    rewrite Forall_forall in Hx. destruct (Hx 9 Hin). lia.
Qed.

(** A few inputs as CPython treats them. *)
Example int_samples :
  int_of 16 (lit "0x_f") = Ok 15 /\ int_of 16 (lit " 0b1 ") = Ok 177 /\
  int_of 10 (lit "1_2_3") = Ok 123 /\ int_of 10 (lit "1__2") = Raise ValueError /\
  int_of 10 (lit "-12") = Ok (-12) /\ int_of 10 [1632; 53] = Ok 5 /\
  int_of 10 [28; 53] = Raise ValueError /\ int_of 10 [133; 53] = Ok 5 /\
  int_of 10 [] = Raise ValueError /\ utf8_decode [0xe2; 0x82; 0xac] = Ok [8364] /\
  utf8_decode [0xed; 0xa0; 0x80] = Raise UnicodeDecodeError.
Proof. vm_compute. repeat split. Qed.

End PyText.
