(* ===== verification/MavShow.v ===== *)
(** The methods of MAVLink_message (src/wfb_ng/mavlink.py) that look at a message:
    the field getter, comparison, conversion to a dictionary and to text, and the
    deprecated class property [name].  The text of a number is a parameter.  Two
    messages that are compared hold different objects, and their arrays are of the
    same sequence type. *)
From Stdlib Require Import ZArith Lia Bool.
From stdpp Require Import base list strings gmap.
From S2P Require Import Prelude PyStruct MavMessage MavMap MavLink MavCodec MavFrame MavSpec PyDict PyNum PyText.

Module MavShow.
Import PyStruct MavMessage MavMap MavLink MavFrame MavSpec PyText.

(** ** Getters *)

Definition get_crc (m : message) : option Z := m_crc m.
Definition get_msgId (m : message) : Z := h_msgId (m_header m).
Definition get_srcSystem (m : message) : Z := h_srcSystem (m_header m).
Definition get_srcComponent (m : message) : Z := h_srcComponent (m_header m).
Definition get_seq (m : message) : Z := h_seq (m_header m).

(** What a getter returns: text, a number or sequence of numbers, or the
    bytearray a message without class was built from. *)
Inductive field_value := SStr (t : text) | SVal (a : fval) | SRaw (b : bytes).

(** [raw.decode(errors="backslashreplace")]: a byte that does not start a valid
    character becomes an escape; the bytes after it are tried again, which gives
    the same text as escaping the whole invalid sequence. *)
Definition hex2 (b : Z) : text := [digit_char (b / 16); digit_char (b mod 16)].

Fixpoint decode_escaped (l : bytes) : text :=
  match l with
  | [] => []
  | b0 :: r0 =>
      let bad := lit "\x" ++ hex2 b0 ++ decode_escaped r0 in
      if b0 <? 128 then b0 :: decode_escaped r0
      else match r0 with
      | [] => bad
      | b1 :: r1 =>
          if within 0xC2 0xDF b0 && cont b1 then (b0 - 0xC0) * 64 + (b1 - 128) :: decode_escaped r1
          else match r1 with
          | [] => bad
          | b2 :: r2 =>
              if within 0xE0 0xEF b0 && within (if b0 =? 0xE0 then 0xA0 else 0x80) (if b0 =? 0xED then 0x9F else 0xBF) b1 && cont b2
              then (b0 - 0xE0) * 4096 + (b1 - 128) * 64 + (b2 - 128) :: decode_escaped r2
              else match r2 with
              | [] => bad
              | b3 :: r3 =>
                  if within 0xF0 0xF4 b0 && within (if b0 =? 0xF0 then 0x90 else 0x80) (if b0 =? 0xF4 then 0x8F else 0xBF) b1 && cont b2 && cont b3
                  then (b0 - 0xF0) * 262144 + (b1 - 128) * 4096 + (b2 - 128) * 64 + (b3 - 128) :: decode_escaped r3
                  else bad
              end
          end
      end
  end.

(** [getattr(self, field)]; the buffer of bad and unknown data is its data. *)
Definition get_attr (m : message) (field : string) : result attr :=
  of_option AttributeError (m_attrs m !! field).

Definition format_attr (m : message) (field : string) : result field_value :=
  match m_class m with
  | Known _ =>
      a ← get_attr m field;
      Ok (match a with
          | AStr s => SStr s
          | AVal (FScalar (PBytes b)) => SStr (rstrip0 (decode_escaped b))
          | AVal v => SVal v
          end)
  | BadData reason =>
      if decide (field = "data"%string) then Ok (SRaw (m_msgbuf m))
      else if decide (field = "reason"%string) then Ok (SStr (lit reason)) else Raise AttributeError
  | Unknown _ => if decide (field = "data"%string) then Ok (SRaw (m_msgbuf m)) else Raise AttributeError
  end.

(** ** Comparison *)

Definition num_of (v : pyval) : option PyNum.num :=
  match v with PInt z => Some (PyNum.NInt z) | PFloat b => Some (PyNum.of_bits b) | PBytes _ => None end.

(** [a == b] of two values. *)
Definition val_eq (a b : pyval) : bool :=
  match num_of a, num_of b with
  | Some x, Some y => PyNum.eqb x y
  | None, None => bool_decide (a = b)
  | _, _ => false
  end.

Fixpoint vals_eq (a b : list pyval) : bool :=
  match a, b with
  | [], [] => true
  | x :: a', y :: b' => val_eq x y && vals_eq a' b'
  | _, _ => false
  end.

Definition shown_eq (a b : field_value) : bool :=
  match a, b with
  | SStr s, SStr t => bool_decide (s = t)
  | SVal (FScalar x), SVal (FScalar y) => val_eq x y
  | SVal (FArray x), SVal (FArray y) => vals_eq x y
  | SRaw x, SRaw y => bool_decide (x = y)
  | _, _ => false
  end.

Fixpoint fields_eq (m o : message) (fs : list string) : result bool :=
  match fs with
  | [] => Ok true
  | f :: fs' =>
      a ← format_attr m f; b ← format_attr o f;
      if shown_eq a b then fields_eq m o fs' else Ok false
  end.

(** [self == other]: [None] is an object that is no message. *)
Definition message_eq (m : message) (other : option message) : result bool :=
  match other with
  | None => Ok false
  | Some o =>
      if decide (get_type m <> get_type o) then Ok false
      else if decide (get_crc m <> get_crc o) then Ok false
      else if decide (get_seq m <> get_seq o) then Ok false
      else if decide (get_srcSystem m <> get_srcSystem o) then Ok false
      else if decide (get_srcComponent m <> get_srcComponent o) then Ok false
      else fields_eq m o (get_fieldnames m)
  end.

Definition message_ne (m : message) (other : option message) : result bool := b ← message_eq m other; Ok (negb b).

(** ** Conversions *)

Fixpoint set_fields (m : message) (fs : list string) (d : PyDict.dict string field_value) : result (PyDict.dict string field_value) :=
  match fs with
  | [] => Ok d
  | f :: fs' => v ← format_attr m f; set_fields m fs' (PyDict.set d f v)
  end.

Definition to_dict (m : message) : result (PyDict.dict string field_value) :=
  set_fields m (get_fieldnames m) (PyDict.set [] "mavpackettype"%string (SStr (lit (get_type m)))).

(** [['%x', ...]] as a list of strings is printed. *)
Definition hex_list (b : bytes) : text :=
  91 :: concat (match map (fun i => 39 :: print_x i ++ [39]) b with [] => [] | p :: ps => p :: map (app (lit ", ")) ps end) ++ [93].

Section Text.
(** ['%s' % value] of a number or a sequence. *)
Context (fmt : field_value -> text).

Fixpoint str_fields (m : message) (fs : list string) : result text :=
  match fs with
  | [] => Ok []
  | f :: fs' =>
      v ← format_attr m f;
      r ← str_fields m fs';
      Ok (lit f ++ lit " : " ++ match v with SStr t => t | _ => fmt v end ++ lit ", " ++ r)
  end.

(** [str(m)]; [ret[0:-2]] cuts the last separator. *)
Definition str_message (m : message) : result text :=
  match m_class m with
  | Known _ =>
      r ← str_fields m (get_fieldnames m);
      let ret := lit (get_type m) ++ lit " {" ++ r in
      Ok (take (length ret - 2) ret ++ lit "}")
  | BadData reason => Ok (lit (get_type m) ++ lit " {" ++ lit reason ++ lit ", data:" ++ hex_list (m_msgbuf m) ++ lit "}")
  | Unknown _ => Ok (lit (get_type m) ++ lit " {data:" ++ hex_list (m_msgbuf m) ++ lit "}")
  end.

End Text.

(** [__getitem__]: no class sets [_instances]. *)
Definition getitem (instances : option (PyDict.dict string string)) (key : string) : result string :=
  match instances with
  | None => Raise IndexError
  | Some d => match PyDict.get d key with Some v => Ok v | None => Raise IndexError end
  end.

(** [mavlink_msg_deprecated_name_property.__get__]. *)
Definition deprecated_name (instance : option message) (owner : msgtype) : result string :=
  match instance with Some _ => Raise AttributeError | None => Ok (msgname owner) end.

(** ** A decoded message equals the one sent *)

Definition val_nan (v : pyval) : bool := match num_of v with Some PyNum.NNaN => true | _ => false end.
Definition shown_nan (s : field_value) : bool :=
  match s with SVal (FScalar v) => val_nan v | SVal (FArray l) => existsb val_nan l | _ => false end.

(** Whether a field is, or holds, not a number. *)
Definition field_nan (m : message) (f : string) : bool :=
  match format_attr m f with Ok s => shown_nan s | Raise _ => false end.

Lemma num_eq_refl n : PyNum.eqb n n = match n with PyNum.NNaN => false | _ => true end.
Proof. destruct n as [| | [] |]; cbn; try apply Z.eqb_refl; done. Qed.

Lemma val_eq_refl v : val_eq v v = negb (val_nan v).
Proof.
  unfold val_eq, val_nan. destruct (num_of v) as [n|]; [rewrite num_eq_refl; by destruct n |]. by apply bool_decide_eq_true_2.
Qed.

Lemma shown_eq_refl s : shown_eq s s = negb (shown_nan s).
Proof.
  destruct s as [t|[v|l]|b]; cbn [shown_eq shown_nan negb]; [by apply bool_decide_eq_true_2 | apply val_eq_refl | | by apply bool_decide_eq_true_2].
  induction l as [|v l IH]; [done |]. cbn [vals_eq existsb]. by rewrite val_eq_refl, IH, negb_orb.
Qed.

Lemma fields_eq_same m o fs : (forall f, f ∈ fs -> format_attr o f = format_attr m f /\ is_ok (format_attr m f) = true) ->
  fields_eq m o fs = Ok (negb (existsb (field_nan m) fs)).
Proof.
  induction fs as [|f fs IH]; intros H; [done |]. cbn [fields_eq existsb]. destruct (H f ltac:(by left)) as [-> Hok].
  unfold field_nan at 1. destruct (format_attr m f) as [s|]; [| done]. cbn [mbind result_bind]. rewrite shown_eq_refl.
  destruct (shown_nan s); cbn [negb orb]; [done |]. apply IH. intros g Hg. apply H. by right.
Qed.

Lemma set_fields_same m o fs d : (forall f, f ∈ fs -> format_attr o f = format_attr m f) -> set_fields o fs d = set_fields m fs d.
Proof.
  revert d. induction fs as [|f fs IH]; intros d H; [done |]. cbn [set_fields]. rewrite (H f) by (by left).
  destruct (format_attr m f); [| done]. cbn [mbind result_bind]. apply IH. intros g Hg. apply H. by right.
Qed.

(** Messages of one class with the same fields show the same. *)
Lemma format_same mt v m o : m_class m = Known mt -> same_message mt v m o -> (forall f, f ∈ fieldnames mt -> is_Some (m_attrs m !! f)) ->
  forall f, f ∈ fieldnames mt -> format_attr o f = format_attr m f /\ is_ok (format_attr m f) = true.
Proof.
  intros Hm (Hc & _ & _ & _ & _ & _ & Ha) Hs f Hf. unfold format_attr, get_attr. rewrite Hc, Hm, (Ha f Hf).
  destruct (Hs f Hf) as [a ->]. by destruct a as [[[]|]|].
Qed.

Lemma nan_same m o fs : (forall f, f ∈ fs -> format_attr o f = format_attr m f) -> existsb (field_nan o) fs = existsb (field_nan m) fs.
Proof.
  induction fs as [|f fs IH]; intros H; [done |]. cbn [existsb]. unfold field_nan at 1 3. rewrite (H f) by (by left).
  rewrite IH; [done |]. intros g Hg. apply H. by right.
Qed.

Lemma eq_same mt m o : m_class m = Known mt -> get_type o = get_type m -> m_crc o = m_crc m -> h_seq (m_header o) = h_seq (m_header m) ->
  h_srcSystem (m_header o) = h_srcSystem (m_header m) -> h_srcComponent (m_header o) = h_srcComponent (m_header m) ->
  (forall f, f ∈ fieldnames mt -> format_attr o f = format_attr m f /\ is_ok (format_attr m f) = true) ->
  message_eq m (Some o) = Ok (negb (existsb (field_nan m) (fieldnames mt))).
Proof.
  intros Hm Ht Hc Hs Hy Hp Hf. unfold message_eq, get_crc, get_seq, get_srcSystem, get_srcComponent.
  rewrite Ht, Hc, Hs, Hy, Hp, !decide_False by (intros H; by apply H). unfold get_fieldnames. rewrite Hm. by apply fields_eq_same.
Qed.

Lemma to_dict_ok m fs d : (forall f, f ∈ fs -> is_ok (format_attr m f) = true) -> is_ok (set_fields m fs d) = true.
Proof.
  revert d. induction fs as [|f fs IH]; intros d H; [done |]. cbn [set_fields]. pose proof (H f ltac:(by left)) as Hf.
  destruct (format_attr m f); [| done]. cbn [mbind result_bind]. apply IH. intros g Hg. apply H. by right.
Qed.

Lemma packed_attr mt args force1 v key m v1 p f : packs mt args force1 v key m v1 p -> f ∈ fieldnames mt -> is_Some (m_attrs (p_msg p) !! f).
Proof.
  intros Hp Hf. rewrite (pk_attrs _ _ _ _ _ _ _ _ Hp). pose proof (pk_fields _ _ _ _ _ _ _ _ Hp f Hf) as Hspec.
  unfold MavCodec.attr_spec in Hspec. destruct (is_str mt f); [destruct Hspec as (b & _ & _ & ->) | rewrite Hspec]; by eexists.
Qed.

(** A received message is the one sent, in the sense of the program's own
    comparison: for every message class of the dispatch table and every well-typed
    argument list, sent as MAVLink 1 or 2, signed or not, the sender's and the
    receiver's message objects are equal under [==] in both directions exactly when
    no field is or holds a NaN (which equals nothing, not even itself), and they
    convert to the same dictionary, which has every field. *)
Theorem decoded_message_equal ign mt args (force1 : bool) v v2 key :
  mavlink_get (mt_id mt) = Some mt -> args_fit mt args -> (force1 = true -> mt_id mt < 256) ->
  tx_ok v -> can_sign v key -> secret_key (sgn v2) = None ->
  exists m v1 m1 frame v3 m2,
    new_message mt args = Ok m /\ message_pack m force1 v = (v1, Ok (m1, frame)) /\ decode ign frame v2 = (v3, Ok m2) /\
    let same := negb (existsb (field_nan m1) (fieldnames mt)) in
    message_eq m1 (Some m2) = Ok same /\ message_eq m2 (Some m1) = Ok same /\ message_ne m1 (Some m2) = Ok (negb same) /\
    to_dict m2 = to_dict m1 /\ is_ok (to_dict m1) = true.
Proof.
  intros Hmt Hargs Hid Htx Hsign Hk.
  destruct (message_pack_spec mt args force1 v key Hmt Hargs Hid Htx Hsign) as (m & v1 & p & Hp).
  edestruct (decode_packed mt args force1 v key m v1 p Hmt Hargs Hp ign v2) as (m2 & Hd & Hs & _); [by apply verify_no_key | reflexivity |].
  pose proof (pk_class _ _ _ _ _ _ _ _ Hp) as Hc. pose proof Hs as (Hcl & Hty & Hcrc & Hseq & Hsys & Hcomp & _).
  assert (Hh : m_header (p_msg p) = frame_header v (mt_id mt) (blen (p_payload p)))
    by (rewrite (pk_msg_header _ _ _ _ _ _ _ _ Hp); apply Hp).
  pose proof (format_same mt v (p_msg p) m2 Hc Hs (fun f => packed_attr _ _ _ _ _ _ _ _ f Hp)) as Hf.
  assert (Hback : forall f, f ∈ fieldnames mt -> format_attr (p_msg p) f = format_attr m2 f /\ is_ok (format_attr m2 f) = true)
    by (intros f Hin; destruct (Hf f Hin) as [-> ?]; done).
  assert (Heq : message_eq (p_msg p) (Some m2) = Ok (negb (existsb (field_nan (p_msg p)) (fieldnames mt))))
    by (apply eq_same; rewrite ?Hh; done).
  do 6 eexists. split; [apply Hp |]. split; [apply Hp |]. split; [exact Hd |]. cbv zeta. split_and!.
  - exact Heq.
  - rewrite <- (nan_same (p_msg p) m2 (fieldnames mt)) by (intros f Hin; by apply Hf).
    apply eq_same; rewrite ?Hh; try done. by rewrite Hcl.
  - unfold message_ne. by rewrite Heq.
  - unfold to_dict, get_fieldnames. rewrite Hty, Hcl, Hc. apply set_fields_same. intros f Hin. by apply Hf.
  - unfold to_dict, get_fieldnames. rewrite Hc. apply to_dict_ok. intros f Hin. by apply Hf.
Qed.

Lemma decoded_message_equal_witness : exists m v1 m1 frame v3 m2,
  new_message demo_mt demo_args = Ok m /\ message_pack m true (demo_tx 5) = (v1, Ok (m1, frame)) /\
  decode false frame (init_mavlink 1 1) = (v3, Ok m2) /\ message_eq m1 (Some m2) = Ok true /\ to_dict m2 = to_dict m1.
Proof.
  destruct (decoded_message_equal false demo_mt demo_args true (demo_tx 5) (init_mavlink 1 1) demo_key) as (m & v1 & m1 & fr & v3 & m2 & Hn & Hp & Hd & He & _ & _ & Ht & _).
  - exact demo_known.
  - exact demo_fit.
  - intros _. vm_compute. reflexivity.
  - apply demo_tx_ok.
  - intros _. apply demo_can_sign. lia.
  - reflexivity.
  - exists m, v1, m1, fr, v3, m2. split_and!; try done. rewrite He.
    assert (Ha : m_class m1 = Known demo_mt /\ m_attrs m1 = m_attrs demo_msg).
    { assert (m = demo_msg) as -> by (unfold demo_msg; by rewrite Hn).
      unfold message_pack, pack_frame in Hp. vm_compute in Hp. injection Hp as _ <- _. done. }
    destruct Ha as [Hc Ha]. unfold field_nan, format_attr, get_attr. rewrite Hc, Ha. vm_compute. reflexivity.
Defined.

(** A field that is not a number makes a message differ from itself. *)
Example nan_differs : forall a, num_of (PFloat a) = Some PyNum.NNaN -> shown_eq (SVal (FScalar (PFloat a))) (SVal (FScalar (PFloat a))) = false.
Proof. intros a H. unfold shown_eq, val_eq. by rewrite H. Qed.

(** ** The text of a message *)

Definition show_int (s : field_value) : text := match s with SVal (FScalar (PInt z)) => print_d z | _ => [] end.

Example demo_text : str_message show_int demo_msg =
  Ok (lit "RADIO_STATUS {rssi : 1, remrssi : 1, txbuf : 100, noise : 2, remnoise : 5, rxerrors : 300, fixed : 4}").
Proof. vm_compute. reflexivity. Qed.

Example bad_data_text : str_message show_int (bad_data [254; 9] "Bad prefix") = Ok (lit "BAD_DATA {Bad prefix, data:['fe', '9']}").
Proof. vm_compute. reflexivity. Qed.

End MavShow.
