(* ===== verification/AntSel.v ===== *)
(** [AntStatsAndSelector] of src/wfb_ng/protocols.py: aggregation of the
    receive statistics of all antennas, choice of the card to transmit with,
    and the link report sent to the flight controller. *)
From Stdlib Require Import ZArith Lia Bool.
From stdpp Require Import base list numbers gmap strings sorting.
From S2P Require Import Prelude.
From S2P Require Import PyDict.
From S2P Require Import PyNum.

Module AntSel.

(** ** Data *)

(** Antenna statistics by ((freq, mcs, bandwidth), antenna id), as the line
    parser builds them: tuples of any length. *)
Abbreviation ant_stats := (PyDict.dict (list Z * Z) (list Z)).

(** Packet counters by name: (since the last report, total). *)
Abbreviation packet_stats := (PyDict.dict string (Z * Z)).

Record stat7 := Stat7 {
  pkt_s : Z;
  rssi_min : Z; rssi_avg : Z; rssi_max : Z;
  snr_min : Z; snr_avg : Z; snr_max : Z
}.

Record session_info := SessionInfo { fec_type : string; fec_k : Z; fec_n : Z; epoch : Z }.

(** What is sent to the user interface sessions and the log. *)
Inductive stat_msg :=
| RxMsg (timestamp : Z) (id : string) (tx_wlan : option Z) (packets : packet_stats)
        (rx_ant_stats : ant_stats) (session : option session_info)
| TxMsg (timestamp : Z) (id : string) (packets : packet_stats)
        (latency : PyDict.dict Z (list Z)) (rf_temperature : PyDict.dict Z Z)
| NewSessionMsg (timestamp : Z) (id : string) (session : session_info)
| CliTitleMsg (cli_title : string) (is_cluster : bool) (log_interval temp_overheat_warning : Z).

(** What the API factory and the configuration tell a new session. *)
Record cli_conf := CliConf {
  cli_title : option string;
  is_cluster : bool;
  log_interval : Z;
  temp_overheat_warning : Z
}.

(** The arguments of an RSSI callback. *)
Record rssi_report := RssiReport {
  r_rssi : Z; r_noise : Z; r_errors : Z; r_fec : Z; r_flags : Z
}.

Definition LINK_LOST : Z := 1.
Definition LINK_JAMMED : Z := 2.

(** The configuration section [common] as far as the selector reads it. *)
Record sel_conf := SelConf {
  tx_sel_rssi_delta : PyNum.num;
  tx_sel_counter_rel_delta : PyNum.num;
  tx_sel_counter_abs_delta : PyNum.num;
  mavlink_err_rate : bool
}.

(** The object.  Callbacks and sessions are identified by numbers; what they
    were called with is recorded in order. *)
Record sel := Sel {
  rx_only_wlan_ids : gset Z;
  ant_sel_cb_list : list nat;
  rssi_cb_l : list nat;
  cur_stats : PyDict.dict string (ant_stats * packet_stats);
  tx_sel : option Z;
  ui_sessions : list nat;
  logger : option nat;
  rf_temperature : option (PyDict.dict Z Z);
  sel_calls : list (nat * option Z);
  rssi_calls : list (nat * rssi_report);
  ui_out : list (nat * stat_msg)
}.

Definition set_tx_sel w s := Sel (rx_only_wlan_ids s) (ant_sel_cb_list s) (rssi_cb_l s) (cur_stats s)
  w (ui_sessions s) (logger s) (rf_temperature s) (sel_calls s) (rssi_calls s) (ui_out s).
Definition set_cur_stats c s := Sel (rx_only_wlan_ids s) (ant_sel_cb_list s) (rssi_cb_l s) c
  (tx_sel s) (ui_sessions s) (logger s) (rf_temperature s) (sel_calls s) (rssi_calls s) (ui_out s).
Definition add_sel_call c s := Sel (rx_only_wlan_ids s) (ant_sel_cb_list s) (rssi_cb_l s) (cur_stats s)
  (tx_sel s) (ui_sessions s) (logger s) (rf_temperature s) (sel_calls s ++ [c]) (rssi_calls s) (ui_out s).
Definition add_rssi_call c s := Sel (rx_only_wlan_ids s) (ant_sel_cb_list s) (rssi_cb_l s) (cur_stats s)
  (tx_sel s) (ui_sessions s) (logger s) (rf_temperature s) (sel_calls s) (rssi_calls s ++ [c]) (ui_out s).
Definition add_ui_out c s := Sel (rx_only_wlan_ids s) (ant_sel_cb_list s) (rssi_cb_l s) (cur_stats s)
  (tx_sel s) (ui_sessions s) (logger s) (rf_temperature s) (sel_calls s) (rssi_calls s) (ui_out s ++ [c]).
Definition set_ui_sessions l s := Sel (rx_only_wlan_ids s) (ant_sel_cb_list s) (rssi_cb_l s) (cur_stats s)
  (tx_sel s) l (logger s) (rf_temperature s) (sel_calls s) (rssi_calls s) (ui_out s).
Definition set_callbacks l r s := Sel (rx_only_wlan_ids s) l r (cur_stats s)
  (tx_sel s) (ui_sessions s) (logger s) (rf_temperature s) (sel_calls s) (rssi_calls s) (ui_out s).

(** [__init__]: the log is the first statistics session. *)
Definition init (lg : option nat) (rx_only : gset Z) (temp : option (PyDict.dict Z Z)) : sel :=
  Sel rx_only [] [] [] None (match lg with Some l => [l] | None => [] end) lg temp [] [] [].

(** ** [_stats_agg_by_freq_and_rxid] *)

(** Unpacking of the two tuples of an item. *)
Definition unpack3 (k : list Z) : result (Z * Z * Z) :=
  match k with [f; m; b] => Ok (f, m, b) | _ => Raise ValueError end.

Definition unpack7 (v : list Z) : result stat7 :=
  match v with
  | [p; rn; ra; rx; sn; sa; sx] => Ok (Stat7 p rn ra rx sn sa sx)
  | _ => Raise ValueError
  end.

Definition weighted (e : stat7) : stat7 :=
  Stat7 (pkt_s e) (rssi_min e) (rssi_avg e * pkt_s e) (rssi_max e)
        (snr_min e) (snr_avg e * pkt_s e) (snr_max e).

Definition merge (e tmp : stat7) : stat7 :=
  Stat7 (pkt_s e + pkt_s tmp)
        (Z.min (rssi_min e) (rssi_min tmp))
        (rssi_avg e * pkt_s e + rssi_avg tmp)
        (Z.max (rssi_max e) (rssi_max tmp))
        (Z.min (snr_min e) (snr_min tmp))
        (snr_avg e * pkt_s e + snr_avg tmp)
        (Z.max (snr_max e) (snr_max tmp)).

Definition agg_item (stats_agg : PyDict.dict Z stat7) (it : (list Z * Z) * list Z)
    : result (PyDict.dict Z stat7) :=
  _ ← unpack3 it.1.1;
  e ← unpack7 it.2;
  Ok (PyDict.set stats_agg it.1.2
        match PyDict.get stats_agg it.1.2 with
        | None => weighted e
        | Some tmp => merge e tmp
        end).

Fixpoint agg_items (stats_agg : PyDict.dict Z stat7) (l : list ((list Z * Z) * list Z))
    : result (PyDict.dict Z stat7) :=
  match l with
  | [] => Ok stats_agg
  | it :: l' => d ← agg_item stats_agg it; agg_items d l'
  end.

(** [a // b]. *)
Definition floordiv (a b : Z) : result Z := if b =? 0 then Raise ZeroDivisionError else Ok (a / b).

Definition averaged (p : Z * stat7) : result (Z * stat7) :=
  let e := p.2 in
  ra ← floordiv (rssi_avg e) (pkt_s e);
  sa ← floordiv (snr_avg e) (pkt_s e);
  Ok (p.1, Stat7 (pkt_s e) (rssi_min e) ra (rssi_max e) (snr_min e) sa (snr_max e)).

Definition stats_agg_by_freq_and_rxid (ant_stats_by_rx : PyDict.dict string ant_stats)
    : result (PyDict.dict Z stat7) :=
  d ← agg_items [] (concat (PyDict.values ant_stats_by_rx));
  l ← result_map averaged d;
  Ok (PyDict.of_pairs l).

(** ** [select_tx_antenna] *)

Abbreviation ant_row := (Z * Z * Z)%type.

(** The order of [sorted] on (wlan, packets, rssi) triples. *)
Definition row_le (x y : ant_row) : Prop :=
  x.1.1 < y.1.1 \/ x.1.1 = y.1.1 /\ (x.1.2 < y.1.2 \/ x.1.2 = y.1.2 /\ x.2 <= y.2).

#[export] Instance row_le_dec : RelDecision row_le.
Proof. intros x y. unfold row_le. solve_decision. Defined.

(** [itertools.groupby] on the first component: runs of equal keys. *)
Fixpoint groupby (l : list ant_row) : list (Z * list ant_row) :=
  match l with
  | [] => []
  | x :: l' =>
      match groupby l' with
      | (k, g) :: r => if x.1.1 =? k then (k, x :: g) :: r else (x.1.1, [x]) :: (k, g) :: r
      | [] => [(x.1.1, [x])]
      end
  end.

(** [max] of a non-empty sequence of integers. *)
Definition py_max (l : list Z) : result Z :=
  match l with [] => Raise ValueError | x :: l' => Ok (fold_left Z.max l' x) end.

(** [max] of a sequence of pairs, compared lexicographically. *)
Definition pair_max (p q : Z * Z) : Z * Z :=
  if (p.1 <? q.1) || ((p.1 =? q.1) && (p.2 <? q.2)) then q else p.

Definition py_max_pair (l : list (Z * Z)) : result (Z * Z) :=
  match l with [] => Raise ValueError | x :: l' => Ok (fold_left pair_max l' x) end.

Abbreviation wlan_table := (PyDict.dict Z (Z * Z)).

(** The loop over the cards: (rssi, packets) by card, and the most packets. *)
Fixpoint wlan_loop (rx_only : gset Z) (tbl : wlan_table) (max_pkts : Z)
    (gs : list (Z * list ant_row)) : result (wlan_table * Z) :=
  match gs with
  | [] => Ok (tbl, max_pkts)
  | (wlan_id, grp) :: gs' =>
      if decide (wlan_id ∈ rx_only) then wlan_loop rx_only tbl max_pkts gs'
      else
        rssi ← py_max (map snd grp);
        pkts ← py_max (map (fun r => r.1.2) grp);
        wlan_loop rx_only (PyDict.set tbl wlan_id (rssi, pkts)) (Z.max pkts max_pkts) gs'
  end.

Definition ant_rows (stats_agg : PyDict.dict Z stat7) : list ant_row :=
  map (fun p => (Z.shiftr p.1 8, pkt_s p.2, rssi_avg p.2)) stats_agg.

Definition wlan_rssi_and_pkts (rx_only : gset Z) (stats_agg : PyDict.dict Z stat7)
    : result (wlan_table * Z) :=
  wlan_loop rx_only [] 0 (groupby (merge_sort row_le (ant_rows stats_agg))).

(** [max_pkts - max(abs_delta, max_pkts * rel_delta)]. *)
Definition counter_thr (c : sel_conf) (max_pkts : Z) : result PyNum.num :=
  x ← PyNum.mul (PyNum.NInt max_pkts) (tx_sel_counter_rel_delta c);
  PyNum.sub (PyNum.NInt max_pkts) (PyNum.max (tx_sel_counter_abs_delta c) x).

Section Ops.
(** The configuration, and which callbacks and sessions raise. *)
Variable conf : sel_conf.
Variable sel_cb_raises : nat -> option Z -> option exn.
Variable rssi_cb_raises : nat -> rssi_report -> option exn.
Variable ui_raises : nat -> stat_msg -> option exn.

Definition call_sel_cb (w : option Z) (cb : nat) : SE sel unit := fun s =>
  (add_sel_call (cb, w) s,
   match sel_cb_raises cb w with Some e => Raise e | None => Ok tt end).

Definition call_rssi_cb (r : rssi_report) (cb : nat) : SE sel unit := fun s =>
  (add_rssi_call (cb, r) s,
   match rssi_cb_raises cb r with Some e => Raise e | None => Ok tt end).

Definition send_stats (m : stat_msg) (ui : nat) : SE sel unit := fun s =>
  (add_ui_out (ui, m) s,
   match ui_raises ui m with Some e => Raise e | None => Ok tt end).

(** [try: m except Exception: log.err()]. *)
Definition logged {S} (m : SE S unit) : SE S unit := fun s => ((m s).1, Ok tt).

Definition add_ant_sel_cb (cb : nat) : SE sel unit :=
  _ ← se_modify (fun s => set_callbacks (ant_sel_cb_list s ++ [cb]) (rssi_cb_l s) s);
  s ← se_get;
  call_sel_cb (tx_sel s) cb.

Definition add_rssi_cb (cb : nat) : SE sel unit :=
  se_modify (fun s => set_callbacks (ant_sel_cb_list s) (rssi_cb_l s ++ [cb]) s).

Definition select_tx_antenna (stats_agg : PyDict.dict Z stat7) : SE sel unit :=
  s ← se_get;
  '(tbl, max_pkts) ← se_lift (wlan_rssi_and_pkts (rx_only_wlan_ids s) stats_agg);
  if bool_decide (tbl = []) then mret tt
  else
    thr ← se_lift (counter_thr conf max_pkts);
    let wlans_with_max_pkts :=
      map fst (List.filter (fun p => PyNum.le thr (PyNum.NInt p.2.2)) tbl) in
    if bool_decide (wlans_with_max_pkts = []) then mret tt
    else
      '(new_max_rssi, new_tx_wlan) ← se_lift (py_max_pair
        (map (fun p => (p.2.1, p.1))
             (List.filter (fun p => bool_decide (p.1 ∈ wlans_with_max_pkts)) tbl)));
      let cur_max_rssi :=
        match tx_sel s ≫= PyDict.get tbl with Some p => p.1 | None => -1000 end in
      if bool_decide (tx_sel s = Some new_tx_wlan) then mret tt
      else if match tx_sel s with Some w => bool_decide (w ∈ wlans_with_max_pkts) | None => false end
              && PyNum.lt (PyNum.NInt (new_max_rssi - cur_max_rssi)) (tx_sel_rssi_delta conf)
      then mret tt
      else
        _ ← se_iter (fun cb => logged (call_sel_cb (Some new_tx_wlan) cb)) (ant_sel_cb_list s);
        se_modify (set_tx_sel (Some new_tx_wlan)).

(** ** [aggregate_stats] *)

Definition total (f : packet_stats -> result Z) (l : list packet_stats) : result Z :=
  vs ← result_map f l; Ok (fold_left Z.add vs 0).

Definition counter (i : bool) (name : string) (p : packet_stats) : result Z :=
  v ← PyDict.item p name; Ok (if i then v.1 else v.2).

Definition link_report (stats_agg : PyDict.dict Z stat7) (ps : list packet_stats) : result rssi_report :=
  let i := mavlink_err_rate conf in
  let card_rssi_l := map (fun e => (rssi_avg e, rssi_avg e - snr_avg e)) (PyDict.values stats_agg) in
  bad_packets ← total (fun p => a ← counter true "dec_err" p; b ← counter true "bad" p; Ok (a + b)) ps;
  '(mav_rssi, mav_noise, flags) ←
    (if bool_decide (card_rssi_l = []) then Ok (-128, -128, LINK_LOST)
     else m ← py_max_pair card_rssi_l;
          Ok (m.1, m.2, if 0 <? bad_packets then LINK_JAMMED else 0));
  rx_errors ← total (fun p => a ← counter i "dec_err" p; b ← counter i "bad" p;
                              c ← counter i "lost" p; Ok (a + b + c)) ps;
  rx_fec ← total (counter i "fec_rec") ps;
  Ok (RssiReport mav_rssi mav_noise (Z.min rx_errors 65535) (Z.min rx_fec 65535) flags).

Definition aggregate_stats : SE sel unit :=
  s ← se_get;
  _ ← se_modify (set_cur_stats []);
  let ant_stats_by_rx := map (fun p => (p.1, p.2.1)) (cur_stats s) in
  let packet_stats_by_rx := map (fun p => p.2.2) (cur_stats s) in
  stats_agg ← se_lift (stats_agg_by_freq_and_rxid ant_stats_by_rx);
  _ ← (if negb (bool_decide (stats_agg = [])) && negb (bool_decide (ant_sel_cb_list s = []))
       then select_tx_antenna stats_agg else mret tt);
  if bool_decide (rssi_cb_l s = []) then mret tt
  else
    r ← se_lift (link_report stats_agg packet_stats_by_rx);
    se_iter (fun cb => logged (call_rssi_cb r cb)) (rssi_cb_l s).

(** ** The entry points of the line parsers *)

(** [time.time()] is read once per message: [now ui] is its value for [ui]. *)
Definition process_new_session (now : nat -> Z) (rx_id : string) (session : session_info) : SE sel unit :=
  s ← se_get;
  match logger s with
  | Some l => send_stats (NewSessionMsg (now l) rx_id session) l
  | None => mret tt
  end.

Definition update_rx_stats (now : nat -> Z) (rx_id : string) (ps : packet_stats) (ant : ant_stats)
    (session : option session_info) : SE sel unit :=
  _ ← se_modify (fun s => set_cur_stats (PyDict.set (cur_stats s) rx_id (ant, ps)) s);
  s ← se_get;
  se_iter (fun ui => send_stats (RxMsg (now ui) rx_id (tx_sel s) ps ant session) ui) (ui_sessions s).

Definition update_tx_stats (now : nat -> Z) (tx_id : string) (ps : packet_stats)
    (ant_latency : PyDict.dict Z (list Z)) : SE sel unit :=
  s ← se_get;
  se_iter (fun ui => send_stats (TxMsg (now ui) tx_id ps ant_latency (default [] (rf_temperature s))) ui)
          (ui_sessions s).

(** [StatisticsMsgPackProtocol.connectionMade] and [connectionLost]: the
    factories share the list [ui_sessions] of the selector. *)
Definition ui_connectionMade (hello : cli_conf) (ui : nat) : SE sel unit :=
  _ ← send_stats (CliTitleMsg (default EmptyString (cli_title hello)) (is_cluster hello)
                    (log_interval hello) (temp_overheat_warning hello)) ui;
  se_modify (fun s => set_ui_sessions (ui_sessions s ++ [ui]) s).

Definition ui_connectionLost (ui : nat) : SE sel unit :=
  s ← se_get;
  match list_remove ui (ui_sessions s) with
  | Some l => se_modify (set_ui_sessions l)
  | None => se_raise ValueError
  end.

End Ops.

(** ** Aggregation: specification *)

Definition item : Type := ((list Z * Z) * list Z)%type.

(** The items the source can unpack. *)
Definition well_formed (it : item) : Prop := length it.1.1 = 3%nat /\ length it.2 = 7%nat.

#[export] Instance well_formed_dec it : Decision (well_formed it).
Proof. unfold well_formed. apply _. Defined.

(** The statistics of one antenna, over all receivers and modulations. *)
Definition stat_of (it : item) : list stat7 :=
  match unpack7 it.2 with Ok e => [e] | Raise _ => [] end.

Definition entries (its : list item) (a : Z) : list stat7 :=
  concat (map stat_of (List.filter (fun it => it.1.2 =? a) its)).

Definition sumZ {A} (f : A -> Z) (l : list A) : Z := fold_right (fun e z => f e + z) 0 l.

Definition least {A} (f : A -> Z) (l : list A) (z : Z) : Prop :=
  (exists e, e ∈ l /\ f e = z) /\ forall e, e ∈ l -> z <= f e.

Definition greatest {A} (f : A -> Z) (l : list A) (z : Z) : Prop :=
  (exists e, e ∈ l /\ f e = z) /\ forall e, e ∈ l -> f e <= z.

(** [s] summarises the non-empty list [l]: total packets, extremes, and
    packet-weighted means rounded down. *)
Record summarises (l : list stat7) (s : stat7) : Prop := {
  sm_pkts : pkt_s s = sumZ pkt_s l;
  sm_rssi_min : least rssi_min l (rssi_min s);
  sm_rssi_avg : rssi_avg s = sumZ (fun e => rssi_avg e * pkt_s e) l / sumZ pkt_s l;
  sm_rssi_max : greatest rssi_max l (rssi_max s);
  sm_snr_min : least snr_min l (snr_min s);
  sm_snr_avg : snr_avg s = sumZ (fun e => snr_avg e * pkt_s e) l / sumZ pkt_s l;
  sm_snr_max : greatest snr_max l (snr_max s)
}.

(** The accumulator before the division. *)
Definition accumulated (l : list stat7) (s : stat7) : Prop :=
  pkt_s s = sumZ pkt_s l /\ least rssi_min l (rssi_min s) /\
  rssi_avg s = sumZ (fun e => rssi_avg e * pkt_s e) l /\ greatest rssi_max l (rssi_max s) /\
  least snr_min l (snr_min s) /\
  snr_avg s = sumZ (fun e => snr_avg e * pkt_s e) l /\ greatest snr_max l (snr_max s).

Lemma sumZ_app {A} (f : A -> Z) l1 l2 : sumZ f (l1 ++ l2) = sumZ f l1 + sumZ f l2.
Proof. induction l1 as [|x l1 IH]; [done |]. change (f x + sumZ f (l1 ++ l2) = f x + sumZ f l1 + sumZ f l2). rewrite IH. lia. Qed.

Lemma least_snoc {A} (f : A -> Z) l z e : least f l z -> least f (l ++ [e]) (Z.min (f e) z).
Proof.
  intros [(x & Hx & Hf) Hle]. split.
  - destruct (Z.min_spec (f e) z) as [[_ ->] | [_ ->]]; [exists e | exists x]; set_solver.
  - intros y [Hy | ->%list_elem_of_singleton]%elem_of_app; [specialize (Hle y Hy); lia | lia].
Qed.

Lemma greatest_snoc {A} (f : A -> Z) l z e : greatest f l z -> greatest f (l ++ [e]) (Z.max (f e) z).
Proof.
  intros [(x & Hx & Hf) Hle]. split.
  - destruct (Z.max_spec (f e) z) as [[_ ->] | [_ ->]]; [exists x | exists e]; set_solver.
  - intros y [Hy | ->%list_elem_of_singleton]%elem_of_app; [specialize (Hle y Hy); lia | lia].
Qed.

Lemma least_one {A} (f : A -> Z) e : least f [e] (f e).
Proof. split; [exists e; set_solver |]. intros y ->%list_elem_of_singleton. lia. Qed.

Lemma greatest_one {A} (f : A -> Z) e : greatest f [e] (f e).
Proof. split; [exists e; set_solver |]. intros y ->%list_elem_of_singleton. lia. Qed.

#[local] Hint Resolve least_snoc greatest_snoc least_one greatest_one : py.

Lemma accumulated_one e : accumulated [e] (weighted e).
Proof. unfold accumulated. cbn. split_and!; auto with py; lia. Qed.

Lemma accumulated_snoc l e tmp : accumulated l tmp -> accumulated (l ++ [e]) (merge e tmp).
Proof.
  intros (Hp & ? & Hra & ? & ? & Hsa & ?). unfold accumulated, merge. cbn.
  rewrite !sumZ_app. cbn. split_and!; auto with py; lia.
Qed.

Lemma unpack7_wf v : length v = 7%nat -> exists e, unpack7 v = Ok e.
Proof. intros H. do 8 (destruct v as [|? v]; cbn in H; try lia). eauto. Qed.

Lemma unpack3_wf k : length k = 3%nat -> exists e, unpack3 k = Ok e.
Proof. intros H. do 4 (destruct k as [|? k]; cbn in H; try lia). eauto. Qed.

Lemma unpack_malformed it d : ~ well_formed it -> agg_item d it = Raise ValueError.
Proof.
  unfold well_formed, agg_item. intros Hn.
  destruct (decide (length it.1.1 = 3%nat)) as [H3 | H3].
  - destruct (unpack3_wf _ H3) as [? ->]. cbn.
    assert (H7 : length it.2 <> 7%nat) by tauto. revert H7. generalize it.2. intros v H7.
    do 8 (destruct v as [|? v]; cbn in *; try done).
  - revert H3. generalize it.1.1. intros k H3.
    do 4 (destruct k as [|? k]; cbn in *; try done).
Qed.

Lemma entries_snoc its it a :
  entries (its ++ [it]) a = entries its a ++ (if it.1.2 =? a then stat_of it else []).
Proof.
  unfold entries. rewrite List.filter_app, map_app, concat_app. f_equal. cbn.
  destruct (it.1.2 =? a); cbn; [by rewrite app_nil_r | done].
Qed.

(** The dictionary holds the accumulated entries of the items seen. *)
Definition agg_inv (its : list item) (d : PyDict.dict Z stat7) : Prop :=
  PyDict.ok d /\
  forall a, match PyDict.get d a with
            | Some s => entries its a <> [] /\ accumulated (entries its a) s
            | None => entries its a = []
            end.

Lemma agg_item_inv its d it : agg_inv its d -> well_formed it ->
  exists d', agg_item d it = Ok d' /\ agg_inv (its ++ [it]) d'.
Proof.
  intros [Hok Hd] [H3 H7]. unfold agg_item.
  destruct (unpack3_wf _ H3) as [? ->], (unpack7_wf _ H7) as [e He]. cbn. rewrite He. cbn.
  eexists. split; [reflexivity |]. split; [auto with py |]. intros a.
  rewrite PyDict.get_set, entries_snoc. unfold stat_of. rewrite He. specialize (Hd a).
  destruct (decide (a = it.1.2)) as [-> | Hne].
  - rewrite Z.eqb_refl. destruct (PyDict.get d it.1.2) as [tmp |].
    + destruct Hd as [Hn Hacc]. split; [by destruct (entries its it.1.2) | by apply accumulated_snoc].
    + rewrite Hd. split; [done | apply accumulated_one].
  - destruct (Z.eqb_spec it.1.2 a); [congruence |]. by rewrite app_nil_r.
Qed.

Lemma agg_items_inv its its' d : agg_inv its d -> Forall well_formed its' ->
  exists d', agg_items d its' = Ok d' /\ agg_inv (its ++ its') d'.
Proof.
  intros Hd Hwf. revert its d Hd. induction Hwf as [|it its' Hit _ IH]; intros its d Hd; cbn.
  - exists d. by rewrite app_nil_r.
  - destruct (agg_item_inv its d it Hd Hit) as (d1 & -> & Hd1). cbn.
    destruct (IH _ _ Hd1) as (d' & -> & Hd'). exists d'. by rewrite <- app_assoc in Hd'.
Qed.

Lemma agg_items_malformed its d : ~ Forall well_formed its -> agg_items d its = Raise ValueError.
Proof.
  revert d. induction its as [|it its IH]; intros d Hn; [by destruct Hn |]. cbn.
  destruct (decide (well_formed it)) as [Hit | Hit]; [| by rewrite unpack_malformed].
  destruct (agg_item d it) as [d1 | e] eqn:E.
  - cbn. apply IH. intros Hf. apply Hn. by constructor.
  - exfalso. unfold agg_item in E. destruct Hit as [H3 H7].
    destruct (unpack3_wf _ H3) as [? E3], (unpack7_wf _ H7) as [? E7]. rewrite E3 in E. cbn in E.
    rewrite E7 in E. done.
Qed.

Lemma averaged_ok a s : pkt_s s <> 0 ->
  averaged (a, s) = Ok (a, Stat7 (pkt_s s) (rssi_min s) (rssi_avg s / pkt_s s) (rssi_max s)
                                 (snr_min s) (snr_avg s / pkt_s s) (snr_max s)).
Proof.
  intros H. unfold averaged, floordiv. cbn. destruct (Z.eqb_spec (pkt_s s) 0); [done |]. done.
Qed.

Lemma averaged_zero a s : pkt_s s = 0 -> averaged (a, s) = Raise ZeroDivisionError.
Proof. intros H. unfold averaged, floordiv. cbn. by rewrite H. Qed.

(** Dividing a dictionary without zero counts keeps its keys. *)
Lemma averaged_all d : Forall (fun p => pkt_s p.2 <> 0) d ->
  exists l, result_map averaged d = Ok l /\ l.*1 = d.*1 /\
    forall a, PyDict.get l a = (fun s => Stat7 (pkt_s s) (rssi_min s) (rssi_avg s / pkt_s s) (rssi_max s)
                                 (snr_min s) (snr_avg s / pkt_s s) (snr_max s)) <$> PyDict.get d a.
Proof.
  induction 1 as [|[a s] d Hs _ (l & Hl & Hk & Hg)]; [by exists [] |].
  cbn [result_map]. rewrite averaged_ok by done. cbn [mbind result_bind]. rewrite Hl. cbn [mbind result_bind].
  eexists. split; [reflexivity |]. cbn. rewrite Hk. split; [done |].
  intros a'. case_decide; [done | apply Hg].
Qed.

Lemma averaged_some_zero d : Exists (fun p => pkt_s p.2 = 0) d ->
  result_map averaged d = Raise ZeroDivisionError.
Proof.
  induction d as [|[a s] d IH]; intros Hex; [by inversion Hex |]. cbn [result_map].
  destruct (Z.eq_dec (pkt_s s) 0) as [Hz | Hz]; [by rewrite averaged_zero |].
  rewrite averaged_ok by done. cbn [mbind result_bind]. rewrite IH; [done |].
  by inversion Hex.
Qed.

Definition all_items (rx : PyDict.dict string ant_stats) : list item := concat (PyDict.values rx).

(** No antenna with entries has a total of zero packets. *)
Definition counted (its : list item) : Prop :=
  forall a, entries its a <> [] -> sumZ pkt_s (entries its a) <> 0.

Lemma agg_inv_counted its d : agg_inv its d -> counted its -> Forall (fun p => pkt_s p.2 <> 0) d.
Proof.
  intros [Hok Hd] Hc. apply Forall_forall. intros [a s] Hin. specialize (Hd a).
  rewrite (PyDict.In_get d a s Hok Hin) in Hd. destruct Hd as [Hn (Hp & _)]. cbn. rewrite Hp. by apply Hc.
Qed.

Lemma agg_inv_nil : agg_inv [] [].
Proof. split; [apply PyDict.ok_nil | done]. Qed.

Lemma stats_agg_rows rx :
  Forall well_formed (all_items rx) -> counted (all_items rx) ->
  exists out, stats_agg_by_freq_and_rxid rx = Ok out /\ PyDict.ok out /\
    forall a, match PyDict.get out a with
              | Some s => summarises (entries (all_items rx) a) s
              | None => entries (all_items rx) a = []
              end.
Proof.
  intros Hwf Hc. unfold stats_agg_by_freq_and_rxid. fold (all_items rx).
  destruct (agg_items_inv [] _ [] agg_inv_nil Hwf) as (d & -> & Hd). cbn.
  destruct (averaged_all d (agg_inv_counted _ _ Hd Hc)) as (l & -> & Hk & Hg). cbn.
  destruct Hd as [Hok Hd].
  assert (Hnd : NoDup l.*1) by (by rewrite Hk).
  rewrite PyDict.of_pairs_id by done. exists l. split; [done |]. split; [done |].
  intros a. rewrite Hg. specialize (Hd a). destruct (PyDict.get d a) as [s |]; [| done].
  destruct Hd as [Hn (Hp & ? & Hra & ? & ? & Hsa & ?)]. cbn. by constructor; cbn; rewrite ?Hra, ?Hsa, ?Hp.
Qed.

(** [_stats_agg_by_freq_and_rxid] on items the source can unpack, with no
    antenna counted to zero, returns one row per antenna that occurs, over all
    receivers and modulations: total packets, extremes, and the mean RSSI and
    SNR weighted by packets, rounded down.  An item of the wrong shape raises
    [ValueError], and an antenna whose packets sum to zero raises
    [ZeroDivisionError]. *)
Theorem stats_agg_spec rx :
  (Forall well_formed (all_items rx) -> counted (all_items rx) ->
   exists out, stats_agg_by_freq_and_rxid rx = Ok out /\ PyDict.ok out /\
     forall a, match PyDict.get out a with
               | Some s => summarises (entries (all_items rx) a) s
               | None => entries (all_items rx) a = []
               end) /\
  (~ Forall well_formed (all_items rx) -> stats_agg_by_freq_and_rxid rx = Raise ValueError) /\
  (Forall well_formed (all_items rx) ->
   (exists a, entries (all_items rx) a <> [] /\ sumZ pkt_s (entries (all_items rx) a) = 0) ->
   stats_agg_by_freq_and_rxid rx = Raise ZeroDivisionError).
Proof.
  split; [apply stats_agg_rows |]. unfold stats_agg_by_freq_and_rxid. fold (all_items rx). split.
  - intros Hn. by rewrite agg_items_malformed.
  - intros Hwf (a & Hn & Hz).
    destruct (agg_items_inv [] _ [] agg_inv_nil Hwf) as (d & -> & Hok & Hd). cbn.
    rewrite averaged_some_zero; [done |]. specialize (Hd a).
    destruct (PyDict.get d a) as [s |] eqn:E; [| done]. destruct Hd as [_ (Hp & _)].
    apply Exists_exists. exists (a, s). split; [by apply PyDict.get_In | cbn; by rewrite Hp].
Qed.

(** The mean of values between bounds is between them. *)
Lemma mean_between (f : stat7 -> Z) l lo hi :
  l <> [] -> Forall (fun e => 0 < pkt_s e /\ lo <= f e <= hi) l ->
  0 < sumZ pkt_s l /\ lo <= sumZ (fun e => f e * pkt_s e) l / sumZ pkt_s l <= hi.
Proof.
  intros Hne Hl.
  assert (H : 0 <= sumZ pkt_s l /\ (l <> [] -> 0 < sumZ pkt_s l) /\
    lo * sumZ pkt_s l <= sumZ (fun e => f e * pkt_s e) l <= hi * sumZ pkt_s l).
  { clear Hne. induction Hl as [|e l [Hp Hf] _ IH]; [cbn; split_and!; [lia | done | lia | lia] |].
    change (sumZ pkt_s (e :: l)) with (pkt_s e + sumZ pkt_s l).
    change (sumZ (fun e => f e * pkt_s e) (e :: l)) with (f e * pkt_s e + sumZ (fun e => f e * pkt_s e) l).
    destruct IH as (H1 & _ & H2). split_and!; [lia | lia | nia | nia]. }
  destruct H as (_ & H1 & H2). specialize (H1 Hne). split; [done |].
  split; [apply Z.div_le_lower_bound; lia |].
  apply Z.div_le_upper_bound; lia.
Qed.

(** ** Selection: the table of cards *)

(** The antennas of one card. *)
Definition card (sa : PyDict.dict Z stat7) (w : Z) : list stat7 :=
  map snd (List.filter (fun p => Z.shiftr p.1 8 =? w) sa).

(** Card [w] may transmit; [r] is the best mean RSSI of its antennas and [p]
    the most packets one of them received. *)
Definition card_info (rx_only : gset Z) (sa : PyDict.dict Z stat7) (w r p : Z) : Prop :=
  (w ∉ rx_only) /\ greatest rssi_avg (card sa w) r /\ greatest pkt_s (card sa w) p.

Definition rows_of (rows : list ant_row) (w : Z) : list ant_row :=
  List.filter (fun x => x.1.1 =? w) rows.

Lemma rows_of_cons x l w :
  rows_of (x :: l) w = if x.1.1 =? w then x :: rows_of l w else rows_of l w.
Proof. done. Qed.

#[local] Arguments rows_of : simpl never.

Definition key_le (x y : ant_row) : Prop := x.1.1 <= y.1.1.

#[export] Instance row_le_trans : Transitive row_le.
Proof. intros x y z. unfold row_le. lia. Qed.

#[export] Instance row_le_total : Total row_le.
Proof. intros x y. unfold row_le. lia. Qed.

Lemma rows_of_none l w : Forall (fun y => w < y.1.1) l -> rows_of l w = [].
Proof.
  unfold rows_of. induction 1 as [|y l Hy _ IH]; cbn; [done |].
  destruct (Z.eqb_spec y.1.1 w); [lia | done].
Qed.

(** On sorted rows the runs are the rows of each key, keys ascending. *)
Lemma groupby_sorted l : StronglySorted key_le l ->
  StronglySorted Z.lt (groupby l).*1 /\
  (forall x, x ∈ l -> x.1.1 ∈ (groupby l).*1) /\
  Forall (fun kg => kg.2 = rows_of l kg.1 /\ kg.2 <> []) (groupby l) /\
  (forall k, k ∈ (groupby l).*1 -> exists x, x ∈ l /\ x.1.1 = k).
Proof.
  induction 1 as [|x l Hs (Hk & Hin & Hg & Hex) Hx]; [cbn; split_and!; [constructor | set_solver | constructor | set_solver] |].
  cbn [groupby]. destruct (groupby l) as [|[k g] r] eqn:E.
  - assert (l = []) as -> by (destruct l as [|y l]; [done | specialize (Hin y); set_solver]).
    split_and!; [repeat constructor | set_solver | | set_solver].
    constructor; [| done]. cbn [fst snd]. by rewrite rows_of_cons, Z.eqb_refl.
  - assert (Hxk : x.1.1 <= k).
    { destruct (Hex k ltac:(set_solver)) as (y & Hy & <-). rewrite Forall_forall in Hx. by apply Hx. }
    cbn in Hk. apply StronglySorted_inv in Hk as [Hk1 Hk2].
    assert (Hrest : Forall (fun kg => x.1.1 <> kg.1) r).
    { apply Forall_forall. intros kg Hkg. rewrite Forall_forall in Hk2.
      specialize (Hk2 kg.1 ltac:(apply list_elem_of_fmap; eauto)). lia. }
    apply Forall_cons in Hg as [[Hg1 Hg2] Hg3]. cbn in Hg1, Hg2.
    assert (Hg3' : Forall (fun kg => kg.2 = rows_of (x :: l) kg.1 /\ kg.2 <> []) r).
    { apply Forall_forall. intros kg Hkg. rewrite Forall_forall in Hg3, Hrest.
      destruct (Hg3 kg Hkg) as [H1 H2]. split; [| done]. rewrite rows_of_cons.
      destruct (Z.eqb_spec x.1.1 kg.1); [by destruct (Hrest kg Hkg) | done]. }
    destruct (Z.eqb_spec x.1.1 k) as [Heq | Hne].
    + cbn. split_and!.
      * by constructor.
      * intros y [-> | Hy]%elem_of_cons; [set_solver | by apply Hin].
      * constructor; [| done]. cbn [fst snd]. rewrite rows_of_cons. destruct (Z.eqb_spec x.1.1 k); [| done]. by rewrite Hg1.
      * intros k' Hk'. apply elem_of_cons in Hk' as [-> | Hk']; [exists x; set_solver |].
        destruct (Hex k' ltac:(set_solver)) as (y & Hy & ?). exists y. set_solver.
    + assert (Hall : Forall (fun y => x.1.1 < y.1.1) l).
      { apply Forall_forall. intros y Hy. specialize (Hin y Hy). cbn in Hin.
        rewrite Forall_forall in Hk2. apply elem_of_cons in Hin as [-> | Hin]; [lia |].
        specialize (Hk2 _ Hin). lia. }
      cbn. split_and!.
      * constructor; [by constructor |]. constructor; [lia |].
        eapply Forall_impl; [exact Hk2 |]. cbn. lia.
      * intros y [-> | Hy]%elem_of_cons; [set_solver |]. specialize (Hin y Hy). set_solver.
      * constructor; [| constructor; [| done]]; cbn [fst snd]; rewrite rows_of_cons.
        -- rewrite Z.eqb_refl. rewrite rows_of_none by done. done.
        -- destruct (Z.eqb_spec x.1.1 k); [done |]. done.
      * intros k' Hk'. apply elem_of_cons in Hk' as [-> | Hk']; [exists x; set_solver |].
        destruct (Hex k' Hk') as (y & Hy & ?). exists y. set_solver.
Qed.

Lemma fold_max_greatest {A} (f : A -> Z) l x0 :
  greatest f (x0 :: l) (fold_left Z.max (map f l) (f x0)).
Proof.
  induction l as [|x l IH] using rev_ind; [apply (greatest_one f) |].
  rewrite map_app, fold_left_app. cbn.
  destruct (Z.max_spec (fold_left Z.max (map f l) (f x0)) (f x)) as [[? ->] | [? ->]];
    destruct IH as [(e & He & Hf) Hle].
  - split; [exists x; set_solver |]. intros y Hy.
    rewrite app_comm_cons in Hy. apply elem_of_app in Hy as [Hy | ->%list_elem_of_singleton];
      [specialize (Hle y Hy); lia | lia].
  - split; [exists e; set_solver |]. intros y Hy.
    rewrite app_comm_cons in Hy. apply elem_of_app in Hy as [Hy | ->%list_elem_of_singleton];
      [specialize (Hle y Hy); lia | lia].
Qed.

Lemma py_max_ok {A} (f : A -> Z) l : l <> [] -> exists z, py_max (map f l) = Ok z /\ greatest f l z.
Proof. destruct l as [|x l]; [done |]. intros _. eexists. split; [reflexivity | apply fold_max_greatest]. Qed.

Lemma greatest_unique {A} (f : A -> Z) l z z' : greatest f l z -> greatest f l z' -> z = z'.
Proof. intros [(e & He & <-) H1] [(e' & He' & <-) H2]. specialize (H1 e' He'). specialize (H2 e He). lia. Qed.

(** What the loop knows after the groups [gs]. *)
Record tbl_inv (rx_only : gset Z) (gs : list (Z * list ant_row)) (tbl : wlan_table) (mx : Z) : Prop := {
  ti_ok : PyDict.ok tbl;
  ti_get : forall w r p, PyDict.get tbl w = Some (r, p) <->
    (w ∉ rx_only) /\ exists g, (w, g) ∈ gs /\ greatest snd g r /\ greatest (fun x => x.1.2) g p;
  ti_nonneg : 0 <= mx;
  ti_le : forall w r p, PyDict.get tbl w = Some (r, p) -> p <= mx;
  ti_reached : mx = 0 \/ exists w r, PyDict.get tbl w = Some (r, mx)
}.

Lemma tbl_inv_step rx_only gs tbl mx w g r p :
  tbl_inv rx_only gs tbl mx -> w ∉ gs.*1 -> w ∉ rx_only ->
  greatest snd g r -> greatest (fun x => x.1.2) g p ->
  tbl_inv rx_only (gs ++ [(w, g)]) (PyDict.set tbl w (r, p)) (Z.max p mx).
Proof.
  intros [Hok Hget H0 Hle Hre] Hw Hrx Hr Hp.
  assert (Hnew : PyDict.get tbl w = None).
  { destruct (PyDict.get tbl w) as [[r' p'] |] eqn:E; [| done]. apply Hget in E as (_ & g' & Hg' & _).
    destruct Hw. apply list_elem_of_fmap. by exists (w, g'). }
  constructor.
  - auto with py.
  - intros w' r' p'. rewrite PyDict.get_set. case_decide as Hww.
    + subst w'. split.
      * intros [= <- <-]. split; [done |]. exists g. set_solver.
      * intros (_ & g' & Hg' & Hr' & Hp'). apply elem_of_app in Hg' as [Hg' | Hg'].
        -- destruct Hw. apply list_elem_of_fmap. by exists (w, g').
        -- apply list_elem_of_singleton in Hg' as [= ->].
           by rewrite (greatest_unique _ _ _ _ Hr Hr'), (greatest_unique _ _ _ _ Hp Hp').
    + rewrite Hget. split; intros (H1 & g' & Hg' & H2); (split; [done |]); exists g'; set_solver.
  - lia.
  - intros w' r' p'. rewrite PyDict.get_set. case_decide; [intros [= <- <-]; lia |].
    intros Hx. specialize (Hle _ _ _ Hx). lia.
  - destruct (Z.max_spec p mx) as [[? ->] | [? ->]].
    + destruct Hre as [Hre | (w' & r' & Hw')]; [by left |]. right. exists w', r'.
      rewrite PyDict.get_set_ne; [done |]. intros ->. congruence.
    + right. exists w, r. apply PyDict.get_set_eq.
Qed.

Lemma tbl_inv_skip rx_only gs tbl mx w g :
  tbl_inv rx_only gs tbl mx -> w ∈ rx_only -> tbl_inv rx_only (gs ++ [(w, g)]) tbl mx.
Proof.
  intros [Hok Hget H0 Hle Hre] Hw. constructor; try done. intros w' r' p'. rewrite Hget.
  split; intros (H1 & g' & Hg' & H2); (split; [done |]); exists g'; set_solver.
Qed.

Lemma wlan_loop_spec rx_only gs' gs tbl mx :
  tbl_inv rx_only gs tbl mx -> NoDup (gs ++ gs').*1 -> Forall (fun kg => kg.2 <> []) gs' ->
  exists tbl' mx', wlan_loop rx_only tbl mx gs' = Ok (tbl', mx') /\ tbl_inv rx_only (gs ++ gs') tbl' mx'.
Proof.
  intros Hi Hnd Hne. revert gs tbl mx Hi Hnd. induction Hne as [|[w g] gs' Hg _ IH]; intros gs tbl mx Hi Hnd.
  - exists tbl, mx. by rewrite app_nil_r.
  - cbn [wlan_loop]. cbn in Hg.
    replace (gs ++ (w, g) :: gs') with ((gs ++ [(w, g)]) ++ gs') in * by (by rewrite <- app_assoc).
    destruct (decide (w ∈ rx_only)); [apply IH; [by apply tbl_inv_skip | done] |].
    destruct (py_max_ok snd g Hg) as (r & -> & Hr).
    destruct (py_max_ok (fun x => x.1.2) g Hg) as (p & Hpm & Hp). cbn [mbind result_bind]. rewrite Hpm. cbn [mbind result_bind].
    apply IH; [| done]. apply tbl_inv_step; try done.
    rewrite fmap_app in Hnd. apply NoDup_app in Hnd as (Hnd & _ & _). rewrite fmap_app in Hnd. cbn in Hnd.
    apply NoDup_app in Hnd as (_ & Hnd & _). intros Hin. apply (Hnd w Hin). set_solver.
Qed.

Lemma rows_sorted sa : StronglySorted key_le (merge_sort row_le (ant_rows sa)).
Proof.
  assert (H : StronglySorted row_le (merge_sort row_le (ant_rows sa))).
  { apply Sorted_StronglySorted; [apply _ |]. apply Sorted_merge_sort, _. }
  induction H as [|x l _ IH Hx]; constructor; [done |].
  eapply Forall_impl; [exact Hx |]. intros y. unfold row_le, key_le. lia.
Qed.

Lemma rows_of_card sa w x :
  x ∈ rows_of (merge_sort row_le (ant_rows sa)) w <->
  exists e, e ∈ card sa w /\ x = (w, pkt_s e, rssi_avg e).
Proof.
  unfold rows_of, card. rewrite list_elem_of_In, filter_In, <- list_elem_of_In, merge_sort_Permutation.
  unfold ant_rows. rewrite Z.eqb_eq. setoid_rewrite list_elem_of_In. setoid_rewrite in_map_iff.
  split.
  - intros [(p & <- & Hp) Hw]. exists p.2. cbn in *. rewrite <- Hw. split; [| done].
    exists p. split; [done |]. apply filter_In. split; [done |]. by rewrite Hw, Z.eqb_refl.
  - intros (e & (p & <- & Hp) & ->). apply filter_In in Hp as [Hp Hw%Z.eqb_eq]. split; [| done].
    exists p. by rewrite Hw.
Qed.

Lemma greatest_image {A B} (f : A -> Z) (g : B -> Z) l l' z :
  (forall x, x ∈ l -> exists e, e ∈ l' /\ f x = g e) ->
  (forall e, e ∈ l' -> exists x, x ∈ l /\ f x = g e) ->
  greatest f l z <-> greatest g l' z.
Proof.
  intros H1 H2. split; intros [(x & Hx & Hf) Hle].
  - split.
    + destruct (H1 x Hx) as (e & He & ?). exists e. split; [done | congruence].
    + intros e He. destruct (H2 e He) as (y & Hy & <-). by apply Hle.
  - split.
    + destruct (H2 x Hx) as (e & He & ?). exists e. split; [done | congruence].
    + intros e He. destruct (H1 e He) as (y & Hy & ->). by apply Hle.
Qed.

Lemma rows_card_greatest sa w r p :
  (greatest snd (rows_of (merge_sort row_le (ant_rows sa)) w) r <-> greatest rssi_avg (card sa w) r) /\
  (greatest (fun x => x.1.2) (rows_of (merge_sort row_le (ant_rows sa)) w) p <-> greatest pkt_s (card sa w) p).
Proof.
  split; apply greatest_image.
  1,3: intros x Hx; apply rows_of_card in Hx as (e & He & ->); by exists e.
  all: intros e He; exists (w, pkt_s e, rssi_avg e); split; [apply rows_of_card; by exists e | done].
Qed.

(** The most packets an antenna of a transmitting card received. *)
Definition most_packets (rx_only : gset Z) (sa : PyDict.dict Z stat7) (mx : Z) : Prop :=
  (forall w r p, card_info rx_only sa w r p -> p <= mx) /\
  exists w r, card_info rx_only sa w r mx.

Lemma wlan_table_spec rx_only sa :
  exists tbl mx, wlan_rssi_and_pkts rx_only sa = Ok (tbl, mx) /\ PyDict.ok tbl /\
    (forall w r p, PyDict.get tbl w = Some (r, p) <-> card_info rx_only sa w r p) /\ 0 <= mx /\
    (forall w r p, card_info rx_only sa w r p -> p <= mx) /\
    (mx = 0 \/ most_packets rx_only sa mx).
Proof.
  unfold wlan_rssi_and_pkts. set (rows := merge_sort row_le (ant_rows sa)).
  destruct (groupby_sorted rows (rows_sorted sa)) as (Hk & Hin & Hg & _).
  destruct (wlan_loop_spec rx_only (groupby rows) [] [] 0) as (tbl & mx & -> & [Hok Hget H0 Hle Hre]).
  - constructor; [apply PyDict.ok_nil | | lia | done | by left].
    intros w r p. split; [done |]. intros (_ & g & Hg' & _). set_solver.
  - cbn. clear -Hk. induction Hk as [|x l _ IH Hx]; constructor; [| done].
    rewrite Forall_forall in Hx. intros Hin. specialize (Hx x Hin). lia.
  - eapply Forall_impl; [exact Hg |]. by intros kg [_ ?].
  - assert (Hci : forall w r p, PyDict.get tbl w = Some (r, p) <-> card_info rx_only sa w r p).
    { intros w r p. rewrite Hget. cbn. unfold card_info.
      destruct (rows_card_greatest sa w r p) as [Hr Hp]. fold rows in Hr, Hp. split.
      - intros (Hw & g & Hg' & H1 & H2). rewrite Forall_forall in Hg.
        destruct (Hg _ Hg') as [Heq _]. cbn in Heq. subst g. tauto.
      - intros (Hw & H1 & H2). split; [done |]. exists (rows_of rows w). split; [| tauto].
        apply Hr in H1. destruct H1 as [(x & Hx & _) _].
        pose proof Hx as Hx'. apply rows_of_card in Hx' as (e & _ & ->).
        apply list_elem_of_In, filter_In in Hx as [Hx _]. apply list_elem_of_In, Hin in Hx.
        cbn in Hx. apply list_elem_of_fmap in Hx as ([w' g] & Hw' & Hin'). cbn in Hw'. subst w'.
        rewrite Forall_forall in Hg. destruct (Hg _ Hin') as [Heq _]. cbn in Heq. by subst g. }
    exists tbl, mx. split; [done |]. split; [done |]. split; [done |]. split; [done |].
    assert (Hle' : forall w r p, card_info rx_only sa w r p -> p <= mx).
    { intros w r p Hc%Hci. by eapply Hle. }
    split; [done |]. destruct Hre as [-> | (w & r & Hw)]; [by left |]. right. split; [done |].
    exists w, r. by apply Hci.
Qed.

(** ** Selection: the choice *)

Lemma pair_max_spec p q m : m = pair_max p q ->
  (m = p \/ m = q) /\ forall x, x = p \/ x = q -> x.1 < m.1 \/ x.1 = m.1 /\ x.2 <= m.2.
Proof.
  intros ->. unfold pair_max.
  destruct (Z.ltb_spec p.1 q.1), (Z.eqb_spec p.1 q.1), (Z.ltb_spec p.2 q.2); cbn;
    (split; [tauto |]); intros x [-> | ->]; lia.
Qed.

Lemma py_max_pair_ok l : l <> [] -> exists m, py_max_pair l = Ok m /\ m ∈ l /\
  forall x, x ∈ l -> x.1 < m.1 \/ x.1 = m.1 /\ x.2 <= m.2.
Proof.
  destruct l as [|x0 l]; [done |]. intros _. eexists. split; [reflexivity |].
  induction l as [|x l IH] using rev_ind; cbn [fold_left].
  - split; [set_solver |]. intros y ->%list_elem_of_singleton. lia.
  - rewrite fold_left_app. cbn [fold_left]. set (m := fold_left pair_max l x0) in *.
    destruct IH as [Hin Hle]. destruct (pair_max_spec m x _ eq_refl) as [H1 H2]. split.
    + destruct H1 as [-> | ->]; set_solver.
    + intros y Hy. rewrite app_comm_cons in Hy.
      apply elem_of_app in Hy as [Hy | ->%list_elem_of_singleton]; [| by apply H2; right].
      specialize (Hle y Hy). specialize (H2 m (or_introl eq_refl)). lia.
Qed.

Definition eligible (rx_only : gset Z) (sa : PyDict.dict Z stat7) (thr : PyNum.num) (w r : Z) : Prop :=
  exists p, card_info rx_only sa w r p /\ PyNum.le thr (PyNum.NInt p) = true.

(** The eligible card with the best RSSI, the highest number among equals. *)
Definition best rx_only sa thr (w r : Z) : Prop :=
  eligible rx_only sa thr w r /\
  forall w' r', eligible rx_only sa thr w' r' -> r' < r \/ r' = r /\ w' <= w.

(** The hysteresis: the selected card is kept when it is the best one, or is
    eligible and the gain in RSSI is below the configured delta. *)
Definition stays conf sa thr (s : sel) (w r : Z) : Prop :=
  tx_sel s = Some w \/
  exists w0 r0, tx_sel s = Some w0 /\ eligible (rx_only_wlan_ids s) sa thr w0 r0 /\
    PyNum.lt (PyNum.NInt (r - r0)) (tx_sel_rssi_delta conf) = true.

Definition switched (w : Z) (s : sel) : sel :=
  Sel (rx_only_wlan_ids s) (ant_sel_cb_list s) (rssi_cb_l s) (cur_stats s) (Some w) (ui_sessions s)
      (logger s) (rf_temperature s) (sel_calls s ++ map (fun cb => (cb, Some w)) (ant_sel_cb_list s))
      (rssi_calls s) (ui_out s).

Lemma call_all_cbs scr w cbs s :
  exists s', se_iter (fun cb => logged (call_sel_cb scr (Some w) cb)) cbs s = (s', Ok tt) /\
    s' = Sel (rx_only_wlan_ids s) (ant_sel_cb_list s) (rssi_cb_l s) (cur_stats s) (tx_sel s) (ui_sessions s)
      (logger s) (rf_temperature s) (sel_calls s ++ map (fun cb => (cb, Some w)) cbs)
      (rssi_calls s) (ui_out s).
Proof.
  revert s. induction cbs as [|cb cbs IH]; intros s; cbn [se_iter].
  - eexists. split; [done |]. cbn. rewrite app_nil_r. by destruct s.
  - unfold mbind, SE_bind.
    change (logged (call_sel_cb scr (Some w) cb) s) with (add_sel_call (cb, Some w) s, @Ok unit tt).
    destruct (IH (add_sel_call (cb, Some w) s)) as (s' & -> & ->). eexists. split; [done |]. cbn.
    by rewrite <- app_assoc.
Qed.

Section Choice.
Context (conf : sel_conf) (scr : nat -> option Z -> option exn).
Context (d : Z) (Hd : tx_sel_counter_abs_delta conf = PyNum.NInt d) (Hd0 : 0 <= d).

(** The threshold is a number not above the most packets. *)
Lemma counter_thr_ok mx : 0 <= mx < 2 ^ 53 ->
  exists thr, counter_thr conf mx = Ok thr /\ PyNum.le thr (PyNum.NInt mx) = true.
Proof using Hd Hd0.
  intros Hmx. unfold counter_thr. destruct (PyNum.mul_total mx (tx_sel_counter_rel_delta conf) Hmx) as (x & ->).
  cbn [mbind result_bind]. rewrite Hd. apply PyNum.sub_le; [done |].
  apply (PyNum.le_nonneg d); [done | apply PyNum.le_max].
Qed.

Lemma card_info_counted rx_only sa w r p :
  (forall a e, (a, e) ∈ sa -> 0 <= pkt_s e < 2 ^ 53) -> card_info rx_only sa w r p -> 0 <= p < 2 ^ 53.
Proof using Type.
  intros Hsa (_ & _ & (e & He & <-) & _). unfold card in He.
  apply list_elem_of_In, in_map_iff in He as ([a e'] & <- & Hp).
  apply filter_In in Hp as [Hp _]. eapply Hsa. by apply list_elem_of_In.
Qed.

Lemma candidates_spec rx_only sa tbl thr :
  PyDict.ok tbl -> (forall w r p, PyDict.get tbl w = Some (r, p) <-> card_info rx_only sa w r p) ->
  let ws := map fst (List.filter (fun p => PyNum.le thr (PyNum.NInt p.2.2)) tbl) in
  (forall w, w ∈ ws <-> exists r, eligible rx_only sa thr w r) /\
  (forall r w, (r, w) ∈ map (fun p => (p.2.1, p.1)) (List.filter (fun p => bool_decide (p.1 ∈ ws)) tbl)
     <-> eligible rx_only sa thr w r).
Proof using Type.
  intros Hok Hget ws.
  assert (Hws : forall w, w ∈ ws <-> exists r, eligible rx_only sa thr w r).
  { intros w. unfold ws. rewrite list_elem_of_In, in_map_iff. split.
    - intros ([w' [r p]] & <- & [Hin Hle]%filter_In). exists r, p. split; [| done]. apply Hget.
      apply PyDict.In_get; [done |]. by apply list_elem_of_In.
    - intros (r & p & Hc%Hget & Hle). exists (w, (r, p)). split; [done |]. apply filter_In. split; [| done].
      by apply list_elem_of_In, PyDict.get_In. }
  split; [done |]. intros r w. rewrite list_elem_of_In, in_map_iff. split.
  - intros ([w' [r' p]] & [= <- <-] & [Hin Hb]%filter_In). apply bool_decide_eq_true, Hws in Hb.
    cbn in Hb. destruct Hb as (r2 & p2 & Hc & Hle). exists p2. split; [| done].
    apply list_elem_of_In, (PyDict.In_get _ _ _ Hok), Hget in Hin.
    destruct Hc as (? & Hr2 & ?), Hin as (? & Hr & ?). split; [done |]. split; [| done]. cbn.
    by rewrite (greatest_unique _ _ _ _ Hr Hr2).
  - intros (p & Hc & Hle). pose proof Hc as Hg%Hget. exists (w, (r, p)). split; [done |].
    apply filter_In. split; [by apply list_elem_of_In, PyDict.get_In |].
    apply bool_decide_eq_true, Hws. exists r, p. done.
Qed.

Lemma most_packets_ok rx_only sa tbl mx :
  (forall a e, (a, e) ∈ sa -> 0 <= pkt_s e < 2 ^ 53) -> tbl <> [] ->
  (forall w r p, PyDict.get tbl w = Some (r, p) <-> card_info rx_only sa w r p) ->
  (forall w r p, card_info rx_only sa w r p -> p <= mx) ->
  mx = 0 \/ most_packets rx_only sa mx -> most_packets rx_only sa mx.
Proof using Type.
  intros Hsa Hne Hget Hle [-> | ?]; [| done]. split; [done |].
  destruct tbl as [|[w [r p]] tbl]; [done |].
  assert (Hc : card_info rx_only sa w r p) by (apply Hget; cbn; by case_decide).
  exists w, r. pose proof (Hle _ _ _ Hc). pose proof (card_info_counted _ _ _ _ _ Hsa Hc).
  by replace 0 with p by lia.
Qed.

(** The test of the hysteresis decides [stays]. *)
Lemma stays_test s sa tbl thr (ws : list Z) w r :
  (forall w r p, PyDict.get tbl w = Some (r, p) <-> card_info (rx_only_wlan_ids s) sa w r p) ->
  (forall w, w ∈ ws <-> exists r, eligible (rx_only_wlan_ids s) sa thr w r) ->
  tx_sel s <> Some w ->
  match tx_sel s with Some w => bool_decide (w ∈ ws) | None => false end
  && PyNum.lt (PyNum.NInt (r - match tx_sel s ≫= PyDict.get tbl with Some p => p.1 | None => -1000 end))
              (tx_sel_rssi_delta conf) = true <-> stays conf sa thr s w r.
Proof using Type.
  intros Hget Hws Hdiff. unfold stays. destruct (tx_sel s) as [w0 |];
    [| split; [done | intros [? | (? & ? & ? & _)]; done]].
  rewrite andb_true_iff, bool_decide_eq_true, Hws. split.
  - intros [(r0 & p0 & Hc & Hle0) Hlt]. right. exists w0, r0. split; [done |].
    split; [by exists p0 |]. apply Hget in Hc. cbn in Hlt. by rewrite Hc in Hlt.
  - intros [? | (w1 & r0 & [= <-] & He & Hlt)]; [done |].
    pose proof He as (p0 & Hc & Hle0). split; [eauto |]. apply Hget in Hc. cbn. by rewrite Hc.
Qed.

Lemma select_spec s sa :
  (forall a e, (a, e) ∈ sa -> 0 <= pkt_s e < 2 ^ 53) ->
  exists s', select_tx_antenna conf scr sa s = (s', Ok tt) /\
  (((forall w r p, ~ card_info (rx_only_wlan_ids s) sa w r p) /\ s' = s) \/
   exists mx thr w r, most_packets (rx_only_wlan_ids s) sa mx /\ counter_thr conf mx = Ok thr /\
     best (rx_only_wlan_ids s) sa thr w r /\
     (stays conf sa thr s w r /\ s' = s \/ ~ stays conf sa thr s w r /\ s' = switched w s)).
Proof using Hd Hd0.
  intros Hsa. unfold select_tx_antenna. unfold mbind at 1, SE_bind at 1, se_get at 1.
  destruct (wlan_table_spec (rx_only_wlan_ids s) sa) as (tbl & mx & Ht & Hok & Hget & H0 & Hle & Hmx).
  unfold mbind at 1, SE_bind at 1, se_lift at 1. rewrite Ht. clear Ht. cbv beta iota.
  case_bool_decide as Htbl; [subst tbl |].
  { exists s. split; [done |]. left. split; [| done]. intros w r p Hc%Hget. done. }
  pose proof (most_packets_ok _ sa tbl mx Hsa Htbl Hget Hle Hmx) as Hmost.
  pose proof Hmost as [_ (wm & rm & Hm)].
  pose proof (card_info_counted _ _ _ _ _ Hsa Hm) as Hmxb.
  destruct (counter_thr_ok mx Hmxb) as (thr & Hthr & Hthrle).
  unfold mbind at 1, SE_bind at 1, se_lift at 1. rewrite Hthr.
  destruct (candidates_spec _ sa tbl thr Hok Hget) as [Hws Hcand].
  set (ws := map fst _) in *. set (cands := map (fun p => (p.2.1, p.1)) _) in *.
  assert (Hel : eligible (rx_only_wlan_ids s) sa thr wm rm) by (by exists mx).
  case_bool_decide as Hnil.
  { exfalso. assert (Hin : wm ∈ ws) by (apply Hws; eauto). rewrite Hnil in Hin. set_solver. }
  destruct (py_max_pair_ok cands) as ([r w] & Hpm & Hin & Hbest).
  { intros Hnil2. apply Hcand in Hel. rewrite Hnil2 in Hel. set_solver. }
  unfold mbind at 1, SE_bind at 1, se_lift at 1. rewrite Hpm. cbv beta iota zeta.
  assert (Hb : best (rx_only_wlan_ids s) sa thr w r).
  { split; [by apply Hcand |]. intros w' r' He. apply Hcand in He. apply (Hbest _ He). }
  destruct (bool_decide_reflect (tx_sel s = Some w)) as [Hsame | Hdiff].
  { exists s. split; [done |]. right. exists mx, thr, w, r. split_and!; try done. left. split; [by left | done]. }
  pose proof (stays_test s sa tbl thr ws w r Hget Hws Hdiff) as Hkeep.
  set (keep := _ && _) in *.
  destruct keep.
  - exists s. split; [done |]. right. exists mx, thr, w, r. split_and!; try done. left.
    split; [by apply Hkeep | done].
  - exists (switched w s). split.
    { unfold mbind, SE_bind. destruct (call_all_cbs scr w (ant_sel_cb_list s) s) as (s' & -> & ->). done. }
    right. exists mx, thr, w, r. split_and!; try done. right.
    split; [intros Hst; by apply Hkeep in Hst | done].
Qed.
End Choice.

(** Whatever the configuration, a call either leaves the object as it is or
    switches all callbacks to one card that may transmit. *)
Lemma select_cases conf scr sa s :
  exists r, select_tx_antenna conf scr sa s = (s, r) \/
  exists w, (w ∉ rx_only_wlan_ids s) /\ select_tx_antenna conf scr sa s = (switched w s, Ok tt).
Proof.
  unfold select_tx_antenna. unfold mbind, SE_bind, se_get, se_lift.
  destruct (wlan_table_spec (rx_only_wlan_ids s) sa) as (tbl & mx & -> & Hok & Hget & _).
  case_bool_decide; [exists (Ok tt); by left |].
  destruct (counter_thr conf mx) as [thr | e]; [| exists (Raise e); by left].
  case_bool_decide; [exists (Ok tt); by left |].
  destruct (candidates_spec (rx_only_wlan_ids s) sa tbl thr Hok Hget) as [_ Hcand].
  set (cands := map (fun p => (p.2.1, p.1)) _) in *.
  destruct (decide (cands = [])) as [-> | Hne]; [exists (Raise ValueError); by left |].
  destruct (py_max_pair_ok cands Hne) as ([r w] & -> & Hin & _).
  case_bool_decide; [exists (Ok tt); by left |].
  destruct (_ && _); [exists (Ok tt); by left |]. exists (Ok tt). right. exists w.
  apply Hcand in Hin as (p & (Hw & _) & _). split; [done |].
  destruct (call_all_cbs scr w (ant_sel_cb_list s) s) as (s' & -> & ->). done.
Qed.

(** ** Histories of the object *)

(** The last value a callback was given. *)
Definition last_told (calls : list (nat * option Z)) (cb : nat) : option (option Z) :=
  last (map snd (List.filter (fun c => bool_decide (c.1 = cb)) calls)).

Lemma last_told_snoc calls c cb :
  last_told (calls ++ [c]) cb = if decide (c.1 = cb) then Some c.2 else last_told calls cb.
Proof.
  unfold last_told. rewrite List.filter_app, map_app. cbn.
  case_bool_decide; case_decide; try done; [apply last_snoc | by rewrite app_nil_r].
Qed.

Lemma last_told_all calls w cbs cb : cb ∈ cbs ->
  last_told (calls ++ map (fun cb => (cb, Some w)) cbs) cb = Some (Some w).
Proof.
  intros Hin. induction cbs as [|x cbs IH] using rev_ind; [set_solver |].
  rewrite map_app, app_assoc. cbn [map]. rewrite last_told_snoc. cbn [fst snd].
  case_decide; [done |]. apply IH. set_solver.
Qed.

Section History.
Context (conf : sel_conf) (scr : nat -> option Z -> option exn)
        (rcr : nat -> rssi_report -> option exn) (uir : nat -> stat_msg -> option exn).

(** One call of a public operation; a call that raises keeps its effects. *)
Inductive sel_step (s : sel) : sel -> Prop :=
| step_add_sel cb : cb ∉ ant_sel_cb_list s -> sel_step s (add_ant_sel_cb scr cb s).1
| step_add_rssi cb : sel_step s (add_rssi_cb cb s).1
| step_rx now rx_id ps ant se : sel_step s (update_rx_stats uir now rx_id ps ant se s).1
| step_tx now tx_id ps lat : sel_step s (update_tx_stats uir now tx_id ps lat s).1
| step_session now rx_id se : sel_step s (process_new_session uir now rx_id se s).1
| step_made hello ui : sel_step s (ui_connectionMade uir hello ui s).1
| step_lost ui : sel_step s (ui_connectionLost ui s).1
| step_aggregate : sel_step s (aggregate_stats conf scr rcr s).1.

Inductive sel_reach : sel -> Prop :=
| reach_init lg rx_only temp : sel_reach (init lg rx_only temp)
| reach_step s s' : sel_reach s -> sel_step s s' -> sel_reach s'.

(** What selection and registration touch. *)
Definition sel_view (s : sel) := (rx_only_wlan_ids s, ant_sel_cb_list s, tx_sel s, sel_calls s).

Definition sel_inv (s : sel) : Prop :=
  (forall w, tx_sel s = Some w -> w ∉ rx_only_wlan_ids s) /\
  forall cb, cb ∈ ant_sel_cb_list s -> last_told (sel_calls s) cb = Some (tx_sel s).

Lemma sel_inv_view s s' : sel_view s' = sel_view s -> sel_inv s -> sel_inv s'.
Proof using Type. unfold sel_inv. intros [= -> -> -> ->]. done. Qed.

Lemma send_stats_view (ms : nat -> stat_msg) l s : sel_view (se_iter (fun ui => send_stats uir (ms ui) ui) l s).1 = sel_view s.
Proof using Type.
  revert s. induction l as [|ui l IH]; intros s; cbn [se_iter]; [done |].
  unfold mbind, SE_bind. unfold send_stats at 1. destruct (uir ui (ms ui)); [done |]. by rewrite IH.
Qed.

Lemma rssi_calls_view r l s : sel_view (se_iter (fun cb => logged (call_rssi_cb rcr r cb)) l s).1 = sel_view s.
Proof using Type.
  revert s. induction l as [|cb l IH]; intros s; cbn [se_iter]; [done |].
  unfold mbind, SE_bind. change (logged (call_rssi_cb rcr r cb) s) with (add_rssi_call (cb, r) s, @Ok unit tt).
  etransitivity; [apply IH | done].
Qed.

Lemma select_inv sa s : sel_inv s -> sel_inv (select_tx_antenna conf scr sa s).1.
Proof using Type.
  intros Hs. destruct (select_cases conf scr sa s) as (r & [-> | (w & Hw & ->)]); [done |]. split.
  - intros w' [= <-]. done.
  - intros cb Hcb. by apply last_told_all.
Qed.

Lemma aggregate_inv s : sel_inv s -> sel_inv (aggregate_stats conf scr rcr s).1.
Proof using Type.
  intros Hs. unfold aggregate_stats, mbind, SE_bind, se_get, se_modify, se_lift.
  assert (H0 : sel_inv (set_cur_stats [] s)) by (by eapply sel_inv_view, Hs).
  destruct (stats_agg_by_freq_and_rxid _) as [sa | e]; [| done].
  set (m := (if _ : bool then select_tx_antenna conf scr sa else mret tt) : SE sel unit).
  assert (Hm : sel_inv (m (set_cur_stats [] s)).1) by (unfold m; destruct (_ && _); [by apply select_inv | done]).
  destruct (m (set_cur_stats [] s)) as [s1 [[] | e]]; [| done].
  case_bool_decide; [done |]. destruct (link_report _ _ _) as [r | e]; [| done].
  eapply sel_inv_view; [apply rssi_calls_view | done].
Qed.

Lemma sel_step_inv s s' : sel_step s s' -> sel_inv s -> sel_inv s'.
Proof using Type.
  intros Hst Hs. destruct Hst as [cb Hcb | cb | | | | | ui |].
  - destruct Hs as [H1 H2]. split; [done |]. intros cb' Hin.
    change (sel_calls _) with (sel_calls s ++ [(cb, tx_sel s)]). rewrite last_told_snoc. cbn [fst snd].
    case_decide; [done |]. apply H2. cbn in Hin. set_solver.
  - by eapply sel_inv_view, Hs.
  - unfold update_rx_stats, mbind, SE_bind, se_modify, se_get.
    eapply sel_inv_view; [| exact Hs].
    by rewrite (send_stats_view (fun ui => RxMsg (now ui) rx_id _ ps ant se)).
  - unfold update_tx_stats, mbind, SE_bind, se_get. eapply sel_inv_view; [| exact Hs].
    by rewrite (send_stats_view (fun ui => TxMsg (now ui) tx_id ps lat _)).
  - unfold process_new_session, mbind, SE_bind, se_get. by destruct (logger s).
  - unfold ui_connectionMade, mbind, SE_bind, send_stats. by destruct (uir _ _).
  - unfold ui_connectionLost, mbind, SE_bind, se_get. by destruct (list_remove _ _).
  - by apply aggregate_inv.
Qed.

Lemma reach_inv s : sel_reach s -> sel_inv s.
Proof using Type.
  induction 1 as [lg rx_only temp | s s' _ IH Hst]; [split; [done | set_solver] |].
  by eapply sel_step_inv.
Qed.

(** C15: in every history of the object the selected card is never one of the
    receive-only cards, and every registered callback was last told exactly
    the card selected now, also when callbacks, sessions or the aggregation
    itself raised on the way. *)
Theorem selection_consistent s : sel_reach s ->
  (forall w, tx_sel s = Some w -> w ∉ rx_only_wlan_ids s) /\
  forall cb, cb ∈ ant_sel_cb_list s -> last_told (sel_calls s) cb = Some (tx_sel s).
Proof using Type. apply reach_inv. Qed.
End History.


(** C4: with packet counters below [2^53] and a non-negative integer packet
    delta, [select_tx_antenna] never raises.  It does nothing when no card may
    transmit; otherwise some card is the best one -- among the cards whose
    packet count reaches the threshold, the one with the highest mean RSSI --
    and the object keeps its card when that is the best one, or is itself
    eligible with an RSSI gain below the delta; in every other case all
    callbacks are told the best card, in order, and it becomes the selected one. *)
Theorem select_tx_antenna_correct conf scr d s sa :
  tx_sel_counter_abs_delta conf = PyNum.NInt d -> 0 <= d ->
  (forall a e, (a, e) ∈ sa -> 0 <= pkt_s e < 2 ^ 53) ->
  exists s', select_tx_antenna conf scr sa s = (s', Ok tt) /\
  (((forall w r p, ~ card_info (rx_only_wlan_ids s) sa w r p) /\ s' = s) \/
   exists mx thr w r, most_packets (rx_only_wlan_ids s) sa mx /\ counter_thr conf mx = Ok thr /\
     best (rx_only_wlan_ids s) sa thr w r /\
     (stays conf sa thr s w r /\ s' = s \/ ~ stays conf sa thr s w r /\ s' = switched w s)).
Proof. intros Hd Hd0 Hsa. by apply (select_spec conf scr d). Qed.

Lemma most_packets_unique rx_only sa mx mx' :
  most_packets rx_only sa mx -> most_packets rx_only sa mx' -> mx = mx'.
Proof.
  intros [H1 (w & r & Hc)] [H2 (w' & r' & Hc')].
  specialize (H1 _ _ _ Hc'). specialize (H2 _ _ _ Hc). lia.
Qed.

Lemma best_unique rx_only sa thr w r w' r' :
  best rx_only sa thr w r -> best rx_only sa thr w' r' -> w = w' /\ r = r'.
Proof. intros [H1 H2] [H3 H4]. specialize (H2 _ _ H3). specialize (H4 _ _ H1). lia. Qed.

(** Selection does not flap: on unchanged statistics a second selection
    after the first changes nothing and calls nobody. *)
Theorem selection_stable conf scr d s sa s1 :
  tx_sel_counter_abs_delta conf = PyNum.NInt d -> 0 <= d ->
  (forall a e, (a, e) ∈ sa -> 0 <= pkt_s e < 2 ^ 53) ->
  select_tx_antenna conf scr sa s = (s1, Ok tt) ->
  select_tx_antenna conf scr sa s1 = (s1, Ok tt).
Proof.
  intros Hd Hd0 Hsa Hs1.
  destruct (select_spec conf scr d Hd Hd0 s sa Hsa) as (s1' & Hsel & Hcase).
  rewrite Hs1 in Hsel. injection Hsel as <-.
  destruct Hcase as [[_ ->] | (mx & thr & w & r & Hm & Ht & Hb & [[_ ->] | [_ ->]])]; [done | done |].
  destruct (select_spec conf scr d Hd Hd0 (switched w s) sa Hsa) as (s2 & -> & Hcase). f_equal.
  destruct Hcase as [[_ ->] | (mx' & thr' & w' & r' & Hm' & Ht' & Hb' & [[_ ->] | [Hns _]])]; [done | done |].
  rewrite (most_packets_unique _ _ _ _ Hm' Hm), Ht in Ht'. injection Ht' as <-.
  destruct (best_unique _ _ _ _ _ _ _ Hb Hb') as [<- <-]. destruct Hns. by left.
Qed.

(** ** The link report *)

Definition counter_of (i : bool) (name : string) (p : packet_stats) : Z :=
  match PyDict.get p name with Some v => if i then v.1 else v.2 | None => 0 end.

(** The counters the report reads are present. *)
Definition complete (p : packet_stats) : Prop :=
  Forall (fun n => is_Some (PyDict.get p n)) ["dec_err"; "bad"; "lost"; "fec_rec"]%string.

Definition rx_errors_of (i : bool) (p : packet_stats) : Z :=
  counter_of i "dec_err" p + counter_of i "bad" p + counter_of i "lost" p.

Definition bad_of (p : packet_stats) : Z := counter_of true "dec_err" p + counter_of true "bad" p.

Record reports (conf : sel_conf) (sa : PyDict.dict Z stat7) (ps : list packet_stats)
    (r : rssi_report) : Prop := {
  rp_errors : r_errors r = Z.min (sumZ (rx_errors_of (mavlink_err_rate conf)) ps) 65535;
  rp_fec : r_fec r = Z.min (sumZ (counter_of (mavlink_err_rate conf) "fec_rec") ps) 65535;
  rp_lost : sa = [] -> r_rssi r = -128 /\ r_noise r = -128 /\ r_flags r = LINK_LOST;
  rp_up : sa <> [] ->
    (exists a e, (a, e) ∈ sa /\ r_rssi r = rssi_avg e /\ r_noise r = rssi_avg e - snr_avg e) /\
    (forall a e, (a, e) ∈ sa -> rssi_avg e <= r_rssi r) /\
    r_flags r = if 0 <? sumZ bad_of ps then LINK_JAMMED else 0
}.

Lemma total_ok f g l : Forall (fun p => f p = Ok (g p)) l -> total f l = Ok (sumZ g l).
Proof.
  intros H. unfold total.
  assert (Hm : result_map f l = Ok (map g l)).
  { induction H as [|p l Hp _ IH]; cbn; [done |]. rewrite Hp. cbn. by rewrite IH. }
  rewrite Hm. cbn. f_equal. rewrite <- (Z.add_0_l (sumZ g l)). generalize 0 at 1 2 as acc.
  induction l as [|p l IH]; intros acc; cbn; [lia |]. rewrite IH.
  - fold (sumZ g l). lia.
  - by inversion H.
  - cbn in Hm. destruct (f p); [| done]. cbn in Hm. destruct (result_map f l); [| done]. by injection Hm as _ ->.
Qed.

Lemma counter_ok i n p : complete p -> n ∈ ["dec_err"; "bad"; "lost"; "fec_rec"]%string ->
  counter i n p = Ok (counter_of i n p).
Proof.
  unfold complete. rewrite Forall_forall. intros Hc Hn. destruct (Hc n Hn) as [v Hv].
  unfold counter, counter_of, PyDict.item. by rewrite Hv.
Qed.

Lemma link_report_ok conf sa ps : Forall complete ps ->
  exists r, link_report conf sa ps = Ok r /\ reports conf sa ps r.
Proof.
  intros Hps. unfold link_report. set (i := mavlink_err_rate conf).
  assert (Hc : forall j n, n ∈ ["dec_err"; "bad"; "lost"; "fec_rec"]%string ->
    Forall (fun p => counter j n p = Ok (counter_of j n p)) ps).
  { intros j n Hn. eapply Forall_impl; [exact Hps |]. intros p Hp. by apply counter_ok. }
  rewrite (total_ok (fun p => a ← counter true "dec_err" p; b ← counter true "bad" p; Ok (a + b)) bad_of).
  2: { eapply Forall_impl; [exact Hps |]. intros p Hp. cbn beta.
       rewrite !counter_ok by (done || set_solver). done. }
  rewrite (total_ok (fun p => a ← counter i "dec_err" p; b ← counter i "bad" p;
                              c ← counter i "lost" p; Ok (a + b + c)) (rx_errors_of i)).
  2: { eapply Forall_impl; [exact Hps |]. intros p Hp. cbn beta.
       rewrite !counter_ok by (done || set_solver). done. }
  rewrite (total_ok (counter i "fec_rec") (counter_of i "fec_rec")) by (apply Hc; set_solver).
  cbn [mbind result_bind]. case_bool_decide as Hn.
  - eexists. split; [reflexivity |]. constructor; try done. intros Hsa. by destruct sa.
  - destruct (py_max_pair_ok _ Hn) as (m & -> & Hin & Hle). eexists. split; [reflexivity |].
    assert (Hmem : forall a e, (a, e) ∈ sa -> (rssi_avg e, rssi_avg e - snr_avg e) ∈
      map (fun e => (rssi_avg e, rssi_avg e - snr_avg e)) (PyDict.values sa)).
    { intros a e Hae. apply list_elem_of_In, in_map_iff. exists e. split; [done |].
      apply list_elem_of_In, list_elem_of_fmap. by exists (a, e). }
    constructor; try done.
    + intros ->. done.
    + intros _. split_and!; [| | done].
      * apply list_elem_of_In, in_map_iff in Hin as (e & <- & He).
        apply list_elem_of_In, list_elem_of_fmap in He as ([a e'] & -> & Hae). by exists a, e'.
      * intros a e Hae. specialize (Hle _ (Hmem a e Hae)). cbn in *. lia.
Qed.

Lemma call_all_rssi rcr r cbs s :
  exists s', se_iter (fun cb => logged (call_rssi_cb rcr r cb)) cbs s = (s', Ok tt) /\
    cur_stats s' = cur_stats s /\ tx_sel s' = tx_sel s /\
    rssi_calls s' = rssi_calls s ++ map (fun cb => (cb, r)) cbs.
Proof.
  revert s. induction cbs as [|cb cbs IH]; intros s; cbn [se_iter].
  - exists s. split_and!; try done. by rewrite app_nil_r.
  - unfold mbind, SE_bind.
    change (logged (call_rssi_cb rcr r cb) s) with (add_rssi_call (cb, r) s, @Ok unit tt).
    destruct (IH (add_rssi_call (cb, r) s)) as (s' & H1 & H2 & H3 & H4). exists s'.
    split; [exact H1 |]. split_and!; [done | done |]. rewrite H4. cbn. by rewrite <- app_assoc.
Qed.

(** What one interval collected: readable items with positive counts whose
    sums stay in the exact range of floats, and complete counters. *)
Record sane_interval (its : list item) (ps : list packet_stats) : Prop := {
  si_wf : Forall well_formed its;
  si_pos : Forall (fun it => Forall (fun e => 0 < pkt_s e) (stat_of it)) its;
  si_sum : forall a, sumZ pkt_s (entries its a) < 2 ^ 53;
  si_complete : Forall complete ps
}.

Lemma entries_Forall (P : stat7 -> Prop) its a :
  Forall (fun it => Forall P (stat_of it)) its -> Forall P (entries its a).
Proof.
  intros H. unfold entries. apply Forall_concat, Forall_map, List.Forall_forall.
  intros it [Hin _]%filter_In. rewrite List.Forall_forall in H. by apply H.
Qed.

Lemma entries_positive its a :
  Forall (fun it => Forall (fun e => 0 < pkt_s e) (stat_of it)) its ->
  entries its a <> [] -> 0 < sumZ pkt_s (entries its a).
Proof.
  intros H Hne. pose proof (entries_Forall _ its a H) as Hp.
  assert (Hx : exists e, e ∈ entries its a) by (destruct (entries its a); [done | eexists; constructor]).
  apply (mean_between (fun _ => 0) (entries its a) 0 0 Hne).
  eapply Forall_impl; [exact Hp |]. cbn. lia.
Qed.

(** The aggregation of a sane interval. *)
Lemma stats_agg_sane_rows rx ps : sane_interval (all_items rx) ps ->
  exists sa, stats_agg_by_freq_and_rxid rx = Ok sa /\ PyDict.ok sa /\
    (forall a, match PyDict.get sa a with
               | Some s => summarises (entries (all_items rx) a) s
               | None => entries (all_items rx) a = []
               end) /\
    forall a e, (a, e) ∈ sa -> 0 <= pkt_s e < 2 ^ 53.
Proof.
  intros [Hwf Hpos Hsum _].
  assert (Hc : counted (all_items rx)).
  { intros a Hne. pose proof (entries_positive _ a Hpos Hne). lia. }
  destruct (stats_agg_rows rx Hwf Hc) as (sa & Hsa & Hok & Hrows).
  exists sa. split_and!; try done.
  intros a e Hae. specialize (Hrows a). rewrite (PyDict.In_get _ _ _ Hok Hae) in Hrows.
  destruct Hrows as [Hp [(x & Hx & _) _] _ _ _ _ _]. rewrite Hp. split; [| apply Hsum].
  assert (Hne : entries (all_items rx) a <> []) by (intros Hn; rewrite Hn in Hx; set_solver).
  pose proof (entries_positive _ a Hpos Hne). lia.
Qed.

Lemma sumZ_nonneg {A} (f : A -> Z) l : Forall (fun x => 0 <= f x) l -> 0 <= sumZ f l.
Proof. induction 1 as [|x l Hx _ IH]; [done |]. cbn. fold (sumZ f l). lia. Qed.

Lemma aggregate_spec conf scr rcr d s :
  tx_sel_counter_abs_delta conf = PyNum.NInt d -> 0 <= d -> rssi_cb_l s <> [] ->
  let rx := map (fun p => (p.1, p.2.1)) (cur_stats s) in
  let ps := map (fun p => p.2.2) (cur_stats s) in
  sane_interval (all_items rx) ps ->
  exists sa r s', stats_agg_by_freq_and_rxid rx = Ok sa /\ reports conf sa ps r /\
    aggregate_stats conf scr rcr s = (s', Ok tt) /\ cur_stats s' = [] /\
    rssi_calls s' = rssi_calls s ++ map (fun cb => (cb, r)) (rssi_cb_l s) /\
    (Forall (fun p => 0 <= rx_errors_of (mavlink_err_rate conf) p /\
                      0 <= counter_of (mavlink_err_rate conf) "fec_rec" p) ps ->
     0 <= r_errors r < 65536 /\ 0 <= r_fec r < 65536 /\ 0 <= r_flags r < 256).
Proof.
  intros Hd Hd0 Hcb rx ps Hs.
  destruct (stats_agg_sane_rows rx ps Hs) as (sa & Hsa & Hok & _ & Hcnt).
  destruct (link_report_ok conf sa ps (si_complete _ _ Hs)) as (r & Hr & Hrep).
  unfold aggregate_stats, mbind, SE_bind, se_get, se_modify, se_lift. fold rx ps. rewrite Hsa.
  set (m := (if _ : bool then select_tx_antenna conf scr sa else mret tt) : SE sel unit).
  assert (Hm : exists s1, m (set_cur_stats [] s) = (s1, Ok tt) /\ cur_stats s1 = [] /\ rssi_calls s1 = rssi_calls s).
  { unfold m. destruct (_ && _); [| by eexists].
    destruct (select_spec conf scr d Hd Hd0 (set_cur_stats [] s) sa Hcnt) as (s1 & -> & Hcase). exists s1.
    split; [done |].
    destruct Hcase as [[_ ->] | (? & ? & ? & ? & _ & _ & _ & [[_ ->] | [_ ->]])]; done. }
  destruct Hm as (s1 & -> & Hcur & Hrc). rewrite bool_decide_false by done. rewrite Hr.
  destruct (call_all_rssi rcr r (rssi_cb_l s) s1) as (s' & Hit & Hcur' & _ & Hrc').
  exists sa, r, s'. split_and!; try done; [congruence | congruence |].
  intros Hnn. destruct Hrep as [He Hf Hl Hu].
  rewrite He, Hf. pose proof (sumZ_nonneg (rx_errors_of (mavlink_err_rate conf)) ps).
  pose proof (sumZ_nonneg (counter_of (mavlink_err_rate conf) "fec_rec") ps).
  assert (Forall (fun p => 0 <= rx_errors_of (mavlink_err_rate conf) p) ps) by (eapply Forall_impl; [exact Hnn |]; by intros p [? ?]).
  assert (Forall (fun p => 0 <= counter_of (mavlink_err_rate conf) "fec_rec" p) ps)
    by (eapply Forall_impl; [exact Hnn |]; by intros p [? ?]).
  split; [split; [apply Z.min_glb; tauto || lia | lia] |].
  split; [split; [apply Z.min_glb; tauto || lia | lia] |].
  destruct (decide (sa = [])) as [Hn | Hn].
  - destruct (Hl Hn) as (_ & _ & ->). unfold LINK_LOST. lia.
  - destruct (Hu Hn) as (_ & _ & ->). destruct (0 <? _); unfold LINK_JAMMED; lia.
Qed.

(** On a sane interval [aggregate_stats] does not raise, starts a new
    interval, and gives every RSSI callback, in order, one report: the RSSI and
    noise of the strongest antenna, or -128 and the link-lost flag when none
    was heard; the jammed flag exactly when undecodable packets came; errors
    and corrections summed over all receivers and cut at 65535.  With
    non-negative counters all arguments fit the message that carries them. *)
Theorem aggregate_reports conf scr rcr d s :
  tx_sel_counter_abs_delta conf = PyNum.NInt d -> 0 <= d -> rssi_cb_l s <> [] ->
  let rx := map (fun p => (p.1, p.2.1)) (cur_stats s) in
  let ps := map (fun p => p.2.2) (cur_stats s) in
  sane_interval (all_items rx) ps ->
  exists sa r s', stats_agg_by_freq_and_rxid rx = Ok sa /\ reports conf sa ps r /\
    aggregate_stats conf scr rcr s = (s', Ok tt) /\ cur_stats s' = [] /\
    rssi_calls s' = rssi_calls s ++ map (fun cb => (cb, r)) (rssi_cb_l s) /\
    (Forall (fun p => 0 <= rx_errors_of (mavlink_err_rate conf) p /\
                      0 <= counter_of (mavlink_err_rate conf) "fec_rec" p) ps ->
     0 <= r_errors r < 65536 /\ 0 <= r_fec r < 65536 /\ 0 <= r_flags r < 256).
Proof. apply aggregate_spec. Qed.

(** One antenna does not count more than all. *)
Lemma entries_sum_le its a :
  Forall (fun it => Forall (fun e => 0 < pkt_s e) (stat_of it)) its ->
  sumZ pkt_s (entries its a) <= sumZ pkt_s (concat (map stat_of its)).
Proof.
  induction 1 as [|it its Hit _ IH]; [done |]. cbn [map concat]. rewrite sumZ_app.
  assert (0 <= sumZ pkt_s (stat_of it)).
  { apply sumZ_nonneg. eapply Forall_impl; [exact Hit |]. cbn. lia. }
  unfold entries in *. cbn [List.filter]. destruct (it.1.2 =? a); cbn [map concat]; [rewrite sumZ_app |]; lia.
Qed.

(** ** A concrete interval *)

(** The default configuration: 3 dB, 10 %, 3 packets, error rates. *)
Definition demo_conf : sel_conf :=
  SelConf (PyNum.NInt 3) (PyNum.NFin 3602879701896397 (-55)) (PyNum.NInt 3) true.

Definition demo_quiet {A B} : A -> B -> option exn := fun _ _ => None.

(** Two receivers; card 0 has two antennas, card 1 one, card 2 only receives. *)
Definition demo_ants1 : ant_stats :=
  [(([5805; 1; 20], 0x0), [100; -60; -55; -50; 10; 20; 30]);
   (([5805; 1; 20], 0x1), [90; -70; -65; -60; 10; 15; 30]);
   (([5805; 1; 20], 0x100), [105; -50; -45; -40; 20; 25; 30])].
Definition demo_ants2 : ant_stats :=
  [(([5805; 3; 20], 0x0), [10; -62; -57; -52; 8; 9; 10]); (([5805; 1; 20], 0x200), [120; -30; -25; -20; 30; 40; 50])].
Definition demo_packets : packet_stats :=
  [("dec_err", (1, 7)); ("bad", (0, 0)); ("lost", (2, 30)); ("fec_rec", (5, 70000))]%string.

Definition demo_sel : sel :=
  Sel {[2]} [7%nat; 8%nat] [9%nat]
      [("rx1", (demo_ants1, demo_packets)); ("rx2", (demo_ants2, demo_packets))]%string
      (Some 0) [] None None [] [] [].

Definition demo_rows : PyDict.dict Z stat7 :=
  match stats_agg_by_freq_and_rxid [("rx1", demo_ants1); ("rx2", demo_ants2)]%string with
  | Ok d => d | Raise _ => []
  end.

Example demo_rows_computed :
  PyDict.get demo_rows 0 = Some (Stat7 110 (-62) (-56) (-50) 8 19 30) /\ length demo_rows = 4%nat.
Proof. vm_compute. auto. Qed.

Lemma stats_agg_spec_witness :
  exists out, stats_agg_by_freq_and_rxid [("rx1", demo_ants1); ("rx2", demo_ants2)]%string = Ok out /\
    PyDict.get out 0x100 = Some (Stat7 105 (-50) (-45) (-40) 20 25 30) /\
    stats_agg_by_freq_and_rxid [("rx1", [(([1; 2], 0), [0])])]%string = Raise ValueError.
Proof.
  destruct (stats_agg_spec [("rx1", demo_ants1); ("rx2", demo_ants2)]%string) as (H & _).
  destruct (stats_agg_spec [("rx1", [(([1; 2], 0), [0])])]%string) as (_ & H2 & _).
  destruct H as (out & Hout & _).
  - apply (bool_decide_unpack _). vm_compute. exact I.
  - intros a Ha.
    assert (Hp : 0 < sumZ pkt_s (entries (all_items [("rx1"%string, demo_ants1); ("rx2"%string, demo_ants2)]) a)).
    { apply entries_positive; [| exact Ha]. apply (bool_decide_unpack _). vm_compute. exact I. }
    intros Hz. rewrite Hz in Hp. discriminate Hp.
  - exists out. split; [exact Hout |]. split.
    + assert (Hc : exists o, stats_agg_by_freq_and_rxid [("rx1", demo_ants1); ("rx2", demo_ants2)]%string = Ok o /\
        PyDict.get o 0x100 = Some (Stat7 105 (-50) (-45) (-40) 20 25 30)).
      { eexists. split; vm_compute; reflexivity. }
      destruct Hc as (o & Ho & Hg). rewrite Hout in Ho. injection Ho as ->. exact Hg.
    + apply H2. intros Hf. apply Forall_inv in Hf as [Hf _]. discriminate Hf.
Defined.

Lemma demo_rows_counted a e : (a, e) ∈ demo_rows -> 0 <= pkt_s e < 2 ^ 53.
Proof.
  intros H. assert (Hf : Forall (fun p => 0 <= pkt_s p.2 < 2 ^ 53) demo_rows)
    by (apply (bool_decide_unpack _); vm_compute; exact I).
  rewrite Forall_forall in Hf. apply (Hf _ H).
Qed.

Lemma select_tx_antenna_correct_witness :
  exists s', select_tx_antenna demo_conf demo_quiet demo_rows demo_sel = (s', Ok tt) /\
    tx_sel s' = Some 1 /\ sel_calls s' = [(7%nat, Some 1); (8%nat, Some 1)].
Proof.
  destruct (select_tx_antenna_correct demo_conf demo_quiet 3 demo_sel demo_rows eq_refl ltac:(lia)
              demo_rows_counted) as (s' & Hs & _).
  exists s'. split; [exact Hs |]. apply (f_equal fst) in Hs. cbn [fst] in Hs. rewrite <- Hs.
  split; vm_compute; reflexivity.
Defined.

Lemma selection_stable_witness :
  exists s1, tx_sel s1 = Some 1 /\
    select_tx_antenna demo_conf demo_quiet demo_rows s1 = (s1, Ok tt).
Proof.
  exists (select_tx_antenna demo_conf demo_quiet demo_rows demo_sel).1. split; [vm_compute; reflexivity |].
  apply (selection_stable demo_conf demo_quiet 3 demo_sel demo_rows); [reflexivity | lia | apply demo_rows_counted |].
  vm_compute. reflexivity.
Defined.

Lemma selection_consistent_witness :
  exists s, tx_sel s = Some 1 /\ last_told (sel_calls s) 7 = Some (Some 1).
Proof.
  set (add := add_ant_sel_cb demo_quiet 7 : SE sel unit).
  set (upd := update_rx_stats demo_quiet (fun _ => 0) "rx1" demo_packets demo_ants1 None).
  set (agg := aggregate_stats demo_conf demo_quiet demo_quiet).
  set (s1 := (add (init None {[2]} None)).1). set (s2 := (upd s1).1). set (s3 := (agg s2).1).
  exists s3. split; [vm_compute; reflexivity |].
  assert (Hr : sel_reach demo_conf demo_quiet demo_quiet demo_quiet s3).
  { eapply reach_step; [| apply step_aggregate]. eapply reach_step; [| apply step_rx].
    eapply reach_step; [apply reach_init |]. apply step_add_sel. apply not_elem_of_nil. }
  destruct (selection_consistent demo_conf demo_quiet demo_quiet demo_quiet s3 Hr) as [_ Hc].
  rewrite (Hc 7%nat); [vm_compute; reflexivity |]. vm_compute. constructor.
Defined.

Lemma aggregate_reports_witness :
  exists s', aggregate_stats demo_conf demo_quiet demo_quiet demo_sel = (s', Ok tt) /\
    cur_stats s' = [] /\ rssi_calls s' = [(9%nat, RssiReport (-25) (-65) 6 10 LINK_JAMMED)].
Proof.
  destruct (aggregate_reports demo_conf demo_quiet demo_quiet 3 demo_sel eq_refl ltac:(lia) ltac:(done))
    as (sa & r & s' & _ & _ & Ha & Hc & _).
  - assert (Hpos : Forall (fun it => Forall (fun e => 0 < pkt_s e) (stat_of it))
      (all_items (map (fun p => (p.1, p.2.1)) (cur_stats demo_sel))))
      by (apply (bool_decide_unpack _); vm_compute; exact I).
    constructor; [| exact Hpos | |].
    + apply (bool_decide_unpack _). vm_compute. exact I.
    + intros a. eapply Z.le_lt_trans; [apply entries_sum_le, Hpos |]. vm_compute. reflexivity.
    + repeat constructor; vm_compute; eauto.
  - exists s'. split; [exact Ha |]. split; [exact Hc |].
    apply (f_equal fst) in Ha. cbn [fst] in Ha. rewrite <- Ha. vm_compute. reflexivity.
Defined.

End AntSel.
