(* ===== verification/Framing.v ===== *)
(** Messages over a byte stream.  Twisted's [LineReceiver] and
    [Int32StringReceiver], which protocols.py and cli.py derive from, cut a stream
    that arrives in arbitrary pieces into messages.  A framing says how a message
    is written; [Receiver] is what such a base class promises to the class
    derived from it; [buffer] shows that the promise can be kept. *)
From Stdlib Require Import ZArith Lia Bool.
From stdpp Require Import base list numbers strings.
From S2P Require Import Prelude PyStruct.

(** How messages are written, and which of them are accepted: no frame is empty
    or the beginning of another one, and a reader can cut the first frame off. *)
Class Framing (frame : bytes -> bytes) (ok : bytes -> Prop) := {
  cut : bytes -> option (bytes * bytes);
  frame_ne : forall m, frame m <> [];
  frame_ok_nil : ok [];
  cut_frame : forall m rest, ok m -> cut (frame m ++ rest) = Some (m, rest);
  cut_partial : forall m x y, ok m -> frame m = x ++ y -> y <> [] -> cut x = None
}.

(** The beginning of the frame of an acceptable message. *)
Definition partial (frame : bytes -> bytes) (ok : bytes -> Prop) (x : bytes) : Prop :=
  exists m y, ok m /\ frame m = x ++ y /\ y <> [].

Definition stream (frame : bytes -> bytes) (ms : list bytes) : bytes := concat (map frame ms).

(** A base class with the state [B] on top of a framing: the data is added to an
    incomplete frame, and every complete one is passed on, in order.  Nothing is
    said about what happens after a message could not be handled. *)
Class Receiver (frame : bytes -> bytes) (ok : bytes -> Prop) (B : Type) := {
  rc_init : B;
  rc_pending : B -> bytes;
  rc_dataReceived : forall {S}, (bytes -> SE S unit) -> bytes -> SE (B * S) unit;
  rc_init_empty : rc_pending rc_init = [];
  rc_messages : forall S (received : bytes -> SE S unit) data b s ms rest s',
    rc_pending b ++ data = stream frame ms ++ rest -> Forall ok ms -> partial frame ok rest ->
    se_iter received ms s = (s', Ok tt) ->
    exists b', rc_dataReceived received data (b, s) = ((b', s'), Ok tt) /\ rc_pending b' = rest
}.

Module Framing.

Section Chunks.
Context (frame : bytes -> bytes) (ok : bytes -> Prop) {Hfr : Framing frame ok}.

Lemma stream_cons m ms : stream frame (m :: ms) = frame m ++ stream frame ms.
Proof using Type. done. Qed.

Lemma stream_app l1 l2 : stream frame (l1 ++ l2) = stream frame l1 ++ stream frame l2.
Proof using Type. unfold stream. by rewrite map_app, concat_app. Qed.

Lemma partial_nil : partial frame ok [].
Proof using Hfr. exists [], (frame []). split; [apply frame_ok_nil |]. split; [done | apply frame_ne]. Qed.

Lemma partial_prefix x y : partial frame ok (x ++ y) -> partial frame ok x.
Proof using Type.
  intros (m & z & Hm & Hf & Hz). exists m, (y ++ z). split; [done |]. split; [by rewrite Hf, app_assoc |].
  intros Hn. apply app_nil in Hn as [_ Hn]. done.
Qed.

Lemma partial_cut x : partial frame ok x -> cut x = None.
Proof using Hfr. intros (m & y & Hm & Hf & Hy). by eapply cut_partial. Qed.

(** An incomplete frame does not contain a frame. *)
Lemma partial_stream x ms rest : partial frame ok x -> Forall ok ms -> x = stream frame ms ++ rest -> ms = [].
Proof using Hfr.
  intros Hx Hms ->. destruct Hms as [|m ms Hm _]; [done |]. rewrite stream_cons, <- app_assoc in Hx.
  apply partial_cut in Hx. by rewrite cut_frame in Hx.
Qed.

(** Where a stream is cut: after some frames, inside the next one. *)
Lemma cut_stream x y ms rest : x ++ y = stream frame ms ++ rest -> Forall ok ms -> partial frame ok rest ->
  exists l1 l2 r1, ms = l1 ++ l2 /\ x = stream frame l1 ++ r1 /\ r1 ++ y = stream frame l2 ++ rest /\ partial frame ok r1.
Proof using Hfr.
  intros Hxy Hms Hr. revert x Hxy. induction Hms as [|m ms Hm _ IH]; intros x Hxy.
  - exists [], [], x. cbn in *. split; [done |]. split; [done |]. split; [done |]. apply (partial_prefix x y). by rewrite Hxy.
  - rewrite stream_cons, <- app_assoc in Hxy. apply app_eq_inv in Hxy as [(k & -> & Hk) | (k & Hk & ->)].
    + destruct (IH k (eq_sym Hk)) as (l1 & l2 & r1 & -> & -> & Hy & Hr1). exists (m :: l1), l2, r1.
      rewrite stream_cons, <- app_assoc. done.
    + destruct k as [|c k].
      * rewrite app_nil_r in Hk. subst x. exists [m], ms, []. split; [done |].
        split; [unfold stream; cbn; by rewrite !app_nil_r |]. split; [done | apply partial_nil].
      * exists [], (m :: ms), x. split; [done |]. split; [done |]. rewrite stream_cons, Hk, <- !app_assoc. split; [done |].
        by exists m, (c :: k).
Qed.

Lemma iter_split {X} (f : bytes -> SE X unit) l1 l2 s s' : se_iter f (l1 ++ l2) s = (s', Ok tt) ->
  exists s1, se_iter f l1 s = (s1, Ok tt) /\ se_iter f l2 s1 = (s', Ok tt).
Proof using Type.
  revert s. induction l1 as [|x l1 IH]; intros s; [by exists s |]. cbn [app se_iter]. unfold mbind, SE_bind.
  destruct (f x s) as [s1 [[]|e]]; [apply IH | done].
Qed.

(** A stream that arrives in pieces, cut anywhere, is handled as its messages. *)
Lemma receive_chunks {B X} `{Receiver frame ok B} (received : bytes -> SE X unit) chunks : forall (b : B) (s s' : X) ms rest,
  rc_pending b ++ concat chunks = stream frame ms ++ rest -> partial frame ok (rc_pending b) -> Forall ok ms ->
  partial frame ok rest -> se_iter received ms s = (s', Ok tt) ->
  exists b', se_iter (rc_dataReceived received) chunks (b, s) = ((b', s'), Ok tt) /\ rc_pending b' = rest.
Proof using Hfr.
  induction chunks as [|c chunks IH]; intros b s s' ms rest Hc Hb Hms Hr Hs.
  - cbn in Hc. rewrite app_nil_r in Hc. assert (ms = []) as ->. { eapply partial_stream; [exact Hb | done | exact Hc]. }
    injection Hs as <-. exists b. split; [done | exact Hc].
  - cbn [concat] in Hc. rewrite app_assoc in Hc. destruct (cut_stream _ _ _ _ Hc Hms Hr) as (l1 & l2 & r1 & -> & Hx & Hy & Hr1).
    apply Forall_app in Hms as [Hl1 Hl2]. destruct (iter_split _ _ _ _ _ Hs) as (s1 & Hs1 & Hs2).
    destruct (rc_messages X received c b s l1 r1 s1 Hx Hl1 Hr1 Hs1) as (b1 & Hb1 & Hp1).
    cbn [se_iter]. unfold mbind, SE_bind. rewrite Hb1. apply (IH b1 s1 s' l2 rest); try done; by rewrite Hp1.
Qed.

(** ** A receiver *)

Fixpoint feed {S} (received : bytes -> SE S unit) (fuel : nat) (buf : bytes) (s : S) : (bytes * S) * result unit :=
  match fuel with
  | O => ((buf, s), Ok tt)
  | Datatypes.S fuel =>
      match cut buf with
      | None => ((buf, s), Ok tt)
      | Some (m, rest) =>
          match received m s with
          | (s, Ok _) => feed received fuel rest s
          | (s, Raise e) => ((rest, s), Raise e)
          end
      end
  end.

Definition buffer_received {S} (received : bytes -> SE S unit) (data : bytes) : SE (bytes * S) unit := fun x =>
  feed received (length (x.1 ++ data)) (x.1 ++ data) x.2.

Lemma feed_messages {S} (received : bytes -> SE S unit) ms rest fuel s s' :
  Forall ok ms -> partial frame ok rest -> se_iter received ms s = (s', Ok tt) -> (length ms <= fuel)%nat ->
  feed received fuel (stream frame ms ++ rest) s = ((rest, s'), Ok tt).
Proof using Hfr.
  intros Hms Hr. revert fuel s. induction Hms as [|m ms Hm _ IH]; intros fuel s Hs Hf.
  - injection Hs as <-. destruct fuel; cbn; [done |]. by rewrite (partial_cut rest Hr).
  - destruct fuel as [|fuel]; [cbn in Hf; lia |]. cbn [se_iter] in Hs. unfold mbind, SE_bind in Hs.
    rewrite stream_cons, <- app_assoc. cbn [feed]. rewrite cut_frame by done.
    destruct (received m s) as [s1 [[]|e]]; [| done]. apply IH; [done | cbn in Hf; lia].
Qed.

Lemma stream_length ms : (length ms <= length (stream frame ms))%nat.
Proof using Hfr.
  induction ms as [|m ms IH]; [done |]. rewrite stream_cons, length_app. pose proof (frame_ne m).
  destruct (frame m); [done |]. cbn. lia.
Qed.

Lemma buffer_messages S (received : bytes -> SE S unit) data (b : bytes) s ms rest s' :
  b ++ data = stream frame ms ++ rest -> Forall ok ms -> partial frame ok rest -> se_iter received ms s = (s', Ok tt) ->
  exists b', buffer_received received data (b, s) = ((b', s'), Ok tt) /\ b' = rest.
Proof using Hfr.
  intros Hd Hms Hr Hs. exists rest. split; [| done]. unfold buffer_received. cbn [fst snd]. rewrite Hd.
  apply feed_messages; try done. rewrite length_app. pose proof (stream_length ms). lia.
Qed.

#[export] Instance buffer : Receiver frame ok bytes := {|
  rc_init := [];
  rc_pending b := b;
  rc_dataReceived S := buffer_received;
  rc_init_empty := eq_refl;
  rc_messages := buffer_messages
|}.

End Chunks.

(** ** Lines *)

(** [LineReceiver] with the delimiter LF and its [MAX_LENGTH]. *)
Definition line_limit : Z := 16384.
Definition line (l : bytes) : bytes := l ++ [10].
Definition line_ok (l : bytes) : Prop := (10 ∉ l) /\ blen l <= line_limit.

Fixpoint cut_line (l : bytes) : option (bytes * bytes) :=
  match l with
  | [] => None
  | c :: l' => if c =? 10 then Some ([], l') else '(m, rest) ← cut_line l'; Some (c :: m, rest)
  end.

Lemma cut_line_app l rest : 10 ∉ l -> cut_line (l ++ 10 :: rest) = Some (l, rest).
Proof.
  induction l as [|c l IH]; [done |]. intros Hn. apply not_elem_of_cons in Hn as [Hc Hn]. cbn.
  destruct (Z.eqb_spec c 10); [congruence |]. by rewrite (IH Hn).
Qed.

Lemma cut_line_none l : 10 ∉ l -> cut_line l = None.
Proof.
  induction l as [|c l IH]; [done |]. intros Hn. apply not_elem_of_cons in Hn as [Hc Hn]. cbn.
  destruct (Z.eqb_spec c 10); [congruence |]. by rewrite (IH Hn).
Qed.

Lemma line_cut l rest : line_ok l -> cut_line (line l ++ rest) = Some (l, rest).
Proof. intros [Hn _]. unfold line. rewrite <- app_assoc. by apply cut_line_app. Qed.

Lemma line_partial l x y : line_ok l -> line l = x ++ y -> y <> [] -> cut_line x = None.
Proof.
  intros [Hn _] Hl Hy. destruct y as [|c y _] using rev_ind; [done |]. unfold line in Hl. rewrite app_assoc in Hl.
  apply app_inj_tail in Hl as [-> _]. apply cut_line_none. intros Hx. apply Hn. apply elem_of_app. by left.
Qed.

Lemma line_ne l : line l <> [].
Proof. unfold line. by destruct l. Qed.

Lemma line_ok_nil : line_ok [].
Proof. split; [apply not_elem_of_nil | done]. Qed.

#[export] Instance line_framing : Framing line line_ok := {|
  cut := cut_line; frame_ne := line_ne; frame_ok_nil := line_ok_nil; cut_frame := line_cut; cut_partial := line_partial
|}.

(** ** Strings with a length *)

(** [Int32StringReceiver] with a given [MAX_LENGTH]: four bytes, most significant
    first, before the string; [sendString] raises for a longer one. *)
Definition string32 (m : bytes) : bytes := PyStruct.be_encode 4 (blen m) ++ m.
Definition string_ok (limit : Z) (m : bytes) : Prop := blen m <= limit.

Definition cut_string (l : bytes) : option (bytes * bytes) :=
  if (length l <? 4)%nat then None
  else
    let n := Z.to_nat (PyStruct.be_decode (take 4 l)) in
    if (length l <? 4 + n)%nat then None else Some (take n (drop 4 l), drop n (drop 4 l)).

Lemma string_header n rest : 0 <= n < 2 ^ 32 ->
  length (PyStruct.be_encode 4 n) = 4%nat /\ PyStruct.be_decode (take 4 (PyStruct.be_encode 4 n ++ rest)) = n /\
  drop 4 (PyStruct.be_encode 4 n ++ rest) = rest.
Proof.
  intros Hn. pose proof (PyStruct.length_encode PyStruct.Big 4 n) as Hl. cbn [PyStruct.encode] in Hl.
  rewrite take_app_length', drop_app_length' by done. split; [done |]. split; [| done].
  pose proof (PyStruct.decode_encode PyStruct.Big 4 n) as Hd. cbn [PyStruct.encode PyStruct.decode] in Hd. rewrite Hd.
  by apply Z.mod_small.
Qed.

Section Strings.
Context (limit : Z) (Hlimit : 0 <= limit < 2 ^ 32).

Lemma string_cut m rest : string_ok limit m -> cut_string (string32 m ++ rest) = Some (m, rest).
Proof using Hlimit.
  unfold string_ok. intros Hm. pose proof (blen_nonneg m). unfold cut_string, string32. rewrite <- app_assoc.
  destruct (string_header (blen m) (m ++ rest)) as (Hl & -> & ->); [lia |]. rewrite !length_app, Hl. unfold blen. rewrite Nat2Z.id.
  destruct (Nat.ltb_spec (4 + (length m + length rest)) 4); [lia |].
  destruct (Nat.ltb_spec (4 + (length m + length rest)) (4 + length m)); [lia |].
  by rewrite take_app_length, drop_app_length.
Qed.

Lemma string_partial m x y : string_ok limit m -> string32 m = x ++ y -> y <> [] -> cut_string x = None.
Proof using Hlimit.
  unfold string_ok. intros Hm Hf Hy. pose proof (blen_nonneg m). unfold cut_string.
  destruct (Nat.ltb_spec (length x) 4) as [|H4]; [done |].
  destruct (string_header (blen m) m) as (Hl & Hd & _); [lia |].
  assert (Ht : take 4 x = take 4 (PyStruct.be_encode 4 (blen m) ++ m)) by (fold (string32 m); rewrite Hf, take_app_le by lia; done).
  rewrite Ht, Hd. unfold blen. rewrite Nat2Z.id.
  apply (f_equal length) in Hf. unfold string32 in Hf. rewrite !length_app, Hl in Hf. destruct y as [|c y]; [done |]. cbn in Hf.
  destruct (Nat.ltb_spec (length x) (4 + length m)); [done | lia].
Qed.

Lemma string_ne m : string32 m <> [].
Proof using Type.
  unfold string32. pose proof (PyStruct.length_encode PyStruct.Big 4 (blen m)) as Hl. cbn [PyStruct.encode] in Hl.
  by destruct (PyStruct.be_encode 4 (blen m)).
Qed.

Lemma string_ok_nil : string_ok limit [].
Proof using Hlimit. unfold string_ok, blen. cbn. lia. Qed.

Definition string_framing : Framing string32 (string_ok limit) := {|
  cut := cut_string; frame_ne := string_ne; frame_ok_nil := string_ok_nil; cut_frame := string_cut; cut_partial := string_partial
|}.

End Strings.

Definition sendString (m : bytes) : result bytes := if blen m <? 2 ^ 32 then Ok (string32 m) else Raise (Exception_ "StringTooLongError").

End Framing.
