(* ===== verification/Telemetry.v ===== *)
(** The line protocols of src/wfb_ng/protocols.py that read the standard output
    of wfb_rx and wfb_tx ([RXAntennaProtocol], [TXAntennaProtocol]), the process
    managers around them, and the printers at the other end of the pipe
    (src/src/rx.cpp, src/src/tx.cpp), with the round trip between them. *)
From Stdlib Require Import ZArith Lia Bool.
From stdpp Require Import base list numbers gmap strings.
From S2P Require Import Prelude.
From S2P Require Import PyDict.
From S2P Require Import PyText.
From S2P Require Import PyNum.
From S2P Require Import AntSel.

(** What the line protocols need of the object they report to: operations, and
    the promise that it holds the latest report of every receiver whether or
    not the call raised. *)
Class StatSink (S : Type) := {
  sink_rx : (nat -> Z) -> string -> AntSel.packet_stats -> AntSel.ant_stats ->
            option AntSel.session_info -> SE S unit;
  sink_tx : (nat -> Z) -> string -> AntSel.packet_stats -> PyDict.dict Z (list Z) -> SE S unit;
  sink_session : (nat -> Z) -> string -> AntSel.session_info -> SE S unit;
  latest : S -> string -> option (AntSel.ant_stats * AntSel.packet_stats);
  sink_rx_latest now id ps ant se s id' :
    latest (sink_rx now id ps ant se s).1 id' = if decide (id' = id) then Some (ant, ps) else latest s id';
  sink_tx_latest now id ps lat s id' : latest (sink_tx now id ps lat s).1 id' = latest s id';
  sink_session_latest now id se s id' : latest (sink_session now id se s).1 id' = latest s id'
}.

Module Telemetry.

(** [tuple(int(i) for i in col.split(':'))]. *)
Definition ints (col : PyText.text) : result (list Z) := result_map (PyText.int_of 10) (PyText.split 58 col).

Definition fec_types (t : Z) : string := if t =? 1 then "VDM_RS" else "Unknown".

Definition rx_keys : list string :=
  ["all"; "all_bytes"; "dec_err"; "session"; "data"; "uniq"; "fec_rec"; "lost"; "bad"; "out"; "out_bytes"]%string.

Definition tx_keys : list string :=
  ["fec_timeouts"; "incoming"; "incoming_bytes"; "injected"; "injected_bytes"; "dropped"; "truncated"]%string.

(** The running totals: the first counters, then sums. *)
Definition add_counters (counters : list Z) (count_all : option (list Z)) : list Z :=
  match count_all with
  | None | Some [] => counters
  | Some t => zip_with Z.add counters t
  end.

Definition stats_of (keys : list string) (counters totals : list Z) : AntSel.packet_stats :=
  PyDict.of_pairs (zip keys (zip counters totals)).

(** ** RXAntennaProtocol *)
Section Rx.
Context {S : Type} `{StatSink S}.

Record rx_ant := RxAnt {
  rx_id : string;
  ant : AntSel.ant_stats;
  count_all : option (list Z);
  session : option AntSel.session_info;
  ant_stat_cb : option S;
  bad_lines : list PyText.text
}.

Definition set_ant a w := RxAnt (rx_id w) a (count_all w) (session w) (ant_stat_cb w) (bad_lines w).
Definition set_count c w := RxAnt (rx_id w) (ant w) (Some c) (session w) (ant_stat_cb w) (bad_lines w).
Definition set_session x w := RxAnt (rx_id w) (ant w) (count_all w) (Some x) (ant_stat_cb w) (bad_lines w).
Definition set_sink k w := RxAnt (rx_id w) (ant w) (count_all w) (session w) k (bad_lines w).
Definition log_bad l w := RxAnt (rx_id w) (ant w) (count_all w) (session w) (ant_stat_cb w) (bad_lines w ++ [l]).

(** [if self.ant_stat_cb is not None: self.ant_stat_cb.m(...)]. *)
Definition with_sink (m : rx_ant -> SE S unit) : SE rx_ant unit := fun w =>
  match ant_stat_cb w with
  | None => (w, Ok tt)
  | Some k => let '(k', r) := m w k in (set_sink (Some k') w, r)
  end.

Definition rx_ant_line (cols : list PyText.text) : SE rx_ant unit :=
  match cols with
  | [_; _; c2; c3; c4] =>
      v ← se_lift (ints c4);
      k ← se_lift (ints c2);
      a ← se_lift (PyText.int_of 16 c3);
      se_modify (fun w => set_ant (PyDict.set (ant w) (k, a) v) w)
  | _ => se_raise BadTelemetry
  end.

Definition rx_pkt_line (now : nat -> Z) (cols : list PyText.text) : SE rx_ant unit :=
  match cols with
  | [_; _; c2] =>
      counters ← se_lift (ints c2);
      if negb (length counters =? length rx_keys)%nat then se_raise AssertionError
      else
        _ ← se_modify (fun w => set_count (add_counters counters (count_all w)) w);
        _ ← with_sink (fun w => sink_rx now (rx_id w)
              (stats_of rx_keys counters (default [] (count_all w))) (ant w) (session w));
        se_modify (set_ant [])
  | _ => se_raise BadTelemetry
  end.

Definition rx_session_line (now : nat -> Z) (cols : list PyText.text) : SE rx_ant unit :=
  match cols with
  | [_; _; c2] =>
      vs ← se_lift (ints c2);
      match vs with
      | [epoch; fec_type; fec_k; fec_n] =>
          let se := AntSel.SessionInfo (fec_types fec_type) fec_k fec_n epoch in
          _ ← se_modify (set_session se);
          with_sink (fun w => sink_session now (rx_id w) se)
      | _ => se_raise ValueError
      end
  | _ => se_raise BadTelemetry
  end.

(** [except BadTelemetry: log.msg(...)]. *)
Definition catch_bad (line : PyText.text) (m : SE rx_ant unit) : SE rx_ant unit := fun w =>
  match m w with
  | (w', Raise BadTelemetry) => (log_bad line w', Ok tt)
  | r => r
  end.

Definition rx_lineReceived (now : nat -> Z) (data : bytes) : SE rx_ant unit :=
  t ← se_lift (PyText.utf8_decode data);
  let line := PyText.strip t in
  let cols := PyText.split 9 line in
  catch_bad line
    (if (length cols <? 2)%nat then se_raise BadTelemetry
     else
       let cmd := default [] (cols !! 1%nat) in
       if decide (cmd = PyText.lit "RX_ANT") then rx_ant_line cols
       else if decide (cmd = PyText.lit "PKT") then rx_pkt_line now cols
       else if decide (cmd = PyText.lit "SESSION") then rx_session_line now cols
       else se_raise BadTelemetry).

End Rx.
Arguments rx_ant : clear implicits.
(** ** The printers of wfb_rx *)

(** One entry of [Aggregator::antenna_stat]. *)
Record ant_entry := AntEntry { ae_freq : Z; ae_mcs : Z; ae_bw : Z; ae_id : Z; ae_stat : AntSel.stat7 }.

Definition stat_list (e : AntSel.stat7) : list Z :=
  [AntSel.pkt_s e; AntSel.rssi_min e; AntSel.rssi_avg e; AntSel.rssi_max e;
   AntSel.snr_min e; AntSel.snr_avg e; AntSel.snr_max e].

(** The two formats of [Aggregator::dump_stats] and the one of a new session;
    [%u] prints a non-negative number as [%d] does. *)
Definition ant_line (ts : Z) (e : ant_entry) : bytes :=
  PyText.join 9 [PyText.print_u ts; PyText.lit "RX_ANT"; PyText.row [ae_freq e; ae_mcs e; ae_bw e];
                 PyText.print_x (ae_id e); PyText.row (stat_list (ae_stat e))].

Definition pkt_line (ts : Z) (counters : list Z) : bytes :=
  PyText.join 9 [PyText.print_u ts; PyText.lit "PKT"; PyText.row counters].

Definition session_line (ts epoch fec_type fec_k fec_n : Z) : bytes :=
  PyText.join 9 [PyText.print_u ts; PyText.lit "SESSION"; PyText.row [epoch; fec_type; fec_k; fec_n]].

Record rx_dump := RxDump { d_ts : Z; d_ants : list ant_entry; d_counters : list Z }.

Definition dump_stats (d : rx_dump) : list bytes :=
  map (ant_line (d_ts d)) (d_ants d) ++ [pkt_line (d_ts d) (d_counters d)].

Definition ant_key (e : ant_entry) : list Z * Z := ([ae_freq e; ae_mcs e; ae_bw e], ae_id e).

(** What the C++ side guarantees: a map has distinct keys, the antenna id and
    the time are unsigned, there are eleven counters. *)
Record dump_ok (d : rx_dump) : Prop := {
  do_ts : 0 <= d_ts d;
  do_ids : Forall (fun e => 0 <= ae_id e) (d_ants d);
  do_keys : NoDup (map ant_key (d_ants d));
  do_counters : length (d_counters d) = 11%nat
}.

Definition ant_dict (d : rx_dump) : AntSel.ant_stats :=
  map (fun e => (ant_key e, stat_list (ae_stat e))) (d_ants d).

(** ** Reading back *)

Lemma lit_plain s : forallb (fun c => (33 <=? c) && (c <? 127)) (PyText.lit s) = true -> Forall PyText.plain (PyText.lit s).
Proof.
  rewrite forallb_forall. intros H. apply List.Forall_forall. intros c Hc.
  specialize (H c Hc). to_prop. unfold PyText.plain. lia.
Qed.

Lemma ints_of_row zs : zs <> [] -> ints (PyText.row zs) = Ok zs.
Proof. intros H. unfold ints. rewrite PyText.row_split by done. apply PyText.ints_printed. Qed.

Ltac columns :=
  repeat first [apply Forall_nil_2 | apply PyText.row_plain | (apply PyText.print_nat_plain; lia)
               | (by apply lit_plain) | (apply Forall_cons; split)].

Section Read.
Context {S : Type} `{StatSink S}.
Implicit Types w : rx_ant S.

(** A line printed from plain columns reaches the command dispatch whole. *)
Lemma rx_line_dispatch now p cmd ps q w :
  p <> [] -> q <> [] -> Forall (Forall PyText.plain) (p :: cmd :: ps ++ [q]) ->
  rx_lineReceived now (PyText.join 9 (p :: cmd :: ps ++ [q])) w =
  catch_bad (PyText.join 9 (p :: cmd :: ps ++ [q]))
    (if decide (cmd = PyText.lit "RX_ANT") then rx_ant_line (p :: cmd :: ps ++ [q])
     else if decide (cmd = PyText.lit "PKT") then rx_pkt_line now (p :: cmd :: ps ++ [q])
     else if decide (cmd = PyText.lit "SESSION") then rx_session_line now (p :: cmd :: ps ++ [q])
     else se_raise BadTelemetry) w.
Proof using Type.
  intros Hp Hq Hf. destruct (PyText.printed_line p (cmd :: ps) q Hp Hq Hf) as (H1 & H2 & H3).
  unfold rx_lineReceived, mbind, SE_bind, se_lift.
  change (p :: (cmd :: ps) ++ [q]) with (p :: cmd :: ps ++ [q]) in *. rewrite H1, H2, H3.
  cbn [length lookup list_lookup default]. destruct (Nat.ltb_spec (Datatypes.S (Datatypes.S (length (ps ++ [q])))) 2); [lia |].
  done.
Qed.

Lemma read_ant_line now ts e w : 0 <= ts -> 0 <= ae_id e ->
  rx_lineReceived now (ant_line ts e) w
  = (set_ant (PyDict.set (ant w) (ant_key e) (stat_list (ae_stat e))) w, Ok tt).
Proof using Type.
  intros Ht Hi. unfold ant_line.
  rewrite (rx_line_dispatch now (PyText.print_u ts) (PyText.lit "RX_ANT")
    [PyText.row [ae_freq e; ae_mcs e; ae_bw e]; PyText.print_x (ae_id e)] (PyText.row (stat_list (ae_stat e))));
    [| apply PyText.print_nat_ne; lia | by apply PyText.row_ne | columns].
  rewrite decide_True by done. unfold catch_bad, rx_ant_line. cbn [app].
  unfold mbind, SE_bind, se_lift. rewrite !ints_of_row by done.
  unfold PyText.print_x. rewrite PyText.int_of_print by lia. done.
Qed.

Lemma read_pkt_line now ts counters w : 0 <= ts -> length counters = 11%nat ->
  rx_lineReceived now (pkt_line ts counters) w =
  let w1 := set_count (add_counters counters (count_all w)) w in
  match with_sink (fun w => sink_rx now (rx_id w)
              (stats_of rx_keys counters (default [] (count_all w))) (ant w) (session w)) w1 with
  | (w2, Ok _) => (set_ant [] w2, Ok tt)
  | (w2, Raise e) => catch_bad (pkt_line ts counters) (fun _ => (w2, Raise e)) w2
  end.
Proof using Type.
  intros Ht Hl. assert (Hne : counters <> []) by (by destruct counters).
  unfold pkt_line at 1.
  rewrite (rx_line_dispatch now (PyText.print_u ts) (PyText.lit "PKT") [] (PyText.row counters));
    [| apply PyText.print_nat_ne; lia | by apply PyText.row_ne | columns].
  rewrite decide_False, decide_True by done. unfold rx_pkt_line. cbn [app]. unfold catch_bad.
  unfold mbind, SE_bind, se_lift. rewrite ints_of_row, Hl by done. cbn [negb Nat.eqb length rx_keys se_modify].
  destruct (with_sink _ _) as [w2 [[] | e]]; [done |]. destruct e; done.
Qed.

Definition read_lines (now : nat -> Z) (ls : list bytes) : SE (rx_ant S) unit := se_iter (rx_lineReceived now) ls.

(** Antenna lines fill the dictionary in order. *)
Lemma read_ant_lines now ts es w : 0 <= ts -> Forall (fun e => 0 <= ae_id e) es ->
  read_lines now (map (ant_line ts) es) w
  = (set_ant (fold_left (fun d p => PyDict.set d p.1 p.2)
        (map (fun e => (ant_key e, stat_list (ae_stat e))) es) (ant w)) w, Ok tt).
Proof using Type.
  intros Ht Hes. revert w. unfold read_lines. induction Hes as [|e es He _ IH]; intros w.
  - by destruct w.
  - cbn [map se_iter]. unfold mbind, SE_bind. rewrite read_ant_line by done. rewrite IH. done.
Qed.

Lemma read_lines_app now l1 l2 w :
  read_lines now (l1 ++ l2) w
  = match read_lines now l1 w with (w', Ok _) => read_lines now l2 w' | (w', Raise e) => (w', Raise e) end.
Proof using Type.
  revert w. unfold read_lines. induction l1 as [|l l1 IH]; intros w; cbn [app se_iter]; [done |].
  unfold mbind, SE_bind. destruct (rx_lineReceived now l w) as [w' [[] | e]]; [apply IH | done].
Qed.

(** One dump, read by a parser between dumps. *)
Lemma read_dump now d w k : dump_ok d -> ant w = [] -> ant_stat_cb w = Some k ->
  let totals := add_counters (d_counters d) (count_all w) in
  let '(k', r) := sink_rx now (rx_id w) (stats_of rx_keys (d_counters d) totals) (ant_dict d) (session w) k in
  r = Ok tt ->
  read_lines now (dump_stats d) w = (RxAnt (rx_id w) [] (Some totals) (session w) (Some k') (bad_lines w), Ok tt).
Proof using Type.
  intros [Ht Hi Hk Hc] Ha Hs totals. destruct (sink_rx _ _ _ _ _ _) as [k' r] eqn:E. intros ->.
  unfold dump_stats. rewrite read_lines_app, read_ant_lines by done. rewrite Ha.
  change (fold_left _ ?l []) with (PyDict.of_pairs l).
  rewrite PyDict.of_pairs_id by (by rewrite <- list_fmap_compose).
  unfold read_lines. cbn [se_iter]. unfold mbind, SE_bind. rewrite read_pkt_line by done.
  unfold with_sink. cbn [ant_stat_cb set_ant set_count count_all rx_id ant session default]. rewrite Hs.
  fold totals. change (map _ (d_ants d)) with (ant_dict d). unfold id. rewrite E. done.
Qed.
End Read.

(** ** Totals over many dumps *)

Definition column (i : nat) (ds : list rx_dump) : Z := AntSel.sumZ (fun d => nth i (d_counters d) 0) ds.

(** The running totals after some dumps, from an earlier total. *)
Definition totals_of (prev : option (list Z)) (ds : list rx_dump) (t : list Z) : Prop :=
  length t = 11%nat /\
  forall i, (i < 11)%nat -> nth i t 0 = nth i (default [] prev) 0 + column i ds.

Lemma add_counters_spec c prev : length c = 11%nat -> (forall t, prev = Some t -> length t = 11%nat) ->
  length (add_counters c prev) = 11%nat /\
  forall i, (i < 11)%nat -> nth i (add_counters c prev) 0 = nth i (default [] prev) 0 + nth i c 0.
Proof.
  intros Hc Hp. destruct prev as [[|z t] |]; cbn [add_counters default].
  - specialize (Hp [] eq_refl). done.
  - specialize (Hp _ eq_refl). split; [rewrite length_zip_with; lia |]. intros i Hi. unfold id.
    destruct (lookup_lt_is_Some_2 c i ltac:(lia)) as [x Hx].
    destruct (lookup_lt_is_Some_2 (z :: t) i ltac:(lia)) as [y Hy].
    rewrite !nth_lookup, lookup_zip_with, Hx, Hy. cbn. lia.
  - split; [done |]. intros i Hi. destruct i; cbn; lia.
Qed.

Lemma get_zip (ks : list string) {V} (vs : list V) i k v :
  NoDup ks -> ks !! i = Some k -> vs !! i = Some v -> PyDict.get (zip ks vs) k = Some v.
Proof.
  intros Hnd Hk Hv. revert vs i Hk Hv.
  induction Hnd as [|k1 ks Hn Hnd IH]; intros vs i Hk Hv; [done |].
  destruct vs as [|v1 vs]; [done |]. cbn. destruct i as [|i]; cbn in Hk, Hv.
  - injection Hk as ->. injection Hv as ->. by case_decide.
  - case_decide as Hd; [| by eapply IH]. subst k1. destruct Hn. by eapply list_elem_of_lookup_2.
Qed.

(** A statistics dictionary holds each counter with its total. *)
Lemma stats_of_get keys c t i k : NoDup keys -> length c = length keys -> length t = length keys ->
  keys !! i = Some k -> PyDict.get (stats_of keys c t) k = Some (nth i c 0, nth i t 0).
Proof.
  intros Hnd Hc Ht Hk. unfold stats_of.
  assert (Hi : (i < length keys)%nat) by (by eapply lookup_lt_Some).
  rewrite PyDict.of_pairs_id; [| rewrite fst_zip; [done | rewrite length_zip_with; lia]].
  apply (get_zip keys _ i); [done | done |].
  destruct (lookup_lt_is_Some_2 c i ltac:(lia)) as [x Hx].
  destruct (lookup_lt_is_Some_2 t i ltac:(lia)) as [y Hy].
  by rewrite lookup_zip_with, !nth_lookup, Hx, Hy.
Qed.

Lemma rx_keys_nodup : NoDup rx_keys.
Proof. apply (bool_decide_unpack _). vm_compute. exact I. Qed.

Section Totals.
Context {S : Type} `{StatSink S}.
Context (now : nat -> Z).
(** The sink accepts every report. *)
Context (accepts : forall id ps ant se k, (sink_rx now id ps ant se k).2 = Ok tt).
Implicit Types w : rx_ant S.

Definition between (w : rx_ant S) : Prop :=
  ant w = [] /\ (forall t, count_all w = Some t -> length t = 11%nat) /\ is_Some (ant_stat_cb w).

Lemma read_dump_between d w : dump_ok d -> between w ->
  exists w' t k', read_lines now (dump_stats d) w = (w', Ok tt) /\ between w' /\
    rx_id w' = rx_id w /\ session w' = session w /\ bad_lines w' = bad_lines w /\ count_all w' = Some t /\
    t = add_counters (d_counters d) (count_all w) /\ ant_stat_cb w' = Some k' /\
    latest k' (rx_id w) = Some (ant_dict d, stats_of rx_keys (d_counters d) t).
Proof using accepts.
  intros Hd (Ha & Hl & [k Hk]). pose proof (read_dump now d w k Hd Ha Hk) as Hr.
  set (t := add_counters (d_counters d) (count_all w)) in *.
  pose proof (sink_rx_latest now (rx_id w) (stats_of rx_keys (d_counters d) t) (ant_dict d) (session w) k (rx_id w)) as Hlat.
  pose proof (accepts (rx_id w) (stats_of rx_keys (d_counters d) t) (ant_dict d) (session w) k) as Hacc.
  cbv zeta in Hr. destruct (sink_rx _ _ _ _ _ _) as [k' r]. cbn [fst snd] in *.
  rewrite decide_True in Hlat by done. rewrite (Hr Hacc).
  destruct (add_counters_spec (d_counters d) (count_all w) (do_counters d Hd) Hl) as [Hlen _].
  do 3 eexists. split; [reflexivity |]. split.
  { split; [done |]. split; [intros t' [= <-]; exact Hlen | by eexists]. }
  split_and!; try done.
Qed.

Lemma column_cons i d ds : column i (d :: ds) = nth i (d_counters d) 0 + column i ds.
Proof using Type. done. Qed.

Lemma read_dumps ds w : Forall dump_ok ds -> between w -> ds <> [] ->
  exists w' t k' d, read_lines now (concat (map dump_stats ds)) w = (w', Ok tt) /\
    last ds = Some d /\ bad_lines w' = bad_lines w /\ ant w' = [] /\
    count_all w' = Some t /\ totals_of (count_all w) ds t /\ ant_stat_cb w' = Some k' /\
    latest k' (rx_id w) = Some (ant_dict d, stats_of rx_keys (d_counters d) t).
Proof using accepts.
  intros Hds. revert w. induction Hds as [|d ds Hd Hds IH]; intros w Hw Hne; [done |]. clear Hne.
  cbn [map concat]. rewrite read_lines_app.
  destruct (read_dump_between d w Hd Hw) as (w1 & t1 & k1 & -> & Hw1 & Hid & _ & Hbad & Hc1 & Ht1 & Hk1 & Hlat1).
  destruct (add_counters_spec (d_counters d) (count_all w) (do_counters d Hd)) as [Hlen Hsum];
    [apply Hw |]. rewrite <- Ht1 in Hlen, Hsum.
  destruct ds as [|d2 ds].
  - exists w1, t1, k1, d. cbn [map concat]. split_and!; try done; [apply Hw1 |]. split; [done |].
    intros i Hi. rewrite column_cons, (Hsum i Hi). cbn [column]. unfold column. cbn. lia.
  - destruct (IH w1 Hw1 ltac:(done)) as (w' & t & k' & d' & -> & Hlast & Hbad' & Ha' & Hc' & Ht' & Hk' & Hlat').
    exists w', t, k', d'. split; [done |]. split; [exact Hlast |]. split; [congruence |].
    split; [done |]. split; [done |]. split.
    + destruct Ht' as [Hl' Hs']. split; [done |]. intros i Hi. rewrite column_cons, (Hs' i Hi), Hc1.
      change (default [] (Some t1)) with t1. rewrite (Hsum i Hi). lia.
    + split; [done |]. by rewrite <- Hid.
Qed.

(** What wfb_rx prints is what the aggregator is told.  Any number of
    statistics dumps, printed by [dump_stats] and read line by line by a new
    parser, leave no line refused; the sink's latest report for the receiver
    is the antenna table of the last dump, exactly, and for every counter the
    value of the last dump with the sum over all dumps. *)
Theorem rx_telemetry_roundtrip id k ds d :
  Forall dump_ok (ds ++ [d]) ->
  exists w' k' ps,
    read_lines now (concat (map dump_stats (ds ++ [d]))) (RxAnt id [] None None (Some k) []) = (w', Ok tt) /\
    bad_lines w' = [] /\ ant w' = [] /\ ant_stat_cb w' = Some k' /\
    latest k' id = Some (ant_dict d, ps) /\
    forall i name, rx_keys !! i = Some name ->
      PyDict.get ps name = Some (nth i (d_counters d) 0, column i (ds ++ [d])).
Proof using accepts.
  intros Hds. set (w := RxAnt id [] None None (Some k) []).
  destruct (read_dumps (ds ++ [d]) w Hds) as (w' & t & k' & d' & Hr & Hlast & Hb & Ha & _ & [Hl Ht] & Hk & Hlat).
  { split; [done |]. split; [done | by eexists]. }
  { by destruct ds. }
  rewrite last_snoc in Hlast. injection Hlast as <-.
  exists w', k', (stats_of rx_keys (d_counters d) t). split_and!; try done.
  intros i name Hi. apply Forall_app in Hds as [_ Hd]. apply Forall_inv in Hd.
  rewrite (stats_of_get rx_keys _ _ i name rx_keys_nodup); try done; [| by rewrite (do_counters d Hd)].
  apply lookup_lt_Some in Hi. rewrite (Ht i Hi). cbn [default count_all w]. do 2 f_equal.
  destruct i; cbn; lia.
Qed.
End Totals.


(** ** Errors *)

Lemma utf8_raises l e : PyText.utf8_decode l = Raise e -> e = UnicodeDecodeError.
Proof.
  remember (length l) as n eqn:Hn. revert e l Hn. induction (lt_wf n) as [n _ IH]. intros e l -> He.
  assert (IH' : forall l' e, (length l' < length l)%nat -> PyText.utf8_decode l' = Raise e -> e = UnicodeDecodeError).
  { intros l' e' Hlt. by apply (IH _ Hlt e' l' eq_refl). }
  clear IH. destruct l as [|b0 r0]; [done |]. cbn [PyText.utf8_decode] in He.
  repeat match type of He with
  | (if ?c then _ else _) = _ => destruct c
  | (match ?l with [] => _ | _ => _ end) = _ => destruct l
  | (PyText.utf8_decode ?r ≫= _) = _ =>
      destruct (PyText.utf8_decode r) as [? | e'] eqn:E; cbn in He; [done |];
      injection He as <-; eapply IH'; [| exact E]; cbn; lia
  end; by injection He.
Qed.

Lemma int_of_raises b t e : PyText.int_of b t = Raise e -> e = ValueError.
Proof. unfold PyText.int_of. cbv zeta. destruct (if _ : bool then _ else _); cbn; [done |]. by intros [= <-]. Qed.

Lemma ints_raises t e : ints t = Raise e -> e = ValueError.
Proof.
  unfold ints. generalize (PyText.split 58 t) as l. induction l as [|c l IH]; cbn; [done |].
  destruct (PyText.int_of 10 c) as [z | e'] eqn:E; cbn; [| intros [= <-]; by eapply int_of_raises].
  destruct (result_map _ l); cbn; [done |]. intros [= <-]. by apply IH.
Qed.

(** A branch that raises at once. *)
Ltac refused := unfold se_raise in *; simplify_eq; by auto.

Section Errors.
Context {S : Type} `{StatSink S}.
Context (now : nat -> Z).
Context (accepts : forall id ps ant se k, (sink_rx now id ps ant se k).2 = Ok tt).
Context (accepts_session : forall id se k, (sink_session now id se k).2 = Ok tt).
Implicit Types w : rx_ant S.

Definition parse_error (e : exn) : Prop := e = ValueError \/ e = AssertionError \/ e = BadTelemetry.

Lemma ant_line_error cols w w' e : rx_ant_line cols w = (w', Raise e) -> w' = w /\ parse_error e.
Proof using Type.
  unfold rx_ant_line, parse_error. intros Hl.
  destruct cols as [|c0 [|c1 [|c2 [|c3 [|c4 [|c5 cols]]]]]]; try refused.
  unfold mbind, SE_bind, se_lift in Hl.
  destruct (ints c4) eqn:E1; [| simplify_eq; split; [done | left; by eapply ints_raises]].
  destruct (ints c2) eqn:E2; [| simplify_eq; split; [done | left; by eapply ints_raises]].
  destruct (PyText.int_of 16 c3) eqn:E3; [| simplify_eq; split; [done | left; by eapply int_of_raises]].
  done.
Qed.

Lemma pkt_line_error cols w w' e : rx_pkt_line now cols w = (w', Raise e) -> w' = w /\ parse_error e.
Proof using accepts.
  unfold rx_pkt_line, parse_error. intros Hl.
  do 3 (destruct cols as [|? cols]; [refused |]).
  destruct cols; [| refused]. unfold mbind, SE_bind, se_lift in Hl.
  destruct (ints _) eqn:E1; [| simplify_eq; split; [done | left; by eapply ints_raises]].
  destruct (negb _); [refused |]. unfold se_modify, with_sink in Hl.
  destruct (ant_stat_cb _) as [k |]; [| done].
  match type of Hl with context [sink_rx now ?a ?b ?c ?d k] => pose proof (accepts a b c d k) as Hacc end.
  destruct (sink_rx _ _ _ _ _ _) as [k' r]. cbn in Hacc. by subst r.
Qed.

Lemma session_line_error cols w w' e : rx_session_line now cols w = (w', Raise e) -> w' = w /\ parse_error e.
Proof using accepts_session.
  unfold rx_session_line, parse_error. intros Hl.
  do 3 (destruct cols as [|? cols]; [refused |]).
  destruct cols; [| refused]. unfold mbind, SE_bind, se_lift in Hl.
  destruct (ints _) as [vs | e1] eqn:E1; [| simplify_eq; split; [done | left; by eapply ints_raises]].
  do 4 (destruct vs as [|? vs]; [refused |]). destruct vs; [| refused].
  unfold se_modify, with_sink in Hl. destruct (ant_stat_cb _) as [k |]; [| done].
  match type of Hl with context [sink_session now ?a ?b k] => pose proof (accepts_session a b k) as Hacc end.
  destruct (sink_session _ _ _ _) as [k' r]. cbn in Hacc. by subst r.
Qed.

(** Whatever bytes a line holds, reading it either succeeds or raises one
    of three exceptions and then leaves the parser as it was: undecodable
    bytes, a field that is not a number, a wrong number of counters.  Only the
    cases the source marks as bad telemetry are logged and swallowed. *)
Theorem rx_line_errors data w w' e :
  rx_lineReceived now data w = (w', Raise e) ->
  w' = w /\ (e = UnicodeDecodeError \/ e = ValueError \/ e = AssertionError).
Proof using accepts accepts_session.
  unfold rx_lineReceived, mbind, SE_bind, se_lift. intros Hl.
  destruct (PyText.utf8_decode data) as [t | e1] eqn:E1; [| simplify_eq; split; [done | left; by eapply utf8_raises]].
  unfold catch_bad in Hl. set (m := (if _ : bool then _ else _) : SE (rx_ant S) unit) in Hl.
  destruct (m w) as [w1 [[] | e1]] eqn:Em; [done |].
  assert (Hp : w1 = w /\ parse_error e1).
  { unfold m in Em. destruct (_ <? _)%nat; [unfold parse_error; refused |].
    destruct (decide _); [by eapply ant_line_error |]. destruct (decide _); [by eapply pkt_line_error |].
    destruct (decide _); [by eapply session_line_error |]. unfold parse_error. refused. }
  destruct Hp as [-> [-> | [-> | ->]]]; simplify_eq; auto.
Qed.
End Errors.

(** A number that does not parse escapes: it is not logged as bad telemetry. *)
Example rx_bad_number {S : Type} `{StatSink S} now (k : option S) :
  rx_lineReceived now (PyText.lit "1" ++ [9] ++ PyText.lit "PKT" ++ [9] ++ PyText.lit "1:x")
    (RxAnt "rx" [] None None k []) = (RxAnt "rx" [] None None k [], Raise ValueError).
Proof. reflexivity. Qed.

(** ** The selector as sink *)

Lemma send_stats_cur uir (ms : nat -> AntSel.stat_msg) l s :
  AntSel.cur_stats (se_iter (fun ui => AntSel.send_stats uir (ms ui) ui) l s).1 = AntSel.cur_stats s.
Proof.
  revert s. induction l as [|ui l IH]; intros s; cbn [se_iter]; [done |].
  unfold mbind, SE_bind. unfold AntSel.send_stats at 1. destruct (uir ui (ms ui)); [done |]. by rewrite IH.
Qed.

(** [AntStatsAndSelector] keeps the promise of a sink, whatever its sessions do. *)
#[export, refine] Instance sel_sink (uir : nat -> AntSel.stat_msg -> option exn) : StatSink AntSel.sel := {
  sink_rx := AntSel.update_rx_stats uir;
  sink_tx := AntSel.update_tx_stats uir;
  sink_session := AntSel.process_new_session uir;
  latest s id := PyDict.get (AntSel.cur_stats s) id
}.
Proof.
  - intros now id ps ant se s id'. unfold AntSel.update_rx_stats, mbind, SE_bind, se_modify, se_get.
    rewrite (send_stats_cur uir (fun ui => AntSel.RxMsg (now ui) id _ ps ant se)). apply PyDict.get_set.
  - intros now id ps lat s id'. unfold AntSel.update_tx_stats, mbind, SE_bind, se_get.
    by rewrite (send_stats_cur uir (fun ui => AntSel.TxMsg (now ui) id ps lat _)).
  - intros now id se s id'. unfold AntSel.process_new_session, mbind, SE_bind, se_get.
    by destruct (AntSel.logger s).
Defined.


(** ** From the receiver's output to the flight controller's report *)

Lemma stat_of_list k e : AntSel.stat_of (k, stat_list e) = [e].
Proof. by destruct e. Qed.

Lemma dict_items id d : AntSel.all_items [(id, ant_dict d)] = ant_dict d.
Proof. unfold AntSel.all_items. cbn. apply app_nil_r. Qed.

(** A printed dump with positive counts is an interval the aggregator accepts. *)
Lemma dump_sane d ps : Forall (fun e => 0 < AntSel.pkt_s (ae_stat e)) (d_ants d) ->
  AntSel.sumZ (fun e => AntSel.pkt_s (ae_stat e)) (d_ants d) < 2 ^ 53 ->
  AntSel.complete ps -> AntSel.sane_interval (ant_dict d) [ps].
Proof.
  intros Hp Hsum Hc.
  assert (Hpos : Forall (fun it => Forall (fun e => 0 < AntSel.pkt_s e) (AntSel.stat_of it)) (ant_dict d)).
  { apply Forall_map. eapply Forall_impl; [exact Hp |]. intros e He.
    change (Forall (fun e => 0 < AntSel.pkt_s e) (AntSel.stat_of (ant_key e, stat_list (ae_stat e)))).
    rewrite stat_of_list. by constructor. }
  constructor; [| exact Hpos | | by constructor].
  - apply Forall_map, Forall_true. done.
  - intros a. eapply Z.le_lt_trans; [by apply AntSel.entries_sum_le |].
    replace (concat _) with (map ae_stat (d_ants d)).
    + clear -Hsum. revert Hsum. generalize (2 ^ 53). unfold AntSel.sumZ.
      induction (d_ants d) as [|e l IH]; intros z Hz; cbn in *; [done |].
      specialize (IH (z - AntSel.pkt_s (ae_stat e))). lia.
    + clear. unfold ant_dict. induction (d_ants d) as [|e l IH]; [done |]. cbn [map concat].
      rewrite stat_of_list. cbn. by rewrite IH.
Qed.

Lemma rx_stats_get c t i k : length c = 11%nat -> length t = 11%nat -> rx_keys !! i = Some k ->
  PyDict.get (stats_of rx_keys c t) k = Some (nth i c 0, nth i t 0).
Proof. intros Hc Ht. apply stats_of_get; [apply rx_keys_nodup | by rewrite Hc | by rewrite Ht]. Qed.

Lemma rx_stats_complete c t : length c = 11%nat -> length t = 11%nat -> AntSel.complete (stats_of rx_keys c t).
Proof.
  intros Hc Ht. unfold AntSel.complete. repeat (apply Forall_cons; split); [| | | | by constructor].
  - rewrite (rx_stats_get c t 2 "dec_err" Hc Ht eq_refl). by eexists.
  - rewrite (rx_stats_get c t 8 "bad" Hc Ht eq_refl). by eexists.
  - rewrite (rx_stats_get c t 7 "lost" Hc Ht eq_refl). by eexists.
  - rewrite (rx_stats_get c t 6 "fec_rec" Hc Ht eq_refl). by eexists.
Qed.

(** A selector with quiet sessions takes a report by storing it and telling
    every session. *)
Lemma quiet_update uir now id ps ant se s : (forall ui m, uir ui m = None) ->
  exists s', AntSel.update_rx_stats uir now id ps ant se s = (s', Ok tt) /\
    AntSel.cur_stats s' = PyDict.set (AntSel.cur_stats s) id (ant, ps) /\
    AntSel.rssi_cb_l s' = AntSel.rssi_cb_l s /\ AntSel.rssi_calls s' = AntSel.rssi_calls s /\
    AntSel.tx_sel s' = AntSel.tx_sel s /\ AntSel.ui_sessions s' = AntSel.ui_sessions s /\
    AntSel.ui_out s' = AntSel.ui_out s ++
      map (fun ui => (ui, AntSel.RxMsg (now ui) id (AntSel.tx_sel s) ps ant se)) (AntSel.ui_sessions s).
Proof.
  intros Hq. unfold AntSel.update_rx_stats, mbind, SE_bind, se_modify, se_get.
  set (s0 := AntSel.set_cur_stats _ s).
  assert (Hi : forall (ms : nat -> AntSel.stat_msg) l s, exists s',
    se_iter (fun ui => AntSel.send_stats uir (ms ui) ui) l s = (s', Ok tt) /\
    AntSel.cur_stats s' = AntSel.cur_stats s /\ AntSel.rssi_cb_l s' = AntSel.rssi_cb_l s /\
    AntSel.rssi_calls s' = AntSel.rssi_calls s /\ AntSel.tx_sel s' = AntSel.tx_sel s /\
    AntSel.ui_sessions s' = AntSel.ui_sessions s /\ AntSel.ui_out s' = AntSel.ui_out s ++ map (fun ui => (ui, ms ui)) l).
  { intros ms. induction l as [|ui l IH]; intros s2; cbn [se_iter]; [exists s2; cbn; by rewrite app_nil_r |].
    unfold mbind, SE_bind. unfold AntSel.send_stats at 1. rewrite Hq.
    destruct (IH (AntSel.add_ui_out (ui, ms ui) s2)) as (s3 & -> & H1 & H2 & H3 & H4 & H5 & H6). exists s3.
    split_and!; try done. rewrite H6. cbn. by rewrite <- app_assoc. }
  destruct (Hi (fun ui => AntSel.RxMsg (now ui) id (AntSel.tx_sel s0) ps ant se) (AntSel.ui_sessions s0) s0)
    as (s' & -> & Hs'). by exists s'.
Qed.

(** The aggregated table is empty exactly when the dump has no antenna. *)
Lemma dump_rows_nil id d ps sa : AntSel.sane_interval (ant_dict d) [ps] ->
  AntSel.stats_agg_by_freq_and_rxid [(id, ant_dict d)] = Ok sa -> sa = [] <-> d_ants d = [].
Proof.
  intros Hsane Hsa. rewrite <- (dict_items id d) in Hsane.
  destruct (AntSel.stats_agg_sane_rows _ _ Hsane) as (sa' & Hsa' & _ & Hrows & _).
  rewrite dict_items in Hrows. rewrite Hsa in Hsa'. injection Hsa' as <-. split.
  - intros ->. destruct (d_ants d) as [|e l] eqn:E; [done |]. specialize (Hrows (ae_id e)). cbn in Hrows.
    unfold ant_dict, AntSel.entries in Hrows. rewrite E in Hrows. cbn in Hrows.
    rewrite Z.eqb_refl in Hrows. cbn in Hrows. done.
  - intros E. unfold ant_dict in Hsa. rewrite E in Hsa. cbn in Hsa. by injection Hsa.
Qed.

(** C6: one statistics interval end to end.  A parser between dumps, a selector
    at the start of an interval: the lines wfb_rx prints for a dump are read
    without error, the next [aggregate_stats] does not raise, and every RSSI
    callback gets one report that has the link-lost flag exactly when the dump
    had no antenna, and otherwise the mean RSSI of the strongest antenna of the
    aggregated table; in rate mode its error count is the dump's undecodable,
    bad and lost packets and its correction count the dump's, cut at 65535. *)
Theorem telemetry_to_report conf scr rcr uir now da d s (w : rx_ant AntSel.sel) :
  (forall ui m, uir ui m = None) ->
  AntSel.tx_sel_counter_abs_delta conf = PyNum.NInt da -> 0 <= da ->
  dump_ok d -> Forall (fun e => 0 < AntSel.pkt_s (ae_stat e)) (d_ants d) ->
  AntSel.sumZ (fun e => AntSel.pkt_s (ae_stat e)) (d_ants d) < 2 ^ 53 ->
  ant w = [] -> (forall t, count_all w = Some t -> length t = 11%nat) -> ant_stat_cb w = Some s ->
  AntSel.cur_stats s = [] -> AntSel.rssi_cb_l s <> [] -> AntSel.mavlink_err_rate conf = true ->
  exists w' s1 s2 sa r,
    read_lines (H := sel_sink uir) now (dump_stats d) w = (w', Ok tt) /\ ant_stat_cb w' = Some s1 /\
    AntSel.aggregate_stats conf scr rcr s1 = (s2, Ok tt) /\
    AntSel.stats_agg_by_freq_and_rxid [(rx_id w, ant_dict d)] = Ok sa /\
    AntSel.rssi_calls s2 = AntSel.rssi_calls s ++ map (fun cb => (cb, r)) (AntSel.rssi_cb_l s) /\
    (AntSel.r_flags r = AntSel.LINK_LOST <-> d_ants d = []) /\
    (forall a e, (a, e) ∈ sa -> AntSel.rssi_avg e <= AntSel.r_rssi r) /\
    let c i := nth i (d_counters d) 0 in
    AntSel.r_errors r = Z.min (c 2%nat + c 8%nat + c 7%nat) 65535 /\
    AntSel.r_fec r = Z.min (c 6%nat) 65535.
Proof.
  intros Hq Hda Hda0 Hd Hpos Hsum Ha Hl Hs Hcur Hcb Hrate.
  pose proof (read_dump (H := sel_sink uir) now d w s Hd Ha Hs) as Hr. cbv zeta in Hr.
  set (t := add_counters (d_counters d) (count_all w)) in *.
  destruct (add_counters_spec (d_counters d) (count_all w) (do_counters d Hd) Hl) as [Hlt _]. fold t in Hlt.
  set (ps := stats_of rx_keys (d_counters d) t) in *. change (@sink_rx _ (sel_sink uir)) with (AntSel.update_rx_stats uir) in Hr.
  destruct (quiet_update uir now (rx_id w) ps (ant_dict d) (session w) s Hq) as (s1 & Hu & Hc1 & Hcb1 & Hrc1 & _).
  rewrite Hu in Hr. specialize (Hr eq_refl).
  rewrite Hcur in Hc1. cbn [PyDict.set] in Hc1.
  pose proof (dump_sane d ps Hpos Hsum (rx_stats_complete _ _ (do_counters d Hd) Hlt)) as Hsane.
  destruct (AntSel.aggregate_spec conf scr rcr da s1 Hda Hda0) as (sa & r & s2 & Hsa & Hrep & Hagg & _ & Hrc & _).
  { by rewrite Hcb1. }
  { rewrite Hc1. cbn [map fst snd]. by rewrite dict_items. }
  rewrite Hc1 in Hsa, Hrep. cbn [map fst snd] in Hsa, Hrep. rewrite Hrc1, Hcb1 in Hrc.
  do 2 eexists. exists s2, sa, r. split; [exact Hr |]. split; [done |].
  assert (Hempty : sa = [] <-> d_ants d = []) by (by eapply dump_rows_nil).
  destruct Hrep as [He Hf Hlost Hup]. rewrite Hrate in He, Hf.
  pose proof (rx_stats_get (d_counters d) t) as Hg. specialize (fun i k => Hg i k (do_counters d Hd) Hlt).
  split_and!; try done.
  - split.
    + intros Hfl. destruct (decide (sa = [])) as [Hn | Hn]; [by apply Hempty |].
      destruct (Hup Hn) as (_ & _ & Hfl'). rewrite Hfl in Hfl'. by destruct (0 <? _).
    + intros Hn. apply Hempty in Hn. by apply Hlost.
  - intros a e Hin. destruct (decide (sa = [])) as [-> | Hn]; [set_solver |]. by eapply Hup.
  - cbv zeta. rewrite He, Hf. unfold AntSel.rx_errors_of, AntSel.counter_of, ps. cbn [AntSel.sumZ fold_right].
    rewrite (Hg 2%nat "dec_err" eq_refl), (Hg 8%nat "bad" eq_refl), (Hg 7%nat "lost" eq_refl),
      (Hg 6%nat "fec_rec" eq_refl). cbn [fst]. by rewrite !Z.add_0_r.
Qed.


(** ** TXAntennaProtocol *)

(** A Twisted [Deferred] as far as it is used here: [callback] raises when it
    has a result already, except once after [cancel]. *)
Inductive deferred (V : Type) :=
| DPending
| DFired (v : V)
| DFailed
| DCancelled (suppress : bool).
Arguments DPending {V}.
Arguments DFired {V} _.
Arguments DFailed {V}.
Arguments DCancelled {V} _.

Definition resolve {V} (r d : deferred V) : deferred V * result unit :=
  match d with
  | DPending => (r, Ok tt)
  | DCancelled true => (DCancelled false, Ok tt)
  | _ => (d, Raise AlreadyCalled)
  end.

Definition df_callback {V} (v : V) := resolve (DFired v).
Definition df_errback {V} : deferred V -> deferred V * result unit := resolve DFailed.

Definition df_cancel {V} (d : deferred V) : deferred V :=
  match d with DPending => DCancelled true | _ => d end.

(** The value given to [ports_df] is the dictionary object itself. *)
Inductive ports_ref := PortsObj | SocketsObj.

Section Tx.
Context {S : Type} `{StatSink S}.

Record tx_ant := TxAnt {
  tx_id : string;
  ports_df : option (deferred ports_ref);
  control_port_df : option (deferred Z);
  ports : PyDict.dict Z Z;
  sockets : PyDict.dict Z PyText.text;
  control_port : option Z;
  tx_latency : PyDict.dict Z (list Z);
  tx_count_all : option (list Z);
  tx_stat_cb : option S
}.

Definition set_ports_df x w := TxAnt (tx_id w) x (control_port_df w) (ports w) (sockets w) (control_port w)
  (tx_latency w) (tx_count_all w) (tx_stat_cb w).
Definition set_control_df x w := TxAnt (tx_id w) (ports_df w) x (ports w) (sockets w) (control_port w)
  (tx_latency w) (tx_count_all w) (tx_stat_cb w).
Definition set_ports x w := TxAnt (tx_id w) (ports_df w) (control_port_df w) x (sockets w) (control_port w)
  (tx_latency w) (tx_count_all w) (tx_stat_cb w).
Definition set_sockets x w := TxAnt (tx_id w) (ports_df w) (control_port_df w) (ports w) x (control_port w)
  (tx_latency w) (tx_count_all w) (tx_stat_cb w).
Definition set_control x w := TxAnt (tx_id w) (ports_df w) (control_port_df w) (ports w) (sockets w) (Some x)
  (tx_latency w) (tx_count_all w) (tx_stat_cb w).
Definition set_latency x w := TxAnt (tx_id w) (ports_df w) (control_port_df w) (ports w) (sockets w) (control_port w)
  x (tx_count_all w) (tx_stat_cb w).
Definition set_tx_count x w := TxAnt (tx_id w) (ports_df w) (control_port_df w) (ports w) (sockets w) (control_port w)
  (tx_latency w) (Some x) (tx_stat_cb w).
Definition set_tx_sink x w := TxAnt (tx_id w) (ports_df w) (control_port_df w) (ports w) (sockets w) (control_port w)
  (tx_latency w) (tx_count_all w) x.

Definition fire_ports (v : ports_ref) : SE tx_ant unit := fun w =>
  match ports_df w with
  | None => (w, Ok tt)
  | Some df => let '(df', r) := df_callback v df in (set_ports_df (Some df') w, r)
  end.

Definition fire_control (v : Z) : SE tx_ant unit := fun w =>
  match control_port_df w with
  | None => (w, Ok tt)
  | Some df => let '(df', r) := df_callback v df in (set_control_df (Some df') w, r)
  end.

Definition tx_report (now : nat -> Z) (counters : list Z) : SE tx_ant unit := fun w =>
  match tx_stat_cb w with
  | None => (w, Ok tt)
  | Some k =>
      let '(k', r) := sink_tx now (tx_id w)
        (stats_of tx_keys counters (default [] (tx_count_all w))) (tx_latency w) k in
      (set_tx_sink (Some k') w, r)
  end.

(** The chain of conditions of [lineReceived]. *)
Definition tx_dispatch (now : nat -> Z) (cols : list PyText.text) : SE tx_ant unit :=
  let cmd := default [] (cols !! 1%nat) in
  let col i := default [] (cols !! i) in
  w ← se_get;
  if bool_decide (cmd = PyText.lit "LISTEN_UDP") && (length cols =? 3)%nat then
    '(port, wlan_id) ← se_lift (PyText.split1 58 (col 2%nat));
    p ← se_lift (PyText.int_of 10 port);
    i ← se_lift (PyText.int_of 16 wlan_id);
    se_modify (fun w => set_ports (PyDict.set (ports w) i p) w)
  else if bool_decide (cmd = PyText.lit "LISTEN_UDP_END") && bool_decide (is_Some (ports_df w)) then
    fire_ports PortsObj
  else if bool_decide (cmd = PyText.lit "LISTEN_UNIX") && (length cols =? 3)%nat then
    '(unix_socket, wlan_id) ← se_lift (PyText.split1 58 (col 2%nat));
    i ← se_lift (PyText.int_of 16 wlan_id);
    se_modify (fun w => set_sockets (PyDict.set (sockets w) i unix_socket) w)
  else if bool_decide (cmd = PyText.lit "LISTEN_UNIX_END") && bool_decide (is_Some (ports_df w)) then
    fire_ports SocketsObj
  else if bool_decide (cmd = PyText.lit "LISTEN_UDP_CONTROL") && (length cols =? 3)%nat
          && bool_decide (is_Some (control_port_df w)) then
    p ← se_lift (PyText.int_of 10 (col 2%nat));
    _ ← se_modify (set_control p);
    fire_control p
  else if bool_decide (cmd = PyText.lit "TX_ANT") then
    if negb (length cols =? 4)%nat then se_raise BadTelemetry
    else
      v ← se_lift (ints (col 3%nat));
      i ← se_lift (PyText.int_of 16 (col 2%nat));
      se_modify (fun w => set_latency (PyDict.set (tx_latency w) i v) w)
  else if bool_decide (cmd = PyText.lit "PKT") then
    if negb (length cols =? 3)%nat then se_raise BadTelemetry
    else
      counters ← se_lift (ints (col 2%nat));
      if negb (length counters =? length tx_keys)%nat then se_raise AssertionError
      else
        _ ← se_modify (fun w => set_tx_count (add_counters counters (tx_count_all w)) w);
        _ ← tx_report now counters;
        se_modify (set_latency [])
  else mret tt.

Definition tx_lineReceived (now : nat -> Z) (data : bytes) : SE tx_ant unit :=
  t ← se_lift (PyText.utf8_decode data);
  let cols := PyText.split 9 (PyText.strip t) in
  if (length cols <? 2)%nat then mret tt else tx_dispatch now cols.

(** [TXProtocol]: the parser with the deferred of the process. *)
Record tx_process := TxProcess { port_parser : tx_ant; tx_done : deferred unit }.

Definition tx_processEnded (rc : Z) : SE tx_process unit := fun p =>
  let w := port_parser p in
  let w1 := set_ports_df (df_cancel <$> ports_df w) w in
  let w2 := set_control_df (df_cancel <$> control_port_df w1) w1 in
  let '(d, r) := (if rc =? 0 then df_callback tt (tx_done p) else df_errback (tx_done p)) in
  (TxProcess w2 d, r).
End Tx.
Arguments tx_ant : clear implicits.
Arguments tx_process : clear implicits.

(** [RXProtocol.processEnded]. *)
Definition rx_processEnded (rc : Z) (df : deferred unit) : deferred unit * result unit :=
  if rc =? 0 then df_callback tt df else df_errback df.

(** ** The printers of wfb_tx *)

Definition listen_udp (ts port wlan_id : Z) : bytes :=
  PyText.join 9 [PyText.print_u ts; PyText.lit "LISTEN_UDP"; PyText.print_d port ++ 58 :: PyText.print_x wlan_id].
Definition listen_udp_end (ts : Z) : bytes :=
  PyText.join 9 [PyText.print_u ts; PyText.lit "LISTEN_UDP_END"].

Section TxRead.
Context {S : Type} `{StatSink S}.
Context (now : nat -> Z).
Implicit Types w : tx_ant S.

Lemma tx_line_dispatch p ps q w : p <> [] -> q <> [] -> Forall (Forall PyText.plain) (p :: ps ++ [q]) ->
  tx_lineReceived now (PyText.join 9 (p :: ps ++ [q])) w = tx_dispatch now (p :: ps ++ [q]) w.
Proof using Type.
  intros Hp Hq Hf. destruct (PyText.printed_line p ps q Hp Hq Hf) as (H1 & H2 & H3).
  unfold tx_lineReceived, mbind, SE_bind, se_lift. rewrite H1, H2, H3.
  destruct (Nat.ltb_spec (length (p :: ps ++ [q])) 2) as [Hlt | _]; [| done].
  cbn in Hlt. rewrite length_app in Hlt. cbn in Hlt. lia.
Qed.

Lemma read_listen_udp ts port i w : 0 <= ts -> 0 <= i ->
  tx_lineReceived now (listen_udp ts port i) w = (set_ports (PyDict.set (ports w) i port) w, Ok tt).
Proof using Type.
  intros Ht Hi. unfold listen_udp.
  assert (Hne : PyText.print_d port ++ 58 :: PyText.print_x i <> []) by (by destruct (PyText.print_d port)).
  rewrite (tx_line_dispatch (PyText.print_u ts) [PyText.lit "LISTEN_UDP"] (PyText.print_d port ++ 58 :: PyText.print_x i));
    [| apply PyText.print_nat_ne; lia | done |].
  - unfold tx_dispatch, mbind, SE_bind, se_get, se_lift. cbn [app lookup list_lookup default length].
    unfold id. rewrite bool_decide_true by done. cbn [andb Nat.eqb].
    rewrite PyText.split1_app by (apply PyText.print_d_no; lia).
    rewrite PyText.int_of_print_d. unfold PyText.print_x. rewrite PyText.int_of_print by lia. done.
  - constructor; [apply PyText.print_nat_plain; lia |]. constructor; [by apply lit_plain |].
    constructor; [| by constructor]. apply Forall_app. split; [apply PyText.print_d_plain |]. constructor; [unfold PyText.plain; lia |].
    apply PyText.print_nat_plain; lia.
Qed.

Lemma read_listen_end ts w df : 0 <= ts -> ports_df w = Some df ->
  tx_lineReceived now (listen_udp_end ts) w
  = let '(df', r) := df_callback PortsObj df in (set_ports_df (Some df') w, r).
Proof using Type.
  intros Ht Hdf. unfold listen_udp_end.
  rewrite (tx_line_dispatch (PyText.print_u ts) [] (PyText.lit "LISTEN_UDP_END"));
    [| apply PyText.print_nat_ne; lia | done | columns].
  unfold tx_dispatch, mbind, SE_bind, se_get, se_lift. cbn [app lookup list_lookup default length].
  unfold id. rewrite bool_decide_false by done. rewrite bool_decide_true by done.
  rewrite bool_decide_true by (rewrite Hdf; by eexists). cbn [andb]. unfold fire_ports. by rewrite Hdf.
Qed.

Definition announce (ts : Z) (l : list (Z * Z)) : list bytes :=
  map (fun p => listen_udp ts p.2 p.1) l ++ [listen_udp_end ts].

Lemma read_listens ts l w : 0 <= ts -> Forall (fun p => 0 <= p.1) l ->
  se_iter (tx_lineReceived now) (map (fun p => listen_udp ts p.2 p.1) l) w
  = (set_ports (fold_left (fun d p => PyDict.set d p.1 p.2) l (ports w)) w, Ok tt).
Proof using Type.
  intros Ht Hl. revert w. induction Hl as [|p l Hp _ IH]; intros w; cbn [map se_iter]; [by destruct w |].
  unfold mbind, SE_bind. rewrite read_listen_udp by done. rewrite IH. done.
Qed.

Lemma tx_iter_app ls1 ls2 w : se_iter (tx_lineReceived now) (ls1 ++ ls2) w
  = match se_iter (tx_lineReceived now) ls1 w with
    | (w', Ok _) => se_iter (tx_lineReceived now) ls2 w' | (w', Raise e) => (w', Raise e) end.
Proof using Type.
  revert w. induction ls1 as [|l ls1 IH]; intros w; cbn [app se_iter]; [done |].
  unfold mbind, SE_bind. destruct (tx_lineReceived now l w) as [w' [[] | e]]; [apply IH | done].
Qed.

(** The port announcement of wfb_tx, read by a parser whose waiter is
    pending, resolves the waiter with the dictionary of exactly the announced
    ports, the last one for a card announced twice.  The end of the process
    leaves that result alone and leaves no waiter pending; a second
    announcement raises. *)
Theorem tx_ports_announced ts l w rc :
  0 <= ts -> Forall (fun p => 0 <= p.1) l -> ports w = [] -> ports_df w = Some DPending ->
  exists w', se_iter (tx_lineReceived now) (announce ts l) w = (w', Ok tt) /\
    ports_df w' = Some (DFired PortsObj) /\ ports w' = PyDict.of_pairs l /\
    (let p' := (tx_processEnded rc (TxProcess w' DPending)).1 in
     ports_df (port_parser p') = Some (DFired PortsObj) /\
     control_port_df (port_parser p') <> Some DPending /\
     tx_done p' = if rc =? 0 then DFired tt else DFailed) /\
    (se_iter (tx_lineReceived now) (announce ts l) w').2 = Raise AlreadyCalled.
Proof using Type.
  intros Ht Hl Hp Hdf. unfold announce. rewrite tx_iter_app, read_listens by done.
  set (w1 := set_ports _ w). cbn [se_iter]. unfold mbind at 1, SE_bind at 1.
  rewrite (read_listen_end ts w1 DPending) by done. cbn [df_callback resolve].
  eexists. split; [reflexivity |]. split; [done |]. split; [cbn; by rewrite Hp |]. split.
  - unfold tx_processEnded. cbn [port_parser tx_done].
    destruct (rc =? 0); cbn; split_and!; try done; by destruct (control_port_df w) as [[] |].
  - rewrite tx_iter_app, read_listens by done. cbn [se_iter]. unfold mbind, SE_bind.
    rewrite (read_listen_end ts _ (DFired PortsObj)) by done. done.
Qed.
End TxRead.


(** ** Concrete runs *)

Definition demo_quiet : nat -> AntSel.stat_msg -> option exn := fun _ _ => None.
Definition demo_now : nat -> Z := fun _ => 0.

Lemma demo_accepts id ps ant se k : (@sink_rx _ (sel_sink demo_quiet) demo_now id ps ant se k).2 = Ok tt.
Proof.
  change (@sink_rx _ (sel_sink demo_quiet)) with (AntSel.update_rx_stats demo_quiet).
  by destruct (quiet_update demo_quiet demo_now id ps ant se k) as (s' & -> & _).
Qed.

Lemma demo_accepts_session id se k : (@sink_session _ (sel_sink demo_quiet) demo_now id se k).2 = Ok tt.
Proof.
  change (@sink_session _ (sel_sink demo_quiet)) with (AntSel.process_new_session demo_quiet).
  unfold AntSel.process_new_session, mbind, SE_bind, se_get. by destruct (AntSel.logger k).
Qed.

Definition demo_dump1 : rx_dump :=
  RxDump 1000 [AntEntry 5805 1 20 0x100 (AntSel.Stat7 10 (-60) (-55) (-50) 10 20 30)]
    [10; 1000; 0; 1; 9; 9; 1; 2; 0; 8; 900].
Definition demo_dump2 : rx_dump :=
  RxDump 2000 [AntEntry 5805 1 20 0x0 (AntSel.Stat7 12 (-60) (-52) (-50) 10 20 30);
               AntEntry 5805 1 20 0x1ab (AntSel.Stat7 11 (-60) (-51) (-50) 10 20 30)]
    [23; 2000; 1; 1; 20; 19; 4; 5; 1; 18; 1900].

Lemma demo_dump1_ok : dump_ok demo_dump1.
Proof.
  constructor; [cbn; lia | repeat constructor; cbn; lia | | done].
  apply (bool_decide_unpack _). vm_compute. exact I.
Qed.

Lemma demo_dump2_ok : dump_ok demo_dump2.
Proof.
  constructor; [cbn; lia | repeat constructor; cbn; lia | | done].
  apply (bool_decide_unpack _). vm_compute. exact I.
Qed.

Example demo_lines : dump_stats demo_dump2 !! 1%nat =
  Some (PyText.join 9 [PyText.lit "2000"; PyText.lit "RX_ANT"; PyText.lit "5805:1:20"; PyText.lit "1ab";
                       PyText.lit "11:-60:-51:-50:10:20:30"]).
Proof. vm_compute. reflexivity. Qed.

Definition demo_sel : AntSel.sel := AntSel.Sel ∅ [] [9%nat] [] None [] None None [] [] [].

Lemma rx_telemetry_roundtrip_witness :
  exists w' k' ps,
    read_lines (H := sel_sink demo_quiet) demo_now (concat (map dump_stats [demo_dump1; demo_dump2]))
      (RxAnt "video rx" [] None None (Some demo_sel) []) = (w', Ok tt) /\
    ant_stat_cb w' = Some k' /\ @latest _ (sel_sink demo_quiet) k' "video rx" = Some (ant_dict demo_dump2, ps) /\
    PyDict.get ps "fec_rec" = Some (4, 5).
Proof.
  destruct (rx_telemetry_roundtrip (H := sel_sink demo_quiet) demo_now demo_accepts "video rx" demo_sel
              [demo_dump1] demo_dump2) as (w' & k' & ps & Hr & _ & _ & Hk & Hl & Hg).
  - apply Forall_cons. split; [exact demo_dump1_ok |]. apply Forall_singleton. exact demo_dump2_ok.
  - exists w', k', ps. split; [exact Hr |]. split; [exact Hk |]. split; [exact Hl |].
    apply (Hg 6%nat). reflexivity.
Defined.

Lemma rx_line_errors_witness :
  exists (w : rx_ant AntSel.sel) line,
    (rx_lineReceived (H := sel_sink demo_quiet) demo_now line w).2 = Raise ValueError /\
    (rx_lineReceived (H := sel_sink demo_quiet) demo_now line w).1 = w.
Proof.
  set (w := RxAnt "rx" [] None None (Some demo_sel) []).
  set (line := PyText.lit "1" ++ [9] ++ PyText.lit "PKT" ++ [9] ++ PyText.lit "1:x").
  exists w, line.
  assert (Hr : rx_lineReceived (H := sel_sink demo_quiet) demo_now line w = (w, Raise ValueError)) by reflexivity.
  destruct (rx_line_errors (H := sel_sink demo_quiet) demo_now demo_accepts demo_accepts_session line w w ValueError Hr)
    as [Hw _].
  rewrite Hr. split; [reflexivity | exact Hw].
Defined.

Lemma telemetry_to_report_witness :
  exists r : AntSel.rssi_report, AntSel.r_flags r <> AntSel.LINK_LOST /\ AntSel.r_errors r = 7 /\ AntSel.r_fec r = 4.
Proof.
  destruct (telemetry_to_report AntSel.demo_conf (fun _ _ => None) (fun _ _ => None) demo_quiet demo_now 3
              demo_dump2 demo_sel (RxAnt "rx" [] None None (Some demo_sel) []))
    as (w' & s1 & s2 & sa & r & _ & _ & _ & _ & _ & Hf & _ & He & Hc);
    try (reflexivity || exact demo_dump2_ok || lia || done || (repeat constructor; done)).
  exists r. split; [rewrite Hf; discriminate |]. split; [rewrite He | rewrite Hc]; reflexivity.
Defined.

Lemma tx_ports_announced_witness :
  exists w' : tx_ant AntSel.sel,
    se_iter (tx_lineReceived (H := sel_sink demo_quiet) demo_now) (announce 5 [(0, 4001); (0x1f, 4002)])
      (TxAnt "tx" (Some DPending) (Some DPending) [] [] None [] None None) = (w', Ok tt) /\
    ports w' = [(0, 4001); (31, 4002)] /\ ports_df w' = Some (DFired PortsObj).
Proof.
  destruct (tx_ports_announced (H := sel_sink demo_quiet) demo_now 5 [(0, 4001); (0x1f, 4002)]
              (TxAnt "tx" (Some DPending) (Some DPending) [] [] None [] None None) 0)
    as (w' & Hr & Hdf & Hp & _); [lia | repeat constructor; cbn; lia | reflexivity | reflexivity |].
  exists w'. split; [exact Hr |]. split; [rewrite Hp; reflexivity | exact Hdf].
Defined.

End Telemetry.
