(* ===== verification/TunDevice.v ===== *)
(** The device end of the IP tunnel: the whole [TUNTAPTransport] of
    wfb_ng/tuntap.py, from opening and configuring the interface over reading and
    writing packets to closing it, and the tunnel between two such devices.  What
    system calls return is a parameter, and so is the part of a connection's end
    that Twisted's base class does. *)
From Stdlib Require Import ZArith Lia Bool.
From stdpp Require Import base list numbers strings gmap.
From S2P Require Import Prelude PyStruct MavFrame PyText Proxy Tuntap.

Module TunDevice.
Import PyStruct MavFrame PyText Proxy Tuntap.

Definition TUN : Z := 1.
Definition TUNSETIFF : Z := 0x400454ca.
Definition IFF_NO_PI : Z := 0x1000.

(** Calls of the operating system and of the netlink socket [IPRoute]. *)
Inductive sysc :=
| SOpen (dev : bytes)
| SIoctl (fd request : Z) (arg : bytes)
| SIPRoute
| SLinkLookup (ifname : text)
| SLinkSet (index mtu : Z)
| SAddrAdd (index : Z) (address : text) (prefixlen : Z)
| SRouteAdd (oif metric : Z)
| SIPClose
| SRead (fd n : Z)
| SWrite (fd : Z) (packet : bytes)
| SClose (fd : Z).

#[export] Instance sysc_eq_dec : EqDecision sysc.
Proof. solve_decision. Defined.

(** [try: m except Exception: h; raise] and [try: m finally: f]. *)
Definition se_except {S A} (m : SE S A) (h : exn -> SE S A) : SE S A := fun s =>
  match m s with (s1, Raise e) => h e s1 | r => r end.

Definition se_finally {S A} (m : SE S A) (f : SE S unit) : SE S A := fun s =>
  let '(s1, r) := m s in
  let '(s2, r2) := f s1 in (s2, match r2 with Ok _ => r | Raise e => Raise e end).

(** [str.encode('ascii')]; [UnicodeEncodeError] is a [ValueError]. *)
Definition ascii_encode (s : text) : result bytes :=
  if forallb (fun c => c <? 128) s then Ok s else Raise ValueError.

Section Device.
Context {R T : Type} `{Timers R T}.
Context (peer_write : list bytes -> bytes -> option exn) (all_write : nat -> bytes -> option exn).

(** The transport object and its protocol [proto]; once connected, the queue and
    the flags [write] looks at are the [tr] of the protocol.  [producer] holds
    [streamingProducer] and [producerPaused]; [lost] counts the calls of
    [protocol.connectionLost]; [written] are the packets the device took. *)
Record dev := Dev {
  proto : tun (R := R) (T := T);
  fd : option Z;
  reading : bool;
  producer : option (bool * bool);
  disconnecting : bool;
  write_disconnecting : bool;
  lost : nat;
  calls : list sysc;
  written : list bytes
}.

(** Before the constructor ran. *)
Definition new_dev (p : tun) : dev := Dev (set_tr None p) None false None false false 0 [] [].

Definition set_proto (p : tun) (d : dev) : dev :=
  Dev p (fd d) (reading d) (producer d) (disconnecting d) (write_disconnecting d) (lost d) (calls d) (written d).
Definition set_fd (f : option Z) (d : dev) : dev :=
  Dev (proto d) f (reading d) (producer d) (disconnecting d) (write_disconnecting d) (lost d) (calls d) (written d).
Definition set_reading (b : bool) (d : dev) : dev :=
  Dev (proto d) (fd d) b (producer d) (disconnecting d) (write_disconnecting d) (lost d) (calls d) (written d).
Definition set_producer (p : option (bool * bool)) (d : dev) : dev :=
  Dev (proto d) (fd d) (reading d) p (disconnecting d) (write_disconnecting d) (lost d) (calls d) (written d).
Definition add_lost (d : dev) : dev :=
  Dev (proto d) (fd d) (reading d) (producer d) (disconnecting d) (write_disconnecting d) (S (lost d)) (calls d) (written d).
Definition add_call (c : sysc) (d : dev) : dev :=
  Dev (proto d) (fd d) (reading d) (producer d) (disconnecting d) (write_disconnecting d) (lost d) (calls d ++ [c]) (written d).
Definition add_written (p : bytes) (d : dev) : dev :=
  Dev (proto d) (fd d) (reading d) (producer d) (disconnecting d) (write_disconnecting d) (lost d) (calls d) (written d ++ [p]).

(** Change the transport part. *)
Definition on_tr (f : transport -> transport) (d : dev) : dev := set_proto (set_tr (f <$> tr (proto d)) (proto d)) d.

Definition set_queue_ (q : list bytes) (t : transport) : transport :=
  Transport q (mtu t) (connected t) (write_disconnected t) (writing t).
Definition set_writing (b : bool) (t : transport) : transport :=
  Transport (queue t) (mtu t) (connected t) (write_disconnected t) b.
Definition set_write_disconnected (t : transport) : transport :=
  Transport (queue t) (mtu t) (connected t) true (writing t).

(** A method of the protocol. *)
Definition with_proto {A} (f : SE tun A) : SE dev A := fun d =>
  let '(p, r) := f (proto d) in (set_proto p d, r).

(** What calls return or raise, given the calls before. *)
Context (sys : list sysc -> sysc -> result Z).
Context (lookup : list sysc -> text -> result (list Z)).
Context (os_read : list sysc -> Z -> Z -> result bytes).
(** [abstract.FileDescriptor.connectionLost]. *)
Context (base_lost : dev -> dev).

Definition call (c : sysc) : SE dev Z := fun d => (add_call c d, sys (calls d) c).
Definition call_ (c : sysc) : SE dev unit := _ ← call c; mret tt.

(** ** [__init__] *)

(** The body of [with closing(IPRoute()) as ip]. *)
Definition configure (name addr : text) (mtu : Z) (default_route : bool) : SE dev unit :=
  l ← (fun d => (add_call (SLinkLookup name) d, lookup (calls d) name));
  ifidx ← se_lift (py_index l 0);
  match split 47 addr with
  | [addr_; mask_] =>
      _ ← call (SLinkSet ifidx mtu);
      plen ← se_lift (int_of 10 mask_);
      _ ← call (SAddrAdd ifidx addr_ plen);
      if default_route then call_ (SRouteAdd ifidx 10) else mret tt
  | _ => se_raise ValueError
  end.

(** The body of the [try]. *)
Definition attach (f : Z) (name addr : text) (mtu mode : Z) (default_route : bool) : SE dev unit :=
  nm ← se_lift (ascii_encode name);
  ifr ← se_lift (pack Little [Cs 16; CUint 2] [PBytes nm; PInt (Z.lor mode IFF_NO_PI)]);
  _ ← call (SIoctl f TUNSETIFF ifr);
  _ ← call SIPRoute;
  se_finally (configure name addr mtu default_route) (call_ SIPClose).

Definition open (name addr : text) (dev_ : bytes) (mtu mode : Z) (default_route : bool) : SE dev unit :=
  f ← call (SOpen dev_);
  _ ← se_modify (set_fd (Some f));
  _ ← se_except (attach f name addr (mtu - 2) mode default_route) (fun e => _ ← call (SClose f); se_raise e);
  _ ← se_modify (fun d => set_proto (set_tr (Some (init_transport mtu)) (proto d)) d);
  se_modify (set_reading true).

(** ** Reading and writing *)

(** The descriptor as an argument of a system call; [None] is a [TypeError]. *)
Definition fileno : SE dev Z := fun d => (d, of_option TypeError (fd d)).

Definition doRead : SE dev unit :=
  f ← fileno;
  d ← se_get;
  n ← se_lift (of_option AttributeError (mtu <$> tr (proto d)));
  data ← (fun d => (add_call (SRead f n) d, os_read (calls d) f n));
  with_proto (dataReceived peer_write data).

(** The loop of [doWrite] over the queue; whether it was emptied. *)
Fixpoint write_loop (q : list bytes) : SE dev bool :=
  match q with
  | [] => mret true
  | packet :: q' =>
      f ← fileno;
      n ← call (SWrite f packet);
      if n <=? 0 then mret false
      else
        _ ← se_modify (fun d => add_written packet (on_tr (set_queue_ q') d));
        write_loop q'
  end.

(** What [doWrite] leads to. *)
Inductive after := Nothing | Resumed | PostLoseConnection | CloseWriteConnection.

(** After the queue was emptied and no producer was waiting. *)
Definition disconnect_after (d : dev) : SE dev after :=
  if disconnecting d then mret PostLoseConnection
  else if write_disconnecting d then _ ← se_modify (on_tr set_write_disconnected); mret CloseWriteConnection
  else mret Nothing.

Definition doWrite : SE dev after :=
  d ← se_get;
  t ← se_lift (of_option AttributeError (tr (proto d)));
  emptied ← write_loop (queue t);
  if negb emptied then mret Nothing
  else
    _ ← se_modify (on_tr (set_writing false));
    d ← se_get;
    match producer d with
    | Some (streaming, paused) =>
        if negb streaming || paused then
          _ ← se_modify (set_producer (Some (streaming, false)));
          mret Resumed
        else disconnect_after d
    | None => disconnect_after d
    end.

(** ** The end *)

Definition connectionLost : SE dev unit :=
  _ ← se_modify base_lost;
  d ← se_get;
  _ ← match fd d with
      | Some f => _ ← call (SClose f); se_modify (set_fd None)
      | None => mret tt
      end;
  se_modify add_lost.

Definition loseConnection : SE dev unit :=
  _ ← se_modify (set_reading false);
  connectionLost.

(** ** Opening *)

(** The calls that set up an interface. *)
Definition setup_calls (f idx : Z) (name addr_ : text) (plen mtu mode : Z) (default_route : bool) : list sysc :=
  [SIoctl f TUNSETIFF (pad_to 16 name ++ le_encode 2 (Z.lor mode IFF_NO_PI)); SIPRoute; SLinkLookup name;
   SLinkSet idx (mtu - 2); SAddrAdd idx addr_ plen] ++ (if default_route then [SRouteAdd idx 10] else []) ++ [SIPClose].

Definition no_close (l : list sysc) : Prop := Forall (fun c => forall f, c <> SClose f) l.

(** What the [try] body does: it adds calls that close nothing but the netlink
    socket, as soon as that was opened. *)
Lemma configure_calls name addr mtu dr d :
  exists cs, fst (configure name addr mtu dr d) = Dev (proto d) (fd d) (reading d) (producer d) (disconnecting d)
      (write_disconnecting d) (lost d) (calls d ++ cs) (written d) /\ no_close cs /\
    (snd (configure name addr mtu dr d) = Ok tt -> exists idx addr_ mask_ plen, split 47 addr = [addr_; mask_] /\
       int_of 10 mask_ = Ok plen /\
       cs = [SLinkLookup name; SLinkSet idx mtu; SAddrAdd idx addr_ plen] ++ (if dr then [SRouteAdd idx 10] else [])).
Proof using Type.
  unfold configure, call_, call. se. destruct (lookup (calls d) name) as [l|e].
  2: { exists [SLinkLookup name]. split; [done |]. split; [by repeat constructor | done]. }
  destruct (py_index l 0) as [idx|e].
  2: { exists [SLinkLookup name]. split; [done |]. split; [by repeat constructor | done]. }
  destruct (split 47 addr) as [|a [|m [|? ?]]] eqn:Es;
    try (exists [SLinkLookup name]; split; [done |]; split; [by repeat constructor | done]).
  destruct (sys _ (SLinkSet idx mtu)) as [?|e].
  2: { exists [SLinkLookup name; SLinkSet idx mtu]. unfold add_call; cbn; rewrite <- ?app_assoc. split; [done |]. split; [by repeat constructor | done]. }
  destruct (int_of 10 m) as [plen|e] eqn:Em.
  2: { exists [SLinkLookup name; SLinkSet idx mtu]. unfold add_call; cbn; rewrite <- ?app_assoc. split; [done |]. split; [by repeat constructor | done]. }
  destruct (sys _ (SAddrAdd idx a plen)) as [?|e].
  2: { exists [SLinkLookup name; SLinkSet idx mtu; SAddrAdd idx a plen]. unfold add_call; cbn; rewrite <- ?app_assoc.
       split; [done |]. split; [by repeat constructor | done]. }
  exists ([SLinkLookup name; SLinkSet idx mtu; SAddrAdd idx a plen] ++ (if dr then [SRouteAdd idx 10] else [])).
  destruct dr; [destruct (sys _ (SRouteAdd idx 10)) |]; unfold add_call; cbn; rewrite <- ?app_assoc; (split; [done |]); (split; [by repeat constructor |]);
    try done; intros _; by exists idx, a, m, plen.
Qed.

(** The netlink socket, when it could be opened, is closed by the last call. *)
Definition netlink_closed (before cs : list sysc) : Prop :=
  forall i, cs !! i = Some SIPRoute -> is_ok (sys (before ++ take i cs) SIPRoute) = true -> last cs = Some SIPClose.

Lemma attach_calls f name addr mtu mode dr d :
  exists cs, fst (attach f name addr (mtu - 2) mode dr d) = Dev (proto d) (fd d) (reading d) (producer d) (disconnecting d)
      (write_disconnecting d) (lost d) (calls d ++ cs) (written d) /\ no_close cs /\ netlink_closed (calls d) cs /\
    (snd (attach f name addr (mtu - 2) mode dr d) = Ok tt -> exists idx addr_ mask_ plen, split 47 addr = [addr_; mask_] /\
       int_of 10 mask_ = Ok plen /\ cs = setup_calls f idx name addr_ plen mtu mode dr).
Proof using Type.
  unfold attach, ascii_encode. destruct (forallb _ name).
  2: { exists []. se. cbn. rewrite app_nil_r. split; [by destruct d |]. split; [constructor |]. by split. }
  se.
  destruct (pack Little _ _) as [ifr|e] eqn:Ep.
  2: { exists []. se. cbn. rewrite app_nil_r. split; [by destruct d |]. split; [constructor |]. by split. }
  assert (Hifr : ifr = pad_to 16 name ++ le_encode 2 (Z.lor mode IFF_NO_PI)).
  { cbn [pack pack_code] in Ep. destruct (_ && _); [| done]. cbn in Ep. by injection Ep as <-. }
  clear Ep. unfold call_, call. se.
  destruct (sys (calls d) (SIoctl f TUNSETIFF ifr)).
  2: { exists [SIoctl f TUNSETIFF ifr]. split; [done |]. split; [by repeat constructor |]. split; [| done].
       intros [|[|]]; done. }
  destruct (sys _ SIPRoute) eqn:En.
  2: { exists [SIoctl f TUNSETIFF ifr; SIPRoute]. unfold add_call in *. cbn in *. rewrite <- app_assoc.
       split; [done |]. split; [by repeat constructor |]. split; [| done].
       intros [|[|[|]]]; try done. cbn. by rewrite En. }
  unfold se_finally. set (d2 := add_call SIPRoute _).
  destruct (configure_calls name addr (mtu - 2) dr d2) as (cs & Hd & Hn & Hok).
  destruct (configure name addr (mtu - 2) dr d2) as [d3 r]. cbn [fst snd] in *. subst d3.
  exists ([SIoctl f TUNSETIFF ifr; SIPRoute] ++ cs ++ [SIPClose]).
  assert (Hnc : no_close ([SIoctl f TUNSETIFF ifr; SIPRoute] ++ cs ++ [SIPClose])).
  { apply Forall_app. split; [by repeat constructor |]. apply Forall_app. split; [done | by repeat constructor]. }
  assert (Hnl : netlink_closed (calls d) ([SIoctl f TUNSETIFF ifr; SIPRoute] ++ cs ++ [SIPClose])).
  { intros _ _ _. by rewrite app_assoc, last_snoc. }
  assert (Hcalls : calls d2 = calls d ++ [SIoctl f TUNSETIFF ifr; SIPRoute]).
  { unfold d2, add_call. cbn. by rewrite <- app_assoc. }
  cbn [calls]. rewrite Hcalls. unfold add_call. cbn [proto fd reading producer disconnecting write_disconnecting lost calls written].
  rewrite <- !app_assoc. destruct (sys _ SIPClose); cbn [fst snd]; (split; [done |]); (split; [done |]); (split; [done |]); [| done].
  intros Hr. destruct (Hok Hr) as (idx & ad & m & plen & Hs & Hm & ->). exists idx, ad, m, plen. split; [done |]. split; [done |].
  subst ifr. unfold setup_calls. by rewrite <- !app_assoc.
Qed.

(** Opening the device.  Either the interface is attached, brought up with
    the tunnel's MTU less two bytes, given its address and, on request, the default
    route, by exactly these calls in this order, and the protocol is connected; or
    the exception leaves nothing behind: the protocol has no transport, the
    descriptor is closed, and so is the netlink socket. *)
Theorem open_releases name addr dv mtu mode dr p :
  let '(d, r) := open name addr dv mtu mode dr (new_dev p) in
  match r with
  | Ok _ => exists f idx addr_ mask_ plen, sys [] (SOpen dv) = Ok f /\ fd d = Some f /\ reading d = true /\
      tr (proto d) = Some (init_transport mtu) /\ split 47 addr = [addr_; mask_] /\ int_of 10 mask_ = Ok plen /\
      calls d = SOpen dv :: setup_calls f idx name addr_ plen mtu mode dr
  | Raise _ => tr (proto d) = None /\ reading d = false /\
      ((is_ok (sys [] (SOpen dv)) = false /\ calls d = [SOpen dv]) \/
       exists f cs, sys [] (SOpen dv) = Ok f /\ calls d = SOpen dv :: cs ++ [SClose f] /\ no_close cs /\
         netlink_closed [SOpen dv] cs)
  end.
Proof using Type.
  unfold open. unfold mbind at 1, SE_bind at 1, call at 1. cbn [calls new_dev].
  destruct (sys [] (SOpen dv)) as [f|e] eqn:Eo; [| cbn; split; [done |]; split; [done |]; left; done].
  unfold mbind, SE_bind, se_modify, se_except. cbn iota beta.
  set (d1 := set_fd (Some f) _).
  destruct (attach_calls f name addr mtu mode dr d1) as (cs & Hd & Hn & Hnl & Hok).
  destruct (attach f name addr (mtu - 2) mode dr d1) as [d2 r]. cbn [fst snd] in *. subst d2.
  destruct r as [[]|e].
  - destruct (Hok eq_refl) as (idx & a & m & plen & Hs & Hm & ->). exists f, idx, a, m, plen. done.
  - unfold call. cbn. destruct (sys _ (SClose f)); cbn; (split; [done |]); (split; [done |]); right; by exists f, cs.
Qed.

(** The state the constructor leaves. *)
Lemma open_state name addr dv mtu mode dr p d0 : open name addr dv mtu mode dr (new_dev p) = (d0, Ok tt) ->
  proto d0 = set_tr (Some (init_transport mtu)) p /\ (exists f, fd d0 = Some f) /\ written d0 = [] /\
  write_disconnecting d0 = false /\ lost d0 = O.
Proof using Type.
  unfold open, mbind, SE_bind, call, se_modify, se_except. cbn. destruct (sys [] (SOpen dv)) as [f|]; [| done].
  destruct (attach_calls f name addr mtu mode dr (set_fd (Some f) (add_call (SOpen dv) (new_dev p)))) as (cs & Ha & _).
  unfold add_call, new_dev, set_fd in *. cbn in *. destruct (attach _ _ _ _ _ _ _) as [d2 [[]|e]]; cbn in Ha; subst d2.
  - intros [= <-]. cbn. split; [done |]. split; [by exists f | done].
  - unfold call. cbn. by destruct (sys _ (SClose f)).
Qed.

Lemma set_proto_same (d : dev) : set_proto (proto d) d = d.
Proof using Type. by destruct d. Qed.

(** ** Histories of one device *)

(** What the base class does when the connection is lost: it is no longer
    connected, neither read nor written, and a producer is let go. *)
Definition base_lost_ok : Prop := forall d, exists pr,
  base_lost d = Dev (set_tr ((fun t => Transport (queue t) (mtu t) false (write_disconnected t) false) <$> tr (proto d)) (proto d))
    (fd d) false pr (disconnecting d) (write_disconnecting d) (lost d) (calls d) (written d).

Lemma set_tr_same (s : tun (R := R) (T := T)) t : tr s = Some t -> set_tr (Some t) s = s.
Proof using Type. intros Ht. destruct s. cbn in *. by subst. Qed.

Lemma write_loop_spec q d f t : fd d = Some f -> tr (proto d) = Some t -> queue t = q ->
  exists k cs, fst (write_loop q d) = Dev (set_tr (Some (set_queue_ (drop k q) t)) (proto d)) (fd d) (reading d) (producer d)
      (disconnecting d) (write_disconnecting d) (lost d) (calls d ++ cs) (written d ++ take k q) /\
    no_close cs /\ (snd (write_loop q d) = Ok true -> drop k q = []).
Proof using Type.
  revert d t. induction q as [|p q IH]; intros d t Hf Ht Hq.
  - exists 0%nat, []. cbn. rewrite !app_nil_r. split; [| split; [constructor | done]].
    destruct d. cbn in *. rewrite set_tr_same; [done |]. destruct t; cbn in *; by subst.
  - cbn [write_loop]. unfold fileno, call. se. rewrite Hf. cbn [of_option].
    assert (H0 : forall cs, Dev (set_tr (Some (set_queue_ (drop 0 (p :: q)) t)) (proto d)) (Some f) (reading d) (producer d)
      (disconnecting d) (write_disconnecting d) (lost d) (calls d ++ cs) (written d ++ take 0 (p :: q)) =
      Dev (proto d) (Some f) (reading d) (producer d) (disconnecting d) (write_disconnecting d) (lost d) (calls d ++ cs) (written d)).
    { intros cs. cbn. rewrite app_nil_r. f_equal. apply set_tr_same. rewrite Ht. destruct t; cbn in *; by subst. }
    destruct (sys (calls d) (SWrite f p)) as [n|e].
    2: { exists 0%nat, [SWrite f p]. rewrite H0. cbn [fst snd]. unfold add_call. rewrite Hf. split; [done |].
         split; [by repeat constructor | done]. }
    destruct (n <=? 0).
    { exists 0%nat, [SWrite f p]. rewrite H0. cbn [fst snd]. unfold add_call. rewrite Hf. split; [done |].
      split; [by repeat constructor | done]. }
    set (d1 := add_written _ _).
    destruct (IH d1 (set_queue_ q t)) as (k & cs & Hd & Hn & He); [done | cbn; by rewrite Ht | done |].
    exists (S k), (SWrite f p :: cs). rewrite Hd. cbn [take drop]. split; [| split; [by constructor | done]].
    unfold d1. cbn. rewrite Hf, Ht, <- !app_assoc. done.
Qed.

(** [doWrite] takes packets off the front of the queue, in order, and hands each
    to the device once; it stays registered for writing unless the queue is empty. *)
Lemma doWrite_spec d f t : fd d = Some f -> tr (proto d) = Some t ->
  exists k cs wr wd pr, fst (doWrite d) =
      Dev (set_tr (Some (Transport (drop k (queue t)) (mtu t) (connected t) wd wr)) (proto d)) (fd d) (reading d) pr
        (disconnecting d) (write_disconnecting d) (lost d) (calls d ++ cs) (written d ++ take k (queue t)) /\
    no_close cs /\ (drop k (queue t) <> [] -> wr = writing t) /\ (write_disconnecting d = false -> wd = write_disconnected t).
Proof using Type.
  intros Hf Ht. destruct (write_loop_spec (queue t) d f t Hf Ht eq_refl) as (k & cs & Hd & Hn & He).
  unfold doWrite. unfold mbind, SE_bind, se_get, se_lift. rewrite Ht. cbn [of_option].
  destruct (write_loop (queue t) d) as [d1 r]. cbn [fst snd] in *. subst d1.
  destruct r as [[|]|e]; cbn [negb].
  2,3: exists k, cs, (writing t), (write_disconnected t), (producer d); done.
  specialize (He eq_refl). unfold se_modify. cbn [producer on_tr set_proto].
  assert (Hda : forall pr, exists wd, fst (disconnect_after
     (Dev (set_tr (Some (Transport (drop k (queue t)) (mtu t) (connected t) (write_disconnected t) false)) (proto d)) (fd d) (reading d) pr
        (disconnecting d) (write_disconnecting d) (lost d) (calls d ++ cs) (written d ++ take k (queue t)))
     (Dev (set_tr (Some (Transport (drop k (queue t)) (mtu t) (connected t) (write_disconnected t) false)) (proto d)) (fd d) (reading d) pr
        (disconnecting d) (write_disconnecting d) (lost d) (calls d ++ cs) (written d ++ take k (queue t)))) =
     Dev (set_tr (Some (Transport (drop k (queue t)) (mtu t) (connected t) wd false)) (proto d)) (fd d) (reading d) pr
        (disconnecting d) (write_disconnecting d) (lost d) (calls d ++ cs) (written d ++ take k (queue t)) /\
     (write_disconnecting d = false -> wd = write_disconnected t)).
  { intros pr. unfold disconnect_after. cbn [disconnecting write_disconnecting].
    destruct (disconnecting d); [by exists (write_disconnected t) |].
    destruct (write_disconnecting d); [by exists true | by exists (write_disconnected t)]. }
  destruct (producer d) as [[st pa]|] eqn:Epr; [destruct (negb st || pa) |].
  - exists k, cs, false, (write_disconnected t), (Some (st, false)). split; [done |]. by rewrite He.
  - destruct (Hda (Some (st, pa))) as (wd & Hd1 & Hwd). exists k, cs, false, wd, (Some (st, pa)). rewrite He in *. done.
  - destruct (Hda None) as (wd & Hd1 & Hwd). exists k, cs, false, wd, None. rewrite He in *. done.
Qed.

(** Methods of the protocol that leave the transport alone. *)
Definition keeps_tr {A} (m : SE (tun (R := R) (T := T)) A) : Prop := forall s, tr (fst (m s)) = tr s.

Lemma keeps_bind {A B} (m : SE tun A) (k : A -> SE tun B) : keeps_tr m -> (forall a, keeps_tr (k a)) -> keeps_tr (a ← m; k a).
Proof using Type.
  intros Hm Hk s. unfold mbind, SE_bind. specialize (Hm s). destruct (m s) as [s1 [a|e]]; [| done]. by rewrite (Hk a s1).
Qed.

Lemma keeps_modify (g : tun -> tun) : (forall s, tr (g s) = tr s) -> keeps_tr (se_modify g).
Proof using Type. intros Hg s. apply Hg. Qed.

Lemma keeps_base {A} (f : SE (proxy R T) A) : keeps_tr (with_base f).
Proof using Type. intros s. unfold with_base. by destruct (f (base s)). Qed.

Lemma keeps_data data : keeps_tr (dataReceived peer_write data).
Proof using Type.
  apply keeps_bind; [by apply keeps_modify |]. intros _. apply keeps_bind; [done |]. intros m. apply keeps_base.
Qed.

Lemma keeps_all data : keeps_tr (send_to_all_peers all_write data).
Proof using Type.
  intros s. unfold send_to_all_peers. generalize (all_peers s) at 1. intros l. revert s.
  induction l as [|i l IH]; intros s; [done |]. cbn [se_iter]. se. destruct (all_write i data); [done |].
  etrans; [apply IH | done].
Qed.

Lemma keeps_tick : keeps_tr (send_keepalive peer_write all_write).
Proof using Type.
  intros s. unfold send_keepalive. unfold mbind at 1, SE_bind at 1, se_get.
  apply keeps_bind; [| intros _; by apply keeps_modify].
  destruct (pkt_in_sem s =? 0); [apply keeps_all |]. destruct (pkt_out_sem s =? 0); [apply keeps_base | done].
Qed.

(** What arrives from the radio only adds packets, and none when not connected. *)
Lemma write_tr msg (s : tun (R := R) (T := T)) t : tr s = Some t -> exists pkts,
  tr (fst (write msg s)) = Some (fold_left (fun t d => transport_write d t) pkts t).
Proof using Type.
  intros Ht. unfold write. se. cbn [tr set_sems]. rewrite Ht. destruct msg as [|x msg]; [by exists [] |].
  destruct (unpack_batch _ _ _) as [pkts|e]; [by exists pkts | exists []; cbn; by rewrite Ht].
Qed.

Lemma disconnected_writes pkts t : connected t = false -> fold_left (fun t d => transport_write d t) pkts t = t.
Proof using Type. intros Hc. induction pkts as [|d pkts IH]; [done |]. cbn. unfold transport_write at 2. by rewrite Hc. Qed.

Inductive dev_run (d0 : dev) : dev -> Prop :=
| run_start : dev_run d0 d0
| run_read d : dev_run d0 d -> reading d = true -> dev_run d0 (fst (doRead d))
| run_write d t : dev_run d0 d -> tr (proto d) = Some t -> writing t = true -> dev_run d0 (fst (doWrite d))
| run_radio d msg : dev_run d0 d -> dev_run d0 (fst (with_proto (write msg) d))
| run_timer d t : dev_run d0 d -> dev_run d0 (fst (with_proto (with_base (timer_fires peer_write t)) d))
| run_tick d : dev_run d0 d -> dev_run d0 (fst (with_proto (send_keepalive peer_write all_write) d))
| run_lost d : dev_run d0 d -> dev_run d0 (fst (connectionLost d))
| run_lose d : dev_run d0 d -> dev_run d0 (fst (loseConnection d)).

(** A device on descriptor [f]: open and never closed, or closed by its last
    call, disconnected and registered for nothing. *)
Definition descriptor_ok (f : Z) (d : dev) : Prop := exists t, tr (proto d) = Some t /\
  match fd d with
  | Some f' => f' = f /\ lost d = O /\ no_close (calls d)
  | None => lost d <> O /\ connected t = false /\ writing t = false /\ reading d = false /\
      exists pre, no_close pre /\ calls d = pre ++ [SClose f]
  end.

Lemma with_proto_dev {A} (m : SE tun A) d : fst (with_proto m d) = set_proto (fst (m (proto d))) d.
Proof using Type. unfold with_proto. by destruct (m (proto d)). Qed.

Lemma keeps_ok f (m : SE tun unit) d : keeps_tr m -> descriptor_ok f d -> descriptor_ok f (fst (with_proto m d)).
Proof using Type. intros Hm Hd. rewrite with_proto_dev. unfold descriptor_ok. cbn. by rewrite Hm. Qed.

Lemma no_close_snoc l c : no_close l -> (forall f, c <> SClose f) -> no_close (l ++ [c]).
Proof using Type. intros. apply Forall_app. split; [done |]. by constructor. Qed.

Lemma lost_descriptor f d b : base_lost_ok -> (forall h g, is_ok (sys h (SClose g)) = true) ->
  descriptor_ok f d -> descriptor_ok f (fst (connectionLost (set_reading b d))).
Proof using Type.
  intros Hbl Hcl (t & Ht & Hd). unfold connectionLost. se. destruct (Hbl (set_reading b d)) as (pr & ->). cbn [fd set_reading].
  destruct (fd d) as [f'|].
  - destruct Hd as (-> & Hl & Hn). unfold call.
    match goal with |- context [sys ?h (SClose f)] => pose proof (Hcl h f); destruct (sys h (SClose f)) end; [| done].
    eexists. cbn. rewrite Ht. split; [done |]. split; [done |]. split; [done |]. split; [done |]. split; [done |]. by exists (calls d).
  - destruct Hd as (Hl & Hc & Hw & Hr & Hpre). eexists. cbn. rewrite Ht. split; [done |]. done.
Qed.

Lemma dev_run_ok f d0 d : base_lost_ok -> (forall h g, is_ok (sys h (SClose g)) = true) ->
  descriptor_ok f d0 -> dev_run d0 d -> descriptor_ok f d.
Proof using Type.
  intros Hbl Hcl H0. induction 1 as [|d _ IH Hr|d t _ IH Ht Hw|d msg _ IH|d t _ IH|d _ IH|d _ IH|d _ IH]; try done.
  - destruct IH as (t & Ht & IH). destruct (fd d) as [f'|] eqn:Ef; [| destruct IH as (_ & _ & _ & IH & _); congruence].
    destruct IH as (-> & Hl & Hn). unfold doRead, fileno. se. rewrite Ef, Ht. cbn [of_option fmap option_fmap option_map].
    set (d1 := add_call _ d).
    assert (H1 : descriptor_ok f d1). { exists t. cbn. rewrite Ef. split; [done |]. split; [done |]. split; [done |]. by apply no_close_snoc. }
    destruct (os_read _ _ _); [| done]. apply keeps_ok; [apply keeps_data | done].
  - destruct IH as (t' & Ht' & IH). assert (t' = t) as -> by congruence. destruct (fd d) as [f'|] eqn:Ef.
    2: { destruct IH as (_ & _ & Hw' & _). congruence. }
    destruct IH as (-> & Hl & Hn). destruct (doWrite_spec d f t Ef Ht) as (k & cs & wr & wd & pr & -> & Hnc & _ & _).
    eexists. cbn. rewrite Ef. split; [done |]. split; [done |]. split; [done |]. by apply Forall_app.
  - destruct IH as (t & Ht & IH). destruct (write_tr msg (proto d) t Ht) as (pkts & Hp). rewrite with_proto_dev.
    eexists. cbn. split; [exact Hp |]. destruct (fd d); [done |]. destruct IH as (Hl & Hc & Hw & Hr & IH).
    by rewrite disconnected_writes.
  - apply keeps_ok; [apply keeps_base | done].
  - apply keeps_ok; [apply keeps_tick | done].
  - replace d with (set_reading (reading d) d) by (by destruct d). by apply lost_descriptor.
  - unfold loseConnection. se. by apply lost_descriptor.
Qed.

(** The descriptor's life.  In every history of a device that was opened (packets
    read and written, arrivals from the radio, timers, the connection lost by an
    error, given up by the service, or both, any number of times) the descriptor
    is closed exactly once, by the first loss, and no system call is made after
    that; until then it is the one that was opened. *)
Theorem descriptor_closed_once name addr dv mtu mode dr p d0 d :
  base_lost_ok -> (forall h g, is_ok (sys h (SClose g)) = true) ->
  open name addr dv mtu mode dr (new_dev p) = (d0, Ok tt) -> dev_run d0 d ->
  exists f pre, sys [] (SOpen dv) = Ok f /\ no_close pre /\
    match lost d with
    | O => fd d = Some f /\ calls d = pre
    | _ => fd d = None /\ calls d = pre ++ [SClose f]
    end.
Proof using Type.
  intros Hbl Hcl Ho Hr. pose proof (open_releases name addr dv mtu mode dr p) as Hs. rewrite Ho in Hs.
  destruct Hs as (f & idx & a & m & plen & Hf & Hfd & _ & Ht & _ & _ & Hc). exists f.
  destruct (open_state _ _ _ _ _ _ _ _ Ho) as (_ & _ & _ & _ & Hl).
  assert (H0 : descriptor_ok f d0).
  { eexists. rewrite Hfd. split; [exact Ht |]. split; [done |]. split; [done |]. rewrite Hc. unfold setup_calls.
    constructor; [done |]. apply Forall_app. split; [by repeat constructor |]. apply Forall_app. split; [destruct dr |]; by repeat constructor. }
  destruct (dev_run_ok f d0 d Hbl Hcl H0 Hr) as (t & _ & Hd). destruct (fd d) as [f'|].
  - destruct Hd as (-> & -> & Hn). by exists (calls d).
  - destruct Hd as (Hl' & _ & _ & _ & pre & Hn & Hcs). exists pre. split; [done |]. split; [done |]. by destruct (lost d).
Qed.

End Device.

(** ** Two devices *)

Section Link.
Context {R T : Type} `{Timers R T}.
(** The end [a] that reads packets and the end [b] that writes them. *)
Context (pw_a pw_b : list bytes -> bytes -> option exn) (aw_a aw_b : nat -> bytes -> option exn).
Context (sys_a sys_b : list sysc -> sysc -> result Z) (lookup_a lookup_b : list sysc -> text -> result (list Z)).
Context (read_a read_b : list sysc -> Z -> Z -> result bytes).
Context (lost_a lost_b : dev (R := R) (T := T) -> dev (R := R) (T := T)).

(** Everything that can happen, after [a] has read [pkts] and the first [n] of the
    datagrams it sent have arrived at [b]. *)
Inductive link_run (a0 b0 : dev) : list bytes -> dev -> dev -> nat -> Prop :=
| link_start : link_run a0 b0 [] a0 b0 0
| link_read pkts a b n f t d :
    link_run a0 b0 pkts a b n -> reading a = true -> fd a = Some f -> tr (proto a) = Some t ->
    read_a (calls a) f (mtu t) = Ok d -> link_run a0 b0 (pkts ++ [d]) (fst (doRead pw_a read_a a)) b n
| link_timer pkts a b n t :
    link_run a0 b0 pkts a b n -> agg_queue_timer (base (proto a)) = Some t -> status (reactor (base (proto a))) t = Waiting ->
    link_run a0 b0 pkts (fst (with_proto (with_base (timer_fires pw_a t)) a)) b n
| link_tick pkts a b n :
    link_run a0 b0 pkts a b n -> link_run a0 b0 pkts (fst (with_proto (send_keepalive pw_a aw_a) a)) b n
| link_arrival pkts a b n m :
    link_run a0 b0 pkts a b n -> peer_out (base (proto a)) !! n = Some m ->
    link_run a0 b0 pkts a (fst (with_proto (write m) b)) (S n)
| link_write pkts a b n t :
    link_run a0 b0 pkts a b n -> tr (proto b) = Some t -> writing t = true ->
    link_run a0 b0 pkts a (fst (doWrite sys_b b)) n
| link_back_read pkts a b n :
    link_run a0 b0 pkts a b n -> reading b = true -> link_run a0 b0 pkts a (fst (doRead pw_b read_b b)) n
| link_back_timer pkts a b n t :
    link_run a0 b0 pkts a b n -> link_run a0 b0 pkts a (fst (with_proto (with_base (timer_fires pw_b t)) b)) n
| link_back_tick pkts a b n :
    link_run a0 b0 pkts a b n -> link_run a0 b0 pkts a (fst (with_proto (send_keepalive pw_b aw_b) b)) n
| link_lost_a pkts a b n :
    link_run a0 b0 pkts a b n -> link_run a0 b0 pkts (fst (connectionLost sys_a lost_a a)) b n
| link_lost_b pkts a b n :
    link_run a0 b0 pkts a b n -> link_run a0 b0 pkts a (fst (connectionLost sys_b lost_b b)) n
| link_lose_a pkts a b n :
    link_run a0 b0 pkts a b n -> link_run a0 b0 pkts (fst (loseConnection sys_a lost_a a)) b n
| link_lose_b pkts a b n :
    link_run a0 b0 pkts a b n -> link_run a0 b0 pkts a (fst (loseConnection sys_b lost_b b)) n.

Context (mtu_ : Z).
Context (Hpw : forall h d, pw_a h d = None) (Haw : forall i d, aw_a i d = None) (Hmtu : 2 <= mtu_ <= 65537).
Context (Hread : forall h f n d, read_a h f n = Ok d -> 0 < blen d <= n).
Context (Hla : base_lost_ok lost_a) (Hlb : base_lost_ok lost_b).

Definition sizes_ok : list bytes -> Prop := Forall (fun d => 0 < blen d <= mtu_ - 2).

(** The sending end: where the packets read are. *)
Definition sending_ok (pkts : list bytes) (a : dev (R := R) (T := T)) (gs : list (list bytes)) (q : list bytes) : Prop :=
  tun_ok mtu_ (proto a) gs q /\ concat gs ++ q = pkts /\ sizes_ok pkts /\ exists t, tr (proto a) = Some t /\ mtu t = mtu_ - 2.

(** The receiving end, which has got the packets [got]. *)
Definition receiving_ok (got : list bytes) (b : dev (R := R) (T := T)) : Prop :=
  exists t, tr (proto b) = Some t /\ write_disconnecting b = false /\ write_disconnected t = false /\
    if connected t then (exists f, fd b = Some f) /\ written b ++ queue t = got /\ (queue t <> [] -> writing t = true)
    else writing t = false /\ written b `prefix_of` got.

Lemma writes_registered pkts t : (queue t <> [] -> writing t = true) ->
  let t' := fold_left (fun t d => transport_write d t) pkts t in queue t' <> [] -> writing t' = true.
Proof using Type.
  revert t. induction pkts as [|d pkts IH]; intros t Ht; [done |]. cbn [fold_left]. apply IH.
  unfold transport_write. destruct (_ || _); [done |]. by destruct d.
Qed.

Lemma sender_proto pkts a p gs q : tun_ok mtu_ p gs q -> tr p = tr (proto a) -> concat gs ++ q = pkts -> sizes_ok pkts ->
  (exists t, tr (proto a) = Some t /\ mtu t = mtu_ - 2) -> sending_ok pkts (set_proto p a) gs q.
Proof using Type. intros Hok Ht Hp Hs Hm. split; [done |]. split; [done |]. split; [done |]. cbn. by rewrite Ht. Qed.

Lemma lost_sender pkts a gs q : sending_ok pkts a gs q -> sending_ok pkts (fst (connectionLost sys_a lost_a a)) gs q.
Proof using Hla.
  intros (Hok & Hp & Hs & t & Ht & Hm). unfold connectionLost. se. destruct (Hla a) as (pr & ->).
  assert (Hx : forall d, proto d = set_tr (Some (Transport (queue t) (mtu t) false (write_disconnected t) false)) (proto a) ->
    sending_ok pkts d gs q).
  { intros d Hd. split; [by rewrite Hd |]. split; [done |]. split; [done |]. rewrite Hd. by eexists. }
  cbn [fd]. unfold call. rewrite Ht. destruct (fd a); [destruct (sys_a _ _) |]; by apply Hx.
Qed.

Lemma lost_receiver got b : receiving_ok got b -> receiving_ok got (fst (connectionLost sys_b lost_b b)).
Proof using Hlb.
  intros (t & Ht & Hwd & Hd & Hc). unfold connectionLost. se. destruct (Hlb b) as (pr & ->).
  assert (Hpre : written b `prefix_of` got).
  { destruct (connected t); [| by destruct Hc]. destruct Hc as (_ & <- & _). by apply prefix_app_r. }
  assert (Hx : forall d, proto d = set_tr (Some (Transport (queue t) (mtu t) false (write_disconnected t) false)) (proto b) ->
    write_disconnecting d = false -> written d = written b -> receiving_ok got d).
  { intros d Hp H1 H2. eexists. rewrite Hp. split; [done |]. split; [done |]. split; [done |]. cbn. by rewrite H2. }
  cbn [fd]. unfold call. rewrite Ht. destruct (fd b); [destruct (sys_b _ _) |]; by apply Hx.
Qed.

Lemma keeps_receiver {A} got b (m : SE tun A) : keeps_tr m -> receiving_ok got b -> receiving_ok got (fst (with_proto m b)).
Proof using Type. intros Hm Hb. rewrite with_proto_dev. unfold receiving_ok. cbn. by rewrite Hm. Qed.

(** A batch arrives. *)
Lemma arrival_receiver got g b : sizes_ok g -> receiving_ok got b -> receiving_ok (got ++ g) (fst (with_proto (write (batch g)) b)).
Proof using Hmtu.
  intros Hg (t & Ht & Hwd & Hd & Hc). rewrite with_proto_dev.
  destruct (write_tr (batch g) (proto b) t Ht) as (pkts & Hw). destruct (connected t) eqn:Ec.
  - destruct Hc as (Hf & Hq & Hwr).
    destruct (write_framed g (proto b) t) as (s' & t' & Hs & Ht' & Hq' & Hc' & Hd'); try done.
    { eapply Forall_impl; [exact Hg |]. unfold packet_ok. cbn. intros. lia. }
    { eapply Forall_impl; [exact Hg |]. cbn. intros d Hd' ->. change (0 < 0 <= mtu_ - 2) in Hd'. lia. }
    unfold batch in *. rewrite Hs in *. cbn [fst] in *. exists t'. cbn. split; [done |]. split; [done |]. split; [done |].
    rewrite Hc'. split; [done |]. split; [by rewrite Hq', app_assoc, Hq |].
    assert (t' = fold_left (fun t d => transport_write d t) pkts t) as -> by congruence. by apply writes_registered.
  - rewrite disconnected_writes in Hw by done. exists t. cbn. rewrite Hw, Ec. split; [done |]. split; [done |]. split; [done |].
    destruct Hc as [Hc1 Hc2]. split; [done |]. by apply prefix_app_r.
Qed.

Lemma write_receiver got b t : receiving_ok got b -> tr (proto b) = Some t -> writing t = true ->
  receiving_ok got (fst (doWrite sys_b b)).
Proof using Type.
  intros (t' & Ht' & Hwd & Hd & Hc) Ht Hw. assert (t' = t) as -> by congruence.
  destruct (connected t) eqn:Ec; [| by destruct Hc; congruence]. destruct Hc as ((f & Hf) & Hq & Hwr).
  destruct (doWrite_spec sys_b b f t Hf Ht) as (k & cs & wr & wd & pr & -> & _ & Hwr' & Hwd').
  eexists. cbn. split; [done |]. split; [done |]. split; [cbn; by rewrite Hwd' |]. cbn. rewrite Ec. split; [by exists f |].
  split; [by rewrite <- app_assoc, take_drop |]. intros Hne. by rewrite Hwr'.
Qed.

Lemma read_receiver got b : receiving_ok got b -> receiving_ok got (fst (doRead pw_b read_b b)).
Proof using Type.
  intros Hb. unfold doRead, fileno. se. destruct (fd b); [| done]. cbn [of_option]. destruct (tr (proto b)) as [t|] eqn:Et; [| done].
  cbn [fmap option_fmap option_map of_option]. destruct (read_b _ _ _); [| done]. apply keeps_receiver; [apply keeps_data | done].
Qed.

Lemma link_run_ok a0 b0 pkts a b n : sending_ok [] a0 [] [] -> receiving_ok [] b0 -> link_run a0 b0 pkts a b n ->
  exists gs q, sending_ok pkts a gs q /\ (n <= length gs)%nat /\ receiving_ok (concat (take n gs)) b.
Proof using Hpw Haw Hmtu Hread Hla Hlb.
  intros Ha0 Hb0.
  induction 1 as [|pkts a b n f t d _ (gs & q & Ha & Hn & Hb) Hr Hf Ht Hd|pkts a b n t _ (gs & q & Ha & Hn & Hb) Et Hst
                  |pkts a b n _ (gs & q & Ha & Hn & Hb)|pkts a b n m _ (gs & q & Ha & Hn & Hb) Hm
                  |pkts a b n t _ (gs & q & Ha & Hn & Hb) Ht Hw|pkts a b n _ (gs & q & Ha & Hn & Hb) Hr
                  |pkts a b n t _ (gs & q & Ha & Hn & Hb)|pkts a b n _ (gs & q & Ha & Hn & Hb)
                  |pkts a b n _ (gs & q & Ha & Hn & Hb)|pkts a b n _ (gs & q & Ha & Hn & Hb)
                  |pkts a b n _ (gs & q & Ha & Hn & Hb)|pkts a b n _ (gs & q & Ha & Hn & Hb)].
  - by exists [], [].
  - destruct Ha as (Hok & Hp & Hs & t' & Ht' & Hm). assert (t' = t) as -> by congruence. apply Hread in Hd as Hsz. rewrite Hm in Hsz.
    unfold doRead, fileno. se. rewrite Hf, Ht. cbn [of_option fmap option_fmap option_map]. rewrite Hd.
    destruct (data_step pw_a mtu_ Hpw Hmtu d (proto a) gs q Hok) as (s' & gs' & q' & Hda & Hok' & Hcat & Htr); [lia |].
    unfold with_proto. cbn [proto add_call]. rewrite Hda. cbn [fst]. exists (gs ++ gs'), q'.
    split; [| rewrite length_app, take_app_le by done; split; [lia | done]].
    apply sender_proto; [done | done | | | by exists t].
    + by rewrite concat_app, <- app_assoc, Hcat, app_assoc, Hp.
    + apply Forall_app. split; [done | by constructor].
  - destruct Ha as (Hok & Hp & Hs & Hm). destruct (timer_step pw_a mtu_ Hpw Hmtu t (proto a) gs q Hok Et) as (s' & Hda & Hok' & Htr).
    unfold with_proto. rewrite Hda. cbn [fst]. exists (gs ++ [q]), [].
    split; [| rewrite length_app, take_app_le by done; split; [lia | done]].
    apply sender_proto; try done. by rewrite concat_app, <- Hp; cbn; rewrite !app_nil_r.
  - destruct Ha as (Hok & Hp & Hs & Hm). destruct (tick_step pw_a aw_a mtu_ Hpw Haw (proto a) gs q Hok) as (s' & gs' & Hda & Hok' & Hcat & Htr).
    unfold with_proto. rewrite Hda. cbn [fst]. exists (gs ++ gs'), q.
    split; [| rewrite length_app, take_app_le by done; split; [lia | done]].
    apply sender_proto; try done. by rewrite concat_app, Hcat, app_nil_r.
  - exists gs, q. split; [done |]. destruct Ha as ((_ & Hpo & _) & Hp & Hs & _). rewrite Hpo, list_lookup_fmap in Hm.
    destruct (gs !! n) as [g|] eqn:Eg; [| done]. cbn in Hm. injection Hm as <-.
    split; [by apply lookup_lt_Some in Eg |]. rewrite (take_S_r _ _ _ Eg), concat_app. cbn [concat]. rewrite app_nil_r.
    apply arrival_receiver; [| done]. rewrite <- Hp in Hs. apply Forall_app in Hs as [Hs _].
    apply Forall_concat in Hs. eapply Forall_lookup_1; [exact Hs | done].
  - exists gs, q. split; [done |]. split; [done |]. by eapply write_receiver.
  - exists gs, q. split; [done |]. split; [done |]. by apply read_receiver.
  - exists gs, q. split; [done |]. split; [done |]. apply keeps_receiver; [apply keeps_base | done].
  - exists gs, q. split; [done |]. split; [done |]. apply keeps_receiver; [apply keeps_tick | done].
  - exists gs, q. split; [by apply lost_sender | done].
  - exists gs, q. split; [done |]. split; [done |]. by apply lost_receiver.
  - exists gs, q. split; [| done]. by apply (lost_sender pkts (set_reading false a)).
  - exists gs, q. split; [done |]. split; [done |]. by apply (lost_receiver _ (set_reading false b)).
Qed.

(** C3: the IP tunnel from device to device.  Two tunnel ends open their
    devices; then packets are read, batched by size or timer, mixed with keepalives,
    received and written in any interleaving, with devices that refuse or fail at any
    write and connections that are lost at any time.  Every packet read is, in
    order, written to the other device, queued there, in a datagram that has not
    arrived, or waiting in the sender's queue, as long as the receiving device is
    connected; what is queued is registered for writing; after the connection is
    lost, what was written is still exactly the first packets read. *)
Theorem tunnel_device_to_device name_a addr_a dv_a dr_a timeout peers r0 name_b addr_b dv_b dr_b p_b a0 b0 pkts a b n :
  timeout <> 0 ->
  open sys_a lookup_a name_a addr_a dv_a mtu_ TUN dr_a (new_dev (init_tun mtu_ (Some timeout) peers r0)) = (a0, Ok tt) ->
  open sys_b lookup_b name_b addr_b dv_b mtu_ TUN dr_b (new_dev p_b) = (b0, Ok tt) ->
  link_run a0 b0 pkts a b n ->
  exists t flight waiting, tr (proto b) = Some t /\
    drop n (peer_out (base (proto a))) = map batch flight /\ agg_queue (base (proto a)) = map framed waiting /\
    (connected t = true -> written b ++ queue t ++ concat flight ++ waiting = pkts /\ (queue t <> [] -> writing t = true)) /\
    written b `prefix_of` pkts.
Proof using Hpw Haw Hmtu Hread Hla Hlb.
  intros Hto Hoa Hob Hrun.
  assert (Ha0 : sending_ok [] a0 [] []).
  { destruct (open_state _ _ _ _ _ _ _ _ _ _ Hoa) as (Hp & _). rewrite <- (set_proto_same a0), Hp.
    apply sender_proto; [by apply init_tun_ok | by rewrite Hp | done | constructor | rewrite Hp; by eexists]. }
  assert (Hb0 : receiving_ok [] b0).
  { destruct (open_state _ _ _ _ _ _ _ _ _ _ Hob) as (Hp & Hf & Hw & Hwd & _). eexists. rewrite Hp.
    split; [done |]. split; [done |]. split; [done |]. cbn. rewrite Hw. split; [done |]. by split. }
  destruct (link_run_ok a0 b0 pkts a b n Ha0 Hb0 Hrun) as (gs & q & ((_ & Hpo & Hq) & Hp & _) & Hn & t & Ht & _ & _ & Hc).
  exists t, (drop n gs), q. split; [done |]. split; [rewrite Hpo; apply skipn_map |]. split; [done |].
  assert (Hgs : concat (take n gs) ++ concat (drop n gs) ++ q = pkts) by (by rewrite app_assoc, <- concat_app, take_drop).
  destruct (connected t).
  - destruct Hc as (_ & Hw & Hr). rewrite <- Hgs, <- Hw, <- !app_assoc. split; [done | by apply prefix_app_r].
  - split; [done |]. destruct Hc as (_ & Hc). rewrite <- Hgs. by apply prefix_app_r.
Qed.

End Link.

(** ** A concrete tunnel *)

Definition demo_sys (h : list sysc) (c : sysc) : result Z := Ok (match c with SOpen _ => 7 | _ => 1 end).
Definition demo_lookup (h : list sysc) (name : text) : result (list Z) := Ok [5].
Definition demo_read (h : list sysc) (f n : Z) : result bytes :=
  if n <? 3 then Raise (OSError 11) else Ok (if (length h <? 8)%nat then [1; 2] else [7; 8; 9]).
Definition demo_lost (d : dev (R := list call_status) (T := nat)) : dev (R := list call_status) (T := nat) :=
  Dev (set_tr ((fun t => Transport (queue t) (mtu t) false (write_disconnected t) false) <$> tr (proto d)) (proto d))
    (fd d) false None (disconnecting d) (write_disconnecting d) (lost d) (calls d) (written d).

Definition demo_a0 : dev (R := list call_status) (T := nat) :=
  fst (open demo_sys demo_lookup (lit "wfb0") (lit "10.5.0.2/24") [47] 30 TUN false (new_dev (init_tun 30 (Some 5) [0%nat; 1%nat] []))).
Definition demo_a2 : dev := fst (doRead quiet demo_read (fst (doRead quiet demo_read demo_a0))).
Definition demo_a3 : dev := fst (with_proto (with_base (timer_fires quiet 0%nat)) demo_a2).
Definition demo_b1 : dev := fst (with_proto (write (batch [[1; 2]; [7; 8; 9]])) demo_a0).
Definition demo_b2 : dev := fst (doWrite demo_sys demo_b1).

Lemma demo_link : link_run quiet quiet calm calm demo_sys demo_sys demo_read demo_read demo_lost demo_lost
  demo_a0 demo_a0 [[1; 2]; [7; 8; 9]] demo_a3 demo_b2 1.
Proof.
  eapply link_write; [| reflexivity | reflexivity].
  eapply link_arrival; [| reflexivity].
  apply (link_timer _ _ _ _ _ _ _ _ _ _ _ _ _ demo_a2 _ _ 0%nat); [| reflexivity | reflexivity].
  change [[1; 2]; [7; 8; 9]] with ([[1; 2]] ++ [[7; 8; 9]]).
  eapply link_read; [| reflexivity | reflexivity | reflexivity | reflexivity].
  change [[1; 2]] with ([] ++ [[1; 2]]).
  eapply link_read; [| reflexivity | reflexivity | reflexivity | reflexivity]. apply link_start.
Qed.

Lemma tunnel_device_to_device_witness : exists t flight waiting, tr (proto demo_b2) = Some t /\
  drop 1 (peer_out (base (proto demo_a3))) = map batch flight /\ agg_queue (base (proto demo_a3)) = map framed waiting /\
  (connected t = true -> written demo_b2 ++ queue t ++ concat flight ++ waiting = [[1; 2]; [7; 8; 9]] /\ (queue t <> [] -> writing t = true)) /\
  written demo_b2 `prefix_of` [[1; 2]; [7; 8; 9]].
Proof.
  apply (tunnel_device_to_device quiet quiet calm calm demo_sys demo_sys demo_lookup demo_lookup demo_read demo_read demo_lost demo_lost
    30 (fun _ _ => eq_refl) (fun _ _ => eq_refl)) with (name_a := lit "wfb0") (addr_a := lit "10.5.0.2/24") (dv_a := [47]) (dr_a := false)
    (timeout := 5) (peers := [0%nat; 1%nat]) (r0 := []) (name_b := lit "wfb0") (addr_b := lit "10.5.0.2/24") (dv_b := [47]) (dr_b := false)
    (p_b := init_tun 30 (Some 5) [0%nat; 1%nat] []) (a0 := demo_a0) (b0 := demo_a0).
  - lia.
  - intros h f n d Hd. unfold demo_read in Hd. destruct (Z.ltb_spec n 3); [done |]. injection Hd as <-.
    destruct (_ <? _)%nat; unfold blen; cbn; lia.
  - intros d. eexists. reflexivity.
  - intros d. eexists. reflexivity.
  - lia.
  - vm_compute. reflexivity.
  - vm_compute. reflexivity.
  - exact demo_link.
Defined.

Example demo_written : written demo_b2 = [[1; 2]; [7; 8; 9]].
Proof. vm_compute. reflexivity. Qed.

End TunDevice.
