(* ===== verification/Process.v ===== *)
(** The managers of child processes of src/wfb_ng/protocols.py ([RXProtocol],
    [TXProtocol], [SSHClientProtocol], [DbgProtocol]): how the bytes of a pipe reach
    the line protocols of Telemetry, and what the deferred of a process reports.
    The splitting of a pipe into lines is the interface [Receiver] of Framing. *)
From Stdlib Require Import ZArith Lia Bool.
From stdpp Require Import base list numbers gmap strings.
From S2P Require Import Prelude PyDict PyText AntSel Framing Telemetry.

Module Process.
Import Framing Telemetry.

(** Twisted's [LineReceiver] with the delimiter LF. *)
Abbreviation LineReceiver := (Receiver line line_ok).

(** ** The managers *)

Section Managers.
Context {S B : Type} `{StatSink S} {Hlr : LineReceiver B}.

(** [DbgProtocol]: what it logs. *)
Record dbg := Dbg { dbg_id : PyText.text; dbg_log : list PyText.text }.

Definition dbg_lineReceived (line : bytes) : SE dbg unit :=
  t ← se_lift (PyText.utf8_decode line);
  se_modify (fun g => Dbg (dbg_id g) (dbg_log g ++ [dbg_id g ++ PyText.lit ": " ++ t])).

(** [RXProtocol]; without a callback there is no parser. *)
Record rx_proc := RxProc { rp_ant : option (B * rx_ant S); rp_dbg : B * dbg; rp_df : deferred unit }.

Definition init_rx (ant_stat_cb : option S) (rx_id : string) : rx_proc :=
  RxProc ((fun k => (rc_init, RxAnt rx_id [] None None (Some k) [])) <$> ant_stat_cb)
         (rc_init, Dbg (PyText.lit rx_id) []) DPending.

Definition rx_outReceived (now : nat -> Z) (data : bytes) : SE rx_proc unit := fun p =>
  match rp_ant p with
  | Some x => let '(x', r) := rc_dataReceived (rx_lineReceived now) data x in (RxProc (Some x') (rp_dbg p) (rp_df p), r)
  | None => (p, Ok tt)
  end.

Definition rx_errReceived (data : bytes) : SE rx_proc unit := fun p =>
  let '(g, r) := rc_dataReceived dbg_lineReceived data (rp_dbg p) in (RxProc (rp_ant p) g (rp_df p), r).

Definition rx_ended (rc : Z) : SE rx_proc unit := fun p =>
  let '(d, r) := rx_processEnded rc (rp_df p) in (RxProc (rp_ant p) (rp_dbg p) d, r).

(** [TXProtocol]. *)
Record tx_proc := TxProc { tp_parser : B * tx_process S; tp_dbg : B * dbg }.

(** The parser inside the manager. *)
Definition on_parser (m : SE (tx_ant S) unit) : SE (tx_process S) unit := fun p =>
  let '(w, r) := m (port_parser p) in (TxProcess w (tx_done p), r).

Definition tx_outReceived (now : nat -> Z) (data : bytes) : SE tx_proc unit := fun p =>
  let '(x, r) := rc_dataReceived (fun l => on_parser (tx_lineReceived now l)) data (tp_parser p) in (TxProc x (tp_dbg p), r).

Definition tx_errReceived (data : bytes) : SE tx_proc unit := fun p =>
  let '(g, r) := rc_dataReceived dbg_lineReceived data (tp_dbg p) in (TxProc (tp_parser p) g, r).

Definition tx_ended (rc : Z) : SE tx_proc unit := fun p =>
  let '(x, r) := tx_processEnded rc (tp_parser p).2 in (TxProc ((tp_parser p).1, x) (tp_dbg p), r).

(** [SSHClientProtocol]: both pipes go to one log; [stdin] is written once. *)
Record ssh_proc := SshProc { sp_stdin : option bytes; sp_written : list bytes; sp_dbg : B * dbg; sp_df : deferred unit }.

Definition init_ssh_proc (host : PyText.text) (stdin : option bytes) : ssh_proc :=
  SshProc stdin [] (rc_init, Dbg (PyText.lit "ssh " ++ host) []) DPending.

Definition ssh_connectionMade : SE ssh_proc unit :=
  se_modify (fun p => match sp_stdin p with
                      | Some b => SshProc (sp_stdin p) (sp_written p ++ [b]) (sp_dbg p) (sp_df p)
                      | None => p
                      end).

Definition ssh_received (data : bytes) : SE ssh_proc unit := fun p =>
  let '(g, r) := rc_dataReceived dbg_lineReceived data (sp_dbg p) in (SshProc (sp_stdin p) (sp_written p) g (sp_df p), r).

Definition ssh_processEnded (rc : Z) : SE ssh_proc unit := fun p =>
  let '(d, r) := (if rc =? 0 then df_callback tt (sp_df p) else df_errback (sp_df p)) in
  (SshProc (sp_stdin p) (sp_written p) (sp_dbg p) d, r).

(** [start]: the deferred of the process, or a failed one when it could not be
    spawned; an empty command is an [IndexError] before that. *)
Definition start (spawn : list PyText.text -> result unit) (cmd : list PyText.text) (df : deferred unit) : result (deferred unit) :=
  _ ← py_index cmd 0;
  Ok (match spawn cmd with Ok _ => df | Raise _ => DFailed end).

(** ** Pipes *)

(** However the pipe cuts the output of wfb_rx, its lines are read one by one. *)
Lemma rx_pipe now chunks b w w' g df lines :
  rc_pending b = [] -> concat chunks = stream line lines -> Forall line_ok lines -> read_lines now lines w = (w', Ok tt) ->
  exists b', se_iter (rx_outReceived now) chunks (RxProc (Some (b, w)) g df) = (RxProc (Some (b', w')) g df, Ok tt) /\
    rc_pending b' = [].
Proof using Type.
  intros Hb Hc Hl Hr. pose proof (partial_nil line line_ok) as Hnil.
  destruct (receive_chunks line line_ok (rx_lineReceived now) chunks b w w' lines []) as (b' & Hi & Hp); try done.
  { by rewrite Hb, app_nil_r. } { by rewrite Hb. }
  exists b'. split; [| done]. clear -Hi. revert b w Hi. induction chunks as [|c chunks IH]; intros b w Hi.
  - by injection Hi as <- <-.
  - cbn [se_iter] in *. unfold mbind, SE_bind in *. unfold rx_outReceived at 1. cbn [rp_ant].
    destruct (rc_dataReceived (rx_lineReceived now) c (b, w)) as [[b1 w1] [[]|e]]; [| done]. by apply IH.
Qed.

(** A process reports its end once: with its result when it returned 0, with a
    failure otherwise. *)
Lemma rx_ended_once rc p : rp_df p = DPending ->
  exists p', rx_ended rc p = (p', Ok tt) /\ rp_df p' = (if rc =? 0 then DFired tt else DFailed) /\ rp_ant p' = rp_ant p /\
    forall rc', snd (rx_ended rc' p') = Raise AlreadyCalled.
Proof using Type.
  intros Hd. unfold rx_ended, rx_processEnded. rewrite Hd. destruct (rc =? 0); cbn; eexists; (split; [done |]); (split; [done |]);
    (split; [done |]); intros rc'; cbn; by destruct (rc' =? 0).
Qed.

End Managers.
Arguments rx_proc : clear implicits.

(** ** The printed lines *)

Lemma plain_line ps : Forall (Forall PyText.plain) ps -> 10 ∉ PyText.join 9 ps.
Proof.
  intros Hp. assert (Hf : Forall (fun c => c <> 10) (PyText.join 9 ps)).
  { apply PyText.join_Forall; [done |]. eapply Forall_impl; [exact Hp |]. intros l Hl. eapply Forall_impl; [exact Hl |].
    unfold PyText.plain. cbn. intros. lia. }
  intros Hin. rewrite Forall_forall in Hf. by apply (Hf 10 Hin).
Qed.

Lemma dump_no_newline d : dump_ok d -> Forall (fun l => 10 ∉ l) (dump_stats d).
Proof.
  intros Hd. pose proof (do_ts d Hd). apply Forall_app. split.
  - apply Forall_map. eapply Forall_impl; [exact (do_ids d Hd) |]. intros e He. cbv beta in He. change (10 ∉ ant_line (d_ts d) e). unfold ant_line. apply plain_line. columns.
  - apply Forall_singleton. unfold pkt_line. apply plain_line. columns.
Qed.

Section Pipe.
Context {S B : Type} `{StatSink S} {Hlr : LineReceiver B}.
Context (now : nat -> Z) (accepts : forall id ps ant se k, (sink_rx now id ps ant se k).2 = Ok tt).

(** C11: from the pipe of wfb_rx to the aggregator.  The receiver prints any
    number of statistics dumps; the pipe delivers the bytes cut into pieces
    anywhere, also inside a line; the manager of the process hands them to its
    parser, which refuses no line and reports to the sink exactly the antenna table
    of the last dump and, for every counter, its last value and the sum over all
    dumps; nothing of the output is left over. *)
Theorem rx_pipe_roundtrip id k ds d chunks :
  Forall dump_ok (ds ++ [d]) ->
  Forall (fun l => blen l <= line_limit) (concat (map dump_stats (ds ++ [d]))) ->
  concat chunks = stream line (concat (map dump_stats (ds ++ [d]))) ->
  exists b w' k' ps g,
    se_iter (rx_outReceived now) chunks (init_rx (B := B) (Some k) id) = (RxProc (Some (b, w')) g DPending, Ok tt) /\
    rc_pending b = [] /\ bad_lines w' = [] /\ ant w' = [] /\ ant_stat_cb w' = Some k' /\ latest k' id = Some (ant_dict d, ps) /\
    forall i name, rx_keys !! i = Some name ->
      PyDict.get ps name = Some (nth i (d_counters d) 0, column i (ds ++ [d])).
Proof using accepts.
  intros Hds Hlen Hc. destruct (rx_telemetry_roundtrip now accepts id k ds d Hds) as (w' & k' & ps & Hr & Hrest).
  assert (Hl : Forall line_ok (concat (map dump_stats (ds ++ [d])))).
  { assert (Hn : Forall (fun l => 10 ∉ l) (concat (map dump_stats (ds ++ [d])))).
    { apply Forall_concat, Forall_map. eapply Forall_impl; [exact Hds |]. apply dump_no_newline. }
    apply Forall_and. by split. }
  destruct (rx_pipe now chunks rc_init _ _ (rc_init, Dbg (PyText.lit id) []) DPending _ rc_init_empty Hc Hl Hr) as (b & Hi & Hp).
  exists b, w', k', ps, (rc_init, Dbg (PyText.lit id) []). split; [exact Hi |]. done.
Qed.
End Pipe.

(** The bytes of two dumps, cut after every third byte. *)
Fixpoint thirds (fuel : nat) (l : bytes) : list bytes :=
  match fuel with O => [] | Datatypes.S f => match l with [] => [] | _ => take 3 l :: thirds f (drop 3 l) end end.

Lemma rx_pipe_roundtrip_witness :
  exists (b : bytes) w' k' ps g,
    se_iter (rx_outReceived (H := sel_sink demo_quiet) demo_now)
      (thirds 400 (stream line (concat (map dump_stats [demo_dump1; demo_dump2]))))
      (init_rx (Some demo_sel) "video rx") = (RxProc (Some (b, w')) g DPending, Ok tt) /\
    ant_stat_cb w' = Some k' /\ @latest _ (sel_sink demo_quiet) k' "video rx" = Some (ant_dict demo_dump2, ps) /\
    PyDict.get ps "fec_rec" = Some (4, 5).
Proof.
  destruct (rx_pipe_roundtrip (H := sel_sink demo_quiet) demo_now demo_accepts "video rx" demo_sel [demo_dump1] demo_dump2
    (thirds 400 (stream line (concat (map dump_stats [demo_dump1; demo_dump2])))))
    as (b & w' & k' & ps & g & Hr & _ & _ & _ & Hk & Hl & Hg).
  - apply Forall_cons. split; [exact demo_dump1_ok |]. apply Forall_singleton. exact demo_dump2_ok.
  - apply (bool_decide_unpack _). vm_compute. exact I.
  - vm_compute. reflexivity.
  - exists b, w', k', ps, g. split; [exact Hr |]. split; [exact Hk |]. split; [exact Hl |]. apply (Hg 6%nat). reflexivity.
Defined.

End Process.
