(* ===== verification/StatsLoop.v ===== *)
(** The periodic statistics of src/wfb_ng/protocols.py: one
    [AntStatsAndSelector] shared by the line protocols of all receivers of a
    profile, and its [LoopingCall] that calls [aggregate_stats] once per
    interval.  A [LoopingCall] whose function raises is not called again.  The
    theorems say when the loop keeps running, and what is lost when it stops. *)
From Stdlib Require Import ZArith Lia Bool.
From stdpp Require Import base list numbers gmap strings relations.
From S2P Require Import Prelude PyDict PyNum PyText AntSel Telemetry.

Module StatsLoop.
Import Telemetry.

(** The selector, the receivers that report to it, and whether the loop runs. *)
Record site := Site { selector : AntSel.sel; receivers : list (rx_ant AntSel.sel); lc_running : bool }.

(** [__init__] starts the loop; [RXAntennaProtocol.__init__] for each receiver. *)
Definition init_site (lg : option nat) (rx_only : gset Z) (temp : option (PyDict.dict Z Z)) (ids : list string) : site :=
  Site (AntSel.init lg rx_only temp) (map (fun id => RxAnt id [] None None None []) ids) true.

Section Loop.
Context (conf : AntSel.sel_conf) (scr : nat -> option Z -> option exn)
        (rcr : nat -> AntSel.rssi_report -> option exn) (uir : nat -> AntSel.stat_msg -> option exn).
(** [LoopingCall.stop] on a loop that does not run. *)
Context (stop_idle : result unit).

(** Lines of receiver [i], which reports to the shared selector. *)
Definition lines (now : nat -> Z) (i : nat) (ls : list bytes) (st : site) : site :=
  match receivers st !! i with
  | None => st
  | Some w =>
      let w' := (read_lines (H := sel_sink uir) now ls (set_sink (Some (selector st)) w)).1 in
      Site (default (selector st) (ant_stat_cb w')) (<[i := w']> (receivers st)) (lc_running st)
  end.

(** The timer, while the loop runs. *)
Definition tick (st : site) : site :=
  let '(s', r) := AntSel.aggregate_stats conf scr rcr (selector st) in Site s' (receivers st) (is_ok r).

(** [_cleanup]. *)
Definition _cleanup (st : site) : site * result unit :=
  (Site (selector st) (receivers st) false, if lc_running st then Ok tt else stop_idle).

Definition on_selector (s' : AntSel.sel) (st : site) : site := Site s' (receivers st) (lc_running st).

(** The calls of services, of the transmitters' line protocols and of sessions. *)
Inductive sel_call (s : AntSel.sel) : AntSel.sel -> Prop :=
| call_add_sel cb : sel_call s (AntSel.add_ant_sel_cb scr cb s).1
| call_add_rssi cb : sel_call s (AntSel.add_rssi_cb cb s).1
| call_tx now tx_id ps lat : sel_call s (AntSel.update_tx_stats uir now tx_id ps lat s).1
| call_made hello ui : sel_call s (AntSel.ui_connectionMade uir hello ui s).1
| call_lost ui : sel_call s (AntSel.ui_connectionLost ui s).1.

(** What can happen. *)
Inductive site_step (st : site) : site -> Prop :=
| site_lines now i ls : site_step st (lines now i ls st)
| site_tick : lc_running st = true -> site_step st (tick st)
| site_call s' : sel_call (selector st) s' -> site_step st (on_selector s' st)
| site_cleanup : site_step st (_cleanup st).1.

(** ** What the line protocols can change *)

Section Sink.
Context {S : Type} `{StatSink S} (P : S -> Prop).
Context (P_rx : forall now id ps ant se k, P k -> P (sink_rx now id ps ant se k).1).
Context (P_session : forall now id se k, P k -> P (sink_session now id se k).1).

(** A property of the sink that its operations keep. *)
Definition holds (w : rx_ant S) : Prop := forall k, ant_stat_cb w = Some k -> P k.

Lemma with_sink_holds m w : (forall w k, P k -> P (m w k).1) -> holds w -> holds (with_sink m w).1.
Proof using Type.
  intros Hm Hw k. unfold with_sink. destruct (ant_stat_cb w) as [k0|] eqn:E; [| cbn; by rewrite E].
  specialize (Hm w k0 (Hw k0 E)). destruct (m w k0) as [k1 r]. cbn in *. by intros [= <-].
Qed.

Lemma rx_line_holds now data w : holds w -> holds (rx_lineReceived now data w).1.
Proof using P_rx P_session.
  intros Hw. unfold rx_lineReceived, mbind, SE_bind, se_lift. destruct (PyText.utf8_decode data) as [t|]; [| done].
  set (m := if (_ <? 2)%nat then _ else _). assert (Hm : holds (m w).1).
  { unfold m. destruct (_ <? 2)%nat; [done |]. repeat case_decide; [..| done].
    - unfold rx_ant_line. repeat (case_match; try done). unfold mbind, SE_bind, se_lift. by repeat (case_match; simplify_eq; try done).
    - unfold rx_pkt_line. repeat (case_match; try done). unfold mbind at 1, SE_bind at 1, se_lift. destruct (ints _); [| done].
      destruct (negb _); [done |]. unfold mbind, SE_bind, se_modify.
      destruct (with_sink _ _) as [w1 r] eqn:E. assert (holds w1).
      { change w1 with (w1, r).1. rewrite <- E. apply with_sink_holds; [intros; by apply P_rx | done]. }
      by destruct r.
    - unfold rx_session_line. repeat (case_match; try done). unfold mbind at 1, SE_bind at 1, se_lift. destruct (ints _); [| done].
      repeat (case_match; try done). unfold mbind, SE_bind, se_modify. apply with_sink_holds; [intros; by apply P_session | done]. }
  unfold catch_bad. destruct (m w) as [w' r]. cbn in Hm. repeat case_match; by simplify_eq.
Qed.

Lemma read_lines_holds now ls w : holds w -> holds (read_lines now ls w).1.
Proof using P_rx P_session.
  revert w. unfold read_lines. induction ls as [|l ls IH]; intros w Hw; cbn [se_iter]; [done |].
  unfold mbind, SE_bind. pose proof (rx_line_holds now l w Hw). destruct (rx_lineReceived now l w) as [w' [[]|]]; [by apply IH | done].
Qed.

End Sink.

(** ** A stopped loop *)

(** What only [aggregate_stats] changes: the card selected and the reports. *)
Definition outcome_view (s : AntSel.sel) := (AntSel.tx_sel s, AntSel.rssi_calls s).

Lemma send_stats_outcome (ms : nat -> AntSel.stat_msg) l s :
  outcome_view (se_iter (fun ui => AntSel.send_stats uir (ms ui) ui) l s).1 = outcome_view s.
Proof using Type.
  revert s. induction l as [|ui l IH]; intros s; cbn [se_iter]; [done |].
  unfold mbind, SE_bind. unfold AntSel.send_stats at 1. destruct (uir ui (ms ui)); [done |]. by rewrite IH.
Qed.

Lemma rx_outcome now id ps ant se k : outcome_view (AntSel.update_rx_stats uir now id ps ant se k).1 = outcome_view k.
Proof using Type.
  unfold AntSel.update_rx_stats, mbind, SE_bind, se_modify, se_get.
  by rewrite (send_stats_outcome (fun ui => AntSel.RxMsg (now ui) id _ ps ant se)).
Qed.

Lemma session_outcome now id se k : outcome_view (AntSel.process_new_session uir now id se k).1 = outcome_view k.
Proof using Type. unfold AntSel.process_new_session, mbind, SE_bind, se_get. by destruct (AntSel.logger k). Qed.

Lemma lines_outcome now i ls st : outcome_view (selector (lines now i ls st)) = outcome_view (selector st) /\
  lc_running (lines now i ls st) = lc_running st.
Proof using Type.
  unfold lines. destruct (receivers st !! i) as [w|]; [| done]. split; [| done]. cbn [selector].
  pose proof (read_lines_holds (H := sel_sink uir) (fun k => outcome_view k = outcome_view (selector st))) as Hr.
  destruct (ant_stat_cb _) as [k|] eqn:E; [| done]. cbn [default]. refine (Hr _ _ now ls (set_sink (Some (selector st)) w) _ k E).
  - intros now' id ps ant se k0 Hk. by rewrite <- Hk, <- (rx_outcome now' id ps ant se k0).
  - intros now' id se k0 Hk. by rewrite <- Hk, <- (session_outcome now' id se k0).
  - by intros k0 [= <-].
Qed.

(** The other calls change neither, nor what the interval has collected. *)
Lemma sel_call_outcome s s' : sel_call s s' -> outcome_view s' = outcome_view s /\ AntSel.cur_stats s' = AntSel.cur_stats s.
Proof using Type.
  intros Hc. destruct Hc as [cb | cb | now id ps lat | hello ui | ui]; try done.
  - unfold AntSel.update_tx_stats, mbind, SE_bind, se_get.
    rewrite (send_stats_outcome (fun ui => AntSel.TxMsg (now ui) id ps lat _)).
    by rewrite (send_stats_cur uir (fun ui => AntSel.TxMsg (now ui) id ps lat _)).
  - unfold AntSel.ui_connectionMade, mbind, SE_bind, AntSel.send_stats. by destruct (uir _ _).
  - unfold AntSel.ui_connectionLost, mbind, SE_bind, se_get. by destruct (list_remove _ _).
Qed.

(** Nothing restarts the loop, and without it nothing is selected or reported. *)
Lemma stopped_step st st' : lc_running st = false -> site_step st st' ->
  lc_running st' = false /\ outcome_view (selector st') = outcome_view (selector st).
Proof using Type.
  intros Hs Hst. destruct Hst as [now i ls | Hr | s' Hc |].
  - destruct (lines_outcome now i ls st) as [-> ->]. done.
  - congruence.
  - by destruct (sel_call_outcome _ _ Hc).
  - done.
Qed.

Lemma stopped_for_good st st' : lc_running st = false -> rtc site_step st st' ->
  lc_running st' = false /\ outcome_view (selector st') = outcome_view (selector st).
Proof using Type.
  intros Hs Hr. induction Hr as [st | st st1 st2 H1 _ IH]; [done |].
  destruct (stopped_step _ _ Hs H1) as [H2 H3]. destruct (IH H2) as [H4 H5]. split; [done | congruence].
Qed.

(** ** A line of the wrong shape *)

(** An RX_ANT line with any lists of numbers. *)
Definition raw_ant_line (ts : Z) (key : list Z) (aid : Z) (vals : list Z) : bytes :=
  PyText.join 9 [PyText.print_u ts; PyText.lit "RX_ANT"; PyText.row key; PyText.print_x aid; PyText.row vals].

Lemma read_raw_line now ts key aid vals (w : rx_ant AntSel.sel) : 0 <= ts -> 0 <= aid -> key <> [] -> vals <> [] ->
  rx_lineReceived (H := sel_sink uir) now (raw_ant_line ts key aid vals) w = (set_ant (PyDict.set (ant w) (key, aid) vals) w, Ok tt).
Proof using Type.
  intros Ht Hi Hk Hv. unfold raw_ant_line.
  rewrite (rx_line_dispatch (H := sel_sink uir) now (PyText.print_u ts) (PyText.lit "RX_ANT") [PyText.row key; PyText.print_x aid] (PyText.row vals));
    [| apply PyText.print_nat_ne; lia | by apply PyText.row_ne | columns].
  rewrite decide_True by done. unfold catch_bad, rx_ant_line. cbn [app].
  unfold mbind, SE_bind, se_lift. rewrite !ints_of_row by done.
  unfold PyText.print_x. rewrite PyText.int_of_print by lia. done.
Qed.

(** The dump the line ends up in. *)
Definition raw_lines (ts : Z) (key : list Z) (aid : Z) (vals counters : list Z) : list bytes :=
  [raw_ant_line ts key aid vals; pkt_line ts counters].

Lemma read_raw_lines now ts key aid vals counters (w : rx_ant AntSel.sel) s : 0 <= ts -> 0 <= aid -> key <> [] -> vals <> [] ->
  length counters = 11%nat -> ant_stat_cb w = Some s ->
  exists k' ps, ant_stat_cb (read_lines (H := sel_sink uir) now (raw_lines ts key aid vals counters) w).1 = Some k' /\
    PyDict.get (AntSel.cur_stats k') (rx_id w) = Some (PyDict.set (ant w) (key, aid) vals, ps) /\
    ((forall ui m, uir ui m = None) -> (read_lines (H := sel_sink uir) now (raw_lines ts key aid vals counters) w).2 = Ok tt).
Proof using Type.
  intros Ht Hi Hk Hv Hc Hs. unfold raw_lines, read_lines. cbn [se_iter]. unfold mbind, SE_bind.
  rewrite read_raw_line, read_pkt_line by done. unfold with_sink. cbn [ant_stat_cb set_ant set_count count_all rx_id ant session default].
  rewrite Hs. change (sink_rx ?a ?b ?c ?d ?e) with (AntSel.update_rx_stats uir a b c d e). unfold id.
  set (t := add_counters counters (count_all w)). set (ps := stats_of rx_keys counters t). set (a := PyDict.set (ant w) (key, aid) vals).
  pose proof (sink_rx_latest (StatSink := sel_sink uir) now (rx_id w) ps a (session w) s (rx_id w)) as Hl.
  rewrite decide_True in Hl by done. change (PyDict.get (AntSel.cur_stats (AntSel.update_rx_stats uir now (rx_id w) ps a (session w) s).1) (rx_id w) = Some (a, ps)) in Hl.
  destruct (AntSel.update_rx_stats uir now (rx_id w) ps a (session w) s) as [k' r] eqn:E. cbn in Hl. exists k', ps.
  split; [| split; [done |]].
  - destruct r as [[]|e]; [done |]. unfold catch_bad. destruct e; done.
  - intros Hq. destruct (quiet_update uir now (rx_id w) ps a (session w) s Hq) as (s' & Hu & _). rewrite E in Hu. by injection Hu as _ ->.
Qed.

(** An item that cannot be unpacked makes the aggregation raise. *)
Lemma aggregate_malformed s id a ps k v : PyDict.get (AntSel.cur_stats s) id = Some (a, ps) -> (k, v) ∈ a -> ~ AntSel.well_formed (k, v) ->
  AntSel.aggregate_stats conf scr rcr s = (AntSel.set_cur_stats [] s, Raise ValueError).
Proof using Type.
  intros Hg Hin Hwf. unfold AntSel.aggregate_stats, mbind, SE_bind, se_get, se_modify, se_lift.
  unfold AntSel.stats_agg_by_freq_and_rxid. rewrite AntSel.agg_items_malformed; [done |].
  intros Hall. rewrite Forall_forall in Hall. apply Hwf, Hall. apply PyDict.get_In in Hg.
  apply list_elem_of_In, in_concat. exists a. split; [| by apply list_elem_of_In]. apply list_elem_of_In.
  unfold PyDict.values. apply list_elem_of_fmap. exists (id, a). split; [done |]. apply list_elem_of_fmap. by exists (id, (a, ps)).
Qed.

(** C17: one RX_ANT line of the wrong shape ends the statistics of its profile
    for good.  The line parser accepts a line with any number of key fields and
    values; when the interval ends, [aggregate_stats] raises, the loop stops,
    and in every history from there on the loop does not run, the transmit card
    stays the one selected before, and no callback gets another report. *)
Theorem bad_line_stops_statistics now i w st ts key aid vals counters :
  receivers st !! i = Some w -> 0 <= ts -> 0 <= aid -> key <> [] -> vals <> [] -> length counters = 11%nat ->
  ~ (length key = 3%nat /\ length vals = 7%nat) ->
  let st1 := lines now i (raw_lines ts key aid vals counters) st in
  ((forall ui m, uir ui m = None) ->
     (read_lines (H := sel_sink uir) now (raw_lines ts key aid vals counters) (set_sink (Some (selector st)) w)).2 = Ok tt) /\
  lc_running (tick st1) = false /\
  forall st2, rtc site_step (tick st1) st2 ->
    lc_running st2 = false /\ AntSel.tx_sel (selector st2) = AntSel.tx_sel (selector st) /\
    AntSel.rssi_calls (selector st2) = AntSel.rssi_calls (selector st).
Proof using Type.
  intros Hw Ht Ha Hk Hv Hc Hbad st1.
  destruct (read_raw_lines now ts key aid vals counters (set_sink (Some (selector st)) w) (selector st) Ht Ha Hk Hv Hc eq_refl)
    as (k' & ps & Hk' & Hg & Hok). split; [exact Hok |].
  assert (Hs1 : selector st1 = k') by (unfold st1, lines; rewrite Hw; cbn [selector]; by rewrite Hk').
  assert (Hagg : AntSel.aggregate_stats conf scr rcr (selector st1) = (AntSel.set_cur_stats [] k', Raise ValueError)).
  { rewrite Hs1. eapply aggregate_malformed; [exact Hg | apply PyDict.get_In, PyDict.get_set_eq | exact Hbad]. }
  unfold tick. rewrite Hagg. split; [done |]. intros st2 Hr.
  apply stopped_for_good in Hr as [H1 H2]; [| done]. split; [done |].
  destruct (lines_outcome now i (raw_lines ts key aid vals counters) st) as [Ho _]. fold st1 in Ho. rewrite Hs1 in Ho.
  change (outcome_view (selector st2) = outcome_view k') in H2. rewrite Ho in H2. by injection H2.
Qed.

(** ** A loop that keeps running *)

Section Healthy.
(** Sessions that take what they are sent, an integer packet delta, and a bound
    on the packets of one dump. *)
Context (Hq : forall ui m, uir ui m = None) (da : Z) (Hda : AntSel.tx_sel_counter_abs_delta conf = PyNum.NInt da) (Hda0 : 0 <= da).
Context (B : Z).

(** A dump as wfb_rx prints it: an antenna is listed once it was heard. *)
Definition good_dump (d : rx_dump) : Prop :=
  dump_ok d /\ Forall (fun e => 0 < AntSel.pkt_s (ae_stat e)) (d_ants d) /\ AntSel.sumZ (fun e => AntSel.pkt_s (ae_stat e)) (d_ants d) <= B.

(** Histories whose receivers print such dumps and announce their sessions. *)
Inductive healthy (ids : list string) : site -> Prop :=
| healthy_init lg rx_only temp : healthy ids (init_site lg rx_only temp ids)
| healthy_dump st now i d : healthy ids st -> good_dump d -> healthy ids (lines now i (dump_stats d) st)
| healthy_session st now i ts epoch fec_type fec_k fec_n : healthy ids st -> 0 <= ts ->
    healthy ids (lines now i [session_line ts epoch fec_type fec_k fec_n] st)
| healthy_tick st : healthy ids st -> lc_running st = true -> healthy ids (tick st)
| healthy_call st s' : healthy ids st -> sel_call (selector st) s' -> healthy ids (on_selector s' st).

(** What a receiver's entry in [cur_stats] is made of. *)
Record good_stats (a : AntSel.ant_stats) (ps : AntSel.packet_stats) : Prop := {
  gs_wf : Forall AntSel.well_formed a;
  gs_pos : Forall (fun it => Forall (fun e => 0 < AntSel.pkt_s e) (AntSel.stat_of it)) a;
  gs_sum : AntSel.sumZ AntSel.pkt_s (concat (map AntSel.stat_of a)) <= B;
  gs_complete : AntSel.complete ps
}.

Definition idle (w : rx_ant AntSel.sel) : Prop := ant w = [] /\ forall t, count_all w = Some t -> length t = 11%nat.

Record site_inv (ids : list string) (st : site) : Prop := {
  inv_run : lc_running st = true;
  inv_ids : map rx_id (receivers st) = ids;
  inv_idle : Forall idle (receivers st);
  inv_ok : PyDict.ok (AntSel.cur_stats (selector st));
  inv_keys : forall id, id ∈ PyDict.keys (AntSel.cur_stats (selector st)) -> id ∈ ids;
  inv_stats : forall id a ps, (id, (a, ps)) ∈ AntSel.cur_stats (selector st) -> good_stats a ps
}.

Lemma dump_stats_sum d : AntSel.sumZ AntSel.pkt_s (concat (map AntSel.stat_of (ant_dict d))) = AntSel.sumZ (fun e => AntSel.pkt_s (ae_stat e)) (d_ants d).
Proof using Type.
  unfold ant_dict. induction (d_ants d) as [|e l IH]; [done |]. cbn [map concat]. rewrite AntSel.sumZ_app, IH, stat_of_list.
  unfold AntSel.sumZ. cbn. lia.
Qed.

Lemma good_dump_stats d t : good_dump d -> length t = 11%nat -> good_stats (ant_dict d) (stats_of rx_keys (d_counters d) t).
Proof using Type.
  intros (Hd & Hp & Hs) Ht. split.
  - apply Forall_map, Forall_true. done.
  - apply Forall_map. eapply Forall_impl; [exact Hp |]. intros e He.
    change (Forall (fun e => 0 < AntSel.pkt_s e) (AntSel.stat_of (ant_key e, stat_list (ae_stat e)))). rewrite stat_of_list. by constructor.
  - by rewrite dump_stats_sum.
  - apply rx_stats_complete; [by apply do_counters | done].
Qed.

(** Receivers keep their names. *)
Lemma insert_ids (l : list (rx_ant AntSel.sel)) i w w' : l !! i = Some w -> rx_id w' = rx_id w -> map rx_id (<[i := w']> l) = map rx_id l.
Proof using Type.
  intros Hw Hid. change (rx_id <$> <[i := w']> l = rx_id <$> l). rewrite list_fmap_insert, Hid. apply list_insert_id.
  by rewrite list_lookup_fmap, Hw.
Qed.

(** Statistics of one more receiver. *)
Lemma inv_set ids st i w w' s1 a ps : site_inv ids st -> receivers st !! i = Some w -> rx_id w' = rx_id w -> idle w' ->
  AntSel.cur_stats s1 = PyDict.set (AntSel.cur_stats (selector st)) (rx_id w) (a, ps) -> good_stats a ps ->
  site_inv ids (Site s1 (<[i := w']> (receivers st)) (lc_running st)).
Proof using Type.
  intros [H1 H2 H3 H4 H5 H6] Hw Hid Hi Hc Hg. assert (Hin : rx_id w ∈ ids).
  { rewrite <- H2. apply list_elem_of_fmap. exists w. split; [done |]. by apply list_elem_of_lookup_2 in Hw. }
  split; cbn [lc_running receivers selector]; [done | | | | |].
  - rewrite <- H2. by eapply insert_ids.
  - by apply Forall_insert.
  - rewrite Hc. by apply PyDict.ok_set.
  - intros id. rewrite Hc, PyDict.set_keys. case_decide; [apply H5 |]. rewrite elem_of_app, list_elem_of_singleton. intros [? | ->]; auto.
  - intros id a' ps' Hin'. rewrite Hc in Hin'. apply PyDict.In_get in Hin'; [| by apply PyDict.ok_set].
    rewrite PyDict.get_set in Hin'. case_decide; [by injection Hin' as <- <- |]. by eapply H6, PyDict.get_In.
Qed.

(** Changes that leave the collected statistics alone. *)
Lemma inv_same ids st i w w' s1 : site_inv ids st -> receivers st !! i = Some w -> rx_id w' = rx_id w -> idle w' ->
  AntSel.cur_stats s1 = AntSel.cur_stats (selector st) -> site_inv ids (Site s1 (<[i := w']> (receivers st)) (lc_running st)).
Proof using Type.
  intros [H1 H2 H3 H4 H5 H6] Hw Hid Hi Hc. split; cbn [lc_running receivers selector]; rewrite ?Hc; try done.
  - rewrite <- H2. by eapply insert_ids.
  - by apply Forall_insert.
Qed.

Lemma inv_dump ids st now i d : site_inv ids st -> good_dump d -> site_inv ids (lines now i (dump_stats d) st).
Proof using Hq.
  intros Hi Hg. unfold lines. destruct (receivers st !! i) as [w|] eqn:Hw; [| done].
  pose proof (inv_idle _ _ Hi) as Hidle. rewrite Forall_lookup in Hidle. destruct (Hidle _ _ Hw) as [Ha Hl].
  pose proof (read_dump (H := sel_sink uir) now d (set_sink (Some (selector st)) w) (selector st) (proj1 Hg) Ha eq_refl) as Hr.
  cbv zeta in Hr. cbn [rx_id set_sink count_all session bad_lines] in Hr. change (@sink_rx _ (sel_sink uir)) with (AntSel.update_rx_stats uir) in Hr.
  set (t := add_counters (d_counters d) (count_all w)) in *.
  destruct (quiet_update uir now (rx_id w) (stats_of rx_keys (d_counters d) t) (ant_dict d) (session w) (selector st) Hq) as (s1 & Hu & Hc & _).
  rewrite Hu in Hr. rewrite (Hr eq_refl). cbn [fst ant_stat_cb default].
  assert (Hlt : length t = 11%nat) by (apply add_counters_spec; [by apply do_counters, (proj1 Hg) | done]).
  eapply inv_set; [done | exact Hw | done | split; [done | by intros ? [= <-]] | exact Hc | by apply good_dump_stats].
Qed.

Lemma read_session now ts epoch fec_type fec_k fec_n (w : rx_ant AntSel.sel) k : 0 <= ts -> ant_stat_cb w = Some k ->
  exists w' k', read_lines (H := sel_sink uir) now [session_line ts epoch fec_type fec_k fec_n] w = (w', Ok tt) /\
    ant_stat_cb w' = Some k' /\ AntSel.cur_stats k' = AntSel.cur_stats k /\ rx_id w' = rx_id w /\ ant w' = ant w /\ count_all w' = count_all w.
Proof using Hq.
  intros Ht Hk. unfold read_lines. cbn [se_iter]. unfold session_line.
  unfold mbind, SE_bind.
  rewrite (rx_line_dispatch (H := sel_sink uir) now (PyText.print_u ts) (PyText.lit "SESSION") [] (PyText.row [epoch; fec_type; fec_k; fec_n]));
    [| apply PyText.print_nat_ne; lia | by apply PyText.row_ne | columns].
  rewrite !decide_False, decide_True by done. unfold rx_session_line. cbn [app]. unfold catch_bad, mbind, SE_bind, se_lift.
  rewrite ints_of_row by done. unfold se_modify, with_sink. cbn [ant_stat_cb set_session]. rewrite Hk.
  change (sink_session ?a ?b ?c) with (AntSel.process_new_session uir a b c).
  unfold AntSel.process_new_session, mbind, SE_bind, se_get. destruct (AntSel.logger k) as [l|].
  - unfold AntSel.send_stats. rewrite Hq. by do 2 eexists.
  - by do 2 eexists.
Qed.

Lemma inv_session ids st now i ts epoch fec_type fec_k fec_n : site_inv ids st -> 0 <= ts ->
  site_inv ids (lines now i [session_line ts epoch fec_type fec_k fec_n] st).
Proof using Hq.
  intros Hi Ht. unfold lines. destruct (receivers st !! i) as [w|] eqn:Hw; [| done].
  pose proof (inv_idle _ _ Hi) as Hidle. rewrite Forall_lookup in Hidle. destruct (Hidle _ _ Hw) as [Ha Hl].
  destruct (read_session now ts epoch fec_type fec_k fec_n (set_sink (Some (selector st)) w) (selector st) Ht eq_refl)
    as (w' & k' & -> & Hk & Hc & Hid & Han & Hco). cbn [fst]. rewrite Hk. cbn [default].
  eapply inv_same; [done | exact Hw | done | | done]. split; [by rewrite Han | by rewrite Hco].
Qed.

(** All that an interval has collected. *)
Lemma items_sum (c : PyDict.dict string (AntSel.ant_stats * AntSel.packet_stats)) :
  (forall id a ps, (id, (a, ps)) ∈ c -> good_stats a ps) ->
  AntSel.sumZ AntSel.pkt_s (concat (map AntSel.stat_of (AntSel.all_items (map (fun p => (p.1, p.2.1)) c)))) <= Z.of_nat (length c) * B.
Proof using Type.
  intros Hc. induction c as [|[id [a ps]] c IH]; [done |]. unfold AntSel.all_items, PyDict.values. cbn [map fmap list_fmap concat fst snd length].
  rewrite map_app, concat_app, AntSel.sumZ_app. specialize (IH (fun i a' p' H => Hc i a' p' (list_elem_of_further _ _ _ H))).
  pose proof (gs_sum _ _ (Hc id a ps (list_elem_of_here _ _))). rewrite Nat2Z.inj_succ, Z.mul_succ_l, Z.add_comm. by apply Z.add_le_mono.
Qed.

Lemma inv_sane ids st : 0 <= B -> Z.of_nat (length ids) * B < 2 ^ 53 -> site_inv ids st ->
  AntSel.sane_interval (AntSel.all_items (map (fun p => (p.1, p.2.1)) (AntSel.cur_stats (selector st))))
    (map (fun p => p.2.2) (AntSel.cur_stats (selector st))).
Proof using Type.
  intros HB0 HB [_ _ _ Hok Hk Hs]. set (c := AntSel.cur_stats (selector st)) in *.
  assert (Hin : forall it, it ∈ AntSel.all_items (map (fun p => (p.1, p.2.1)) c) -> exists id a ps, (id, (a, ps)) ∈ c /\ it ∈ a).
  { intros it (a & Ha & Hit)%list_elem_of_In%in_concat. apply list_elem_of_In, list_elem_of_fmap in Ha as ([id a'] & -> & Ha).
    apply list_elem_of_fmap in Ha as ([id' [a2 ps]] & [= -> ->] & Ha). exists id', a2, ps. split; [done | by apply list_elem_of_In]. }
  assert (Hpos : Forall (fun it => Forall (fun e => 0 < AntSel.pkt_s e) (AntSel.stat_of it)) (AntSel.all_items (map (fun p => (p.1, p.2.1)) c))).
  { apply Forall_forall. intros it (id & a & ps & Hc & Hit)%Hin. pose proof (gs_pos _ _ (Hs _ _ _ Hc)) as Hp. rewrite Forall_forall in Hp. by apply Hp. }
  split; [| exact Hpos | |].
  - apply Forall_forall. intros it (id & a & ps & Hc & Hit)%Hin. pose proof (gs_wf _ _ (Hs _ _ _ Hc)) as Hp. rewrite Forall_forall in Hp. by apply Hp.
  - intros a. eapply Z.le_lt_trans; [by apply AntSel.entries_sum_le |]. eapply Z.le_lt_trans; [apply (items_sum c Hs) |].
    eapply Z.le_lt_trans; [| exact HB]. apply Z.mul_le_mono_nonneg_r; [done |]. apply inj_le.
    rewrite <- (length_fmap fst c). apply submseteq_length, NoDup_submseteq; [exact Hok | exact Hk].
  - apply Forall_forall. intros ps Hps. apply list_elem_of_fmap in Hps as ([id [a ps']] & -> & Hc). by apply (gs_complete _ _ (Hs _ _ _ Hc)).
Qed.

(** A sane interval ends without an exception, with or without callbacks. *)
Lemma aggregate_runs s :
  AntSel.sane_interval (AntSel.all_items (map (fun p => (p.1, p.2.1)) (AntSel.cur_stats s))) (map (fun p => p.2.2) (AntSel.cur_stats s)) ->
  exists s' r, AntSel.aggregate_stats conf scr rcr s = (s', Ok tt) /\ AntSel.cur_stats s' = [] /\
    AntSel.rssi_calls s' = AntSel.rssi_calls s ++ map (fun cb => (cb, r)) (AntSel.rssi_cb_l s).
Proof using Hda Hda0.
  intros Hs. destruct (decide (AntSel.rssi_cb_l s = [])) as [Hn | Hn].
  - destruct (AntSel.stats_agg_sane_rows _ _ Hs) as (sa & Hsa & _ & _ & Hcnt).
    unfold AntSel.aggregate_stats, mbind, SE_bind, se_get, se_modify, se_lift. rewrite Hsa, Hn. cbn [map bool_decide].
    set (m := (if _ : bool then AntSel.select_tx_antenna conf scr sa else mret tt) : SE AntSel.sel unit).
    assert (Hm : exists s1, m (AntSel.set_cur_stats [] s) = (s1, Ok tt) /\ AntSel.cur_stats s1 = [] /\ AntSel.rssi_calls s1 = AntSel.rssi_calls s).
    { unfold m. destruct (_ && _); [| by eexists].
      destruct (AntSel.select_spec conf scr da Hda Hda0 (AntSel.set_cur_stats [] s) sa Hcnt) as (s1 & -> & Hcase). exists s1.
      split; [done |]. destruct Hcase as [[_ ->] | (? & ? & ? & ? & _ & _ & _ & [[_ ->] | [_ ->]])]; done. }
    destruct Hm as (s1 & -> & Hc & Hr). exists s1, (AntSel.RssiReport 0 0 0 0 0). rewrite app_nil_r. done.
  - destruct (AntSel.aggregate_spec conf scr rcr da s Hda Hda0 Hn Hs) as (sa & r & s' & _ & _ & Ha & Hc & Hr & _). by exists s', r.
Qed.

Lemma healthy_inv ids st : 0 <= B -> Z.of_nat (length ids) * B < 2 ^ 53 -> healthy ids st -> site_inv ids st.
Proof using Hq Hda Hda0.
  intros HB0 HB. induction 1 as [lg rx_only temp | st now i d _ IH Hg | st now i ts ep ft fk fn _ IH Ht | st _ IH Hr | st s' _ IH Hc].
  - split; cbn; try done; [| | constructor | set_solver | set_solver].
    + rewrite map_map. cbn. apply map_id.
    + apply Forall_map, Forall_true. done.
  - by apply inv_dump.
  - by apply inv_session.
  - destruct (aggregate_runs (selector st)) as (s' & r & Ha & Hc & _); [by eapply inv_sane |]. unfold tick. rewrite Ha.
    destruct IH as [H1 H2 H3 H4 H5 H6]. split; cbn; try done; rewrite Hc; [constructor | set_solver | set_solver].
  - destruct (sel_call_outcome _ _ Hc) as [_ Hcur]. destruct IH as [H1 H2 H3 H4 H5 H6]. split; cbn; rewrite ?Hcur; done.
Qed.

End Healthy.

(** C16: with healthy receivers the statistics never stop: in every history in
    which receivers print dumps with positive counts (less than 2^53 packets
    for all receivers together) and announce sessions, in any interleaving with
    the timer, new callbacks, transmitter reports and sessions, the loop is
    running, and the next interval ends with exactly one report to every
    registered callback and the loop still running. *)
Theorem statistics_keep_running da B ids st : (forall ui m, uir ui m = None) ->
  AntSel.tx_sel_counter_abs_delta conf = PyNum.NInt da -> 0 <= da -> 0 <= B -> Z.of_nat (length ids) * B < 2 ^ 53 ->
  healthy B ids st ->
  lc_running st = true /\ lc_running (tick st) = true /\
  exists r, AntSel.rssi_calls (selector (tick st)) =
    AntSel.rssi_calls (selector st) ++ map (fun cb => (cb, r)) (AntSel.rssi_cb_l (selector st)).
Proof using Type.
  intros Hq Hda Hda0 HB0 HB Hh. pose proof (healthy_inv Hq da Hda Hda0 B ids st HB0 HB Hh) as Hi.
  split; [apply (inv_run _ _ _ Hi) |].
  destruct (aggregate_runs da Hda Hda0 (selector st)) as (s' & r & Ha & _ & Hr); [by eapply inv_sane |].
  unfold tick. rewrite Ha. split; [done |]. by exists r.
Qed.

End Loop.

(** ** Concrete histories *)

Definition quiet2 {A B} : A -> B -> option exn := fun _ _ => None.

(** Two receivers, one RSSI callback, one dump of each receiver. *)
Definition demo_site : site :=
  let st := init_site None ∅ None ["video rx"; "mavlink rx"]%string in
  on_selector (AntSel.add_rssi_cb 7 (selector st)).1 st.

Definition demo_dumped : site :=
  lines demo_quiet demo_now 1 (dump_stats demo_dump2) (lines demo_quiet demo_now 0 (dump_stats demo_dump1) demo_site).

Lemma demo_healthy : healthy AntSel.demo_conf quiet2 quiet2 demo_quiet 1000 ["video rx"; "mavlink rx"]%string demo_dumped.
Proof.
  apply healthy_dump; [apply healthy_dump; [apply healthy_call; [apply healthy_init | apply call_add_rssi] |] |].
  - split; [exact demo_dump1_ok |]. split; [repeat constructor; cbn; lia | cbn; lia].
  - split; [exact demo_dump2_ok |]. split; [repeat constructor; cbn; lia | cbn; lia].
Qed.

Lemma statistics_keep_running_witness :
  lc_running (tick AntSel.demo_conf quiet2 quiet2 demo_dumped) = true /\
  exists r, AntSel.rssi_calls (selector (tick AntSel.demo_conf quiet2 quiet2 demo_dumped)) = [(7%nat, r)].
Proof.
  destruct (statistics_keep_running AntSel.demo_conf quiet2 quiet2 demo_quiet 3 1000 ["video rx"; "mavlink rx"]%string demo_dumped)
    as (_ & Hr & r & Hc); [done | reflexivity | lia | lia | cbn; lia | exact demo_healthy |].
  split; [exact Hr |]. exists r. rewrite Hc. reflexivity.
Defined.

(** The same station, an antenna line of the first receiver that lacks a value,
    the end of the interval, and another good dump. *)
Lemma bad_line_stops_statistics_witness : exists broken after,
  broken = tick AntSel.demo_conf quiet2 quiet2
    (lines demo_quiet demo_now 0 (raw_lines 3000 [5805; 1; 20] 256 [10; -60; -55; -50; 10; 20] [10; 1000; 0; 1; 9; 9; 1; 2; 0; 8; 900]) demo_dumped) /\
  after = lines demo_quiet demo_now 1 (dump_stats demo_dump2) broken /\
  lc_running broken = false /\ lc_running after = false /\ AntSel.tx_sel (selector after) = None /\ AntSel.rssi_calls (selector after) = [].
Proof.
  assert (Hw : exists w, receivers demo_dumped !! 0%nat = Some w) by (eexists; vm_compute; reflexivity). destruct Hw as [w Hw].
  destruct (bad_line_stops_statistics AntSel.demo_conf quiet2 quiet2 demo_quiet (Raise AssertionError) demo_now 0 w demo_dumped 3000
    [5805; 1; 20] 256 [10; -60; -55; -50; 10; 20] [10; 1000; 0; 1; 9; 9; 1; 2; 0; 8; 900]) as (_ & Hf & H);
    [exact Hw | lia | lia | discriminate | discriminate | reflexivity | cbn; lia |].
  revert Hf H. generalize (eq_refl (tick AntSel.demo_conf quiet2 quiet2
    (lines demo_quiet demo_now 0 (raw_lines 3000 [5805; 1; 20] 256 [10; -60; -55; -50; 10; 20] [10; 1000; 0; 1; 9; 9; 1; 2; 0; 8; 900]) demo_dumped))).
  generalize (tick AntSel.demo_conf quiet2 quiet2
    (lines demo_quiet demo_now 0 (raw_lines 3000 [5805; 1; 20] 256 [10; -60; -55; -50; 10; 20] [10; 1000; 0; 1; 9; 9; 1; 2; 0; 8; 900]) demo_dumped)) at 1 3 4.
  intros broken Hb Hf H. exists broken, (lines demo_quiet demo_now 1 (dump_stats demo_dump2) broken).
  destruct (H _ (rtc_once _ _ (site_lines _ _ _ _ _ broken demo_now 1 (dump_stats demo_dump2)))) as (H1 & H2 & H3).
  split; [exact Hb |]. split; [reflexivity |]. split; [exact Hf |]. split; [exact H1 |]. rewrite H2, H3. split; vm_compute; reflexivity.
Defined.

End StatsLoop.
