(* ===== verification/LogQueue.v ===== *)
(** [ErrorSafeLogFile] of src/wfb_ng/__init__.py: a bounded queue between the
    threads that log and the thread that writes the file.  The threads are
    interleaved at their atomic steps: a producer's [put_nowait], its locked
    increment of the overflow counter, and each action of the writer's loop. *)
From Stdlib Require Import ZArith Lia Bool.
From stdpp Require Import base list numbers.
From S2P Require Import Prelude.

Module LogQueue.
Section Queue.
Context {D : Type}.

(** Class attributes: the bound of the queue, whether notices are left out,
    and whether the file is flushed after every write ([flush_delay == 0]). *)
Record log_conf := LogConf { log_max : nat; binary : bool; flush_each : bool }.

(** What the log file gets: items, notices of dropped items, and the first [k]
    characters of an entry whose write failed. *)
Inductive entry := Item (d : D) | Notice (n : nat) | Torn (e : entry) (k : nat).

(** Where the writer thread is in its loop; a thread that died keeps the item
    it had taken. *)
Inductive pc :=
| PLoop
| PGet
| PGot (d : D)
| PNotice (n : nat) (d : D)
| PWrite (d : D)
| PDone
| PStopped
| PDead (lost : list D).

(** Which file operations raise in one writer step, and how much of the entry a
    write leaves in the file before it raises. *)
Record io := Io { open_fails : bool; write_fails : bool; flush_fails : bool; close_fails : bool; torn_at : option nat }.

Definition io_ok (x : io) : Prop :=
  open_fails x = false /\ write_fails x = false /\ flush_fails x = false.

(** The object.  [pending] counts producers between [queue.Full] and the
    increment; [unfinished] is the counter [Queue.join] waits for.  The last
    three fields record what was accepted, how many items were refused, and the
    items the writer is done with. *)
Record log_state := LogState {
  log_queue : list D;
  log_queue_overflow : nat;
  pending : nat;
  thread : pc;
  logfile : bool;
  need_stop : bool;
  unfinished : nat;
  file : list entry;
  accepted : list D;
  refused : nat;
  handled : list D
}.

Definition set_thread p s := LogState (log_queue s) (log_queue_overflow s) (pending s) p (logfile s)
  (need_stop s) (unfinished s) (file s) (accepted s) (refused s) (handled s).
Definition set_logfile b s := LogState (log_queue s) (log_queue_overflow s) (pending s) (thread s) b
  (need_stop s) (unfinished s) (file s) (accepted s) (refused s) (handled s).
Definition add_entry e s := LogState (log_queue s) (log_queue_overflow s) (pending s) (thread s) (logfile s)
  (need_stop s) (unfinished s) (file s ++ [e]) (accepted s) (refused s) (handled s).

Context (c : log_conf).

Definition init_log : log_state := LogState [] 0 0 PLoop false false 0 [] [] 0 [].

(** [write]: [put_nowait], or [queue.Full]; a [Queue(0)] is unbounded. *)
Definition write_put (d : D) (s : log_state) : log_state :=
  if (log_max c =? 0)%nat || (length (log_queue s) <? log_max c)%nat then
    LogState (log_queue s ++ [d]) (log_queue_overflow s) (pending s) (thread s) (logfile s) (need_stop s)
             (S (unfinished s)) (file s) (accepted s ++ [d]) (refused s) (handled s)
  else
    LogState (log_queue s) (log_queue_overflow s) (S (pending s)) (thread s) (logfile s) (need_stop s)
             (unfinished s) (file s) (accepted s) (S (refused s)) (handled s).

(** [with self.lock: self.log_queue_overflow += 1] of a refused [write]. *)
Definition write_overflow (s : log_state) : log_state :=
  match pending s with
  | O => s
  | S k => LogState (log_queue s) (S (log_queue_overflow s)) k (thread s) (logfile s) (need_stop s)
             (unfinished s) (file s) (accepted s) (refused s) (handled s)
  end.

(** The handler of [close_if_failed]: the file is closed; [false] when closing
    raises as well, which ends the thread. *)
Definition close_after_error (x : io) (s : log_state) : log_state * bool :=
  if logfile s then (if close_fails x then (s, false) else (set_logfile false s, true)) else (s, true).

(** [_write] under [close_if_failed]. *)
Definition do_write (x : io) (e : entry) (s : log_state) : log_state * bool :=
  if negb (logfile s) && open_fails x then close_after_error x s
  else
    let s := set_logfile true s in
    if write_fails x then
      close_after_error x (match torn_at x with Some k => add_entry (Torn e k) s | None => s end)
    else
      let s := add_entry e s in
      if flush_each c && flush_fails x then close_after_error x s else (s, true).

(** [_flush] under [close_if_failed]. *)
Definition do_flush (x : io) (s : log_state) : log_state * bool :=
  if logfile s && flush_fails x then close_after_error x s else (s, true).

(** The thread goes on at [p], or dies with the item it holds. *)
Definition continue (r : log_state * bool) (p : pc) (held : list D) : log_state :=
  set_thread (if r.2 then p else PDead held) r.1.

Definition finish_item (d : D) (s : log_state) : log_state :=
  LogState (log_queue s) (log_queue_overflow s) (pending s) PDone (logfile s) (need_stop s) (unfinished s)
    (file s) (accepted s) (refused s) (handled s ++ [d]).

(** One atomic action of [_log_thread_loop]; [due] tells whether the flush
    delay has passed. *)
Definition thread_step (due : bool) (x : io) (s : log_state) : log_state :=
  match thread s with
  | PLoop =>
      if need_stop s then set_thread PStopped s
      else if negb (flush_each c) && due then continue (do_flush x s) PGet []
      else set_thread PGet s
  | PGet =>
      match log_queue s with
      | [] => set_thread PLoop s
      | d :: q => LogState q (log_queue_overflow s) (pending s) (PGot d) (logfile s) (need_stop s)
                    (unfinished s) (file s) (accepted s) (refused s) (handled s)
      end
  | PGot d =>
      LogState (log_queue s) 0 (pending s) (PNotice (log_queue_overflow s) d) (logfile s) (need_stop s)
        (unfinished s) (file s) (accepted s) (refused s) (handled s)
  | PNotice n d =>
      if negb (n =? 0)%nat && negb (binary c) then continue (do_write x (Notice n) s) (PWrite d) [d]
      else set_thread (PWrite d) s
  | PWrite d =>
      let r := do_write x (Item d) s in
      if r.2 then finish_item d r.1 else set_thread (PDead [d]) r.1
  | PDone =>
      LogState (log_queue s) (log_queue_overflow s) (pending s) PLoop (logfile s) (need_stop s)
        (pred (unfinished s)) (file s) (accepted s) (refused s) (handled s)
  | PStopped | PDead _ => s
  end.

(** [_cleanup]: [join] returns when nothing is unfinished; then the thread is
    told to stop. *)
Definition cleanup_join (s : log_state) : bool := (unfinished s =? 0)%nat.
Definition cleanup_stop (s : log_state) : log_state :=
  LogState (log_queue s) (log_queue_overflow s) (pending s) (thread s) (logfile s) true (unfinished s)
    (file s) (accepted s) (refused s) (handled s).

(** ** Interleavings *)

Inductive event :=
| EPut (d : D)
| EOverflow
| EThread (due : bool) (x : io)
| EStop.

Definition step (s : log_state) (e : event) : log_state :=
  match e with
  | EPut d => write_put d s
  | EOverflow => write_overflow s
  | EThread due x => thread_step due x s
  | EStop => if cleanup_join s then cleanup_stop s else s
  end.

Definition run : list event -> log_state -> log_state := fun es s => fold_left step es s.

(** ** Specification *)

(** The item the writer has taken and not yet written. *)
Definition in_hand (p : pc) : list D :=
  match p with PGot d | PNotice _ d | PWrite d => [d] | PDead l => l | _ => [] end.

(** The item a dead writer may have written. *)
Definition last_item (p : pc) : list D := match p with PDead l => l | _ => [] end.

(** The overflow count the writer has taken and not yet noted. *)
Definition in_transit (p : pc) : nat := match p with PNotice n _ => n | _ => 0 end.

Definition items (l : list entry) : list D :=
  concat (map (fun e => match e with Item d => [d] | _ => [] end) l).

Definition noted (l : list entry) : nat :=
  fold_right Nat.add 0%nat (map (fun e => match e with Notice n => n | _ => 0%nat end) l).

#[local] Arguments items : simpl never.
#[local] Arguments noted : simpl never.

Definition busy (p : pc) : nat :=
  match p with PGot _ | PNotice _ _ | PWrite _ | PDone => 1 | PDead l => length l | _ => 0 end.

Record log_inv (s : log_state) : Prop := {
  li_bound : (log_max c = 0 \/ length (log_queue s) <= log_max c)%nat;
  li_fifo : accepted s = handled s ++ in_hand (thread s) ++ log_queue s;
  li_unfinished : unfinished s = (length (log_queue s) + busy (thread s))%nat;
  li_sub : items (file s) `sublist_of` handled s ++ last_item (thread s);
  li_refused : (pending s + log_queue_overflow s + in_transit (thread s) + noted (file s) <= refused s)%nat
}.

(** What holds besides when no file operation fails. *)
Record log_exact (s : log_state) : Prop := {
  le_items : items (file s) = handled s;
  le_alive : forall l, thread s <> PDead l;
  le_refused : binary c = false ->
    refused s = (pending s + log_queue_overflow s + in_transit (thread s) + noted (file s))%nat
}.

Lemma items_snoc l e : items (l ++ [e]) = items l ++ match e with Item d => [d] | _ => [] end.
Proof using Type. unfold items. rewrite map_app, concat_app. cbn. by rewrite app_nil_r. Qed.

Lemma noted_snoc l e : noted (l ++ [e]) = (noted l + match e with Notice n => n | _ => 0 end)%nat.
Proof using Type.
  unfold noted. rewrite map_app, fold_right_app. cbn.
  generalize (match e with Notice n => n | _ => 0 end)%nat as k. intros k.
  induction l as [|x l IH]; cbn; [lia | rewrite IH; lia].
Qed.

(** The file holds handled items, in order, and perhaps the last one of a writer
    that died; those it did not get are paid for by failed writes: [n] so far. *)
Definition paid (n : nat) (s : log_state) : Prop := exists kept tl, items (file s) = kept ++ tl /\
  kept `sublist_of` handled s /\ tl `sublist_of` last_item (thread s) /\ (length (handled s) <= length kept + n)%nat.

(** A writer step in which opening or writing the file raises. *)
Definition faulty (x : io) : bool := open_fails x || write_fails x.

(** What a write adds to the file. *)
Definition added (x : io) (e : entry) (l : list entry) : Prop :=
  l = [e] \/ faulty x = true /\ (l = [] \/ exists k, l = [Torn e k]).

(** A write touches the file and its handle only. *)
Definition same_but_file (s s' : log_state) : Prop :=
  log_queue s' = log_queue s /\ log_queue_overflow s' = log_queue_overflow s /\ pending s' = pending s /\
  thread s' = thread s /\ need_stop s' = need_stop s /\ unfinished s' = unfinished s /\
  accepted s' = accepted s /\ refused s' = refused s /\ handled s' = handled s.

Lemma do_write_spec x e s : same_but_file s (do_write x e s).1 /\
  (exists l, file (do_write x e s).1 = file s ++ l /\ added x e l) /\
  (io_ok x -> do_write x e s = (add_entry e (set_logfile true s), true)).
Proof using Type.
  unfold do_write, close_after_error, io_ok, same_but_file, added, faulty. destruct x as [o w f cl [k|]]; cbn; split_and!;
    try (intros (-> & -> & ->); by rewrite !andb_false_r).
  all: destruct (logfile s), o, w, (flush_each c), f, cl; cbn; try done.
  all: first [exists [e]; by auto | exists []; rewrite app_nil_r; by auto | exists [Torn e k]; by eauto 6].
Qed.

(** What it adds, read as items and as notices. *)
Lemma added_items x e l s : added x e l ->
  (items (s ++ l) = items s \/ items (s ++ l) = items (s ++ [e])) /\ (noted (s ++ l) <= noted (s ++ [e]))%nat /\
  (faulty x = false -> l = [e]).
Proof using Type.
  intros [-> | [Hf [-> | [k ->]]]]; [by auto | |]; rewrite ?Hf, ?app_nil_r, ?items_snoc, ?noted_snoc, ?app_nil_r; split_and!; auto; lia.
Qed.

Lemma do_flush_spec x s : same_but_file s (do_flush x s).1 /\ file (do_flush x s).1 = file s /\
  (io_ok x -> do_flush x s = (s, true)).
Proof using Type.
  unfold do_flush, close_after_error, io_ok, same_but_file. destruct x as [o w f cl k]. cbn.
  split; [| split].
  - destruct (logfile s), f, cl; cbn; done.
  - destruct (logfile s), f, cl; cbn; done.
  - intros (_ & _ & ->). by rewrite andb_false_r.
Qed.

Ltac same_file H := destruct H as (Fq & Fo & Fp & Ft & Fn & Fu & Fa & Fr & Fh).

Lemma put_inv d s : log_inv s -> log_inv (write_put d s).
Proof using Type.
  intros [Hb Hf Hu Hs Hr]. unfold write_put.
  destruct (Nat.eqb_spec (log_max c) 0), (Nat.ltb_spec (length (log_queue s)) (log_max c)); constructor; cbn; try done.
  all: rewrite ?length_app, ?Hf, <- ?app_assoc; cbn; try done; lia.
Qed.

Lemma overflow_inv s : log_inv s -> log_inv (write_overflow s).
Proof using Type.
  intros [Hb Hf Hu Hs Hr]. unfold write_overflow. destruct (pending s) eqn:E; constructor; cbn; try done; lia.
Qed.

Lemma thread_inv due x s : log_inv s -> log_inv (thread_step due x s).
Proof using Type.
  intros [Hb Hf Hu Hs Hr]. unfold thread_step. destruct (thread s) as [ | |d|n d|d| | |l] eqn:Et; cbn in *; rewrite ?app_nil_r in Hs.
  - destruct (need_stop s); [constructor; cbn; by rewrite ?app_nil_r |].
    destruct (negb (flush_each c) && due); [| constructor; cbn; by rewrite ?app_nil_r].
    destruct (do_flush_spec x s) as (Hsame & Hfile & _). unfold continue. destruct (do_flush x s) as [s' b].
    cbn [fst snd] in *. same_file Hsame.
    destruct b; constructor; cbn; rewrite ?Fq, ?Fo, ?Fp, ?Fu, ?Fa, ?Fr, ?Fh, ?Hfile, ?app_nil_r; try done; lia.
  - destruct (log_queue s) as [|d q] eqn:Eq; constructor; cbn in *;
      rewrite ?Eq, ?app_nil_r in *; try done; try lia.
  - constructor; cbn; rewrite ?app_nil_r; try done; lia.
  - destruct (negb (n =? 0)%nat && negb (binary c)) eqn:Ew; [| constructor; cbn; rewrite ?app_nil_r; try done; lia].
    destruct (do_write_spec x (Notice n) s) as (Hsame & (l & Hfile & Hl) & _). unfold continue.
    destruct (do_write x (Notice n) s) as [s' b]. cbn [fst snd] in *. same_file Hsame.
    destruct (added_items x (Notice n) l (file s) Hl) as (Hit & Hno & _). rewrite items_snoc, app_nil_r in Hit. rewrite noted_snoc in Hno.
    assert (items (file s') = items (file s)) as Ei by (rewrite Hfile; tauto).
    destruct b; constructor; cbn; rewrite ?Fq, ?Fo, ?Fp, ?Fu, ?Fa, ?Fr, ?Fh, ?Ei, ?app_nil_r; try done; try (rewrite Hfile; lia).
    by apply sublist_inserts_r.
  - destruct (do_write_spec x (Item d) s) as (Hsame & (l & Hfile & Hl) & _).
    destruct (do_write x (Item d) s) as [s' b]. cbn [fst snd] in *. same_file Hsame.
    destruct (added_items x (Item d) l (file s) Hl) as (Hit & Hno & _). rewrite <- Hfile, noted_snoc in Hno.
    assert (Hsub : items (file s') `sublist_of` handled s ++ [d]).
    { rewrite Hfile. destruct Hit as [-> | ->]; [by apply sublist_inserts_r |]. rewrite items_snoc. by apply sublist_app. }
    destruct b; constructor; cbn; rewrite ?Fq, ?Fo, ?Fp, ?Fu, ?Fa, ?Fr, ?Fh, ?app_nil_r; try done; try lia;
      by rewrite Hf, <- app_assoc.
  - constructor; cbn; rewrite ?app_nil_r; try done; lia.
  - constructor; cbn; rewrite ?Et, ?app_nil_r; try done.
  - constructor; cbn; rewrite ?Et; try done.
Qed.

Lemma log_step_inv s e : log_inv s -> log_inv (step s e).
Proof using Type.
  intros Hs. destruct e as [d | | due x |]; cbn [step];
    [by apply put_inv | by apply overflow_inv | by apply thread_inv |].
  destruct (cleanup_join s); [| done]. by destruct Hs; constructor.
Qed.

Lemma log_run_inv es s : log_inv s -> log_inv (run es s).
Proof using Type. revert s. induction es as [|e es IH]; intros s Hs; [done |]. apply IH. by apply log_step_inv. Qed.

Lemma init_log_inv : log_inv init_log.
Proof using Type. constructor; cbn; try done; lia. Qed.

(** Failed writes pay for the items that are handled and not in the file. *)
Definition fault (e : event) : nat := match e with EThread _ x => if faulty x then 1 else 0 | _ => 0 end.
Definition faults (es : list event) : nat := fold_right Nat.add 0%nat (map fault es).

Lemma paid_alive n s : last_item (thread s) = [] ->
  paid n s <-> items (file s) `sublist_of` handled s /\ (length (handled s) <= length (items (file s)) + n)%nat.
Proof using Type.
  unfold paid. intros ->. split.
  - intros (kept & tl & -> & Hk & Ht & Hl). apply sublist_nil_r in Ht as ->. by rewrite app_nil_r.
  - intros [Hs Hl]. exists (items (file s)), []. by rewrite app_nil_r.
Qed.

(** A step that leaves the items of the file and the handled ones alone. *)
Lemma paid_same n k s s' : last_item (thread s) = [] -> items (file s') = items (file s) -> handled s' = handled s ->
  paid n s -> paid (n + k) s'.
Proof using Type.
  intros Ht Hi Hh (Hs & Hl)%paid_alive; [| done]. exists (items (file s)), []. rewrite Hi, Hh, app_nil_r. split_and!; try done; [| lia].
  apply sublist_nil_l.
Qed.

Lemma thread_paid n due x s : paid n s -> paid (n + fault (EThread due x)) (thread_step due x s).
Proof using Type.
  intros Hp. unfold thread_step. destruct (thread s) as [ | |d|k d|d| | |l] eqn:Et; cbn [fault];
    try (by apply (paid_same n _ s); cbn; rewrite ?Et).
  - destruct (need_stop s); [by apply (paid_same n _ s); cbn; rewrite ?Et |].
    destruct (negb (flush_each c) && due); [| by apply (paid_same n _ s); cbn; rewrite ?Et].
    destruct (do_flush_spec x s) as (Hsame & Hfile & _). unfold continue. destruct (do_flush x s) as [s' b]. cbn [fst snd] in *.
    same_file Hsame. by apply (paid_same n _ s); cbn; rewrite ?Et, ?Hfile.
  - destruct (log_queue s); by apply (paid_same n _ s); cbn; rewrite ?Et.
  - destruct (negb (k =? 0)%nat && negb (binary c)); [| by apply (paid_same n _ s); cbn; rewrite ?Et].
    destruct (do_write_spec x (Notice k) s) as (Hsame & (l & Hfile & Hl) & _). unfold continue.
    destruct (do_write x (Notice k) s) as [s' b]. cbn [fst snd] in *. same_file Hsame.
    destruct (added_items x _ l (file s) Hl) as (Hit & _ & _). rewrite items_snoc, app_nil_r, <- Hfile in Hit.
    apply (paid_same n _ s); cbn; rewrite ?Et; tauto.
  - destruct (do_write_spec x (Item d) s) as (Hsame & (l & Hfile & Hl) & _).
    destruct (do_write x (Item d) s) as [s' b]. cbn [fst snd] in *. same_file Hsame.
    destruct (added_items x (Item d) l (file s) Hl) as (Hit & _ & Hone). rewrite items_snoc, <- Hfile in Hit.
    apply paid_alive in Hp as [Hs Hlen]; [| by rewrite Et]. destruct b.
    + apply paid_alive; [done |]. cbn. rewrite Fh, length_app. cbn [length]. split.
      * destruct Hit as [-> | ->]; [by apply sublist_inserts_r | by apply sublist_app].
      * destruct (faulty x); [destruct Hit as [-> | ->]; rewrite ?length_app; cbn [length]; lia |].
        rewrite Hfile, (Hone eq_refl), items_snoc, length_app. cbn [length]. lia.
    + unfold paid. cbn. rewrite Fh. destruct Hit as [-> | ->]; [exists (items (file s)), [] | exists (items (file s)), [d]];
        rewrite ?app_nil_r; split_and!; try done; try lia; apply sublist_nil_l.
  - unfold paid in *. rewrite Et in *. destruct Hp as (kept & tl & H1 & H2 & H3 & H4). exists kept, tl. split_and!; try done. lia.
Qed.

Lemma run_paid es : paid (faults es) (run es init_log).
Proof using Type.
  unfold run. assert (H : forall n s, paid n s -> paid (n + faults es) (run es s)); [| apply (H 0%nat); apply paid_alive; [done | split; [apply sublist_nil_l | cbn; lia]]].
  induction es as [|e es IH]; intros n s Hs; [cbn; by rewrite Nat.add_0_r |].
  change (faults (e :: es)) with (fault e + faults es)%nat. rewrite Nat.add_assoc. apply (IH (n + fault e)%nat (step s e)).
  destruct e as [d | | due x |]; cbn [step fault]; [ | | by apply thread_paid |]; rewrite Nat.add_0_r.
  - unfold write_put. by destruct (_ || _).
  - unfold write_overflow. by destruct (pending s).
  - by destruct (cleanup_join s).
Qed.

(** Events whose file operations all succeed. *)
Definition quiet (e : event) : Prop := match e with EThread _ x => io_ok x | _ => True end.

Lemma thread_exact due x s : io_ok x -> log_inv s -> log_exact s -> log_exact (thread_step due x s).
Proof using Type.
  intros Hx [Hb Hf Hu Hs Hr] [Hi Hal Hre]. unfold thread_step.
  destruct (thread s) as [ | |d|n d|d| | |l] eqn:Et; cbn in *.
  - destruct (need_stop s); [constructor; cbn; try done; congruence |].
    destruct (negb (flush_each c) && due); [| constructor; cbn; try done; congruence].
    destruct (do_flush_spec x s) as (_ & _ & ->); [| done]. constructor; cbn; try done; congruence.
  - destruct (log_queue s) as [|d q]; constructor; cbn in *; try done; congruence.
  - constructor; cbn; try done. intros Hbin. rewrite (Hre Hbin). lia.
  - destruct (negb (n =? 0)%nat && negb (binary c)) eqn:Ew.
    + destruct (do_write_spec x (Notice n) s) as (_ & _ & ->); [| done].
      constructor; cbn; rewrite ?items_snoc, ?noted_snoc, ?app_nil_r; try done.
      intros Hbin. rewrite (Hre Hbin). lia.
    + constructor; cbn; try done. intros Hbin. rewrite (Hre Hbin). rewrite Hbin in Ew.
      destruct n; [lia | done].
  - destruct (do_write_spec x (Item d) s) as (_ & _ & ->); [| done].
    constructor; cbn; rewrite ?items_snoc, ?noted_snoc; cbn; try done; [congruence |].
    intros Hbin. rewrite (Hre Hbin). lia.
  - constructor; cbn; try done; congruence.
  - constructor; cbn; rewrite ?Et; try done.
  - by destruct (Hal l).
Qed.

Lemma log_run_exact es s : Forall quiet es -> log_inv s -> log_exact s -> log_exact (run es s).
Proof using Type.
  intros Hes. revert s. induction Hes as [|e es He _ IH]; intros s Hi Hs; [done |].
  apply IH; [by apply log_step_inv |].
  destruct e as [d | | due x |]; cbn [step]; [ | | by apply thread_exact |].
  - destruct Hs as [H1 H2 H3]. unfold write_put. destruct (_ || _); constructor; cbn; try done.
    intros Hb. rewrite (H3 Hb). lia.
  - destruct Hs as [H1 H2 H3]. unfold write_overflow. destruct (pending s) eqn:E; constructor; cbn; try done.
    + rewrite E. done.
    + intros Hb. rewrite (H3 Hb). lia.
  - destruct (cleanup_join s); [| done]. by destruct Hs; constructor.
Qed.

Lemma init_log_exact : log_exact init_log.
Proof using Type. by constructor. Qed.

(** In binary mode nothing but items is written, when no write fails. *)
Definition only_items (l : list entry) : Prop := Forall (fun e => exists d, e = Item d) l.

Lemma do_write_items x d s : io_ok x -> only_items (file s) -> only_items (file (do_write x (Item d) s).1).
Proof using Type.
  intros Hx H. destruct (do_write_spec x (Item d) s) as (_ & _ & ->); [| done].
  apply Forall_app. split; [done |]. repeat constructor. eauto.
Qed.

Lemma binary_only_items es s : binary c = true -> Forall quiet es -> only_items (file s) -> only_items (file (run es s)).
Proof using Type.
  intros Hb Hes. revert s. induction Hes as [|e es He _ IH]; intros s Hs; [done |]. apply IH.
  destruct e as [d | | due x |]; cbn [step].
  - unfold write_put. by destruct (_ || _).
  - unfold write_overflow. by destruct (pending s).
  - unfold thread_step. destruct (thread s) as [ | |d|n d|d| | |l]; cbn; try done.
    + destruct (need_stop s); [done |]. destruct (_ && _); [| done]. cbn.
      by destruct (do_flush_spec x s) as (_ & -> & _).
    + by destruct (log_queue s).
    + rewrite Hb, andb_false_r. done.
    + pose proof (do_write_items x d s He Hs). by destruct (do_write x (Item d) s) as [s' []].
  - by destruct (cleanup_join s).
Qed.

(** ** Termination of [join] *)

(** A bound on the writer's steps until nothing is unfinished. *)
Definition stage (p : pc) : nat :=
  match p with PGot _ => 6 | PNotice _ _ => 5 | PWrite _ => 4 | PDone => 3 | PLoop => 2 | PGet => 1 | _ => 0 end.
Definition backlog (s : log_state) : nat := (6 * length (log_queue s) + stage (thread s))%nat.

(** The writer is in its loop. *)
Definition running (s : log_state) : Prop :=
  need_stop s = false /\ match thread s with PStopped | PDead _ => False | _ => True end.

(** A fault-free step of the writer alone: it keeps running, and either nothing
    is left to do afterwards or the backlog has shrunk. *)
Lemma thread_progress due x s : io_ok x -> log_inv s -> running s ->
  running (thread_step due x s) /\
  (cleanup_join (thread_step due x s) = true \/ (backlog (thread_step due x s) < backlog s)%nat) /\
  (unfinished s = 0 -> unfinished (thread_step due x s) = 0)%nat.
Proof using Type.
  intros Hx [_ _ Hu _ _] [Hn Ha]. unfold thread_step, running, backlog, cleanup_join.
  destruct (thread s) as [ | |d|n d|d| | |l] eqn:Et; cbn [busy] in Hu; try done.
  - rewrite Hn. destruct (negb (flush_each c) && due).
    + destruct (do_flush_spec x s) as (_ & _ & ->); [| done]. cbn. repeat split; auto with lia.
    + cbn. repeat split; auto with lia.
  - destruct (log_queue s) as [|d q] eqn:Eq; cbn in *; repeat split; auto; try lia.
    left. by rewrite Hu.
  - cbn. repeat split; auto with lia.
  - destruct (negb (n =? 0)%nat && negb (binary c)).
    + destruct (do_write_spec x (Notice n) s) as (_ & _ & ->); [| done]. cbn. repeat split; auto with lia.
    + cbn. repeat split; auto with lia.
  - destruct (do_write_spec x (Item d) s) as (_ & _ & ->); [| done]. cbn. repeat split; auto with lia.
  - cbn. repeat split; auto; lia.
Qed.

(** Steps of the writer only, none of which fails. *)
Definition writer_turn (e : event) : Prop := match e with EThread _ x => io_ok x | _ => False end.

Lemma idle_stays es s : Forall writer_turn es -> log_inv s -> running s ->
  unfinished s = 0%nat -> unfinished (run es s) = 0%nat.
Proof using Type.
  intros Hes. revert s. induction Hes as [|e es He _ IH]; intros s Hi Hr Hz; [done |].
  destruct e as [d | | due x |]; try done. cbn [writer_turn] in He.
  destruct (thread_progress due x s He Hi Hr) as (Hr' & _ & Hz').
  apply IH; cbn [step]; auto. by apply thread_inv.
Qed.

Lemma writer_drains es s : Forall writer_turn es -> log_inv s -> running s ->
  (backlog s < length es)%nat -> cleanup_join (run es s) = true.
Proof using Type.
  intros Hes. revert s. induction Hes as [|e es He Hes IH]; intros s Hi Hr Hl; cbn [length] in Hl; [lia |].
  destruct e as [d | | due x |]; try done. cbn [writer_turn] in He.
  destruct (thread_progress due x s He Hi Hr) as (Hr' & Hp & _).
  change (run (EThread due x :: es) s) with (run es (thread_step due x s)).
  pose proof (thread_inv due x s Hi) as Hi'. destruct Hp as [Hj | Hlt]; [| apply IH; auto; lia].
  unfold cleanup_join in *. apply Nat.eqb_eq in Hj. by rewrite (idle_stays es).
Qed.

(** A writer that died with an item keeps [join] waiting. *)
Lemma dead_forever es d s : log_inv s -> thread s = PDead [d] ->
  thread (run es s) = PDead [d] /\ cleanup_join (run es s) = false.
Proof using Type.
  revert s. induction es as [|e es IH]; intros s Hi Ht.
  - split; [done |]. destruct Hi as [_ _ Hu _ _]. rewrite Ht in Hu. unfold cleanup_join. cbn in *.
    rewrite Hu. apply Nat.eqb_neq. lia.
  - apply IH; [by apply log_step_inv |]. destruct e as [d' | | due x |]; cbn [step].
    + unfold write_put. by destruct (_ || _).
    + unfold write_overflow. by destruct (pending s).
    + unfold thread_step. by rewrite Ht.
    + by destruct (cleanup_join s).
Qed.

(** C23: for every interleaving of any number of logging threads, the writer
    thread and [_cleanup], and whatever file operations fail, the queue stays
    within its bound; the accepted items are exactly the items handled, the one
    in the writer's hand and the queued ones, in order; the file holds the
    handled items in order, all but at most one for every writer step in which
    opening or writing the file raised (a writer that died may also have written
    its last one), and nothing made up; and at most the refused writes are
    counted in notices. *)
Theorem log_conservation es :
  let s := run es init_log in
  (log_max c = 0 \/ length (log_queue s) <= log_max c)%nat /\
  accepted s = handled s ++ in_hand (thread s) ++ log_queue s /\
  (exists kept tl, items (file s) = kept ++ tl /\ kept `sublist_of` handled s /\ tl `sublist_of` last_item (thread s) /\
    (length (handled s) <= length kept + faults es)%nat) /\
  (noted (file s) <= refused s)%nat.
Proof using Type.
  cbv zeta. destruct (log_run_inv es init_log init_log_inv) as [Hb Hf _ _ Hr].
  split_and!; [done | done | apply run_paid | lia].
Qed.

Lemma joined_complete es : Forall quiet es -> cleanup_join (run es init_log) = true ->
  let s := run es init_log in
  items (file s) = accepted s /\ log_queue s = [] /\
  (binary c = false -> refused s = pending s + log_queue_overflow s + noted (file s))%nat.
Proof using Type.
  intros Hq Hj. cbv zeta. pose proof (log_run_inv es _ init_log_inv) as [_ Hf Hu _ _].
  destruct (log_run_exact es _ Hq init_log_inv init_log_exact) as [Hi Hal Hre].
  unfold cleanup_join in Hj. apply Nat.eqb_eq in Hj. rewrite Hj in Hu.
  destruct (log_queue (run es init_log)) eqn:Eq; cbn in Hu; [| lia].
  destruct (thread (run es init_log)) as [ | | | | | | |l] eqn:Et; cbn in Hu; try lia;
    try (rewrite Hf, Hi; cbn; rewrite !app_nil_r; repeat split; auto; intros Hb; rewrite (Hre Hb); cbn; lia).
  by destruct (Hal l).
Qed.

(** When no file operation fails and [_cleanup]'s [join] has returned, the
    file holds every accepted item exactly once in the order of the calls, and
    in text mode every refused call is counted by one notice, by the pending
    counter or by its still unfinished increment. *)
Theorem log_join_complete es : Forall quiet es -> cleanup_join (run es init_log) = true ->
  let s := run es init_log in
  items (file s) = accepted s /\ log_queue s = [] /\
  (binary c = false -> refused s = pending s + log_queue_overflow s + noted (file s))%nat.
Proof using Type. apply joined_complete. Qed.

(** C38: [_cleanup] terminates: from any reachable state whose writer is in its
    loop, six fault-free steps of the writer per queued item and seven more make
    [Queue.join] return, whatever the flush timer does. *)
Theorem log_drains es ws : Forall writer_turn ws -> running (run es init_log) ->
  (6 * length (log_queue (run es init_log)) + 6 < length ws)%nat ->
  cleanup_join (run ws (run es init_log)) = true.
Proof using Type.
  intros Hw Hr Hl. apply writer_drains; [done | apply log_run_inv, init_log_inv | done |].
  unfold backlog. assert (stage (thread (run es init_log)) <= 6)%nat; [| lia].
  destruct (thread (run es init_log)); cbn; lia.
Qed.

(** C39: an exception out of [logfile.close()] in the error handler ends the
    writer before [task_done], and from then on [_cleanup] waits for ever,
    whatever is logged afterwards. *)
Theorem log_close_error_blocks es d due x es' :
  thread (run es init_log) = PWrite d -> logfile (run es init_log) = true ->
  write_fails x = true -> close_fails x = true ->
  cleanup_join (run (EThread due x :: es') (run es init_log)) = false.
Proof using Type.
  intros Ht Hl Hw Hc. pose proof (log_run_inv es _ init_log_inv) as Hi.
  change (run (EThread due x :: es') ?s) with (run es' (thread_step due x s)).
  apply (dead_forever es' d); [by apply thread_inv |].
  unfold thread_step. rewrite Ht. unfold do_write, close_after_error. rewrite Hl, Hw, Hc. cbn. by destruct (torn_at x).
Qed.

End Queue.
Arguments entry : clear implicits.
Arguments event : clear implicits.
Arguments pc : clear implicits.
Arguments log_state : clear implicits.

(** ** Concrete runs *)

Definition io_good : io := Io false false false false None.
Definition io_bad : io := Io false true false true (Some 3%nat).
Definition small_conf : log_conf := LogConf 2 false true.
Definition turns (n : nat) : list (event nat) := repeat (EThread false io_good) n.

(** Three writes into a queue of two, then the writer runs. *)
Definition burst : list (event nat) := [EPut 1%nat; EPut 2%nat; EPut 3%nat; EOverflow] ++ turns 12.

Lemma log_join_complete_witness :
  let s := run small_conf burst init_log in
  items (file s) = accepted s /\ log_queue s = [] /\
  (binary small_conf = false -> refused s = pending s + log_queue_overflow s + noted (file s))%nat.
Proof.
  apply log_join_complete; [| reflexivity]. repeat (constructor; [by vm_compute |]). constructor.
Defined.

Lemma log_drains_witness :
  cleanup_join (run small_conf (turns 20) (run small_conf [EPut 1%nat; EPut 2%nat; EPut 3%nat; EOverflow] init_log)) = true.
Proof.
  apply log_drains; [| by vm_compute | vm_compute; lia]. repeat (constructor; [by vm_compute |]). constructor.
Defined.

(** The second item meets a failing [write] and a failing [close]. *)
Lemma log_close_error_blocks_witness :
  cleanup_join (run small_conf (EThread false io_bad :: turns 50)
                  (run small_conf ([EPut 1%nat; EPut 2%nat] ++ turns 10) init_log)) = false.
Proof. apply (log_close_error_blocks small_conf ([EPut 1%nat; EPut 2%nat] ++ turns 10) 2%nat); reflexivity. Defined.

End LogQueue.
