(* ===== verification/BinLog.v ===== *)
(** The binary flight log: [BinLogger] of src/wfb_ng/server.py, which frames
    msgpack records with their length and puts them on the log queue, and the
    reader src/wfb_ng/log_parser.py, which cuts the decompressed stream into
    records again and decodes the MAVLink ones.  [msgpack] and the local time
    zone are parameters. *)
From Stdlib Require Import ZArith Lia Bool.
From stdpp Require Import base list numbers strings.
From S2P Require Import Prelude PyFloat PyStruct PyDict PyNum PyText MavMessage MavLink MavSpec MavStream MavParser MavProtocol LogQueue.

#[local] Set Warnings "-register-all".

Module BinLog.
Import PyStruct PyText MavParser.

(** Values of a record: what msgpack carries, and what the reader adds (the
    decoded fields of a message, or the exception of a failed decoding). *)
Inductive value :=
| VNone
| VNum (n : PyNum.num)
| VStr (s : string)
| VBytes (b : bytes)
| VTuple (l : list value)
| VMap (l : list (value * value))
| VFields (l : list (string * MavMessage.fval))
| VExn (e : exn).

Abbreviation record := (PyDict.dict string value).

(** What [msgpack.unpackb] returns: a dictionary, or something without [pop]. *)
Inductive unpacked := UDict (d : record) | UOther.

(** A printed line: the local time of its second and the text of its
    milliseconds, the record type, and the rest of the record. *)
Record row := Row { row_time : string; row_ms : text; row_type : value; row_msg : record }.

(** ** The time stamp *)

(** [ts % 1] on a number. *)
Definition mod1 (n : PyNum.num) : PyNum.num :=
  match n with
  | PyNum.NInt _ => PyNum.NInt 0
  | PyNum.NFin m e =>
      if 0 <=? e then PyNum.NFin 0 0
      else
        let r := Z.rem m (2 ^ (- e)) in
        if r <? 0 then PyNum.fadd (PyNum.NFin r e) (PyNum.NFin 1 0) else PyNum.NFin r e
  | _ => PyNum.NNaN
  end.

(** [('%.3f' % x)[2:]] of a number in the closed unit interval: the nearest
    number of thousandths, of which the digit before the point is cut. *)
Definition thousandths (x : PyNum.num) : Z :=
  let '(m, e) := PyNum.dyadic x in PyFloat.rne (1000 * m) (- e).

Definition three_digits (k : Z) : text :=
  [48 + k / 100 mod 10; 48 + k / 10 mod 10; 48 + k mod 10].

Definition ms_text (n : PyNum.num) : text :=
  match mod1 n with
  | PyNum.NNaN | PyNum.NInf _ => lit "n"
  | x => three_digits (thousandths x)
  end.

(** The whole second [time.localtime] is given. *)
Definition seconds (n : PyNum.num) : result Z :=
  match n with
  | PyNum.NInt z => Ok z
  | PyNum.NFin m e => Ok (if 0 <=? e then m * 2 ^ e else m / 2 ^ (- e))
  | PyNum.NInf _ => Raise OverflowError
  | PyNum.NNaN => Raise ValueError
  end.

(** Message names do not clash with the keys the reader adds. *)
Lemma mavlink_names i mt : MavMap.MavMap.mavlink_get i = Some mt ->
  MavMessage.msgname mt <> "sys_id"%string /\ MavMessage.msgname mt <> "comp_id"%string /\
  MavMessage.msgname mt <> "seq"%string.
Proof.
  assert (H : forallb (fun p => negb (bool_decide (MavMessage.msgname p.2 ∈ ["sys_id"; "comp_id"; "seq"]%string)))
                MavMap.MavMap.mavlink_map = true) by (vm_compute; reflexivity).
  intros Hi. apply MavMap.MavMap.lookup_id_In in Hi. rewrite forallb_forall in H. specialize (H _ Hi). cbn in H.
  apply negb_true_iff, bool_decide_eq_false in H. rewrite !not_elem_of_cons in H. tauto.
Qed.

Section Format.
Context (packb : record -> bytes) (unpackb : bytes -> result unpacked) (local : Z -> result string).

(** The class attributes of [BinLogger], with the queue length it inherits. *)
Definition binlogger_conf : LogQueue.log_conf := LogQueue.LogConf 1000 true false.

(** ** [BinLogger.send_stats] *)

(** The item put on the queue; [struct.error] when the length does not fit. *)
Definition send_stats (data : record) : result bytes :=
  let data := packb data in
  hdr ← pack Big [CUint 4] [PInt (blen data)];
  Ok (hdr ++ data).

(** ** [log_parser.main] *)

(** [seq, sys_id, comp_id, msg_id = ...]. *)
Definition unpack4 (v : value) : result (value * value * value * value) :=
  match v with
  | VTuple [a; b; c; d] => Ok (a, b, c, d)
  | VBytes [a; b; c; d] =>
      Ok (VNum (PyNum.NInt a), VNum (PyNum.NInt b), VNum (PyNum.NInt c), VNum (PyNum.NInt d))
  | VMap [(a, _); (b, _); (c, _); (d, _)] => Ok (a, b, c, d)
  | VStr (String a (String b (String c (String d EmptyString)))) =>
      Ok (VStr (String a EmptyString), VStr (String b EmptyString), VStr (String c EmptyString),
          VStr (String d EmptyString))
  | VTuple _ | VStr _ | VBytes _ | VMap _ | VFields _ => Raise ValueError
  | _ => Raise TypeError
  end.

(** Whether a value can be looked up in a dictionary. *)
Fixpoint hashable (v : value) : bool :=
  match v with VMap _ | VFields _ => false | VTuple l => forallb hashable l | _ => true end.

(** The integer a dictionary key is equal to. *)
Definition as_key (v : value) : option Z :=
  match v with
  | VNum (PyNum.NInt z) => Some z
  | VNum (PyNum.NFin m e) =>
      if 0 <=? e then Some (m * 2 ^ e)
      else if m mod 2 ^ (- e) =? 0 then Some (m / 2 ^ (- e)) else None
  | _ => None
  end.

(** [bytearray] of a sequence of values. *)
Definition byte_of (v : value) : result Z :=
  match v with
  | VNum (PyNum.NInt z) => if (0 <=? z) && (z <? 256) then Ok z else Raise ValueError
  | _ => Raise TypeError
  end.

(** The buffer the payload is unpacked from: a tuple, or the keys of a dictionary,
    is made a [bytearray] only where it has to be padded. *)
Definition buffer_of (csize : nat) (mbuf : value) : result bytes :=
  match mbuf with
  | VBytes b => Ok b
  | VTuple l => if (length l <? csize)%nat then result_map byte_of l else Raise TypeError
  | VMap l => if (length l <? csize)%nat then result_map byte_of l.*1 else Raise TypeError
  | _ => Raise TypeError
  end.

Definition unpack_value (msg_id mav_message : value) : result (string * list (string * MavMessage.fval)) :=
  match as_key msg_id with
  | None => Raise (if hashable msg_id then KeyError else TypeError)
  | Some i =>
      mt ← of_option KeyError (MavMap.MavMap.mavlink_get i);
      b ← buffer_of (MavMessage.unpacker_size mt) mav_message;
      unpack_mavlink i b
  end.

Lemma unpack_value_bytes i b : unpack_value (VNum (PyNum.NInt i)) (VBytes b) = unpack_mavlink i b.
Proof using Type. unfold unpack_value, unpack_mavlink. cbn [as_key]. by destruct (MavMap.MavMap.mavlink_get i). Qed.

Definition process (msg : record) : result row :=
  '(ts, msg) ← PyDict.pop msg "timestamp"%string;
  '(mtype, msg) ← PyDict.pop msg "type"%string;
  msg ← match mtype with
        | VStr "mavlink"%string =>
            '(hdr, msg) ← PyDict.pop msg "hdr"%string;
            '(seq, sys_id, comp_id, msg_id) ← unpack4 hdr;
            let msg := PyDict.set msg "sys_id"%string sys_id in
            let msg := PyDict.set msg "comp_id"%string comp_id in
            let msg := PyDict.set msg "seq"%string seq in
            '(mav_message, msg) ← PyDict.pop msg "msg"%string;
            Ok match unpack_value msg_id mav_message with
               | Ok (k, v) => PyDict.set msg k (VFields v)
               | Raise e =>
                   PyDict.set (PyDict.set msg "msg"%string mav_message) "parse_error"%string (VExn e)
               end
        | _ => Ok msg
        end;
  n ← match ts with VNum n => Ok n | _ => Raise TypeError end;
  sec ← seconds n;
  t ← local sec;
  Ok (Row t (ms_text n) mtype msg).

(** The loop: the rows printed, and how it ends. *)
Fixpoint read_log (fuel : nat) (fd : bytes) : list row * result unit :=
  match fuel with
  | O => ([], Raise (Exception_ "fuel"))
  | S fuel =>
      let hdr := take 4 fd in
      let fd := drop 4 fd in
      if (length hdr <? 4)%nat then ([], Ok tt)
      else
        let data_len := be_decode hdr in
        let data := take (Z.to_nat data_len) fd in
        let fd := drop (Z.to_nat data_len) fd in
        if blen data <? data_len then ([], Ok tt)
        else
          match (m ← unpackb data; match m with UDict d => process d | UOther => Raise AttributeError end) with
          | Raise e => ([], Raise e)
          | Ok r => let '(rs, out) := read_log fuel fd in (r :: rs, out)
          end
  end.

Definition main (fd : bytes) : list row * result unit := read_log (S (length fd)) fd.

(** ** Framing *)

Definition row_for (m : record) (r : row) : Prop := process m = Ok r.

(** [f] is the item queued for [m], and the reader recovers [m] from it. *)
Definition frame_for (m : record) (f : bytes) : Prop :=
  send_stats m = Ok f /\ unpackb (packb m) = Ok (UDict m).

Lemma send_stats_frame m f : send_stats m = Ok f ->
  f = be_encode 4 (blen (packb m)) ++ packb m /\ blen (packb m) < 2 ^ 32.
Proof using Type.
  unfold send_stats. cbn [pack pack_code]. pose proof (blen_nonneg (packb m)).
  destruct ((0 <=? blen (packb m)) && (blen (packb m) <? 2 ^ (8 * Z.of_nat 4))) eqn:E; [| done].
  cbn. intros [= <-]. to_prop. split; [done | lia].
Qed.

(** The header of a frame, and what [fd.read] gives behind it. *)
Lemma log_frame_header n rest : 0 <= n < 2 ^ 32 ->
  length (take 4 (be_encode 4 n ++ rest)) = 4%nat /\ be_decode (take 4 (be_encode 4 n ++ rest)) = n /\
  drop 4 (be_encode 4 n ++ rest) = rest.
Proof using Type.
  intros Hn. pose proof (length_encode Big 4 n) as Hl. cbn [encode] in Hl.
  rewrite take_app_length', drop_app_length' by done. split; [done |]. split; [| done].
  pose proof (decode_encode Big 4 n) as Hd. cbn [encode decode] in Hd. rewrite Hd. by apply Z.mod_small.
Qed.

Lemma read_frame fuel m f rest : frame_for m f ->
  read_log (S fuel) (f ++ rest) =
  match process m with
  | Raise e => ([], Raise e)
  | Ok r => let '(rs, out) := read_log fuel rest in (r :: rs, out)
  end.
Proof using Type.
  intros [Hf Hu]. destruct (send_stats_frame _ _ Hf) as [-> Hl]. pose proof (blen_nonneg (packb m)).
  cbn [read_log]. rewrite <- app_assoc.
  destruct (log_frame_header (blen (packb m)) (packb m ++ rest)) as (-> & -> & ->); [lia |].
  rewrite take_blen_app, drop_blen_app, Z.ltb_irrefl, Hu. done.
Qed.

(** A frame that was cut off ends the loop. *)
Lemma read_truncated fuel m f tl rest : send_stats m = Ok f -> f = tl ++ rest -> rest <> [] ->
  read_log (S fuel) tl = ([], Ok tt).
Proof using Type.
  intros Hf Htl Hr. destruct (send_stats_frame _ _ Hf) as [-> Hl]. clear Hf. pose proof (blen_nonneg (packb m)).
  cbn [read_log]. destruct (Nat.ltb_spec (length (take 4 tl)) 4) as [_ | H4]; [done |].
  rewrite length_take in H4.
  assert (Ht : tl = be_encode 4 (blen (packb m)) ++ drop 4 tl).
  { rewrite <- (take_drop 4 tl) at 1. f_equal. transitivity (take 4 (tl ++ rest)).
    - rewrite take_app_le by lia. done.
    - rewrite <- Htl. by apply take_app_length'. }
  destruct (log_frame_header (blen (packb m)) (drop 4 tl)) as (_ & Hd & _); [lia |]. rewrite <- Ht in Hd. rewrite Hd.
  assert (Hb : blen (drop 4 tl) < blen (packb m)).
  { rewrite Ht, <- app_assoc in Htl. apply app_inv_head in Htl. rewrite Htl, blen_app.
    destruct rest; [done |]. rewrite blen_cons. pose proof (blen_nonneg rest). lia. }
  rewrite take_ge by (unfold blen in *; lia).
  by destruct (Z.ltb_spec (blen (drop 4 tl)) (blen (packb m))); [| lia].
Qed.

(** The rest of a stream behind whole frames: part of a frame, perhaps none. *)
Definition cut_frame (tl : bytes) : Prop := exists m f rest, send_stats m = Ok f /\ f = tl ++ rest /\ rest <> [].

Lemma read_frames fuel ms fs rs tl : Forall2 frame_for ms fs -> Forall2 row_for ms rs -> cut_frame tl ->
  (length fs < fuel)%nat -> read_log fuel (concat fs ++ tl) = (rs, Ok tt).
Proof using Type.
  intros Hfs. revert fuel rs. induction Hfs as [|m f ms fs Hf _ IH]; intros fuel rs Hrs Htl Hl;
    inversion Hrs as [|? r ? rs' Hr Hrs']; subst; destruct fuel as [|fuel]; cbn in Hl; try lia.
  - cbn [concat app]. destruct Htl as (m & f & rest & H1 & H2 & H3). by apply (read_truncated fuel m f tl rest).
  - cbn [concat]. rewrite <- app_assoc, (read_frame fuel m f) by done. unfold row_for in Hr. rewrite Hr.
    by rewrite (IH fuel rs') by (done || lia).
Qed.

Lemma frames_length ms fs : Forall2 frame_for ms fs -> (length fs <= length (concat fs))%nat.
Proof using Type.
  induction 1 as [|m f ms fs [Hf _] _ IH]; [done |]. destruct (send_stats_frame _ _ Hf) as [-> _].
  cbn [concat length]. rewrite !length_app. pose proof (length_encode Big 4 (blen (packb m))) as Hl.
  cbn [encode] in Hl. lia.
Qed.

Lemma main_frames ms fs rs tl : Forall2 frame_for ms fs -> Forall2 row_for ms rs -> cut_frame tl ->
  main (concat fs ++ tl) = (rs, Ok tt).
Proof using Type.
  intros Hfs Hrs Htl. apply (read_frames _ ms); try done. pose proof (frames_length _ _ Hfs).
  rewrite length_app. lia.
Qed.

(** A stream that ends with a whole frame is not cut. *)
Lemma cut_nil m f : send_stats m = Ok f -> cut_frame [].
Proof using Type.
  intros Hf. exists m, f, f. split; [done |]. split; [done |]. destruct (send_stats_frame _ _ Hf) as [-> _].
  unfold be_encode. cbn. intros H. by apply (f_equal length) in H.
Qed.

(** ** The log of a flight *)

Context (stamp : Z -> PyNum.num).

(** The dictionary [MavlinkLoggerProtocol.messageReceived] passes to
    [send_stats]; [stamp] is the float of a clock reading. *)
Definition record_dict (r : Logger.mavlink_record) : record :=
  let '(seq, sys_id, comp_id, msg_id) := Logger.hdr r in
  let num z := VNum (PyNum.NInt z) in
  [("type", VStr "mavlink"); ("timestamp", VNum (stamp (Logger.timestamp r)));
   ("hdr", VTuple [num seq; num sys_id; num comp_id; num msg_id]); ("msg", VBytes (Logger.msg r))]%string.

(** The row of a message: its header and its fields under its name. *)
Definition mavlink_row (h : l2_headers) (name : string) (fields : list (string * MavMessage.fval)) (r : row) : Prop :=
  let '(seq, sys_id, comp_id, _) := h in
  let num z := VNum (PyNum.NInt z) in
  row_type r = VStr "mavlink" /\
  row_msg r = [("sys_id", num sys_id); ("comp_id", num comp_id); ("seq", num seq); (name, VFields fields)]%string.

Lemma process_mavlink r i name fields n t sec : Logger.hdr r = i -> stamp (Logger.timestamp r) = n ->
  seconds n = Ok sec -> local sec = Ok t -> unpack_mavlink i.2 (Logger.msg r) = Ok (name, fields) ->
  exists w, process (record_dict r) = Ok w /\ mavlink_row i name fields w /\ row_time w = t /\ row_ms w = ms_text n.
Proof using Type.
  intros Hi Hn Hs Hl Hu. unfold record_dict. rewrite Hi. destruct i as [[[seq sys] comp] id]. cbn [snd] in Hu.
  assert (Hname : name <> "sys_id"%string /\ name <> "comp_id"%string /\ name <> "seq"%string).
  { unfold unpack_mavlink in Hu. destruct (MavMap.MavMap.mavlink_get id) as [mt|] eqn:E; [| done]. cbn in Hu.
    repeat inv_ok. simplify_eq. by apply (mavlink_names id). }
  destruct Hname as (H1 & H2 & H3).
  set (base := [("sys_id", VNum (PyNum.NInt sys)); ("comp_id", VNum (PyNum.NInt comp));
                ("seq", VNum (PyNum.NInt seq))]%string).
  exists (Row t (ms_text n) (VStr "mavlink") (PyDict.set base name (VFields fields))). split.
  - transitivity (sec ← seconds (stamp (Logger.timestamp r)); t ← local sec;
      Ok (Row t (ms_text (stamp (Logger.timestamp r))) (VStr "mavlink")
            match unpack_value (VNum (PyNum.NInt id)) (VBytes (Logger.msg r)) with
            | Ok (k, v) => PyDict.set base k (VFields v)
            | Raise e => PyDict.set (PyDict.set base "msg" (VBytes (Logger.msg r))) "parse_error" (VExn e)
            end)); [reflexivity |].
    rewrite unpack_value_bytes, Hu, Hn, Hs. cbn [mbind result_bind]. by rewrite Hl.
  - split; [| done]. split; [done |]. cbn. by rewrite !decide_False by done.
Qed.

(** The bytes of a log file. *)
Context (notice : nat -> bytes).

Fixpoint entry_bytes (e : LogQueue.entry bytes) : bytes :=
  match e with LogQueue.Item d => d | LogQueue.Notice n => notice n | LogQueue.Torn e k => take k (entry_bytes e) end.

Definition content (l : list (LogQueue.entry bytes)) : bytes := concat (map entry_bytes l).

Lemma content_items l : LogQueue.only_items l -> content l = concat (LogQueue.items l).
Proof using Type.
  unfold content, LogQueue.items. induction 1 as [|e l [d ->] _ IH]; [done |]. cbn. by rewrite IH.
Qed.

(** What the reader prints for a message [m1] of class [mt] packed by [v0]: its
    header, and under its name the field values passed to its constructor. *)
Definition shows (x : MavMessage.msgtype * MavLink.mavlink * MavLink.message) (w : row) : Prop :=
  let '(mt, v0, m1) := x in
  exists args, MavMessage.args_fit mt args /\
    (exists m, MavLink.new_message mt args = Ok m /\ MavLink.m_attrs m1 = MavLink.m_attrs m) /\
    mavlink_row (MavLink.seq_no (MavLink.tx v0), MavLink.srcSystem (MavLink.tx v0),
                 MavLink.srcComponent (MavLink.tx v0), MavMessage.mt_id mt)
      (MavMessage.msgname mt) (zip (MavMessage.fieldnames mt) (map MavMessage.terminate args)) w.

(** The clock reading of a record can be printed. *)
Definition printable (r : Logger.mavlink_record) : Prop :=
  exists sec t, seconds (stamp (Logger.timestamp r)) = Ok sec /\ local sec = Ok t.

Lemma records_shown ms rs : Forall2 Logger.record_of ms rs -> Forall printable rs ->
  exists ws, Forall2 row_for (map record_dict rs) ws /\ Forall2 shows ms ws.
Proof using Type.
  induction 1 as [|[[mt v0] m1] r ms rs Hr _ IH]; intros Hp.
  - exists []. by split.
  - apply Forall_cons in Hp as [(sec & t & Hs & Hl) Hp]. destruct (IH Hp) as (ws & H1 & H2).
    destruct Hr as (Hh & args & Ha & Hm & Hu).
    destruct (process_mavlink r _ _ _ _ t sec Hh eq_refl Hs Hl Hu) as (w & Hw & Hrow & _).
    exists (w :: ws). split; constructor; try done. exists args. done.
Qed.

End Format.

(** The binary log survives a crash: the reader cuts any sequence of
    written frames, followed by part of one more frame, back into exactly the
    records written, in order, and stops without an exception.  [msgpack] is
    assumed to unpack what it packed. *)
Theorem binlog_roundtrip packb unpackb local ms fs ws tl :
  Forall2 (frame_for packb unpackb) ms fs -> Forall2 (row_for local) ms ws -> cut_frame packb tl ->
  main unpackb local (concat fs ++ tl) = (ws, Ok tt).
Proof. apply main_frames. Qed.

(** C9: the flight log end to end: MAVLink frames packed by any senders pass the
    stream splitter, the logger, the length framing, the log queue with its
    writer thread and the file; when the queue refused nothing, no file
    operation failed and [join] returned, the reader prints for every message,
    in order, the header it was sent with and the field values its sender
    passed. *)
Theorem flight_log_end_to_end packb unpackb local stamp notice conf now fs ms st s ds es :
  MavStream.frames_of fs ms -> fs <> [] -> bytes_ok (concat fs) -> gen_ok st -> pend st = [] ->
  Logger.log_dataReceived now (concat fs) (Logger.LoggerState (Suspended st) []) = (s, Ok tt) ->
  Forall2 (fun r d => frame_for packb unpackb (record_dict stamp r) d) (Logger.sent s) ds ->
  Forall (printable local stamp) (Logger.sent s) ->
  LogQueue.binary conf = true -> Forall LogQueue.quiet es ->
  LogQueue.cleanup_join (LogQueue.run conf es LogQueue.init_log) = true ->
  LogQueue.accepted (LogQueue.run conf es LogQueue.init_log) = ds ->
  exists ws, main unpackb local (content notice (LogQueue.file (LogQueue.run conf es LogQueue.init_log))) = (ws, Ok tt) /\
    Forall2 shows ms ws.
Proof.
  intros Hfs Hne Hb Hg Hp Hlog Hds Hpr Hbin Hq Hj Ha.
  destruct (Logger.logger_end_to_end now fs ms st [] Hfs Hne Hb Hg Hp) as (s' & rs & Hlog' & Hs & Hr).
  rewrite Hlog in Hlog'. injection Hlog' as <-. rewrite Hs in Hds, Hpr. cbn [app] in Hds, Hpr.
  destruct (records_shown local stamp ms rs Hr Hpr) as (ws & Hw & Hsh). exists ws. split; [| done].
  destruct (LogQueue.joined_complete conf es Hq Hj) as (Hi & _).
  rewrite content_items, Hi, Ha by (apply LogQueue.binary_only_items; [done | done | constructor]).
  rewrite <- (app_nil_r (concat ds)). apply (main_frames packb unpackb local (map (record_dict stamp) rs)); [| done |].
  - by apply Forall2_fmap_l.
  - destruct fs as [|f fs]; [done |]. inversion Hfs as [|? x ? ms' _ _]; subst.
    inversion Hr as [|? r ? rs' _ _]; subst. inversion Hds as [|? d ? ds' [Hd _] _]. by apply (cut_nil packb (record_dict stamp r) d).
Qed.

(** The printed time of a non-negative float: the second is rounded down and
    the milliseconds to nearest, and a fraction that rounds up to a whole
    second is printed as .000 of the second before. *)
Theorem printed_time m d : 0 <= m -> 0 < d ->
  exists k, 0 <= k <= 1000 /\
    2 * Z.abs (1000 * m - (1000 * (m / 2 ^ d) + k) * 2 ^ d) <= 2 ^ d /\
    seconds (PyNum.NFin m (- d)) = Ok (m / 2 ^ d) /\
    ms_text (PyNum.NFin m (- d)) = three_digits (k mod 1000).
Proof.
  intros Hm Hd. assert (Hp : 0 < 2 ^ d) by (apply Z.pow_pos_nonneg; lia).
  pose proof (Z.mod_pos_bound m _ Hp) as Hr. pose proof (Z.div_mod m (2 ^ d) ltac:(lia)) as Hdm.
  exists (PyFloat.rne (1000 * (m mod 2 ^ d)) d).
  assert (Hrange : 0 <= PyFloat.rne (1000 * (m mod 2 ^ d)) d <= 1000)
    by (split; [apply PyFloat.rne_nonneg; lia | apply PyNum.rne_le; lia]).
  split; [done |]. split; [| split].
  - pose proof (PyFloat.rne_near (1000 * (m mod 2 ^ d)) d Hd) as Hn.
    replace (1000 * m - (1000 * (m / 2 ^ d) + PyFloat.rne (1000 * (m mod 2 ^ d)) d) * 2 ^ d)
      with (1000 * (m mod 2 ^ d) - PyFloat.rne (1000 * (m mod 2 ^ d)) d * 2 ^ d) by nia. lia.
  - unfold seconds. rewrite Z.opp_involutive. by destruct (Z.leb_spec 0 (- d)); [lia |].
  - unfold ms_text, mod1, thousandths. rewrite Z.opp_involutive. destruct (Z.leb_spec 0 (- d)); [lia |].
    rewrite Z.rem_mod_nonneg by lia. destruct (Z.ltb_spec (m mod 2 ^ d) 0); [lia |].
    cbn [PyNum.dyadic]. rewrite Z.opp_involutive.
    destruct (Z.eq_dec (PyFloat.rne (1000 * (m mod 2 ^ d)) d) 1000) as [-> | ]; [done |].
    rewrite (Z.mod_small (PyFloat.rne _ _)) by lia. done.
Qed.

(** ** Concrete logs *)

(** A packer that knows one record. *)
Definition one_packb (m : record) : bytes := [7; 7].
Definition one_unpackb (m : record) (b : bytes) : result unpacked :=
  if bool_decide (b = [7; 7]) then Ok (UDict m) else Raise ValueError.
Definition one_local (z : Z) : result string := Ok "now"%string.

Definition demo_record : record :=
  [("type", VStr "init"); ("timestamp", VNum (PyNum.NFin 7 (-1))); ("version", VStr "1")]%string.

(** Two records and half of a third. *)
Lemma binlog_roundtrip_witness :
  main (one_unpackb demo_record) one_local ([0; 0; 0; 2; 7; 7; 0; 0; 0; 2; 7; 7] ++ [0; 0; 0; 2; 7]) =
  (replicate 2 (Row "now" [53; 48; 48] (VStr "init") [("version"%string, VStr "1")]), Ok tt).
Proof.
  apply (binlog_roundtrip one_packb (one_unpackb demo_record) one_local [demo_record; demo_record]
    [[0; 0; 0; 2; 7; 7]; [0; 0; 0; 2; 7; 7]]).
  - repeat constructor.
  - repeat constructor.
  - exists demo_record, [0; 0; 0; 2; 7; 7], [7]. split; [reflexivity |]. split; [reflexivity | discriminate].
Defined.

(** One MAVLink message through the whole chain. *)
Lemma flight_log_end_to_end_witness : exists r m1 ws,
  main (one_unpackb (record_dict PyNum.NInt r)) one_local
    (content (fun _ => []) (LogQueue.file (LogQueue.run binlogger_conf
       (LogQueue.EPut [0; 0; 0; 2; 7; 7] :: repeat (LogQueue.EThread false LogQueue.io_good) 6) LogQueue.init_log))) =
  (ws, Ok tt) /\ Forall2 shows [(MavSpec.demo_mt, MavLink.init_mavlink 3 242, m1)] ws.
Proof.
  destruct PackedFrames.demo_frame_of as (f & m1 & Hf & Hb).
  destruct (Logger.logger_end_to_end (fun _ => 0) [f] [(MavSpec.demo_mt, MavLink.init_mavlink 3 242, m1)]
    (FsmState [] 0 0) []) as (s & rs & Hlog & Hs & Hr).
  - constructor; [exact Hf | constructor].
  - discriminate.
  - cbn [concat]. rewrite app_nil_r. exact Hb.
  - exact gen_ok_init.
  - reflexivity.
  - inversion Hr as [|? r ? rs' _ Hn]. inversion Hn. subst. exists r, m1.
    apply (flight_log_end_to_end one_packb (one_unpackb (record_dict PyNum.NInt r)) one_local PyNum.NInt (fun _ => [])
      binlogger_conf (fun _ => 0) [f] [(MavSpec.demo_mt, MavLink.init_mavlink 3 242, m1)]
      (FsmState [] 0 0) s [[0; 0; 0; 2; 7; 7]]).
    + constructor; [exact Hf | constructor].
    + discriminate.
    + cbn [concat]. rewrite app_nil_r. exact Hb.
    + exact gen_ok_init.
    + reflexivity.
    + exact Hlog.
    + rewrite Hs. constructor; [| constructor]. split; reflexivity.
    + rewrite Hs. constructor; [| constructor]. exists (Logger.timestamp r), "now"%string. split; reflexivity.
    + reflexivity.
    + repeat constructor.
    + reflexivity.
    + reflexivity.
Defined.

End BinLog.
