(* ===== verification/Config.v ===== *)
(** The configuration: [parse_config], [Settings] and [Section] of
    src/wfb_ng/config_parser.py and [search_attr] of src/wfb_ng/common.py.  What
    [configparser] reads from a file and [ast.literal_eval] are parameters; the
    layering of files, the interpolation of strings against the settings read
    so far and the errors are modelled. *)
From Stdlib Require Import ZArith Lia Bool.
From stdpp Require Import base list numbers strings sets.
From S2P Require Import Prelude PyDict PyNum PyText.

#[local] Set Warnings "-register-all".

Module Config.
Import PyText.

(** The values of Python literals. *)
Inductive cval :=
| CNone
| CBool (b : bool)
| CNum (n : PyNum.num)
| CStr (s : text)
| CList (l : list cval)
| CTuple (l : list cval)
| CDict (l : list (cval * cval)).

(** A section is its attributes; the settings are named sections. *)
Abbreviation sect := (PyDict.dict text cval).
Abbreviation settings := (PyDict.dict text sect).

(** [getattr(o, name)] without a default. *)
Definition getattr {V} (d : PyDict.dict text V) (name : text) : result V :=
  of_option AttributeError (PyDict.get d name).

(** [Settings.__getitem__]: ['section.attr']. *)
Definition settings_getitem (st : settings) (attr : text) : result cval :=
  match split 46 attr with
  | [section; a] => s ← getattr st section; getattr s a
  | _ => Raise KeyError
  end.

(** [search_attr(key, *attrs)] of common.py. *)
Fixpoint search_attr (key : text) (attrs : list sect) : result cval :=
  match attrs with
  | [] => Raise KeyError
  | a :: attrs' => match PyDict.get a key with Some v => Ok v | None => search_attr key attrs' end
  end.

Section Parse.
(** [ast.literal_eval]; the conversion of a looked up value by the characters
    after its key, other than a string by ['s']; a conversion without key,
    which formats the settings object itself. *)
Context (literal_eval : text -> result cval).
Context (format_value : text -> cval -> result (text * text)).
Context (format_self : settings -> text -> result (text * text)).

(** The key between parentheses, which nest. *)
Fixpoint paren_key (depth : nat) (l acc : text) : result (text * text) :=
  match l with
  | [] => Raise ValueError
  | c :: l' =>
      if c =? 40 then paren_key (S depth) l' (acc ++ [c])
      else if c =? 41 then
        match depth with O => Ok (acc, l') | S d => paren_key d l' (acc ++ [c]) end
      else paren_key depth l' (acc ++ [c])
  end.

(** [value % settings]: fuel is the length of the text, each step consumes.  The
    settings are a mapping: a conversion without key formats them as a whole, once
    and only before any other conversion ([used]). *)
Fixpoint interpolate (fuel : nat) (used : bool) (st : settings) (l : text) : result text :=
  match fuel, l with
  | _, [] => Ok []
  | O, _ => Raise ValueError
  | S fuel, c :: l' =>
      if negb (c =? 37) then rest ← interpolate fuel used st l'; Ok (c :: rest)
      else
        match l' with
        | 37 :: l2 => rest ← interpolate fuel used st l2; Ok (37 :: rest)
        | 40 :: l2 =>
            '(key, l3) ← paren_key 0 l2 [];
            v ← settings_getitem st key;
            '(out, l4) ← match v, l3 with
                         | CStr s, 115 :: l4 => Ok (s, l4)
                         | _, _ => format_value l3 v
                         end;
            rest ← interpolate fuel true st l4; Ok (out ++ rest)
        | [] => Raise ValueError
        | _ =>
            '(out, l4) ← (if used then Raise TypeError else format_self st l');
            rest ← interpolate fuel true st l4; Ok (out ++ rest)
        end
  end.

(** The [try] around one value: every exception becomes a [ConfigError]. *)
Definition eval_item (st : settings) (interp : bool) (raw : text) : result cval :=
  match (v ← literal_eval raw;
         match v with
         | CStr s => if interp then s' ← interpolate (S (length s)) false st s; Ok (CStr s') else Ok v
         | _ => Ok v
         end) with
  | Ok v => Ok v
  | Raise _ => Raise ConfigError
  end.

(** The settings the values of section [name] are interpolated against while
    its attributes are [s]: a section that exists is mutated in place, a new
    one is attached when it is complete. *)
Definition view (st : settings) (name : text) (s : sect) : settings :=
  match PyDict.get st name with Some _ => PyDict.set st name s | None => st end.

Fixpoint set_items (st : settings) (interp : bool) (name : text) (s : sect) (items : list (text * text))
    : result sect :=
  match items with
  | [] => Ok s
  | (item, raw) :: items' =>
      v ← eval_item (view st name s) interp raw;
      set_items st interp name (PyDict.set s item v) items'
  end.

Fixpoint set_sections (st : settings) (interp : bool) (l : list (text * list (text * text))) : result settings :=
  match l with
  | [] => Ok st
  | (name, items) :: l' =>
      s ← set_items st interp name (default [] (PyDict.get st name)) items;
      set_sections (PyDict.set st name s) interp l'
  end.

(** A file: its name, and what [configparser] reads from it. *)
Record cfg_file := CfgFile { filename : text; parsed : result (list (text * list (text * text))) }.

Fixpoint read_files (st : settings) (used : list text) (interp : bool) (fs : list cfg_file)
    : result (settings * list text) :=
  match fs with
  | [] => Ok (st, used)
  | f :: fs' =>
      l ← match parsed f with Ok l => Ok l | Raise _ => Raise ConfigError end;
      st' ← set_sections st interp l;
      read_files st' (used ++ [filename f]) interp fs'
  end.

(** The settings before any file is read. *)
Definition initial (basedir : text) : settings := [(lit "path", [(lit "cfg_root", CStr basedir)]); (lit "common", [])].

Definition parse_config (basedir : text) (fs : list cfg_file) (interp : bool) : result (settings * list text) :=
  read_files (initial basedir) [] interp fs.

(** ** Layering *)

(** The attribute of a section. *)
Definition lookup (st : settings) (sec item : text) : option cval := PyDict.get st sec ≫= fun s => PyDict.get s item.

(** Whether a parsed file defines an attribute. *)
Definition defines (sec item : text) (l : list (text * list (text * text))) : Prop :=
  exists items, (sec, items) ∈ l /\ item ∈ items.*1.

Lemma set_items_app st interp name s a b :
  set_items st interp name s (a ++ b) = (s1 ← set_items st interp name s a; set_items st interp name s1 b).
Proof using Type.
  revert s. induction a as [|[i r] a IH]; intros s; [done |]. cbn [app set_items].
  destruct (eval_item (view st name s) interp r); cbn [mbind result_bind]; [apply IH | done].
Qed.

Lemma set_items_keep st interp name s items s' k : set_items st interp name s items = Ok s' -> k ∉ items.*1 ->
  PyDict.get s' k = PyDict.get s k.
Proof using Type.
  revert s. induction items as [|[i r] items IH]; intros s H Hk; [by injection H as -> |].
  cbn [set_items] in H. inv_ok. rewrite fmap_cons, not_elem_of_cons in Hk. destruct Hk as [Hne Hk].
  cbn [fst] in Hne. rewrite (IH _ H Hk). by apply PyDict.get_set_ne.
Qed.

(** The last definition of an item decides its value. *)
Lemma set_items_last st interp name s a item raw b s' :
  set_items st interp name s (a ++ (item, raw) :: b) = Ok s' -> item ∉ b.*1 ->
  exists s1 v, set_items st interp name s a = Ok s1 /\ eval_item (view st name s1) interp raw = Ok v /\
    PyDict.get s' item = Some v.
Proof using Type.
  rewrite set_items_app. intros H Hb. destruct (set_items st interp name s a) as [s1|] eqn:E; [| done].
  cbn [mbind result_bind set_items] in H. inv_ok. eexists s1, _. split; [done |]. split; [exact E0 |].
  rewrite (set_items_keep _ _ _ _ _ _ _ H Hb). apply PyDict.get_set_eq.
Qed.

Lemma set_sections_app st interp a b :
  set_sections st interp (a ++ b) = (st1 ← set_sections st interp a; set_sections st1 interp b).
Proof using Type.
  revert st. induction a as [|[n its] a IH]; intros st; [done |]. cbn [app set_sections].
  destruct (set_items st interp n _ its); cbn [mbind result_bind]; [apply IH | done].
Qed.

(** Sections that do not define an attribute keep it. *)
Lemma set_sections_keep st interp l st' sec item v : set_sections st interp l = Ok st' ->
  ~ defines sec item l -> lookup st sec item = Some v -> lookup st' sec item = Some v.
Proof using Type.
  revert st. induction l as [|[n its] l IH]; intros st H Hd Hv; [by injection H as <- |].
  cbn [set_sections] in H. inv_ok. apply (IH _ H).
  - intros (its' & H1 & H2). apply Hd. exists its'. split; [by right | done].
  - unfold lookup in *. rewrite PyDict.get_set. case_decide; [| done]. subst. cbn.
    destruct (PyDict.get st n) as [s0|] eqn:Es; [| done]. cbn in Hv, E.
    rewrite (set_items_keep _ _ _ _ _ _ item E); [done |]. intros Hin. apply Hd. exists its. split; [by left | done].
Qed.

Lemma read_files_app st used interp a b :
  read_files st used interp (a ++ b) = ('(st1, u1) ← read_files st used interp a; read_files st1 u1 interp b).
Proof using Type.
  revert st used. induction a as [|f a IH]; intros st used; [done |]. cbn [app read_files].
  destruct (parsed f); cbn [mbind result_bind]; [| done].
  destruct (set_sections st interp _); cbn [mbind result_bind]; [apply IH | done].
Qed.

Lemma read_files_keep st used interp fs st' used' sec item v : read_files st used interp fs = Ok (st', used') ->
  Forall (fun f => forall l, parsed f = Ok l -> ~ defines sec item l) fs ->
  lookup st sec item = Some v -> lookup st' sec item = Some v.
Proof using Type.
  revert st used. induction fs as [|f fs IH]; intros st used H Hfs Hv; [by injection H as <- <- |].
  apply Forall_cons in Hfs as [Hf Hfs]. cbn [read_files] in H.
  destruct (parsed f) as [l|] eqn:Ep; [| done]. cbn [mbind result_bind] in H. inv_ok.
  apply (IH _ _ H Hfs). by apply (set_sections_keep _ _ _ _ _ _ _ E (Hf l eq_refl)).
Qed.

(** C28: the last definition wins: when [parse_config] succeeds and, in the order
    of files, sections and items, nothing after [item = raw] in section [sec]
    of file [f] defines that attribute again, its value is that of [raw],
    evaluated against exactly the settings read before it. *)
Theorem config_last_wins basedir interp fs1 f l1 sec i1 item raw i2 l2 fs2 st used :
  parse_config basedir (fs1 ++ f :: fs2) interp = Ok (st, used) ->
  parsed f = Ok (l1 ++ (sec, i1 ++ (item, raw) :: i2) :: l2) ->
  item ∉ i2.*1 -> ~ defines sec item l2 ->
  Forall (fun f => forall l, parsed f = Ok l -> ~ defines sec item l) fs2 ->
  exists st1 u1 st2 s v, parse_config basedir fs1 interp = Ok (st1, u1) /\ set_sections st1 interp l1 = Ok st2 /\
    set_items st2 interp sec (default [] (PyDict.get st2 sec)) i1 = Ok s /\
    eval_item (view st2 sec s) interp raw = Ok v /\ lookup st sec item = Some v.
Proof using Type.
  unfold parse_config. rewrite read_files_app. intros H Hp Hi Hl Hfs.
  destruct (read_files _ [] interp fs1) as [[st1 u1]|] eqn:E1; [| done]. cbn [mbind result_bind read_files] in H.
  rewrite Hp in H. cbn [mbind result_bind] in H. rewrite set_sections_app in H.
  destruct (set_sections st1 interp l1) as [st2|] eqn:E2; [| done]. cbn [mbind result_bind set_sections] in H.
  destruct (set_items st2 interp sec _ (i1 ++ _)) as [s2|] eqn:E3; [| done]. cbn [mbind result_bind] in H.
  destruct (set_sections _ interp l2) as [st3|] eqn:E4; [| done]. cbn [mbind result_bind] in H.
  destruct (set_items_last _ _ _ _ _ _ _ _ _ E3 Hi) as (s & v & Hs & Hv & Hg).
  exists st1, u1, st2, s, v. split_and!; try done.
  apply (read_files_keep _ _ _ _ _ _ _ _ _ H Hfs). apply (set_sections_keep _ _ _ _ _ _ _ E4 Hl).
  unfold lookup. by rewrite PyDict.get_set_eq.
Qed.

(** ** Well-formed settings *)

(** Section names and attribute names are distinct. *)
Definition settings_ok (st : settings) : Prop := PyDict.ok st /\ Forall (fun p => PyDict.ok p.2) st.

Lemma settings_get_ok st name s : settings_ok st -> PyDict.get st name = Some s -> PyDict.ok s.
Proof using Type.
  intros [_ H] Hg. apply PyDict.get_In in Hg. rewrite Forall_forall in H. exact (H _ Hg).
Qed.

Lemma settings_set_ok st name s : settings_ok st -> PyDict.ok s -> settings_ok (PyDict.set st name s).
Proof using Type.
  intros [H1 H2] Hs. split; [by apply PyDict.ok_set |]. clear H1.
  induction H2 as [|[k v] st Hv Hst IH]; cbn; [by repeat constructor |]. case_decide; constructor; done.
Qed.

Lemma set_items_ok st interp name s items s' : PyDict.ok s -> set_items st interp name s items = Ok s' -> PyDict.ok s'.
Proof using Type.
  revert s. induction items as [|[i r] items IH]; intros s Hs H; [by injection H as <- |].
  cbn [set_items] in H. inv_ok. apply (IH _ (PyDict.ok_set _ _ _ Hs) H).
Qed.

Lemma set_sections_ok st interp l st' : settings_ok st -> set_sections st interp l = Ok st' -> settings_ok st'.
Proof using Type.
  revert st. induction l as [|[n its] l IH]; intros st Hst H; [by injection H as <- |].
  cbn [set_sections] in H. inv_ok. refine (IH _ _ H). apply settings_set_ok; [done |].
  refine (set_items_ok _ _ _ _ _ _ _ E). destruct (PyDict.get st n) eqn:Eg; cbn; [by eapply settings_get_ok | constructor].
Qed.

(** [parse_config] returns well-formed settings. *)
Lemma parse_config_ok basedir fs interp st used : parse_config basedir fs interp = Ok (st, used) -> settings_ok st.
Proof using Type.
  unfold parse_config. assert (Hi : settings_ok (initial basedir)).
  { split; [by apply (bool_decide_unpack _) |]. repeat constructor; cbn; set_solver. }
  revert Hi. generalize ([] : list text) as u. generalize (initial basedir) as st0.
  induction fs as [|f fs IH]; intros st0 u Hi H; [by injection H as <- <- |]. cbn [read_files] in H.
  destruct (parsed f) as [l|]; cbn [mbind result_bind] in H; [| done]. inv_ok.
  refine (IH _ _ _ H). by eapply set_sections_ok.
Qed.

(** Errors. *)
Lemma set_items_error st interp name s items e : set_items st interp name s items = Raise e -> e = ConfigError.
Proof using Type.
  revert s. induction items as [|[i r] items IH]; intros s H; [done |]. cbn [set_items] in H.
  destruct (eval_item (view st name s) interp r) as [v|e'] eqn:E; cbn in H; [by apply (IH _ H) |].
  unfold eval_item in E. case_match; by simplify_eq.
Qed.

Lemma set_sections_error st interp l e : set_sections st interp l = Raise e -> e = ConfigError.
Proof using Type.
  revert st. induction l as [|[n its] l IH]; intros st H; [done |]. cbn [set_sections] in H.
  destruct (set_items st interp n _ its) eqn:E; cbn in H; [by apply (IH _ H) |].
  injection H as <-. by apply (set_items_error _ _ _ _ _ _ E).
Qed.

(** Whatever is wrong with a file, [parse_config] raises [ConfigError]. *)
Theorem config_only_config_error basedir fs interp e :
  parse_config basedir fs interp = Raise e -> e = ConfigError.
Proof using Type.
  unfold parse_config. generalize ([] : list text) as used. generalize (initial basedir) as st.
  induction fs as [|f fs IH]; intros st used H; [done |]. cbn [read_files] in H.
  destruct (parsed f) as [l|]; cbn in H; [| by injection H as <-].
  destruct (set_sections st interp l) eqn:E; cbn in H; [by apply (IH _ _ H) |].
  injection H as <-. by apply (set_sections_error _ _ _ _ E).
Qed.

(** ** Interpolation *)

Definition no_percent (s : text) : Prop := Forall (fun c => c <> 37) s.

Lemma interpolate_plain fuel used st s rest out : no_percent s ->
  interpolate fuel used st rest = Ok out -> interpolate (length s + fuel) used st (s ++ rest) = Ok (s ++ out).
Proof using Type.
  intros Hs Hr. induction Hs as [|c s Hc _ IH]; [done |]. cbn [length Nat.add app interpolate].
  destruct (Z.eqb_spec c 37); [done |]. cbn [negb]. by rewrite IH.
Qed.

Lemma paren_key_plain k rest acc : Forall (fun c => c <> 40 /\ c <> 41) k ->
  paren_key 0 (k ++ 41 :: rest) acc = Ok (acc ++ k, rest).
Proof using Type.
  intros Hk. revert acc. induction Hk as [|c k [H1 H2] _ IH]; intros acc; cbn [app paren_key].
  - by rewrite app_nil_r.
  - destruct (Z.eqb_spec c 40), (Z.eqb_spec c 41); try done. rewrite IH, <- app_assoc. done.
Qed.

(** Names of sections and attributes. *)
Definition name_ok (k : text) : Prop := Forall (fun c => c <> 40 /\ c <> 41 /\ c <> 46) k.

Lemma name_no_dot k : name_ok k -> 46 ∉ k.
Proof using Type. intros Hk Hin. unfold name_ok in Hk. rewrite Forall_forall in Hk. by destruct (Hk 46 Hin) as (_ & _ & ?). Qed.

Lemma interpolate_key n used st sec attr v b : name_ok sec -> name_ok attr -> lookup st sec attr = Some (CStr v) ->
  interpolate (S n) used st (37 :: 40 :: (sec ++ 46 :: attr) ++ 41 :: 115 :: b) =
  (rest ← interpolate n true st b; Ok (v ++ rest)).
Proof using Type.
  intros Hsec Hattr Hv. cbn [interpolate]. change (negb (37 =? 37)) with false. cbn [negb].
  rewrite paren_key_plain.
  - cbn [app mbind result_bind]. unfold settings_getitem.
    rewrite split_sep_app, split_nosep by auto using name_no_dot. unfold getattr, lookup in *.
    destruct (PyDict.get st sec) as [s|]; [| done]. cbn [of_option mbind result_bind option_bind] in *. by rewrite Hv.
  - rewrite Forall_app, Forall_cons. unfold name_ok in *. split; [| split; [done |]];
      eapply Forall_impl; try eassumption; intros ? (? & ? & ?); done.
Qed.

(** A string value refers to an attribute by ['%(section.attr)s']. *)
Lemma interpolate_reference st a b sec attr v : no_percent a -> no_percent b -> name_ok sec -> name_ok attr ->
  lookup st sec attr = Some (CStr v) ->
  let l := a ++ 37 :: 40 :: (sec ++ 46 :: attr) ++ 41 :: 115 :: b in
  interpolate (S (length l)) false st l = Ok (a ++ v ++ b).
Proof using Type.
  intros Ha Hb Hsec Hattr Hv l. subst l.
  assert (Hend : forall n, interpolate (length b + n) true st b = Ok b).
  { intros n. pose proof (interpolate_plain n true st b [] [] Hb) as H. rewrite app_nil_r in H. apply H. by destruct n. }
  rewrite length_app, <- Nat.add_succ_r. apply interpolate_plain; [done |].
  rewrite (interpolate_key _ false st sec attr v b) by done. cbn [length]. rewrite length_app. cbn [length].
  rewrite (Nat.add_comm _ (S (S (length b)))). rewrite <- !Nat.add_succ_r. cbn [Nat.add].
  rewrite <- !Nat.add_succ_r. by rewrite Hend.
Qed.

End Parse.

(** ** A concrete configuration *)

(** Literals that are strings, and no other conversions. *)
Definition demo_eval (raw : text) : result cval := Ok (CStr raw).
Definition demo_value (l : text) (v : cval) : result (text * text) := Raise TypeError.
Definition demo_self (st : settings) (l : text) : result (text * text) := Raise TypeError.

Definition demo_file1 : cfg_file := CfgFile (lit "master.cfg") (Ok [(lit "path", [(lit "conf_dir", lit "/etc")])]).
Definition demo_file2 : cfg_file := CfgFile (lit "site.cfg")
  (Ok [(lit "path", [(lit "conf_dir", lit "/opt")]); (lit "gs", [(lit "key", lit "%(path.conf_dir)s/gs.key")])]).

(** The key of the second file sees the directory of the second file. *)
Lemma config_last_wins_witness :
  exists st1 u1 st2 s v, parse_config demo_eval demo_value demo_self (lit "/") [demo_file1] true = Ok (st1, u1) /\
    set_sections demo_eval demo_value demo_self st1 true [(lit "path", [(lit "conf_dir", lit "/opt")])] = Ok st2 /\
    set_items demo_eval demo_value demo_self st2 true (lit "gs") (default [] (PyDict.get st2 (lit "gs"))) [] = Ok s /\
    eval_item demo_eval demo_value demo_self (view st2 (lit "gs") s) true (lit "%(path.conf_dir)s/gs.key") = Ok v /\
    lookup match parse_config demo_eval demo_value demo_self (lit "/") [demo_file1; demo_file2] true with
           | Ok (st, _) => st | Raise _ => [] end (lit "gs") (lit "key") = Some v.
Proof.
  eapply (config_last_wins demo_eval demo_value demo_self (lit "/") true [demo_file1] demo_file2
    [(lit "path", [(lit "conf_dir", lit "/opt")])] (lit "gs") [] (lit "key") (lit "%(path.conf_dir)s/gs.key") [] [] []).
  - vm_compute. reflexivity.
  - reflexivity.
  - apply not_elem_of_nil.
  - intros (? & H & _). by apply not_elem_of_nil in H.
  - constructor.
Defined.

Example demo_key_value :
  lookup match parse_config demo_eval demo_value demo_self (lit "/") [demo_file1; demo_file2] true with
         | Ok (st, _) => st | Raise _ => [] end (lit "gs") (lit "key") = Some (CStr (lit "/opt/gs.key")).
Proof. vm_compute. reflexivity. Qed.

End Config.
