(* ===== verification/Runtime.v ===== *)
(** Helpers every part of the program uses: the log levels, colours and the
    external command runner of src/wfb_ng/__init__.py, and the crash handling of
    src/wfb_ng/common.py. *)
From Stdlib Require Import ZArith Lia Bool.
From stdpp Require Import base list numbers strings.
From S2P Require Import Prelude PyDict PyText.

Module Runtime.
Import PyText.

(** ** Log messages *)

Definition DEBUG : Z := 1.
Definition INFO : Z := 2.
Definition NOTICE : Z := 3.
Definition WARNING : Z := 4.
Definition ERROR : Z := 5.
Definition ALERT : Z := 6.
Definition FATAL : Z := 7.

Definition log_level_map : PyDict.dict Z text :=
  [(DEBUG, lit "debug"); (INFO, lit "info"); (NOTICE, lit "notice"); (WARNING, lit "warning");
   (ERROR, lit "error"); (ALERT, lit "alert"); (FATAL, lit "fatal_error")].

(** [esc] and the table of escape codes: two codes, then colours in normal and
    bold, foreground and background. *)
Fixpoint join_semi (l : list text) : text :=
  match l with [] => [] | [x] => x | x :: l' => x ++ 59 :: join_semi l' end.

Definition esc (x : list text) : text := 27 :: 91 :: join_semi x ++ lit "m".

Definition colors : list text :=
  [lit "black"; lit "red"; lit "green"; lit "yellow"; lit "blue"; lit "purple"; lit "cyan"; lit "white"].

Definition escape_codes : PyDict.dict text text :=
  fold_left (fun d lc =>
    fold_left (fun d cn =>
      let code := print_d (Z.of_nat cn.1) in
      PyDict.set (PyDict.set d (lc.2 ++ cn.2) (esc [lc.1 ++ code]))
                 (lc.2 ++ lit "bold_" ++ cn.2) (esc [lc.1 ++ code; lit "01"]))
      (imap pair colors) d)
    [(lit "3", []); (lit "4", lit "bg_")]
    [(lit "reset", esc [lit "39"; lit "49"; lit "0"]); (lit "bold", esc [lit "01"])].

Definition color_str (arg c : text) (bold : bool) : result text :=
  a ← PyDict.item escape_codes c;
  b ← (if bold then PyDict.item escape_codes (lit "bold") else Ok []);
  r ← PyDict.item escape_codes (lit "reset");
  Ok (a ++ b ++ arg ++ r).

(** What [_log_msg] passes on: the level, the error flag and the system tag. *)
Record log_event := LogEvent { ev_level : Z; ev_error : bool; ev_system : text }.

(** [_log_msg] with the keyword arguments [level] and [isError] and the caller
    found on the stack; [None] when the message is below the threshold. *)
Definition log_msg (min_level : Z) (level : option Z) (is_error : bool) (module func : text) : result (option log_event) :=
  let level := match level with
               | Some l => match PyDict.get log_level_map l with Some _ => l | None => if is_error then ERROR else INFO end
               | None => if is_error then ERROR else INFO
               end in
  if level <? min_level then Ok None
  else
    let error := ERROR <=? level in
    m ← color_str module (if error then lit "red" else lit "blue") false;
    f ← color_str func (if error then lit "red" else lit "green") false;
    name ← PyDict.item log_level_map level;
    Ok (Some (LogEvent level error (m ++ lit "." ++ f ++ lit " #" ++ name))).

(** A message is passed on exactly when its level reaches the threshold, it is
    marked as an error exactly from [ERROR] on, and logging never raises. *)
Theorem log_msg_total min_level level is_error module func :
  exists l sys, log_msg min_level level is_error module func =
      Ok (if l <? min_level then None else Some (LogEvent l (ERROR <=? l) sys)) /\
    DEBUG <= l <= FATAL /\
    (level = None -> l = if is_error then ERROR else INFO) /\
    (forall l', level = Some l' -> DEBUG <= l' <= FATAL -> l = l').
Proof.
  assert (Hlev : forall l, PyDict.get log_level_map l <> None <-> DEBUG <= l <= FATAL).
  { intros l. unfold DEBUG, FATAL. split.
    - intros H. unfold log_level_map in H. cbn in H. repeat case_decide; subst; try done; lia.
    - intros H. assert (l = 1 \/ l = 2 \/ l = 3 \/ l = 4 \/ l = 5 \/ l = 6 \/ l = 7) as Hl by lia.
      by destruct Hl as [-> | [-> | [-> | [-> | [-> | [-> | ->]]]]]]. }
  set (l := match level with
            | Some l => match PyDict.get log_level_map l with Some _ => l | None => if is_error then ERROR else INFO end
            | None => if is_error then ERROR else INFO end).
  assert (Hl : DEBUG <= l <= FATAL).
  { unfold l. destruct level as [l0|]; [destruct (PyDict.get log_level_map l0) eqn:E |].
    - apply Hlev. by rewrite E.
    - destruct is_error; unfold DEBUG, ERROR, INFO, FATAL; lia.
    - destruct is_error; unfold DEBUG, ERROR, INFO, FATAL; lia. }
  assert (Hcol : forall arg e, exists t, color_str arg (if e : bool then lit "red" else lit "blue") false = Ok t) by (intros arg []; eexists; vm_compute; reflexivity).
  assert (Hcol2 : forall arg e, exists t, color_str arg (if e : bool then lit "red" else lit "green") false = Ok t) by (intros arg []; eexists; vm_compute; reflexivity).
  assert (Hmsg : min_level <= l -> exists sys, log_msg min_level level is_error module func = Ok (Some (LogEvent l (ERROR <=? l) sys))).
  { intros Hm. unfold log_msg. fold l. destruct (Z.ltb_spec l min_level); [lia |].
    destruct (Hcol module (ERROR <=? l)) as [m ->]. cbn [mbind result_bind].
    destruct (Hcol2 func (ERROR <=? l)) as [f ->]. cbn [mbind result_bind]. unfold PyDict.item.
    destruct (PyDict.get log_level_map l) as [n|] eqn:E; [| by apply Hlev in Hl]. cbn [of_option mbind result_bind]. eauto. }
  assert (Hsys : exists sys, log_msg min_level level is_error module func =
      Ok (if l <? min_level then None else Some (LogEvent l (ERROR <=? l) sys))).
  { destruct (Z.ltb_spec l min_level) as [Hlt | Hge]; [| by apply Hmsg]. exists []. unfold log_msg. fold l.
    by destruct (Z.ltb_spec l min_level); [| lia]. }
  destruct Hsys as [sys Hsys]. exists l, sys. split; [done |]. split; [done |]. split.
  - intros ->. done.
  - intros l' -> Hl'. unfold l. destruct (PyDict.get log_level_map l') eqn:E; [done |]. by apply Hlev in Hl'.
Qed.

(** ** External commands *)

(** How a process ended. *)
Inductive outcome := Exited (rc : Z) (stdout stderr : bytes) | Signalled (signum : Z) (stdout stderr : bytes).

(** [call_and_check_rc]: the output of a command that exited with 0. *)
Definition call_and_check_rc (o : outcome) : result bytes :=
  match o with
  | Exited rc stdout _ => if rc =? 0 then Ok stdout else Raise (Exception_ "ExecError: RC")
  | Signalled _ _ _ => Raise (Exception_ "ExecError: Got signal")
  end.

(** ** Crash handling *)

(** The flag of common.py and whether the reactor runs. *)
Record run_state := RunState { system_failed : bool; running : bool }.

Definition fatal_error (stop_reactor : bool) (s : run_state) : run_state :=
  RunState true (if stop_reactor then false else running s).

Definition exit_status (s : run_state) : Z := if system_failed s then 1 else 0.

(** [abort_on_crash] as an errback of the start-up: only failures reach it. *)
Definition abort_on_crash {A} (r : result A) (s : run_state) : run_state :=
  match r with Raise _ => fatal_error true s | Ok _ => s end.

End Runtime.
