(* ===== verification/Services.v ===== *)
(** src/wfb_ng/services.py: peer addresses, link ids, the resolution of a
    profile into services, the command lines of wfb_tx and wfb_rx, and the
    wiring of each service type: which sockets it opens, which processes it
    starts, which card its traffic goes to, and what it closes at the end. *)
From Stdlib Require Import ZArith Lia Bool.
From stdpp Require Import base list numbers strings gmap.
From S2P Require Import Prelude PyStruct Sha PyDict PyNum PyText Config AntSel.

Module Services.
Import PyText Config.

(** ** Peer addresses *)

(** Characters that are equal under [re.IGNORECASE] to a lower-case ASCII
    letter: the capital, the two Turkish i, the long s and the Kelvin sign. *)
Definition fold_case (c : Z) : Z :=
  if within 65 90 c then c + 32
  else if (c =? 304) || (c =? 305) then 105
  else if c =? 383 then 115
  else if c =? 8490 then 107
  else c.

(** A literal at the start of the text. *)
Fixpoint ci_prefix (p l : text) : option text :=
  match p, l with
  | [], _ => Some l
  | c :: p', d :: l' => if fold_case d =? c then ci_prefix p' l' else None
  | _ :: _, [] => None
  end.

(** [X+] for a character class: the longest run, if not empty. *)
Fixpoint span (f : Z -> bool) (l : text) : text * text :=
  match l with
  | [] => ([], [])
  | c :: l' => if f c then let '(a, b) := span f l' in (c :: a, b) else ([], l)
  end.

Definition run1 (f : Z -> bool) (l : text) : option (text * text) :=
  match span f l with ([], _) => None | r => Some r end.

Definition is_digit (c : Z) : bool := within 48 57 c.

(** One character. *)
Definition char1 (c : Z) (l : text) : option text :=
  match l with d :: l' => if d =? c then Some l' else None | [] => None end.

(** [$]: the end, or before a newline that ends the text. *)
Definition at_end (l : text) : option unit := match l with [] | [10] => Some tt | _ => None end.

(** ['(?P<addr>[0-9]+\.[0-9]+\.[0-9]+\.[0-9]+):(?P<port>[0-9]+)$']. *)
Definition match_addr (l : text) : option (text * text) :=
  '(a, l) ← run1 is_digit l; l ← char1 46 l;
  '(b, l) ← run1 is_digit l; l ← char1 46 l;
  '(c, l) ← run1 is_digit l; l ← char1 46 l;
  '(d, l) ← run1 is_digit l; l ← char1 58 l;
  '(port, l) ← run1 is_digit l; _ ← at_end l;
  Some (a ++ 46 :: b ++ 46 :: c ++ 46 :: d, port).

Definition connect_udp_re (peer : text) : option (text * text) := ci_prefix (lit "connect://") peer ≫= match_addr.
Definition listen_udp_re (peer : text) : option (text * text) := ci_prefix (lit "listen://") peer ≫= match_addr.

Definition dev_char (c : Z) : bool :=
  within 97 122 (fold_case c) || is_digit c || (c =? 45) || (c =? 95) || (c =? 47).

Definition serial_re (peer : text) : option (text * text) :=
  l ← ci_prefix (lit "serial:") peer;
  '(dev, l) ← run1 dev_char l; l ← char1 58 l;
  '(baud, l) ← run1 is_digit l; _ ← at_end l;
  Some (dev, baud).

(** ['(?P<path>.+)$']. *)
Definition match_path (l : text) : option text :=
  '(path, l) ← run1 (fun c => negb (c =? 10)) l; _ ← at_end l; Some path.

Definition connect_unix_re (peer : text) : option text := ci_prefix (lit "connect_unix://@") peer ≫= match_path.
Definition listen_unix_re (peer : text) : option text := ci_prefix (lit "listen_unix://@") peer ≫= match_path.

(** ** Link ids *)

Definition bandwidth_map : PyDict.dict Z text :=
  [(5, lit "5MHz"); (10, lit "10MHz"); (20, lit "HT20"); (40, lit "HT40+"); (80, lit "80MHz"); (160, lit "160MHz")].

(** [str.encode('utf-8')]; surrogates have no encoding. *)
Definition utf8_char (c : Z) : result bytes :=
  if c <? 128 then Ok [c]
  else if c <? 2048 then Ok [192 + c / 64; 128 + c mod 64]
  else if within 55296 57343 c then Raise ValueError
  else if c <? 65536 then Ok [224 + c / 4096; 128 + c / 64 mod 64; 128 + c mod 64]
  else Ok [240 + c / 262144; 128 + c / 4096 mod 64; 128 + c / 64 mod 64; 128 + c mod 64].

Definition utf8_encode (l : text) : result bytes := ls ← result_map utf8_char l; Ok (concat ls).

Definition hash_link_domain (link_domain : text) : result Z :=
  b ← utf8_encode link_domain; Ok (PyStruct.be_decode (py_slice (Sha.sha1 b) 0 3)).

(** ** [parse_services] *)

(** The attributes of a section object are replaced one by one. *)
Definition update (cfg add : sect) : sect := fold_left (fun d p => PyDict.set d p.1 p.2) add cfg.

(** Elements of a value that is iterated, and the name a string is. *)
Definition iter (v : cval) : result (list cval) :=
  match v with
  | CList l | CTuple l => Ok l
  | CStr s => Ok (map (fun c => CStr [c]) s)
  | CDict l => Ok l.*1
  | _ => Raise TypeError
  end.

Definition as_name (v : cval) : result text := match v with CStr s => Ok s | _ => Raise TypeError end.

(** [cfg.__dict__.update(getattr(settings, profile).__dict__)] for each profile. *)
Fixpoint apply_profiles (st : settings) (cfg : sect) (profiles : list cval) : result sect :=
  match profiles with
  | [] => Ok cfg
  | p :: ps => name ← as_name p; s ← getattr st name; apply_profiles st (update cfg s) ps
  end.

(** The keys of a stream are strings. *)
Definition as_stream (v : cval) : result sect :=
  match v with
  | CDict l => result_map (fun p => k ← as_name p.1; Ok (k, p.2)) l
  | _ => Raise TypeError
  end.

Record service := Service { s_name : cval; s_type : cval; s_cfg : sect }.

(** One stream; [alloc] is the next port of the allocator, if there is one. *)
Definition parse_stream (st : settings) (alloc : option Z) (stream : cval) : result (service * option Z) :=
  stream ← as_stream stream;
  '(name, stream) ← PyDict.pop stream (lit "name");
  '(service_type, stream) ← PyDict.pop stream (lit "service_type");
  '(profiles, stream) ← PyDict.pop stream (lit "profiles");
  profiles ← iter profiles;
  cfg ← apply_profiles st [] profiles;
  let cfg := update cfg stream in
  Ok match alloc with
     | None => (Service name service_type cfg, None)
     | Some port =>
         (Service name service_type (PyDict.set cfg (lit "udp_port_auto") (CNum (PyNum.NInt port))), Some (port + 1))
     end.

Fixpoint parse_streams (st : settings) (alloc : option Z) (l : list cval) : result (list service * option Z) :=
  match l with
  | [] => Ok ([], alloc)
  | x :: l' =>
      '(s, alloc) ← parse_stream st alloc x;
      '(ss, alloc) ← parse_streams st alloc l';
      Ok (s :: ss, alloc)
  end.

Definition parse_services (st : settings) (profile_name : text) (alloc : option Z)
    : result (list service * option Z) :=
  p ← getattr st profile_name;
  streams ← getattr p (lit "streams");
  l ← iter streams;
  parse_streams st alloc l.

(** ** Resolution of attributes *)

(** The keys a stream gives up before it becomes configuration. *)
Definition reserved : list text := [lit "name"; lit "service_type"; lit "profiles"].

Definition profile_names (stream : sect) : result (list text) :=
  v ← PyDict.item stream (lit "profiles"); l ← iter v; result_map as_name l.

(** The value of an attribute of a service: the stream's own, or that of the
    last listed profile that defines it. *)
Definition effective (st : settings) (names : list text) (stream : sect) (k : text) : option cval :=
  match (if decide (k ∈ reserved) then None else PyDict.get stream k) with
  | Some v => Some v
  | None => last (omap (fun n => lookup st n k) names)
  end.

Definition resolves (st : settings) (port : option Z) (stream : sect) (s : service) : Prop :=
  PyDict.get stream (lit "name") = Some (s_name s) /\
  PyDict.get stream (lit "service_type") = Some (s_type s) /\
  exists names, profile_names stream = Ok names /\
    forall k, PyDict.get (s_cfg s) k =
      match port with
      | Some p => if decide (k = lit "udp_port_auto") then Some (CNum (PyNum.NInt p)) else effective st names stream k
      | None => effective st names stream k
      end.

Lemma apply_profiles_get st cfg ps cfg' k : settings_ok st -> apply_profiles st cfg ps = Ok cfg' ->
  exists names, result_map as_name ps = Ok names /\
    PyDict.get cfg' k = match last (omap (fun n => lookup st n k) names) with
                        | Some v => Some v | None => PyDict.get cfg k end.
Proof.
  intros Hst. revert cfg. induction ps as [|p ps IH]; intros cfg H.
  - injection H as <-. by exists [].
  - cbn [apply_profiles] in H. destruct (as_name p) as [n|] eqn:En; [| done]. cbn [mbind result_bind] in H.
    unfold getattr in H. destruct (PyDict.get st n) as [s|] eqn:Es; [| done]. cbn [of_option mbind result_bind] in H.
    destruct (IH _ H) as (names & Hn & Hg). exists (n :: names). split; [cbn; by rewrite En, Hn |].
    rewrite Hg. unfold update. rewrite PyDict.get_update by (by eapply settings_get_ok). cbn [omap list_omap].
    unfold lookup at 2. rewrite Es. cbn [mbind option_bind].
    destruct (PyDict.get s k) as [v|]; [| done]. destruct (omap (fun n => lookup st n k) names); [done |].
    rewrite last_cons_cons. by destruct (last (c :: l)) eqn:El; [| apply last_None in El].
Qed.

Lemma parse_stream_resolves st alloc x s alloc' : settings_ok st -> parse_stream st alloc x = Ok (s, alloc') ->
  alloc' = Z.succ <$> alloc /\
  exists stream, as_stream x = Ok stream /\ (PyDict.ok stream -> resolves st alloc stream s).
Proof.
  intros Hst H. unfold parse_stream in H. destruct (as_stream x) as [stream|] eqn:Ex; [| done].
  cbn [mbind result_bind] in H.
  destruct (PyDict.pop stream (lit "name")) as [[nm s1]|] eqn:E1; [| done]. cbn [mbind result_bind] in H.
  destruct (PyDict.pop s1 (lit "service_type")) as [[ty s2]|] eqn:E2; [| done]. cbn [mbind result_bind] in H.
  destruct (PyDict.pop s2 (lit "profiles")) as [[ps s3]|] eqn:E3; [| done]. cbn [mbind result_bind] in H.
  destruct (iter ps) as [pl|] eqn:Ei; [| done]. cbn [mbind result_bind] in H.
  destruct (apply_profiles st [] pl) as [cfg|] eqn:Ep; [| done]. cbn [mbind result_bind] in H.
  injection H as Hs. apply PyDict.pop_ok in E1 as [G1 ->]. apply PyDict.pop_ok in E2 as [G2 ->].
  apply PyDict.pop_ok in E3 as [G3 ->]. split; [by destruct alloc; injection Hs as <- <- |].
  exists stream. split; [done |]. intros Hok.
  assert (Hn : s_name s = nm /\ s_type s = ty) by (by destruct alloc; injection Hs as <- _).
  unfold resolves. destruct Hn as [-> ->]. rewrite PyDict.get_del in G2 by done.
  rewrite !PyDict.get_del in G3 by auto using PyDict.ok_del. split; [done |]. split; [done |].
  assert (Hk : forall k, exists names, result_map as_name pl = Ok names /\
    PyDict.get (update cfg (PyDict.del (PyDict.del (PyDict.del stream (lit "name")) (lit "service_type")) (lit "profiles"))) k
    = effective st names stream k).
  { intros k. destruct (apply_profiles_get st [] pl cfg k Hst Ep) as (names & Hns & Hg). exists names. split; [done |].
    unfold update. rewrite PyDict.get_update, !PyDict.get_del by auto using PyDict.ok_del. rewrite Hg. unfold effective, reserved.
    cbn [PyDict.get]. destruct (decide (k ∈ _)) as [Hin | Hnin].
    - rewrite !elem_of_cons, elem_of_nil in Hin. destruct Hin as [-> | [-> | [-> | []]]]; by destruct (last _).
    - rewrite !not_elem_of_cons in Hnin. destruct Hnin as (H1 & H2 & H3 & _). rewrite !decide_False by done.
      destruct (PyDict.get stream k); [done |]. by destruct (last _). }
  destruct (Hk []) as (names & Hns & _). exists names. split.
  - unfold profile_names, PyDict.item. change (PyDict.get stream (lit "profiles") = Some ps) in G3. rewrite G3.
    cbn [of_option mbind result_bind]. by rewrite Ei.
  - intros k. destruct (Hk k) as (names' & Hns' & Hg). rewrite Hns in Hns'. injection Hns' as <-.
    destruct alloc as [p|]; injection Hs as <- _; cbn [s_cfg]; [| done]. rewrite PyDict.get_set. destruct (decide (k = lit "udp_port_auto")) as [E | E].
    + by rewrite decide_True by exact E.
    + by rewrite decide_False by exact E.
Qed.

(** The streams of a profile. *)
Definition streams_of (st : settings) (profile_name : text) : result (list cval) :=
  p ← getattr st profile_name; v ← getattr p (lit "streams"); iter v.

Lemma parse_streams_resolves st alloc l ss alloc' : settings_ok st -> parse_streams st alloc l = Ok (ss, alloc') ->
  length ss = length l /\ alloc' = (fun p => p + Z.of_nat (length l)) <$> alloc /\
  forall i s, ss !! i = Some s -> exists x stream, l !! i = Some x /\ as_stream x = Ok stream /\
    (PyDict.ok stream -> resolves st ((fun p => p + Z.of_nat i) <$> alloc) stream s).
Proof.
  intros Hst. revert alloc ss alloc'. induction l as [|x l IH]; intros alloc ss alloc' H.
  - injection H as <- <-. split; [done |]. split; [| done]. destruct alloc; cbn; [f_equal; lia | done].
  - cbn [parse_streams] in H. destruct (parse_stream st alloc x) as [[s a1]|] eqn:E1; [| done].
    cbn [mbind result_bind] in H. destruct (parse_streams st a1 l) as [[ss1 a2]|] eqn:E2; [| done].
    cbn [mbind result_bind] in H. injection H as <- <-.
    destruct (parse_stream_resolves st alloc x s a1 Hst E1) as [-> Hx]. destruct (IH _ _ _ E2) as (Hl & -> & Hr).
    split; [cbn; by rewrite Hl |]. split; [destruct alloc; cbn; [f_equal; lia | done] |].
    intros [|i] s' Hi; cbn in Hi.
    + injection Hi as <-. destruct Hx as (stream & Hs & Hres). exists x, stream. split; [done |]. split; [done |].
      replace ((fun p => p + Z.of_nat 0) <$> alloc) with alloc; [done |]. destruct alloc; cbn; [f_equal; lia | done].
    + destruct (Hr i s' Hi) as (x' & stream & H1 & H2 & H3). exists x', stream. split; [done |]. split; [done |].
      replace ((fun p => p + Z.of_nat (S i)) <$> alloc) with ((fun p => p + Z.of_nat i) <$> (Z.succ <$> alloc)); [done |].
      destruct alloc; cbn; [f_equal; lia | done].
Qed.

Lemma parse_services_resolves st profile alloc ss alloc' : settings_ok st ->
  parse_services st profile alloc = Ok (ss, alloc') ->
  exists l, streams_of st profile = Ok l /\ length ss = length l /\
    alloc' = (fun p => p + Z.of_nat (length l)) <$> alloc /\
    forall i s, ss !! i = Some s -> exists x stream, l !! i = Some x /\ as_stream x = Ok stream /\
      (PyDict.ok stream -> resolves st ((fun p => p + Z.of_nat i) <$> alloc) stream s).
Proof.
  intros Hst H. unfold parse_services in H. unfold streams_of.
  destruct (getattr st profile) as [p|]; [| done]. cbn [mbind result_bind] in *.
  destruct (getattr p (lit "streams")) as [v|]; [| done]. cbn [mbind result_bind] in *.
  destruct (iter v) as [l|]; [| done]. cbn [mbind result_bind] in H. exists l. split; [done |].
  by apply parse_streams_resolves.
Qed.

(** Ports alone. *)
Lemma parse_streams_ports st a l ss alloc' : parse_streams st (Some a) l = Ok (ss, alloc') ->
  alloc' = Some (a + Z.of_nat (length ss)) /\
  forall i s, ss !! i = Some s -> PyDict.get (s_cfg s) (lit "udp_port_auto") = Some (CNum (PyNum.NInt (a + Z.of_nat i))).
Proof.
  revert a ss alloc'. induction l as [|x l IH]; intros a ss alloc' H.
  - injection H as <- <-. split; [cbn; f_equal; lia | done].
  - cbn [parse_streams] in H. destruct (parse_stream st (Some a) x) as [[s a1]|] eqn:E1; [| done].
    cbn [mbind result_bind] in H. destruct (parse_streams st a1 l) as [[ss1 a2]|] eqn:E2; [| done].
    cbn [mbind result_bind] in H. injection H as <- <-.
    assert (Hs : a1 = Some (a + 1) /\ PyDict.get (s_cfg s) (lit "udp_port_auto") = Some (CNum (PyNum.NInt a))).
    { unfold parse_stream in E1. repeat (inv_ok; try match goal with x : (_ * _)%type |- _ => destruct x end).
      subst. split; [done |]. cbn [s_cfg]. apply PyDict.get_set_eq. }
    destruct Hs as [-> Hs]. destruct (IH _ _ _ E2) as [-> Hr]. split; [cbn; f_equal; lia |].
    intros [|i] s' Hi; cbn in Hi; [injection Hi as <-; by rewrite Z.add_0_r |]. rewrite (Hr _ _ Hi). do 3 f_equal. lia.
Qed.

Lemma parse_services_ports st profile a ss alloc' : parse_services st profile (Some a) = Ok (ss, alloc') ->
  alloc' = Some (a + Z.of_nat (length ss)) /\
  forall i s, ss !! i = Some s -> PyDict.get (s_cfg s) (lit "udp_port_auto") = Some (CNum (PyNum.NInt (a + Z.of_nat i))).
Proof. unfold parse_services. intros H. repeat inv_ok. by eapply parse_streams_ports. Qed.

(** C29: a profile resolves to one service per stream, in order; an attribute of
    a service is the stream's own value or else that of the last listed profile
    that defines it, and with a port allocator the i-th service gets the i-th
    port, which no profile can override. *)
Theorem parse_services_spec literal_eval fv fs_ basedir files interp st used profile alloc ss alloc' :
  parse_config literal_eval fv fs_ basedir files interp = Ok (st, used) ->
  parse_services st profile alloc = Ok (ss, alloc') ->
  exists l, streams_of st profile = Ok l /\ length ss = length l /\
    alloc' = (fun p => p + Z.of_nat (length l)) <$> alloc /\
    forall i s, ss !! i = Some s -> exists x stream, l !! i = Some x /\ as_stream x = Ok stream /\
      (PyDict.ok stream -> resolves st ((fun p => p + Z.of_nat i) <$> alloc) stream s).
Proof. intros Hc. apply parse_services_resolves. by eapply parse_config_ok. Qed.

(** ** Command lines *)

(** [os.path.join(a, b)]. *)
Definition path_join (a b : text) : text :=
  match b with
  | 47 :: _ => b
  | _ => match last a with
         | None => b
         | Some 47 => a ++ b
         | Some _ => a ++ 47 :: b
         end
  end.

(** [str.split()]: words between white space. *)
Fixpoint split_go (cur l : text) : list text :=
  match l with
  | [] => match cur with [] => [] | _ => [cur] end
  | c :: l' =>
      if is_space c then match cur with [] => split_go [] l' | _ => cur :: split_go [] l' end
      else split_go (cur ++ [c]) l'
  end.

Definition split_ws (l : text) : list text := split_go [] l.

(** The settings all services read. *)
Record globals := Globals {
  bin_dir : text; conf_dir : text;
  log_interval : Z; tx_rcv_buf_size : Z; rx_snd_buf_size : Z; radio_mtu : Z
}.

(** The attributes of a service's configuration, with the types of master.cfg.
    [None] in a number that is printed with [%d] raises [TypeError]. *)
Record srv_cfg := SrvCfg {
  peer : option text; osd : option text;
  stream_rx : option Z; stream_tx : option Z;
  keypair : text; frame_type : text;
  mirror : bool; force_vht : bool; short_gi : bool; use_qdisc : bool;
  bandwidth : Z; stbc : Z; ldpc : Z; mcs_index : Z; fwmark : Z; control_port : Z;
  fec_k : Z; fec_n : Z; fec_timeout : Z; fec_delay : Z;
  injection_retries : Z; injection_retry_delay : Z; udp_port_auto : Z;
  call_on_arm : option text; call_on_disarm : option text; log_messages : bool;
  mavlink_tcp_port : option Z; ifname : text; ifaddr : text; default_route : bool
}.

(** *** How the programs read their arguments *)

(** [getopt(3)] with the option characters [opts] of src/src/tx.cpp and rx.cpp:
    the options with their arguments, and the operands. *)
Fixpoint has_arg (opts : text) (c : Z) : option bool :=
  match opts with
  | [] => None
  | o :: opts' =>
      if o =? 58 then has_arg opts' c
      else if o =? c then Some (match opts' with 58 :: _ => true | _ => false end)
      else has_arg opts' c
  end.

(** The options of one argument [-xyz]; the last one may want the next. *)
Fixpoint cluster (opts : text) (l : text) : option (list (Z * option text) * option Z) :=
  match l with
  | [] => Some ([], None)
  | c :: l' =>
      match has_arg opts c with
      | None => None
      | Some false => '(os, w) ← cluster opts l'; Some ((c, None) :: os, w)
      | Some true => match l' with [] => Some ([], Some c) | _ => Some ([(c, Some l')], None) end
      end
  end.

Fixpoint getopt (opts : text) (want : option Z) (args : list text) : option (list (Z * option text) * list text) :=
  match args with
  | [] => match want with None => Some ([], []) | Some _ => None end
  | a :: args' =>
      match want with
      | Some c => '(os, ps) ← getopt opts None args'; Some ((c, Some a) :: os, ps)
      | None =>
          if bool_decide (a = [45; 45]) then Some ([], args')
          else if bool_decide (head a = Some 45 /\ a <> [45]) then
            '(os, w) ← cluster opts (tail a); '(os', ps) ← getopt opts w args'; Some (os ++ os', ps)
          else '(os, ps) ← getopt opts None args'; Some (os, a :: ps)
      end
  end.

Definition tx_opts : text := lit "dI:K:k:n:u:U:p:F:l:B:G:S:L:M:N:D:T:i:e:R:s:f:mVQP:C:J:E:".
Definition rx_opts : text := lit "K:fa:c:u:U:p:l:i:e:R:s:".

(** An option and its character. *)
Definition opt (s : text) (v : text) : Z * option text := (default 0 (head s), Some v).
Definition flag (s : text) : Z * option text := (default 0 (head s), None).

(** An operand: an interface name, or a cluster peer. *)
Definition operand (a : text) : Prop := head a <> Some 45.

Lemma getopt_operands opts l : Forall operand l -> getopt opts None l = Some ([], l).
Proof.
  induction 1 as [|a l Ha _ IH]; [done |]. cbn [getopt]. unfold operand in Ha.
  rewrite !bool_decide_eq_false_2 by (intros ?; subst; naive_solver). by rewrite IH.
Qed.

Lemma getopt_opt opts c v l os ps : has_arg opts c = Some true -> c <> 45 -> getopt opts None l = Some (os, ps) ->
  getopt opts None ([45; c] :: v :: l) = Some ((c, Some v) :: os, ps).
Proof.
  intros Hc H45 Hl. cbn [getopt cluster tail]. rewrite bool_decide_eq_false_2, bool_decide_eq_true_2 by naive_solver.
  by rewrite Hc, Hl.
Qed.

Lemma getopt_flag opts c l os ps : has_arg opts c = Some false -> c <> 45 -> getopt opts None l = Some (os, ps) ->
  getopt opts None ([45; c] :: l) = Some ((c, None) :: os, ps).
Proof.
  intros Hc H45 Hl. cbn [getopt cluster tail]. rewrite bool_decide_eq_false_2, bool_decide_eq_true_2 by naive_solver.
  rewrite Hc. cbn [mbind option_bind]. by rewrite Hl.
Qed.

Section Commands.
Context (g : globals) (cfg : srv_cfg) (is_cluster : bool) (link_id : Z).

(** [('...' % dict(...)).split()] of the wfb_tx command; [conn] is how it is
    reached and [extra] what [init_udp_direct_tx] appends. *)
Definition tx_text (stream : Z) (conn extra : text) : text :=
  path_join (bin_dir g) (lit "wfb_tx") ++ (if is_cluster then lit " -d" else []) ++
  lit " -f " ++ frame_type cfg ++ lit " -p " ++ print_d stream ++ lit " " ++ conn ++
  lit " -K " ++ path_join (conf_dir g) (keypair cfg) ++ lit " -B " ++ print_d (bandwidth cfg) ++
  lit " -G " ++ (if short_gi cfg then lit "short" else lit "long") ++
  lit " -S " ++ print_d (stbc cfg) ++ lit " -L " ++ print_d (ldpc cfg) ++ lit " -M " ++ print_d (mcs_index cfg) ++
  (if mirror cfg then lit " -m" else []) ++ (if force_vht cfg then lit " -V" else []) ++
  (if use_qdisc cfg then lit " -Q -P " ++ print_d (fwmark cfg) else []) ++
  lit " -k " ++ print_d (fec_k cfg) ++ lit " -n " ++ print_d (fec_n cfg) ++
  lit " -T " ++ print_d (fec_timeout cfg) ++ lit " -F " ++ print_d (fec_delay cfg) ++
  lit " -i " ++ print_d link_id ++ lit " -R " ++ print_d (tx_rcv_buf_size g) ++
  lit " -s " ++ print_d (rx_snd_buf_size g) ++ lit " -l " ++ print_d (log_interval g) ++
  lit " -C " ++ print_d (control_port cfg) ++ extra.

(** The wfb_rx command. *)
Definition rx_text (stream : Z) (conn : text) : text :=
  path_join (bin_dir g) (lit "wfb_rx") ++ (if is_cluster then lit " -a " ++ print_d (udp_port_auto cfg) else []) ++
  lit " -p " ++ print_d stream ++ lit " " ++ conn ++ lit " -K " ++ path_join (conf_dir g) (keypair cfg) ++
  lit " -R " ++ print_d (tx_rcv_buf_size g) ++ lit " -s " ++ print_d (rx_snd_buf_size g) ++
  lit " -l " ++ print_d (log_interval g) ++ lit " -i " ++ print_d link_id.

Definition tx_cmd (stream : Z) (conn extra : text) (wlans : list text) : list text :=
  split_ws (tx_text stream conn extra) ++ wlans.

Definition rx_cmd (stream : Z) (conn : text) (wlans : list text) : list text :=
  split_ws (rx_text stream conn) ++ (if is_cluster then [] else wlans).

(** *** The arguments the programs get *)

(** A non-empty text without white space. *)
Definition word (w : text) : Prop := w <> [] /\ Forall (fun c => is_space c = false) w.

(** The options of wfb_tx, in order. *)
Definition tx_argv (stream : Z) (conn extra : list text) (wlans : list text) : list text :=
  [path_join (bin_dir g) (lit "wfb_tx")] ++ (if is_cluster then [lit "-d"] else []) ++
  [lit "-f"; frame_type cfg; lit "-p"; print_d stream] ++ conn ++
  [lit "-K"; path_join (conf_dir g) (keypair cfg); lit "-B"; print_d (bandwidth cfg);
   lit "-G"; if short_gi cfg then lit "short" else lit "long";
   lit "-S"; print_d (stbc cfg); lit "-L"; print_d (ldpc cfg); lit "-M"; print_d (mcs_index cfg)] ++
  (if mirror cfg then [lit "-m"] else []) ++ (if force_vht cfg then [lit "-V"] else []) ++
  (if use_qdisc cfg then [lit "-Q"; lit "-P"; print_d (fwmark cfg)] else []) ++
  [lit "-k"; print_d (fec_k cfg); lit "-n"; print_d (fec_n cfg); lit "-T"; print_d (fec_timeout cfg);
   lit "-F"; print_d (fec_delay cfg); lit "-i"; print_d link_id; lit "-R"; print_d (tx_rcv_buf_size g);
   lit "-s"; print_d (rx_snd_buf_size g); lit "-l"; print_d (log_interval g); lit "-C"; print_d (control_port cfg)] ++
  extra ++ wlans.

Definition rx_argv (stream : Z) (conn : list text) (wlans : list text) : list text :=
  [path_join (bin_dir g) (lit "wfb_rx")] ++ (if is_cluster then [lit "-a"; print_d (udp_port_auto cfg)] else []) ++
  [lit "-p"; print_d stream] ++ conn ++
  [lit "-K"; path_join (conf_dir g) (keypair cfg); lit "-R"; print_d (tx_rcv_buf_size g);
   lit "-s"; print_d (rx_snd_buf_size g); lit "-l"; print_d (log_interval g); lit "-i"; print_d link_id] ++
  (if is_cluster then [] else wlans).

(** Text built from words and spaces splits into the words: [toks w ws] says
    that the text [w] consists of the words [ws], each after a space. *)
Definition spaced (ws : list text) : text := concat (map (fun w => 32 :: w) ws).

Lemma spaced_app a b : spaced (a ++ b) = spaced a ++ spaced b.
Proof using Type. unfold spaced. by rewrite map_app, concat_app. Qed.

Lemma spaced_cons w ws : spaced (w :: ws) = 32 :: w ++ spaced ws.
Proof using Type. done. Qed.

Lemma split_go_word cur w l : Forall (fun c => is_space c = false) w -> split_go cur (w ++ l) = split_go (cur ++ w) l.
Proof using Type.
  intros Hw. revert cur. induction Hw as [|c w Hc _ IH]; intros cur; cbn [app split_go]; [by rewrite app_nil_r |].
  rewrite Hc, IH, <- app_assoc. done.
Qed.

Lemma split_go_spaced cur ws : cur <> [] -> Forall word ws -> split_go cur (spaced ws) = cur :: ws.
Proof using Type.
  intros Hc Hws. revert cur Hc. induction Hws as [|w ws [Hne Hw] _ IH]; intros cur Hc.
  - by destruct cur.
  - rewrite spaced_cons. cbn [split_go]. change (is_space 32) with true. cbv iota.
    rewrite (split_go_word [] w (spaced ws) Hw), app_nil_l, (IH w Hne). by destruct cur.
Qed.

Lemma split_spaced w ws : word w -> Forall word ws -> split_ws (w ++ spaced ws) = w :: ws.
Proof using Type.
  intros [Hne Hw] Hws. unfold split_ws. rewrite (split_go_word [] w (spaced ws) Hw). cbn [app]. by apply split_go_spaced.
Qed.

Lemma plain_word w : w <> [] -> Forall plain w -> word w.
Proof using Type. intros Hn Hw. split; [done |]. eapply Forall_impl; [done |]. apply plain_not_space. Qed.

Lemma word_d z : word (print_d z).
Proof using Type. apply plain_word; [apply print_d_ne | apply print_d_plain]. Qed.

(** *** The commands are as meant *)

Lemma lit_spaced ws w : Forall word ws -> word w -> Forall word (w :: ws).
Proof using Type. by constructor. Qed.

Hypothesis bin_word : word (path_join (bin_dir g) (lit "wfb_tx")) /\ word (path_join (bin_dir g) (lit "wfb_rx")).
Hypothesis key_word : word (path_join (conf_dir g) (keypair cfg)).
Hypothesis frame_word : word (frame_type cfg).

(** Printable ASCII, decided. *)
Lemma literal_word w : w <> [] -> forallb (fun c => (33 <=? c) && (c <? 127)) w = true -> word w.
Proof using Type.
  intros Hn Hw. apply plain_word; [done |]. apply Forall_forall. intros c Hc.
  rewrite forallb_forall in Hw. specialize (Hw c (proj1 (list_elem_of_In _ _) Hc)). to_prop. unfold plain. lia.
Qed.

Ltac all_words :=
  repeat first [assumption | apply word_d | apply Forall_nil_2 | apply Forall_cons; split | apply Forall_app; split
               | apply literal_word; [discriminate | reflexivity]].

(** An option that may be absent. *)
Lemma spaced_if (b : bool) ws : spaced (if b then ws else []) = if b then spaced ws else [].
Proof using Type. by destruct b. Qed.

(** Both sides as one right-nested text. *)
Ltac spaced_out Hc :=
  rewrite ?spaced_app, ?spaced_if; repeat (rewrite spaced_cons || rewrite spaced_app || rewrite spaced_if); rewrite <- Hc;
  change (spaced []) with (@nil Z); rewrite ?app_nil_r, <- ?app_assoc; cbn [app]; rewrite <- ?app_assoc; reflexivity.

Lemma gi_word : word (if short_gi cfg then lit "short" else lit "long").
Proof using Type. destruct (short_gi cfg); all_words. Qed.

Lemma tx_text_spaced stream conn cws ews : 32 :: conn = spaced cws ->
  tx_text stream conn (spaced ews) =
  path_join (bin_dir g) (lit "wfb_tx") ++ spaced (tail (tx_argv stream cws ews [])).
Proof using Type.
  intros Hc. unfold tx_text, tx_argv. f_equal. cbn [tail app]. spaced_out Hc.
Qed.

Lemma rx_text_spaced stream conn cws : 32 :: conn = spaced cws ->
  rx_text stream conn = path_join (bin_dir g) (lit "wfb_rx") ++ spaced (tail (rx_argv stream cws [])).
Proof using Type.
  intros Hc. unfold rx_text, rx_argv. f_equal. cbn [tail app]. destruct is_cluster; spaced_out Hc.
Qed.

Lemma tx_cmd_argv stream conn cws ews wlans : 32 :: conn = spaced cws -> Forall word cws -> Forall word ews ->
  tx_cmd stream conn (spaced ews) wlans = tx_argv stream cws ews wlans.
Proof using All.
  intros Hc Hcw Hew. destruct bin_word as [Hb _]. pose proof gi_word as Hgi. unfold tx_cmd.
  rewrite (tx_text_spaced _ _ _ _ Hc), split_spaced; [| done |].
  - unfold tx_argv. rewrite ?app_nil_r. cbn [tail app]. rewrite <- ?app_assoc. cbn [app]. rewrite <- ?app_assoc. cbn [app].
    by rewrite <- ?app_assoc.
  - unfold tx_argv. cbn [tail app]. destruct is_cluster, (mirror cfg), (force_vht cfg), (use_qdisc cfg); cbn [app]; all_words.
Qed.

Lemma rx_cmd_argv stream conn cws wlans : 32 :: conn = spaced cws -> Forall word cws ->
  rx_cmd stream conn wlans = rx_argv stream cws wlans.
Proof using bin_word key_word.
  intros Hc Hcw. destruct bin_word as [_ Hb]. unfold rx_cmd.
  rewrite (rx_text_spaced _ _ _ Hc), split_spaced; [| done |].
  - unfold rx_argv. cbn [tail app]. destruct is_cluster; cbn [app]; rewrite ?app_nil_r, <- ?app_assoc; reflexivity.
  - unfold rx_argv. cbn [tail app]. destruct is_cluster; cbn [app]; all_words.
Qed.

(** *** What the programs read *)

(** What wfb_tx is meant to be configured with. *)
Definition tx_options (stream : Z) (path : text) : list (Z * option text) :=
  (if is_cluster then [flag (lit "d")] else []) ++
  [opt (lit "f") (frame_type cfg); opt (lit "p") (print_d stream); opt (lit "U") path;
   opt (lit "K") (path_join (conf_dir g) (keypair cfg)); opt (lit "B") (print_d (bandwidth cfg));
   opt (lit "G") (if short_gi cfg then lit "short" else lit "long"); opt (lit "S") (print_d (stbc cfg));
   opt (lit "L") (print_d (ldpc cfg)); opt (lit "M") (print_d (mcs_index cfg))] ++
  (if mirror cfg then [flag (lit "m")] else []) ++ (if force_vht cfg then [flag (lit "V")] else []) ++
  (if use_qdisc cfg then [flag (lit "Q"); opt (lit "P") (print_d (fwmark cfg))] else []) ++
  [opt (lit "k") (print_d (fec_k cfg)); opt (lit "n") (print_d (fec_n cfg)); opt (lit "T") (print_d (fec_timeout cfg));
   opt (lit "F") (print_d (fec_delay cfg)); opt (lit "i") (print_d link_id); opt (lit "R") (print_d (tx_rcv_buf_size g));
   opt (lit "s") (print_d (rx_snd_buf_size g)); opt (lit "l") (print_d (log_interval g));
   opt (lit "C") (print_d (control_port cfg))].

Definition rx_options (stream : Z) (path : text) : list (Z * option text) :=
  (if is_cluster then [opt (lit "a") (print_d (udp_port_auto cfg))] else []) ++
  [opt (lit "p") (print_d stream); opt (lit "U") path; opt (lit "K") (path_join (conf_dir g) (keypair cfg));
   opt (lit "R") (print_d (tx_rcv_buf_size g)); opt (lit "s") (print_d (rx_snd_buf_size g));
   opt (lit "l") (print_d (log_interval g)); opt (lit "i") (print_d link_id)].

(** Reads the options one by one. *)
Ltac read_options :=
  repeat first [apply getopt_opt; [reflexivity | discriminate |] | apply getopt_flag; [reflexivity | discriminate |]];
  by apply getopt_operands.

Lemma wfb_tx_options stream path wlans : word path -> Forall operand wlans ->
  getopt tx_opts None (tail (tx_cmd stream (lit "-U " ++ path) [] wlans)) = Some (tx_options stream path, wlans).
Proof using All.
  intros Hp Hw. change (@nil Z) with (spaced []).
  rewrite (tx_cmd_argv stream _ [lit "-U"; path] []); [| by rewrite !spaced_cons, app_nil_r | all_words | all_words].
  unfold tx_argv, tx_options. cbn [tail app].
  destruct is_cluster, (mirror cfg), (force_vht cfg), (use_qdisc cfg); cbn [app]; read_options.
Qed.

Lemma wfb_rx_options stream path wlans : word path -> Forall operand wlans ->
  getopt rx_opts None (tail (rx_cmd stream (lit "-U " ++ path) wlans)) =
  Some (rx_options stream path, if is_cluster then [] else wlans).
Proof using bin_word key_word.
  intros Hp Hw.
  rewrite (rx_cmd_argv stream _ [lit "-U"; path]); [| by rewrite !spaced_cons, app_nil_r | all_words].
  unfold rx_argv, rx_options. cbn [tail app]. destruct is_cluster; cbn [app]; read_options.
Qed.

End Commands.

(** ** Wiring *)

(** The datagram protocols of a service. *)
Inductive endpoint := EpIn | EpRx | EpTx (wlan_id : Z).

(** Message hooks of a MAVLink service. *)
Inductive hook := HookArm | HookLog | HookTcp.

(** What a service asks of the reactor; listening ports are numbered. *)
Inductive act :=
| ListenUNIX (id : nat) (path : option text) (e : endpoint)
| ListenUDP (id : nat) (port : Z) (e : endpoint)
| ListenTCP (id : nat) (port : Z)
| OpenSerial (dev : text) (baud : Z)
| OpenTun (ifname_ ifaddr_ : text) (mtu : Z) (default_route_ : bool)
| SpawnTX (id : text) (cmd : list text)
| SpawnRX (id : text) (cmd : list text)
| AddRssiCb
| StopListening (id : nat)
| CloseSerial
| CloseTun.

(** The local variables of an [init_] function that outlive a [yield], and the
    attributes of [p_in] it sets.  The transmit protocols are identified by
    their card: [p_tx_map] gives the socket of each. *)
Record svc := Svc {
  acts : list act;
  next_id : nat;
  sockets : list nat;
  p_tx_map : PyDict.dict Z text;
  in_peer : option Z;
  all_peers : list Z;
  rx_hooks : list hook;
  tx_hooks : list hook
}.

Definition init_svc : svc := Svc [] 0 [] [] None [] [] [].

Definition set_sockets l s := Svc (acts s) (next_id s) l (p_tx_map s) (in_peer s) (all_peers s) (rx_hooks s) (tx_hooks s).
Definition set_tx_map m s := Svc (acts s) (next_id s) (sockets s) m (in_peer s) (all_peers s) (rx_hooks s) (tx_hooks s).
Definition set_in_peer w s := Svc (acts s) (next_id s) (sockets s) (p_tx_map s) (Some w) (all_peers s) (rx_hooks s) (tx_hooks s).
Definition set_all_peers l s := Svc (acts s) (next_id s) (sockets s) (p_tx_map s) (in_peer s) l (rx_hooks s) (tx_hooks s).
Definition set_hooks r t s := Svc (acts s) (next_id s) (sockets s) (p_tx_map s) (in_peer s) (all_peers s) r t.

Definition is_listen (a : act) : bool :=
  match a with ListenUNIX _ _ _ | ListenUDP _ _ _ | ListenTCP _ _ => true | _ => false end.

Section Wiring.
(** Which requests the reactor refuses. *)
Context (refused : act -> option exn).
Context (g : globals) (cfg : srv_cfg) (service_name : text) (wlans : list text) (link_id : Z)
        (is_cluster : bool) (rx_only : gset Z).
(** [os.urandom(4).hex()] for the two socket names. *)
Context (rnd_rx rnd_tx : text).

Definition do_act (a : act) : SE svc unit := fun s =>
  match refused a with
  | Some e => (s, Raise e)
  | None => (Svc (acts s ++ [a]) (next_id s + (if is_listen a then 1 else 0)) (sockets s) (p_tx_map s) (in_peer s)
                 (all_peers s) (rx_hooks s) (tx_hooks s), Ok tt)
  end.

(** A listening port and its number. *)
Definition listen (mk : nat -> act) : SE svc nat :=
  s ← se_get; _ ← do_act (mk (next_id s)); mret (next_id s).

Definition add_sockets (ids : list nat) : SE svc unit := se_modify (fun s => set_sockets (sockets s ++ ids) s).

(** [[ reactor.listenUNIXDatagram(None, p_tx) for p_tx in p_tx_map.values() ]]. *)
Fixpoint listen_tx (m : list (Z * text)) : SE svc (list nat) :=
  match m with
  | [] => mret []
  | (w, _) :: m' =>
      i ← listen (fun i => ListenUNIX i None (EpTx w)); ids ← listen_tx m'; mret (i :: ids)
  end.

Definition need {A} (v : option A) : SE svc A := se_lift (of_option TypeError v).

Definition rx_id : text := service_name ++ lit " rx".
Definition tx_id : text := service_name ++ lit " tx".
Definition rx_socket_path : text := service_name ++ lit "-rx-" ++ rnd_rx.
Definition tx_socket_path : text := service_name ++ lit "-tx-" ++ rnd_tx.

Definition init_udp_direct_tx : SE svc unit :=
  w0 ← se_lift (if negb (mirror cfg) && negb (1 <? blen wlans) then py_index wlans 0 else Ok []);
  if negb (mirror cfg) && ((1 <? blen wlans) || bool_decide (44 ∈ w0) || negb (bool_decide (rx_only = ∅)))
  then se_raise (Exception_ "udp_direct_tx doesn't supports diversity")
  else
    p ← need (peer cfg);
    conn_str ← match listen_udp_re p with
               | Some (_, port) =>
                   port ← se_lift (int_of 10 port); _ ← need (stream_tx cfg); mret (lit "-u " ++ print_d port)
               | None =>
                   match listen_unix_re p with
                   | Some path => _ ← need (stream_tx cfg); mret (lit "-U " ++ path)
                   | None => se_raise (Exception_ "unsupported peer address")
                   end
               end;
    stream ← need (stream_tx cfg);
    do_act (SpawnTX tx_id (tx_cmd g cfg is_cluster link_id stream conn_str
      (lit " -J " ++ print_d (injection_retries cfg) ++ lit " -E " ++ print_d (injection_retry_delay cfg)) wlans)).

Definition init_udp_direct_rx : SE svc unit :=
  p ← need (peer cfg);
  conn_str ← match connect_udp_re p with
             | Some (addr, port) =>
                 port ← se_lift (int_of 10 port); _ ← need (stream_rx cfg);
                 mret (lit "-c " ++ addr ++ lit " -u " ++ print_d port)
             | None =>
                 match connect_unix_re p with
                 | Some path => _ ← need (stream_rx cfg); mret (lit "-U " ++ path)
                 | None => se_raise (Exception_ "unsupported peer address")
                 end
             end;
  stream ← need (stream_rx cfg);
  do_act (SpawnRX rx_id (rx_cmd g cfg is_cluster link_id stream conn_str wlans)).

(** [ant_sel_cb]: the card the traffic of [p_in] goes to. *)
Definition ant_sel_cb (wlan_id : option Z) : SE svc unit := fun s =>
  match wlan_id with
  | Some w => match PyDict.get (p_tx_map s) w with
              | Some _ => (set_in_peer w s, Ok tt)
              | None => (s, Raise KeyError)
              end
  | None => match p_tx_map s with
            | (w, _) :: _ => (set_in_peer w s, Ok tt)
            | [] => (s, Raise IndexError)
            end
  end.

(** The cards of [tx_sockets] that may transmit. *)
Definition make_tx_map (tx_sockets : PyDict.dict Z text) : PyDict.dict Z text :=
  List.filter (fun p => negb (bool_decide (p.1 ∈ rx_only))) tx_sockets.

(** [if p_tx_map: ant_sel_f.add_ant_sel_cb(ant_sel_cb)], which calls it once. *)
Definition register_cb (tx_sel : option Z) : SE svc unit :=
  s ← se_get; if bool_decide (p_tx_map s = []) then mret tt else ant_sel_cb tx_sel.

Definition stop_sockets : SE svc unit := s ← se_get; se_iter (fun i => do_act (StopListening i)) (sockets s).

(** *** [init_mavlink] *)

(** What the peer address asks for. *)
Inductive mav_peer := Connect (addr : text) (port : Z) | Listen (port : Z) | Serial (dev : text) (baud : Z).

Definition mavlink_peer : SE svc mav_peer :=
  p ← need (peer cfg);
  match connect_udp_re p with
  | Some (addr, port) =>
      port ← se_lift (int_of 10 port); _ ← need (stream_rx cfg); _ ← need (stream_tx cfg); mret (Connect addr port)
  | None =>
      match listen_udp_re p with
      | Some (_, port) =>
          port ← se_lift (int_of 10 port); _ ← need (stream_rx cfg); _ ← need (stream_tx cfg); mret (Listen port)
      | None =>
          match serial_re p with
          | Some (dev, baud) => baud ← se_lift (int_of 10 baud); mret (Serial dev baud)
          | None => se_raise (Exception_ "Unsupported peer address")
          end
      end
  end.

Definition truthy (o : option text) : bool := match o with Some (_ :: _) => true | _ => false end.

(** The hooks: arm commands, the flight log, and for received data the TCP bridge. *)
Definition base_hooks (has_logger : bool) : list hook :=
  (if truthy (call_on_arm cfg) || truthy (call_on_disarm cfg) then [HookArm] else []) ++
  (if log_messages cfg && has_logger then [HookLog] else []).

(** The mirror of the data sent to the peer. *)
Definition osd_peer : SE svc (option (text * Z)) :=
  match osd cfg ≫= connect_udp_re with
  | Some (addr, port) => port ← se_lift (int_of 10 port); mret (Some (addr, port))
  | None => mret None
  end.

(** Up to [yield tx_sockets_df]. *)
Definition mavlink_start (has_logger : bool) : SE svc (mav_peer * option (text * Z)) :=
  mp ← mavlink_peer;
  mirror_peer ← osd_peer;
  _ ← se_modify (set_hooks (base_hooks has_logger) (base_hooks has_logger));
  i ← listen (fun i => ListenUNIX i (Some rx_socket_path) EpRx);
  _ ← se_modify (set_sockets [i]);
  srx ← need (stream_rx cfg);
  stx ← need (stream_tx cfg);
  _ ← match mavlink_tcp_port cfg with
      | Some port =>
          if port =? 0 then mret tt
          else _ ← se_modify (fun s => set_hooks (rx_hooks s ++ [HookTcp]) (tx_hooks s) s);
               _ ← listen (fun i => ListenTCP i port); mret tt
      | None => mret tt
      end;
  _ ← do_act (SpawnTX tx_id (tx_cmd g cfg is_cluster link_id stx (lit "-U " ++ tx_socket_path) [] wlans));
  mret (mp, mirror_peer).

(** After wfb_tx has announced its sockets (and its control port). *)
Definition mavlink_ready (mp : mav_peer) (tx_sel : option Z) (tx_sockets : PyDict.dict Z text) : SE svc unit :=
  let m := make_tx_map tx_sockets in
  _ ← se_modify (set_tx_map m);
  _ ← match mp with
      | Serial dev baud => do_act (OpenSerial (path_join (lit "/dev") dev) baud)
      | Listen port => i ← listen (fun i => ListenUDP i port EpIn); add_sockets [i]
      | Connect _ _ => i ← listen (fun i => ListenUDP i 0 EpIn); add_sockets [i]
      end;
  ids ← listen_tx m;
  _ ← add_sockets ids;
  _ ← register_cb tx_sel;
  _ ← do_act AddRssiCb;
  srx ← need (stream_rx cfg);
  do_act (SpawnRX rx_id (rx_cmd g cfg is_cluster link_id srx (lit "-U " ++ rx_socket_path) wlans)).

Definition mavlink_cleanup (mp : mav_peer) : SE svc unit :=
  _ ← match mp with Serial _ _ => do_act CloseSerial | _ => mret tt end;
  stop_sockets.

(** *** [init_tunnel] *)

Definition tunnel_start : SE svc unit :=
  i ← listen (fun i => ListenUNIX i (Some rx_socket_path) EpRx);
  _ ← se_modify (set_sockets [i]);
  srx ← need (stream_rx cfg);
  stx ← need (stream_tx cfg);
  do_act (SpawnTX tx_id (tx_cmd g cfg is_cluster link_id stx (lit "-U " ++ tx_socket_path) [] wlans)).

Definition tunnel_ready (tx_sel : option Z) (tx_sockets : PyDict.dict Z text) : SE svc unit :=
  let m := make_tx_map tx_sockets in
  _ ← se_modify (set_tx_map m);
  _ ← do_act (OpenTun (ifname cfg) (ifaddr cfg) (radio_mtu g) (default_route cfg));
  ids ← listen_tx m;
  _ ← add_sockets ids;
  _ ← se_modify (set_all_peers (if mirror cfg then take 1 m.*1 else m.*1));
  _ ← register_cb tx_sel;
  srx ← need (stream_rx cfg);
  do_act (SpawnRX rx_id (rx_cmd g cfg is_cluster link_id srx (lit "-U " ++ rx_socket_path) wlans)).

Definition tunnel_cleanup : SE svc unit := _ ← do_act CloseTun; stop_sockets.

(** *** [init_udp_proxy] *)

Definition proxy_peer : SE svc (option Z) :=
  p ← need (peer cfg);
  match connect_udp_re p with
  | Some (_, port) => _ ← se_lift (int_of 10 port); mret None
  | None =>
      match listen_udp_re p with
      | Some (_, port) => port ← se_lift (int_of 10 port); mret (Some port)
      | None => se_raise (Exception_ "Unsupported peer address")
      end
  end.

Definition proxy_start : SE svc unit :=
  port ← proxy_peer;
  i ← listen (fun i => ListenUDP i (default 0 port) EpIn);
  _ ← se_modify (set_sockets [i]);
  _ ← match stream_rx cfg with
      | Some srx =>
          j ← listen (fun j => ListenUNIX j (Some rx_socket_path) EpRx);
          _ ← se_modify (set_sockets [j]);
          do_act (SpawnRX rx_id (rx_cmd g cfg is_cluster link_id srx (lit "-U " ++ rx_socket_path) wlans))
      | None => mret tt
      end;
  match stream_tx cfg with
  | Some stx => do_act (SpawnTX tx_id (tx_cmd g cfg is_cluster link_id stx (lit "-U " ++ tx_socket_path) [] wlans))
  | None => mret tt
  end.

(** Only with a transmit stream. *)
Definition proxy_ready (tx_sel : option Z) (tx_sockets : PyDict.dict Z text) : SE svc unit :=
  let m := make_tx_map tx_sockets in
  _ ← se_modify (set_tx_map m);
  ids ← listen_tx m;
  _ ← add_sockets ids;
  register_cb tx_sel.

Definition proxy_cleanup : SE svc unit := stop_sockets.

(** ** What stays open *)

Definition opened (l : list act) : list nat :=
  omap (fun a => match a with ListenUNIX i _ _ | ListenUDP i _ _ | ListenTCP i _ => Some i | _ => None end) l.

Definition stopped (l : list act) : list nat :=
  omap (fun a => match a with StopListening i => Some i | _ => None end) l.

(** The ports open at the end of a trace. *)
Definition still_open (l : list act) (i : nat) : Prop := i ∈ opened l /\ i ∉ stopped l.

(** Every port that was opened is in [sockets], but those in [x]; no port
    was stopped; numbers are fresh. *)
Record tracked (x : list nat) (s : svc) : Prop := {
  tr_open : forall i, i ∈ opened (acts s) <-> i ∈ sockets s \/ i ∈ x;
  tr_fresh : forall i, i ∈ opened (acts s) -> (i < next_id s)%nat;
  tr_stopped : stopped (acts s) = [];
  tr_apart : forall i, i ∈ sockets s -> i ∉ x
}.

Lemma se_bind_ok {S A B} (m : SE S A) (f : A -> SE S B) s s' b :
  (m ≫= f) s = (s', Ok b) -> exists s1 a, m s = (s1, Ok a) /\ f a s1 = (s', Ok b).
Proof using Type. unfold mbind, SE_bind. destruct (m s) as [s1 [a|e]]; [eauto | done]. Qed.

Lemma need_ok {A} (v : option A) s s' a : need v s = (s', Ok a) -> v = Some a /\ s' = s.
Proof using Type. unfold need, se_lift. destruct v; cbn; [by intros [= <- <-] | done]. Qed.

Lemma opened_app a b : opened (a ++ b) = opened a ++ opened b.
Proof using Type. apply omap_app. Qed.

Lemma stopped_app a b : stopped (a ++ b) = stopped a ++ stopped b.
Proof using Type. apply omap_app. Qed.

(** A request that opens and stops nothing. *)
Definition neutral (a : act) : Prop := opened [a] = [] /\ stopped [a] = [] /\ is_listen a = false.

Lemma tracked_neutral x a s s' : neutral a -> do_act a s = (s', Ok tt) -> tracked x s -> tracked x s'.
Proof using Type.
  intros (H1 & H2 & H3) H [T1 T2 T3 T4]. unfold do_act in H. destruct (refused a); [done |]. injection H as <-.
  constructor; cbn; rewrite ?opened_app, ?stopped_app, ?H1, ?H2, ?H3, ?app_nil_r; try done.
  intros i Hi. specialize (T2 i Hi). lia.
Qed.

(** A new port is open and in no list yet. *)
Lemma tracked_listen x mk s s' i : (forall i, opened [mk i] = [i] /\ stopped [mk i] = [] /\ is_listen (mk i) = true) ->
  listen mk s = (s', Ok i) -> tracked x s ->
  tracked (x ++ [i]) s' /\ sockets s' = sockets s /\ p_tx_map s' = p_tx_map s /\ (i ∉ sockets s) /\ (i ∉ x) /\
  acts s' = acts s ++ [mk i].
Proof using Type.
  intros Hmk H [T1 T2 T3 T4]. unfold listen in H. apply se_bind_ok in H as (s1 & s2 & H1 & H).
  injection H1 as <- <-. apply se_bind_ok in H as (s2 & [] & H1 & H). injection H as <- <-.
  destruct (Hmk (next_id s)) as (M1 & M2 & M3). unfold do_act in H1. destruct (refused _); [done |]. injection H1 as <-.
  assert (Hn : (next_id s ∉ sockets s) /\ (next_id s ∉ x)).
  { split; intros Hin; specialize (T2 (next_id s) ltac:(apply T1; auto)); lia. }
  split; [| cbn; tauto].
  constructor; cbn; rewrite ?opened_app, ?stopped_app, ?M1, ?M2, ?M3, ?T3; try done.
  - intros j. rewrite !elem_of_app, T1. tauto.
  - intros j [Hj | Hj]%elem_of_app; [specialize (T2 j Hj); lia | apply list_elem_of_singleton in Hj; lia].
  - intros j Hj [Hx | ->%list_elem_of_singleton]%elem_of_app; [by apply (T4 j) | tauto].
Qed.

(** Ports move from the new ones into [sockets]. *)
Lemma tracked_add x ids s s' : add_sockets ids s = (s', Ok tt) -> NoDup ids -> tracked (x ++ ids) s ->
  (forall i, i ∈ ids -> i ∉ x) -> tracked x s'.
Proof using Type.
  intros [= <-] Hnd [T1 T2 T3 T4] Hx. constructor; cbn; try done.
  - intros i. rewrite T1, !elem_of_app. tauto.
  - intros i [Hi | Hi]%elem_of_app; [| by apply Hx]. specialize (T4 i Hi). rewrite not_elem_of_app in T4. tauto.
Qed.

Lemma tracked_listen_tx m x s s' ids : listen_tx m s = (s', Ok ids) -> tracked x s ->
  tracked (x ++ ids) s' /\ sockets s' = sockets s /\ p_tx_map s' = p_tx_map s /\ NoDup ids /\ (forall i, i ∈ ids -> i ∉ x).
Proof using Type.
  revert x s s' ids. induction m as [|[w t] m IH]; intros x s s' ids H Hs; cbn [listen_tx] in H.
  - injection H as <- <-. rewrite app_nil_r. split_and!; try done; [constructor | intros i Hi; by apply not_elem_of_nil in Hi].
  - apply se_bind_ok in H as (s1 & i & H1 & H). apply se_bind_ok in H as (s2 & ids' & H2 & H). injection H as <- <-.
    destruct (tracked_listen x (fun i => ListenUNIX i None (EpTx w)) s s1 i ltac:(done) H1 Hs) as (T1 & S1 & M1 & _ & N1 & _).
    destruct (IH _ _ _ _ H2 T1) as (T2 & S2 & M2 & N2 & X2). rewrite <- app_assoc in T2. cbn [app] in T2.
    split; [done |]. split; [congruence |]. split; [congruence |]. split.
    + constructor; [| done]. intros Hi. apply (X2 i Hi). apply elem_of_app. right. by apply list_elem_of_singleton.
    + intros j [-> | Hj]%elem_of_cons; [done |]. specialize (X2 j Hj). rewrite not_elem_of_app in X2. tauto.
Qed.

(** Modifications of other fields. *)
Lemma tracked_same x s s' : acts s' = acts s -> next_id s' = next_id s -> sockets s' = sockets s -> tracked x s -> tracked x s'.
Proof using Type. intros H1 H2 H3 [T1 T2 T3 T4]. constructor; rewrite ?H1, ?H2, ?H3; done. Qed.

Lemma register_cb_same sel s s' : register_cb sel s = (s', Ok tt) ->
  acts s' = acts s /\ next_id s' = next_id s /\ sockets s' = sockets s.
Proof using Type.
  intros H. unfold register_cb in H. apply se_bind_ok in H as (s1 & s2 & H1 & H). injection H1 as <- <-.
  case_bool_decide; [by injection H as <- |]. unfold ant_sel_cb in H. destruct sel as [w|].
  - destruct (PyDict.get (p_tx_map s) w); [by injection H as <- | done].
  - destruct (p_tx_map s) as [|[w t] m]; [done | by injection H as <-].
Qed.

Lemma stop_list l s s' : se_iter (fun i => do_act (StopListening i)) l s = (s', Ok tt) ->
  opened (acts s') = opened (acts s) /\ stopped (acts s') = stopped (acts s) ++ l.
Proof using Type.
  revert s. induction l as [|i l IH]; intros s H; cbn [se_iter] in H; [injection H as <-; by rewrite app_nil_r |].
  apply se_bind_ok in H as (s1 & [] & H1 & H). unfold do_act in H1. destruct (refused _); [done |].
  injection H1 as <-. destruct (IH _ H) as [-> ->]. cbn. rewrite opened_app, stopped_app, app_nil_r. cbn.
  by rewrite <- app_assoc.
Qed.

(** Stopping [sockets] leaves exactly the ports in [x] open. *)
Lemma tracked_stop x s s' : stop_sockets s = (s', Ok tt) -> tracked x s ->
  forall i, still_open (acts s') i <-> i ∈ x.
Proof using Type.
  intros H [T1 T2 T3 T4] i. unfold stop_sockets in H. apply se_bind_ok in H as (s1 & s2 & H1 & H).
  injection H1 as <- <-. destruct (stop_list _ _ _ H) as [Ho Hs]. unfold still_open. rewrite Ho, Hs, T3. cbn [app].
  rewrite T1. split; [tauto |]. intros Hi. split; [auto |]. intros Hin. by apply (T4 i).
Qed.

Lemma tracked_first x s s' i : se_modify (set_sockets [i]) s = (s', Ok tt) -> sockets s = [] -> i ∉ x ->
  tracked (x ++ [i]) s -> tracked x s'.
Proof using Type.
  intros [= <-] H0 Hi [T1 T2 T3 T4]. constructor; cbn; try done.
  - intros j. rewrite T1, H0, elem_of_app. rewrite elem_of_nil. tauto.
  - by intros j ->%list_elem_of_singleton.
Qed.

(** Takes apart a run that did not raise. *)
Ltac run_ok H :=
  let s := fresh "s" in let a := fresh "a" in let Hs := fresh "Hs" in
  apply se_bind_ok in H as (s & a & Hs & H).

Tactic Notation "run_step" hyp(H) "as" ident(s) ident(a) ident(E) := apply se_bind_ok in H as (s & a & E & H).

Lemma tracked_init : tracked [] init_svc.
Proof using Type. constructor; cbn; [intros i; rewrite !elem_of_nil; tauto | | done |]; intros i Hi; by apply not_elem_of_nil in Hi. Qed.

Lemma tracked_set_tx_map x m s : tracked x s -> tracked x (set_tx_map m s).
Proof using Type. by apply tracked_same. Qed.

Lemma tracked_set_all_peers x l s : tracked x s -> tracked x (set_all_peers l s).
Proof using Type. by apply tracked_same. Qed.

Lemma tracked_set_hooks x r t s : tracked x s -> tracked x (set_hooks r t s).
Proof using Type. by apply tracked_same. Qed.

Lemma tracked_ports m x s s1 s2 ids : listen_tx m s = (s1, Ok ids) -> add_sockets ids s1 = (s2, Ok tt) -> tracked x s -> tracked x s2.
Proof using Type.
  intros H1 H2 Hs. destruct (tracked_listen_tx m x s s1 ids H1 Hs) as (T & _ & _ & N & X).
  by apply (tracked_add x ids s1 s2).
Qed.

Lemma tracked_register x sel s s' : register_cb sel s = (s', Ok tt) -> tracked x s -> tracked x s'.
Proof using Type. intros H. destruct (register_cb_same sel s s' H) as (H1 & H2 & H3). by apply tracked_same. Qed.

(** The first socket. *)
Lemma tracked_rx_socket x s s1 s2 i path : listen (fun i => ListenUNIX i path EpRx) s = (s1, Ok i) ->
  se_modify (set_sockets [i]) s1 = (s2, Ok tt) -> sockets s = [] -> tracked x s -> tracked x s2.
Proof using Type.
  intros H1 H2 H0 Hs. destruct (tracked_listen x (fun i => ListenUNIX i path EpRx) s s1 i ltac:(done) H1 Hs)
    as (T & S & _ & _ & N & _). apply (tracked_first x s1 s2 i H2); [congruence | done | done].
Qed.

Lemma tracked_udp_socket x s s1 s2 i port : listen (fun i => ListenUDP i port EpIn) s = (s1, Ok i) ->
  add_sockets [i] s1 = (s2, Ok tt) -> tracked x s -> tracked x s2.
Proof using Type.
  intros H1 H2 Hs. destruct (tracked_listen x (fun i => ListenUDP i port EpIn) s s1 i ltac:(done) H1 Hs)
    as (T & _ & _ & _ & N & _). apply (tracked_add x [i] s1 s2 H2); [apply NoDup_singleton | done |].
  by intros j ->%list_elem_of_singleton.
Qed.

(** A request that opens and stops nothing. *)
Ltac step_neutral H T := eapply tracked_neutral in T; [| | exact H]; [| repeat split].

Lemma tunnel_tracked s1 sel m s2 : tunnel_start init_svc = (s1, Ok tt) -> tunnel_ready sel m s1 = (s2, Ok tt) ->
  tracked [] s2.
Proof using Type.
  intros H1 H2. unfold tunnel_start in H1. run_ok H1. run_ok H1. destruct a0.
  run_ok H1. apply need_ok in Hs1 as [_ ->]. run_ok H1. apply need_ok in Hs1 as [_ ->].
  pose proof (tracked_rx_socket [] _ _ _ _ _ Hs Hs0 eq_refl tracked_init) as T.
  step_neutral H1 T. unfold tunnel_ready in H2. clear - H2 T.
  run_ok H2. injection Hs as <- <-. apply (tracked_set_tx_map [] (make_tx_map m)) in T.
  run_ok H2. destruct a. step_neutral Hs T.
  run_ok H2. run_ok H2. destruct a0. apply (tracked_ports _ _ _ _ _ _ Hs0 Hs1) in T.
  run_ok H2. injection Hs2 as <- <-. eapply tracked_set_all_peers in T.
  run_ok H2. destruct a0. apply (tracked_register _ _ _ _ Hs2) in T.
  run_ok H2. apply need_ok in Hs3 as [_ ->]. by step_neutral H2 T.
Qed.

(** A new port takes the next number. *)
Lemma listen_exact mk s s' i : listen mk s = (s', Ok i) -> i = next_id s /\ acts s' = acts s ++ [mk i] /\
  next_id s' = (next_id s + (if is_listen (mk i) then 1 else 0))%nat.
Proof using Type.
  intros H. unfold listen in H. run_ok H. injection Hs as <- <-. run_ok H. injection H as <- <-.
  unfold do_act in Hs. destruct (refused _); [done |]. by injection Hs as <- _.
Qed.

Lemma mavlink_peer_same s s' mp : mavlink_peer s = (s', Ok mp) -> s' = s.
Proof using Type.
  intros H. unfold mavlink_peer in H. run_ok H. apply need_ok in Hs as [_ ->].
  destruct (connect_udp_re a) as [[ad po]|].
  { run_ok H. injection Hs as <- _. run_ok H. apply need_ok in Hs as [_ ->]. run_ok H. apply need_ok in Hs as [_ ->].
    by injection H. }
  destruct (listen_udp_re a) as [[ad po]|].
  { run_ok H. injection Hs as <- _. run_ok H. apply need_ok in Hs as [_ ->]. run_ok H. apply need_ok in Hs as [_ ->].
    by injection H. }
  destruct (serial_re a) as [[dev baud]|]; [| done]. run_ok H. injection Hs as <- _. by injection H.
Qed.

Lemma osd_peer_same s s' o : osd_peer s = (s', Ok o) -> s' = s.
Proof using Type.
  unfold osd_peer. destruct (osd cfg ≫= connect_udp_re) as [[ad po]|]; intros H; [| by injection H].
  run_ok H. injection Hs as <- _. by injection H.
Qed.

(** The TCP bridge is configured. *)
Definition tcp_enabled : bool := match mavlink_tcp_port cfg with Some p => negb (p =? 0) | None => false end.

(** Until wfb_tx answers: the receive socket, and the TCP port as number 1. *)
Lemma mavlink_start_tracked lg s1 r : mavlink_start lg init_svc = (s1, Ok r) ->
  tracked (if tcp_enabled then [1%nat] else []) s1 /\
  (tcp_enabled = true -> exists port, mavlink_tcp_port cfg = Some port /\ acts s1 !! 1%nat = Some (ListenTCP 1 port)).
Proof using Type.
  intros H. unfold mavlink_start in H. run_step H as sp mp Hmp. apply mavlink_peer_same in Hmp as ->.
  run_step H as so o Ho. apply osd_peer_same in Ho as ->. run_step H as sh uh Hh. injection Hh as <- <-.
  run_step H as sl i Hl. run_step H as sf uf Hf. destruct uf.
  pose proof (tracked_rx_socket [] _ _ _ _ _ Hl Hf eq_refl (tracked_set_hooks _ _ _ _ tracked_init)) as T.
  destruct (listen_exact _ _ _ _ Hl) as (-> & A1 & N1). injection Hf as <-.
  run_step H as s3 srx Hr. apply need_ok in Hr as [_ ->]. run_step H as s4 stx Ht. apply need_ok in Ht as [_ ->].
  run_step H as s5 u5 Htcp. run_step H as s6 u6 Hsp. destruct u5, u6. injection H as <- _. unfold tcp_enabled.
  destruct (mavlink_tcp_port cfg) as [port|].
  - destruct (Z.eqb_spec port 0); cbn [negb].
    + injection Htcp as <-. split; [| done]. by step_neutral Hsp T.
    + run_step Htcp as s7 u7 Hk. injection Hk as <- <-. run_step Htcp as s8 i8 Hlt. injection Htcp as <-.
      eapply tracked_set_hooks in T. destruct (listen_exact _ _ _ _ Hlt) as (-> & A2 & _).
      eapply tracked_listen in T as (T & _); [| | exact Hlt]; [| done].
      cbn [next_id set_sockets set_hooks] in T, A2. rewrite N1 in T, A2.
      cbn [init_svc set_hooks next_id is_listen Nat.add app acts set_sockets] in T, A2.
      split; [by step_neutral Hsp T |]. intros _. exists port. split; [done |].
      unfold do_act in Hsp. destruct (refused (SpawnTX _ _)); [done |]. injection Hsp as <-. cbn [acts].
      by rewrite A2, A1.
  - injection Htcp as <-. split; [| done]. by step_neutral Hsp T.
Qed.

Lemma mavlink_ready_tracked x mp sel m s1 s2 : tracked x s1 -> mavlink_ready mp sel m s1 = (s2, Ok tt) -> tracked x s2.
Proof using Type.
  intros T H. unfold mavlink_ready in H. run_ok H. injection Hs as <- <-.
  apply (tracked_set_tx_map x (make_tx_map m)) in T.
  run_ok H. destruct a. assert (T1 : tracked x s).
  { destruct mp as [ad po | po | dev baud].
    - run_ok Hs. by apply (tracked_udp_socket x _ _ _ _ _ Hs0 Hs).
    - run_ok Hs. by apply (tracked_udp_socket x _ _ _ _ _ Hs0 Hs).
    - by step_neutral Hs T. }
  clear T Hs. run_ok H. run_ok H. destruct a0. apply (tracked_ports _ _ _ _ _ _ Hs Hs0) in T1.
  run_ok H. destruct a0. apply (tracked_register _ _ _ _ Hs1) in T1.
  run_ok H. destruct a0. step_neutral Hs2 T1. run_ok H. apply need_ok in Hs3 as [_ ->]. by step_neutral H T1.
Qed.

(** C31: the sockets of a tunnel and of a MAVLink service: when the service ran
    to its end, [_cleanup] has stopped every port the service opened, with one
    exception: the port of the MAVLink TCP bridge is never stopped. *)
Theorem service_cleanup :
  (forall s1 sel m s2 s3, tunnel_start init_svc = (s1, Ok tt) -> tunnel_ready sel m s1 = (s2, Ok tt) ->
    tunnel_cleanup s2 = (s3, Ok tt) -> forall i, ~ still_open (acts s3) i) /\
  (forall lg s1 mp o sel m s2 s3, mavlink_start lg init_svc = (s1, Ok (mp, o)) -> mavlink_ready mp sel m s1 = (s2, Ok tt) ->
    mavlink_cleanup mp s2 = (s3, Ok tt) -> forall i, still_open (acts s3) i <-> tcp_enabled = true /\ i = 1%nat).
Proof using Type.
  split.
  - intros s1 sel m s2 s3 H1 H2 H3 i Hi. pose proof (tunnel_tracked s1 sel m s2 H1 H2) as T.
    unfold tunnel_cleanup in H3. run_ok H3. destruct a. step_neutral Hs T.
    apply (tracked_stop _ _ _ H3 T) in Hi. by apply not_elem_of_nil in Hi.
  - intros lg s1 mp o sel m s2 s3 H1 H2 H3 i. destruct (mavlink_start_tracked lg s1 (mp, o) H1) as [T _].
    apply (mavlink_ready_tracked _ mp sel m s1 s2 T) in H2. unfold mavlink_cleanup in H3. run_ok H3.
    assert (T2 : tracked (if tcp_enabled then [1%nat] else []) s).
    { destruct a, mp; try (injection Hs as <-; exact H2). by step_neutral Hs H2. }
    rewrite (tracked_stop _ _ _ H3 T2). destruct tcp_enabled.
    + rewrite list_elem_of_singleton. naive_solver.
    + rewrite elem_of_nil. naive_solver.
Qed.

Lemma proxy_peer_same s s' p : proxy_peer s = (s', Ok p) -> s' = s.
Proof using Type.
  intros H. unfold proxy_peer in H. run_step H as s1 a Ha. apply need_ok in Ha as [_ ->].
  destruct (connect_udp_re a) as [[ad po]|].
  - run_step H as s2 b Hb. injection Hb as <- _. by injection H.
  - destruct (listen_udp_re a) as [[ad po]|]; [| done]. run_step H as s2 b Hb. injection Hb as <- _. by injection H.
Qed.

Lemma do_act_head a s s' x : do_act a s = (s', Ok tt) -> head (acts s) = Some x -> head (acts s') = Some x.
Proof using Type.
  intros H Hx. unfold do_act in H. destruct (refused a); [done |]. injection H as <-. cbn. by destruct (acts s).
Qed.

(** A two-way UDP service leaves its UDP port open: the list of sockets is
    overwritten when the receive socket is added, so [_cleanup] stops every
    other port and not the one the peer sends to. *)
Theorem udp_proxy_leaves_port s1 sel m s2 s3 srx : stream_rx cfg = Some srx ->
  proxy_start init_svc = (s1, Ok tt) -> proxy_ready sel m s1 = (s2, Ok tt) -> proxy_cleanup s2 = (s3, Ok tt) ->
  (exists port, head (acts s1) = Some (ListenUDP 0 port EpIn)) /\ forall i, still_open (acts s3) i <-> i = 0%nat.
Proof using Type.
  intros Hsrx H1 H2 H3. unfold proxy_start in H1. run_step H1 as sp port Hp. apply proxy_peer_same in Hp as ->.
  run_step H1 as sl i Hl. eapply tracked_listen in Hl as Hl'; [| done | exact tracked_init].
  destruct Hl' as (T & S & _ & _ & N & _). destruct (listen_exact _ _ _ _ Hl) as (-> & A1 & N1).
  cbn [init_svc next_id app acts] in *. run_step H1 as s5 u5 Hset. injection Hset as <- <-. rewrite Hsrx in H1.
  run_step H1 as s6 u6 Hrx. run_step Hrx as s7 j Hlr. run_step Hrx as s8 u8 Hset. destruct u6, u8.
  assert (T8 : tracked [0%nat] s8).
  { destruct (listen_exact _ _ _ _ Hlr) as (-> & A2 & N2). injection Hset as <-. cbn [next_id set_sockets] in *.
    destruct T as [T1 T2 T3 T4]. rewrite N1 in *. rewrite A1 in *. cbn [is_listen Nat.add acts set_sockets] in *.
    constructor; cbn [acts set_sockets sockets next_id]; rewrite ?A2, ?N2, ?A1; cbn; try done.
    - intros k. rewrite !elem_of_cons, elem_of_nil. tauto.
    - intros k. rewrite !elem_of_cons, elem_of_nil. intros [-> | [-> | []]]; lia.
    - intros k ->%list_elem_of_singleton. rewrite list_elem_of_singleton. lia. }
  assert (Hh : head (acts s8) = Some (ListenUDP 0 (default 0 port) EpIn)).
  { injection Hset as <-. destruct (listen_exact _ _ _ _ Hlr) as (_ & A2 & _). cbn [acts set_sockets]. rewrite A2.
    cbn [acts set_sockets]. by rewrite A1. }
  step_neutral Hrx T8. pose proof (do_act_head _ _ _ _ Hrx Hh) as Hh6.
  assert (Hs1 : tracked [0%nat] s1 /\ head (acts s1) = Some (ListenUDP 0 (default 0 port) EpIn)).
  { destruct (stream_tx cfg); [| by injection H1 as <-]. split; [by step_neutral H1 T8 | by apply (do_act_head _ _ _ _ H1)]. }
  destruct Hs1 as [T1 Hh1]. split; [by eexists |].
  unfold proxy_ready in H2. run_step H2 as s9 u9 Hm. injection Hm as <- <-. run_step H2 as s10 ids Hi. run_step H2 as s11 u11 Ha.
  destruct u11. eapply tracked_set_tx_map in T1. apply (tracked_ports _ _ _ _ _ _ Hi Ha) in T1.
  apply (tracked_register _ _ _ _ H2) in T1. intros i. rewrite (tracked_stop _ _ _ H3 T1). apply list_elem_of_singleton.
Qed.

End Wiring.

(** The command lines of wfb_tx and wfb_rx: when the directories, the key
    file, the frame type and the socket name contain no white space, splitting
    the formatted line gives arguments that [getopt] of the two programs reads
    back as exactly the configured options and the interface list as operands. *)
Theorem wfb_commands_read_back g cfg is_cluster link_id stream path wlans :
  word (path_join (bin_dir g) (lit "wfb_tx")) /\ word (path_join (bin_dir g) (lit "wfb_rx")) ->
  word (path_join (conf_dir g) (keypair cfg)) -> word (frame_type cfg) -> word path -> Forall operand wlans ->
  getopt tx_opts None (tail (tx_cmd g cfg is_cluster link_id stream (lit "-U " ++ path) [] wlans)) =
    Some (tx_options g cfg is_cluster link_id stream path, wlans) /\
  getopt rx_opts None (tail (rx_cmd g cfg is_cluster link_id stream (lit "-U " ++ path) wlans)) =
    Some (rx_options g cfg is_cluster link_id stream path, if is_cluster then [] else wlans).
Proof. intros Hb Hk Hf Hp Hw. split; [by apply wfb_tx_options | by apply wfb_rx_options]. Qed.

(** ** The selected card carries the traffic *)

(** The calls a callback got, and their effect on the service it belongs to:
    exceptions are logged by the caller. *)
Definition told (sl : AntSel.sel) (cb : nat) : list (option Z) :=
  map snd (List.filter (fun c => bool_decide (c.1 = cb)) (AntSel.sel_calls sl)).

Definition answer (l : list (option Z)) (s : svc) : svc := fold_left (fun s w => (ant_sel_cb w s).1) l s.

Lemma ant_sel_cb_map w s : p_tx_map (ant_sel_cb w s).1 = p_tx_map s.
Proof.
  unfold ant_sel_cb. destruct w as [w|].
  - by destruct (PyDict.get (p_tx_map s) w).
  - by destruct (p_tx_map s) as [|[w t] m] eqn:E.
Qed.

Lemma answer_map l s : p_tx_map (answer l s) = p_tx_map s.
Proof. revert s. induction l as [|w l IH]; intros s; [done |]. cbn. fold (answer l (ant_sel_cb w s).1). by rewrite IH, ant_sel_cb_map. Qed.

Lemma make_tx_map_get rx_only tx_sockets w : w ∉ rx_only ->
  PyDict.get (make_tx_map rx_only tx_sockets) w = PyDict.get tx_sockets w.
Proof.
  intros Hw. unfold make_tx_map. induction tx_sockets as [|[k v] m IH]; [done |]. cbn [List.filter fst PyDict.get].
  case_bool_decide; cbn [negb PyDict.get]; destruct (decide (w = k)) as [-> |]; done.
Qed.

(** C10: the selector and the services together: in every history of the
    selector, the traffic of a service whose callback is registered goes to the
    card selected now, provided wfb_tx announced a socket for it; the card is
    never a receive-only one, and before the first selection it is the first
    card that may transmit. *)
Theorem selected_card_carries conf scr rcr uir sl cb tx_sockets s :
  AntSel.sel_reach conf scr rcr uir sl -> cb ∈ AntSel.ant_sel_cb_list sl ->
  p_tx_map s = make_tx_map (AntSel.rx_only_wlan_ids sl) tx_sockets ->
  match AntSel.tx_sel sl with
  | Some w => w ∈ PyDict.keys tx_sockets ->
      in_peer (answer (told sl cb) s) = Some w /\ ~ w ∈ AntSel.rx_only_wlan_ids sl
  | None => forall w, head (PyDict.keys (make_tx_map (AntSel.rx_only_wlan_ids sl) tx_sockets)) = Some w ->
      in_peer (answer (told sl cb) s) = Some w
  end.
Proof.
  intros Hr Hcb Hm. destruct (AntSel.reach_inv _ _ _ _ sl Hr) as [Hro Hl]. specialize (Hl cb Hcb).
  assert (Ht : exists l, told sl cb = l ++ [AntSel.tx_sel sl]).
  { unfold AntSel.last_told in Hl. apply last_Some in Hl as [l Hl]. by exists l. }
  destruct Ht as [l ->]. unfold answer. rewrite fold_left_app. cbn [fold_left]. fold (answer l s).
  pose proof (answer_map l s) as Ha. destruct (AntSel.tx_sel sl) as [w|].
  - intros Hw. specialize (Hro w eq_refl). split; [| done]. unfold ant_sel_cb. rewrite Ha, Hm, make_tx_map_get by done.
    destruct (PyDict.get tx_sockets w) eqn:E; [done |]. by apply PyDict.get_None in E.
  - intros w Hw. unfold ant_sel_cb. rewrite Ha, Hm. unfold PyDict.keys in Hw.
    destruct (make_tx_map _ tx_sockets) as [|[w' t] m']; [done |]. by injection Hw as ->.
Qed.

(** ** Link ids and peers *)

Lemma length_sha1 m : length (Sha.sha1 m) = 20%nat.
Proof.
  unfold Sha.sha1. rewrite Sha.length_words.
  assert (Hs : forall l s, length s = 5%nat -> length (fold_left Sha.round1 l s) = 5%nat).
  { induction l as [|x l IH]; intros s Hs; [done |]. apply IH. unfold Sha.round1.
    destruct s as [|a [|b [|c [|d [|e [|]]]]]]; try done. by destruct (Sha.f1 _ _ _ _). }
  assert (Hb : forall l h, length h = 5%nat -> length (fold_left Sha.block1 l h) = 5%nat).
  { induction l as [|x l IH]; intros h Hh; [done |]. apply IH. unfold Sha.block1. rewrite length_zip_with, Hs by done. lia. }
  by rewrite Hb.
Qed.

(** A link id fits the three bytes it occupies in the MAC address. *)
Lemma hash_link_domain_range d z : hash_link_domain d = Ok z -> 0 <= z < 2 ^ 24.
Proof.
  unfold hash_link_domain. destruct (utf8_encode d) as [b|]; [| done]. cbn [mbind result_bind]. intros [= <-].
  set (h := py_slice (Sha.sha1 b) 0 3).
  assert (Hl : length (reverse h) = 3%nat).
  { rewrite length_reverse. unfold h, py_slice, py_norm, blen. rewrite length_sha1.
    rewrite length_take, length_drop, length_sha1. done. }
  assert (Hb : bytes_ok (reverse h)).
  { apply Forall_reverse. apply bytes_ok_take, bytes_ok_drop. apply Sha.words_ok. }
  pose proof (PyStruct.le_decode_range (reverse h) Hb) as Hr. rewrite Hl in Hr. exact Hr.
Qed.

(** A run of a character class ends where the class does. *)
Lemma span_run f w l : Forall (fun c => f c = true) w -> (forall c, head l = Some c -> f c = false) -> span f (w ++ l) = (w, l).
Proof.
  intros Hw Hl. induction Hw as [|c w Hc _ IH]; cbn [app span].
  - destruct l as [|c l]; [done |]. cbn. by rewrite Hl.
  - by rewrite Hc, IH.
Qed.

Lemma run1_run f w l : w <> [] -> Forall (fun c => f c = true) w -> (forall c, head l = Some c -> f c = false) ->
  run1 f (w ++ l) = Some (w, l).
Proof. intros Hn Hw Hl. unfold run1. rewrite span_run by done. by destruct w. Qed.

(** [print_u] is made of digits. *)
Lemma print_u_digits n : 0 <= n -> Forall (fun c => is_digit c = true) (print_u n).
Proof.
  intros Hn. destruct (print_nat_spec 10 n ltac:(lia) Hn) as (ds & Hds & _ & Hr & _). unfold print_u. rewrite Hds.
  apply Forall_map. eapply Forall_impl; [exact Hr |]. intros d Hd. cbn beta in Hd. unfold is_digit, within, digit_char, compose.
  destruct (Z.ltb_spec d 10); [| lia].
  destruct (Z.leb_spec 48 (48 + d)), (Z.leb_spec (48 + d) 57); cbn; first [done | lia].
Qed.

(** The text of an address and port. *)
Definition dotted (a b c d : Z) : text := print_u a ++ 46 :: print_u b ++ 46 :: print_u c ++ 46 :: print_u d.
Definition addr_text (a b c d port : Z) : text := dotted a b c d ++ 58 :: print_u port.

Lemma match_addr_printed a b c d port : 0 <= a -> 0 <= b -> 0 <= c -> 0 <= d -> 0 <= port ->
  match_addr (addr_text a b c d port) = Some (dotted a b c d, print_u port).
Proof.
  intros Ha Hb Hc Hd Hp. unfold addr_text, dotted, match_addr.
  assert (Hn : forall n, 0 <= n -> print_u n <> []) by (intros; by apply print_nat_ne).
  pose proof print_u_digits as Hdig.
  rewrite <- !app_assoc. cbn [app]. rewrite <- !app_assoc. cbn [app]. rewrite <- !app_assoc. cbn [app].
  rewrite <- ?app_assoc. cbn [app].
  rewrite (run1_run is_digit (print_u a)) by (auto; by intros ? [= <-]). cbn [mbind option_bind char1 Z.eqb Pos.eqb].
  rewrite (run1_run is_digit (print_u b)) by (auto; by intros ? [= <-]). cbn [mbind option_bind char1 Z.eqb Pos.eqb].
  rewrite (run1_run is_digit (print_u c)) by (auto; by intros ? [= <-]). cbn [mbind option_bind char1 Z.eqb Pos.eqb].
  rewrite (run1_run is_digit (print_u d)) by (auto; by intros ? [= <-]). cbn [mbind option_bind char1 Z.eqb Pos.eqb].
  rewrite <- (app_nil_r (print_u port)) at 1. rewrite (run1_run is_digit (print_u port)) by (auto; done). done.
Qed.

(** A literal that matches is a prefix up to case. *)
Lemma ci_prefix_spec p l r : ci_prefix p l = Some r -> exists q, l = q ++ r /\ map fold_case q = p.
Proof.
  revert l. induction p as [|c p IH]; intros [|d l] H; cbn in H; try done.
  - injection H as <-. by exists [].
  - injection H as <-. by exists [].
  - destruct (Z.eqb_spec (fold_case d) c) as [<- |]; [| done]. destruct (IH _ H) as (q & -> & <-). by exists (d :: q).
Qed.

(** Literals that match the same text agree on their common length. *)
Lemma ci_prefix_clash p1 p2 l r1 r2 : ci_prefix p1 l = Some r1 -> ci_prefix p2 l = Some r2 ->
  take (length p2) p1 = take (length p1) p2.
Proof.
  intros H1 H2. destruct (ci_prefix_spec _ _ _ H1) as (q1 & E1 & <-). destruct (ci_prefix_spec _ _ _ H2) as (q2 & E2 & <-).
  rewrite !length_map, !firstn_map. f_equal.
  assert (T1 : q1 = take (length q1) l) by (rewrite E1; by rewrite take_app_length).
  assert (T2 : q2 = take (length q2) l) by (rewrite E2; by rewrite take_app_length).
  rewrite T1 at 1. rewrite T2 at 2. rewrite !take_take. by rewrite Nat.min_comm.
Qed.

(** The kinds of peer a text can be. *)
Definition schemes (p : text) : list bool :=
  [bool_decide (is_Some (connect_udp_re p)); bool_decide (is_Some (listen_udp_re p)); bool_decide (is_Some (serial_re p));
   bool_decide (is_Some (connect_unix_re p)); bool_decide (is_Some (listen_unix_re p))].

(** The literal each kind starts with. *)
Definition scheme_prefixes : list text :=
  [lit "connect://"; lit "listen://"; lit "serial:"; lit "connect_unix://@"; lit "listen_unix://@"].

Lemma schemes_prefix p i : schemes p !! i = Some true ->
  exists q r, scheme_prefixes !! i = Some q /\ ci_prefix q p = Some r.
Proof.
  unfold schemes, scheme_prefixes, connect_udp_re, listen_udp_re, serial_re, connect_unix_re, listen_unix_re.
  do 5 (destruct i as [|i]; [intros H; apply (inj Some) in H; apply bool_decide_eq_true in H; destruct H as [v H];
    apply bind_Some in H as (r & H & _); eexists _, r; split; [reflexivity | exact H] |]). done.
Qed.

(** Peer addresses: a printed address and port is read back, as the address
    and the number of the port, whatever the case of the scheme; and no text is
    a peer of two kinds, so the order of the tests in the services does not
    matter. *)
Theorem peer_addresses :
  (forall a b c d port scheme, 0 <= a -> 0 <= b -> 0 <= c -> 0 <= d -> 0 <= port ->
    map fold_case scheme = lit "connect://" ->
    connect_udp_re (scheme ++ addr_text a b c d port) = Some (dotted a b c d, print_u port) /\
    int_of 10 (print_u port) = Ok port) /\
  (forall p i j, schemes p !! i = Some true -> schemes p !! j = Some true -> i = j).
Proof.
  split.
  - intros a b c d port scheme Ha Hb Hc Hd Hp Hs. split; [| apply int_of_print; lia]. unfold connect_udp_re.
    assert (Hci : forall q l, ci_prefix (map fold_case q) (q ++ l) = Some l).
    { induction q as [|x q IH]; intros l; [done |]. cbn. by rewrite Z.eqb_refl. }
    rewrite <- Hs, Hci. cbn [mbind option_bind]. by apply match_addr_printed.
  - intros p i j Hi Hj. destruct (schemes_prefix p i Hi) as (q1 & r1 & Q1 & C1).
    destruct (schemes_prefix p j Hj) as (q2 & r2 & Q2 & C2). pose proof (ci_prefix_clash _ _ _ _ _ C1 C2) as H.
    do 5 (destruct i as [|i]; [do 5 (destruct j as [|j]; [done || (injection Q1 as <-; injection Q2 as <-; discriminate H) |]); done |]).
    done.
Qed.



(** ** Concrete services *)

Definition demo_globals : globals := Globals (lit "/usr/bin") (lit "/etc") 1000 2097152 2097152 1445.

Definition demo_cfg (p : text) (tcp : option Z) : srv_cfg :=
  SrvCfg (Some p) None (Some 160) (Some 32) (lit "gs.key") (lit "data") false true false true 20 1 1 1 30 0 1 2 0 0 0 5000
    10002 None None false tcp (lit "gs-wfb") (lit "10.5.0.1/24") false.

Definition demo_free (a : act) : option exn := None.
Definition demo_wlans : list text := [lit "wlan0"; lit "wlan1"].
Definition demo_tx : PyDict.dict Z text := [(0, lit "tx0"); (1, lit "tx1")].

Lemma wfb_commands_read_back_witness :
  getopt tx_opts None (tail (tx_cmd demo_globals (demo_cfg [] None) true 7505 32 (lit "-U " ++ lit "tunnel-tx-00") [] demo_wlans)) =
    Some (tx_options demo_globals (demo_cfg [] None) true 7505 32 (lit "tunnel-tx-00"), demo_wlans) /\
  getopt rx_opts None (tail (rx_cmd demo_globals (demo_cfg [] None) true 7505 32 (lit "-U " ++ lit "tunnel-tx-00") demo_wlans)) =
    Some (rx_options demo_globals (demo_cfg [] None) true 7505 32 (lit "tunnel-tx-00"), []).
Proof.
  apply (wfb_commands_read_back demo_globals (demo_cfg [] None) true 7505 32 (lit "tunnel-tx-00") demo_wlans).
  - split; (apply literal_word; [discriminate | reflexivity]).
  - apply literal_word; [discriminate | reflexivity].
  - apply literal_word; [discriminate | reflexivity].
  - apply literal_word; [discriminate | reflexivity].
  - repeat constructor; discriminate.
Defined.

(** A MAVLink service with a TCP bridge: port number 1 stays open. *)
Lemma service_cleanup_witness : exists s3, still_open (acts s3) 1%nat /\
  s3 = (mavlink_cleanup demo_free (Listen 14550) (mavlink_ready demo_free demo_globals (demo_cfg (lit "listen://0.0.0.0:14550") (Some 5760))
          (lit "mavlink") demo_wlans 7 false ∅ (lit "aa") (Listen 14550) None demo_tx
          (mavlink_start demo_free demo_globals (demo_cfg (lit "listen://0.0.0.0:14550") (Some 5760)) (lit "mavlink")
             demo_wlans 7 false (lit "aa") (lit "bb") true init_svc).1).1).1.
Proof.
  eexists. split; [| reflexivity].
  eapply (proj2 (service_cleanup demo_free demo_globals (demo_cfg (lit "listen://0.0.0.0:14550") (Some 5760)) (lit "mavlink")
    demo_wlans 7 false ∅ (lit "aa") (lit "bb")) true _ (Listen 14550) None None demo_tx).
  - vm_compute. reflexivity.
  - vm_compute. reflexivity.
  - vm_compute. reflexivity.
  - split; reflexivity.
Defined.

Lemma udp_proxy_leaves_port_witness : exists s3, still_open (acts s3) 0%nat /\
  s3 = (proxy_cleanup demo_free (proxy_ready demo_free ∅ None demo_tx
          (proxy_start demo_free demo_globals (demo_cfg (lit "listen://127.0.0.1:1235") None) (lit "audio") demo_wlans 7 false
             (lit "aa") (lit "bb") init_svc).1).1).1.
Proof.
  eexists. split; [| reflexivity].
  eapply (udp_proxy_leaves_port demo_free demo_globals (demo_cfg (lit "listen://127.0.0.1:1235") None) (lit "audio")
    demo_wlans 7 false ∅ (lit "aa") (lit "bb") _ None demo_tx _ _ 160).
  - reflexivity.
  - vm_compute. reflexivity.
  - vm_compute. reflexivity.
  - vm_compute. reflexivity.
  - reflexivity.
Defined.

(** Two cards, the second receive-only; a callback registered with an object
    that has selected nothing yet. *)
Lemma selected_card_carries_witness :
  in_peer (answer (told (AntSel.add_ant_sel_cb (fun _ _ => None) 5 (AntSel.init None {[1]} None)).1 5)
             (set_tx_map (make_tx_map {[1]} demo_tx) init_svc)) = Some 0.
Proof.
  apply (selected_card_carries AntSel.demo_conf (fun _ _ => None) (fun _ _ => None) (fun _ _ => None)
    (AntSel.add_ant_sel_cb (fun _ _ => None) 5 (AntSel.init None {[1]} None)).1 5 demo_tx
    (set_tx_map (make_tx_map {[1]} demo_tx) init_svc)).
  - eapply AntSel.reach_step; [apply AntSel.reach_init |]. apply AntSel.step_add_sel. apply not_elem_of_nil.
  - by left.
  - reflexivity.
  - reflexivity.
Defined.

Lemma peer_addresses_witness :
  connect_udp_re (lit "CONNECT://" ++ addr_text 127 0 0 1 14550) = Some (dotted 127 0 0 1, print_u 14550) /\
  int_of 10 (print_u 14550) = Ok 14550.
Proof. apply (proj1 peer_addresses); [lia | lia | lia | lia | lia | reflexivity]. Defined.

(** A profile with one stream, over the configuration files of [Config]. *)
Definition demo_stream : cval :=
  CDict [(CStr (lit "name"), CStr (lit "video")); (CStr (lit "service_type"), CStr (lit "udp_direct_rx"));
         (CStr (lit "profiles"), CList [CStr (lit "base"); CStr (lit "gs_video")]); (CStr (lit "mirror"), CBool true)].

Definition demo_literal (raw : text) : result cval :=
  if decide (raw = lit "[stream]") then Ok (CList [demo_stream]) else Ok (CStr raw).

Definition demo_profile : cfg_file := CfgFile (lit "master.cfg")
  (Ok [(lit "base", [(lit "peer", lit "None"); (lit "mirror", lit "False")]); (lit "gs_video", [(lit "peer", lit "connect://127.0.0.1:5600")]);
       (lit "gs", [(lit "streams", lit "[stream]")])]).

Definition demo_settings : settings :=
  match parse_config demo_literal demo_value demo_self (lit "/") [demo_profile] true with Ok (st, _) => st | Raise _ => [] end.

Lemma parse_services_spec_witness : exists ss alloc', parse_services demo_settings (lit "gs") (Some 10000) = Ok (ss, alloc') /\
  exists l, streams_of demo_settings (lit "gs") = Ok l /\ length ss = length l /\
    alloc' = (fun p => p + Z.of_nat (length l)) <$> Some 10000 /\
    forall i s, ss !! i = Some s -> exists x stream, l !! i = Some x /\ as_stream x = Ok stream /\
      (PyDict.ok stream -> resolves demo_settings ((fun p => p + Z.of_nat i) <$> Some 10000) stream s).
Proof.
  eexists _, _. split; [vm_compute; reflexivity |].
  eapply (parse_services_spec demo_literal demo_value demo_self (lit "/") [demo_profile] true).
  - vm_compute. reflexivity.
  - vm_compute. reflexivity.
Defined.

Example demo_service : exists s p, parse_services demo_settings (lit "gs") (Some 10000) = Ok ([s], Some p) /\
  PyDict.get (s_cfg s) (lit "peer") = Some (CStr (lit "connect://127.0.0.1:5600")) /\
  PyDict.get (s_cfg s) (lit "mirror") = Some (CBool true).
Proof. eexists _, _. split; [vm_compute; reflexivity |]. vm_compute. done. Qed.

End Services.
