(* ===== verification/Cluster.v ===== *)
(** src/wfb_ng/cluster.py: the distribution of services over cluster nodes.
    [parse_cluster_services] gives every service a port on the server and, on
    every node, one port per radio card; [gen_cluster_scripts] writes the start
    script of each node.  [str()] of values other than strings and integers is
    a parameter. *)
From Stdlib Require Import ZArith Lia Bool.
From stdpp Require Import base list numbers strings sorting.
From S2P Require Import Prelude PyDict PyNum PyText Config Services.

Module Cluster.
Import PyText Config Services.

(** The order of strings. *)
Fixpoint text_leb (a b : text) : bool :=
  match a, b with
  | [], _ => true
  | _ :: _, [] => false
  | x :: a', y :: b' => if x <? y then true else if y <? x then false else text_leb a' b'
  end.

Definition text_le (a b : text) : Prop := text_leb a b = true.

#[export] Instance text_le_dec : RelDecision text_le.
Proof. intros a b. unfold text_le. apply _. Defined.

(** A node of the cluster and its attributes. *)
Definition node_le (a b : text * sect) : Prop := text_le a.1 b.1.

#[export] Instance node_le_dec : RelDecision node_le.
Proof. intros a b. unfold node_le. apply _. Defined.

(** What a node has to run for one service. *)
Record node_srv := NodeSrv {
  ns_wlans : list text;
  ns_link_id : Z;
  ns_bandwidth : Z;
  ns_stream_tx : cval;
  ns_stream_rx : cval;
  ns_tx_port_base : Z;
  ns_fwmark : cval;
  ns_rx_fwd : cval * cval
}.

Record cl_state := ClState {
  port_allocators : PyDict.dict text Z;
  cluster_nodes : PyDict.dict text (PyDict.dict text node_srv)
}.

(** A value used as a condition. *)
Definition truth (v : cval) : bool :=
  match v with
  | CNone => false
  | CBool b => b
  | CNum n => negb (PyNum.is_zero n)
  | CStr s => bool_decide (s <> [])
  | CList l | CTuple l => bool_decide (length l <> 0%nat)
  | CDict l => bool_decide (length l <> 0%nat)
  end.

Definition as_int (v : cval) : result Z := match v with CNum (PyNum.NInt z) => Ok z | _ => Raise TypeError end.

(** ['%d' % (v,)]. *)
Definition percent_d (v : cval) : result text :=
  match v with
  | CNum n => z ← PyNum.trunc n; Ok (print_d z)
  | CBool b => Ok (print_d (if b then 1 else 0))
  | _ => Raise TypeError
  end.

Definition set_attr (s : service) (k : text) (v : cval) : service := Service (s_name s) (s_type s) (PyDict.set (s_cfg s) k v).

Section Cluster.
Context (py_str : cval -> text).

(** ['%s' % v]. *)
Definition fmt_s (v : cval) : text :=
  match v with CStr s => s | CNum (PyNum.NInt z) => print_d z | _ => py_str v end.

Context (st : settings).

(** [settings.cluster] and its nodes; node names are strings. *)
Definition cluster_sect : result sect := getattr st (lit "cluster").

Definition nodes_of : result (list (text * sect)) :=
  c ← cluster_sect; v ← getattr c (lit "nodes");
  if negb (truth v) then Raise (Exception_ "Cluster is empty!")
  else match v with
       | CDict l => result_map (fun p => k ← as_name p.1; a ← as_stream p.2; Ok (k, a)) l
       | _ => Raise TypeError
       end.

Definition wlans_of (attrs : sect) : result (list text) :=
  v ← PyDict.item attrs (lit "wlans"); l ← iter v; result_map as_name l.

(** [next(get_allocator(node))] for each card; a new allocator starts at
    [base_port_node]. *)
Definition next_ports (c : sect) (node : text) (n : nat) (cl : cl_state) : result (list Z * cl_state) :=
  match n with
  | O => Ok ([], cl)
  | _ =>
      p ← match PyDict.get (port_allocators cl) node with
          | Some p => Ok p
          | None => v ← getattr c (lit "base_port_node"); as_int v
          end;
      Ok (map (fun i => p + Z.of_nat i) (seq 0 n),
          ClState (PyDict.set (port_allocators cl) node (p + Z.of_nat n)) (cluster_nodes cl))
  end.

Definition update_node (c : sect) (node : text) (attrs : sect) (profile : text) (service_name : cval) (link_id : Z)
    (tx_port_base : Z) (wlans : list text) (cfg : sect) (cl : cl_state) : result cl_state :=
  server_address ← search_attr (lit "server_address") [attrs; c];
  if negb (truth server_address) then Raise (Exception_ "Server IP address is not set!")
  else
    bandwidth ← (v ← getattr cfg (lit "bandwidth"); as_int v);
    stream_tx ← getattr cfg (lit "stream_tx");
    stream_rx ← getattr cfg (lit "stream_rx");
    use_qdisc ← getattr cfg (lit "use_qdisc");
    fwmark ← (if truth use_qdisc then getattr cfg (lit "fwmark") else Ok CNone);
    udp_port_auto ← getattr cfg (lit "udp_port_auto");
    let d := NodeSrv wlans link_id bandwidth stream_tx stream_rx tx_port_base fwmark (server_address, udp_port_auto) in
    let key := profile ++ lit "_" ++ fmt_s service_name in
    let old := default [] (PyDict.get (cluster_nodes cl) node) in
    Ok (ClState (port_allocators cl) (PyDict.set (cluster_nodes cl) node (PyDict.set old key d))).

Definition peer_text (node : text) (ports : list Z) : text := node ++ lit ":" ++ join 44 (map print_d ports).

(** One service on every node, in order of their names. *)
Fixpoint on_nodes (c : sect) (profile : text) (link_id : Z) (s : service) (nodes : list (text * sect))
    (auto_peers : list cval) (cl : cl_state) : result (list cval * cl_state) :=
  match nodes with
  | [] => Ok (auto_peers, cl)
  | (node, attrs) :: nodes' =>
      wlans ← wlans_of attrs;
      '(ports, cl) ← next_ports c node (length wlans) cl;
      match ports with
      | [] => Raise (Exception_ "WiFi interface list is empty for node")
      | p :: ps =>
          cl ← update_node c node attrs profile (s_name s) link_id (fold_left Z.min ps p) wlans (s_cfg s) cl;
          on_nodes c profile link_id s nodes' (auto_peers ++ [CStr (peer_text node ports)]) cl
      end
  end.

Fixpoint on_services (c : sect) (nodes : list (text * sect)) (profile : text) (link_id : Z)
    (ss : list service) (cl : cl_state) : result (list service * cl_state) :=
  match ss with
  | [] => Ok ([], cl)
  | s :: ss' =>
      '(peers, cl) ← on_nodes c profile link_id s nodes [] cl;
      '(rest, cl) ← on_services c nodes profile link_id ss' cl;
      Ok (set_attr s (lit "udp_peers_auto") (CList peers) :: rest, cl)
  end.

Definition link_id_of (profile : text) : result Z :=
  p ← getattr st profile; d ← getattr p (lit "link_domain"); s ← as_name d; hash_link_domain s.

Fixpoint on_profiles (c : sect) (nodes : list (text * sect)) (l : list (text * list service)) (cl : cl_state)
    : result (list (text * list service) * cl_state) :=
  match l with
  | [] => Ok ([], cl)
  | (profile, ss) :: l' =>
      link_id ← link_id_of profile;
      '(ss, cl) ← on_services c nodes profile link_id ss cl;
      '(rest, cl) ← on_profiles c nodes l' cl;
      Ok ((profile, ss) :: rest, cl)
  end.

(** [list((profile, parse_services(profile, allocator)) for profile in profiles)]. *)
Fixpoint parse_profiles (alloc : Z) (profiles : list text) : result (list (text * list service)) :=
  match profiles with
  | [] => Ok []
  | p :: ps =>
      '(ss, alloc') ← parse_services st p (Some alloc);
      rest ← parse_profiles (default alloc alloc') ps;
      Ok ((p, ss) :: rest)
  end.

Definition parse_cluster_services (profiles : list text)
    : result (list (text * list service) * PyDict.dict text (PyDict.dict text node_srv)) :=
  nodes ← nodes_of;
  c ← cluster_sect;
  base_server ← (v ← getattr c (lit "base_port_server"); as_int v);
  services ← parse_profiles base_server profiles;
  '(services, cl) ← on_profiles c (merge_sort node_le nodes) services (ClState [] []);
  Ok (services, cluster_nodes cl).

(** ** Ports *)

(** The ports of the [k]-th service on a node with [n] cards. *)
Definition ports_at (base : Z) (k n : nat) : list Z := map (fun i => base + Z.of_nat (k * n) + Z.of_nat i) (seq 0 n).

Section Ports.
Context (c : sect) (base : Z) (Hbase : (v ← getattr c (lit "base_port_node"); as_int v) = Ok base).

(** Before the [k]-th service, every node has used [k] ports per card. *)
Definition at_round (k : nat) (nodes : list (text * sect)) (cl : cl_state) : Prop :=
  forall node attrs wl, (node, attrs) ∈ nodes -> wlans_of attrs = Ok wl ->
    default base (PyDict.get (port_allocators cl) node) = base + Z.of_nat (k * length wl).

Lemma next_ports_spec node n cl : (0 < n)%nat ->
  let p := default base (PyDict.get (port_allocators cl) node) in
  next_ports c node n cl = Ok (map (fun i => p + Z.of_nat i) (seq 0 n),
    ClState (PyDict.set (port_allocators cl) node (p + Z.of_nat n)) (cluster_nodes cl)).
Proof using Hbase.
  intros Hn. unfold next_ports. destruct n as [|n]; [lia |]. destruct (PyDict.get (port_allocators cl) node); [done |].
  by rewrite Hbase.
Qed.

(** The smallest of consecutive ports is the first. *)
Lemma min_consecutive p n : fold_left Z.min (map (fun i => p + Z.of_nat i) (seq 1 n)) p = p.
Proof using Type.
  assert (H : forall l q, Forall (fun x => q <= x) l -> fold_left Z.min l q = q).
  { induction l as [|x l IH]; intros q Hl; [done |]. apply Forall_cons in Hl as [Hx Hl]. cbn. rewrite Z.min_l by done. auto. }
  apply H. apply Forall_map, Forall_seq. intros i Hi. cbn. lia.
Qed.

(** What a node with the attributes [attrs] is told about a service. *)
Record told_about (attrs : sect) (s : service) (link_id : Z) (port : Z) (wl : list text) (d : node_srv) : Prop := {
  ta_wlans : ns_wlans d = wl;
  ta_link : ns_link_id d = link_id;
  ta_base : ns_tx_port_base d = port;
  ta_server : search_attr (lit "server_address") [attrs; c] = Ok (ns_rx_fwd d).1;
  ta_fwd : PyDict.get (s_cfg s) (lit "udp_port_auto") = Some (ns_rx_fwd d).2;
  ta_tx : PyDict.get (s_cfg s) (lit "stream_tx") = Some (ns_stream_tx d);
  ta_rx : PyDict.get (s_cfg s) (lit "stream_rx") = Some (ns_stream_rx d);
  ta_fwmark : exists u, PyDict.get (s_cfg s) (lit "use_qdisc") = Some u /\
    if truth u then PyDict.get (s_cfg s) (lit "fwmark") = Some (ns_fwmark d) else ns_fwmark d = CNone
}.

Definition key_of (profile : text) (s : service) : text := profile ++ lit "_" ++ fmt_s (s_name s).

Lemma getattr_ok {V} (d : PyDict.dict text V) k v : getattr d k = Ok v -> PyDict.get d k = Some v.
Proof using Type. unfold getattr. destruct (PyDict.get d k); [by intros [= <-] | done]. Qed.

Lemma update_node_spec node attrs profile s link_id port wl cl cl' :
  update_node c node attrs profile (s_name s) link_id port wl (s_cfg s) cl = Ok cl' ->
  exists d, told_about attrs s link_id port wl d /\ port_allocators cl' = port_allocators cl /\
    cluster_nodes cl' = PyDict.set (cluster_nodes cl) node
      (PyDict.set (default [] (PyDict.get (cluster_nodes cl) node)) (key_of profile s) d).
Proof using Type.
  intros H. unfold update_node in H. destruct (search_attr _ _) as [sa|] eqn:Esa; [| done]. cbn [mbind result_bind] in H.
  destruct (truth sa); [| done]. cbn [negb] in H.
  destruct (getattr (s_cfg s) (lit "bandwidth")) as [bv|]; [| done]. cbn [mbind result_bind] in H.
  destruct (as_int bv) as [bw|]; [| done]. cbn [mbind result_bind] in H.
  destruct (getattr (s_cfg s) (lit "stream_tx")) as [tx|] eqn:Etx; [| done]. cbn [mbind result_bind] in H.
  destruct (getattr (s_cfg s) (lit "stream_rx")) as [rx|] eqn:Erx; [| done]. cbn [mbind result_bind] in H.
  destruct (getattr (s_cfg s) (lit "use_qdisc")) as [uq|] eqn:Euq; [| done]. cbn [mbind result_bind] in H.
  destruct (if truth uq then getattr (s_cfg s) (lit "fwmark") else Ok CNone) as [fw|] eqn:Efw; [| done]. cbn [mbind result_bind] in H.
  destruct (getattr (s_cfg s) (lit "udp_port_auto")) as [up|] eqn:Eup; [| done]. cbn [mbind result_bind] in H.
  injection H as <-. eexists. split; [| split; reflexivity].
  constructor; try reflexivity; try (apply getattr_ok; assumption); [exact Esa |]. exists uq. split; [by apply getattr_ok |]. cbn [ns_fwmark].
  destruct (truth uq); [by apply getattr_ok | by injection Efw as <-].
Qed.

(** The entry of a service in the map of a node. *)
Definition entry (cn : PyDict.dict text (PyDict.dict text node_srv)) (node key : text) : option node_srv :=
  PyDict.get cn node ≫= fun m => PyDict.get m key.

Lemma entry_set (cn : PyDict.dict text (PyDict.dict text node_srv)) node key d node' key' :
  entry (PyDict.set cn node (PyDict.set (default [] (PyDict.get cn node)) key d)) node' key' =
  if decide (node' = node /\ key' = key) then Some d else entry cn node' key'.
Proof using Type.
  unfold entry. rewrite PyDict.get_set. destruct (decide (node' = node)) as [-> | Hn].
  - cbn. rewrite PyDict.get_set. destruct (decide (key' = key)) as [-> | Hk].
    + by rewrite decide_True.
    + rewrite decide_False by tauto. destruct (PyDict.get cn node); reflexivity.
  - by rewrite decide_False by tauto.
Qed.

Definition peer_for (k : nat) (na : text * sect) (p : cval) : Prop :=
  exists wl, wlans_of na.2 = Ok wl /\ (0 < length wl)%nat /\ p = CStr (peer_text na.1 (ports_at base k (length wl))).

Lemma on_nodes_spec k profile link_id s nodes acc cl peers cl' :
  on_nodes c profile link_id s nodes acc cl = Ok (peers, cl') -> NoDup nodes.*1 -> at_round k nodes cl ->
  (exists ps, peers = acc ++ ps /\ Forall2 (peer_for k) nodes ps) /\ at_round (S k) nodes cl' /\
  (forall node, node ∉ nodes.*1 -> PyDict.get (port_allocators cl') node = PyDict.get (port_allocators cl) node) /\
  (forall node key, key <> key_of profile s -> entry (cluster_nodes cl') node key = entry (cluster_nodes cl) node key) /\
  (forall node attrs wl, (node, attrs) ∈ nodes -> wlans_of attrs = Ok wl -> exists d,
    entry (cluster_nodes cl') node (key_of profile s) = Some d /\ told_about attrs s link_id (base + Z.of_nat (k * length wl)) wl d) /\
  (forall node, node ∉ nodes.*1 -> entry (cluster_nodes cl') node (key_of profile s) = entry (cluster_nodes cl) node (key_of profile s)).
Proof using Hbase.
  revert acc cl. induction nodes as [|[node attrs] nodes IH]; intros acc cl H Hnd Hr.
  - injection H as <- <-. split; [exists []; by rewrite app_nil_r |].
    split_and!; try done; intros node attrs wl Hin; by apply not_elem_of_nil in Hin.
  - rewrite fmap_cons, NoDup_cons in Hnd. destruct Hnd as [Hn Hnd]. cbn [fst] in Hn. cbn [on_nodes] in H.
    destruct (wlans_of attrs) as [wl|] eqn:Ew; [| done]. cbn [mbind result_bind] in H.
    destruct (decide (length wl = 0)%nat) as [H0 | Hpos]; [rewrite H0 in H; done |].
    assert (Hp : (0 < length wl)%nat) by lia. rewrite next_ports_spec in H by done. cbn [mbind result_bind] in H.
    rewrite (Hr node attrs wl ltac:(left) Ew) in H.
    set (p0 := base + Z.of_nat (k * length wl)) in *. set (ports := map (fun i => p0 + Z.of_nat i) (seq 0 (length wl))) in *.
    assert (Hports : exists ps, ports = p0 :: ps /\ fold_left Z.min ps p0 = p0).
    { unfold ports. destruct (length wl) as [|n]; [lia |]. cbn [seq map]. eexists. rewrite Z.add_0_r. split; [reflexivity |].
      apply min_consecutive. }
    destruct Hports as (ps & Eports & Emin). rewrite Eports, Emin, <- Eports in H.
    destruct (update_node _ _ _ _ _ _ _ _ _ _) as [cl1|] eqn:Eu; [| done]. cbn [mbind result_bind] in H.
    destruct (update_node_spec _ _ _ _ _ _ _ _ _ Eu) as (d & Hd & Ha & Hc). cbn [port_allocators cluster_nodes] in Ha, Hc.
    assert (Hr1 : at_round k nodes cl1).
    { intros node' attrs' wl' Hin Hw. rewrite Ha, PyDict.get_set_ne.
      - apply (Hr node' attrs' wl'); [by right | done].
      - intros ->. apply Hn. apply list_elem_of_fmap. by exists (node, attrs'). }
    destruct (IH _ _ H Hnd Hr1) as ((ps' & -> & Hps) & Hround & Halloc & Hother & Hown & Hleft). split; [| split_and!].
    + eexists (CStr (peer_text node ports) :: ps'). split; [by rewrite <- app_assoc |]. constructor; [| done].
      exists wl. done.
    + intros node' attrs' wl' [Heq | Hin]%elem_of_cons Hw.
      * injection Heq as -> ->. rewrite Ew in Hw. injection Hw as <-. rewrite (Halloc node Hn), Ha, PyDict.get_set_eq. cbn.
        unfold p0. lia.
      * by apply (Hround node' attrs').
    + intros node' Hin. rewrite fmap_cons, not_elem_of_cons in Hin. destruct Hin as [Hne Hin]. cbn in Hne.
      rewrite (Halloc node' Hin), Ha. by apply PyDict.get_set_ne.
    + intros node' key Hk. rewrite (Hother node' key Hk), Hc, entry_set. by rewrite decide_False by tauto.
    + intros node' attrs' wl' [Heq | Hin]%elem_of_cons Hw.
      * injection Heq as -> ->. rewrite Ew in Hw. injection Hw as <-. exists d. split; [| done].
        rewrite (Hleft node Hn), Hc, entry_set. by rewrite decide_True.
      * by apply (Hown node' attrs').
    + intros node' Hin. rewrite fmap_cons, not_elem_of_cons in Hin. destruct Hin as [Hne Hin]. cbn in Hne.
      rewrite (Hleft node' Hin), Hc, entry_set. by rewrite decide_False by tauto.
Qed.

(** The services of all profiles, one after the other. *)
Record job := Job { j_profile : text; j_link : Z; j_service : service }.

Definition j_key (j : job) : text := key_of (j_profile j) (j_service j).

Fixpoint run_jobs (nodes : list (text * sect)) (jobs : list job) (cl : cl_state) : result (list (list cval) * cl_state) :=
  match jobs with
  | [] => Ok ([], cl)
  | j :: jobs' =>
      '(peers, cl) ← on_nodes c (j_profile j) (j_link j) (j_service j) nodes [] cl;
      '(rest, cl) ← run_jobs nodes jobs' cl;
      Ok (peers :: rest, cl)
  end.

Lemma run_jobs_spec k nodes jobs cl peers cl' : run_jobs nodes jobs cl = Ok (peers, cl') -> NoDup nodes.*1 ->
  at_round k nodes cl ->
  length peers = length jobs /\
  (forall j ps, peers !! j = Some ps -> Forall2 (peer_for (k + j)) nodes ps) /\
  (forall node key, key ∉ map j_key jobs -> entry (cluster_nodes cl') node key = entry (cluster_nodes cl) node key) /\
  (NoDup (map j_key jobs) -> forall j jb node attrs wl, jobs !! j = Some jb -> (node, attrs) ∈ nodes ->
    wlans_of attrs = Ok wl -> exists d, entry (cluster_nodes cl') node (j_key jb) = Some d /\
      told_about attrs (j_service jb) (j_link jb) (base + Z.of_nat ((k + j) * length wl)) wl d).
Proof using Hbase.
  intros H Hnd. revert k cl peers cl' H. induction jobs as [|jb jobs IH]; intros k cl peers cl' H Hr.
  - injection H as <- <-. split_and!; done.
  - cbn [run_jobs] in H. destruct (on_nodes _ _ _ _ _ _ _) as [[ps cl1]|] eqn:E1; [| done]. cbn [mbind result_bind] in H.
    destruct (run_jobs nodes jobs cl1) as [[rest cl2]|] eqn:E2; [| done]. cbn [mbind result_bind] in H. injection H as <- <-.
    destruct (on_nodes_spec k _ _ _ _ _ _ _ _ E1 Hnd Hr) as ((ps' & -> & Hps) & Hr1 & _ & Hother & Hown & _).
    destruct (IH (S k) _ _ _ E2 Hr1) as (Hl & Hpeers & Hkeep & Hentry). split_and!.
    + cbn. by rewrite Hl.
    + intros [|j] q Hq; cbn in Hq.
      * injection Hq as <-. by rewrite Nat.add_0_r.
      * rewrite Nat.add_succ_r. by apply Hpeers.
    + intros node key Hk. cbn [map] in Hk. rewrite not_elem_of_cons in Hk. destruct Hk as [Hk1 Hk2].
      rewrite (Hkeep node key Hk2). by apply Hother.
    + cbn [map]. rewrite NoDup_cons. intros [Hk1 Hk2] [|j] jb' node attrs wl Hj Hin Hw; cbn in Hj.
      * injection Hj as <-. destruct (Hown node attrs wl Hin Hw) as (d & Hd & Ht). exists d. rewrite Nat.add_0_r.
        split; [| done]. by rewrite (Hkeep node _ Hk1).
      * rewrite Nat.add_succ_r. by apply (Hentry Hk2 j jb' node attrs).
Qed.

Lemma run_jobs_length nodes jobs cl peers cl' : run_jobs nodes jobs cl = Ok (peers, cl') -> length peers = length jobs.
Proof using Type.
  revert cl peers. induction jobs as [|j jobs IH]; intros cl peers H; [by injection H as <- <- |]. cbn [run_jobs] in H.
  destruct (on_nodes _ _ _ _ _ _ _) as [[ps cl1]|]; [| done]. cbn [mbind result_bind] in H.
  destruct (run_jobs nodes jobs cl1) as [[rest cl2]|] eqn:E; [| done]. injection H as <- <-. cbn. by rewrite (IH _ _ E).
Qed.

Lemma run_jobs_app nodes a b cl : run_jobs nodes (a ++ b) cl =
  ('(p1, cl) ← run_jobs nodes a cl; '(p2, cl) ← run_jobs nodes b cl; Ok (p1 ++ p2, cl)).
Proof using Type.
  revert cl. induction a as [|j a IH]; intros cl; cbn [app run_jobs mbind result_bind].
  - by destruct (run_jobs nodes b cl) as [[? ?]|].
  - destruct (on_nodes _ _ _ _ _ _ _) as [[ps cl1]|]; [| done]. cbn [mbind result_bind]. rewrite IH.
    destruct (run_jobs nodes a cl1) as [[p1 cl2]|]; [| done]. cbn [mbind result_bind].
    by destruct (run_jobs nodes b cl2) as [[p2 cl3]|].
Qed.

(** The map of a node lists its services in the order they were handled. *)
Definition node_map (cl : cl_state) (node : text) : PyDict.dict text node_srv := default [] (PyDict.get (cluster_nodes cl) node).

Lemma next_ports_nodes node n cl ps cl' : next_ports c node n cl = Ok (ps, cl') -> cluster_nodes cl' = cluster_nodes cl.
Proof using Type.
  unfold next_ports. destruct n; [by intros [= _ <-] |]. by intros (p & _ & [= _ <-])%bind_ok.
Qed.

Lemma on_nodes_keys profile link_id s nodes acc cl peers cl' : on_nodes c profile link_id s nodes acc cl = Ok (peers, cl') ->
  NoDup nodes.*1 -> forall node, key_of profile s ∉ PyDict.keys (node_map cl node) ->
  PyDict.keys (node_map cl' node) =
    PyDict.keys (node_map cl node) ++ if decide (node ∈ nodes.*1) then [key_of profile s] else [].
Proof using Type.
  revert acc cl. induction nodes as [|[n attrs] nodes IH]; intros acc cl H Hnd node Hk.
  { injection H as _ <-. rewrite decide_False by apply not_elem_of_nil. by rewrite app_nil_r. }
  rewrite fmap_cons, NoDup_cons in Hnd. destruct Hnd as [Hn Hnd]. cbn [fst] in Hn. cbn [on_nodes] in H.
  apply bind_ok in H as (wl & _ & ([ports cl1] & En & H)%bind_ok). destruct ports as [|p ps]; [done |].
  apply bind_ok in H as (cl2 & Eu & H). destruct (update_node_spec _ _ _ _ _ _ _ _ _ Eu) as (d & _ & _ & Hc).
  rewrite (next_ports_nodes _ _ _ _ _ En) in Hc.
  assert (Hm : node_map cl2 node = if decide (node = n) then PyDict.set (node_map cl n) (key_of profile s) d else node_map cl node)
    by (unfold node_map; rewrite Hc, PyDict.get_set; by destruct (decide (node = n))).
  rewrite fmap_cons. cbn [fst]. destruct (decide (node = n)) as [-> | Hne].
  - assert (Hstay : node_map cl' n = node_map cl2 n).
    { clear - H Hn. revert H. generalize (acc ++ [CStr (peer_text n (p :: ps))]) as acc'. revert cl2.
      induction nodes as [|[m attrs'] nodes IH]; intros cl2 acc' H; [by injection H as _ <- |]. cbn [on_nodes] in H.
      rewrite fmap_cons in Hn. apply not_elem_of_cons in Hn as [Hne Hn]. cbn [fst] in Hne.
      apply bind_ok in H as (wl' & _ & ([ports cl3] & En & H)%bind_ok). destruct ports as [|q qs]; [done |].
      apply bind_ok in H as (cl4 & Eu & H). destruct (update_node_spec _ _ _ _ _ _ _ _ _ Eu) as (d' & _ & _ & Hc).
      rewrite (next_ports_nodes _ _ _ _ _ En) in Hc. rewrite (IH Hn _ _ H). unfold node_map. by rewrite Hc, PyDict.get_set_ne. }
    rewrite Hstay, Hm, PyDict.set_keys, decide_False by done. by rewrite decide_True by left.
  - rewrite (IH _ _ H Hnd node) by (by rewrite Hm). rewrite Hm. f_equal. destruct (decide (node ∈ nodes.*1)).
    + by rewrite decide_True by (by right).
    + by rewrite decide_False by (rewrite not_elem_of_cons; tauto).
Qed.

Lemma run_jobs_keys nodes jobs cl peers cl' node : run_jobs nodes jobs cl = Ok (peers, cl') -> NoDup nodes.*1 ->
  node ∈ nodes.*1 -> NoDup (PyDict.keys (node_map cl node) ++ map j_key jobs) ->
  PyDict.keys (node_map cl' node) = PyDict.keys (node_map cl node) ++ map j_key jobs.
Proof using Type.
  intros H Hnd Hin. revert cl peers H. induction jobs as [|j jobs IH]; intros cl peers H Hk; cbn [map].
  { injection H as _ <-. by rewrite app_nil_r. }
  cbn [run_jobs] in H. apply bind_ok in H as ([ps cl1] & E1 & ([rest cl2] & E2 & [= _ <-])%bind_ok).
  assert (Hj : PyDict.keys (node_map cl1 node) = PyDict.keys (node_map cl node) ++ [j_key j]).
  { rewrite (on_nodes_keys _ _ _ _ _ _ _ _ E1 Hnd node); [by rewrite decide_True |].
    apply NoDup_app in Hk as (_ & Hd & _). intros Hx. apply (Hd _ Hx). by left. }
  rewrite (IH _ _ E2), Hj, <- app_assoc; [done |]. rewrite Hj, <- app_assoc. exact Hk.
Qed.

(** The services of a list of profiles with the profile they belong to. *)
Definition flat (l : list (text * list service)) : list (text * service) := concat (map (fun p => map (pair p.1) p.2) l).

Definition with_peers (j : job) (ps : list cval) : text * service :=
  (j_profile j, set_attr (j_service j) (lit "udp_peers_auto") (CList ps)).

Definition plan (j : job) : text * service := (j_profile j, j_service j).

Lemma on_services_jobs nodes profile link_id ss cl ss' cl' : on_services c nodes profile link_id ss cl = Ok (ss', cl') ->
  exists peers, run_jobs nodes (map (Job profile link_id) ss) cl = Ok (peers, cl') /\
    map (pair profile) ss' = zip_with with_peers (map (Job profile link_id) ss) peers.
Proof using Type.
  revert cl ss'. induction ss as [|s ss IH]; intros cl ss' H.
  - injection H as <- <-. by exists [].
  - cbn [on_services] in H. destruct (on_nodes _ _ _ _ _ _ _) as [[ps cl1]|] eqn:E1; [| done]. cbn [mbind result_bind] in H.
    destruct (on_services _ _ _ _ _ _) as [[rest cl2]|] eqn:E2; [| done]. cbn [mbind result_bind] in H. injection H as <- <-.
    destruct (IH _ _ E2) as (peers & Hp & Hz). exists (ps :: peers). cbn [map run_jobs j_profile j_link j_service].
    rewrite E1. cbn [mbind result_bind]. rewrite Hp. cbn [mbind result_bind map zip_with]. split; [done |]. by rewrite Hz.
Qed.

Lemma on_profiles_jobs nodes l cl l' cl' : on_profiles c nodes l cl = Ok (l', cl') ->
  exists jobs peers, map plan jobs = flat l /\ Forall (fun j => link_id_of (j_profile j) = Ok (j_link j)) jobs /\
    run_jobs nodes jobs cl = Ok (peers, cl') /\ flat l' = zip_with with_peers jobs peers.
Proof using Type.
  revert cl l'. induction l as [|[profile ss] l IH]; intros cl l' H.
  - injection H as <- <-. by exists [], [].
  - cbn [on_profiles] in H. destruct (link_id_of profile) as [lk|] eqn:El; [| done]. cbn [mbind result_bind] in H.
    destruct (on_services _ _ _ _ _ _) as [[ss1 cl1]|] eqn:E1; [| done]. cbn [mbind result_bind] in H.
    destruct (on_profiles _ _ _ _) as [[rest cl2]|] eqn:E2; [| done]. cbn [mbind result_bind] in H. injection H as <- <-.
    destruct (on_services_jobs _ _ _ _ _ _ _ E1) as (p1 & R1 & Z1). destruct (IH _ _ E2) as (jobs & p2 & Hf & Hl & R2 & Z2).
    exists (map (Job profile lk) ss ++ jobs), (p1 ++ p2). split_and!.
    + rewrite map_app, map_map, Hf. done.
    + apply Forall_app. split; [| done]. apply Forall_map, Forall_true. done.
    + rewrite run_jobs_app, R1. cbn [mbind result_bind]. by rewrite R2.
    + unfold flat in *. cbn [map concat fst snd]. rewrite Z1, Z2. rewrite zip_with_app; [done |].
      symmetry. by apply (run_jobs_length nodes _ cl _ cl1).
Qed.

Lemma flat_lookup_peers jobs peers k p s : zip_with with_peers jobs peers !! k = Some (p, s) ->
  exists j ps, jobs !! k = Some j /\ peers !! k = Some ps /\ p = j_profile j /\
    s = set_attr (j_service j) (lit "udp_peers_auto") (CList ps).
Proof using Type. intros H. apply lookup_zip_with_Some in H as (j & ps & [= -> ->] & Hj & Hp). eauto 10. Qed.

End Ports.

Lemma parse_profiles_ports base profiles l : parse_profiles base profiles = Ok l -> forall k p s, flat l !! k = Some (p, s) ->
  PyDict.get (s_cfg s) (lit "udp_port_auto") = Some (CNum (PyNum.NInt (base + Z.of_nat k))).
Proof using Type.
  revert base l. induction profiles as [|p ps IH]; intros base l H k q s Hk; [by injection H as <- |].
  cbn [parse_profiles] in H. destruct (parse_services st p (Some base)) as [[ss a]|] eqn:E1; [| done].
  cbn [mbind result_bind] in H. destruct (parse_services_ports _ _ _ _ _ E1) as [-> Hp].
  change (default base (Some ?x)) with x in H.
  destruct (parse_profiles _ ps) as [rest|] eqn:E2; [| done]. cbn [mbind result_bind] in H. injection H as <-.
  unfold flat in Hk. cbn [map concat fst snd] in Hk. apply lookup_app_Some in Hk as [Hk | [Hl Hk]].
  - apply list_lookup_fmap_Some in Hk as (s' & [= -> ->] & Hs). by apply Hp.
  - rewrite length_map in Hl, Hk. rewrite (IH _ _ E2 _ _ _ Hk). do 3 f_equal. lia.
Qed.

(** What the server is given for the [k]-th service of all: its own port for
    received data, and for every node, in order of their names, the ports of
    that service there. *)
Record server_side (base_server base_node : Z) (nodes : list (text * sect)) (k : nat) (s : service) : Prop := {
  sv_port : PyDict.get (s_cfg s) (lit "udp_port_auto") = Some (CNum (PyNum.NInt (base_server + Z.of_nat k)));
  sv_peers : exists ps, PyDict.get (s_cfg s) (lit "udp_peers_auto") = Some (CList ps) /\ Forall2 (peer_for base_node k) nodes ps
}.

(** The handled services and what they became. *)
Lemma services_of_jobs jobs peers k p s : zip_with with_peers jobs peers !! k = Some (p, s) ->
  exists j ps, jobs !! k = Some j /\ peers !! k = Some ps /\ p = j_profile j /\ key_of p s = j_key j /\
    PyDict.get (s_cfg s) (lit "udp_peers_auto") = Some (CList ps) /\
    forall key, key <> lit "udp_peers_auto" -> PyDict.get (s_cfg s) key = PyDict.get (s_cfg (j_service j)) key.
Proof using Type.
  intros (j & ps & Hj & Hp & -> & ->)%flat_lookup_peers. exists j, ps. split_and!; try done; cbn [set_attr s_cfg].
  - apply PyDict.get_set_eq.
  - intros key Hk. by apply PyDict.get_set_ne.
Qed.

Lemma keys_of_jobs jobs peers : length peers = length jobs ->
  map (fun x => key_of x.1 x.2) (zip_with with_peers jobs peers) = map j_key jobs.
Proof using Type.
  revert peers. induction jobs as [|j jobs IH]; intros [|ps peers] Hl; cbn in *; try lia; [done |]. by rewrite IH by lia.
Qed.

(** The run of [parse_cluster_services] as a list of jobs. *)
Lemma plan_of_run profiles services cn c nodes base_server base_node :
  parse_cluster_services profiles = Ok (services, cn) ->
  cluster_sect = Ok c -> nodes_of = Ok nodes -> NoDup nodes.*1 ->
  (v ← getattr c (lit "base_port_server"); as_int v) = Ok base_server ->
  (v ← getattr c (lit "base_port_node"); as_int v) = Ok base_node ->
  exists jobs peers cl, flat services = zip_with with_peers jobs peers /\ length peers = length jobs /\ cn = cluster_nodes cl /\
    (forall k j, jobs !! k = Some j -> link_id_of (j_profile j) = Ok (j_link j) /\
       PyDict.get (s_cfg (j_service j)) (lit "udp_port_auto") = Some (CNum (PyNum.NInt (base_server + Z.of_nat k)))) /\
    (forall k ps, peers !! k = Some ps -> Forall2 (peer_for base_node k) (merge_sort node_le nodes) ps) /\
    (NoDup (map j_key jobs) -> forall node attrs wl, (node, attrs) ∈ nodes -> wlans_of attrs = Ok wl ->
       PyDict.keys (node_map cl node) = map j_key jobs /\
       forall k j, jobs !! k = Some j -> exists d, entry cn node (j_key j) = Some d /\
         told_about c attrs (j_service j) (j_link j) (base_node + Z.of_nat (k * length wl)) wl d).
Proof using Type.
  intros H Hc Hn Hnd Hbs Hbn. unfold parse_cluster_services in H. rewrite Hn, Hc in H. cbn [mbind result_bind] in H.
  cbn [mbind result_bind] in Hbs. rewrite Hbs in H. cbn [mbind result_bind] in H.
  apply bind_ok in H as (l & Ep & ([l' cl] & Eo & [= <- <-])%bind_ok).
  set (sorted := merge_sort node_le nodes) in *.
  assert (Hperm : sorted ≡ₚ nodes) by apply merge_sort_Permutation.
  assert (Hnds : NoDup sorted.*1) by (by rewrite Hperm).
  destruct (on_profiles_jobs c sorted l _ l' cl Eo) as (jobs & peers & Hflat & Hlink & Hrun & Hz).
  assert (Hround : at_round base_node 0 sorted (ClState [] [])) by (intros ? ? ? _ _; cbn; lia).
  destruct (run_jobs_spec c base_node Hbn 0 sorted jobs _ _ _ Hrun Hnds Hround) as (Hlen & Hpeers & _ & Hentry).
  exists jobs, peers, cl. split_and!; try done.
  - intros k j Hj. rewrite Forall_lookup in Hlink. split; [by apply (Hlink k) |].
    apply (parse_profiles_ports base_server profiles l Ep k (j_profile j)). rewrite <- Hflat.
    change (j_profile j, j_service j) with (plan j). by rewrite list_lookup_fmap, Hj.
  - intros Hkeys node attrs wl Hin Hw. split.
    + rewrite (run_jobs_keys c sorted jobs _ _ _ node Hrun Hnds); [done | | done].
      rewrite Hperm. apply list_elem_of_fmap. by exists (node, attrs).
    + intros k j Hj. assert (Hin' : (node, attrs) ∈ sorted) by (by rewrite Hperm).
      destruct (Hentry Hkeys k j node attrs wl Hj Hin' Hw) as (d & Hd & Ht). by exists d.
Qed.

Lemma told_again c attrs s s' link port wl d : told_about c attrs s link port wl d ->
  (forall key, key <> lit "udp_peers_auto" -> PyDict.get (s_cfg s') key = PyDict.get (s_cfg s) key) ->
  told_about c attrs s' link port wl d.
Proof using Type. intros [] He. constructor; try done; rewrite ?He by done; done. Qed.

(** What a node runs: one entry per service, in order, with what it is told. *)
Lemma node_plan_told profiles services cn c nodes base_server base_node :
  parse_cluster_services profiles = Ok (services, cn) ->
  cluster_sect = Ok c -> nodes_of = Ok nodes -> NoDup nodes.*1 ->
  (v ← getattr c (lit "base_port_server"); as_int v) = Ok base_server ->
  (v ← getattr c (lit "base_port_node"); as_int v) = Ok base_node ->
  NoDup (map (fun x => key_of x.1 x.2) (flat services)) -> flat services <> [] ->
  forall node attrs wl, (node, attrs) ∈ nodes -> wlans_of attrs = Ok wl ->
  exists m, PyDict.get cn node = Some m /\ length m = length (flat services) /\
    forall k p s, flat services !! k = Some (p, s) -> exists d link_id, m !! k = Some (key_of p s, d) /\ link_id_of p = Ok link_id /\
      (ns_rx_fwd d).2 = CNum (PyNum.NInt (base_server + Z.of_nat k)) /\
      told_about c attrs s link_id (base_node + Z.of_nat (k * length wl)) wl d.
Proof using Type.
  intros H Hc Hn Hnd Hbs Hbn Hkeys Hne node attrs wl Hin Hw.
  destruct (plan_of_run _ _ _ _ _ _ _ H Hc Hn Hnd Hbs Hbn) as (jobs & peers & cl & Hz & Hlen & -> & Hjob & _ & Htold).
  rewrite Hz in *. rewrite keys_of_jobs in Hkeys by done. destruct (Htold Hkeys node attrs wl Hin Hw) as [Hm Hent].
  assert (Hget : PyDict.get (cluster_nodes cl) node = Some (node_map cl node)).
  { destruct jobs as [|j0 jobs0]; [done |]. destruct (Hent 0%nat j0 eq_refl) as (d & Hd & _). unfold entry in Hd. unfold node_map.
    by destruct (PyDict.get (cluster_nodes cl) node). }
  exists (node_map cl node). split; [done |].
  assert (Hl : length (node_map cl node) = length jobs) by (rewrite <- (length_fmap fst), <- (length_map j_key); by f_equal).
  split; [rewrite length_zip_with; lia |]. intros k p s Hk.
  destruct (services_of_jobs _ _ _ _ _ Hk) as (j & ps & Hj & _ & -> & Hkey & _ & Hs).
  destruct (Hent k j Hj) as (d & Hd & Ht), (Hjob k j Hj) as [Hlk Hport]. exists d, (j_link j). rewrite Hkey. split_and!; try done.
  - unfold entry in Hd. rewrite Hget in Hd. cbn [mbind option_bind] in Hd.
    destruct (lookup_lt_is_Some_2 (node_map cl node) k) as [[key d'] Hd']; [rewrite Hl; by eapply lookup_lt_Some |].
    assert (key = j_key j) as ->.
    { assert (E : PyDict.keys (node_map cl node) !! k = Some key) by (unfold PyDict.keys; by rewrite list_lookup_fmap, Hd').
      rewrite Hm, list_lookup_fmap, Hj in E. by injection E. }
    assert (E : PyDict.get (node_map cl node) (j_key j) = Some d').
    { apply PyDict.In_get; [unfold PyDict.ok; by rewrite Hm | by eapply list_elem_of_lookup_2]. }
    rewrite E in Hd. by injection Hd as ->.
  - destruct Ht as [_ _ _ _ Hf _ _ _]. rewrite Hport in Hf. by injection Hf as <-.
  - by apply (told_again c attrs (j_service j)).
Qed.

Lemma port_plan profiles services cn c nodes base_server base_node :
  parse_cluster_services profiles = Ok (services, cn) ->
  cluster_sect = Ok c -> nodes_of = Ok nodes -> NoDup nodes.*1 ->
  (v ← getattr c (lit "base_port_server"); as_int v) = Ok base_server ->
  (v ← getattr c (lit "base_port_node"); as_int v) = Ok base_node ->
  (forall k p s, flat services !! k = Some (p, s) -> server_side base_server base_node (merge_sort node_le nodes) k s) /\
  (NoDup (map (fun x => key_of x.1 x.2) (flat services)) ->
   forall k p s node attrs wl, flat services !! k = Some (p, s) -> (node, attrs) ∈ nodes -> wlans_of attrs = Ok wl ->
   exists d, entry cn node (key_of p s) = Some d /\ ns_wlans d = wl /\ link_id_of p = Ok (ns_link_id d) /\
     ns_tx_port_base d = base_node + Z.of_nat (k * length wl) /\
     (ns_rx_fwd d).2 = CNum (PyNum.NInt (base_server + Z.of_nat k))).
Proof using Type.
  intros H Hc Hn Hnd Hbs Hbn. destruct (plan_of_run _ _ _ _ _ _ _ H Hc Hn Hnd Hbs Hbn) as (jobs & peers & cl & Hz & Hlen & -> & Hjob & Hpe & Htold).
  rewrite Hz. split.
  - intros k p s (j & ps & Hj & Hps & _ & _ & Hpeers & Hs)%services_of_jobs. destruct (Hjob k j Hj) as [_ Hport].
    constructor; [by rewrite Hs | exists ps; split; [done | by apply (Hpe k)]].
  - rewrite keys_of_jobs by done. intros Hkeys k p s node attrs wl (j & ps & Hj & _ & -> & -> & _ & Hs)%services_of_jobs Hin Hw.
    destruct (Htold Hkeys node attrs wl Hin Hw) as [_ Hent]. destruct (Hent k j Hj) as (d & Hd & []), (Hjob k j Hj) as [Hlk Hport].
    exists d. split_and!; try done; [by rewrite Hlk; f_equal |]. rewrite Hport in ta_fwd0. by injection ta_fwd0.
Qed.

(** C13: the port plan of a cluster: the [k]-th service of all profiles receives
    on server port [base_port_server + k]; on every node it sends through the
    ports [base_port_node + k * n] to [base_port_node + k * n + n - 1] of the
    node's [n] cards, so that ports of different services never meet; and, when
    no two services have the same key, what the node is told is the same plan:
    its base port, its cards, and the server port to forward to. *)
Theorem cluster_port_plan profiles services cn c nodes base_server base_node :
  parse_cluster_services profiles = Ok (services, cn) ->
  cluster_sect = Ok c -> nodes_of = Ok nodes -> NoDup nodes.*1 ->
  (v ← getattr c (lit "base_port_server"); as_int v) = Ok base_server ->
  (v ← getattr c (lit "base_port_node"); as_int v) = Ok base_node ->
  (forall k p s, flat services !! k = Some (p, s) -> server_side base_server base_node (merge_sort node_le nodes) k s) /\
  (NoDup (map (fun x => key_of x.1 x.2) (flat services)) ->
   forall k p s node attrs wl, flat services !! k = Some (p, s) -> (node, attrs) ∈ nodes -> wlans_of attrs = Ok wl ->
   exists d, entry cn node (key_of p s) = Some d /\ ns_wlans d = wl /\ link_id_of p = Ok (ns_link_id d) /\
     ns_tx_port_base d = base_node + Z.of_nat (k * length wl) /\
     (ns_rx_fwd d).2 = CNum (PyNum.NInt (base_server + Z.of_nat k))).
Proof using Type. apply port_plan. Qed.

(** ** Node scripts *)

(** The variables of the template. *)
Record script_ctx := ScriptCtx {
  x_wlans : list text;
  x_ht_mode : text;
  x_services : PyDict.dict text node_srv;
  x_txpower : PyDict.dict text cval;
  x_channel : PyDict.dict text cval;
  x_ssh_mode : bool;
  x_custom : cval
}.

Definition is_none (v : cval) : bool := match v with CNone => true | _ => false end.

Definition is_off (v : cval) : bool := match v with CStr s => bool_decide (s = lit "off") | _ => false end.

(** [d[k]] in a template: a missing key is an error when it is used. *)
Definition tmpl_item (d : PyDict.dict text cval) (k : text) : result cval :=
  of_option (Exception_ "UndefinedError") (PyDict.get d k).

Definition spaces (ws : list text) : text := join 32 ws.

(** The lines that set up one card. *)
Definition wlan_lines (x : script_ctx) (w : text) : result (list text) :=
  ch ← tmpl_item (x_channel x) w;
  n ← match ch with CNum n => Ok n | _ => Raise TypeError end;
  pw ← tmpl_item (x_txpower x) w;
  Ok ([[]; lit "# init " ++ w;
       lit "if which nmcli > /dev/null && ! nmcli device show " ++ w ++ lit " | grep -q '(unmanaged)'";
       lit "then"; lit "  nmcli device set " ++ w ++ lit " managed no"; lit "  sleep 1"; lit "fi"; [];
       lit "ip link set " ++ w ++ lit " down"; lit "iw dev " ++ w ++ lit " set monitor otherbss";
       lit "ip link set " ++ w ++ lit " up";
       lit "iw dev " ++ w ++ (if PyNum.lt (PyNum.NInt 2000) n then lit " set freq " else lit " set channel ") ++
         fmt_s ch ++ lit " " ++ x_ht_mode x] ++
      (if is_none pw || is_off pw then []
       else [lit "iw dev " ++ w ++ lit " set txpower fixed " ++ fmt_s pw])).

(** The receiver and the injector of one service. *)
Definition rx_line (rcv_buf : text) (d : node_srv) : text :=
  lit "wfb_rx -f -c " ++ fmt_s (ns_rx_fwd d).1 ++ lit " -u " ++ fmt_s (ns_rx_fwd d).2 ++ lit " -p " ++ fmt_s (ns_stream_rx d) ++
  lit " -i " ++ print_d (ns_link_id d) ++ lit " -R " ++ rcv_buf ++ lit " " ++ spaces (ns_wlans d) ++ lit " &".

Definition tx_line (rcv_buf : text) (d : node_srv) : result text :=
  qdisc ← (if is_none (ns_fwmark d) then Ok [] else v ← percent_d (ns_fwmark d); Ok (lit "-Q -P " ++ v));
  Ok (lit "wfb_tx -I " ++ print_d (ns_tx_port_base d) ++ lit " -R " ++ rcv_buf ++ lit " " ++ qdisc ++ lit " " ++
      spaces (ns_wlans d) ++ lit " &").

Definition service_lines (rcv_buf : text) (p : text * node_srv) : result (list text) :=
  tx ← (if is_none (ns_stream_tx p.2) then Ok [] else l ← tx_line rcv_buf p.2; Ok [l]);
  Ok ([[]; lit "# " ++ p.1] ++ (if is_none (ns_stream_rx p.2) then [] else [rx_line rcv_buf p.2]) ++ tx).

(** The lines around those of the cards and the services. *)
Definition script_start : list text :=
  [lit "#!/bin/bash"; lit "set -emb"; []; lit "export LC_ALL=C"; []; lit "_cleanup()"; lit "{";
   lit "  plist=$(jobs -p)"; lit "  if [ -n " ++ [34] ++ lit "$plist" ++ [34] ++ lit " ]"; lit "  then";
   lit "      kill -TERM $plist || true"; lit "  fi"; lit "  exit 1"; lit "}"; []; lit "trap _cleanup EXIT"; []].

Definition custom_lines (x : script_ctx) : list text := if is_none (x_custom x) then [] else [fmt_s (x_custom x)].

Definition script_end (x : script_ctx) : list text :=
  [[]] ++
  (if x_ssh_mode x then [lit "# Will fail in case of connection loss"; lit "(sleep 1; exec cat > /dev/null) &"] else []) ++
  [[]; lit "echo " ++ [34] ++ lit "WFB-ng init done" ++ [34]; lit "wait -n"; []].

(** [script_template.render]: the lines of the script, in order. *)
Definition render (x : script_ctx) : result (list text) :=
  common ← getattr st (lit "common");
  region ← getattr common (lit "wifi_region");
  wl ← result_map (wlan_lines x) (x_wlans x);
  rcv_buf ← getattr common (lit "tx_rcv_buf_size");
  sv ← result_map (service_lines (fmt_s rcv_buf)) (x_services x);
  Ok (script_start ++ custom_lines x ++ [[]; lit "iw reg set " ++ fmt_s region] ++ concat wl ++ concat sv ++ script_end x).

(** A value per card: a dictionary, or the same for all. *)
Definition per_wlan (v : cval) (wlans : list text) : result (PyDict.dict text cval) :=
  match v with
  | CDict l => result_map (fun p => k ← as_name p.1; Ok (k, p.2)) l
  | _ => Ok (map (fun w => (w, v)) wlans)
  end.

(** [max] of a non-empty sequence. *)
Definition py_max (l : list Z) : result Z := match l with [] => Raise ValueError | x :: l' => Ok (fold_left Z.max l' x) end.

Definition script_of (ssh_mode : bool) (node : text) (node_attrs : PyDict.dict text node_srv) : result (list text) :=
  let wlans := merge_sort text_le (remove_dups (concat (map (fun p => ns_wlans p.2) node_attrs))) in
  max_bw ← py_max (map (fun p => ns_bandwidth p.2) node_attrs);
  nodes ← nodes_of;
  attrs ← PyDict.item nodes node;
  c ← cluster_sect;
  common ← getattr st (lit "common");
  channel ← search_attr (lit "wifi_channel") [attrs; common];
  channel ← per_wlan channel wlans;
  txpower ← search_attr (lit "wifi_txpower") [attrs; common];
  custom ← search_attr (lit "custom_init_script") [attrs; c];
  txpower ← per_wlan txpower wlans;
  ht_mode ← PyDict.item bandwidth_map max_bw;
  render (ScriptCtx wlans ht_mode node_attrs txpower channel ssh_mode custom).

(** What a script is rendered from. *)
Lemma script_of_ctx ssh_mode node m lines : script_of ssh_mode node m = Ok lines -> exists x nodes attrs c,
  render x = Ok lines /\ x_services x = m /\ nodes_of = Ok nodes /\ PyDict.item nodes node = Ok attrs /\ cluster_sect = Ok c /\
  search_attr (lit "custom_init_script") [attrs; c] = Ok (x_custom x).
Proof using Type.
  unfold script_of. intros (bw & _ & (nodes & Hn & (attrs & Ha & (c & Hc & H)%bind_ok)%bind_ok)%bind_ok)%bind_ok.
  apply bind_ok in H as (common & _ & (ch & _ & (ch' & _ & (tp & _ & (cu & Hcu & H)%bind_ok)%bind_ok)%bind_ok)%bind_ok).
  apply bind_ok in H as (tp' & _ & (ht & _ & H)%bind_ok). by eexists _, nodes, attrs, c.
Qed.

Definition gen_cluster_scripts (cn : PyDict.dict text (PyDict.dict text node_srv)) (ssh_mode : bool)
    : result (PyDict.dict text (list text)) :=
  l ← result_map (fun p => s ← script_of ssh_mode p.1 p.2; Ok (p.1, s)) cn;
  Ok (PyDict.of_pairs l).

Lemma Ok_inj {A} (a b : A) : Ok a = Ok b -> a = b.
Proof using Type. by intros [=]. Qed.

(** The parts of a script. *)
Lemma render_parts x lines : render x = Ok lines -> exists common region wl rcv_buf sv,
  getattr st (lit "common") = Ok common /\ getattr common (lit "tx_rcv_buf_size") = Ok rcv_buf /\
  result_map (wlan_lines x) (x_wlans x) = Ok wl /\ result_map (service_lines (fmt_s rcv_buf)) (x_services x) = Ok sv /\
  lines = script_start ++ custom_lines x ++ [[]; lit "iw reg set " ++ fmt_s region] ++ concat wl ++ concat sv ++ script_end x.
Proof using Type.
  intros (common & Hc & (region & Hr & (wl & Hw & (rcv & Hv & (sv & Hs & H)%bind_ok)%bind_ok)%bind_ok)%bind_ok)%bind_ok.
  apply Ok_inj in H. exists common, region, wl, rcv, sv. auto.
Qed.

Lemma cluster_map_lookup {A B} (f : A -> result B) l ys x : result_map f l = Ok ys -> x ∈ l -> exists y, f x = Ok y /\ y ∈ ys.
Proof using Type.
  revert ys. induction l as [|a l IH]; intros ys H Hx; [by apply not_elem_of_nil in Hx |]. cbn [result_map] in H.
  destruct (f a) as [b|] eqn:Ea; [| done]. cbn [mbind result_bind] in H.
  destruct (result_map f l) as [bs|]; [| done]. cbn [mbind result_bind] in H. apply Ok_inj in H as <-.
  apply elem_of_cons in Hx as [-> | Hx]; [exists b; split; [done | left] |].
  destruct (IH bs eq_refl Hx) as (y & Hy & Hin). exists y. split; [done | by right].
Qed.

Lemma gen_scripts_get cn ssh_mode scripts node m : gen_cluster_scripts cn ssh_mode = Ok scripts -> PyDict.ok cn ->
  PyDict.get cn node = Some m -> exists lines, script_of ssh_mode node m = Ok lines /\ PyDict.get scripts node = Some lines.
Proof using Type.
  intros H Hok Hg. unfold gen_cluster_scripts in H. destruct (result_map _ cn) as [l|] eqn:E; [| done].
  cbn [mbind result_bind] in H. apply Ok_inj in H as <-.
  assert (Hkeys : l.*1 = cn.*1).
  { clear - E. revert l E. induction cn as [|[n x] cn IH]; intros l E; cbn [result_map] in E; [by apply Ok_inj in E as <- |].
    cbn [fst snd] in E. destruct (script_of ssh_mode n x) as [ls|]; [| done]. cbn [mbind result_bind] in E.
    destruct (result_map _ cn) as [r|]; [| done]. cbn [mbind result_bind] in E. apply Ok_inj in E as <-. cbn. by rewrite (IH r). }
  rewrite PyDict.of_pairs_id by (rewrite Hkeys; exact Hok). apply PyDict.get_In in Hg.
  destruct (cluster_map_lookup _ _ _ _ E Hg) as (y & Hy & Hin). cbn [fst snd] in Hy.
  destruct (script_of ssh_mode node m) as [lines|]; [| done]. cbn [mbind result_bind] in Hy. apply Ok_inj in Hy as <-.
  exists lines. split; [done |]. apply PyDict.In_get; [| done]. unfold PyDict.ok, PyDict.keys. rewrite Hkeys. exact Hok.
Qed.

(** The map of nodes is a dictionary. *)
Lemma on_nodes_ok c profile link_id s nodes acc cl peers cl' : on_nodes c profile link_id s nodes acc cl = Ok (peers, cl') ->
  PyDict.ok (cluster_nodes cl) -> PyDict.ok (cluster_nodes cl').
Proof using Type.
  revert acc cl. induction nodes as [|[node attrs] nodes IH]; intros acc cl H Hok; [by apply Ok_inj in H as [= _ <-] |].
  cbn [on_nodes] in H. destruct (wlans_of attrs) as [wl|]; [| done]. cbn [mbind result_bind] in H.
  destruct (next_ports c node (length wl) cl) as [[ports cl1]|] eqn:En; [| done]. cbn [mbind result_bind] in H.
  assert (H1 : cluster_nodes cl1 = cluster_nodes cl).
  { unfold next_ports in En. destruct (length wl); [by apply Ok_inj in En as [= _ <-] |].
    match type of En with context [match ?x with _ => _ end] => destruct x end; cbn [mbind result_bind] in En.
    - by apply Ok_inj in En as [= _ <-].
    - destruct (v ← getattr c (lit "base_port_node"); as_int v) as [b|]; [| done]. by apply Ok_inj in En as [= _ <-]. }
  destruct ports as [|p ps]; [done |]. destruct (update_node _ _ _ _ _ _ _ _ _ _) as [cl2|] eqn:Eu; [| done].
  cbn [mbind result_bind] in H. destruct (update_node_spec _ _ _ _ _ _ _ _ _ _ Eu) as (d & _ & _ & Hc).
  apply (IH _ _ H). rewrite Hc, H1. by apply PyDict.ok_set.
Qed.

Lemma run_jobs_ok c nodes jobs cl peers cl' : run_jobs c nodes jobs cl = Ok (peers, cl') ->
  PyDict.ok (cluster_nodes cl) -> PyDict.ok (cluster_nodes cl').
Proof using Type.
  revert cl peers. induction jobs as [|j jobs IH]; intros cl peers H Hok; [by apply Ok_inj in H as [= _ <-] |].
  cbn [run_jobs] in H. destruct (on_nodes _ _ _ _ _ _ _) as [[ps cl1]|] eqn:E1; [| done]. cbn [mbind result_bind] in H.
  destruct (run_jobs c nodes jobs cl1) as [[rest cl2]|] eqn:E2; [| done]. cbn [mbind result_bind] in H.
  apply Ok_inj in H as [= _ <-]. apply (IH _ _ E2). by apply (on_nodes_ok _ _ _ _ _ _ _ _ _ E1).
Qed.

Lemma cluster_nodes_ok profiles services cn : parse_cluster_services profiles = Ok (services, cn) -> PyDict.ok cn.
Proof using Type.
  unfold parse_cluster_services. intros H. destruct nodes_of as [nodes|]; [| done]. cbn [mbind result_bind] in H.
  destruct cluster_sect as [c|]; [| done]. cbn [mbind result_bind] in H.
  destruct (v ← getattr c (lit "base_port_server"); as_int v) as [b|]; [| done].
  cbn [mbind result_bind] in H. destruct (parse_profiles b profiles) as [l|]; [| done]. cbn [mbind result_bind] in H.
  destruct (on_profiles c _ l _) as [[l' cl]|] eqn:Eo; [| done]. cbn [mbind result_bind] in H. apply Ok_inj in H as [= _ <-].
  destruct (on_profiles_jobs c _ l _ l' cl Eo) as (jobs & peers & _ & _ & Hr & _). apply (run_jobs_ok _ _ _ _ _ _ Hr). constructor.
Qed.

End Cluster.

(** ** A concrete cluster *)

Definition num (z : Z) : cval := CNum (PyNum.NInt z).
Definition str (s : text) : cval := CStr s.
Definition demo_str (v : cval) : text := lit "?".

Definition demo_stream (name : text) (rx tx : cval) : cval :=
  CDict [(str (lit "name"), str name); (str (lit "service_type"), str (lit "tunnel"));
         (str (lit "profiles"), CList [str (lit "base")]); (str (lit "stream_rx"), rx); (str (lit "stream_tx"), tx)].

Definition demo_node (wlans : list text) : cval := CDict [(str (lit "wlans"), CList (map str wlans))].

Definition demo_cluster : settings :=
  [(lit "common", [(lit "wifi_region", str (lit "BO")); (lit "tx_rcv_buf_size", num 2097152); (lit "wifi_channel", num 165);
                   (lit "wifi_txpower", CNone)]);
   (lit "cluster", [(lit "nodes", CDict [(str (lit "192.168.1.9"), demo_node [lit "wlan0"; lit "wlan1"]);
                                         (str (lit "127.0.0.1"), demo_node [lit "wlan2"])]);
                    (lit "server_address", str (lit "192.168.1.1")); (lit "custom_init_script", CNone);
                    (lit "base_port_server", num 10000); (lit "base_port_node", num 11000)]);
   (lit "base", [(lit "bandwidth", num 20); (lit "use_qdisc", CBool true); (lit "fwmark", num 30)]);
   (lit "gs", [(lit "streams", CList [demo_stream (lit "video") (num 0) CNone; demo_stream (lit "tunnel") (num 32) (num 160)]);
               (lit "link_domain", str (lit "default"))])].

Definition demo_services : list (text * list service) :=
  match parse_cluster_services demo_str demo_cluster [lit "gs"] with Ok (ss, _) => ss | Raise _ => [] end.

Definition demo_nodes : PyDict.dict text (PyDict.dict text node_srv) :=
  match parse_cluster_services demo_str demo_cluster [lit "gs"] with Ok (_, cn) => cn | Raise _ => [] end.

Definition demo_sect : sect := default [] (PyDict.get demo_cluster (lit "cluster")).
Definition demo_attrs : list (text * sect) := match nodes_of demo_cluster with Ok l => l | Raise _ => [] end.

Lemma cluster_port_plan_witness :
  (forall k p s, flat demo_services !! k = Some (p, s) ->
     server_side 10000 11000 (merge_sort node_le demo_attrs) k s) /\
  (NoDup (map (fun x => key_of demo_str x.1 x.2) (flat demo_services)) ->
   forall k p s node attrs wl, flat demo_services !! k = Some (p, s) -> (node, attrs) ∈ demo_attrs -> wlans_of attrs = Ok wl ->
   exists d, entry demo_nodes node (key_of demo_str p s) = Some d /\ ns_wlans d = wl /\
     link_id_of demo_cluster p = Ok (ns_link_id d) /\
     ns_tx_port_base d = 11000 + Z.of_nat (k * length wl) /\ (ns_rx_fwd d).2 = CNum (PyNum.NInt (10000 + Z.of_nat k))).
Proof.
  apply (cluster_port_plan demo_str demo_cluster [lit "gs"] demo_services demo_nodes demo_sect demo_attrs 10000 11000).
  - vm_compute. reflexivity.
  - reflexivity.
  - reflexivity.
  - apply (bool_decide_unpack (NoDup demo_attrs.*1)). vm_compute. exact I.
  - reflexivity.
  - reflexivity.
Defined.

End Cluster.
