(* ===== verification/Server.v ===== *)
(** src/wfb_ng/server.py: what happens at start-up.  The cards are set up by
    external commands, the receive-only cards are numbered the way the radio
    programs number antennas, cluster nodes are started over ssh
    ([SSHClientProtocol] of protocols.py), and every service of every profile is
    started.  The outcome of external commands and the C library's [inet_aton]
    are parameters. *)
From Stdlib Require Import ZArith Lia Bool.
From stdpp Require Import base list numbers strings gmap sorting.
From S2P Require Import Prelude PyStruct PyDict PyNum PyText Config Runtime Services Cluster.

Module Server.
Import PyText Config Runtime Services Cluster.

(** What start-up has done so far, in order: commands run, nodes started by
    ssh, ports listened on, services started. *)
Record start := Start {
  sr_profile : text; sr_name : cval; sr_type : text; sr_peers : cval; sr_link_id : Z; sr_rx_only : gset Z
}.

Record srv := Srv {
  cmds : list (list text);
  ssh_started : list (text * list text);
  tcp_ports : list (text * cval);
  loggers : list text;
  starts : list start
}.

Definition init_srv : srv := Srv [] [] [] [] [].

Definition service_types : list text :=
  [lit "udp_direct_rx"; lit "udp_direct_tx"; lit "mavlink"; lit "tunnel"; lit "udp_proxy"].

(** ** [SSHClientProtocol] *)

(** The attributes set by the constructor; the argument [port] is not used. *)
Record ssh_client := SshClient {
  ssh_host : text; ssh_username : text; ssh_cmd : text; ssh_cmd_args : list text;
  ssh_has_stdin : bool; ssh_key : option text; ssh_port : Z; ssh_use_agent : bool
}.

Definition init_ssh (host username cmd : text) (cmd_args : list text) (has_stdin : bool) (key : option text) (port : Z)
    (use_agent : bool) : ssh_client :=
  SshClient host username cmd cmd_args has_stdin key 22 use_agent.

(** The command line of [start]. *)
Definition ssh_args (c : ssh_client) : list text :=
  [lit "ssh"; lit "-o"; lit "StrictHostKeyChecking=no"; lit "-o"; lit "KbdInteractiveAuthentication=no";
   lit "-o"; lit "PasswordAuthentication=no"] ++
  (if ssh_has_stdin c then [] else [lit "-n"]) ++
  (match ssh_key c with Some ((_ :: _) as k) => [lit "-i"; k; lit "-o"; lit "IdentitiesOnly=yes"] | _ => [] end) ++
  [ssh_username c ++ lit "@" ++ ssh_host c; ssh_cmd c] ++ ssh_cmd_args c.

(** The environment of the process: without the agent unless it is used. *)
Definition ssh_env (c : ssh_client) (environ : PyDict.dict text text) : PyDict.dict text text :=
  if ssh_use_agent c then environ else PyDict.del environ (lit "SSH_AUTH_SOCK").

(** The port given is not part of the command line. *)
Theorem ssh_port_ignored host user cmd args stdin key port use_agent :
  ssh_args (init_ssh host user cmd args stdin key port use_agent) = ssh_args (init_ssh host user cmd args stdin key 22 use_agent).
Proof. done. Qed.

(** ** Server *)

Section Server.
Context (py_str : cval -> text) (st : settings).
(** What a command returns after the commands run before it. *)
Context (exec : list (list text) -> list text -> outcome).
(** Whether /usr/bin/nmcli exists; [socket.inet_aton]; ['...' % (profile,)];
    whether a TCP port can be listened on. *)
Context (listen_tcp : cval -> result unit).
Context (nmcli_exists : bool) (inet_aton : text -> result bytes) (fmt1 : text -> text -> result text).

Definition common_attr (k : text) : result cval := s ← getattr st (lit "common"); getattr s k.

(** ** Cards *)

Definition call (cmd : list text) : SE (list (list text)) bytes := fun t => (t ++ [cmd], call_and_check_rc (exec t cmd)).
Definition run_cmd (cmd : list text) : SE (list (list text)) unit := _ ← call cmd; mret tt.

(** [b'(unmanaged)' in device_status]. *)
Fixpoint contains (pat l : bytes) : bool :=
  bool_decide (take (length pat) l = pat) || match l with [] => false | _ :: l' => contains pat l' end.

(** The value for a card: a dictionary has one per card. *)
Definition for_wlan (v : cval) (wlan : text) : result cval :=
  match v with
  | CDict l => d ← result_map (fun p => k ← as_name p.1; Ok (k, p.2)) l; PyDict.item d wlan
  | _ => Ok v
  end.

Definition nm_unmanage (wlan : text) : SE (list (list text)) unit :=
  set_nm ← se_lift (common_attr (lit "set_nm_unmanaged"));
  if truth set_nm && nmcli_exists then
    status ← call [lit "nmcli"; lit "device"; lit "show"; wlan];
    if contains (lit "(unmanaged)") status then mret tt
    else run_cmd [lit "nmcli"; lit "device"; lit "set"; wlan; lit "managed"; lit "no"]
  else mret tt.

Definition init_wlan (ht_mode wlan : text) : SE (list (list text)) unit :=
  _ ← nm_unmanage wlan;
  _ ← run_cmd [lit "ip"; lit "link"; lit "set"; wlan; lit "down"];
  _ ← run_cmd [lit "iw"; lit "dev"; wlan; lit "set"; lit "monitor"; lit "otherbss"];
  _ ← run_cmd [lit "ip"; lit "link"; lit "set"; wlan; lit "up"];
  channel ← se_lift (v ← common_attr (lit "wifi_channel"); for_wlan v wlan);
  n ← se_lift match channel with CNum n => Ok n | _ => Raise TypeError end;
  _ ← run_cmd [lit "iw"; lit "dev"; wlan; lit "set"; if PyNum.lt (PyNum.NInt 2000) n then lit "freq" else lit "channel";
               fmt_s py_str channel; ht_mode];
  txpower ← se_lift (v ← common_attr (lit "wifi_txpower"); for_wlan v wlan);
  if is_none txpower || is_off txpower then mret tt
  else run_cmd [lit "iw"; lit "dev"; wlan; lit "set"; lit "txpower"; lit "fixed"; fmt_s py_str txpower].

Definition init_wlans (max_bw : Z) (wlans : list text) : SE (list (list text)) unit :=
  ht_mode ← se_lift (PyDict.item bandwidth_map max_bw);
  primary ← se_lift (common_attr (lit "primary"));
  if negb (truth primary) then mret tt
  else
    region ← se_lift (common_attr (lit "wifi_region"));
    _ ← run_cmd [lit "iw"; lit "reg"; lit "set"; fmt_s py_str region];
    se_iter (init_wlan ht_mode) wlans.

(** ** Receive-only cards *)

Definition switched_off (txpower : cval) (wlan : text) : result bool := v ← for_wlan txpower wlan; Ok (is_off v).

(** The positions of the cards that are off. *)
Fixpoint off_cards (txpower : cval) (idx : nat) (wlans : list text) : result (list nat) :=
  match wlans with
  | [] => Ok []
  | w :: ws => o ← switched_off txpower w; r ← off_cards txpower (S idx) ws; Ok (if o : bool then idx :: r else r)
  end.

Definition rx_only_local (wlans : list text) : result (gset Z) :=
  txpower ← common_attr (lit "wifi_txpower");
  l ← off_cards txpower 0 wlans;
  Ok (list_to_set (map Z.of_nat l)).

(** [struct.unpack("!L", socket.inet_aton(node))[0]]. *)
Definition ipv4_addr (node : text) : result Z :=
  b ← inet_aton node; vs ← PyStruct.unpack PyStruct.Big [PyStruct.CUint 4] b;
  match vs with [PyStruct.PInt z] => Ok z | _ => Raise StructError end.

Definition node_ids (nodes : list (text * sect)) (node : text) : result (list Z) :=
  ip ← ipv4_addr node;
  attrs ← PyDict.item nodes node;
  common ← getattr st (lit "common");
  txpower ← search_attr (lit "wifi_txpower") [attrs; common];
  wlans ← wlans_of attrs;
  l ← off_cards txpower 0 wlans;
  Ok (map (fun idx => Z.lor (Z.shiftl ip 24) (Z.of_nat idx)) l).

Definition rx_only_cluster (cn : PyDict.dict text (PyDict.dict text node_srv)) : result (gset Z) :=
  nodes ← nodes_of st;
  ls ← result_map (node_ids nodes) (PyDict.keys cn);
  Ok (list_to_set (concat ls)).

(** ** [init] *)

Definition lift_cmds (m : SE (list (list text)) unit) : SE srv unit := fun s =>
  let '(t, r) := m (cmds s) in (Srv t (ssh_started s) (tcp_ports s) (loggers s) (starts s), r).

Definition add_ssh (x : text * list text) : SE srv unit := se_modify (fun s =>
  Srv (cmds s) (ssh_started s ++ [x]) (tcp_ports s) (loggers s) (starts s)).
Definition add_tcp (x : text * cval) : SE srv unit := se_modify (fun s =>
  Srv (cmds s) (ssh_started s) (tcp_ports s ++ [x]) (loggers s) (starts s)).
Definition add_logger (x : text) : SE srv unit := se_modify (fun s =>
  Srv (cmds s) (ssh_started s) (tcp_ports s) (loggers s ++ [x]) (starts s)).
Definition add_start (x : start) : SE srv unit := se_modify (fun s =>
  Srv (cmds s) (ssh_started s) (tcp_ports s) (loggers s) (starts s ++ [x])).

(** A node is started over ssh unless its user or port is unset. *)
Definition start_node (nodes : list (text * sect)) (c : sect) (x : text * list text) : SE srv unit :=
  attrs ← se_lift (PyDict.item nodes x.1);
  user ← se_lift (search_attr (lit "ssh_user") [attrs; c]);
  port ← se_lift (search_attr (lit "ssh_port") [attrs; c]);
  key ← se_lift (search_attr (lit "ssh_key") [attrs; c]);
  if truth user && truth port then
    p ← se_lift (as_int port);
    add_ssh (x.1, ssh_args (init_ssh x.1 (fmt_s py_str user) (lit "/bin/bash") [] true
      (if is_none key then None else Some (fmt_s py_str key)) p (is_none key)))
  else mret tt.

(** A port that is set is listened on. *)
Definition listen (pc : sect) (profile key : text) : SE srv unit :=
  port ← se_lift (getattr pc key);
  if truth port then _ ← se_lift (listen_tcp port); add_tcp (profile, port) else mret tt.

Definition start_service (profile : text) (link_id : Z) (peers : service -> result cval) (rx_only : gset Z) (s : service) : SE srv unit :=
  t ← se_lift (as_name (s_type s));
  if decide (t ∈ service_types) then
    p ← se_lift (peers s);
    add_start (Start profile (s_name s) t p link_id rx_only)
  else se_raise KeyError.

Definition start_profile (peers : service -> result cval) (rx_only : gset Z) (x : text * list service) : SE srv unit :=
  let '(profile, ss) := x in
  pc ← se_lift (getattr st profile);
  log_file ← se_lift (common_attr (lit "binary_log_file"));
  _ ← (if is_none log_file then mret tt
       else
         f ← se_lift (f0 ← as_name log_file; fmt1 f0 profile);
         _ ← se_lift (p ← getattr st (lit "path"); getattr p (lit "log_dir"));
         add_logger f);
  _ ← se_lift (common_attr (lit "version"));
  domain ← se_lift (getattr pc (lit "link_domain"));
  link_id ← se_lift (d ← as_name domain; hash_link_domain d);
  _ ← listen pc profile (lit "stats_port");
  _ ← listen pc profile (lit "api_port");
  se_iter (start_service profile link_id peers rx_only) ss.

Definition parse_local (profiles : list text) : result (list (text * list service)) :=
  result_map (fun p => '(ss, _) ← parse_services st p None; Ok (p, ss)) profiles.

Definition bandwidth_of (s : service) : result Z := v ← getattr (s_cfg s) (lit "bandwidth"); as_int v.

(** Local mode: cards first, then the services on those cards. *)
Definition init_local (profiles wlans : list text) : SE srv unit :=
  services ← se_lift (parse_local profiles);
  if bool_decide (wlans = []) then se_raise (Exception_ "WiFi interface list is empty!")
  else
    bws ← se_lift (result_map bandwidth_of (concat (map snd services)));
    max_bw ← se_lift (py_max bws);
    _ ← lift_cmds (init_wlans max_bw wlans);
    rx_only ← se_lift (rx_only_local wlans);
    _ ← se_lift (common_attr (lit "temp_measurement_interval"));
    se_iter (start_profile (fun _ => Ok (CList (map CStr wlans))) rx_only) services.

(** Cluster mode; [ssh] also starts the nodes. *)
Definition init_cluster (profiles : list text) (ssh : bool) : SE srv unit :=
  '(services, cn) ← se_lift (parse_cluster_services py_str st profiles);
  rx_only ← se_lift (rx_only_cluster cn);
  _ ← (if ssh then
         scripts ← se_lift (gen_cluster_scripts py_str st cn true);
         nodes ← se_lift (nodes_of st);
         c ← se_lift (cluster_sect st);
         se_iter (start_node nodes c) scripts
       else mret tt);
  se_iter (start_profile (fun s => getattr (s_cfg s) (lit "udp_peers_auto")) rx_only) services.

(** [init]: the mode is the argument of --cluster, if given. *)
Definition init (profiles wlans : list text) (cluster_mode : option text) : SE srv unit :=
  match cluster_mode with
  | Some ((_ :: _) as m) => init_cluster profiles (bool_decide (m = lit "ssh"))
  | _ => init_local profiles wlans
  end.

(** The end of [init]: it waits for everything it has started, numbered with the
    ssh connections first.  An ssh connection never ends well ([_ssh_exited]). *)
Definition outcome_of (s : srv) (i : nat) (r : result unit) : result unit :=
  if decide (i < length (ssh_started s))%nat then Raise (Exception_ "Connection closed, aborting") else r.

Fixpoint gather (s : srv) (waiting : gset nat) (events : list (nat * result unit)) : option (result unit) :=
  if decide (waiting = ∅) then Some (Ok tt)
  else match events with
       | [] => None
       | (i, r) :: events' =>
           match outcome_of s i r with
           | Raise e => Some (Raise e)
           | Ok _ => gather s (waiting ∖ {[i]}) events'
           end
       end.

(** The ports closed by [_cleanup] and the result, once there is one. *)
Definition init_end (s : srv) (events : list (nat * result unit)) : option (list (text * cval) * result unit) :=
  r ← gather s (set_seq 0 (length (ssh_started s) + length (starts s))) events; Some (tcp_ports s, r).

(** ** [gen_bind_yaml] *)

Record bind_profile := BindProfile { b_link_domain : text; b_link_id : Z; b_services : PyDict.dict text (cval * sect) }.
Record bind_info := BindInfo { b_wifi_channel : cval; b_max_bw : Z; b_profiles : PyDict.dict text bind_profile }.

Fixpoint bind_services (ss : list service) (max_bw : Z) (tmp : PyDict.dict text (cval * sect))
    : result (Z * PyDict.dict text (cval * sect)) :=
  match ss with
  | [] => Ok (max_bw, tmp)
  | s :: ss' =>
      bw ← bandwidth_of s;
      name ← as_name (s_name s);
      bind_services ss' (Z.max bw max_bw) (PyDict.set tmp name (s_type s, s_cfg s))
  end.

Fixpoint bind_profiles (profiles : list text) (max_bw : Z) (pd : PyDict.dict text bind_profile)
    : result (Z * PyDict.dict text bind_profile) :=
  match profiles with
  | [] => Ok (max_bw, pd)
  | p :: ps =>
      '(ss, _) ← parse_services st p None;
      '(max_bw, tmp) ← bind_services ss max_bw [];
      if bool_decide (length tmp = 0%nat) then bind_profiles ps max_bw pd
      else
        pc ← getattr st p; dom ← getattr pc (lit "link_domain"); d ← as_name dom; link_id ← hash_link_domain d;
        bind_profiles ps max_bw (PyDict.set pd p (BindProfile d link_id tmp))
  end.

Definition gen_bind_yaml (profiles : list text) : result bind_info :=
  '(max_bw, pd) ← bind_profiles profiles 0 [];
  ch ← common_attr (lit "wifi_channel");
  Ok (BindInfo ch max_bw pd).

(** ** Commands stop at the first failure *)

(** The commands of [l], run after [t], all succeeded. *)
Fixpoint all_succeed (t l : list (list text)) : Prop :=
  match l with [] => True | c :: l' => is_ok (call_and_check_rc (exec t c)) = true /\ all_succeed (t ++ [c]) l' end.

Lemma all_succeed_app t a b : all_succeed t (a ++ b) <-> all_succeed t a /\ all_succeed (t ++ a) b.
Proof using Type.
  revert t. induction a as [|c a IH]; intros t; cbn [app all_succeed]; [rewrite app_nil_r; tauto |].
  rewrite IH, <- app_assoc. tauto.
Qed.

(** A computation that runs commands one after the other and raises when one
    fails: all but the last succeeded, and the last as well if it returns. *)
Definition stops_at_failure {A} (m : SE (list (list text)) A) : Prop :=
  forall t t' r, m t = (t', r) -> exists l, t' = t ++ l /\ all_succeed t (removelast l) /\ (is_ok r = true -> all_succeed t l).

Lemma removelast_succeed t l : all_succeed t l -> all_succeed t (removelast l).
Proof using Type.
  revert t. induction l as [|c l IH]; intros t H; [done |]. cbn in H. destruct H as [H1 H2]. cbn [removelast].
  destruct l; [done |]. split; [done | by apply IH].
Qed.

Lemma stops_lift {A} (r : result A) : stops_at_failure (se_lift r).
Proof using Type. intros t t' r' [= <- <-]. exists []. by rewrite app_nil_r. Qed.

Lemma stops_call c : stops_at_failure (call c).
Proof using Type.
  intros t t' r [= <- <-]. exists [c]. split; [done |]. split; [done |]. intros H. by split.
Qed.

Lemma stops_bind {A B} (m : SE (list (list text)) A) (f : A -> SE (list (list text)) B) :
  stops_at_failure m -> (forall a, stops_at_failure (f a)) -> stops_at_failure (m ≫= f).
Proof using Type.
  intros Hm Hf t t' r H. unfold mbind, SE_bind in H. destruct (m t) as [t1 [a|e]] eqn:E.
  - destruct (Hm _ _ _ E) as (l1 & -> & _ & H1). destruct (Hf a _ _ _ H) as (l2 & -> & H2 & H3).
    exists (l1 ++ l2). split; [by rewrite app_assoc |]. specialize (H1 eq_refl). split.
    + destruct l2 as [|c l2]; [rewrite app_nil_r; by apply removelast_succeed |].
      rewrite removelast_app by done. by apply all_succeed_app.
    + intros Hr. apply all_succeed_app. auto.
  - injection H as <- <-. destruct (Hm _ _ _ E) as (l1 & -> & H1 & _). by exists l1.
Qed.

Lemma stops_iter {A} (f : A -> SE (list (list text)) unit) l : (forall a, stops_at_failure (f a)) -> stops_at_failure (se_iter f l).
Proof using Type.
  intros Hf. induction l as [|a l IH]; cbn [se_iter]; [apply (stops_lift (Ok tt)) |]. by apply stops_bind.
Qed.

Lemma stops_run c : stops_at_failure (run_cmd c).
Proof using Type. apply stops_bind; [apply stops_call |]. intros _. apply (stops_lift (Ok tt)). Qed.

Lemma stops_init_wlan ht w : stops_at_failure (init_wlan ht w).
Proof using Type.
  unfold init_wlan, nm_unmanage.
  repeat first [apply stops_run | apply stops_call | apply stops_lift | apply (stops_lift (Ok tt))
    | apply stops_bind; [| intros ?] | match goal with |- stops_at_failure (if ?b then _ else _) => destruct b end].
Qed.

(** *** The commands of a card *)

(** Those for one card and all cards when NetworkManager is left alone. *)
Definition wlan_plan (ht_mode w : text) (channel : cval) (n : PyNum.num) (txpower : cval) : list (list text) :=
  [[lit "ip"; lit "link"; lit "set"; w; lit "down"]; [lit "iw"; lit "dev"; w; lit "set"; lit "monitor"; lit "otherbss"];
   [lit "ip"; lit "link"; lit "set"; w; lit "up"];
   [lit "iw"; lit "dev"; w; lit "set"; if PyNum.lt (PyNum.NInt 2000) n then lit "freq" else lit "channel";
    fmt_s py_str channel; ht_mode]] ++
  (if is_none txpower || is_off txpower then []
   else [[lit "iw"; lit "dev"; w; lit "set"; lit "txpower"; lit "fixed"; fmt_s py_str txpower]]).

(** The settings of a card. *)
Definition card_settings (w : text) (channel : cval) (n : PyNum.num) (txpower : cval) : Prop :=
  (v ← common_attr (lit "wifi_channel"); for_wlan v w) = Ok channel /\ channel = CNum n /\
  (v ← common_attr (lit "wifi_txpower"); for_wlan v w) = Ok txpower.

Lemma run_cmd_ok c t : is_ok (call_and_check_rc (exec t c)) = true -> run_cmd c t = (t ++ [c], Ok tt).
Proof using Type.
  intros H. unfold run_cmd, call, mbind, SE_bind. by destruct (call_and_check_rc (exec t c)).
Qed.

Lemma run_bind_ok {A} c t (f : unit -> SE (list (list text)) A) : is_ok (call_and_check_rc (exec t c)) = true ->
  (run_cmd c ≫= f) t = f tt (t ++ [c]).
Proof using Type. intros H. unfold mbind, SE_bind. by rewrite run_cmd_ok. Qed.

Lemma init_wlan_plan ht_mode w channel n txpower t : nmcli_exists = false -> is_ok (common_attr (lit "set_nm_unmanaged")) = true ->
  card_settings w channel n txpower -> all_succeed t (wlan_plan ht_mode w channel n txpower) ->
  init_wlan ht_mode w t = (t ++ wlan_plan ht_mode w channel n txpower, Ok tt).
Proof using Type.
  intros Hnm Hset (Hc & -> & Hp) Hs. unfold init_wlan. unfold mbind at 1. unfold SE_bind at 1.
  assert (Hn : nm_unmanage w t = (t, Ok tt)).
  { unfold nm_unmanage, mbind, SE_bind, se_lift. rewrite Hnm. destruct (common_attr _); [| done]. by rewrite andb_false_r. }
  rewrite Hn. unfold wlan_plan in Hs. cbn [app all_succeed] in Hs. destruct Hs as (S1 & S2 & S3 & S4 & S5).
  rewrite !run_bind_ok by done. unfold mbind at 1, SE_bind at 1, se_lift at 1. rewrite Hc.
  unfold mbind at 1, SE_bind at 1, se_lift at 1. rewrite run_bind_ok by done.
  unfold mbind at 1, SE_bind at 1, se_lift at 1. rewrite Hp. unfold wlan_plan. rewrite <- !app_assoc. cbn [app] in *.
  rewrite <- ?app_assoc in *. cbn [app] in *.
  destruct (is_none txpower || is_off txpower); [done |]. cbn [all_succeed] in S5. destruct S5 as [S5 _].
  rewrite run_cmd_ok; [| rewrite <- ?app_assoc in S5; exact S5]. by rewrite <- ?app_assoc.
Qed.

Lemma init_wlans_iter ht_mode cards t : nmcli_exists = false -> is_ok (common_attr (lit "set_nm_unmanaged")) = true ->
  Forall (fun x => card_settings x.1.1 x.1.2 x.2.1 x.2.2) cards ->
  all_succeed t (concat (map (fun x => wlan_plan ht_mode x.1.1 x.1.2 x.2.1 x.2.2) cards)) ->
  se_iter (init_wlan ht_mode) (map (fun x => x.1.1) cards) t =
  (t ++ concat (map (fun x => wlan_plan ht_mode x.1.1 x.1.2 x.2.1 x.2.2) cards), Ok tt).
Proof using Type.
  intros Hnm Hset Hc. revert t. induction Hc as [|[[w ch] [n pw]] cards Hw _ IH]; intros t Hs; cbn [map concat se_iter fst snd] in *.
  - by rewrite app_nil_r.
  - apply all_succeed_app in Hs as [H1 H2]. unfold mbind, SE_bind.
    rewrite (init_wlan_plan ht_mode w ch n pw t Hnm Hset Hw H1), IH by done. by rewrite app_assoc.
Qed.

(** Setting up the cards: whatever the settings and the outcome of the
    commands, nothing is run after the first command that fails, and a start-up
    that goes on has only successful commands behind it; and when every command
    succeeds and NetworkManager is not installed, the commands are exactly the
    region, then for each card in turn down, monitor mode, up, its channel or
    frequency with the widest bandwidth of any service, and its transmit power
    unless it is unset or off. *)
Theorem init_wlans_commands max_bw wlans :
  (forall t' r, init_wlans max_bw wlans [] = (t', r) -> all_succeed [] (removelast t') /\ (is_ok r = true -> all_succeed [] t')) /\
  (forall ht_mode region primary cards, PyDict.item bandwidth_map max_bw = Ok ht_mode ->
    common_attr (lit "primary") = Ok primary -> truth primary = true -> common_attr (lit "wifi_region") = Ok region ->
    nmcli_exists = false -> is_ok (common_attr (lit "set_nm_unmanaged")) = true ->
    wlans = map (fun x => x.1.1) cards -> Forall (fun x => card_settings x.1.1 x.1.2 x.2.1 x.2.2) cards ->
    let plan := [lit "iw"; lit "reg"; lit "set"; fmt_s py_str region] ::
                concat (map (fun x => wlan_plan ht_mode x.1.1 x.1.2 x.2.1 x.2.2) cards) in
    all_succeed [] plan -> init_wlans max_bw wlans [] = (plan, Ok tt)).
Proof using Type.
  split.
  - intros t' r H. assert (Hst : stops_at_failure (init_wlans max_bw wlans)).
    { unfold init_wlans. apply stops_bind; [apply stops_lift | intros ht]. apply stops_bind; [apply stops_lift | intros pr].
      destruct (negb (truth pr)); [apply (stops_lift (Ok tt)) |]. apply stops_bind; [apply stops_lift | intros rg].
      apply stops_bind; [apply stops_run | intros _]. apply stops_iter, stops_init_wlan. }
    destruct (Hst _ _ _ H) as (l & -> & H1 & H2). by split.
  - intros ht region primary cards Hht Hpr Htr Hreg Hnm Hset -> Hc plan Hs.
    unfold init_wlans, mbind at 1, SE_bind at 1, se_lift at 1. rewrite Hht.
    unfold mbind at 1, SE_bind at 1, se_lift at 1. rewrite Hpr. rewrite Htr. cbn [negb].
    unfold mbind at 1, SE_bind at 1, se_lift at 1. rewrite Hreg. cbn [all_succeed plan] in Hs. destruct Hs as [H1 H2].
    rewrite run_bind_ok by done. cbn [app] in *. by apply (init_wlans_iter ht cards [_]).
Qed.

End Server.

(** ** Numbers of receive-only cards *)

(** The antenna id of the radio programs: address, card and antenna. *)
Definition antenna_id (ip idx ant : Z) : Z := Z.lor (Z.lor (Z.shiftl ip 32) (Z.shiftl idx 8)) ant.

Lemma antenna_card ip idx ant : 0 <= ant < 2 ^ 8 -> Z.shiftr (antenna_id ip idx ant) 8 = Z.lor (Z.shiftl ip 24) idx.
Proof.
  intros Ha. unfold antenna_id. rewrite !Z.shiftr_lor, !Z.shiftr_shiftl_l by lia.
  change (32 - 8) with 24. change (8 - 8) with 0. rewrite Z.shiftl_0_r.
  rewrite (Z.shiftr_div_pow2 ant) by lia. rewrite Z.div_small by lia. apply Z.lor_0_r.
Qed.

(** The address and the card can be told apart. *)
Lemma land_card ip idx : 0 <= idx < 2 ^ 24 -> Z.land (Z.shiftl ip 24) idx = 0.
Proof.
  intros Hi. apply Z.bits_inj'. intros n Hn. rewrite Z.land_spec, Z.bits_0, Z.shiftl_spec by done.
  destruct (decide (n < 24)); [by rewrite (Z.testbit_neg_r ip) by lia |].
  rewrite <- (Z.mod_small idx (2 ^ 24)) by done. rewrite Z.mod_pow2_bits_high by lia. apply andb_false_r.
Qed.

Lemma lor_card ip idx : 0 <= idx < 2 ^ 24 -> Z.lor (Z.shiftl ip 24) idx = ip * 2 ^ 24 + idx.
Proof.
  intros Hi. rewrite <- Z.shiftl_mul_pow2 by lia. symmetry. by apply Z.add_nocarry_lor, land_card.
Qed.

Lemma lor_card_inj ip1 ip2 i1 i2 : 0 <= i1 < 2 ^ 24 -> 0 <= i2 < 2 ^ 24 ->
  Z.lor (Z.shiftl ip1 24) i1 = Z.lor (Z.shiftl ip2 24) i2 -> ip1 = ip2 /\ i1 = i2.
Proof. intros H1 H2. rewrite !lor_card by done. lia. Qed.

(** Which cards are listed: exactly those that are off. *)
Lemma off_cards_elem txpower wlans i l k : off_cards txpower k wlans = Ok l ->
  i ∈ l <-> exists w, (k <= i)%nat /\ wlans !! (i - k)%nat = Some w /\ switched_off txpower w = Ok true.
Proof.
  revert k l. induction wlans as [|w ws IH]; intros k l; cbn [off_cards].
  - intros [= <-]. split; [by intros ?%elem_of_nil |]. by intros (w & _ & H & _).
  - destruct (switched_off txpower w) as [o|] eqn:Eo; [| done]. cbn.
    destruct (off_cards txpower (S k) ws) as [r|] eqn:Er; [| done]. cbn. intros [= <-].
    transitivity ((i = k /\ o = true) \/ i ∈ r); [destruct o; rewrite ?elem_of_cons; intuition done |]. rewrite (IH _ _ Er). split.
    + intros [[-> ->] | (w' & Hi & Hw & Hs)].
      * exists w. by rewrite Nat.sub_diag.
      * exists w'. split; [lia |]. by replace (i - k)%nat with (S (i - S k)) by lia.
    + intros (w' & Hi & Hw & Hs). destruct (decide (i = k)) as [-> | Hne].
      * left. rewrite Nat.sub_diag in Hw. cbn in Hw. split; congruence.
      * right. exists w'. split; [lia |]. by replace (i - k)%nat with (S (i - S k)) in Hw by lia.
Qed.

Lemma Forall2_elem_l {A B} (R : A -> B -> Prop) l k x : Forall2 R l k -> x ∈ l -> exists y, y ∈ k /\ R x y.
Proof.
  intros H (i & Hi)%list_elem_of_lookup. destruct (Forall2_lookup_l _ _ _ _ _ H Hi) as (y & Hy & HR).
  exists y. split; [by apply list_elem_of_lookup_2 in Hy | done].
Qed.

Lemma Forall2_elem_r {A B} (R : A -> B -> Prop) l k y : Forall2 R l k -> y ∈ k -> exists x, x ∈ l /\ R x y.
Proof.
  intros H (i & Hi)%list_elem_of_lookup. destruct (Forall2_lookup_r _ _ _ _ _ H Hi) as (x & Hx & HR).
  exists x. split; [by apply list_elem_of_lookup_2 in Hx | done].
Qed.

Section Numbers.
Context (st : settings) (inet_aton : text -> result bytes).

(** Card [idx] of a node is off according to the node's power setting, or the
    common one when the node has none. *)
Definition node_card_off (nodes : list (text * sect)) (node : text) (idx : nat) : Prop :=
  exists attrs common txpower wlans w, PyDict.item nodes node = Ok attrs /\ getattr st (lit "common") = Ok common /\
    search_attr (lit "wifi_txpower") [attrs; common] = Ok txpower /\ wlans_of attrs = Ok wlans /\
    wlans !! idx = Some w /\ switched_off txpower w = Ok true.

Lemma node_ids_elem nodes node l z : node_ids st inet_aton nodes node = Ok l ->
  z ∈ l <-> exists ip idx, ipv4_addr inet_aton node = Ok ip /\ node_card_off nodes node idx /\
    z = Z.lor (Z.shiftl ip 24) (Z.of_nat idx).
Proof.
  unfold node_ids. intros (ip & Eip & (attrs & Ea & (common & Ec & (tx & Et & (wl & Ew & (lo & El & H)%bind_ok)%bind_ok)%bind_ok)%bind_ok)%bind_ok)%bind_ok.
  injection H as <-. rewrite list_elem_of_fmap. split.
  - intros (idx & -> & Hi). apply (off_cards_elem _ _ _ _ _ El) in Hi as (w & _ & Hw & Ho). rewrite Nat.sub_0_r in Hw.
    exists ip, idx. split; [done |]. split; [| done]. by exists attrs, common, tx, wl, w.
  - intros (ip' & idx & Eip' & (attrs' & common' & tx' & wl' & w & Ha' & Hc' & Ht' & Hw' & Hl & Ho) & ->).
    assert (ip' = ip) as -> by congruence. exists idx. split; [done |]. apply (off_cards_elem _ _ _ _ _ El).
    exists w. rewrite Nat.sub_0_r. split; [lia |]. split; congruence.
Qed.

(** C35: receive-only cards of a cluster are recognised by the numbers the radio
    programs report: when the set is computed, shifting away the antenna of the
    64-bit antenna id of card [idx] of the node with address [ip] gives a member of
    the set exactly when some node of the cluster has that address and its card
    [idx] is switched off; no card is confused with another. *)
Theorem rx_only_ids cn ids ip idx ant : rx_only_cluster st inet_aton cn = Ok ids ->
  0 <= ant < 2 ^ 8 -> Z.of_nat idx < 2 ^ 24 ->
  (forall nodes node attrs wlans, nodes_of st = Ok nodes -> PyDict.item nodes node = Ok attrs -> wlans_of attrs = Ok wlans ->
    Z.of_nat (length wlans) <= 2 ^ 24) ->
  Z.shiftr (antenna_id ip (Z.of_nat idx) ant) 8 ∈ ids <->
  exists nodes node, nodes_of st = Ok nodes /\ node ∈ PyDict.keys cn /\ ipv4_addr inet_aton node = Ok ip /\ node_card_off nodes node idx.
Proof.
  intros H Hant Hidx Hlen. rewrite antenna_card by done. unfold rx_only_cluster in H.
  apply bind_ok in H as (nodes & En & H). apply bind_ok in H as (ls & El & [= <-]).
  rewrite elem_of_list_to_set, list_elem_of_In, in_concat. apply result_map_ok in El. split.
  - intros (l & Hl & Hz). apply list_elem_of_In in Hl, Hz. apply (Forall2_elem_r _ _ _ _ El) in Hl as (node & Hn & Hids).
    apply (node_ids_elem _ _ _ _ Hids) in Hz as (ip' & idx' & Hip & Hoff & Heq). exists nodes, node.
    assert (Z.of_nat idx' < 2 ^ 24).
    { destruct Hoff as (attrs & c & tx & wl & w & Ha & _ & _ & Hw & Hi & _). apply lookup_lt_Some in Hi.
      specialize (Hlen _ _ _ _ En Ha Hw). lia. }
    apply lor_card_inj in Heq as [-> Heq]; [| lia ..]. apply Nat2Z.inj in Heq as ->. done.
  - intros (nodes' & node & En' & Hn & Hip & Hoff). assert (nodes' = nodes) as -> by congruence.
    apply (Forall2_elem_l _ _ _ _ El) in Hn as (l & Hl & Hids). exists l. split; [by apply list_elem_of_In |].
    apply list_elem_of_In, (node_ids_elem _ _ _ _ Hids). by exists ip, idx.
Qed.

End Numbers.

(** ** Every service is started *)

Section Starts.
Context (py_str : cval -> text) (st : settings) (exec : list (list text) -> list text -> outcome).
Context (listen_tcp : cval -> result unit) (nmcli_exists : bool) (inet_aton : text -> result bytes).
Context (fmt1 : text -> text -> result text) (peers : service -> result cval) (rx_only : gset Z).

(** What the start of a service of a profile is given. *)
Definition started (ps : text * service) (x : start) : Prop :=
  sr_profile x = ps.1 /\ sr_name x = s_name ps.2 /\ as_name (s_type ps.2) = Ok (sr_type x) /\ sr_type x ∈ service_types /\
  peers ps.2 = Ok (sr_peers x) /\ sr_rx_only x = rx_only /\
  exists pc dom d, getattr st ps.1 = Ok pc /\ getattr pc (lit "link_domain") = Ok dom /\ as_name dom = Ok d /\
    hash_link_domain d = Ok (sr_link_id x).

(** [m] starts services in the order of [plan], all of them if it returns. *)
Definition follows (plan : list (text * service)) (m : SE srv unit) : Prop := forall s s' r, m s = (s', r) ->
  exists done_ rest new, plan = done_ ++ rest /\ starts s' = starts s ++ new /\ Forall2 started done_ new /\ (is_ok r = true -> rest = []).

(** [m] starts nothing. *)
Definition quiet {A} (m : SE srv A) : Prop := forall s s' r, m s = (s', r) -> starts s' = starts s.

Lemma quiet_lift {A} (r : result A) : quiet (se_lift r).
Proof using Type. by intros s s' r' [= <- <-]. Qed.

Lemma quiet_bind {A B} (m : SE srv A) (f : A -> SE srv B) : quiet m -> (forall a, quiet (f a)) -> quiet (m ≫= f).
Proof using Type.
  intros Hm Hf s s' r H. unfold mbind, SE_bind in H. destruct (m s) as [s1 [a|e]] eqn:E.
  - rewrite (Hf a _ _ _ H). by apply (Hm _ _ _ E).
  - injection H as <- <-. by apply (Hm _ _ _ E).
Qed.

Lemma follows_quiet plan {A} (m : SE srv A) (f : A -> SE srv unit) : quiet m -> (forall a s s1, m s = (s1, Ok a) -> follows plan (f a)) ->
  follows plan (m ≫= f).
Proof using Type.
  intros Hm Hf s s' r H. unfold mbind, SE_bind in H. destruct (m s) as [s1 [a|e]] eqn:E.
  - destruct (Hf a _ _ E _ _ _ H) as (d & rest & new & -> & Hs & Hd & Hr). rewrite (Hm _ _ _ E) in Hs. by exists d, rest, new.
  - injection H as <- <-. exists [], plan, []. rewrite (Hm _ _ _ E), app_nil_r. by repeat split.
Qed.

Lemma follows_bind p q (m : SE srv unit) (f : unit -> SE srv unit) : follows p m -> (forall a, follows q (f a)) -> follows (p ++ q) (m ≫= f).
Proof using Type.
  intros Hm Hf s s' r H. unfold mbind, SE_bind in H. destruct (m s) as [s1 [a|e]] eqn:E.
  - destruct (Hm _ _ _ E) as (d1 & rest1 & n1 & -> & H1 & Hd1 & Hr1). rewrite (Hr1 eq_refl), app_nil_r in *.
    destruct (Hf a _ _ _ H) as (d2 & rest2 & n2 & -> & H2 & Hd2 & Hr2). exists (d1 ++ d2), rest2, (n1 ++ n2).
    rewrite H2, H1, !app_assoc. split; [done |]. split; [done |]. split; [by apply Forall2_app | done].
  - injection H as <- <-. destruct (Hm _ _ _ E) as (d1 & rest1 & n1 & -> & H1 & Hd1 & _).
    exists d1, (rest1 ++ q), n1. rewrite app_assoc. by repeat split.
Qed.

Lemma follows_nil : follows [] (mret tt).
Proof using Type. intros s s' r [= <- <-]. exists [], [], []. rewrite !app_nil_r. by repeat split. Qed.

Lemma follows_iter {A} (f : A -> SE srv unit) (plan : A -> list (text * service)) l : (forall a, follows (plan a) (f a)) ->
  follows (concat (map plan l)) (se_iter f l).
Proof using Type.
  intros Hf. induction l as [|a l IH]; cbn [map concat se_iter]; [apply follows_nil |]. by apply follows_bind.
Qed.

Lemma quiet_modify (f : srv -> srv) : (forall s, starts (f s) = starts s) -> quiet (se_modify f).
Proof using Type. by intros Hf s s' r [= <- <-]. Qed.

Lemma quiet_listen pc profile key : quiet (listen listen_tcp pc profile key).
Proof using Type.
  apply quiet_bind; [apply quiet_lift | intros port]. destruct (truth port); [| apply (quiet_lift (Ok tt))].
  apply quiet_bind; [apply quiet_lift | intros _]. by apply quiet_modify.
Qed.

Lemma follows_start_service profile link_id s :
  (exists pc dom d, getattr st profile = Ok pc /\ getattr pc (lit "link_domain") = Ok dom /\ as_name dom = Ok d /\ hash_link_domain d = Ok link_id) ->
  follows [(profile, s)] (start_service profile link_id peers rx_only s).
Proof using Type.
  intros Hl. unfold start_service. apply follows_quiet; [apply quiet_lift |]. intros t s0 s1 [= <- Et].
  destruct (decide (t ∈ service_types)) as [Hin|].
  - apply follows_quiet; [apply quiet_lift |]. intros p s2 s3 [= <- Ep] s4 s5 r [= <- <-].
    eexists [(profile, s)], [], [_]. split; [done |]. split; [done |]. split; [| done]. constructor; [| constructor].
    by repeat split.
  - intros s2 s3 r [= <- <-]. exists [], [(profile, s)], []. rewrite app_nil_r. by repeat constructor.
Qed.

Lemma follows_start_profile x :
  follows (map (pair x.1) x.2) (start_profile st listen_tcp fmt1 peers rx_only x).
Proof using Type.
  destruct x as [profile ss]. unfold start_profile. cbn [fst snd].
  apply follows_quiet; [apply quiet_lift |]. intros pc ? ? [= _ Epc].
  apply follows_quiet; [apply quiet_lift |]. intros log_file _ _ _.
  apply follows_quiet.
  { destruct (is_none log_file); [apply (quiet_lift (Ok tt)) |]. apply quiet_bind; [apply quiet_lift | intros f].
    apply quiet_bind; [apply quiet_lift | intros _]. by apply quiet_modify. }
  intros _ _ _ _. apply follows_quiet; [apply quiet_lift |]. intros _ _ _ _.
  apply follows_quiet; [apply quiet_lift |]. intros domain ? ? [= _ Ed].
  apply follows_quiet; [apply quiet_lift |]. intros link_id ? ? [= _ (d & Hd & Hh)%bind_ok].
  do 2 (apply follows_quiet; [apply quiet_listen |]; intros _ _ _ _).
  replace (map (pair profile) ss) with (concat (map (fun s => [(profile, s)]) ss)).
  2: { clear. induction ss as [|y ss IH]; [done |]. cbn. by rewrite IH. }
  apply follows_iter. intros y. apply follows_start_service. by exists pc, domain, d.
Qed.

End Starts.

Section Init.
Context (py_str : cval -> text) (st : settings) (exec : list (list text) -> list text -> outcome).
Context (listen_tcp : cval -> result unit) (nmcli_exists : bool) (inet_aton : text -> result bytes).
Context (fmt1 : text -> text -> result text).

#[local] Abbreviation init := (init py_str st exec listen_tcp nmcli_exists inet_aton fmt1).
#[local] Abbreviation follows := (follows st).
#[local] Abbreviation started := (started st).

(** What a mode starts: the services, the peers of one, the receive-only cards. *)
Definition mode_plan (profiles wlans : list text) (mode : option text) (services : list (text * list service))
    (peers : service -> result cval) (rx_only : gset Z) : Prop :=
  match mode with
  | Some (_ :: _) => (exists cn, parse_cluster_services py_str st profiles = Ok (services, cn) /\ rx_only_cluster st inet_aton cn = Ok rx_only) /\
                     (forall s, peers s = getattr (s_cfg s) (lit "udp_peers_auto"))
  | _ => parse_local st profiles = Ok services /\ rx_only_local st wlans = Ok rx_only /\ (forall s, peers s = Ok (CList (map CStr wlans)))
  end.

Lemma quiet_iter {A} (f : A -> SE srv unit) l : (forall a, quiet (f a)) -> quiet (se_iter f l).
Proof using Type.
  intros Hf. induction l as [|a l IH]; cbn [se_iter]; [apply (quiet_lift (Ok tt)) |]. by apply quiet_bind.
Qed.

Lemma quiet_start_node nodes c x : quiet (start_node py_str nodes c x).
Proof using Type.
  unfold start_node. do 4 (apply quiet_bind; [apply quiet_lift | intros ?]).
  destruct (truth _ && truth _); [| apply (quiet_lift (Ok tt))].
  apply quiet_bind; [apply quiet_lift | intros ?]. by apply quiet_modify.
Qed.

Lemma quiet_cmds m : quiet (lift_cmds m).
Proof using Type. intros s s' r. unfold lift_cmds. destruct (m (cmds s)) as [t r0]. by intros [= <- <-]. Qed.

(** Either nothing is started, or the plan is followed. *)
Definition follows_plan (m : SE srv unit) (ok : list (text * list service) -> (service -> result cval) -> gset Z -> Prop) : Prop :=
  forall s s' r, m s = (s', r) -> (starts s' = starts s /\ is_ok r = false) \/
    exists services peers rx_only done_ rest new, ok services peers rx_only /\
      concat (map (fun x => map (pair x.1) x.2) services) = done_ ++ rest /\ starts s' = starts s ++ new /\
      Forall2 (started peers rx_only) done_ new /\ (is_ok r = true -> rest = []).

Lemma plan_quiet {A} (m : SE srv A) f ok : quiet m -> (forall a s s1, m s = (s1, Ok a) -> follows_plan (f a) ok) -> follows_plan (m ≫= f) ok.
Proof using Type.
  intros Hm Hf s s' r H. unfold mbind, SE_bind in H. destruct (m s) as [s1 [a|e]] eqn:E.
  - specialize (Hf a _ _ E _ _ _ H). by rewrite (Hm _ _ _ E) in Hf.
  - injection H as <- <-. left. by rewrite (Hm _ _ _ E).
Qed.

Lemma plan_start services peers rx_only (ok : _ -> _ -> _ -> Prop) : ok services peers rx_only ->
  follows_plan (se_iter (start_profile st listen_tcp fmt1 peers rx_only) services) ok.
Proof using Type.
  intros Hok s s' r H. right.
  destruct (follows_iter st peers rx_only _ (fun x => map (pair x.1) x.2) services
    (follows_start_profile st listen_tcp fmt1 peers rx_only) _ _ _ H) as (d & rest & new & Hp & Hs & Hd & Hr).
  by exists services, peers, rx_only, d, rest, new.
Qed.

Lemma plan_init profiles wlans mode : follows_plan (init profiles wlans mode) (mode_plan profiles wlans mode).
Proof using Type.
  unfold init. assert (Hloc : follows_plan (init_local py_str st exec listen_tcp nmcli_exists fmt1 profiles wlans) (mode_plan profiles wlans None)).
  { unfold init_local. apply plan_quiet; [apply quiet_lift |]. intros services ? ? [= _ Es].
    destruct (bool_decide (wlans = [])). { intros s0 s' r [= <- <-]. by left. }
    apply plan_quiet; [apply quiet_lift |]. intros bws _ _ _. apply plan_quiet; [apply quiet_lift |]. intros bw _ _ _.
    apply plan_quiet; [apply quiet_cmds |]. intros _ _ _ _. apply plan_quiet; [apply quiet_lift |]. intros rx ? ? [= _ Erx].
    apply plan_quiet; [apply quiet_lift |]. intros _ _ _ _. by apply plan_start. }
  destruct mode as [[|c m]|]; [exact Hloc | | exact Hloc]. unfold init_cluster.
  apply plan_quiet; [apply quiet_lift |]. intros [services cn] ? ? [= _ Es].
  apply plan_quiet; [apply quiet_lift |]. intros rx ? ? [= _ Erx].
  apply plan_quiet; [| intros _ _ _ _; apply plan_start; split; [by exists cn | done]].
  destruct (bool_decide (c :: m = lit "ssh")); [| apply (quiet_lift (Ok tt))].
  do 3 (apply quiet_bind; [apply quiet_lift | intros ?]). apply quiet_iter. intros x. apply quiet_start_node.
Qed.

(** C18: start-up starts every service of every profile: the services started are,
    in order, those of the parsed profiles, each once, with a known type, the link
    id of its profile's domain, the peers of the mode (the local cards, or the
    peers the cluster plan gave it) and the receive-only cards; when start-up is
    cut short by an error, what was started is the beginning of that list, and
    when it is not, all of it. *)
Theorem init_starts_all profiles wlans mode s' r : init profiles wlans mode init_srv = (s', r) ->
  (starts s' = [] /\ is_ok r = false) \/
  exists services peers rx_only done_ rest, mode_plan profiles wlans mode services peers rx_only /\
    concat (map (fun x => map (pair x.1) x.2) services) = done_ ++ rest /\
    Forall2 (started peers rx_only) done_ (starts s') /\ (is_ok r = true -> rest = []).
Proof using Type.
  intros H. destruct (plan_init profiles wlans mode _ _ _ H) as [? | (ss & p & rx & d & rest & new & Hok & Hp & Hs & Hd & Hr)].
  - by left.
  - right. exists ss, p, rx, d, rest. cbn in Hs. by rewrite Hs.
Qed.

(** The server ends well only when nothing was started over ssh and everything
    it started has ended well. *)
Lemma gather_ok s w events : gather s w events = Some (Ok tt) ->
  forall i, i ∈ w -> (length (ssh_started s) <= i)%nat /\ (i, Ok tt) ∈ events.
Proof using Type.
  revert w. induction events as [|[j r] events IH]; intros w H i Hi; cbn [gather] in H; destruct (decide (w = ∅)) as [-> | Hw];
    try done; try (by apply elem_of_empty in Hi).
  unfold outcome_of in H. destruct (decide (j < length (ssh_started s))%nat); [done |]. destruct r as [[]|]; [| done].
  destruct (decide (i = j)) as [-> | Hne]; [split; [lia | apply elem_of_cons; by left] |].
  destruct (IH _ H i) as [H1 H2]; [apply elem_of_difference; rewrite elem_of_singleton; done |].
  split; [done | apply elem_of_cons; by right].
Qed.

Theorem ends_well s events ports : init_end s events = Some (ports, Ok tt) ->
  ports = tcp_ports s /\ ssh_started s = [] /\ forall i, (i < length (starts s))%nat -> (i, Ok tt) ∈ events.
Proof using Type.
  unfold init_end. intros H. destruct (gather _ _ _) as [r|] eqn:E; [| done]. injection H as <- ->.
  pose proof (gather_ok _ _ _ E) as Hg. split; [done |].
  assert (Hssh : ssh_started s = []).
  { destruct (ssh_started s) as [|x l] eqn:Es; [done |]. destruct (Hg 0%nat) as [H _]; [apply elem_of_set_seq; cbn; lia |].
    cbn in H. lia. }
  split; [done |]. intros i Hi. apply Hg, elem_of_set_seq. rewrite Hssh. cbn. lia.
Qed.

End Init.

(** ** A concrete start-up *)

Definition demo_aton (node : text) : result bytes :=
  if decide (node = lit "192.168.1.9") then Ok [192; 168; 1; 9]
  else if decide (node = lit "127.0.0.1") then Ok [127; 0; 0; 1] else Raise (Exception_ "illegal IP address string").

Definition demo_exec (t : list (list text)) (c : list text) : outcome := Exited 0 [] [].
Definition demo_fmt (f p : text) : result text := Ok f.
Definition demo_listen (v : cval) : result unit := Ok tt.

(** The cluster of Cluster.v with the keys start-up reads; its second card of
    the first node is off. *)
Definition demo_server : settings :=
  let c := default [] (PyDict.get demo_cluster (lit "common")) in
  let g := default [] (PyDict.get demo_cluster (lit "gs")) in
  let n := [(str (lit "192.168.1.9"), CDict [(str (lit "wlans"), CList [str (lit "wlan0"); str (lit "wlan1")]);
                                             (str (lit "wifi_txpower"), CDict [(str (lit "wlan0"), num 20); (str (lit "wlan1"), str (lit "off"))])]);
            (str (lit "127.0.0.1"), demo_node [lit "wlan2"])] in
  let cl := default [] (PyDict.get demo_cluster (lit "cluster")) in
  PyDict.set (PyDict.set (PyDict.set demo_cluster
    (lit "common") (c ++ [(lit "binary_log_file", CNone); (lit "version", str (lit "1")); (lit "primary", CBool true);
                                    (lit "set_nm_unmanaged", CBool false); (lit "temp_measurement_interval", num 10)]))
    (lit "cluster") (PyDict.set cl (lit "nodes") (CDict n)))
    (lit "gs") (g ++ [(lit "stats_port", num 8003); (lit "api_port", num 8103)]).

Definition demo_server_nodes : PyDict.dict text (PyDict.dict text node_srv) :=
  match parse_cluster_services demo_str demo_server [lit "gs"] with Ok (_, cn) => cn | Raise _ => [] end.

Lemma init_wlans_commands_witness :
  init_wlans demo_str demo_server demo_exec false 20 [lit "wlan0"] [] =
    ([[lit "iw"; lit "reg"; lit "set"; lit "BO"]; [lit "ip"; lit "link"; lit "set"; lit "wlan0"; lit "down"];
      [lit "iw"; lit "dev"; lit "wlan0"; lit "set"; lit "monitor"; lit "otherbss"];
      [lit "ip"; lit "link"; lit "set"; lit "wlan0"; lit "up"];
      [lit "iw"; lit "dev"; lit "wlan0"; lit "set"; lit "channel"; fmt_s demo_str (num 165); lit "HT20"]], Ok tt).
Proof.
  apply (proj2 (init_wlans_commands demo_str demo_server demo_exec false 20 [lit "wlan0"]) (lit "HT20") (str (lit "BO")) (CBool true)
    [((lit "wlan0", num 165), (PyNum.NInt 165, CNone))]); try reflexivity.
  - constructor; [| constructor]. by repeat split.
  - vm_compute. by repeat split.
Defined.

Lemma rx_only_ids_witness :
  Z.shiftr (antenna_id 3232235785 1 0) 8 ∈
    match rx_only_cluster demo_server demo_aton demo_server_nodes with Ok ids => ids | Raise _ => ∅ end.
Proof.
  assert (H : exists ids, rx_only_cluster demo_server demo_aton demo_server_nodes = Ok ids) by (eexists; vm_compute; reflexivity).
  destruct H as [ids H]. rewrite H.
  apply (rx_only_ids demo_server demo_aton demo_server_nodes ids 3232235785 1 0 H); [lia | lia | |].
  - intros nodes node attrs wlans Hn Ha Hw. vm_compute in Hn. injection Hn as <-.
    assert (wlans = [lit "wlan0"; lit "wlan1"] \/ wlans = [lit "wlan2"]) as [-> | ->]; [| by vm_compute ..].
    unfold PyDict.item in Ha. destruct (PyDict.get _ _) as [v|] eqn:E; [| done]. injection Ha as ->. apply PyDict.get_In in E.
    apply elem_of_cons in E as [E | E]; [| apply list_elem_of_singleton in E]; injection E as -> ->; vm_compute in Hw;
      injection Hw as <-; [by left | by right].
  - eexists _, (lit "192.168.1.9"). split; [vm_compute; reflexivity |].
    split; [apply (bool_decide_unpack (_ ∈ _)); vm_compute; exact I |]. split; [vm_compute; reflexivity |].
    do 5 eexists. repeat split; vm_compute; reflexivity.
Defined.

Lemma init_starts_all_witness : exists services peers rx_only,
  mode_plan demo_str demo_server demo_aton [lit "gs"] [] (Some (lit "manual")) services peers rx_only /\
  Forall2 (started demo_server peers rx_only) (concat (map (fun x => map (pair x.1) x.2) services))
    (starts (init demo_str demo_server demo_exec demo_listen false demo_aton demo_fmt [lit "gs"] [] (Some (lit "manual")) init_srv).1).
Proof.
  assert (Hok : is_ok (init demo_str demo_server demo_exec demo_listen false demo_aton demo_fmt [lit "gs"] [] (Some (lit "manual")) init_srv).2 = true)
    by (vm_compute; reflexivity).
  destruct (init_starts_all demo_str demo_server demo_exec demo_listen false demo_aton demo_fmt [lit "gs"] [] (Some (lit "manual"))
    _ _ (surjective_pairing _)) as [[_ H] | (ss & p & rx & d & rest & Hm & Hp & Hd & Hr)]; [congruence |].
  rewrite (Hr Hok), app_nil_r in Hp. subst d. exists ss, p, rx. split; [exact Hm | exact Hd].
Defined.
End Server.
