(* ===== verification/Master.v ===== *)
(** src/wfb_ng/conf/master.cfg: the settings the program ships with, one
    definition per section, each value as [ast.literal_eval] reads it; comments
    are left out.  The decimal fractions are the doubles nearest to them. *)
From Stdlib Require Import ZArith Bool.
From stdpp Require Import base list strings.
From S2P Require Import Prelude PyDict PyNum PyText Config.

Module Master.
Import PyText Config.

Definition num (z : Z) : cval := CNum (PyNum.NInt z).
Definition str (s : string) : cval := CStr (lit s).

Definition sec_path (basedir : text) : sect :=
  [(lit "cfg_root", CStr basedir); (lit "conf_dir", str "/etc"); (lit "bin_dir", str "/usr/bin");
   (lit "tmp_dir", str "/tmp"); (lit "log_dir", str "/var/log")].

Definition sec_common : sect :=
  [(lit "debug", CBool false); (lit "version", str "dev"); (lit "commit", str "master"); (lit "primary", CBool true);
   (lit "log_file", CNone); (lit "binary_log_file", CNone); (lit "set_nm_unmanaged", CBool true);
   (lit "radio_mtu", num 1445); (lit "tunnel_agg_timeout", CNum (PyNum.NFin 5764607523034235 (-60)));
   (lit "mavlink_agg_timeout", CNum (PyNum.NFin 3602879701896397 (-55))); (lit "mavlink_err_rate", CBool true);
   (lit "log_interval", num 1000); (lit "tx_sel_rssi_delta", num 3); (lit "tx_sel_counter_abs_delta", num 3);
   (lit "tx_sel_counter_rel_delta", CNum (PyNum.NFin 3602879701896397 (-55))); (lit "tx_rcv_buf_size", num 2097152);
   (lit "rx_snd_buf_size", num 2097152); (lit "wifi_channel", num 165); (lit "wifi_region", str "BO");
   (lit "wifi_txpower", CNone); (lit "temp_measurement_interval", num 10); (lit "temp_overheat_warning", num 60)].

Definition sec_cluster : sect :=
  [(lit "nodes", CDict []); (lit "ssh_user", str "root"); (lit "ssh_port", num 22); (lit "ssh_key", CNone);
   (lit "custom_init_script", CNone); (lit "server_address", CNone); (lit "base_port_server", num 10000);
   (lit "base_port_node", num 11000)].

Definition sec_drone : sect :=
  [(lit "streams", CList [
     CDict [(str "name", str "video"); (str "stream_rx", CNone); (str "stream_tx", num 0);
            (str "service_type", str "udp_direct_tx"); (str "profiles", CList [str "base"; str "drone_base"; str "video"; str "drone_video"])];
     CDict [(str "name", str "mavlink"); (str "stream_rx", num 144); (str "stream_tx", num 16);
            (str "service_type", str "mavlink"); (str "profiles", CList [str "base"; str "drone_base"; str "mavlink"; str "drone_mavlink"])];
     CDict [(str "name", str "tunnel"); (str "stream_rx", num 160); (str "stream_tx", num 32);
            (str "service_type", str "tunnel"); (str "profiles", CList [str "base"; str "drone_base"; str "tunnel"; str "drone_tunnel"])]]);
   (lit "stats_port", num 8002); (lit "api_port", num 8102); (lit "link_domain", str "default")].

Definition sec_gs : sect :=
  [(lit "streams", CList [
     CDict [(str "name", str "video"); (str "stream_rx", num 0); (str "stream_tx", CNone);
            (str "service_type", str "udp_direct_rx"); (str "profiles", CList [str "base"; str "gs_base"; str "video"; str "gs_video"])];
     CDict [(str "name", str "mavlink"); (str "stream_rx", num 16); (str "stream_tx", num 144);
            (str "service_type", str "mavlink"); (str "profiles", CList [str "base"; str "gs_base"; str "mavlink"; str "gs_mavlink"])];
     CDict [(str "name", str "tunnel"); (str "stream_rx", num 32); (str "stream_tx", num 160);
            (str "service_type", str "tunnel"); (str "profiles", CList [str "base"; str "gs_base"; str "tunnel"; str "gs_tunnel"])]]);
   (lit "stats_port", num 8003); (lit "api_port", num 8103); (lit "link_domain", str "default")].

Definition sec_two_way_udp_example_side_a : sect :=
  [(lit "streams", CList [
     CDict [(str "name", str "audio"); (str "stream_rx", num 176); (str "stream_tx", num 48);
            (str "service_type", str "udp_proxy"); (str "profiles", CList [str "base"; str "radio_base"]); (str "peer", str "listen://127.0.0.1:1235"); (str "keypair", str "drone.key")]]);
   (lit "stats_port", num 8004); (lit "api_port", num 8104); (lit "link_domain", str "test_two_way_udp")].

Definition sec_two_way_udp_example_side_b : sect :=
  [(lit "streams", CList [
     CDict [(str "name", str "audio"); (str "stream_rx", num 48); (str "stream_tx", num 176);
            (str "service_type", str "udp_proxy"); (str "profiles", CList [str "base"; str "radio_base"]); (str "peer", str "connect://127.0.0.1:1234"); (str "keypair", str "gs.key")]]);
   (lit "stats_port", num 8005); (lit "api_port", num 8105); (lit "link_domain", str "test_two_way_udp")].

Definition sec_drone_bind : sect :=
  [(lit "streams", CList [
     CDict [(str "name", str "bind_tunnel"); (str "stream_rx", num 255); (str "stream_tx", num 127);
            (str "service_type", str "tunnel"); (str "profiles", CList [str "base"; str "bind_base"; str "tunnel"; str "drone_bind_tunnel"])]]);
   (lit "stats_port", num 8098); (lit "api_port", num 8198); (lit "link_domain", str "drone_bind")].

Definition sec_gs_bind : sect :=
  [(lit "streams", CList [
     CDict [(str "name", str "bind_tunnel"); (str "stream_rx", num 127); (str "stream_tx", num 255);
            (str "service_type", str "tunnel"); (str "profiles", CList [str "base"; str "bind_base"; str "tunnel"; str "gs_bind_tunnel"])]]);
   (lit "stats_port", num 8099); (lit "api_port", num 8199); (lit "link_domain", str "drone_bind")].

Definition sec_base : sect :=
  [(lit "stream_rx", CNone); (lit "stream_tx", CNone); (lit "keypair", CNone); (lit "mirror", CBool false);
   (lit "bandwidth", num 20); (lit "force_vht", CBool false); (lit "short_gi", CBool false); (lit "stbc", num 1);
   (lit "ldpc", num 1); (lit "mcs_index", num 1); (lit "use_qdisc", CBool false); (lit "fwmark", num 0);
   (lit "control_port", num 0)].

Definition sec_drone_base : sect :=
  [(lit "keypair", str "drone.key")].

Definition sec_gs_base : sect :=
  [(lit "keypair", str "gs.key")].

Definition sec_bind_base : sect :=
  [(lit "keypair", str "bind.key"); (lit "stbc", num 0); (lit "ldpc", num 0); (lit "short_gi", CBool false);
   (lit "bandwidth", num 20); (lit "mcs_index", num 1)].

Definition sec_radio_base : sect :=
  [(lit "frame_type", str "data"); (lit "fec_k", num 1); (lit "fec_n", num 2); (lit "fec_timeout", num 0);
   (lit "fec_delay", num 0)].

Definition sec_video : sect :=
  [(lit "frame_type", str "data"); (lit "fec_k", num 8); (lit "fec_n", num 12); (lit "fec_timeout", num 0);
   (lit "fec_delay", num 0); (lit "injection_retries", num 0); (lit "injection_retry_delay", num 5000);
   (lit "peer", CNone)].

Definition sec_mavlink : sect :=
  [(lit "log_messages", CBool false); (lit "frame_type", str "data"); (lit "fec_k", num 1); (lit "fec_n", num 2);
   (lit "fec_timeout", num 0); (lit "fec_delay", num 0); (lit "peer", CNone); (lit "osd", CNone);
   (lit "inject_rssi", CBool true); (lit "mavlink_sys_id", num 3); (lit "mavlink_comp_id", num 68);
   (lit "call_on_arm", CNone); (lit "call_on_disarm", CNone); (lit "mavlink_tcp_port", CNone)].

Definition sec_tunnel : sect :=
  [(lit "frame_type", str "data"); (lit "fec_k", num 1); (lit "fec_n", num 2); (lit "fec_timeout", num 0);
   (lit "fec_delay", num 0)].

Definition sec_drone_video : sect :=
  [(lit "fwmark", num 20); (lit "peer", str "listen://0.0.0.0:5602")].

Definition sec_drone_mavlink : sect :=
  [(lit "fwmark", num 10); (lit "peer", str "listen://0.0.0.0:14560")].

Definition sec_drone_tunnel : sect :=
  [(lit "fwmark", num 30); (lit "ifname", str "drone-wfb"); (lit "ifaddr", str "10.5.0.2/24");
   (lit "default_route", CBool false)].

Definition sec_drone_bind_tunnel : sect :=
  [(lit "fwmark", num 30); (lit "ifname", str "drone-bind"); (lit "ifaddr", str "10.5.99.2/24");
   (lit "default_route", CBool false)].

Definition sec_gs_video : sect :=
  [(lit "fwmark", num 20); (lit "peer", str "connect://127.0.0.1:5600")].

Definition sec_gs_mavlink : sect :=
  [(lit "fwmark", num 10); (lit "peer", str "connect://127.0.0.1:14550")].

Definition sec_gs_tunnel : sect :=
  [(lit "fwmark", num 30); (lit "ifname", str "gs-wfb"); (lit "ifaddr", str "10.5.0.1/24");
   (lit "default_route", CBool false)].

Definition sec_gs_bind_tunnel : sect :=
  [(lit "fwmark", num 30); (lit "ifname", str "gs-bind"); (lit "ifaddr", str "10.5.99.1/24");
   (lit "default_route", CBool false)].

(** The settings after [parse_config] has read this file alone: [path] and
    [common] exist before it does. *)
Definition master (basedir : text) : settings :=
  [(lit "path", sec_path basedir); (lit "common", sec_common); (lit "cluster", sec_cluster); (lit "drone", sec_drone);
   (lit "gs", sec_gs); (lit "two_way_udp_example_side_a", sec_two_way_udp_example_side_a); (lit "two_way_udp_example_side_b", sec_two_way_udp_example_side_b); (lit "drone_bind", sec_drone_bind);
   (lit "gs_bind", sec_gs_bind); (lit "base", sec_base); (lit "drone_base", sec_drone_base); (lit "gs_base", sec_gs_base);
   (lit "bind_base", sec_bind_base); (lit "radio_base", sec_radio_base); (lit "video", sec_video); (lit "mavlink", sec_mavlink);
   (lit "tunnel", sec_tunnel); (lit "drone_video", sec_drone_video); (lit "drone_mavlink", sec_drone_mavlink); (lit "drone_tunnel", sec_drone_tunnel);
   (lit "drone_bind_tunnel", sec_drone_bind_tunnel); (lit "gs_video", sec_gs_video); (lit "gs_mavlink", sec_gs_mavlink); (lit "gs_tunnel", sec_gs_tunnel);
   (lit "gs_bind_tunnel", sec_gs_bind_tunnel)].

(** Section names and attribute names are distinct, as for any parsed settings. *)
Lemma master_ok basedir : settings_ok (master basedir).
Proof. split; [by apply (bool_decide_unpack _) | repeat constructor; by apply (bool_decide_unpack _)]. Qed.

End Master.
