(* ===== verification/Boot.v ===== *)
(** From the settings to the radio: src/wfb_ng/server.py calls the [init_]
    function of a service's type (src/wfb_ng/services.py) with the attributes
    the profile resolved to, and that function starts wfb_tx and wfb_rx.  This
    file composes [Server] and [Services], reads the command lines the way the
    two programs do (src/src/tx.cpp, src/src/rx.cpp), and says on which radio
    channel, with which key and on which cards every service transmits and
    receives; it ends with the profiles of src/wfb_ng/conf/master.cfg. *)
From Stdlib Require Import ZArith Lia Bool.
From stdpp Require Import base list numbers strings gmap.
From S2P Require Import Prelude PyStruct PyDict PyNum PyText Config Runtime Services Cluster Server Master.

Module Boot.
Import PyText Config Runtime Services Cluster Server.

(** ** How wfb_tx and wfb_rx read their options *)

(** [atoi(3)]; a value outside [int] is undefined. *)
Definition digits_value (l : text) : Z := fold_left (fun a c => a * 10 + (c - 48)) (span is_digit l).1 0.

Definition atoi (l : text) : option Z :=
  let l := skip_spaces l in
  let z := match l with
           | 45 :: l' => - digits_value l'
           | 43 :: l' => digits_value l'
           | _ => digits_value l
           end in
  if within (- 2 ^ 31) (2 ^ 31 - 1) z then Some z else None.

(** The argument of the last occurrence of an option. *)
Definition optarg (c : Z) (os : list (Z * option text)) : option text :=
  last (omap (fun o => if o.1 =? c then o.2 else None) os).

(** [radio_port] is a [uint8_t], [link_id] keeps 24 bits, and
    [channel_id = (link_id << 8) + radio_port]. *)
Definition channel_id (link_id radio_port : Z) : Z :=
  (Z.shiftl (Z.land link_id 16777215) 8 + radio_port mod 2 ^ 8) mod 2 ^ 32.

(** What a radio program works with: the direction, the channel, the key file
    and the operands (cards, or the nodes of a cluster). *)
Record radio := Radio { r_tx : bool; r_channel : Z; r_key : text; r_cards : list text }.

(** An option with its default. *)
Definition opt_int (c : Z) (os : list (Z * option text)) : option Z :=
  match optarg c os with Some a => atoi a | None => Some 0 end.

Definition radio_of (tx : bool) (cmd : list text) : option radio :=
  '(os, cards) ← getopt (if tx then tx_opts else rx_opts) None (tail cmd);
  port ← opt_int 112 os;
  link ← opt_int 105 os;
  Some (Radio tx (channel_id link port) (default (if tx then lit "tx.key" else lit "rx.key") (optarg 75 os)) cards).

(** The radio programs among what a service asked for, in order. *)
Definition radios (l : list act) : list (option radio) :=
  omap (fun a => match a with
                 | SpawnTX _ cmd => Some (radio_of true cmd)
                 | SpawnRX _ cmd => Some (radio_of false cmd)
                 | _ => None
                 end) l.

(** ** The attributes of a service *)

(** Values as the services use them: conditions take any value, numbers are
    printed with [%d], texts are joined to paths and matched. *)
Definition as_Z (v : cval) : option Z := match v with CNum (PyNum.NInt z) => Some z | _ => None end.
Definition as_text (v : cval) : option text := match v with CStr s => Some s | _ => None end.
Definition opt_of {A} (f : cval -> option A) (v : cval) : option (option A) :=
  match v with CNone => Some None | _ => Some <$> f v end.
Definition as_cond (v : cval) : option bool := Some (truth v).

(** An attribute; one that the type of service does not read may be missing. *)
Definition attr {A} (f : cval -> option A) (d : A) (s : sect) (k : string) : option A :=
  match PyDict.get s (lit k) with Some v => f v | None => Some d end.

Definition read_cfg (s : sect) : option srv_cfg :=
  peer ← attr (opt_of as_text) None s "peer"; osd ← attr (opt_of as_text) None s "osd";
  stream_rx ← attr (opt_of as_Z) None s "stream_rx"; stream_tx ← attr (opt_of as_Z) None s "stream_tx";
  keypair ← attr as_text [] s "keypair"; frame_type ← attr as_text [] s "frame_type";
  mirror ← attr as_cond false s "mirror"; force_vht ← attr as_cond false s "force_vht";
  short_gi ← attr as_cond false s "short_gi"; use_qdisc ← attr as_cond false s "use_qdisc";
  bandwidth ← attr as_Z 0 s "bandwidth"; stbc ← attr as_Z 0 s "stbc"; ldpc ← attr as_Z 0 s "ldpc";
  mcs_index ← attr as_Z 0 s "mcs_index"; fwmark ← attr as_Z 0 s "fwmark"; control_port ← attr as_Z 0 s "control_port";
  fec_k ← attr as_Z 0 s "fec_k"; fec_n ← attr as_Z 0 s "fec_n"; fec_timeout ← attr as_Z 0 s "fec_timeout";
  fec_delay ← attr as_Z 0 s "fec_delay"; injection_retries ← attr as_Z 0 s "injection_retries";
  injection_retry_delay ← attr as_Z 0 s "injection_retry_delay"; udp_port_auto ← attr as_Z 0 s "udp_port_auto";
  call_on_arm ← attr (opt_of as_text) None s "call_on_arm"; call_on_disarm ← attr (opt_of as_text) None s "call_on_disarm";
  log_messages ← attr as_cond false s "log_messages"; tcp ← attr (opt_of as_Z) None s "mavlink_tcp_port";
  ifname ← attr as_text [] s "ifname"; ifaddr ← attr as_text [] s "ifaddr"; default_route ← attr as_cond false s "default_route";
  Some (SrvCfg peer osd stream_rx stream_tx keypair frame_type mirror force_vht short_gi use_qdisc bandwidth stbc ldpc
    mcs_index fwmark control_port fec_k fec_n fec_timeout fec_delay injection_retries injection_retry_delay udp_port_auto
    call_on_arm call_on_disarm log_messages tcp ifname ifaddr default_route).

(** The attributes each type of service reads; a missing one is an
    [AttributeError] of that service. *)
Definition tx_attrs : list string :=
  ["stream_tx"; "frame_type"; "keypair"; "bandwidth"; "short_gi"; "stbc"; "ldpc"; "mcs_index"; "mirror"; "force_vht";
   "use_qdisc"; "fwmark"; "fec_k"; "fec_n"; "fec_timeout"; "fec_delay"; "control_port"]%string.
Definition rx_attrs : list string := ["stream_rx"; "keypair"]%string.

Definition type_attrs (t : text) : list string :=
  if decide (t = lit "udp_direct_rx") then "peer"%string :: rx_attrs
  else if decide (t = lit "udp_direct_tx") then (["peer"; "injection_retries"; "injection_retry_delay"]%string ++ tx_attrs)
  else if decide (t = lit "mavlink") then
    (["peer"; "osd"; "call_on_arm"; "call_on_disarm"; "log_messages"; "mavlink_tcp_port"; "inject_rssi"; "mavlink_sys_id";
      "mavlink_comp_id"]%string ++ rx_attrs ++ tx_attrs)
  else if decide (t = lit "tunnel") then (["ifname"; "ifaddr"; "default_route"]%string ++ rx_attrs ++ tx_attrs)
  else "peer"%string :: rx_attrs ++ tx_attrs.

Definition has_attrs (is_cluster : bool) (t : text) (s : sect) : bool :=
  forallb (fun k => match PyDict.get s (lit k) with Some _ => true | None => false end)
    ((if is_cluster then ["udp_port_auto"%string] else []) ++ type_attrs t).

(** The configuration of a service that has what its type reads. *)
Definition service_cfg (is_cluster : bool) (t : text) (s : sect) : option srv_cfg :=
  if has_attrs is_cluster t s then read_cfg s else None.

(** The settings every service reads. *)
Definition read_globals (st : settings) : option globals :=
  path ← PyDict.get st (lit "path"); common ← PyDict.get st (lit "common");
  bin_dir ← PyDict.get path (lit "bin_dir") ≫= as_text; conf_dir ← PyDict.get path (lit "conf_dir") ≫= as_text;
  log_interval ← PyDict.get common (lit "log_interval") ≫= as_Z;
  rcv ← PyDict.get common (lit "tx_rcv_buf_size") ≫= as_Z; snd ← PyDict.get common (lit "rx_snd_buf_size") ≫= as_Z;
  mtu ← PyDict.get common (lit "radio_mtu") ≫= as_Z;
  Some (Globals bin_dir conf_dir log_interval rcv snd mtu).

(** The names of cards, or of the nodes of a cluster. *)
Definition as_texts (v : cval) : option (list text) :=
  match v with CList l => mapM as_text l | _ => None end.

(** ** Starting a service *)

Section Run.
(** What the reactor refuses; the random parts of socket names; whether there is
    a binary log; the antenna selected and the sockets wfb_tx announces when it
    is up. *)
Context (refused : act -> option exn) (rnd_rx rnd_tx : text) (has_logger : bool).
Context (tx_sel : option Z) (tx_sockets : PyDict.dict Z text).
Context (g : globals) (is_cluster : bool) (rx_only : gset Z).

(** [type_map[service_type](service_name, srv_cfg, wlans, link_id, ...)]: each
    function up to the point where it only waits for its processes. *)
Definition run_service (t name : text) (cfg : srv_cfg) (wlans : list text) (link_id : Z) : SE svc unit :=
  if decide (t = lit "udp_direct_rx") then init_udp_direct_rx refused g cfg name wlans link_id is_cluster
  else if decide (t = lit "udp_direct_tx") then init_udp_direct_tx refused g cfg name wlans link_id is_cluster rx_only
  else if decide (t = lit "mavlink") then
    '(mp, _) ← mavlink_start refused g cfg name wlans link_id is_cluster rnd_rx rnd_tx has_logger;
    mavlink_ready refused g cfg name wlans link_id is_cluster rx_only rnd_rx mp tx_sel tx_sockets
  else if decide (t = lit "tunnel") then
    _ ← tunnel_start refused g cfg name wlans link_id is_cluster rnd_rx rnd_tx;
    tunnel_ready refused g cfg name wlans link_id is_cluster rx_only rnd_rx tx_sel tx_sockets
  else if decide (t = lit "udp_proxy") then
    _ ← proxy_start refused g cfg name wlans link_id is_cluster rnd_rx rnd_tx;
    match stream_tx cfg with Some _ => proxy_ready refused rx_only tx_sel tx_sockets | None => mret tt end
  else se_raise KeyError.

(** ** What a service promises *)

(** The sender and the receiver of a service: the channel of its link and its
    stream, its key file, and the cards it was given. *)
Definition sender (cfg : srv_cfg) (wlans : list text) (link_id : Z) : list radio :=
  match stream_tx cfg with
  | Some n => [Radio true (channel_id link_id n) (path_join (conf_dir g) (keypair cfg)) wlans]
  | None => []
  end.

Definition receiver (cfg : srv_cfg) (wlans : list text) (link_id : Z) : list radio :=
  match stream_rx cfg with
  | Some n => [Radio false (channel_id link_id n) (path_join (conf_dir g) (keypair cfg)) (if is_cluster then [] else wlans)]
  | None => []
  end.

Definition service_plan (t : text) (cfg : srv_cfg) (wlans : list text) (link_id : Z) : list radio :=
  if decide (t = lit "udp_direct_rx") then receiver cfg wlans link_id
  else if decide (t = lit "udp_direct_tx") then sender cfg wlans link_id
  else if decide (t = lit "udp_proxy") then receiver cfg wlans link_id ++ sender cfg wlans link_id
  else sender cfg wlans link_id ++ receiver cfg wlans link_id.

End Run.

(** ** Reading options back *)

Lemma skip_spaces_head c l : ascii_space c = false -> skip_spaces (c :: l) = c :: l.
Proof. cbn. by intros ->. Qed.

Lemma digits_value_print n : 0 <= n -> digits_value (print_u n) = n.
Proof.
  intros Hn. destruct (print_nat_spec 10 n ltac:(lia) Hn) as (ds & Hp & _ & Hd & Hv). unfold digits_value, print_u.
  pose proof (print_u_digits n Hn) as Hdig. unfold print_u in Hdig.
  replace (span is_digit (print_nat 10 n)) with (print_nat 10 n, @nil Z)
    by (symmetry; rewrite <- (app_nil_r (print_nat 10 n)) at 1; by apply span_run).
  cbn [fst]. rewrite Hp. clear Hp Hdig. rewrite <- Hv. clear Hv. unfold horner. generalize 0 as a.
  induction Hd as [|d ds Hd _ IH]; intros a; cbn [map fold_left]; [done |].
  replace (digit_char d - 48) with d by (unfold digit_char; destruct (Z.ltb_spec d 10); lia). apply IH.
Qed.

(** A digit is not a sign. *)
Lemma unsigned_digits c l : is_digit c = true ->
  match c :: l with 45 :: l' => - digits_value l' | 43 :: l' => digits_value l' | _ => digits_value (c :: l) end = digits_value (c :: l).
Proof.
  unfold is_digit, within. intros [H1 H2]%andb_true_iff.
  assert (c = 48 \/ c = 49 \/ c = 50 \/ c = 51 \/ c = 52 \/ c = 53 \/ c = 54 \/ c = 55 \/ c = 56 \/ c = 57) as Hc by lia.
  by repeat destruct Hc as [-> | Hc]; subst.
Qed.

Lemma atoi_print z : - 2 ^ 31 <= z < 2 ^ 31 -> atoi (print_d z) = Some z.
Proof.
  intros Hz. assert (Hw : within (- 2 ^ 31) (2 ^ 31 - 1) z = true) by (unfold within; apply andb_true_iff; lia).
  unfold atoi, print_d. destruct (Z.ltb_spec z 0) as [H | H].
  - rewrite skip_spaces_head by done. cbv zeta. rewrite digits_value_print, Z.opp_involutive by lia. by rewrite Hw.
  - destruct (print_u z) as [|c l] eqn:E; [by destruct (print_nat_ne 10 z ltac:(lia) H) |].
    pose proof (print_u_digits z H) as Hd. rewrite E in Hd. apply Forall_cons in Hd as [Hc _]. unfold is_digit, within in Hc.
    apply andb_true_iff in Hc as [H1 H2]. rewrite skip_spaces_head by (unfold ascii_space, within; lia).
    cbv zeta. rewrite unsigned_digits by (unfold is_digit, within; lia). rewrite <- E, digits_value_print by lia. by rewrite Hw.
Qed.

(** [ws] is read as the options [os], whatever follows. *)
Definition reads (opts : text) (ws : list text) (os : list (Z * option text)) : Prop :=
  forall l os' ps, getopt opts None l = Some (os', ps) -> getopt opts None (ws ++ l) = Some (os ++ os', ps).

Lemma reads_nil opts : reads opts [] [].
Proof. by intros l os' ps H. Qed.

Lemma reads_app opts a b oa ob : reads opts a oa -> reads opts b ob -> reads opts (a ++ b) (oa ++ ob).
Proof. intros Ha Hb l os' ps H. rewrite <- !app_assoc. by apply Ha, Hb. Qed.

Lemma reads_opt opts c v ws os : has_arg opts c = Some true -> c <> 45 -> reads opts ws os ->
  reads opts ([45; c] :: v :: ws) ((c, Some v) :: os).
Proof. intros Hc H45 Hw l os' ps H. cbn [app]. apply getopt_opt; [done | done |]. by apply Hw. Qed.

Lemma reads_flag opts c ws os : has_arg opts c = Some false -> c <> 45 -> reads opts ws os ->
  reads opts ([45; c] :: ws) ((c, None) :: os).
Proof. intros Hc H45 Hw l os' ps H. cbn [app]. apply getopt_flag; [done | done |]. by apply Hw. Qed.

Lemma reads_operands opts ws os ps : reads opts ws os -> Forall operand ps -> getopt opts None (ws ++ ps) = Some (os, ps).
Proof. intros Hw Hp. rewrite <- (app_nil_r os). by apply Hw, getopt_operands. Qed.

Create HintDb reads.
#[export] Hint Resolve reads_nil reads_app : reads.
#[export] Hint Extern 2 (reads _ _ _) => apply reads_opt; [reflexivity | discriminate |] : reads.
#[export] Hint Extern 2 (reads _ _ _) => apply reads_flag; [reflexivity | discriminate |] : reads.

(** An option that is not one of those that make the channel. *)
Definition other (o : Z * option text) : Prop := o.1 <> 112 /\ o.1 <> 105 /\ o.1 <> 75.

Lemma optarg_app c a b : optarg c (a ++ b) = match optarg c b with Some v => Some v | None => optarg c a end.
Proof. unfold optarg. rewrite omap_app, last_app. by destruct (last _). Qed.

Lemma optarg_other c os : c = 112 \/ c = 105 \/ c = 75 -> Forall other os -> optarg c os = None.
Proof.
  intros Hc. induction 1 as [|o os [H1 [H2 H3]] _ IH]; [done |]. unfold optarg in *. cbn [omap list_omap].
  destruct (Z.eqb_spec o.1 c); [lia | done].
Qed.

(** ** The radio of a command line *)

Definition int32 (z : Z) : Prop := - 2 ^ 31 <= z < 2 ^ 31.

Section Radio.
Context (g : globals) (cfg : srv_cfg) (is_cluster : bool) (link_id : Z).
Context (bin_word : word (path_join (bin_dir g) (lit "wfb_tx")) /\ word (path_join (bin_dir g) (lit "wfb_rx"))).
Context (key_word : word (path_join (conf_dir g) (keypair cfg))) (frame_word : word (frame_type cfg)).
Context (link_int : int32 link_id).

(** Options before and after those of the channel. *)
Definition tx_read (stream : Z) (cos eos : list (Z * option text)) : list (Z * option text) :=
  (if is_cluster then [flag (lit "d")] else []) ++
  [opt (lit "f") (frame_type cfg); opt (lit "p") (print_d stream)] ++ cos ++
  [opt (lit "K") (path_join (conf_dir g) (keypair cfg)); opt (lit "B") (print_d (bandwidth cfg));
   opt (lit "G") (if short_gi cfg then lit "short" else lit "long"); opt (lit "S") (print_d (stbc cfg));
   opt (lit "L") (print_d (ldpc cfg)); opt (lit "M") (print_d (mcs_index cfg))] ++
  (if mirror cfg then [flag (lit "m")] else []) ++ (if force_vht cfg then [flag (lit "V")] else []) ++
  (if use_qdisc cfg then [flag (lit "Q"); opt (lit "P") (print_d (fwmark cfg))] else []) ++
  [opt (lit "k") (print_d (fec_k cfg)); opt (lit "n") (print_d (fec_n cfg)); opt (lit "T") (print_d (fec_timeout cfg));
   opt (lit "F") (print_d (fec_delay cfg)); opt (lit "i") (print_d link_id); opt (lit "R") (print_d (tx_rcv_buf_size g));
   opt (lit "s") (print_d (rx_snd_buf_size g)); opt (lit "l") (print_d (log_interval g));
   opt (lit "C") (print_d (control_port cfg))] ++ eos.

Definition rx_read (stream : Z) (cos : list (Z * option text)) : list (Z * option text) :=
  (if is_cluster then [opt (lit "a") (print_d (udp_port_auto cfg))] else []) ++
  [opt (lit "p") (print_d stream)] ++ cos ++
  [opt (lit "K") (path_join (conf_dir g) (keypair cfg)); opt (lit "R") (print_d (tx_rcv_buf_size g));
   opt (lit "s") (print_d (rx_snd_buf_size g)); opt (lit "l") (print_d (log_interval g)); opt (lit "i") (print_d link_id)].

(** Reads the options one by one, the given groups as a whole. *)
Ltac read_all :=
  repeat first [apply getopt_opt; [reflexivity | discriminate |] | apply getopt_flag; [reflexivity | discriminate |]
               | match goal with H : reads _ ?ws _ |- getopt _ None (?ws ++ _) = _ => apply H end];
  by apply getopt_operands.

Lemma getopt_tx stream cws cos ews eos wlans : reads tx_opts cws cos -> reads tx_opts ews eos -> Forall operand wlans ->
  getopt tx_opts None (tail (tx_argv g cfg is_cluster link_id stream cws ews wlans)) = Some (tx_read stream cos eos, wlans).
Proof using Type.
  intros Hc He Hw. rewrite <- (app_nil_r eos). unfold tx_argv, tx_read. cbn [tail app].
  destruct is_cluster, (mirror cfg), (force_vht cfg), (use_qdisc cfg); cbn [app]; read_all.
Qed.

Lemma getopt_rx stream cws cos wlans : reads rx_opts cws cos -> Forall operand wlans ->
  getopt rx_opts None (tail (rx_argv g cfg is_cluster link_id stream cws wlans)) =
  Some (rx_read stream cos, if is_cluster then [] else wlans).
Proof using Type.
  intros Hc Hw. unfold rx_argv, rx_read. cbn [tail app]. destruct is_cluster; cbn [app]; read_all.
Qed.

(** The options of the channel among the others. *)
Ltac find_opts :=
  rewrite !optarg_app;
  repeat match goal with H : Forall other ?os |- context [optarg ?c ?os] => rewrite (optarg_other c os) by (assumption || lia) end;
  reflexivity.

Lemma tx_read_opts stream cos eos : Forall other cos -> Forall other eos ->
  optarg 112 (tx_read stream cos eos) = Some (print_d stream) /\ optarg 105 (tx_read stream cos eos) = Some (print_d link_id) /\
  optarg 75 (tx_read stream cos eos) = Some (path_join (conf_dir g) (keypair cfg)).
Proof using Type.
  intros Hc He. unfold tx_read. split_and!; destruct is_cluster, (mirror cfg), (force_vht cfg), (use_qdisc cfg); find_opts.
Qed.

Lemma rx_read_opts stream cos : Forall other cos ->
  optarg 112 (rx_read stream cos) = Some (print_d stream) /\ optarg 105 (rx_read stream cos) = Some (print_d link_id) /\
  optarg 75 (rx_read stream cos) = Some (path_join (conf_dir g) (keypair cfg)).
Proof using Type. intros Hc. unfold rx_read. split_and!; destruct is_cluster; find_opts. Qed.

Lemma radio_tx_cmd stream conn cws cos ews eos wlans : int32 stream ->
  32 :: conn = spaced cws -> Forall word cws -> Forall word ews -> reads tx_opts cws cos -> reads tx_opts ews eos ->
  Forall other cos -> Forall other eos -> Forall operand wlans ->
  radio_of true (tx_cmd g cfg is_cluster link_id stream conn (spaced ews) wlans) =
  Some (Radio true (channel_id link_id stream) (path_join (conf_dir g) (keypair cfg)) wlans).
Proof using All.
  intros Hs Hc Hcw Hew Hrc Hre Hoc Hoe Hw. rewrite (tx_cmd_argv g cfg _ _ bin_word key_word frame_word _ _ cws ews) by done.
  unfold radio_of. rewrite (getopt_tx _ _ cos _ eos) by done. cbn [mbind option_bind].
  destruct (tx_read_opts stream cos eos Hoc Hoe) as (H1 & H2 & H3). unfold opt_int.
  rewrite H1, H2, H3, !atoi_print by done. done.
Qed.

Lemma radio_rx_cmd stream conn cws cos wlans : int32 stream ->
  32 :: conn = spaced cws -> Forall word cws -> reads rx_opts cws cos -> Forall other cos -> Forall operand wlans ->
  radio_of false (rx_cmd g cfg is_cluster link_id stream conn wlans) =
  Some (Radio false (channel_id link_id stream) (path_join (conf_dir g) (keypair cfg)) (if is_cluster then [] else wlans)).
Proof using bin_word key_word link_int.
  intros Hs Hc Hcw Hrc Hoc Hw. rewrite (rx_cmd_argv g cfg _ _ bin_word key_word _ _ cws) by done.
  unfold radio_of. rewrite (getopt_rx _ _ cos) by done. cbn [mbind option_bind].
  destruct (rx_read_opts stream cos Hoc) as (H1 & H2 & H3). unfold opt_int.
  rewrite H1, H2, H3, !atoi_print by done. done.
Qed.

End Radio.

(** ** Peer addresses give words *)

Definition no_space (l : text) : Prop := Forall (fun c => is_space c = false) l.

Lemma span_spec f l : let '(a, b) := span f l in l = a ++ b /\ Forall (fun c => f c = true) a.
Proof.
  induction l as [|c l IH]; cbn; [done |]. destruct (f c) eqn:E; [| done]. destruct (span f l) as [a b].
  destruct IH as [-> Ha]. split; [done | by constructor].
Qed.

Lemma run1_spec f l a b : run1 f l = Some (a, b) -> a <> [] /\ l = a ++ b /\ Forall (fun c => f c = true) a.
Proof.
  unfold run1. pose proof (span_spec f l) as Hs. destruct (span f l) as [[|c a'] b']; [done |]. intros [= <- <-]. by destruct Hs.
Qed.

Lemma digit_no_space l : Forall (fun c => is_digit c = true) l -> no_space l.
Proof.
  intros H. eapply Forall_impl; [exact H |]. intros c Hc. apply plain_not_space. unfold is_digit, within in Hc.
  apply andb_true_iff in Hc as [? ?]. unfold plain. lia.
Qed.

Lemma word_app a b : word a -> no_space b -> word (a ++ b).
Proof. intros [Hn Ha] Hb. split; [by destruct a | by apply Forall_app]. Qed.

Lemma match_addr_word l addr port : match_addr l = Some (addr, port) -> word addr.
Proof.
  unfold match_addr. intros H. assert (Hd : forall l a b, run1 is_digit l = Some (a, b) -> a <> [] /\ no_space a).
  { intros l0 a b (Hne & _ & Ha)%run1_spec. split; [done | by apply digit_no_space]. }
  repeat first [apply bind_Some in H as ([? ?] & ?E & H) | apply bind_Some in H as (? & ?E & H)]. injection H as <- <-.
  repeat match goal with E : run1 _ _ = Some _ |- _ => apply Hd in E as [? ?] end.
  apply word_app; [done |]. unfold no_space in *. rewrite !Forall_cons, !Forall_app, !Forall_cons, !Forall_app, !Forall_cons. done.
Qed.

(** The path of a peer address without white space. *)
Lemma match_path_word l path : no_space l -> match_path l = Some path -> word path.
Proof.
  intros Hl. unfold match_path. destruct (run1 _ l) as [[a b]|] eqn:E; [| done]. cbn [mbind option_bind].
  destruct (at_end b); [| done]. intros [= <-]. apply run1_spec in E as (Hne & -> & _). apply Forall_app in Hl as [Ha _]. by split.
Qed.

Lemma ci_prefix_no_space p l r : no_space l -> ci_prefix p l = Some r -> no_space r.
Proof. intros Hl (q & -> & _)%ci_prefix_spec. by apply Forall_app in Hl as [_ ?]. Qed.

Lemma unix_path_word (pre peer path : text) : no_space peer -> ci_prefix pre peer ≫= match_path = Some path -> word path.
Proof.
  intros Hp. destruct (ci_prefix pre peer) as [r|] eqn:E; [| done]. cbn. apply match_path_word. by eapply ci_prefix_no_space.
Qed.

Lemma udp_addr_word (pre peer addr port : text) : ci_prefix pre peer ≫= match_addr = Some (addr, port) -> word addr.
Proof. destruct (ci_prefix pre peer) as [r|]; [| done]. cbn. apply match_addr_word. Qed.

(** ** Services keep their promise *)

(** [m] starts the radio programs of [plan] in order: all of them when it
    returns, the first ones when it raises. *)
Definition emits {A} (plan : list radio) (m : SE svc A) : Prop := forall s s' r, m s = (s', r) ->
  exists done_ rest, plan = done_ ++ rest /\ radios (acts s') = radios (acts s) ++ map Some done_ /\ (is_ok r = true -> rest = []).

(** [m] starts none. *)
Definition silent {A} (m : SE svc A) : Prop := forall s s' r, m s = (s', r) -> radios (acts s') = radios (acts s).

Lemma silent_emits {A} (m : SE svc A) : silent m -> emits [] m.
Proof. intros Hm s s' r H. exists [], []. cbn. rewrite app_nil_r. split; [done |]. split; [by apply (Hm _ _ _ H) | done]. Qed.

Lemma silent_lift {A} (r : result A) : silent (se_lift r).
Proof. by intros s s' r' [= <- <-]. Qed.

Lemma silent_ret {A} (a : A) : silent (mret a).
Proof. apply (silent_lift (Ok a)). Qed.

Lemma silent_get : silent se_get.
Proof. by intros s s' r' [= <- <-]. Qed.

Lemma silent_raise {A} e : silent (@se_raise svc A e).
Proof. apply (silent_lift (Raise e)). Qed.

Lemma silent_need {A} (v : option A) : silent (need v).
Proof. apply silent_lift. Qed.

Lemma silent_modify (f : svc -> svc) : (forall s, acts (f s) = acts s) -> silent (se_modify f).
Proof. intros Hf s s' r [= <- <-]. by rewrite Hf. Qed.

Lemma silent_bind {A B} (m : SE svc A) (f : A -> SE svc B) : silent m -> (forall a, silent (f a)) -> silent (m ≫= f).
Proof.
  intros Hm Hf s s' r H. unfold mbind, SE_bind in H. destruct (m s) as [s1 [a|e]] eqn:E.
  - rewrite (Hf a _ _ _ H). by apply (Hm _ _ _ E).
  - injection H as <- <-. by apply (Hm _ _ _ E).
Qed.

Lemma radios_app a b : radios (a ++ b) = radios a ++ radios b.
Proof. apply omap_app. Qed.

Section Emits.
Context (refused : act -> option exn).

Lemma silent_act a : radios [a] = [] -> silent (do_act refused a).
Proof using Type.
  intros Ha s s' r. unfold do_act. destruct (refused a); intros [= <- <-]; [done |]. cbn [acts].
  by rewrite radios_app, Ha, app_nil_r.
Qed.

Lemma silent_listen mk : (forall i, radios [mk i] = []) -> silent (Services.listen refused mk).
Proof using Type.
  intros Hm. unfold Services.listen. apply silent_bind; [apply silent_get | intros s].
  apply silent_bind; [by apply silent_act | intros _; apply silent_ret].
Qed.

Lemma silent_listen_tx m : silent (listen_tx refused m).
Proof using Type.
  induction m as [|[w t] m IH]; cbn [listen_tx]; [apply silent_ret |].
  apply silent_bind; [by apply silent_listen | intros i]. apply silent_bind; [done | intros ids; apply silent_ret].
Qed.

Lemma silent_register sel : silent (register_cb sel).
Proof using Type.
  unfold register_cb. apply silent_bind; [apply silent_get | intros s]. destruct (bool_decide _); [apply silent_ret |].
  intros s0 s1 r. unfold ant_sel_cb. repeat case_match; by intros [= <- <-].
Qed.

Lemma emits_act a x : radios [a] = [Some x] -> emits [x] (do_act refused a).
Proof using Type.
  intros Ha s s' r. unfold do_act. destruct (refused a); intros [= <- <-].
  - exists [], [x]. cbn. by rewrite app_nil_r.
  - exists [x], []. cbn [acts]. by rewrite radios_app, Ha.
Qed.

End Emits.

Lemma emits_after {A B} plan (m : SE svc A) (f : A -> SE svc B) : silent m ->
  (forall a s s1, m s = (s1, Ok a) -> emits plan (f a)) -> emits plan (m ≫= f).
Proof.
  intros Hm Hf s s' r H. unfold mbind, SE_bind in H. destruct (m s) as [s1 [a|e]] eqn:E.
  - destruct (Hf a _ _ E _ _ _ H) as (d & rest & -> & Hs & Hr). rewrite (Hm _ _ _ E) in Hs. by exists d, rest.
  - injection H as <- <-. exists [], plan. cbn. rewrite (Hm _ _ _ E), app_nil_r. done.
Qed.

Lemma emits_then {A B} p q (m : SE svc A) (f : A -> SE svc B) : emits p m -> (forall a, emits q (f a)) -> emits (p ++ q) (m ≫= f).
Proof.
  intros Hm Hf s s' r H. unfold mbind, SE_bind in H. destruct (m s) as [s1 [a|e]] eqn:E.
  - destruct (Hm _ _ _ E) as (d1 & rest1 & -> & H1 & Hr1). rewrite (Hr1 eq_refl), app_nil_r.
    destruct (Hf a _ _ _ H) as (d2 & rest2 & -> & H2 & Hr2). exists (d1 ++ d2), rest2. rewrite H2, H1, map_app, !app_assoc. done.
  - injection H as <- <-. destruct (Hm _ _ _ E) as (d1 & rest1 & -> & H1 & _). exists d1, (rest1 ++ q). by rewrite app_assoc.
Qed.

(** A required attribute that is unset ends the service before anything starts. *)
Lemma emits_need {A B} plan (v : option A) (f : A -> SE svc B) : (forall a, v = Some a -> emits plan (f a)) -> emits plan (need v ≫= f).
Proof. intros Hf. apply emits_after; [apply silent_need |]. intros a s s1 H. apply Hf. by destruct (need_ok _ _ _ _ H). Qed.

Create HintDb silent.
#[export] Hint Resolve silent_lift silent_ret silent_get silent_raise silent_need silent_listen_tx silent_register : silent.
#[export] Hint Extern 1 (silent (se_modify _)) => apply silent_modify; intros; reflexivity : silent.
#[export] Hint Extern 1 (silent (add_sockets _)) => apply silent_modify; intros; reflexivity : silent.
#[export] Hint Extern 1 (silent (do_act _ _)) => apply silent_act; reflexivity : silent.
#[export] Hint Extern 1 (silent (Services.listen _ _)) => apply silent_listen; intros; reflexivity : silent.
#[export] Hint Extern 2 (silent (_ ≫= _)) => apply silent_bind; [| intros ?] : silent.

(** Texts that can stand in a command line, and streams that are integers. *)
Record launchable (g : globals) (t name rnd_rx rnd_tx : text) (cfg : srv_cfg) (wlans : list text) : Prop := {
  la_bin : word (path_join (bin_dir g) (lit "wfb_tx")) /\ word (path_join (bin_dir g) (lit "wfb_rx"));
  la_key : word (path_join (conf_dir g) (keypair cfg));
  la_frame : t <> lit "udp_direct_rx" -> word (frame_type cfg);
  la_name : no_space name /\ no_space rnd_rx /\ no_space rnd_tx;
  la_peer : forall p, peer cfg = Some p -> no_space p;
  la_wlans : Forall operand wlans;
  la_tx : forall n, stream_tx cfg = Some n -> int32 n;
  la_rx : forall n, stream_rx cfg = Some n -> int32 n
}.

Section Promise.
Context (refused : act -> option exn) (rnd_rx rnd_tx : text) (has_logger : bool).
Context (tx_sel : option Z) (tx_sockets : PyDict.dict Z text).
Context (g : globals) (is_cluster : bool) (rx_only : gset Z).
Context (t name : text) (cfg : srv_cfg) (wlans : list text) (link_id : Z).
Context (Hla : launchable g t name rnd_rx rnd_tx cfg wlans) (Hlink : int32 link_id).

#[local] Abbreviation sends := (sender g cfg wlans link_id).
#[local] Abbreviation receives := (receiver g is_cluster cfg wlans link_id).

Lemma socket_word mid rnd : no_space mid -> mid <> [] -> no_space rnd -> word (name ++ mid ++ rnd).
Proof using Hla.
  intros Hm Hn Hr. destruct (la_name _ _ _ _ _ _ _ Hla) as [Hname _]. split; [by destruct name, mid |].
  by repeat (apply Forall_app; split).
Qed.

Lemma emits_tx n conn cws cos ews eos : t <> lit "udp_direct_rx" -> stream_tx cfg = Some n -> 32 :: conn = spaced cws -> Forall word cws -> Forall word ews ->
  reads tx_opts cws cos -> reads tx_opts ews eos -> Forall other cos -> Forall other eos ->
  emits sends (do_act refused (SpawnTX (tx_id name) (tx_cmd g cfg is_cluster link_id n conn (spaced ews) wlans))).
Proof using Hla Hlink.
  intros Ht Hn Hc Hcw Hew Hrc Hre Hoc Hoe. unfold sender. rewrite Hn. apply emits_act. destruct Hla. unfold radios. cbn [omap list_omap].
  by rewrite (radio_tx_cmd g cfg is_cluster link_id la_bin0 la_key0 (la_frame0 Ht) Hlink n conn cws cos ews eos wlans) by auto.
Qed.

Lemma emits_rx n conn cws cos : stream_rx cfg = Some n -> 32 :: conn = spaced cws -> Forall word cws ->
  reads rx_opts cws cos -> Forall other cos ->
  emits receives (do_act refused (SpawnRX (rx_id name) (rx_cmd g cfg is_cluster link_id n conn wlans))).
Proof using Hla Hlink.
  intros Hn Hc Hcw Hrc Hoc. unfold receiver. rewrite Hn. apply emits_act. destruct Hla. unfold radios. cbn [omap list_omap].
  by rewrite (radio_rx_cmd g cfg is_cluster link_id la_bin0 la_key0 Hlink n conn cws cos wlans) by auto.
Qed.

(** Words, options and groups of a given form. *)
Ltac words := repeat first [assumption | apply word_d | apply Forall_nil_2 | apply Forall_cons; split
                           | apply literal_word; [discriminate | reflexivity]].
Ltac others := repeat (apply Forall_cons; split; [by repeat split |]); apply Forall_nil_2.
Ltac read_group := repeat first [apply reads_opt; [reflexivity | discriminate |] | apply reads_nil].

Lemma emits_tx_unix n path : t <> lit "udp_direct_rx" -> stream_tx cfg = Some n -> word path ->
  emits sends (do_act refused (SpawnTX (tx_id name) (tx_cmd g cfg is_cluster link_id n (lit "-U " ++ path) [] wlans))).
Proof using Hla Hlink.
  intros Ht Hn Hp. change (@nil Z) with (spaced []). eapply (emits_tx n _ [lit "-U"; path] [(85, Some path)] [] []); try done.
  - by rewrite !spaced_cons, app_nil_r.
  - words.
  - read_group.
  - apply reads_nil.
  - others.
Qed.

Lemma emits_rx_unix n path : stream_rx cfg = Some n -> word path ->
  emits receives (do_act refused (SpawnRX (rx_id name) (rx_cmd g cfg is_cluster link_id n (lit "-U " ++ path) wlans))).
Proof using Hla Hlink.
  intros Hn Hp. eapply (emits_rx n _ [lit "-U"; path] [(85, Some path)]); try done.
  - by rewrite !spaced_cons, app_nil_r.
  - words.
  - read_group.
  - others.
Qed.

(** The extra options of [init_udp_direct_tx]. *)
Definition extra_words : list text :=
  [lit "-J"; print_d (injection_retries cfg); lit "-E"; print_d (injection_retry_delay cfg)].

Lemma direct_tx_promise : t = lit "udp_direct_tx" -> emits sends (init_udp_direct_tx refused g cfg name wlans link_id is_cluster rx_only).
Proof using Hla Hlink.
  intros Ht. assert (Hne : t <> lit "udp_direct_rx") by (by rewrite Ht). unfold init_udp_direct_tx.
  apply emits_after; [apply silent_lift | intros w0 _ _ _].
  destruct (_ && _). { intros s s' r [= <- <-]. exists [], sends. cbn. by rewrite app_nil_r. }
  apply emits_need. intros p Hp. apply emits_after; [repeat case_match; auto with silent |]. intros conn s s1 Hconn. apply emits_need. intros n Hn.
  replace (lit " -J " ++ print_d (injection_retries cfg) ++ lit " -E " ++ print_d (injection_retry_delay cfg)) with (spaced extra_words)
    by (unfold extra_words; by rewrite !spaced_cons, app_nil_r).
  assert (He : reads tx_opts extra_words [(74, Some (print_d (injection_retries cfg))); (69, Some (print_d (injection_retry_delay cfg)))])
    by read_group.
  assert (Hc : exists cws cos, 32 :: conn = spaced cws /\ Forall word cws /\ reads tx_opts cws cos /\ Forall other cos).
  { destruct (listen_udp_re p) as [[a port]|].
    - apply se_bind_ok in Hconn as (s2 & z & _ & Hconn). apply se_bind_ok in Hconn as (s3 & _ & _ & Hconn). injection Hconn as _ <-.
      exists [lit "-u"; print_d z], [(117, Some (print_d z))]. split; [by rewrite !spaced_cons, app_nil_r |].
      split; [words |]. split; [read_group | others].
    - destruct (listen_unix_re p) as [path|] eqn:Ep; [| done]. apply se_bind_ok in Hconn as (s2 & _ & _ & Hconn). injection Hconn as _ <-.
      assert (word path) by (eapply unix_path_word; [by eapply la_peer | exact Ep]).
      exists [lit "-U"; path], [(85, Some path)]. split; [by rewrite !spaced_cons, app_nil_r |].
      split; [words |]. split; [read_group | others]. }
  destruct Hc as (cws & cos & Hc & Hcw & Hrc & Hoc). eapply emits_tx; try done; [unfold extra_words; words | others].
Qed.

Lemma direct_rx_promise : emits receives (init_udp_direct_rx refused g cfg name wlans link_id is_cluster).
Proof using Hla Hlink.
  unfold init_udp_direct_rx. apply emits_need. intros p Hp.
  apply emits_after; [repeat case_match; auto with silent |]. intros conn s s1 Hconn. apply emits_need. intros n Hn.
  assert (Hc : exists cws cos, 32 :: conn = spaced cws /\ Forall word cws /\ reads rx_opts cws cos /\ Forall other cos).
  { destruct (connect_udp_re p) as [[addr port]|] eqn:Ea.
    - apply se_bind_ok in Hconn as (s2 & z & _ & Hconn). apply se_bind_ok in Hconn as (s3 & _ & _ & Hconn). injection Hconn as _ <-.
      pose proof (udp_addr_word _ _ _ _ Ea). exists [lit "-c"; addr; lit "-u"; print_d z], [(99, Some addr); (117, Some (print_d z))].
      split; [by rewrite !spaced_cons, app_nil_r |]. split; [words |]. split; [read_group | others].
    - destruct (connect_unix_re p) as [path|] eqn:Ep; [| done]. apply se_bind_ok in Hconn as (s2 & _ & _ & Hconn). injection Hconn as _ <-.
      assert (word path) by (eapply unix_path_word; [by eapply la_peer | exact Ep]).
      exists [lit "-U"; path], [(85, Some path)]. split; [by rewrite !spaced_cons, app_nil_r |].
      split; [words |]. split; [read_group | others]. }
  destruct Hc as (cws & cos & Hc & Hcw & Hrc & Hoc). by eapply emits_rx.
Qed.

(** The sender and the receiver of a service with its own sockets. *)
Lemma spawn_tx n : t <> lit "udp_direct_rx" -> stream_tx cfg = Some n -> emits sends
  (do_act refused (SpawnTX (tx_id name) (tx_cmd g cfg is_cluster link_id n (lit "-U " ++ tx_socket_path name rnd_tx) [] wlans))).
Proof using Hla Hlink.
  intros Ht Hn. apply emits_tx_unix; [done | done |]. apply socket_word; [| done | by destruct (la_name _ _ _ _ _ _ _ Hla) as (? & ? & ?)]. by repeat constructor.
Qed.

Lemma spawn_rx n : stream_rx cfg = Some n -> emits receives
  (do_act refused (SpawnRX (rx_id name) (rx_cmd g cfg is_cluster link_id n (lit "-U " ++ rx_socket_path name rnd_rx) wlans))).
Proof using Hla Hlink.
  intros Hn. apply emits_rx_unix; [done |]. apply socket_word; [| done | by destruct (la_name _ _ _ _ _ _ _ Hla) as (? & ? & ?)]. by repeat constructor.
Qed.

(** A step that starts no program. *)
Ltac quietly := apply emits_after; [solve [auto 12 with silent] | intros ? _ _ _].

Lemma tunnel_promise : t = lit "tunnel" -> emits (sends ++ receives)
  (_ ← tunnel_start refused g cfg name wlans link_id is_cluster rnd_rx rnd_tx;
   tunnel_ready refused g cfg name wlans link_id is_cluster rx_only rnd_rx tx_sel tx_sockets).
Proof using Hla Hlink.
  intros Ht. apply emits_then; [| intros _].
  - unfold tunnel_start. do 2 quietly. do 2 (apply emits_need; intros ? ?). apply spawn_tx; [by rewrite Ht | done].
  - unfold tunnel_ready. do 6 quietly. apply emits_need. intros n Hn. by apply spawn_rx.
Qed.

Lemma silent_mavlink_peer : silent (mavlink_peer cfg).
Proof using Type. unfold mavlink_peer. apply silent_bind; [apply silent_need | intros p]. repeat case_match; auto 12 with silent. Qed.

Lemma silent_osd_peer : silent (osd_peer cfg).
Proof using Type. unfold osd_peer. repeat case_match; auto with silent. Qed.

Lemma mavlink_promise : t = lit "mavlink" -> emits (sends ++ receives)
  ('(mp, _) ← mavlink_start refused g cfg name wlans link_id is_cluster rnd_rx rnd_tx has_logger;
   mavlink_ready refused g cfg name wlans link_id is_cluster rx_only rnd_rx mp tx_sel tx_sockets).
Proof using Hla Hlink.
  intros Ht. apply emits_then; [| intros [mp o]].
  - unfold mavlink_start. apply emits_after; [apply silent_mavlink_peer | intros mp _ _ _].
    apply emits_after; [apply silent_osd_peer | intros o _ _ _]. do 3 quietly. do 2 (apply emits_need; intros ? ?).
    apply emits_after; [repeat case_match; auto 12 with silent |]. intros ? _ _ _.
    rewrite <- (app_nil_r sends). apply emits_then; [apply spawn_tx; [by rewrite Ht | done] | intros _; apply silent_emits, silent_ret].
  - unfold mavlink_ready. quietly. apply emits_after; [case_match; auto 12 with silent |]. intros ? _ _ _.
    do 4 quietly. apply emits_need. intros n Hn. by apply spawn_rx.
Qed.

Lemma silent_proxy_peer : silent (proxy_peer cfg).
Proof using Type. unfold proxy_peer. apply silent_bind; [apply silent_need | intros p]. repeat case_match; auto 12 with silent. Qed.

Lemma proxy_promise : t = lit "udp_proxy" -> emits (receives ++ sends)
  (_ ← proxy_start refused g cfg name wlans link_id is_cluster rnd_rx rnd_tx;
   match stream_tx cfg with Some _ => proxy_ready refused rx_only tx_sel tx_sockets | None => mret tt end).
Proof using Hla Hlink.
  intros Ht. rewrite <- (app_nil_r (receives ++ sends)). apply emits_then.
  - unfold proxy_start. apply emits_after; [apply silent_proxy_peer | intros port _ _ _]. do 2 quietly.
    apply emits_then; [| intros _].
    + destruct (stream_rx cfg) as [n|] eqn:Hn; [do 2 quietly; by apply spawn_rx |]. unfold receiver. rewrite Hn. apply silent_emits, silent_ret.
    + destruct (stream_tx cfg) as [n|] eqn:Hn; [apply spawn_tx; [by rewrite Ht | done] |]. unfold sender. rewrite Hn. apply silent_emits, silent_ret.
  - intros _. destruct (stream_tx cfg); [| apply silent_emits, silent_ret]. apply silent_emits. unfold proxy_ready. auto 12 with silent.
Qed.

(** Whatever its type, a service starts the radio programs it promises. *)
Lemma service_promise : t ∈ service_types -> emits (service_plan g is_cluster t cfg wlans link_id)
  (run_service refused rnd_rx rnd_tx has_logger tx_sel tx_sockets g is_cluster rx_only t name cfg wlans link_id).
Proof using Hla Hlink.
  intros Hin. unfold service_types in Hin. rewrite !elem_of_cons, elem_of_nil in Hin.
  unfold run_service, service_plan.
  destruct (decide (t = lit "udp_direct_rx")); [apply direct_rx_promise |].
  destruct (decide (t = lit "udp_direct_tx")); [by apply direct_tx_promise |].
  destruct (decide (t = lit "mavlink")) as [E | ?]; [rewrite decide_False by (by rewrite E); by apply mavlink_promise |].
  destruct (decide (t = lit "tunnel")) as [E | ?]; [rewrite decide_False by (by rewrite E); by apply tunnel_promise |].
  destruct (decide (t = lit "udp_proxy")); [by apply proxy_promise |]. naive_solver.
Qed.

End Promise.

(** ** A station *)

(** What the machine answers while a service starts: see [Run]. *)
Record env := Env {
  e_refused : act -> option exn; e_rnd_rx : text; e_rnd_tx : text; e_logger : bool;
  e_sel : option Z; e_sockets : PyDict.dict Z text
}.

(** The call [init] makes for a service, when it has the attributes of its type. *)
Definition boot_service (st : settings) (is_cluster : bool) (e : env) (x : start) (s : service) : option (srv_cfg * (svc * result unit)) :=
  g ← read_globals st;
  cfg ← service_cfg is_cluster (sr_type x) (s_cfg s);
  name ← as_text (sr_name x);
  cards ← as_texts (sr_peers x);
  Some (cfg, run_service (e_refused e) (e_rnd_rx e) (e_rnd_tx e) (e_logger e) (e_sel e) (e_sockets e) g is_cluster (sr_rx_only x)
               (sr_type x) name cfg cards (sr_link_id x) init_svc).

(** Its names, paths and cards can stand in a command line. *)
Definition printable (st : settings) (e : env) (x : start) (cfg : srv_cfg) : Prop :=
  forall g name cards, read_globals st = Some g -> as_text (sr_name x) = Some name -> as_texts (sr_peers x) = Some cards ->
    launchable g (sr_type x) name (e_rnd_rx e) (e_rnd_tx e) cfg cards.

(** The link id of a profile: the hash of its domain. *)
Definition profile_link (st : settings) (profile : text) (link_id : Z) : Prop :=
  exists pc dom d, getattr st profile = Ok pc /\ getattr pc (lit "link_domain") = Ok dom /\ as_name dom = Ok d /\
    hash_link_domain d = Ok link_id.

Lemma link_int32 d z : hash_link_domain d = Ok z -> int32 z.
Proof. intros H%hash_link_domain_range. unfold int32. lia. Qed.

Lemma boot_promise st is_cluster e x s cfg v r : sr_type x ∈ service_types -> int32 (sr_link_id x) ->
  boot_service st is_cluster e x s = Some (cfg, (v, r)) -> printable st e x cfg ->
  service_cfg is_cluster (sr_type x) (s_cfg s) = Some cfg /\
  exists g cards done_ rest, read_globals st = Some g /\ as_texts (sr_peers x) = Some cards /\
    service_plan g is_cluster (sr_type x) cfg cards (sr_link_id x) = done_ ++ rest /\
    radios (acts v) = map Some done_ /\ (is_ok r = true -> rest = []).
Proof.
  intros Ht Hl H Hp. unfold boot_service in H.
  apply bind_Some in H as (g & Hg & H). apply bind_Some in H as (cfg' & Hcfg & H).
  apply bind_Some in H as (name & Hn & H). apply bind_Some in H as (cards & Hcd & H). injection H as -> Hrun.
  split; [done |].
  destruct (service_promise (e_refused e) (e_rnd_rx e) (e_rnd_tx e) (e_logger e) (e_sel e) (e_sockets e) g is_cluster (sr_rx_only x)
    (sr_type x) name cfg cards (sr_link_id x) (Hp g name cards Hg Hn Hcd) Hl Ht _ _ _ Hrun) as (d & rest & Hd & Hr & Hok).
  by exists g, cards, d, rest.
Qed.

Section Station.
Context (py_str : cval -> text) (st : settings) (exec : list (list text) -> list text -> outcome).
Context (listen_tcp : cval -> result unit) (nmcli_exists : bool) (inet_aton : text -> result bytes).
Context (fmt1 : text -> text -> result text).

Definition clustered (mode : option text) : bool := match mode with Some (_ :: _) => true | _ => false end.

(** C19: from the settings to the radio: the n-th service start-up starts is the
    n-th of the parsed profiles, and when its function is called with the
    attributes the profile resolved to, the wfb_tx and wfb_rx processes it
    starts read from their command lines exactly what the service promises:
    for a sender and a receiver of its type, the channel made of its stream and
    of the link id hashed from its profile's domain, its key file, and the cards
    given (or, in a cluster, the nodes); all of them when the function gets to
    the point of waiting for them, the first ones when it raises before. *)
Theorem station_radios profiles wlans mode srv' r n x :
  init py_str st exec listen_tcp nmcli_exists inet_aton fmt1 profiles wlans mode init_srv = (srv', r) ->
  starts srv' !! n = Some x ->
  exists services peers rx_only profile s,
    mode_plan py_str st inet_aton profiles wlans mode services peers rx_only /\
    concat (map (fun y => map (pair y.1) y.2) services) !! n = Some (profile, s) /\
    profile_link st profile (sr_link_id x) /\ peers s = Ok (sr_peers x) /\
    forall e cfg v r', boot_service st (clustered mode) e x s = Some (cfg, (v, r')) -> printable st e x cfg ->
      service_cfg (clustered mode) (sr_type x) (s_cfg s) = Some cfg /\
      exists g cards done_ rest, read_globals st = Some g /\ as_texts (sr_peers x) = Some cards /\
        service_plan g (clustered mode) (sr_type x) cfg cards (sr_link_id x) = done_ ++ rest /\
        radios (acts v) = map Some done_ /\ (is_ok r' = true -> rest = []).
Proof using Type.
  intros H Hx. destruct (plan_init py_str st exec listen_tcp nmcli_exists inet_aton fmt1 profiles wlans mode _ _ _ H)
    as [[Hs _] | (services & peers & rx_only & d & rest & new & Hm & Hp & Hs & Hd & _)]; cbn in Hs; rewrite Hs in Hx; [done |].
  destruct (Forall2_lookup_r _ _ _ _ _ Hd Hx) as ([profile s] & Hl & Hst).
  destruct Hst as (_ & _ & _ & Ht & Hpe & _ & Hlink). exists services, peers, rx_only, profile, s. split; [done |].
  split; [rewrite Hp; by apply lookup_app_l_Some |]. split; [done |]. split; [done |].
  intros e cfg v r' Hb Hpr. destruct Hlink as (_ & _ & dom & _ & _ & _ & Hh). eapply boot_promise; [done | by eapply link_int32 | exact Hb | exact Hpr].
Qed.

End Station.

(** ** Two stations *)

Lemma channel_id_value link port : 0 <= link < 2 ^ 24 -> 0 <= port < 2 ^ 8 -> channel_id link port = link * 2 ^ 8 + port.
Proof.
  intros Hl Hp. unfold channel_id. change 16777215 with (Z.ones 24). rewrite Z.land_ones, Z.shiftl_mul_pow2 by lia.
  rewrite !(Z.mod_small link), !(Z.mod_small port) by lia. apply Z.mod_small. lia.
Qed.

Lemma channel_id_inj l1 p1 l2 p2 : 0 <= l1 < 2 ^ 24 -> 0 <= l2 < 2 ^ 24 -> 0 <= p1 < 2 ^ 8 -> 0 <= p2 < 2 ^ 8 ->
  channel_id l1 p1 = channel_id l2 p2 <-> l1 = l2 /\ p1 = p2.
Proof. intros. rewrite !channel_id_value by done. lia. Qed.

(** The types that send and the types that receive. *)
Definition sends_type (t : text) : Prop := t ∈ service_types /\ t <> lit "udp_direct_rx".
Definition receives_type (t : text) : Prop := t ∈ service_types /\ t <> lit "udp_direct_tx".

(** The radio of a direction among those of a service. *)
Definition only_radio (tx : bool) (l : list (option radio)) (ch : Z) : Prop :=
  exists y, Some y ∈ l /\ r_tx y = tx /\ r_channel y = ch /\ forall y', Some y' ∈ l -> r_tx y' = tx -> y' = y.

Lemma only_of (l : list radio) y : y ∈ l -> Forall (fun y' => r_tx y' = r_tx y -> y' = y) l -> only_radio (r_tx y) (map Some l) (r_channel y).
Proof.
  intros Hy Hl. exists y. split; [by apply (list_elem_of_fmap_2 Some) |]. split; [done |]. split; [done |].
  intros y' (z & [= <-] & Hz)%(list_elem_of_fmap_1 Some). rewrite Forall_forall in Hl. by apply Hl.
Qed.

(** Each case of a plan is one or two radios. *)
Ltac one_of_two := repeat case_decide; try done; apply only_of; repeat first [apply list_elem_of_here | apply list_elem_of_further]; repeat constructor; done.

Lemma plan_sender g ic t cfg cards link n : sends_type t -> stream_tx cfg = Some n ->
  only_radio true (map Some (service_plan g ic t cfg cards link)) (channel_id link n).
Proof.
  intros [_ Ht] Hn. unfold service_plan, sender, receiver. rewrite Hn. set (y := Radio true _ _ _).
  change true with (r_tx y). change (channel_id link n) with (r_channel y). destruct (stream_rx cfg); cbn [app]; one_of_two.
Qed.

Lemma plan_receiver g ic t cfg cards link n : receives_type t -> stream_rx cfg = Some n ->
  only_radio false (map Some (service_plan g ic t cfg cards link)) (channel_id link n).
Proof.
  intros [_ Ht] Hn. unfold service_plan, sender, receiver. rewrite Hn. set (y := Radio false _ _ _).
  change false with (r_tx y). change (channel_id link n) with (r_channel y). destruct (stream_tx cfg); cbn [app]; one_of_two.
Qed.

(** A service that was started and has got to the point of waiting. *)
Record up (st : settings) (is_cluster : bool) (profile : text) (x : start) (cfg : srv_cfg) (v : svc) : Prop := {
  up_link : profile_link st profile (sr_link_id x);
  up_boot : exists e s, boot_service st is_cluster e x s = Some (cfg, (v, Ok tt)) /\ printable st e x cfg
}.

Lemma up_radios st ic profile x cfg v : sr_type x ∈ service_types -> up st ic profile x cfg v ->
  0 <= sr_link_id x < 2 ^ 24 /\ exists g cards, radios (acts v) = map Some (service_plan g ic (sr_type x) cfg cards (sr_link_id x)).
Proof.
  intros Ht [Hl (e & s & Hb & Hp)]. destruct Hl as (_ & _ & d & _ & _ & _ & Hh). split; [by eapply hash_link_domain_range |].
  destruct (boot_promise _ _ _ _ _ _ _ _ Ht (link_int32 _ _ Hh) Hb Hp) as (_ & g & cards & d' & rest & _ & _ & Hd & Hr & Hok).
  exists g, cards. by rewrite Hd, (Hok eq_refl), app_nil_r, Hr.
Qed.

(** C20: two stations: a service that sends on one station and a service that
    receives on another each have exactly one radio program of that direction,
    and the two are on the same channel exactly when their profiles' domains
    hash to the same link id and the stream sent is the stream received. *)
Theorem stations_meet st1 ic1 p1 x1 cfg1 v1 n1 st2 ic2 p2 x2 cfg2 v2 n2 :
  up st1 ic1 p1 x1 cfg1 v1 -> up st2 ic2 p2 x2 cfg2 v2 -> sends_type (sr_type x1) -> receives_type (sr_type x2) ->
  stream_tx cfg1 = Some n1 -> stream_rx cfg2 = Some n2 -> 0 <= n1 < 2 ^ 8 -> 0 <= n2 < 2 ^ 8 ->
  exists c1 c2, only_radio true (radios (acts v1)) c1 /\ only_radio false (radios (acts v2)) c2 /\
    (c1 = c2 <-> sr_link_id x1 = sr_link_id x2 /\ n1 = n2).
Proof.
  intros U1 U2 T1 T2 H1 H2 R1 R2. destruct (up_radios _ _ _ _ _ _ (proj1 T1) U1) as (L1 & g1 & k1 & ->).
  destruct (up_radios _ _ _ _ _ _ (proj1 T2) U2) as (L2 & g2 & k2 & ->). eexists _, _.
  split; [by apply plan_sender |]. split; [by apply plan_receiver |]. by apply channel_id_inj.
Qed.

(** ** The shipped profiles *)

(** Local start-up of one profile on one card, with commands that succeed, and
    the radio programs of all its services. *)
Definition demo_env : env := Env (fun _ => None) (lit "00aa") (lit "00bb") false None [(0, lit "tx0")].

Definition demo_start (profile : text) : srv * result unit :=
  init demo_str (Master.master (lit "/")) demo_exec demo_listen false demo_aton demo_fmt [profile] [lit "wlan0"] None init_srv.

Definition demo_services (profile : text) : list service :=
  match parse_services (Master.master (lit "/")) profile None with Ok (ss, _) => ss | Raise _ => [] end.

Definition service_radios (x : start) (s : service) : option (list radio) :=
  '(_, (v, r)) ← boot_service (Master.master (lit "/")) false demo_env x s;
  if is_ok r then mapM (fun y => y) (radios (acts v)) else None.

Definition station (profile : text) : option (list radio) :=
  match demo_start profile with
  | (s', Ok _) => @concat radio <$> mapM (fun p => service_radios p.1 p.2) (zip (starts s') (demo_services profile))
  | _ => None
  end.

Definition sent (l : list radio) : list Z := map r_channel (List.filter r_tx l).
Definition heard (l : list radio) : list Z := map r_channel (List.filter (fun y => negb (r_tx y)) l).

(** Two stations of a pair: each sends what the other hears, and no channel is
    used twice. *)
Definition meet (l1 l2 : list radio) : bool :=
  bool_decide (sent l1 ≡ₚ heard l2) && bool_decide (sent l2 ≡ₚ heard l1) && bool_decide (NoDup (sent l1 ++ sent l2)).

Definition shipped_pairs : list (text * text) :=
  [(lit "drone", lit "gs"); (lit "two_way_udp_example_side_a", lit "two_way_udp_example_side_b"); (lit "drone_bind", lit "gs_bind")].

(** The profiles of master.cfg that belong together work together: started on
    a card of its own, each of a pair sends exactly on the channels the other
    listens to, every channel is used once, and no channel is shared with
    another pair. *)
Theorem shipped_profiles_meet :
  Forall (fun p => exists l1 l2, station p.1 = Some l1 /\ station p.2 = Some l2 /\
    l1 <> [] /\ l2 <> [] /\ meet l1 l2 = true) shipped_pairs /\
  exists all, mapM (fun p => station p.1) shipped_pairs = Some all /\ NoDup (map r_channel (concat all)).
Proof.
  split.
  - repeat (apply Forall_cons; split; [do 2 eexists; split; [vm_compute; reflexivity |]; split; [vm_compute; reflexivity |];
      split; [done |]; split; [done |]; vm_compute; reflexivity |]). apply Forall_nil_2.
  - eexists. split; [vm_compute; reflexivity |]. apply (bool_decide_unpack _). vm_compute. exact I.
Qed.

(** ** Concrete stations *)

Lemma demo_int z : (- 2 ^ 31 <=? z) && (z <? 2 ^ 31) = true -> int32 z.
Proof. unfold int32. intros [? ?]%andb_true_iff. lia. Qed.

(** Checks what [launchable] asks for on a concrete configuration. *)
Definition launchable_b (g : globals) (name rnd_rx rnd_tx : text) (cfg : srv_cfg) (wlans : list text) : bool :=
  let ok (w : text) := bool_decide (w <> []) && forallb (fun c => (33 <=? c) && (c <? 127)) w in
  let int_ok (z : option Z) := match z with Some z => (- 2 ^ 31 <=? z) && (z <? 2 ^ 31) | None => true end in
  ok (path_join (bin_dir g) (lit "wfb_tx")) && ok (path_join (bin_dir g) (lit "wfb_rx")) && ok (path_join (conf_dir g) (keypair cfg)) &&
  ok (frame_type cfg) && ok name && ok rnd_rx && ok rnd_tx && match peer cfg with Some p => ok p | None => true end &&
  forallb (fun w => bool_decide (head w <> Some 45)) wlans && int_ok (stream_tx cfg) && int_ok (stream_rx cfg).

Lemma launchable_check g t name rnd_rx rnd_tx cfg wlans :
  launchable_b g name rnd_rx rnd_tx cfg wlans = true -> launchable g t name rnd_rx rnd_tx cfg wlans.
Proof.
  unfold launchable_b. rewrite !andb_true_iff, !bool_decide_eq_true.
  intros ((((((((((H1 & H2) & H3) & H4) & H5) & H6) & H7) & H8) & H9) & H10) & H11).
  assert (Hw : forall w, w <> [] /\ forallb (fun c => (33 <=? c) && (c <? 127)) w = true -> word w).
  { intros w [Hn Hc]. by apply literal_word. }
  split; auto.
  - split_and!; by apply Hw.
  - intros p Hp. rewrite Hp, andb_true_iff, bool_decide_eq_true in H8. by apply Hw.
  - apply Forall_forall. intros w Hin. rewrite forallb_forall in H9. specialize (H9 w (proj1 (list_elem_of_In _ _) Hin)).
    by apply bool_decide_eq_true in H9.
  - intros n Hn. rewrite Hn in H10. by apply demo_int.
  - intros n Hn. rewrite Hn in H11. by apply demo_int.
Qed.

(** The same through the settings. *)
Lemma printable_check st e x cfg :
  match read_globals st, as_text (sr_name x), as_texts (sr_peers x) with
  | Some g, Some name, Some cards => launchable_b g name (e_rnd_rx e) (e_rnd_tx e) cfg cards
  | _, _, _ => true
  end = true -> printable st e x cfg.
Proof. intros H g name cards Hg Hn Hc. rewrite Hg, Hn, Hc in H. by apply launchable_check. Qed.

(** The MAVLink service of the profile [drone]: its sender and its receiver. *)
Lemma station_radios_witness : exists v, radios (acts v) =
  [Some (Radio true (channel_id 7669206 16) (lit "/etc/drone.key") [lit "wlan0"]);
   Some (Radio false (channel_id 7669206 144) (lit "/etc/drone.key") [lit "wlan0"])].
Proof.
  assert (Hx : exists x, starts (demo_start (lit "drone")).1 !! 1%nat = Some x /\ sr_type x = lit "mavlink" /\ sr_link_id x = 7669206)
    by (eexists; vm_compute; done).
  destruct Hx as (x & Hx & Ht & Hli).
  destruct (station_radios demo_str (Master.master (lit "/")) demo_exec demo_listen false demo_aton demo_fmt [lit "drone"] [lit "wlan0"] None
    _ _ 1 x (surjective_pairing (demo_start (lit "drone"))) Hx) as (services & peers & rx & profile & s & (Hs & _) & Hn & _ & _ & Hall).
  vm_compute in Hs. injection Hs as <-. vm_compute in Hn. injection Hn as <- <-. vm_compute in Hx. injection Hx as <-.
  edestruct (Hall demo_env) as (_ & g & cards & d & rest & Hg & Hc & Hd & Hr & Hok).
  { vm_compute. reflexivity. }
  { apply printable_check. vm_compute. reflexivity. }
  eexists. rewrite Hr. rewrite (Hok eq_refl), app_nil_r in Hd. rewrite <- Hd. vm_compute in Hg, Hc. injection Hg as <-. injection Hc as <-.
  vm_compute. reflexivity.
Defined.

(** A started service of a shipped profile, its configuration and its state. *)
Definition demo_nth (profile : text) (n : nat) : option (start * (srv_cfg * (svc * result unit))) :=
  x ← starts (demo_start profile).1 !! n; s ← demo_services profile !! n;
  b ← boot_service (Master.master (lit "/")) false demo_env x s; Some (x, b).

(** Its type, streams and link, when it is up and printable. *)
Definition demo_view (profile : text) (n : nat) : option (text * option Z * option Z * Z) :=
  '(x, (cfg, (v, r))) ← demo_nth profile n;
  g ← read_globals (Master.master (lit "/")); name ← as_text (sr_name x); cards ← as_texts (sr_peers x);
  if is_ok r && launchable_b g name (lit "00aa") (lit "00bb") cfg cards
  then Some (sr_type x, stream_tx cfg, stream_rx cfg, sr_link_id x) else None.

Lemma demo_up profile n t tx rx link : demo_view profile n = Some (t, tx, rx, link) -> profile_link (Master.master (lit "/")) profile link ->
  exists x cfg v, demo_nth profile n = Some (x, (cfg, (v, Ok tt))) /\ up (Master.master (lit "/")) false profile x cfg v /\
    sr_type x = t /\ stream_tx cfg = tx /\ stream_rx cfg = rx /\ sr_link_id x = link.
Proof.
  intros H Hl. unfold demo_view in H. apply bind_Some in H as ([x [cfg [v r]]] & Hn & H).
  apply bind_Some in H as (g & Hg & H). apply bind_Some in H as (name & Hna & H). apply bind_Some in H as (cards & Hc & H).
  destruct r as [[]|]; [| done]. cbn [is_ok andb] in H. destruct (launchable_b _ _ _ _ _ _) eqn:Ela; [| done]. injection H as <- <- <- <-.
  exists x, cfg, v. split; [done |]. split; [| done]. pose proof Hn as H. unfold demo_nth in H.
  apply bind_Some in H as (x' & _ & H). apply bind_Some in H as (s & _ & H). apply bind_Some in H as (b & Hb & H). injection H as -> ->.
  split; [exact Hl |]. exists demo_env, s. split; [done |]. apply printable_check. by rewrite Hg, Hna, Hc.
Qed.

(** The MAVLink services of the shipped pair. *)
Lemma stations_meet_witness : exists x1 cfg1 v1 x2 cfg2 v2 c1 c2,
  demo_nth (lit "drone") 1 = Some (x1, (cfg1, (v1, Ok tt))) /\ demo_nth (lit "gs") 1 = Some (x2, (cfg2, (v2, Ok tt))) /\
  only_radio true (radios (acts v1)) c1 /\ only_radio false (radios (acts v2)) c2 /\
  (c1 = c2 <-> sr_link_id x1 = sr_link_id x2 /\ 16 = 16).
Proof.
  assert (R : 0 <= 16 < 2 ^ 8) by lia.
  assert (L : forall p, p = lit "drone" \/ p = lit "gs" -> profile_link (Master.master (lit "/")) p 7669206).
  { intros p [-> | ->]; do 3 eexists; do 3 (split; [vm_compute; reflexivity |]); vm_compute; reflexivity. }
  destruct (demo_up (lit "drone") 1 (lit "mavlink") (Some 16) (Some 144) 7669206) as (x1 & cfg1 & v1 & N1 & U1 & T1 & S1 & _);
    [vm_compute; reflexivity | apply L; by left |].
  destruct (demo_up (lit "gs") 1 (lit "mavlink") (Some 144) (Some 16) 7669206) as (x2 & cfg2 & v2 & N2 & U2 & T2 & _ & S2 & _);
    [vm_compute; reflexivity | apply L; by right |].
  destruct (stations_meet _ false _ x1 cfg1 v1 16 _ false _ x2 cfg2 v2 16 U1 U2) as (c1 & c2 & H); [| | exact S1 | exact S2 | exact R | exact R |].
  - rewrite T1. split; [apply (bool_decide_unpack _); vm_compute; exact I | discriminate].
  - rewrite T2. split; [apply (bool_decide_unpack _); vm_compute; exact I | discriminate].
  - exists x1, cfg1, v1, x2, cfg2, v2, c1, c2. split; [exact N1 |]. split; [exact N2 | exact H].
Defined.

End Boot.
