(* ===== verification/ClusterRun.v ===== *)
(** What a cluster node runs: the start scripts of src/wfb_ng/cluster.py, read by
    the shell and by wfb_rx and wfb_tx (src/src/rx.cpp, src/src/tx.cpp), against
    the port plan and the streams of the services.  [Cluster] models how a script
    is rendered; this file says which radio programs it starts. *)
From Stdlib Require Import ZArith Lia Bool.
From stdpp Require Import base list numbers strings gmap sorting.
From S2P Require Import Prelude PyDict PyNum PyText Config Runtime Services Cluster Boot.

Module ClusterRun.
Import PyText Config Services Cluster Boot.

(** ** How a line of a script is read *)

(** Characters the shell gives no meaning to. *)
Definition shell_safe (c : Z) : bool :=
  is_digit c || within 97 122 c || within 65 90 c || existsb (Z.eqb c) (lit "-_.:/,%+=@").

Definition shell_word (w : text) : Prop := w <> [] /\ Forall (fun c => shell_safe c = true) w.

(** A radio program of a node: a receiver that forwards what it hears on a
    channel to the server, or an injector with a UDP socket for each card. *)
Inductive node_prog :=
| Forwarder (channel : Z) (addr : text) (port : Z) (cards : list text)
| Injector (qdisc : bool) (sockets : list (Z * text)).

Definition has_flag (c : Z) (os : list (Z * option text)) : bool := existsb (fun o => o.1 =? c) os.

(** wfb_rx [-f]; [-a] would make it an aggregator. *)
Definition forwarder_of (p : list (Z * option text) * list text) : option node_prog :=
  let '(os, cards) := p in
  if has_flag 102 os && negb (has_flag 97 os) && bool_decide (cards <> []) then
    radio_port ← opt_int 112 os;
    link_id ← opt_int 105 os;
    client_port ← match optarg 117 os with Some a => atoi a | None => Some 5600 end;
    Some (Forwarder (channel_id link_id radio_port) (default (lit "127.0.0.1") (optarg 99 os)) client_port cards)
  else None.

(** wfb_tx [-I srv_port]: [bind_port = srv_port != 0 ? srv_port + i : 0]. *)
Definition injector_of (p : list (Z * option text) * list text) : option node_prog :=
  let '(os, cards) := p in
  if has_flag 100 os then None
  else
    a ← optarg 73 os; srv_port ← atoi a;
    Some (Injector (has_flag 81 os)
      (imap (fun i w => (if srv_port =? 0 then 0 else srv_port + Z.of_nat i, w)) cards)).

(** The program a line starts in the background, when it is a plain command. *)
Definition launched (line : text) : option node_prog :=
  match reverse (split_ws line) with
  | amp :: rcmd =>
      if bool_decide (amp = lit "&") && forallb (forallb shell_safe) rcmd then
        match reverse rcmd with
        | prog :: args =>
            if bool_decide (prog = lit "wfb_rx") then getopt rx_opts None args ≫= forwarder_of
            else if bool_decide (prog = lit "wfb_tx") then getopt tx_opts None args ≫= injector_of
            else None
        | [] => None
        end
      else None
  | [] => None
  end.

(** ** What a node should run for a service *)

(** A stream of a service: unset, or a number. *)
Definition stream_is (s : service) (key : string) (v : option Z) : Prop :=
  match v with
  | None => PyDict.get (s_cfg s) (lit key) = Some CNone
  | Some n => PyDict.get (s_cfg s) (lit key) = Some (CNum (PyNum.NInt n)) /\ int32 n
  end.

(** Whether the packets of a service are marked. *)
Definition marked (s : service) (b : bool) : Prop :=
  exists u, PyDict.get (s_cfg s) (lit "use_qdisc") = Some u /\
    if truth u then exists m, PyDict.get (s_cfg s) (lit "fwmark") = Some m /\ b = negb (is_none m) else b = false.

(** The receiver for the stream it hears, the injector for the stream it sends. *)
Definition node_plan (link_id : Z) (addr : text) (server_port : Z) (ports : list Z) (wl : list text)
    (rx tx : option Z) (qdisc : bool) : list node_prog :=
  match rx with Some n => [Forwarder (channel_id link_id n) addr server_port wl] | None => [] end ++
  match tx with Some _ => [Injector qdisc (zip ports wl)] | None => [] end.

(** ** Reading words *)

Lemma safe_not_space c : shell_safe c = true -> is_space c = false.
Proof.
  intros H. apply plain_not_space. unfold plain. unfold shell_safe, is_digit, within in H.
  rewrite !orb_true_iff, !andb_true_iff, existsb_exists in H. destruct H as [H | (x & Hx & ->%Z.eqb_eq)]; [lia |].
  assert (Hin : x ∈ lit "-_.:/,%+=@") by (by apply list_elem_of_In). vm_compute in Hin.
  repeat (apply elem_of_cons in Hin as [-> | Hin]; [lia |]). by apply elem_of_nil in Hin.
Qed.

Lemma shell_word_word w : shell_word w -> word w.
Proof. intros [Hn Hw]. split; [done |]. eapply Forall_impl; [exact Hw |]. apply safe_not_space. Qed.

Lemma shell_lit w : forallb shell_safe w && bool_decide (w <> []) = true -> shell_word w.
Proof. intros [H Hn%bool_decide_eq_true]%andb_true_iff. split; [done |].
  apply Forall_forall. intros c Hc%list_elem_of_In. rewrite forallb_forall in H. by apply H. Qed.

Lemma shell_d z : shell_word (print_d z).
Proof.
  split; [apply print_d_ne |]. unfold print_d.
  assert (Hu : forall n, 0 <= n -> Forall (fun c => shell_safe c = true) (print_u n)).
  { intros n Hn. eapply Forall_impl; [by apply print_u_digits |]. intros c Hc. unfold shell_safe. by rewrite Hc. }
  destruct (Z.ltb_spec z 0); [constructor; [done |] |]; apply Hu; lia.
Qed.

Lemma split_go_gap cur ws l : cur <> [] -> Forall word ws -> split_go cur (spaced ws ++ 32 :: l) = cur :: ws ++ split_go [] l.
Proof.
  intros Hc Hws. revert cur Hc. induction Hws as [|w ws [Hne Hw] _ IH]; intros cur Hc.
  - cbn [spaced map concat app split_go]. change (is_space 32) with true. by destruct cur.
  - rewrite spaced_cons. cbn [app split_go]. change (is_space 32) with true. cbv iota.
    rewrite <- app_assoc, (split_go_word [] w _ Hw), app_nil_l, (IH w Hne). by destruct cur.
Qed.

Lemma split_gap w ws l : word w -> Forall word ws -> split_ws (w ++ spaced ws ++ 32 :: l) = w :: ws ++ split_ws l.
Proof. intros [Hne Hw] Hws. unfold split_ws. rewrite (split_go_word [] w _ Hw), app_nil_l. by apply split_go_gap. Qed.

Lemma split_ws_space l : split_ws (32 :: l) = split_ws l.
Proof. done. Qed.

Lemma split_ws_spaced ws : Forall word ws -> split_ws (spaced ws) = ws.
Proof. destruct 1 as [|w ws Hw Hws]; [done |]. rewrite spaced_cons, split_ws_space. by apply split_spaced. Qed.

Lemma spaces_spaced ws : ws <> [] -> 32 :: spaces ws = spaced ws.
Proof.
  intros Hne. unfold spaces. induction ws as [|w ws IH]; [done |]. rewrite spaced_cons. destruct ws as [|w2 ws].
  - cbn. by rewrite app_nil_r.
  - f_equal. cbn [join]. f_equal. by apply IH.
Qed.

(** A command in the background. *)
Lemma launched_words line prog args : split_ws line = prog :: args ++ [lit "&"] -> Forall shell_word (prog :: args) ->
  launched line =
    if bool_decide (prog = lit "wfb_rx") then getopt rx_opts None args ≫= forwarder_of
    else if bool_decide (prog = lit "wfb_tx") then getopt tx_opts None args ≫= injector_of else None.
Proof.
  intros Hs Hw. unfold launched. rewrite Hs, app_comm_cons, reverse_app. change (reverse [lit "&"]) with [lit "&"]. cbn [app].
  rewrite bool_decide_eq_true_2 by done. cbn [andb].
  assert (H : forallb (forallb shell_safe) (reverse (prog :: args)) = true).
  { apply forallb_forall. intros w Hin%list_elem_of_In. rewrite elem_of_reverse in Hin. rewrite Forall_forall in Hw.
    destruct (Hw w Hin) as [_ Hc]. apply forallb_forall. intros c Hin'%list_elem_of_In. rewrite Forall_forall in Hc. by apply Hc. }
  by rewrite H, reverse_involutive.
Qed.

(** Any other command starts no radio program. *)
Lemma launched_other w l : word w -> w <> lit "wfb_rx" -> w <> lit "wfb_tx" -> w <> lit "&" -> launched (w ++ 32 :: l) = None.
Proof.
  intros Hw H1 H2 H3. unfold launched.
  pose proof (split_gap w [] l Hw (Forall_nil_2 _)) as E. cbn [spaced map concat app] in E. rewrite E. clear E.
  rewrite reverse_cons. destruct (reverse (split_ws l)) as [|amp r]; cbn [app].
  - by rewrite bool_decide_eq_false_2.
  - destruct (_ && _); [| done]. rewrite reverse_snoc. by rewrite !bool_decide_eq_false_2.
Qed.

(** ** The lines of a script *)

(** The name of a card, in a command line. *)
Definition card_name (w : text) : Prop := shell_word w /\ operand w.

Section Lines.
Context (py_str : cval -> text) (rcv_buf : Z) (d : node_srv) (addr : text) (server_port : Z).
Context (Haddr : (ns_rx_fwd d).1 = CStr addr) (Hshell : shell_word addr).
Context (Hport : (ns_rx_fwd d).2 = CNum (PyNum.NInt server_port)) (Hserver : int32 server_port).
Context (Hcards : Forall card_name (ns_wlans d)) (Hsome : ns_wlans d <> []) (Hlink : int32 (ns_link_id d)).

Ltac shell_words :=
  repeat first [assumption | apply shell_d | apply Forall_nil_2 | apply Forall_cons; split | apply Forall_app; split
               | apply shell_lit; reflexivity].

Ltac read_group := repeat first [apply reads_opt; [reflexivity | discriminate |] | apply reads_flag; [reflexivity | discriminate |]
                                | apply reads_nil].

Lemma card_words : Forall shell_word (ns_wlans d).
Proof using Hcards. eapply Forall_impl; [exact Hcards |]. by intros w [H _]. Qed.

Lemma card_operands : Forall operand (ns_wlans d).
Proof using Hcards. eapply Forall_impl; [exact Hcards |]. by intros w [_ H]. Qed.

(** A program name, its options, the cards and an ampersand. *)
Lemma launched_command prog opts : Forall shell_word (prog :: opts) ->
  launched (prog ++ spaced (opts ++ ns_wlans d ++ [lit "&"])) =
    if bool_decide (prog = lit "wfb_rx") then getopt rx_opts None (opts ++ ns_wlans d) ≫= forwarder_of
    else if bool_decide (prog = lit "wfb_tx") then getopt tx_opts None (opts ++ ns_wlans d) ≫= injector_of else None.
Proof using Hcards.
  intros [Hp Ho]%Forall_cons. pose proof card_words as Hc. apply launched_words; [| by constructor; [| apply Forall_app]].
  rewrite <- app_assoc. apply split_spaced; [by apply shell_word_word |].
  repeat (apply Forall_app; split); try (eapply Forall_impl; [eassumption | apply shell_word_word]).
  repeat constructor. discriminate.
Qed.

Lemma spaced_cards pre : pre ++ 32 :: spaces (ns_wlans d) ++ lit " &" = pre ++ spaced (ns_wlans d ++ [lit "&"]).
Proof using Hsome. rewrite app_comm_cons, spaces_spaced, spaced_app by done. done. Qed.

(** The receiver's line. *)
Lemma launched_rx n : ns_stream_rx d = CNum (PyNum.NInt n) -> int32 n ->
  launched (rx_line py_str (print_d rcv_buf) d) =
  Some (Forwarder (channel_id (ns_link_id d) n) addr server_port (ns_wlans d)).
Proof using All.
  intros Hn Hi. unfold rx_line. rewrite Haddr, Hport, Hn. cbn [fmt_s].
  set (opts := [lit "-f"; lit "-c"; addr; lit "-u"; print_d server_port; lit "-p"; print_d n; lit "-i"; print_d (ns_link_id d);
                lit "-R"; print_d rcv_buf]).
  replace (lit "wfb_rx -f -c " ++ _) with (lit "wfb_rx" ++ spaced (opts ++ ns_wlans d ++ [lit "&"])).
  2: { change (lit " " ++ ?x) with (32 :: x). rewrite spaced_app, <- (spaced_cards (spaced opts)). unfold opts. rewrite !spaced_cons.
       cbn [spaced map concat]. by repeat (rewrite <- ?app_assoc; cbn [app]). }
  rewrite launched_command by (unfold opts; shell_words). rewrite bool_decide_eq_true_2 by done.
  set (os := [(102, None); (99, Some addr); (117, Some (print_d server_port)); (112, Some (print_d n));
              (105, Some (print_d (ns_link_id d))); (82, Some (print_d rcv_buf))] : list (Z * option text)).
  rewrite (reads_operands rx_opts opts os) by (first [apply card_operands | unfold opts, os; read_group]).
  cbn [mbind option_bind]. unfold forwarder_of. rewrite bool_decide_eq_true_2 by done. unfold opt_int, os. cbn [has_flag existsb fst orb negb andb Z.eqb Pos.eqb].
  unfold optarg. cbn [omap list_omap fst snd Z.eqb Pos.eqb last]. rewrite !atoi_print by done. done.
Qed.

(** The sockets of an injector. *)
Lemma sockets_zip base (wl : list text) : 0 < base ->
  imap (fun i w => (if base =? 0 then 0 else base + Z.of_nat i, w)) wl = zip (map (fun i => base + Z.of_nat i) (seq 0 (length wl))) wl.
Proof using Type.
  intros Hb. apply list_eq. intros i. rewrite list_lookup_imap, lookup_zip_with, list_lookup_fmap.
  destruct (wl !! i) as [w|] eqn:E; cbn.
  - rewrite lookup_seq_lt by (by eapply lookup_lt_Some). cbn. by rewrite (proj2 (Z.eqb_neq _ _)) by lia.
  - by destruct (_ <$> _).
Qed.

(** The injector's line, with marks or without. *)
Lemma launched_tx line : tx_line (print_d rcv_buf) d = Ok line -> 0 < ns_tx_port_base d < 2 ^ 31 ->
  launched line = Some (Injector (negb (is_none (ns_fwmark d)))
    (zip (map (fun i => ns_tx_port_base d + Z.of_nat i) (seq 0 (length (ns_wlans d)))) (ns_wlans d))).
Proof using Hcards Hsome.
  intros H Hb. unfold tx_line in H. apply bind_ok in H as (q & Hq & [= <-]). rewrite <- sockets_zip by lia.
  set (opts := [lit "-I"; print_d (ns_tx_port_base d); lit "-R"; print_d rcv_buf]).
  assert (Hint : int32 (ns_tx_port_base d)) by (unfold int32; lia).
  change (lit " " ++ ?x) with (32 :: x). destruct (is_none (ns_fwmark d)).
  - injection Hq as <-. cbn [app].
    assert (E : split_ws (lit "wfb_tx -I " ++ print_d (ns_tx_port_base d) ++ lit " -R " ++ print_d rcv_buf ++ 32 :: 32 :: spaces (ns_wlans d) ++ lit " &")
              = lit "wfb_tx" :: (opts ++ ns_wlans d) ++ [lit "&"]).
    { transitivity (split_ws (lit "wfb_tx" ++ spaced opts ++ 32 :: spaced (ns_wlans d ++ [lit "&"]))).
      { f_equal. rewrite <- (app_nil_l (spaced (ns_wlans d ++ [lit "&"]))), <- (spaced_cards []). unfold opts. rewrite !spaced_cons. cbn [spaced map concat].
        by repeat (rewrite <- ?app_assoc; cbn [app]). }
      rewrite split_gap, split_ws_spaced, <- app_assoc; [done | | |].
      - apply Forall_app. split; [eapply Forall_impl; [apply card_words | apply shell_word_word] | repeat constructor; discriminate].
      - by apply shell_word_word, shell_lit.
      - eapply Forall_impl; [| apply shell_word_word]. unfold opts. shell_words. }
    etransitivity; [refine (launched_words _ (lit "wfb_tx") (opts ++ ns_wlans d) E _); pose proof card_words; unfold opts; shell_words |].
    rewrite (reads_operands tx_opts opts [(73, Some (print_d (ns_tx_port_base d))); (82, Some (print_d rcv_buf))])
      by (first [apply card_operands | unfold opts; read_group]).
    cbn [mbind option_bind injector_of has_flag existsb fst orb Z.eqb Pos.eqb]. unfold optarg. cbn [omap list_omap fst snd Z.eqb Pos.eqb last].
    cbn [mbind option_bind]. by rewrite atoi_print.
  - apply bind_ok in Hq as (v & Hv & [= <-]). assert (exists z, v = print_d z) as [z ->].
    { unfold percent_d in Hv. destruct (ns_fwmark d) as [|b|n| | | |]; try done; [by injection Hv as <-; eexists |].
      apply bind_ok in Hv as (z & _ & [= <-]). by exists z. }
    set (opts2 := opts ++ [lit "-Q"; lit "-P"; print_d z]).
    match goal with |- launched ?l = _ => replace l with (lit "wfb_tx" ++ spaced (opts2 ++ ns_wlans d ++ [lit "&"])) end.
    2: { rewrite spaced_app, <- (spaced_cards (spaced opts2)). unfold opts2, opts. rewrite !spaced_app, !spaced_cons. cbn [spaced map concat].
         by repeat (rewrite <- ?app_assoc; cbn [app]). }
    rewrite launched_command by (unfold opts2, opts; shell_words). rewrite bool_decide_eq_false_2, bool_decide_eq_true_2 by done.
    rewrite (reads_operands tx_opts opts2 [(73, Some (print_d (ns_tx_port_base d))); (82, Some (print_d rcv_buf)); (81, None); (80, Some (print_d z))])
      by (first [apply card_operands | unfold opts2, opts; cbn [app]; read_group]).
    cbn [mbind option_bind injector_of has_flag existsb fst orb Z.eqb Pos.eqb]. unfold optarg. cbn [omap list_omap fst snd Z.eqb Pos.eqb last].
    cbn [mbind option_bind]. by rewrite atoi_print.
Qed.

End Lines.

(** ** Lines that start no radio program *)

Definition idle (l : text) : Prop := launched l = None.

Lemma idle_space l : idle l -> idle (32 :: l).
Proof. done. Qed.

Lemma idle_lines ls : Forall idle ls -> omap launched ls = [].
Proof. induction 1 as [|l ls Hl _ IH]; [done |]. cbn [omap list_omap]. unfold idle in Hl. by rewrite Hl. Qed.

Lemma idle_word (w : string) l : forallb (fun c => negb (is_space c)) (lit w) && bool_decide (lit w ∉ [[]; lit "wfb_rx"; lit "wfb_tx"; lit "&"]) = true ->
  idle (lit w ++ 32 :: l).
Proof.
  intros [Hw Hn%bool_decide_eq_true]%andb_true_iff. rewrite !not_elem_of_cons in Hn. destruct Hn as (H0 & H1 & H2 & H3 & _).
  apply launched_other; try done. split; [done |]. apply Forall_forall. intros c Hc%list_elem_of_In.
  rewrite forallb_forall in Hw. specialize (Hw c Hc). by destruct (is_space c).
Qed.

Ltac idle_by w := apply (idle_word w); vm_compute; reflexivity.
Ltac idle_any := first [done | idle_by "iw"%string | idle_by "ip"%string | idle_by "if"%string | idle_by "#"%string
                       | do 2 apply idle_space; idle_by "nmcli"%string].

Section Script.
Context (py_str : cval -> text).

Lemma idle_wlan x w ls : wlan_lines py_str x w = Ok ls -> Forall idle ls.
Proof using Type.
  intros (ch & _ & (n & _ & (pw & _ & H)%bind_ok)%bind_ok)%bind_ok. apply Ok_inj in H as <-. apply Forall_app. split.
  - repeat (apply Forall_cons; split; [idle_any |]). apply Forall_nil_2.
  - destruct (_ || _); repeat constructor; idle_any.
Qed.

Lemma idle_wlans x l wl : result_map (wlan_lines py_str x) l = Ok wl -> Forall idle (concat wl).
Proof using Type.
  revert wl. induction l as [|w l IH]; intros wl H; cbn [result_map] in H; [injection H as <-; constructor |].
  apply bind_ok in H as (ls & Hls & (r & Hr & [= <-])%bind_ok). cbn [concat]. apply Forall_app. split; [by eapply idle_wlan | by apply IH].
Qed.

Lemma idle_start : Forall idle script_start.
Proof using Type. repeat (apply Forall_cons; split; [vm_compute; reflexivity |]). apply Forall_nil_2. Qed.

Lemma idle_end x : Forall idle (script_end x).
Proof using Type. unfold script_end. destruct (x_ssh_mode x); repeat (apply Forall_cons; split; [vm_compute; reflexivity |]); apply Forall_nil_2. Qed.

(** The programs of the lines of a service. *)
Lemma service_block rcv_buf key d b attrs c s link port wl addr server_port rx tx q :
  service_lines py_str (print_d rcv_buf) (key, d) = Ok b -> told_about c attrs s link port wl d ->
  search_attr (lit "server_address") [attrs; c] = Ok (CStr addr) -> shell_word addr ->
  (ns_rx_fwd d).2 = CNum (PyNum.NInt server_port) -> int32 server_port -> Forall card_name wl -> wl <> [] -> int32 link ->
  0 < port < 2 ^ 31 -> stream_is s "stream_rx" rx -> stream_is s "stream_tx" tx -> marked s q ->
  omap launched b = node_plan link addr server_port (map (fun i => port + Z.of_nat i) (seq 0 (length wl))) wl rx tx q.
Proof using Type.
  intros H Ht Ha Hsh Hp Hpi Hc Hne Hl Hb Hrx Htx Hq. destruct Ht as [<- <- <- Hsv _ Etx Erx Efw].
  assert (Haddr : (ns_rx_fwd d).1 = CStr addr) by congruence.
  unfold service_lines in H. cbn [fst snd] in H. apply bind_ok in H as (txl & Htxl & H). apply Ok_inj in H as <-.
  rewrite !omap_app. rewrite (idle_lines [[]; lit "# " ++ key]) by (repeat constructor; idle_any). cbn [app]. unfold node_plan. f_equal.
  - destruct rx as [n|]; unfold stream_is in Hrx.
    + destruct Hrx as [Hrx Hn]. rewrite Hrx in Erx. injection Erx as Erx. rewrite <- Erx. cbn [is_none omap list_omap].
      by rewrite (launched_rx py_str rcv_buf d addr server_port Haddr Hsh Hp Hpi Hc Hne Hl n).
    + rewrite Hrx in Erx. injection Erx as <-. done.
  - destruct tx as [n|]; unfold stream_is in Htx.
    + destruct Htx as [Htx _]. rewrite Htx in Etx. injection Etx as Etx. rewrite <- Etx in Htxl. cbn [is_none] in Htxl.
      apply bind_ok in Htxl as (l & Hline & [= <-]). cbn [omap list_omap]. rewrite (launched_tx rcv_buf d Hc Hne l Hline Hb).
      do 3 f_equal. destruct Efw as (u & Hu & Efw), Hq as (u' & Hu' & Hq). rewrite Hu in Hu'. injection Hu' as <-.
      destruct (truth u); [| by rewrite Efw, Hq]. destruct Hq as (m & Hm & ->). rewrite Hm in Efw. by injection Efw as ->.
    + rewrite Htx in Etx. injection Etx as Etx. rewrite <- Etx in Htxl. by injection Htxl as <-.
Qed.

End Script.

(** ** The scripts carry out the plan *)

Lemma omap_concat {A B} (f : A -> option B) (l : list (list A)) : omap f (concat l) = concat (map (omap f) l).
Proof. induction l as [|x l IH]; [done |]. cbn [concat map]. by rewrite omap_app, IH. Qed.

Section Plan.
Context (py_str : cval -> text) (st : settings) (profiles : list text) (ssh_mode : bool).
Context (services : list (text * list service)) (cn : PyDict.dict text (PyDict.dict text node_srv)).
Context (scripts : PyDict.dict text (list text)) (c : sect) (nodes : list (text * sect)) (base_server base_node : Z).
Context (Hparse : parse_cluster_services py_str st profiles = Ok (services, cn)).
Context (Hgen : gen_cluster_scripts py_str st cn ssh_mode = Ok scripts).
Context (Hc : cluster_sect st = Ok c) (Hnodes : nodes_of st = Ok nodes) (Hdistinct : NoDup nodes.*1).
Context (Hbs : (v ← getattr c (lit "base_port_server"); as_int v) = Ok base_server).
Context (Hbn : (v ← getattr c (lit "base_port_node"); as_int v) = Ok base_node).
Context (Hkeys : NoDup (map (fun x => key_of py_str x.1 x.2) (flat services))) (Hany : flat services <> []).

(** C12: the scripts carry out the port plan.  Take a cluster with at least one
    service, whose services have different keys, whose ports are positive and stay
    below 2^16 and whose receive buffer size is an integer, and a node of it with
    cards and a server address that are plain words.  Read line by line as the shell, wfb_rx
    and wfb_tx read it, the script of the node starts, besides what a custom
    script of its own contains, exactly these radio programs, service by service
    in the order of the services: for a service that has a stream to receive, one
    forwarder on the channel of that stream and of the link id of its profile, with
    all cards of the node, to the server's address and the port the server listens
    on for this service; for one that has a stream to send, one injector that has
    for each card the very port the server is told to send to for that card, and
    that marks packets when the service says so. *)
Theorem cluster_scripts_follow_plan common rcv_buf node attrs wl addr :
  getattr st (lit "common") = Ok common -> getattr common (lit "tx_rcv_buf_size") = Ok (CNum (PyNum.NInt rcv_buf)) ->
  (node, attrs) ∈ nodes -> wlans_of attrs = Ok wl -> Forall card_name wl ->
  search_attr (lit "server_address") [attrs; c] = Ok (CStr addr) -> shell_word addr ->
  0 <= base_server -> base_server + Z.of_nat (length (flat services)) <= 2 ^ 16 ->
  0 < base_node -> base_node + Z.of_nat (length (flat services) * length wl) <= 2 ^ 16 ->
  exists lines own plans, PyDict.get scripts node = Some lines /\ omap launched lines = own ++ concat plans /\
    (search_attr (lit "custom_init_script") [attrs; c] = Ok CNone -> own = []) /\ length plans = length (flat services) /\
    forall k p s rx tx q, flat services !! k = Some (p, s) ->
      stream_is s "stream_rx" rx -> stream_is s "stream_tx" tx -> marked s q ->
      server_side base_server base_node (merge_sort node_le nodes) k s /\
      exists link, link_id_of st p = Ok link /\
        plans !! k = Some (node_plan link addr (base_server + Z.of_nat k) (ports_at base_node k (length wl)) wl rx tx q).
Proof using All.
  intros Hcommon Hrcv Hin Hw Hcards Haddr Hsh Hs0 Hs1 Hn0 Hn1.
  destruct (node_plan_told py_str st _ _ _ _ _ _ _ Hparse Hc Hnodes Hdistinct Hbs Hbn Hkeys Hany node attrs wl Hin Hw) as (m & Hm & Hlen & Htold).
  destruct (port_plan py_str st _ _ _ _ _ _ _ Hparse Hc Hnodes Hdistinct Hbs Hbn) as [Hside _].
  destruct (gen_scripts_get py_str st cn ssh_mode scripts node m Hgen (cluster_nodes_ok py_str st _ _ _ Hparse) Hm) as (lines & Hscr & Hget).
  destruct (script_of_ctx py_str st _ _ _ _ Hscr) as (x & nodes' & attrs' & c' & Hren & Hx & Hn' & Ha' & Hc' & Hcu).
  assert (nodes' = nodes) as -> by congruence. assert (c' = c) as -> by congruence. assert (attrs' = attrs) as ->.
  { unfold PyDict.item in Ha'. rewrite (PyDict.In_get nodes node attrs Hdistinct Hin) in Ha'. by injection Ha'. }
  destruct (render_parts py_str st x lines Hren) as (common' & region & wll & rcv' & sv & Hco & Hr & Hwl & Hsv & ->).
  assert (common' = common) as -> by congruence. rewrite Hrcv in Hr. injection Hr as <-. rewrite Hx in Hsv.
  exists (script_start ++ custom_lines py_str x ++ [[]; lit "iw reg set " ++ fmt_s py_str region] ++ concat wll ++ concat sv ++ script_end x),
    (omap launched (custom_lines py_str x)), (map (omap launched) sv). split_and!.
  - done.
  - rewrite !omap_app, (idle_lines script_start), (idle_lines (concat wll)), (idle_lines (script_end x)),
      (idle_lines [[]; _]) by (first [apply idle_start | by eapply idle_wlans | apply idle_end | repeat constructor; idle_any]).
    cbn [app]. by rewrite app_nil_r, omap_concat.
  - rewrite Hcu. intros [= Hnone]. unfold custom_lines. by rewrite Hnone.
  - by rewrite length_map, <- (Forall2_length _ _ _ (proj1 (result_map_ok _ _ _) Hsv)).
  - intros k p s rx tx q Hk Hrx Htx Hq. pose proof (Hside k p s Hk) as Hsd. split; [done |].
    destruct (Htold k p s Hk) as (d & link & Hd & Hlink & Hport & Ht). exists link. split; [done |].
    destruct (Forall2_lookup_l _ _ _ _ _ (proj1 (result_map_ok _ _ _) Hsv) Hd) as (b & Hbk & Hb). rewrite list_lookup_fmap, Hbk. cbn [fmap option_fmap option_map]. f_equal.
    assert (Hkl : (k < length (flat services))%nat) by (by eapply lookup_lt_Some).
    assert (Hwl0 : wl <> []).
    { destruct Hsd as [_ (ps & _ & Hps)]. assert (Hin' : (node, attrs) ∈ merge_sort node_le nodes) by (by rewrite merge_sort_Permutation).
      apply list_elem_of_lookup in Hin' as [i Hi]. destruct (Forall2_lookup_l _ _ _ _ _ Hps Hi) as (peer & _ & (wl' & Hw' & Hpos & _)).
      cbn [snd] in Hw'. rewrite Hw in Hw'. injection Hw' as <-. intros ->. cbn in Hpos. lia. }
    assert (length wl <> 0%nat) by (by destruct wl).
    apply (service_block py_str rcv_buf (key_of py_str p s) d b attrs c s link (base_node + Z.of_nat (k * length wl)) wl addr _ rx tx q); try done.
    + unfold int32. lia.
    + unfold link_id_of in Hlink. apply bind_ok in Hlink as (pc & _ & (dm & _ & (dt & _ & Hh)%bind_ok)%bind_ok). by eapply link_int32.
    + nia.
Qed.

End Plan.

(** The cluster of [Cluster] with its two services: the node with two cards
    receives video and the tunnel and sends the tunnel. *)
Lemma cluster_scripts_follow_plan_witness : exists scripts lines,
  gen_cluster_scripts demo_str demo_cluster demo_nodes true = Ok scripts /\ PyDict.get scripts (lit "192.168.1.9") = Some lines /\
  omap launched lines =
    [Forwarder (channel_id 7669206 0) (lit "192.168.1.1") 10000 [lit "wlan0"; lit "wlan1"];
     Forwarder (channel_id 7669206 32) (lit "192.168.1.1") 10001 [lit "wlan0"; lit "wlan1"];
     Injector true [(11002, lit "wlan0"); (11003, lit "wlan1")]].
Proof.
  assert (Hg : exists scripts, gen_cluster_scripts demo_str demo_cluster demo_nodes true = Ok scripts)
    by (eexists; vm_compute; reflexivity).
  destruct Hg as [scripts Hg]. exists scripts.
  edestruct (cluster_scripts_follow_plan demo_str demo_cluster [lit "gs"] true Cluster.demo_services demo_nodes scripts demo_sect demo_attrs 10000 11000)
    with (node := lit "192.168.1.9") (wl := [lit "wlan0"; lit "wlan1"]) (addr := lit "192.168.1.1") as (lines & own & plans & Hl & Ho & Hc & Hn & Hk).
  - vm_compute. reflexivity.
  - exact Hg.
  - reflexivity.
  - reflexivity.
  - apply (bool_decide_unpack (NoDup demo_attrs.*1)). vm_compute. exact I.
  - reflexivity.
  - reflexivity.
  - apply (bool_decide_unpack (NoDup (map (fun x => key_of demo_str x.1 x.2) (flat Cluster.demo_services)))). vm_compute. exact I.
  - vm_compute. discriminate.
  - vm_compute. reflexivity.
  - vm_compute. reflexivity.
  - vm_compute. left.
  - reflexivity.
  - repeat (apply Forall_cons; split; [split; [by apply shell_lit | done] |]). apply Forall_nil_2.
  - vm_compute. reflexivity.
  - by apply shell_lit.
  - lia.
  - vm_compute. discriminate.
  - lia.
  - vm_compute. discriminate.
  - exists lines. split; [exact Hg |]. split; [exact Hl |]. rewrite Ho, Hc by reflexivity.
    assert (E : exists a b, flat Cluster.demo_services = [(lit "gs", a); (lit "gs", b)]) by (do 2 eexists; vm_compute; reflexivity).
    destruct plans as [|p0 [|p1 [|]]]; try (vm_compute in Hn; discriminate Hn).
    edestruct (Hk 0%nat (lit "gs")) as (_ & l0 & L0 & P0); [vm_compute; reflexivity | instantiate (1 := Some 0); split; [vm_compute; reflexivity | vm_compute; split; congruence] | instantiate (1 := None); vm_compute; reflexivity | eexists; split; [vm_compute; reflexivity |]; vm_compute; eexists; split; reflexivity |].
    edestruct (Hk 1%nat (lit "gs")) as (_ & l1 & L1 & P1); [vm_compute; reflexivity | instantiate (1 := Some 32); split; [vm_compute; reflexivity | vm_compute; split; congruence] | instantiate (1 := Some 160); split; [vm_compute; reflexivity | vm_compute; split; congruence] | eexists; split; [vm_compute; reflexivity |]; vm_compute; eexists; split; reflexivity |].
    vm_compute in L0, L1. injection L0 as <-. injection L1 as <-. injection P0 as ->. injection P1 as ->. vm_compute. reflexivity.
Defined.

End ClusterRun.
