(* ===== verification/Stations.v ===== *)
(** Whole stations: everything [init] of src/wfb_ng/server.py starts for a list of
    profiles, with the radio programs its services start (src/wfb_ng/services.py),
    against the streams and the link domains of the settings.  [Boot] does one
    service; this file puts the services of a station together and says when two
    stations hear each other. *)
From Stdlib Require Import ZArith Lia Bool.
From stdpp Require Import base list numbers strings gmap.
From S2P Require Import Prelude PyStruct PyDict PyNum PyText Config Runtime Services Cluster Server Master Boot.

Module Stations.
Import PyText Config Runtime Services Cluster Server Boot.

(** ** A running station *)

(** What a machine answers to start-up, and how it prints values. *)
Record machine := Machine {
  m_str : cval -> text;
  m_exec : list (list text) -> list text -> outcome;
  m_listen : cval -> result unit;
  m_nmcli : bool;
  m_aton : text -> result bytes;
  m_fmt : text -> text -> result text
}.

(** A started service: the call made for it, its attributes, the configuration
    read from them, what the machine answered, and what it did. *)
Record running := Running { ru_start : start; ru_service : service; ru_cfg : srv_cfg; ru_env : env; ru_svc : svc }.

(** The services of a run, in order, with their profiles. *)
Definition parsed_services (m : machine) (st : settings) (profiles : list text) (mode : option text)
    : result (list (text * list service)) :=
  if clustered mode then '(ss, _) ← parse_cluster_services (m_str m) st profiles; Ok ss else parse_local st profiles.

(** The station is up: start-up has succeeded, and every service of the parsed
    profiles has been started and waits for its programs. *)
Record station (m : machine) (st : settings) (profiles wlans : list text) (mode : option text)
    (services : list (text * list service)) (us : list running) : Prop := {
  sn_init : exists s', init (m_str m) st (m_exec m) (m_listen m) (m_nmcli m) (m_aton m) (m_fmt m) profiles wlans mode init_srv = (s', Ok tt) /\
              starts s' = map ru_start us;
  sn_parsed : parsed_services m st profiles mode = Ok services;
  sn_services : (flat services).*2 = map ru_service us;
  sn_up : Forall (fun u => boot_service st (clustered mode) (ru_env u) (ru_start u) (ru_service u) = Some (ru_cfg u, (ru_svc u, Ok tt)) /\
                           printable st (ru_env u) (ru_start u) (ru_cfg u)) us
}.

(** The channels the radio programs of a direction work on, as they read them
    from their command lines. *)
Definition of_direction (tx : bool) (y : option radio) : option Z :=
  y ← y; if Bool.eqb (r_tx y) tx then Some (r_channel y) else None.

Definition channels (tx : bool) (us : list running) : list Z :=
  concat (map (fun u => omap (of_direction tx) (radios (acts (ru_svc u)))) us).

(** ** What the settings ask for *)

(** Whether services of a type send, or receive. *)
Definition direction_of (tx : bool) (t : text) : bool :=
  negb (bool_decide (t = if tx then lit "udp_direct_rx" else lit "udp_direct_tx")).

(** The link id and the stream of a service, when it has one of that direction. *)
Definition stream_of (st : settings) (tx : bool) (ps : text * service) : option (Z * Z) :=
  t ← as_text (s_type ps.2);
  n ← PyDict.get (s_cfg ps.2) (if tx then lit "stream_tx" else lit "stream_rx") ≫= as_Z;
  match link_id_of st ps.1 with
  | Ok l => if direction_of tx t then Some (l, n) else None
  | Raise _ => None
  end.

Definition streams (st : settings) (tx : bool) (services : list (text * list service)) : list (Z * Z) :=
  omap (stream_of st tx) (flat services).

(** Streams that fit the byte the channel has for them. *)
Definition stream_bytes (l : list (Z * Z)) : Prop := Forall (fun p => 0 <= p.2 < 2 ^ 8) l.

(** ** Channels of a station *)

Lemma read_cfg_streams s cfg : read_cfg s = Some cfg ->
  stream_rx cfg = PyDict.get s (lit "stream_rx") ≫= as_Z /\ stream_tx cfg = PyDict.get s (lit "stream_tx") ≫= as_Z.
Proof.
  intros H. assert (Hattr : forall k v, attr (opt_of as_Z) None s k = Some v -> v = PyDict.get s (lit k) ≫= as_Z).
  { intros k v. unfold attr. destruct (PyDict.get s (lit k)) as [w|]; cbn [mbind option_bind]; [| by intros [= <-]].
    unfold opt_of. destruct w; cbn; try (by intros [= <-]); try done. destruct n; cbn; try done. by intros [= <-]. }
  unfold read_cfg in H. do 3 (apply bind_Some in H as (? & ? & H)). apply bind_Some in H as (? & ? & H).
  do 26 (apply bind_Some in H as (? & _ & H)). injection H as <-. cbn [stream_rx stream_tx]. split; by apply Hattr.
Qed.

(** The channels of one service. *)
Lemma plan_channels tx g ic t cfg cards link :
  omap (of_direction tx) (map Some (service_plan g ic t cfg cards link)) =
  match (if tx then stream_tx cfg else stream_rx cfg) with
  | Some n => if direction_of tx t then [channel_id link n] else []
  | None => []
  end.
Proof.
  unfold service_plan, direction_of, sender, receiver.
  destruct tx; destruct (stream_tx cfg), (stream_rx cfg); repeat case_decide; subst; rewrite ?bool_decide_eq_true_2, ?bool_decide_eq_false_2 by done; done.
Qed.

Lemma parsed_of_plan m st profiles wlans mode services peers rx_only :
  mode_plan (m_str m) st (m_aton m) profiles wlans mode services peers rx_only -> parsed_services m st profiles mode = Ok services.
Proof.
  unfold mode_plan, parsed_services. destruct mode as [[|c n]|]; cbn [clustered]; try by intros (? & _).
  intros [(cn & -> & _) _]. done.
Qed.

(** A service that is up works on the channel of its stream and its link. *)
Lemma running_channels tx st ic ps u : 
  sr_type (ru_start u) ∈ service_types -> as_name (s_type ps.2) = Ok (sr_type (ru_start u)) -> ps.2 = ru_service u ->
  link_id_of st ps.1 = Ok (sr_link_id (ru_start u)) ->
  boot_service st ic (ru_env u) (ru_start u) (ru_service u) = Some (ru_cfg u, (ru_svc u, Ok tt)) ->
  printable st (ru_env u) (ru_start u) (ru_cfg u) ->
  omap (of_direction tx) (radios (acts (ru_svc u))) = map (fun p => channel_id p.1 p.2) (omap (stream_of st tx) [ps]) /\
  Forall (fun p => 0 <= p.1 < 2 ^ 24) (omap (stream_of st tx) [ps]).
Proof.
  intros Ht Hn Hs Hl Hb Hp. pose proof Hl as Hlink. unfold link_id_of in Hl.
  apply bind_ok in Hl as (pc & _ & (dm & _ & (dt & _ & Hh)%bind_ok)%bind_ok).
  destruct (boot_promise _ _ _ _ _ _ _ _ Ht (link_int32 _ _ Hh) Hb Hp) as (Hcfg & g & cards & d & rest & _ & _ & Hd & Hr & Hok).
  rewrite (Hok eq_refl), app_nil_r in Hd. rewrite Hr, <- Hd, plan_channels.
  assert (Hrd : read_cfg (s_cfg ps.2) = Some (ru_cfg u)) by (rewrite Hs; unfold service_cfg in Hcfg; by destruct (has_attrs _ _ _)).
  destruct (read_cfg_streams _ _ Hrd) as [Erx Etx].
  assert (Htext : as_text (s_type ps.2) = Some (sr_type (ru_start u))) by (unfold as_name in Hn; destruct (s_type ps.2); try done; by injection Hn as ->).
  cbn [omap list_omap]. unfold stream_of. rewrite Htext, Hlink. cbn [mbind option_bind].
  assert (Hrange : 0 <= sr_link_id (ru_start u) < 2 ^ 24) by (by eapply hash_link_domain_range).
  destruct tx; rewrite ?Etx, ?Erx.
  - destruct (PyDict.get (s_cfg ps.2) (lit "stream_tx") ≫= as_Z) as [n|]; cbn [mbind option_bind]; [| by split].
    destruct (direction_of true _); (split; [done |]); [by apply Forall_singleton | by apply Forall_nil_2].
  - destruct (PyDict.get (s_cfg ps.2) (lit "stream_rx") ≫= as_Z) as [n|]; cbn [mbind option_bind]; [| by split].
    destruct (direction_of false _); (split; [done |]); [by apply Forall_singleton | by apply Forall_nil_2].
Qed.

Section Whole.
Context (m : machine) (st : settings) (profiles wlans : list text) (mode : option text).
Context (services : list (text * list service)) (us : list running).
Context (Hst : station m st profiles wlans mode services us).

(** The services of a station, each with its call. *)
Lemma station_started : Forall2 (fun ps u => ps.2 = ru_service u /\ as_name (s_type ps.2) = Ok (sr_type (ru_start u)) /\
    sr_type (ru_start u) ∈ service_types /\ link_id_of st ps.1 = Ok (sr_link_id (ru_start u))) (flat services) us.
Proof using Hst.
  destruct Hst as [(s' & Hi & Hs') Hpar Hss _].
  destruct (plan_init (m_str m) st (m_exec m) (m_listen m) (m_nmcli m) (m_aton m) (m_fmt m) profiles wlans mode _ _ _ Hi)
    as [[_ Hf] | (ss & peers & rx & d & rest & new & Hm & Hp & Hs & Hd & Hr)]; [done |].
  cbn in Hs. rewrite Hs in Hs'. subst new. rewrite (parsed_of_plan m st _ _ _ _ _ _ Hm) in Hpar. injection Hpar as ->.
  rewrite (Hr eq_refl), app_nil_r in Hp. change (flat services = d) in Hp. subst d.
  apply Forall2_same_length_lookup. split; [apply Forall2_length in Hd; by rewrite length_map in Hd |].
  intros i ps u Hps Hu. assert (Hu2 : map ru_service us !! i = Some (ru_service u)) by (by rewrite list_lookup_fmap, Hu).
  rewrite <- Hss, list_lookup_fmap, Hps in Hu2. injection Hu2 as Hu2.
  assert (Hu3 : map ru_start us !! i = Some (ru_start u)) by (by rewrite list_lookup_fmap, Hu).
  destruct (Forall2_lookup_lr _ _ _ _ _ _ Hd Hps Hu3) as (_ & _ & Hn & Ht & _ & _ & pc & dom & dt & H1 & H2 & H3 & H4).
  split_and!; try done. unfold link_id_of. rewrite H1. cbn [mbind result_bind]. rewrite H2. cbn [mbind result_bind]. by rewrite H3.
Qed.

(** The channels of a station are those of the streams its settings ask for. *)
Lemma station_channels tx :
  channels tx us = map (fun p => channel_id p.1 p.2) (streams st tx services) /\
  Forall (fun p => 0 <= p.1 < 2 ^ 24) (streams st tx services).
Proof using Hst.
  pose proof station_started as Hall. destruct Hst as [_ _ _ Hup]. clear Hst. unfold channels, streams.
  induction Hall as [|ps u pss us' (Hs & Hn & Ht & Hl) _ IH]; [by split |]. apply Forall_cons in Hup as [[Hb Hp] Hup].
  destruct (IH Hup) as [IH1 IH2], (running_channels tx st _ ps u Ht Hn Hs Hl Hb Hp) as [H1 H2].
  change (ps :: pss) with ([ps] ++ pss). rewrite omap_app, map_app. cbn [map concat]. rewrite H1, IH1. split; [done | by apply Forall_app].
Qed.

End Whole.

(** ** Channels and streams *)

Definition channel_of (p : Z * Z) : Z := p.1 * 2 ^ 8 + p.2.
Definition stream_at (ch : Z) : Z * Z := (ch / 2 ^ 8, ch mod 2 ^ 8).

Lemma stream_at_channel p : 0 <= p.2 < 2 ^ 8 -> stream_at (channel_of p) = p.
Proof.
  destruct p as [l n]. unfold stream_at, channel_of. cbn [fst snd]. intros Hn. f_equal.
  - rewrite Z.div_add_l by lia. rewrite Z.div_small by done. lia.
  - rewrite Z.add_comm, Z.mod_add by lia. by apply Z.mod_small.
Qed.

Lemma streams_at l : stream_bytes l -> map stream_at (map channel_of l) = l.
Proof. induction 1 as [|p l Hp _ IH]; [done |]. cbn [map]. by rewrite stream_at_channel, IH. Qed.

Lemma channels_perm l l' : stream_bytes l -> stream_bytes l' -> map channel_of l ≡ₚ map channel_of l' <-> l ≡ₚ l'.
Proof.
  intros Hl Hl'. split; [| apply Permutation_map]. intros H%(Permutation_map stream_at). by rewrite !streams_at in H.
Qed.

Lemma channels_nodup l : stream_bytes l -> NoDup (map channel_of l) <-> NoDup l.
Proof.
  intros Hl. split; [apply NoDup_fmap_1 |]. intros H. apply (NoDup_fmap_1 stream_at). change (NoDup (map stream_at (map channel_of l))).
  by rewrite streams_at.
Qed.

Lemma channel_elem p l : stream_bytes l -> 0 <= p.2 < 2 ^ 8 -> channel_of p ∈ map channel_of l <-> p ∈ l.
Proof.
  intros Hl Hp. split; [| apply (list_elem_of_fmap_2 channel_of)]. intros (q & E & Hq)%(list_elem_of_fmap_1 channel_of).
  apply (f_equal stream_at) in E. unfold stream_bytes in Hl. rewrite Forall_forall in Hl. rewrite !stream_at_channel in E by auto. by subst.
Qed.

(** C40: whole stations: when start-up has succeeded and every service waits for its
    programs (with names, paths and cards that can stand in a command line), the radio programs of a station send (and listen) on exactly the
    channels 256 * link id + stream of the services its settings name, in order,
    the link id being the hash of the profile's domain.  So for two stations, on
    whatever machines and with whatever settings whose streams fit a byte: all that
    one sends is heard by the other and nothing else is listened for exactly when the
    streams sent under one's links are, in some order, the streams the other receives
    under its links; no channel is used by two senders exactly when no stream of a
    link is; and one hears nothing of the other exactly when they have no link and
    stream in common. *)
Theorem stations_hear_each_other m1 st1 ps1 wl1 mode1 ss1 us1 m2 st2 ps2 wl2 mode2 ss2 us2 :
  station m1 st1 ps1 wl1 mode1 ss1 us1 -> station m2 st2 ps2 wl2 mode2 ss2 us2 ->
  (forall tx, stream_bytes (streams st1 tx ss1) /\ stream_bytes (streams st2 tx ss2)) ->
  let tx1 := streams st1 true ss1 in let rx1 := streams st1 false ss1 in
  let tx2 := streams st2 true ss2 in let rx2 := streams st2 false ss2 in
  (channels true us1 = map channel_of tx1 /\ channels false us1 = map channel_of rx1) /\
  (channels true us1 ≡ₚ channels false us2 <-> tx1 ≡ₚ rx2) /\
  (channels true us2 ≡ₚ channels false us1 <-> tx2 ≡ₚ rx1) /\
  (NoDup (channels true us1 ++ channels true us2) <-> NoDup (tx1 ++ tx2)) /\
  ((forall ch, ch ∈ channels true us1 -> ch ∉ channels false us2) <-> (forall p, p ∈ tx1 -> p ∉ rx2)).
Proof.
  intros S1 S2 Hb. cbv zeta.
  assert (Hch : forall m st ps wl mode ss us tx, station m st ps wl mode ss us -> stream_bytes (streams st tx ss) ->
            channels tx us = map channel_of (streams st tx ss)).
  { intros m st ps wl mode ss us tx S Hs. destruct (station_channels m st ps wl mode ss us S tx) as [-> Hl]. apply map_ext_in.
    intros p Hp%list_elem_of_In. unfold stream_bytes in Hs. rewrite Forall_forall in Hl, Hs. by apply channel_id_value; auto. }
  destruct (Hb true) as [Ht1 Ht2], (Hb false) as [Hr1 Hr2].
  rewrite !(Hch _ _ _ _ _ _ _ _ S1), !(Hch _ _ _ _ _ _ _ _ S2) by done. split; [done |].
  split; [by apply channels_perm |]. split; [by apply channels_perm |]. split.
  - rewrite <- map_app. apply channels_nodup. by apply Forall_app.
  - unfold stream_bytes in *. pose proof (proj1 (Forall_forall _ _) Ht1) as Ht. split.
    + intros H p Hp Hp2. apply (H (channel_of p)); by apply (list_elem_of_fmap_2 channel_of).
    + intros H ch (p & -> & Hp)%(list_elem_of_fmap_1 channel_of). rewrite channel_elem by auto. by apply H.
Qed.

(** ** The shipped stations *)

Definition demo_machine : machine := Machine demo_str demo_exec demo_listen false demo_aton demo_fmt.
Definition shipped : settings := Master.master (lit "/").

(** A started service of a shipped profile, when it is up and can be printed. *)
Definition demo_unit (p : start * service) : option running :=
  '(cfg, (v, r)) ← boot_service shipped false demo_env p.1 p.2;
  g ← read_globals shipped; name ← as_text (sr_name p.1); cards ← as_texts (sr_peers p.1);
  if is_ok r && launchable_b g name (e_rnd_rx demo_env) (e_rnd_tx demo_env) cfg cards
  then Some (Running p.1 p.2 cfg demo_env v) else None.

Definition demo_running (profile : text) : list running :=
  omap demo_unit (zip (starts (demo_start profile).1) (demo_services profile)).

Lemma demo_unit_up p u : demo_unit p = Some u -> ru_start u = p.1 /\ ru_service u = p.2 /\
  boot_service shipped false (ru_env u) (ru_start u) (ru_service u) = Some (ru_cfg u, (ru_svc u, Ok tt)) /\
  printable shipped (ru_env u) (ru_start u) (ru_cfg u).
Proof.
  unfold demo_unit. intros ([cfg [v r]] & Hb & (g & Hg & (name & Hn & (cards & Hc & H)%bind_Some)%bind_Some)%bind_Some)%bind_Some.
  destruct r as [[]|]; [| done]. cbn [is_ok andb] in H. destruct (launchable_b _ _ _ _ _ _) eqn:E; [| done]. injection H as <-.
  split; [reflexivity |]. split; [reflexivity |]. split; [exact Hb |]. apply printable_check. cbn [ru_start ru_env ru_cfg]. by rewrite Hg, Hn, Hc.
Qed.

(** A profile all of whose services come up. *)
Definition demo_ok (profile : text) : bool :=
  is_ok (demo_start profile).2 && is_ok (parse_services shipped profile None) &&
  bool_decide (length (demo_services profile) = length (starts (demo_start profile).1)) &&
  bool_decide (length (demo_running profile) = length (starts (demo_start profile).1)).

Lemma omap_all {A B} (f : A -> option B) l : length (omap f l) = length l -> Forall2 (fun x y => f x = Some y) l (omap f l).
Proof.
  assert (Hle : forall l, (length (omap f l) <= length l)%nat).
  { induction l0 as [|x l0 IH]; cbn; [lia |]. destruct (f x); cbn; lia. }
  induction l as [|x l IH]; cbn; intros H; [constructor |]. destruct (f x) as [y|] eqn:E; cbn in H.
  - constructor; [done | apply IH; lia].
  - specialize (Hle l). lia.
Qed.

Lemma units_of l us : Forall2 (fun x u => ru_start u = x.1 /\ ru_service u = x.2) l us ->
  map ru_start us = l.*1 /\ map ru_service us = l.*2.
Proof. induction 1 as [|x u l us [H1 H2] _ [IH1 IH2]]; [done |]. split; cbn; f_equal; done. Qed.

Lemma flat_one profile ss : (flat [(profile, ss)]).*2 = ss.
Proof. unfold flat. cbn [map concat fst snd]. rewrite app_nil_r. induction ss as [|s l IH]; [done |]. cbn [map]. by rewrite fmap_cons, IH. Qed.

Lemma parsed_one profile : is_ok (parse_services shipped profile None) = true ->
  parse_local shipped [profile] = Ok [(profile, demo_services profile)].
Proof.
  unfold demo_services. change (Master.master (lit "/")) with shipped. cbn [parse_local result_map].
  by destruct (parse_services shipped profile None) as [[ss a]|].
Qed.

Lemma up_one (s : srv * result unit) : is_ok s.2 = true -> s = (s.1, Ok tt).
Proof. by destruct s as [s [[]|]]. Qed.

#[local] Opaque demo_start demo_services demo_unit.

Lemma demo_station profile : demo_ok profile = true ->
  station demo_machine shipped [profile] [lit "wlan0"] None [(profile, demo_services profile)] (demo_running profile).
Proof.
  unfold demo_ok. rewrite !andb_true_iff, !bool_decide_eq_true. intros (((Hs & Hp) & Hl) & Hr).
  assert (Hall : Forall2 (fun x y => demo_unit x = Some y) (zip (starts (demo_start profile).1) (demo_services profile)) (demo_running profile)).
  { apply omap_all. unfold demo_running in Hr. rewrite Hr, length_zip_with. lia. }
  destruct (units_of _ _ (Forall2_impl _ _ _ _ Hall (fun x y H => conj (proj1 (demo_unit_up x y H)) (proj1 (proj2 (demo_unit_up x y H)))))) as [Hfst Hsnd].
  rewrite fst_zip in Hfst by lia. rewrite snd_zip in Hsnd by lia. split.
  - exists (demo_start profile).1. split; [| done]. exact (up_one _ Hs).
  - by apply parsed_one.
  - rewrite Hsnd. apply flat_one.
  - apply Forall_forall. intros u (i & Hi)%list_elem_of_lookup.
    destruct (Forall2_lookup_r _ _ _ _ _ Hall Hi) as (x & _ & (_ & _ & Hb & Hpr)%demo_unit_up). by split.
Qed.

#[local] Transparent demo_start demo_services demo_unit.

(** The profiles of master.cfg that belong together: each of a pair sends what the
    other hears, and no channel has two senders. *)
Lemma stations_hear_each_other_witness : Forall (fun p =>
  channels true (demo_running p.1) ≡ₚ channels false (demo_running p.2) /\
  channels true (demo_running p.2) ≡ₚ channels false (demo_running p.1) /\
  NoDup (channels true (demo_running p.1) ++ channels true (demo_running p.2))) shipped_pairs.
Proof.
  assert (Hok : forall p1 p2, demo_ok p1 = true -> demo_ok p2 = true ->
    let s1 := [(p1, demo_services p1)] in let s2 := [(p2, demo_services p2)] in
    (forall tx, stream_bytes (streams shipped tx s1) /\ stream_bytes (streams shipped tx s2)) ->
    streams shipped true s1 ≡ₚ streams shipped false s2 -> streams shipped true s2 ≡ₚ streams shipped false s1 ->
    NoDup (streams shipped true s1 ++ streams shipped true s2) ->
    channels true (demo_running p1) ≡ₚ channels false (demo_running p2) /\
    channels true (demo_running p2) ≡ₚ channels false (demo_running p1) /\
    NoDup (channels true (demo_running p1) ++ channels true (demo_running p2))).
  { intros p1 p2 H1 H2 s1 s2 Hb E1 E2 Hn.
    destruct (stations_hear_each_other _ _ _ _ _ _ _ _ _ _ _ _ _ _ (demo_station p1 H1) (demo_station p2 H2) Hb) as (_ & I1 & I2 & I3 & _).
    split; [by apply I1 | split; [by apply I2 | by apply I3]]. }
  repeat (apply Forall_cons; split; [apply Hok;
    [vm_compute; reflexivity | vm_compute; reflexivity
    | intros []; split; apply (bool_decide_unpack _); vm_compute; exact I
    | apply (bool_decide_unpack _); vm_compute; exact I .. ] |]).
  apply Forall_nil_2.
Defined.

End Stations.
