(* ===== verification/LatencyTest.v ===== *)
(** src/wfb_ng/latency_test.py: numbered, time-stamped packets are sent through
    the link, the receiving end counts them, and the largest packet rate the
    link carries is searched by bisection.  Times are the doubles (as bits)
    [reactor.seconds()] returns; what the network delivers is a parameter. *)
From Stdlib Require Import ZArith Lia Bool.
From stdpp Require Import base list numbers strings gmap.
From S2P Require Import Prelude PyFloat PyStruct PyNum.

Module LatencyTest.
Import PyFloat PyNum.

(** The format ['!HIdd'] of a packet: size, number, time, session. *)
Definition packet_codes : list PyStruct.code := [PyStruct.CUint 2; PyStruct.CUint 4; PyStruct.Cd; PyStruct.Cd].
Definition packet_len : nat := PyStruct.calcsize packet_codes.

(** ** [PacketSource] *)

(** One call of [_sendmsg]: the header is written over the start of the buffer. *)
Definition sendmsg (size i : Z) (now : Z) (key : Z) (msg : bytes) : result bytes :=
  if decide (length msg < packet_len)%nat then Raise StructError
  else
    h ← PyStruct.pack PyStruct.Big packet_codes [PyStruct.PInt size; PyStruct.PInt i; PyStruct.PFloat now; PyStruct.PInt key];
    Ok (h ++ drop packet_len msg).

(** The packets sent at [times], one number each; the buffer is reused. *)
Fixpoint send_all (size key : Z) (times : list Z) (i : Z) (msg : bytes) : result (list bytes) :=
  match times with
  | [] => Ok []
  | now :: times' =>
      m ← sendmsg size i now key msg;
      r ← send_all size key times' (i + 1) m;
      Ok (m :: r)
  end.

Definition source_start (size key : Z) (times : list Z) : result (list bytes) :=
  send_all size key times 0 (zeros (Z.to_nat size)).

(** The real rate and the slowdown, once [sent] packets took [cycles] timer
    cycles and the time from [ts] to [now]. *)
Definition source_rate (sent : Z) (ts now : Z) : result num := d ← sub (of_bits now) (of_bits ts); div (NInt sent) d.
Definition tx_slowdown (sent cycles : Z) : result num := div (NInt (cycles - sent)) (NInt cycles).

(** ** [PacketSink] *)

Record sink := Sink {
  count : Z; lmin : num; lmax : num; lavg : num; key : Z; id_set : gset Z; last_id : Z
}.

Definition init_sink (key : Z) : sink := Sink 0 (NInt (-1)) (NInt (-1)) (NInt 0) key ∅ 0.

Definition datagramReceived (now : Z) (data : bytes) (s : sink) : result sink :=
  if decide (length data < packet_len)%nat then Raise StructError
  else
    vs ← PyStruct.unpack PyStruct.Big packet_codes (take packet_len data);
    match vs with
    | [PyStruct.PInt size; PyStruct.PInt i; PyStruct.PFloat ts; PyStruct.PFloat k] =>
        if negb (size =? blen data) then Ok s
        else if negb (eqb (NInt (key s)) (of_bits k)) then _ ← trunc (of_bits k); Ok s
        else
          latency ← sub (of_bits now) (of_bits ts);
          if lt latency (NInt 0) then Ok s
          else
            avg ← add (lavg s) latency;
            Ok (Sink (count s + 1)
                  (if lt (lmin s) (NInt 0) then latency else min latency (lmin s))
                  (if lt (lmax s) (NInt 0) then latency else max latency (lmax s))
                  avg (key s) ({[i]} ∪ id_set s) (if i <? last_id s then last_id s else i))
    | _ => Raise StructError
    end.

(** Twisted logs an exception of [datagramReceived] and goes on. *)
Fixpoint receive_all (l : list (Z * bytes)) (s : sink) : sink :=
  match l with
  | [] => s
  | (now, data) :: l' => receive_all l' match datagramReceived now data s with Ok s' => s' | Raise _ => s end
  end.

(** ** [run_test] *)

(** The real rate, printed with [%d], must be a finite number.
    What happens during a test: when it starts, the timer cycles used, when the
    last packet has been sent, and the datagrams that arrive. *)
Record trial := Trial { t_start : Z; t_cycles : Z; t_end : Z; t_arrivals : list (Z * bytes) }.

Record report := Report { r_lost : Z; r_dup : Z; r_lavg : num; r_bitrate : num; r_slowdown : num }.

Definition run_test (psize cnt : Z) (session : Z) (t : trial) : result report :=
  rate ← source_rate cnt (t_start t) (t_end t);
  slow ← tx_slowdown cnt (t_cycles t);
  let p2 := receive_all (t_arrivals t) (init_sink session) in
  bits ← (a ← mul rate (NInt psize); b ← mul a (NInt 8); div b (NInt 1000000));
  _ ← trunc rate;
  if count p2 =? 0 then Raise (Exception_ "ALL PACKETS LOST. Check MTU settings")
  else
    avg ← div (lavg p2) (NInt (count p2));
    Ok (Report (cnt - count p2) (count p2 - Z.of_nat (size (id_set p2))) avg bits slow).

(** ** [eval_max_rate] *)

Definition c_0_01 : num := NFin 5764607523034235 (-59).
Definition c_0_005 : num := NFin 5764607523034235 (-60).

(** [lost >= max(count * 0.01, 10) or lavg > 0.005]. *)
Definition too_big (cnt : Z) (r : report) : result bool :=
  t ← mul (NInt cnt) c_0_01;
  Ok (le (max t (NInt 10)) (NInt (r_lost r)) || lt c_0_005 (r_lavg r)).

(** How a search ended: the log line needs the bitrate of a test. *)
Record found := Found { f_min : Z; f_max : Z; f_bitrate : num }.

Section Search.
(** The outcome of a test with a number of packets and a rate, after the rates
    tested before. *)
Context (test : list Z -> Z -> Z -> result report).

(** The loop; [tested] holds the rates tested so far, [None] is running out of fuel. *)
Fixpoint search (fuel : nat) (min_rate max_rate : Z) (bitrate : option num) (tested : list Z) : option (result found * list Z) :=
  match fuel with
  | O => None
  | S fuel' =>
      match (h ← div (NInt (max_rate - min_rate)) (NInt 2); trunc h) with
      | Raise e => Some (Raise e, tested)
      | Ok dr =>
          if dr <=? 0 then
            Some (match bitrate with Some b => Ok (Found min_rate max_rate b) | None => Raise UnboundLocalError end, tested)
          else
            let rate := min_rate + dr in
            match (r ← test tested (3 * rate) rate; b ← too_big (3 * rate) r; Ok (r, b)) with
            | Raise e => Some (Raise e, tested ++ [rate])
            | Ok (r, true) => search fuel' min_rate rate (Some (r_bitrate r)) (tested ++ [rate])
            | Ok (r, false) => search fuel' rate max_rate (Some (r_bitrate r)) (tested ++ [rate])
            end
      end
  end.

Definition search_fuel (max_rate : Z) : nat := S (S (Z.to_nat (Z.log2 max_rate))).
Definition eval_max_rate (max_rate : Z) : option (result found * list Z) := search (search_fuel max_rate) 1 max_rate None [].

(** The verdict of the test of [rate] after [before]. *)
Definition verdict (before : list Z) (rate : Z) (b : bool) : Prop :=
  exists r, test before (3 * rate) rate = Ok r /\ too_big (3 * rate) r = Ok b.

(** [lo] passed its test, or is the initial one; [hi] failed, or is the initial one. *)
Definition bracket (lo0 hi0 lo hi : Z) (tested : list Z) : Prop :=
  (lo = lo0 \/ exists pre post, tested = pre ++ lo :: post /\ verdict pre lo false) /\
  (hi = hi0 \/ exists pre post, tested = pre ++ hi :: post /\ verdict pre hi true).

Lemma bracket_snoc lo0 hi0 lo hi tested x : bracket lo0 hi0 lo hi tested -> bracket lo0 hi0 lo hi (tested ++ [x]).
Proof using Type.
  intros [[-> | (p1 & q1 & -> & H1)] [-> | (p2 & q2 & E & H2)]]; split; auto; right.
  - exists p2, (q2 ++ [x]). by rewrite E, <- app_assoc.
  - exists p1, (q1 ++ [x]). by rewrite <- app_assoc.
  - exists p1, (q1 ++ [x]). by rewrite <- app_assoc.
  - exists p2, (q2 ++ [x]). by rewrite E, <- app_assoc.
Qed.

(** A step of the loop. *)
Lemma search_unfold fuel lo hi br tested : 1 <= lo -> lo < hi < 2 ^ 51 ->
  search (S fuel) lo hi br tested =
  if decide (hi - lo = 1) then Some (match br with Some b => Ok (Found lo hi b) | None => Raise UnboundLocalError end, tested)
  else
    let rate := lo + (hi - lo) / 2 in
    match (r ← test tested (3 * rate) rate; b ← too_big (3 * rate) r; Ok (r, b)) with
    | Raise e => Some (Raise e, tested ++ [rate])
    | Ok (r, true) => search fuel lo rate (Some (r_bitrate r)) (tested ++ [rate])
    | Ok (r, false) => search fuel rate hi (Some (r_bitrate r)) (tested ++ [rate])
    end.
Proof using Type.
  intros Hlo Hhi. cbn [search]. rewrite trunc_half by lia. rewrite Z.quot_div_nonneg by lia.
  destruct (decide (hi - lo = 1)) as [-> | Hne]; [done |].
  assert (1 <= (hi - lo) / 2) by (apply Z.div_le_lower_bound; lia). rewrite (proj2 (Z.leb_gt _ _)) by lia. done.
Qed.

Lemma too_big_total cnt r : 0 <= cnt < 2 ^ 53 -> exists b, too_big cnt r = Ok b.
Proof using Type. intros H. unfold too_big. destruct (mul_total cnt c_0_01 H) as [t ->]. cbn. eauto. Qed.

Lemma search_spec fuel lo0 hi0 lo hi br tested : 1 <= lo -> lo < hi < 2 ^ 51 -> hi - lo <= 2 ^ Z.of_nat fuel ->
  bracket lo0 hi0 lo hi tested -> (br = None -> 2 <= hi - lo) ->
  exists res tested', search (S fuel) lo hi br tested = Some (res, tested') /\ (length tested' <= length tested + fuel)%nat /\
    ((forall before n rate, exists r, test before n rate = Ok r) ->
     exists f, res = Ok f /\ f_max f = f_min f + 1 /\ bracket lo0 hi0 (f_min f) (f_max f) tested').
Proof using Type.
  revert lo hi br tested. induction fuel as [|fuel IH]; intros lo hi br tested Hlo Hhi Hf Hb Hbr;
    rewrite search_unfold by done; destruct (decide (hi - lo = 1)) as [E1 | Hne].
  1, 3: eexists _, tested; split; [reflexivity |]; split; [lia |]; intros _; destruct br as [b|]; [| specialize (Hbr eq_refl); lia];
    exists (Found lo hi b); split; [done |]; split; [cbn; lia | done].
  { cbn in Hf. lia. }
  set (rate := lo + (hi - lo) / 2). cbv zeta. rewrite Nat2Z.inj_succ, Z.pow_succ_r in Hf by lia.
  assert (Hr : lo < rate < hi /\ rate - lo <= 2 ^ Z.of_nat fuel /\ hi - rate <= 2 ^ Z.of_nat fuel).
  { pose proof (Z.div_mod (hi - lo) 2 ltac:(lia)). pose proof (Z.mod_pos_bound (hi - lo) 2 ltac:(lia)). unfold rate. lia. }
  destruct (test tested (3 * rate) rate) as [r|e] eqn:Et; cbn [mbind result_bind].
  2: { eexists _, _. split; [reflexivity |]. rewrite length_app. cbn [length]. split; [lia |]. intros Ht.
       destruct (Ht tested (3 * rate) rate) as [r Hr']. congruence. }
  destruct (too_big_total (3 * rate) r) as [b Eb]; [lia |]. rewrite Eb. cbn [mbind result_bind].
  assert (Hv : verdict tested rate b) by (by exists r).
  assert (Hlen : length (tested ++ [rate]) = S (length tested)) by (rewrite length_app; cbn; lia).
  apply (bracket_snoc _ _ _ _ _ rate) in Hb as Hb'. destruct Hb' as [Hb1 Hb2].
  destruct b.
  - destruct (IH lo rate (Some (r_bitrate r)) (tested ++ [rate])) as (res & t' & -> & Hl & H); [lia | lia | lia | | done |].
    + split; [done |]. right. by exists tested, [].
    + exists res, t'. split; [done |]. split; [lia | done].
  - destruct (IH rate hi (Some (r_bitrate r)) (tested ++ [rate])) as (res & t' & -> & Hl & H); [lia | lia | lia | | done |].
    + split; [| done]. right. by exists tested, [].
    + exists res, t'. split; [done |]. split; [lia | done].
Qed.

(** C33: for a limit below 2^51 the search for the largest rate ends after at most
    [log2 max_rate + 1] tests, whatever the network does; when no test fails with an exception it
    ends with two consecutive rates, of which the lower one passed its test (or is
    one packet per second, never tested) and the upper one failed its test (or is
    the given limit, never tested); with a limit of at most two packets per second no
    test is run and the final log line raises [UnboundLocalError]. *)
Theorem rate_search_ends max_rate : - 2 ^ 51 < max_rate < 2 ^ 51 ->
  exists res tested, eval_max_rate max_rate = Some (res, tested) /\ Z.of_nat (length tested) <= Z.log2 max_rate + 1 /\
    (max_rate <= 2 -> res = Raise UnboundLocalError /\ tested = []) /\
    (2 < max_rate -> (forall before n rate, exists r, test before n rate = Ok r) ->
     exists f, res = Ok f /\ f_max f = f_min f + 1 /\ bracket 1 max_rate (f_min f) (f_max f) tested).
Proof using Type.
  intros Hm. pose proof (Z.log2_nonneg max_rate) as Hl0. unfold eval_max_rate, search_fuel. destruct (decide (max_rate <= 2)) as [Hle | Hgt].
  - cbn [search]. rewrite trunc_half by lia. assert (Z.quot (max_rate - 1) 2 <= 0).
    { destruct (decide (0 <= max_rate - 1)); [rewrite Z.quot_small; lia |]. apply Z.quot_le_upper_bound; lia. }
    rewrite (proj2 (Z.leb_le _ _)) by done. eexists _, []. split; [done |]. cbn. split; [lia |]. split; [done | lia].
  - pose proof (Z.log2_spec max_rate ltac:(lia)) as [_ Hlog].
    destruct (search_spec (S (Z.to_nat (Z.log2 max_rate))) 1 max_rate 1 max_rate None []) as (res & t & -> & Hlen & H); try lia.
    + rewrite Nat2Z.inj_succ, Z2Nat.id by lia. lia.
    + split; by left.
    + exists res, t. split; [done |]. cbn [length] in Hlen. split; [lia |]. split; [lia | done].
Qed.

End Search.

(** ** Counting the packets that arrive *)

(** A session number survives its trip as a double. *)
Lemma session_bits k : 0 <= k < 65536 -> exists x, f64_of_Z k = Ok x /\ eqb (NInt k) (of_bits x) = true.
Proof.
  intros Hk. unfold f64_of_Z. destruct (Z.eqb_spec k 0) as [-> | Hne]; [exists 0; split; [done | reflexivity] |].
  rewrite Z.abs_eq by lia. destruct (decode_encode_64 k 0 ltac:(lia) ltac:(lia)) as (j & Hj & Hd & Hr).
  rewrite (proj2 (Z.ltb_lt _ _)) by lia. rewrite (proj2 (Z.ltb_ge k 0)) by lia. eexists. split; [reflexivity |]. rewrite Z.add_0_l.
  set (b := encode_mag _ _ _ _) in *. unfold of_bits. assert (inf64 < 2 ^ 63) by (unfold inf64; lia).
  rewrite (proj2 (Z.leb_gt _ b)), Z.mod_small by lia. rewrite (proj2 (Z.eqb_neq b _)), (proj2 (Z.ltb_ge _ b)) by lia.
  rewrite Hd. unfold eqb, compare. cbn [dyadic]. rewrite Z.min_r by lia. replace (0 - (0 - j)) with j by lia.
  rewrite Z.sub_diag, Z.mul_1_r. apply Z.eqb_refl.
Qed.

(** A float difference never raises. *)
Definition is_float (a : num) : bool := match a with NInt _ => false | _ => true end.

Lemma of_bits_float b : is_float (of_bits b) = true.
Proof. unfold of_bits. destruct (_ =? _); [done |]. destruct (_ <? _); [done |]. by destruct (decode_mag _ _ _). Qed.

Definition latency (now ts : Z) : num := fadd (of_bits now) (neg (of_bits ts)).

Lemma sub_latency now ts : sub (of_bits now) (of_bits ts) = Ok (latency now ts).
Proof.
  unfold sub, latency. pose proof (of_bits_float now). pose proof (of_bits_float ts).
  destruct (of_bits now), (of_bits ts); done.
Qed.

Lemma round64_float m e : is_float (round64 m e) = true.
Proof. unfold round64. destruct (m =? 0); [done |]. by destruct (_ <=? _). Qed.

Lemma fadd_float a b : is_float (fadd a b) = true.
Proof. destruct a, b; try done; cbn -[round64]; try apply round64_float. by destruct (Bool.eqb _ _). Qed.

(** The sum so far: 0, or a float. *)
Definition sum_ok (a : num) : Prop := a = NInt 0 \/ is_float a = true.

Lemma add_ok a b : sum_ok a -> is_float b = true -> exists c, add a b = Ok c /\ sum_ok c.
Proof.
  intros Ha Hb. unfold add. destruct Ha as [-> | Ha].
  - destruct b; try done; cbn -[fadd]; eexists; (split; [reflexivity | right; apply fadd_float]).
  - destruct a, b; try done; cbn -[fadd]; eexists; (split; [reflexivity | right; apply fadd_float]).
Qed.

(** What the sink does with a packet of its session. *)
Lemma sink_packet size i ts k msg m now s : sendmsg size i ts k msg = Ok m -> length msg = Z.to_nat size -> 0 <= size < 65536 -> 0 <= i < 2 ^ 32 ->
  0 <= ts < 2 ^ 64 -> 0 <= k < 65536 -> key s = k -> sum_ok (lavg s) -> length m = length msg /\
  (if lt (latency now ts) (NInt 0) then datagramReceived now m s = Ok s
   else exists avg, add (lavg s) (latency now ts) = Ok avg /\ sum_ok avg /\
     datagramReceived now m s = Ok (Sink (count s + 1) (if lt (lmin s) (NInt 0) then latency now ts else min (latency now ts) (lmin s))
       (if lt (lmax s) (NInt 0) then latency now ts else max (latency now ts) (lmax s)) avg k ({[i]} ∪ id_set s)
       (if i <? last_id s then last_id s else i))).
Proof.
  unfold sendmsg. intros H Hl Hs Hi Hts Hk Hks Hsum. destruct (decide (length msg < packet_len)%nat) as [|Hlen]; [done |].
  apply bind_ok in H as (h & Hp & [= <-]). pose proof (PyStruct.pack_length _ _ _ _ Hp) as Hh. fold packet_len in Hh.
  assert (Hm : length (h ++ drop packet_len msg) = length msg) by (rewrite length_app, length_drop; lia).
  split; [done |]. unfold datagramReceived. rewrite Hm. rewrite decide_False by lia.
  rewrite take_app_length' by done.
  assert (Hv : Forall PyStruct.val_ok [PyStruct.PInt size; PyStruct.PInt i; PyStruct.PFloat ts; PyStruct.PInt k])
    by (repeat (apply Forall_cons; split); done).
  assert (Hc : Forall (fun c => 0 < PyStruct.code_size c)%nat packet_codes) by (repeat (apply Forall_cons; split); cbn; try lia; done).
  rewrite (PyStruct.unpack_pack _ _ _ _ Hv Hc Hp).
  destruct (session_bits k Hk) as (x & Hx & Hxe). cbn [mbind result_bind zip_with PyStruct.norm_code packet_codes]. rewrite Hx.
  unfold blen. rewrite Hm, Hl, Z2Nat.id, Z.eqb_refl by lia. rewrite Hks, Hxe. cbn [negb]. rewrite sub_latency. cbn [mbind result_bind].
  destruct (lt (latency now ts) (NInt 0)); [done |].
  destruct (add_ok (lavg s) (latency now ts) Hsum) as (avg & Ha & Hok); [apply fadd_float |].
  exists avg. rewrite Ha. done.
Qed.

(** The packets of a test by number. *)
Lemma packets_sent_spec size k times i msg sent j p : send_all size k times i msg = Ok sent -> length msg = Z.to_nat size ->
  sent !! j = Some p -> exists ts msg', times !! j = Some ts /\ length msg' = Z.to_nat size /\ sendmsg size (i + Z.of_nat j) ts k msg' = Ok p.
Proof.
  revert i msg sent j. induction times as [|now times IH]; intros i msg sent j H Hl Hj; cbn [send_all] in H.
  { injection H as <-. done. }
  apply bind_ok in H as (m & Hm & (r & Hr & [= <-])%bind_ok).
  assert (Hlm : length m = length msg).
  { unfold sendmsg in Hm. destruct (decide _) as [|Hge]; [done |]. apply bind_ok in Hm as (h & Hp & [= <-]).
    apply PyStruct.pack_length in Hp. fold packet_len in Hp. rewrite length_app, length_drop. lia. }
  destruct j as [|j].
  - injection Hj as <-. exists now, msg. rewrite Z.add_0_r. done.
  - destruct (IH _ _ _ _ Hr ltac:(lia) Hj) as (ts & msg' & Ht & Hlen & Hs). exists ts, msg'. split; [done |]. split; [done |].
    by replace (i + Z.of_nat (S j)) with (i + 1 + Z.of_nat j) by lia.
Qed.

(** Arrivals of the packets numbered [js], each not before it was sent. *)
Definition arrives (sent : list bytes) (times : list Z) (j : nat) (a : Z * bytes) : Prop :=
  exists ts, sent !! j = Some a.2 /\ times !! j = Some ts /\ lt (latency a.1 ts) (NInt 0) = false.

Lemma receive_all_spec size k times sent js arrivals s : 0 <= size < 65536 -> 0 <= k < 65536 -> Forall (fun t => 0 <= t < 2 ^ 64) times ->
  Z.of_nat (length times) <= 2 ^ 32 -> source_start size k times = Ok sent -> Forall2 (arrives sent times) js arrivals ->
  key s = k -> sum_ok (lavg s) ->
  count (receive_all arrivals s) = count s + Z.of_nat (length js) /\
  id_set (receive_all arrivals s) = list_to_set (map Z.of_nat js) ∪ id_set s.
Proof.
  intros Hs Hk Ht Hn Hsrc Hall. revert s. induction Hall as [|j [now data] js arrivals (ts & Hj & Hts & Hlat) _ IH]; intros s Hks Hsum.
  { cbn. split; [lia | set_solver]. }
  cbn [fst snd] in *. unfold source_start in Hsrc. destruct (packets_sent_spec _ _ _ _ _ _ _ _ Hsrc ltac:(apply length_replicate) Hj)
    as (ts' & msg' & Hts' & Hlm & Hm). assert (ts' = ts) as -> by congruence. rewrite Z.add_0_l in Hm.
  apply lookup_lt_Some in Hts as Hlt. pose proof (proj1 (Forall_lookup _ _) Ht _ _ Hts) as Hr.
  destruct (sink_packet _ _ _ _ _ _ now s Hm Hlm Hs ltac:(lia) Hr Hk Hks Hsum) as [_ H]. rewrite Hlat in H.
  destruct H as (avg & _ & Hok & Hd). cbn [receive_all]. rewrite Hd.
  match goal with |- context [receive_all arrivals ?x] => destruct (IH x) as [Hc Hi]; [done | done |] end.
  rewrite Hc, Hi. cbn [count id_set length map]. split; [lia | set_solver].
Qed.

Lemma size_numbers js : size (list_to_set (map Z.of_nat js) : gset Z) = length (remove_dups js).
Proof.
  assert (E : (list_to_set (map Z.of_nat js) : gset Z) = list_to_set (map Z.of_nat (remove_dups js))).
  { apply set_eq. intros z. rewrite !elem_of_list_to_set, !list_elem_of_fmap. by setoid_rewrite elem_of_remove_dups. }
  rewrite E, size_list_to_set; [apply length_map |]. apply NoDup_fmap_2; [apply _ | apply NoDup_remove_dups].
Qed.

(** What a test reports about losses: if what arrives are packets of the test
    (the numbers [js], in any order, with any repetition), none before it was sent,
    then the report has lost = sent - arrived and dup = arrived - distinct numbers;
    a test in which nothing arrives raises instead of reporting. *)
Theorem losses_counted psize cnt k times sent js t : 0 <= psize < 65536 -> 0 <= k < 65536 -> Forall (fun x => 0 <= x < 2 ^ 64) times ->
  Z.of_nat (length times) <= 2 ^ 32 -> source_start psize k times = Ok sent -> Forall2 (arrives sent times) js (t_arrivals t) ->
  (js = [] -> is_ok (run_test psize cnt k t) = false) /\
  forall r, run_test psize cnt k t = Ok r ->
    r_lost r = cnt - Z.of_nat (length js) /\ r_dup r = Z.of_nat (length js) - Z.of_nat (length (remove_dups js)).
Proof.
  intros Hs Hk Ht Hn Hsrc Hall.
  destruct (receive_all_spec psize k times sent js (t_arrivals t) (init_sink k) Hs Hk Ht Hn Hsrc Hall eq_refl) as [Hc Hi]; [by left |].
  cbn [init_sink count id_set] in Hc, Hi. rewrite Z.add_0_l in Hc. rewrite union_empty_r_L in Hi. unfold run_test. split.
  - intros ->. destruct (source_rate _ _ _) as [rate|]; [| done]. destruct (tx_slowdown _ _) as [sl|]; [| done]. cbn [mbind result_bind].
    destruct (_ ← mul rate _; _) as [bits|]; [| done]. destruct (trunc rate); [| done]. cbn [mbind result_bind]. rewrite Hc. done.
  - intros r (rate & _ & (slow & _ & (bits & _ & (_ & _ & H)%bind_ok)%bind_ok)%bind_ok)%bind_ok.
    destruct (count _ =? 0); [done |]. apply bind_ok in H as (avg & _ & [= <-]). cbn. rewrite Hc, Hi, size_numbers. lia.
Qed.

(** ** Concrete runs *)

(** Five packets sent at 1.0, 2.0, ..., seen half a second later; the third is
    lost and the last arrives twice. *)
Definition demo_times : list Z := [4607182418800017408; 4611686018427387904; 4613937818241073152; 4616189618054758400; 4617315517961601024].
Definition demo_sent : list bytes := match source_start 64 4711 demo_times with Ok l => l | Raise _ => [] end.
Definition demo_arrivals : list (Z * bytes) :=
  map (fun p => (p.1, default [] (demo_sent !! p.2)))
    [(4609434218613702656, 0%nat); (4612811918334230528, 1%nat); (4617878467915022336, 4%nat); (4617878467915022336, 4%nat); (4619004367821864960, 3%nat)].
Definition demo_trial : trial := Trial 4607182418800017408 5 4618441417868443648 demo_arrivals.

Lemma losses_counted_witness : exists r, run_test 64 5 4711 demo_trial = Ok r /\ r_lost r = 0 /\ r_dup r = 1.
Proof.
  assert (H : exists r, run_test 64 5 4711 demo_trial = Ok r) by (eexists; vm_compute; reflexivity).
  destruct H as [r H]. exists r. split; [exact H |].
  apply (proj2 (losses_counted 64 5 4711 demo_times demo_sent [0; 1; 4; 4; 3]%nat demo_trial ltac:(lia) ltac:(lia)
    ltac:(repeat constructor; lia) ltac:(cbn; lia) ltac:(vm_compute; reflexivity)
    ltac:(repeat constructor; eexists; repeat split; vm_compute; reflexivity)) r H).
Defined.

(** A link that carries rates up to 700: the search ends at 700 and 701. *)
Definition demo_test (before : list Z) (n rate : Z) : result report :=
  Ok (Report (if rate <=? 700 then 0 else n) 0 (NFin 0 0) (NInt rate) (NFin 0 0)).

Lemma rate_search_ends_witness : exists f tested, eval_max_rate demo_test 1000 = Some (Ok f, tested) /\ f_max f = f_min f + 1 /\
  (length tested <= 10)%nat.
Proof.
  destruct (rate_search_ends demo_test 1000 ltac:(lia)) as (res & tested & H1 & H2 & _ & H4).
  destruct (H4 ltac:(lia)) as (f & -> & H5 & _). { intros before n rate. eexists. reflexivity. }
  exists f, tested. split; [exact H1 |]. split; [exact H5 |]. change (Z.log2 1000 + 1) with 10 in H2. lia.
Defined.

Example demo_search : match eval_max_rate demo_test 1000 with Some (Ok f, _) => f_min f | _ => 0 end = 700.
Proof. vm_compute. reflexivity. Qed.

End LatencyTest.
