(* ===== verification/Launch.v ===== *)
(** How the programs start, log and end: [__find_caller], [ConsoleObserver] and
    [set_log_level] of src/wfb_ng/__init__.py, the configuration files of
    src/wfb_ng/conf/__init__.py, and the [main] functions of server.py, cli.py
    and latency_test.py around the reactor.  argparse is the record of its
    results with the constraints it enforces; what the reactor reports while it
    runs is a list of events. *)
From Stdlib Require Import ZArith Lia Bool.
From stdpp Require Import base list numbers strings gmap sorting.
From S2P Require Import Prelude PyDict PyNum PyText Config Runtime Services Cluster Server.

Module Launch.
Import PyText Config Runtime Services Cluster.

(** ** Paths *)

(** [l.rfind(c)], -1 when there is none. *)
Fixpoint rfind_from (c : Z) (i r : Z) (l : text) : Z :=
  match l with [] => r | x :: l' => rfind_from c (i + 1) (if x =? c then i else r) l' end.
Definition rfind (c : Z) (l : text) : Z := rfind_from c 0 (-1) l.

(** [os.path.splitext(p)[0]]: the last dot of the base name starts the
    extension, unless only dots come before it. *)
Definition splitext_root (p : text) : text :=
  let sep := rfind 47 p in
  let dot := rfind 46 p in
  if sep <? dot then
    let name := drop (Z.to_nat (sep + 1)) (take (Z.to_nat dot) p) in
    if forallb (fun c => c =? 46) name then p else take (Z.to_nat dot) p
  else p.

(** ** Who logs *)

(** A stack frame: [co_filename] and the (qualified) name of the function. *)
Record stack_frame := Frm { co_filename : text; co_qualname : text }.

Definition is_prefix (p l : text) : bool := bool_decide (take (length p) l = p).

(** The text before the first occurrence of [pat], if there is one. *)
Fixpoint before (pat l : text) : option text :=
  if is_prefix pat l then Some []
  else match l with [] => None | c :: l' => cons c <$> before pat l' end.

Definition locals_mark : text := lit ".<locals>.".

Definition module_of (filename : text) : text :=
  let path := split 47 (splitext_root filename) in
  match reverse path with
  | a :: b :: _ => if bool_decide (a = lit "__init__") then b else a
  | [a] => a
  | [] => []
  end.

Definition func_of (qualname : text) : text := default qualname (before locals_mark qualname).

(** [__find_caller(depth)]; the stack is innermost first, its first frame that
    of the function itself. *)
Definition find_caller (stack : list stack_frame) (depth : nat) : result (text * text) :=
  f ← of_option AttributeError (stack !! depth);
  Ok (module_of (co_filename f), func_of (co_qualname f)).

(** [_log_msg]: a message below the threshold returns before the stack is looked
    at; a message of [log.err] is attributed to the caller of [log.err]. *)
Definition log_msg_on (stack : list stack_frame) (min_level : Z) (level : option Z) (is_error : bool) : result (option log_event) :=
  e ← log_msg min_level level is_error [] [];
  match e with
  | None => Ok None
  | Some _ =>
      '(m, f) ← find_caller stack 2;
      '(m, f) ← (if bool_decide ((m, f) = (lit "log", lit "err")) then find_caller stack 3 else Ok (m, f));
      log_msg min_level level is_error m f
  end.

(** [ConsoleObserver.emit]: what is printed for a message of system [system]. *)
Definition rstrip (l : text) : text := reverse (lstrip (reverse l)).

Fixpoint join_text (sep : text) (ps : list text) : text :=
  match ps with [] => [] | [p] => p | p :: ps' => p ++ sep ++ join_text sep ps' end.

Definition indent : text := replicate 8 32.

Definition emit (system log_text : text) : text :=
  let txt := join_text (10 :: indent) (split 10 (rstrip log_text)) in
  91 :: system ++ lit "] " ++ txt ++ [10].

(** ** Configuration files *)

(** [_cfg_files] with the value of WIFIBROADCAST_CFG. *)
Definition cfg_files (env : option text) : list text :=
  [lit "master.cfg"; lit "site.cfg"; default (lit "/etc/wifibroadcast.cfg") env; lit "local.cfg"].

(** The paths read: the directory of the package, itself joined to the working directory. *)
Definition cfg_paths (cwd pkgdir : text) (env : option text) : list text :=
  map (path_join (path_join cwd pkgdir)) (cfg_files env).

(** [BinLogFile]: the name of a binary log opened at the time printed as [stamp]. *)
Definition binlog_filename (fname directory stamp : text) : text := path_join directory (fname ++ 46 :: stamp).

(** ** The reactor *)

(** What happens to a running program: a service it waits for ends, another part
    reports a fatal error, or a signal stops the reactor. *)
Inductive run_event := EService (i : nat) (r : result unit) | EFatal | ESignal.

Definition initial_run : run_state := RunState false true.

(** The reactor after its [callWhenRunning] function raised: the trigger only
    logs the exception. *)
Definition when_running {A} (call : result A) (s : run_state) : run_state := s.

(** The results before_stop before the reactor is stopped from outside, and what
    stopped it, if anything did. *)
Fixpoint before_stop (es : list run_event) : list (nat * result unit) * option run_event :=
  match es with
  | [] => ([], None)
  | EService i r :: es' => let '(l, e) := before_stop es' in ((i, r) :: l, e)
  | e :: _ => ([], Some e)
  end.

(** The state of the run once the reactor returns; [None] while it runs. *)
Definition stopped_by (e : option run_event) (s : run_state) : option run_state :=
  match e with
  | Some EFatal => Some (fatal_error true s)
  | Some _ => Some (RunState (system_failed s) false)
  | None => None
  end.

(** ** [main] of the server *)

(** The arguments as argparse returns them. *)
Record args := Args {
  a_profiles : list text; a_cluster : option text; a_gen_init : option text; a_gen_bind_yaml : bool; a_wlans : option (list text)
}.

(** What argparse enforces: a profile, one option of the group, a known cluster
    mode and at least one card. *)
Definition args_ok (a : args) : Prop :=
  a_profiles a <> [] /\
  match a_cluster a, a_gen_init a, a_gen_bind_yaml a, a_wlans a with
  | Some m, None, false, None => m = lit "ssh" \/ m = lit "manual"
  | None, Some _, false, None => True
  | None, None, true, None => True
  | None, None, false, Some ws => ws <> []
  | _, _, _, _ => False
  end.

(** Where log messages go. *)
Inductive log_dest := LogFile (file dir : cval) | Stdout | Console.

(** The end of [main]: a node script or the binding data on standard output, or
    the server with its threshold, log, messages, what it started, the ports
    closed by [_cleanup] and its exit status. *)
Inductive ran :=
| PrintScript (lines : list text)
| PrintBind (b : Server.bind_info)
| Serve (min_level : Z) (dest : log_dest) (msgs : list text) (s : Server.srv) (closed : list (text * cval)) (status : option Z).

Definition text_of (v : cval) : result text := match v with CStr t => Ok t | _ => Raise TypeError end.

Section Main.
Context (py_str : cval -> text) (st : settings).
Context (exec : list (list text) -> list text -> outcome) (listen_tcp : cval -> result unit).
Context (nmcli_exists : bool) (inet_aton : text -> result bytes) (fmt1 : text -> text -> result text).
(** [sys.stdout.isatty()], the machine, release and node names of [os.uname()],
    [repr] of a list of strings or None, and the configuration files read. *)
Context (isatty : bool) (uname : text * text * text) (repr_list : option (list text) -> text) (used_files : list text).

Definition description : result text :=
  v ← Server.common_attr st (lit "version"); c ← Server.common_attr st (lit "commit"); c' ← text_of c;
  Ok (lit "WFB-ng version " ++ fmt_s py_str v ++ 45 :: take 8 c').

Definition sorted_profiles (a : args) : list text := merge_sort text_le (a_profiles a).

Definition log_dest_of : result log_dest :=
  f ← Server.common_attr st (lit "log_file");
  if truth f then p ← getattr st (lit "path"); d ← getattr p (lit "log_dir"); Ok (LogFile f d)
  else Ok (if isatty then Stdout else Console).

Definition run_on (profiles : list text) (rest : text) : text :=
  let '(machine, release, node) := uname in
  lit "Run on " ++ machine ++ 47 :: release ++ lit " @" ++ node ++ lit ", profile(s): " ++ repr_list (Some profiles) ++ lit ", " ++ rest.

(** [reactor.run] with [init] as its first call: what was started, the ports
    closed and the state of the run, once it ended. *)
Definition serve (profiles : list text) (wlans : option (list text)) (mode : option text) (es : list run_event)
    : Server.srv * list (text * cval) * option run_state :=
  let '(s, r) := Server.init py_str st exec listen_tcp nmcli_exists inet_aton fmt1 profiles (default [] wlans) mode Server.init_srv in
  match r with
  | Raise e => (s, [], Some (abort_on_crash (A := unit) (Raise e) initial_run))
  | Ok _ =>
      let '(l, e) := before_stop es in
      match Server.init_end s l with
      | Some (ports, Raise x) => (s, ports, Some (abort_on_crash (A := unit) (Raise x) initial_run))
      | Some (ports, Ok _) => (s, ports, stopped_by e initial_run)
      | None => (s, [], stopped_by e initial_run)
      end
  end.

(** The cluster mode, the cards and the log line about them. *)
Definition mode_of (a : args) : option text * option (list text) * text :=
  match a_cluster a with
  | Some ((_ :: _) as m) => (Some m, None, run_on (sorted_profiles a) (lit "cluster mode"))
  | _ => (None, a_wlans a, run_on (sorted_profiles a) (lit "using: " ++ repr_list (a_wlans a)))
  end.

(** [main] from [set_log_level] on. *)
Definition run_server (a : args) (desc : text) (es : list run_event) : result ran :=
  debug ← Server.common_attr st (lit "debug");
  dest ← log_dest_of;
  let '(mode, wlans, line) := mode_of a in
  let '(s, closed, run) := serve (sorted_profiles a) wlans mode es in
  let status := exit_status <$> run in
  let msgs := [desc; line; lit "Using config files:" ++ 10 :: join 10 used_files] ++
              match status with Some rc => [lit "Exiting with code " ++ print_d rc] | None => [] end in
  Ok (Serve (if truth debug then DEBUG else INFO) dest msgs s closed status).

Definition server_main (a : args) (es : list run_event) : result ran :=
  desc ← description;
  _ ← settings_getitem st (lit "common.version");
  match a_gen_init a with
  | Some ((_ :: _) as node) =>
      '(_, cn) ← parse_cluster_services py_str st (sorted_profiles a);
      scripts ← gen_cluster_scripts py_str st cn false;
      lines ← PyDict.item scripts node;
      Ok (PrintScript lines)
  | _ =>
      if a_gen_bind_yaml a then b ← Server.gen_bind_yaml st (a_profiles a); Ok (PrintBind b)
      else run_server a desc es
  end.

End Main.

(** ** [main] of the client *)

(** The calls that change the terminal, and the run of the reactor. *)
Inductive term_call := Initscr | Noecho | Cbreak | CursSet | Keypad | RunReactor | Endwin.

(** Whether a call succeeds after the ones before it. *)
Definition term_do (ok : list term_call -> term_call -> result unit) (c : term_call) : SE (list term_call) unit := fun t =>
  (t ++ [c], ok t c).

(** [try: m finally: fin]: the exception of [m] goes on unless [fin] raises. *)
Definition try_finally {S} (m fin : SE S unit) : SE S unit := fun s =>
  let '(s1, r) := m s in
  let '(s2, r2) := fin s1 in
  (s2, match r2 with Ok _ => r | Raise e => Raise e end).

Definition cli_terminal (ok : list term_call -> term_call -> result unit) : SE (list term_call) unit :=
  _ ← term_do ok Initscr;
  try_finally (se_iter (term_do ok) [Noecho; Cbreak; CursSet; Keypad; RunReactor]) (term_do ok Endwin).

(** [init]: the statistics port of the profile, then the windows, then the connection. *)
Definition cli_init (st : settings) (profile : text) (init_windows : result unit) (connect : cval -> result unit) : result unit :=
  pc ← getattr st profile; port ← getattr pc (lit "stats_port"); _ ← init_windows; connect port.

(** The status of [main] and what it writes to standard error: the log of the
    session, after the terminal is restored. *)
Definition cli_end (run : run_state) (log_lines : list text) : Z * list text :=
  let rc := exit_status run in
  (rc, log_lines ++ if rc =? 0 then [] else [lit "Exiting with code " ++ print_d rc]).

(** ** [main] of the latency test *)

Definition latency_args (argv : list text) : result (text * text * text * text) :=
  match argv with [a; b; c; d] => Ok (a, b, c, d) | _ => Raise ValueError end.

(** The test with its integer arguments; whether it fails is decided by [eval]. *)
Definition latency_call (argv : list text) : result (Z * Z * Z * Z) :=
  '(a, b, c, d) ← latency_args argv;
  port_in ← int_of 10 a; port_out ← int_of 10 b; size ← int_of 10 c; max_rate ← int_of 10 d;
  Ok (port_in, port_out, size, max_rate).

(** The exit status; [None] when the reactor never stops.  The integers are
    converted inside the function the reactor calls, before there is a deferred. *)
Definition latency_main (eval : Z * Z * Z * Z -> result unit) (argv : list text) : result (option Z) :=
  _ ← latency_args argv;
  match latency_call argv with
  | Raise e => Ok (if running (when_running (A := unit) (Raise e) initial_run) then None else Some 0)
  | Ok a => Ok (Some (exit_status (match eval a with
                                   | Ok _ => RunState (system_failed initial_run) false
                                   | Raise e => abort_on_crash (A := unit) (Raise e) initial_run
                                   end)))
  end.

(** ** How the server ends *)

Section Ends.
Context (py_str : cval -> text) (st : settings).
Context (exec : list (list text) -> list text -> outcome) (listen_tcp : cval -> result unit).
Context (nmcli_exists : bool) (inet_aton : text -> result bytes) (fmt1 : text -> text -> result text).
Context (isatty : bool) (uname : text * text * text) (repr_list : option (list text) -> text) (used_files : list text).

Abbreviation the_init := (Server.init py_str st exec listen_tcp nmcli_exists inet_aton fmt1).
Abbreviation the_main := (server_main py_str st exec listen_tcp nmcli_exists inet_aton fmt1 isatty uname repr_list used_files).

(** A node connection that closes, or a service that fails. *)
Definition failing (ssh : nat) (x : nat * result unit) : bool := (x.1 <? ssh)%nat || negb (is_ok x.2).

(** The exit status read off the events alone: the first failure, fatal error
    or signal decides. *)
Fixpoint expected_status (ssh : nat) (es : list run_event) : option Z :=
  match es with
  | [] => None
  | ESignal :: _ => Some 0
  | EFatal :: _ => Some 1
  | EService i r :: es' => if failing ssh (i, r) then Some 1 else expected_status ssh es'
  end.

(** What the server waits for is over: a part of it failed, or all of it ended. *)
Definition over (s : Server.srv) (es : list run_event) : bool :=
  let l := (before_stop es).1 in
  existsb (failing (length (Server.ssh_started s))) l ||
  bool_decide (length l = (length (Server.ssh_started s) + length (Server.starts s))%nat).

(** What the server waits for ends at most once. *)
Definition awaited (s : Server.srv) (es : list run_event) : Prop :=
  NoDup (before_stop es).1.*1 /\
  Forall (fun i => (i < length (Server.ssh_started s) + length (Server.starts s))%nat) (before_stop es).1.*1.

Lemma gather_failing s w l : NoDup l.*1 -> (forall i, i ∈ l.*1 -> i ∈ w) ->
  if existsb (failing (length (Server.ssh_started s))) l then exists x, Server.gather s w l = Some (Raise x)
  else Server.gather s w l = if bool_decide (length l = size w) then Some (Ok tt) else None.
Proof using Type.
  revert w. induction l as [|[i r] l IH]; intros w Hnd Hw; cbn [existsb Server.gather].
  { cbn [length]. destruct (decide (w = ∅)) as [-> | Hne]; [by rewrite size_empty |].
    rewrite bool_decide_eq_false_2; [done |]. intros H%eq_sym%size_empty_inv. by apply Hne, leibniz_equiv. }
  rewrite fmap_cons in Hnd, Hw. apply NoDup_cons in Hnd as [Hi Hnd]. cbn [fst] in *.
  destruct (decide (w = ∅)) as [-> |]; [by specialize (Hw i ltac:(by left)); apply elem_of_empty in Hw |].
  unfold Server.outcome_of, failing at 1. cbn [fst snd]. destruct (decide _) as [Hlt | Hge].
  { rewrite (proj2 (Nat.ltb_lt _ _) Hlt). cbn [orb]. by eexists. }
  rewrite (proj2 (Nat.ltb_ge _ _)) by lia. destruct r as [[]|x]; cbn [is_ok negb orb]; [| by eexists].
  assert (Hi' : i ∈ w) by (apply Hw; by left). specialize (IH (w ∖ {[i]}) Hnd).
  assert (Hsz : size w = S (size (w ∖ {[i]}))).
  { rewrite size_difference_alt. replace (w ∩ {[i]}) with ({[i]} : gset nat) by set_solver. rewrite size_singleton.
    assert (size ({[i]} : gset nat) <= size w)%nat by (apply subseteq_size; set_solver). rewrite size_singleton in *. lia. }
  cbn [length]. rewrite Hsz, (bool_decide_ext (S (length l) = S (size (w ∖ {[i]}))) (length l = size (w ∖ {[i]}))) by lia.
  apply IH. intros j Hj. apply elem_of_difference. split; [apply Hw; by right |]. rewrite elem_of_singleton. by intros ->.
Qed.

Lemma expected_before_stop ssh es : expected_status ssh es =
  if existsb (failing ssh) (before_stop es).1 then Some 1 else exit_status <$> stopped_by (before_stop es).2 initial_run.
Proof using Type.
  induction es as [|[i r| |] es IH]; [done | | done | done]. cbn [expected_status before_stop]. destruct (before_stop es) as [l e].
  cbn [fst snd existsb] in *. rewrite IH. by destruct (failing ssh (i, r)).
Qed.

Lemma serve_status profiles wlans mode es s closed run : awaited s es ->
  serve py_str st exec listen_tcp nmcli_exists inet_aton fmt1 profiles wlans mode es = (s, closed, run) ->
  exists r, the_init profiles (default [] wlans) mode Server.init_srv = (s, r) /\
    exit_status <$> run = (if is_ok r then expected_status (length (Server.ssh_started s)) es else Some 1) /\
    closed = (if is_ok r && over s es then Server.tcp_ports s else []).
Proof using Type.
  intros Haw. unfold serve. destruct (the_init profiles (default [] wlans) mode Server.init_srv) as [s0 r]. destruct r as [[]|x].
  2: { intros [= <- <- <-]. eexists. by split_and!. }
  rewrite expected_before_stop. intros H. assert (s0 = s) as ->.
  { destruct (before_stop es) as [l e]. by destruct (Server.init_end s0 l) as [[ports [[]|x]]|]; injection H as -> _ _. }
  exists (Ok tt). split; [done |]. cbn [is_ok andb]. unfold awaited in Haw. unfold over. destruct (before_stop es) as [l e]. cbn [fst snd] in *. destruct Haw as [Hnd Hlt].
  pose proof (gather_failing s (set_seq 0 (length (Server.ssh_started s) + length (Server.starts s))) l Hnd) as Hg.
  rewrite Forall_forall in Hlt. specialize (Hg ltac:(intros i Hi; apply elem_of_set_seq; specialize (Hlt i Hi); lia)).
  rewrite size_set_seq in Hg. unfold Server.init_end in H. destruct (existsb _ l); cbn [orb].
  - destruct Hg as [x Hx]. rewrite Hx in H. by injection H as <- <-.
  - rewrite Hg in H. destruct (bool_decide _); by injection H as <- <-.
Qed.

Abbreviation the_run := (run_server py_str st exec listen_tcp nmcli_exists inet_aton fmt1 isatty uname repr_list used_files).

Lemma mode_of_args a : args_ok a -> exists line, mode_of uname repr_list a = (a_cluster a, a_wlans a, line).
Proof using Type.
  intros [_ Ha]. unfold mode_of. destruct (a_cluster a) as [m|]; [| by eexists].
  destruct (a_gen_init a), (a_gen_bind_yaml a), (a_wlans a); try done. destruct Ha as [-> | ->]; by eexists.
Qed.

(** Only [run_server] runs a server. *)
Lemma main_serves a es min_level dest msgs s closed status : the_main a es = Ok (Serve min_level dest msgs s closed status) ->
  exists desc, the_run a desc es = Ok (Serve min_level dest msgs s closed status).
Proof using Type.
  unfold server_main. intros (desc & _ & (v & _ & H)%bind_ok)%bind_ok. exists desc. destruct (a_gen_init a) as [[|c node]|].
  2: { apply bind_ok in H as ([? ?] & _ & (? & _ & (? & _ & H)%bind_ok)%bind_ok). done. }
  all: destruct (a_gen_bind_yaml a); [by apply bind_ok in H as (b & _ & H) | done].
Qed.

(** C21: how a server run ends.  Whatever arguments argparse lets through that ask for a
    server, and whatever the services, the node connections, the rest of the program
    and the signals do, in whatever order: start-up is run once with the profiles in
    sorted order and the cards or cluster mode asked for; if it raises, the process
    exits with 1; if it succeeds, the first of a failing service, a closed node
    connection, a fatal error and a signal decides, only a signal giving 0, and until
    one of them happens the server keeps running.  Exactly the TCP ports it opened are
    closed by the program when something it waits for failed or all of it ended before
    the reactor stopped; none is when start-up raised, and none when a fatal error or a
    signal stopped the reactor first.  The status it exits with is the last line of its
    log. *)
Theorem server_exit_status a es min_level dest msgs s closed status : args_ok a ->
  the_main a es = Ok (Serve min_level dest msgs s closed status) -> awaited s es ->
  exists r, the_init (merge_sort text_le (a_profiles a)) (default [] (a_wlans a)) (a_cluster a) Server.init_srv = (s, r) /\
    status = (if is_ok r then expected_status (length (Server.ssh_started s)) es else Some 1) /\
    closed = (if is_ok r && over s es then Server.tcp_ports s else []) /\
    (forall rc, status = Some rc -> last msgs = Some (lit "Exiting with code " ++ print_d rc)).
Proof using Type.
  intros Ha (desc & H)%main_serves Haw. unfold run_server in H. apply bind_ok in H as (debug & _ & (d & _ & H)%bind_ok).
  destruct (mode_of_args a Ha) as [line Hm]. rewrite Hm in H. cbn iota beta in H. unfold sorted_profiles in H.
  destruct (serve _ _ _ _ _ _ _ _ _ _ _) as [[s0 c0] run] eqn:E. cbv zeta in H. injection H as <- <- <- -> -> <-.
  destruct (serve_status _ _ _ _ _ _ _ Haw E) as (r & Hi & Hst & Hcl). exists r. split_and!; [done | done | done |].
  intros rc Hrc. by rewrite Hrc.
Qed.

End Ends.

(** A server on two cards: it runs until its first service fails, then closes its ports. *)
Definition demo_launch : settings :=
  PyDict.set Server.demo_server (lit "common") (default [] (PyDict.get Server.demo_server (lit "common")) ++
    [(lit "commit", str (lit "0123456789abcdef")); (lit "debug", CBool false); (lit "log_file", CNone)]).

Definition demo_cmdline : args := Args [lit "gs"] (Some (lit "manual")) None false None.

Definition demo_main (es : list run_event) : result ran :=
  server_main Cluster.demo_str demo_launch Server.demo_exec Server.demo_listen false Server.demo_aton Server.demo_fmt true
    (lit "armv7l", lit "6.1", lit "gs") (fun _ => lit "[]") [] demo_cmdline es.

Lemma server_exit_status_witness : exists min_level dest msgs s,
  demo_main [EService 0 (Raise ValueError); ESignal] = Ok (Serve min_level dest msgs s (Server.tcp_ports s) (Some 1)) /\
  Server.tcp_ports s <> [] /\ last msgs = Some (lit "Exiting with code 1").
Proof.
  destruct (demo_main [EService 0 (Raise ValueError); ESignal]) as [[| |ml d msgs s cl status]|] eqn:E; try (vm_compute in E; discriminate E).
  destruct (server_exit_status Cluster.demo_str demo_launch Server.demo_exec Server.demo_listen false Server.demo_aton Server.demo_fmt true
    (lit "armv7l", lit "6.1", lit "gs") (fun _ => lit "[]") [] demo_cmdline [EService 0 (Raise ValueError); ESignal] ml d msgs s cl status)
    as (r & Hi & Hst & Hcl & Hlast).
  - split; [done |]. right. reflexivity.
  - exact E.
  - split; cbn [before_stop fst].
    + apply NoDup_singleton.
    + constructor; [| constructor]. vm_compute in E. injection E as _ _ _ <- _ _. vm_compute. apply Nat.ltb_lt. reflexivity.
  - assert (Hs : s = (Server.init Cluster.demo_str demo_launch Server.demo_exec Server.demo_listen false Server.demo_aton Server.demo_fmt
      [lit "gs"] [] (Some (lit "manual")) Server.init_srv).1) by (change (merge_sort text_le (a_profiles demo_cmdline)) with [lit "gs"] in Hi; cbn [a_wlans a_cluster demo_cmdline default] in Hi; by rewrite Hi).
    assert (Hr : r = Ok tt).
    { change (merge_sort text_le (a_profiles demo_cmdline)) with [lit "gs"] in Hi. cbn [a_wlans a_cluster demo_cmdline default] in Hi.
      apply (f_equal snd) in Hi. cbn [snd] in Hi. rewrite <- Hi. vm_compute. reflexivity. }
    assert (Hssh : Server.ssh_started s = []) by (rewrite Hs; vm_compute; reflexivity).
    rewrite Hr in *. cbn [is_ok] in *. unfold over in Hcl. rewrite Hssh in *. cbn [expected_status failing length] in Hst. cbn in Hcl.
    exists ml, d, msgs, s. split_and!.
    + by rewrite Hst, Hcl.
    + rewrite Hs. vm_compute. discriminate.
    + exact (Hlast 1 Hst).
Defined.

(** ** Who a message is attributed to *)

Lemma rfind_from_last c l i r : c ∉ l -> rfind_from c i r l = r.
Proof.
  revert i r. induction l as [|x l IH]; intros i r H; [done |]. apply not_elem_of_cons in H as [Hx Hl]. cbn [rfind_from].
  destruct (Z.eqb_spec x c); [congruence |]. by apply IH.
Qed.

Lemma rfind_from_app c a b i r : c ∉ b -> rfind_from c i r (a ++ c :: b) = i + blen a.
Proof.
  intros Hb. revert i r. induction a as [|x a IH]; intros i r; cbn [app rfind_from].
  - rewrite Z.eqb_refl, rfind_from_last by done. rewrite blen_nil. lia.
  - rewrite IH, blen_cons. lia.
Qed.

(** The directories with their slashes. *)
Definition dir_part (dirs : list text) : text := concat (map (fun d => d ++ [47]) dirs).

Lemma join_dirs dirs x : join 47 (dirs ++ [x]) = dir_part dirs ++ x.
Proof.
  induction dirs as [|d dirs IH]; [done |]. cbn [app]. unfold dir_part in *. cbn [map concat]. rewrite <- !app_assoc. cbn [app]. rewrite <- IH.
  by destruct dirs.
Qed.

Lemma dir_part_sep dirs x : 47 ∉ x -> rfind 47 (dir_part dirs ++ x) = blen (dir_part dirs) - 1.
Proof.
  intros Hx. destruct dirs as [|d dirs _] using rev_ind; [cbn; by apply rfind_from_last |].
  assert (E : dir_part (dirs ++ [d]) = (dir_part dirs ++ d) ++ [47]) by (unfold dir_part; rewrite map_app, concat_app; cbn; by rewrite app_nil_r, app_assoc).
  rewrite E, <- app_assoc. cbn [app]. unfold rfind. rewrite rfind_from_app by done. unfold blen. rewrite !length_app. cbn [length]. lia.
Qed.

Lemma forallb_dots name : name <> [] -> 46 ∉ name -> forallb (fun c => c =? 46) name = false.
Proof.
  intros Hne Hn. destruct name as [|c name]; [done |]. apply not_elem_of_cons in Hn as [Hc _]. cbn [forallb].
  by destruct (Z.eqb_spec c 46); [congruence |].
Qed.

Lemma splitext_file dirs name : name <> [] -> 46 ∉ name -> 47 ∉ name ->
  splitext_root (join 47 (dirs ++ [name ++ lit ".py"])) = join 47 (dirs ++ [name]).
Proof.
  intros Hne Hdot Hsep. rewrite !join_dirs. unfold splitext_root.
  rewrite dir_part_sep by (rewrite not_elem_of_app; split; [done | apply (bool_decide_unpack (47 ∉ lit ".py")); vm_compute; exact I]).
  change (lit ".py") with (46 :: lit "py"). rewrite app_assoc. unfold rfind.
  rewrite rfind_from_app by (apply (bool_decide_unpack (46 ∉ lit "py")); vm_compute; exact I). rewrite Z.add_0_l, blen_app.
  pose proof (blen_nonneg name). destruct (Z.ltb_spec (blen (dir_part dirs) - 1) (blen (dir_part dirs) + blen name)); [| lia].
  replace (Z.to_nat (blen (dir_part dirs) + blen name)) with (length (dir_part dirs ++ name)) by (unfold blen; rewrite length_app; lia).
  rewrite take_app_length. replace (Z.to_nat (blen (dir_part dirs) - 1 + 1)) with (length (dir_part dirs)) by (unfold blen; lia).
  rewrite drop_app_length, forallb_dots; done.
Qed.

(** A message logged by a function of a source file is attributed to the module
    of that file, or for a package to the package, and to the function that
    contains it when it is a closure. *)
Theorem caller_named dirs name func inner : name <> [] -> 46 ∉ name -> 47 ∉ name -> Forall (fun d => 47 ∉ d) dirs ->
  60 ∉ func -> forall stack, stack !! 2%nat = Some (Frm (join 47 (dirs ++ [name ++ lit ".py"])) (func ++ locals_mark ++ inner)) ->
  find_caller stack 2 = Ok (if bool_decide (name = lit "__init__") then default name (last dirs) else name, func).
Proof.
  intros Hne Hdot Hsep Hdirs Hf stack Hst. unfold find_caller. rewrite Hst. cbn [of_option mbind result_bind co_filename co_qualname]. f_equal. f_equal.
  - unfold module_of. rewrite splitext_file by done. rewrite split_join; [| by destruct dirs | apply Forall_app; split; [done | by constructor]].
    rewrite reverse_app. cbn [reverse rev_append app]. destruct dirs as [|d dirs _] using rev_ind.
    + cbn. by destruct (bool_decide _).
    + rewrite reverse_snoc, last_snoc. cbn. done.
  - unfold func_of. assert (H : before locals_mark (func ++ locals_mark ++ inner) = Some func); [| by rewrite H].
    clear - Hf. induction func as [|c func IH]; [done |]. apply not_elem_of_cons in Hf as [Hc Hf]. cbn [app before].
    unfold is_prefix. rewrite bool_decide_eq_false_2; [by rewrite IH |]. intros E. cbn in E.
    injection E as _ E. destruct func as [|c2 func]; [done |]. cbn in E. injection E as -> E. by apply Hf; left.
Qed.

(** ** The console *)

Lemma split_pieces sep l : split sep l <> [] /\ Forall (fun p => sep ∉ p) (split sep l).
Proof.
  induction l as [|c l [Hne IH]]; cbn [split]; [split; [done | repeat constructor; apply not_elem_of_nil] |].
  destruct (Z.eqb_spec c sep) as [-> | Hc]; [split; [done |]; constructor; [apply not_elem_of_nil | done] |].
  destruct (split sep l) as [|p ps]; [done |]. split; [done |]. apply Forall_cons in IH as [Hp Hps]. constructor; [| done].
  apply not_elem_of_cons. by split.
Qed.

Lemma split_indented pre p ps tail : 10 ∉ pre -> 10 ∉ p -> Forall (fun p => 10 ∉ p) ps ->
  split 10 (pre ++ join_text (10 :: indent) (p :: ps) ++ 10 :: tail) = (pre ++ p) :: map (app indent) ps ++ split 10 tail.
Proof.
  intros Hpre Hp Hps. revert pre p Hpre Hp. induction Hps as [|q ps Hq Hps IH]; intros pre p Hpre Hp.
  - cbn [join_text map app]. rewrite app_assoc. apply split_sep_app. rewrite not_elem_of_app. by split.
  - change (join_text (10 :: indent) (p :: q :: ps)) with (p ++ 10 :: indent ++ join_text (10 :: indent) (q :: ps)).
    rewrite <- !app_assoc, <- app_comm_cons, app_assoc, split_sep_app by (rewrite not_elem_of_app; by split). f_equal.
    rewrite <- app_assoc, IH; [done | | done]. apply (bool_decide_unpack (10 ∉ indent)). vm_compute. exact I.
Qed.

(** What the console prints for one message is one block of lines: the first
    carries the system, every further line of the message is indented. *)
Theorem console_block system log_text : 10 ∉ system -> exists first rest, split 10 (rstrip log_text) = first :: rest /\
  split 10 (emit system log_text) = (91 :: system ++ lit "] " ++ first) :: map (app indent) rest ++ [[]].
Proof.
  intros Hs. destruct (split_pieces 10 (rstrip log_text)) as [Hne Hp]. unfold emit. destruct (split 10 (rstrip log_text)) as [|first rest]; [done |].
  exists first, rest. split; [done |]. apply Forall_cons in Hp as [Hf Hr].
  assert (Hpre : 10 ∉ 91 :: system ++ lit "] ").
  { rewrite not_elem_of_cons, not_elem_of_app. split_and!; [done | done |]. apply (bool_decide_unpack (10 ∉ lit "] ")). vm_compute. exact I. }
  assert (E : forall l, 91 :: system ++ lit "] " ++ l = (91 :: system ++ lit "] ") ++ l) by (intros l; cbn [app]; by rewrite <- app_assoc).
  rewrite !E. exact (split_indented _ first rest [] Hpre Hf Hr).
Qed.

(** ** The terminal is given back *)

(** Once curses is started, whatever fails or not while the client is set up and
    run, [endwin] is the last call and is made once. *)
Theorem terminal_restored ok t r : cli_terminal ok [] = (t, r) -> ok [] Initscr = Ok tt ->
  exists mid, t = Initscr :: mid ++ [Endwin] /\ Endwin ∉ mid.
Proof.
  unfold cli_terminal, try_finally, mbind, SE_bind, term_do. cbn [app]. intros H Hi. rewrite Hi in H.
  assert (Hm : forall calls t0, Endwin ∉ calls -> exists mid, (se_iter (term_do ok) calls t0).1 = t0 ++ mid /\ Endwin ∉ mid).
  { induction calls as [|c calls IH]; intros t0 Hc; [exists []; split; [by rewrite app_nil_r | apply not_elem_of_nil] |].
    apply not_elem_of_cons in Hc as [Hne Hc]. cbn [se_iter]. unfold mbind, SE_bind, term_do at 1. destruct (ok t0 c) as [[]|e].
    - destruct (IH (t0 ++ [c]) Hc) as (mid & -> & Hmid). exists (c :: mid). split; [by rewrite <- app_assoc |]. rewrite not_elem_of_cons. by split.
    - exists [c]. split; [done |]. rewrite not_elem_of_cons. split; [done | apply not_elem_of_nil]. }
  destruct (Hm [Noecho; Cbreak; CursSet; Keypad; RunReactor] [Initscr]) as (mid & Hmid & Hno).
  { rewrite !not_elem_of_cons. split_and!; try done. apply not_elem_of_nil. }
  unfold term_do in Hmid. destruct (se_iter _ _ [Initscr]) as [t1 r1]. cbn [fst] in Hmid. subst t1. injection H as <- _.
  exists mid. by split.
Qed.

(** ** The latency test never ends on a bad number *)

(** An argument that is no integer is converted inside the function the reactor
    calls: the exception is logged, nothing stops the reactor, and the tool never
    exits.  With four integers it ends with the status of the test. *)
Theorem latency_exit eval a b c d :
  (forall e, latency_call [a; b; c; d] = Raise e -> latency_main eval [a; b; c; d] = Ok None) /\
  (forall x, latency_call [a; b; c; d] = Ok x -> latency_main eval [a; b; c; d] = Ok (Some (if is_ok (eval x) then 0 else 1))).
Proof.
  unfold latency_main. cbn [latency_args mbind result_bind]. split.
  - by intros e ->.
  - intros x ->. by destruct (eval x).
Qed.

Example latency_bad_number : latency_main (fun _ => Ok tt) [lit "5600"; lit "5601"; lit "1e3"; lit "1000"] = Ok None.
Proof. vm_compute. reflexivity. Qed.

End Launch.
