(* ===== verification/Cli.v ===== *)
(** src/wfb_ng/cli.py: the terminal client.  Drawing is a list of calls of
    [window.addch]; whether a position can be written is a parameter, since
    curses decides it.  Windows are placed with binary64 arithmetic, as the code does. *)
From Stdlib Require Import ZArith Lia Bool.
From stdpp Require Import base list numbers strings gmap sorting.
From S2P Require Import Prelude PyFloat PyNum PyText PyDict AntSel.

Module Cli.
Import PyText.

(** ** Text *)

Definition A_REVERSE : Z := Z.shiftl 1 18.
Definition A_DIM : Z := Z.shiftl 1 20.
Definition A_BOLD : Z := Z.shiftl 1 21.

(** One call [window.addch(y, x, c, attrs)]. *)
Record cell := Cell { c_y : Z; c_x : Z; c_char : Z; c_attrs : Z }.

(** [None] for a character that is drawn, or the attributes after a mark. *)
Definition mark (c attrs : Z) : option Z :=
  if c =? 123 then Some (Z.lor attrs A_BOLD)
  else if c =? 125 then Some (Z.ldiff attrs A_BOLD)
  else if c =? 40 then Some (Z.lor attrs A_DIM)
  else if c =? 41 then Some (Z.ldiff attrs A_DIM)
  else if c =? 94 then Some (Z.lor attrs A_REVERSE)
  else if c =? 36 then Some (Z.ldiff attrs A_REVERSE)
  else None.

Section Draw.
(** Whether [addch] succeeds at a position; otherwise it raises [curses.error],
    which [ignore_curses_err] drops together with the rest of the text. *)
Context (addch_ok : Z -> Z -> bool).

Fixpoint addstr_markup (y x : Z) (s : text) (attrs : Z) : list cell :=
  match s with
  | [] => []
  | c :: s' =>
      match mark c attrs with
      | Some attrs' => addstr_markup y x s' attrs'
      | None => if addch_ok y x then Cell y x c attrs :: addstr_markup y (x + 1) s' attrs else []
      end
  end.

Fixpoint addstr_noerr (y x : Z) (s : text) (attrs : Z) : list cell :=
  match s with
  | [] => []
  | c :: s' => if addch_ok y x then Cell y x c attrs :: addstr_noerr y (x + 1) s' attrs else []
  end.

Definition addstr_centered (h w : Z) (s : text) (attrs : Z) : list cell :=
  addstr_noerr (h / 2) (Z.max ((w - blen s) / 2) 0) s attrs.

End Draw.

(** ** Numbers as text *)

Definition pad_left (w : nat) (c : Z) (t : text) : text := replicate (w - length t) c ++ t.
Definition fmt_d (w : nat) (z : Z) : text := pad_left w 32 (print_d z).
Definition fmt_0d (w : nat) (z : Z) : text := if z <? 0 then 45 :: pad_left (w - 1) 48 (print_u (- z)) else pad_left w 48 (print_u z).

Definition upper_hex (c : Z) : Z := if (97 <=? c) && (c <=? 102) then c - 32 else c.
Definition print_X (n : Z) : text := map upper_hex (print_x n).

(** [%.<d>f]: the exact value rounded half to even. *)
Definition fixed (d : nat) (a : PyNum.num) : text :=
  match a with
  | PyNum.NInf n => if n : bool then lit "-inf" else lit "inf"
  | PyNum.NNaN => lit "nan"
  | _ =>
      let '(m, e) := PyNum.dyadic a in
      let t := PyFloat.rne (Z.abs m * 10 ^ Z.of_nat d) (- e) in
      (if m <? 0 then [45] else []) ++ print_u (t / 10 ^ Z.of_nat d) ++ 46 :: fmt_0d d (t mod 10 ^ Z.of_nat d)
  end.

Definition human_rate (r : PyNum.num) : result text :=
  rate ← PyNum.mul r (PyNum.NInt 8);
  '(rate, modifier) ← (if PyNum.le (PyNum.NInt 1000000) rate
                       then a ← PyNum.div rate (PyNum.NInt 1024); b ← PyNum.div a (PyNum.NInt 1024); Ok (b, lit "mbit/s")
                       else a ← PyNum.div rate (PyNum.NInt 1024); Ok (a, lit "kbit/s"));
  if PyNum.lt rate (PyNum.NInt 10) then Ok (fixed 1 rate ++ 32 :: modifier)
  else z ← PyNum.trunc rate; Ok (fmt_d 3 z ++ 32 :: modifier).

Definition low_text (b : Z) : text := if b =? 255 then [88] else print_X b.

Definition format_ant (ant_id : Z) : text :=
  if ant_id <? Z.shiftl 1 32 then pad_left 2 32 (print_X (Z.shiftr ant_id 8)) ++ 58 :: low_text (Z.land ant_id 255) ++ [32]
  else pad_left 8 48 (print_X (Z.shiftr ant_id 32)) ++ 58 :: print_X (Z.land (Z.shiftr ant_id 8) 255) ++ 58 :: low_text (Z.land ant_id 255).

(** ** [AntennaStat] *)

(** A text drawn at a position, with or without markup. *)
Record draw := Draw { d_markup : bool; d_y : Z; d_x : Z; d_text : text; d_attrs : Z }.

(** [is_cluster], [log_interval], [temp_overheat_warning] and the rows of the
    windows of [factory.windows]. *)
Record client := Client {
  cl_is_cluster : bool; cl_log_interval : Z; cl_temp_overheat_warning : option Z; cl_windows : PyDict.dict text Z
}.

Definition str_item (d : AntSel.packet_stats) (k : string) : result (Z * Z) := PyDict.item d k.

(** [1000 * n // self.log_interval]. *)
Definition per_second (c : client) (n : Z) : result Z := AntSel.floordiv (1000 * n) (cl_log_interval c).

(** A line ['<label> %4d$ (%d)' % _norm(p[key])]; some are reversed when the
    count is not zero. *)
Definition count_line (c : client) (p : AntSel.packet_stats) (label key : string) (warn : bool) : result (text * Z) :=
  v ← str_item p key;
  n ← per_second c v.1;
  Ok (lit label ++ fmt_d 4 n ++ lit "$ (" ++ print_d v.2 ++ lit ")", if warn && negb (v.1 =? 0) then A_REVERSE else 0).

(** [for y, (msg, attr) in enumerate(msg_l, 1): if y < ymax: ...]. *)
Fixpoint numbered (ymax y : Z) (x : Z) (l : list (text * Z)) : list draw :=
  match l with
  | [] => []
  | (t, a) :: l' => (if y <? ymax then [Draw true y x t a] else []) ++ numbered ymax (y + 1) x l'
  end.

Definition rate_of (c : client) (n : Z) : result text := r ← PyNum.div (PyNum.NInt (1000 * n)) (PyNum.NInt (cl_log_interval c)); human_rate r.

(** Order of [sorted(stats_d.items())]: the keys are distinct. *)
Fixpoint lex_le (a b : list Z) : bool :=
  match a, b with
  | [], _ => true
  | _ :: _, [] => false
  | x :: a', y :: b' => (x <? y) || ((x =? y) && lex_le a' b')
  end.

Definition item_key (it : AntSel.item) : list Z := it.1.1 ++ [it.1.2].
Definition item_le (a b : AntSel.item) : Prop := lex_le (item_key a) (item_key b) = true.
#[export] Instance item_le_dec : RelDecision item_le.
Proof. intros a b. unfold item_le. apply _. Defined.

(** A row of the antenna table. *)
Definition rx_row (c : client) (tx_wlan : option Z) (uniq : Z) (it : AntSel.item) : result (text * Z) :=
  '(freq, mcs_index, bandwidth) ← AntSel.unpack3 it.1.1;
  v ← AntSel.unpack7 it.2;
  let ant_id := it.1.2 in
  let active_tx := bool_decide (Some (Z.shiftr ant_id 8) = tx_wlan) in
  let diff_loss := Z.max (uniq - AntSel.pkt_s v) 0 in
  n ← per_second c (AntSel.pkt_s v);
  dl ← per_second c diff_loss;
  let on (b : bool) (t : text) := if b then t else [] in
  Ok (fmt_0d 4 freq ++ 32 :: fmt_d 3 mcs_index ++ 32 :: fmt_d 2 bandwidth ++ 32 :: on active_tx [123] ++ format_ant ant_id ++
      on active_tx [125] ++ lit "  " ++ fmt_d 4 n ++ lit "  " ++ on (negb (diff_loss =? 0)) [123] ++ fmt_d 4 dl ++
      on (negb (diff_loss =? 0)) [125] ++ lit "  " ++ fmt_d 3 (AntSel.rssi_min v) ++ lit " < {" ++ fmt_d 3 (AntSel.rssi_avg v) ++
      lit "} < " ++ fmt_d 3 (AntSel.rssi_max v) ++ lit "  " ++ fmt_d 3 (AntSel.snr_min v) ++ lit " < {" ++ fmt_d 3 (AntSel.snr_avg v) ++
      lit "} < " ++ fmt_d 3 (AntSel.snr_max v),
      if active_tx then 0 else A_DIM).

(** The rows below [ymax] only; the tuple of every row is unpacked. *)
Fixpoint rx_rows (c : client) (tx_wlan : option Z) (uniq ymax y : Z) (l : list AntSel.item) : result (list draw) :=
  match l with
  | [] => Ok []
  | it :: l' =>
      d ← (if y <? ymax then '(t, a) ← rx_row c tx_wlan uniq it; Ok [Draw true y 20 t a]
           else _ ← AntSel.unpack3 it.1.1; _ ← AntSel.unpack7 it.2; Ok []);
      r ← rx_rows c tx_wlan uniq ymax (y + 1) l';
      Ok (d ++ r)
  end.

Definition pads (c : client) : text * text := if cl_is_cluster c then (lit "    ", lit "   ") else ([], []).

Definition rx_draws (c : client) (ymax : Z) (tx_wlan : option Z) (p : AntSel.packet_stats) (stats_d : AntSel.ant_stats)
    (session : option AntSel.session_info) : result (list draw) :=
  uniq ← str_item p "uniq";
  diversity ← (if 0 <? uniq.1 then data ← str_item p "data"; PyNum.div (PyNum.NInt data.1) (PyNum.NInt uniq.1) else Ok (PyNum.NInt 0));
  l1 ← count_line c p "{recv}  " "all" false;
  l2 ← count_line c p "{udp}   " "out" false;
  l3 ← count_line c p "sess  " "session" false;
  l4 ← count_line c p "fec_r " "fec_rec" true;
  l5 ← count_line c p "lost  " "lost" true;
  l6 ← count_line c p "d_err " "dec_err" true;
  l7 ← count_line c p "bad   " "bad" true;
  ab ← str_item p "all_bytes"; fin ← rate_of c ab.1;
  ob ← str_item p "out_bytes"; fout ← rate_of c ob.1;
  let fec := match session with
             | Some s => lit "{FEC:} " ++ print_d (AntSel.fec_k s) ++ 47 :: print_d (AntSel.fec_n s) ++ lit "  "
             | None => []
             end in
  let flow := lit "{Flow:} " ++ fin ++ lit " -> " ++ fout ++ lit "  " ++ fec ++ lit "{Diversity:} " ++ fixed 2 diversity in
  table ← match stats_d with
          | [] => Ok [Draw false 2 20 (lit "[No data]") A_REVERSE]
          | _ =>
              rows ← rx_rows c tx_wlan uniq.1 ymax 3 (merge_sort item_le stats_d);
              Ok (Draw true 2 20 (lit "{Freq MCS BW " ++ (pads c).1 ++ lit "[ANT]" ++ (pads c).2 ++
                    lit " pkt/s dloss}     {RSSI} [dBm]        {SNR} [dB]") 0 :: rows)
          end;
  Ok (Draw true 0 0 (lit "     {pkt/s pkt}") 0 :: numbered ymax 1 0 [l1; l2; l3; l4; l5; l6; l7] ++ Draw true 0 20 flow 0 :: table).

(** The temperature shown for antenna [k]: the highest of its card. *)
Definition temp_text (c : client) (rf_temperature : PyDict.dict Z Z) (k : Z) : text :=
  match map snd (filter (fun q => Z.shiftr q.1 8 = Z.shiftr k 8) rf_temperature) with
  | [] => lit " (--)"
  | t :: ts =>
      let temp := fold_left Z.max ts t in
      match cl_temp_overheat_warning c with
      | Some w => if w <=? temp then 94 :: print_d temp ++ [36] else print_d temp
      | None => print_d temp
      end
  end.

Definition unpack5 (v : list Z) : result (Z * Z * Z * Z * Z) :=
  match v with [a; b; d; e; f] => Ok (a, b, d, e, f) | _ => Raise ValueError end.

Fixpoint tx_rows (c : client) (rf_temperature : PyDict.dict Z Z) (ymax y : Z) (l : list (Z * list Z)) : result (list draw) :=
  match l with
  | [] => Ok []
  | (k, v) :: l' =>
      '(injected, dropped, lat_min, lat_avg, lat_max) ← unpack5 v;
      d ← (if y <? ymax then
             n ← per_second c injected;
             Ok [Draw true y 20 (123 :: format_ant k ++ lit "}  " ++ fmt_d 4 n ++ lit "  " ++ pad_left 3 32 (temp_text c rf_temperature k) ++
                   32 :: fmt_d 4 lat_min ++ lit " < {" ++ fmt_d 4 lat_avg ++ lit "} < " ++ fmt_d 4 lat_max) 0]
           else Ok []);
      r ← tx_rows c rf_temperature ymax (y + 1) l';
      Ok (d ++ r)
  end.

Definition lat_le (a b : Z * list Z) : Prop := a.1 <= b.1.
#[export] Instance lat_le_dec : RelDecision lat_le.
Proof. intros a b. unfold lat_le. apply _. Defined.

Definition tx_draws (c : client) (ymax : Z) (p : AntSel.packet_stats) (latency_d : PyDict.dict Z (list Z))
    (rf_temperature : PyDict.dict Z Z) : result (list draw) :=
  l1 ← count_line c p "{sent}  " "injected" false;
  l2 ← count_line c p "{udp}   " "incoming" false;
  l3 ← count_line c p "fec_t " "fec_timeouts" false;
  l4 ← count_line c p "drop  " "dropped" true;
  l5 ← count_line c p "trunc " "truncated" true;
  ib ← str_item p "incoming_bytes"; fin ← rate_of c ib.1;
  jb ← str_item p "injected_bytes"; fout ← rate_of c jb.1;
  table ← match latency_d with
          | [] => Ok [Draw false 2 20 (lit "[No data]") A_REVERSE]
          | _ =>
              rows ← tx_rows c rf_temperature ymax 3 (merge_sort lat_le latency_d);
              Ok (Draw true 2 20 (123 :: (pads c).1 ++ lit "[ANT]" ++ (pads c).2 ++ lit " pkt/s}   {" ++ 176 :: lit "C}    {Injection} [us]") 0 :: rows)
          end;
  Ok (Draw false 0 0 (lit "     pkt/s pkt") A_BOLD :: numbered ymax 1 0 [l1; l2; l3; l4; l5] ++
      Draw true 0 20 (lit "{Flow:} " ++ fin ++ lit " -> " ++ fout) 0 :: table).

(** [stringReceived]: the client afterwards and, for a message with a window,
    what is drawn in it. *)
Definition stringReceived (m : AntSel.stat_msg) (c : client) : result (client * option (text * list draw)) :=
  match m with
  | AntSel.RxMsg _ id tx_wlan p ants session =>
      match PyDict.get (cl_windows c) (lit id) with
      | None => Ok (c, None)
      | Some ymax => l ← rx_draws c ymax tx_wlan p ants session; Ok (c, Some (lit id, l))
      end
  | AntSel.TxMsg _ id p latency temps =>
      match PyDict.get (cl_windows c) (lit id) with
      | None => Ok (c, None)
      | Some ymax => l ← tx_draws c ymax p latency temps; Ok (c, Some (lit id, l))
      end
  | AntSel.CliTitleMsg _ is_cl li warn => Ok (Client is_cl li (Some warn) (cl_windows c), None)
  | AntSel.NewSessionMsg _ _ _ => Ok (c, None)
  end.

(** ** Connection events of [AntennaStatClientFactory] *)

Inductive conn_event := StartedConnecting | BuildProtocol | ClientConnectionLost | ClientConnectionFailed.

(** The text shown in the middle of every window, and its attributes. *)
Definition banner (profile : text) (ev : conn_event) : text * Z :=
  match ev with
  | StartedConnecting => (lit "Connecting to wifibroadcast@" ++ profile ++ lit ".service ...", A_DIM)
  | BuildProtocol => (lit "Waiting for data...", A_DIM)
  | ClientConnectionLost => (lit "[wifibroadcast@" ++ profile ++ lit ".service disconnected]", A_REVERSE)
  | ClientConnectionFailed => (lit "[wifibroadcast@" ++ profile ++ lit ".service failed]", A_REVERSE)
  end.

(** Every window, by key with its height and width, is erased and gets the text. *)
Definition show_banner (addch_ok : text -> Z -> Z -> bool) (profile : text) (ev : conn_event) (windows : list (text * (Z * Z)))
    : list (text * list cell) :=
  map (fun w => (w.1, addstr_centered (addch_ok w.1) w.2.1 w.2.2 (banner profile ev).1 (banner profile ev).2)) windows.

(** ** [AntennaStatClientFactory.init_windows] *)

(** A framed window: its key in [windows], title, upper left corner, height [wh]
    and width [ww]; its frame reaches from column [xoff] to [xoff + ww]. *)
Record frame := Frame { f_key : text; f_title : text; f_top : Z; f_left : Z; f_height : Z; f_width : Z }.

(** Name, whether statistics of the receiver and of the transmitter are shown. *)
Definition entry : Type := (text * bool * bool)%type.
Definition shown (s : entry) : bool := s.1.2 || s.2.

Definition h_fixed : Z := 3.

Lemma abs_scale n d e : 0 < n -> Z.abs d <= e -> Z.abs (n * d) <= n * e.
Proof. intros Hn Hd. rewrite Z.abs_mul, (Z.abs_eq n) by lia. apply Z.mul_le_mono_nonneg_l; lia. Qed.

Section Layout.
(** Whether curses can place a window and its frame. *)
Context (place_ok : frame -> bool) (profile : text) (width : Z).

Definition split_col : Z := width * 4 / 7.

(** The frame of one column of a service, whose band ends at [hoff_float]. *)
Definition place (name : text) (h_exp hoff_float : PyNum.num) (hoff_int ww xoff : Z) (txrx TXRX : string) (show : bool)
    : result (list frame * Z) :=
  if negb show then Ok ([], 0)
  else
    r ← PyNum.round_int hoff_float;
    he ← PyNum.trunc h_exp;
    let err := r - (hoff_int + he) in
    let wh := he + err in
    if wh <? h_fixed then Raise (Exception_ "Terminal height is too small")
    else
      let f := Frame (name ++ 32 :: lit txrx) (91 :: lit TXRX ++ lit ": " ++ profile ++ 32 :: name ++ [93]) hoff_int xoff wh ww in
      if place_ok f then Ok ([f], wh) else Raise (Exception_ "curses.error").

Fixpoint layout (h_exp : PyNum.num) (service_list : list entry) (hoff_float : PyNum.num) (hoff_int : Z) : result (list (list frame)) :=
  match service_list with
  | [] => Ok []
  | s :: l =>
      let '(name, show_rx, show_tx) := s in
      hoff_float ← PyNum.add hoff_float (if shown s then h_exp else PyNum.NInt h_fixed);
      '(fr, wr) ← place name h_exp hoff_float hoff_int (split_col - 1) 0 "rx" "RX" show_rx;
      '(ft, wt) ← place name h_exp hoff_float hoff_int (width - split_col - 1) split_col "tx" "TX" show_tx;
      r ← layout h_exp l hoff_float (hoff_int + Z.max wr wt);
      Ok ((fr ++ ft) :: r)
  end.

Definition count_shown (l : list entry) : Z := blen (List.filter shown l).
Definition count_fixed (l : list entry) : Z := blen (List.filter (fun s => negb (shown s)) l).

(** The height of an expandable band. *)
Definition expanded (height : Z) (l : list entry) : result PyNum.num :=
  let h_exp := height - h_fixed * count_fixed l in
  if 0 <? count_shown l then PyNum.div (PyNum.NInt h_exp) (PyNum.NInt (count_shown l)) else Ok (PyNum.NInt h_exp).

Definition init_windows (height : Z) (service_list : list entry) : result (list (list frame)) :=
  match service_list with
  | [] => Ok []
  | _ => h_exp ← expanded height service_list; layout h_exp service_list (PyNum.NInt 0) 0
  end.

(** *** Bands of windows *)

(** The frames of a service whose band has [h] lines from line [y]. *)
Definition band (s : entry) (y h : Z) : list frame :=
  let name := s.1.1 in
  (if s.1.2 then [Frame (name ++ lit " rx") (lit "[RX: " ++ profile ++ 32 :: name ++ [93]) y 0 h (split_col - 1)] else []) ++
  (if s.2 then [Frame (name ++ lit " tx") (lit "[TX: " ++ profile ++ 32 :: name ++ [93]) y split_col h (width - split_col - 1)] else []).

(** The bands follow each other without gap or overlap from line [y] to [y']. *)
Fixpoint tiles (l : list entry) (bands : list (list frame)) (y y' : Z) : Prop :=
  match l, bands with
  | [], [] => y = y'
  | s :: l', b :: bands' =>
      if shown s then exists h, h_fixed <= h /\ b = band s y h /\ tiles l' bands' (y + h) y'
      else b = [] /\ tiles l' bands' y y'
  | _, _ => False
  end.

(** The running sum of heights. *)
Fixpoint advance (h_exp : PyNum.num) (l : list entry) (f : PyNum.num) : result PyNum.num :=
  match l with
  | [] => Ok f
  | s :: l' => g ← PyNum.add f (if shown s then h_exp else PyNum.NInt h_fixed); advance h_exp l' g
  end.

Definition last_shown (l : list entry) : Prop := match last l with Some s => shown s = true | None => False end.

Lemma place_spec name h_exp f y ww xoff txrx TXRX show fr wh : place name h_exp f y ww xoff txrx TXRX show = Ok (fr, wh) ->
  if show then exists r, PyNum.round_int f = Ok r /\ wh = r - y /\ h_fixed <= wh /\
    fr = [Frame (name ++ 32 :: lit txrx) (91 :: lit TXRX ++ lit ": " ++ profile ++ 32 :: name ++ [93]) y xoff wh ww]
  else fr = [] /\ wh = 0.
Proof using Type.
  unfold place. destruct show; cbn [negb]; [| by intros [= <- <-]].
  intros (r & Hr & (he & _ & H)%bind_ok)%bind_ok. cbv zeta in H.
  replace (he + (r - (y + he))) with (r - y) in H by lia.
  destruct (Z.ltb_spec (r - y) h_fixed); [done |]. destruct (place_ok _); [| done]. injection H as <- <-. by exists r.
Qed.

Lemma layout_tiles h_exp l f y bands : layout h_exp l f y = Ok bands ->
  exists y', tiles l bands y y' /\ (last_shown l -> exists g, advance h_exp l f = Ok g /\ PyNum.round_int g = Ok y').
Proof using Type.
  revert f y bands. induction l as [|[[name rx] tx] l IH]; intros f y bands H; cbn [layout] in H.
  { injection H as <-. exists y. split; [done |]. intros []. }
  apply bind_ok in H as (g & Hg & H). apply bind_ok in H as ([fr wr] & Hr & H). apply bind_ok in H as ([ft wt] & Ht & H).
  apply bind_ok in H as (rest & Hl & [= <-]). apply place_spec in Hr, Ht. destruct (IH _ _ _ Hl) as (y' & Hti & Hlast).
  assert (Hstep : (if rx || tx then exists h r, PyNum.round_int g = Ok r /\ y + h = r /\ h_fixed <= h /\ fr ++ ft = band (name, rx, tx) y h /\
    Z.max wr wt = h else fr ++ ft = [] /\ Z.max wr wt = 0)).
  { unfold band. cbn [fst snd]. destruct rx, tx; cbn [orb].
    - destruct Hr as (r & E1 & -> & Hge & ->), Ht as (r2 & E2 & -> & _ & ->). assert (r2 = r) as -> by congruence.
      exists (r - y), r. split_and!; try done; lia.
    - destruct Hr as (r & E1 & -> & Hge & ->), Ht as [-> ->]. exists (r - y), r. unfold h_fixed in *. split_and!; try done; lia.
    - destruct Ht as (r & E1 & -> & Hge & ->), Hr as [-> ->]. exists (r - y), r. unfold h_fixed in *. split_and!; try done; lia.
    - destruct Hr as [-> ->], Ht as [-> ->]. done. }
  exists y'. change (shown (name, rx, tx)) with (rx || tx) in Hg. cbn [tiles advance]. unfold shown in *. cbn [fst snd] in *. split.
  - destruct (rx || tx); [| destruct Hstep as [-> E]; rewrite E, Z.add_0_r in Hti; by split].
    destruct Hstep as (h & r & _ & _ & Hge & -> & E). rewrite E in Hti. by exists h.
  - intros Hls. rewrite Hg. cbn [mbind result_bind]. destruct l as [|s2 l]; [| apply Hlast; exact Hls].
    exists g. split; [done |]. unfold last_shown in Hls. cbn in Hls, Hl. unfold shown in Hls. cbn in Hls. rewrite Hls in Hstep.
    destruct rest as [|? ?]; [| done]. cbn [tiles] in Hti. subst y'.
    destruct Hstep as (h & r & Hr' & Hyr & _ & _ & E). rewrite E. by rewrite Hyr.
Qed.

(** *** The last band ends at the bottom of the terminal *)

Section Heights.
Context (N H' : Z) (h : PyNum.num) (HN : 0 < N <= 1000) (HH : Z.abs H' < 2 ^ 15).
Context (Hfine : PyNum.fine h) (Hquot : Z.abs (N * PyNum.scaled h - 2 ^ 38 * PyNum.eps * H') <= N * (2 * PyNum.eps)).

(** After [a] expandable and [b] fixed bands the sum is close to what it would
    be without rounding; it is an integer only before the first expandable one. *)
Definition close (a b : Z) (f : PyNum.num) : Prop :=
  0 <= a <= N /\ 0 <= b <= 1000 /\ (PyNum.fine f \/ (a = 0 /\ f = PyNum.NInt (h_fixed * b))) /\
  Z.abs (N * PyNum.scaled f - 2 ^ 38 * PyNum.eps * (a * H' + h_fixed * b * N)) <= N * ((a + b) * (4 * PyNum.eps)).

(** One more band, of exact height [x / N] and computed height [v]. *)
Lemma close_step a b f v x : close a b f -> PyNum.small v -> Z.abs (N * PyNum.scaled v - 2 ^ 38 * PyNum.eps * x) <= N * (2 * PyNum.eps) ->
  Z.abs (a * H' + h_fixed * b * N + x) <= N * (2 ^ 15 + 3000) ->
  exists g, PyNum.add f v = Ok g /\ (PyNum.fine g \/ exists p q, f = PyNum.NInt p /\ v = PyNum.NInt q /\ g = PyNum.NInt (p + q)) /\
    Z.abs (N * PyNum.scaled g - 2 ^ 38 * PyNum.eps * (a * H' + h_fixed * b * N + x)) <= N * ((a + b + 1) * (4 * PyNum.eps)).
Proof using All.
  intros (Ha & Hb & Hf & Herr) Hv Hx Hbound. destruct PyNum.eps_spec as (He & _). set (e := PyNum.eps) in *.
  set (S := PyNum.scaled f) in *. set (V := PyNum.scaled v) in *. set (X := a * H' + h_fixed * b * N) in *.
  assert (Hsum : Z.abs (N * (S + V) - 2 ^ 38 * e * (X + x)) <= N * ((a + b) * (4 * e) + 2 * e)).
  { rewrite !Z.mul_add_distr_l. lia. }
  assert (Hsmall : PyNum.small f).
  { destruct Hf as [Hf | [_ ->]]; [by apply PyNum.fine_small |]. cbn. unfold h_fixed. lia. }
  destruct (PyNum.add_near f v Hsmall Hv) as (g & Hg & Hk & Hge).
  { fold e S V. apply (Zmult_lt_reg_r _ _ N); [lia |]. rewrite (Z.mul_comm (Z.abs _)), <- (Z.abs_eq N) at 1 by lia. rewrite <- Z.abs_mul.
    clear - HN He Ha Hb Hsum Hbound. set (Y := X + x) in *. set (W := N * (S + V)) in *. clearbody e Y W.
    assert (HY : Z.abs (2 ^ 38 * e * Y) <= 2 ^ 38 * e * (N * (2 ^ 15 + 3000)))
      by (rewrite Z.abs_mul, (Z.abs_eq (2 ^ 38 * e)) by lia; apply Z.mul_le_mono_nonneg_l; lia).
    assert (HE : N * ((a + b) * (4 * e) + 2 * e) <= N * (8002 * e)) by (apply Z.mul_le_mono_nonneg_l; nia).
    assert (HNe : 0 < N * e) by nia.
    replace (2 ^ 38 * e * (N * (2 ^ 15 + 3000))) with (9831832975572992 * (N * e)) in HY by lia. 
    replace (N * (8002 * e)) with (8002 * (N * e)) in HE by ring.
    replace ((2 ^ 54 * e - 2 * e) * N) with (18014398509481982 * (N * e)) by lia. lia. }
  exists g. split; [done |]. split; [done |]. fold e S V in Hge.
  pose proof (abs_scale N _ _ ltac:(lia) Hge) as Hge'.
  replace (N * PyNum.scaled g - 2 ^ 38 * e * (X + x)) with (N * (PyNum.scaled g - (S + V)) + (N * (S + V) - 2 ^ 38 * e * (X + x))) by ring.
  replace (N * ((a + b + 1) * (4 * e))) with (N * (2 * e) + N * ((a + b) * (4 * e) + 2 * e)) by ring. lia.
Qed.

Lemma advance_close l a b f : close a b f -> a + count_shown l <= N -> b + count_fixed l <= 1000 ->
  exists g, advance h l f = Ok g /\ close (a + count_shown l) (b + count_fixed l) g.
Proof using All.
  revert a b f. induction l as [|s l IH]; intros a b f Hc Ha Hb; cbn [advance].
  { exists f. unfold count_shown, count_fixed. cbn. rewrite !Z.add_0_r. done. }
  unfold count_shown, count_fixed in *. cbn [List.filter] in *. destruct (shown s) eqn:Es; cbn [negb] in *; rewrite ?blen_cons in *.
  - pose proof (blen_nonneg (List.filter shown l)) as Hp. pose proof Hc as (Ha0 & Hb0 & _).
    destruct (close_step a b f h H' Hc) as (g & Hg & Hk & Herr); [by apply PyNum.fine_small | exact Hquot | |].
    { unfold h_fixed. assert (Z.abs ((a + 1) * H') <= N * 2 ^ 15) by (rewrite Z.abs_mul, (Z.abs_eq (a + 1)) by lia; nia).
      replace (a * H' + 3 * b * N + H') with ((a + 1) * H' + 3 * b * N) by ring. nia. }
    rewrite Hg. cbn [mbind result_bind]. destruct (IH (a + 1) b g) as (g' & Hg' & Hc'); [| lia | lia |].
    + split; [lia |]. split; [done |]. split.
      * left. destruct Hk as [Hk | (p & q & _ & -> & _)]; [done | done].
      * replace ((a + 1) * H' + h_fixed * b * N) with (a * H' + h_fixed * b * N + H') by ring.
        replace (a + 1 + b) with (a + b + 1) by ring. done.
    + exists g'. split; [done |]. by rewrite Z.add_assoc.
  - pose proof (blen_nonneg (List.filter (fun s => negb (shown s)) l)) as Hp. pose proof Hc as (Ha0 & Hb0 & Hf & _).
    destruct PyNum.eps_spec as (He & HT & _). pose proof (blen_nonneg (List.filter shown l)) as Hp'.
    destruct (close_step a b f (PyNum.NInt h_fixed) (h_fixed * N) Hc) as (g & Hg & Hk & Herr).
    { cbn. unfold h_fixed. lia. }
    { cbn [PyNum.scaled]. rewrite HT. replace (N * (h_fixed * (2 ^ 38 * PyNum.eps)) - 2 ^ 38 * PyNum.eps * (h_fixed * N)) with 0 by ring.
      cbn. apply Z.mul_nonneg_nonneg; lia. }
    { unfold h_fixed. assert (Z.abs (a * H') <= N * 2 ^ 15) by (rewrite Z.abs_mul, (Z.abs_eq a) by lia; nia).
      replace (a * H' + 3 * b * N + 3 * N) with (a * H' + 3 * (b + 1) * N) by ring. nia. }
    rewrite Hg. cbn [mbind result_bind]. destruct (IH a (b + 1) g) as (g' & Hg' & Hc'); [| lia | lia |].
    + split; [lia |]. split; [lia |]. split.
      * destruct Hk as [Hk | (p & q & -> & [= <-] & ->)]; [by left |]. destruct Hf as [Hf | [-> [= ->]]]; [done |]. right.
        split; [done |]. f_equal. ring.
      * replace (a * H' + h_fixed * (b + 1) * N) with (a * H' + h_fixed * b * N + h_fixed * N) by ring.
        replace (a + (b + 1)) with (a + b + 1) by ring. done.
    + exists g'. split; [done |]. by rewrite Z.add_assoc.
Qed.

(** A band ends at most half a line below where it would end without rounding. *)
Definition below (a b y : Z) : Prop :=
  2 * N * (y * (2 ^ 38 * PyNum.eps)) <= 2 ^ 38 * PyNum.eps * (2 * (a * H' + h_fixed * b * N) + N) + N * (16000 * PyNum.eps).

(** A shown band: the rounded end lies below the previous one by at least
    [h_fixed] lines, and not too far below. *)
Lemma shown_band a b g y : 4 * N <= H' -> close (a + 1) b g -> below a b y -> 0 <= a -> 0 <= b -> a + 1 <= N -> a + 1 + b <= 1000 ->
  exists r, PyNum.round_int g = Ok r /\ h_fixed <= r - y /\ below (a + 1) b r.
Proof using All.
  intros H4 Hcg Hy Ha0 Hb0 Ha Hb. destruct PyNum.eps_spec as (He & HT & _). pose proof Hcg as (_ & _ & Hfine_g & Herr).
  assert (Hg_fine : PyNum.fine g) by (destruct Hfine_g as [|[? _]]; [done | lia]).
  set (S := PyNum.scaled g) in *. set (e := PyNum.eps) in *. unfold below in Hy. fold e in Hy.
  assert (Hex : N * (8000 * e) <= 2 ^ 38 * e * N) by nia.
  assert (Htiny : N * ((a + 1 + b) * (4 * e)) <= N * (4000 * e)) by (apply Z.mul_le_mono_nonneg_l; [lia |]; apply (Z.le_trans _ (1000 * (4 * e))); [apply Z.mul_le_mono_nonneg_r; lia | lia]).
  assert (HX : 4 * N <= (a + 1) * H' + h_fixed * b * N) by (unfold h_fixed; nia).
  assert (HXe : 2 ^ 38 * e * (4 * N) <= 2 ^ 38 * e * ((a + 1) * H' + h_fixed * b * N)) by (apply Z.mul_le_mono_nonneg_l; lia).
  assert (HS : 0 <= S) by (apply (Z.mul_le_mono_pos_l _ _ N); lia).
  destruct (PyNum.round_int_half g Hg_fine HS) as (r & Hr & Hhalf). fold S in Hhalf. rewrite HT in Hhalf. fold e in Hhalf.
  assert (Hhalf' : - (2 ^ 38 * e) <= 2 * (S - r * (2 ^ 38 * e)) <= 2 ^ 38 * e) by (clear - Hhalf; lia).
  set (E := 2 ^ 38 * e) in *. set (X := (a + 1) * H' + h_fixed * b * N) in *.
  assert (EX : a * H' + h_fixed * b * N = X - H') by (unfold X; ring). rewrite EX in Hy.
  assert (Hru : 2 * N * (r * E) <= E * (2 * X + N) + N * (16000 * e)).
  { assert (N * (2 * (r * E - S)) <= N * E) by (apply Z.mul_le_mono_nonneg_l; lia). lia. }
  assert (Hrl : E * (2 * X - N) - N * (16000 * e) <= 2 * N * (r * E)).
  { assert (N * (2 * (S - r * E)) <= N * E) by (apply Z.mul_le_mono_nonneg_l; lia). lia. }
  assert (Hge : h_fixed <= r - y).
  { unfold h_fixed. assert (HEH : E * (4 * N) <= E * H') by (apply Z.mul_le_mono_nonneg_l; lia).
    assert (Hb1 : N * (32000 * e) < E * N) by (unfold E; nia).
    assert (Hd : 4 * (N * E) < 2 * ((r - y) * (N * E))) by lia.
    assert (HP : 0 < N * E) by (apply Z.mul_pos_pos; unfold E; lia).
    enough (2 < r - y) by lia. apply (Z.mul_lt_mono_pos_r (N * E)); lia. }
  exists r. split; [exact Hr |]. split; [exact Hge |]. unfold below. fold e E. fold X. exact Hru.
Qed.

(** With four lines for every band, each gets at least [h_fixed]. *)
Lemma layout_succeeds l a b f y : place_ok = (fun _ => true) -> 4 * N <= H' -> close a b f -> below a b y ->
  a + count_shown l <= N -> a + b + blen l <= 1000 -> exists bands, layout h l f y = Ok bands.
Proof using All.
  intros Hplace H4. destruct PyNum.eps_spec as (He & HT & _). revert a b f y. induction l as [|s l IH]; intros a b f y Hc Hy Ha Hb; [by eexists |].
  pose proof (blen_nonneg l) as Hl. rewrite blen_cons in Hb. unfold count_shown in Ha. cbn [List.filter] in Ha.
  destruct s as [[name rx] tx]. cbn [layout]. pose proof Hc as (Ha0 & Hb0 & _).
  assert (Hone : exists n m, count_shown [(name, rx, tx)] = n /\ count_fixed [(name, rx, tx)] = m /\
    (n = if rx || tx then 1 else 0) /\ m = (if rx || tx then 0 else 1)).
  { eexists _, _. split; [done |]. split; [done |]. unfold count_shown, count_fixed. cbn [List.filter]. unfold shown. cbn [fst snd].
    by destruct (rx || tx). }
  destruct Hone as (n & m & Hn & Hm & En & Em). change (shown (name, rx, tx)) with (rx || tx) in Ha.
  assert (Hcount : a + n <= N /\ a + n + count_shown l <= N).
  { pose proof (blen_nonneg (List.filter shown l)). unfold count_shown. destruct (rx || tx); [rewrite blen_cons in Ha |]; lia. }
  destruct (advance_close [(name, rx, tx)] a b f Hc) as (g & Hg & Hcg); [lia | destruct (rx || tx); lia |].
  rewrite Hn, Hm in Hcg. clear Hn Hm. cbn [advance] in Hg. apply bind_ok in Hg as (g' & Hg & [= ->]). rewrite Hg. cbn [mbind result_bind].
  assert (Hnext : exists wr wt fr ft, place name h g y (split_col - 1) 0 "rx" "RX" rx = Ok (fr, wr) /\
    place name h g y (width - split_col - 1) split_col "tx" "TX" tx = Ok (ft, wt) /\ below (a + n) (b + m) (y + Z.max wr wt)).
  { unfold place. destruct (rx || tx) eqn:Eshow.
    - subst n m. rewrite Z.add_0_r in *.
      destruct (shown_band a b g y H4 Hcg Hy) as (r & Hr & Hge & Hru); [lia .. |].
      assert (Hhe : exists he, PyNum.trunc h = Ok he) by (clear - Hfine; destruct h; try done; by eexists).
      destruct Hhe as [he Hhe]. rewrite Hr, Hhe, Hplace. cbn [mbind result_bind].
      replace (he + (r - (y + he))) with (r - y) by lia. destruct (Z.ltb_spec (r - y) h_fixed); [lia |].
      assert (Hbel : below (a + 1) b (y + (r - y))) by (replace (y + (r - y)) with r by lia; exact Hru).
      destruct rx, tx; cbn [negb]; try done; eexists _, _, _, _; (split; [done |]); (split; [done |]);
        rewrite ?Z.max_id, ?(Z.max_l _ 0), ?(Z.max_r 0) by (unfold h_fixed in *; lia); exact Hbel.
    - apply orb_false_iff in Eshow as [-> ->]. cbn [negb]. eexists _, _, _, _. split; [done |]. split; [done |]. subst n m.
      rewrite Z.add_0_r, Z.max_id, Z.add_0_r. unfold below in *. set (E := 2 ^ 38 * PyNum.eps) in *.
      assert (HE : 0 < E) by (unfold E; lia). assert (0 <= E * (2 * (h_fixed * N))) by (unfold h_fixed; apply Z.mul_nonneg_nonneg; lia).
      replace (a * H' + h_fixed * (b + 1) * N) with (a * H' + h_fixed * b * N + h_fixed * N) by ring. lia. }
  destruct Hnext as (wr & wt & fr & ft & -> & -> & Hbelow). cbn [mbind result_bind].
  destruct (IH _ _ _ _ Hcg Hbelow) as (bands & ->); [lia | destruct (rx || tx); lia |]. by eexists.
Qed.

End Heights.

Lemma count_last l : last_shown l -> 0 < count_shown l.
Proof using Type.
  unfold last_shown, count_shown. induction l as [|s l IH]; [done |]. cbn [List.filter]. intros H.
  pose proof (blen_nonneg (List.filter shown l)). destruct (shown s) eqn:E; [rewrite blen_cons; lia |].
  apply IH. destruct l; [cbn in H; congruence | exact H].
Qed.

Lemma count_split l : count_shown l + count_fixed l = blen l.
Proof using Type.
  unfold count_shown, count_fixed. induction l as [|s l IH]; [done |]. cbn [List.filter]. destruct (shown s); cbn [negb]; rewrite !blen_cons; lia.
Qed.

(** The height of an expandable band is off by at most two units. *)
Lemma expanded_near height l : 0 < height < 2 ^ 15 -> blen l <= 1000 -> 0 < count_shown l ->
  let H' := height - h_fixed * count_fixed l in
  exists h, expanded height l = Ok h /\ PyNum.fine h /\ Z.abs H' < 2 ^ 15 /\
    Z.abs (count_shown l * PyNum.scaled h - 2 ^ 38 * PyNum.eps * H') <= count_shown l * (2 * PyNum.eps).
Proof using Type.
  intros Hh Hlen Hpos H'. pose proof (count_split l) as Hsplit. assert (Hcf : 0 <= count_fixed l) by apply blen_nonneg.
  assert (HH : Z.abs H' < 2 ^ 15) by (unfold H', h_fixed; lia).
  destruct (PyNum.quotient_near H' (count_shown l) HH ltac:(lia)) as [Hf Hq].
  destruct PyNum.eps_spec as (_ & HT & H37 & _). rewrite HT, H37, (Z.mul_comm H') in Hq.
  set (h := PyNum.quotient H' 0 (count_shown l) 0) in *. exists h. split; [| done].
  unfold expanded. fold H'. rewrite (proj2 (Z.ltb_lt _ _)) by lia. unfold PyNum.div. rewrite (proj2 (Z.eqb_neq _ _)) by lia.
  fold h. clearbody h. destruct h; try (exfalso; exact Hf); reflexivity.
Qed.

Lemma close_start N H' : 0 < N -> close N H' 0 0 (PyNum.NInt 0).
Proof using Type. intros HN. split; [lia |]. split; [lia |]. split; [right; done |]. cbn. lia. Qed.

(** Four lines for every shown service and three for every other are enough. *)
Lemma windows_placed height l : height < 2 ^ 15 -> blen l <= 1000 -> last_shown l -> place_ok = (fun _ => true) ->
  4 * count_shown l + h_fixed * count_fixed l <= height -> exists bands, init_windows height l = Ok bands.
Proof using Type.
  intros Hh Hlen Hlast Hplace Henough. pose proof (count_last l Hlast) as Hpos. assert (Hcf : 0 <= count_fixed l) by apply blen_nonneg.
  pose proof (count_split l) as Hsplit. unfold h_fixed in Henough.
  destruct (expanded_near height l ltac:(lia) Hlen Hpos) as (h & Hexp & Hf & HH & Hq).
  destruct (layout_succeeds (count_shown l) _ h ltac:(lia) HH Hf Hq l 0 0 (PyNum.NInt 0) 0 Hplace) as (bands & Hb).
  - unfold h_fixed. lia.
  - by apply close_start.
  - destruct PyNum.eps_spec as (He & _). unfold below. rewrite Z.mul_0_l, Z.mul_0_r. apply Z.add_nonneg_nonneg; [| nia].
    apply Z.mul_nonneg_nonneg; [lia |]. unfold h_fixed. lia.
  - lia.
  - lia.
  - exists bands. unfold init_windows. rewrite Hexp. destruct l; [destruct Hlast | exact Hb].
Qed.

(** The windows of the client fill the terminal: on a terminal of any height, with
    any services of which the last one is shown, whenever the windows can be placed
    at all they follow each other from the first line without gap or overlap, each at
    least three lines high, the receiver's window on the left and the transmitter's on
    the right of the same lines, and the last window ends exactly at the bottom,
    although the heights are summed up in rounded floating point. *)
Theorem windows_fill_terminal height l bands : 0 < height < 2 ^ 15 -> blen l <= 1000 -> last_shown l ->
  init_windows height l = Ok bands -> tiles l bands 0 height.
Proof using Type.
  intros Hh Hlen Hlast Hi. pose proof (count_last l Hlast) as Hpos. pose proof (count_split l) as Hsplit.
  assert (Hcf : 0 <= count_fixed l) by apply blen_nonneg.
  destruct (expanded_near height l Hh Hlen Hpos) as (h & Hexp & Hf & HH & Hq). set (H' := height - h_fixed * count_fixed l) in *.
  destruct PyNum.eps_spec as (He & HT & _).
  assert (Hlay : layout h l (PyNum.NInt 0) 0 = Ok bands).
  { unfold init_windows in Hi. rewrite Hexp in Hi. destruct l; [destruct Hlast | exact Hi]. }
  destruct (layout_tiles _ _ _ _ _ Hlay) as (y' & Ht & Hg). destruct (Hg Hlast) as (g & Hadv & Hround).
  destruct (advance_close (count_shown l) H' h ltac:(lia) HH Hf Hq l 0 0 (PyNum.NInt 0)) as (g' & Hadv' & Hc);
    [by apply close_start | lia | lia |].
  assert (g' = g) as -> by congruence. rewrite !Z.add_0_l in Hc. destruct Hc as (_ & _ & Hfg & Herr).
  assert (Hy : PyNum.round_int g = Ok height); [| by replace height with y' by congruence].
  assert (Hd : Z.abs (PyNum.scaled g - 2 ^ 38 * PyNum.eps * height) <= 4000 * PyNum.eps).
  { replace (count_shown l * H' + h_fixed * count_fixed l * count_shown l) with (count_shown l * height) in Herr by (unfold H'; ring).
    replace (count_shown l * PyNum.scaled g - 2 ^ 38 * PyNum.eps * (count_shown l * height)) with
      (count_shown l * (PyNum.scaled g - 2 ^ 38 * PyNum.eps * height)) in Herr by ring.
    rewrite Z.abs_mul, (Z.abs_eq (count_shown l)) in Herr by lia. apply (Z.mul_le_mono_pos_l _ _ (count_shown l)) in Herr; [| lia]. nia. }
  apply PyNum.round_int_near.
  - destruct Hfg as [Hfg | [H0 _]]; [done | lia].
  - rewrite HT. replace (height * (2 ^ 38 * PyNum.eps)) with (2 ^ 38 * PyNum.eps * height) by ring. lia.
  - assert (2 ^ 38 * PyNum.eps <= 2 ^ 38 * PyNum.eps * height) by nia. lia.
Qed.

End Layout.

(** A terminal of 50 lines with five services, one of which is not shown: three
    windows of 12 lines and one of 14, from the top to the bottom. *)
Definition demo_services : list entry :=
  [(lit "video", true, false); (lit "mavlink", true, true); (lit "log", false, false); (lit "audio", false, true); (lit "tunnel", true, true)].

Definition demo_bands : list (list frame) :=
  match init_windows (fun _ => true) (lit "gs") 160 50 demo_services with Ok b => b | Raise _ => [] end.

Lemma windows_fill_terminal_witness : tiles (lit "gs") 160 demo_services demo_bands 0 50.
Proof.
  apply (windows_fill_terminal (fun _ => true) (lit "gs") 160 50 demo_services demo_bands); [lia | by vm_compute | reflexivity |].
  vm_compute. reflexivity.
Defined.

Example demo_heights : map (map f_height) demo_bands = [[12]; [12; 12]; []; [14]; [12; 12]].
Proof. vm_compute. reflexivity. Qed.


(** ** Markup *)

Definition is_mark (c : Z) : bool := match mark c 0 with Some _ => true | None => false end.

Lemma mark_is_mark c a : mark c a = None <-> is_mark c = false.
Proof.
  unfold is_mark, mark. repeat (destruct (_ =? _); [split; intros H; discriminate H |]). done.
Qed.

(** The attributes after the marks of [s]. *)
Definition attrs_after (s : text) (attrs : Z) : Z := fold_left (fun a c => default a (mark c a)) s attrs.

(** Where every position can be written, the characters that are no marks appear
    in order on consecutive columns, each with the attributes of the marks before it. *)
Lemma addstr_markup_spec y x s attrs k c pre post : s = pre ++ c :: post -> is_mark c = false ->
  k = blen (List.filter (fun c => negb (is_mark c)) pre) ->
  Cell y (x + k) c (attrs_after pre attrs) ∈ addstr_markup (fun _ _ => true) y x s attrs.
Proof.
  intros -> Hc ->. revert x attrs. induction pre as [|d pre IH]; intros x attrs; cbn [app addstr_markup List.filter].
  - rewrite (proj2 (mark_is_mark c attrs) Hc). apply elem_of_cons. left. rewrite blen_nil, Z.add_0_r. done.
  - unfold attrs_after in *. cbn [fold_left]. destruct (mark d attrs) as [a'|] eqn:Ed.
    + assert (is_mark d = true) as -> by (destruct (is_mark d) eqn:E; [done |]; apply (mark_is_mark d attrs) in E; congruence).
      cbn [negb default]. apply IH.
    + rewrite (proj1 (mark_is_mark d attrs) Ed). cbn [negb default]. rewrite blen_cons. apply elem_of_cons. right.
      replace (x + (1 + _)) with (x + 1 + blen (List.filter (fun c => negb (is_mark c)) pre)) by lia. apply IH.
Qed.

Lemma addstr_markup_length y x s attrs :
  map c_char (addstr_markup (fun _ _ => true) y x s attrs) = List.filter (fun c => negb (is_mark c)) s.
Proof.
  revert x attrs. induction s as [|c s IH]; intros x attrs; cbn [addstr_markup List.filter map]; [done |].
  destruct (mark c attrs) as [a'|] eqn:Ed.
  - assert (is_mark c = true) as -> by (destruct (is_mark c) eqn:E; [done |]; apply (mark_is_mark c attrs) in E; congruence).
    apply IH.
  - rewrite (proj1 (mark_is_mark c attrs) Ed). cbn [negb map c_char]. by rewrite IH.
Qed.

(** ** Antenna labels *)

(** The value of a hexadecimal text; padding counts as zero. *)
Definition hex_digit (c : Z) : Z :=
  if (48 <=? c) && (c <=? 57) then c - 48 else if (65 <=? c) && (c <=? 70) then c - 55 else 0.
Definition hex_value (t : text) : Z := horner 16 (map hex_digit t) 0.

Lemma upper_digit d : 0 <= d < 16 -> hex_digit (upper_hex (digit_char d)) = d /\
  (48 <= upper_hex (digit_char d) <= 57 \/ 65 <= upper_hex (digit_char d) <= 70).
Proof.
  intros Hd. assert (H : d ∈ seqZ 0 16) by (apply elem_of_seqZ; lia). cbv in H.
  repeat (apply elem_of_cons in H as [-> | H]; [vm_compute; split; [reflexivity |]; (left; split; discriminate) || (right; split; discriminate) |]).
  by apply elem_of_nil in H.
Qed.

Lemma print_X_spec n : 0 <= n -> hex_value (print_X n) = n /\ Forall (fun c => 48 <= c <= 57 \/ 65 <= c <= 70) (print_X n).
Proof.
  intros Hn. destruct (print_nat_spec 16 n ltac:(lia) Hn) as (ds & Hp & _ & Hds & Hh).
  unfold print_X, print_x. rewrite Hp, map_map. split.
  - unfold hex_value. rewrite map_map, <- Hh. f_equal. rewrite <- (map_id ds) at 2. apply map_ext_in.
    intros d Hd. rewrite List.Forall_forall in Hds. apply upper_digit. auto.
  - apply List.Forall_forall. intros c Hc. apply in_map_iff in Hc as (d & <- & Hd). rewrite List.Forall_forall in Hds. apply upper_digit. auto.
Qed.

Lemma hex_value_pad k c t : hex_digit c = 0 -> hex_value (replicate k c ++ t) = hex_value t.
Proof.
  intros Hc. unfold hex_value. induction k as [|k IH]; [done |]. cbn [replicate app map]. rewrite Hc. exact IH.
Qed.

(** Neither a label part nor its padding contains a colon. *)
Lemma pad_no_colon w c n : 0 <= n -> c <> 58 -> 58 ∉ pad_left w c (print_X n).
Proof.
  intros Hn Hc Hin. apply elem_of_app in Hin as [Hin | Hin].
  - apply elem_of_replicate in Hin as [Hin _]. congruence.
  - destruct (print_X_spec n Hn) as [_ Hf]. rewrite Forall_forall in Hf. specialize (Hf _ Hin). lia.
Qed.

Lemma pad_inj w c a b : 0 <= a -> 0 <= b -> hex_digit c = 0 -> pad_left w c (print_X a) = pad_left w c (print_X b) -> a = b.
Proof.
  intros Ha Hb Hc H. apply (f_equal hex_value) in H. unfold pad_left in H. rewrite !hex_value_pad in H by done.
  rewrite (proj1 (print_X_spec a Ha)), (proj1 (print_X_spec b Hb)) in H. done.
Qed.

Lemma low_text_inj a b : 0 <= a -> 0 <= b -> low_text a = low_text b -> a = b.
Proof.
  intros Ha Hb. unfold low_text. destruct (print_X_spec a Ha) as [Va Fa], (print_X_spec b Hb) as [Vb Fb].
  destruct (Z.eqb_spec a 255) as [-> | Na], (Z.eqb_spec b 255) as [-> | Nb]; intros H; try done.
  - rewrite <- H in Fb. inversion Fb; lia.
  - rewrite H in Fa. inversion Fa; lia.
  - congruence.
Qed.

Lemma low_no_colon a : 0 <= a -> 58 ∉ low_text a.
Proof.
  intros Ha. unfold low_text. destruct (a =? 255); [set_solver |]. apply (pad_no_colon 0 48 a Ha). done.
Qed.

(** Equal labels have equal parts. *)
Lemma colon_inj p q l r : 58 ∉ p -> 58 ∉ q -> p ++ 58 :: l = q ++ 58 :: r -> p = q /\ l = r.
Proof. intros Hp Hq H. apply (f_equal (split1 58)) in H. rewrite !split1_app in H by done. by injection H. Qed.

Lemma id_parts a : a = Z.shiftr a 8 * 256 + Z.land a 255.
Proof. rewrite Z.shiftr_div_pow2 by lia. change 255 with (Z.ones 8). rewrite Z.land_ones by lia. change (2 ^ 8) with 256. pose proof (Z.div_mod a 256). lia. Qed.

(** Antenna labels are unambiguous: two antennas that are labelled alike are the
    same, for local antennas ([card << 8 | antenna]) and for antennas of a cluster
    ([address << 32 | card << 8 | antenna]) whose card number is below 256. *)
Theorem ant_labels_distinct a b : 0 <= a -> 0 <= b ->
  (2 ^ 32 <= a -> Z.land (Z.shiftr a 16) (2 ^ 16 - 1) = 0) -> (2 ^ 32 <= b -> Z.land (Z.shiftr b 16) (2 ^ 16 - 1) = 0) ->
  format_ant a = format_ant b -> a = b.
Proof.
  intros Ha Hb Ca Cb. unfold format_ant. change (Z.shiftl 1 32) with (2 ^ 32).
  assert (Hsh : forall z n, 0 <= z -> 0 <= n -> 0 <= Z.shiftr z n) by (intros z n Hz Hn; by apply Z.shiftr_nonneg).
  assert (Hla : forall z n, 0 <= n -> 0 <= Z.land z n) by (intros z n Hn; apply Z.land_nonneg; by right).
  destruct (Z.ltb_spec a (2 ^ 32)) as [La | La], (Z.ltb_spec b (2 ^ 32)) as [Lb | Lb]; intros H.
  - apply colon_inj in H as [H1 H2]; [| apply pad_no_colon; [by apply Hsh | done] ..].
    apply pad_inj in H1; [| by apply Hsh .. | done]. apply app_inj_tail in H2 as [H2 _]. apply low_text_inj in H2; [| by apply Hla ..].
    rewrite (id_parts a), (id_parts b). congruence.
  - exfalso. apply colon_inj in H as [_ H2]; [| apply pad_no_colon; [by apply Hsh | done] ..].
    assert (Hin : 58 ∈ low_text (Z.land a 255) ++ [32]) by (rewrite H2; set_solver).
    apply elem_of_app in Hin as [Hin | Hin]; [by apply low_no_colon in Hin; [| apply Hla] |]. set_solver.
  - exfalso. apply colon_inj in H as [_ H2]; [| apply pad_no_colon; [by apply Hsh | done] ..].
    assert (Hin : 58 ∈ low_text (Z.land b 255) ++ [32]) by (rewrite <- H2; set_solver).
    apply elem_of_app in Hin as [Hin | Hin]; [by apply low_no_colon in Hin; [| apply Hla] |]. set_solver.
  - apply colon_inj in H as [H1 H2]; [| apply pad_no_colon; [by apply Hsh | done] ..].
    apply pad_inj in H1; [| by apply Hsh .. | done].
    apply colon_inj in H2 as [H2 H3]; [| apply (pad_no_colon 0 48); [by apply Hla | done] ..].
    apply (pad_inj 0 48) in H2; [| by apply Hla .. | done]. apply low_text_inj in H3; [| by apply Hla ..].
    assert (Hparts : forall z, (2 ^ 32 <= z -> Z.land (Z.shiftr z 16) (2 ^ 16 - 1) = 0) -> 2 ^ 32 <= z ->
      z = Z.shiftr z 32 * 2 ^ 32 + Z.land (Z.shiftr z 8) 255 * 256 + Z.land z 255).
    { intros z Hz Lz. specialize (Hz Lz). change (2 ^ 16 - 1) with (Z.ones 16) in Hz. change 255 with (Z.ones 8).
      rewrite Z.land_ones in Hz by lia. rewrite !Z.land_ones by lia. rewrite !Z.shiftr_div_pow2 in * by lia.
      change (2 ^ 8) with 256 in *. change (2 ^ 16) with 65536 in *. change (2 ^ 32) with 4294967296 in *.
      Z.div_mod_to_equations. lia. }
    rewrite (Hparts a Ca La), (Hparts b Cb Lb). congruence.
Qed.

Lemma ant_labels_distinct_witness : format_ant (Z.lor (Z.shiftl 3232235785 32) 256) <> format_ant (Z.lor (Z.shiftl 3232235785 32) 511).
Proof.
  intros H. apply ant_labels_distinct in H; [discriminate H | done | done | by vm_compute | by vm_compute].
Defined.

(** Cards of a cluster node 256 apart do have the same label. *)
Example cluster_labels_mod_256 : format_ant (2 ^ 32) = format_ant (2 ^ 32 + 2 ^ 16).
Proof. vm_compute. reflexivity. Qed.


(** ** What is drawn for a receiver *)

Lemma rx_rows_spec c w u ymax y l ds : rx_rows c w u ymax y l = Ok ds ->
  (forall i it, l !! i = Some it -> y + Z.of_nat i < ymax -> exists t a, rx_row c w u it = Ok (t, a) /\ Draw true (y + Z.of_nat i) 20 t a ∈ ds) /\
  Forall (fun d => y <= d_y d < ymax) ds.
Proof.
  revert y ds. induction l as [|it l IH]; intros y ds; cbn [rx_rows]; [intros [= <-]; split; [done | constructor] |].
  intros (d & Hd & (r & Hr & [= <-])%bind_ok)%bind_ok. destruct (IH _ _ Hr) as [H1 H2]. split.
  - intros [|i] it' Hi Hy.
    + injection Hi as ->. rewrite Z.add_0_r in *. rewrite (proj2 (Z.ltb_lt _ _)) in Hd by done.
      apply bind_ok in Hd as ([t a] & Hrow & [= <-]). exists t, a. split; [done |]. apply elem_of_app. left. set_solver.
    + destruct (H1 i it' Hi) as (t & a & Hrow & Hin); [lia |]. exists t, a. split; [done |]. apply elem_of_app. right.
      by replace (y + Z.of_nat (S i)) with (y + 1 + Z.of_nat i) by lia.
  - apply Forall_app. split; [| eapply Forall_impl; [exact H2 |]; cbn; intros; lia].
    destruct (Z.ltb_spec y ymax).
    + apply bind_ok in Hd as ([t a] & _ & [= <-]). constructor; [cbn; lia | constructor].
    + apply bind_ok in Hd as (? & _ & (? & _ & [= <-])%bind_ok). constructor.
Qed.

Lemma numbered_lines ymax y x l : Forall (fun d => y <= d_y d < ymax) (numbered ymax y x l).
Proof.
  revert y. induction l as [|[t a] l IH]; intros y; cbn [numbered]; [constructor |]. apply Forall_app. split.
  - destruct (Z.ltb_spec y ymax); repeat constructor; cbn; lia.
  - eapply Forall_impl; [apply IH |]. cbn. intros. lia.
Qed.

(** The antennas of a report appear sorted, one row each, as far as the window
    reaches; below the fixed lines 0 and 2 nothing is drawn outside the window. *)
Theorem rx_table c ts id w p ants se c' key ds : stringReceived (AntSel.RxMsg ts id w p ants se) c = Ok (c', Some (key, ds)) -> ants <> [] ->
  c' = c /\ key = lit id /\ exists ymax uniq, PyDict.get (cl_windows c) key = Some ymax /\ PyDict.item p "uniq"%string = Ok uniq /\
    Forall (fun d => d_y d = 0 \/ d_y d = 2 \/ 1 <= d_y d < ymax) ds /\
    forall i it, merge_sort item_le ants !! i = Some it -> 3 + Z.of_nat i < ymax ->
      exists t a, rx_row c w uniq.1 it = Ok (t, a) /\ Draw true (3 + Z.of_nat i) 20 t a ∈ ds.
Proof.
  cbn [stringReceived]. destruct (PyDict.get (cl_windows c) (lit id)) as [ymax|] eqn:E; [| done].
  intros (l & Hl & [= <- <- <-])%bind_ok Hne. split; [done |]. split; [done |]. unfold rx_draws in Hl.
  apply bind_ok in Hl as (uniq & Hu & Hl). exists ymax, uniq. split; [done |]. split; [exact Hu |].
  do 12 (apply bind_ok in Hl as (? & _ & Hl)). apply bind_ok in Hl as (table & Htab & Hl).
  match type of Hl with Ok ?x = Ok ?y => assert (Hxy : x = y) by congruence end. subst l.
  destruct ants as [|it0 ants]; [done |]. apply bind_ok in Htab as (rows & Hrows & [= <-]).
  destruct (rx_rows_spec _ _ _ _ _ _ _ Hrows) as [H1 H2]. split.
  - apply Forall_cons. split; [by left |]. apply Forall_app. split.
    + eapply Forall_impl; [apply numbered_lines |]. cbn. intros d Hd. right. by right.
    + apply Forall_cons. split; [by left |]. apply Forall_cons. split; [right; by left |].
      eapply Forall_impl; [exact H2 |]. cbn. intros d Hd. right. right. lia.
  - intros i it Hi Hy. destruct (H1 i it Hi Hy) as (t & a & Hr & Hin). exists t, a. split; [done |].
    apply elem_of_cons. right. apply elem_of_app. right. do 2 (apply elem_of_cons; right). done.
Qed.

(** Samples of the rate display. *)
Example demo_rates :
  human_rate (PyNum.NInt 100) = Ok (lit "0.8 kbit/s") /\ human_rate (PyNum.NInt 64000) = Ok (lit "500 kbit/s") /\
  human_rate (PyNum.NInt 1000000) = Ok (lit "7.6 mbit/s") /\ fixed 2 (PyNum.NFin 5 (-2)) = lit "1.25".
Proof. vm_compute. auto. Qed.

End Cli.
