(* ===== verification/Screen.v ===== *)
(** The terminal of src/wfb_ng/cli.py: [rectangle], [set_window_title] and the
    whole of [AntennaStatClientFactory.init_windows] on a curses screen.  Of
    curses the calls the code makes are modelled, for characters that take one
    cell: a move outside the screen raises [curses.error], a line is cut at the
    edge, and [addch] on the last cell writes it and still raises, because the
    cursor cannot advance. *)
From Stdlib Require Import ZArith Lia Bool.
From stdpp Require Import base list numbers strings gmap.
From S2P Require Import Prelude PyNum PyText PyDict Config Services Cluster Launch Cli.

Module Screen.
Import PyText.

(** ** Curses *)

Inductive glyph :=
| GText (c attrs : Z)
| ACS_VLINE | ACS_HLINE | ACS_ULCORNER | ACS_URCORNER | ACS_LLCORNER | ACS_LRCORNER.

(** [stdscr]: its size and what is written; a cell never written is blank. *)
Record screen := Scr { s_rows : Z; s_cols : Z; s_cells : gmap (Z * Z) glyph }.

Definition inside (s : screen) (y x : Z) : bool :=
  (0 <=? y) && (y <? s_rows s) && (0 <=? x) && (x <? s_cols s).

Definition put (g : glyph) (s : screen) (p : Z * Z) : screen := Scr (s_rows s) (s_cols s) (<[p := g]> (s_cells s)).
Definition puts (ps : list (Z * Z)) (g : glyph) (s : screen) : screen := fold_left (put g) ps s.

Definition curses_error : exn := Exception_ "curses.error".

Definition addch (y x : Z) (g : glyph) : SE screen unit := fun s =>
  if inside s y x then
    (put g s (y, x), if (y =? s_rows s - 1) && (x =? s_cols s - 1) then Raise curses_error else Ok tt)
  else (s, Raise curses_error).

(** [n] cells down or to the right, as far as the screen reaches. *)
Definition vline (y x : Z) (g : glyph) (n : Z) : SE screen unit := fun s =>
  if inside s y x then (puts (map (fun i => (y + i, x)) (seqZ 0 (Z.min n (s_rows s - y)))) g s, Ok tt)
  else (s, Raise curses_error).
Definition hline (y x : Z) (g : glyph) (n : Z) : SE screen unit := fun s =>
  if inside s y x then (puts (map (fun i => (y, x + i)) (seqZ 0 (Z.min n (s_cols s - x)))) g s, Ok tt)
  else (s, Raise curses_error).

(** [stdscr.subpad(nlines, ncols, y, x)]: the size of the new window; zero
    stands for the rest of the screen. *)
Definition subpad (nlines ncols y x : Z) (s : screen) : result (Z * Z) :=
  if (y <? 0) || (x <? 0) || (nlines <? 0) || (ncols <? 0) || (s_rows s <? y + nlines) || (s_cols s <? x + ncols)
  then Raise curses_error
  else Ok (if nlines =? 0 then s_rows s - y else nlines, if ncols =? 0 then s_cols s - x else ncols).

(** The function [ignore_curses_err] wraps around [f]. *)
Definition ignore_curses_err (f : SE screen unit) : SE screen unit := fun s =>
  let '(s', r) := f s in
  (s', match r with
       | Raise (Exception_ m) => if String.eqb m "curses.error" then Ok tt else r
       | _ => r
       end).

(** The loop of [addstr_noerr], without its decorator. *)
Fixpoint addstr_loop (y x : Z) (t : text) (attrs : Z) : SE screen unit :=
  match t with
  | [] => mret tt
  | c :: t' => _ ← addch y x (GText c attrs); addstr_loop y (x + 1) t' attrs
  end.

Definition addstr_noerr_at (y x : Z) (t : text) (attrs : Z) : SE screen unit := ignore_curses_err (addstr_loop y x t attrs).

Definition rectangle (uly ulx lry lrx : Z) : SE screen unit :=
  _ ← vline (uly + 1) ulx ACS_VLINE (lry - uly - 1);
  _ ← hline uly (ulx + 1) ACS_HLINE (lrx - ulx - 1);
  _ ← hline lry (ulx + 1) ACS_HLINE (lrx - ulx - 1);
  _ ← vline (uly + 1) lrx ACS_VLINE (lry - uly - 1);
  _ ← addch uly ulx ACS_ULCORNER;
  _ ← addch uly lrx ACS_URCORNER;
  _ ← ignore_curses_err (addch lry lrx ACS_LRCORNER);
  addch lry ulx ACS_LLCORNER.

(** [set_window_title]: what is printed, with the newline of [print]. *)
Definition set_window_title (s : text) : text := 27 :: lit "]2;" ++ s ++ [7; 10].

(** ** [init_windows] *)

(** The screen and [self.windows], by key with rows and columns. *)
Record ui := Ui { u_screen : screen; u_windows : PyDict.dict text (Z * Z) }.

Definition on_screen (m : SE screen unit) : SE ui unit := fun u =>
  let '(s, r) := m (u_screen u) in (Ui s (u_windows u), r).

Definition add_window (key : text) (w : Z * Z) : SE ui unit := se_modify (fun u => Ui (u_screen u) (PyDict.set (u_windows u) key w)).

(** The services of the profile, and which statistics each has. *)
Definition service_list (st : Config.settings) (profile : text) : result (list Cli.entry) :=
  '(ss, _) ← Services.parse_services st profile None;
  result_map (fun s => rx ← Config.getattr (Services.s_cfg s) (lit "stream_rx");
                       tx ← Config.getattr (Services.s_cfg s) (lit "stream_tx");
                       name ← Services.as_name (Services.s_name s);
                       Ok (name, negb (Cluster.is_none rx), negb (Cluster.is_none tx))) ss.

Section Paint.
Context (profile : text) (width : Z).

(** The window, frame and title of one column. *)
Definition open_window (f : Cli.frame) : SE ui unit :=
  u ← se_get;
  w ← se_lift (subpad (Cli.f_height f - 2) (Cli.f_width f - 2) (Cli.f_top f + 1) (Cli.f_left f + 1) (u_screen u));
  _ ← on_screen (rectangle (Cli.f_top f) (Cli.f_left f) (Cli.f_top f + Cli.f_height f - 1) (Cli.f_left f + Cli.f_width f));
  _ ← on_screen (addstr_noerr_at (Cli.f_top f) (3 + Cli.f_left f) (Cli.f_title f) Cli.A_BOLD);
  add_window (Cli.f_key f) w.

(** One turn of the inner loop: the height of the window, 0 when it is not shown. *)
Definition paint_column (name : text) (h_exp hoff_float : PyNum.num) (hoff_int ww xoff : Z) (txrx TXRX : string) (show : bool)
    : SE ui Z :=
  if negb show then mret 0
  else
    r ← se_lift (PyNum.round_int hoff_float);
    he ← se_lift (PyNum.trunc h_exp);
    let err := r - (hoff_int + he) in
    let wh := he + err in
    if wh <? Cli.h_fixed then se_raise (Exception_ "Terminal height is too small")
    else
      _ ← open_window (Cli.Frame (name ++ 32 :: lit txrx) (91 :: lit TXRX ++ lit ": " ++ profile ++ 32 :: name ++ [93])
                                 hoff_int xoff wh ww);
      mret wh.

(** The outer loop. *)
Fixpoint paint (h_exp : PyNum.num) (l : list Cli.entry) (hoff_float : PyNum.num) (hoff_int : Z) : SE ui unit :=
  match l with
  | [] => mret tt
  | s :: l' =>
      let '(name, show_rx, show_tx) := s in
      hoff_float ← se_lift (PyNum.add hoff_float (if Cli.shown s then h_exp else PyNum.NInt Cli.h_fixed));
      wr ← paint_column name h_exp hoff_float hoff_int (Cli.split_col width - 1) 0 "rx" "RX" show_rx;
      wt ← paint_column name h_exp hoff_float hoff_int (width - Cli.split_col width - 1) (Cli.split_col width) "tx" "TX" show_tx;
      paint h_exp l' hoff_float (hoff_int + Z.max wr wt)
  end.

(** [init_windows] on a terminal of the given height, after the services are
    known: the screen is resized and cleared. *)
Definition paint_windows (height : Z) (l : list Cli.entry) : SE ui unit :=
  _ ← se_put (Ui (Scr height width ∅) []);
  match l with
  | [] =>
      _ ← on_screen (rectangle 0 0 (height - 1) (width - 1));
      on_screen (addstr_noerr_at 0 3 (91 :: profile ++ lit " not configured]") Cli.A_REVERSE)
  | _ => h_exp ← se_lift (Cli.expanded height l); paint h_exp l (PyNum.NInt 0) 0
  end.

End Paint.

(** The whole method: the windows are dropped before anything can fail. *)
Definition init_windows_of (st : Config.settings) (profile : text) (height width : Z) : SE ui unit :=
  _ ← se_put (Ui (Scr height width ∅) []);
  l ← se_lift (service_list st profile);
  paint_windows profile width height l.

(** The factory is built with its windows laid out; a resize of the terminal lays
    them out anew. *)
Definition new_factory (st : Config.settings) (profile : text) (height width : Z) : ui * result unit :=
  init_windows_of st profile height width (Ui (Scr height width ∅) []).
Definition sigwinch (st : Config.settings) (profile : text) (height width : Z) (u : ui) : ui * result unit :=
  init_windows_of st profile height width u.

(** [init] of the client: it connects once the windows are there. *)
Definition cli_start (st : Config.settings) (profile : text) (height width : Z) (connect : Config.cval -> result unit) : result unit :=
  Launch.cli_init st profile (new_factory st profile height width).2 connect.

(** ** What the calls draw *)

(** Case analysis on tests of positions. *)
Ltac cell_cases :=
  repeat match goal with |- context [if ?b then _ else _] => destruct b eqn:?; try (exfalso; lia) end; try done.

(** The frame with the given corners, and the title over its first line. *)
Definition frame_glyph (uly ulx lry lrx y x : Z) : option glyph :=
  if y =? uly then
    if x =? ulx then Some ACS_ULCORNER else if x =? lrx then Some ACS_URCORNER
    else if (ulx <? x) && (x <? lrx) then Some ACS_HLINE else None
  else if y =? lry then
    if x =? ulx then Some ACS_LLCORNER else if x =? lrx then Some ACS_LRCORNER
    else if (ulx <? x) && (x <? lrx) then Some ACS_HLINE else None
  else if (uly <? y) && (y <? lry) && ((x =? ulx) || (x =? lrx)) then Some ACS_VLINE else None.

Definition text_glyph (cols y0 x0 : Z) (t : text) (attrs y x : Z) : option glyph :=
  if (y =? y0) && (x0 <=? x) && (x <? cols) then c ← t !! Z.to_nat (x - x0); Some (GText c attrs) else None.

(** A drawing laid over what was there. *)
Definition over (new old : option glyph) : option glyph := match new with Some g => Some g | None => old end.

Definition same_size (s s' : screen) : Prop := s_rows s' = s_rows s /\ s_cols s' = s_cols s.

Lemma puts_size ps g s : same_size s (puts ps g s).
Proof. revert s. induction ps as [|p ps IH]; intros s; [done |]. cbn [puts fold_left]. apply (IH (put g s p)). Qed.

Lemma lookup_puts ps g s p : s_cells (puts ps g s) !! p = if decide (p ∈ ps) then Some g else s_cells s !! p.
Proof.
  revert s. induction ps as [|q ps IH]; intros s; cbn [puts fold_left]; [by rewrite decide_False by apply not_elem_of_nil |].
  fold (puts ps g (put g s q)). rewrite IH. destruct (decide (p ∈ ps)) as [H | H]; [by rewrite decide_True by (by right) |].
  cbn [put s_cells]. destruct (decide (p = q)) as [-> | Hne]; [rewrite lookup_insert_eq, decide_True by (by left); done |].
  rewrite lookup_insert_ne, decide_False by (done || by rewrite not_elem_of_cons). done.
Qed.

Lemma elem_vcells (y x n y' x' : Z) : (y', x') ∈ map (fun i => (y + i, x)) (seqZ 0 n) <-> x' = x /\ y <= y' < y + n.
Proof.
  rewrite list_elem_of_In, in_map_iff. split.
  - intros (i & [= <- <-] & Hi). apply list_elem_of_In, elem_of_seqZ in Hi. lia.
  - intros [-> H]. exists (y' - y). split; [f_equal; lia |]. apply list_elem_of_In, elem_of_seqZ. lia.
Qed.

Lemma elem_hcells (y x n y' x' : Z) : (y', x') ∈ map (fun i => (y, x + i)) (seqZ 0 n) <-> y' = y /\ x <= x' < x + n.
Proof.
  rewrite list_elem_of_In, in_map_iff. split.
  - intros (i & [= <- <-] & Hi). apply list_elem_of_In, elem_of_seqZ in Hi. lia.
  - intros [-> H]. exists (x' - x). split; [f_equal; lia |]. apply list_elem_of_In, elem_of_seqZ. lia.
Qed.

Lemma inside_spec s y x : inside s y x = true <-> 0 <= y < s_rows s /\ 0 <= x < s_cols s.
Proof. unfold inside. rewrite !andb_true_iff, !Z.leb_le, !Z.ltb_lt. lia. Qed.

(** A call that succeeds and draws [d]. *)
Definition draws (m : SE screen unit) (s : screen) (d : Z -> Z -> option glyph) : Prop :=
  exists s', m s = (s', Ok tt) /\ same_size s s' /\ forall y x, s_cells s' !! (y, x) = over (d y x) (s_cells s !! (y, x)).

Lemma draws_bind m k s d1 d2 : draws m s d1 -> (forall s', same_size s s' -> draws (k tt) s' d2) ->
  draws (m ≫= k) s (fun y x => over (d2 y x) (d1 y x)).
Proof.
  intros (s1 & E1 & [Hr1 Hc1] & H1) H2. destruct (H2 s1 (conj Hr1 Hc1)) as (s2 & E2 & [Hr2 Hc2] & Hd2). exists s2. split_and!.
  - unfold mbind, SE_bind. by rewrite E1.
  - split; congruence.
  - intros y x. rewrite Hd2, H1. by destruct (d2 y x).
Qed.

Lemma draws_ext m s d d' : draws m s d -> (forall y x, d y x = d' y x) -> draws m s d'.
Proof. intros (s' & E & Hs & H) Hd. exists s'. split; [done |]. split; [done |]. intros y x. by rewrite H, Hd. Qed.

Lemma draws_vline y x g n s : 0 <= y < s_rows s -> 0 <= x < s_cols s -> y + n <= s_rows s ->
  draws (vline y x g n) s (fun y' x' => if (x' =? x) && (y <=? y') && (y' <? y + n) then Some g else None).
Proof.
  intros Hy Hx Hn. unfold draws, vline. rewrite (proj2 (inside_spec s y x)) by done. eexists. split; [done |]. split; [apply puts_size |].
  intros y' x'. rewrite lookup_puts, Z.min_l by lia.
  destruct (decide _) as [H | H]; rewrite elem_vcells in H; destruct ((x' =? x) && (y <=? y') && (y' <? y + n)) eqn:E; first [done | exfalso; lia].
Qed.

Lemma draws_hline y x g n s : 0 <= y < s_rows s -> 0 <= x < s_cols s -> x + n <= s_cols s ->
  draws (hline y x g n) s (fun y' x' => if (y' =? y) && (x <=? x') && (x' <? x + n) then Some g else None).
Proof.
  intros Hy Hx Hn. unfold draws, hline. rewrite (proj2 (inside_spec s y x)) by done. eexists. split; [done |]. split; [apply puts_size |].
  intros y' x'. rewrite lookup_puts, Z.min_l by lia.
  destruct (decide _) as [H | H]; rewrite elem_hcells in H; destruct ((y' =? y) && (x <=? x') && (x' <? x + n)) eqn:E; first [done | exfalso; lia].
Qed.

Definition at_cell (y x : Z) (g : glyph) (y' x' : Z) : option glyph := if (y' =? y) && (x' =? x) then Some g else None.

Lemma put_over g s y x y' x' : s_cells (put g s (y, x)) !! (y', x') = over (at_cell y x g y' x') (s_cells s !! (y', x')).
Proof.
  cbn [put s_cells]. unfold at_cell. destruct (Z.eqb_spec y' y) as [-> | Hy], (Z.eqb_spec x' x) as [-> | Hx]; cbn [andb over];
    [apply lookup_insert_eq | | |]; apply lookup_insert_ne; congruence.
Qed.

Lemma draws_addch y x g s : 0 <= y < s_rows s -> 0 <= x < s_cols s -> y <> s_rows s - 1 \/ x <> s_cols s - 1 ->
  draws (addch y x g) s (at_cell y x g).
Proof.
  intros Hy Hx Hl. unfold draws, addch. rewrite (proj2 (inside_spec s y x)) by done. exists (put g s (y, x)). split; [| split; [done | apply put_over]].
  by destruct (Z.eqb_spec y (s_rows s - 1)), (Z.eqb_spec x (s_cols s - 1)); try lia.
Qed.

Lemma draws_addch_noerr y x g s : 0 <= y < s_rows s -> 0 <= x < s_cols s ->
  draws (ignore_curses_err (addch y x g)) s (at_cell y x g).
Proof.
  intros Hy Hx. unfold draws, ignore_curses_err, addch. rewrite (proj2 (inside_spec s y x)) by done.
  exists (put g s (y, x)). split; [| split; [done | apply put_over]]. f_equal. by destruct (_ && _).
Qed.

(** [rectangle] draws the frame, also when its corner is the last cell of the screen. *)
Lemma draws_rectangle uly ulx lry lrx s : 0 <= uly < lry -> lry < s_rows s -> 0 <= ulx < lrx -> lrx < s_cols s ->
  draws (rectangle uly ulx lry lrx) s (frame_glyph uly ulx lry lrx).
Proof.
  intros Hy Hry Hx Hrx. eapply draws_ext.
  { unfold rectangle. repeat (eapply draws_bind; [first [apply draws_vline | apply draws_hline | apply draws_addch_noerr | apply draws_addch]; lia |];
      intros ? [? ?]). apply draws_addch; lia. }
  intros y x. unfold at_cell, frame_glyph, over. cell_cases.
Qed.

Lemma text_glyph_nil cols y0 x0 attrs y x : text_glyph cols y0 x0 [] attrs y x = None.
Proof. unfold text_glyph. by destruct (_ && _). Qed.

Lemma text_glyph_cons cols y0 x0 c t attrs y x : x0 < cols ->
  text_glyph cols y0 x0 (c :: t) attrs y x = over (text_glyph cols y0 (x0 + 1) t attrs y x) (at_cell y0 x0 (GText c attrs) y x).
Proof.
  intros Hx. unfold text_glyph, at_cell. destruct (Z.eqb_spec y y0); [| done]. cbn [andb].
  destruct (Z.eqb_spec x x0) as [-> | Hne].
  - rewrite Z.leb_refl, (proj2 (Z.ltb_lt _ _)), (proj2 (Z.leb_gt _ _)), Z.sub_diag by lia. done.
  - destruct (Z.leb_spec (x0 + 1) x), (Z.leb_spec x0 x); try lia; cbn [andb]; [| done].
    destruct (x <? cols); [| done]. replace (Z.to_nat (x - x0)) with (S (Z.to_nat (x - (x0 + 1)))) by lia. cbn [lookup list_lookup].
    by destruct (t !! _).
Qed.

Lemma text_glyph_out cols y0 x0 t attrs y x : cols <= x0 -> text_glyph cols y0 x0 t attrs y x = None.
Proof. intros H. unfold text_glyph. destruct ((y =? y0) && (x0 <=? x) && (x <? cols)) eqn:E; [exfalso; lia | done]. Qed.

(** A text is drawn up to the edge of the screen. *)
Lemma draws_text y x t attrs s : 0 <= y < s_rows s -> 0 <= x ->
  draws (addstr_noerr_at y x t attrs) s (text_glyph (s_cols s) y x t attrs).
Proof.
  intros Hy. revert x s Hy. induction t as [|c t IH]; intros x s Hy Hx.
  { exists s. split; [done |]. split; [done |]. intros y' x'. by rewrite text_glyph_nil. }
  unfold draws, addstr_noerr_at, ignore_curses_err. cbn [addstr_loop]. unfold mbind, SE_bind, addch.
  destruct (inside s y x) eqn:Ei.
  - apply inside_spec in Ei as [_ Hxi]. destruct ((y =? s_rows s - 1) && (x =? s_cols s - 1)) eqn:El.
    + eexists. split; [done |]. split; [done |]. intros y' x'. rewrite text_glyph_cons, text_glyph_out by lia. apply put_over.
    + destruct (IH (x + 1) (put (GText c attrs) s (y, x)) Hy ltac:(lia)) as (s' & E & [Hr Hc] & H). exists s'.
      split; [exact E |]. split; [by split |]. intros y' x'. rewrite text_glyph_cons, H, put_over by lia. cbn [put s_cols].
      by destruct (text_glyph _ _ _ _ _ _ _).
  - assert (Ho : s_cols s <= x).
    { destruct (Z.le_gt_cases (s_cols s) x) as [|Hlt]; [done |]. assert (inside s y x = true) by (apply inside_spec; lia). congruence. }
    exists s. split; [done |]. split; [done |]. intros y' x'. by rewrite text_glyph_out.
Qed.

(** ** Windows on the screen *)

(** A frame with its title. *)
Definition frame_cell (cols : Z) (f : Cli.frame) (y x : Z) : option glyph :=
  over (text_glyph cols (Cli.f_top f) (3 + Cli.f_left f) (Cli.f_title f) Cli.A_BOLD y x)
       (frame_glyph (Cli.f_top f) (Cli.f_left f) (Cli.f_top f + Cli.f_height f - 1) (Cli.f_left f + Cli.f_width f) y x).

(** The cells of a frame and the window inside. *)
Definition in_box (f : Cli.frame) (y x : Z) : Prop :=
  Cli.f_top f <= y < Cli.f_top f + Cli.f_height f /\ Cli.f_left f <= x <= Cli.f_left f + Cli.f_width f.

(** A frame that fits on the screen around a window that is not empty. *)
Definition frame_fits (rows cols : Z) (f : Cli.frame) : Prop :=
  0 <= Cli.f_top f /\ 3 <= Cli.f_height f /\ Cli.f_top f + Cli.f_height f <= rows /\
  0 <= Cli.f_left f /\ 3 <= Cli.f_width f /\ Cli.f_left f + Cli.f_width f < cols.

Definition window_size (f : Cli.frame) : Z * Z := (Cli.f_height f - 2, Cli.f_width f - 2).

Lemma open_window_spec f u : frame_fits (s_rows (u_screen u)) (s_cols (u_screen u)) f ->
  exists s, open_window f u = (Ui s (PyDict.set (u_windows u) (Cli.f_key f) (window_size f)), Ok tt) /\ same_size (u_screen u) s /\
    forall y x, s_cells s !! (y, x) = over (frame_cell (s_cols (u_screen u)) f y x) (s_cells (u_screen u) !! (y, x)).
Proof.
  intros (Ht & Hh & Htr & Hl & Hw & Hlc).
  destruct (draws_rectangle (Cli.f_top f) (Cli.f_left f) (Cli.f_top f + Cli.f_height f - 1) (Cli.f_left f + Cli.f_width f) (u_screen u))
    as (s1 & E1 & [Hr1 Hc1] & H1); try lia.
  destruct (draws_text (Cli.f_top f) (3 + Cli.f_left f) (Cli.f_title f) Cli.A_BOLD s1) as (s2 & E2 & [Hr2 Hc2] & H2); [lia | lia |].
  exists s2. split_and!.
  - unfold open_window, mbind, SE_bind, se_get, se_lift, subpad.
    destruct (_ || _) eqn:Eb; [exfalso; lia |]. rewrite (proj2 (Z.eqb_neq (Cli.f_height f - 2) 0)), (proj2 (Z.eqb_neq (Cli.f_width f - 2) 0)) by lia.
    unfold on_screen. rewrite E1. cbn [u_screen]. by rewrite E2.
  - split; congruence.
  - intros y x. rewrite H2, H1, Hc1. unfold frame_cell. by destruct (text_glyph _ _ _ _ _ _ _).
Qed.

(** What a list of frames show, later ones over earlier ones. *)
Fixpoint frames_show (cols : Z) (fs : list Cli.frame) (y x : Z) : option glyph :=
  match fs with [] => None | f :: fs' => over (frames_show cols fs' y x) (frame_cell cols f y x) end.

Lemma shows_app cols a b y x : frames_show cols (a ++ b) y x = over (frames_show cols b y x) (frames_show cols a y x).
Proof.
  induction a as [|f a IH]; cbn [app frames_show]; [by destruct (frames_show cols b y x) |]. rewrite IH. by destruct (frames_show cols b y x).
Qed.

Definition windows_of (fs : list Cli.frame) (d : PyDict.dict text (Z * Z)) : PyDict.dict text (Z * Z) :=
  fold_left (fun d f => PyDict.set d (Cli.f_key f) (window_size f)) fs d.

Lemma open_windows_spec fs u : Forall (frame_fits (s_rows (u_screen u)) (s_cols (u_screen u))) fs ->
  exists s, se_iter open_window fs u = (Ui s (windows_of fs (u_windows u)), Ok tt) /\ same_size (u_screen u) s /\
    forall y x, s_cells s !! (y, x) = over (frames_show (s_cols (u_screen u)) fs y x) (s_cells (u_screen u) !! (y, x)).
Proof.
  revert u. induction fs as [|f fs IH]; intros [s0 d] Hf; [by exists s0 |]. cbn [u_screen u_windows] in *. apply Forall_cons in Hf as [Hf Hfs].
  destruct (open_window_spec f (Ui s0 d) Hf) as (s1 & E1 & [Hr1 Hc1] & H1). cbn [u_screen u_windows] in *.
  destruct (IH (Ui s1 (PyDict.set d (Cli.f_key f) (window_size f)))) as (s2 & E2 & [Hr2 Hc2] & H2); cbn [u_screen u_windows] in *.
  { by rewrite Hr1, Hc1. }
  exists s2. split_and!.
  - cbn [se_iter]. unfold mbind, SE_bind. rewrite E1. exact E2.
  - split; congruence.
  - intros y x. rewrite H2, H1, Hc1. cbn [frames_show]. by destruct (frames_show _ _ _ _).
Qed.

Lemma open_windows_app a b u : se_iter open_window (a ++ b) u =
  (let '(u', r) := se_iter open_window a u in match r with Ok _ => se_iter open_window b u' | Raise e => (u', Raise e) end).
Proof.
  revert u. induction a as [|f a IH]; intros u; cbn [app se_iter]; [done |]. unfold mbind, SE_bind.
  destruct (open_window f u) as [u1 [[]|e]]; [apply IH | done].
Qed.

Section Painted.
Context (profile : text) (width : Z).

(** Painting a column places its frame and opens its window. *)
Lemma paint_column_place name h g y ww xoff txrx TXRX show fr wh u :
  Cli.place (fun _ => true) profile name h g y ww xoff txrx TXRX show = Ok (fr, wh) ->
  paint_column profile name h g y ww xoff txrx TXRX show u =
    (let '(u', r) := se_iter open_window fr u in (u', match r with Ok _ => Ok wh | Raise e => Raise e end)).
Proof using Type.
  unfold Cli.place, paint_column. destruct show; cbn [negb]; [| by intros [= <- <-]].
  intros (r & Hr & (he & Hhe & H)%bind_ok)%bind_ok. unfold mbind, SE_bind, se_lift. rewrite Hr, Hhe. cbv zeta in *.
  destruct (_ <? _); [done |]. injection H as <- <-. cbn [se_iter]. unfold mbind, SE_bind. by destruct (open_window _ u) as [? [[]|?]].
Qed.

(** Painting a layout that exists is opening its windows in order. *)
Lemma paint_layout h l g y bands u : Cli.layout (fun _ => true) profile width h l g y = Ok bands ->
  paint profile width h l g y u = se_iter open_window (concat bands) u.
Proof using Type.
  revert g y bands u. induction l as [|[[name rx] tx] l IH]; intros g y bands u H; cbn [Cli.layout] in H; [by injection H as <- |].
  apply bind_ok in H as (g' & Hg & H). apply bind_ok in H as ([fr wr] & Hr & H). apply bind_ok in H as ([ft wt] & Ht & H).
  apply bind_ok in H as (rest & Hl & [= <-]). cbn [paint concat]. unfold mbind, SE_bind, se_lift. rewrite Hg.
  rewrite (paint_column_place _ _ _ _ _ _ _ _ _ _ _ u Hr), <- app_assoc, !open_windows_app.
  destruct (se_iter open_window fr u) as [u1 [[]|e]]; [| done]. cbn iota beta.
  rewrite (paint_column_place _ _ _ _ _ _ _ _ _ _ _ u1 Ht), open_windows_app.
  destruct (se_iter open_window ft u1) as [u2 [[]|e]]; [| done]. by apply IH.
Qed.

Lemma split_cols : 8 <= width -> 4 <= Cli.split_col width /\ Cli.split_col width + 4 <= width.
Proof using Type. intros H. unfold Cli.split_col. Z.to_euclidean_division_equations. lia. Qed.

(** The frames of a band are its two columns. *)
Lemma band_cases s y h f : f ∈ Cli.band profile width s y h -> Cli.f_top f = y /\ Cli.f_height f = h /\
  (Cli.f_left f = 0 /\ Cli.f_width f = Cli.split_col width - 1 \/
   Cli.f_left f = Cli.split_col width /\ Cli.f_width f = width - Cli.split_col width - 1).
Proof using Type.
  unfold Cli.band. destruct s as [[name rx] tx]. cbn [fst snd]. intros H. apply elem_of_app in H as [H | H].
  - destruct rx; [| by apply elem_of_nil in H]. apply list_elem_of_singleton in H as ->. cbn. auto.
  - destruct tx; [| by apply elem_of_nil in H]. apply list_elem_of_singleton in H as ->. cbn. auto.
Qed.

Lemma frame_cell_rows cols f y x : 3 <= Cli.f_height f -> frame_cell cols f y x <> None -> Cli.f_top f <= y < Cli.f_top f + Cli.f_height f.
Proof using Type.
  intros Hh. unfold frame_cell, text_glyph, frame_glyph. intros H.
  destruct (Z.eq_dec y (Cli.f_top f)); [lia |]. destruct (Z.eqb_spec y (Cli.f_top f)); [lia |]. cbn [andb over] in H.
  destruct (Z.eqb_spec y (Cli.f_top f + Cli.f_height f - 1)); [lia |]. destruct (_ && _) eqn:E in H; [lia | done].
Qed.

Lemma frame_cell_cols cols f y x : x < Cli.f_left f -> 0 <= Cli.f_width f -> frame_cell cols f y x = None.
Proof using Type.
  intros Hx Hw. unfold frame_cell, text_glyph, frame_glyph. replace ((y =? Cli.f_top f) && (3 + Cli.f_left f <=? x) && (x <? cols)) with false
    by (symmetry; apply not_true_iff_false; lia). cbn [over]. cell_cases.
Qed.

(** Below its title line a frame draws nothing to its right. *)
Lemma frame_cell_right cols f y x : y <> Cli.f_top f -> Cli.f_left f + Cli.f_width f < x -> 0 <= Cli.f_width f -> frame_cell cols f y x = None.
Proof using Type.
  intros Hy Hx Hw. unfold frame_cell, text_glyph, frame_glyph. rewrite (proj2 (Z.eqb_neq _ _) Hy). cbn [andb over]. cell_cases.
Qed.

Lemma frame_cell_top cols f x : Cli.f_left f <= x <= Cli.f_left f + Cli.f_width f -> frame_cell cols f (Cli.f_top f) x <> None.
Proof using Type.
  intros Hx. unfold frame_cell, frame_glyph. rewrite Z.eqb_refl. destruct (text_glyph _ _ _ _ _ _ _); cbn [over]; [done |]. cell_cases.
Qed.

Lemma shows_rows cols fs y0 y1 y x : Forall (fun f => 3 <= Cli.f_height f /\ y0 <= Cli.f_top f /\ Cli.f_top f + Cli.f_height f <= y1) fs ->
  frames_show cols fs y x <> None -> y0 <= y < y1.
Proof using Type.
  induction 1 as [|f fs (Hh & H0 & H1) _ IH]; [done |]. cbn [frames_show]. intros H. destruct (frames_show cols fs y x); [by apply IH |]. cbn [over] in H.
  apply frame_cell_rows in H; lia.
Qed.

Lemma shows_band s y0 h f y x : 8 <= width -> 3 <= h -> f ∈ Cli.band profile width s y0 h -> in_box f y x ->
  frames_show width (Cli.band profile width s y0 h) y x = frame_cell width f y x.
Proof using Type.
  intros Hw Hh Hf Hbox. pose proof (split_cols Hw) as [Hs1 Hs2]. pose proof (band_cases _ _ _ _ Hf) as (Ht & Hht & _).
  unfold Cli.band in *. destruct s as [[name rx] tx]. cbn [fst snd] in *.
  set (R := Cli.Frame (name ++ lit " rx") _ _ _ _ _) in *. set (T := Cli.Frame (name ++ lit " tx") _ _ _ _ _) in *.
  destruct rx, tx; cbn [app frames_show] in *.
  - apply elem_of_cons in Hf as [-> | ->%list_elem_of_singleton].
    + rewrite (frame_cell_cols width T); [done | |]; destruct Hbox; cbn in *; lia.
    + cbn [over]. destruct (frame_cell width T y x) eqn:E; [done |]. cbn [over]. apply frame_cell_right; [| destruct Hbox; cbn in *; lia ..].
      intros ->. exact (frame_cell_top width T x (proj2 Hbox) E).
  - by apply list_elem_of_singleton in Hf as ->.
  - by apply list_elem_of_singleton in Hf as ->.
  - by apply elem_of_nil in Hf.
Qed.

(** The frames of a tiling lie between its first and its last line. *)
Lemma tiles_frames l bands y0 y1 : 8 <= width -> Cli.tiles profile width l bands y0 y1 -> y0 <= y1 /\
  Forall (fun f => 3 <= Cli.f_height f /\ y0 <= Cli.f_top f /\ Cli.f_top f + Cli.f_height f <= y1 /\
                   0 <= Cli.f_left f /\ 3 <= Cli.f_width f /\ Cli.f_left f + Cli.f_width f < width) (concat bands).
Proof using Type.
  intros Hw. pose proof (split_cols Hw) as [Hs1 Hs2]. revert bands y0. induction l as [|s l IH]; intros [|b bands] y0 H; cbn [Cli.tiles] in H; try done.
  { subst. split; [lia | constructor]. }
  cbn [concat]. destruct (Cli.shown s).
  - destruct H as (h & Hh & -> & H). unfold Cli.h_fixed in Hh. destruct (IH _ _ H) as [Hle Hall]. split; [lia |]. apply Forall_app. split.
    + apply Forall_forall. intros f (Ht & Hht & Hc)%band_cases. lia.
    + eapply Forall_impl; [exact Hall |]. cbn. lia.
  - destruct H as [-> H]. by apply IH.
Qed.

(** In the box of every frame exactly that frame is seen. *)
Lemma tiles_shows l bands y0 y1 f y x : 8 <= width -> Cli.tiles profile width l bands y0 y1 -> f ∈ concat bands -> in_box f y x ->
  frames_show width (concat bands) y x = frame_cell width f y x.
Proof using Type.
  intros Hw. revert bands y0. induction l as [|s l IH]; intros [|b bands] y0 H Hf Hbox; cbn [Cli.tiles] in H; try done.
  { by apply elem_of_nil in Hf. }
  cbn [concat] in *. destruct (Cli.shown s); [| destruct H as [-> H]; by eapply IH].
  destruct H as (h & Hh & -> & H). unfold Cli.h_fixed in Hh. rewrite shows_app.
  destruct (tiles_frames _ _ _ _ Hw H) as [Hle Hall].
  assert (Hrest : Forall (fun f => 3 <= Cli.f_height f /\ y0 + h <= Cli.f_top f /\ Cli.f_top f + Cli.f_height f <= y1) (concat bands))
    by (eapply Forall_impl; [exact Hall |]; cbn; lia).
  assert (Hband : Forall (fun f => 3 <= Cli.f_height f /\ y0 <= Cli.f_top f /\ Cli.f_top f + Cli.f_height f <= y0 + h) (Cli.band profile width s y0 h))
    by (apply Forall_forall; intros g (Ht & Hht & _)%band_cases; lia).
  apply elem_of_app in Hf as [Hf | Hf].
  - destruct (frames_show width (concat bands) y x) eqn:E.
    + assert (y0 + h <= y) by (eapply (shows_rows width _ _ _ y x Hrest); congruence).
      rewrite Forall_forall in Hband. specialize (Hband _ Hf). destruct Hbox. lia.
    + by apply shows_band.
  - rewrite (IH _ _ H Hf Hbox). destruct (frame_cell width f y x) eqn:E; [done |]. cbn [over].
    destruct (frames_show width (Cli.band profile width s y0 h) y x) eqn:E2; [| done].
    assert (y < y0 + h) by (eapply (shows_rows width _ _ _ y x Hband); congruence).
    rewrite Forall_forall in Hrest. specialize (Hrest _ Hf). destruct Hbox. lia.
Qed.

Lemma windows_of_keep fs d k : k ∉ map Cli.f_key fs -> PyDict.get (windows_of fs d) k = PyDict.get d k.
Proof using Type.
  revert d. induction fs as [|f fs IH]; intros d Hk; [done |]. cbn [map] in Hk. apply not_elem_of_cons in Hk as [Hne Hk].
  unfold windows_of in *. cbn [fold_left]. rewrite IH by done. by apply PyDict.get_set_ne.
Qed.

Lemma windows_of_get fs d f : NoDup (map Cli.f_key fs) -> f ∈ fs -> PyDict.get (windows_of fs d) (Cli.f_key f) = Some (window_size f).
Proof using Type.
  revert d. induction fs as [|g fs IH]; intros d Hnd Hf; [by apply elem_of_nil in Hf |]. cbn [map] in Hnd. apply NoDup_cons in Hnd as [Hg Hnd].
  apply elem_of_cons in Hf as [-> | Hf].
  - unfold windows_of. cbn [fold_left]. fold (windows_of fs (PyDict.set d (Cli.f_key g) (window_size g))).
    rewrite windows_of_keep by done. apply PyDict.get_set_eq.
  - exact (IH _ Hnd Hf).
Qed.

(** The windows of a service have keys of their own. *)
Lemma band_keys s y h k : k ∈ map Cli.f_key (Cli.band profile width s y h) -> k = s.1.1 ++ lit " rx" \/ k = s.1.1 ++ lit " tx".
Proof using Type.
  unfold Cli.band. rewrite map_app. intros [H | H]%elem_of_app.
  - destruct s.1.2; [| by apply elem_of_nil in H]. apply list_elem_of_singleton in H. by left.
  - destruct s.2; [| by apply elem_of_nil in H]. apply list_elem_of_singleton in H. by right.
Qed.

Lemma key_inj (a b : text) (p q : string) : p = " rx"%string \/ p = " tx"%string -> q = " rx"%string \/ q = " tx"%string ->
  a ++ lit p = b ++ lit q -> a = b /\ p = q.
Proof using Type.
  intros [-> | ->] [-> | ->] H; (apply app_inj_2 in H as [-> H]; [split; [done | by inversion H || done] | done]).
Qed.

Lemma tiles_keys l bands y0 y1 : Cli.tiles profile width l bands y0 y1 ->
  (forall k, k ∈ map Cli.f_key (concat bands) -> exists s, s ∈ l /\ (k = s.1.1 ++ lit " rx" \/ k = s.1.1 ++ lit " tx")) /\
  (NoDup (map (fun s => s.1.1) l) -> NoDup (map Cli.f_key (concat bands))).
Proof using Type.
  revert bands y0. induction l as [|s l IH]; intros [|b bands] y0 H; cbn [Cli.tiles] in H; try done.
  { split; [| by constructor]. intros k Hk. by apply elem_of_nil in Hk. }
  cbn [concat map]. rewrite map_app. destruct (Cli.shown s).
  2: { destruct H as [-> H]. destruct (IH _ _ H) as [IH1 IH2]. cbn [map app]. split.
       - intros k Hk. destruct (IH1 k Hk) as (s' & Hs' & E). exists s'. split; [by right | done].
       - intros [_ Hnd]%NoDup_cons. by apply IH2. }
  destruct H as (h & _ & -> & H). destruct (IH _ _ H) as [IH1 IH2]. split.
  - intros k [Hk | Hk]%elem_of_app.
    + exists s. split; [by left |]. by eapply band_keys.
    + destruct (IH1 k Hk) as (s' & Hs' & E). exists s'. split; [by right | done].
  - intros [Hs Hnd]%NoDup_cons. apply NoDup_app. split_and!; [| | by apply IH2].
    + unfold Cli.band. destruct s as [[name rx] tx]. cbn [fst snd].
      assert (Hne : name ++ lit " rx" <> name ++ lit " tx") by (intros [_ E]%key_inj; auto; done).
      destruct rx, tx; cbn [app map Cli.f_key]; repeat (apply NoDup_cons; split); try apply NoDup_nil_2; try apply not_elem_of_nil.
      intros E%list_elem_of_singleton. done.
    + intros k Hk%band_keys Hk2. destruct (IH1 k Hk2) as (s' & Hs' & E). apply Hs.
      assert (s.1.1 = s'.1.1) as -> by (destruct Hk as [-> | ->], E as [E | E]; apply key_inj in E as [-> _]; auto; done).
      apply list_elem_of_In, in_map_iff. exists s'. split; [done |]. by apply list_elem_of_In.
Qed.

End Painted.

(** Without services the frame of the whole screen and a notice are shown: the
    error curses raises for the last cell is dropped. *)
Lemma not_configured profile height width u : 2 <= height -> 2 <= width ->
  exists s, paint_windows profile width height [] u = (Ui s [], Ok tt) /\
    forall y x, s_cells s !! (y, x) =
      over (text_glyph width 0 3 (91 :: profile ++ lit " not configured]") Cli.A_REVERSE y x) (frame_glyph 0 0 (height - 1) (width - 1) y x).
Proof.
  intros Hh Hw. destruct (draws_rectangle 0 0 (height - 1) (width - 1) (Scr height width ∅)) as (s1 & E1 & [Hr1 Hc1] & H1); cbn [s_rows s_cols] in *; try lia.
  destruct (draws_text 0 3 (91 :: profile ++ lit " not configured]") Cli.A_REVERSE s1) as (s2 & E2 & _ & H2); [lia | lia |].
  exists s2. split.
  - unfold paint_windows, mbind, SE_bind, se_put, on_screen. cbn [u_screen u_windows]. rewrite E1. cbn [u_screen u_windows]. by rewrite E2.
  - intros y x. rewrite H2, H1, Hc1. cbn [s_cells]. rewrite lookup_empty. by destruct (frame_glyph _ _ _ _ _ _).
Qed.

(** C36: the client lays out a terminal of at least eight columns and less than 2^15
    lines, for at most 1000 services with different names of which the last one has
    statistics, when there are four lines for every service with statistics and three
    for every other: painting never raises (not even for the last cell of the screen,
    where curses reports an error although it draws), the windows tile the terminal
    from the first to the last line, every cell of every frame shows that frame, its
    title or blank space and nothing of another window, and every window is
    registered under its own name with the size of the inside of its frame.  (After
    the last service with statistics the lines of the others stay blank.) *)
Theorem terminal_shows_windows profile width height l u : height < 2 ^ 15 -> 8 <= width -> blen l <= 1000 -> Cli.last_shown l ->
  NoDup (map (fun s => s.1.1) l) -> 4 * Cli.count_shown l + Cli.h_fixed * Cli.count_fixed l <= height ->
  exists u' bands, paint_windows profile width height l u = (u', Ok tt) /\ Cli.tiles profile width l bands 0 height /\
    forall f, f ∈ concat bands ->
      (forall y x, in_box f y x -> s_cells (u_screen u') !! (y, x) = frame_cell width f y x) /\
      PyDict.get (u_windows u') (Cli.f_key f) = Some (window_size f).
Proof.
  intros Hh Hw Hlen Hlast Hnd Henough. destruct (Cli.windows_placed (fun _ => true) profile width height l) as [bands Hb]; try done.
  assert (Hpos : 0 < height) by (pose proof (Cli.count_last l Hlast); assert (0 <= Cli.count_fixed l) by apply blen_nonneg; unfold Cli.h_fixed in *; lia).
  assert (Ht : Cli.tiles profile width l bands 0 height) by (apply (Cli.windows_fill_terminal (fun _ => true)); done).
  destruct (tiles_frames _ _ _ _ _ _ Hw Ht) as [_ Hall].
  destruct (open_windows_spec (concat bands) (Ui (Scr height width ∅) [])) as (s & E & _ & Hs).
  { eapply Forall_impl; [exact Hall |]. intros f Hf. cbn in Hf |- *. unfold frame_fits. lia. }
  exists (Ui s (windows_of (concat bands) [])), bands. split_and!; [| done |].
  - unfold paint_windows, mbind, SE_bind, se_put. destruct l as [|e l]; [done |]. unfold Cli.init_windows in Hb.
    apply bind_ok in Hb as (h & Hexp & Hlay). unfold se_lift. rewrite Hexp. by rewrite (paint_layout _ _ _ _ _ _ _ _ Hlay).
  - intros f Hf. split.
    + intros y x Hbox. cbn [u_screen]. rewrite Hs. cbn [u_screen s_cols s_cells]. rewrite lookup_empty.
      rewrite (tiles_shows _ _ _ _ _ _ _ _ _ Hw Ht Hf Hbox). by destruct (frame_cell _ _ _ _).
    + cbn [u_windows]. apply windows_of_get; [| done]. by apply (tiles_keys _ _ _ _ _ _ Ht).
Qed.

(** Five services on a terminal of 80 columns and 24 lines. *)
Lemma terminal_shows_windows_witness : exists u' bands,
  paint_windows (lit "gs") 80 24 Cli.demo_services (Ui (Scr 0 0 ∅) []) = (u', Ok tt) /\
  Cli.tiles (lit "gs") 80 Cli.demo_services bands 0 24 /\
  s_cells (u_screen u') !! (23, 79) = Some ACS_LRCORNER /\ s_cells (u_screen u') !! (0, 3) = Some (GText 91 Cli.A_BOLD).
Proof.
  destruct (terminal_shows_windows (lit "gs") 80 24 Cli.demo_services (Ui (Scr 0 0 ∅) [])) as (u' & bands & E & Ht & _);
    [lia | lia | by vm_compute | reflexivity | | by vm_compute |].
  { apply (bool_decide_unpack _). vm_compute. exact I. }
  exists u', bands. split; [done |]. split; [done |].
  assert (Eu : u' = (paint_windows (lit "gs") 80 24 Cli.demo_services (Ui (Scr 0 0 ∅) [])).1) by by rewrite E.
  rewrite Eu. split; vm_compute; reflexivity.
Defined.

End Screen.
