(* ===== verification/StatsApi.v ===== *)
(** The JSON statistics interface, the temperature meter and the systemd
    notification of src/wfb_ng/protocols.py.  [json.dumps] is a parameter; the
    thermal state files of the driver are given by their lines. *)
From Stdlib Require Import ZArith Lia Bool.
From stdpp Require Import base list numbers strings gmap.
From S2P Require Import Prelude PyFloat PyNum PyText PyDict Runtime AntSel Cli.

Module StatsApi.
Import PyText.

(** ** [StatisticsJSONProtocol.send_stats] *)

Definition rx_names : list string :=
  ["ant"; "freq"; "mcs"; "bw"; "pkt_recv"; "rssi_min"; "rssi_avg"; "rssi_max"; "snr_min"; "snr_avg"; "snr_max"]%string.
Definition tx_names : list string := ["ant"; "pkt_sent"; "pkt_drop"; "lat_min"; "lat_avg"; "lat_max"]%string.

(** [dict(zip(names, values))]: the shorter one decides; names are distinct. *)
Definition json_row (names : list string) (values : list Z) : PyDict.dict string Z := zip names values.

(** What is serialised: a statistics message whose antenna table is a list of
    dictionaries, or any other message unchanged. *)
Inductive json_msg :=
| JsonRx (timestamp : Z) (id : string) (tx_wlan : option Z) (packets : AntSel.packet_stats) (session : option AntSel.session_info)
         (rx_ant_stats : list (PyDict.dict string Z))
| JsonTx (timestamp : Z) (id : string) (packets : AntSel.packet_stats) (rf_temperature : PyDict.dict Z Z)
         (tx_ant_stats : list (PyDict.dict string Z))
| JsonOther (m : AntSel.stat_msg).

Definition to_json (m : AntSel.stat_msg) : json_msg :=
  match m with
  | AntSel.RxMsg ts id w p ants se => JsonRx ts id w p se (map (fun it => json_row rx_names (it.1.2 :: it.1.1 ++ it.2)) ants)
  | AntSel.TxMsg ts id p lat temps => JsonTx ts id p temps (map (fun kv => json_row tx_names (kv.1 :: kv.2)) lat)
  | _ => JsonOther m
  end.

(** [sendLine(json.dumps(data).encode('utf-8'))]. *)
Definition send_stats (dumps : json_msg -> result bytes) (m : AntSel.stat_msg) : result bytes :=
  b ← dumps (to_json m); Ok (b ++ [10]).

(** A reader of the rows. *)
Definition row_value (r : PyDict.dict string Z) (k : string) : Z := default 0 (PyDict.get r k).
Definition read_rx_row (r : PyDict.dict string Z) : AntSel.item :=
  (([row_value r "freq"; row_value r "mcs"; row_value r "bw"], row_value r "ant"),
   map (row_value r) ["pkt_recv"; "rssi_min"; "rssi_avg"; "rssi_max"; "snr_min"; "snr_avg"; "snr_max"]%string).
Definition read_tx_row (r : PyDict.dict string Z) : Z * list Z :=
  (row_value r "ant", map (row_value r) ["pkt_sent"; "pkt_drop"; "lat_min"; "lat_avg"; "lat_max"]%string).

(** The antenna tables of the JSON messages hold everything the statistics
    hold, when the tuples have their proper lengths. *)
Theorem json_rows_complete :
  (forall it, AntSel.well_formed it -> read_rx_row (json_row rx_names (it.1.2 :: it.1.1 ++ it.2)) = it) /\
  (forall k v, length v = 5%nat -> read_tx_row (json_row tx_names (k :: v)) = (k, v)).
Proof.
  split.
  - intros [[k a] v] [Hk Hv]. cbn in Hk, Hv. destruct k as [|k1 [|k2 [|k3 [|]]]]; try done.
    destruct v as [|v1 [|v2 [|v3 [|v4 [|v5 [|v6 [|v7 [|]]]]]]]]; done.
  - intros k [|v1 [|v2 [|v3 [|v4 [|v5 [|]]]]]] Hv; done.
Qed.

(** ** [RFTempMeter] *)

(** One line [name:value,name:value,...]. *)
Fixpoint line_fields (fs : list text) (d : PyDict.dict text Z) : result (PyDict.dict text Z) :=
  match fs with
  | [] => Ok d
  | f :: fs' => '(k, v) ← split1 58 f; z ← int_of 10 (strip v); line_fields fs' (PyDict.set d (strip k) z)
  end.

Definition thermal_line (idx : Z) (line : text) (res : PyDict.dict Z Z) : result (PyDict.dict Z Z) :=
  let l := strip line in
  if bool_decide (l = []) then Ok res
  else
    d ← line_fields (split 44 l) [];
    path ← PyDict.item d (lit "rf_path");
    temp ← PyDict.item d (lit "temperature");
    Ok (PyDict.set res (Z.shiftl idx 8 + path) temp).

(** The lines of a file up to the first one that cannot be parsed; the
    exception is logged and what was read is kept. *)
Fixpoint thermal_file (idx : Z) (lines : list text) (res : PyDict.dict Z Z) : PyDict.dict Z Z :=
  match lines with
  | [] => res
  | l :: lines' => match thermal_line idx l res with Ok res' => thermal_file idx lines' res' | Raise _ => res end
  end.

(** A card without a file is skipped. *)
Fixpoint read_temperature (idx : Z) (files : list (option (list text))) (res : PyDict.dict Z Z) : PyDict.dict Z Z :=
  match files with
  | [] => res
  | f :: files' => read_temperature (idx + 1) files' match f with Some lines => thermal_file idx lines res | None => res end
  end.

(** The meter: its cards, the last readings, whether a reading is under way and
    whether its loop runs.  Readings are taken in a thread; the loop waits for one
    before it starts the next. *)
Record temp_meter := TempMeter { tm_wlans : list text; rf_temperature : PyDict.dict Z Z; tm_reading : bool; tm_running : bool }.

(** [RFTempMeter(wlans, interval)]: the first reading starts at once. *)
Definition init_meter (wlans : list text) : temp_meter := TempMeter wlans [] true true.

Definition thermal_path (wlan : text) : text := lit "/proc/net/rtl88x2eu/" ++ wlan ++ lit "/thermal_state".

(** The interval has passed. *)
Definition meter_tick (m : temp_meter) : temp_meter :=
  if tm_running m && negb (tm_reading m) then TempMeter (tm_wlans m) (rf_temperature m) true true else m.

(** [_got_temp], with the files as the thread found them. *)
Definition got_temp (files : text -> option (list text)) (m : temp_meter) : temp_meter :=
  TempMeter (tm_wlans m) (read_temperature 0 (map (fun w => files (thermal_path w)) (tm_wlans m)) []) false (tm_running m).

(** [_cleanup]; a loop that was stopped already fails an assertion. *)
Definition meter_cleanup (m : temp_meter) : result temp_meter :=
  if tm_running m then Ok (TempMeter (tm_wlans m) (rf_temperature m) (tm_reading m) false) else Raise AssertionError.

(** ** [notify_ready] *)

(** [SDNotifier]: the datagram sent when the socket is connected, after which the
    port is closed; a failed connection is fatal. *)
Definition sd_startProtocol : list bytes := [lit "READY=1"].
Definition sd_connectionFailed (s : Runtime.run_state) : Runtime.run_state := Runtime.fatal_error true s.

(** The address of the notification socket: an abstract one starts with a zero
    byte instead of the at sign. *)
Definition notify_socket (env : option text) : result (option text) :=
  match env with
  | None => Ok None
  | Some [] => Raise IndexError
  | Some (c :: s) => Ok (Some (if c =? 64 then 0 :: s else c :: s))
  end.

(** *** What the meter reports *)

(** A line the driver prints. *)
Definition state_line (pt : Z * Z) : text :=
  lit "rf_path: " ++ print_d pt.1 ++ lit ", temperature: " ++ print_d pt.2.

Lemma strip_number z : strip (32 :: print_d z) = print_d z.
Proof.
  change (strip (32 :: print_d z)) with (strip (print_d z)). pose proof (print_d_plain z) as Hp. pose proof (print_d_ne z) as Hne.
  rewrite Forall_forall in Hp. destruct (print_d z) as [|c t]; [done |]. destruct (last (c :: t)) as [d|] eqn:E; [| by apply last_None in E].
  apply (strip_ends _ c d); [done | done | apply Hp; left | by apply Hp, last_Some_elem_of].
Qed.

Lemma print_d_no_comma z : 44 ∉ print_d z.
Proof.
  assert (H : forall n, 0 <= n -> 44 ∉ print_u n).
  { intros n Hn Hin. destruct (print_nat_spec 10 n ltac:(lia) Hn) as (ds & Hp & _ & Hds & _). unfold print_u in Hin. rewrite Hp in Hin.
    apply list_elem_of_fmap in Hin as (d & Hd & Hin). rewrite Forall_forall in Hds. specialize (Hds _ Hin).
    unfold digit_char in Hd. destruct (d <? 10); lia. }
  unfold print_d. destruct (Z.ltb_spec z 0); [| by apply H]. rewrite elem_of_cons. intros [E | Hin]; [done |]. apply (H (- z)); [lia | done].
Qed.

Lemma field_read name z fs d : 58 ∉ name ->
  line_fields ((name ++ lit ": " ++ print_d z) :: fs) d = line_fields fs (PyDict.set d (strip name) z).
Proof.
  intros Hn. cbn [line_fields]. change (name ++ lit ": " ++ print_d z) with (name ++ 58 :: (32 :: print_d z)).
  rewrite split1_app by done. cbn [mbind result_bind]. by rewrite strip_number, int_of_print_d.
Qed.

Lemma state_line_read idx p t res : thermal_line idx (state_line (p, t)) res = Ok (PyDict.set res (Z.shiftl idx 8 + p) t).
Proof.
  unfold thermal_line, state_line. cbn [fst snd].
  set (l := lit "rf_path: " ++ print_d p ++ lit ", temperature: " ++ print_d t).
  assert (Hs : strip l = l).
  { pose proof (print_d_plain t) as Hp. rewrite Forall_forall in Hp. destruct (last (print_d t)) as [d|] eqn:E; [| by apply last_None, print_d_ne in E].
    apply (strip_ends _ 114 d); [done | | by split | by apply Hp, last_Some_elem_of].
    unfold l. rewrite !app_assoc, last_app, E. done. }
  rewrite Hs. rewrite bool_decide_eq_false_2 by done.
  assert (Hl : split 44 l = [lit "rf_path" ++ lit ": " ++ print_d p; lit " temperature" ++ lit ": " ++ print_d t]).
  { unfold l. change (lit ", temperature: ") with (44 :: lit " temperature: "). rewrite <- app_comm_cons, app_assoc.
    rewrite split_sep_app, split_nosep; [done | |].
    - intros Hin. apply elem_of_app in Hin as [Hin | Hin]; [| by apply print_d_no_comma in Hin].
      apply (bool_decide_unpack (44 ∉ lit " temperature: ")) in Hin; [done | by vm_compute].
    - intros Hin. apply elem_of_app in Hin as [Hin | Hin]; [| by apply print_d_no_comma in Hin].
      apply (bool_decide_unpack (44 ∉ lit "rf_path: ")) in Hin; [done | by vm_compute]. }
  rewrite Hl.
  rewrite (field_read (lit "rf_path")), (field_read (lit " temperature")) by (apply (bool_decide_unpack (58 ∉ _)); vm_compute; exact I).
  reflexivity.
Qed.

(** The last reading of a path. *)
Definition last_reading (pts : list (Z * Z)) (p : Z) : option Z := PyDict.get (rev pts) p.

Definition card_key (idx : Z) (pt : Z * Z) : Z * Z := (Z.shiftl idx 8 + pt.1, pt.2).

Lemma card_key_parts idx p : 0 <= p < 256 -> Z.shiftr (Z.shiftl idx 8 + p) 8 = idx /\ Z.land (Z.shiftl idx 8 + p) 255 = p.
Proof.
  intros Hp. rewrite Z.shiftl_mul_pow2, Z.shiftr_div_pow2 by lia. change 255 with (Z.ones 8). rewrite Z.land_ones by lia. change (2 ^ 8) with 256.
  split; [rewrite Z.add_comm, Z.div_add by lia; rewrite Z.div_small; lia |]. rewrite Z.add_comm, Z.mod_add by lia. by apply Z.mod_small.
Qed.

Lemma thermal_file_fold idx pts res : thermal_file idx (map state_line pts) res = fold_left (fun d q => PyDict.set d q.1 q.2) (map (card_key idx) pts) res.
Proof.
  revert res. induction pts as [|[p t] pts IH]; intros res; [done |]. cbn [map thermal_file fold_left]. rewrite state_line_read. apply IH.
Qed.

Lemma get_card_key idx l k : Forall (fun pt => 0 <= pt.1 < 256) l ->
  PyDict.get (map (card_key idx) l) k = if decide (Z.shiftr k 8 = idx) then PyDict.get l (Z.land k 255) else None.
Proof.
  intros Hl. induction Hl as [|[p t] l Hp _ IH]; cbn [map PyDict.get card_key fst snd]; [by case_decide |].
  cbn in Hp. destruct (card_key_parts idx p Hp) as [H1 H2]. destruct (decide (k = Z.shiftl idx 8 + p)) as [-> | Hne].
  - rewrite decide_True by done. rewrite H2. by rewrite decide_True.
  - rewrite IH. destruct (decide (Z.shiftr k 8 = idx)) as [E | E]; [| done]. rewrite decide_False; [done |].
    intros E2. apply Hne. rewrite <- E, <- E2. rewrite Z.shiftl_mul_pow2 by lia. change (2 ^ 8) with 256. apply Cli.id_parts.
Qed.

Lemma thermal_file_get idx pts res k : Forall (fun pt => 0 <= pt.1 < 256) pts ->
  PyDict.get (thermal_file idx (map state_line pts) res) k =
  match (if decide (Z.shiftr k 8 = idx) then last_reading pts (Z.land k 255) else None) with Some t => Some t | None => PyDict.get res k end.
Proof.
  intros Hl. rewrite thermal_file_fold, PyDict.get_fold_set, <- map_rev, get_card_key; [done |].
  apply List.Forall_forall. intros x Hx. rewrite List.Forall_forall in Hl. apply Hl. by apply in_rev.
Qed.

(** The readings of card [i]. *)
Definition card_readings (files : list (option (list (Z * Z)))) (i : Z) (p : Z) : option Z :=
  if decide (0 <= i) then pts ← mjoin (files !! Z.to_nat i); last_reading pts p else None.

(** The meter reports, for every card that has a thermal state and every radio
    path, the last temperature of that path in the file of that card, and nothing
    else: cards are numbered by position, so files of other cards do not interfere. *)
Theorem temperatures_read files k : Forall (fun f => Forall (fun pt => 0 <= pt.1 < 256) (default [] f)) files ->
  PyDict.get (read_temperature 0 (map (fmap (map state_line)) files) []) k = card_readings files (Z.shiftr k 8) (Z.land k 255).
Proof.
  intros Hf. assert (H : forall idx res, PyDict.get (read_temperature idx (map (fmap (map state_line)) files) res) k =
    match card_readings files (Z.shiftr k 8 - idx) (Z.land k 255) with Some t => Some t | None => PyDict.get res k end).
  2: { rewrite H, Z.sub_0_r. by destruct (card_readings _ _ _). }
  induction Hf as [|f files Hp Hf IH]; intros idx res; cbn [map read_temperature].
  { unfold card_readings. case_decide; [| done]. by rewrite lookup_nil. }
  rewrite IH. replace (Z.shiftr k 8 - (idx + 1)) with (Z.shiftr k 8 - idx - 1) by lia. set (j := Z.shiftr k 8 - idx).
  unfold card_readings. destruct (decide (0 <= j - 1)) as [H1 | H1].
  - rewrite decide_True by lia. replace (Z.to_nat j) with (S (Z.to_nat (j - 1))) by lia. cbn [lookup list_lookup].
    destruct (_ ≫= _); [done |]. destruct f as [pts|]; cbn [fmap option_fmap option_map]; [| done]. cbn in Hp.
    rewrite thermal_file_get by done. by rewrite decide_False by (unfold j in *; lia).
  - destruct (decide (0 <= j)) as [H0 | H0].
    + replace (Z.to_nat j) with 0%nat by lia. destruct f as [pts|]; cbn; [| done]. cbn in Hp. rewrite thermal_file_get by done.
      by rewrite decide_True by (unfold j in *; lia).
    + destruct f as [pts|]; cbn; [| done]. cbn in Hp. rewrite thermal_file_get by done. by rewrite decide_False by (unfold j in *; lia).
Qed.

(** What comes after an unreadable line of a file is not read; the next file is. *)
Lemma unreadable_line idx pts bad rest res e : thermal_line idx bad (thermal_file idx (map state_line pts) res) = Raise e ->
  thermal_file idx (map state_line pts ++ bad :: rest) res = thermal_file idx (map state_line pts) res.
Proof.
  revert res. induction pts as [|[p t] pts IH]; intros res H; cbn [map app thermal_file] in *; [by rewrite H |].
  rewrite state_line_read in *. by apply IH.
Qed.

End StatsApi.
