(* ===== verification/StatsStream.v ===== *)
(** The statistics connection between server and client: the sessions of
    src/wfb_ng/protocols.py ([StatisticsMsgPackProtocol], [StatisticsJSONProtocol] and
    their factories) and the receiving [AntennaStat] of src/wfb_ng/cli.py, over the
    framing of Framing.  [msgpack] and [json] are parameters.  The last section
    follows statistics from the output of wfb_rx to the terminal. *)
From Stdlib Require Import ZArith Lia Bool.
From stdpp Require Import base list numbers gmap strings sorting.
From S2P Require Import Prelude PyNum PyText PyDict AntSel Framing Telemetry Process Config Cli StatsApi.

Module StatsStream.
Import Framing Telemetry.

#[local] Existing Instances Cli.item_le_dec Cli.lat_le_dec.

(** ** Drawing never fails on complete statistics *)

Section Total.
Context (c : Cli.client) (Hli : Cli.cl_log_interval c <> 0).

Lemma per_second_ok n : exists z, Cli.per_second c n = Ok z.
Proof using Hli. unfold Cli.per_second, AntSel.floordiv. destruct (Z.eqb_spec (Cli.cl_log_interval c) 0); [done |]. by eexists. Qed.

Lemma human_rate_ok r : PyNum.mag 800 r -> exists t, Cli.human_rate r = Ok t.
Proof using Type.
  intros Hr. unfold Cli.human_rate. destruct (PyNum.mul8_mag r 800 Hr) as (rate & -> & Hrate); [lia |]. cbn [mbind result_bind].
  destruct (PyNum.div1024_mag rate 857 Hrate) as (a & Ha & Hma); [lia |].
  assert (Hend : forall x modifier, PyNum.mag 857 x -> exists t,
    (if PyNum.lt x (PyNum.NInt 10) then Ok (Cli.fixed 1 x ++ 32 :: modifier)
     else z ← PyNum.trunc x; Ok (Cli.fmt_d 3 z ++ 32 :: modifier)) = Ok t).
  { intros x md Hx. destruct (PyNum.lt x (PyNum.NInt 10)); [by eexists |]. destruct x; try done. cbn. by eexists. }
  destruct (PyNum.le (PyNum.NInt 1000000) rate).
  - rewrite Ha. cbn [mbind result_bind]. destruct (PyNum.div1024_mag a 857 Hma) as (b & -> & Hmb); [lia |]. cbn. by apply Hend.
  - rewrite Ha. cbn. by apply Hend.
Qed.

Lemma rate_of_ok n : 0 <= n < 2 ^ 64 -> exists t, Cli.rate_of c n = Ok t.
Proof using Hli.
  intros Hn. unfold Cli.rate_of. destruct (PyNum.div_int_mag (1000 * n) (Cli.cl_log_interval c) Hli) as (r & -> & Hr).
  { assert (2 ^ 74 < 2 ^ 800) by (apply Z.pow_lt_mono_r; lia). change (2 ^ 74) with (1024 * 2 ^ 64) in *. lia. }
  cbn. by apply human_rate_ok.
Qed.

(** Every counter is there and fits 64 bits, as the radio programs print it. *)
Definition counters_ok (keys : list string) (p : AntSel.packet_stats) : Prop :=
  forall k, k ∈ keys -> exists v, PyDict.get p k = Some v /\ 0 <= v.1 < 2 ^ 64.

Lemma item_ok keys p k : counters_ok keys p -> bool_decide (k ∈ keys) = true ->
  exists v, Cli.str_item p k = Ok v /\ 0 <= v.1 < 2 ^ 64.
Proof using Type.
  intros Hc Hk. apply bool_decide_eq_true in Hk. destruct (Hc k Hk) as (v & Hv & Hb). exists v. split; [| done].
  unfold Cli.str_item, PyDict.item. by rewrite Hv.
Qed.

Lemma count_line_ok keys p label k warn : counters_ok keys p -> bool_decide (k ∈ keys) = true ->
  exists l, Cli.count_line c p label k warn = Ok l.
Proof using Hli.
  intros Hc Hk. unfold Cli.count_line. destruct (item_ok keys p k Hc Hk) as (v & -> & _). cbn [mbind result_bind].
  destruct (per_second_ok v.1) as (z & ->). by eexists.
Qed.

Lemma rx_row_ok tx uniq it : AntSel.well_formed it -> exists r, Cli.rx_row c tx uniq it = Ok r.
Proof using Hli.
  destruct it as [[k a] v]. intros [Hk Hv]. cbn in Hk, Hv. unfold Cli.rx_row.
  destruct k as [|f [|m [|b [|]]]]; try done. destruct v as [|v1 [|v2 [|v3 [|v4 [|v5 [|v6 [|v7 [|]]]]]]]]; try done.
  cbn [AntSel.unpack3 AntSel.unpack7 fst snd mbind result_bind AntSel.pkt_s].
  destruct (per_second_ok v1) as (z & ->). cbn [mbind result_bind].
  destruct (per_second_ok (Z.max (uniq - v1) 0)) as (z' & ->). by eexists.
Qed.

Lemma rx_rows_ok tx uniq ymax y l : Forall AntSel.well_formed l -> exists r, Cli.rx_rows c tx uniq ymax y l = Ok r.
Proof using Hli.
  intros Hl. revert y. induction Hl as [|it l Hit _ IH]; intros y; cbn [Cli.rx_rows]; [by eexists |].
  assert (Hd : exists d, (if y <? ymax then '(t, a) ← Cli.rx_row c tx uniq it; Ok [Cli.Draw true y 20 t a]
                          else _ ← AntSel.unpack3 it.1.1; _ ← AntSel.unpack7 it.2; Ok []) = Ok d).
  { destruct (y <? ymax).
    - destruct (rx_row_ok tx uniq it Hit) as ([t a] & ->). by eexists.
    - destruct it as [[k a] v]. destruct Hit as [Hk Hv]. cbn in *. destruct k as [|f [|m [|b [|]]]]; try done.
      destruct v as [|v1 [|v2 [|v3 [|v4 [|v5 [|v6 [|v7 [|]]]]]]]]; try done. by eexists. }
  destruct Hd as (d & ->). cbn [mbind result_bind]. destruct (IH (y + 1)) as (r & ->). by eexists.
Qed.

Ltac take_line := match goal with
  | Hc : counters_ok ?keys ?p |- context [Cli.count_line c ?p ?l ?k ?w] =>
      destruct (count_line_ok keys p l k w Hc ltac:(by vm_compute)) as (? & ->); cbn [mbind result_bind]
  end.

(** A complete receive report is always drawn. *)
Lemma rx_draws_ok ymax tx p ants se : counters_ok rx_keys p -> Forall AntSel.well_formed ants ->
  exists l, Cli.rx_draws c ymax tx p ants se = Ok l.
Proof using Hli.
  intros Hc Ha. unfold Cli.rx_draws. destruct (item_ok rx_keys p "uniq" Hc) as (u & -> & Hu); [by vm_compute |].
  cbn [mbind result_bind].
  assert (Hd : exists x, (if 0 <? u.1 then data ← Cli.str_item p "data"; PyNum.div (PyNum.NInt data.1) (PyNum.NInt u.1)
                          else Ok (PyNum.NInt 0)) = Ok x).
  { destruct (Z.ltb_spec 0 u.1); [| by eexists]. destruct (item_ok rx_keys p "data" Hc) as (v & -> & Hv); [by vm_compute |].
    cbn. destruct (PyNum.div_int_mag v.1 u.1) as (x & Hx & _); [lia | | by exists x].
    assert (2 ^ 64 < 2 ^ 800) by (apply Z.pow_lt_mono_r; lia). lia. }
  destruct Hd as (dv & ->). cbn [mbind result_bind]. do 7 take_line.
  destruct (item_ok rx_keys p "all_bytes" Hc) as (ab & -> & Hab); [by vm_compute |]. cbn [mbind result_bind].
  destruct (rate_of_ok ab.1 Hab) as (fin & ->). cbn [mbind result_bind].
  destruct (item_ok rx_keys p "out_bytes" Hc) as (ob & -> & Hob); [by vm_compute |]. cbn [mbind result_bind].
  destruct (rate_of_ok ob.1 Hob) as (fout & ->). cbn [mbind result_bind].
  destruct ants as [|a0 ants]; [by eexists |].
  destruct (rx_rows_ok tx u.1 ymax 3 (merge_sort Cli.item_le (a0 :: ants))) as (rows & ->); [| by eexists].
  by rewrite (merge_sort_Permutation Cli.item_le (a0 :: ants)).
Qed.

Lemma tx_rows_ok temps ymax y l : Forall (fun q => length q.2 = 5%nat) l -> exists r, Cli.tx_rows c temps ymax y l = Ok r.
Proof using Hli.
  intros Hl. revert y. induction Hl as [|[k v] l Hv _ IH]; intros y; cbn [Cli.tx_rows]; [by eexists |].
  cbn in Hv. destruct v as [|v1 [|v2 [|v3 [|v4 [|v5 [|]]]]]]; try done. cbn [Cli.unpack5 mbind result_bind].
  destruct (per_second_ok v1) as (z & Hz). destruct (IH (y + 1)) as (r & Hr).
  destruct (y <? ymax); [rewrite Hz |]; cbn [mbind result_bind]; rewrite Hr; by eexists.
Qed.

(** A complete transmit report is always drawn. *)
Lemma tx_draws_ok ymax p lat temps : counters_ok tx_keys p -> Forall (fun q => length q.2 = 5%nat) lat ->
  exists l, Cli.tx_draws c ymax p lat temps = Ok l.
Proof using Hli.
  intros Hc Hl. unfold Cli.tx_draws. do 5 take_line.
  destruct (item_ok tx_keys p "incoming_bytes" Hc) as (ib & -> & Hib); [by vm_compute |]. cbn [mbind result_bind].
  destruct (rate_of_ok ib.1 Hib) as (fin & ->). cbn [mbind result_bind].
  destruct (item_ok tx_keys p "injected_bytes" Hc) as (jb & -> & Hjb); [by vm_compute |]. cbn [mbind result_bind].
  destruct (rate_of_ok jb.1 Hjb) as (fout & ->). cbn [mbind result_bind].
  destruct lat as [|a0 lat]; [by eexists |].
  destruct (tx_rows_ok temps ymax 3 (merge_sort Cli.lat_le (a0 :: lat))) as (rows & ->); [| by eexists].
  by rewrite (merge_sort_Permutation Cli.lat_le (a0 :: lat)).
Qed.

End Total.

(** ** Sessions *)

(** [JSONAPIFactory]. *)
Record json_factory := JsonFactory { jf_is_cluster : bool; jf_profile : option PyText.text; jf_wlans : option (list PyText.text) }.

Section Sessions.
(** [msgpack.packb(..., use_bin_type=True)], [msgpack.unpackb], and [json.dumps] of
    the first message of a JSON session, which holds the whole configuration. *)
Context (packb : AntSel.stat_msg -> result bytes) (unpackb : bytes -> result AntSel.stat_msg).
Context (dumps_hello : json_factory -> Config.Config.settings -> result bytes).

(** [StatisticsMsgPackProtocol.send_stats]. *)
Definition msgpack_send (m : AntSel.stat_msg) : result bytes := b ← packb m; sendString b.

(** [StatisticsJSONProtocol.connectionMade] and [connectionLost]; the bytes written
    to the session are kept beside the selector, whose list of sessions it joins. *)
Definition json_connectionMade (f : json_factory) (st : Config.Config.settings) (ui : nat) : SE (AntSel.sel * list bytes) unit :=
  b ← se_lift (dumps_hello f st);
  _ ← se_modify (fun x => (x.1, x.2 ++ [line b]));
  se_modify (fun x => (AntSel.set_ui_sessions (AntSel.ui_sessions x.1 ++ [ui]) x.1, x.2)).

Definition json_connectionLost (ui : nat) : SE (AntSel.sel * list bytes) unit := fun x =>
  let '(s, r) := AntSel.ui_connectionLost ui x.1 in ((s, x.2), r).

(** [AntennaStat] with the title it set and what it drew, in order. *)
Record cli_conn := CliConn { cc_client : Cli.client; cc_titles : list string; cc_drawn : list (PyText.text * list Cli.draw) }.

Definition cli_stringReceived (string : bytes) : SE cli_conn unit := fun s =>
  match (m ← unpackb string; r ← Cli.stringReceived m (cc_client s); Ok (m, r)) with
  | Raise e => (s, Raise e)
  | Ok (m, (c, d)) =>
      (CliConn c (cc_titles s ++ match m with AntSel.CliTitleMsg t _ _ _ => [t] | _ => [] end)
         (cc_drawn s ++ match d with Some d => [d] | None => [] end), Ok tt)
  end.

(** [AntennaStat.MAX_LENGTH]. *)
Definition cli_limit : Z := 1024 * 1024.

#[global] Instance cli_framing : Framing string32 (string_ok cli_limit) := string_framing cli_limit ltac:(unfold cli_limit; lia).

(** What was sent to one session. *)
Definition to_session (ui : nat) (out : list (nat * AntSel.stat_msg)) : list AntSel.stat_msg :=
  map snd (filter (fun p => p.1 = ui) out).

Lemma to_session_app ui l1 l2 : to_session ui (l1 ++ l2) = to_session ui l1 ++ to_session ui l2.
Proof using Type. unfold to_session. by rewrite filter_app, map_app. Qed.

Lemma to_session_all ui (f : nat -> AntSel.stat_msg) l : NoDup l -> ui ∈ l -> to_session ui (map (fun u => (u, f u)) l) = [f ui].
Proof using Type.
  intros Hnd Hin. unfold to_session. induction Hnd as [|u l Hu Hnd IH]; [set_solver |]. cbn [map]. rewrite filter_cons. cbn [fst].
  destruct (decide (u = ui)) as [-> | Hne].
  - cbn. f_equal. clear -Hu. induction l as [|v l IH]; [done |]. cbn [map]. rewrite filter_cons. cbn [fst].
    destruct (decide (v = ui)) as [-> |]; [set_solver |]. apply IH. set_solver.
  - apply IH. set_solver.
Qed.

(** ** From the radio program's output to the terminal *)

(** The messages a session gets for the dumps of a receiver. *)
Fixpoint rx_messages (ts : Z) (id : string) (tx : option Z) (totals : option (list Z)) (ds : list rx_dump) : list AntSel.stat_msg :=
  match ds with
  | [] => []
  | d :: ds' =>
      let t := add_counters (d_counters d) totals in
      AntSel.RxMsg ts id tx (stats_of rx_keys (d_counters d) t) (ant_dict d) None :: rx_messages ts id tx (Some t) ds'
  end.

Section Screen.
Context (uir : nat -> AntSel.stat_msg -> option exn) (Hq : forall ui m, uir ui m = None) (now : nat -> Z).

Lemma read_dumps_sent ds : forall w k, Forall dump_ok ds -> ant w = [] -> session w = None -> ant_stat_cb w = Some k ->
  exists w' k', read_lines (H := sel_sink uir) now (concat (map dump_stats ds)) w = (w', Ok tt) /\ ant_stat_cb w' = Some k' /\
    bad_lines w' = bad_lines w /\ AntSel.ui_sessions k' = AntSel.ui_sessions k /\
    forall ui, NoDup (AntSel.ui_sessions k) -> ui ∈ AntSel.ui_sessions k ->
      to_session ui (AntSel.ui_out k') = to_session ui (AntSel.ui_out k) ++ rx_messages (now ui) (rx_id w) (AntSel.tx_sel k) (count_all w) ds.
Proof using Hq.
  induction ds as [|d ds IH]; intros w k Hds Ha Hse Hk.
  - exists w, k. split; [done |]. split; [done |]. split; [done |]. split; [done |]. intros. by rewrite app_nil_r.
  - apply Forall_cons in Hds as [Hd Hds]. cbn [map concat]. rewrite read_lines_app.
    pose proof (read_dump (H := sel_sink uir) now d w k Hd Ha Hk) as Hr. cbv zeta in Hr.
    set (t := add_counters (d_counters d) (count_all w)) in *. change (@sink_rx _ (sel_sink uir)) with (AntSel.update_rx_stats uir) in Hr.
    destruct (quiet_update uir now (rx_id w) (stats_of rx_keys (d_counters d) t) (ant_dict d) (session w) k Hq)
      as (k1 & Hu & _ & _ & _ & Htx & Hui & Hout).
    rewrite Hu in Hr. rewrite (Hr eq_refl).
    destruct (IH (RxAnt (rx_id w) [] (Some t) (session w) (Some k1) (bad_lines w)) k1 Hds eq_refl Hse eq_refl)
      as (w' & k' & -> & Hk' & Hb & Hs & Hm). exists w', k'. split; [done |]. split; [done |]. split; [done |].
    split; [congruence |]. intros ui Hnd Hin. rewrite Hm by (by rewrite Hui). rewrite Hout, to_session_app, to_session_all by done.
    cbn [rx_messages rx_id count_all]. rewrite Hse, Htx, <- app_assoc. done.
Qed.

(** The counters of a dump as the messages hold them. *)
Definition dump_counts (d : rx_dump) : Prop := Forall (fun n => 0 <= n < 2 ^ 64) (d_counters d).

Lemma stats_counters_ok d t : dump_ok d -> dump_counts d -> length t = 11%nat -> counters_ok rx_keys (stats_of rx_keys (d_counters d) t).
Proof using Type.
  intros Hd Hn Ht k Hk. apply list_elem_of_lookup in Hk as [i Hi]. pose proof (do_counters d Hd) as Hl.
  exists (nth i (d_counters d) 0, nth i t 0). split; [by apply stats_of_get, Hi; [apply rx_keys_nodup | |] |]. cbn.
  apply lookup_lt_Some in Hi. destruct (lookup_lt_is_Some_2 (d_counters d) i) as [x Hx]; [change (length rx_keys) with 11%nat in Hi; lia |].
  rewrite nth_lookup, Hx. cbn. by apply (Forall_lookup_1 _ _ _ _ Hn Hx).
Qed.

Lemma ant_dict_formed d : Forall AntSel.well_formed (ant_dict d).
Proof using Type. apply Forall_map, Forall_true. done. Qed.

(** What the client draws for one message of the receiver. *)
Definition drawn_for (c : Cli.client) (ymax : Z) (m : AntSel.stat_msg) (l : list Cli.draw) : Prop :=
  match m with
  | AntSel.RxMsg _ _ tx p ants se => Cli.rx_draws c ymax tx p ants se = Ok l
  | _ => False
  end.

(** A message whose frame is [f], and which the other side reads back. *)
Definition carried (m : AntSel.stat_msg) (f : bytes) : Prop :=
  exists b, packb m = Ok b /\ unpackb b = Ok m /\ string_ok cli_limit b /\ msgpack_send m = Ok f.

Lemma carried_frames ms fs : Forall2 carried ms fs ->
  exists bs, concat fs = stream string32 bs /\ Forall (string_ok cli_limit) bs /\ Forall2 (fun m b => unpackb b = Ok m) ms bs.
Proof using Type.
  induction 1 as [|m f ms fs (b & Hp & Hu & Hb & Hf) _ (bs & Hc & Hok & Hms)].
  - by exists [].
  - exists (b :: bs). split; [| split; [by constructor | by constructor]]. rewrite stream_cons, <- Hc. cbn. f_equal.
    unfold msgpack_send, sendString in Hf. rewrite Hp in Hf. cbn [mbind result_bind] in Hf.
    destruct (_ <? _); [by injection Hf as <- | done].
Qed.

Lemma client_draws c ymax id ts tx titles ds bs : forall totals drawn,
  Cli.cl_log_interval c <> 0 -> PyDict.get (Cli.cl_windows c) (PyText.lit id) = Some ymax ->
  Forall dump_ok ds -> Forall dump_counts ds -> (forall t, totals = Some t -> length t = 11%nat) ->
  Forall2 (fun m b => unpackb b = Ok m) (rx_messages ts id tx totals ds) bs ->
  exists ls, se_iter cli_stringReceived bs (CliConn c titles drawn) = (CliConn c titles (drawn ++ map (fun l => (PyText.lit id, l)) ls), Ok tt) /\
    Forall2 (drawn_for c ymax) (rx_messages ts id tx totals ds) ls.
Proof using Type.
  revert bs. induction ds as [|d ds IH]; intros bs totals drawn Hli Hw Hds Hdc Htot Hbs.
  - apply Forall2_nil_inv_l in Hbs as ->. exists []. cbn. by rewrite app_nil_r.
  - apply Forall_cons in Hds as [Hd Hds]. apply Forall_cons in Hdc as [Hc Hdc]. cbn [rx_messages] in *.
    set (t := add_counters (d_counters d) totals) in *.
    destruct (add_counters_spec (d_counters d) totals (do_counters d Hd) Htot) as [Hlen _]. fold t in Hlen.
    apply Forall2_cons_inv_l in Hbs as (b & bs' & Hb & Hbs & ->).
    destruct (rx_draws_ok c Hli ymax tx (stats_of rx_keys (d_counters d) t) (ant_dict d) None) as (l & Hl);
      [by apply stats_counters_ok | apply ant_dict_formed |].
    destruct (IH bs' (Some t) (drawn ++ [(PyText.lit id, l)]) Hli Hw Hds Hdc) as (ls & Hi & Hls); [by intros t' [= <-] | done |].
    exists (l :: ls). split; [| constructor; [exact Hl | exact Hls]]. cbn [se_iter]. unfold mbind at 1, SE_bind at 1. unfold cli_stringReceived at 1.
    rewrite Hb. cbn [mbind result_bind Cli.stringReceived cc_client]. rewrite Hw, Hl. cbn [mbind result_bind cc_titles cc_drawn].
    rewrite app_nil_r, Hi. cbn [map]. by rewrite <- app_assoc.
Qed.

(** C7: from the radio program's output to the terminal.  A client connects to
    the statistics port and is told its configuration; wfb_rx prints any number of
    dumps into its pipe; the process manager, the line parser, the selector and the
    session turn them into messages; the TCP stream of the session reaches the
    client.  However pipe and stream are cut into pieces, nothing raises, and
    the client shows the title, takes over the configuration it was told and draws,
    in the window of the receiver, one table per dump, in order, each the drawing
    of exactly the antenna table and the counters of that dump. *)
Theorem telemetry_to_screen {P B} {Hlr : Receiver line line_ok P} {Hsr : Receiver string32 (string_ok cli_limit) B}
    id k0 hello ui ds pipe c0 ymax :
  NoDup (AntSel.ui_sessions k0) -> ui ∉ AntSel.ui_sessions k0 -> to_session ui (AntSel.ui_out k0) = [] ->
  Forall dump_ok ds -> Forall dump_counts ds ->
  Forall (fun l => blen l <= line_limit) (concat (map dump_stats ds)) ->
  concat pipe = stream line (concat (map dump_stats ds)) ->
  AntSel.log_interval hello <> 0 -> PyDict.get (Cli.cl_windows c0) (PyText.lit id) = Some ymax ->
  let k := (AntSel.ui_connectionMade uir hello ui k0).1 in
  let c1 := Cli.Client (AntSel.is_cluster hello) (AntSel.log_interval hello) (Some (AntSel.temp_overheat_warning hello)) (Cli.cl_windows c0) in
  exists b1 w' g k',
    se_iter (Process.rx_outReceived (H := sel_sink uir) now) pipe (Process.init_rx (B := P) (Some k) id)
      = (Process.RxProc (Some (b1, w')) g DPending, Ok tt) /\
    bad_lines w' = [] /\ ant_stat_cb w' = Some k' /\
    to_session ui (AntSel.ui_out k') =
      AntSel.CliTitleMsg (default EmptyString (AntSel.cli_title hello)) (AntSel.is_cluster hello) (AntSel.log_interval hello)
        (AntSel.temp_overheat_warning hello) :: rx_messages (now ui) id (AntSel.tx_sel k0) None ds /\
    forall frames tcp, Forall2 carried (to_session ui (AntSel.ui_out k')) frames -> concat tcp = concat frames ->
    exists (b2 : B) ls,
      se_iter (rc_dataReceived cli_stringReceived) tcp (rc_init, CliConn c0 [] [])
        = ((b2, CliConn c1 [default EmptyString (AntSel.cli_title hello)] (map (fun l => (PyText.lit id, l)) ls)), Ok tt) /\
      Forall2 (drawn_for c1 ymax) (rx_messages (now ui) id (AntSel.tx_sel k0) None ds) ls.
Proof using Hq.
  intros Hnd Hnew Hout Hds Hdc Hlen Hpipe Hli Hwin k c1.
  assert (Hk : k = AntSel.set_ui_sessions (AntSel.ui_sessions k0 ++ [ui]) (AntSel.add_ui_out (ui, AntSel.CliTitleMsg
     (default EmptyString (AntSel.cli_title hello)) (AntSel.is_cluster hello) (AntSel.log_interval hello) (AntSel.temp_overheat_warning hello)) k0)).
  { unfold k, AntSel.ui_connectionMade, mbind, SE_bind, AntSel.send_stats. by rewrite Hq. }
  destruct (read_dumps_sent ds (RxAnt id [] None None (Some k) []) k Hds eq_refl eq_refl eq_refl)
    as (w' & k' & Hr & Hk' & Hb & _ & Hm).
  assert (Hl : Forall line_ok (concat (map dump_stats ds))).
  { apply Forall_and. split; [| done]. apply Forall_concat, Forall_map. eapply Forall_impl; [exact Hds |]. apply Process.dump_no_newline. }
  destruct (Process.rx_pipe (H := sel_sink uir) now pipe rc_init _ _ (rc_init, Process.Dbg (PyText.lit id) []) DPending _ rc_init_empty Hpipe Hl Hr)
    as (b1 & Hi & _).
  exists b1, w', (rc_init, Process.Dbg (PyText.lit id) []), k'. split; [exact Hi |]. split; [done |]. split; [done |].
  assert (Hsent : to_session ui (AntSel.ui_out k') = AntSel.CliTitleMsg (default EmptyString (AntSel.cli_title hello)) (AntSel.is_cluster hello)
    (AntSel.log_interval hello) (AntSel.temp_overheat_warning hello) :: rx_messages (now ui) id (AntSel.tx_sel k0) None ds).
  { rewrite Hm, Hk; cbn [AntSel.ui_sessions AntSel.set_ui_sessions AntSel.ui_out AntSel.add_ui_out AntSel.tx_sel rx_id count_all].
    - rewrite to_session_app, Hout. unfold to_session. rewrite filter_cons_True by done. done.
    - rewrite Hk. apply NoDup_app. split; [done |]. split; [set_solver | apply NoDup_singleton].
    - rewrite Hk. cbn. set_solver. }
  split; [exact Hsent |]. intros frames tcp Hfr Htcp. rewrite Hsent in Hfr. destruct (carried_frames _ _ Hfr) as (bs & Hbs & Hok & Hms).
  apply Forall2_cons_inv_l in Hms as (b0 & bs' & Hb0 & Hms & ->).
  destruct (client_draws c1 ymax id (now ui) (AntSel.tx_sel k0) [default EmptyString (AntSel.cli_title hello)] ds bs' None [] Hli Hwin Hds Hdc) as (ls & Hit & Hls);
    [done | done |].
  destruct (receive_chunks string32 (string_ok cli_limit) cli_stringReceived tcp rc_init (CliConn c0 [] [])
    (CliConn c1 [default EmptyString (AntSel.cli_title hello)] (map (fun l => (PyText.lit id, l)) ls)) (b0 :: bs') []) as (b2 & H2 & _).
  - rewrite rc_init_empty, app_nil_r. cbn [app]. by rewrite Htcp, Hbs.
  - rewrite rc_init_empty. apply partial_nil. apply _.
  - done.
  - apply partial_nil. apply _.
  - cbn [se_iter]. unfold mbind at 1, SE_bind at 1. unfold cli_stringReceived at 1. rewrite Hb0. cbn [mbind result_bind Cli.stringReceived cc_client cc_titles cc_drawn app].
    exact Hit.
  - exists b2, ls. done.
Qed.

End Screen.
End Sessions.

(** ** A concrete connection *)

Definition demo_hello : AntSel.cli_conf := AntSel.CliConf (Some "WFB-ng"%string) false 1000 60.
Definition demo_hello_msg : AntSel.stat_msg := AntSel.CliTitleMsg "WFB-ng" false 1000 60.
Definition demo_msgs : list AntSel.stat_msg := rx_messages (demo_now 4%nat) "video rx" None None [demo_dump1; demo_dump2].
Definition demo_client : Cli.client := Cli.Client true 500 None [(PyText.lit "video rx", 10)].

(** A serialiser for these three messages: their number. *)
Definition demo_pack (m : AntSel.stat_msg) : result bytes :=
  match m with
  | AntSel.RxMsg _ _ _ ps _ _ => Ok [(default (0, 0) (PyDict.get ps "fec_rec")).1]
  | _ => Ok [0; 0]
  end.
Definition demo_unpack (b : bytes) : result AntSel.stat_msg :=
  match b with
  | [n] => of_option ValueError (if n =? 1 then demo_msgs !! 0%nat else demo_msgs !! 1%nat)
  | _ => Ok demo_hello_msg
  end.
Definition demo_strings : list bytes := [string32 [0; 0]; string32 [1]; string32 [4]].

Lemma demo_carried : Forall2 (carried demo_pack demo_unpack) (demo_hello_msg :: demo_msgs) demo_strings.
Proof.
  repeat constructor; eexists; (split; [vm_compute; reflexivity |]); (split; [vm_compute; reflexivity |]);
    (split; [vm_compute; discriminate | vm_compute; reflexivity]).
Qed.

Lemma telemetry_to_screen_witness : exists (b : bytes) ls, length ls = 2%nat /\
  se_iter (rc_dataReceived (Receiver := buffer string32 (string_ok cli_limit)) (cli_stringReceived demo_unpack))
    (Process.thirds 10 (concat demo_strings)) (rc_init, CliConn demo_client [] [])
  = ((b, CliConn (Cli.Client false 1000 (Some 60) (Cli.cl_windows demo_client)) ["WFB-ng"%string]
        (map (fun l => (PyText.lit "video rx", l)) ls)), Ok tt).
Proof.
  destruct (telemetry_to_screen demo_pack demo_unpack demo_quiet (fun _ _ => eq_refl) demo_now
    (P := bytes) (B := bytes) (Hlr := buffer line line_ok) (Hsr := buffer string32 (string_ok cli_limit))
    "video rx" demo_sel demo_hello 4%nat [demo_dump1; demo_dump2]
    (Process.thirds 400 (stream line (concat (map dump_stats [demo_dump1; demo_dump2])))) demo_client 10)
    as (b1 & w' & g & k' & _ & _ & _ & Hms & Hall).
  - apply (bool_decide_unpack _). vm_compute. exact I.
  - apply (bool_decide_unpack _). vm_compute. exact I.
  - reflexivity.
  - apply Forall_cons. split; [exact demo_dump1_ok |]. apply Forall_singleton. exact demo_dump2_ok.
  - repeat constructor; vm_compute; try discriminate; reflexivity.
  - apply (bool_decide_unpack _). vm_compute. exact I.
  - vm_compute. reflexivity.
  - discriminate.
  - reflexivity.
  - destruct (Hall demo_strings (Process.thirds 10 (concat demo_strings))) as (b2 & ls & Hr & Hls).
    + rewrite Hms. exact demo_carried.
    + vm_compute. reflexivity.
    + exists b2, ls. split; [| exact Hr]. apply Forall2_length in Hls. cbn in Hls. lia.
Defined.

End StatsStream.
