(* ===== verification/Version.v ===== *)
(** The build scripts: src/version.py, which turns the time of the last commit
    and the branch into a version number, and src/setup.py: the check of the
    environment, the generated site.cfg, the long description, the installed
    files and the arguments [setup] is called with.  [time.gmtime] and [datetime] are modelled on the proleptic
    Gregorian calendar, for times the C library can represent. *)
From Stdlib Require Import ZArith Lia Bool.
From stdpp Require Import base list numbers strings.
From S2P Require Import Prelude PyDict PyText Config.

Module Version.
Import PyText Config.

(** ** The calendar *)

(** A year of 366 days. *)
Definition is_leap (y : Z) : bool := (y mod 4 =? 0) && (negb (y mod 100 =? 0) || (y mod 400 =? 0)).

Definition days_before_year (y : Z) : Z := 365 * (y - 1) + (y - 1) / 4 - (y - 1) / 100 + (y - 1) / 400.

Definition month_starts : list Z := [0; 0; 31; 59; 90; 120; 151; 181; 212; 243; 273; 304; 334; 365].
Definition days_before_month (leap : bool) (m : Z) : Z :=
  nth (Z.to_nat m) month_starts 0 + (if (2 <? m) && leap then 1 else 0).

(** [date.toordinal]: day 1 is the first of January of year 1. *)
Definition toordinal (y m d : Z) : Z := days_before_year y + days_before_month (is_leap y) m + d.

(** The month and day of day [n] of a year, counted from 0. *)
Definition month_day (leap : bool) (n : Z) : Z * Z :=
  let month := Z.shiftr (n + 50) 5 in
  let month := if n <? days_before_month leap month then month - 1 else month in
  (month, n - days_before_month leap month + 1).

(** [date.fromordinal]. *)
Definition fromordinal (ord : Z) : Z * Z * Z :=
  let n := ord - 1 in
  let n400 := n / 146097 in let n := n mod 146097 in
  let n100 := n / 36524 in let n := n mod 36524 in
  let n4 := n / 1461 in let n := n mod 1461 in
  let n1 := n / 365 in let n := n mod 365 in
  let year := 400 * n400 + 1 + 100 * n100 + 4 * n4 + n1 in
  if (n1 =? 4) || (n100 =? 4) then (year - 1, 12, 31)
  else
    let leap := (n1 =? 3) && (negb (n4 =? 24) || (n100 =? 3)) in
    let '(m, d) := month_day leap n in (year, m, d).

Record tm := Tm { tm_year : Z; tm_mon : Z; tm_mday : Z; tm_hour : Z; tm_min : Z; tm_sec : Z }.

Definition epoch : Z := 719163.

Definition gmtime (ts : Z) : tm :=
  let '(y, m, d) := fromordinal (epoch + ts / 86400) in
  let s := ts mod 86400 in
  Tm y m d (s / 3600) (s mod 3600 / 60) (s mod 60).

(** ** [version.py] *)

(** The first day of a month, as [datetime(year, month, 1)] accepts it. *)
Definition first_of_month (year month : Z) : result Z :=
  if (1 <=? year) && (year <=? 9999) && (1 <=? month) && (month <=? 12) then Ok (toordinal year month 1) else Raise ValueError.

(** The days from [first] to the date of [t], as [datetime] subtracts them. *)
Definition delta_days (t : tm) (first : Z) : result Z :=
  if (1 <=? tm_year t) && (tm_year t <=? 9999) then Ok (toordinal (tm_year t) (tm_mon t) (tm_mday t) - first) else Raise ValueError.

(** The seconds of the day. *)
Definition day_seconds (t : tm) : Z := tm_hour t * 3600 + tm_min t * 60 + tm_sec t.

Definition dotted_version (zs : list Z) : text := join 46 (map print_d zs).

Definition release_of (branch : text) : result (Z * Z) :=
  part ← of_option IndexError (split 45 branch !! 1%nat);
  release ← result_map (int_of 10) (split 46 part);
  match release with r0 :: r1 :: _ => Ok (r0, r1) | _ => Raise IndexError end.

Definition starts_with (p l : text) : bool := bool_decide (take (length p) l = p).

(** What is printed, without the newline. *)
Definition version (ts : Z) (branch : text) : result text :=
  let t := gmtime ts in
  if starts_with (lit "release-") branch then
    '(r0, r1) ← release_of branch;
    first ← first_of_month (2000 + r0) r1;
    days ← delta_days t first;
    Ok (dotted_version [r0; r1] ++ 46 :: (if days <? 0 then lit "0." ++ print_d (999 + days) else print_d (days + 1)) ++ 46 :: print_d (day_seconds t))
  else Ok (dotted_version [tm_year t - 2000; tm_mon t; tm_mday t; day_seconds t]).

Definition version_main (argv : list text) : result text :=
  match argv with
  | [ts] => _ ← int_of 10 ts; Raise IndexError
  | ts :: branch :: _ => z ← int_of 10 ts; version z branch
  | [] => Raise IndexError
  end.

(** ** [setup.py] *)

(** The environment: both variables must be set and not empty. *)
Definition build_env (version commit : option text) : result (text * text) :=
  match version, commit with
  | Some ((_ :: _) as v), Some ((_ :: _) as c) => Ok (v, c)
  | _, _ => Raise (Exception_ "AssertionError")
  end.

(** [_long_description]. *)
Fixpoint long_description (start : bool) (lines : list text) : list text :=
  match lines with
  | [] => []
  | line :: lines' =>
      if starts_with (lit "Main features:") line then line :: long_description true lines'
      else if starts_with (lit "#") line then []
      else if start then line :: long_description true lines' else long_description false lines'
  end.

(** The sections of the generated site.cfg, with [repr] of the two strings. *)
Definition site_cfg (repr : text -> text) (v c : text) : list (text * list (text * text)) :=
  [(lit "common", [(lit "version", repr v); (lit "commit", repr c)])].

(** Its text. *)
Definition site_cfg_text (repr : text -> text) (v c : text) : text :=
  lit "# Don't make any changes here, use local.cfg instead!" ++ 10 :: 10 :: lit "[common]" ++ 10 ::
  lit "version = " ++ repr v ++ 10 :: lit "commit = " ++ repr c ++ [10].

(** The console scripts. *)
Definition console_scripts : list (string * string) :=
  [("wfb-cli", "wfb_ng.cli:main"); ("wfb-test-latency", "wfb_ng.latency_test:main");
   ("wfb-server", "wfb_ng.server:main"); ("wfb-log-parser", "wfb_ng.log_parser:main")].

(** The files installed, unless OMIT_DATA_FILES is set. *)
Definition data_files (omit : option text) : list (string * list string) :=
  match omit with
  | Some (_ :: _) => []
  | _ =>
    [("/usr/bin", ["wfb_tx"; "wfb_rx"; "wfb_keygen"; "wfb_tx_cmd"; "wfb_rtsp"; "scripts/wfb-cli-x11"; "scripts/wfb-nics";
                   "scripts/bind/init_gs.sh"; "scripts/bind/init_drone.sh"; "scripts/bind/wfb_bind_client.sh"; "scripts/bind/wfb_bind_server.sh"]);
     ("/lib/systemd/system", ["scripts/systemd/wifibroadcast.service"; "scripts/systemd/wifibroadcast@.service";
                              "scripts/systemd/wfb-cluster.service"; "scripts/systemd/wfb-cluster-node.service";
                              "scripts/systemd/wfb-cluster-manager@.service"; "scripts/systemd/rtsp@.service"]);
     ("/etc/default", ["scripts/default/wifibroadcast"; "scripts/default/wifibroadcast.drone_bind"; "scripts/default/wifibroadcast.gs_bind"]);
     ("/etc/sysctl.d", ["scripts/sysctl/98-wifibroadcast.conf"]);
     ("/etc/logrotate.d", ["scripts/logrotate/wifibroadcast"])]
  end.

(** The keyword arguments of [setup]. *)
Record setup_args := SetupArgs {
  su_url : string; su_name : string; su_version : text; su_packages : list text; su_zip_safe : bool;
  su_entry_points : list (string * list (string * string)); su_package_data : list (string * list string);
  su_data_files : list (string * list string); su_keywords : string; su_author : string; su_author_email : string;
  su_description : string; su_long_description : text; su_long_description_content_type : string; su_license : string
}.

(** The script: it stops without a version or a commit, writes site.cfg, then
    calls [setup].  [find_packages] gets the patterns it leaves out; [readme]
    are the lines of README.md. *)
Definition setup_py (repr : text -> text) (find_packages : list string -> list text) (readme : list text)
    (version commit omit : option text) : result (text * setup_args) :=
  '(v, c) ← build_env version commit;
  Ok (site_cfg_text repr v c,
      SetupArgs "http://wfb-ng.org" "wfb_ng" v (find_packages ["*.tests"; "*.tests.*"; "tests.*"; "tests"]%string) false
        [("console_scripts"%string, console_scripts)] [("wfb_ng.conf", ["master.cfg"; "site.cfg"])]%string (data_files omit)
        "wfb-ng, wifibroadcast" "Vasily Evseenko" "svpcom@p2ptech.org" "Long-range packet radio link based on raw WiFi radio"
        (concat (long_description false readme)) "text/markdown" "GPLv3").

(** [DebianInfo.__init__]: the keyword arguments passed on to stdeb's class,
    which is replaced only when stdeb can be imported. *)
Definition debian_info (stdeb : bool) (kwargs : PyDict.dict string cval) : PyDict.dict string cval :=
  if stdeb then PyDict.set kwargs "has_ext_modules"%string (CBool true) else kwargs.

(** ** The calendar is right *)

Lemma month_day_spec leap n : 0 <= n < 365 + (if leap : bool then 1 else 0) ->
  let '(m, d) := month_day leap n in 1 <= m <= 12 /\ 1 <= d <= days_before_month leap (m + 1) - days_before_month leap m /\
    days_before_month leap m + d = n + 1.
Proof.
  intros Hn.
  assert (Hall : forallb (fun n => let '(m, d) := month_day leap n in
    (1 <=? m) && (m <=? 12) && (1 <=? d) && (d <=? days_before_month leap (m + 1) - days_before_month leap m)
    && (days_before_month leap m + d =? n + 1)) (seqZ 0 (365 + if leap then 1 else 0)) = true) by (destruct leap; vm_compute; reflexivity).
  rewrite forallb_forall in Hall. specialize (Hall n). rewrite <- list_elem_of_In, elem_of_seqZ in Hall. specialize (Hall ltac:(lia)).
  destruct (month_day leap n) as [m d]. to_prop. lia.
Qed.

Lemma month_starts_mono leap a b : 1 <= a -> a <= b -> b <= 13 -> days_before_month leap a <= days_before_month leap b.
Proof.
  intros Ha Hab Hb.
  assert (Hall : forallb (fun a => forallb (fun b => negb (a <=? b) || (days_before_month leap a <=? days_before_month leap b)) (seqZ 1 13)) (seqZ 1 13) = true)
    by (destruct leap; vm_compute; reflexivity).
  rewrite forallb_forall in Hall. specialize (Hall a). rewrite <- list_elem_of_In, elem_of_seqZ, forallb_forall in Hall.
  specialize (Hall ltac:(lia) b). rewrite <- list_elem_of_In, elem_of_seqZ in Hall. specialize (Hall ltac:(lia)). lia.
Qed.

(** A date that exists. *)
Definition valid_date (y m d : Z) : Prop :=
  1 <= m <= 12 /\ 1 <= d <= days_before_month (is_leap y) (m + 1) - days_before_month (is_leap y) m.

(** Years in the cycle of 400. *)
Lemma year_cycle a b c e : 0 <= b <= 3 -> 0 <= c <= 24 -> 0 <= e <= 3 ->
  let y := 400 * a + 1 + 100 * b + 4 * c + e in
  days_before_year y = 146097 * a + 36524 * b + 1461 * c + 365 * e /\
  is_leap y = (e =? 3) && (negb (c =? 24) || (b =? 3)).
Proof.
  intros Hb Hc He y. unfold days_before_year, is_leap.
  assert (H4 : (y - 1) / 4 = 100 * a + 25 * b + c) by (unfold y; Z.to_euclidean_division_equations; lia).
  assert (H100 : (y - 1) / 100 = 4 * a + b) by (unfold y; Z.to_euclidean_division_equations; lia).
  assert (H400 : (y - 1) / 400 = a) by (unfold y; Z.to_euclidean_division_equations; lia).
  split; [unfold y in *; lia |].
  assert (M4 : y mod 4 = (e + 1) mod 4) by (unfold y; Z.to_euclidean_division_equations; lia).
  assert (M100 : y mod 100 = (4 * c + e + 1) mod 100) by (unfold y; Z.to_euclidean_division_equations; lia).
  assert (M400 : y mod 400 = (100 * b + 4 * c + e + 1) mod 400) by (unfold y; Z.to_euclidean_division_equations; lia).
  rewrite M4, M100, M400. apply eq_true_iff_eq. Z.to_euclidean_division_equations. lia.
Qed.

Lemma fromordinal_spec ord y m d : fromordinal ord = (y, m, d) -> toordinal y m d = ord /\ valid_date y m d.
Proof.
  unfold fromordinal. set (n := ord - 1). set (a := n / 146097). set (r1 := n mod 146097). set (b := r1 / 36524). set (r2 := r1 mod 36524).
  set (c := r2 / 1461). set (r3 := r2 mod 1461). set (e := r3 / 365). set (r4 := r3 mod 365). cbv zeta.
  assert (Ha : n = 146097 * a + r1 /\ 0 <= r1 < 146097) by (unfold a, r1; Z.to_euclidean_division_equations; lia).
  assert (Hb : r1 = 36524 * b + r2 /\ 0 <= r2 < 36524) by (unfold b, r2; Z.to_euclidean_division_equations; lia).
  assert (Hc : r2 = 1461 * c + r3 /\ 0 <= r3 < 1461) by (unfold c, r3; Z.to_euclidean_division_equations; lia).
  assert (He : r3 = 365 * e + r4 /\ 0 <= r4 < 365) by (unfold e, r4; Z.to_euclidean_division_equations; lia).
  assert (Hord : ord = n + 1) by (unfold n; lia). clearbody n a r1 b r2 c r3 e r4.
  destruct ((e =? 4) || (b =? 4)) eqn:E.
  - intros [= <- <- <-]. unfold toordinal, valid_date.
    assert (Hy : exists b' c', 400 * a + 1 + 100 * b + 4 * c + e - 1 = 400 * a + 1 + 100 * b' + 4 * c' + 3 /\
      0 <= b' <= 3 /\ 0 <= c' <= 24 /\ (c' <> 24 \/ b' = 3) /\ 36524 * b' + 1461 * c' + 1460 = r1).
    { destruct (Z.eq_dec b 4); [exists 3, 24; lia | exists b, c; lia]. }
    destruct Hy as (b' & c' & -> & Hb' & Hc' & Hleap & Hr). destruct (year_cycle a b' c' 3 Hb' Hc' ltac:(lia)) as [-> ->].
    replace (_ && _) with true by lia. change (days_before_month true 12) with 335. change (days_before_month true (12 + 1)) with 366. lia.
  - to_prop. destruct (year_cycle a b c e) as [Hd Hl]; [lia | lia | lia |].
    pose proof (month_day_spec ((e =? 3) && (negb (c =? 24) || (b =? 3))) r4) as Hm. destruct (month_day _ r4) as [m0 d0].
    intros [= <- <- <-]. unfold toordinal, valid_date. rewrite Hd, Hl. destruct Hm as (H1 & H2 & H3); [destruct (_ && _); lia |]. lia.
Qed.

Lemma next_year y : days_before_year (y + 1) = days_before_year y + 365 + (if is_leap y then 1 else 0).
Proof.
  unfold days_before_year, is_leap. replace (y + 1 - 1) with y by lia.
  assert (H : forall k, 0 < k -> y / k = (y - 1) / k + (if y mod k =? 0 then 1 else 0)).
  { intros k Hk. destruct (Z.eqb_spec (y mod k) 0) as [E | E].
    - apply Z.mod_divide in E as [q ->]; [| lia]. rewrite Z.div_mul by lia. replace (q * k - 1) with (k - 1 + (q - 1) * k) by ring.
      rewrite Z.div_add, Z.div_small by lia. lia.
    - rewrite Z.add_0_r. pose proof (Z.mod_pos_bound y k Hk). pose proof (Z.div_mod y k ltac:(lia)).
      apply (Z.div_unique_pos (y - 1) k (y / k) (y mod k - 1)); lia. }
  rewrite (H 4), (H 100), (H 400) by lia. 
  assert (y mod 100 = 0 -> y mod 4 = 0) by (Z.to_euclidean_division_equations; lia).
  assert (y mod 400 = 0 -> y mod 100 = 0) by (Z.to_euclidean_division_equations; lia).
  destruct (Z.eqb_spec (y mod 4) 0), (Z.eqb_spec (y mod 100) 0), (Z.eqb_spec (y mod 400) 0); cbn [andb orb negb]; lia.
Qed.

Lemma years_mono y y' : y <= y' -> days_before_year y <= days_before_year y'.
Proof. intros H. unfold days_before_year. Z.to_euclidean_division_equations. lia. Qed.

(** Lexicographic order of number lists, as package versions are compared. *)
Fixpoint precedes (a b : list Z) : Prop :=
  match a, b with
  | x :: a', y :: b' => x < y \/ (x = y /\ precedes a' b')
  | [], _ :: _ => True
  | _, [] => False
  end.

Lemma toordinal_mono y m d y' m' d' : valid_date y m d -> valid_date y' m' d' -> precedes [y; m; d] [y'; m'; d'] ->
  toordinal y m d < toordinal y' m' d'.
Proof.
  unfold valid_date, toordinal. intros [Hm Hd] [Hm' Hd']. cbn [precedes].
  intros [Hy | [-> [Hlt | [-> [Hlt | [_ []]]]]]]; [| | lia].
  - pose proof (next_year y). pose proof (years_mono (y + 1) y' ltac:(lia)).
    pose proof (month_starts_mono (is_leap y) (m + 1) 13 ltac:(lia) ltac:(lia) ltac:(lia)) as H13.
    pose proof (month_starts_mono (is_leap y') 1 m' ltac:(lia) ltac:(lia) ltac:(lia)) as H1.
    assert (days_before_month (is_leap y') 1 = 0) by (by destruct (is_leap y')).
    assert (days_before_month (is_leap y) 13 = 365 + if is_leap y then 1 else 0) by (by destruct (is_leap y)). lia.
  - pose proof (month_starts_mono (is_leap y') (m + 1) m' ltac:(lia) ltac:(lia) ltac:(lia)). lia.
Qed.

(** Later days have later dates. *)
Lemma date_mono o o' y m d y' m' d' : fromordinal o = (y, m, d) -> fromordinal o' = (y', m', d') -> o < o' -> precedes [y; m; d] [y'; m'; d'].
Proof.
  intros [E V]%fromordinal_spec [E' V']%fromordinal_spec Ho.
  destruct (decide (y = y' /\ m = m' /\ d = d')) as [(-> & -> & ->) | Hne]; [lia |].
  assert (Hor : precedes [y; m; d] [y'; m'; d'] \/ precedes [y'; m'; d'] [y; m; d]) by (cbn; lia).
  destruct Hor as [H | H]; [done |]. pose proof (toordinal_mono _ _ _ _ _ _ V' V H). lia.
Qed.

Lemma day_seconds_gmtime ts : day_seconds (gmtime ts) = ts mod 86400.
Proof.
  unfold day_seconds, gmtime. destruct (fromordinal _) as [[y m] d]. cbn [tm_hour tm_min tm_sec].
  pose proof (Z.mod_pos_bound ts 86400 ltac:(lia)). set (s := ts mod 86400) in *. clearbody s. Z.to_euclidean_division_equations. lia.
Qed.

(** ** Versions *)

(** The numbers of a version. *)
Definition version_parts (ts : Z) (branch : text) : result (list Z) :=
  let t := gmtime ts in
  if starts_with (lit "release-") branch then
    '(r0, r1) ← release_of branch;
    first ← first_of_month (2000 + r0) r1;
    days ← delta_days t first;
    Ok (if days <? 0 then [r0; r1; 0; 999 + days; day_seconds t] else [r0; r1; days + 1; day_seconds t])
  else Ok [tm_year t - 2000; tm_mon t; tm_mday t; day_seconds t].

Lemma version_text ts branch v : version ts branch = Ok v -> exists zs, version_parts ts branch = Ok zs /\ zs <> [] /\ v = dotted_version zs.
Proof.
  unfold version, version_parts. destruct (starts_with _ branch).
  - intros ([r0 r1] & -> & (first & Hf & (days & Hd & H)%bind_ok)%bind_ok)%bind_ok. injection H as <-. cbn [mbind result_bind]. rewrite Hf. cbn [mbind result_bind].
    rewrite Hd. cbn [mbind result_bind]. eexists. split; [done |]. unfold dotted_version. destruct (days <? 0); (split; [done |]); cbn [map join];
      rewrite <- !app_assoc; cbn [app]; rewrite <- ?app_assoc; reflexivity.
  - intros [= <-]. eexists. by split.
Qed.

Lemma print_d_no_dot z : 46 ∉ print_d z.
Proof.
  assert (H : forall n, 0 <= n -> 46 ∉ print_u n).
  { intros n Hn. unfold print_u. destruct (print_nat_spec 10 n ltac:(lia) Hn) as (ds & -> & _ & Hds & _). intros Hin.
    apply list_elem_of_In, in_map_iff in Hin as (x & Hx & Hin). rewrite Forall_forall in Hds. specialize (Hds x (proj2 (list_elem_of_In _ _) Hin)).
    unfold digit_char in Hx. destruct (Z.ltb_spec x 10); lia. }
  unfold print_d. destruct (Z.ltb_spec z 0); [| by apply H]. rewrite not_elem_of_cons. split; [done |]. apply H. lia.
Qed.

Lemma dotted_read zs : zs <> [] -> result_map (int_of 10) (split 46 (dotted_version zs)) = Ok zs.
Proof.
  intros Hne. unfold dotted_version. rewrite split_join; [apply ints_printed | by destruct zs |].
  apply List.Forall_forall. intros p (z & <- & _)%in_map_iff. apply print_d_no_dot.
Qed.

Lemma parts_mono ts1 ts2 branch c1 c2 : ts1 < ts2 -> version_parts ts1 branch = Ok c1 -> version_parts ts2 branch = Ok c2 -> precedes c1 c2.
Proof.
  intros Hts. unfold version_parts. rewrite !day_seconds_gmtime.
  assert (Hday : ts1 / 86400 < ts2 / 86400 \/ (ts1 / 86400 = ts2 / 86400 /\ ts1 mod 86400 < ts2 mod 86400))
    by (Z.to_euclidean_division_equations; lia).
  unfold gmtime. destruct (fromordinal (epoch + ts1 / 86400)) as [[y1 m1] d1] eqn:E1, (fromordinal (epoch + ts2 / 86400)) as [[y2 m2] d2] eqn:E2.
  cbn [tm_year tm_mon tm_mday]. destruct (starts_with _ branch).
  - intros ([r0 r1] & Hr & (first & Hf & (days1 & Hd1 & H1)%bind_ok)%bind_ok)%bind_ok. rewrite Hr. cbn [mbind result_bind]. rewrite Hf. cbn [mbind result_bind].
    intros (days2 & Hd2 & H2)%bind_ok. unfold delta_days in *. cbn [tm_year tm_mon tm_mday] in *.
    destruct (_ && _) in Hd1; [| done]. destruct (_ && _) in Hd2; [| done]. injection Hd1 as Hd1. injection Hd2 as Hd2.
    apply fromordinal_spec in E1 as [E1 _], E2 as [E2 _]. assert (Hlt : days1 < days2 \/ (days1 = days2 /\ ts1 mod 86400 < ts2 mod 86400)) by lia.
    injection H1 as <-. injection H2 as <-. destruct (Z.ltb_spec days1 0), (Z.ltb_spec days2 0); cbn [precedes]; lia.
  - intros [= <-] [= <-]. destruct Hday as [Hday | [Hday Hsec]].
    + pose proof (date_mono _ _ _ _ _ _ _ _ E1 E2 ltac:(lia)) as H. cbn [precedes] in *. lia.
    + rewrite Hday, E2 in E1. injection E1 as -> -> ->. cbn [precedes]. lia.
Qed.

(** Versions grow with the commits.  On one branch, a later commit never gets
    a version that sorts before or equal to that of an earlier one, to the second:
    the printed version numbers, read back number by number, are in strict
    lexicographic order, on release branches across the change of form at the first
    day of the release month, on other branches across days, months, leap years
    and centuries. *)
Theorem versions_increase ts1 ts2 branch v1 v2 : ts1 < ts2 -> version ts1 branch = Ok v1 -> version ts2 branch = Ok v2 ->
  exists c1 c2, result_map (int_of 10) (split 46 v1) = Ok c1 /\ result_map (int_of 10) (split 46 v2) = Ok c2 /\ precedes c1 c2.
Proof.
  intros Hts (c1 & P1 & N1 & ->)%version_text (c2 & P2 & N2 & ->)%version_text. exists c1, c2.
  split_and!; [by apply dotted_read | by apply dotted_read | by eapply parts_mono].
Qed.

(** The last second of a leap day and the first of March, a release before and in its month. *)
Example version_dev : version 1709251199 (lit "master") = Ok (lit "24.2.29.86399").
Proof. vm_compute. reflexivity. Qed.
Example version_release : version 1709251199 (lit "release-24.3") = Ok (lit "24.3.0.998.86399").
Proof. vm_compute. reflexivity. Qed.

Lemma versions_increase_witness : exists c1 c2,
  result_map (int_of 10) (split 46 (lit "24.3.0.998.86399")) = Ok c1 /\ result_map (int_of 10) (split 46 (lit "24.3.1.0")) = Ok c2 /\ precedes c1 c2.
Proof. apply (versions_increase 1709251199 1709251200 (lit "release-24.3")); [lia | vm_compute; reflexivity ..]. Defined.

(** ** The generated configuration *)

Section Site.
Context (literal_eval : text -> result cval) (format_value : text -> cval -> result (text * text)).
Context (format_self : settings -> text -> result (text * text)) (repr : text -> text).
(** [ast.literal_eval] reads back what [repr] prints. *)
Context (literal_repr : forall s, literal_eval (repr s) = Ok (CStr s)).

Lemma interpolate_whole fuel used st s : 37 ∉ s -> (length s < fuel)%nat -> interpolate format_value format_self fuel used st s = Ok s.
Proof using Type.
  revert fuel. induction s as [|c s IH]; intros fuel Hs Hf; [by destruct fuel |]. destruct fuel as [|fuel]; [cbn in Hf; lia |].
  apply not_elem_of_cons in Hs as [Hc Hs]. cbn [interpolate]. destruct (Z.eqb_spec c 37); [congruence |]. cbn [negb].
  rewrite IH by (done || cbn in Hf; lia). done.
Qed.

(** Reading the generated file after any settings gives the version and the
    commit of the build, whatever they were before. *)
Lemma site_cfg_spec st v c : 37 ∉ v -> 37 ∉ c -> exists st',
  set_sections literal_eval format_value format_self st true (site_cfg repr v c) = Ok st' /\
  lookup st' (lit "common") (lit "version") = Some (CStr v) /\ lookup st' (lit "common") (lit "commit") = Some (CStr c).
Proof using literal_repr.
  intros Hv Hc. unfold site_cfg. cbn [set_sections set_items]. unfold eval_item. rewrite !literal_repr. cbn [mbind result_bind].
  rewrite (interpolate_whole _ _ _ v) by (done || lia). cbn [mbind result_bind].
  rewrite (interpolate_whole _ _ _ c) by (done || lia). cbn [mbind result_bind]. eexists. split; [done |]. unfold lookup.
  rewrite !PyDict.get_set_eq. cbn [mbind option_bind]. rewrite PyDict.get_set_ne by (vm_compute; discriminate). by rewrite !PyDict.get_set_eq.
Qed.

(** A build that runs gives the package and the configuration it ships the same
    version: the settings read with the generated site.cfg say what [setup] was
    told. *)
Theorem setup_version_agrees find_packages readme version commit omit txt a st :
  setup_py repr find_packages readme version commit omit = Ok (txt, a) -> 37 ∉ su_version a ->
  (forall c, commit = Some c -> 37 ∉ c) ->
  exists c st', commit = Some c /\ txt = site_cfg_text repr (su_version a) c /\
    set_sections literal_eval format_value format_self st true (site_cfg repr (su_version a) c) = Ok st' /\
    lookup st' (lit "common") (lit "version") = Some (CStr (su_version a)).
Proof using literal_repr.
  unfold setup_py, build_env. intros H Hv Hc. destruct version as [[|v0 v]|]; [done | | done]. destruct commit as [[|c0 c]|]; [done | | done].
  cbn [mbind result_bind] in H. injection H as <- <-. cbn [su_version] in *. exists (c0 :: c).
  destruct (site_cfg_spec st (v0 :: v) (c0 :: c) Hv (Hc _ eq_refl)) as (st' & H1 & H2 & _). by exists st'.
Qed.

End Site.

(** ** The long description *)

(** The description is the part of the README from its line of features up to
    the next heading. *)
Theorem long_description_part pre body post :
  Forall (fun l => starts_with (lit "Main features:") l = false /\ starts_with (lit "#") l = false) pre ->
  Forall (fun l => starts_with (lit "#") l = false) body ->
  forall feat head, starts_with (lit "Main features:") feat = true -> starts_with (lit "Main features:") head = false -> starts_with (lit "#") head = true ->
  long_description false (pre ++ feat :: body ++ head :: post) = feat :: body.
Proof.
  intros Hpre Hbody feat head Hfeat Hh1 Hh2. induction Hpre as [|l pre [H1 H2] _ IH]; cbn [app long_description]; [| by rewrite H1, H2].
  rewrite Hfeat. f_equal. induction Hbody as [|l body Hl _ IH]; cbn [app long_description]; [by rewrite Hh1, Hh2 |].
  rewrite Hl, IH. by destruct (starts_with (lit "Main features:") l).
Qed.

End Version.
